(* ===== verification/_CoqProject ===== *)
-Q . S2P
Prelude.v
CString.v
Format.v
Ulib.v
Grep.v
Usr.v
Sh.v
ShRun.v
Umalloc.v
Kbd.v
Proc.v
Spinlock.v
Console.v
Bio.v
Dev.v
Ide.v
Mp.v
Boot.v
Log.v
Block.v
Fs.v
FsBlocks.v
FsFile.v
FsDir.v
FsPath.v
Mkfs.v
MkfsBoot.v
Kalloc.v
Vm.v
VmUser.v
Pipe.v
Kern.v
File.v
ProcSys.v
Exec.v
Syscall.v
Trap.v
Demo.v
Fds.v
SysSafe.v
Gate.v
Asm.v
Swtch.v
Start.v
Smp.v
