(* ===== verification/Prelude.v ===== *)
(** * A verification of xv6

    xv6 is a small Unix for the x86: a kernel in C and assembly, the user
    programs that run on it, and the tool that builds its disk.  This
    development models them as functions, with the sources' names, and proves
    what each component promises to the others.

    ** The system and the files

    Each file with the sources it models (under src/):

    - Prelude.v: machine integers as [Z] with explicit wrap-around, the
      outcome monad [M] with its program logic [wp], little-endian words in
      byte lists, the hint database and the tactics of the other files.
    - CString.v (string.c), Ulib.v (ulib.c), Format.v (printf.c and the
      printint of console.c): memory, strings and formatted output.
    - User programs: Grep.v (the matcher of grep.c), Usr.v (the other
      programs and grep's main), Sh.v and ShRun.v (sh.c: the parser, and the
      interpreter as a tree of system calls), Umalloc.v (umalloc.c).
    - Kbd.v (kbd.c, kbd.h): scan codes to characters.
    - Proc.v (proc.h, sleeplock.c, and from proc.c the table, sleep, wakeup,
      kill, yield and the scheduler's choice) and Spinlock.v (spinlock.c,
      mycpu and the checks of sched).
    - Console.v (console.c, the output side of uart.c).
    - Devices: Dev.v (x86.h, picirq.c, ioapic.c, lapic.c, uart.c), Ide.v
      (ide.c), Mp.v (mp.c), each over a device that is a parameter.
    - Bio.v (buf.h, bio.c, memide.c), Log.v (log.c), Block.v (the interface
      [BlockOps]/[BlockLaws] that fs.c uses, and the log as its instance).
    - Fs.v (fs.c, fs.h), with its theorems in FsBlocks.v (blocks and
      inodes), FsFile.v (contents), FsDir.v (directories) and FsPath.v (the
      path walk); Mkfs.v (mkfs.c), and MkfsBoot.v, where the kernel starts on
      the image mkfs has written.
    - Kalloc.v (kalloc.c, memlayout.h), Vm.v and VmUser.v (vm.c, mmu.h).
    - Pipe.v (pipe.c).
    - Kern.v puts the states together ([ker]) and runs a component's routine
      on its part; File.v (file.c), ProcSys.v (the rest of proc.c), Exec.v
      (exec.c), Syscall.v (syscall.c, sysproc.c, sysfile.c) and Trap.v
      (trap.c) are the upper half of the kernel on that state.
    - Fds.v and SysSafe.v: theorems about the upper half; Demo.v: the
      concrete kernel their examples run.
    - The processor: Gate.v (the descriptor tables of mmu.h, seginit, tvinit,
      switchuvm), Asm.v (vectors.pl, trapasm.S, usys.S, initcode.S, swtch.S
      on a machine with registers, stacks and gates) and Swtch.v (context
      switches and the first run of a process).
    - Starting: Boot.v (bootmain.c), Start.v (bootasm.S, entry.S,
      entryother.S, entrypgdir on a processor with its modes, segments and
      paging), Smp.v (startothers, mpenter and mpmain of main.c).

    ** How the code is modelled

    A routine that only computes is a function.  A routine with effects is a
    function [M S A := S -> outcome S A] of the state it owns: it returns,
    panics with the source's message, falls asleep on a channel, faults (a
    null or wild pointer), or runs out of fuel.  The components' states nest:
    the log's contains the cache's, which contains the process table; a
    routine of a part runs on the whole through [zoom].  Arrays and structs
    are lists and records; a pointer to a table entry is its index; physical
    memory is a function from addresses to bytes, and page tables, free lists
    and user memory live in it.  Integers are [Z], with [u32], [i32] and the
    like where C converts or wraps around.  Assembly is a list of
    instructions with a step function for the instructions that occur; where
    the linker puts it, and how long an instruction is, is a parameter.

    A critical section under a spin lock is one step.  Spinlock.v justifies
    this: it interleaves the CPUs at the atomic actions of acquire and
    release, under every schedule.  Where a routine gives up the CPU in the
    middle (pipes, the console, the disk, sleep(), iput's transactions) the
    model stops at that point with the state the others see; Pipe.v, Console.v
    and Ide.v also model how it goes on, and their theorems hold for every
    sequence of such pieces by different processes.

    A loop that is not structural has fuel: the number of buffers plus one
    for the cache's list, the bytes left for a copy or a string, the pages
    left for a range of addresses, the entries left for a directory, the
    path's length plus one for namex, the length of the line for the shell's
    parser, a bound the device gives for a status register that is polled.
    The theorems that a routine returns include that this is enough; the run
    of a shell command, of malloc and of startothers take a number of steps
    for which a bound is proved.  On the two machines a run is the closure of
    the step function, so its theorems say that the state is reached.

    ** What the theorems show

    - Storage: the cache returns the current contents of a block and never
      recycles a dirty or used buffer; the log makes a transaction atomic
      under crashes at every block write, of commit and of recovery; the disk
      driver serves requests in order and does what memide.c does; on any
      block layer with those laws, balloc, ialloc, iget, readi, writei,
      dirlookup, dirlink and namex do what their file-level meaning says and
      nothing else, within a bounded number of logged blocks; mkfs writes
      such a file system, and the kernel reads back the files mkfs was given.
    - Memory: kalloc and kfree are a stack of pages; mappages, allocuvm,
      freevm, copyout, growproc and wait lose no page, share none, and keep
      the bytes they should; malloc and free keep the blocks of a user
      program apart, and malloc fails only when sbrk does.
    - Processes and traps: a trap that returns or exits keeps the reference
      counts of files equal to the descriptors, and one that sleeps is off by
      at most one, for the file it is closing; no argument of a system call makes the kernel
      fault; a killed process does not get back to user space.  An interrupt
      is not noticed by the code it interrupts; a user program enters the
      kernel through the system call's gate only; swtch resumes the thread
      that called it, and a new process starts in its frame's user state.
    - Synchronisation: spin locks exclude, interrupts are off while they are
      held; pipes are FIFO queues without lost wakeups; the console is a line
      editor in front of a queue.
    - Starting: the boot block, bootmain, entry and entryother take a
      processor from real mode to C code with the kernel where it belongs;
      startothers starts every processor, which comes through entryother,
      mpenter and mpmain on a stack of its own.
    - User side: memmove, safestrcpy, printf and atoi; grep's matcher means
      the usual regular expressions; the shell parses what can be written in
      its syntax, and runs it with the descriptors the command says.

    Several theorems pin down what the code does where that is not what it
    means to do: the log's reservation is one block short, copyout faults
    where a page table is missing, a killed pipe writer loses a wakeup, kill
    of pid 0 marks a free slot, growproc to size zero fails after freeing,
    malloc of almost 2^32 bytes returns a block without room, mkfs counts a
    block too many for the root directory, mpinit loops on an unknown entry.

    ** Assumptions and limits

    The linker's symbols, the entry points in assembly and the bytes of
    initcode are the fields of [Symbols] and [KSymbols]; the keyboard, the
    serial port and cr2 are arguments of trap.  Devices are parameters with
    laws: the disk controller, the I/O APIC, the local APICs with the
    processors they start, the clock, the keyboard controller's address line;
    so are sbrk for malloc and the system calls for the user programs.  Each
    has an instance on which the theorems are run.

    ** Not modelled

    The TLB and caches; instruction bytes (the assembler is trusted).  main of
    main.c calls routines of all files in turn, each on a state of its own,
    and this sequence is not put together; wait of proc.c is one round of its
    loop, up to the sleep.  The kernel's
    memory in Asm.v is indexed by virtual address and not tied to the page
    tables of Vm.v.  A malloc that fails in the constructors of sh.c, the
    messages of mkfs and failures of its host calls.  The lines of bootasm.S
    and entryother.S after a call that does not return, the multiboot header,
    kernel.ld, sign.pl.  usertests.c, forktest.c and stressfs.c test the
    running system and have no meaning of their own to prove; the other files
    of src/ are declarations, build scripts and notes. *)

From stdpp Require Import base gmap list strings.
From Stdlib Require Import ZArith Lia.

Local Open Scope Z_scope.

(** ** Machine integers

    A C value of width [w] is a [Z]; conversions to a width are explicit.
    [uint], [ushort] and [uchar] are the ranges [0 .. 2^w - 1]; [int],
    [short] and [char] are two's complement. *)

Definition u32 (x : Z) : Z := x mod 4294967296.
Definition u16 (x : Z) : Z := x mod 65536.
Definition u8 (x : Z) : Z := x mod 256.

Definition i32 (x : Z) : Z :=
  if u32 x <? 2147483648 then u32 x else u32 x - 4294967296.
Definition i16 (x : Z) : Z :=
  if u16 x <? 32768 then u16 x else u16 x - 65536.
Definition i8 (x : Z) : Z :=
  if u8 x <? 128 then u8 x else u8 x - 256.

(** Turn boolean tests of the code into propositions and let [lia] finish. *)
Ltac zbool :=
  repeat match goal with
  | H : (_ <? _) = true |- _ => apply Z.ltb_lt in H
  | H : (_ <? _) = false |- _ => apply Z.ltb_ge in H
  | H : (_ <=? _) = true |- _ => apply Z.leb_le in H
  | H : (_ <=? _) = false |- _ => apply Z.leb_gt in H
  | H : (_ =? _) = true |- _ => apply Z.eqb_eq in H
  | H : (_ =? _) = false |- _ => apply Z.eqb_neq in H
  | H : (_ && _) = true |- _ => apply andb_true_iff in H as [? ?]
  | H : (_ && _) = false |- _ => apply andb_false_iff in H
  | H : (_ || _) = true |- _ => apply orb_true_iff in H
  | H : (_ || _) = false |- _ => apply orb_false_iff in H as [? ?]
  | H : negb _ = true |- _ => apply negb_true_iff in H
  | H : negb _ = false |- _ => apply negb_false_iff in H
  end.

(** Case analysis on the innermost boolean comparison of the goal. *)
Ltac zcase :=
  match goal with
  | |- context [?a <? ?b] => destruct (Z.ltb_spec a b)
  | |- context [?a <=? ?b] => destruct (Z.leb_spec a b)
  | |- context [?a =? ?b] => destruct (Z.eqb_spec a b)
  end.

(** [lia] for goals with division and remainder by constants. *)
Ltac zdiv := Z.div_mod_to_equations; lia.

Lemma u32_range x : 0 <= u32 x < 4294967296.
Proof. apply Z.mod_pos_bound. lia. Qed.

Lemma u32_le x : 0 <= x -> u32 x <= x.
Proof. intros. unfold u32. apply Z.mod_le; lia. Qed.

Lemma u32_small x : 0 <= x < 4294967296 -> u32 x = x.
Proof. apply Z.mod_small. Qed.

Lemma u32_idem x : u32 (u32 x) = u32 x.
Proof. apply u32_small, u32_range. Qed.

Lemma u32_add_l x y : u32 (u32 x + y) = u32 (x + y).
Proof. apply Z.add_mod_idemp_l. lia. Qed.

Lemma u32_sub_l x y : u32 (u32 x - y) = u32 (x - y).
Proof. apply Zminus_mod_idemp_l. Qed.

Lemma u32_sub_r x y : u32 (x - u32 y) = u32 (x - y).
Proof. apply Zminus_mod_idemp_r. Qed.

Lemma u32_add_r x y : u32 (x + u32 y) = u32 (x + y).
Proof. apply Z.add_mod_idemp_r. lia. Qed.

(** The overflow test [off + n < off] of unsigned additions. *)
Lemma u32_wraps off n :
  0 <= off < 2 ^ 32 -> 0 <= n < 2 ^ 32 -> (u32 (off + n) <? off) = (2 ^ 32 <=? off + n).
Proof.
  intros. unfold u32. destruct (Z.leb_spec (2 ^ 32) (off + n)); [apply Z.ltb_lt|apply Z.ltb_ge]; zdiv.
Qed.

Lemma i32_range x : -2147483648 <= i32 x < 2147483648.
Proof. unfold i32. pose proof (u32_range x). zcase; lia. Qed.

Lemma i32_small x : -2147483648 <= x < 2147483648 -> i32 x = x.
Proof. intros. unfold i32, u32. zcase; zdiv. Qed.

Lemma i32_u32 x : i32 (u32 x) = i32 x.
Proof. unfold i32. by rewrite !u32_idem. Qed.

Lemma u32_i32 x : u32 (i32 x) = u32 x.
Proof. unfold i32. zcase; unfold u32 in *; zdiv. Qed.

(** ** Effects

    A kernel routine runs on a state and either returns, panics (the
    kernel stops with a message), goes to sleep on a channel (the state at
    that moment is kept, the scheduler takes over), touches memory outside
    the objects it owns, or exhausts the fuel of a modelled loop. *)

(** Sleep channels: the addresses the sources pass to [sleep] and
    [wakeup].  Distinct objects have distinct addresses. *)
Inductive chan : Type :=
| ChBufLock (i : nat)     (* &bcache.buf[i].lock *)
| ChBuf (i : nat)         (* &bcache.buf[i] *)
| ChInodeLock (i : nat)   (* &icache.inode[i].lock *)
| ChLog                   (* &log *)
| ChPipeRead (p : Z)      (* &p->nread *)
| ChPipeWrite (p : Z)     (* &p->nwrite *)
| ChProc (i : nat)        (* &ptable.proc[i] *)
| ChTicks                 (* &ticks *)
| ChInput.                (* &input.r *)

#[export] Instance chan_eq_dec : EqDecision chan.
Proof. solve_decision. Defined.

Inductive outcome (S A : Type) : Type :=
| Ret (a : A) (s : S)
| Panic (msg : string)
| Asleep (ch : chan) (s : S)
| Fault
| NoFuel.
Arguments Ret {S A} a s.
Arguments Panic {S A} msg.
Arguments Asleep {S A} ch s.
Arguments Fault {S A}.
Arguments NoFuel {S A}.

Definition M (S A : Type) : Type := S -> outcome S A.

#[export] Instance M_ret S : MRet (M S) := fun A a s => Ret a s.
#[export] Instance M_bind S : MBind (M S) := fun A B f m s =>
  match m s with
  | Ret a s' => f a s'
  | Panic e => Panic e
  | Asleep c s' => Asleep c s'
  | Fault => Fault
  | NoFuel => NoFuel
  end.

Definition panic {S A} (msg : string) : M S A := fun _ => Panic msg.
Definition fault {S A} : M S A := fun _ => Fault.
Definition nofuel {S A} : M S A := fun _ => NoFuel.
Definition gets {S A} (f : S -> A) : M S A := fun s => Ret (f s) s.
Definition modify {S} (f : S -> S) : M S unit := fun s => Ret tt (f s).
Definition asleep {S A} (c : chan) : M S A := fun s => Asleep c s.

(** Dereference: a missing object is a fault. *)
Definition deref {S A} (f : S -> option A) : M S A := fun s =>
  match f s with Some a => Ret a s | None => Fault end.

(** Run a routine of an inner component on its part of a larger state. *)
Definition zoom {S T A} (get : S -> T) (set : T -> S -> S) (m : M T A) : M S A :=
  fun s => match m (get s) with
  | Ret a t => Ret a (set t s)
  | Panic e => Panic e
  | Asleep c t => Asleep c (set t s)
  | Fault => Fault
  | NoFuel => NoFuel
  end.

(** [for(j = i; j < i + k; j++) body(j)] *)
Fixpoint forM {St} (i k : nat) (body : nat -> M St unit) : M St unit :=
  match k with
  | O => mret tt
  | S k' => body i ;; forM (S i) k' body
  end.

(** Total correctness: the routine returns, and what it returns satisfies
    [Q].  Panics, faults, sleeping and running out of fuel are excluded. *)
Definition wp {S A} (m : M S A) (s : S) (Q : A -> S -> Prop) : Prop :=
  match m s with Ret a s' => Q a s' | _ => False end.

Section Wp.
Context {S A B : Type}.
Implicit Types (s : S) (m : M S A).

Lemma wp_intro m s a s' Q : m s = Ret a s' -> Q a s' -> wp m s Q.
Proof. unfold wp. by intros ->. Qed.

Lemma wp_elim m s Q : wp m s Q -> exists a s', m s = Ret a s' /\ Q a s'.
Proof. unfold wp. destruct (m s); naive_solver. Qed.

Lemma wp_bind m (f : A -> M S B) s Q :
  wp m s (fun a s' => wp (f a) s' Q) -> wp (mbind f m) s Q.
Proof. unfold wp, mbind, M_bind. by destruct (m s). Qed.

Lemma wp_mono m s (Q R : A -> S -> Prop) :
  wp m s Q -> (forall a s', Q a s' -> R a s') -> wp m s R.
Proof. unfold wp. destruct (m s); naive_solver. Qed.

Lemma wp_and m s (Q R : A -> S -> Prop) :
  wp m s Q -> wp m s R -> wp m s (fun a s' => Q a s' /\ R a s').
Proof. unfold wp. by destruct (m s). Qed.

Lemma wp_ret (a : A) s Q : Q a s -> wp (mret a) s Q.
Proof. done. Qed.

Lemma wp_gets (f : S -> A) s Q : Q (f s) s -> wp (gets f) s Q.
Proof. done. Qed.

Lemma wp_modify (f : S -> S) s (Q : unit -> S -> Prop) :
  Q tt (f s) -> wp (modify f) s Q.
Proof. done. Qed.

Lemma wp_deref (f : S -> option A) s a Q :
  f s = Some a -> Q a s -> wp (deref f) s Q.
Proof. unfold wp, deref. by intros ->. Qed.

Lemma wp_zoom {T} (get : S -> T) set (m : M T A) s Q :
  wp m (get s) (fun a t => Q a (set t s)) -> wp (zoom get set m) s Q.
Proof. unfold wp, zoom. by destruct (m (get s)). Qed.

Lemma bind_ret m (f : A -> M S B) s a s' :
  m s = Ret a s' -> mbind f m s = f a s'.
Proof. unfold mbind, M_bind. by intros ->. Qed.

Lemma bind_inv m (f : A -> M S B) s b s2 :
  mbind f m s = Ret b s2 -> exists a s1, m s = Ret a s1 /\ f a s1 = Ret b s2.
Proof. unfold mbind, M_bind. destruct (m s); naive_solver. Qed.

End Wp.

(** ** Lists *)

Lemma lookup_total_alter {A} `{!Inhabited A} (l : list A) f i j :
  alter f i l !!! j = if decide (i = j /\ (i < length l)%nat) then f (l !!! j) else l !!! j.
Proof.
  rewrite !list_lookup_total_alt.
  destruct (decide (i = j)) as [<-|Hne].
  - rewrite list_lookup_alter_eq. destruct (l !! i) eqn:E; simpl.
    + apply lookup_lt_Some in E. by rewrite decide_True.
    + apply lookup_ge_None in E. rewrite decide_False by lia. done.
  - rewrite list_lookup_alter_ne by done. rewrite decide_False by naive_solver. done.
Qed.

(** ** Byte arrays

    [get_le w d o] reads [w] bytes at offset [o], least significant first;
    [put_le w v d o] stores [v] there.  An array access outside the object
    reads the default and writes nothing; the lemmas ask for room. *)

Fixpoint get_le (w : nat) (d : list Z) (o : nat) : Z :=
  match w with
  | O => 0
  | S w' => d !!! o + 256 * get_le w' d (S o)
  end.

Fixpoint put_le (w : nat) (v : Z) (d : list Z) (o : nat) : list Z :=
  match w with
  | O => d
  | S w' => put_le w' (v / 256) (<[o := v mod 256]> d) (S o)
  end.

Definition byte_ok (b : Z) : Prop := 0 <= b < 256.

Lemma length_put_le w v d o : length (put_le w v d o) = length d.
Proof.
  revert v d o; induction w as [|w IH]; intros; simpl; [done|].
  by rewrite IH, length_insert.
Qed.

Lemma lookup_put_le_other w v d o i :
  (i < o \/ o + w <= i)%nat -> put_le w v d o !!! i = d !!! i.
Proof.
  revert v d o; induction w as [|w IH]; intros; simpl; [done|].
  rewrite IH by lia. apply list_lookup_total_insert_ne. lia.
Qed.

Lemma get_le_ext w d d' o o' :
  (forall i, (i < w)%nat -> d !!! (o + i)%nat = d' !!! (o' + i)%nat) ->
  get_le w d o = get_le w d' o'.
Proof.
  revert o o'; induction w as [|w IH]; intros o o' H; simpl; [done|].
  pose proof (H 0%nat ltac:(lia)) as H0. rewrite !Nat.add_0_r in H0.
  rewrite H0, (IH (S o) (S o')); [done|].
  intros i Hi. pose proof (H (S i) ltac:(lia)) as Hs.
  by rewrite !Nat.add_succ_r in Hs.
Qed.

Lemma get_put_le_other w w' v d o o' :
  (o' + w' <= o \/ o + w <= o')%nat ->
  get_le w' (put_le w v d o) o' = get_le w' d o'.
Proof. intros. apply get_le_ext. intros. apply lookup_put_le_other. lia. Qed.

Lemma get_put_le_same w v d o :
  (o + w <= length d)%nat ->
  get_le w (put_le w v d o) o = v mod 256 ^ Z.of_nat w.
Proof.
  revert v d o; induction w as [|w IH]; intros v d o Hlen.
  - simpl. by rewrite Z.mod_1_r.
  - cbn [get_le put_le].
    rewrite IH by (rewrite length_insert; lia).
    rewrite lookup_put_le_other by lia.
    rewrite list_lookup_total_insert_eq by lia.
    rewrite Nat2Z.inj_succ, Z.pow_succ_r by lia.
    rewrite Z.rem_mul_r by lia. lia.
Qed.

Lemma get_le_range w d o :
  Forall byte_ok d -> 0 <= get_le w d o < 256 ^ Z.of_nat w.
Proof.
  intros Hd. revert o; induction w as [|w IH]; intros o; [simpl; lia|].
  cbn [get_le]. rewrite Nat2Z.inj_succ, Z.pow_succ_r by lia.
  specialize (IH (S o)).
  assert (0 <= d !!! o < 256); [|lia].
  destruct (decide (o < length d)%nat) as [Ho|Ho].
  - apply list_lookup_lookup_total_lt in Ho. by apply (Forall_lookup_1 _ _ _ _ Hd Ho).
  - rewrite list_lookup_total_alt, lookup_ge_None_2 by lia. simpl. lia.
Qed.

Lemma put_le_byte_ok w v d o : Forall byte_ok d -> Forall byte_ok (put_le w v d o).
Proof.
  revert v d o; induction w as [|w IH]; intros v d o Hd; simpl; [done|].
  apply IH, Forall_insert; [done|]. unfold byte_ok. apply Z.mod_pos_bound. lia.
Qed.

(** [memmove(dst + o, src, n)] between distinct objects: the first bytes of
    [l] replace those of [d] from offset [o] on. *)
Fixpoint write_at (d : list Z) (o : nat) (l : list Z) : list Z :=
  match l with
  | [] => d
  | b :: l' => write_at (<[o := b]> d) (S o) l'
  end.

(** [memmove(dst, src + o, n)]. *)
Definition read_at (d : list Z) (o n : nat) : list Z := take n (drop o d).

Lemma length_write_at d o l : length (write_at d o l) = length d.
Proof.
  revert d o; induction l as [|b l IH]; intros; simpl; [done|].
  by rewrite IH, length_insert.
Qed.

Lemma lookup_write_at_other d o l i :
  (i < o \/ o + length l <= i)%nat -> write_at d o l !! i = d !! i.
Proof.
  revert d o; induction l as [|b l IH]; intros d o Hi; simpl in *; [done|].
  rewrite IH by lia. apply list_lookup_insert_ne. lia.
Qed.

Lemma lookup_write_at_in d o l i :
  (o + length l <= length d)%nat -> (i < length l)%nat ->
  write_at d o l !! (o + i)%nat = l !! i.
Proof.
  revert d o i; induction l as [|b l IH]; intros d o i Hd Hi; simpl in *; [lia|].
  destruct i as [|i].
  - rewrite Nat.add_0_r, lookup_write_at_other by lia.
    rewrite list_lookup_insert_eq by lia. done.
  - replace (o + S i)%nat with (S o + i)%nat by lia.
    rewrite IH by (rewrite ?length_insert; lia). done.
Qed.

Lemma read_write_at_same d o l :
  (o + length l <= length d)%nat -> read_at (write_at d o l) o (length l) = l.
Proof.
  intros Hd. apply list_eq. intros i. unfold read_at.
  destruct (decide (i < length l)%nat).
  - rewrite lookup_take_lt, lookup_drop by lia. by apply lookup_write_at_in.
  - rewrite !lookup_ge_None_2; [done|lia|].
    rewrite length_take. lia.
Qed.

Lemma length_read_at d o n :
  (o + n <= length d)%nat -> length (read_at d o n) = n.
Proof. intros. unfold read_at. rewrite length_take, length_drop. lia. Qed.

Lemma write_at_byte_ok d o l :
  Forall byte_ok d -> Forall byte_ok l -> Forall byte_ok (write_at d o l).
Proof.
  revert d o; induction l as [|b l IH]; intros d o Hd Hl; simpl; [done|].
  inversion Hl; subst. apply IH; [|done]. by apply Forall_insert.
Qed.

(** ** Automation

    [xv6] holds the length and frame lemmas of the arrays; [wp_step] runs
    one effect of a routine in a total-correctness goal. *)

Create HintDb xv6.
#[export] Hint Rewrite @length_insert length_put_le length_write_at
  @length_replicate @length_app : xv6.
#[export] Hint Resolve put_le_byte_ok write_at_byte_ok : xv6.

(** Literal byte arrays. *)
Ltac solve_bytes :=
  repeat (apply Forall_cons_2; [unfold byte_ok; lia|]); apply Forall_nil_2.

Ltac len := autorewrite with xv6; try lia.

Ltac wp_step :=
  match goal with
  | |- wp (mbind _ _) _ _ => apply wp_bind
  | |- wp (mret _) _ _ => apply wp_ret
  | |- wp (gets _) _ _ => apply wp_gets; cbv beta
  | |- wp (modify _) _ _ => apply wp_modify; cbv beta
  | |- wp (zoom _ _ _) _ _ => apply wp_zoom
  end.
Ltac wp_steps := repeat wp_step.
