(* ===== verification/CString.v ===== *)
(** * Memory and string routines: string.c

    Memory is a function from addresses to bytes.  The writing routines
    ([memset], [memmove], [strncpy], [safestrcpy]) are loops over such a
    memory; the reading routines ([memcmp], [strncmp], [strlen]) take a
    pointer as the function that gives the byte at each offset from it, so
    that they apply to memory, to directory entries and to literals alike.  The theorems give each loop
    its closed form. *)

From stdpp Require Import base list.
From Stdlib Require Import ZArith Lia.
From S2P Require Import Prelude.

Local Open Scope Z_scope.

Definition mem := Z -> Z.

Definition st (m : mem) (a v : Z) : mem := fun x => if x =? a then u8 v else m x.

(** A pointer into memory, and a pointer to a nul-terminated literal. *)
Definition ptr (m : mem) (a : Z) : Z -> Z := fun i => m (a + i).
Definition lit (l : list Z) : Z -> Z := fun i => default 0 (l !! Z.to_nat i).

(** ** x86.h: rep stosb and rep stosl *)

Fixpoint stosb (m : mem) (addr data : Z) (cnt : nat) : mem :=
  match cnt with
  | O => m
  | S c => stosb (st m addr data) (addr + 1) data c
  end.

Definition st32 (m : mem) (a v : Z) : mem :=
  st (st (st (st m a v) (a + 1) (Z.shiftr v 8)) (a + 2) (Z.shiftr v 16))
     (a + 3) (Z.shiftr v 24).

Fixpoint stosl (m : mem) (addr data : Z) (cnt : nat) : mem :=
  match cnt with
  | O => m
  | S c => stosl (st32 m addr data) (addr + 4) data c
  end.

(** ** string.c *)

Definition memset (m : mem) (dst c n : Z) : mem :=
  if (Z.rem (i32 dst) 4 =? 0) && (n mod 4 =? 0) then
    let c := Z.land c 255 in
    stosl m dst (Z.lor (Z.lor (Z.lor (Z.shiftl c 24) (Z.shiftl c 16)) (Z.shiftl c 8)) c)
      (Z.to_nat (n / 4))
  else stosb m dst c (Z.to_nat n).

Fixpoint memcmp (s1 s2 : Z -> Z) (n : nat) : Z :=
  match n with
  | O => 0
  | S n' =>
    if negb (s1 0 =? s2 0) then s1 0 - s2 0
    else memcmp (fun i => s1 (i + 1)) (fun i => s2 (i + 1)) n'
  end.

Fixpoint copy_up (m : mem) (d s : Z) (n : nat) : mem :=
  match n with
  | O => m
  | S n' => copy_up (st m d (m s)) (d + 1) (s + 1) n'
  end.

Fixpoint copy_down (m : mem) (d s : Z) (n : nat) : mem :=
  match n with
  | O => m
  | S n' => copy_down (st m (d - 1) (m (s - 1))) (d - 1) (s - 1) n'
  end.

Definition memmove (m : mem) (dst src : Z) (n : Z) : mem :=
  let s := src in
  let d := dst in
  if (s <? d) && (d <? s + n) then copy_down m (d + n) (s + n) (Z.to_nat n)
  else copy_up m d s (Z.to_nat n).

Definition memcpy (m : mem) (dst src n : Z) : mem := memmove m dst src n.

Fixpoint strncmp (p q : Z -> Z) (n : nat) : Z :=
  match n with
  | O => 0
  | S n' =>
    if negb (p 0 =? 0) && (p 0 =? q 0)
    then strncmp (fun i => p (i + 1)) (fun i => q (i + 1)) n'
    else u8 (p 0) - u8 (q 0)
  end.

(** The tail loop of [strncpy]: [while(n-- > 0) *s++ = 0]. *)
Fixpoint zfill (m : mem) (s : Z) (n : nat) : mem :=
  match n with
  | O => m
  | S n' => zfill (st m s 0) (s + 1) n'
  end.

Fixpoint strncpy (m : mem) (s t : Z) (n : nat) : mem :=
  match n with
  | O => m
  | S n' =>
    let c := m t in
    let m' := st m s c in
    if c =? 0 then zfill m' (s + 1) n' else strncpy m' (s + 1) (t + 1) n'
  end.

(** [k] counts the iterations left, [--n] having been taken. *)
Fixpoint safestrcpy_loop (m : mem) (s t : Z) (k : nat) : mem :=
  match k with
  | O => st m s 0
  | S k' =>
    let c := m t in
    let m' := st m s c in
    if c =? 0 then st m' (s + 1) 0 else safestrcpy_loop m' (s + 1) (t + 1) k'
  end.

Definition safestrcpy (m : mem) (s t n : Z) : mem :=
  if n <=? 0 then m else safestrcpy_loop m s t (Z.to_nat (n - 1)).

Fixpoint strlen_loop (s : Z -> Z) (n : Z) (fuel : nat) : option Z :=
  match fuel with
  | O => None
  | S f => if s n =? 0 then Some n else strlen_loop s (n + 1) f
  end.

Definition strlen (s : Z -> Z) (fuel : nat) : option Z := strlen_loop s 0 fuel.

(** ** Closed forms *)

Section Fill.
Implicit Types (m : mem) (a x : Z).

Lemma st_eq m a v : st m a v a = u8 v.
Proof. unfold st. by rewrite Z.eqb_refl. Qed.

Lemma st_ne m a v x : x <> a -> st m a v x = m x.
Proof. unfold st. intros. by destruct (Z.eqb_spec x a). Qed.

Lemma u8_small v : byte_ok v -> u8 v = v.
Proof. apply Z.mod_small. Qed.

Lemma st_bytes m a v : (forall x, byte_ok (m x)) -> forall x, byte_ok (st m a v x).
Proof. intros H x. unfold st. zcase; [apply Z.mod_pos_bound; lia | apply H]. Qed.

Lemma stosb_spec m a c n x :
  stosb m a c n x = if (a <=? x) && (x <? a + Z.of_nat n) then u8 c else m x.
Proof.
  revert m a; induction n as [|n IH]; intros m a; cbn [stosb].
  - zcase; zcase; simpl; lia || done.
  - rewrite IH. unfold st.
    repeat (zcase; simpl); try done; lia.
Qed.

Lemma zfill_spec m a n x :
  zfill m a n x = if (a <=? x) && (x <? a + Z.of_nat n) then 0 else m x.
Proof.
  revert m a; induction n as [|n IH]; intros m a; cbn [zfill].
  - zcase; zcase; simpl; lia || done.
  - rewrite IH. unfold st. repeat (zcase; simpl); try done; lia.
Qed.

(** The word that [memset] replicates has [c] in each of its four bytes. *)
Lemma fill_word c (k : Z) :
  k = 0 \/ k = 8 \/ k = 16 \/ k = 24 ->
  u8 (Z.shiftr (Z.lor (Z.lor (Z.lor (Z.shiftl (Z.land c 255) 24)
    (Z.shiftl (Z.land c 255) 16)) (Z.shiftl (Z.land c 255) 8)) (Z.land c 255)) k)
  = u8 c.
Proof.
  intros Hk. unfold u8. change 256 with (2 ^ 8).
  rewrite <- !(Z.land_ones _ 8) by lia. change 255 with (Z.ones 8).
  apply Z.bits_inj'. intros i Hi.
  rewrite !Z.land_spec, Z.shiftr_spec, !Z.lor_spec, !Z.shiftl_spec by lia.
  destruct (decide (i < 8)) as [Hlt|Hge].
  - rewrite (Z.ones_spec_low 8 i), !andb_true_r by lia.
    rewrite !Z.land_spec.
    assert (Hin : forall j, 0 <= j < 8 -> Z.testbit (Z.ones 8) j = true)
      by (intros; apply Z.ones_spec_low; lia).
    assert (Hout : forall j, j < 0 \/ 8 <= j -> Z.testbit (Z.ones 8) j = false).
    { intros j [Hj|Hj]; [by apply Z.testbit_neg_r | apply Z.ones_spec_high; lia]. }
    destruct Hk as [-> | [-> | [-> | ->]]].
    + rewrite Z.add_0_r, (Hin i), !(Hout (i - _)), !andb_false_r, andb_true_r by lia.
      done.
    + rewrite (Hout (i + 8)), (Hin (i + 8 - 8)), !(Hout (i + 8 - _)),
        !andb_false_r, andb_true_r by lia.
      rewrite !orb_false_r. simpl. f_equal. lia.
    + rewrite (Hout (i + 16)), (Hin (i + 16 - 16)), !(Hout (i + 16 - _)),
        !andb_false_r, andb_true_r by lia.
      rewrite !orb_false_r. simpl. f_equal. lia.
    + rewrite (Hout (i + 24)), (Hin (i + 24 - 24)), !(Hout (i + 24 - _)),
        !andb_false_r, andb_true_r by lia.
      rewrite !orb_false_r. f_equal. lia.
  - rewrite (Z.ones_spec_high 8 i), !andb_false_r by lia. done.
Qed.

Lemma stosl_spec m a w c n x :
  (forall k, k = 0 \/ k = 8 \/ k = 16 \/ k = 24 -> u8 (Z.shiftr w k) = u8 c) ->
  stosl m a w n x = if (a <=? x) && (x <? a + 4 * Z.of_nat n) then u8 c else m x.
Proof.
  intros Hw.
  pose proof (Hw 0 ltac:(lia)) as H0. rewrite Z.shiftr_0_r in H0.
  pose proof (Hw 8 ltac:(lia)) as H8. pose proof (Hw 16 ltac:(lia)) as H16.
  pose proof (Hw 24 ltac:(lia)) as H24.
  revert m a; induction n as [|n IH]; intros m a; cbn [stosl].
  - zcase; zcase; simpl; lia || done.
  - rewrite IH. unfold st32, st. rewrite H0, H8, H16, H24.
    repeat (zcase; simpl); try done; lia.
Qed.

End Fill.

Section Copy.
Implicit Types (m : mem).

(** Copying up is right when the destination does not start inside the part
    of the source that is still to be read. *)
Lemma copy_up_spec m d s n x :
  (forall a, byte_ok (m a)) ->
  d <= s \/ s + Z.of_nat n <= d ->
  copy_up m d s n x =
    if (d <=? x) && (x <? d + Z.of_nat n) then m (s + (x - d)) else m x.
Proof.
  revert m d s; induction n as [|n IH]; intros m d s Hm Hds; cbn [copy_up].
  - zcase; zcase; simpl; lia || done.
  - rewrite IH by (try lia; by apply st_bytes).
    unfold st. rewrite (u8_small (m s)) by apply Hm.
    repeat (zcase; simpl); try done; try lia; f_equal; lia.
Qed.

Lemma copy_down_spec m d s n x :
  (forall a, byte_ok (m a)) ->
  s <= d \/ d + Z.of_nat n <= s ->
  copy_down m (d + Z.of_nat n) (s + Z.of_nat n) n x =
    if (d <=? x) && (x <? d + Z.of_nat n) then m (s + (x - d)) else m x.
Proof.
  revert m; induction n as [|n IH]; intros m Hm Hds; cbn [copy_down].
  - zcase; zcase; simpl; lia || done.
  - replace (d + Z.of_nat (S n) - 1) with (d + Z.of_nat n) by lia.
    replace (s + Z.of_nat (S n) - 1) with (s + Z.of_nat n) by lia.
    rewrite IH by (try lia; by apply st_bytes).
    unfold st. rewrite (u8_small (m (s + _))) by apply Hm.
    repeat (zcase; simpl); try done; try lia; f_equal; lia.
Qed.

End Copy.

(** ** C strings

    [cstr p n] is the string that an [n]-byte array holds: the bytes before
    the first nul, all [n] of them when there is none. *)
Fixpoint cstr (p : Z -> Z) (n : nat) : list Z :=
  match n with
  | O => []
  | S n' => if p 0 =? 0 then [] else p 0 :: cstr (fun i => p (i + 1)) n'
  end.

Lemma cstr_ext p q n :
  (forall i, 0 <= i < Z.of_nat n -> p i = q i) -> cstr p n = cstr q n.
Proof.
  revert p q; induction n as [|n IH]; intros p q H; simpl; [done|].
  rewrite (H 0) by lia. zcase; [done|]. f_equal. apply IH. intros. apply H. lia.
Qed.

Lemma strncmp_zero p q n :
  (forall i, byte_ok (p i)) -> (forall i, byte_ok (q i)) ->
  strncmp p q n = 0 <-> cstr p n = cstr q n.
Proof.
  revert p q; induction n as [|n IH]; intros p q Hp Hq; simpl; [done|].
  rewrite !u8_small by auto.
  destruct (Z.eqb_spec (p 0) 0) as [Hz|Hz]; simpl.
  - destruct (Z.eqb_spec (q 0) 0); split; (done || lia).
  - destruct (Z.eqb_spec (p 0) (q 0)) as [He|He].
    + rewrite IH by auto. destruct (Z.eqb_spec (q 0) 0); [lia|].
      split; [congruence|]. by intros [= _ ?].
    + split; [lia|]. destruct (Z.eqb_spec (q 0) 0); [done|].
      intros [= ?]. lia.
Qed.

Lemma memcmp_zero p q n :
  memcmp p q n = 0 <-> forall i, 0 <= i < Z.of_nat n -> p i = q i.
Proof.
  revert p q; induction n as [|n IH]; intros p q; cbn [memcmp].
  - split; [lia|done].
  - zcase; simpl.
    + rewrite IH. split.
      * intros H i Hi. destruct (decide (i = 0)) as [->|]; [done|].
        specialize (H (i - 1)). simpl in H.
        replace (i - 1 + 1) with i in H by lia. apply H. lia.
      * intros H i Hi. apply H. lia.
    + split; [lia|]. intros H. specialize (H 0). lia.
Qed.

(** ** What the writing string routines leave behind *)

Lemma strncpy_frame m s t n x :
  x < s \/ s + Z.of_nat n <= x -> strncpy m s t n x = m x.
Proof.
  revert m s t; induction n as [|n IH]; intros m s t Hx; cbn [strncpy]; [done|].
  zcase.
  - rewrite zfill_spec. repeat (zcase; simpl); try lia. all: apply st_ne; lia.
  - rewrite IH by lia. apply st_ne. lia.
Qed.

Lemma cstr_cons p n :
  p 0 <> 0 -> cstr p (S n) = p 0 :: cstr (fun i => p (i + 1)) n.
Proof. simpl. by destruct (Z.eqb_spec (p 0) 0). Qed.

Lemma strncpy_bytes m s t n a :
  (forall a, byte_ok (m a)) -> byte_ok (strncpy m s t n a).
Proof.
  revert m s t; induction n as [|n IH]; intros m s t Hm; cbn [strncpy]; [done|].
  zcase; [|by apply IH, st_bytes].
  rewrite zfill_spec. destruct (_ && _); [unfold byte_ok; lia|by apply st_bytes].
Qed.

Lemma cstr_nil p n : p 0 = 0 -> cstr p n = [].
Proof. destruct n; simpl; [done|]. by intros ->. Qed.

Lemma strncpy_cstr m s t n :
  (forall a, byte_ok (m a)) ->
  t + Z.of_nat n <= s \/ s + Z.of_nat n <= t ->
  cstr (ptr (strncpy m s t n) s) n = cstr (ptr m t) n.
Proof.
  revert m s t; induction n as [|n IH]; intros m s t Hm Hst; [done|].
  cbn [strncpy]. destruct (Z.eqb_spec (m t) 0) as [Hz|Hz].
  - rewrite !cstr_nil; unfold ptr; rewrite ?Z.add_0_r; [done..|].
    rewrite zfill_spec, (proj2 (Z.leb_gt _ _)) by lia. cbn [andb].
    by rewrite st_eq, Hz.
  - rewrite !cstr_cons.
    + f_equal.
      * unfold ptr. rewrite !Z.add_0_r, strncpy_frame by lia.
        rewrite st_eq. apply u8_small, Hm.
      * rewrite (cstr_ext (fun i => ptr m t (i + 1)) (ptr (st m s (m t)) (t + 1))).
        -- rewrite <- (IH (st m s (m t)) (s + 1) (t + 1)); [| |lia].
           ++ apply cstr_ext. intros. unfold ptr. f_equal. lia.
           ++ by apply st_bytes.
        -- intros i Hi. unfold ptr. rewrite st_ne by lia. f_equal. lia.
    + unfold ptr. by rewrite Z.add_0_r.
    + unfold ptr. rewrite Z.add_0_r, strncpy_frame, st_eq, u8_small by (lia || apply Hm).
      done.
Qed.

(** The [n] bytes strncpy stores: the string, padded with zeros. *)
Definition strncpy_out (t : Z -> Z) (n : nat) : list Z :=
  cstr t n ++ replicate (n - length (cstr t n)) 0.

Lemma length_cstr p n : (length (cstr p n) <= n)%nat.
Proof.
  revert p; induction n as [|n IH]; intros p; simpl; [lia|]. zcase; simpl; [lia|].
  specialize (IH (fun i => p (i + 1))). lia.
Qed.

Lemma length_strncpy_out p n : length (strncpy_out p n) = n.
Proof.
  unfold strncpy_out. rewrite length_app, length_replicate. pose proof (length_cstr p n). lia.
Qed.

Lemma strncpy_stores m s t n i :
  (forall a, byte_ok (m a)) -> t + Z.of_nat n <= s \/ s + Z.of_nat n <= t -> (i < n)%nat ->
  strncpy m s t n (s + Z.of_nat i) = strncpy_out (ptr m t) n !!! i.
Proof.
  unfold strncpy_out. revert m s t i; induction n as [|n IH]; intros m s t i Hm Hst Hi; [lia|].
  cbn [strncpy cstr]. unfold ptr at 1 2 4. rewrite Z.add_0_r.
  destruct (Z.eqb_spec (m t) 0) as [Hz|Hz].
  - rewrite app_nil_l, list_lookup_total_alt, lookup_replicate_2 by (cbn [length]; lia). cbn [default].
    rewrite zfill_spec. destruct i as [|i].
    + rewrite (proj2 (Z.leb_gt _ _)) by lia. simpl. rewrite Z.add_0_r, st_eq, Hz. done.
    + rewrite (proj2 (Z.leb_le _ _)), (proj2 (Z.ltb_lt _ _)) by lia. done.
  - destruct i as [|i].
    + rewrite Z.add_0_r, strncpy_frame, st_eq, u8_small by (lia || apply Hm).
      done.
    + replace (s + Z.of_nat (S i)) with (s + 1 + Z.of_nat i) by lia.
      rewrite IH; [|by apply st_bytes|lia|lia].
      rewrite (cstr_ext (ptr (st m s (m t)) (t + 1)) (fun i => ptr m t (i + 1))).
      * done.
      * intros k Hk. unfold ptr. rewrite st_ne by lia. f_equal. lia.
Qed.

Lemma safestrcpy_loop_frame m s t k x :
  x < s \/ s + Z.of_nat (S k) <= x -> safestrcpy_loop m s t k x = m x.
Proof.
  revert m s t; induction k as [|k IH]; intros m s t Hx; cbn [safestrcpy_loop].
  - apply st_ne. lia.
  - zcase; [|rewrite IH by lia]; rewrite ?st_ne by lia; done.
Qed.

Lemma safestrcpy_loop_cstr m s t k :
  (forall a, byte_ok (m a)) ->
  t + Z.of_nat k <= s \/ s + Z.of_nat (S k) <= t ->
  cstr (ptr (safestrcpy_loop m s t k) s) (S k) = cstr (ptr m t) k.
Proof.
  revert m s t; induction k as [|k IH]; intros m s t Hm Hst; cbn [safestrcpy_loop].
  - cbn [cstr]. unfold ptr. rewrite Z.add_0_r, st_eq. done.
  - destruct (Z.eqb_spec (m t) 0) as [Hz|Hz].
    + rewrite !cstr_nil; unfold ptr; rewrite ?Z.add_0_r; [done..|].
      by rewrite st_ne, st_eq, Hz by lia.
    + rewrite !(cstr_cons (ptr _ _)).
      * f_equal.
        -- unfold ptr. rewrite !Z.add_0_r, safestrcpy_loop_frame by lia.
           rewrite st_eq. apply u8_small, Hm.
        -- rewrite (cstr_ext (fun i => ptr m t (i + 1)) (ptr (st m s (m t)) (t + 1))).
           ++ rewrite <- (IH (st m s (m t)) (s + 1) (t + 1)); [| |lia].
              ** apply cstr_ext. intros. unfold ptr. f_equal. lia.
              ** by apply st_bytes.
           ++ intros i Hi. unfold ptr. rewrite st_ne by lia. f_equal. lia.
      * unfold ptr. by rewrite Z.add_0_r.
      * unfold ptr. rewrite Z.add_0_r, safestrcpy_loop_frame, st_eq, u8_small
          by (lia || apply Hm). done.
Qed.

(** ** Properties *)

(** [memmove] copies the [n] source bytes as they were before the call,
    whatever way source and destination overlap, and changes nothing else. *)
Theorem memmove_correct (m : mem) (dst src n : Z) :
  (forall a, byte_ok (m a)) -> 0 <= n ->
  forall x, memmove m dst src n x =
    if (dst <=? x) && (x <? dst + n) then m (src + (x - dst)) else m x.
Proof.
  intros Hm Hn x. unfold memmove.
  pose proof (Z2Nat.id n Hn) as Hid.
  destruct ((src <? dst) && (dst <? src + n)) eqn:E; zbool.
  - rewrite <- Hid at 1 2 4. apply copy_down_spec; [done|lia].
  - rewrite <- Hid at 2. apply copy_up_spec; [done|lia].
Qed.

(** [memset] sets exactly the [n] bytes from [dst] on to the low byte of
    [c]: the word-at-a-time branch (aligned, multiple of four) agrees with
    the byte-at-a-time one. *)
Theorem memset_correct (m : mem) (dst c n : Z) :
  0 <= n ->
  forall x, memset m dst c n x =
    if (dst <=? x) && (x <? dst + n) then u8 c else m x.
Proof.
  intros Hn x. unfold memset.
  destruct ((_ =? 0) && (_ =? 0)) eqn:E; zbool.
  - cbv zeta. erewrite stosl_spec by apply fill_word.
    replace (4 * Z.of_nat (Z.to_nat (n / 4))) with n by zdiv. done.
  - rewrite stosb_spec, Z2Nat.id by lia. done.
Qed.

(** [strncpy] and [strncmp] agree on what a bounded string is: after
    [strncpy(s, t, n)] with disjoint arrays, [strncmp(s, u, n)] is zero for
    exactly the strings [u] that equal [t] up to [n] bytes. *)
Theorem strncpy_strncmp (m : mem) (s t n : Z) (u : Z -> Z) :
  (forall a, byte_ok (m a)) -> (forall i, byte_ok (u i)) ->
  t + n <= s \/ s + n <= t -> 0 <= n ->
  let m' := strncpy m s t (Z.to_nat n) in
  strncmp (ptr m' s) u (Z.to_nat n) = 0 <->
  cstr (ptr m t) (Z.to_nat n) = cstr u (Z.to_nat n).
Proof.
  intros Hm Hu Hst Hn m'. subst m'.
  rewrite strncmp_zero, strncpy_cstr; [done|done|lia| |done].
  intros i. by apply strncpy_bytes.
Qed.

(** [safestrcpy] with [n > 0] always leaves a nul-terminated string: the
    destination holds the first [n-1] bytes of the source string, and no byte
    outside the [n]-byte destination changes. *)
Theorem safestrcpy_correct (m : mem) (s t n : Z) :
  (forall a, byte_ok (m a)) -> 0 < n -> t + n <= s \/ s + n <= t ->
  let m' := safestrcpy m s t n in
  cstr (ptr m' s) (Z.to_nat n) = cstr (ptr m t) (Z.to_nat (n - 1)) /\
  (forall x, x < s \/ s + n <= x -> m' x = m x).
Proof.
  intros Hm Hn Hst m'. subst m'. unfold safestrcpy.
  rewrite (proj2 (Z.leb_gt _ _)) by lia.
  replace (Z.to_nat n) with (S (Z.to_nat (n - 1))) by lia. split.
  - apply safestrcpy_loop_cstr; [done|lia].
  - intros x Hx. apply safestrcpy_loop_frame. lia.
Qed.

(** ** Witnesses *)

Definition demo_mem : mem := fun a => if (0 <=? a) && (a <? 200) then a else 0.

Lemma demo_mem_bytes a : byte_ok (demo_mem a).
Proof. unfold demo_mem, byte_ok. repeat (zcase; simpl); lia. Qed.

Lemma memmove_correct_witness :
  memmove demo_mem 12 10 5 14 = 12 /\ memmove demo_mem 12 10 5 17 = 17.
Proof.
  split; rewrite (memmove_correct demo_mem 12 10 5 demo_mem_bytes ltac:(lia));
    reflexivity.
Defined.

Lemma memset_correct_witness : memset demo_mem 8 511 4 11 = 255.
Proof. rewrite (memset_correct demo_mem 8 511 4 ltac:(lia)). reflexivity. Defined.

Lemma lit_bytes l : Forall byte_ok l -> forall i, byte_ok (lit l i).
Proof.
  intros Hl i. unfold lit.
  destruct (l !! Z.to_nat i) eqn:E; simpl.
  - by apply (Forall_lookup_1 _ _ _ _ Hl E).
  - unfold byte_ok. lia.
Qed.

Lemma strncpy_strncmp_witness :
  strncmp (ptr (strncpy demo_mem 300 97 3) 300) (lit [97; 98; 99]) 3 = 0.
Proof.
  apply (strncpy_strncmp demo_mem 300 97 3 (lit [97; 98; 99]) demo_mem_bytes).
  - apply lit_bytes. solve_bytes.
  - lia.
  - lia.
  - reflexivity.
Defined.

Lemma safestrcpy_correct_witness :
  cstr (ptr (safestrcpy demo_mem 300 97 4) 300) (Z.to_nat 4) = [97; 98; 99].
Proof.
  exact (proj1 (safestrcpy_correct demo_mem 300 97 4 demo_mem_bytes
    ltac:(lia) ltac:(lia))).
Defined.
