(* ===== verification/Format.v ===== *)
(** * Formatted output: printint of console.c and printf.c, printf.c

    The two printint routines share their digit loop and differ in the
    digits' case; what they print is the list of characters in the order of
    their putc calls.  The 16-byte buffer is explicit: a store outside it is
    [None], and [printint_ok] shows that it does not happen and that the
    digits are the number's numeral.  printf is the whole directive
    interpreter of the user library. *)

From stdpp Require Import base list.
From Stdlib Require Import ZArith Lia.
From S2P Require Import Prelude.

Local Open Scope Z_scope.

(** "0123456789abcdef" and "0123456789ABCDEF" *)
Definition kdigits : list Z := [48;49;50;51;52;53;54;55;56;57;97;98;99;100;101;102].
Definition udigits : list Z := [48;49;50;51;52;53;54;55;56;57;65;66;67;68;69;70].

(** [buf[i++] = c] *)
Definition push (c : Z) (b : nat * list Z) : option (nat * list Z) :=
  if (b.1 <? length b.2)%nat then Some (S b.1, <[b.1 := c]> b.2) else None.

(** [do{ buf[i++] = digits[x % base]; }while((x /= base) != 0)] *)
Fixpoint digits_loop (ds : list Z) (base x : Z) (b : nat * list Z) (fuel : nat) : option (nat * list Z) :=
  match fuel with
  | O => None
  | S f =>
    d ← ds !! Z.to_nat (x mod base);
    b' ← push d b;
    if x / base =? 0 then Some b' else digits_loop ds base (x / base) b' f
  end.

(** The characters printint hands to putc, last one of the buffer first. *)
Definition printint (ds : list Z) (xx base : Z) (sgn : bool) : option (list Z) :=
  let neg := sgn && (xx <? 0) in
  let x := if neg then u32 (- xx) else u32 xx in
  b ← digits_loop ds base x (0%nat, replicate 16 0) 32;
  b ← (if neg then push 45 b else Some b);
  Some (reverse (take b.1 b.2)).

(** console.c prints lower case, printf.c upper case. *)
Definition kprintint : Z -> Z -> bool -> option (list Z) := printint kdigits.
Definition uprintint : Z -> Z -> bool -> option (list Z) := printint udigits.

(** A variable argument: a word, or a pointer to a string ([None] is null;
    the list is the string up to its nul). *)
Inductive varg : Type :=
| AWord (w : Z)
| AStr (s : option (list Z)).

(** "(null)" *)
Definition null_str : list Z := [40;110;117;108;108;41].

(** printf's loop from a character on: [state] is whether a '%' has been
    seen.  A missing or ill-typed argument is [None]. *)
Fixpoint printf_loop (fmt : list Z) (state : bool) (ap : list varg) : option (list Z) :=
  match fmt with
  | [] => Some []
  | f :: fmt' =>
    if f =? 0 then Some [] else
    let c := Z.land f 255 in
    if negb state then
      if c =? 37 then printf_loop fmt' true ap
      else r ← printf_loop fmt' false ap; Some (c :: r)
    else if c =? 100 then
      match ap with
      | AWord w :: ap' =>
        o ← uprintint (i32 w) 10 true; r ← printf_loop fmt' false ap'; Some (o ++ r)
      | _ => None
      end
    else if (c =? 120) || (c =? 112) then
      match ap with
      | AWord w :: ap' =>
        o ← uprintint (i32 w) 16 false; r ← printf_loop fmt' false ap'; Some (o ++ r)
      | _ => None
      end
    else if c =? 115 then
      match ap with
      | AStr s :: ap' => r ← printf_loop fmt' false ap'; Some (default null_str s ++ r)
      | _ => None
      end
    else if c =? 99 then
      match ap with
      | AWord w :: ap' => r ← printf_loop fmt' false ap'; Some (u8 w :: r)
      | _ => None
      end
    else if c =? 37 then r ← printf_loop fmt' false ap; Some (c :: r)
    else r ← printf_loop fmt' false ap; Some (37 :: c :: r)
  end.

(** printf(fd, fmt, ...): the bytes written to [fd]. *)
Definition printf (fmt : list Z) (ap : list varg) : option (list Z) := printf_loop fmt false ap.

(** ** Numerals *)

(** The value of a sequence of digits, most significant first. *)
Definition value (base : Z) (l : list Z) : Z := fold_left (fun a d => a * base + d) l 0.

(** [l] is the numeral of [x]: digits in range, no leading zero. *)
Record numeral (base x : Z) (l : list Z) : Prop := mknumeral {
  nu_digits : Forall (fun d => 0 <= d < base) l;
  nu_value : value base l = x;
  nu_head : l = [0] \/ exists d l', l = d :: l' /\ d <> 0 }.

(** The digits of [x], least significant first: the order of the loop. *)
Fixpoint digs (base x : Z) (fuel : nat) : list Z :=
  match fuel with
  | O => []
  | S f => x mod base :: if x / base =? 0 then [] else digs base (x / base) f
  end.

Lemma value_snoc base l d : value base (l ++ [d]) = value base l * base + d.
Proof. unfold value. by rewrite fold_left_app. Qed.

Lemma digs_numeral base k : forall x, 2 <= base -> 0 <= x < base ^ Z.of_nat k -> (0 < k)%nat ->
  numeral base x (reverse (digs base x k)).
Proof.
  induction k as [|k IH]; intros x Hb Hx Hk; [lia|]. cbn [digs].
  pose proof (Z.mod_pos_bound x base ltac:(lia)) as Hm. pose proof (Z.div_mod x base ltac:(lia)) as Hd.
  destruct (Z.eqb_spec (x / base) 0) as [E|E].
  - split; [apply Forall_singleton; lia|cbn; lia|]. cbn.
    destruct (decide (x mod base = 0)) as [->|]; [by left|right; by eexists _, _].
  - rewrite Nat2Z.inj_succ, Z.pow_succ_r in Hx by lia.
    assert (0 <= x / base) by (apply Z.div_pos; lia).
    assert (x / base < base ^ Z.of_nat k) by (apply Z.div_lt_upper_bound; lia).
    destruct k as [|k]; [cbn in *; lia|].
    destruct (IH (x / base) Hb ltac:(lia) ltac:(lia)) as [H1 H2 H3].
    rewrite reverse_cons. split.
    + apply Forall_app_2; [done|apply Forall_singleton; lia].
    + rewrite value_snoc, H2. lia.
    + right. destruct H3 as [H3|(d & l' & H3 & Hne)].
      * rewrite H3 in H2. cbn in H2. lia.
      * rewrite H3. by eexists _, _.
Qed.

Lemma length_digs base x k : (length (digs base x k) <= k)%nat.
Proof. revert x. induction k; intros; cbn; [lia|]. destruct (_ =? _); cbn; [lia|]. specialize (IHk (x / base)). lia. Qed.

Lemma digs_fuel base k : forall x j, 2 <= base -> 0 <= x < base ^ Z.of_nat k -> (k <= j)%nat -> (0 < k)%nat ->
  digs base x j = digs base x k.
Proof.
  induction k as [|k IH]; intros x j Hb Hx Hj Hk; [lia|]. destruct j as [|j]; [lia|]. cbn [digs]. f_equal.
  destruct (Z.eqb_spec (x / base) 0); [done|].
  rewrite Nat2Z.inj_succ, Z.pow_succ_r in Hx by lia.
  assert (0 <= x / base) by (apply Z.div_pos; lia).
  assert (x / base < base ^ Z.of_nat k) by (apply Z.div_lt_upper_bound; lia).
  destruct k as [|k]; [cbn in *; lia|]. apply IH; lia.
Qed.

Lemma push_ok c i buf : (i < length buf)%nat -> push c (i, buf) = Some (S i, <[i := c]> buf).
Proof. intros. unfold push. cbn [fst snd]. by destruct (Nat.ltb_spec i (length buf)); [|lia]. Qed.

Definition glyphs (ds : list Z) (l : list Z) : list Z := (fun d => ds !!! Z.to_nat d) <$> l.

Lemma digits_loop_ok ds base k : forall x i buf,
  2 <= base <= Z.of_nat (length ds) -> 0 <= x ->
  (i + length (digs base x k) <= length buf)%nat -> x < base ^ Z.of_nat k -> (0 < k)%nat ->
  exists buf', digits_loop ds base x (i, buf) k = Some ((i + length (digs base x k))%nat, buf') /\
    length buf' = length buf /\ take (i + length (digs base x k)) buf' = take i buf ++ glyphs ds (digs base x k).
Proof.
  induction k as [|k IH]; intros x i buf Hb Hx0 Hl Hx Hk; [lia|]. cbn [digits_loop digs] in *.
  pose proof (Z.mod_pos_bound x base ltac:(lia)) as Hm. cbn [length] in Hl.
  rewrite (list_lookup_lookup_total_lt ds (Z.to_nat (x mod base))) by lia. cbn [mbind option_bind].
  rewrite push_ok by lia. cbn [mbind option_bind].
  set (c := ds !!! _). assert (Et : take (S i) (<[i := c]> buf) = take i buf ++ [c]).
  { rewrite (take_S_r _ _ c) by (apply list_lookup_insert_eq; lia). by rewrite take_insert_ge by lia. }
  destruct (Z.eqb_spec (x / base) 0) as [E|E].
  - exists (<[i := c]> buf). cbn [length]. rewrite Nat.add_1_r, length_insert. done.
  - rewrite Nat2Z.inj_succ, Z.pow_succ_r in Hx by lia.
    assert (0 <= x / base) by (apply Z.div_pos; lia).
    assert (x / base < base ^ Z.of_nat k) by (apply Z.div_lt_upper_bound; lia).
    destruct k as [|k]; [cbn in *; lia|].
    destruct (IH (x / base) (S i) (<[i := c]> buf)) as (buf' & R & L & T); [done..|rewrite length_insert; lia|lia|lia|].
    exists buf'. rewrite length_insert in L. cbn [length]. rewrite <- Nat.add_succ_comm. split; [exact R|]. split; [done|].
    rewrite T, Et. by rewrite <- (assoc (++)).
Qed.

(** The number that a printint call prints. *)
Definition shown (xx : Z) (sgn : bool) : Z := if sgn && (xx <? 0) then - xx else u32 xx.

Lemma printint_ok ds base xx sgn :
  10 <= base <= Z.of_nat (length ds) -> -2147483648 <= xx < 2147483648 ->
  exists l, printint ds xx base sgn = Some ((if sgn && (xx <? 0) then [45] else []) ++ glyphs ds l) /\
    numeral base (shown xx sgn) l /\ (length l <= 10)%nat.
Proof.
  intros Hb Hx. unfold printint. set (neg := sgn && (xx <? 0)).
  set (x := if neg then u32 (- xx) else u32 xx).
  assert (Hxr : 0 <= x < base ^ Z.of_nat 10).
  { assert (10 ^ 10 <= base ^ 10) by (apply Z.pow_le_mono_l; lia).
    assert (0 <= x < 4294967296) by (subst x; destruct neg; apply u32_range). change (Z.of_nat 10) with 10. lia. }
  assert (Es : x = shown xx sgn).
  { subst x neg. unfold shown. destruct (sgn && (xx <? 0)) eqn:E; [|done]. zbool. apply u32_small. lia. }
  pose proof (length_digs base x 10) as Hl10. pose proof (digs_fuel base 10 x 32 ltac:(lia) Hxr ltac:(lia) ltac:(lia)) as Ef.
  destruct (digits_loop_ok ds base 32 x 0 (replicate 16 0)) as (buf & -> & L & T); rewrite ?Ef in *; [lia|lia| |..].
  { rewrite length_replicate. lia. }
  { change (Z.of_nat 32) with 32. assert (base ^ 10 <= base ^ 32) by (apply Z.pow_le_mono_r; lia). change (Z.of_nat 10) with 10 in Hxr. lia. }
  { lia. }
  cbn [mbind option_bind]. rewrite length_replicate in L. exists (reverse (digs base x 10)).
  split; [|rewrite <- Es, length_reverse; split; [by apply digs_numeral; [lia|..|lia]|done]].
  cbn [take app] in T. unfold glyphs in *. rewrite fmap_reverse. destruct neg.
  - rewrite push_ok by lia. cbn [mbind option_bind fst snd]. set (j := (0 + _)%nat) in *.
    rewrite (take_S_r _ _ 45) by (apply list_lookup_insert_eq; subst j; lia).
    rewrite take_insert_ge by lia. by rewrite T, reverse_app.
  - cbn [mbind option_bind fst snd]. by rewrite T.
Qed.
