(* ===== verification/Ulib.v ===== *)
(** * The user library: ulib.c

    The string routines of user programs, which are not those of the kernel
    (memmove copies upwards only, memset byte by byte), gets and stat over
    the system calls they make, and atoi, which reads back what printf
    prints. *)

From stdpp Require Import base list.
From Stdlib Require Import ZArith Lia.
From S2P Require Import Prelude CString Format.

Local Open Scope Z_scope.

Definition memset (m : mem) (dst c n : Z) : mem := stosb m dst c (Z.to_nat n).

(** The library's [memmove] always copies upwards. *)
Definition memmove (m : mem) (vdst vsrc n : Z) : mem :=
  copy_up m vdst vsrc (Z.to_nat n).

Fixpoint strcpy (m : mem) (s t : Z) (fuel : nat) : option mem :=
  match fuel with
  | O => None
  | S f =>
    let c := m t in
    let m' := st m s c in
    if c =? 0 then Some m' else strcpy m' (s + 1) (t + 1) f
  end.

Fixpoint strcmp (p q : Z -> Z) (fuel : nat) : option Z :=
  match fuel with
  | O => None
  | S f =>
    if negb (p 0 =? 0) && (p 0 =? q 0)
    then strcmp (fun i => p (i + 1)) (fun i => q (i + 1)) f
    else Some (u8 (p 0) - u8 (q 0))
  end.

(** [strchr]: the offset of the first [c] before the nul, if any. *)
Fixpoint strchr (s : Z -> Z) (i c : Z) (fuel : nat) : option (option Z) :=
  match fuel with
  | O => None
  | S f =>
    if s i =? 0 then Some None
    else if s i =? c then Some (Some i)
    else strchr s (i + 1) c f
  end.

(** [atoi], with [int] arithmetic: [n = n*10 + *s++ - '0']. *)
Fixpoint atoi_loop (s : Z -> Z) (i n : Z) (fuel : nat) : option Z :=
  match fuel with
  | O => None
  | S f =>
    if (48 <=? s i) && (s i <=? 57)
    then atoi_loop s (i + 1) (i32 (n * 10 + s i - 48)) f
    else Some n
  end.

Definition atoi (s : Z -> Z) (fuel : nat) : option Z := atoi_loop s 0 0 fuel.


(** strlen is the kernel's. *)
Definition strlen (s : Z -> Z) (fuel : nat) : option Z := CString.strlen s fuel.

(** gets over [read(0, &c, 1)], the system call: it gives the byte read, or
    [None] where it returns less than 1.  The result is the buffer's new
    contents up to and including the nul. *)
Section Gets.
Context {St : Type} (read : St -> option Z * St).

Fixpoint gets_loop (k : nat) (s : St) : list Z * St :=
  match k with
  | O => ([], s)
  | S k' =>
    match read s with
    | (None, s') => ([], s')
    | (Some c, s') =>
      if (c =? 10) || (c =? 13) then ([c], s')
      else let '(l, s2) := gets_loop k' s' in (c :: l, s2)
    end
  end.

Definition gets (max : Z) (s : St) : list Z * St :=
  let '(l, s') := gets_loop (Z.to_nat (max - 1)) s in (l ++ [0], s').
End Gets.

(** stat over the system calls open, fstat and close. *)
Section Stat.
Context {St T : Type} (open : list Z -> St -> Z * St) (fstat : Z -> St -> (Z * T) * St) (close : Z -> St -> St).

Definition stat (n : list Z) (s : St) : option (Z * T) * St :=
  let '(fd, s) := open n s in
  if fd <? 0 then (None, s)
  else let '(r, s) := fstat fd s in (Some r, close fd s).
End Stat.

(** ** atoi reads what printf prints *)

Lemma udigits_glyph d : 0 <= d < 10 -> udigits !!! Z.to_nat d = 48 + d.
Proof.
  intros. assert (d = 0 \/ d = 1 \/ d = 2 \/ d = 3 \/ d = 4 \/ d = 5 \/ d = 6 \/ d = 7 \/ d = 8 \/ d = 9) as Hd by lia.
  repeat destruct Hd as [->|Hd]; try reflexivity. by subst.
Qed.

Lemma value_mono base l a : 1 <= base -> 0 <= a -> Forall (fun d => 0 <= d < base) l ->
  a <= fold_left (fun a d => a * base + d) l a.
Proof.
  intros Hb Ha Hl. revert a Ha. induction Hl as [|d l Hd Hl IH]; intros a Ha; cbn; [lia|].
  specialize (IH (a * base + d) ltac:(nia)). nia.
Qed.

Lemma lit_cons d l i : 0 <= i -> lit (d :: l) (i + 1) = lit l i.
Proof. intros. unfold lit. by rewrite Z.add_1_r, Z2Nat.inj_succ by lia. Qed.

(** The loop on a tail of the numeral: [pre] has been read. *)
Lemma atoi_loop_ok l : forall s i a fuel,
  (forall k, 0 <= k -> s (i + k) = lit (glyphs udigits l) k) ->
  Forall (fun d => 0 <= d < 10) l -> 0 <= i -> 0 <= a ->
  fold_left (fun a d => a * 10 + d) l a < 2147483648 -> (length l < fuel)%nat ->
  atoi_loop s i a fuel = Some (fold_left (fun a d => a * 10 + d) l a).
Proof.
  induction l as [|d l IH]; intros s i a fuel Hs Hl Hi Ha Hv Hf; (destruct fuel as [|fuel]; [cbn in *; lia|]); cbn [atoi_loop].
  - pose proof (Hs 0 ltac:(lia)) as H0. rewrite Z.add_0_r in H0. rewrite H0. done.
  - pose proof (Hs 0 ltac:(lia)) as H0. rewrite Z.add_0_r in H0.
    apply Forall_cons in Hl as [Hd Hl].
    assert (E0 : s i = 48 + d) by (rewrite H0; cbn; by apply udigits_glyph). rewrite E0.
    destruct (Z.leb_spec 48 (48 + d)); [|lia]. destruct (Z.leb_spec (48 + d) 57); [|lia]. cbn [andb fold_left] in *.
    pose proof (value_mono 10 l (a * 10 + d) ltac:(lia) ltac:(lia) Hl).
    replace (a * 10 + (48 + d) - 48) with (a * 10 + d) by lia. rewrite i32_small by lia.
    apply IH; [|done|lia|lia|done|cbn in Hf; lia].
    intros k Hk. rewrite <- Z.add_assoc, (Z.add_comm 1), Hs by lia. unfold glyphs. rewrite fmap_cons. by apply lit_cons.
Qed.

(** What printf prints for %d, atoi reads back: the text is the decimal
    numeral of the argument, it fits printint's buffer, and atoi of it is the
    argument, for every non-negative int. *)
Theorem atoi_printf_roundtrip (x : Z) :
  0 <= x < 2147483648 ->
  exists l, printf [37; 100] [AWord x] = Some l /\ (length l <= 10)%nat /\ atoi (lit l) 11 = Some x.
Proof.
  intros Hx. unfold printf.
  destruct (printint_ok udigits 10 x true) as (l & E & [Hd Hv _] & Hl); [change (Z.of_nat (length udigits)) with 16; lia|lia|].
  change (printf_loop [37; 100] false [AWord x]) with (o ← uprintint (i32 x) 10 true; Some (o ++ [])).
  rewrite i32_small by lia. unfold uprintint. rewrite E. exists ((if true && (x <? 0) then [45] else []) ++ glyphs udigits l).
  destruct (Z.ltb_spec x 0) as [?|_]; [lia|]. cbn [andb app mbind option_bind]. rewrite app_nil_r.
  split; [done|]. split; [unfold glyphs; by rewrite length_fmap|].
  assert (Es : shown x true = x).
  { unfold shown. destruct (Z.ltb_spec x 0); [lia|]. apply u32_small. lia. }
  rewrite Es in Hv. unfold value in Hv. unfold atoi.
  rewrite (atoi_loop_ok l); [by rewrite Hv|done..|lia|lia|lia|lia].
Qed.

Lemma atoi_printf_roundtrip_witness :
  exists l, printf [37; 100] [AWord 2147483647] = Some l /\ (length l <= 10)%nat /\ atoi (lit l) 11 = Some 2147483647.
Proof. apply (atoi_printf_roundtrip 2147483647). lia. Defined.
