(* ===== verification/Grep.v ===== *)
(** * The pattern matcher of grep: grep.c

    Patterns and texts are nul-terminated strings, here the bytes before the
    nul.  match, matchhere and matchstar are translated as they are written;
    the specification reads the pattern as a regular expression (literal
    bytes, '.', '*' after either, '^' at the front, '$' at the end) with its
    usual meaning.  The theorem: match answers whether the text contains a
    match, for every pattern and text. *)

From stdpp Require Import base list.
From Stdlib Require Import ZArith Lia.
From S2P Require Import Prelude.

Local Open Scope Z_scope.

Definition chr_star : Z := 42.
Definition chr_dot : Z := 46.
Definition chr_dollar : Z := 36.
Definition chr_caret : Z := 94.

(** matchstar's loop over the text; [here] is matchhere on the rest of the
    pattern. *)
Fixpoint matchstar (here : list Z -> bool) (c : Z) (text : list Z) : bool :=
  here text ||
  match text with
  | [] => false
  | t :: text' => ((t =? c) || (c =? chr_dot)) && matchstar here c text'
  end.

Fixpoint matchhere (re text : list Z) {struct re} : bool :=
  match re with
  | [] => true
  | c :: re1 =>
    match re1 with
    | s :: re2 =>
      if s =? chr_star then matchstar (matchhere re2) c text else
      match text with
      | t :: text' => ((c =? chr_dot) || (c =? t)) && matchhere re1 text'
      | [] => false
      end
    | [] =>
      if c =? chr_dollar then (match text with [] => true | _ => false end) else
      match text with
      | t :: text' => ((c =? chr_dot) || (c =? t)) && matchhere re1 text'
      | [] => false
      end
    end
  end.

(** match's loop over the positions of the text. *)
Fixpoint match_any (re text : list Z) : bool :=
  matchhere re text || match text with [] => false | _ :: text' => match_any re text' end.

Definition match_ (re text : list Z) : bool :=
  match re with
  | c :: re' => if c =? chr_caret then matchhere re' text else match_any re text
  | [] => match_any re text
  end.

(** ** Regular expressions *)

Inductive elem : Type :=
| One (c : Z)
| Star (c : Z).

(** A pattern after '^': its elements, and whether it ends with '$'. *)
Fixpoint parse (re : list Z) : list elem * bool :=
  match re with
  | [] => ([], false)
  | c :: re1 =>
    match re1 with
    | s :: re2 => if s =? chr_star then (Star c :: (parse re2).1, (parse re2).2) else (One c :: (parse re1).1, (parse re1).2)
    | [] => if c =? chr_dollar then ([], true) else ([One c], false)
    end
  end.

Definition accepts (c x : Z) : Prop := c = chr_dot \/ c = x.

(** The texts an expression denotes. *)
Inductive denotes : list elem -> list Z -> Prop :=
| den_nil : denotes [] []
| den_one c x r w : accepts c x -> denotes r w -> denotes (One c :: r) (x :: w)
| den_star c u r w : Forall (accepts c) u -> denotes r w -> denotes (Star c :: r) (u ++ w).

(** The pattern matches at the front of the text. *)
Definition front (p : list elem * bool) (text : list Z) : Prop :=
  exists w rest, text = w ++ rest /\ denotes p.1 w /\ (p.2 = true -> rest = []).

(** The pattern matches somewhere in the text. *)
Definition contains (re text : list Z) : Prop :=
  match re with
  | c :: re' => if c =? chr_caret then front (parse re') text else exists pre post, text = pre ++ post /\ front (parse re) post
  | [] => exists pre post, text = pre ++ post /\ front (parse re) post
  end.

(** ** Proofs *)

Lemma accepts_eqb c x : (c =? chr_dot) || (c =? x) = true <-> accepts c x.
Proof. unfold accepts. by rewrite orb_true_iff, !Z.eqb_eq. Qed.

Lemma front_one c r b text :
  front (One c :: r, b) text <-> exists t text', text = t :: text' /\ accepts c t /\ front (r, b) text'.
Proof.
  split.
  - intros (w & rest & -> & Hd & Hb). cbn in *. inversion Hd as [|? x ? w' Ha Hd'|]; subst. exists x, (w' ++ rest). split_and!; [done..|].
    by exists w', rest.
  - intros (t & text' & -> & Ha & w & rest & -> & Hd & Hb). exists (t :: w), rest. split_and!; [done|by constructor|done].
Qed.

Lemma front_star c r b text :
  front (Star c :: r, b) text <-> exists u text', text = u ++ text' /\ Forall (accepts c) u /\ front (r, b) text'.
Proof.
  split.
  - intros (w & rest & -> & Hd & Hb). cbn in *. inversion Hd as [| |? u ? w' Hu Hd']; subst. exists u, (w' ++ rest).
    split_and!; [by rewrite <- app_assoc|done|]. by exists w', rest.
  - intros (u & text' & -> & Hu & w & rest & -> & Hd & Hb). exists (u ++ w), rest. split_and!; [by rewrite app_assoc|by constructor|done].
Qed.

(** The star loop tries every number of repetitions. *)
Lemma matchstar_ok here c text :
  matchstar here c text = true <-> exists u text', text = u ++ text' /\ Forall (accepts c) u /\ here text' = true.
Proof.
  induction text as [|t text IH]; cbn [matchstar]; rewrite orb_true_iff.
  - split.
    + intros [Hh|]; [|done]. by exists [], [].
    + intros (u & text' & E & _ & Hh). symmetry in E. apply app_eq_nil in E as [-> ->]. by left.
  - rewrite andb_true_iff, IH, orb_comm, (Z.eqb_sym t c), accepts_eqb. split.
    + intros [Hh|(Ha & u & text' & -> & Hu & Hh)]; [by exists [], (t :: text)|]. exists (t :: u), text'. split_and!; [done|by constructor|done].
    + intros ([|t' u] & text' & E & Hu & Hh); cbn in E; [subst; by left|]. injection E as <- ->. apply Forall_cons in Hu as [Ha Hu].
      right. split; [done|]. by exists u, text'.
Qed.

Lemma matchhere_step c re1 text : (re1 <> [] -> match re1 with s :: _ => (s =? chr_star) = false | [] => True end) ->
  (re1 = [] -> (c =? chr_dollar) = false) ->
  matchhere (c :: re1) text = true <-> exists t text', text = t :: text' /\ accepts c t /\ matchhere re1 text' = true.
Proof.
  intros H1 H2. assert (E : matchhere (c :: re1) text = match text with t :: text' => ((c =? chr_dot) || (c =? t)) && matchhere re1 text' | [] => false end).
  { cbn [matchhere]. destruct re1 as [|s re2]; [by rewrite H2|]. by rewrite H1. }
  rewrite E. destruct text as [|t text]; [naive_solver|]. rewrite andb_true_iff, accepts_eqb. naive_solver.
Qed.

Lemma matchhere_ok n : forall re text, (length re <= n)%nat -> matchhere re text = true <-> front (parse re) text.
Proof.
  induction n as [|n IH]; intros [|c re1] text Hn; cbn [length] in Hn; try lia.
  1,2: split; [intros _; exists [], text; split_and!; [done|constructor|done]|done].
  destruct re1 as [|s re2].
  - destruct (c =? chr_dollar) eqn:Ed.
    + cbn [matchhere parse]. rewrite Ed. split.
      * destruct text; [|done]. intros _. exists [], []. split_and!; [done|constructor|done].
      * intros (w & rest & -> & Hd & Hb). cbn in *. inversion Hd; subst. by rewrite Hb.
    + rewrite matchhere_step by (done || by rewrite Ed). cbn [parse]. rewrite Ed, front_one.
      split; intros (t & text' & -> & Ha & _); exists t, text'; (split_and!; [done..|]); [|done].
      exists [], text'. split_and!; [done|constructor|done].
  - destruct (s =? chr_star) eqn:Es.
    + cbn [matchhere parse]. rewrite Es, matchstar_ok, front_star. cbn in Hn.
      split; intros (u & text' & -> & Hu & Hh); exists u, text'; (split_and!; [done..|]).
      * rewrite <- surjective_pairing. apply IH; [lia|done].
      * rewrite <- surjective_pairing in Hh. apply IH; [lia|done].
    + rewrite matchhere_step by done. replace (parse (c :: s :: re2)) with (One c :: (parse (s :: re2)).1, (parse (s :: re2)).2) by (cbn [parse]; by rewrite Es).
      rewrite front_one, <- surjective_pairing. cbn in Hn.
      split; intros (t & text' & -> & Ha & Hh); exists t, text'; (split_and!; [done..|]); apply (IH (s :: re2)); cbn; done || lia.
Qed.

Lemma match_any_ok re text : match_any re text = true <-> exists pre post, text = pre ++ post /\ matchhere re post = true.
Proof.
  induction text as [|t text IH]; cbn [match_any]; rewrite orb_true_iff.
  - split; [intros [H|]; [by exists [], []|done]|]. intros (pre & post & E & H). symmetry in E. apply app_eq_nil in E as [-> ->]. by left.
  - rewrite IH. split.
    + intros [H|(pre & post & -> & H)]; [by exists [], (t :: text)|by exists (t :: pre), post].
    + intros ([|t' pre] & post & E & H); cbn in E; [subst; by left|]. injection E as <- ->. right. by exists pre, post.
Qed.

(** C35: match answers whether the text contains a match of the pattern, read
    as a regular expression. *)
Theorem match_correct re text : match_ re text = true <-> contains re text.
Proof.
  assert (Hany : match_any re text = true <-> exists pre post, text = pre ++ post /\ front (parse re) post).
  { rewrite match_any_ok. split; intros (pre & post & E & H); exists pre, post; (split; [done|]); by apply (matchhere_ok (length re)). }
  unfold match_, contains. destruct re as [|c re']; [exact Hany|]. destruct (c =? chr_caret); [|exact Hany]. by apply (matchhere_ok (length re')).
Qed.
