(* ===== verification/Usr.v ===== *)
(** * User programs: cat.c, wc.c, grep.c, echo.c, ls.c, kill.c, ln.c, mkdir.c, rm.c, zombie.c, init.c

    A program is one process between its system calls.  The calls are a
    parameter ([Sys]): what each returns and does to the world.  exit ends
    the program; a loop over input takes fuel.  [Files] is what the theorems
    rely on: a read gives some of what is left of a file, a write appends
    what it is given.  cat copies its input, wc counts its lines, words and
    bytes, grep prints the lines that match. *)

From stdpp Require Import base list strings.
From Stdlib Require Import ZArith Lia Ascii.
From Stdlib Require String.
From S2P Require Import Prelude CString Format Ulib Grep.

Local Open Scope Z_scope.

(** ** Programs *)

Inductive uout (W A : Type) : Type :=
| UDone (a : A) (w : W)
| UExit (w : W)
| UFuel.
Arguments UDone {W A} a w.
Arguments UExit {W A} w.
Arguments UFuel {W A}.

Definition U (W A : Type) : Type := W -> uout W A.

#[export] Instance U_ret W : MRet (U W) := fun A a w => UDone a w.
#[export] Instance U_bind W : MBind (U W) := fun A B f m w =>
  match m w with UDone a w' => f a w' | UExit w' => UExit w' | UFuel => UFuel end.

Lemma ubind_done {W A B} (m : U W A) (f : A -> U W B) w a w' : m w = UDone a w' -> mbind f m w = f a w'.
Proof. unfold mbind, U_bind. by intros ->. Qed.

(** The system calls; a string is its bytes.  read gives the result and the
    bytes stored, fstat the result and the fields of struct stat. *)
Class Sys (W : Type) : Type := {
  sys_read : Z -> nat -> W -> (Z * list Z) * W;
  sys_write : Z -> list Z -> W -> Z * W;
  sys_open : list Z -> Z -> W -> Z * W;
  sys_close : Z -> W -> Z * W;
  sys_fstat : Z -> W -> (Z * (Z * Z * Z)) * W;       (* type, ino, size *)
  sys_mkdir : list Z -> W -> Z * W;
  sys_mknod : list Z -> Z -> Z -> W -> Z * W;
  sys_unlink : list Z -> W -> Z * W;
  sys_link : list Z -> list Z -> W -> Z * W;
  sys_dup : Z -> W -> Z * W;
  sys_kill : Z -> W -> Z * W;
  sys_sleep : Z -> W -> Z * W;
  sys_fork : W -> Z * W;
  sys_wait : W -> Z * W;
  sys_exec : list Z -> list (list Z) -> W -> option Z * W }.   (* [None] when it does not return *)

(** The bytes of a literal. *)
Definition str (s : string) : list Z := map (fun c => Z.of_nat (nat_of_ascii c)) (String.list_ascii_of_string s).
Definition nl : list Z := [10].

Section Programs.
Context {W : Type} {S : Sys W}.

Definition call {A} (f : W -> A * W) : U W A := fun w => let r := f w in UDone r.1 r.2.
Definition exit {A} : U W A := fun w => UExit w.
Definition ufuel {A} : U W A := fun _ => UFuel.

(** printf writes its bytes one by one. *)
Fixpoint putall (fd : Z) (l : list Z) : U W unit :=
  match l with [] => mret tt | c :: l' => call (sys_write fd [c]) ;; putall fd l' end.
Definition uprintf (fd : Z) (fmt : list Z) (ap : list varg) : U W unit :=
  match Format.printf fmt ap with Some l => putall fd l | None => ufuel end.

(** ** cat.c *)

Fixpoint cat_loop (fuel : nat) (fd : Z) : U W Z :=
  match fuel with
  | O => ufuel
  | Datatypes.S f =>
    r ← call (sys_read fd 512);
    if 0 <? r.1 then
      k ← call (sys_write 1 r.2);
      if negb (k =? r.1) then uprintf 1 (str "cat: write error" ++ nl) [] ;; exit
      else cat_loop f fd
    else mret r.1
  end.

Definition cat (fuel : nat) (fd : Z) : U W unit :=
  n ← cat_loop fuel fd;
  if n <? 0 then uprintf 1 (str "cat: read error" ++ nl) [] ;; exit else mret tt.

(** The loop of the programs that take file names: open, run, close. *)
Fixpoint each_file (msg : list Z) (run : Z -> list Z -> U W unit) (argv : list (list Z)) : U W unit :=
  match argv with
  | [] => mret tt
  | a :: argv' =>
    fd ← call (sys_open a 0);
    if fd <? 0 then uprintf 1 msg [AStr (Some a)] ;; exit
    else run fd a ;; call (sys_close fd) ;; each_file msg run argv'
  end.

Definition cat_main (fuel : nat) (argv : list (list Z)) : U W unit :=
  match argv with
  | [] | [_] => cat fuel 0 ;; exit
  | _ :: files => each_file (str "cat: cannot open %s" ++ nl) (fun fd _ => cat fuel fd) files ;; exit
  end.

(** ** wc.c *)

Definition spaces : list Z := [32; 13; 9; 10; 11].
Definition is_space (c : Z) : bool := negb (c =? 0) && bool_decide (c ∈ spaces).

(** l, w, c and inword *)
Record counts : Type := mkcounts { n_lines : Z; n_words : Z; n_chars : Z; inword : bool }.

Definition wc_byte (k : counts) (b : Z) : counts :=
  let c := i32 (n_chars k + 1) in
  let l := if b =? 10 then i32 (n_lines k + 1) else n_lines k in
  if is_space b then mkcounts l (n_words k) c false
  else if negb (inword k) then mkcounts l (i32 (n_words k + 1)) c true
  else mkcounts l (n_words k) c true.

Fixpoint wc_loop (fuel : nat) (fd : Z) (k : counts) : U W (Z * counts) :=
  match fuel with
  | O => ufuel
  | Datatypes.S f =>
    r ← call (sys_read fd 512);
    if 0 <? r.1 then wc_loop f fd (fold_left wc_byte r.2 k) else mret (r.1, k)
  end.

Definition wc (fuel : nat) (fd : Z) (name : list Z) : U W unit :=
  r ← wc_loop fuel fd (mkcounts 0 0 0 false);
  if r.1 <? 0 then uprintf 1 (str "wc: read error" ++ nl) [] ;; exit
  else uprintf 1 (str "%d %d %d %s" ++ nl)
    [AWord (n_lines r.2); AWord (n_words r.2); AWord (n_chars r.2); AStr (Some name)].

Definition wc_main (fuel : nat) (argv : list (list Z)) : U W unit :=
  match argv with
  | [] | [_] => wc fuel 0 [] ;; exit
  | _ :: files => each_file (str "wc: cannot open %s" ++ nl) (wc fuel) files ;; exit
  end.

(** ** grep.c; the bytes of buf in use are a list, buf[0..m-1] *)

(** strchr(p, '\n') *)
Fixpoint find_nl (b : list Z) : option nat :=
  match b with
  | [] => None
  | c :: b' => if c =? 0 then None else if c =? 10 then Some O else Datatypes.S <$> find_nl b'
  end.

(** The lines from p on; gives what is left from the last p. *)
Fixpoint grep_scan (pattern b : list Z) (fuel : nat) : U W (list Z) :=
  match find_nl b with
  | None => mret b
  | Some q =>
    match fuel with
    | O => ufuel
    | Datatypes.S f =>
      (if match_ pattern (take q b) then call (sys_write 1 (take (q + 1) b)) ;; mret tt else mret tt) ;;
      grep_scan pattern (drop (q + 1) b) f
    end
  end.

Fixpoint grep_loop (fuel : nat) (pattern : list Z) (fd : Z) (b : list Z) : U W unit :=
  match fuel with
  | O => ufuel
  | Datatypes.S f =>
    r ← call (sys_read fd (1024 - length b - 1));
    if 0 <? r.1 then
      let b := b ++ r.2 in
      p ← grep_scan pattern b (length b);
      grep_loop f pattern fd (if (length p =? length b)%nat then [] else p)
    else mret tt
  end.

Definition grep (fuel : nat) (pattern : list Z) (fd : Z) : U W unit := grep_loop fuel pattern fd [].

Definition grep_main (fuel : nat) (argv : list (list Z)) : U W unit :=
  match argv with
  | [] | [_] => uprintf 2 (str "usage: grep pattern [file ...]" ++ nl) [] ;; exit
  | [_; pattern] => grep fuel pattern 0 ;; exit
  | _ :: pattern :: files => each_file (str "grep: cannot open %s" ++ nl) (fun fd _ => grep fuel pattern fd) files ;; exit
  end.

(** ** echo.c, kill.c, ln.c, mkdir.c, rm.c, zombie.c *)

Fixpoint echo_loop (argv : list (list Z)) : U W unit :=
  match argv with
  | [] => mret tt
  | [a] => uprintf 1 (str "%s%s") [AStr (Some a); AStr (Some nl)]
  | a :: argv' => uprintf 1 (str "%s%s") [AStr (Some a); AStr (Some (str " "))] ;; echo_loop argv'
  end.
Definition echo_main (argv : list (list Z)) : U W unit := echo_loop (drop 1 argv) ;; exit.

Fixpoint kill_loop (argv : list (list Z)) : U W unit :=
  match argv with
  | [] => mret tt
  | a :: argv' =>
    match atoi (lit a) (Datatypes.S (length a)) with
    | Some n => call (sys_kill n) ;; kill_loop argv'
    | None => ufuel
    end
  end.
Definition kill_main (argv : list (list Z)) : U W unit :=
  if (length argv <? 2)%nat then uprintf 2 (str "usage: kill pid..." ++ nl) [] ;; exit
  else kill_loop (drop 1 argv) ;; exit.

Definition ln_main (argv : list (list Z)) : U W unit :=
  match argv with
  | [_; old; new] =>
    r ← call (sys_link old new);
    (if r <? 0 then uprintf 2 (str "link %s %s: failed" ++ nl) [AStr (Some old); AStr (Some new)] else mret tt) ;; exit
  | _ => uprintf 2 (str "Usage: ln old new" ++ nl) [] ;; exit
  end.

(** The loop of mkdir and rm: it stops at the first failure. *)
Fixpoint until_failure (op : list Z -> W -> Z * W) (msg : list Z) (argv : list (list Z)) : U W unit :=
  match argv with
  | [] => mret tt
  | a :: argv' =>
    r ← call (op a);
    if r <? 0 then uprintf 2 msg [AStr (Some a)] else until_failure op msg argv'
  end.
Definition mkdir_main (argv : list (list Z)) : U W unit :=
  if (length argv <? 2)%nat then uprintf 2 (str "Usage: mkdir files..." ++ nl) [] ;; exit
  else until_failure sys_mkdir (str "mkdir: %s failed to create" ++ nl) (drop 1 argv) ;; exit.
Definition rm_main (argv : list (list Z)) : U W unit :=
  if (length argv <? 2)%nat then uprintf 2 (str "Usage: rm files..." ++ nl) [] ;; exit
  else until_failure sys_unlink (str "rm: %s failed to delete" ++ nl) (drop 1 argv) ;; exit.

Definition zombie_main : U W unit :=
  pid ← call sys_fork;
  (if 0 <? pid then call (sys_sleep 5) ;; mret tt else mret tt) ;; exit.

(** ** init.c; [fuel] bounds the shells started and the zombies reaped *)

Fixpoint init_reap (fuel : nat) (pid : Z) : U W unit :=
  match fuel with
  | O => ufuel
  | Datatypes.S f =>
    wpid ← call sys_wait;
    if (0 <=? wpid) && negb (wpid =? pid) then uprintf 1 (str "zombie!" ++ nl) [] ;; init_reap f pid else mret tt
  end.

Fixpoint init_loop (fuel : nat) : U W unit :=
  match fuel with
  | O => ufuel
  | Datatypes.S f =>
    uprintf 1 (str "init: starting sh" ++ nl) [] ;;
    pid ← call sys_fork;
    if pid <? 0 then uprintf 1 (str "init: fork failed" ++ nl) [] ;; exit else
    if pid =? 0 then
      r ← call (sys_exec (str "sh") [str "sh"]);
      match r with
      | None => exit
      | Some _ => uprintf 1 (str "init: exec sh failed" ++ nl) [] ;; exit
      end
    else init_reap f pid ;; init_loop f
  end.

Definition init_main (fuel : nat) : U W unit :=
  fd ← call (sys_open (str "console") 2);
  (if fd <? 0 then call (sys_mknod (str "console") 1 1) ;; call (sys_open (str "console") 2) ;; mret tt else mret tt) ;;
  call (sys_dup 0) ;;
  call (sys_dup 0) ;;
  init_loop fuel.

(** ** ls.c *)

Definition DIRSIZ : nat := 14.

(** fmtname: the part after the last slash, padded with blanks. *)
Fixpoint after_slash (path best : list Z) : list Z :=
  match path with
  | [] => best
  | c :: path' => after_slash path' (if c =? 47 then path' else best)
  end.
Definition fmtname (path : list Z) : list Z :=
  let p := after_slash path path in
  if (DIRSIZ <=? length p)%nat then p else p ++ replicate (DIRSIZ - length p) 32.

Definition ls_line (name : list Z) (st : Z * Z * Z) : U W unit :=
  uprintf 1 (str "%s %d %d %d" ++ nl) [AStr (Some (fmtname name)); AWord st.1.1; AWord st.1.2; AWord st.2].

(** stat of ulib.c *)
Definition ustat (path : list Z) : U W (option (Z * Z * Z)) :=
  fd ← call (sys_open path 0);
  if fd <? 0 then mret None else
  r ← call (sys_fstat fd);
  call (sys_close fd) ;;
  mret (if r.1 <? 0 then None else Some r.2).

(** The bytes of a string up to its nul. *)
Fixpoint to_nul (l : list Z) : list Z := match l with [] => [] | c :: l' => if c =? 0 then [] else c :: to_nul l' end.

(** A directory entry is the two bytes of inum and the name. *)
Fixpoint ls_dir (fuel : nat) (fd : Z) (path : list Z) : U W unit :=
  match fuel with
  | O => ufuel
  | Datatypes.S f =>
    r ← call (sys_read fd 16);
    if negb (r.1 =? 16) then mret tt else
    let inum := r.2 !!! 0%nat + 256 * r.2 !!! 1%nat in
    if inum =? 0 then ls_dir f fd path else
    let buf := path ++ [47] ++ to_nul (take DIRSIZ (drop 2 r.2)) in
    st ← ustat buf;
    match st with
    | None => uprintf 1 (str "ls: cannot stat %s" ++ nl) [AStr (Some buf)]
    | Some x => ls_line buf x
    end ;;
    ls_dir f fd path
  end.

Definition ls (fuel : nat) (path : list Z) : U W unit :=
  fd ← call (sys_open path 0);
  if fd <? 0 then uprintf 2 (str "ls: cannot open %s" ++ nl) [AStr (Some path)] else
  r ← call (sys_fstat fd);
  if r.1 <? 0 then uprintf 2 (str "ls: cannot stat %s" ++ nl) [AStr (Some path)] ;; call (sys_close fd) ;; mret tt else
  (if r.2.1.1 =? 2 then ls_line path r.2
   else if r.2.1.1 =? 1 then
     (if (512 <? length path + 1 + DIRSIZ + 1)%nat then uprintf 1 (str "ls: path too long" ++ nl) []
      else ls_dir fuel fd path)
   else mret tt) ;;
  call (sys_close fd) ;; mret tt.

Fixpoint ls_all (fuel : nat) (paths : list (list Z)) : U W unit :=
  match paths with [] => mret tt | p :: paths' => ls fuel p ;; ls_all fuel paths' end.
Definition ls_main (fuel : nat) (argv : list (list Z)) : U W unit :=
  match argv with
  | [] | [_] => ls fuel (str ".") ;; exit
  | _ :: paths => ls_all fuel paths ;; exit
  end.
End Programs.

(** ** Files *)

(** What the programs rely on: [f_in] is what is left to read of a
    descriptor, [f_out] what has been written to it. *)
Class Files (W : Type) {S : Sys W} : Type := {
  f_in : W -> Z -> list Z;
  f_out : W -> Z -> list Z;
  f_read fd n w : (0 < n)%nat -> exists k, (0 < k <= n)%nat /\ let r := sys_read fd n w in
    r.1 = (Z.of_nat (length (take k (f_in w fd))), take k (f_in w fd)) /\ f_in r.2 fd = drop k (f_in w fd) /\
    forall fd', f_out r.2 fd' = f_out w fd';
  f_write fd l w : let r := sys_write fd l w in
    r.1 = Z.of_nat (length l) /\ f_out r.2 fd = f_out w fd ++ l /\ (forall fd', fd' <> fd -> f_out r.2 fd' = f_out w fd') /\
    forall fd', f_in r.2 fd' = f_in w fd' }.

(** Reads that give all there is room for, as those of a regular file do. *)
Class FullReads (W : Type) {S : Sys W} {F : Files W} : Prop :=
  f_full fd n w : (0 < n)%nat -> let r := sys_read fd n w in
    r.1 = (Z.of_nat (length (take n (f_in w fd))), take n (f_in w fd)) /\ f_in r.2 fd = drop n (f_in w fd).

Section Proofs.
Context {W : Type} {S : Sys W} {F : Files W}.
Implicit Types (w : W).

(** Only descriptor [fd] is written, and [l] is what is added to it. *)
Definition wrote (fd : Z) (l : list Z) w w' : Prop :=
  f_out w' fd = f_out w fd ++ l /\ (forall fd', fd' <> fd -> f_out w' fd' = f_out w fd') /\ forall fd', f_in w' fd' = f_in w fd'.

Lemma uwrote_app fd l l' w1 w2 w3 : wrote fd l w1 w2 -> wrote fd l' w2 w3 -> wrote fd (l ++ l') w1 w3.
Proof.
  intros (A & B & C) (A' & B' & C'). split_and!; [by rewrite A', A, app_assoc|..].
  - intros fd' Hn. by rewrite B', B.
  - intros fd'. by rewrite C', C.
Qed.

Lemma uwrote_nil fd w : wrote fd [] w w.
Proof. split_and!; [by rewrite app_nil_r|done..]. Qed.

Lemma write_ok fd l w : exists w', call (sys_write fd l) w = UDone (Z.of_nat (length l)) w' /\ wrote fd l w w'.
Proof. destruct (f_write fd l w) as (E & H). eexists. unfold call. rewrite E. split; [reflexivity|exact H]. Qed.

Lemma uputall_ok fd l : forall w, exists w', putall fd l w = UDone tt w' /\ wrote fd l w w'.
Proof.
  induction l as [|c l IH]; intros w; cbn [putall]; [exists w; split; [done|apply uwrote_nil]|].
  destruct (write_ok fd [c] w) as (w1 & R1 & H1). destruct (IH w1) as (w2 & R2 & H2). exists w2.
  erewrite ubind_done by exact R1. split; [exact R2|exact (uwrote_app _ _ _ _ _ _ H1 H2)].
Qed.

Lemma uprintf_ok fd fmt ap l w : Format.printf fmt ap = Some l -> exists w', uprintf fd fmt ap w = UDone tt w' /\ wrote fd l w w'.
Proof. intros E. unfold uprintf. rewrite E. apply uputall_ok. Qed.

(** *** cat *)

Lemma cat_loop_ok fd n : forall w, (length (f_in w fd) < n)%nat ->
  exists w', cat_loop n fd w = UDone 0 w' /\ f_in w' fd = [] /\ f_out w' 1 = f_out w 1 ++ f_in w fd /\
    forall fd', fd' <> 1 -> f_out w' fd' = f_out w fd'.
Proof.
  induction n as [|n IH]; intros w Hn; [lia|]. cbn [cat_loop].
  destruct (f_read fd 512 w) as (k & Hk & Er & Ei & Eo); [lia|]. unfold call at 1. erewrite ubind_done by reflexivity. rewrite Er. cbn [fst snd].
  set (w1 := (sys_read fd 512 w).2) in *. destruct (f_in w fd) as [|c l] eqn:El.
  - rewrite take_nil. cbn. exists w1. rewrite Ei, drop_nil, app_nil_r, Eo. done.
  - rewrite (proj2 (Z.ltb_lt _ _)) by (rewrite length_take; cbn; lia).
    destruct (write_ok 1 (take k (c :: l)) w1) as (w2 & R2 & O2 & B2 & I2). erewrite ubind_done by exact R2. rewrite Z.eqb_refl. cbn [negb].
    destruct (IH w2) as (w' & R' & I' & O' & B'); [rewrite I2, Ei, length_drop; cbn in *; lia|]. exists w'.
    split_and!; [exact R'|exact I'| |].
    + by rewrite O', O2, I2, Ei, Eo, <- app_assoc, take_drop.
    + intros fd' Hd. by rewrite B', B2, Eo.
Qed.

(** cat copies what is left of the file to standard output, whatever the
    sizes of the reads. *)
Theorem cat_copies fd w : exists w', cat (Datatypes.S (length (f_in w fd))) fd w = UDone tt w' /\
  f_in w' fd = [] /\ f_out w' 1 = f_out w 1 ++ f_in w fd.
Proof.
  destruct (cat_loop_ok fd (Datatypes.S (length (f_in w fd))) w) as (w' & R & I & O & _); [lia|]. exists w'. unfold cat.
  erewrite ubind_done by exact R. done.
Qed.

(** *** wc *)

(** The pieces of a text between its spaces; a word is a piece that is not
    empty. *)
Fixpoint fields (l : list Z) : list (list Z) :=
  match l with
  | [] => [[]]
  | c :: l' =>
    if is_space c then [] :: fields l'
    else match fields l' with f :: fs => (c :: f) :: fs | [] => [[c]] end
  end.
Definition words (l : list Z) : Z := Z.of_nat (length (filter (fun f => f <> []) (fields l))).
Definition newlines (l : list Z) : Z := Z.of_nat (length (filter (fun c => c = 10) l)).

(** The words of [l] that start in it, when it is read inside a word or
    not. *)
Definition new_words (inside : bool) (l : list Z) : Z :=
  Z.of_nat (length (filter (fun f => f <> []) (if inside then drop 1 (fields l) else fields l))).

Lemma fields_nonempty l : exists f fs, fields l = f :: fs.
Proof. destruct l as [|c l]; cbn [fields]; [eauto|]. destruct (is_space c); [eauto|]. destruct (fields l); eauto. Qed.

Lemma new_words_nil b : new_words b [] = 0.
Proof. by destruct b. Qed.

Lemma new_words_cons b c l : new_words b (c :: l) =
  if is_space c then new_words false l else (if b then 0 else 1) + new_words true l.
Proof.
  unfold new_words. cbn [fields]. destruct (is_space c).
  - destruct b; cbn [drop]; [done|]. rewrite filter_cons, decide_False by (by intros []). done.
  - destruct (fields_nonempty l) as (f & fs & ->). destruct b; cbn [drop]; [done|]. rewrite filter_cons, decide_True by done. rewrite drop_0. cbn [length]. lia.
Qed.

Lemma new_words_bound b l : 0 <= new_words b l <= Z.of_nat (length l).
Proof.
  revert b. induction l as [|c l IH]; intros b; [unfold new_words; by destruct b|]. rewrite new_words_cons. cbn [length].
  pose proof (IH false). pose proof (IH true). destruct (is_space c), b; lia.
Qed.

Lemma newlines_cons c l : newlines (c :: l) = (if c =? 10 then 1 else 0) + newlines l.
Proof.
  unfold newlines. rewrite filter_cons. destruct (decide (c = 10)) as [->|Hn]; cbn [length]; [by change (10 =? 10) with true; lia|].
  by rewrite (proj2 (Z.eqb_neq c 10)).
Qed.

Lemma newlines_bound l : 0 <= newlines l <= Z.of_nat (length l).
Proof. induction l as [|c l IH]; [done|]. rewrite newlines_cons. cbn [length]. destruct (c =? 10); lia. Qed.

Lemma wc_fold l : forall k, 0 <= n_lines k -> 0 <= n_words k -> 0 <= n_chars k -> n_lines k <= n_chars k -> n_words k <= n_chars k ->
  n_chars k + Z.of_nat (length l) < 2 ^ 31 -> exists b,
  fold_left wc_byte l k = mkcounts (n_lines k + newlines l) (n_words k + new_words (inword k) l) (n_chars k + Z.of_nat (length l)) b /\
  forall l', new_words (inword k) (l ++ l') = new_words (inword k) l + new_words b l'.
Proof.
  induction l as [|c l IH]; intros k H1 H2 H3 H4 H5 Hb.
  - exists (inword k). split; [|intros l'; by rewrite new_words_nil]. rewrite new_words_nil. cbn [fold_left length].
    change (newlines []) with 0. change (Z.of_nat 0) with 0. rewrite !Z.add_0_r. by destruct k.
  - cbn [fold_left length] in *. assert (E : exists k', wc_byte k c = k' /\ n_lines k' = n_lines k + (if c =? 10 then 1 else 0) /\
      n_chars k' = n_chars k + 1 /\ inword k' = negb (is_space c) /\
      n_words k' = n_words k + (if is_space c then 0 else if inword k then 0 else 1)).
    { eexists. split; [reflexivity|]. unfold wc_byte. destruct (is_space c), (inword k), (c =? 10); cbn; rewrite ?i32_small by lia; split_and!; lia || done. }
    destruct E as (k' & -> & E1 & E2 & E3 & E4).
    destruct (IH k') as (b & R & A); [destruct (c =? 10); lia|destruct (is_space c), (inword k); lia|lia|destruct (c =? 10); lia|destruct (is_space c), (inword k); lia|lia|].
    exists b. rewrite R. split.
    + rewrite new_words_cons, newlines_cons, E1, E2, E3, E4. f_equal; [lia| |lia]. destruct (is_space c), (inword k); cbn [negb]; lia.
    + intros l'. rewrite E3 in A. cbn [app]. rewrite !new_words_cons. destruct (is_space c); cbn [negb] in A; rewrite A; lia.
Qed.

Lemma wc_loop_ok fd n : forall w k, (length (f_in w fd) < n)%nat ->
  0 <= n_lines k -> 0 <= n_words k -> 0 <= n_chars k -> n_lines k <= n_chars k -> n_words k <= n_chars k ->
  n_chars k + Z.of_nat (length (f_in w fd)) < 2 ^ 31 -> let l := f_in w fd in
  exists w' b, wc_loop n fd k w =
      UDone (0, mkcounts (n_lines k + newlines l) (n_words k + new_words (inword k) l) (n_chars k + Z.of_nat (length l)) b) w' /\
    forall fd', f_out w' fd' = f_out w fd'.
Proof.
  induction n as [|n IH]; intros w k Hn H1 H2 H3 H4 H5 Hb l; [lia|]. cbn [wc_loop].
  destruct (f_read fd 512 w) as (j & Hj & Er & Ei & Eo); [lia|]. unfold call at 1. erewrite ubind_done by reflexivity. rewrite Er. cbn [fst snd].
  set (w1 := (sys_read fd 512 w).2) in *. fold l in Er, Ei, Hb, Hn |- *. destruct (decide (l = [])) as [E0|Hne].
  - rewrite E0, take_nil. cbn. exists w1, (inword k). split; [|exact Eo]. rewrite new_words_nil. change (newlines []) with 0.
    rewrite !Z.add_0_r. by destruct k.
  - assert (Hlen : (0 < length (take j l) /\ length (take j l) + length (drop j l) = length l)%nat).
    { rewrite length_take, length_drop. destruct l; [done|cbn; lia]. }
    rewrite (proj2 (Z.ltb_lt _ _)) by lia.
    destruct (wc_fold (take j l) k) as (b & Ef & A); [lia..|]. rewrite Ef.
    pose proof (newlines_bound (take j l)). pose proof (new_words_bound (inword k) (take j l)).
    edestruct (IH w1 (mkcounts (n_lines k + newlines (take j l)) (n_words k + new_words (inword k) (take j l)) (n_chars k + Z.of_nat (length (take j l))) b))
      as (w' & b' & R & O); [rewrite Ei; lia|cbn; lia..|cbn; rewrite Ei; lia|].
    exists w', b'. rewrite R. cbn [n_lines n_words n_chars inword]. split; [|intros fd'; by rewrite O, Eo]. rewrite Ei.
    assert (Enl : newlines l = newlines (take j l) + newlines (drop j l)).
    { unfold newlines. rewrite <- (take_drop j l) at 1. rewrite filter_app, length_app. lia. }
    assert (Enw : new_words (inword k) l = new_words (inword k) (take j l) + new_words b (drop j l)) by (by rewrite <- A, take_drop).
    assert (Elen : Z.of_nat (length l) = Z.of_nat (length (take j l)) + Z.of_nat (length (drop j l))) by lia.
    by rewrite Enw, Enl, Elen, !Z.add_assoc.
Qed.

Lemma decimal_ok x : exists o, uprintint (i32 x) 10 true = Some o.
Proof.
  assert (Hb : 10 <= 10 <= Z.of_nat (length udigits)) by (vm_compute; split; discriminate).
  destruct (printint_ok udigits 10 (i32 x) true Hb (i32_range x)) as (o & E & _). eexists. exact E.
Qed.

(** printf, directive by directive. *)
Lemma printf_char c fmt ap : (c =? 0) || (c =? 37) = false -> Z.land c 255 = c ->
  printf_loop (c :: fmt) false ap = (r ← printf_loop fmt false ap; Some (c :: r)).
Proof. intros H E. apply orb_false_iff in H as [H0 H1]. cbn [printf_loop]. by rewrite H0, E, H1. Qed.

Lemma printf_d x fmt ap : printf_loop (37 :: 100 :: fmt) false (AWord x :: ap) =
  (o ← uprintint (i32 x) 10 true; r ← printf_loop fmt false ap; Some (o ++ r)).
Proof. reflexivity. Qed.

Lemma printf_s s fmt ap : printf_loop (37 :: 115 :: fmt) false (AStr s :: ap) = (r ← printf_loop fmt false ap; Some (default null_str s ++ r)).
Proof. reflexivity. Qed.

Lemma wc_report l wd c name : exists out, Format.printf (str "%d %d %d %s" ++ nl) [AWord l; AWord wd; AWord c; AStr (Some name)] = Some out.
Proof.
  destruct (decimal_ok l) as [o1 E1], (decimal_ok wd) as [o2 E2], (decimal_ok c) as [o3 E3]. unfold Format.printf.
  replace (str "%d %d %d %s" ++ nl) with [37; 100; 32; 37; 100; 32; 37; 100; 32; 37; 115; 10] by (by vm_compute).
  rewrite printf_d, printf_char, printf_d, printf_char, printf_d, printf_char, printf_s, printf_char by done.
  rewrite E1, E2, E3. eexists. reflexivity.
Qed.

(** wc counts: with a file of less than 2^31 bytes it ends and reports
    the number of newlines, of words (the pieces between blanks that are not
    empty) and of bytes, whatever the sizes of the reads. *)
Theorem wc_counts fd name w : let l := f_in w fd in Z.of_nat (length l) < 2 ^ 31 ->
  exists w' out, wc (Datatypes.S (length l)) fd name w = UDone tt w' /\ f_out w' 1 = f_out w 1 ++ out /\
    Format.printf (str "%d %d %d %s" ++ nl) [AWord (newlines l); AWord (words l); AWord (Z.of_nat (length l)); AStr (Some name)] = Some out.
Proof.
  intros l Hl. destruct (wc_loop_ok fd (Datatypes.S (length l)) w (mkcounts 0 0 0 false)) as (w1 & b & R & O); [fold l; lia|cbn [n_lines n_words n_chars]; fold l; lia..|].
  unfold wc. erewrite ubind_done by exact R. cbn [fst snd n_lines n_words n_chars inword]. change (0 <? 0) with false. cbv iota. rewrite !Z.add_0_l. fold l.
  change (new_words false l) with (words l). destruct (wc_report (newlines l) (words l) (Z.of_nat (length l)) name) as [out Ep].
  destruct (uprintf_ok 1 _ _ out w1 Ep) as (w2 & R2 & O2 & _). exists w2, out. split_and!; [exact R2|by rewrite O2, O|exact Ep].
Qed.

(** *** grep *)

(** The lines of a text and what follows the last newline. *)
Fixpoint split_lines (l : list Z) : list (list Z) * list Z :=
  match l with
  | [] => ([], [])
  | c :: l' =>
    let r := split_lines l' in
    if c =? 10 then ([] :: r.1, r.2)
    else match r.1 with x :: ls => ((c :: x) :: ls, r.2) | [] => ([], c :: r.2) end
  end.

(** What grep is to print: the lines that match, with their newlines. *)
Definition matching (pattern : list Z) (ls : list (list Z)) : list Z :=
  concat (map (fun l => l ++ [10]) (filter (fun l => match_ pattern l = true) ls)).

Lemma matching_app p a b : matching p (a ++ b) = matching p a ++ matching p b.
Proof. unfold matching. by rewrite filter_app, map_app, concat_app. Qed.

Lemma split_app x y : let r := split_lines x in let r' := split_lines (r.2 ++ y) in
  split_lines (x ++ y) = (r.1 ++ r'.1, r'.2).
Proof.
  cbv zeta. induction x as [|c x IH]; cbn [split_lines app]; [cbn [fst snd app]; by destruct (split_lines y)|].
  rewrite IH. cbn [fst snd]. destruct (c =? 10) eqn:Ec; [done|]. destruct (split_lines x) as [[|l ls] t]; cbn [fst snd app split_lines].
  - rewrite Ec. by destruct (split_lines (t ++ y)) as [[|l ls] t'].
  - done.
Qed.

Lemma split_nolines x : (split_lines x).1 = [] -> (split_lines x).2 = x.
Proof.
  induction x as [|c x IH]; cbn [split_lines]; [done|]. destruct (c =? 10); [done|]. destruct (split_lines x) as [[|l ls] t]; [|done].
  cbn in *. intros _. by rewrite IH.
Qed.

Lemma split_join x : concat (map (fun l => l ++ [10]) (split_lines x).1) ++ (split_lines x).2 = x.
Proof.
  induction x as [|c x IH]; cbn [split_lines]; [done|]. destruct (Z.eqb_spec c 10) as [->|].
  - cbn. by rewrite IH.
  - destruct (split_lines x) as [[|l ls] t]; cbn in *; by rewrite IH.
Qed.

Lemma split_tail x : (split_lines (split_lines x).2).1 = [].
Proof.
  induction x as [|c x IH]; cbn [split_lines]; [done|]. destruct (c =? 10) eqn:Ec; [exact IH|]. destruct (split_lines x) as [[|l ls] t]; [|exact IH].
  cbn [fst snd split_lines] in *. rewrite Ec, IH. done.
Qed.

(** strchr finds the end of the first line. *)
Lemma find_nl_ok b : Forall (fun c => c <> 0) b -> match (split_lines b).1 with
  | [] => find_nl b = None
  | l :: ls => find_nl b = Some (length l) /\ take (length l) b = l /\ take (length l + 1) b = l ++ [10] /\
      split_lines (drop (length l + 1) b) = (ls, (split_lines b).2)
  end.
Proof.
  induction b as [|c b IH]; cbn [split_lines find_nl]; [done|]. intros Hf. apply Forall_cons in Hf as [Hc Hf]. specialize (IH Hf).
  rewrite (proj2 (Z.eqb_neq c 0)) by done. destruct (Z.eqb_spec c 10) as [->|Hn].
  - cbn [fst snd length]. cbn. rewrite take_0, drop_0. by destruct (split_lines b).
  - destruct (split_lines b) as [[|l ls] t]; cbn [fst snd] in *; [by rewrite IH|]. destruct IH as (-> & H1 & H2 & H3). cbn. rewrite H1, H2. done.
Qed.

Lemma split_length x : (length (split_lines x).1 + length (split_lines x).2 <= length x)%nat.
Proof.
  induction x as [|c x IH]; cbn [split_lines]; [done|]. destruct (c =? 10); [cbn; lia|]. destruct (split_lines x) as [[|l ls] t]; cbn in *; lia.
Qed.

Lemma grep_scan_ok pattern ls : forall b n w, (split_lines b).1 = ls -> Forall (fun c => c <> 0) b -> (length ls <= n)%nat ->
  exists w', grep_scan pattern b n w = UDone (split_lines b).2 w' /\ wrote 1 (matching pattern ls) w w'.
Proof.
  induction ls as [|l ls IH]; intros b n w E Hb Hn; pose proof (find_nl_ok b Hb) as Hf; rewrite E in Hf.
  - exists w. split; [|apply uwrote_nil]. destruct n; cbn [grep_scan]; rewrite Hf, (split_nolines b E); done.
  - destruct Hf as (Hf & T1 & T2 & D). destruct n as [|n]; [cbn in Hn; lia|]. cbn [grep_scan]. rewrite Hf, T1, T2.
    assert (H1 : exists w1, (if match_ pattern l then call (sys_write 1 (l ++ [10])) ;; mret tt else mret tt) w = UDone tt w1 /\
      wrote 1 (matching pattern [l]) w w1).
    { unfold matching. rewrite filter_cons. cbn [filter list_filter]. destruct (match_ pattern l) eqn:Em.
      - rewrite decide_True by done. destruct (write_ok 1 (l ++ [10]) w) as (w1 & R1 & O1). exists w1. erewrite ubind_done by exact R1.
        cbn [map concat]. by rewrite app_nil_r.
      - rewrite decide_False by done. exists w. split; [done|apply uwrote_nil]. }
    destruct H1 as (w1 & R1 & O1). erewrite ubind_done by exact R1.
    destruct (IH (drop (length l + 1) b) n w1) as (w2 & R2 & O2); [by rewrite D|by apply Forall_drop|cbn in Hn; lia|].
    exists w2. rewrite R2, D. split; [done|]. change (l :: ls) with ([l] ++ ls). rewrite matching_app. exact (uwrote_app _ _ _ _ _ _ O1 O2).
Qed.

(** Every line fits the buffer with its newline and the nul. *)
Definition short_lines (x : list Z) : Prop := Forall (fun l => (length l <= 1022)%nat) (split_lines x).1.

Lemma short_tail x y : short_lines (x ++ y) -> short_lines ((split_lines x).2 ++ y).
Proof. unfold short_lines. rewrite split_app. cbn [fst]. intros H. by apply Forall_app in H as [_ H]. Qed.

(** A full buffer without a newline is followed by no newline at all. *)
Lemma long_nolines x y : short_lines (x ++ y) -> (split_lines x).1 = [] -> (1023 <= length x)%nat -> (split_lines (x ++ y)).1 = [] /\ (split_lines y).1 = [].
Proof.
  intros Hs Hn Hl. assert (E : (split_lines (x ++ y)).1 = []).
  { unfold short_lines in Hs. destruct (split_lines (x ++ y)) as [[|l ls] t] eqn:Es; [done|]. exfalso. apply Forall_cons in Hs as [Hs _].
    assert (Hp : x = take (length x) (l ++ [10] ++ concat (map (fun l => l ++ [10]) ls) ++ t)).
    { pose proof (split_join (x ++ y)) as J. rewrite Es in J. cbn in J. rewrite <- !app_assoc in J. cbn [app] in J |- *. rewrite J. by rewrite take_app_length. }
    assert (H10 : 10 ∈ x).
    { rewrite Hp. apply (list_elem_of_lookup_2 _ (length l)). rewrite lookup_take_lt by lia. rewrite lookup_app_r by lia. by rewrite Nat.sub_diag. }
    assert (H0 : forall z, 10 ∈ z -> (split_lines z).1 <> []); [|by apply (H0 x)].
    intros z. induction z as [|c z IH]; [by intros ?%elem_of_nil|]. intros [<-|Hz]%elem_of_cons; cbn [split_lines]; [done|].
    destruct (c =? 10); [done|]. specialize (IH Hz). by destruct (split_lines z) as [[|??] ?]. }
  split; [done|]. pose proof (split_app x y) as Es. cbv zeta in Es. rewrite Hn, (split_nolines x Hn) in Es.
  clear -E. revert E. induction x as [|c x IH]; cbn [app split_lines]; [done|]. destruct (c =? 10); [done|].
  destruct (split_lines (x ++ y)) as [[|l ls] t]; [|done]. intros _. by apply IH.
Qed.

Lemma grep_loop_ok {FR : FullReads W} pattern fd n : forall b w, (length (f_in w fd) < n)%nat -> (length b <= 1022)%nat -> (split_lines b).1 = [] ->
  Forall (fun c => c <> 0) (b ++ f_in w fd) -> short_lines (b ++ f_in w fd) ->
  exists w', grep_loop n pattern fd b w = UDone tt w' /\ f_in w' fd = [] /\
    f_out w' 1 = f_out w 1 ++ matching pattern (split_lines (b ++ f_in w fd)).1.
Proof.
  induction n as [|n IH]; intros b w Hn Hb Hl Hz Hs; [lia|]. cbn [grep_loop].
  destruct (f_full fd (1024 - length b - 1) w) as [Er Ei]; [lia|]. destruct (f_read fd (1024 - length b - 1) w) as (_ & _ & _ & _ & Eo); [lia|].
  unfold call at 1. erewrite ubind_done by reflexivity. rewrite Er. cbn [fst snd]. set (w1 := (sys_read _ _ w).2) in *.
  set (c := take _ (f_in w fd)) in *. set (y := drop _ (f_in w fd)) in *. assert (Ecy : f_in w fd = c ++ y) by (unfold c, y; by rewrite take_drop).
  destruct (decide (f_in w fd = [])) as [E0|Hne].
  { assert (c = []) as -> by (unfold c; by rewrite E0, take_nil). cbn. exists w1. rewrite Ei. unfold y. rewrite E0, drop_nil, !app_nil_r, Hl, Eo.
    split_and!; [done..|]. cbn. by rewrite app_nil_r. }
  assert (Hc : (0 < length c <= 1023 - length b)%nat) by (unfold c; rewrite length_take; destruct (f_in w fd); [done|cbn; lia]).
  assert (Hy : (length y < length (f_in w fd))%nat) by (rewrite Ecy, length_app; lia).
  rewrite (proj2 (Z.ltb_lt _ _)) by lia. rewrite Ecy, app_assoc in Hz, Hs |- *. set (x := b ++ c) in *.
  apply Forall_app in Hz as [Hzx Hzy]. destruct (grep_scan_ok pattern _ x (length x) w1 eq_refl Hzx) as (w2 & R2 & O2 & _ & I2).
  { pose proof (split_length x). lia. }
  erewrite ubind_done by exact R2. specialize (I2 fd). rewrite Ei in I2.
  assert (Hx : (length x <= 1023)%nat) by (unfold x; rewrite length_app; lia). pose proof (split_length x) as Hsl.
  destruct (Nat.eqb_spec (length (split_lines x).2) (length x)) as [El|El].
  - assert (En : (split_lines x).1 = []) by (apply nil_length_inv; lia).
    assert (Hyn : (split_lines (x ++ y)).1 = (split_lines y).1).
    { destruct y as [|c0 y0] eqn:Ey; [by rewrite app_nil_r, En|].
      assert (Hfull : (1023 <= length x)%nat).
      { unfold x. rewrite length_app. assert (length c = 1024 - length b - 1)%nat; [|lia]. unfold c. rewrite length_take.
        assert (0 < length (drop (1024 - length b - 1) (f_in w fd)))%nat by (fold y; rewrite Ey; cbn; lia). rewrite length_drop in *. lia. }
      destruct (long_nolines x (c0 :: y0) Hs En Hfull) as [-> ->]. done. }
    destruct (IH [] w2) as (w' & R' & I' & O');
      [rewrite I2; lia|cbn; lia|done|rewrite I2; exact Hzy|rewrite I2; unfold short_lines in *; cbn [app]; by rewrite <- Hyn|].
    exists w'. split_and!; [exact R'|exact I'|]. rewrite O', O2, Eo, I2, En, Hyn. cbn. by rewrite app_nil_r.
  - assert (Hnn : (split_lines x).1 <> []) by (intros E; apply El; by rewrite split_nolines).
    destruct (IH (split_lines x).2 w2) as (w' & R' & I' & O').
    all: rewrite ?I2.
    + lia.
    + destruct (split_lines x).1; [done|cbn in Hsl; lia].
    + apply split_tail.
    + apply Forall_app. split; [|done]. pose proof (split_join x) as J. rewrite <- J in Hzx. by apply Forall_app in Hzx as [_ ?].
    + by apply short_tail.
    + exists w'. split_and!; [exact R'|exact I'|]. rewrite O', O2, Eo, I2, (split_app x y). cbn [fst]. by rewrite matching_app, app_assoc.
Qed.

(** grep prints the lines that match: on a file whose reads are full,
    without nul bytes and with lines of at most 1022 bytes, it ends and has
    written exactly the lines (the pieces that end in a newline) that match
    the pattern, in order and with their newlines. *)
Theorem grep_prints_matching_lines {FR : FullReads W} pattern fd w : let l := f_in w fd in
  Forall (fun c => c <> 0) l -> short_lines l ->
  exists w', grep (Datatypes.S (length l)) pattern fd w = UDone tt w' /\ f_in w' fd = [] /\
    f_out w' 1 = f_out w 1 ++ matching pattern (split_lines l).1.
Proof. intros l Hz Hs. apply (grep_loop_ok pattern fd _ [] w); [unfold l; lia|cbn; lia|done|exact Hz|exact Hs]. Qed.
End Proofs.

(** ** Two worlds *)

(** The rest of descriptor 0, the sizes the next reads of a pipe are limited
    to (one less each), and what has been written to each descriptor. *)
Record world : Type := mkworld { w_in : list Z; w_sizes : list nat; w_out : Z -> list Z }.

Definition world_take (k : nat) (w : world) : (Z * list Z) * world :=
  ((Z.of_nat (length (take k (w_in w))), take k (w_in w)), mkworld (drop k (w_in w)) (drop 1 (w_sizes w)) (w_out w)).

(** A file gives all there is room for, a pipe what has arrived. *)
Definition file_read (fd : Z) (n : nat) (w : world) : (Z * list Z) * world := if fd =? 0 then world_take n w else ((0, []), w).
Definition pipe_read (fd : Z) (n : nat) (w : world) : (Z * list Z) * world :=
  if fd =? 0 then world_take (match w_sizes w with c :: _ => Nat.min n (S c) | [] => n end) w else ((0, []), w).

Definition world_sys (read : Z -> nat -> world -> (Z * list Z) * world) : Sys world := {|
  sys_read := read;
  sys_write fd l w := (Z.of_nat (length l), mkworld (w_in w) (w_sizes w) (fun fd' => if fd' =? fd then w_out w fd ++ l else w_out w fd'));
  sys_open _ _ w := (-1, w); sys_close _ w := (0, w); sys_fstat _ w := ((-1, (0, 0, 0)), w);
  sys_mkdir _ w := (-1, w); sys_mknod _ _ _ w := (-1, w); sys_unlink _ w := (-1, w); sys_link _ _ w := (-1, w);
  sys_dup _ w := (-1, w); sys_kill _ w := (-1, w); sys_sleep _ w := (0, w);
  sys_fork w := (-1, w); sys_wait w := (-1, w); sys_exec _ _ w := (Some (-1), w) |}.

Definition pipe_sys : Sys world := world_sys pipe_read.
Definition file_sys : Sys world := world_sys file_read.

Definition world_in (w : world) (fd : Z) : list Z := if fd =? 0 then w_in w else [].

Lemma world_read_ok fd n k w : (0 < k <= n)%nat -> let r := if fd =? 0 then world_take k w else ((0, []), w) in
  r.1 = (Z.of_nat (length (take k (world_in w fd))), take k (world_in w fd)) /\ world_in r.2 fd = drop k (world_in w fd) /\
  forall fd', w_out r.2 fd' = w_out w fd'.
Proof. intros Hk. unfold world_in. cbv zeta. destruct (fd =? 0); [done|]. by rewrite take_nil, drop_nil. Qed.

Lemma world_write_ok read fd l w : let r := @sys_write _ (world_sys read) fd l w in
  r.1 = Z.of_nat (length l) /\ w_out r.2 fd = w_out w fd ++ l /\ (forall fd', fd' <> fd -> w_out r.2 fd' = w_out w fd') /\
  forall fd', world_in r.2 fd' = world_in w fd'.
Proof. cbn. rewrite Z.eqb_refl. split_and!; [done..| |done]. intros fd' Hn. by rewrite (proj2 (Z.eqb_neq fd' fd)). Qed.

#[local] Instance pipe_files : @Files world pipe_sys.
Proof.
  refine {| f_in := world_in; f_out := w_out |}; [|apply world_write_ok]. intros fd n w Hn.
  exists (match w_sizes w with c :: _ => Nat.min n (S c) | [] => n end). destruct (w_sizes w) eqn:E.
  - split; [lia|]. cbn. unfold pipe_read. rewrite E. apply (world_read_ok fd n). lia.
  - split; [lia|]. cbn. unfold pipe_read. rewrite E. apply (world_read_ok fd n). lia.
Defined.

#[local] Instance file_files : @Files world file_sys.
Proof.
  refine {| f_in := world_in; f_out := w_out |}; [|apply world_write_ok]. intros fd n w Hn. exists n. split; [lia|]. apply (world_read_ok fd n). lia.
Defined.

#[local] Instance file_full : @FullReads world file_sys file_files.
Proof. intros fd n w Hn. destruct (world_read_ok fd n n w) as (E1 & E2 & _); [lia|]. done. Qed.

Lemma scan_none {W} {S : Sys W} pattern b n (w : W) : find_nl b = None -> grep_scan pattern b n w = UDone b w.
Proof. intros E. destruct n; cbn [grep_scan]; by rewrite E. Qed.

Lemma split_line l : Forall (fun x => x <> 0 /\ x <> 10) l -> split_lines l = ([], l) /\ split_lines (l ++ [10]) = ([l], []).
Proof.
  induction l as [|c l IH]; [done|]. intros Hf. apply Forall_cons in Hf as [[_ Hc] Hf]. destruct (IH Hf) as [E1 E2].
  cbn [app split_lines]. rewrite E1, E2. by rewrite (proj2 (Z.eqb_neq c 10)).
Qed.

(** grep loses text that arrives in pieces: when a read gives the first
    part of a line and no newline, as a read from a pipe can, grep throws
    the part away; it prints nothing although the line matches. *)
Theorem grep_loses_partial_line a c b pattern : let w := mkworld ((a ++ [c]) ++ b ++ [10]) [length a] (fun _ => []) in
  Forall (fun x => x <> 0 /\ x <> 10) (a ++ [c]) -> Forall (fun x => x <> 0 /\ x <> 10) b -> (length a <= 1022)%nat -> (length b <= 1022)%nat ->
  match_ pattern b = false -> match_ pattern ((a ++ [c]) ++ b) = true ->
  (exists w', @grep world pipe_sys 3 pattern 0 w = UDone tt w' /\ w_out w' 1 = []) /\
  matching pattern (split_lines ((a ++ [c]) ++ b ++ [10])).1 = (a ++ [c]) ++ b ++ [10].
Proof.
  intros w Ha Hb La Lb Nb Ny. assert (Hz : forall l, Forall (fun x => x <> 0 /\ x <> 10) l -> Forall (fun x => x <> 0) l).
  { intros l Hl. eapply Forall_impl; [exact Hl|]. by intros x [? _]. }
  assert (Hab : Forall (fun x => x <> 0 /\ x <> 10) ((a ++ [c]) ++ b)) by (apply Forall_app; done).
  destruct (split_line _ Ha) as [Ea _], (split_line b Hb) as [_ Eb], (split_line _ Hab) as [_ Eab]. split.
  2: { rewrite app_assoc, Eab. unfold matching. cbn [fst]. rewrite filter_cons, decide_True by done. cbn. by rewrite app_nil_r. }
  unfold grep. cbn [grep_loop]. set (w1 := mkworld (b ++ [10]) [] (fun _ => [])).
  assert (R1 : call (sys_read (Sys := pipe_sys) 0 (1024 - length (@nil Z) - 1)) w = UDone (Z.of_nat (length (a ++ [c])), a ++ [c]) w1).
  { unfold call. cbn [sys_read pipe_sys world_sys]. unfold pipe_read, world_take, w. cbn [Z.eqb w_sizes w_in w_out fst snd].
    replace (1024 - length (@nil Z) - 1)%nat with 1023%nat by done. rewrite Nat.min_r by lia.
    assert (El : S (length a) = length (a ++ [c])) by (rewrite length_app; cbn; lia). rewrite El, take_app_length, drop_app_length. done. }
  erewrite ubind_done by exact R1. cbn [fst snd app]. rewrite (proj2 (Z.ltb_lt _ _)) by (rewrite length_app; cbn; lia).
  pose proof (find_nl_ok (a ++ [c]) (Hz _ Ha)) as Fa. rewrite Ea in Fa. cbn [fst] in Fa.
  erewrite ubind_done by (apply scan_none; exact Fa). rewrite Nat.eqb_refl.
  assert (R2 : call (sys_read (Sys := pipe_sys) 0 (1024 - length (@nil Z) - 1)) w1 = UDone (Z.of_nat (length (b ++ [10])), b ++ [10]) (mkworld [] [] (fun _ => []))).
  { unfold call. cbn [sys_read pipe_sys world_sys]. unfold pipe_read, world_take, w1. cbn [Z.eqb w_sizes w_in w_out fst snd].
    replace (1024 - length (@nil Z) - 1)%nat with 1023%nat by done. rewrite take_ge, drop_ge by (rewrite length_app; cbn; lia). done. }
  erewrite ubind_done by exact R2. cbn [fst snd app]. rewrite (proj2 (Z.ltb_lt _ _)) by (rewrite length_app; cbn; lia).
  assert (Fb : Forall (fun x => x <> 0) (b ++ [10])) by (apply Forall_app; split; [by apply Hz|by repeat constructor]).
  pose proof (find_nl_ok (b ++ [10]) Fb) as Fn. rewrite Eb in Fn. cbn [fst snd] in Fn. destruct Fn as (Fn & T1 & _ & _).
  assert (R3 : grep_scan (S := pipe_sys) pattern (b ++ [10]) (length (b ++ [10])) (mkworld [] [] (fun _ => [])) = UDone [] (mkworld [] [] (fun _ => []))).
  { replace (length (b ++ [10])) with (S (length b)) by (rewrite length_app; cbn; lia). cbn [grep_scan]. rewrite Fn, T1, Nb.
    erewrite ubind_done by reflexivity. rewrite drop_ge by (rewrite length_app; cbn; lia). by apply scan_none. }
  erewrite ubind_done by exact R3. eexists. split; [destruct (Nat.eqb (length (@nil Z)) (length (b ++ [10]))); reflexivity|done].
Qed.

Definition demo_text : list Z := str "the cat" ++ nl ++ str "a dog" ++ nl ++ str "cut".
Definition demo_world : world := mkworld demo_text [] (fun _ => []).

Lemma wc_counts_witness : exists w', @wc world pipe_sys 18 0 (str "f") (mkworld demo_text [3; 0; 6]%nat (fun _ => [])) = UDone tt w' /\
  w_out w' 1 = str "2 5 17 f" ++ nl.
Proof.
  destruct (wc_counts (S := pipe_sys) (F := pipe_files) 0 (str "f") (mkworld demo_text [3; 0; 6]%nat (fun _ => []))) as (w' & out & R & O & E); [by vm_compute|].
  exists w'. split; [exact R|]. etrans; [exact O|]. change (f_out _ 1) with (@nil Z). cbn [app]. apply (inj Some). rewrite <- E. by vm_compute.
Defined.

Lemma grep_prints_matching_lines_witness : exists w', @grep world file_sys 18 (str "c.t") 0 demo_world = UDone tt w' /\ w_out w' 1 = str "the cat" ++ nl.
Proof.
  destruct (grep_prints_matching_lines (S := file_sys) (F := file_files) (str "c.t") 0 demo_world) as (w' & R & _ & O).
  - apply Forall_forall. intros x Hx. apply (list_elem_of_In) in Hx. vm_compute in Hx. intuition (subst; discriminate).
  - apply (bool_decide_unpack _). by vm_compute.
  - exists w'. split; [exact R|]. etrans; [exact O|]. by vm_compute.
Defined.

Lemma grep_loses_partial_line_witness : exists w', @grep world pipe_sys 3 (str "abc") 0 (mkworld (str "abc" ++ nl) [1%nat] (fun _ => [])) = UDone tt w' /\ w_out w' 1 = [].
Proof.
  refine (proj1 (grep_loses_partial_line (str "a") 98 (str "c") (str "abc") _ _ _ _ _ _)).
  - apply (bool_decide_unpack _). by vm_compute.
  - apply (bool_decide_unpack _). by vm_compute.
  - cbn. lia.
  - cbn. lia.
  - by vm_compute.
  - by vm_compute.
Defined.
