(* ===== verification/Sh.v ===== *)
(** * The parser of the shell: sh.c

    A command line is the bytes before its nul; a pointer into it is an
    index.  The parser threads the pointer *ps as its state, panics with the
    shell's messages, and builds the command nodes of the source; argument
    and file names are kept as the pairs of pointers (q, eq) until
    nulterminate stores the nuls.  The theorems: the parser always ends; the
    names of what it returns are words of the line, and nulterminate turns
    each of them into the string the line has there; every command can be
    written down, and parsing it gives it back. *)

From stdpp Require Import base list sets strings.
From Stdlib Require Import ZArith Lia.
From S2P Require Import Prelude.

Local Open Scope Z_scope.

Definition MAXARGS : nat := 10.
Definition O_RDONLY : Z := 0.
Definition O_WRONLY : Z := 1.
Definition O_CREATE : Z := 512.

(** " \t\r\n\v" and "<|>&;()" *)
Definition whitespace : list Z := [32; 9; 13; 10; 11].
Definition symbols : list Z := [60; 124; 62; 38; 59; 40; 41].

(** strchr(l, c) as a test: the nul of the literal is not found. *)
Definition strchr (l : list Z) (c : Z) : bool := existsb (Z.eqb c) l.

(** The nodes; a word is (q, eq).  A node of type EXEC holds its argv. *)
Inductive cmd : Type :=
| EXEC (argv : list (nat * nat))
| REDIR (c : cmd) (file efile : nat) (mode fd : Z)
| PIPE (left right : cmd)
| LIST (left right : cmd)
| BACK (c : cmd).

(** Storing an argument through the pointer to the exec node that the
    redirections are wrapped around. *)
Fixpoint push_arg (c : cmd) (w : nat * nat) : cmd :=
  match c with
  | EXEC argv => EXEC (argv ++ [w])
  | REDIR c' q eq mode fd => REDIR (push_arg c' w) q eq mode fd
  | _ => c
  end.

(** The length of the run of bytes that satisfy a test. *)
Fixpoint run (f : Z -> bool) (l : list Z) : nat :=
  match l with [] => O | c :: l' => if f c then S (run f l') else O end.

Definition is_word (c : Z) : bool := negb (strchr whitespace c) && negb (strchr symbols c).

Section Parser.
Variable buf : list Z.
Notation PM := (M nat).

(** The byte at an index, the nul at the end. *)
Definition at_ (i : nat) : Z := default 0 (buf !! i).
Definition skip (f : Z -> bool) (s : nat) : nat := (s + run f (drop s buf))%nat.

(** The token's code (0 at the end, 97 for a word), q and eq. *)
Definition gettoken : PM (Z * nat * nat) := fun ps =>
  let s := skip (strchr whitespace) ps in
  let c := at_ s in
  let r :=
    if c =? 0 then (0, s)
    else if strchr [124; 40; 41; 59; 38; 60] c then (c, S s)
    else if c =? 62 then (if at_ (S s) =? 62 then (43, S (S s)) else (62, S s))
    else (97, skip is_word s) in
  Ret (r.1, s, r.2) (skip (strchr whitespace) r.2).

Definition peek (toks : list Z) : PM bool := fun ps =>
  let s := skip (strchr whitespace) ps in
  Ret (negb (at_ s =? 0) && strchr toks (at_ s)) s.

(** The inner loops take a round per token at most. *)
Fixpoint parseredirs (fuel : nat) (c : cmd) : PM cmd :=
  match fuel with
  | O => nofuel
  | S f =>
    b ← peek [60; 62];
    if (b : bool) then
      t ← gettoken;
      w ← gettoken;
      if negb (w.1.1 =? 97) then panic "missing file for redirection" else
      parseredirs f
        (if t.1.1 =? 60 then REDIR c w.1.2 w.2 O_RDONLY 0
         else if t.1.1 =? 62 then REDIR c w.1.2 w.2 (Z.lor O_WRONLY O_CREATE) 1
         else if t.1.1 =? 43 then REDIR c w.1.2 w.2 (Z.lor O_WRONLY O_CREATE) 1
         else c)
    else mret c
  end.

Definition redirs (c : cmd) : PM cmd := parseredirs (S (length buf)) c.

(** The loop of parseexec over the arguments; [argc] have been stored. *)
Fixpoint parseargs (fuel : nat) (ret : cmd) (argc : nat) : PM cmd :=
  match fuel with
  | O => nofuel
  | S f =>
    b ← peek [124; 41; 38; 59];
    if (b : bool) then mret ret else
    t ← gettoken;
    if t.1.1 =? 0 then mret ret else
    if negb (t.1.1 =? 97) then panic "syntax" else
    let ret := push_arg ret (t.1.2, t.2) in
    if (MAXARGS <=? S argc)%nat then panic "too many args" else
    ret ← redirs ret;
    parseargs f ret (S argc)
  end.

(** The loop of parseline over the ampersands. *)
Fixpoint parseback (fuel : nat) (c : cmd) : PM cmd :=
  match fuel with
  | O => nofuel
  | S f => b ← peek [38]; if (b : bool) then gettoken ;; parseback f (BACK c) else mret c
  end.

Fixpoint parseline (fuel : nat) : PM cmd :=
  match fuel with
  | O => nofuel
  | S f =>
    c ← parsepipe f;
    c ← parseback (S (length buf)) c;
    b ← peek [59];
    if (b : bool) then gettoken ;; r ← parseline f; mret (LIST c r) else mret c
  end
with parsepipe (fuel : nat) : PM cmd :=
  match fuel with
  | O => nofuel
  | S f =>
    c ← parseexec f;
    b ← peek [124];
    if (b : bool) then gettoken ;; r ← parsepipe f; mret (PIPE c r) else mret c
  end
with parseexec (fuel : nat) : PM cmd :=
  match fuel with
  | O => nofuel
  | S f =>
    b ← peek [40];
    if (b : bool) then parseblock f else
    ret ← redirs (EXEC []);
    parseargs (S (length buf)) ret 0
  end
with parseblock (fuel : nat) : PM cmd :=
  match fuel with
  | O => nofuel
  | S f =>
    b ← peek [40];
    if negb b then panic "parseblock" else
    gettoken ;;
    c ← parseline f;
    b ← peek [41];
    if negb b then panic "syntax - missing )" else
    gettoken ;;
    redirs c
  end.

(** A recursive call consumes a token or goes down one of four levels. *)
Definition parse_fuel : nat := 4 * length buf + 4.
End Parser.

(** nulterminate stores a nul at the end of every word. *)
Fixpoint nulterminate (c : cmd) (b : list Z) : list Z :=
  match c with
  | EXEC argv => fold_left (fun b w => <[w.2 := 0]> b) argv b
  | REDIR c' _ efile _ _ => <[efile := 0]> (nulterminate c' b)
  | PIPE l r | LIST l r => nulterminate r (nulterminate l b)
  | BACK c' => nulterminate c' b
  end.

(** parsecmd on the line [buf]; the result has the nuls stored in the line
    and its own nul. *)
Definition parsecmd (buf : list Z) : outcome nat (cmd * list Z) :=
  (c ← parseline buf (parse_fuel buf);
   peek buf [] ;;
   s ← gets id;
   if negb (s =? length buf)%nat then panic "syntax" else
   mret (c, nulterminate c (buf ++ [0]))) 0%nat.

(** ** The parser ends, and its words are words of the line *)

Lemma symbol_codes c : strchr [124; 40; 41; 59; 38; 60] c = true -> c <> 0 /\ c <> 97.
Proof. unfold strchr. cbn [existsb]. rewrite !orb_true_iff, !Z.eqb_eq. lia. Qed.

Lemma word_codes c : strchr [124; 40; 41; 59; 38; 60] c = false -> c <> 62 -> strchr symbols c = false.
Proof. unfold strchr, symbols. cbn [existsb]. rewrite !orb_false_iff, !Z.eqb_neq. lia. Qed.

Lemma not_symbol c : strchr symbols c = false -> strchr [124; 40; 41; 59; 38; 60] c = false /\ c <> 62.
Proof. unfold strchr, symbols. cbn [existsb]. rewrite !orb_false_iff, !Z.eqb_neq. lia. Qed.

(** What the parser says about a line it rejects. *)
Definition complaints : list string := ["syntax"; "missing file for redirection"; "syntax - missing )"; "too many args"]%string.
Ltac complain := match goal with |- ?g => let h := eval hnf in g in change h end; unfold complaints; repeat first [by left|right].

Section Ends.
Variable buf : list Z.
Hypothesis Hnz : Forall (fun c => c <> 0) buf.
Notation n := (length buf).

(** The routine ends at [p']: it returns what satisfies [Q], or panics with
    one of the parser's complaints. *)
Definition ends {A} (m : M nat A) (p : nat) (Q : A -> nat -> Prop) : Prop :=
  match m p with Ret a p' => Q a p' | Panic msg => msg ∈ complaints | _ => False end.

Lemma ends_bind {A B} (m : M nat A) (f : A -> M nat B) p Q : ends m p (fun a p' => ends (f a) p' Q) -> ends (mbind f m) p Q.
Proof. unfold ends, mbind, M_bind. by destruct (m p). Qed.

Lemma ends_ret {A B} (m : M nat A) (f : A -> M nat B) p a p' Q : m p = Ret a p' -> ends (f a) p' Q -> ends (mbind f m) p Q.
Proof. intros E H. apply ends_bind. unfold ends at 1. by rewrite E. Qed.

Lemma ends_mono {A} (m : M nat A) p (Q R : A -> nat -> Prop) : ends m p Q -> (forall a p', Q a p' -> R a p') -> ends m p R.
Proof. unfold ends. destruct (m p); naive_solver. Qed.

(** A word of the line: a longest run of word bytes. *)
Definition word_ok (q eq : nat) : Prop :=
  (q < eq <= n)%nat /\ (forall i, (q <= i < eq)%nat -> is_word (at_ buf i) = true) /\ (eq = n \/ is_word (at_ buf eq) = false).

Fixpoint cmd_ok (c : cmd) : Prop :=
  match c with
  | EXEC argv => Forall (fun w => word_ok w.1 w.2) argv /\ (length argv <= 9)%nat
  | REDIR c' q eq mode fd => cmd_ok c' /\ word_ok q eq /\ ((mode = O_RDONLY /\ fd = 0) \/ (mode = Z.lor O_WRONLY O_CREATE /\ fd = 1))
  | PIPE l r | LIST l r => cmd_ok l /\ cmd_ok r
  | BACK c' => cmd_ok c'
  end.

Lemma run_le f l : (run f l <= length l)%nat.
Proof. induction l as [|c l IH]; cbn; [lia|]. destruct (f c); lia. Qed.

Lemma run_true f l i c : (i < run f l)%nat -> l !! i = Some c -> f c = true.
Proof.
  revert i. induction l as [|x l IH]; intros [|i]; cbn [run]; [done|done|..]; destruct (f x) eqn:E; try lia.
  - by intros _ [= <-].
  - intros Hi Hl. apply (IH i); [lia|done].
Qed.

Lemma run_stop f l c : l !! run f l = Some c -> f c = false.
Proof. induction l as [|x l IH]; cbn [run]; [done|]. destruct (f x) eqn:E; [exact IH|]. by intros [= <-]. Qed.

Lemma skip_le f s : (s <= n)%nat -> (s <= skip buf f s <= n)%nat.
Proof. intros Hs. unfold skip. pose proof (run_le f (drop s buf)). rewrite length_drop in *. lia. Qed.

Lemma at_lookup i c : buf !! i = Some c -> at_ buf i = c.
Proof. intros E. unfold at_. by rewrite E. Qed.

Lemma at_nz i : at_ buf i <> 0 <-> (i < n)%nat.
Proof.
  split.
  - intros H. apply Nat.lt_nge. intros Hge. apply H. unfold at_. by rewrite lookup_ge_None_2.
  - intros [c Hc]%lookup_lt_is_Some. rewrite (at_lookup i c Hc). rewrite Forall_lookup in Hnz. by apply (Hnz i).
Qed.

Lemma skip_idem f s : skip buf f (skip buf f s) = skip buf f s.
Proof.
  unfold skip. set (s' := (s + run f (drop s buf))%nat). enough (run f (drop s' buf) = 0%nat) by lia.
  destruct (drop s' buf) as [|c l] eqn:E; [done|]. cbn [run]. rewrite (run_stop f (drop s buf) c); [done|].
  assert (H0 : drop s' buf !! 0%nat = Some c) by (by rewrite E). rewrite lookup_drop, Nat.add_0_r in H0. by rewrite lookup_drop.
Qed.

Lemma skip_word s : (s < n)%nat -> is_word (at_ buf s) = true -> word_ok s (skip buf is_word s).
Proof.
  intros Hs Hw. pose proof (skip_le is_word s ltac:(lia)) as Hle. unfold word_ok. split; [|split].
  - split; [|lia]. unfold skip. destruct (lookup_lt_is_Some_2 buf s Hs) as [c Hc]. rewrite (at_lookup s c Hc) in Hw.
    rewrite (drop_S _ c _ Hc). cbn [run]. rewrite Hw. lia.
  - intros i Hi. destruct (lookup_lt_is_Some_2 buf i) as [c Hc]; [lia|]. rewrite (at_lookup i c Hc).
    apply (run_true is_word (drop s buf) (i - s) c); [unfold skip in *; lia|]. rewrite lookup_drop. by replace (s + (i - s))%nat with i by lia.
  - destruct (decide (skip buf is_word s = n)) as [|Hne]; [by left|right]. destruct (lookup_lt_is_Some_2 buf (skip buf is_word s)) as [c Hc]; [lia|].
    rewrite (at_lookup _ c Hc). apply (run_stop is_word (drop s buf)). by rewrite lookup_drop.
Qed.

(** What a token is: nothing at the end, else at least a byte; a word is a
    word. *)
Lemma gettoken_ok p : (p <= n)%nat -> ends (gettoken buf) p (fun t p' =>
  (p <= t.1.2 <= t.2)%nat /\ (t.2 <= p' <= n)%nat /\ (t.1.1 = 0 -> t.1.2 = n) /\ (t.1.1 <> 0 -> (p < p')%nat) /\
  (t.1.1 = 97 -> word_ok t.1.2 t.2) /\ (at_ buf (skip buf (strchr whitespace) p) = 0 -> t.1.1 = 0) /\
  (t.1.1 = 0 -> at_ buf (skip buf (strchr whitespace) p) = 0)).
Proof.
  intros Hp. unfold ends, gettoken. set (s := skip buf (strchr whitespace) p).
  assert (Hs : (p <= s <= n)%nat) by (by apply skip_le).
  destruct (Z.eqb_spec (at_ buf s) 0) as [E0|E0]; cbn [fst snd].
  { pose proof (skip_le (strchr whitespace) s ltac:(lia)). split_and!; try done; try lia.
    intros _. destruct (decide (s = n)); [done|]. by destruct (proj2 (at_nz s) ltac:(lia)). }
  apply at_nz in E0. assert (Hone : forall c, c <> 0 -> c <> 97 -> forall e, (s < e <= n)%nat ->
    (p <= s <= e)%nat /\ (e <= skip buf (strchr whitespace) e <= n)%nat /\ (c = 0 -> s = n) /\ (c <> 0 -> (p < skip buf (strchr whitespace) e)%nat) /\
    (c = 97 -> word_ok s e) /\ (at_ buf s = 0 -> c = 0) /\ (c = 0 -> at_ buf s = 0)).
  { intros c H0 H97 e He. pose proof (skip_le (strchr whitespace) e ltac:(lia)). split_and!; try done; try lia. by apply at_nz in E0. }
  destruct (strchr [124; 40; 41; 59; 38; 60] (at_ buf s)) eqn:E1; cbn [fst snd].
  { destruct (symbol_codes _ E1). apply Hone; [done|done|lia]. }
  destruct (Z.eqb_spec (at_ buf s) 62) as [E2|E2]; cbn [fst snd].
  { destruct (Z.eqb_spec (at_ buf (S s)) 62) as [E3|E3]; cbn [fst snd].
    - assert (S s < n)%nat by (apply at_nz; lia). apply Hone; lia.
    - apply Hone; lia. }
  assert (Hw : is_word (at_ buf s) = true).
  { unfold is_word. assert (strchr whitespace (at_ buf s) = false) as ->.
    { destruct (lookup_lt_is_Some_2 buf s E0) as [c Hc]. rewrite (at_lookup s c Hc). apply (run_stop (strchr whitespace) (drop p buf)). by rewrite lookup_drop. }
    cbn [negb andb]. apply negb_true_iff. by apply word_codes. }
  pose proof (skip_word s E0 Hw) as Ho. pose proof (skip_le (strchr whitespace) (skip buf is_word s)) as Hk. unfold word_ok in Ho.
  split_and!; try done; try lia. by apply at_nz in E0.
Qed.

Lemma peek_ok toks p : (p <= n)%nat -> ends (peek buf toks) p (fun b p' =>
  (p <= p' <= n)%nat /\ p' = skip buf (strchr whitespace) p' /\ (b = true -> at_ buf p' <> 0 /\ strchr toks (at_ buf p') = true)).
Proof.
  intros Hp. unfold ends, peek. pose proof (skip_le (strchr whitespace) p Hp). split_and!; [lia|lia|by rewrite skip_idem|]. intros Hb. zbool. done.
Qed.

(** A token that peek has seen is taken. *)
Lemma take_ok p : (p <= n)%nat -> p = skip buf (strchr whitespace) p -> at_ buf p <> 0 ->
  ends (gettoken buf) p (fun t p' => (p < p' <= n)%nat).
Proof.
  intros Hp E H0. eapply ends_mono; [apply gettoken_ok; lia|]. intros t p' (A & B & _ & C & _ & _ & D). cbn beta in *. rewrite <- E in D.
  split; [|lia]. apply C. by intros Ht%D.
Qed.

(** The arguments stored so far in the exec node under redirections. *)
Fixpoint args_of (c : cmd) : nat := match c with EXEC argv => length argv | REDIR c' _ _ _ _ => args_of c' | _ => 0 end.

Lemma cmd_ok_push c w : cmd_ok c -> word_ok w.1 w.2 -> (args_of c < 9)%nat -> cmd_ok (push_arg c w).
Proof.
  intros Hc Hw Hn. induction c as [argv|c IH q eq mode fd| | |]; cbn [push_arg cmd_ok args_of] in *; try done.
  - destruct Hc as [Hc _]. split; [|rewrite length_app; cbn; lia]. apply Forall_app. split; [done|]. by constructor.
  - destruct Hc as (H1 & H2 & H3). split_and!; [by apply IH|by apply H2..|done].
Qed.

Lemma args_push c w : (args_of (push_arg c w) <= S (args_of c))%nat.
Proof. induction c; cbn [push_arg args_of]; try lia. rewrite length_app. cbn. lia. Qed.

Lemma parseredirs_args f : forall c p c' p', parseredirs buf f c p = Ret c' p' -> args_of c' = args_of c.
Proof.
  induction f as [|f IH]; intros c p c' p'; [done|]. cbn [parseredirs]. unfold mbind, M_bind. destruct (peek buf [60; 62] p) as [b p1| | | |]; try done. destruct b; [|by intros [= <- _]].
  destruct (gettoken buf p1) as [t p2| | | |]; try done. destruct (gettoken buf p2) as [w p3| | | |]; try done. destruct (negb _); [done|]. intros H. apply IH in H. rewrite H.
  destruct (t.1.1 =? 60); [done|]. destruct (t.1.1 =? 62); [done|]. by destruct (t.1.1 =? 43).
Qed.

Definition parsed (p : nat) (c : cmd) (p' : nat) : Prop := (p <= p' <= n)%nat /\ cmd_ok c.

Lemma parseredirs_ok f : forall c p, (p <= n)%nat -> (n - p < f)%nat -> cmd_ok c -> ends (parseredirs buf f c) p (parsed p).
Proof.
  induction f as [|f IH]; intros c p Hp Hf Hc; [lia|]. cbn [parseredirs]. apply ends_bind. eapply ends_mono; [apply peek_ok; lia|].
  intros b p1 (H1 & E1 & Hb). destruct b; [|split; [lia|done]]. apply ends_bind. eapply ends_mono; [by apply take_ok; [lia| |apply Hb]|].
  intros t p2 H2. cbn beta in H2. apply ends_bind. eapply ends_mono; [apply gettoken_ok; lia|]. intros w p3 (A & B & _ & _ & Hw & _ & _).
  destruct (Z.eqb_spec (w.1.1) 97) as [E|E]; cbn [negb]; [|complain]. specialize (Hw E).
  eapply ends_mono; [apply IH; [lia|lia|]|intros c' p' [? ?]; split; [lia|done]].
  destruct (t.1.1 =? 60); [|destruct (t.1.1 =? 62); [|destruct (t.1.1 =? 43)]]; cbn [cmd_ok]; [by auto..|done].
Qed.

Lemma redirs_ok c p : (p <= n)%nat -> cmd_ok c -> ends (redirs buf c) p (parsed p).
Proof. intros Hp Hc. apply parseredirs_ok; [done|lia|done]. Qed.

Lemma redirs_args c p : (p <= n)%nat -> cmd_ok c -> ends (redirs buf c) p (fun c' p' => parsed p c' p' /\ args_of c' = args_of c).
Proof.
  intros Hp Hc. pose proof (redirs_ok c p Hp Hc) as H. unfold ends, redirs in *. destruct (parseredirs buf _ c p) as [c' p'| | | |] eqn:E; try done. split; [done|]. by apply parseredirs_args in E.
Qed.

Lemma parseargs_ok f : forall ret argc p, (p <= n)%nat -> (n - p < f)%nat -> cmd_ok ret -> (args_of ret <= argc)%nat -> ends (parseargs buf f ret argc) p (parsed p).
Proof.
  induction f as [|f IH]; intros ret argc p Hp Hf Hc Ha; [lia|]. cbn [parseargs]. apply ends_bind. eapply ends_mono; [apply peek_ok; lia|].
  intros b p1 (H1 & E1 & _). destruct b; [split; [lia|done]|]. apply ends_bind. eapply ends_mono; [apply gettoken_ok; lia|].
  intros t p2 (A & B & _ & Hpr & Hw & _ & _). destruct (Z.eqb_spec (t.1.1) 0) as [E|E]; [split; [lia|done]|].
  destruct (Z.eqb_spec (t.1.1) 97) as [E'|E']; cbn [negb]; [|complain]. destruct (Nat.leb_spec MAXARGS (S argc)) as [Hm|Hm]; [complain|].
  pose proof (args_push ret (t.1.2, t.2)) as Hpush. unfold MAXARGS in Hm. specialize (Hpr E). apply ends_bind. eapply ends_mono; [apply redirs_args; [lia|apply cmd_ok_push; [done|by apply Hw|lia]]|].
  intros ret' p3 [[H3 Hc3] Hl3]. eapply ends_mono; [apply IH; [lia|lia|done|lia]|]. intros c' p' [? ?]. split; [lia|done].
Qed.

Lemma parseback_ok f : forall c p, (p <= n)%nat -> (n - p < f)%nat -> cmd_ok c -> ends (parseback buf f c) p (parsed p).
Proof.
  induction f as [|f IH]; intros c p Hp Hf Hc; [lia|]. cbn [parseback]. apply ends_bind. eapply ends_mono; [apply peek_ok; lia|].
  intros b p1 (H1 & E1 & Hb). destruct b; [|split; [lia|done]]. apply ends_bind. eapply ends_mono; [by apply take_ok; [lia| |apply Hb]|].
  intros t p2 H2. cbn beta in H2. eapply ends_mono; [apply IH; [lia|lia|done]|]. intros c' p' [? ?]. split; [lia|done].
Qed.

(** After an optional token the same routine goes on, or the node is made. *)
Lemma follow_ok toks (m : M nat cmd) (k : cmd -> cmd) c p : (p <= n)%nat -> cmd_ok c -> (forall r, cmd_ok r -> cmd_ok (k r)) ->
  (forall p', (p < p' <= n)%nat -> ends m p' (parsed p')) ->
  ends (b ← peek buf toks; if (b : bool) then gettoken buf ;; r ← m; mret (k r) else mret c) p (parsed p).
Proof.
  intros Hp Hc Hk Hm. apply ends_bind. eapply ends_mono; [apply peek_ok; lia|]. intros b p1 (H1 & E1 & Hb).
  destruct b; [|split; [lia|done]]. apply ends_bind. eapply ends_mono; [by apply take_ok; [lia| |apply Hb]|]. intros t p2 H2. cbn beta in H2.
  apply ends_bind. eapply ends_mono; [apply Hm; lia|]. intros r p3 [H3 Hr]. split; [lia|by apply Hk].
Qed.

Lemma parse_ok f : forall p, (p <= n)%nat ->
  ((4 * (n - p) + 3 < f)%nat -> ends (parseline buf f) p (parsed p)) /\
  ((4 * (n - p) + 2 < f)%nat -> ends (parsepipe buf f) p (parsed p)) /\
  ((4 * (n - p) + 1 < f)%nat -> ends (parseexec buf f) p (parsed p)) /\
  ((4 * (n - p) < f)%nat -> p = skip buf (strchr whitespace) p -> at_ buf p = 40 -> ends (parseblock buf f) p (parsed p)).
Proof.
  induction f as [|f IH]; intros p Hp; [lia|]. assert (IHl := fun p' H => proj1 (IH p' H)). assert (IHp := fun p' H => proj1 (proj2 (IH p' H))).
  split_and!; intros Hf; cbn [parseline parsepipe parseexec parseblock].
  - apply ends_bind. eapply ends_mono; [apply IHp; lia|]. intros c p1 [H1 Hc]. apply ends_bind.
    eapply ends_mono; [apply parseback_ok; [lia|lia|done]|]. intros c2 p2 [H2 Hc2].
    eapply ends_mono; [apply (follow_ok _ _ (LIST c2)); [lia|done|done|]|intros ? ? [? ?]; split; [lia|done]]. intros p' Hp'. apply IHl; lia.
  - apply ends_bind. eapply ends_mono; [apply (IH p Hp); lia|]. intros c p1 [H1 Hc].
    eapply ends_mono; [apply (follow_ok _ _ (PIPE c)); [lia|done|done|]|intros ? ? [? ?]; split; [lia|done]]. intros p' Hp'. apply IHp; lia.
  - apply ends_bind. eapply ends_mono; [apply peek_ok; lia|]. intros b p1 (H1 & E1 & Hb). destruct b.
    + assert (H40 : at_ buf p1 = 40) by (destruct (Hb eq_refl) as [_ Hs]; unfold strchr in Hs; cbn in Hs; rewrite orb_false_r in Hs; zbool; lia).
      eapply ends_mono; [apply (IH p1); (lia || done)|]. intros c p' [? ?]. split; [lia|done].
    + apply ends_bind. eapply ends_mono; [apply redirs_args; [lia|split; [constructor|cbn; lia]]|]. intros c p2 [[H2 Hc] Ha].
      eapply ends_mono; [apply parseargs_ok; [lia|lia|done|cbn in Ha; lia]|]. intros c' p' [? ?]. split; [lia|done].
  - intros Ep H40. assert (Epk : peek buf [40] p = Ret true p) by (unfold peek; rewrite <- Ep, H40; done).
    eapply ends_ret; [exact Epk|]. cbn [negb].
    apply ends_bind. eapply ends_mono; [by apply take_ok; [lia| |rewrite H40]|]. intros t p2 H2. cbn beta in H2.
    apply ends_bind. eapply ends_mono; [apply IHl; lia|]. intros c p3 [H3 Hc]. apply ends_bind. eapply ends_mono; [apply peek_ok; lia|].
    intros b' p4 (H4 & E4 & Hb'). destruct b'; cbn [negb]; [|complain]. apply ends_bind. eapply ends_mono; [by apply take_ok; [lia| |apply Hb']|].
    intros t' p5 H5. cbn beta in H5. eapply ends_mono; [apply redirs_ok; [lia|done]|]. intros c' p' [? ?]. split; [lia|done].
Qed.

(** *** The strings *)

Fixpoint cmd_words (c : cmd) : list (nat * nat) :=
  match c with
  | EXEC argv => argv
  | REDIR c' q eq _ _ => cmd_words c' ++ [(q, eq)]
  | PIPE l r | LIST l r => cmd_words l ++ cmd_words r
  | BACK c' => cmd_words c'
  end.

Lemma cmd_ok_words c : cmd_ok c -> Forall (fun w => word_ok w.1 w.2) (cmd_words c).
Proof.
  induction c as [argv|c IH q eq mode fd|l IHl r IHr|l IHl r IHr|c IH]; cbn [cmd_ok cmd_words]; [by intros [? _]|..].
  - intros (H1 & H2 & _). apply Forall_app. split; [by apply IH|by constructor].
  - intros [H1 H2]. apply Forall_app. split; [by apply IHl|by apply IHr].
  - intros [H1 H2]. apply Forall_app. split; [by apply IHl|by apply IHr].
  - exact IH.
Qed.

Definition put_nuls (ws : list (nat * nat)) (b : list Z) : list Z := fold_left (fun b w => <[w.2 := 0]> b) ws b.

Lemma nulterminate_words c : forall b, nulterminate c b = put_nuls (cmd_words c) b.
Proof.
  unfold put_nuls. induction c as [argv|c IH q eq mode fd|l IHl r IHr|l IHl r IHr|c IH]; intros b; cbn [nulterminate cmd_words]; [done|..].
  - by rewrite fold_left_app, <- IH.
  - by rewrite fold_left_app, <- IHl, <- IHr.
  - by rewrite fold_left_app, <- IHl, <- IHr.
  - apply IH.
Qed.

Lemma put_nuls_lookup ws : forall b i, put_nuls ws b !! i = if decide (i ∈ ws.*2 /\ (i < length b)%nat) then Some 0 else b !! i.
Proof.
  induction ws as [|w ws IH]; intros b i; cbn [put_nuls fold_left fmap list_fmap].
  - rewrite decide_False; [done|]. by intros [?%elem_of_nil _].
  - fold (put_nuls ws (<[w.2 := 0]> b)). rewrite IH, length_insert. destruct (decide (i = w.2)) as [->|Hne].
    + destruct (decide (w.2 < length b)%nat) as [Hl|Hl].
      * rewrite (decide_True (P := w.2 ∈ w.2 :: ws.*2 /\ _)) by (split; [by left|done]). destruct (decide _); [done|]. by apply list_lookup_insert_eq.
      * rewrite !decide_False by tauto. by rewrite list_insert_ge by lia.
    + rewrite list_lookup_insert_ne by done. destruct (decide (i ∈ ws.*2 /\ (i < length b)%nat)) as [[? ?]|Hn].
      * rewrite decide_True; [done|]. split; [by right|done].
      * rewrite decide_False; [done|]. intros [[?|?]%elem_of_cons ?]; tauto.
Qed.

(** The string a pointer gives, and the text between two pointers. *)
Fixpoint to_nul (l : list Z) : list Z := match l with [] => [] | c :: l' => if c =? 0 then [] else c :: to_nul l' end.
Definition cstring (b : list Z) (q : nat) : list Z := to_nul (drop q b).
Definition text (q eq : nat) : list Z := take (eq - q) (drop q buf).

Lemma to_nul_app l l' : Forall (fun c => c <> 0) l -> to_nul (l ++ 0 :: l') = l.
Proof.
  induction l as [|c l IH]; cbn [app to_nul]; [done|]. intros Hf. apply Forall_cons in Hf as [Hc Hf]. rewrite (proj2 (Z.eqb_neq c 0)) by done. by rewrite IH.
Qed.

Lemma word_string ws q eq : Forall (fun w => word_ok w.1 w.2) ws -> (q, eq) ∈ ws -> cstring (put_nuls ws (buf ++ [0])) q = text q eq.
Proof.
  intros Hw Hin. pose proof (proj1 (Forall_forall _ _) Hw _ Hin) as (Hr & Hb & _). cbn [fst snd] in *.
  assert (Hlen : length (put_nuls ws (buf ++ [0])) = S n).
  { unfold put_nuls. generalize (eq_refl (length (buf ++ [0]))). rewrite length_app at 2. cbn [length]. replace (n + 1)%nat with (S n) by lia.
    generalize (buf ++ [0]). clear. induction ws as [|w ws IH]; intros b Hl; cbn [fold_left]; [done|]. apply IH. by rewrite length_insert. }
  assert (Hkeep : forall i, (q <= i < eq)%nat -> put_nuls ws (buf ++ [0]) !! i = buf !! i).
  { intros i Hi. rewrite put_nuls_lookup, lookup_app_l by lia. rewrite decide_False; [done|]. intros [Hm _].
    apply list_elem_of_fmap in Hm as ([q' e'] & -> & Hm). pose proof (proj1 (Forall_forall _ _) Hw _ Hm) as (_ & _ & [He|He]); cbn [fst snd] in *; [lia|].
    rewrite Hb in He by done. done. }
  assert (Hend : put_nuls ws (buf ++ [0]) !! eq = Some 0).
  { rewrite put_nuls_lookup, length_app. rewrite decide_True; [done|]. split; [|cbn; lia]. apply list_elem_of_fmap. by exists (q, eq). }
  unfold cstring. assert (E : drop q (put_nuls ws (buf ++ [0])) = text q eq ++ 0 :: drop (S eq) (put_nuls ws (buf ++ [0]))).
  { rewrite <- (drop_S _ _ _ Hend). unfold text. apply list_eq. intros i. rewrite lookup_drop.
    destruct (decide (i < eq - q)%nat) as [Hi|Hi].
    - rewrite lookup_app_l by (rewrite length_take, length_drop; lia). rewrite lookup_take_lt, lookup_drop by lia. apply Hkeep. lia.
    - rewrite lookup_app_r by (rewrite length_take, length_drop; lia). rewrite length_take, length_drop, lookup_drop.
      f_equal. lia. }
  rewrite E. apply to_nul_app. unfold text. apply Forall_take, Forall_drop. exact Hnz.
Qed.
End Ends.

Lemma parsecmd_total buf : Forall (fun c => c <> 0) buf ->
  (exists c b s, parsecmd buf = Ret (c, b) s) \/ (exists msg, parsecmd buf = Panic msg /\ msg ∈ complaints).
Proof.
  intros Hnz. destruct (parse_ok buf Hnz (parse_fuel buf) 0 ltac:(lia)) as [Hl _]. unfold ends in Hl. unfold parsecmd, mbind, M_bind.
  specialize (Hl ltac:(unfold parse_fuel; lia)). destruct (parseline buf (parse_fuel buf) 0%nat) as [c p|msg| | |]; [|right; by eexists|done..].
  cbn. destruct (negb _); [right|left; eauto]. eexists. split; [reflexivity|complain].
Qed.

(** C36: The shell's parser always ends: on every line parsecmd returns a
    command or panics with one of its four complaints about the line; the
    check of parseblock that there is a parenthesis never fails, and the fuel
    of the mutually recursive routines, four calls per byte, never runs out. *)
Theorem parsecmd_ends buf : Forall (fun c => c <> 0) buf ->
  (exists c b s, parsecmd buf = Ret (c, b) s) \/
  parsecmd buf = Panic "syntax" \/ parsecmd buf = Panic "missing file for redirection" \/
  parsecmd buf = Panic "syntax - missing )" \/ parsecmd buf = Panic "too many args".
Proof.
  intros H. destruct (parsecmd_total buf H) as [?|(msg & -> & Hm)]; [by left|right]. unfold complaints in Hm.
  repeat (apply elem_of_cons in Hm as [->|Hm]; [tauto|]). by apply not_elem_of_nil in Hm.
Qed.

Lemma parsecmd_result buf c b s : Forall (fun c => c <> 0) buf -> parsecmd buf = Ret (c, b) s ->
  cmd_ok buf c /\ forall q eq, (q, eq) ∈ cmd_words c -> cstring b q = text buf q eq /\ word_ok buf q eq.
Proof.
  intros Hnz. destruct (parse_ok buf Hnz (parse_fuel buf) 0 ltac:(lia)) as [Hl _]. unfold ends in Hl. unfold parsecmd, mbind, M_bind.
  specialize (Hl ltac:(unfold parse_fuel; lia)). destruct (parseline buf (parse_fuel buf) 0%nat) as [c' p|msg| | |]; try done.
  cbn. destruct (negb _); [done|]. intros [= <- <- _]. destruct Hl as [_ Hc]. split; [done|]. intros q eq Hin. pose proof (cmd_ok_words buf c' Hc) as Hw.
  split; [|by apply (proj1 (Forall_forall _ _) Hw _ Hin)]. rewrite nulterminate_words. by apply word_string.
Qed.

(** C37: What parsecmd returns is well formed: every argument and file name is
    a longest run of word bytes of the line, an exec node has at most nine
    arguments, a redirection opens standard
    input for reading or standard output for writing, and in the line as
    nulterminate leaves it each name's pointer gives exactly that word,
    although the nuls are stored over the line's own separators. *)
Theorem parsecmd_words buf c b s : Forall (fun c => c <> 0) buf -> parsecmd buf = Ret (c, b) s ->
  cmd_ok buf c /\ forall q eq, (q, eq) ∈ cmd_words c -> cstring b q = text buf q eq /\ word_ok buf q eq.
Proof. apply parsecmd_result. Qed.

(** ** Writing commands down *)

(** Commands with their words as texts. *)
Inductive scmd : Type :=
| SExec (argv : list (list Z))
| SRedir (c : scmd) (file : list Z) (mode fd : Z)
| SPipe (left right : scmd)
| SList (left right : scmd)
| SBack (c : scmd).

Fixpoint resolve (buf : list Z) (c : cmd) : scmd :=
  match c with
  | EXEC argv => SExec (map (fun w => text buf w.1 w.2) argv)
  | REDIR c' q eq mode fd => SRedir (resolve buf c') (text buf q eq) mode fd
  | PIPE l r => SPipe (resolve buf l) (resolve buf r)
  | LIST l r => SList (resolve buf l) (resolve buf r)
  | BACK c' => SBack (resolve buf c')
  end.

(** The places a command is written at: a line, before an ampersand or
    semicolon, in a pipeline, and where only a simple command or a block can
    stand. *)
Inductive level : Type := InLine | InBack | InPipe | InExec.

Definition block (l : list Z) : list Z := [40] ++ l ++ [41].
Definition put_word (w : list Z) : list Z := w ++ [32].
Definition put_redir (file : list Z) (fd : Z) : list Z := [if fd =? 0 then 60 else 62] ++ put_word file.

Fixpoint write (k : level) (c : scmd) : list Z :=
  match c with
  | SExec argv => concat (map put_word argv)
  | SRedir c' file _ fd => write InExec c' ++ put_redir file fd
  | SPipe l r => let t := write InExec l ++ [124] ++ write InPipe r in
    match k with InExec => block t | _ => t end
  | SBack c' => let t := write InBack c' ++ [38] in
    match k with InLine | InBack => t | _ => block t end
  | SList l r => let t := write InBack l ++ [59] ++ write InLine r in
    match k with InLine => t | _ => block t end
  end.

(** What can be written: words of word bytes, at most nine arguments, the two
    kinds of redirection. *)
Definition word_text (w : list Z) : Prop := w <> [] /\ Forall (fun c => is_word c = true /\ c <> 0) w.
Definition redir_kind (mode fd : Z) : Prop := (mode = O_RDONLY /\ fd = 0) \/ (mode = Z.lor O_WRONLY O_CREATE /\ fd = 1).

Fixpoint writable (c : scmd) : Prop :=
  match c with
  | SExec argv => Forall word_text argv /\ (length argv < MAXARGS)%nat
  | SRedir c' file mode fd => writable c' /\ word_text file /\ redir_kind mode fd
  | SPipe l r | SList l r => writable l /\ writable r
  | SBack c' => writable c'
  end.

Section Reading.
Variable buf tail : list Z.
Hypothesis Htail : Forall (fun c => strchr whitespace c = true) tail.
Notation n := (length buf).

(** [l] and blanks at the end are the rest of the line from index [p] on. *)
Definition raw (p : nat) (l : list Z) : Prop := exists pre, buf = pre ++ l ++ tail /\ length pre = p.

(** The same, past the blanks when [l] is empty. *)
Definition pos (p : nat) (l : list Z) : Prop := match l with [] => p = n | _ => raw p l end.

Lemma raw_len p l : raw p l -> drop p buf = l ++ tail /\ n = (p + length l + length tail)%nat.
Proof. intros (pre & -> & <-). rewrite drop_app_length, !length_app. split; [done|lia]. Qed.

Lemma pos_len p l : pos p l -> (p + length l <= n)%nat.
Proof. destruct l as [|c l]; cbn [pos]; [cbn; lia|]. intros H. destruct (raw_len p _ H). lia. Qed.

Lemma pos_before p l c l' p' : pos p (l ++ c :: l') -> pos p' (c :: l') -> (p <= p' < n)%nat.
Proof.
  intros H H'. assert (Hr : raw p (l ++ c :: l')) by (by destruct l). destruct (raw_len _ _ Hr) as [_ E], (raw_len _ _ H') as [_ E'].
  rewrite length_app in E. cbn [length] in *. lia.
Qed.

Lemma raw_app p l l' : raw p (l ++ l') -> raw (p + length l) l'.
Proof. intros (pre & E & <-). exists (pre ++ l). by rewrite E, <- !app_assoc, length_app. Qed.

Lemma raw_cons p c l : raw p (c :: l) -> raw (S p) l.
Proof. intros H. apply (raw_app p [c] l) in H. by replace (S p) with (p + length [c])%nat by (cbn; lia). Qed.

Lemma pos_at p l : pos p l -> at_ buf p = default 0 (l !! 0%nat).
Proof. destruct l as [|c l]; cbn [pos]; unfold at_; [intros ->; by rewrite lookup_ge_None_2 by lia|]. intros (pre & -> & <-). rewrite lookup_app_r by lia. by rewrite Nat.sub_diag. Qed.

(** The next byte is not a blank. *)
Definition solid (l : list Z) : Prop := match l with c :: _ => strchr whitespace c = false | [] => True end.

Lemma skip_solid p l : pos p l -> solid l -> skip buf (strchr whitespace) p = p.
Proof.
  destruct l as [|c l]; cbn [pos solid]; unfold skip; [intros -> _; rewrite drop_all; cbn; lia|]. intros H Hs. destruct (raw_len p _ H) as [-> _].
  cbn [app run]. rewrite Hs. lia.
Qed.

Lemma run_all f l : Forall (fun c => f c = true) l -> run f l = length l.
Proof. induction 1 as [|c t Hc _ IH]; cbn [run length]; [done|]. by rewrite Hc, IH. Qed.

Lemma skip_raw p l : raw p l -> solid l -> pos (skip buf (strchr whitespace) p) l.
Proof.
  intros H Hs. destruct l as [|c l]; [|by rewrite (skip_solid p (c :: l) H Hs)]. cbn [pos]. unfold skip. destruct (raw_len p _ H) as [-> ->]. cbn [app length].
  rewrite (run_all _ _ Htail). lia.
Qed.

Lemma skip_blank p l : raw p (32 :: l) -> solid l -> pos (skip buf (strchr whitespace) p) l.
Proof.
  intros H Hs. assert (E : skip buf (strchr whitespace) p = skip buf (strchr whitespace) (S p)).
  { unfold skip. destruct (raw_len p _ H) as [-> _], (raw_len (S p) l (raw_cons _ _ _ H)) as [-> _]. cbn [app run]. change (strchr whitespace 32) with true. cbv iota. lia. }
  rewrite E. apply skip_raw; [by apply (raw_cons p 32)|done].
Qed.

Lemma peek_at toks p l : pos p l -> solid l -> peek buf toks p = Ret (match l with c :: _ => negb (c =? 0) && strchr toks c | [] => false end) p.
Proof. intros H Hs. unfold peek. rewrite (skip_solid p l H Hs), (pos_at p l H). by destruct l. Qed.

Lemma token_end p : pos p [] -> gettoken buf p = Ret (0, p, p) p.
Proof. intros H. unfold gettoken. rewrite (skip_solid p [] H I), (pos_at p [] H). change (default 0 ([] !! 0%nat) =? 0) with true. cbn [fst snd]. by rewrite (skip_solid p [] H I). Qed.

Lemma token_symbol p c l : pos p (c :: l) -> strchr [124; 40; 41; 59; 38; 60] c = true -> solid l ->
  exists p', gettoken buf p = Ret (c, p, S p) p' /\ pos p' l /\ (p < p')%nat.
Proof.
  intros H Hc Hs. destruct (symbol_codes c Hc) as [H0 _]. pose proof (skip_raw (S p) l (raw_cons _ _ _ H) Hs) as Hp.
  eexists. split_and!; [|exact Hp|unfold skip; lia]. unfold gettoken. rewrite (skip_solid p _ H), (pos_at p _ H); change (default 0 ((c :: l) !! 0%nat)) with c.
  - rewrite (proj2 (Z.eqb_neq c 0)) by done. by rewrite Hc.
  - unfold solid. unfold strchr in *. cbn [existsb whitespace] in *. rewrite !orb_true_iff, !Z.eqb_eq in Hc. rewrite !orb_false_iff, !Z.eqb_neq. lia.
Qed.

Lemma token_out p l : pos p (62 :: l) -> l <> [] -> solid l -> default 0 (l !! 0%nat) <> 62 ->
  gettoken buf p = Ret (62, p, S p) (S p) /\ pos (S p) l.
Proof.
  intros H Hne Hs Hn. assert (Hp : pos (S p) l) by (destruct l; [done|]; by apply (raw_cons p 62)).
  split; [|done]. unfold gettoken. rewrite (skip_solid p _ H) by done. rewrite (pos_at p _ H), (pos_at (S p) l Hp). change (default 0 ((62 :: l) !! 0%nat)) with 62.
  change (62 =? 0) with false. change (strchr [124; 40; 41; 59; 38; 60] 62) with false. change (62 =? 62) with true. cbv iota.
  rewrite (proj2 (Z.eqb_neq _ _)) by exact Hn. cbn [fst snd]. by rewrite (skip_solid (S p) l).
Qed.

Lemma run_word w c l : Forall (fun c => is_word c = true /\ c <> 0) w -> is_word c = false -> run is_word (w ++ c :: l) = length w.
Proof. intros Hw Hc. induction Hw as [|x w [Hx _] _ IH]; cbn [app run length]; [by rewrite Hc|]. by rewrite Hx, IH. Qed.

Lemma word_first w : word_text w -> exists c w', w = c :: w' /\ is_word c = true /\ c <> 0.
Proof. intros [Hne Hf]. destruct w as [|c w]; [done|]. apply Forall_cons in Hf as [[? ?] _]. by exists c, w. Qed.

Lemma is_word_solid c l : is_word c = true -> solid (c :: l).
Proof. unfold is_word, solid. intros H. zbool. done. Qed.

Lemma token_word p w l : pos p (put_word w ++ l) -> word_text w -> solid l -> exists p',
  gettoken buf p = Ret (97, p, (p + length w)%nat) p' /\ pos p' l /\ text buf p (p + length w) = w.
Proof.
  intros H Hw Hs. destruct (word_first w Hw) as (c & w' & E & Hc & H0). unfold put_word in H. rewrite <- app_assoc in H. cbn [app] in H.
  assert (Hr : raw p (w ++ 32 :: l)) by (rewrite E in H |- *; exact H). pose proof (skip_blank _ _ (raw_app p w _ Hr) Hs) as Hp. destruct (raw_len p _ Hr) as [Ed _].
  rewrite <- app_assoc in Ed. cbn [app] in Ed. eexists. split_and!; [|exact Hp|].
  - unfold gettoken. assert (Es : solid (w ++ 32 :: l)) by (rewrite E; by apply is_word_solid). rewrite (skip_solid p _ H Es), (pos_at p _ H).
    assert (Eh : default 0 ((w ++ 32 :: l) !! 0%nat) = c) by (by rewrite E). rewrite Eh, (proj2 (Z.eqb_neq c 0)) by done.
    unfold is_word in Hc. zbool. destruct (not_symbol c) as [-> Hn]; [done|]. rewrite (proj2 (Z.eqb_neq c 62)) by done. cbn [fst snd].
    assert (Ew : skip buf is_word p = (p + length w)%nat) by (unfold skip; rewrite Ed, run_word by (done || apply Hw); done).
    by rewrite Ew.
  - unfold text. rewrite Ed. replace (p + length w - p)%nat with (length w) by lia. apply take_app_length.
Qed.

(** What follows is the end or one of the given bytes. *)
Definition stops (S : list Z) (l : list Z) : Prop := match l with [] => True | c :: _ => List.In c S end.

Lemma stops_solid S l : stops S l -> incl S [124; 41; 38; 59; 60; 62; 40] -> solid l.
Proof. destruct l as [|c l]; [done|]. intros H Hi. cbn in H. apply Hi in H. cbn in H. intuition (subst; done). Qed.

(** *** Redirections *)

Definition redir : Type := (list Z * Z * Z)%type.
Definition wraps (c : scmd) (rs : list redir) : scmd := fold_left (fun c r => SRedir c r.1.1 r.1.2 r.2) rs c.
Definition put_redirs (rs : list redir) : list Z := concat (map (fun r : redir => put_redir r.1.1 r.2) rs).
Definition redir_ok (r : redir) : Prop := word_text r.1.1 /\ redir_kind r.1.2 r.2.

Lemma redirs_solid rs r : Forall redir_ok rs -> solid r -> solid (put_redirs rs ++ r).
Proof. intros Hr Hs. destruct Hr as [|[[f m] fd] rs [_ Hk] _]; [done|]. cbn. by destruct (fd =? 0). Qed.

Lemma word_solid w l : word_text w -> solid (put_word w ++ l).
Proof. intros Hw. destruct (word_first w Hw) as (c & w' & -> & Hc & _). by apply is_word_solid. Qed.

Definition no_redir (r : list Z) : Prop := match r with c :: _ => c <> 60 /\ c <> 62 | [] => True end.

Lemma redirs_none c p r f : pos p r -> solid r -> no_redir r -> parseredirs buf (S f) c p = Ret c p.
Proof.
  intros Hp Hs Hn. cbn [parseredirs]. erewrite bind_ret by (by apply peek_at).
  assert (E : match r with c0 :: _ => negb (c0 =? 0) && strchr [60; 62] c0 | [] => false end = false).
  { destruct r as [|x r]; [done|]. destruct Hn. unfold strchr. cbn [existsb]. rewrite (proj2 (Z.eqb_neq x 60)), (proj2 (Z.eqb_neq x 62)) by done. apply andb_false_r. }
  by rewrite E.
Qed.

Lemma redirs_at rs : forall c p r f, pos p (put_redirs rs ++ r) -> Forall redir_ok rs -> solid r ->
  no_redir r -> (length rs < f)%nat ->
  exists c' p', parseredirs buf f c p = Ret c' p' /\ pos p' r /\ resolve buf c' = wraps (resolve buf c) rs.
Proof.
  induction rs as [|[[file m] fd] rs IH]; intros c p r f Hp Hr Hs Hn Hf; (destruct f as [|f]; [lia|]).
  - exists c, p. by rewrite (redirs_none c p r f).
  - cbn [parseredirs]. apply Forall_cons in Hr as [[Hw Hk] Hr]. cbn [fst snd] in *. cbn [put_redirs map concat fst snd] in Hp. fold (put_redirs rs) in Hp. unfold put_redir in Hp. rewrite <- !app_assoc in Hp. cbn [app] in Hp.
    pose proof (redirs_solid rs r Hr Hs) as Hs'. pose proof (word_solid file (put_redirs rs ++ r) Hw) as Hsw. destruct (word_first file Hw) as (x & file' & Ex & Hx & _).
    destruct Hk as [[-> ->]|[-> ->]]; [change (0 =? 0) with true in Hp|change (1 =? 0) with false in Hp]; cbv iota in Hp; erewrite bind_ret by (by apply peek_at); cbn [negb andb].
    + change (negb (60 =? 0) && strchr [60; 62] 60) with true. cbv iota. destruct (token_symbol p 60 _ Hp eq_refl Hsw) as (p1 & R1 & Hp1 & _). erewrite bind_ret by exact R1.
      destruct (token_word _ file _ Hp1 Hw Hs') as (p2 & R2 & Hp2 & Et). erewrite bind_ret by exact R2. cbn [fst snd]. change (97 =? 97) with true. change (60 =? 60) with true. cbn [negb]. cbv iota.
      destruct (IH (REDIR c p1 (p1 + length file) O_RDONLY 0) p2 r f Hp2 Hr Hs Hn) as (c' & p' & R & Hp' & Ec); [cbn in Hf; lia|].
      exists c', p'. rewrite R. split_and!; [done..|]. rewrite Ec. cbn [resolve wraps fold_left fst snd]. by rewrite Et.
    + change (negb (62 =? 0) && strchr [60; 62] 62) with true. cbv iota.
      assert (Hx62 : default 0 ((put_word file ++ put_redirs rs ++ r) !! 0%nat) <> 62) by (rewrite Ex; cbn; intros ->; done).
      assert (Hxne : put_word file ++ put_redirs rs ++ r <> []) by (by rewrite Ex).
      destruct (token_out p _ Hp Hxne Hsw Hx62) as [R1 Hp1]. erewrite bind_ret by exact R1.
      destruct (token_word _ file _ Hp1 Hw Hs') as (p2 & R2 & Hp2 & Et). erewrite bind_ret by exact R2. cbn [fst snd]. change (97 =? 97) with true. change (62 =? 60) with false. change (62 =? 62) with true. cbn [negb]. cbv iota.
      destruct (IH (REDIR c (S p) (S p + length file) (Z.lor O_WRONLY O_CREATE) 1) p2 r f Hp2 Hr Hs Hn) as (c' & p' & R & Hp' & Ec); [cbn in Hf; lia|].
      exists c', p'. rewrite R. split_and!; [done..|]. rewrite Ec. cbn [resolve wraps fold_left fst snd]. by rewrite Et.
Qed.

Lemma redirs_fuel rs r p : pos p (put_redirs rs ++ r) -> (length rs < S n)%nat.
Proof.
  intros H. pose proof (pos_len p _ H) as E. rewrite length_app in E. enough (length rs <= length (put_redirs rs))%nat by lia.
  clear. induction rs as [|x rs IH]; cbn [length put_redirs map concat]; [lia|]. fold (put_redirs rs). rewrite length_app. unfold put_redir. cbn [app length]. lia.
Qed.

(** *** Arguments *)

Definition put_args (argv : list (list Z)) : list Z := concat (map put_word argv).
Definition after_exec : list Z := [124; 41; 38; 59].

Lemma after_exec_solid r : stops after_exec r -> solid r.
Proof. intros H. apply (stops_solid after_exec); [done|]. intros x Hx. cbn in *. tauto. Qed.

Lemma after_exec_noredir r : stops after_exec r -> no_redir r.
Proof. destruct r as [|c r]; [done|]. cbn. lia. Qed.

Lemma args_stop c argc p r f : pos p r -> stops after_exec r -> parseargs buf (S f) c argc p = Ret c p.
Proof.
  intros Hp Hr. cbn [parseargs]. erewrite bind_ret by (apply peek_at; [done|by apply after_exec_solid]). destruct r as [|x r].
  - erewrite bind_ret by (by apply token_end). done.
  - assert (E : negb (x =? 0) && strchr [124; 41; 38; 59] x = true) by (cbn in Hr; intuition (subst; done)). by rewrite E.
Qed.

Lemma word_not_symbol x toks : is_word x = true -> incl toks symbols -> strchr toks x = false.
Proof.
  unfold is_word. intros H Hi. zbool. destruct (strchr toks x) eqn:E; [|done]. unfold strchr in *. apply existsb_exists in E as (y & Hy & E).
  apply Z.eqb_eq in E as ->. apply Hi in Hy. assert (existsb (Z.eqb y) symbols = true) by (apply existsb_exists; exists y; split; [done|lia]). congruence.
Qed.

Lemma peek_word toks p w l : pos p (put_word w ++ l) -> word_text w -> incl toks symbols -> peek buf toks p = Ret false p.
Proof.
  intros Hp Hw Hi. rewrite (peek_at toks p _ Hp) by (by apply word_solid). destruct (word_first w Hw) as (x & w' & -> & Hx & _). cbn [put_word app].
  rewrite (word_not_symbol x toks Hx Hi). by rewrite andb_false_r.
Qed.

Lemma args_at argv : forall ws argc p rs r f, pos p (put_args argv ++ put_redirs rs ++ r) -> argv <> [] -> Forall word_text argv ->
  Forall redir_ok rs -> stops after_exec r -> (argc + length argv < MAXARGS)%nat -> (length argv < f)%nat ->
  exists c' p', parseargs buf f (EXEC ws) argc p = Ret c' p' /\ pos p' r /\
    resolve buf c' = wraps (SExec (map (fun w => text buf w.1 w.2) ws ++ argv)) rs.
Proof.
  induction argv as [|w argv IH]; intros ws argc p rs r f Hp Hne Hw Hr Hs Hn Hf; [done|]. destruct f as [|f]; [lia|]. clear Hne. cbn [parseargs].
  apply Forall_cons in Hw as [Hw Hws]. cbn [put_args map concat] in Hp. fold (put_args argv) in Hp. rewrite <- app_assoc in Hp. cbn [length] in Hn, Hf.
  erewrite bind_ret by (apply (peek_word _ _ _ _ Hp Hw); intros y Hy; cbn in *; tauto).
  assert (Hs' : solid (put_redirs rs ++ r)) by (apply redirs_solid; [done|by apply after_exec_solid]).
  assert (Hs2 : solid (put_args argv ++ put_redirs rs ++ r)).
  { destruct argv as [|w2 argv]; [done|]. cbn [put_args map concat]. rewrite <- app_assoc. apply word_solid. by apply Forall_cons in Hws as [? _]. }
  destruct (token_word p w _ Hp Hw Hs2) as (p2 & R2 & Hp2 & Et). erewrite bind_ret by exact R2. cbn [fst snd]. change (97 =? 0) with false. change (97 =? 97) with true. cbn [negb]. cbv iota.
  destruct (Nat.leb_spec MAXARGS (S argc)) as [?|_]; [lia|]. unfold redirs. cbn [push_arg].
  destruct argv as [|w2 argv'].
  - destruct (redirs_at rs (EXEC (ws ++ [(p, (p + length w)%nat)])) p2 r (S n) Hp2 Hr (after_exec_solid r Hs) (after_exec_noredir r Hs) (redirs_fuel rs r p2 Hp2)) as (c' & p' & R & Hp' & Ec).
    erewrite bind_ret by exact R. exists c', p'. destruct f as [|f]; [cbn in Hf; lia|]. rewrite (args_stop c' _ p' r f Hp' Hs). split_and!; [done..|]. rewrite Ec. cbn [resolve]. rewrite map_app. cbn [map fst snd]. by rewrite Et.
  - set (argv := w2 :: argv') in *. assert (Hwx : no_redir (put_args argv ++ put_redirs rs ++ r)).
    { apply Forall_cons in Hws as [Hw2 _]. destruct (word_first w2 Hw2) as (x & w' & -> & Hx & _). cbn. split; intros ->; done. }
    erewrite bind_ret by (by apply (redirs_none _ p2 _ n Hp2)).
    destruct (IH (ws ++ [(p, (p + length w)%nat)]) (S argc) p2 rs r f Hp2) as (c' & p' & R & Hp' & Ec); [done..|cbn in *; lia|lia|].
    exists c', p'. rewrite R, Ec, map_app, <- app_assoc. cbn [map fst snd]. by rewrite Et.
Qed.

Lemma args_fuel argv l p : pos p (put_args argv ++ l) -> (length argv < S n)%nat.
Proof.
  intros H. pose proof (pos_len p _ H) as E. rewrite length_app in E. enough (length argv <= length (put_args argv))%nat by lia.
  clear. induction argv as [|x argv IH]; cbn [length put_args map concat]; [lia|]. fold (put_args argv). rewrite length_app. unfold put_word. rewrite length_app. cbn. lia.
Qed.

Lemma peek_head toks p l b : pos p l -> solid l -> match l with c :: _ => c <> 0 /\ strchr toks c = b | [] => b = false end -> peek buf toks p = Ret b p.
Proof. intros Hp Hs Hb. rewrite (peek_at toks p l Hp Hs). destruct l as [|c l]; [by rewrite Hb|]. destruct Hb as [H0 ->]. by rewrite (proj2 (Z.eqb_neq c 0)). Qed.

(** A simple command is read by the loop over the arguments, or by the first
    parseredirs when it has none. *)
Lemma exec_at argv rs p r f : pos p (put_args argv ++ put_redirs rs ++ r) -> Forall word_text argv -> (length argv < MAXARGS)%nat ->
  Forall redir_ok rs -> stops after_exec r ->
  exists c' p', parseexec buf (S f) p = Ret c' p' /\ pos p' r /\ resolve buf c' = wraps (SExec argv) rs.
Proof.
  intros Hp Hw Hn Hr Hs. cbn [parseexec]. assert (Hs' : solid (put_redirs rs ++ r)) by (apply redirs_solid; [done|by apply after_exec_solid]). unfold redirs.
  pose proof (after_exec_solid r Hs) as Hsr. pose proof (after_exec_noredir r Hs) as Hnr. pose proof (args_fuel argv _ p Hp) as Hfa. destruct argv as [|w argv].
  - cbn [put_args map concat app] in Hp. assert (H40 : peek buf [40] p = Ret false p).
    { apply (peek_head _ _ _ _ Hp Hs'). destruct Hr as [|[[fl m] fd] rs [_ Hk] _]; [|cbn; by destruct (fd =? 0)].
      destruct r as [|x r]; [done|]. cbn in Hs |- *. intuition (subst; done). }
    erewrite bind_ret by exact H40. cbv iota.
    destruct (redirs_at rs (EXEC []) p r (S n) Hp Hr Hsr Hnr (redirs_fuel rs r p Hp)) as (c' & p' & R & Hp' & Ec).
    erewrite bind_ret by exact R. exists c', p'. rewrite (args_stop c' _ p' r n Hp' Hs). by rewrite Ec.
  - apply Forall_cons in Hw as Hw'. destruct Hw' as [Hw1 _]. pose proof Hp as Hp2. cbn [put_args map concat] in Hp2. fold (put_args argv) in Hp2. rewrite <- app_assoc in Hp2.
    erewrite bind_ret by (apply (peek_word _ _ _ _ Hp2 Hw1); intros y Hy; cbn in *; tauto). cbv iota.
    erewrite bind_ret by (apply (redirs_none _ p _ n Hp2); [by apply word_solid|]; destruct (word_first w Hw1) as (x & w' & -> & Hx & _); cbn; split; intros ->; done).
    destruct (args_at (w :: argv) [] 0 p rs r (S n) Hp) as (c' & p' & R & Hp' & Ec); [done..|cbn in *; lia|lia|]. exists c', p'. by rewrite R, Ec.
Qed.

(** *** Ampersands *)

Lemma back_at k : forall c p r f, pos p (replicate k 38 ++ r) -> stops [41; 59] r -> (k < f)%nat ->
  exists c' p', parseback buf f c p = Ret c' p' /\ pos p' r /\ resolve buf c' = Nat.iter k SBack (resolve buf c).
Proof.
  induction k as [|k IH]; intros c p r f Hp Hs Hf; (destruct f as [|f]; [lia|]); cbn [parseback].
  - exists c, p. cbn in Hp. assert (E : peek buf [38] p = Ret false p); [|by erewrite bind_ret by exact E].
    apply (peek_head _ _ _ _ Hp); [apply (stops_solid _ _ Hs); intros y Hy; cbn in *; tauto|]. destruct r; [done|]. cbn in Hs |- *. intuition (subst; done).
  - cbn [replicate app] in Hp. assert (Hs' : solid (replicate k 38 ++ r)) by (destruct k; [apply (stops_solid _ _ Hs); intros y Hy; cbn in *; tauto|done]).
    assert (E : peek buf [38] p = Ret true p) by (by apply (peek_head _ _ _ _ Hp)). erewrite bind_ret by exact E. cbv iota.
    destruct (token_symbol p 38 _ Hp eq_refl Hs') as (p1 & R & Hp' & _). erewrite bind_ret by exact R.
    destruct (IH (BACK c) p1 r f Hp' Hs) as (c' & p' & R' & Hp2 & Ec); [lia|]. exists c', p'. rewrite R', Ec. split_and!; [done..|]. by rewrite (Nat.iter_succ_r k).
Qed.

(** *** Every level of the grammar *)

Lemma write_solid k c l : writable c -> solid l -> solid (write k c ++ l).
Proof.
  revert k l. induction c as [argv|c IH file m fd|c1 IH1 c2 IH2|c1 IH1 c2 IH2|c IH]; intros k l Hw Hl; cbn [write writable] in *.
  - destruct Hw as [Hw _], Hw as [|w argv Hw _]; [done|]. cbn [map concat]. rewrite <- app_assoc. by apply word_solid.
  - destruct Hw as (Hw & _ & _). rewrite <- app_assoc. apply IH; [done|]. cbn. by destruct (fd =? 0).
  - destruct Hw, k; try done; rewrite <- app_assoc; by apply IH1.
  - destruct Hw, k; try done; rewrite <- app_assoc; by apply IH1.
  - destruct k; try done; rewrite <- app_assoc; by apply IH.
Qed.

(** A routine started at [p], on a text followed by [r], reads just that text
    and gives the command [c]. *)
Definition gives (m : M nat cmd) (p : nat) (r : list Z) (c : scmd) : Prop :=
  exists c' p', m p = Ret c' p' /\ pos p' r /\ resolve buf c' = c.

Definition reads_exec (c : scmd) : Prop := forall rs p r f, pos p (write InExec c ++ put_redirs rs ++ r) -> Forall redir_ok rs ->
  stops after_exec r -> (4 * (n - p) + 1 < f)%nat -> gives (parseexec buf f) p r (wraps c rs).
Definition reads_pipe (c : scmd) : Prop := forall p r f, pos p (write InPipe c ++ r) ->
  stops [41; 38; 59] r -> (4 * (n - p) + 2 < f)%nat -> gives (parsepipe buf f) p r c.
Definition reads_back (c : scmd) : Prop := forall k p r f, pos p (write InBack c ++ replicate k 38 ++ r) ->
  stops [41; 59] r -> (4 * (n - p) + 2 < f)%nat -> gives (c' ← parsepipe buf f; parseback buf (S n) c') p r (Nat.iter k SBack c).
Definition reads_line (c : scmd) : Prop := forall p r f, pos p (write InLine c ++ r) ->
  stops [41] r -> (4 * (n - p) + 3 < f)%nat -> gives (parseline buf f) p r c.

Ltac stop := match goal with
  | H : stops ?S ?r |- solid ?r => apply (stops_solid S r H); intros ? ?; cbn in *; tauto
  | H : stops ?S ?r |- stops ?S' ?r => destruct r; [done|]; cbn in *; tauto
  | H : stops ?S ?r |- match ?r with _ => _ end => destruct r; [done|]; cbn in *; intuition (subst; done)
  end.

Lemma pipe_of_exec c : write InPipe c = write InExec c -> reads_exec c -> reads_pipe c.
Proof.
  intros E He p r f Hp Hs Hf. destruct f as [|f]; [lia|]. rewrite E in Hp. destruct (He [] p r f Hp) as (c' & p' & R & Hp' & Ec); [done|stop|lia|].
  exists c', p'. cbn [parsepipe]. erewrite bind_ret by exact R. assert (Ep : peek buf [124] p' = Ret false p') by (apply (peek_head _ _ _ _ Hp'); stop).
  by erewrite bind_ret by exact Ep.
Qed.

Lemma back_of_pipe c : write InBack c = write InPipe c -> reads_pipe c -> reads_back c.
Proof.
  intros E Hc k p r f Hp Hs Hf. rewrite E in Hp. destruct (Hc p (replicate k 38 ++ r) f Hp) as (c' & p' & R & Hp' & Ec); [destruct k; [stop|cbn; tauto]|lia|].
  destruct (back_at k c' p' r (S n) Hp' Hs) as (c2 & p2 & R2 & Hp2 & Ec2).
  { pose proof (pos_len _ _ Hp') as El. rewrite length_app, length_replicate in El. lia. }
  exists c2, p2. erewrite bind_ret by exact R. by rewrite Ec2, Ec.
Qed.

(** parseline is the part [reads_back] is about and the list after it. *)
Lemma parseline_split f p : parseline buf (S f) p =
  (c ← (c' ← parsepipe buf f; parseback buf (S n) c'); b ← peek buf [59]; if (b : bool) then gettoken buf ;; r ← parseline buf f; mret (LIST c r) else mret c) p.
Proof. cbn [parseline]. unfold mbind, M_bind. by destruct (parsepipe buf f p). Qed.

Lemma line_of_back c : write InLine c = write InBack c -> reads_back c -> reads_line c.
Proof.
  intros E Hc p r f Hp Hs Hf. destruct f as [|f]; [lia|]. rewrite E in Hp. destruct (Hc 0%nat p r f Hp) as (c' & p' & R & Hp' & Ec); [stop|lia|].
  exists c', p'. rewrite parseline_split. erewrite bind_ret by exact R. assert (Ep : peek buf [59] p' = Ret false p') by (apply (peek_head _ _ _ _ Hp'); stop).
  by erewrite bind_ret by exact Ep.
Qed.

Lemma exec_of_line c : writable c -> write InExec c = block (write InLine c) -> reads_line c -> reads_exec c.
Proof.
  intros Hw E Hc rs p r f Hp Hr Hs Hf. destruct f as [|[|f]]; [lia..|]. rewrite E in Hp. unfold block in Hp. rewrite <- !app_assoc in Hp. cbn [app] in Hp.
  assert (Ep : peek buf [40] p = Ret true p) by (by apply (peek_head _ _ _ _ Hp)).
  assert (Hs1 : solid (write InLine c ++ 41 :: put_redirs rs ++ r)) by (by apply write_solid).
  destruct (token_symbol p 40 _ Hp eq_refl Hs1) as (p1 & R1 & Hp1 & Hlt). pose proof (pos_len _ _ Hp) as El. cbn [length] in El.
  destruct (Hc p1 (41 :: put_redirs rs ++ r) f Hp1) as (c1 & p2 & R2 & Hp2 & Ec); [cbn; tauto|lia|].
  assert (Hs2 : solid (put_redirs rs ++ r)) by (apply redirs_solid; [done|by apply after_exec_solid]).
  destruct (token_symbol p2 41 _ Hp2 eq_refl Hs2) as (p3 & R3 & Hp3 & _).
  destruct (redirs_at rs c1 p3 r (S n) Hp3 Hr (after_exec_solid r Hs) (after_exec_noredir r Hs) (redirs_fuel rs r _ Hp3)) as (c' & p' & R & Hp' & Ec').
  exists c', p'. split_and!; [|done|by rewrite Ec', Ec]. cbn [parseexec]. erewrite bind_ret by exact Ep. cbv iota. cbn [parseblock].
  erewrite bind_ret by exact Ep. cbn [negb]. cbv iota. erewrite bind_ret by exact R1. erewrite bind_ret by exact R2.
  assert (Ep2 : peek buf [41] p2 = Ret true p2) by (by apply (peek_head _ _ _ _ Hp2)). erewrite bind_ret by exact Ep2. cbn [negb]. cbv iota. by erewrite bind_ret by exact R3.
Qed.

Lemma reads_pipe_pipe c1 c2 : writable c2 -> reads_exec c1 -> reads_pipe c2 -> reads_pipe (SPipe c1 c2).
Proof.
  intros Hw H1 H2 p r f Hp Hs Hf. destruct f as [|f]; [lia|]. cbn [write] in Hp. rewrite <- !app_assoc in Hp. cbn [app] in Hp.
  destruct (H1 [] p (124 :: write InPipe c2 ++ r) f Hp) as (c' & p' & R & Hp' & Ec); [done|cbn; tauto|lia|].
  assert (Hs1 : solid (write InPipe c2 ++ r)) by (apply write_solid; [done|stop]). destruct (token_symbol p' 124 _ Hp' eq_refl Hs1) as (p1 & R1 & Hp1 & Hlt). pose proof (pos_before _ _ _ _ _ Hp Hp') as El.
  destruct (H2 p1 r f Hp1 Hs) as (c3 & p3 & R3 & Hp3 & Ec3); [lia|].
  exists (PIPE c' c3), p3. cbn [parsepipe]. erewrite bind_ret by exact R. assert (Ep : peek buf [124] p' = Ret true p') by (by apply (peek_head _ _ _ _ Hp')).
  erewrite bind_ret by exact Ep. cbv iota. erewrite bind_ret by exact R1. erewrite bind_ret by exact R3. cbn [resolve]. by rewrite Ec, Ec3.
Qed.

Lemma reads_line_list c1 c2 : writable c2 -> reads_back c1 -> reads_line c2 -> reads_line (SList c1 c2).
Proof.
  intros Hw H1 H2 p r f Hp Hs Hf. destruct f as [|f]; [lia|]. cbn [write] in Hp. rewrite <- !app_assoc in Hp. cbn [app] in Hp.
  destruct (H1 0%nat p (59 :: write InLine c2 ++ r) f Hp) as (c' & p' & R & Hp' & Ec); [cbn; tauto|lia|].
  assert (Hs1 : solid (write InLine c2 ++ r)) by (apply write_solid; [done|stop]). destruct (token_symbol p' 59 _ Hp' eq_refl Hs1) as (p1 & R1 & Hp1 & Hlt). pose proof (pos_before _ _ _ _ _ Hp Hp') as El.
  destruct (H2 p1 r f Hp1 Hs) as (c3 & p3 & R3 & Hp3 & Ec3); [lia|].
  exists (LIST c' c3), p3. rewrite parseline_split. erewrite bind_ret by exact R. assert (Ep : peek buf [59] p' = Ret true p') by (by apply (peek_head _ _ _ _ Hp')).
  erewrite bind_ret by exact Ep. cbv iota. erewrite bind_ret by exact R1. erewrite bind_ret by exact R3. cbn [resolve]. cbn in Ec. by rewrite Ec, Ec3.
Qed.

Lemma reads_all c : writable c -> reads_exec c /\ reads_pipe c /\ reads_back c /\ reads_line c.
Proof.
  induction c as [argv|c IH file m fd|c1 IH1 c2 IH2|c1 IH1 c2 IH2|c IH]; cbn [writable]; intros Hw.
  - assert (E : reads_exec (SExec argv)).
    { intros rs p r f Hp Hr Hs Hf. destruct f as [|f]; [lia|]. destruct Hw. by apply exec_at. }
    assert (P : reads_pipe (SExec argv)) by (by apply pipe_of_exec). assert (B : reads_back (SExec argv)) by (by apply back_of_pipe). split_and!; [done..|by apply line_of_back].
  - destruct Hw as (Hw & Hf & Hk). destruct (IH Hw) as (E' & _). assert (E : reads_exec (SRedir c file m fd)).
    { intros rs p r f Hp Hr Hs Hfu. cbn [write] in Hp. rewrite <- app_assoc in Hp. apply (E' ((file, m, fd) :: rs) p r f); [by cbn [put_redirs map concat fst snd]; rewrite <- app_assoc|by constructor|done..]. }
    set (d := SRedir c file m fd) in *. assert (P : reads_pipe d) by (by apply pipe_of_exec). assert (B : reads_back d) by (by apply back_of_pipe). split_and!; [done..|by apply line_of_back].
  - destruct Hw as [Hw1 Hw2], (IH1 Hw1) as (E1 & _), (IH2 Hw2) as (_ & P2 & _). assert (P : reads_pipe (SPipe c1 c2)) by (by apply reads_pipe_pipe).
    set (d := SPipe c1 c2) in *. assert (B : reads_back d) by (by apply back_of_pipe). assert (L : reads_line d) by (by apply line_of_back). split_and!; [|done..]. by apply exec_of_line.
  - destruct Hw as [Hw1 Hw2], (IH1 Hw1) as (_ & _ & B1 & _), (IH2 Hw2) as (_ & _ & _ & L2). assert (L : reads_line (SList c1 c2)) by (by apply reads_line_list).
    set (d := SList c1 c2) in *. assert (E : reads_exec d) by (by apply exec_of_line). assert (P : reads_pipe d) by (by apply pipe_of_exec). split_and!; [done..| |done]. by apply back_of_pipe.
  - destruct (IH Hw) as (_ & _ & B1 & _). assert (B : reads_back (SBack c)).
    { intros k p r f Hp Hs Hf. cbn [write] in Hp. rewrite <- app_assoc in Hp. destruct (B1 (S k) p r f Hp Hs Hf) as (c' & p' & R & Hp' & Ec). exists c', p'. rewrite R, Ec. by rewrite Nat.iter_succ_r. }
    set (d := SBack c) in *. assert (L : reads_line d) by (by apply line_of_back). assert (E : reads_exec d) by (by apply exec_of_line). split_and!; [done| |done..]. by apply pipe_of_exec.
Qed.
End Reading.

(** The command as runcmd sees it: each name is the string at its pointer. *)
Fixpoint strings (b : list Z) (c : cmd) : scmd :=
  match c with
  | EXEC argv => SExec (map (fun w => cstring b w.1) argv)
  | REDIR c' q _ mode fd => SRedir (strings b c') (cstring b q) mode fd
  | PIPE l r => SPipe (strings b l) (strings b r)
  | LIST l r => SList (strings b l) (strings b r)
  | BACK c' => SBack (strings b c')
  end.

Lemma strings_resolve buf b c : (forall q eq, (q, eq) ∈ cmd_words c -> cstring b q = text buf q eq) -> strings b c = resolve buf c.
Proof.
  induction c as [argv|c IH q eq m fd|l IHl r IHr|l IHl r IHr|c IH]; cbn [cmd_words strings resolve]; intros H.
  - f_equal. apply map_ext_in. intros [q eq] Hin. cbn. apply H. by apply list_elem_of_In.
  - f_equal; [apply IH; intros; apply H; set_solver|apply H; set_solver].
  - f_equal; [apply IHl|apply IHr]; intros; apply H; set_solver.
  - f_equal; [apply IHl|apply IHr]; intros; apply H; set_solver.
  - f_equal. by apply IH.
Qed.

Lemma parsecmd_strings buf c b s : Forall (fun c => c <> 0) buf -> parsecmd buf = Ret (c, b) s -> strings b c = resolve buf c.
Proof. intros Hnz R. destruct (parsecmd_result buf c b s Hnz R) as [_ Hw]. apply strings_resolve. intros q eq Hin. by apply Hw. Qed.

Definition nonzero (l : list Z) : Prop := Forall (fun c => c <> 0) l.

(** The bytes of what is written are those of words, blanks and symbols. *)
Section Bytes.
Variable P : Z -> Prop.
Hypothesis P_word : forall c, is_word c = true -> c <> 0 -> P c.
Hypothesis P_blank : P 32.
Hypothesis P_symbols : Forall P symbols.

Lemma P_symbol c : strchr symbols c = true -> P c.
Proof. intros H. apply existsb_exists in H as (x & Hx & E). apply Z.eqb_eq in E as ->. apply (proj1 (Forall_forall _ _) P_symbols). by apply list_elem_of_In. Qed.

Ltac bytes := repeat first [assumption | match goal with IH : forall k, writable ?c -> Forall P (write k ?c) |- _ => by apply IH end |
  apply Forall_app_2 | apply Forall_cons_2; [by apply P_symbol|] | apply Forall_nil_2].

Lemma put_word_bytes w : word_text w -> Forall P (put_word w).
Proof. intros [_ Hw]. apply Forall_app. split; [|by constructor]. eapply Forall_impl; [exact Hw|]. intros c [Hc H0]. by apply P_word. Qed.

Lemma write_bytes c : forall k, writable c -> Forall P (write k c).
Proof.
  assert (Hb : forall l, Forall P l -> Forall P (block l)) by (intros l Hl; unfold block; bytes).
  induction c as [argv|c IH file m fd|l IHl r IHr|l IHl r IHr|c IH]; intros k; cbn [writable write].
  - intros [Hw _]. induction Hw as [|w argv Hw _ IH]; [constructor|]. apply Forall_app. split; [by apply put_word_bytes|done].
  - intros (Hw & Hf & _). apply Forall_app. split; [by apply IH|]. apply Forall_app. split; [|by apply put_word_bytes]. destruct (fd =? 0); bytes.
  - intros [Hl Hr]. assert (H : Forall P (write InExec l ++ [124] ++ write InPipe r)) by bytes. destruct k; auto.
  - intros [Hl Hr]. assert (H : Forall P (write InBack l ++ [59] ++ write InLine r)) by bytes. destruct k; auto.
  - intros Hw. assert (H : Forall P (write InBack c ++ [38])) by bytes. destruct k; auto.
Qed.
End Bytes.

Lemma write_nonzero k c : writable c -> nonzero (write k c).
Proof. apply write_bytes; [done|done|]. by repeat constructor. Qed.

Lemma blank_nonzero l : Forall (fun c => strchr whitespace c = true) l -> nonzero l.
Proof. intros H. eapply Forall_impl; [exact H|]. intros c Hc ->. done. Qed.

(** The parser starts with a peek, which goes over blanks first. *)
Lemma parseline_skip buf f p : skip buf (strchr whitespace) (skip buf (strchr whitespace) p) = skip buf (strchr whitespace) p ->
  parseline buf (S (S (S f))) (skip buf (strchr whitespace) p) = parseline buf (S (S (S f))) p.
Proof. intros E. cbn [parseline parsepipe parseexec]. unfold mbind, M_bind, peek at 1 3. by rewrite E. Qed.

Lemma parsecmd_written c tail : writable c -> Forall (fun b => strchr whitespace b = true) tail ->
  exists c' b s, parsecmd (write InLine c ++ tail) = Ret (c', b) s /\ strings b c' = c.
Proof.
  intros Hw Ht. set (buf := write InLine c ++ tail). destruct (reads_all buf tail Ht c Hw) as (_ & _ & _ & L).
  assert (Hp : pos buf tail (skip buf (strchr whitespace) 0) (write InLine c)).
  { apply skip_raw; [done|by exists []|]. rewrite <- (app_nil_r (write InLine c)). by apply write_solid. }
  set (p0 := skip buf (strchr whitespace) 0) in *. rewrite <- (app_nil_r (write InLine c)) in Hp.
  destruct (L p0 [] (parse_fuel buf) Hp) as (c' & p & R & Hp' & Ec); [done|unfold parse_fuel; pose proof (pos_len _ _ _ _ Hp); lia|]. cbn in Hp'.
  assert (E : parsecmd buf = Ret (c', nulterminate c' (buf ++ [0])) p).
  { unfold parsecmd. assert (R' : parseline buf (parse_fuel buf) 0%nat = Ret c' p).
    { unfold parse_fuel in *. replace (4 * length buf + 4)%nat with (S (S (S (4 * length buf + 1)))) in * by lia. unfold p0 in R. rewrite parseline_skip in R; [done|].
      apply (skip_solid buf tail p0 _ Hp). apply write_solid; done. }
    erewrite bind_ret by exact R'. erewrite bind_ret by (by apply (peek_at buf tail [] p [])). unfold mbind, M_bind, gets. cbn. by rewrite (proj2 (Nat.eqb_eq p (length buf))) by lia. }
  eexists _, _, _. split; [exact E|]. rewrite <- Ec. apply (parsecmd_strings buf _ _ p); [|exact E].
  apply Forall_app. split; [by apply write_nonzero|by apply blank_nonzero].
Qed.

(** C25: Reading what was written: a command of any shape (pipelines, lists,
    backgrounds and redirections nested in each other, at most nine arguments
    per program), written down with blocks just where the grammar needs them
    and followed by a newline or other blanks, is parsed back by parsecmd to
    that command: the strings runcmd finds at its pointers are the words. *)
Theorem parsecmd_write c tail : writable c -> Forall (fun b => strchr whitespace b = true) tail ->
  exists c' b s, parsecmd (write InLine c ++ tail) = Ret (c', b) s /\ strings b c' = c.
Proof. apply parsecmd_written. Qed.

(** ** Instances *)

(** [ls>f] *)
Definition demo_line : list Z := [108; 115; 62; 102].

Lemma parsecmd_ends_witness : (exists c b s, parsecmd demo_line = Ret (c, b) s) \/
  parsecmd demo_line = Panic "syntax" \/ parsecmd demo_line = Panic "missing file for redirection" \/
  parsecmd demo_line = Panic "syntax - missing )" \/ parsecmd demo_line = Panic "too many args".
Proof. apply (parsecmd_ends demo_line). unfold demo_line. repeat constructor; lia. Defined.

Lemma parsecmd_words_witness : exists b s, parsecmd demo_line = Ret (REDIR (EXEC [(0, 2)%nat]) 3 4 (Z.lor O_WRONLY O_CREATE) 1, b) s /\
  cmd_ok demo_line (REDIR (EXEC [(0, 2)%nat]) 3 4 (Z.lor O_WRONLY O_CREATE) 1) /\ cstring b 0 = [108; 115] /\ cstring b 3 = [102].
Proof.
  set (c := REDIR (EXEC [(0, 2)%nat]) 3 4 (Z.lor O_WRONLY O_CREATE) 1).
  assert (E : exists b s, parsecmd demo_line = Ret (c, b) s) by (eexists _, _; vm_compute; reflexivity). destruct E as (b & s & E). exists b, s.
  destruct (parsecmd_words demo_line c b s) as [Hc Hw]; [unfold demo_line; repeat constructor; lia|exact E|]. split_and!; [exact E|exact Hc|..].
  - destruct (Hw 0%nat 2%nat) as [-> _]; [|by vm_compute]. apply (bool_decide_unpack _). by vm_compute.
  - destruct (Hw 3%nat 4%nat) as [-> _]; [|by vm_compute]. apply (bool_decide_unpack _). by vm_compute.
Defined.

(** [(a & ; b) | c >f], a pipeline whose left side is a list. *)
Definition demo_command : scmd := SPipe (SList (SBack (SExec [[97]])) (SExec [[98]])) (SRedir (SExec [[99]]) [102] (Z.lor O_WRONLY O_CREATE) 1).

Lemma demo_writable : writable demo_command.
Proof.
  assert (H : forall c, 97 <= c <= 102 -> word_text [c]).
  { intros c Hc. split; [done|]. constructor; [|constructor]. split; [|lia].
    assert (Ec : c = 97 \/ c = 98 \/ c = 99 \/ c = 100 \/ c = 101 \/ c = 102) by lia. intuition (subst; done). }
  cbn [writable demo_command]. split_and!; try (apply H; lia); try (apply Forall_singleton, H; lia); try (cbn; unfold MAXARGS; lia). by right.
Qed.

Lemma parsecmd_write_witness : exists c' b s,
  parsecmd (write InLine demo_command ++ [10]) = Ret (c', b) s /\ strings b c' = demo_command.
Proof. apply (parsecmd_write demo_command [10]); [exact demo_writable|]. by repeat constructor. Defined.
