(* ===== verification/ShRun.v ===== *)
(** * The shell at work: runcmd, getcmd and main of sh.c

    fork returns twice, so a program is the tree of its system calls
    ([prog]): a call and what is done for each result.  A process runs a
    tree with a table of sixteen descriptors, the lowest free one given out
    as fdalloc does; what it does is its trace, with the trace of each child
    at the fork.  A process is named by its place in the tree of forks and a
    pipe by the process that made it, so traces do not depend on how the
    processes are scheduled.  Which opens, execs, forks and pipes succeed is
    a parameter.  The theorems: runcmd never returns and runs each program
    of a command with exactly three descriptors, wired as the command says;
    main forks one child per line, and the line of a written command runs
    that command. *)

From stdpp Require Import base list strings.
From Stdlib Require Import ZArith Lia Ascii.
From Stdlib Require String.
From S2P Require Import Prelude CString Format Ulib Grep Usr Sh.

Local Open Scope Z_scope.

(** ** Programs as trees of system calls *)

(** read gives its result and the byte, pipe its result and the two
    descriptors; [Cut] is a loop out of fuel. *)
Inductive prog (A : Type) : Type :=
| Done (a : A)
| Exit
| Cut
| Write (fd : Z) (l : list Z) (k : Z -> prog A)
| Read (fd : Z) (k : Z * Z -> prog A)
| Open (path : list Z) (mode : Z) (k : Z -> prog A)
| Close (fd : Z) (k : Z -> prog A)
| Dup (fd : Z) (k : Z -> prog A)
| Pipe (k : Z * Z * Z -> prog A)
| Fork (k : Z -> prog A)
| Wait (k : Z -> prog A)
| Exec (path : list Z) (argv : list (list Z)) (k : Z -> prog A)
| Chdir (path : list Z) (k : Z -> prog A).
Arguments Done {A} a.
Arguments Exit {A}.
Arguments Cut {A}.
Arguments Write {A} fd l k.
Arguments Read {A} fd k.
Arguments Open {A} path mode k.
Arguments Close {A} fd k.
Arguments Dup {A} fd k.
Arguments Pipe {A} k.
Arguments Fork {A} k.
Arguments Wait {A} k.
Arguments Exec {A} path argv k.
Arguments Chdir {A} path k.

#[export] Instance prog_ret : MRet prog := fun A a => Done a.
#[export] Instance prog_bind : MBind prog := fun A B f =>
  fix go (m : prog A) : prog B :=
    match m with
    | Done a => f a
    | Exit => Exit
    | Cut => Cut
    | Write fd l k => Write fd l (fun r => go (k r))
    | Read fd k => Read fd (fun r => go (k r))
    | Open path mode k => Open path mode (fun r => go (k r))
    | Close fd k => Close fd (fun r => go (k r))
    | Dup fd k => Dup fd (fun r => go (k r))
    | Pipe k => Pipe (fun r => go (k r))
    | Fork k => Fork (fun r => go (k r))
    | Wait k => Wait (fun r => go (k r))
    | Exec path argv k => Exec path argv (fun r => go (k r))
    | Chdir path k => Chdir path (fun r => go (k r))
    end.

Definition open (path : list Z) (mode : Z) : prog Z := Open path mode mret.
Definition close (fd : Z) : prog Z := Close fd mret.
Definition dup (fd : Z) : prog Z := Dup fd mret.
Definition pipe : prog (Z * Z * Z) := Pipe mret.
Definition fork : prog Z := Fork mret.
Definition wait : prog Z := Wait mret.
Definition exec (path : list Z) (argv : list (list Z)) : prog Z := Exec path argv mret.
Definition chdir (path : list Z) : prog Z := Chdir path mret.

(** printf, a write per byte. *)
Fixpoint say (fd : Z) (l : list Z) : prog unit :=
  match l with [] => mret tt | c :: l' => Write fd [c] (fun _ => say fd l') end.
Definition printf (fd : Z) (fmt : list Z) (ap : list varg) : prog unit :=
  match Format.printf fmt ap with Some l => say fd l | None => Cut end.

(** ** sh.c *)

Definition panic {A} (s : list Z) : prog A := printf 2 (str "%s" ++ nl) [AStr (Some s)] ;; Exit.

Definition fork1 : prog Z :=
  pid ← fork;
  if pid =? -1 then panic (str "fork") else mret pid.

(** The command of a child process runs in it and does not come back. *)
Fixpoint runcmd (c : scmd) : prog unit :=
  match c with
  | SExec [] => Exit
  | SExec (a :: argv) =>
    exec a (a :: argv) ;;
    printf 2 (str "exec %s failed" ++ nl) [AStr (Some a)] ;;
    Exit
  | SRedir c' file mode fd =>
    close fd ;;
    r ← open file mode;
    if r <? 0 then printf 2 (str "open %s failed" ++ nl) [AStr (Some file)] ;; Exit else
    runcmd c' ;;
    Exit
  | SList l r =>
    pid ← fork1;
    (if pid =? 0 then runcmd l else mret tt) ;;
    wait ;;
    runcmd r ;;
    Exit
  | SPipe l r =>
    p ← pipe;
    if p.1.1 <? 0 then panic (str "pipe") else
    pid ← fork1;
    (if pid =? 0 then close 1 ;; dup p.2 ;; close p.1.2 ;; close p.2 ;; runcmd l else mret tt) ;;
    pid ← fork1;
    (if pid =? 0 then close 0 ;; dup p.1.2 ;; close p.1.2 ;; close p.2 ;; runcmd r else mret tt) ;;
    close p.1.2 ;;
    close p.2 ;;
    wait ;;
    wait ;;
    Exit
  | SBack c' =>
    pid ← fork1;
    (if pid =? 0 then runcmd c' else mret tt) ;;
    Exit
  end.

(** gets into the zeroed buffer: the bytes stored. *)
Fixpoint gets_bytes (k : nat) : prog (list Z) :=
  match k with
  | O => mret []
  | S k' => Read 0 (fun r =>
    if r.1 <? 1 then mret [] else
    if (r.2 =? 10) || (r.2 =? 13) then mret [r.2] else
    l ← gets_bytes k'; mret (r.2 :: l))
  end.

(** The buffer as a string and getcmd's result. *)
Definition getcmd (nbuf : nat) : prog (list Z * Z) :=
  printf 2 (str "$ ") [] ;;
  l ← gets_bytes (nbuf - 1);
  let buf := to_nul l in
  mret (buf, match buf with [] => -1 | _ => 0 end).

(** What is left of the line when parseline comes back. *)
Definition leftovers (buf : list Z) : list Z :=
  match (parseline buf (parse_fuel buf) ≫= fun _ => peek buf []) 0%nat with Ret _ s => drop s buf | _ => [] end.

(** parsecmd with its messages. *)
Definition parse (buf : list Z) : prog scmd :=
  match parsecmd buf with
  | Ret (c, b) _ => mret (strings b c)
  | Panic msg =>
    match leftovers buf with [] => mret tt | l => printf 2 (str "leftovers: %s" ++ nl) [AStr (Some l)] end ;;
    panic (str msg)
  | _ => Cut
  end.

Definition O_RDWR : Z := 2.

Fixpoint open_console (fuel : nat) : prog unit :=
  match fuel with
  | O => Cut
  | S f =>
    fd ← open (str "console") O_RDWR;
    if 0 <=? fd then (if 3 <=? fd then close fd ;; mret tt else open_console f) else mret tt
  end.

Fixpoint sh_loop (fuel : nat) : prog unit :=
  match fuel with
  | O => Cut
  | S f =>
    g ← getcmd 100;
    let buf := g.1 in
    if g.2 <? 0 then Exit else
    if bool_decide (take 3 buf = [99; 100; 32]) then
      let path := drop 3 (removelast buf) in
      r ← chdir path;
      (if r <? 0 then printf 2 (str "cannot cd %s" ++ nl) [AStr (Some path)] else mret tt) ;;
      sh_loop f
    else
      pid ← fork1;
      (if pid =? 0 then c ← parse buf; runcmd c else mret tt) ;;
      wait ;;
      sh_loop f
  end.

Definition sh_main (fuel : nat) : prog unit := open_console 17 ;; sh_loop fuel.

(** ** Processes *)

Definition path : Type := list nat.

Inductive desc : Type :=
| Given (i : nat)                     (* what the process started with *)
| Opened (file : list Z) (mode : Z)
| PipeR (maker : path) (i : nat)
| PipeW (maker : path) (i : nat).

Inductive event : Type :=
| EWrite (d : desc) (l : list Z)
| EOpen (file : list Z) (mode : Z)
| EChdir (dir : list Z)
| EFork (child : list event)
| EWait
| ELaunch (argv : list (list Z)) (fds : list (option desc))
| EExit.

(** A process: its descriptors and the forks, pipes and reads it has done. *)
Record pstate : Type := mkp { fds : list (option desc); nforks : nat; npipes : nat; nreads : nat }.

Definition with_fds (s : pstate) (t : list (option desc)) : pstate := mkp t (nforks s) (npipes s) (nreads s).

(** fdalloc: the lowest free descriptor. *)
Fixpoint free_fd (t : list (option desc)) : option nat :=
  match t with [] => None | None :: _ => Some O | Some _ :: t' => S <$> free_fd t' end.
Definition fdalloc (t : list (option desc)) (d : desc) : Z * list (option desc) :=
  match free_fd t with Some i => (Z.of_nat i, <[i := Some d]> t) | None => (-1, t) end.
Definition fd_at (t : list (option desc)) (fd : Z) : option desc :=
  if fd <? 0 then None else mjoin (t !! Z.to_nat fd).

(** What the kernel answers: whether an open, exec or chdir succeeds, the
    pid of a process's n-th fork or -1, whether its n-th pipe is made, the
    byte of its n-th read, if there is one, and what wait gives. *)
Class Answers : Type := {
  e_open : list Z -> Z -> bool;
  e_exec : list Z -> list (list Z) -> bool;
  e_chdir : list Z -> bool;
  e_fork : path -> nat -> Z;
  e_pipe : path -> nat -> bool;
  e_read : path -> nat -> option Z;
  e_wait : path -> Z }.

(** A pid is positive. *)
Class Pids {K : Answers} : Prop := e_fork_pid : forall q i, e_fork q i = -1 \/ 0 < e_fork q i.

Section Run.
Context {K : Answers}.

(** The trace of a process, and its value and state where it has not ended. *)
Fixpoint run {A} (q : path) (p : prog A) (s : pstate) : list event * option (A * pstate) :=
  match p with
  | Done a => ([], Some (a, s))
  | Exit => ([EExit], None)
  | Cut => ([], None)
  | Write fd l k =>
    match fd_at (fds s) fd with
    | Some d => let r := run q (k (Z.of_nat (length l))) s in (EWrite d l :: r.1, r.2)
    | None => run q (k (-1)) s
    end
  | Read fd k =>
    let s' := mkp (fds s) (nforks s) (npipes s) (S (nreads s)) in
    match fd_at (fds s) fd, e_read q (nreads s) with
    | Some _, Some b => run q (k (1, b)) s'
    | Some _, None => run q (k (0, 0)) s'
    | None, _ => run q (k (-1, 0)) s'
    end
  | Open file mode k =>
    if e_open file mode then
      let t := fdalloc (fds s) (Opened file mode) in
      let r := run q (k t.1) (with_fds s t.2) in (EOpen file mode :: r.1, r.2)
    else run q (k (-1)) s
  | Close fd k =>
    match fd_at (fds s) fd with
    | Some _ => run q (k 0) (with_fds s (<[Z.to_nat fd := None]> (fds s)))
    | None => run q (k (-1)) s
    end
  | Dup fd k =>
    match fd_at (fds s) fd with
    | Some d => let t := fdalloc (fds s) d in run q (k t.1) (with_fds s t.2)
    | None => run q (k (-1)) s
    end
  | Pipe k =>
    let s' := mkp (fds s) (nforks s) (S (npipes s)) (nreads s) in
    let t := fdalloc (fds s) (PipeR q (npipes s)) in
    let u := fdalloc t.2 (PipeW q (npipes s)) in
    if e_pipe q (npipes s) && (0 <=? t.1) && (0 <=? u.1) then run q (k (0, t.1, u.1)) (with_fds s' u.2)
    else run q (k (-1, 0, 0)) s'
  | Fork k =>
    let pid := e_fork q (nforks s) in
    let r := run q (k pid) (mkp (fds s) (S (nforks s)) (npipes s) (nreads s)) in
    if pid =? -1 then r
    else (EFork (run (q ++ [nforks s]) (k 0) (mkp (fds s) 0 0 0)).1 :: r.1, r.2)
  | Wait k => let r := run q (k (e_wait q)) s in (EWait :: r.1, r.2)
  | Exec file argv k =>
    if e_exec file argv then ([ELaunch argv (fds s)], None) else run q (k (-1)) s
  | Chdir dir k => let r := run q (k (if e_chdir dir then 0 else -1)) s in (EChdir dir :: r.1, r.2)
  end.


(** ** Programs that do not return *)

(** Whatever the calls give, the program ends in exit or in another program. *)
Fixpoint quits {A} (p : prog A) : Prop :=
  match p with
  | Done _ | Cut => False
  | Exit => True
  | Write _ _ k | Open _ _ k | Close _ k | Dup _ k | Fork k | Wait k | Exec _ _ k | Chdir _ k => forall r, quits (k r)
  | Read _ k => forall r, quits (k r)
  | Pipe k => forall r, quits (k r)
  end.

Lemma quits_bind {A B} (p : prog A) (f : A -> prog B) : quits p -> quits (p ≫= f).
Proof. induction p; cbn; try done; intros Hq r; auto. Qed.

(** What the calls of a program give. *)
Ltac run_cases := repeat match goal with
  | |- context [match fd_at ?a ?b with _ => _ end] => destruct (fd_at a b)
  | |- context [match e_read ?a ?b with _ => _ end] => destruct (e_read a b)
  | |- context [if e_open ?a ?b then _ else _] => destruct (e_open a b)
  | |- context [if e_exec ?a ?b then _ else _] => destruct (e_exec a b)
  | |- context [if e_pipe ?a ?b && ?x && ?y then _ else _] => destruct (e_pipe a b && x && y)
  | |- context [if e_fork ?a ?b =? -1 then _ else _] => destruct (e_fork a b =? -1)
  end.

Lemma run_quits {A B} (p : prog A) (f : A -> prog B) : quits p -> forall q s, run q (p ≫= f) s = ((run q p s).1, None) /\ (run q p s).2 = None.
Proof.
  induction p as [a| | |fd l k IH|fd k IH|file mode k IH|fd k IH|fd k IH|k IH|k IH|k IH|file argv k IH|dir k IH]; cbn [quits]; intros Hq q s; try done;
    unfold mbind; cbn [prog_bind run]; fold (mbind (M := prog) f);
    run_cases; try (by apply IH); try done.
  all: cbn [fst snd]; repeat match goal with IH : forall _, quits _ -> _, Hq : forall _, quits _ |- context [run ?q (_ ?r ≫= _) ?s] =>
    let E := fresh in let E2 := fresh in destruct (IH r (Hq r) q s) as [E E2]; rewrite E, ?E2; clear E end; done.
Qed.

Lemma quits_say {A} fd l (p : prog A) : quits p -> quits (say fd l ;; p).
Proof. induction l as [|c l IH]; intros Hp; [done|]. intros r. by apply IH. Qed.

Lemma quits_print {A} fd fmt ap l (p : prog A) : Format.printf fmt ap = Some l -> quits p -> quits (printf fd fmt ap ;; p).
Proof. intros E Hp. unfold printf. rewrite E. by apply quits_say. Qed.

Lemma panic_text s : Format.printf (str "%s" ++ nl) [AStr (Some s)] = Some (s ++ nl).
Proof. vm_compute. reflexivity. Qed.
Lemma exec_text s : Format.printf (str "exec %s failed" ++ nl) [AStr (Some s)] = Some (str "exec " ++ s ++ str " failed" ++ nl).
Proof. vm_compute. reflexivity. Qed.
Lemma open_text s : Format.printf (str "open %s failed" ++ nl) [AStr (Some s)] = Some (str "open " ++ s ++ str " failed" ++ nl).
Proof. vm_compute. reflexivity. Qed.
Lemma cd_text s : Format.printf (str "cannot cd %s" ++ nl) [AStr (Some s)] = Some (str "cannot cd " ++ s ++ nl).
Proof. vm_compute. reflexivity. Qed.
Lemma leftovers_text s : Format.printf (str "leftovers: %s" ++ nl) [AStr (Some s)] = Some (str "leftovers: " ++ s ++ nl).
Proof. vm_compute. reflexivity. Qed.

Lemma quits_panic {A} s : quits (panic s : prog A).
Proof. by eapply quits_print; [apply panic_text|]. Qed.

Lemma quits_fork1 {A} (f : Z -> prog A) : (forall pid, quits (f pid)) -> quits (fork1 ≫= f).
Proof. intros Hf r. cbn. destruct (r =? -1); [apply (quits_bind (panic _)), quits_panic|apply Hf]. Qed.

Lemma runcmd_quits c : quits (runcmd c).
Proof.
  induction c as [[|a argv]|c IH file m fd|l IHl r IHr|l IHl r IHr|c IH]; cbn [runcmd].
  - done.
  - intros r. eapply quits_print; [apply exec_text|done].
  - intros r r'. cbn. destruct (r' <? 0); [eapply quits_print; [apply open_text|done]|by apply quits_bind].
  - intros p. cbn. destruct (p.1.1 <? 0); [apply quits_panic|]. apply quits_fork1. intros pid. destruct (pid =? 0); [intros ? ? ? ?; by apply quits_bind|].
    apply quits_fork1. intros pid'. destruct (pid' =? 0); [intros ? ? ? ?; by apply quits_bind|]. by intros ? ? ? ?.
  - apply quits_fork1. intros pid. destruct (pid =? 0); [by apply quits_bind|]. intros w. cbn. by apply quits_bind.
  - apply quits_fork1. intros pid. by destruct (pid =? 0); [apply quits_bind|].
Qed.

(** ** What a command does *)

(** A process has three descriptors open. *)
Definition tab (a b e : desc) : list (option desc) := [Some a; Some b; Some e] ++ replicate 13 None.

Definition says (e : desc) (l : list Z) : list event := map (fun c => EWrite e [c]) l.
Definition dies (e : desc) (l : list Z) : list event := says e l ++ [EExit].

(** A process whose n-th fork gives a child that does [child] and that goes
    on with [rest]. *)
Definition forking (q : path) (i : nat) (e : desc) (child rest : list event) : list event :=
  if e_fork q i =? -1 then dies e (str "fork" ++ nl) else EFork child :: rest.

(** The command run by the process [q], which has standard descriptors
    [a], [b], [e] and has done [i] forks and [j] pipes. *)
Fixpoint does (c : scmd) (q : path) (i j : nat) (a b e : desc) : list event :=
  match c with
  | SExec [] => [EExit]
  | SExec (x :: argv) =>
    if e_exec x (x :: argv) then [ELaunch (x :: argv) (tab a b e)]
    else dies e (str "exec " ++ x ++ str " failed" ++ nl)
  | SRedir c' file mode fd =>
    if e_open file mode then
      EOpen file mode ::
      (if fd =? 0 then does c' q i j (Opened file mode) b e else does c' q i j a (Opened file mode) e)
    else dies e (str "open " ++ file ++ str " failed" ++ nl)
  | SList l r => forking q i e (does l (q ++ [i]) 0 0 a b e) (EWait :: does r q (S i) j a b e)
  | SPipe l r =>
    if e_pipe q j then
      forking q i e (does l (q ++ [i]) 0 0 a (PipeW q j) e)
        (forking q (S i) e (does r (q ++ [S i]) 0 0 (PipeR q j) b e) [EWait; EWait; EExit])
    else dies e (str "pipe" ++ nl)
  | SBack c' => forking q i e (does c' (q ++ [i]) 0 0 a b e) [EExit]
  end.

(** A redirection is of standard input or output. *)
Fixpoint std_redirs (c : scmd) : Prop :=
  match c with
  | SExec _ => True
  | SRedir c' _ _ fd => std_redirs c' /\ (fd = 0 \/ fd = 1)
  | SPipe l r | SList l r => std_redirs l /\ std_redirs r
  | SBack c' => std_redirs c'
  end.

Lemma run_say {A} q fd d l (p : prog A) s : fd_at (fds s) fd = Some d ->
  run q (say fd l ;; p) s = let r := run q p s in (says d l ++ r.1, r.2).
Proof.
  intros E. induction l as [|c l IH]; [cbn; by destruct (run q p s)|].
  change (run q (say fd (c :: l) ;; p) s) with (match fd_at (fds s) fd with
    | Some d' => let r := run q (say fd l ;; p) s in (EWrite d' [c] :: r.1, r.2)
    | None => run q (say fd l ;; p) s end). by rewrite E, IH.
Qed.

Lemma run_print {A} q fd d fmt ap l (p : prog A) s : Format.printf fmt ap = Some l -> fd_at (fds s) fd = Some d ->
  run q (printf fd fmt ap ;; p) s = let r := run q p s in (says d l ++ r.1, r.2).
Proof. intros El E. unfold printf. rewrite El. by apply run_say. Qed.

Lemma run_panic {A} q e l s : fd_at (fds s) 2 = Some e -> run q (panic l : prog A) s = (dies e (l ++ nl), None).
Proof. intros E. unfold panic. by rewrite (run_print q 2 e _ _ (l ++ nl)) by (done || apply panic_text). Qed.

Definition std (a b e : desc) (i j k : nat) : pstate := mkp (tab a b e) i j k.

(** fork1: it dies, or a child goes on with 0 and the parent with the pid. *)
Lemma run_fork1 {A} q e (f : Z -> prog A) s : fd_at (fds s) 2 = Some e -> run q (fork1 ≫= f) s =
  let pid := e_fork q (nforks s) in
  if pid =? -1 then (dies e (str "fork" ++ nl), None)
  else let r := run q (f pid) (mkp (fds s) (S (nforks s)) (npipes s) (nreads s)) in
       (EFork (run (q ++ [nforks s]) (f 0) (mkp (fds s) 0 0 0)).1 :: r.1, r.2).
Proof.
  intros E. change (fork1 ≫= f) with (Fork (fun pid => (if pid =? -1 then panic (str "fork") else mret pid) ≫= f)). cbn [run]. cbv zeta.
  destruct (Z.eqb_spec (e_fork q (nforks s)) (-1)) as [Ep|Ep]; [|done]. set (s' := mkp _ _ _ _).
  destruct (run_quits (panic (str "fork")) f (quits_panic _) q s') as [-> _]. by rewrite (run_panic q e) by done.
Qed.

(** *** The calls on a process with three descriptors *)

Definition piped (a b e r w : desc) : list (option desc) := [Some a; Some b; Some e; Some r; Some w] ++ replicate 11 None.

Lemma run_redirect {A} q fd file mode (k : Z -> prog A) a b e i j n : fd = 0 \/ fd = 1 ->
  run q (close fd ;; r ← open file mode; k r) (std a b e i j n) =
  if e_open file mode then
    let r := run q (k fd) (if fd =? 0 then std (Opened file mode) b e i j n else std a (Opened file mode) e i j n) in (EOpen file mode :: r.1, r.2)
  else run q (k (-1)) (mkp (<[Z.to_nat fd := None]> (tab a b e)) i j n).
Proof. intros [-> | ->]; cbn; by destruct (e_open file mode). Qed.

Lemma run_exec {A} q x argv (k : Z -> prog A) s : run q (exec x argv ≫= k) s = if e_exec x argv then ([ELaunch argv (fds s)], None) else run q (k (-1)) s.
Proof. done. Qed.

Lemma run_wait {A} q (p : prog A) s : run q (wait ;; p) s = let r := run q p s in (EWait :: r.1, r.2).
Proof. done. Qed.

Lemma run_pipe {A} q (k : Z * Z * Z -> prog A) a b e i j n :
  run q (pipe ≫= k) (std a b e i j n) =
  if e_pipe q j then run q (k (0, 3, 4)) (mkp (piped a b e (PipeR q j) (PipeW q j)) i (S j) n) else run q (k (-1, 0, 0)) (std a b e i (S j) n).
Proof. cbn. by destruct (e_pipe q j). Qed.

Lemma run_writer {A} q (p : prog A) a b e r w i j n :
  run q (close 1 ;; dup 4 ;; close 3 ;; close 4 ;; p) (mkp (piped a b e r w) i j n) = run q p (std a w e i j n).
Proof. done. Qed.

Lemma run_reader {A} q (p : prog A) a b e r w i j n :
  run q (close 0 ;; dup 3 ;; close 3 ;; close 4 ;; p) (mkp (piped a b e r w) i j n) = run q p (std r b e i j n).
Proof. done. Qed.

Lemma run_maker q a b e r w i j n :
  run q (close 3 ;; close 4 ;; wait ;; wait ;; (Exit : prog unit)) (mkp (piped a b e r w) i j n) = ([EWait; EWait; EExit], None).
Proof. done. Qed.

Section Forks.
Context {P : Pids}.

(** The child does [f 0] and does not come back; the parent goes on. *)
Lemma run_spawn {A} q e (m : prog unit) (f : unit -> prog A) t u s : fd_at (fds s) 2 = Some e -> quits m ->
  run (q ++ [nforks s]) m (mkp (fds s) 0 0 0) = (t, None) -> run q (f tt) (mkp (fds s) (S (nforks s)) (npipes s) (nreads s)) = (u, None) ->
  run q (pid ← fork1; (if pid =? 0 then m else mret tt) ≫= f) s = (forking q (nforks s) e t u, None).
Proof.
  intros E Hm Ht Hu. rewrite (run_fork1 q e) by done. cbv zeta. unfold forking. destruct (e_fork_pid q (nforks s)) as [-> | Hp]; [done|].
  rewrite (proj2 (Z.eqb_neq (e_fork q (nforks s)) (-1))), (proj2 (Z.eqb_neq (e_fork q (nforks s)) 0)) by lia. change (0 =? 0) with true. cbv iota.
  destruct (run_quits m f Hm (q ++ [nforks s]) (mkp (fds s) 0 0 0)) as [-> _]. rewrite Ht. unfold mret, prog_ret. change (Done tt ≫= f) with (f tt). by rewrite Hu.
Qed.

Lemma runcmd_trace c : std_redirs c -> forall q i j n a b e, run q (runcmd c) (std a b e i j n) = (does c q i j a b e, None).
Proof.
  induction c as [[|x argv]|c IH file m fd|l IHl r IHr|l IHl r IHr|c IH]; cbn [std_redirs]; intros Hs q i j n a b e; cbn [runcmd does].
  - done.
  - rewrite run_exec. destruct (e_exec x (x :: argv)); [done|].
    by rewrite (run_print q 2 e _ _ _ _ _ (exec_text x)) by done.
  - destruct Hs as [Hs Hfd]. rewrite run_redirect by done. destruct (e_open file m).
    + destruct (run_quits (runcmd c) (fun _ => Exit : prog unit) (runcmd_quits c) q (if fd =? 0 then std (Opened file m) b e i j n else std a (Opened file m) e i j n)) as [R _].
      replace (fd <? 0) with false by lia. cbv zeta. rewrite R. destruct Hfd as [-> | ->]; [change (0 =? 0) with true|change (1 =? 0) with false]; cbv iota; by rewrite IH.
    + change (-1 <? 0) with true. cbv iota. by rewrite (run_print q 2 e _ _ _ _ _ (open_text file)) by (by destruct Hfd as [-> | ->]).
  - destruct Hs as [Hl Hr]. rewrite run_pipe. destruct (e_pipe q j); cbn [fst snd]; [|change (-1 <? 0) with true; cbv iota; by rewrite (run_panic q e)].
    change (0 <? 0) with false. cbv iota. apply (run_spawn q e); [done|intros ? ? ? ?; apply runcmd_quits|etrans; [apply run_writer|by apply IHl]|].
    apply (run_spawn q e); [done|intros ? ? ? ?; apply runcmd_quits|etrans; [apply run_reader|by apply IHr]|]. apply run_maker.
  - destruct Hs as [Hl Hr]. apply (run_spawn q e); [done|apply runcmd_quits|by apply IHl|].
    etrans; [apply run_wait|]. destruct (run_quits (runcmd r) (fun _ => Exit : prog unit) (runcmd_quits r) q (std a b e (S i) j n)) as [R _].
    cbv beta zeta. etrans; [apply (f_equal (fun x => (EWait :: x.1, x.2))), R|]. by rewrite IHr.
  - apply (run_spawn q e); [done|apply runcmd_quits|by apply IH|done].
Qed.

(** *** The shell's loop *)

Lemma run_assoc {A B C} q (m : prog A) (g : A -> prog B) (f : B -> prog C) : forall s, run q ((m ≫= g) ≫= f) s = run q (m ≫= fun x => g x ≫= f) s.
Proof.
  revert q. induction m as [a| | |fd l k IH|fd k IH|file mode k IH|fd k IH|fd k IH|k IH|k IH|k IH|file argv k IH|dir k IH]; intros q s; try done;
    unfold mbind; cbn [prog_bind run]; fold (mbind (M := prog) g); fold (mbind (M := prog) f); fold (mbind (M := prog) (fun x => g x ≫= f));
    run_cases; cbn [fst snd]; by rewrite ?IH.
Qed.

(** What the process types: it reads [inp] byte by byte. *)
Definition reads (q : path) (inp : list Z) : Prop := forall n, e_read q n = inp !! n.

Definition line_text (l : list Z) : Prop := Forall (fun c => c <> 10 /\ c <> 13 /\ c <> 0) l /\ (length l <= 98)%nat.

Lemma gets_step {A} q (f : list Z -> prog A) k a b e i j n : run q (gets_bytes (S k) ≫= f) (std a b e i j n) =
  match e_read q n with
  | Some x => run q ((if (x =? 10) || (x =? 13) then mret [x] else l ← gets_bytes k; mret (x :: l)) ≫= f) (std a b e i j (S n))
  | None => run q (f []) (std a b e i j (S n))
  end.
Proof. done. Qed.

Lemma input_at (inp : list Z) n l : drop n inp = l -> inp !! n = l !! 0%nat.
Proof. intros <-. by rewrite lookup_drop, Nat.add_0_r. Qed.

Lemma run_gets {A} q inp l rest (f : list Z -> prog A) : reads q inp -> Forall (fun c => c <> 10 /\ c <> 13 /\ c <> 0) l ->
  forall k a b e i j n, drop n inp = l ++ 10 :: rest -> (length l < k)%nat ->
  run q (gets_bytes k ≫= f) (std a b e i j n) = run q (f (l ++ [10])) (std a b e i j (n + length l + 1)).
Proof.
  intros Hin Hl. revert f. induction Hl as [|c l (H10 & H13 & _) _ IH]; intros f k a b e i j n Hd Hk; (destruct k as [|k]; [cbn in Hk; lia|]);
    rewrite gets_step, (Hin n), (input_at inp n _ Hd); cbn [app lookup list_lookup].
  - cbn [length]. by replace (n + 0 + 1)%nat with (S n) by lia.
  - assert (Hd' : drop (S n) inp = l ++ 10 :: rest) by (rewrite (drop_S _ _ _ (input_at inp n _ Hd)) in Hd; by injection Hd).
    rewrite (proj2 (Z.eqb_neq c 10)), (proj2 (Z.eqb_neq c 13)) by done. cbn [orb]. cbv iota. rewrite run_assoc.
    rewrite (IH (fun x => mret (c :: x) ≫= f) k a b e i j (S n) Hd') by (cbn in Hk; lia).
    cbn [length app]. by replace (S n + length l + 1)%nat with (n + S (length l) + 1)%nat by lia.
Qed.

Lemma run_gets_eof {A} q inp (f : list Z -> prog A) k a b e i j n : reads q inp -> drop n inp = [] ->
  run q (gets_bytes (S k) ≫= f) (std a b e i j n) = run q (f []) (std a b e i j (S n)).
Proof. intros Hin Hd. by rewrite gets_step, (Hin n), (input_at inp n _ Hd). Qed.

(** The child of a line: what the command read does, or the parser's
    message. *)
Definition child (l : list Z) (q : path) (a b e : desc) : list event :=
  match parsecmd l with
  | Ret (c, m) _ => does (strings m c) q 0 0 a b e
  | Panic msg => match leftovers l with [] => [] | r => says e (str "leftovers: " ++ r ++ nl) end ++ dies e (str msg ++ nl)
  | _ => []
  end.

(** The lines of a session, in the process [q] that has done [i] forks. *)
Fixpoint session (ls : list (list Z)) (q : path) (i : nat) (a b e : desc) : list event :=
  says e (str "$ ") ++
  match ls with
  | [] => [EExit]
  | l :: ls' =>
    if bool_decide (take 3 l = [99; 100; 32]) then
      EChdir (drop 3 l) :: (if e_chdir (drop 3 l) then [] else says e (str "cannot cd " ++ drop 3 l ++ nl)) ++ session ls' q i a b e
    else forking q i e (child (l ++ [10]) (q ++ [i]) a b e) (EWait :: session ls' q (S i) a b e)
  end.

Lemma strings_std buf c m : cmd_ok buf c -> std_redirs (strings m c).
Proof. induction c; cbn; intuition. Qed.

Lemma parse_quits l : Forall (fun c => c <> 0) l -> quits (parse l ≫= runcmd).
Proof.
  intros Hl. unfold parse. destruct (parsecmd_total l Hl) as [(c & m & s & ->)|(msg & -> & _)]; [apply runcmd_quits|]. destruct (leftovers l) as [|x r]; [apply quits_bind, quits_panic|].
  apply quits_bind. eapply quits_print; [apply leftovers_text|apply quits_panic].
Qed.

Lemma run_child l q a b e i j n : Forall (fun c => c <> 0) l -> i = 0%nat -> j = 0%nat ->
  run q (parse l ≫= runcmd) (std a b e i j n) = (child l q a b e, None).
Proof.
  intros Hl -> ->. unfold parse, child. destruct (parsecmd_total l Hl) as [(c & m & s & E)|(msg & E & _)]; rewrite E.
  - destruct (parsecmd_result l c m s Hl E) as [Hc _]. apply runcmd_trace. by apply (strings_std l).
  - destruct (run_quits (panic (str msg)) runcmd (quits_panic _) q (std a b e 0 0 n)) as [R _]. destruct (leftovers l) as [|x r].
    + etrans; [exact R|]. by rewrite (run_panic q e).
    + rewrite run_assoc. rewrite (run_print q 2 e _ _ _ _ _ (leftovers_text _)) by done. cbv zeta. rewrite R. by rewrite (run_panic q e).
Qed.

Lemma prompt_text : Format.printf (str "$ ") [] = Some (str "$ ").
Proof. vm_compute. reflexivity. Qed.

Lemma to_nul_line l c : Forall (fun c => c <> 10 /\ c <> 13 /\ c <> 0) l -> c <> 0 -> to_nul (l ++ [c]) = l ++ [c].
Proof. intros Hl Hc. induction Hl as [|x l (_ & _ & Hx) _ IH]; cbn [app to_nul]; [by rewrite (proj2 (Z.eqb_neq c 0))|]. by rewrite (proj2 (Z.eqb_neq x 0)), IH. Qed.

Lemma run_getcmd {A} q inp l rest (f : list Z * Z -> prog A) a b e i j n : reads q inp -> line_text l -> drop n inp = l ++ 10 :: rest ->
  run q (getcmd 100 ≫= f) (std a b e i j n) =
  let r := run q (f (l ++ [10], 0)) (std a b e i j (n + length l + 1)) in (says e (str "$ ") ++ r.1, r.2).
Proof.
  intros Hin [Hl Hlen] Hd. unfold getcmd. rewrite run_assoc, (run_print q 2 e _ _ _ _ _ prompt_text) by done. cbv zeta. rewrite run_assoc.
  rewrite (run_gets q inp l rest _ Hin Hl _ a b e i j n Hd) by (cbn; lia). rewrite to_nul_line by done.
  destruct (l ++ [10]) eqn:E; [by destruct l|]. done.
Qed.

Lemma run_getcmd_eof {A} q inp (f : list Z * Z -> prog A) a b e i j n : reads q inp -> drop n inp = [] ->
  run q (getcmd 100 ≫= f) (std a b e i j n) = let r := run q (f ([], -1)) (std a b e i j (S n)) in (says e (str "$ ") ++ r.1, r.2).
Proof.
  intros Hin Hd. unfold getcmd. rewrite run_assoc, (run_print q 2 e _ _ _ _ _ prompt_text) by done. cbv zeta. rewrite run_assoc.
  by rewrite (run_gets_eof q inp _ 98 a b e i j n Hin Hd).
Qed.

Lemma cd_line l c : bool_decide (take 3 (l ++ [c]) = [99; 100; 32]) = bool_decide (take 3 l = [99; 100; 32]) \/ c = 32.
Proof.
  destruct (decide (c = 32)) as [->|Hc]; [by right|left]. apply bool_decide_ext. destruct l as [|x [|y [|z l]]]; cbn; [split; congruence..|done].
Qed.

Lemma run_chdir {A} q d (k : Z -> prog A) s : run q (chdir d ≫= k) s = let r := run q (k (if e_chdir d then 0 else -1)) s in (EChdir d :: r.1, r.2).
Proof. done. Qed.

(** One round on a line. *)
Lemma run_loop ls : forall fuel q inp a b e i n, reads q inp -> Forall line_text ls -> drop n inp = concat (map (fun l => l ++ [10]) ls) -> (length ls < fuel)%nat ->
  run q (sh_loop fuel) (std a b e i 0 n) = (session ls q i a b e, None).
Proof.
  induction ls as [|l ls IH]; intros fuel q inp a b e i n Hin Hls Hd Hf; (destruct fuel as [|fuel]; [lia|]); cbn [sh_loop session].
  - rewrite (run_getcmd_eof q inp) by done. done.
  - apply Forall_cons in Hls as [Hl Hls]. cbn [map concat] in Hd. rewrite <- app_assoc in Hd. cbn [app] in Hd. rewrite (run_getcmd q inp l _ _ a b e i 0 n Hin Hl Hd). cbn [fst snd].
    change (0 <? 0) with false. cbv iota zeta. destruct (cd_line l 10) as [->|?]; [|done]. rewrite removelast_last.
    assert (Hd' : drop (n + length l + 1) inp = concat (map (fun l => l ++ [10]) ls)).
    { rewrite <- Nat.add_assoc, <- drop_drop, Hd. replace (length l + 1)%nat with (length (l ++ [10])) by (rewrite length_app; done).
      change (l ++ 10 :: concat (map (fun l => l ++ [10]) ls)) with (l ++ [10] ++ concat (map (fun l => l ++ [10]) ls)). rewrite app_assoc. apply drop_app_length. }
    cbn [length] in Hf. destruct (bool_decide _).
    + rewrite run_chdir. cbv zeta. destruct (e_chdir (drop 3 l)).
      * change (0 <? 0) with false. cbv iota. change (mret tt ≫= fun _ : unit => sh_loop fuel) with (sh_loop fuel). by rewrite (IH fuel q inp a b e i _ Hin Hls Hd') by lia.
      * change (-1 <? 0) with true. cbv iota. rewrite (run_print q 2 e _ _ _ _ _ (cd_text _)) by done. cbv zeta. cbn [fst snd]. by rewrite (IH fuel q inp a b e i _ Hin Hls Hd') by lia.
    + rewrite (run_spawn q e _ _ (child (l ++ [10]) (q ++ [i]) a b e) (EWait :: session ls q (S i) a b e)); [done|done| |..].
      * apply parse_quits. apply Forall_app. split; [|by repeat constructor]. destruct Hl as [Hl _]. by eapply Forall_impl; [exact Hl|]; intros ? (_ & _ & ?).
      * apply run_child; [|done..]. apply Forall_app. split; [|by repeat constructor]. destruct Hl as [Hl _]. by eapply Forall_impl; [exact Hl|]; intros ? (_ & _ & ?).
      * etrans; [apply run_wait|]. cbv zeta. etrans; [apply (f_equal (fun x => (EWait :: x.1, x.2))), (IH fuel q inp a b e (S i) _ Hin Hls Hd'); lia|]. done.
Qed.

Lemma run_open {A} q f m (k : Z -> prog A) s : run q (open f m ≫= k) s =
  if e_open f m then let t := fdalloc (fds s) (Opened f m) in let r := run q (k t.1) (with_fds s t.2) in (EOpen f m :: r.1, r.2) else run q (k (-1)) s.
Proof. done. Qed.

(** The console is open already: main's own open is closed again. *)
Lemma run_console {A} q (p : prog A) a b e : run q (open_console 17 ;; p) (std a b e 0 0 0) =
  let r := run q p (std a b e 0 0 0) in ((if e_open (str "console") O_RDWR then [EOpen (str "console") O_RDWR] else []) ++ r.1, r.2).
Proof. cbn [open_console]. rewrite run_assoc, run_open. destruct (e_open _ _); [done|]. cbn. by destruct (run q p (std a b e 0 0 0)). Qed.
End Forks.
End Run.

(** ** The theorems *)

(** runcmd does what the command says, whatever the kernel answers, and
    never returns.  Each program of it is started with three descriptors
    exactly: a redirection puts the file in place of standard input or
    output, a pipeline one pipe between its two sides with no other end of it
    left open in either, a list waits for its left side before the right one
    starts, and a background command is not waited for.  A failed open,
    exec, pipe or fork ends that process with its message. *)
Theorem runcmd_does {K : Answers} {P : Pids} c q a b e i j n : std_redirs c ->
  run q (runcmd c) (std a b e i j n) = (does c q i j a b e, None).
Proof. intros H. by apply runcmd_trace. Qed.

(** The shell's loop.  Given lines of at most 98 bytes and then the end of
    the input, the shell prompts for each, changes its own directory for a cd
    line, and forks one child for any other, which parses and runs that line
    while the shell waits; then it exits. *)
Theorem sh_session {K : Answers} {P : Pids} ls q a b e fuel : Forall line_text ls ->
  reads q (concat (map (fun l => l ++ [10]) ls)) -> (length ls < fuel)%nat ->
  run q (sh_main fuel) (std a b e 0 0 0) =
  ((if e_open (str "console") O_RDWR then [EOpen (str "console") O_RDWR] else []) ++ session ls q 0 a b e, None).
Proof. intros Hls Hin Hf. unfold sh_main. rewrite run_console. by rewrite (run_loop ls fuel q _ a b e 0 0 Hin Hls eq_refl Hf). Qed.

Lemma child_write {K : Answers} c tail q a b e : writable c -> Forall (fun x => strchr whitespace x = true) tail ->
  child (write InLine c ++ tail) q a b e = does c q 0 0 a b e.
Proof. intros Hw Ht. unfold child. destruct (parsecmd_written c tail Hw Ht) as (c' & m & s & -> & Hs). by rewrite Hs. Qed.

Lemma write_line c : writable c -> (length (write InLine c) <= 98)%nat -> line_text (write InLine c).
Proof.
  intros Hw Hl. split; [|done]. apply write_bytes; [|done|by repeat constructor|done]. intros x Hx H0. unfold is_word in Hx. zbool.
  split_and!; [| |done]; intros ->; done.
Qed.

(** C14: From the typed line to the processes: a command of any shape, written
    on a line of at most 98 bytes, is read, parsed, and run in one child of
    the shell, which does just what that command says; the shell waits for
    it and prompts again. *)
Theorem sh_runs_command {K : Answers} {P : Pids} c q a b e fuel : writable c -> (length (write InLine c) <= 98)%nat ->
  take 3 (write InLine c) <> [99; 100; 32] -> reads q (write InLine c ++ [10]) -> 0 < e_fork q 0 -> (1 < fuel)%nat ->
  run q (sh_main fuel) (std a b e 0 0 0) =
  ((if e_open (str "console") O_RDWR then [EOpen (str "console") O_RDWR] else []) ++
   says e (str "$ ") ++ EFork (does c (q ++ [0%nat]) 0 0 a b e) :: EWait :: says e (str "$ ") ++ [EExit], None).
Proof.
  intros Hw Hl Hcd Hin Hp Hf. unfold sh_main. rewrite run_console.
  rewrite (run_loop [write InLine c] fuel q (write InLine c ++ [10]) a b e 0 0) by (done || (apply Forall_singleton; by apply write_line) || (cbn; by rewrite app_nil_r) || (cbn; lia)).
  cbn [session]. rewrite bool_decide_eq_false_2 by done. unfold forking. rewrite (proj2 (Z.eqb_neq (e_fork q 0) (-1))) by lia.
  by rewrite child_write by (done || by repeat constructor).
Qed.

(** ** Instances *)

(** A kernel that grants every call and a shell that is typed [l]. *)
Definition granting (l : list Z) : Answers := {|
  e_open _ _ := true; e_exec _ _ := true; e_chdir _ := true; e_fork _ i := 4 + Z.of_nat i; e_pipe _ _ := true;
  e_read q n := match q with [] => l !! n | _ => None end; e_wait _ := 4 |}.

Lemma granting_pids l : @Pids (granting l).
Proof. intros q i. right. cbn. lia. Qed.

Lemma demo_std : std_redirs demo_command.
Proof. cbn. lia. Qed.

(** The program after the bar reads the pipe and writes the file. *)
Lemma runcmd_does_witness :
  @run (granting []) unit [] (runcmd demo_command) (std (Given 0) (Given 1) (Given 2) 0 0 0) =
  (@does (granting []) demo_command [] 0 0 (Given 0) (Given 1) (Given 2), None) /\
  (@does (granting []) demo_command [] 0 0 (Given 0) (Given 1) (Given 2)) !! 1%nat =
  Some (EFork [EOpen [102] 513; ELaunch [[99]] (tab (PipeR [] 0) (Opened [102] 513) (Given 2))]).
Proof. split; [apply (@runcmd_does (granting []) (granting_pids [])); exact demo_std|]. by vm_compute. Defined.

Definition demo_typed : list Z := write InLine demo_command ++ [10].

Lemma demo_short : (length (write InLine demo_command) <= 98)%nat.
Proof. vm_compute. lia. Qed.

Lemma sh_session_witness :
  @run (granting demo_typed) unit [] (sh_main 2) (std (Given 0) (Given 1) (Given 2) 0 0 0) =
  (EOpen (str "console") O_RDWR :: @session (granting demo_typed) [write InLine demo_command] [] 0 (Given 0) (Given 1) (Given 2), None).
Proof.
  apply (@sh_session (granting demo_typed) (granting_pids demo_typed) [write InLine demo_command]).
  - apply Forall_singleton. apply write_line; [exact demo_writable|exact demo_short].
  - intros n. cbn [map concat]. by rewrite app_nil_r.
  - cbn. lia.
Defined.

Lemma sh_runs_command_witness :
  @run (granting demo_typed) unit [] (sh_main 2) (std (Given 0) (Given 1) (Given 2) 0 0 0) =
  (EOpen (str "console") O_RDWR :: says (Given 2) (str "$ ") ++
   EFork (@does (granting demo_typed) demo_command [0%nat] 0 0 (Given 0) (Given 1) (Given 2)) :: EWait :: says (Given 2) (str "$ ") ++ [EExit], None).
Proof.
  apply (@sh_runs_command (granting demo_typed) (granting_pids demo_typed) demo_command [] (Given 0) (Given 1) (Given 2) 2).
  - exact demo_writable.
  - exact demo_short.
  - by vm_compute.
  - done.
  - cbn. lia.
  - lia.
Defined.
