(* ===== verification/Umalloc.v ===== *)
(** * The allocator of user programs: umalloc.c

    Memory is a word per address; a header is two words, the pointer and the
    size in units of eight bytes.  The free blocks are a circular list
    through the static header base, in address order.  sbrk is a parameter
    with its law: it fails, or gives the old break and moves it.  The
    invariant [heap]: the list is a ring over the free blocks in order, no
    two of them adjacent, and free and allocated blocks share no byte.
    malloc and free keep it, end, and write to no allocated block. *)

From stdpp Require Import base list sets.
From Stdlib Require Import ZArith Lia.
From S2P Require Import Prelude.

Local Open Scope Z_scope.

(** sbrk and the end of the process's memory. *)
Class Sbrk (W : Type) : Type := { sbrk : Z -> W -> Z * W; brk : W -> Z }.

Class SbrkLaws (W : Type) {SB : Sbrk W} : Prop := {
  sbrk_spec n w : 0 < n < 2 ^ 31 -> 0 <= brk w <= 2 ^ 31 ->
    ((sbrk n w).1 = 2 ^ 32 - 1 /\ brk (sbrk n w).2 = brk w) \/
    ((sbrk n w).1 = brk w /\ brk (sbrk n w).2 = brk w + n /\ brk w + n <= 2 ^ 31) }.

Definition upd (m : Z -> Z) (a v : Z) : Z -> Z := fun x => if x =? a then v else m x.

Lemma upd_eq m a v : upd m a v a = v.
Proof. unfold upd. by rewrite Z.eqb_refl. Qed.
Lemma upd_ne m a v x : x <> a -> upd m a v x = m x.
Proof. unfold upd. intros H. by rewrite (proj2 (Z.eqb_neq x a)). Qed.

Section Umalloc.
Context {W : Type} {SB : Sbrk W}.

(** The address of the static header. *)
Variable base : Z.

Record ust : Type := mku { mem : Z -> Z; freep : Z; world : W }.

(** p->s.ptr, p->s.size, p + n, and the stores. *)
Definition ptr (s : ust) (p : Z) : Z := mem s p.
Definition size (s : ust) (p : Z) : Z := mem s (p + 4).
Definition hplus (p n : Z) : Z := u32 (p + 8 * n).
Definition set_ptr (p v : Z) (s : ust) : ust := mku (upd (mem s) p v) (freep s) (world s).
Definition set_size (p v : Z) (s : ust) : ust := mku (upd (mem s) (p + 4) v) (freep s) (world s).
Definition set_freep (p : Z) (s : ust) : ust := mku (mem s) p (world s).

(** The loop of free: the free block that [bp] belongs after. *)
Fixpoint free_find (fuel : nat) (s : ust) (bp p : Z) : option Z :=
  match fuel with
  | O => None
  | S f =>
    if (p <? bp) && (bp <? ptr s p) then Some p else
    if (ptr s p <=? p) && ((p <? bp) || (bp <? ptr s p)) then Some p else
    free_find f s bp (ptr s p)
  end.

(** The block joined with the one after it, or linked to it. *)
Definition free_up (bp p : Z) (s : ust) : ust :=
  if hplus bp (size s bp) =? ptr s p then
    let s := set_size bp (u32 (size s bp + size s (ptr s p))) s in
    set_ptr bp (ptr s (ptr s p)) s
  else set_ptr bp (ptr s p) s.

(** The block before it joined with it, or linked to it. *)
Definition free_down (bp p : Z) (s : ust) : ust :=
  if hplus p (size s p) =? bp then
    let s := set_size p (u32 (size s p + size s bp)) s in
    set_ptr p (ptr s bp) s
  else set_ptr p bp s.

Definition free (fuel : nat) (ap : Z) (s : ust) : option ust :=
  let bp := u32 (ap - 8) in
  p ← free_find fuel s bp (freep s);
  Some (set_freep p (free_down bp p (free_up bp p s))).

(** The block asked for, or 0. *)
Definition morecore (fuel : nat) (nu : Z) (s : ust) : option (Z * ust) :=
  let nu := if nu <? 4096 then 4096 else nu in
  let r := sbrk (u32 (nu * 8)) (world s) in
  let s := mku (mem s) (freep s) r.2 in
  if r.1 =? 2 ^ 32 - 1 then Some (0, s) else
  let s := set_size r.1 nu s in
  s ← free fuel (hplus r.1 1) s;
  Some (freep s, s).

Fixpoint malloc_loop (fuel : nat) (nunits prevp p : Z) (s : ust) : option (Z * ust) :=
  match fuel with
  | O => None
  | S f =>
    if nunits <=? size s p then
      if size s p =? nunits then
        Some (hplus p 1, set_freep prevp (set_ptr prevp (ptr s p) s))
      else
        let s := set_size p (u32 (size s p - nunits)) s in
        let p' := hplus p (size s p) in
        Some (hplus p' 1, set_freep prevp (set_size p' nunits s))
    else if p =? freep s then
      r ← morecore fuel nunits s;
      if r.1 =? 0 then Some (0, r.2) else
      malloc_loop f nunits r.1 (ptr r.2 r.1) r.2
    else malloc_loop f nunits p (ptr s p) s
  end.

Definition units (nbytes : Z) : Z := u32 (nbytes + 8 - 1) / 8 + 1.

Definition malloc (fuel : nat) (nbytes : Z) (s : ust) : option (Z * ust) :=
  let nunits := units nbytes in
  let s := if freep s =? 0 then set_size base 0 (set_freep base (set_ptr base base s)) else s in
  malloc_loop fuel nunits (freep s) (ptr s (freep s)) s.

(** ** Blocks and rings *)

(** A block is its header's address and its size in units; base has size 0
    and takes its header's eight bytes. *)
Local Notation block := (Z * Z)%type.
Definition ext (b : block) : Z := 8 * Z.max 1 b.2.
Definition apart2 (b c : block) : Prop := b.1 + ext b <= c.1 \/ c.1 + ext c <= b.1.

Fixpoint apart (l : list block) : Prop :=
  match l with [] => True | b :: l' => Forall (apart2 b) l' /\ apart l' end.

(** Following the pointers from [p] leads over the blocks [xs] to [q]. *)
Fixpoint chain (m : Z -> Z) (p : Z) (xs : list block) (q : Z) : Prop :=
  match xs with
  | [] => p = q
  | b :: xs' => p = b.1 /\ m (p + 4) = b.2 /\ chain m (m p) xs' q
  end.

Definition ring (m : Z -> Z) (xs : list block) : Prop :=
  match xs with [] => False | b :: _ => chain m b.1 xs b.1 end.

Lemma apart2_sym b c : apart2 b c -> apart2 c b.
Proof. unfold apart2. tauto. Qed.

Lemma apart_perm l l' : l ≡ₚ l' -> apart l -> apart l'.
Proof.
  induction 1 as [|x l l' Hp IH|x y l|l l' l'' _ IH1 _ IH2]; cbn; [done| | |tauto].
  - intros [Hf Ha]. split; [by rewrite <- Hp|by apply IH].
  - rewrite !Forall_cons. intros ((Hyx & Hy) & Hx & Ha). split_and!; [by apply apart2_sym|done..].
Qed.

Lemma apart_app l l' : apart (l ++ l') <-> apart l /\ apart l' /\ Forall (fun b => Forall (apart2 b) l') l.
Proof. induction l as [|b l IH]; cbn; [by intuition|]. rewrite Forall_app, Forall_cons, IH. tauto. Qed.

(** Two headers that are apart share no word. *)
Lemma apart_words b c : apart2 b c -> b.1 <> c.1 /\ b.1 <> c.1 + 4 /\ b.1 + 4 <> c.1 /\ b.1 + 4 <> c.1 + 4.
Proof. unfold apart2, ext. lia. Qed.

Lemma chain_app m p xs ys q : chain m p (xs ++ ys) q <-> exists r, chain m p xs r /\ chain m r ys q.
Proof.
  revert p. induction xs as [|b xs IH]; intros p; cbn [app chain].
  - split; [by exists p|]. by intros (r & -> & H).
  - rewrite IH. naive_solver.
Qed.

(** What follows a block of a chain. *)
Definition next (xs : list block) (q : Z) : Z := match xs with [] => q | b :: _ => b.1 end.

Lemma chain_first m p xs q : chain m p xs q -> p = next xs q.
Proof. destruct xs; cbn; tauto. Qed.

Lemma chain_mid m p L b R q : chain m p (L ++ b :: R) q <->
  chain m p L b.1 /\ m (b.1 + 4) = b.2 /\ m b.1 = next R q /\ chain m (m b.1) R q.
Proof.
  rewrite chain_app. split.
  - intros (r & HL & -> & Hs & HR). split_and!; [done|done|by apply (chain_first m)|done].
  - intros (HL & Hs & _ & HR). by exists b.1.
Qed.

Lemma ring_rotate m L R : R <> [] -> ring m (L ++ R) -> ring m (R ++ L).
Proof.
  intros HR H. destruct L as [|b L]; [by rewrite app_nil_r|]. destruct R as [|c R]; [done|]. unfold ring in *. cbn [app] in *.
  change (b :: L ++ c :: R) with ((b :: L) ++ c :: R) in H. change (c :: R ++ b :: L) with ((c :: R) ++ b :: L).
  apply chain_app in H as (r & H1 & H2). pose proof (chain_first _ _ _ _ H2) as ->. apply chain_app. exists b.1. by split.
Qed.

(** A word of no header of the chain can be stored to. *)
Lemma chain_upd m p xs q a v : Forall (fun b : block => a <> b.1 /\ a <> b.1 + 4) xs -> chain m p xs q -> chain (upd m a v) p xs q.
Proof.
  intros H. revert p. induction H as [|b xs [H1 H2] _ IH]; intros p; cbn [chain]; [done|]. intros (-> & Hs & Hc). rewrite !upd_ne by lia.
  split_and!; [done|done|by apply IH].
Qed.

(** In address order, with room between neighbours. *)
Fixpoint gaps (l : list block) : Prop :=
  match l with
  | [] => True
  | b :: l' => match l' with [] => True | c :: _ => b.1 + 8 * b.2 < c.1 end /\ gaps l'
  end.

Lemma gaps_app L R : gaps (L ++ R) -> gaps L /\ gaps R.
Proof. induction L as [|b L IH]; cbn; [done|]. intros [Hb H]. destruct (IH H) as [HL HR]. split_and!; [by destruct L|done..]. Qed.

Lemma gaps_sorted c l : gaps (c :: l) -> Forall (fun b => 0 <= b.2) (c :: l) -> Forall (fun b => c.1 < b.1) l.
Proof.
  revert c. induction l as [|d l IH]; intros c [Hc Hg] Hs; constructor; apply Forall_cons in Hs as [H0 Hs]; [lia|].
  eapply Forall_impl; [by apply IH|]. cbn. lia.
Qed.

(** The blocks below and above an address. *)
Lemma gaps_split bp c l : gaps (c :: l) -> Forall (fun b => 0 <= b.2) (c :: l) -> c.1 < bp -> Forall (fun b => b.1 <> bp) l ->
  exists L p R, c :: l = L ++ p :: R /\ p.1 < bp /\ Forall (fun b => b.1 < p.1) L /\ Forall (fun b => bp < b.1) R.
Proof.
  revert c. induction l as [|d l IH]; intros c Hg Hs Hc Hne; [by exists [], c, []|]. apply Forall_cons in Hne as [Hd Hne]. apply Forall_cons in Hs as [H0 Hs].
  destruct Hg as [Hcd Hg]. destruct (decide (d.1 < bp)) as [Hlt|Hge].
  - destruct (IH d Hg Hs Hlt Hne) as (L & p & R & E & Hp & HL & HR). exists (c :: L), p, R. rewrite E. split_and!; [done|done| |done]. constructor; [|done].
    destruct L as [|x L]; injection E as -> _; [lia|]. apply Forall_cons in HL as [? _]. lia.
  - exists [], c, (d :: l). split_and!; [done|done|done|]. constructor; [lia|]. eapply Forall_impl; [by apply gaps_sorted|]. cbn. lia.
Qed.

(** The test free's loop ends on. *)
Definition stop (bp y z : Z) : bool := ((y <? bp) && (bp <? z)) || ((z <=? y) && ((y <? bp) || (bp <? z))).

Lemma find_chain s bp xs : forall y p fuel, chain (mem s) y xs p -> Forall (fun b : block => stop bp b.1 (ptr s b.1) = false) xs ->
  stop bp p (ptr s p) = true -> (length xs < fuel)%nat -> free_find fuel s bp y = Some p.
Proof.
  induction xs as [|b xs IH]; intros y p fuel Hc Hn Hp Hf; (destruct fuel as [|fuel]; [cbn in Hf; lia|]); cbn [free_find].
  - cbn in Hc. subst y. unfold stop in Hp. destruct (_ && _); [done|]. cbn [orb] in Hp. by rewrite Hp.
  - destruct Hc as (-> & _ & Hc). apply Forall_cons in Hn as [Hb Hn]. unfold stop in Hb. destruct (_ && _); [done|]. cbn [orb] in Hb. rewrite Hb.
    apply IH; [done|done|done|cbn in Hf; lia].
Qed.

(** A block of memory got by sbrk, wholly between base and the break. *)
Definition real (s : ust) (b : block) : Prop := base + 8 <= b.1 /\ 1 <= b.2 /\ b.1 + 8 * b.2 <= brk (world s).

(** The free list is base and the free blocks; [A] are the allocated blocks. *)
Record heap (s : ust) (N A : list block) : Prop := {
  h_head : exists F, N = (base, 0) :: F;
  h_ring : chain (mem s) base N base;
  h_gaps : gaps N;
  h_apart : apart (N ++ A);
  h_free : Forall (fun b => b = (base, 0) \/ real s b) N;
  h_live : Forall (fun b => real s b /\ size s b.1 = b.2) A;
  h_freep : freep s ∈ map fst N;
  h_brk : 0 < base /\ base + 8 <= brk (world s) <= 2 ^ 31 }.

Lemma heap_sizes s N A : heap s N A -> Forall (fun b => 0 <= b.2) N.
Proof. intros H. eapply Forall_impl; [exact (h_free _ _ _ H)|]. unfold real. intros b [->|?]; cbn; lia. Qed.

Section Free.
Variables (s : ust) (N : list block) (L R : list block) (p : block) (bp : Z).
Hypothesis Hring : chain (mem s) base N base.
Hypothesis Hgaps : gaps N.
Hypothesis Hsize : Forall (fun b => 0 <= b.2) N.
Hypothesis Hhead : exists F, N = (base, 0) :: F.
Hypothesis Hsplit : N = L ++ p :: R.
Hypothesis Hp : p.1 < bp.
Hypothesis HL : Forall (fun b => b.1 < p.1) L.
Hypothesis HR : Forall (fun b => bp < b.1) R.
Hypothesis Hbase : base < bp.

Lemma ring_next L' b R' : N = L' ++ b :: R' -> ptr s b.1 = next R' base /\ gaps (b :: R').
Proof.
  intros E. pose proof Hring as H. rewrite E in H. apply chain_mid in H as (_ & _ & H & _). split; [done|].
  rewrite E in Hgaps. by apply gaps_app in Hgaps as [_ ?].
Qed.

Lemma find_stops : stop bp p.1 (ptr s p.1) = true.
Proof.
  destruct (ring_next L p R Hsplit) as [-> _]. unfold stop. destruct R as [|c R']; cbn [next].
  - rewrite (proj2 (Z.ltb_lt p.1 bp)) by done. rewrite orb_true_iff. right. rewrite andb_true_r. apply Z.leb_le.
    destruct Hhead as [F EN]. rewrite EN in Hsplit. destruct L as [|x L']; injection Hsplit as Ex _; [rewrite <- Ex; done|]. apply Forall_cons in HL as [Hx _]. rewrite <- Ex in Hx. cbn in Hx. lia.
  - apply Forall_cons in HR as [Hc _]. rewrite (proj2 (Z.ltb_lt p.1 bp)), (proj2 (Z.ltb_lt bp c.1)) by done. done.
Qed.

Lemma find_goes_on b : b ∈ N -> b <> p -> stop bp b.1 (ptr s b.1) = false.
Proof.
  intros Hb Hne. rewrite Hsplit in Hb. apply elem_of_app in Hb as [Hb|Hb]; [|apply elem_of_cons in Hb as [?|Hb]; [done|]].
  - apply list_elem_of_split in Hb as (L1 & L2 & E). destruct (ring_next L1 b (L2 ++ p :: R)) as [-> [Hg _]]; [by rewrite Hsplit, E, <- app_assoc|].
    assert (Hs : 0 <= b.2) by (rewrite Hsplit, E in Hsize; rewrite Forall_forall in Hsize; apply Hsize; set_solver).
    rewrite E in HL. apply Forall_app in HL as [_ HL2]. apply Forall_cons in HL2 as [Hbp HL2].
    assert (Hn : b.1 < next (L2 ++ p :: R) base <= p.1) by (destruct L2 as [|x L2]; cbn [next app] in *; [lia|apply Forall_cons in HL2 as [? _]; lia]).
    unfold stop. rewrite (proj2 (Z.ltb_ge bp _)), (proj2 (Z.leb_gt _ b.1)) by lia. by rewrite andb_false_r.
  - pose proof (proj1 (Forall_forall _ _) HR b Hb) as Hlt. cbn in Hlt.
    assert (Hs : 0 <= b.2) by (rewrite Hsplit in Hsize; rewrite Forall_forall in Hsize; apply Hsize; set_solver).
    apply list_elem_of_split in Hb as (R1 & R2 & E). destruct (ring_next (L ++ p :: R1) b R2) as [-> [Hg _]]; [by rewrite Hsplit, E, <- app_assoc|].
    unfold stop. rewrite (proj2 (Z.ltb_ge b.1 bp)) by lia. cbn [andb orb]. destruct R2 as [|c R2]; cbn [next].
    + rewrite (proj2 (Z.ltb_ge bp base)) by lia. apply andb_false_r.
    + rewrite (proj2 (Z.leb_gt c.1 b.1)) by lia. done.
Qed.

(** free's loop finds the block to insert after, from any start. *)
Lemma free_find_ok fuel : freep s ∈ map fst N -> (length N <= fuel)%nat -> free_find fuel s bp (freep s) = Some p.1.
Proof.
  intros Hf Hlen. apply list_elem_of_fmap in Hf as (x & Ef & Hx). apply list_elem_of_split in Hx as (L0 & R0 & EN). rewrite Ef.
  assert (Hr : ring (mem s) ((x :: R0) ++ L0)).
  { apply (ring_rotate _ L0 (x :: R0)); [done|]. rewrite <- EN. unfold ring. destruct Hhead as [F E]. rewrite E in Hring |- *. done. }
  assert (Hin : p ∈ (x :: R0) ++ L0) by (assert (Hin : p ∈ N) by (rewrite Hsplit; set_solver); rewrite EN in Hin; set_solver).
  apply list_elem_of_split_l in Hin as (xs & ys & E & Hni). unfold ring in Hr. cbn [app] in Hr, E. rewrite E in Hr. apply chain_app in Hr as (r & Hc & -> & _).
  assert (Hxs : forall b, b ∈ xs -> b ∈ N) by (intros b Hb; assert (Hb' : b ∈ x :: R0 ++ L0) by (rewrite E; set_solver); rewrite EN; set_solver).
  apply (find_chain s bp xs); [done| |apply find_stops|].
  - apply Forall_forall. intros b Hb. apply find_goes_on; [by apply Hxs|]. intros ->. done.
  - apply (f_equal length) in E. rewrite EN in Hlen. cbn [length] in E. rewrite (length_app xs), length_app in E. rewrite length_app in Hlen. cbn [length] in *. lia.
Qed.
End Free.

(** *** What free does to the list *)

Definition up (b : block) (R : list block) : block * list block :=
  match R with
  | q :: R' => if b.1 + 8 * b.2 =? q.1 then ((b.1, b.2 + q.2), R') else (b, R)
  | [] => (b, [])
  end.

Definition down (L : list block) (p b : block) (R : list block) : list block :=
  if p.1 + 8 * p.2 =? b.1 then L ++ (p.1, p.2 + b.2) :: R else L ++ p :: b :: R.

(** The words of a header are not those of another. *)
Definition off (a : Z) (l : list block) : Prop := Forall (fun b : block => a <> b.1 /\ a <> b.1 + 4 /\ a + 4 <> b.1 /\ a + 4 <> b.1 + 4) l.

Lemma off_upd m p xs q a v : off a xs -> chain m p xs q -> chain (upd m a v) p xs q /\ chain (upd m (a + 4) v) p xs q.
Proof. intros Ho Hc. split; (apply chain_upd; [|done]); (eapply Forall_impl; [exact Ho|]); cbn; lia. Qed.

Lemma off_of b l : Forall (apart2 b) l -> off b.1 l.
Proof. intros H. eapply Forall_impl; [exact H|]. intros c Hc. pose proof (apart_words b c Hc). lia. Qed.

Lemma free_up_ok s L p R bp sb : chain (mem s) base (L ++ p :: R) base -> size s bp = sb -> off bp (L ++ p :: R) ->
  base < bp -> 0 <= sb -> bp + 8 * sb <= 2 ^ 31 -> Forall (fun c => 0 <= c.2 /\ c.1 + 8 * c.2 <= 2 ^ 31) R -> 0 < bp ->
  let s1 := free_up bp p.1 s in
  chain (mem s1) base L p.1 /\ size s1 p.1 = p.2 /\ size s1 bp = (up (bp, sb) R).1.2 /\
  ptr s1 bp = next (up (bp, sb) R).2 base /\ chain (mem s1) (next (up (bp, sb) R).2 base) (up (bp, sb) R).2 base /\
  (forall x, x <> bp -> x <> bp + 4 -> mem s1 x = mem s x) /\ freep s1 = freep s /\ world s1 = world s.
Proof.
  intros Hc Es Ho Hb H0 Hend HR Hpos. apply chain_mid in Hc as (HcL & Hps & Hpn & HcR). apply Forall_app in Ho as [HoL Ho]. apply Forall_cons in Ho as [Hop HoR].
  unfold free_up, ptr, size in *. rewrite Hpn in *. assert (Eh : hplus bp (mem s (bp + 4)) = bp + 8 * sb) by (rewrite Es; apply u32_small; lia). rewrite Eh.
  destruct R as [|q R']; cbn [up fst snd] in *; [change (next [] base) with base in *|change (next (q :: R') base) with q.1 in *].
  - rewrite (proj2 (Z.eqb_neq (bp + 8 * sb) base)) by lia. cbn [mem set_ptr fst snd chain next]. rewrite upd_eq, !upd_ne by lia.
    split_and!; try done; [by apply off_upd|]. intros x ? ?. by rewrite upd_ne.
  - apply Forall_cons in HR as [Hq _]. apply Forall_cons in HoR as [Hoq HoR]. destruct HcR as (_ & Hqs & HcR). destruct (Z.eqb_spec (bp + 8 * sb) q.1) as [Eq|Eq]; cbn [mem set_ptr set_size fst snd]; try change (next (q :: R') base) with q.1.
    + rewrite (upd_ne _ (bp + 4) _ p.1), Hpn by lia. rewrite (upd_ne _ (bp + 4) _ q.1) by lia. rewrite (upd_ne _ bp _ (p.1 + 4)), !upd_eq, (upd_ne _ bp _ (bp + 4)), upd_eq, (upd_ne _ (bp + 4)) by lia.
      rewrite Es, Hqs, u32_small by lia. pose proof (chain_first _ _ _ _ HcR) as En. rewrite <- En.
      split_and!; try done; [do 2 (apply off_upd; [done|]); done..|]. intros x ? ?. by rewrite !upd_ne by lia.
    + rewrite upd_eq, !upd_ne by lia. split_and!; try done; [by apply off_upd| |]; [|intros x ? ?; by rewrite upd_ne].
      apply off_upd; [by constructor|]. cbn [chain]. by split_and!.
Qed.

Lemma free_down_ok s L p b R : chain (mem s) base L p.1 -> size s p.1 = p.2 -> size s b.1 = b.2 -> ptr s b.1 = next R base -> chain (mem s) (next R base) R base ->
  off p.1 (L ++ b :: R) -> 0 <= p.2 -> 0 <= p.1 -> 0 <= b.2 -> p.1 + 8 * p.2 + 8 * b.2 <= 2 ^ 31 -> 
  let s2 := free_down b.1 p.1 s in
  chain (mem s2) base (down L p b R) base /\ (forall x, x <> p.1 -> x <> p.1 + 4 -> mem s2 x = mem s x) /\ freep s2 = freep s /\ world s2 = world s.
Proof.
  intros HL Eps Ebs Ebn HcR Ho Hp0 Hp1 Hb0 Hend. apply Forall_app in Ho as [HoL Ho]. apply Forall_cons in Ho as [Hob HoR].
  unfold free_down, ptr, size in *. assert (Eh : hplus p.1 (mem s (p.1 + 4)) = p.1 + 8 * p.2) by (rewrite Eps; apply u32_small; lia). rewrite Eh. unfold down.
  destruct (Z.eqb_spec (p.1 + 8 * p.2) b.1) as [Eq|Eq]; cbn [mem set_ptr set_size].
  - rewrite (upd_ne _ (p.1 + 4) _ b.1) by lia. rewrite Ebn, Eps, Ebs, u32_small by lia. split_and!; try done; [|intros x ? ?; by rewrite !upd_ne by lia].
    apply chain_mid. cbn [fst snd]. rewrite (upd_ne _ p.1 _ (p.1 + 4)), !upd_eq by lia. split_and!; try done; do 2 (apply off_upd; [done|]); done.
  - split_and!; try done; [|intros x ? ?; by rewrite upd_ne]. apply chain_mid. rewrite upd_eq, upd_ne by lia. split_and!; try done; [by apply off_upd|].
    apply off_upd; [by constructor|]. cbn [chain]. split_and!; [done|done|by rewrite Ebn].
Qed.

Definition total (l : list block) : Z := foldr (fun b t => b.2 + t) 0 l.

Lemma total_app l l' : total (l ++ l') = total l + total l'.
Proof. unfold total. induction l as [|b l IH]; cbn [app foldr]; lia. Qed.

Lemma apart_join L x y R : y.1 = x.1 + 8 * x.2 -> 1 <= x.2 -> 1 <= y.2 -> apart (L ++ x :: y :: R) -> apart (L ++ (x.1, x.2 + y.2) :: R).
Proof.
  intros E Hx Hy H. apply (apart_perm _ (x :: y :: L ++ R)) in H; [|by rewrite <- !Permutation_middle]. apply (apart_perm ((x.1, x.2 + y.2) :: L ++ R)); [by rewrite <- Permutation_middle|].
  cbn in H. destruct H as (Hxs & Hys & Ha). apply Forall_cons in Hxs as [_ Hxs]. split; [|done]. apply Forall_forall. intros z Hz.
  pose proof (proj1 (Forall_forall _ _) Hxs z Hz). pose proof (proj1 (Forall_forall _ _) Hys z Hz). unfold apart2, ext in *. cbn [fst snd]. lia.
Qed.

Lemma gaps_glue L p p' X : gaps (L ++ [p]) -> p.1 = p'.1 -> gaps (p' :: X) -> gaps (L ++ p' :: X).
Proof. intros HL E HX. induction L as [|b L IH]; [done|]. cbn [app gaps] in *. destruct HL as [Hb HL]. split; [|by apply IH]. destruct L; cbn in *; [by rewrite <- E|done]. Qed.

Lemma gaps_cut L p R : gaps (L ++ p :: R) -> gaps (L ++ [p]) /\ gaps (p :: R).
Proof. intros H. change (p :: R) with ([p] ++ R) in H. rewrite app_assoc in H. split; [by apply gaps_app in H as [? _]|]. rewrite <- app_assoc in H. by apply gaps_app in H as [_ ?]. Qed.

(** Joining with the block after. *)
Lemma up_ok s L p R b A : gaps (L ++ p :: R) -> apart ((L ++ p :: R) ++ b :: A) -> Forall (fun c => b.1 < c.1) R -> Forall (real s) R -> real s b ->
  let b' := (up b R).1 in let R' := (up b R).2 in
  gaps (b' :: R') /\ apart ((L ++ p :: b' :: R') ++ A) /\ real s b' /\ Forall (real s) R' /\ b'.1 = b.1 /\ b.2 <= b'.2 /\ total (b' :: R') = total R + b.2.
Proof.
  intros Hg Ha HR Hre Hb. apply gaps_cut in Hg as [_ [_ HgR]].
  assert (Ha' : apart ((L ++ [p]) ++ b :: R ++ A)).
  { eapply apart_perm; [|exact Ha]. rewrite <- !app_assoc. cbn [app]. apply Permutation_app_head. constructor. by rewrite <- Permutation_middle. }
  assert (Hbr : Forall (apart2 b) (R ++ A)) by (apply apart_app in Ha' as (_ & [? _] & _); done).
  destruct R as [|q R]; cbn [up]; [|destruct (Z.eqb_spec (b.1 + 8 * b.2) q.1) as [Eq|Eq]]; cbn [fst snd].
  - split_and!; try done; [by rewrite <- app_assoc in Ha' |- *|cbn; lia].
  - apply Forall_cons in HR as [_ HR]. apply Forall_cons in Hre as [Hq Hre]. destruct Hb as (Hb1 & Hb2 & Hb3), Hq as (Hq1 & Hq2 & Hq3). cbn [gaps] in HgR |- *. unfold real. cbn [fst snd]. split_and!; try done; try lia.
    + destruct R; [done|]. cbn. lia.
    + tauto.
    + apply (apart_join (L ++ [p]) b q (R ++ A)) in Ha'; [|lia..]. by rewrite <- app_assoc in Ha' |- *.
    + cbn. lia.
  - apply Forall_cons in Hre as [Hq Hre]. apply Forall_cons in Hbr as [Hbq _]. apply Forall_cons in HR as [Hlt _]. cbn [gaps].
    split_and!; try done; try lia; [|apply HgR|apply HgR|by rewrite <- app_assoc in Ha' |- *|by constructor|cbn; lia]. unfold apart2, ext in Hbq. destruct Hb, Hq. lia.
Qed.

(** Joining with the block before. *)
Lemma down_ok s L p b R A : (exists F, L ++ [p] = (base, 0) :: F) -> gaps (L ++ [p]) -> gaps (b :: R) -> apart ((L ++ p :: b :: R) ++ A) ->
  Forall (fun c => c = (base, 0) \/ real s c) (L ++ [p]) -> real s b -> Forall (real s) R -> p.1 < b.1 ->
  let N := down L p b R in
  (exists F, N = (base, 0) :: F) /\ gaps N /\ apart (N ++ A) /\ Forall (fun c => c = (base, 0) \/ real s c) N /\ p.1 ∈ map fst N /\
  total N = total (L ++ [p]) + total (b :: R) /\ exists c, c ∈ N /\ b.2 <= c.2.
Proof.
  intros Hh HgL HgR Ha Hfree Hb HR Hpb. apply Forall_app in Hfree as [HfL Hp]. apply Forall_cons in Hp as [Hp _].
  assert (Hpre : p.1 + ext p <= b.1). { rewrite <- app_assoc in Ha. apply apart_app in Ha as (_ & [Hp' _] & _). apply Forall_cons in Hp' as [[?|?] _]; [done|]. unfold ext in *. lia. }
  assert (HRf : Forall (fun c => c = (base, 0) \/ real s c) R) by (eapply Forall_impl; [exact HR|]; tauto). destruct Hb as (Hb1 & Hb2 & Hb3).
  unfold down. destruct (Z.eqb_spec (p.1 + 8 * p.2) b.1) as [Eq|Eq].
  - destruct Hp as [->|(Hp1 & Hp2 & Hp3)]; [cbn in Eq; lia|]. split_and!.
    + destruct L as [|x L]; cbn in Hh; destruct Hh as [F E]; injection E as -> _; [cbn in Hp2; lia|]. by eexists.
    + apply (gaps_glue L p); [done..|]. destruct HgR as [Hn HgR]. split; [|done]. destruct R; [done|]. cbn [fst snd]. lia.
    + rewrite <- app_assoc in *. by apply apart_join.
    + apply Forall_app. split; [done|]. constructor; [|done]. right. unfold real. cbn [fst snd]. lia.
    + rewrite map_app. set_solver.
    + rewrite !total_app. cbn. lia.
    + eexists. split; [apply elem_of_app; right; left|]. cbn. lia.
  - split_and!.
    + destruct L as [|x L]; cbn in Hh; destruct Hh as [F E]; injection E as -> _; by eexists.
    + apply (gaps_glue L p); [done..|]. split; [|done]. unfold ext in Hpre. lia.
    + done.
    + apply Forall_app. split; [done|]. constructor; [done|]. constructor; [right; done|done].
    + rewrite map_app. set_solver.
    + rewrite !total_app. cbn. lia.
    + exists b. split; [set_solver|lia].
Qed.

(** The bytes of a block. *)
Definition inside (x : Z) (b : block) : Prop := b.1 <= x < b.1 + 8 * b.2.

Lemma real_world s s' b : world s' = world s -> real s b -> real s' b.
Proof. unfold real. by intros ->. Qed.

Lemma heap_perm s N A A' : A ≡ₚ A' -> heap s N A -> heap s N A'.
Proof. intros Hp [? ? ? Ha ? Hl ? ?]. constructor; try done; [|by rewrite <- Hp]. eapply apart_perm; [|exact Ha]. by apply Permutation_app_head. Qed.

Lemma down_length L p b R0 : (length (down L p (up b R0).1 (up b R0).2) <= length (L ++ p :: R0) + 1)%nat.
Proof.
  unfold down. destruct (_ =? _); rewrite !length_app; cbn [length]; unfold up; destruct R0 as [|q R1]; cbn [length snd]; try lia; destruct (_ =? _); cbn; lia.
Qed.

Lemma inside_off x b c : apart2 b c -> inside x c -> x <> b.1 /\ x <> b.1 + 4.
Proof. unfold apart2, ext, inside. lia. Qed.

Lemma head_cut (L : list block) p R F : L ++ p :: R = (base, 0) :: F -> exists F', L ++ [p] = (base, 0) :: F'.
Proof. destruct L as [|x L]; intros E; injection E as -> _; by eexists. Qed.

Lemma Forall_cut (P : block -> Prop) L p R : Forall P (L ++ p :: R) -> Forall P (L ++ [p]).
Proof. rewrite !Forall_app. intros [H1 H2]. apply Forall_cons in H2 as [Hp _]. split; [done|by constructor]. Qed.

(** The block put between [p] and [R]. *)
Lemma insert_ok s L p R b A : heap s (L ++ p :: R) (b :: A) -> p.1 < b.1 -> Forall (fun c => b.1 < c.1) R ->
  let s' := set_freep p.1 (free_down b.1 p.1 (free_up b.1 p.1 s)) in
  let N' := down L p (up b R).1 (up b R).2 in
  heap s' N' A /\ total N' = total (L ++ p :: R) + b.2 /\ (exists c, c ∈ N' /\ b.2 <= c.2) /\
  (forall c x, c ∈ A -> inside x c -> mem s' x = mem s x) /\ world s' = world s.
Proof.
  intros [[F EN] Hring Hgaps Hap Hfree Hlive Hfp Hbrk] Hp HR. apply Forall_cons in Hlive as [[Hb Hbs] Hlive]. pose proof Hb as (Hb1 & Hb2 & Hb3).
  assert (Hbn : Forall (apart2 b) ((L ++ p :: R) ++ A)). { apply (apart_perm _ (b :: (L ++ p :: R) ++ A)) in Hap; [by destruct Hap|]. by rewrite Permutation_middle. }
  apply Forall_app in Hbn as [HbN HbA]. pose proof (off_of b _ HbN) as Hoff.
  assert (HRreal : Forall (real s) R).
  { apply Forall_app in Hfree as [_ Hf]. apply Forall_cons in Hf as [_ Hf]. apply Forall_forall. intros c Hc. destruct (proj1 (Forall_forall _ _) Hf c Hc) as [->|?]; [|done].
    pose proof (proj1 (Forall_forall _ _) HR _ Hc) as Hx. cbn in Hx. lia. }
  destruct (free_up_ok s L p R b.1 b.2) as (U1 & U2 & U3 & U4 & U5 & U6 & U7 & U8); try done; try lia.
  { eapply Forall_impl; [exact HRreal|]. unfold real. intros c (? & ? & ?). lia. }
  rewrite <- (surjective_pairing b) in *. destruct (up_ok s L p R b A Hgaps Hap HR HRreal Hb) as (V1 & V2 & V3 & V4 & V5 & V6 & V7).
  set (s1 := free_up b.1 p.1 s) in *. set (b' := (up b R).1) in *. set (R' := (up b R).2) in *. rewrite <- V5 in U3, U4 |- *.
  assert (Hp0 : 0 <= p.1 /\ 0 <= p.2) by (apply Forall_app in Hfree as [_ Hf]; apply Forall_cons in Hf as [[->|(? & ? & ?)] _]; cbn; lia).
  assert (Hpa : Forall (apart2 p) ((L ++ b' :: R') ++ A)).
  { apply (apart_perm _ (p :: (L ++ b' :: R') ++ A)) in V2; [by destruct V2|]. rewrite <- !app_assoc. cbn [app]. by rewrite <- Permutation_middle. }
  apply Forall_app in Hpa as [HpN HpA]. pose proof (off_of p _ HpN) as Hpo.
  assert (Hpe : p.1 + ext p <= b'.1) by (apply Forall_app in HpN as [_ Hx]; apply Forall_cons in Hx as [[?|?] _]; unfold ext in *; lia).
  destruct (down_ok s L p b' R' A) as (D1 & D2 & D3 & D4 & D5 & D6 & D7); try done; [by apply (head_cut L p R F)|by apply (gaps_cut L p R)|by apply (Forall_cut _ L p R)|lia|].
  destruct (free_down_ok s1 L p b' R') as (E1 & E2 & E3 & E4); try done; try lia; [unfold real, ext in *; lia..|].
  assert (Hfr : forall c x, c ∈ A -> inside x c -> mem (free_down b'.1 p.1 s1) x = mem s x).
  { intros c x Hc Hx. destruct (inside_off x p c) as [X1 X2]; [by apply (proj1 (Forall_forall _ _) HpA)|done|]. destruct (inside_off x b c) as [X3 X4]; [by apply (proj1 (Forall_forall _ _) HbA)|done|].
    rewrite E2, U6 by done. done. }
  split_and!; [|rewrite D6, V7, !total_app; unfold total; cbn [foldr]; lia|naive_solver lia|done|by rewrite <- U8].
  constructor; try done; cbn [world set_freep mem freep]; rewrite ?E4, ?U8; try done.
  - eapply Forall_impl; [exact D4|]. intros c [->|Hc]; [by left|right]. eapply real_world; [|exact Hc]. cbn [world set_freep]. by rewrite E4.
  - apply Forall_forall. intros c Hc. destruct (proj1 (Forall_forall _ _) Hlive c Hc) as [Hcr Hcs]. split; [eapply real_world; [|exact Hcr]; cbn [world set_freep]; by rewrite E4|].
    unfold size in *. cbn [mem set_freep]. rewrite (Hfr c) by (done || (destruct Hcr as (? & ? & ?); unfold inside; lia)). done.
Qed.

Lemma down_addr L p b R c : c ∈ down L p (up b R).1 (up b R).2 -> c.1 = b.1 \/ c.1 ∈ map fst (L ++ p :: R).
Proof.
  assert (HU : (up b R).1.1 = b.1 /\ forall x, x ∈ (up b R).2 -> x ∈ R) by (destruct R as [|q R']; cbn [up]; [done|]; destruct (_ =? _); cbn; set_solver). destruct HU as [U1 U2].
  intros Hc. rewrite map_app. cbn [map]. unfold down in Hc. destruct (_ =? _); apply elem_of_app in Hc as [Hc|Hc].
  - right. apply elem_of_app. left. apply list_elem_of_fmap. by exists c.
  - right. apply elem_of_cons in Hc as [->|Hc%U2]; apply elem_of_app; right; [left|right]. apply list_elem_of_fmap. by exists c.
  - right. apply elem_of_app. left. apply list_elem_of_fmap. by exists c.
  - apply elem_of_cons in Hc as [->|Hc]; [right; apply elem_of_app; right; left|]. apply elem_of_cons in Hc as [->|Hc%U2]; [by left|right].
    apply elem_of_app. right. right. apply list_elem_of_fmap. by exists c.
Qed.

(** The free list is determined by the memory. *)
Lemma chain_unique m xs : forall p ys q, chain m p xs q -> chain m p ys q -> Forall (fun b : block => b.1 <> q) xs -> Forall (fun b : block => b.1 <> q) ys -> xs = ys.
Proof.
  induction xs as [|x xs IH]; intros p [|y ys] q; cbn [chain]; [done|..].
  - intros -> (E & _) _ Hy. apply Forall_cons in Hy as [Hy _]. by rewrite E in Hy.
  - intros (E & _) -> Hx _. apply Forall_cons in Hx as [Hx _]. by rewrite E in Hx.
  - intros (E1 & S1 & C1) (E2 & S2 & C2) Hx Hy. apply Forall_cons in Hx as [_ Hx]. apply Forall_cons in Hy as [_ Hy].
    rewrite (IH _ ys q C1 C2 Hx Hy). f_equal. destruct x, y. cbn in *. congruence.
Qed.

Lemma heap_tail s N A : heap s N A -> exists F, N = (base, 0) :: F /\ chain (mem s) (mem s base) F base /\ Forall (fun b => b.1 <> base) F.
Proof.
  intros [[F ->] Hr _ Ha _ _ _ _]. exists F. split; [done|]. destruct Hr as (_ & _ & Hr). split; [done|]. destruct Ha as [Ha _]. apply Forall_app in Ha as [Ha _].
  eapply Forall_impl; [exact Ha|]. unfold apart2, ext. cbn. lia.
Qed.

Lemma heap_unique s N N' A A' : heap s N A -> heap s N' A' -> N = N'.
Proof.
  intros H H'. destruct (heap_tail _ _ _ H) as (F & -> & C & D), (heap_tail _ _ _ H') as (F' & -> & C' & D'). f_equal. by apply (chain_unique (mem s) F (mem s base) F' base).
Qed.

(** Every block but base at a multiple of eight. *)
Definition on_eight (N : list block) : Prop := Forall (fun b => b.1 = base \/ b.1 mod 8 = 0) N.

(** free of an allocated block. *)
Lemma free_ok fuel s N b A : heap s N (b :: A) -> (length N <= fuel)%nat -> exists s' N',
  free fuel (b.1 + 8) s = Some s' /\ heap s' N' A /\ total N' = total N + b.2 /\ (exists c, c ∈ N' /\ b.2 <= c.2) /\
  (forall c x, c ∈ A -> inside x c -> mem s' x = mem s x) /\ world s' = world s /\ (length N' <= S (length N))%nat /\ (forall c, c ∈ N' -> c.1 = b.1 \/ c.1 ∈ map fst N).
Proof.
  intros H Hlen. pose proof (heap_sizes _ _ _ H) as Hsz. pose proof H as [[F EN] Hring Hgaps Hap _ Hlive Hfp Hbrk]. apply Forall_cons in Hlive as [[(Hb1 & Hb2 & Hb3) _] _].
  assert (Hne : Forall (fun c => c.1 <> b.1) F).
  { apply apart_app in Hap as (_ & _ & Hx). rewrite EN in Hx. apply Forall_cons in Hx as [_ Hx]. eapply Forall_impl; [exact Hx|]. intros c Hc. apply Forall_cons in Hc as [Hc _].
    by apply apart_words in Hc as [? _]. }
  destruct (gaps_split b.1 (base, 0) F) as (L & p & R & E & Hp & HL & HR); [by rewrite <- EN|by rewrite <- EN|cbn; lia|done|].
  rewrite <- EN in E. unfold free. rewrite u32_small by lia. replace (b.1 + 8 - 8) with b.1 by lia.
  rewrite (free_find_ok s N L R p b.1 Hring Hgaps Hsz (ex_intro _ F EN) E Hp HL HR ltac:(lia) fuel Hfp Hlen). cbn [mbind option_bind].
  rewrite E in H |- *. destruct (insert_ok s L p R b A H Hp HR) as (I1 & I2 & I3 & I4 & I5).
  eexists _, _. split; [done|]. split_and!; [exact I1|exact I2|exact I3|exact I4|exact I5|pose proof (down_length L p b R); lia|apply down_addr].
Qed.

(** *** More memory *)

Context {SL : SbrkLaws W}.

Lemma heap_pos s N A a : heap s N A -> a ∈ map fst N -> 0 < a.
Proof.
  intros H Ha. apply list_elem_of_fmap in Ha as (b & -> & Hb). destruct (h_brk _ _ _ H) as [? _]. pose proof (proj1 (Forall_forall _ _) (h_free _ _ _ H) b Hb) as [->|(? & _)]; cbn; lia.
Qed.

(** A block past the break, which has moved behind it, is a new one. *)
Lemma heap_grow s N A r w' nu : heap s N A -> brk (world s) <= r -> 1 <= nu -> r + 8 * nu <= brk w' <= 2 ^ 31 ->
  heap (set_size r nu (mku (mem s) (freep s) w')) N ((r, nu) :: A) /\
  (forall c x, c ∈ A -> inside x c -> upd (mem s) (r + 4) nu x = mem s x).
Proof.
  intros [Hh Hring Hgaps Hap Hfree Hlive Hfp Hbrk] Hr Hnu Hend.
  assert (Hend' : Forall (fun c => c.1 + ext c <= r) (N ++ A)).
  { apply Forall_app. split; (eapply Forall_impl; [eassumption|]); unfold real, ext; [intros c [->|?]|intros c [? _]]; cbn; lia. }
  assert (Hfr : forall c x, c ∈ A -> inside x c -> upd (mem s) (r + 4) nu x = mem s x).
  { intros c x Hc Hx. pose proof (proj1 (Forall_forall _ _) Hend' c ltac:(set_solver)) as He. unfold inside, ext in *. rewrite upd_ne by lia. done. }
  split; [|done]. constructor; cbn [mem world freep set_size]; try done; [|..|lia].
  - apply chain_upd; [|done]. apply Forall_app in Hend' as [He _]. eapply Forall_impl; [exact He|]. unfold ext. intros c Hc. lia.
  - apply (apart_perm ((r, nu) :: N ++ A)); [by rewrite Permutation_middle|]. split; [|done]. eapply Forall_impl; [exact Hend'|]. unfold apart2. cbn. tauto.
  - eapply Forall_impl; [exact Hfree|]. unfold real. cbn. intros c [?|?]; [by left|right; lia].
  - constructor; [unfold real, size; cbn; rewrite upd_eq; lia|]. apply Forall_forall. intros c Hc. destruct (proj1 (Forall_forall _ _) Hlive c Hc) as [Hcr Hcs].
    unfold real, size in *. cbn [mem world set_size]. rewrite (Hfr c) by (done || (unfold inside; lia)). split; [lia|done].
Qed.

Lemma morecore_ok fuel s N A nu : heap s N A -> 1 <= nu < 2 ^ 28 -> (length N <= fuel)%nat -> exists s',
  let r := sbrk (8 * Z.max 4096 nu) (world s) in world s' = r.2 /\
  ((morecore fuel nu s = Some (0, s') /\ heap s' N A /\ mem s' = mem s /\ r.1 = 2 ^ 32 - 1) \/
  (exists N', morecore fuel nu s = Some (freep s', s') /\ freep s' <> 0 /\ heap s' N' A /\ total N' = total N + Z.max 4096 nu /\
    (exists c, c ∈ N' /\ nu <= c.2) /\ (forall c x, c ∈ A -> inside x c -> mem s' x = mem s x) /\ (length N' <= S (length N))%nat /\
    r.1 = brk (world s) /\ (brk (world s) mod 8 = 0 -> on_eight N -> on_eight N'))).
Proof.
  intros H Hnu Hlen. unfold morecore. replace (if nu <? 4096 then 4096 else nu) with (Z.max 4096 nu) by (destruct (Z.ltb_spec nu 4096); lia). set (k := Z.max 4096 nu).
  rewrite (Z.mul_comm k 8). rewrite u32_small by lia. pose proof (h_brk _ _ _ H) as Hbrk. destruct (sbrk_spec (8 * k) (world s)) as [[E1 E2]|(E1 & E2 & E3)]; [lia..| |]; rewrite E1.
  - rewrite Z.eqb_refl. exists (mku (mem s) (freep s) (sbrk (8 * k) (world s)).2). cbv zeta. split; [done|]. left. split_and!; [done| |done|done]. destruct H as [? ? ? ? Hf Hl ? ?]. constructor; cbn [mem world freep]; try done; rewrite ?E2; try done.
    + eapply Forall_impl; [exact Hf|]. unfold real. cbn [world]. by rewrite E2.
    + eapply Forall_impl; [exact Hl|]. unfold real. cbn [world]. by rewrite E2.
  - rewrite (proj2 (Z.eqb_neq (brk (world s)) _)) by lia. destruct (heap_grow s N A (brk (world s)) (sbrk (8 * k) (world s)).2 k H) as [H1 Hfr]; [lia..|].
    destruct (free_ok fuel _ N (brk (world s), k) A H1 Hlen) as (s' & N' & R & H2 & Ht & (c & Hc & Hcs) & Hfr2 & Hw & Hl & Had). cbn [fst snd] in *.
    unfold hplus. rewrite (u32_small (brk (world s) + 8 * 1)) by lia. replace (brk (world s) + 8 * 1) with (brk (world s) + 8) by lia. rewrite R. cbn [mbind option_bind].
    exists s'. cbv zeta. split; [exact Hw|]. right. exists N'. split_and!; try done; [pose proof (heap_pos _ _ _ _ H2 (h_freep _ _ _ H2)); lia|exists c; split; [done|lia]| |].
    + intros d x Hd Hx. rewrite (Hfr2 d x Hd Hx). by apply (Hfr d).
    + intros Hb8 Hon. apply Forall_forall. intros d Hd. destruct (Had d Hd) as [->|He]; [by right|]. apply list_elem_of_fmap in He as (e & -> & He). by apply (proj1 (Forall_forall _ _) Hon e He).
Qed.

(** *** The search of malloc *)

Section Seek.
Variables (s : ust) (N A : list block) (n : Z).
Hypothesis H : heap s N A.
Hypothesis Hn : 1 <= n.

Lemma node_at L c R : N = L ++ c :: R -> size s c.1 = c.2 /\ ptr s c.1 = next R base.
Proof. intros E. pose proof (h_ring _ _ _ H) as Hc. rewrite E in Hc. apply chain_mid in Hc as (_ & ? & ? & _). done. Qed.

(** Going on to the next block. *)
Lemma seek_step L c R f u : N = L ++ c :: R -> c.2 < n -> c.1 <> freep s -> malloc_loop (S f) n u c.1 s = malloc_loop f n c.1 (next R base) s.
Proof.
  intros E Hc Hf. destruct (node_at L c R E) as [Es Ep]. cbn [malloc_loop]. rewrite Es, Ep, (proj2 (Z.leb_gt n c.2)), (proj2 (Z.eqb_neq c.1 (freep s))) by lia. done.
Qed.

Lemma seek_walk R1 : forall L u R2 f, N = L ++ u :: R1 ++ R2 -> Forall (fun c => c.2 < n /\ c.1 <> freep s) R1 ->
  exists L' u', L ++ u :: R1 = L' ++ [u'] /\ malloc_loop (length R1 + f) n u.1 (next (R1 ++ R2) base) s = malloc_loop f n u'.1 (next R2 base) s.
Proof.
  induction R1 as [|c R1 IH]; intros L u R2 f E Hf; [by exists L, u|]. apply Forall_cons in Hf as [[Hc Hcf] Hf].
  destruct (IH (L ++ [u]) c R2 f) as (L' & u' & E' & R); [by rewrite E, <- app_assoc|done|]. exists L', u'. split; [by rewrite <- E', <- app_assoc|].
  cbn [length app next Nat.add]. rewrite (seek_step (L ++ [u]) c (R1 ++ R2)) by (done || by rewrite E, <- app_assoc). done.
Qed.

Lemma first_fit (l : list block) : Forall (fun c => c.2 < n) l \/ exists l1 a l2, l = l1 ++ a :: l2 /\ Forall (fun c => c.2 < n) l1 /\ n <= a.2.
Proof.
  induction l as [|c l IH]; [left; constructor|]. destruct (decide (n <= c.2)); [right; by exists [], c, l|].
  destruct IH as [IH|(l1 & a & l2 & -> & Hl & Ha)]; [left; constructor; [lia|done]|right]. exists (c :: l1), a, l2. split_and!; [done|constructor; [lia|done]|done].
Qed.

Lemma other_addr L x R : N = L ++ x :: R -> Forall (fun c => c.1 <> x.1) L /\ Forall (fun c => c.1 <> x.1) R.
Proof.
  intros E. pose proof (h_apart _ _ _ H) as Ha. rewrite E in Ha. apply apart_app in Ha as (Ha & _). apply apart_app in Ha as (_ & [Hx _] & HL). split.
  - eapply Forall_impl; [exact HL|]. intros c Hc. apply Forall_cons in Hc as [Hc _]. by apply apart_words in Hc as [? _].
  - eapply Forall_impl; [exact Hx|]. intros c Hc. apply apart_words in Hc as [? _]. by apply not_eq_sym.
Qed.

(** The cursor goes over [R1] up to the block [a], the first that fits. *)
Lemma seek_fit L u R1 a R2 fuel : N = L ++ u :: R1 ++ a :: R2 -> Forall (fun c => c.2 < n) R1 -> Forall (fun c => c.1 <> freep s) R1 -> n <= a.2 -> (length R1 < fuel)%nat ->
  exists L' u' f1, N = L' ++ u' :: a :: R2 /\ malloc_loop fuel n u.1 (next (R1 ++ a :: R2) base) s = malloc_loop (S f1) n u'.1 a.1 s.
Proof.
  intros E Hs Hf Ha Hfu. destruct (seek_walk R1 L u (a :: R2) (fuel - length R1) E) as (L' & u' & E' & R); [by apply Forall_and|].
  exists L', u', (fuel - length R1 - 1)%nat. split; [rewrite E; change (u :: R1 ++ a :: R2) with ((u :: R1) ++ a :: R2); by rewrite app_assoc, E', <- app_assoc|].
  replace fuel with (length R1 + (fuel - length R1))%nat at 1 by lia. rewrite R. by replace (S (fuel - length R1 - 1)) with (fuel - length R1)%nat by lia.
Qed.

Definition found (fuel : nat) : Prop := exists L u a R f1, N = L ++ u :: a :: R /\ n <= a.2 /\
  malloc_loop fuel n (freep s) (ptr s (freep s)) s = malloc_loop (S f1) n u.1 a.1 s.
Definition missed (fuel f : nat) : Prop := Forall (fun b => b.2 < n) N /\ exists u f1, (f <= f1)%nat /\
  malloc_loop fuel n (freep s) (ptr s (freep s)) s = malloc_loop (S f1) n u (freep s) s.

Lemma seek fuel f : (length N + f < fuel)%nat -> found fuel \/ missed fuel f.
Proof.
  intros Hfu. pose proof (h_freep _ _ _ H) as Hfp. apply list_elem_of_fmap in Hfp as (x & Ef & Hx). apply list_elem_of_split in Hx as (L0 & R0 & E).
  destruct (other_addr L0 x R0 E) as [HL0 HR0]. destruct (node_at L0 x R0 E) as [_ Ep]. rewrite <- Ef in HL0, HR0. 
  assert (Est : malloc_loop fuel n (freep s) (ptr s (freep s)) s = malloc_loop fuel n x.1 (next R0 base) s) by (by rewrite <- Ep, Ef).
  assert (Hlen : (length N = length L0 + S (length R0))%nat) by (rewrite E, length_app; done).
  destruct (first_fit R0) as [HnR|(R1 & a & R2 & -> & HR1 & Ha)].
  2: { left. apply Forall_app in HR0 as [HR0 _]. destruct (seek_fit L0 x R1 a R2 fuel E HR1 HR0 Ha) as (L' & u' & f1 & E' & R); [rewrite length_app in Hlen; lia|].
       exists L', u', a, R2, f1. split_and!; [done..|]. by rewrite Est. }
  destruct (seek_walk R0 L0 x [] (fuel - length R0)) as (L' & u' & E' & R); [by rewrite app_nil_r|by apply Forall_and|]. rewrite app_nil_r in R.
  replace (length R0 + (fuel - length R0))%nat with fuel in R by lia. rewrite R in Est. clear R. change (next [] base) with base in Est.
  destruct (h_head _ _ _ H) as [F EN]. pose proof E as E2. rewrite EN in E2. destruct L0 as [|b0 L1]; injection E2 as E0 E2.
  - right. split; [rewrite E; constructor; [rewrite <- E0; cbn; lia|done]|]. exists u'.1, (fuel - length R0 - 1)%nat. cbn [length] in Hlen. split; [lia|]. rewrite Est, Ef, <- E0.
    by replace (S (fuel - length R0 - 1)) with (fuel - length R0)%nat by lia.
  - apply Forall_cons in HL0 as [Hb0 HL1]. rewrite <- E0 in Hb0. cbn [length] in Hlen.
    replace (fuel - length R0)%nat with (S (fuel - length R0 - 1)) in Est by lia. change base with (base, 0).1 in Est at 1. rewrite (seek_step [] (base, 0) F) in Est by (done || cbn; lia).
    destruct (first_fit L1) as [HnL|(R1 & a & R2 & E3 & HR1 & Ha)].
    2: { left. rewrite E3 in HL1. apply Forall_app in HL1 as [HL1 _]. destruct (seek_fit [] (base, 0) R1 a (R2 ++ x :: R0) (fuel - length R0 - 1)) as (L2 & u2 & f1 & E4 & R); try done.
         - rewrite EN, E2, E3, <- app_assoc. done.
         - rewrite E3, length_app in Hlen. lia.
         - exists L2, u2, a, (R2 ++ x :: R0), f1. split_and!; [done..|]. rewrite Est, <- R, E2, E3, <- app_assoc. done. }
    destruct (decide (n <= x.2)) as [Hx|Hx].
    + left. destruct (seek_fit [] (base, 0) L1 x R0 (fuel - length R0 - 1)) as (L2 & u2 & f1 & E4 & R); try done; [by rewrite EN, E2|lia|].
      exists L2, u2, x, R0, f1. split_and!; [done..|]. by rewrite Est, <- R, E2.
    + right. destruct (seek_walk L1 [] (base, 0) (x :: R0) (fuel - length R0 - 1 - length L1)) as (L2 & u2 & E4 & R); [by rewrite EN, E2|by apply Forall_and|].
      replace (length L1 + (fuel - length R0 - 1 - length L1))%nat with (fuel - length R0 - 1)%nat in R by lia.
      split; [rewrite EN, E2; constructor; [cbn; lia|]; apply Forall_app; split; [done|constructor; [lia|done]]|].
      exists u2.1, (fuel - length R0 - 2 - length L1)%nat. split; [lia|]. rewrite Est, E2. etrans; [exact R|]. rewrite Ef. cbn [next].
      by replace (S (fuel - length R0 - 2 - length L1)) with (fuel - length R0 - 1 - length L1)%nat by lia.
Qed.
End Seek.

(** *** Taking a block *)

Lemma real_free s N A L a R : heap s N A -> N = L ++ a :: R -> 1 <= a.2 -> real s a.
Proof. intros H -> Ha. pose proof (h_free _ _ _ H) as Hf. apply Forall_app in Hf as [_ Hf]. apply Forall_cons in Hf as [[->|?] _]; [cbn in Ha; lia|done]. Qed.

(** The whole block, unlinked. *)
Lemma take_whole s L u a R A : heap s (L ++ u :: a :: R) A -> 1 <= a.2 ->
  let s' := set_freep u.1 (set_ptr u.1 (ptr s a.1) s) in
  heap s' (L ++ u :: R) (a :: A) /\ (forall c x, c ∈ A -> inside x c -> mem s' x = mem s x).
Proof.
  intros H Ha. assert (Hre : real s a) by (by apply (real_free s _ A (L ++ [u]) a R H); [rewrite <- app_assoc|]). destruct H as [[F EN] Hring Hgaps Hap Hfree Hlive Hfp Hbrk].
  assert (Hu : Forall (apart2 u) (L ++ (a :: R) ++ A)).
  { apply (apart_perm _ (u :: L ++ (a :: R) ++ A)) in Hap; [by destruct Hap|]. rewrite <- app_assoc. cbn [app]. by rewrite <- Permutation_middle. }
  pose proof (off_of u _ Hu) as Ho. apply Forall_app in Ho as [HoL Ho]. apply Forall_app in Ho as [HoR HoA]. apply Forall_app in Hu as [_ Hu]. apply Forall_app in Hu as [HuR HuA].
  assert (Hfr : forall c x, c ∈ A -> inside x c -> upd (mem s) u.1 (ptr s a.1) x = mem s x).
  { intros c x Hc Hx. destruct (inside_off x u c) as [X1 X2]; [by apply (proj1 (Forall_forall _ _) HuA)|done|]. by rewrite upd_ne. }
  split; [|done]. apply chain_mid in Hring as (HcL & Hus & Hun & HcR). cbn [next] in Hun. rewrite Hun in HcR. destruct HcR as (_ & Has & HcR). apply Forall_cons in HoR as [Hoa HoR].
  constructor; cbn [mem world freep set_freep set_ptr]; try done.
  - destruct L as [|x L]; injection EN as -> _; by eexists.
  - apply chain_mid. rewrite upd_eq, upd_ne by lia. split_and!; [by apply off_upd|done|by apply (chain_first (mem s))|]. by apply off_upd.
  - apply gaps_cut in Hgaps as [Hg1 [Hg2 [Hg3 Hg4]]]. apply (gaps_glue L u); [done..|]. split; [|done]. destruct R; [done|]. destruct Hre as (? & ? & ?). lia.
  - eapply apart_perm; [|exact Hap]. rewrite <- !app_assoc. cbn [app]. apply Permutation_app_head. constructor. by rewrite Permutation_middle.
  - apply Forall_app in Hfree as [Hf1 Hf2]. apply Forall_cons in Hf2 as [Hf2 Hf3]. apply Forall_cons in Hf3 as [_ Hf3]. apply Forall_app. split; [done|by constructor].
  - constructor; [split; [done|]; unfold size; cbn [mem set_freep set_ptr]; by rewrite upd_ne by lia|]. apply Forall_forall. intros c Hc. destruct (proj1 (Forall_forall _ _) Hlive c Hc) as [Hcr Hcs].
    split; [done|]. unfold size in *. cbn [mem set_freep set_ptr]. rewrite (Hfr c) by (done || (destruct Hcr as (? & ? & ?); unfold inside; lia)). done.
  - rewrite map_app. set_solver.
Qed.

(** The end of the block; what is left stays in the list. *)
Lemma take_end s L u a R A n : heap s (L ++ u :: a :: R) A -> 1 <= n < a.2 ->
  let p := a.1 + 8 * (a.2 - n) in
  let s' := set_freep u.1 (set_size p n (set_size a.1 (a.2 - n) s)) in
  heap s' (L ++ u :: (a.1, a.2 - n) :: R) ((p, n) :: A) /\ (forall c x, c ∈ A -> inside x c -> mem s' x = mem s x).
Proof.
  intros H Hn. assert (Hre : real s a) by (apply (real_free s _ A (L ++ [u]) a R H); [by rewrite <- app_assoc|lia]). destruct H as [[F EN] Hring Hgaps Hap Hfree Hlive Hfp Hbrk].
  set (p := a.1 + 8 * (a.2 - n)). set (a' := (a.1, a.2 - n)). set (b := (p, n)).
  assert (Ha : Forall (apart2 a) ((L ++ u :: R) ++ A)).
  { apply (apart_perm _ (a :: (L ++ u :: R) ++ A)) in Hap; [by destruct Hap|]. solve_Permutation. }
  assert (Hpart : Forall (fun c => apart2 a' c /\ apart2 b c) ((L ++ u :: R) ++ A)).
  { eapply Forall_impl; [exact Ha|]. unfold apart2, ext, a', b, p. cbn [fst snd]. intros c Hc. lia. }
  assert (Hab : apart2 a' b) by (unfold apart2, ext, a', b, p; cbn [fst snd]; lia).
  pose proof (off_of a _ Ha) as Hoa. assert (Hob : off p ((L ++ u :: R) ++ A)) by (apply (off_of b); eapply Forall_impl; [exact Hpart|]; tauto).
  assert (Hfr : forall c x, c ∈ A -> inside x c -> upd (upd (mem s) (a.1 + 4) (a.2 - n)) (p + 4) n x = mem s x).
  { intros c x Hc Hx. destruct (proj1 (Forall_forall _ _) Hpart c ltac:(set_solver)) as [X1 X2]. apply (inside_off x) in X1 as [_ X1]; [|done]. apply (inside_off x) in X2 as [_ X2]; [|done].
    by rewrite !upd_ne. }
  split; [|done]. change (u :: a :: R) with ([u] ++ a :: R) in Hring, Hgaps. rewrite app_assoc in Hring, Hgaps. apply chain_mid in Hring as (HcL & Has & Han & HcR).
  apply Forall_app in Hoa as [Hoa _]. apply Forall_app in Hob as [Hob _]. change (u :: R) with ([u] ++ R) in Hoa, Hob. rewrite app_assoc in Hoa, Hob. apply Forall_app in Hoa as [HoaL HoaR]. apply Forall_app in Hob as [HobL HobR].
  constructor; cbn [mem world freep set_freep set_size]; try done.
  - destruct L as [|x L]; injection EN as -> _; by eexists.
  - change (u :: a' :: R) with ([u] ++ a' :: R). rewrite app_assoc. apply chain_mid. unfold a'. cbn [fst snd]. rewrite !(upd_ne _ (p + 4)) by (unfold p; lia). rewrite upd_eq, upd_ne by lia.
    split_and!; [do 2 (apply off_upd; [done|]); done|done|done|]. do 2 (apply off_upd; [done|]). done.
  - change (u :: a' :: R) with ([u] ++ a' :: R). rewrite app_assoc. apply gaps_cut in Hgaps as [Hg1 [Hg2 Hg3]]. apply (gaps_glue (L ++ [u]) a); [done..|]. split; [|done]. destruct R; [done|]. cbn. lia.
  - apply (apart_perm (b :: a' :: (L ++ u :: R) ++ A)); [solve_Permutation|]. apply Forall_and in Hpart as [Hpa Hpb]. split; [by constructor; [apply apart2_sym|]|]. split; [done|].
    apply (apart_perm _ (a :: (L ++ u :: R) ++ A)) in Hap as [_ ?]; [done|]. solve_Permutation.
  - apply Forall_app in Hfree as [Hf1 Hf2]. apply Forall_cons in Hf2 as [Hf2 Hf3]. apply Forall_cons in Hf3 as [_ Hf3]. apply Forall_app. split; [done|]. constructor; [done|]. constructor; [|done].
    right. unfold real, a' in *. cbn. lia.
  - constructor; [unfold real, size, b, p in *; cbn; rewrite upd_eq; lia|]. apply Forall_forall. intros c Hc. destruct (proj1 (Forall_forall _ _) Hlive c Hc) as [Hcr Hcs].
    split; [done|]. unfold size in *. cbn [mem set_freep set_size]. rewrite (Hfr c) by (done || (destruct Hcr as (? & ? & ?); unfold inside; lia)). done.
  - rewrite map_app. set_solver.
Qed.

(** malloc's result: the block [b] of [n] units is new and apart from all
    others, no allocated block was written to.  [k] units came from sbrk, as
    no free block had [n]; or none, as one had. *)
Definition served (s : ust) (N A : list block) (n k : Z) (r : option (Z * ust)) : Prop := exists b s' N',
  r = Some (b.1 + 8, s') /\ b.2 = n /\ heap s' N' (b :: A) /\ total N' + n = total N + k /\
  (forall c x, c ∈ A -> inside x c -> mem s' x = mem s x) /\
  (on_eight N -> k = 0 \/ brk (world s) mod 8 = 0 -> b.1 mod 8 = 0 /\ on_eight N') /\
  ((k = 0 /\ world s' = world s /\ exists c, c ∈ N /\ n <= c.2) \/
   (k = Z.max 4096 n /\ Forall (fun c => c.2 < n) N /\ let r := sbrk (8 * k) (world s) in r.1 = brk (world s) /\ world s' = r.2)).

Lemma take_served s L u a R A n f : heap s (L ++ u :: a :: R) A -> 1 <= n <= a.2 -> served s (L ++ u :: a :: R) A n 0 (malloc_loop (S f) n u.1 a.1 s).
Proof.
  intros H Hn. assert (Hre : real s a) by (apply (real_free s _ A (L ++ [u]) a R H); [by rewrite <- app_assoc|lia]). destruct Hre as (Hr1 & Hr2 & Hr3). pose proof (h_brk _ _ _ H) as Hbrk.
  destruct (node_at s _ A H (L ++ [u]) a R) as [Es _]; [by rewrite <- app_assoc|]. unfold served. cbn [malloc_loop]. rewrite Es, (proj2 (Z.leb_le n a.2)) by lia.
  assert (Ha8 : on_eight (L ++ u :: a :: R) -> a.1 mod 8 = 0 /\ on_eight (L ++ [u]) /\ on_eight R).
  { intros Hon. unfold on_eight in *. apply Forall_app in Hon as [Hon1 Hon]. apply Forall_cons in Hon as [Hon2 Hon]. apply Forall_cons in Hon as [[Ea|Ea] Hon3]; [lia|]. split_and!; [done| |done]. apply Forall_app. split; [done|by constructor]. }
  destruct (Z.eqb_spec a.2 n) as [En|En].
  - destruct (take_whole s L u a R A H Hr2) as [H' Hfr]. eexists a, _, _. split_and!; [unfold hplus; by rewrite u32_small by lia|done|exact H'| |exact Hfr| |left; split_and!; [done|done|exists a; split; [set_solver|lia]]].
    + rewrite !total_app. unfold total. cbn [foldr]. lia.
    + intros Hon _. split; [exact (proj1 (Ha8 Hon))|]. clear -Hon. unfold on_eight in *. apply Forall_app in Hon as [? Hon]. apply Forall_cons in Hon as [? Hon]. apply Forall_cons in Hon as [_ ?]. apply Forall_app. split; [done|by constructor].
  - destruct (take_end s L u a R A n H) as [H' Hfr]; [lia|]. assert (Ep : hplus a.1 (size (set_size a.1 (u32 (a.2 - n)) s) a.1) = a.1 + 8 * (a.2 - n)).
    { unfold size. cbn [mem set_size]. rewrite upd_eq. unfold hplus. rewrite !u32_small by (rewrite ?u32_small; lia). done. }
    cbv zeta. rewrite Ep, (u32_small (a.2 - n)) by lia. eexists (a.1 + 8 * (a.2 - n), n), _, _. cbn [fst snd].
    split_and!; [unfold hplus; by rewrite u32_small by lia|done|exact H'| |exact Hfr| |left; split_and!; [done|done|exists a; split; [set_solver|lia]]].
    + rewrite !total_app. unfold total. cbn [foldr snd]. lia.
    + intros Hon _. destruct (Ha8 Hon) as (A1 & A2 & A3). split; [rewrite (Z.mul_comm 8), Z.mod_add by lia; done|]. unfold on_eight in *. apply Forall_app in A2 as [A2 A4]. apply Forall_cons in A4 as [A4 _].
      apply Forall_app. split; [done|]. constructor; [done|]. constructor; [by right|done].
Qed.

Lemma malloc_loop_ok s N A n fuel : heap s N A -> 1 <= n < 2 ^ 28 -> (2 * length N + 4 < fuel)%nat ->
  let r := malloc_loop fuel n (freep s) (ptr s (freep s)) s in
  served s N A n 0 r \/ served s N A n (Z.max 4096 n) r \/
  exists s', r = Some (0, s') /\ heap s' N A /\ mem s' = mem s /\ Forall (fun c => c.2 < n) N /\ let q := sbrk (8 * Z.max 4096 n) (world s) in q.1 = 2 ^ 32 - 1 /\ world s' = q.2.
Proof.
  intros H Hn Hfu. cbv zeta. destruct (seek s N A n H ltac:(lia) fuel (length N + 3)) as [(L & u & a & R & f1 & EN & Ha & ->)|(Hno & u & f1 & Hf1 & ->)]; [lia| |].
  - left. subst N. apply take_served; [done|lia].
  - assert (Hs : size s (freep s) < n).
    { pose proof (h_freep _ _ _ H) as Hfp. apply list_elem_of_fmap in Hfp as (x & -> & Hx). pose proof (proj1 (Forall_forall _ _) Hno x Hx). apply list_elem_of_split in Hx as (L & R & E).
      destruct (node_at s N A H L x R E) as [-> _]. done. }
    cbn [malloc_loop]. rewrite (proj2 (Z.leb_gt n _)), Z.eqb_refl by done. right.
    destruct (morecore_ok (S f1) s N A n H Hn) as (s' & Ew & [(-> & H' & Hm & Er)|(N' & -> & Hne & H' & Ht & (c & Hc & Hcn) & Hfr & Hl & Er & Hon)]); [lia| |]; cbn [mbind option_bind fst snd].
    + right. by exists s'.
    + left. rewrite (proj2 (Z.eqb_neq (freep s') 0)) by done. destruct (seek s' N' A n H' ltac:(lia) f1 0) as [(L & u' & a & R & f2 & EN & Ha & ->)|(Hno' & _)]; [lia| |].
      * subst N'. destruct (take_served s' L u' a R A n f2 H') as (b & s2 & N2 & E1 & E2 & E3 & E4 & E5 & E6 & E7); [lia|]. exists b, s2, N2. split_and!; [done..|lia| | |].
        -- intros d x Hd Hx. rewrite (E5 d x Hd Hx). by apply (Hfr d).
        -- intros Ho [?|Hb8]; [lia|]. apply E6; [by apply Hon|by left].
        -- right. split_and!; [done..|]. destruct E7 as [(_ & -> & _)|(Ek & _)]; [done|lia].
      * pose proof (proj1 (Forall_forall _ _) Hno' c Hc). cbn in *. lia.
Qed.

(** The allocator with [A] allocated and [T] units got from sbrk: not used
    yet, or with its free list. *)
Definition alloc (s : ust) (A : list block) (T : Z) : Prop :=
  (freep s = 0 /\ A = [] /\ T = 0 /\ 0 < base /\ base + 8 <= brk (world s) <= 2 ^ 31) \/
  exists N, heap s N A /\ total N + total A = T.

Lemma heap_first s : 0 < base -> base + 8 <= brk (world s) <= 2 ^ 31 -> heap (set_size base 0 (set_freep base (set_ptr base base s))) [(base, 0)] [].
Proof.
  intros Hb Hbrk. constructor; cbn [mem world freep set_size set_freep set_ptr]; try done.
  - by exists [].
  - cbn [chain fst snd]. rewrite upd_eq, upd_ne, upd_eq by lia. done.
  - constructor; [by left|constructor].
  - cbn. set_solver.
Qed.

Lemma units_ok nbytes : 0 <= nbytes < 2 ^ 31 - 16 -> 1 <= units nbytes < 2 ^ 28 /\ nbytes <= 8 * (units nbytes - 1).
Proof. intros H. unfold units. rewrite u32_small by lia. pose proof (Z.div_mod (nbytes + 8 - 1) 8). pose proof (Z.mod_pos_bound (nbytes + 8 - 1) 8). lia. Qed.

(** A free block with [n] units; the break and the free blocks at multiples
    of eight. *)
Definition fits (s : ust) (A : list block) (n : Z) : Prop := exists N c, heap s N A /\ c ∈ N /\ n <= c.2.
Definition aligned (s : ust) (A : list block) : Prop := brk (world s) mod 8 = 0 /\ forall N, heap s N A -> on_eight N.

Lemma fits_not s N A n : heap s N A -> Forall (fun c => c.2 < n) N -> ~ fits s A n.
Proof. intros H Hn (N' & c & H' & Hc & Hle). rewrite (heap_unique _ _ _ _ _ H' H) in Hc. pose proof (proj1 (Forall_forall _ _) Hn c Hc). cbn in *. lia. Qed.

(** malloc starts from a heap, its own first one if need be. *)
Lemma malloc_start s A T nbytes : alloc s A T -> exists s0 N, heap s0 N A /\ total N + total A = T /\ world s0 = world s /\
  (forall fuel, malloc fuel nbytes s = malloc_loop fuel (units nbytes) (freep s0) (ptr s0 (freep s0)) s0) /\
  (forall c x, c ∈ A -> inside x c -> mem s0 x = mem s x) /\ (aligned s A -> on_eight N) /\
  (forall n c, c ∈ N -> 1 <= n <= c.2 -> fits s A n) /\ (forall n, Forall (fun c => c.2 < n) N -> ~ fits s A n).
Proof.
  intros [(Hf & -> & -> & Hb & Hbrk)|(N & H & Ht)].
  - eexists _, _. split_and!; [by apply heap_first|done|done| |set_solver|intros _; constructor; [by left|constructor]| |].
    + intros fuel. unfold malloc. by rewrite Hf.
    + intros n c Hc%list_elem_of_singleton Hn. subst c. cbn in Hn. lia.
    + intros n _ (N' & c & H' & _). pose proof (heap_pos _ _ _ _ H' (h_freep _ _ _ H')). lia.
  - exists s, N. split_and!; [done|done|done| |done|intros [_ Ha]; by apply Ha|intros n c Hc [_ Hn]; by exists N, c|intros n Hn; by apply (fits_not s N)].
    intros fuel. unfold malloc. pose proof (heap_pos _ _ _ _ H (h_freep _ _ _ H)). by rewrite (proj2 (Z.eqb_neq (freep s) 0)) by lia.
Qed.

Lemma malloc_ok s A T nbytes : alloc s A T -> 1 <= units nbytes < 2 ^ 28 -> exists k, forall fuel, (k <= fuel)%nat -> exists s',
  let n := units nbytes in let r := sbrk (8 * Z.max 4096 n) (world s) in
  (forall c x, c ∈ A -> inside x c -> mem s' x = mem s x) /\
  ((malloc fuel nbytes s = Some (0, s') /\ alloc s' A T /\ ~ fits s A n /\ r.1 = 2 ^ 32 - 1 /\ world s' = r.2) \/
   exists b T', malloc fuel nbytes s = Some (b.1 + 8, s') /\ b.2 = n /\ alloc s' (b :: A) T' /\ Forall (apart2 b) A /\
     (aligned s A -> b.1 mod 8 = 0 /\ aligned s' (b :: A)) /\
     ((T' = T /\ fits s A n /\ world s' = world s) \/ (T' = T + Z.max 4096 n /\ ~ fits s A n /\ r.1 = brk (world s) /\ world s' = r.2))).
Proof.
  intros Hal Hu. destruct (malloc_start s A T nbytes Hal) as (s0 & N & H & Ht & Ew & Hm & Hfr0 & Hon & Hfit & Hnofit).
  exists (2 * length N + 5)%nat. intros fuel Hfu. rewrite Hm. cbv zeta. pose proof (h_brk _ _ _ H) as Hb0. rewrite Ew in Hb0.
  assert (Hserve : forall k r, served s0 N A (units nbytes) k r -> exists s', (forall c x, c ∈ A -> inside x c -> mem s' x = mem s x) /\
    exists b T', r = Some (b.1 + 8, s') /\ b.2 = units nbytes /\ alloc s' (b :: A) T' /\ Forall (apart2 b) A /\ (aligned s A -> b.1 mod 8 = 0 /\ aligned s' (b :: A)) /\
      ((T' = T /\ fits s A (units nbytes) /\ world s' = world s) \/
       (T' = T + Z.max 4096 (units nbytes) /\ ~ fits s A (units nbytes) /\ let q := sbrk (8 * Z.max 4096 (units nbytes)) (world s) in q.1 = brk (world s) /\ world s' = q.2))).
  { intros k r (b & s' & N' & -> & Eb & H' & Ht' & Hfr & H8 & Hk). rewrite Ew in H8, Hk. exists s'. split; [intros c x Hc Hx; rewrite (Hfr c x Hc Hx); by apply (Hfr0 c)|]. exists b, (T + k).
    split_and!; [done|done|right; exists N'; split; [done|]; unfold total in *; cbn [foldr]; lia|pose proof (h_apart _ _ _ H') as Ha; by apply apart_app in Ha as (_ & [Ha _] & _)| |].
    - intros Hal'. destruct (H8 (Hon Hal') (or_intror (proj1 Hal'))) as [B1 B2]. split; [done|]. split; [|intros N2 H2; by rewrite (heap_unique _ _ _ _ _ H2 H')].
      destruct Hk as [(_ & -> & _)|(-> & _ & Er & ->)]; [apply Hal'|].
      destruct (sbrk_spec (8 * Z.max 4096 (units nbytes)) (world s)) as [[E _]|(_ & E & _)]; [lia|lia|lia|]. rewrite E, (Z.mul_comm 8), Z.mod_add by lia. apply Hal'.
    - destruct Hk as [(-> & Hw & c & Hc & Hcn)|(-> & Hno & Er & Hw)]; [left; split_and!; [lia|apply (Hfit _ c Hc); lia|done]|right; split; [done|]; split; [by apply Hnofit|done]]. }
  destruct (malloc_loop_ok s0 N A (units nbytes) fuel H Hu) as [Hs|[Hs|(s' & -> & H' & Em & Hno & Er & Ew')]]; [lia|..].
  - destruct (Hserve _ _ Hs) as (s' & Hf & Hx). exists s'. split; [done|by right].
  - destruct (Hserve _ _ Hs) as (s' & Hf & Hx). exists s'. split; [done|by right].
  - rewrite Ew in Er, Ew'. exists s'. split; [rewrite Em; done|]. left. split; [done|]. split; [right; by exists N|]. split; [by apply Hnofit|done].
Qed.

Lemma free_live s A A' b T : alloc s A T -> A ≡ₚ b :: A' -> exists k, forall fuel, (k <= fuel)%nat -> exists s',
  free fuel (b.1 + 8) s = Some s' /\ alloc s' A' T /\ (forall c x, c ∈ A' -> inside x c -> mem s' x = mem s x).
Proof.
  intros [(_ & -> & _)|(N & H & Ht)] Hp; [by apply Permutation_nil_l in Hp|]. assert (Hta : total A = b.2 + total A').
  { clear -Hp. change (b.2 + total A') with (total (b :: A')). induction Hp; unfold total in *; cbn [foldr]; lia. }
  apply (heap_perm _ _ _ _ Hp) in H. exists (length N). intros fuel Hfu. destruct (free_ok fuel s N b A' H Hfu) as (s' & N' & R & H' & Ht' & _ & Hfr & _).
  exists s'. split_and!; [done| |done]. right. exists N'. split; [done|]. lia.
Qed.
End Umalloc.

(** ** The theorems *)

(** C13: malloc of up to two gigabytes always ends.  If a free block is large
    enough, one is used and sbrk is not called.  Otherwise sbrk is called,
    once, for 4096 units or the units needed if these are more: malloc gives
    0, and no block changes, only if that call fails.  A block it gives has
    exactly the units for the bytes asked for and a header, and shares no
    byte with base, the free list or any block allocated before; the memory
    managed grows by the units sbrk gave.  It is at a multiple of eight as
    long as the break and the free blocks are.  No byte of an allocated
    block is written to. *)
Theorem malloc_correct {W} {SB : Sbrk W} {SL : SbrkLaws W} base s A T nbytes : alloc base s A T -> 0 <= nbytes < 2 ^ 31 - 16 ->
  exists k, forall fuel, (k <= fuel)%nat -> exists s',
  let n := (nbytes + 7) / 8 + 1 in let r := sbrk (8 * Z.max 4096 n) (world s) in
  (forall c x, c ∈ A -> inside x c -> mem s' x = mem s x) /\
  ((malloc base fuel nbytes s = Some (0, s') /\ alloc base s' A T /\ ~ fits base s A n /\ r.1 = 2 ^ 32 - 1 /\ world s' = r.2) \/
   exists b T', malloc base fuel nbytes s = Some (b.1 + 8, s') /\ b.2 = n /\ nbytes <= 8 * (b.2 - 1) /\ alloc base s' (b :: A) T' /\ Forall (apart2 b) A /\
     (aligned base s A -> (b.1 + 8) mod 8 = 0 /\ aligned base s' (b :: A)) /\
     ((T' = T /\ fits base s A n /\ world s' = world s) \/
      (T' = T + Z.max 4096 n /\ ~ fits base s A n /\ r.1 = brk (world s) /\ world s' = r.2))).
Proof.
  intros Hal Hnb. destruct (units_ok nbytes Hnb) as [Hu Hu2]. assert (En : units nbytes = (nbytes + 7) / 8 + 1).
  { unfold units. replace (nbytes + 8 - 1) with (nbytes + 7) by lia. rewrite (u32_small (nbytes + 7)) by lia. done. }
  destruct (malloc_ok base s A T nbytes Hal Hu) as [k Hk]. rewrite <- En. exists k. intros fuel Hf.
  destruct (Hk fuel Hf) as (s' & Hfr & [Hz|(b & T' & R & Eb & Hal' & Hap & H8 & Hw)]); exists s'; cbv zeta; (split; [done|]); [by left|right]. exists b, T'.
  split_and!; [done|done|by rewrite Eb|done|done| |done]. intros Ha. destruct (H8 Ha) as [B1 B2]. split; [|done]. replace (b.1 + 8) with (b.1 + 1 * 8) by lia. by rewrite Z.mod_add.
Qed.

(** C33: free of an allocated block always ends; the block's units are back in
    the free list, joined with free neighbours, and every other allocated
    block keeps its bytes. *)
Theorem free_correct {W} {SB : Sbrk W} base s A A' b T : alloc base s A T -> A ≡ₚ b :: A' ->
  exists k, forall fuel, (k <= fuel)%nat -> exists s',
  free fuel (b.1 + 8) s = Some s' /\ alloc base s' A' T /\ (forall c x, c ∈ A' -> inside x c -> mem s' x = mem s x).
Proof. apply free_live. Qed.

(** C39: The size computation overflows: asked for one of the seven largest
    sizes of a uint, malloc gives a block whose size word is 1 and which the
    heap it leaves counts as eight bytes, its header, with no byte for the
    caller; 0 only if no block is free and sbrk refuses 4096 units. *)
Theorem malloc_overflow {W} {SB : Sbrk W} {SL : SbrkLaws W} base s A T nbytes : alloc base s A T -> 2 ^ 32 - 8 < nbytes < 2 ^ 32 ->
  exists k, forall fuel, (k <= fuel)%nat -> exists s',
  (malloc base fuel nbytes s = Some (0, s') /\ ~ fits base s A 1 /\ (sbrk (8 * 4096) (world s)).1 = 2 ^ 32 - 1) \/
  exists p T', malloc base fuel nbytes s = Some (p + 8, s') /\ alloc base s' ((p, 1) :: A) T' /\ size s' p = 1.
Proof.
  intros Hal Hnb. assert (Hu : units nbytes = 1).
  { unfold units. replace (nbytes + 8 - 1) with (nbytes - (2 ^ 32 - 7) + 1 * 4294967296) by lia. unfold u32. rewrite Z.mod_add, Z.mod_small, Z.div_small by lia. done. }
  destruct (malloc_ok base s A T nbytes Hal ltac:(lia)) as [k Hk]. rewrite Hu in Hk. exists k. intros fuel Hf.
  destruct (Hk fuel Hf) as (s' & _ & [(Hz & _ & Hno & Er & _)|([p n] & T' & R & Eb & H & _)]); exists s'; [by left|right]. cbn [fst snd] in *. subst n. exists p, T'. split; [done|]. split; [done|].
  destruct H as [(_ & ? & _)|(N & H & _)]; [done|]. pose proof (h_live _ _ _ _ H) as Hl. apply Forall_cons in Hl as [[_ Hl] _]. exact Hl.
Qed.

(** ** Instances *)

(** A process of which only the break is known. *)
Definition plain_sbrk (n w : Z) : Z * Z := if w + n <=? 2 ^ 31 then (w, w + n) else (2 ^ 32 - 1, w).

#[local] Instance plain_brk : Sbrk Z := {| sbrk := plain_sbrk; brk := id |}.

#[local] Instance plain_laws : SbrkLaws Z.
Proof. constructor. intros n w Hn Hw. unfold sbrk, brk, plain_brk, plain_sbrk, id. destruct (Z.leb_spec (w + n) (2 ^ 31)); cbn [fst snd]; lia. Qed.

Definition demo_heap : ust := mku (fun _ => 0) 0 12288.

Lemma demo_alloc : alloc 2048 demo_heap [] 0.
Proof. left. unfold brk, plain_brk, id. cbn [world freep demo_heap]. split_and!; (done || lia). Qed.

Lemma demo_aligned : aligned 2048 demo_heap [].
Proof. split; [done|]. intros N H. pose proof (heap_pos _ _ _ _ _ H (h_freep _ _ _ _ H)) as Hp. cbn in Hp. lia. Qed.

(** The first malloc of a process: the block ends where the 4096 units end. *)
Lemma malloc_correct_witness : exists k, forall fuel, (k <= fuel)%nat -> exists s' b T',
  malloc 2048 fuel 100 demo_heap = Some (b.1 + 8, s') /\ b.2 = 14 /\ alloc 2048 s' [b] T' /\ (b.1 + 8) mod 8 = 0.
Proof.
  destruct (malloc_correct 2048 demo_heap [] 0 100 demo_alloc) as [k Hk]; [lia|]. exists k. intros fuel Hf.
  destruct (Hk fuel Hf) as (s' & _ & [(_ & _ & _ & E & _)|(b & T' & R & Hn & _ & Hal & _ & H8 & _)]); [vm_compute in E; discriminate E|]. exists s', b, T'.
  split; [exact R|]. split; [exact Hn|]. split; [exact Hal|]. exact (proj1 (H8 demo_aligned)).
Defined.

Lemma malloc_overflow_witness : exists k, forall fuel, (k <= fuel)%nat -> exists s' p T',
  malloc 2048 fuel (2 ^ 32 - 1) demo_heap = Some (p + 8, s') /\ alloc 2048 s' [(p, 1)] T' /\ size s' p = 1.
Proof.
  destruct (malloc_overflow 2048 demo_heap [] 0 (2 ^ 32 - 1) demo_alloc) as [k Hk]; [lia|]. exists k. intros fuel Hf.
  destruct (Hk fuel Hf) as (s' & [(_ & _ & E)|(p & T' & H)]); [vm_compute in E; discriminate E|]. exists s', p, T'. exact H.
Defined.

(** A heap of one allocated block, given back. *)
Definition demo_full : ust := mku (upd (upd (upd (fun _ => 0) 2048 2048) 2052 0) 12292 14) 2048 12400.

Lemma demo_full_alloc : alloc 2048 demo_full [(12288, 14)] 14.
Proof.
  right. exists [(2048, 0)]. split; [|done]. constructor; try done.
  - by exists [].
  - cbn. unfold apart2, ext. repeat constructor. cbn. lia.
  - constructor; [by left|constructor].
  - constructor; [|constructor]. split; [|done]. unfold real, brk, plain_brk, id. cbn [world demo_full fst snd]. lia.
  - cbn. set_solver.
Qed.

Lemma free_correct_witness : exists k, forall fuel, (k <= fuel)%nat -> exists s',
  free fuel (12288 + 8) demo_full = Some s' /\ alloc 2048 s' [] 14.
Proof.
  destruct (free_correct 2048 demo_full [(12288, 14)] [] (12288, 14) 14 demo_full_alloc) as [k Hk]; [done|]. exists k. intros fuel Hf. destruct (Hk fuel Hf) as (s' & R & H & _). by exists s'.
Defined.
