(* ===== verification/Kbd.v ===== *)
(** * The keyboard driver: kbd.c, kbd.h

    [kbdgetc] as a function from the modifier state and a scan code to the
    character and the new state.  The key maps are the arrays of kbd.h; a
    sparse initialiser leaves zeros. *)

From stdpp Require Import base list.
From Stdlib Require Import ZArith Lia.
From S2P Require Import Prelude.

Local Open Scope Z_scope.

Definition SHIFT : Z := 1.
Definition CTL : Z := 2.
Definition ALT : Z := 4.
Definition CAPSLOCK : Z := 8.
Definition NUMLOCK : Z := 16.
Definition SCROLLLOCK : Z := 32.
Definition E0ESC : Z := 64.

(** A 256-byte array: a prefix and designated entries. *)
Definition table (pre : list Z) (des : list (nat * Z)) : list Z :=
  foldl (fun l e => <[e.1 := e.2]> l) (pre ++ replicate (256 - length pre) 0) des.

Definition shiftcode : list Z :=
  table [] [(29%nat, CTL); (42%nat, SHIFT); (54%nat, SHIFT); (56%nat, ALT); (157%nat, CTL); (184%nat, ALT)].

Definition togglecode : list Z :=
  table [] [(58%nat, CAPSLOCK); (69%nat, NUMLOCK); (70%nat, SCROLLLOCK)].

(** KP_Enter, KP_Div and the keys KEY_UP ... KEY_DEL, common to the maps. *)
Definition keypad (enter div : Z) : list (nat * Z) :=
  [(156%nat, enter); (181%nat, div); (200%nat, 226); (208%nat, 227); (201%nat, 230); (209%nat, 231);
   (203%nat, 228); (205%nat, 229); (151%nat, 224); (207%nat, 225); (210%nat, 232); (211%nat, 233)].

Definition normalmap : list Z := table [
  0; 27; 49; 50; 51; 52; 53; 54;
  55; 56; 57; 48; 45; 61; 8; 9;
  113; 119; 101; 114; 116; 121; 117; 105;
  111; 112; 91; 93; 10; 0; 97; 115;
  100; 102; 103; 104; 106; 107; 108; 59;
  39; 96; 0; 92; 122; 120; 99; 118;
  98; 110; 109; 44; 46; 47; 0; 42;
  0; 32; 0; 0; 0; 0; 0; 0;
  0; 0; 0; 0; 0; 0; 0; 55;
  56; 57; 45; 52; 53; 54; 43; 49;
  50; 51; 48; 46; 0; 0; 0; 0] (keypad 10 47).

Definition shiftmap : list Z := table [
  0; 27; 33; 64; 35; 36; 37; 94;
  38; 42; 40; 41; 95; 43; 8; 9;
  81; 87; 69; 82; 84; 89; 85; 73;
  79; 80; 123; 125; 10; 0; 65; 83;
  68; 70; 71; 72; 74; 75; 76; 58;
  34; 126; 0; 124; 90; 88; 67; 86;
  66; 78; 77; 60; 62; 63; 0; 42;
  0; 32; 0; 0; 0; 0; 0; 0;
  0; 0; 0; 0; 0; 0; 0; 55;
  56; 57; 45; 52; 53; 54; 43; 49;
  50; 51; 48; 46; 0; 0; 0; 0] (keypad 10 47).

(** C(x) = x - '@', as an unsigned char: C('/') is 239. *)
Definition Ctl (x : Z) : Z := u8 (x - 64).

Definition ctlmap : list Z := table [
  0; 0; 0; 0; 0; 0; 0; 0;
  0; 0; 0; 0; 0; 0; 0; 0;
  Ctl 81; Ctl 87; Ctl 69; Ctl 82; Ctl 84; Ctl 89; Ctl 85; Ctl 73;
  Ctl 79; Ctl 80; 0; 0; 13; 0; Ctl 65; Ctl 83;
  Ctl 68; Ctl 70; Ctl 71; Ctl 72; Ctl 74; Ctl 75; Ctl 76; 0;
  0; 0; 0; Ctl 92; Ctl 90; Ctl 88; Ctl 67; Ctl 86;
  Ctl 66; Ctl 78; Ctl 77; 0; 0; Ctl 47; 0; 0] (keypad 13 (Ctl 47)).

Definition charcode : list (list Z) := [normalmap; shiftmap; ctlmap; ctlmap].

(** kbdgetc: [data] is the byte of the data port, [None] when the status
    port says there is none.  The result is the character (or -1) and the
    new value of the static [shift]; an index outside a table is [None]. *)
Definition kbdgetc (shift : Z) (port : option Z) : option (Z * Z) :=
  match port with
  | None => Some (-1, shift)
  | Some data =>
    if data =? 224 then Some (0, Z.lor shift E0ESC)
    else if negb (Z.land data 128 =? 0) then
      let data := if negb (Z.land shift E0ESC =? 0) then data else Z.land data 127 in
      sc ← shiftcode !! Z.to_nat data;
      Some (0, Z.land shift (u32 (Z.lnot (Z.lor sc E0ESC))))
    else
      let '(data, shift) :=
        if negb (Z.land shift E0ESC =? 0)
        then (Z.lor data 128, Z.land shift (u32 (Z.lnot E0ESC))) else (data, shift) in
      sc ← shiftcode !! Z.to_nat data;
      tc ← togglecode !! Z.to_nat data;
      let shift := Z.lxor (Z.lor shift sc) tc in
      m ← charcode !! Z.to_nat (Z.land shift (Z.lor CTL SHIFT));
      c ← m !! Z.to_nat data;
      let c :=
        if negb (Z.land shift CAPSLOCK =? 0) then
          if (97 <=? c) && (c <=? 122) then c - 32
          else if (65 <=? c) && (c <=? 90) then c + 32 else c
        else c in
      Some (c, shift)
  end.

(** The characters consoleintr gets from kbdgetc while the port has codes. *)
Fixpoint kbd_chars (shift : Z) (codes : list Z) : option (list Z * Z) :=
  match codes with
  | [] => Some ([], shift)
  | d :: codes' =>
    '(c, shift1) ← kbdgetc shift (Some d);
    '(cs, shift2) ← kbd_chars shift1 codes';
    Some (c :: cs, shift2)
  end.

(** ** Every scan code is in range *)

Definition shift_ok (s : Z) : Prop := 0 <= s < 128.

(** The driver on all states and codes, by evaluation. *)
Definition kbd_safe (shift data : Z) : bool :=
  match kbdgetc shift (Some data) with
  | Some (c, s) => (0 <=? c) && (c <? 256) && (0 <=? s) && (s <? 128)
  | None => false
  end.

Lemma kbd_all_safe :
  forallb (fun s => forallb (fun d => kbd_safe (Z.of_nat s) (Z.of_nat d)) (seq 0 256)) (seq 0 128) = true.
Proof. vm_compute. reflexivity. Qed.

Lemma kbdgetc_ok s d : shift_ok s -> byte_ok d ->
  exists c s', kbdgetc s (Some d) = Some (c, s') /\ byte_ok c /\ shift_ok s'.
Proof.
  intros Hs Hd. pose proof kbd_all_safe as H. rewrite forallb_forall in H.
  specialize (H (Z.to_nat s) ltac:(apply in_seq; unfold shift_ok in Hs; lia)). cbn beta in H.
  rewrite forallb_forall in H.
  specialize (H (Z.to_nat d) ltac:(apply in_seq; unfold byte_ok in Hd; lia)). cbn beta in H.
  unfold shift_ok, byte_ok in *. rewrite !Z2Nat.id in H by lia. unfold kbd_safe in H.
  destruct (kbdgetc s (Some d)) as [[c s']|]; [|done]. exists c, s'. zbool. split; [done|]. lia.
Qed.

Lemma kbd_chars_ok codes : forall s, shift_ok s -> Forall byte_ok codes ->
  exists cs s', kbd_chars s codes = Some (cs, s') /\ Forall byte_ok cs /\ shift_ok s'.
Proof.
  induction codes as [|d codes IH]; intros s Hs Hd; cbn [kbd_chars]; [by eexists [], s|].
  apply Forall_cons in Hd as [Hd Hds]. destruct (kbdgetc_ok s d Hs Hd) as (c & s1 & -> & Hc & H1).
  destruct (IH s1 H1 Hds) as (cs & s2 & E & Hcs & H2). cbn. rewrite E. cbn. eexists _, _. split; [done|]. split; [by constructor|done].
Qed.
