(* ===== verification/Proc.v ===== *)
(** * The process table, sleep and wakeup, sleep locks: proc.h, proc.c, sleeplock.c

    [pst] is the part of the kernel's state that proc.c owns: the process
    table, the next process id, the init process and the process this CPU
    runs.  Every other component sleeps and wakes through it.  A critical
    section under a spin lock is one atomic step here (spinlock.c is modelled
    in Spinlock.v): acquiring and releasing the lock leaves no trace. *)

From stdpp Require Import base list strings.
From Stdlib Require Import ZArith Lia.
From S2P Require Import Prelude.

Local Open Scope Z_scope.

Definition NPROC : nat := 64.
Definition NOFILE : nat := 16.
Definition KSTACKSIZE : Z := 4096.

(** enum procstate *)
Inductive procstate : Type :=
| UNUSED | EMBRYO | SLEEPING | RUNNABLE | RUNNING | ZOMBIE.

#[export] Instance procstate_eq_dec : EqDecision procstate.
Proof. solve_decision. Defined.

(** struct trapframe: the registers a trap saves. *)
Record trapframe : Type := mktf {
  tf_edi : Z; tf_esi : Z; tf_ebp : Z; tf_oesp : Z;
  tf_ebx : Z; tf_edx : Z; tf_ecx : Z; tf_eax : Z;
  tf_gs : Z; tf_fs : Z; tf_es : Z; tf_ds : Z;
  tf_trapno : Z; tf_err : Z; tf_eip : Z; tf_cs : Z;
  tf_eflags : Z; tf_esp : Z; tf_ss : Z }.

Definition tf_zero : trapframe :=
  mktf 0 0 0 0 0 0 0 0 0 0 0 0 0 0 0 0 0 0 0.

Definition tf_set_eax (v : Z) (t : trapframe) : trapframe :=
  mktf (tf_edi t) (tf_esi t) (tf_ebp t) (tf_oesp t) (tf_ebx t) (tf_edx t)
    (tf_ecx t) v (tf_gs t) (tf_fs t) (tf_es t) (tf_ds t) (tf_trapno t)
    (tf_err t) (tf_eip t) (tf_cs t) (tf_eflags t) (tf_esp t) (tf_ss t).

(** struct proc.  [p_parent] is the parent's slot, [p_ofile] and [p_cwd] are
    slots of the file table and of the inode cache; [None] is a null
    pointer. *)
Record proc : Type := mkproc {
  p_sz : Z;
  p_pgdir : Z;
  p_kstack : Z;
  p_state : procstate;
  p_pid : Z;
  p_parent : option nat;
  p_tf : trapframe;
  p_chan : option chan;
  p_killed : bool;
  p_ofile : list (option nat);
  p_cwd : option nat;
  p_name : list Z }.

(** A slot of the zero-initialised table. *)
Definition proc0 : proc :=
  mkproc 0 0 0 UNUSED 0 None tf_zero None false (replicate NOFILE None) None
    (replicate 16 0).

#[export] Instance proc_inhabited : Inhabited proc := populate proc0.

Definition set_state (x : procstate) (p : proc) : proc :=
  mkproc (p_sz p) (p_pgdir p) (p_kstack p) x (p_pid p) (p_parent p) (p_tf p)
    (p_chan p) (p_killed p) (p_ofile p) (p_cwd p) (p_name p).
Definition set_chan (x : option chan) (p : proc) : proc :=
  mkproc (p_sz p) (p_pgdir p) (p_kstack p) (p_state p) (p_pid p) (p_parent p)
    (p_tf p) x (p_killed p) (p_ofile p) (p_cwd p) (p_name p).
Definition set_killed (x : bool) (p : proc) : proc :=
  mkproc (p_sz p) (p_pgdir p) (p_kstack p) (p_state p) (p_pid p) (p_parent p)
    (p_tf p) (p_chan p) x (p_ofile p) (p_cwd p) (p_name p).
Definition set_pid (x : Z) (p : proc) : proc :=
  mkproc (p_sz p) (p_pgdir p) (p_kstack p) (p_state p) x (p_parent p) (p_tf p)
    (p_chan p) (p_killed p) (p_ofile p) (p_cwd p) (p_name p).
Definition set_parent (x : option nat) (p : proc) : proc :=
  mkproc (p_sz p) (p_pgdir p) (p_kstack p) (p_state p) (p_pid p) x (p_tf p)
    (p_chan p) (p_killed p) (p_ofile p) (p_cwd p) (p_name p).
Definition set_kstack (x : Z) (p : proc) : proc :=
  mkproc (p_sz p) (p_pgdir p) x (p_state p) (p_pid p) (p_parent p) (p_tf p)
    (p_chan p) (p_killed p) (p_ofile p) (p_cwd p) (p_name p).
Definition set_pgdir (x : Z) (p : proc) : proc :=
  mkproc (p_sz p) x (p_kstack p) (p_state p) (p_pid p) (p_parent p) (p_tf p)
    (p_chan p) (p_killed p) (p_ofile p) (p_cwd p) (p_name p).
Definition set_sz (x : Z) (p : proc) : proc :=
  mkproc x (p_pgdir p) (p_kstack p) (p_state p) (p_pid p) (p_parent p) (p_tf p)
    (p_chan p) (p_killed p) (p_ofile p) (p_cwd p) (p_name p).
Definition set_tf (x : trapframe) (p : proc) : proc :=
  mkproc (p_sz p) (p_pgdir p) (p_kstack p) (p_state p) (p_pid p) (p_parent p) x
    (p_chan p) (p_killed p) (p_ofile p) (p_cwd p) (p_name p).
Definition set_ofile (x : list (option nat)) (p : proc) : proc :=
  mkproc (p_sz p) (p_pgdir p) (p_kstack p) (p_state p) (p_pid p) (p_parent p)
    (p_tf p) (p_chan p) (p_killed p) x (p_cwd p) (p_name p).
Definition set_cwd (x : option nat) (p : proc) : proc :=
  mkproc (p_sz p) (p_pgdir p) (p_kstack p) (p_state p) (p_pid p) (p_parent p)
    (p_tf p) (p_chan p) (p_killed p) (p_ofile p) x (p_name p).
Definition set_name (x : list Z) (p : proc) : proc :=
  mkproc (p_sz p) (p_pgdir p) (p_kstack p) (p_state p) (p_pid p) (p_parent p)
    (p_tf p) (p_chan p) (p_killed p) (p_ofile p) (p_cwd p) x.

Record pst : Type := mkpst {
  ptable : list proc;        (* ptable.proc[NPROC] *)
  nextpid : Z;
  initproc : option nat;
  cur : option nat }.        (* mycpu()->proc *)

Definition set_ptable (x : list proc) (s : pst) : pst :=
  mkpst x (nextpid s) (initproc s) (cur s).
Definition set_nextpid (x : Z) (s : pst) : pst :=
  mkpst (ptable s) x (initproc s) (cur s).
Definition set_initproc (x : option nat) (s : pst) : pst :=
  mkpst (ptable s) (nextpid s) x (cur s).
Definition set_cur (x : option nat) (s : pst) : pst :=
  mkpst (ptable s) (nextpid s) (initproc s) x.

(** [ptable.proc[i] = f(ptable.proc[i])] *)
Definition upd_proc (i : nat) (f : proc -> proc) (s : pst) : pst :=
  set_ptable (alter f i (ptable s)) s.

Definition pst0 : pst := mkpst (replicate NPROC proc0) 1 None None.

(** ** proc.c: the operations on the table alone *)

(** myproc, dereferenced: using a null [myproc()] is a fault. *)
Definition myproc : M pst nat := deref cur.

Definition getproc (i : nat) : M pst proc := deref (fun s => ptable s !! i).

Definition mypid : M pst Z := i ← myproc; p ← getproc i; mret (p_pid p).

Definition wakeup1 (ch : chan) (l : list proc) : list proc :=
  map (fun p =>
    if decide (p_state p = SLEEPING /\ p_chan p = Some ch)
    then set_state RUNNABLE p else p) l.

Definition wakeup (ch : chan) : M pst unit :=
  modify (fun s => set_ptable (wakeup1 ch (ptable s)) s).

(** The part of [sleep] before the switch to the scheduler: the caller's
    lock is exchanged for [ptable.lock], the process is marked and gives up
    the CPU. *)
Definition sleep_mark (ch : chan) : M pst unit :=
  c ← gets cur;
  match c with
  | None => panic "sleep"
  | Some i => modify (upd_proc i (fun p => set_state SLEEPING (set_chan (Some ch) p)))
  end.

Definition sleep (ch : chan) : M pst unit := sleep_mark ch ;; asleep ch.

(** The part after the switch back: "Tidy up". *)
Definition sleep_resume (i : nat) : M pst unit :=
  modify (upd_proc i (set_chan None)).

(** yield up to the switch to the scheduler. *)
Definition yield : M pst unit :=
  i ← myproc;
  modify (upd_proc i (set_state RUNNABLE)).

(** sched's checks on the process; the lock and interrupt checks are in
    Spinlock.v. *)
Definition sched_check : M pst unit :=
  i ← myproc; p ← getproc i;
  if decide (p_state p = RUNNING) then panic "sched running" else mret tt.

Fixpoint kill_loop (pid : Z) (l : list proc) : option (list proc) :=
  match l with
  | [] => None
  | p :: l' =>
    if p_pid p =? pid then
      let p := set_killed true p in
      Some ((if decide (p_state p = SLEEPING) then set_state RUNNABLE p else p) :: l')
    else match kill_loop pid l' with
         | Some r => Some (p :: r)
         | None => None
         end
  end.

Definition kill (pid : Z) : M pst Z :=
  l ← gets ptable;
  match kill_loop pid l with
  | Some l' => modify (set_ptable l') ;; mret 0
  | None => mret (-1)
  end.

(** One turn of [scheduler]'s inner loop: slot [i] is run if it is
    RUNNABLE.  [switchuvm] needs a kernel stack and a page directory. *)
Definition scheduler_try (i : nat) : M pst bool :=
  p ← getproc i;
  if decide (p_state p = RUNNABLE) then
    (if p_kstack p =? 0 then panic "switchuvm: no kstack"
     else if p_pgdir p =? 0 then panic "switchuvm: no pgdir"
     else
      modify (set_cur (Some i)) ;;
      modify (upd_proc i (set_state RUNNING)) ;;
      mret true)
  else mret false.

(** Back from the process: [c->proc = 0]. *)
Definition scheduler_back : M pst unit := modify (set_cur None).

Fixpoint scheduler_scan (i : nat) (n : nat) : M pst (option nat) :=
  match n with
  | O => mret None
  | S n' =>
    r ← scheduler_try i;
    if r : bool then mret (Some i) else scheduler_scan (S i) n'
  end.

(** [myproc()->killed] *)
Definition my_killed : M pst bool := i ← myproc; p ← getproc i; mret (p_killed p).

(** A call that has to wait marks the process and stops; [Wait] keeps what
    the call remembers across the sleep. *)
Inductive progress (A : Type) : Type :=
| Done (r : A)
| Wait (i : nat).
Arguments Done {A} r.
Arguments Wait {A} i.

(** ** What wakeup and sleep do to the table *)

Definition woken (ch : chan) (ps : pst) : pst := set_ptable (wakeup1 ch (ptable ps)) ps.
Definition asleep_on (ch : chan) (me : nat) (ps : pst) : pst :=
  upd_proc me (fun q => set_state SLEEPING (set_chan (Some ch) q)) ps.

Lemma my_killed_ok ps me q :
  cur ps = Some me -> ptable ps !! me = Some q -> my_killed ps = Ret (p_killed q) ps.
Proof.
  intros Hc Hq. unfold my_killed. erewrite bind_ret by (unfold myproc, deref; by rewrite Hc).
  by erewrite bind_ret by (unfold getproc, deref; by rewrite Hq).
Qed.

Lemma sleep_mark_ok ps me ch : cur ps = Some me -> sleep_mark ch ps = Ret tt (asleep_on ch me ps).
Proof. intros Hc. unfold sleep_mark. erewrite bind_ret by reflexivity. by rewrite Hc. Qed.

Definition sleeps (ps : pst) (j : nat) (ch : chan) : Prop :=
  exists q, ptable ps !! j = Some q /\ p_state q = SLEEPING /\ p_chan q = Some ch.

Lemma sleeps_woken ps j ch ch' : sleeps (woken ch ps) j ch' -> ch' <> ch /\ sleeps ps j ch'.
Proof.
  intros (q & Hq & Hs & Hc). unfold woken, set_ptable, wakeup1 in Hq. cbn in Hq.
  apply list_lookup_fmap_Some in Hq as (q0 & -> & Hq0).
  destruct (decide (p_state q0 = SLEEPING /\ p_chan q0 = Some ch)) as [[H1 H2]|Hn]; [done|].
  split; [|by exists q0]. intros ->. naive_solver.
Qed.

Lemma sleeps_asleep ps me j ch ch' :
  sleeps (asleep_on ch me ps) j ch' -> ch' = ch \/ sleeps ps j ch'.
Proof.
  intros (q & Hq & Hs & Hc). unfold asleep_on, upd_proc, set_ptable in Hq. cbn in Hq.
  destruct (decide (j = me)) as [->|Hne].
  - rewrite list_lookup_alter_eq in Hq. destruct (ptable ps !! me); [|done]. injection Hq as <-. cbn in Hc. left. congruence.
  - rewrite list_lookup_alter_ne in Hq by done. right. by exists q.
Qed.

Lemma sleeps_cur ps c j ch : sleeps (set_cur c ps) j ch <-> sleeps ps j ch.
Proof. done. Qed.

(** ** sleeplock.c *)

Record sleeplock : Type := mksl { sl_locked : bool; sl_pid : Z }.

Definition sl0 : sleeplock := mksl false 0.

#[export] Instance sleeplock_inhabited : Inhabited sleeplock := populate sl0.

Section Sleeplock.
(** A sleep lock inside a component's state [S], with the process table. *)
Context {S : Type} (getl : S -> option sleeplock) (setl : sleeplock -> S -> S).
Context (getp : S -> pst) (setp : pst -> S -> S) (ch : chan).

Definition initsleeplock : M S unit := modify (setl sl0).

(** The loop re-tests the lock when the process is woken: running
    [acquiresleep] again from the start is the rest of the loop. *)
Definition acquiresleep : M S unit :=
  l ← deref getl;
  if sl_locked l then zoom getp setp (sleep ch)
  else
    pid ← zoom getp setp mypid;
    modify (setl (mksl true pid)).

Definition releasesleep : M S unit :=
  modify (setl (mksl false 0)) ;;
  zoom getp setp (wakeup ch).

Definition holdingsleep : M S bool :=
  l ← deref getl;
  if sl_locked l then
    pid ← zoom getp setp mypid;
    mret (sl_pid l =? pid)
  else mret false.

End Sleeplock.
