(* ===== verification/Spinlock.v ===== *)
(** * Spin locks and interrupt nesting: spinlock.c, mycpu and sched of proc.c

    The machine has the table of CPUs, the locks and each CPU's interrupt
    flag.  A routine runs on the CPU with local APIC id [a].  acquire and
    release are cut at their atomic actions (the xchg, the store of
    lk->cpu, the store of 0), and [lstep] interleaves the CPUs at these
    points: the theorems are mutual exclusion, the ownership record that
    holding tests, and the nesting of pushcli and popcli.  The other files
    take a critical section as one step on the strength of them. *)

From stdpp Require Import base list gmap relations strings.
From Stdlib Require Import ZArith Lia.
From S2P Require Import Prelude Proc.

Local Open Scope Z_scope.

Record cpu : Type := mkcpu { apicid : Z; ncli : Z; intena : bool }.
Record spinlock : Type := mklk { locked : Z; lk_cpu : option nat }.

(** [m_if]: FL_IF of each CPU, by APIC id. *)
Record mach : Type := mkmach { cpus : list cpu; locks : list spinlock; m_if : gmap Z bool }.

Definition upd_cpu (i : nat) (f : cpu -> cpu) (s : mach) : mach :=
  mkmach (alter f i (cpus s)) (locks s) (m_if s).
Definition upd_lock (l : nat) (f : spinlock -> spinlock) (s : mach) : mach :=
  mkmach (cpus s) (alter f l (locks s)) (m_if s).
Definition set_if (a : Z) (b : bool) (s : mach) : mach :=
  mkmach (cpus s) (locks s) (<[a := b]> (m_if s)).

Section Cpu.
Context (a : Z).

Definition readeflags : M mach bool := deref (fun s => m_if s !! a).
Definition cli : M mach unit := modify (set_if a false).
Definition sti : M mach unit := modify (set_if a true).

Fixpoint find_cpu (l : list cpu) (i : nat) : option nat :=
  match l with
  | [] => None
  | c :: l' => if apicid c =? a then Some i else find_cpu l' (S i)
  end.

Definition mycpu : M mach nat :=
  f ← readeflags;
  if f : bool then panic "mycpu called with interrupts enabled" else
  l ← gets cpus;
  match find_cpu l 0 with
  | Some i => mret i
  | None => panic "unknown apicid"
  end.

Definition cpuid : M mach nat := mycpu.

Definition pushcli : M mach unit :=
  f ← readeflags;
  cli ;;
  i ← mycpu;
  c ← deref (fun s => cpus s !! i);
  (if ncli c =? 0 then modify (upd_cpu i (fun c => mkcpu (apicid c) (ncli c) f)) else mret tt) ;;
  modify (upd_cpu i (fun c => mkcpu (apicid c) (ncli c + 1) (intena c))).

Definition popcli : M mach unit :=
  f ← readeflags;
  if f : bool then panic "popcli - interruptible" else
  i ← mycpu;
  modify (upd_cpu i (fun c => mkcpu (apicid c) (ncli c - 1) (intena c))) ;;
  c ← deref (fun s => cpus s !! i);
  if ncli c <? 0 then panic "popcli"
  else if (ncli c =? 0) && intena c then sti else mret tt.

Definition initlock (l : nat) : M mach unit := modify (upd_lock l (fun _ => mklk 0 None)).

Definition holding (l : nat) : M mach bool :=
  pushcli ;;
  i ← mycpu;
  k ← deref (fun s => locks s !! l);
  popcli ;;
  mret (negb (locked k =? 0) && bool_decide (lk_cpu k = Some i)).

(** acquire: up to the loop, one xchg, after the loop. *)
Definition acquire_enter (l : nat) : M mach unit :=
  pushcli ;;
  h ← holding l;
  if h : bool then panic "acquire" else mret tt.

Definition xchg (l : nat) (v : Z) : M mach Z :=
  k ← deref (fun s => locks s !! l);
  modify (upd_lock l (fun k => mklk v (lk_cpu k))) ;;
  mret (locked k).

Definition acquire_mark (l : nat) : M mach unit :=
  i ← mycpu;
  modify (upd_lock l (fun k => mklk (locked k) (Some i))).

Fixpoint acquire_spin (l : nat) (fuel : nat) : M mach unit :=
  match fuel with
  | O => nofuel
  | S f => v ← xchg l 1; if v =? 0 then mret tt else acquire_spin l f
  end.

Definition acquire (l : nat) (fuel : nat) : M mach unit :=
  acquire_enter l ;; acquire_spin l fuel ;; acquire_mark l.

(** release: up to the barrier, the store, popcli. *)
Definition release_enter (l : nat) : M mach unit :=
  h ← holding l;
  if negb h then panic "release"
  else modify (upd_lock l (fun k => mklk (locked k) None)).

Definition release_store (l : nat) : M mach unit :=
  modify (upd_lock l (fun k => mklk 0 (lk_cpu k))).

Definition release (l : nat) : M mach unit :=
  release_enter l ;; release_store l ;; popcli.

(** sched's tests, [st] being the state of the process and [l] the index of
    ptable.lock; then intena is saved across the switch. *)
Definition sched_guard (l : nat) (st : procstate) : M mach bool :=
  h ← holding l;
  if negb h then panic "sched ptable.lock" else
  i ← mycpu; c ← deref (fun s => cpus s !! i);
  if negb (ncli c =? 1) then panic "sched locks"
  else if decide (st = RUNNING) then panic "sched running"
  else f ← readeflags; if f : bool then panic "sched interruptible" else mret (intena c).

Definition sched_restore (ena : bool) : M mach unit :=
  i ← mycpu; modify (upd_cpu i (fun c => mkcpu (apicid c) (ncli c) ena)).

End Cpu.

(** getcallerpcs: the chain of saved frame pointers, [ld] reading a word of
    kernel memory. *)
Fixpoint callerpcs_loop (ld : Z -> Z) (ebp : Z) (i : nat) : list Z :=
  match i with
  | O => []
  | S i' =>
    if (ebp =? 0) || (ebp <? 2147483648) || (ebp =? 4294967295) then replicate i 0
    else ld (u32 (ebp + 4)) :: callerpcs_loop ld (ld ebp) i'
  end.

Definition getcallerpcs (ld : Z -> Z) (v : Z) : list Z := callerpcs_loop ld (u32 (v - 8)) 10.

(** ** One CPU *)

Section Nest.
Context (a : Z).
Implicit Types (s : mach) (c : cpu).

(** CPU [a] is entry [i] of the table, with interrupt flag [f]; inside
    pushcli interrupts are off. *)
Record here s (i : nat) c (f : bool) : Prop := mkhere {
  he_find : find_cpu a (cpus s) 0 = Some i;
  he_cpu : cpus s !! i = Some c;
  he_if : m_if s !! a = Some f;
  he_ncli : 0 <= ncli c;
  he_off : 0 < ncli c -> f = false }.

Definition with_cpu s (i : nat) c (f : bool) : mach :=
  mkmach (<[i := c]> (cpus s)) (locks s) (<[a := f]> (m_if s)).

Lemma alter_at {A} (g : A -> A) (l : list A) i x : l !! i = Some x -> alter g i l = <[i := g x]> l.
Proof.
  revert i. induction l as [|y l IH]; intros i; [done|]. destruct i as [|i]; cbn.
  - by intros [= ->].
  - intros H. f_equal. by apply IH.
Qed.

Lemma find_cpu_alt l k i : find_cpu a l k = Some i ->
  exists j c, i = (k + j)%nat /\ l !! j = Some c /\ apicid c = a.
Proof.
  revert k. induction l as [|c l IH]; intros k; cbn; [done|]. destruct (Z.eqb_spec (apicid c) a) as [E|E].
  - intros [= ->]. exists 0%nat, c. split; [lia|done].
  - intros H. destruct (IH _ H) as (j & c' & -> & ? & ?). exists (S j), c'. split; [lia|done].
Qed.

Lemma find_cpu_insert l k i c c' : l !! i = Some c -> apicid c' = apicid c ->
  find_cpu a (<[i := c']> l) k = find_cpu a l k.
Proof.
  revert k i. induction l as [|d l IH]; intros k i Hi Ha; [done|]. destruct i as [|i].
  - injection Hi as ->. cbn. by rewrite Ha.
  - change (<[S i := c']> (d :: l)) with (d :: <[i := c']> l). cbn [find_cpu]. by rewrite (IH (S k) i).
Qed.

Lemma here_with s i c f c' f' : here s i c f -> apicid c' = apicid c -> 0 <= ncli c' ->
  (0 < ncli c' -> f' = false) -> here (with_cpu s i c' f') i c' f'.
Proof.
  intros [H1 H2 H3 H4 H5] Ha Hn Hf. split; cbn; try done.
  - by rewrite (find_cpu_insert _ _ _ c).
  - apply list_lookup_insert_eq. by eapply lookup_lt_Some.
  - apply lookup_insert_eq.
Qed.

Lemma with_cpu_twice s i c c' f f' : with_cpu (with_cpu s i c f) i c' f' = with_cpu s i c' f'.
Proof. unfold with_cpu. cbn. by rewrite list_insert_insert_eq, insert_insert_eq. Qed.

Lemma with_cpu_same s i c f : here s i c f -> with_cpu s i c f = s.
Proof. intros [? H2 H3 ? ?]. unfold with_cpu. rewrite list_insert_id, insert_id by done. by destruct s. Qed.

Lemma mycpu_ok s i c : here s i c false -> mycpu a s = Ret i s.
Proof.
  intros [H1 _ H3 _ _]. unfold mycpu. erewrite bind_ret by (unfold readeflags, deref; by rewrite H3).
  cbv beta iota. erewrite bind_ret by reflexivity. by rewrite H1.
Qed.

Lemma pushcli_ok s i c f : here s i c f ->
  pushcli a s = Ret tt (with_cpu s i (mkcpu (apicid c) (ncli c + 1) (if ncli c =? 0 then f else intena c)) false).
Proof.
  intros H. pose proof H as [H1 H2 H3 H4 H5]. unfold pushcli.
  erewrite bind_ret by (unfold readeflags, deref; by rewrite H3). erewrite bind_ret by reflexivity.
  assert (Hh : here (set_if a false s) i c false) by (split; try done; apply lookup_insert_eq).
  erewrite bind_ret by (by apply (mycpu_ok _ i c)). erewrite bind_ret by (unfold deref; cbn; by rewrite H2).
  destruct (ncli c =? 0); erewrite bind_ret by reflexivity; unfold modify, upd_cpu, with_cpu; cbn; do 2 f_equal.
  - rewrite list_alter_alter_eq. by erewrite alter_at.
  - by erewrite alter_at.
Qed.

Lemma popcli_ok s i c f : here s i c f -> 0 < ncli c ->
  popcli a s = Ret tt (with_cpu s i (mkcpu (apicid c) (ncli c - 1) (intena c)) ((ncli c =? 1) && intena c)).
Proof.
  intros H Hn. pose proof H as [H1 H2 H3 H4 H5]. rewrite (H5 Hn) in *. unfold popcli.
  erewrite bind_ret by (unfold readeflags, deref; by rewrite H3). cbv beta iota.
  erewrite bind_ret by (by apply (mycpu_ok _ i c)). erewrite bind_ret by reflexivity.
  unfold upd_cpu. rewrite (alter_at _ _ _ c) by done.
  erewrite bind_ret; [|unfold deref; cbn; rewrite list_lookup_insert_eq by (by eapply lookup_lt_Some); reflexivity].
  cbn. destruct (Z.ltb_spec (ncli c - 1) 0); [lia|].
  assert (Eb : (ncli c - 1 =? 0) = (ncli c =? 1)) by (apply eq_true_iff_eq; rewrite !Z.eqb_eq; lia). rewrite Eb.
  destruct ((ncli c =? 1) && intena c); unfold sti, modify, set_if, with_cpu; cbn; [done|].
  by rewrite insert_id.
Qed.

(** The flag popcli restores is the one its pushcli found. *)
Lemma restored s i c f : here s i c f -> (ncli c + 1 =? 1) && (if ncli c =? 0 then f else intena c) = f.
Proof.
  intros H. pose proof (he_ncli _ _ _ _ H). destruct (Z.eqb_spec (ncli c) 0) as [E|E].
  - by rewrite E.
  - rewrite (he_off _ _ _ _ H) by lia. apply andb_false_iff. left. apply Z.eqb_neq. lia.
Qed.

(** holding leaves the CPU as it was, but for intena outside pushcli. *)
Lemma holding_ok s i c f l k : here s i c f -> locks s !! l = Some k ->
  holding a l s = Ret (negb (locked k =? 0) && bool_decide (lk_cpu k = Some i))
    (with_cpu s i (mkcpu (apicid c) (ncli c) (if ncli c =? 0 then f else intena c)) f).
Proof.
  intros H Hk. pose proof (he_ncli _ _ _ _ H) as Hn. unfold holding. erewrite bind_ret by (by apply pushcli_ok).
  set (c1 := mkcpu _ _ _). assert (H1 : here (with_cpu s i c1 false) i c1 false) by (eapply here_with; cbn; [done..|lia|done]).
  erewrite bind_ret by (by apply (mycpu_ok _ i c1)). erewrite bind_ret by (unfold deref; cbn; by rewrite Hk).
  erewrite bind_ret by (eapply popcli_ok; [done|cbn; lia]). rewrite with_cpu_twice. cbn.
  replace (ncli c + 1 - 1) with (ncli c) by lia.
  by rewrite (restored s i c f).
Qed.

Lemma holding_inside s i c f l k : here s i c f -> 0 < ncli c -> locks s !! l = Some k ->
  holding a l s = Ret (negb (locked k =? 0) && bool_decide (lk_cpu k = Some i)) s.
Proof.
  intros H Hn Hk. rewrite (holding_ok s i c f l k) by done. destruct (Z.eqb_spec (ncli c) 0); [lia|].
  assert (Ec : mkcpu (apicid c) (ncli c) (intena c) = c) by (by destruct c). rewrite Ec.
  by rewrite (with_cpu_same s i c f).
Qed.

(** Code between a pushcli and its popcli, and code after it. *)
Inductive nest : Type :=
| Skip
| Nest (body rest : nest).

Fixpoint run_nest (t : nest) : M mach unit :=
  match t with
  | Skip => mret tt
  | Nest b r => pushcli a ;; run_nest b ;; popcli a ;; run_nest r
  end.

Lemma run_nest_ok t : forall s i c f, here s i c f ->
  exists c', run_nest t s = Ret tt (with_cpu s i c' f) /\ apicid c' = apicid c /\ ncli c' = ncli c /\
    (0 < ncli c -> c' = c).
Proof.
  induction t as [|b IHb r IHr]; intros s i c f H; cbn [run_nest].
  { exists c. by rewrite (with_cpu_same s i c f). }
  pose proof (he_ncli _ _ _ _ H) as Hn. erewrite bind_ret by (by apply pushcli_ok). set (c1 := mkcpu _ _ _).
  assert (H1 : here (with_cpu s i c1 false) i c1 false) by (eapply here_with; cbn; [done..|lia|done]).
  destruct (IHb _ _ _ _ H1) as (c2 & R & _ & _ & E2). specialize (E2 ltac:(cbn; lia)). subst c2.
  rewrite with_cpu_twice in R. erewrite bind_ret by exact R.
  erewrite bind_ret by (eapply popcli_ok; [done|cbn; lia]). rewrite with_cpu_twice. cbn.
  replace (ncli c + 1 - 1) with (ncli c) by lia. set (f' := _ && _). set (c3 := mkcpu _ _ _).
  assert (Ef : f' = f) by (by apply (restored s i c f)). rewrite Ef. assert (H3 : here (with_cpu s i c3 f) i c3 f).
  { eapply here_with; [done|done|done|]. apply (he_off _ _ _ _ H). }
  destruct (IHr _ _ _ _ H3) as (c4 & R4 & E4 & E5 & E6). rewrite with_cpu_twice in R4. exists c4.
  split; [exact R4|]. split; [done|]. split; [done|]. intros Hp. rewrite E6 by done. subst c3.
  destruct (Z.eqb_spec (ncli c) 0); [lia|]. by destruct c.
Qed.
End Nest.

(** ** All CPUs *)

(** Where a CPU is: outside the lock routines, spinning, holding the lock
    but not marked, about to store 0, about to call popcli. *)
Inductive pc : Type := Idle | Spin (l : nat) | Mark (l : nat) | Store (l : nat) | Pop.

(** The machine, each CPU's place and the locks it holds. *)
Record world : Type := mkw { w_m : mach; w_pc : list pc; w_held : list (list nat) }.

Definition at_cpu (i : nat) (a : Z) (w : world) : Prop :=
  exists c, cpus (w_m w) !! i = Some c /\ apicid c = a.

Definition goto (i : nat) (p : pc) (h : list nat) (m : mach) (w : world) : world :=
  mkw m (<[i := p]> (w_pc w)) (<[i := h]> (w_held w)).

Inductive lstep : world -> world -> Prop :=
| st_enter i a l h w m :
    at_cpu i a w -> w_pc w !! i = Some Idle -> w_held w !! i = Some h ->
    acquire_enter a l (w_m w) = Ret tt m -> lstep w (goto i (Spin l) h m w)
| st_spin i a l h v w m :
    at_cpu i a w -> w_pc w !! i = Some (Spin l) -> w_held w !! i = Some h ->
    xchg l 1 (w_m w) = Ret v m -> lstep w (goto i (if v =? 0 then Mark l else Spin l) h m w)
| st_mark i a l h w m :
    at_cpu i a w -> w_pc w !! i = Some (Mark l) -> w_held w !! i = Some h ->
    acquire_mark a l (w_m w) = Ret tt m -> lstep w (goto i Idle (l :: h) m w)
| st_leave i a l h w m :
    at_cpu i a w -> w_pc w !! i = Some Idle -> w_held w !! i = Some h ->
    release_enter a l (w_m w) = Ret tt m -> lstep w (goto i (Store l) (filter (.≠ l) h) m w)
| st_store i a l h w m :
    at_cpu i a w -> w_pc w !! i = Some (Store l) -> w_held w !! i = Some h ->
    release_store l (w_m w) = Ret tt m -> lstep w (goto i Pop h m w)
| st_pop i a h w m :
    at_cpu i a w -> w_pc w !! i = Some Pop -> w_held w !! i = Some h ->
    popcli a (w_m w) = Ret tt m -> lstep w (goto i Idle h m w)
| st_flag i c b w :
    cpus (w_m w) !! i = Some c -> ncli c = 0 -> lstep w (mkw (set_if (apicid c) b (w_m w)) (w_pc w) (w_held w)).

(** A CPU at [p] with locks [h] has taken [l]. *)
Definition own_set (p : pc) (h : list nat) (l : nat) : Prop := l ∈ h \/ p = Mark l \/ p = Store l.

Definition busy (p : pc) : Z := match p with Idle => 0 | _ => 1 end.

Section Locks.
Implicit Types (ls : list spinlock) (pcs : list pc) (hs : list (list nat)).

Definition owns pcs hs (i l : nat) : Prop := exists p h, pcs !! i = Some p /\ hs !! i = Some h /\ own_set p h l.
Definition holds hs (i l : nat) : Prop := exists h, hs !! i = Some h /\ l ∈ h.

(** The locks: one is taken exactly when some CPU has taken it, and by one
    only; the CPU a lock records is the one that holds it. *)
Record locks_inv ls pcs hs : Prop := mklocks_inv {
  lo_free l k : ls !! l = Some k -> locked k = 0 -> forall i, ~ owns pcs hs i l;
  lo_taken l k : ls !! l = Some k -> locked k <> 0 -> exists i, owns pcs hs i l;
  lo_one i j l : owns pcs hs i l -> owns pcs hs j l -> i = j;
  lo_in i l : owns pcs hs i l -> (l < length ls)%nat;
  lo_once i p h : pcs !! i = Some p -> hs !! i = Some h ->
    NoDup h /\ forall l, p = Mark l \/ p = Store l -> l ∉ h;
  lo_cpu l k i : ls !! l = Some k -> (lk_cpu k = Some i <-> holds hs i l) }.

Lemma owns_update pcs hs i p h j l :
  (i < length pcs)%nat -> (i < length hs)%nat ->
  owns (<[i := p]> pcs) (<[i := h]> hs) j l <-> (j = i /\ own_set p h l) \/ (j <> i /\ owns pcs hs j l).
Proof.
  intros Hp Hh. unfold owns. destruct (decide (j = i)) as [->|Hne].
  - rewrite !list_lookup_insert_eq by done. naive_solver.
  - rewrite !list_lookup_insert_ne by done. naive_solver.
Qed.

Lemma holds_update hs i h j l :
  (i < length hs)%nat -> holds (<[i := h]> hs) j l <-> (j = i /\ l ∈ h) \/ (j <> i /\ holds hs j l).
Proof.
  intros Hh. unfold holds. destruct (decide (j = i)) as [->|Hne].
  - rewrite list_lookup_insert_eq by done. naive_solver.
  - rewrite list_lookup_insert_ne by done. naive_solver.
Qed.

(** What a step of CPU [i] on lock [l] has to respect. *)
Record step_ok (i l : nat) (k k' : spinlock) (p p' : pc) (h h' : list nat) : Prop := mkstep_ok {
  sk_other l' : l' <> l -> (own_set p' h' l' <-> own_set p h l') /\ (l' ∈ h' <-> l' ∈ h);
  sk_new : own_set p' h' l -> own_set p h l \/ locked k = 0;
  sk_free : locked k' = 0 -> ~ own_set p' h' l /\ (own_set p h l \/ locked k = 0);
  sk_taken : locked k' <> 0 -> own_set p' h' l \/ (~ own_set p h l /\ locked k <> 0);
  sk_cpu : lk_cpu k' = Some i <-> l ∈ h';
  sk_cpu' j : j <> i -> lk_cpu k' = Some j -> lk_cpu k = Some j;
  sk_cpu'' j : j <> i -> lk_cpu k = Some j -> ~ own_set p h l -> lk_cpu k' = Some j;
  sk_once : NoDup h' /\ forall l', p' = Mark l' \/ p' = Store l' -> l' ∉ h' }.

Lemma holds_owns pcs hs i l : length pcs = length hs -> holds hs i l -> owns pcs hs i l.
Proof.
  intros Hl (h & Hh & Hin). destruct (lookup_lt_is_Some_2 pcs i) as [p Hp].
  { rewrite Hl. by eapply lookup_lt_Some. }
  exists p, h. split; [done|]. split; [done|]. by left.
Qed.

Lemma locks_step ls pcs hs i l k k' p p' h h' :
  locks_inv ls pcs hs -> length pcs = length hs ->
  pcs !! i = Some p -> hs !! i = Some h -> ls !! l = Some k ->
  step_ok i l k k' p p' h h' -> locks_inv (<[l := k']> ls) (<[i := p']> pcs) (<[i := h']> hs).
Proof.
  intros [B1 B2 B3 B0 B4 B5] Hl Hp Hh Hk [S1 S2 S3 S4 S5 S6 S7 S8].
  pose proof (lookup_lt_Some _ _ _ Hp) as Lp. pose proof (lookup_lt_Some _ _ _ Hh) as Lh.
  pose proof (lookup_lt_Some _ _ _ Hk) as Lk.
  assert (Hi : forall l', owns pcs hs i l' <-> own_set p h l') by (unfold owns; naive_solver).
  split.
  - intros l' k2 Hk2 Hz j Ho. rewrite owns_update in Ho by done. destruct (decide (l' = l)) as [->|Hne].
    + rewrite list_lookup_insert_eq in Hk2 by done. injection Hk2 as <-. destruct (S3 Hz) as [S3a [S3b|S3b]].
      * destruct Ho as [[-> Ho]|[Hj Ho]]; [done|]. apply Hj, (B3 j i l); [done|by apply Hi].
      * destruct Ho as [[-> Ho]|[Hj Ho]]; [done|]. by eapply B1.
    + rewrite list_lookup_insert_ne in Hk2 by done. apply (B1 l' k2 Hk2 Hz j).
      destruct Ho as [[-> Ho]|[Hj Ho]]; [|done]. apply Hi. by apply S1.
  - intros l' k2 Hk2 Hz. destruct (decide (l' = l)) as [->|Hne].
    + rewrite list_lookup_insert_eq in Hk2 by done. injection Hk2 as <-. destruct (S4 Hz) as [Ho|[Hn Ho]].
      * exists i. rewrite owns_update by done. by left.
      * destruct (B2 l k Hk Ho) as [j Hj]. exists j. rewrite owns_update by done. right. split; [|done].
        intros ->. by apply Hn, Hi.
    + rewrite list_lookup_insert_ne in Hk2 by done. destruct (B2 l' k2 Hk2 Hz) as [j Hj]. exists j.
      rewrite owns_update by done. destruct (decide (j = i)) as [->|]; [left|by right].
      split; [done|]. by apply S1, Hi.
  - intros j1 j2 l'. rewrite !owns_update by done.
    assert (Hx : forall j, own_set p' h' l' -> j <> i -> owns pcs hs j l' -> False).
    { intros j Ho Hj Hoj. destruct (decide (l' = l)) as [->|Hne].
      - destruct (S2 Ho) as [Ho'|Hz]; [by apply Hj, (B3 j i l), Hi|by eapply (B1 l k)].
      - apply Hj, (B3 j i l'); [done|]. by apply Hi, S1. }
    intros [[-> H1]|[H1 H1']] [[-> H2]|[H2 H2']]; [done|exfalso; by eapply Hx|exfalso; by eapply Hx|by eapply B3].
  - intros j l'. rewrite owns_update, length_insert by done. destruct (decide (l' = l)) as [->|Hne]; [done|].
    intros [[-> Ho]|[_ Ho]]; [|by eapply B0]. apply (B0 i), Hi. by apply S1.
  - intros j p2 h2 Hp2 Hh2. destruct (decide (j = i)) as [->|Hne].
    + rewrite list_lookup_insert_eq in Hp2 by done. rewrite list_lookup_insert_eq in Hh2 by done. injection Hp2 as <-. injection Hh2 as <-. done.
    + rewrite list_lookup_insert_ne in Hp2 by done. rewrite list_lookup_insert_ne in Hh2 by done. by eapply B4.
  - intros l' k2 j Hk2. rewrite holds_update by done. destruct (decide (l' = l)) as [->|Hne].
    + rewrite list_lookup_insert_eq in Hk2 by done. injection Hk2 as <-.
      destruct (decide (j = i)) as [->|Hj]; [naive_solver|]. split.
      * intros Hc. right. split; [done|]. apply (B5 l k j Hk), S6; done.
      * intros [[? _]|[_ Ho]]; [done|]. apply S7; [done|by apply (B5 l k j Hk)|].
        intros Hs. apply Hj, (B3 j i l); [by apply holds_owns|by apply Hi].
    + rewrite list_lookup_insert_ne in Hk2 by done. rewrite (B5 l' k2 j Hk2).
      destruct (decide (j = i)) as [->|Hj]; [|naive_solver]. specialize (S1 l' Hne).
      assert (Hh' : holds hs i l' <-> l' ∈ h) by (unfold holds; naive_solver). naive_solver.
Qed.
End Locks.

(** The CPUs: pushcli is counted once per lock taken, and interrupts are off
    meanwhile. *)
Record irq_inv (cs : list cpu) (ifs : gmap Z bool) (pcs : list pc) (hs : list (list nat)) : Prop := mkirq_inv {
  iq_ids : NoDup (apicid <$> cs);
  iq_pcs : length pcs = length cs;
  iq_hs : length hs = length cs;
  iq_ncli i c p h : cs !! i = Some c -> pcs !! i = Some p -> hs !! i = Some h ->
    ncli c = Z.of_nat (length h) + busy p;
  iq_if i c : cs !! i = Some c -> exists f, ifs !! apicid c = Some f /\ (0 < ncli c -> f = false) }.

Definition world_ok (w : world) : Prop :=
  locks_inv (locks (w_m w)) (w_pc w) (w_held w) /\ irq_inv (cpus (w_m w)) (m_if (w_m w)) (w_pc w) (w_held w).

Lemma apicid_inj cs i j c d : NoDup (apicid <$> cs) -> cs !! i = Some c -> cs !! j = Some d ->
  apicid c = apicid d -> i = j.
Proof.
  intros Hnd Hi Hj E. apply (NoDup_lookup (apicid <$> cs) i j (apicid c) Hnd).
  - by rewrite list_lookup_fmap, Hi.
  - by rewrite list_lookup_fmap, Hj, E.
Qed.

Lemma find_cpu_exists a l i c k : l !! i = Some c -> apicid c = a -> exists j, find_cpu a l k = Some j.
Proof.
  revert i k. induction l as [|d l IH]; intros i k Hi Ha; [done|]. cbn. destruct (Z.eqb_spec (apicid d) a); [by eexists|].
  destruct i as [|i]; [by injection Hi as ->|]. by apply (IH i).
Qed.

Lemma irq_here cs ifs ls pcs hs i c p h : irq_inv cs ifs pcs hs ->
  cs !! i = Some c -> pcs !! i = Some p -> hs !! i = Some h ->
  exists f, here (apicid c) (mkmach cs ls ifs) i c f.
Proof.
  intros [H1 H2 H3 H4 H5] Hc Hp Hh. destruct (H5 i c Hc) as (f & Hf & Ho). exists f.
  destruct (find_cpu_exists (apicid c) cs i c 0 Hc eq_refl) as [j Hj].
  destruct (find_cpu_alt _ _ _ _ Hj) as (j' & d & -> & Hd & E).
  assert (j' = i) as -> by (by apply (apicid_inj cs j' i d c)).
  split; try done. rewrite (H4 i c p h Hc Hp Hh). destruct p; cbn; lia.
Qed.

Lemma irq_step cs ifs pcs hs i c c' f' p' h' : irq_inv cs ifs pcs hs -> cs !! i = Some c ->
  apicid c' = apicid c -> ncli c' = Z.of_nat (length h') + busy p' -> (0 < ncli c' -> f' = false) ->
  irq_inv (<[i := c']> cs) (<[apicid c := f']> ifs) (<[i := p']> pcs) (<[i := h']> hs).
Proof.
  intros [H1 H2 H3 H4 H5] Hc Ea En Hf. pose proof (lookup_lt_Some _ _ _ Hc) as Hl.
  assert (Ei : apicid <$> <[i := c']> cs = apicid <$> cs).
  { rewrite list_fmap_insert, Ea. apply list_insert_id. by rewrite list_lookup_fmap, Hc. }
  split; rewrite ?Ei, ?length_insert; try done.
  - intros j d p h Hd Hp Hh. destruct (decide (j = i)) as [->|Hne].
    + rewrite list_lookup_insert_eq in Hd by lia. rewrite list_lookup_insert_eq in Hp by lia.
      rewrite list_lookup_insert_eq in Hh by lia. congruence.
    + rewrite list_lookup_insert_ne in Hd by done. rewrite list_lookup_insert_ne in Hp by done.
      rewrite list_lookup_insert_ne in Hh by done. by eapply H4.
  - intros j d Hd. destruct (decide (j = i)) as [->|Hne].
    + rewrite list_lookup_insert_eq in Hd by lia. injection Hd as <-. exists f'. rewrite Ea, lookup_insert_eq. done.
    + rewrite list_lookup_insert_ne in Hd by done. rewrite lookup_insert_ne; [by eapply H5|].
      intros E. apply Hne. by apply (apicid_inj cs j i d c).
Qed.

(** ** What the pieces of acquire and release do *)

Section Pieces.
Context (a : Z).

Lemma holding_missing m i c f l : here a m i c f -> locks m !! l = None -> holding a l m = Fault.
Proof.
  intros H Hk. pose proof (he_ncli _ _ _ _ _ H) as Hn. unfold holding. erewrite bind_ret by (by apply pushcli_ok).
  erewrite bind_ret by (eapply (mycpu_ok a _ i); eapply here_with; cbn; [done..|lia|done]).
  unfold deref, mbind, M_bind. cbn. by rewrite Hk.
Qed.

Lemma acquire_enter_inv m i c f l m' : here a m i c f -> acquire_enter a l m = Ret tt m' ->
  exists k ena, locks m !! l = Some k /\ ~ (locked k <> 0 /\ lk_cpu k = Some i) /\
    m' = with_cpu a m i (mkcpu (apicid c) (ncli c + 1) ena) false.
Proof.
  intros H. pose proof (he_ncli _ _ _ _ _ H) as Hn. unfold acquire_enter. erewrite bind_ret by (by apply pushcli_ok).
  set (c1 := mkcpu _ _ _).
  assert (H1 : here a (with_cpu a m i c1 false) i c1 false) by (eapply here_with; cbn; [done..|lia|done]).
  destruct (locks m !! l) as [k|] eqn:Hk.
  - erewrite bind_ret by (eapply (holding_inside a _ i c1 false l k); [done|cbn; lia|done]).
    destruct (decide (locked k <> 0 /\ lk_cpu k = Some i)) as [[Hl Hc]|Hn'].
    + rewrite (proj2 (Z.eqb_neq _ _) Hl), bool_decide_eq_true_2 by done. done.
    + assert (E : negb (locked k =? 0) && bool_decide (lk_cpu k = Some i) = false).
      { destruct (Z.eqb_spec (locked k) 0); [done|]. rewrite bool_decide_eq_false_2 by naive_solver. done. }
      rewrite E. intros [= <-]. by exists k, (intena c1).
  - unfold mbind, M_bind. by rewrite (holding_missing _ i c1 false).
Qed.

Lemma release_enter_inv m i c f l m' : here a m i c f -> release_enter a l m = Ret tt m' ->
  exists k ena, locks m !! l = Some k /\ locked k <> 0 /\ lk_cpu k = Some i /\
    m' = mkmach (<[i := mkcpu (apicid c) (ncli c) ena]> (cpus m)) (<[l := mklk (locked k) None]> (locks m)) (<[a := f]> (m_if m)).
Proof.
  intros H. unfold release_enter. destruct (locks m !! l) as [k|] eqn:Hk.
  - erewrite bind_ret by (by eapply (holding_ok a _ i c f l k)).
    destruct (Z.eqb_spec (locked k) 0), (bool_decide (lk_cpu k = Some i)) eqn:Eb; cbn; try done.
    intros [= <-]. apply bool_decide_eq_true in Eb. eexists k, _. split_and!; try done.
    unfold upd_lock. cbn. by erewrite alter_at.
  - unfold mbind, M_bind. by rewrite (holding_missing _ i c f).
Qed.
End Pieces.

Section Preserve.
Context (w : world) (HW : world_ok w).
Context (i : nat) (p : pc) (h : list nat) (Hp : w_pc w !! i = Some p) (Hh : w_held w !! i = Some h).

Lemma own_taken l k : locks (w_m w) !! l = Some k -> own_set p h l -> locked k <> 0.
Proof using HW Hp Hh. destruct HW as [HL _]. intros Hk Ho Hz. apply (lo_free _ _ _ HL l k Hk Hz i). by exists p, h. Qed.

Lemma cpu_held l k : locks (w_m w) !! l = Some k -> lk_cpu k = Some i <-> l ∈ h.
Proof using HW Hp Hh. destruct HW as [HL _]. intros Hk. rewrite (lo_cpu _ _ _ HL l k i Hk). unfold holds. naive_solver. Qed.

Lemma lens_eq : length (w_pc w) = length (w_held w).
Proof using HW. destruct HW as [_ HI]. by rewrite (iq_pcs _ _ _ _ HI), (iq_hs _ _ _ _ HI). Qed.

(** A step that changes neither what the CPU owns nor the lock's owner. *)
Lemma locks_keep l k v p' : locks (w_m w) !! l = Some k -> (v = 0 <-> locked k = 0) ->
  (forall l', ~ (p = Mark l' \/ p = Store l') /\ ~ (p' = Mark l' \/ p' = Store l')) ->
  locks_inv (<[l := mklk v (lk_cpu k)]> (locks (w_m w))) (<[i := p']> (w_pc w)) (<[i := h]> (w_held w)).
Proof using HW Hp Hh.
  intros Hk Hv Hp'. pose proof HW as [HL _].
  pose proof (own_taken l k Hk) as Ht. pose proof (cpu_held l k Hk) as Hc.
  destruct (lo_once _ _ _ HL i p h Hp Hh) as [Hnd _].
  assert (Ho : forall l', own_set p h l' <-> l' ∈ h) by (intros l'; specialize (Hp' l'); unfold own_set; tauto).
  assert (Ho' : forall l', own_set p' h l' <-> l' ∈ h) by (intros l'; specialize (Hp' l'); unfold own_set; tauto).
  eapply locks_step; [done|apply lens_eq|done..|]. rewrite Ho in Ht.
  split; cbn; intros; rewrite ?Ho, ?Ho' in *; try tauto; try (destruct (decide (l ∈ h)); tauto).
  split; [done|]. intros l' ?. by destruct (Hp' l').
Qed.

(** CPU [i] is where the table says, with the count of its locks. *)
Lemma world_at a : at_cpu i a w ->
  exists c f, cpus (w_m w) !! i = Some c /\ apicid c = a /\ here a (w_m w) i c f /\
    ncli c = Z.of_nat (length h) + busy p.
Proof using HW Hp Hh.
  pose proof HW as [HL HI].
  intros (c & Hc & <-). destruct (irq_here _ _ (locks (w_m w)) _ _ i c p h HI Hc Hp Hh) as [f Hf].
  exists c, f. destruct (w_m w). split_and!; try done. by eapply (iq_ncli _ _ _ _ HI).
Qed.
End Preserve.

Ltac nopc := let l' := fresh in intros l'; split; intros [?|?]; discriminate.

Lemma enter_preserves w i a l h m : world_ok w -> at_cpu i a w -> w_pc w !! i = Some Idle -> w_held w !! i = Some h ->
  acquire_enter a l (w_m w) = Ret tt m -> world_ok (goto i (Spin l) h m w).
Proof.
  intros HW Ha Hp Hh R. destruct (world_at w HW i _ h Hp Hh a Ha) as (c & f & Hc & <- & Hf & Hn).
  destruct (acquire_enter_inv _ _ i c f l m Hf R) as (k & ena & Hk & Hno & ->). cbn [busy] in Hn.
  split; cbn.
  - rewrite <- (list_insert_id _ _ _ Hk). destruct k as [v o]. by eapply (locks_keep w HW i Idle h Hp Hh l (mklk v o)); [|done|nopc].
  - destruct HW as [_ HI]. apply irq_step; cbn; try done; lia.
Qed.

(** The lock part of a step that changes what the CPU owns. *)
Ltac lock_step HW Hp Hh Hk :=
  let HL := fresh "HL" in let Hnd := fresh "Hnd" in
  pose proof HW as [HL _]; pose proof (own_taken _ HW _ _ _ Hp Hh _ _ Hk) as Ht;
  pose proof (cpu_held _ HW _ _ _ Hp Hh _ _ Hk) as Hcpu;
  destruct (lo_once _ _ _ HL _ _ _ Hp Hh) as [Hnd Hnin];
  eapply locks_step; [exact HL|by apply lens_eq|exact Hp|exact Hh|exact Hk|]; unfold own_set in Ht.

Lemma spin_preserves w i a l h v m : world_ok w -> at_cpu i a w -> w_pc w !! i = Some (Spin l) -> w_held w !! i = Some h ->
  xchg l 1 (w_m w) = Ret v m -> world_ok (goto i (if v =? 0 then Mark l else Spin l) h m w).
Proof.
  intros HW Ha Hp Hh R. destruct (world_at w HW i _ h Hp Hh a Ha) as (c & f & Hc & <- & Hf & Hn).
  unfold xchg in R. apply bind_inv in R as (k & s1 & R1 & R). unfold deref in R1.
  destruct (locks (w_m w) !! l) as [k0|] eqn:Hk; [|done]. injection R1 as -> <-.
  erewrite bind_ret in R by reflexivity. injection R as <- <-. unfold upd_lock. rewrite (alter_at _ _ _ k) by done.
  split; cbn.
  - destruct (Z.eqb_spec (locked k) 0) as [Hz|Hz]; [|by eapply (locks_keep w HW i (Spin l) h); [..|nopc]].
    lock_step HW Hp Hh Hk. split; unfold own_set; cbn; try tauto.
    + intros l' Hl. assert (Mark l <> Mark l' /\ Spin l <> Mark l' /\ Spin l <> Store l' /\ Mark l <> Store l') by (split_and!; congruence). tauto.
    + done.
    + split; [done|]. intros l' [[= ->]|?]; [|done]. tauto.
  - destruct HW as [_ HI]. rewrite <- (list_insert_id _ _ _ Hc), <- (insert_id _ _ _ (he_if _ _ _ _ _ Hf)).
    apply irq_step; try done; [|apply (he_off _ _ _ _ _ Hf)]. rewrite Hn. by destruct (locked k =? 0).
Qed.

(** The CPU part of a step that leaves the CPU's entry alone. *)
Lemma irq_keep w i c f p' h' : world_ok w -> cpus (w_m w) !! i = Some c -> here (apicid c) (w_m w) i c f ->
  ncli c = Z.of_nat (length h') + busy p' ->
  irq_inv (cpus (w_m w)) (m_if (w_m w)) (<[i := p']> (w_pc w)) (<[i := h']> (w_held w)).
Proof.
  intros [_ HI] Hc Hf Hn. rewrite <- (list_insert_id _ _ _ Hc) at 1. rewrite <- (insert_id _ _ _ (he_if _ _ _ _ _ Hf)).
  apply irq_step; try done. apply (he_off _ _ _ _ _ Hf).
Qed.

Lemma mark_preserves w i a l h m : world_ok w -> at_cpu i a w -> w_pc w !! i = Some (Mark l) -> w_held w !! i = Some h ->
  acquire_mark a l (w_m w) = Ret tt m -> world_ok (goto i Idle (l :: h) m w).
Proof.
  intros HW Ha Hp Hh R. destruct (world_at w HW i _ h Hp Hh a Ha) as (c & f & Hc & <- & Hf & Hn). cbn [busy] in Hn.
  assert (f = false) as -> by (apply (he_off _ _ _ _ _ Hf); lia).
  unfold acquire_mark in R. erewrite bind_ret in R by (by apply (mycpu_ok _ _ i c)). injection R as <-. split; cbn.
  - destruct (lookup_lt_is_Some_2 (locks (w_m w)) l) as [k Hk].
    { destruct HW as [HL _]. apply (lo_in _ _ _ HL i). exists (Mark l), h. split; [done|]. split; [done|]. right. by left. }
    rewrite (alter_at _ _ _ k) by done. lock_step HW Hp Hh Hk.
    split; unfold own_set; cbn; rewrite ?elem_of_cons; try tauto.
    + intros l' Hl. rewrite elem_of_cons. assert (Mark l <> Mark l' /\ Mark l <> Store l' /\ Idle <> Mark l' /\ Idle <> Store l') by (split_and!; congruence). tauto.
    + intros j Hj [= E]. by subst.
    + split; [|intros l' [?|?]; done]. constructor; [|done]. apply Hnin. by left.
  - eapply irq_keep; [done..|]. cbn. lia.
Qed.

Lemma filter_absent (l : nat) (h : list nat) : l ∉ h -> filter (.≠ l) h = h.
Proof.
  induction h as [|x h IH]; intros Hn; [done|]. apply not_elem_of_cons in Hn as [Hx Hn].
  rewrite filter_cons_True by (intros ->; done). by rewrite IH.
Qed.

Lemma length_remove (l : nat) (h : list nat) : NoDup h -> l ∈ h -> length h = S (length (filter (.≠ l) h)).
Proof.
  induction h as [|x h IH]; intros Hnd Hin; [by apply elem_of_nil in Hin|]. apply NoDup_cons in Hnd as [Hx Hnd].
  destruct (decide (x = l)) as [->|Hne].
  - rewrite filter_cons_False by tauto. by rewrite filter_absent.
  - rewrite filter_cons_True by done. cbn. f_equal. apply IH; [done|]. apply elem_of_cons in Hin as [->|?]; done.
Qed.

Lemma leave_preserves w i a l h m : world_ok w -> at_cpu i a w -> w_pc w !! i = Some Idle -> w_held w !! i = Some h ->
  release_enter a l (w_m w) = Ret tt m -> world_ok (goto i (Store l) (filter (.≠ l) h) m w).
Proof.
  intros HW Ha Hp Hh R. destruct (world_at w HW i _ h Hp Hh a Ha) as (c & f & Hc & <- & Hf & Hn). cbn [busy] in Hn.
  destruct (release_enter_inv _ _ i c f l m Hf R) as (k & ena & Hk & Hl & Hcpu' & ->).
  assert (Hin : l ∈ h) by (by apply (cpu_held w HW i Idle h Hp Hh l k Hk)).
  assert (Hlen : length h = S (length (filter (.≠ l) h))).
  { destruct HW as [HL _]. destruct (lo_once _ _ _ HL i _ h Hp Hh) as [Hnd _]. by apply length_remove. }
  split; cbn.
  - lock_step HW Hp Hh Hk. split; unfold own_set; cbn; rewrite ?list_elem_of_filter; try tauto; try done.
    + intros l' Hl'. rewrite list_elem_of_filter. assert (Store l <> Store l' /\ Store l <> Mark l' /\ Idle <> Mark l' /\ Idle <> Store l') by (split_and!; congruence). tauto.
    + split; [done|tauto].
    + split; [by apply NoDup_filter|]. intros l' [?|[= ->]]; [done|]. rewrite list_elem_of_filter. tauto.
  - destruct HW as [_ HI]. apply irq_step; cbn; try done; [lia|apply (he_off _ _ _ _ _ Hf)].
Qed.

Lemma store_preserves w i a l h m : world_ok w -> at_cpu i a w -> w_pc w !! i = Some (Store l) -> w_held w !! i = Some h ->
  release_store l (w_m w) = Ret tt m -> world_ok (goto i Pop h m w).
Proof.
  intros HW Ha Hp Hh R. destruct (world_at w HW i _ h Hp Hh a Ha) as (c & f & Hc & <- & Hf & Hn). cbn [busy] in Hn.
  injection R as <-. split; cbn.
  - destruct (lookup_lt_is_Some_2 (locks (w_m w)) l) as [k Hk].
    { destruct HW as [HL _]. apply (lo_in _ _ _ HL i). exists (Store l), h. split; [done|]. split; [done|]. right. by right. }
    rewrite (alter_at _ _ _ k) by done. lock_step HW Hp Hh Hk. specialize (Hnin l (or_intror eq_refl)).
    assert (Pop <> Mark l /\ Pop <> Store l) by (split; congruence).
    split; unfold own_set; cbn; try tauto.
    + intros l' Hl'. assert (Store l <> Store l' /\ Store l <> Mark l' /\ Pop <> Mark l' /\ Pop <> Store l') by (split_and!; congruence). tauto.
    + split; [done|]. by intros l' [?|?].
  - by eapply irq_keep.
Qed.

Lemma pop_preserves w i a h m : world_ok w -> at_cpu i a w -> w_pc w !! i = Some Pop -> w_held w !! i = Some h ->
  popcli a (w_m w) = Ret tt m -> world_ok (goto i Idle h m w).
Proof.
  intros HW Ha Hp Hh R. destruct (world_at w HW i _ h Hp Hh a Ha) as (c & f & Hc & <- & Hf & Hn). cbn [busy] in Hn.
  rewrite (popcli_ok _ _ i c f) in R by (done || lia). injection R as <-. split; cbn.
  - pose proof HW as [[B1 B2 B3 B0 B4 B5] _]. pose proof (lens_eq w HW) as Hl.
    pose proof (lookup_lt_Some _ _ _ Hp) as Lp. pose proof (lookup_lt_Some _ _ _ Hh) as Lh.
    rewrite (list_insert_id (w_held w)) by done.
    assert (Ho : forall j l, owns (<[i := Idle]> (w_pc w)) (w_held w) j l <-> owns (w_pc w) (w_held w) j l).
    { intros j l. rewrite <- (list_insert_id (w_held w) i h) at 1 by done. rewrite owns_update by done.
      destruct (decide (j = i)) as [->|]; [|tauto].
      assert (owns (w_pc w) (w_held w) i l <-> own_set Pop h l) as -> by (unfold owns; naive_solver).
      unfold own_set. assert (Idle <> Mark l /\ Idle <> Store l /\ Pop <> Mark l /\ Pop <> Store l) by (split_and!; congruence). tauto. }
    split.
    + intros l k Hk Hz j. rewrite Ho. by eapply B1.
    + intros l k Hk Hz. destruct (B2 l k Hk Hz) as [j Hj]. exists j. by rewrite Ho.
    + intros j1 j2 l. rewrite !Ho. apply B3.
    + intros j l. rewrite Ho. apply B0.
    + intros j p h2 Hp2 Hh2. destruct (decide (j = i)) as [->|Hne].
      * rewrite list_lookup_insert_eq in Hp2 by done. injection Hp2 as <-.
        destruct (B4 i Pop h2 Hp Hh2) as [? _]. split; [done|]. by intros l [?|?].
      * rewrite list_lookup_insert_ne in Hp2 by done. by eapply B4.
    + done.
  - destruct HW as [_ HI]. apply irq_step; cbn; try done; [lia|].
    intros. apply andb_false_iff. left. apply Z.eqb_neq. lia.
Qed.

Lemma flag_preserves w i c b : world_ok w -> cpus (w_m w) !! i = Some c -> ncli c = 0 ->
  world_ok (mkw (set_if (apicid c) b (w_m w)) (w_pc w) (w_held w)).
Proof.
  intros [HL HI] Hc Hn. split; cbn; [done|].
  destruct (lookup_lt_is_Some_2 (w_pc w) i) as [p Hp]; [rewrite (iq_pcs _ _ _ _ HI); by eapply lookup_lt_Some|].
  destruct (lookup_lt_is_Some_2 (w_held w) i) as [h Hh]; [rewrite (iq_hs _ _ _ _ HI); by eapply lookup_lt_Some|].
  rewrite <- (list_insert_id (w_pc w) i p), <- (list_insert_id (w_held w) i h) by done.
  rewrite <- (list_insert_id (cpus (w_m w)) i c) by done.
  apply irq_step; try done; [by eapply (iq_ncli _ _ _ _ HI)|lia].
Qed.

Lemma lstep_ok w w' : world_ok w -> lstep w w' -> world_ok w'.
Proof.
  intros HW Hs. destruct Hs.
  - by eapply enter_preserves.
  - by eapply spin_preserves.
  - by eapply mark_preserves.
  - by eapply leave_preserves.
  - by eapply store_preserves.
  - by eapply pop_preserves.
  - by eapply flag_preserves.
Qed.

(** A machine on which initlock has been called for every lock. *)
Record booted (w : world) : Prop := mkbooted {
  bo_locks : Forall (eq (mklk 0 None)) (locks (w_m w));
  bo_ids : NoDup (apicid <$> cpus (w_m w));
  bo_ncli : Forall (fun c => ncli c = 0 /\ is_Some (m_if (w_m w) !! apicid c)) (cpus (w_m w));
  bo_pcs : w_pc w = replicate (length (cpus (w_m w))) Idle;
  bo_held : w_held w = replicate (length (cpus (w_m w))) [] }.

Lemma booted_ok w : booted w -> world_ok w.
Proof.
  intros [H1 H2 H3 H4 H5].
  assert (Hno : forall i l, ~ owns (w_pc w) (w_held w) i l).
  { intros i l (p & h & Hp & Hh & Ho). rewrite H4 in Hp. rewrite H5 in Hh.
    apply lookup_replicate in Hp as [-> _]. apply lookup_replicate in Hh as [-> _].
    destruct Ho as [Ho|[?|?]]; [by apply elem_of_nil in Ho|done..]. }
  assert (Hlk : forall l k, locks (w_m w) !! l = Some k -> k = mklk 0 None).
  { intros l k Hk. by rewrite (Forall_lookup_1 _ _ _ _ H1 Hk). }
  split; split.
  - intros l k _ _ i. apply Hno.
  - intros l k Hk Hz. by rewrite (Hlk l k Hk) in Hz.
  - intros i j l Ho. destruct (Hno i l Ho).
  - intros i l Ho. destruct (Hno i l Ho).
  - intros i p h Hp Hh. rewrite H4 in Hp. rewrite H5 in Hh. apply lookup_replicate in Hp as [-> _].
    apply lookup_replicate in Hh as [-> _]. split; [constructor|]. by intros l [?|?].
  - intros l k i Hk. rewrite (Hlk l k Hk). split; [done|]. intros Hh. exfalso. apply (Hno i l).
    apply holds_owns; [|done]. by rewrite H4, H5, !length_replicate.
  - done.
  - by rewrite H4, length_replicate.
  - by rewrite H5, length_replicate.
  - intros i c p h Hc Hp Hh. rewrite H4 in Hp. rewrite H5 in Hh. apply lookup_replicate in Hp as [-> _].
    apply lookup_replicate in Hh as [-> _]. apply (Forall_lookup_1 _ _ _ _ H3 Hc).
  - intros i c Hc. destruct (Forall_lookup_1 _ _ _ _ H3 Hc) as [Hn [f Hf]]. exists f. split; [done|]. lia.
Qed.

(** C6: Spin locks exclude: however the CPUs' steps through acquire and
    release interleave from boot, no two CPUs hold the same lock; holding()
    answers, on every CPU and for every lock, exactly whether that CPU holds
    it, so acquire panics only on a lock its own CPU holds and release only
    on one it does not; and a CPU that holds a lock has interrupts off. *)
Theorem spinlock_mutual_exclusion (w w' : world) :
  booted w -> rtc lstep w w' ->
  (forall i j l, holds (w_held w') i l -> holds (w_held w') j l -> i = j) /\
  (forall i c l, cpus (w_m w') !! i = Some c -> (l < length (locks (w_m w')))%nat ->
    exists b m, holding (apicid c) l (w_m w') = Ret b m /\ (b = true <-> holds (w_held w') i l)) /\
  (forall i c l, cpus (w_m w') !! i = Some c -> holds (w_held w') i l -> m_if (w_m w') !! apicid c = Some false).
Proof.
  intros Hb Hr. assert (HW : world_ok w').
  { apply booted_ok in Hb. induction Hr as [|x y z Hxy _ IH]; [done|]. by apply IH, (lstep_ok x). }
  pose proof HW as [HL HI]. pose proof (lens_eq w' HW) as Hlen. split_and!.
  - intros i j l H1 H2. by apply (lo_one _ _ _ HL i j l); apply holds_owns.
  - intros i c l Hc Hl. destruct (lookup_lt_is_Some_2 _ _ Hl) as [k Hk].
    destruct (lookup_lt_is_Some_2 (w_pc w') i) as [p Hp]; [rewrite (iq_pcs _ _ _ _ HI); by eapply lookup_lt_Some|].
    destruct (lookup_lt_is_Some_2 (w_held w') i) as [h Hh]; [rewrite (iq_hs _ _ _ _ HI); by eapply lookup_lt_Some|].
    destruct (world_at w' HW i p h Hp Hh (apicid c)) as (c' & f & Hc' & _ & Hf & _); [by exists c|].
    eexists _, _. split; [by eapply holding_ok|]. rewrite <- (lo_cpu _ _ _ HL l k i Hk).
    rewrite andb_true_iff, bool_decide_eq_true, negb_true_iff, Z.eqb_neq. split; [tauto|]. intros E. split; [|done].
    intros Hz. apply (lo_free _ _ _ HL l k Hk Hz i). apply holds_owns; [done|]. by apply (lo_cpu _ _ _ HL l k i Hk).
  - intros i c l Hc (h & Hh & Hin).
    destruct (lookup_lt_is_Some_2 (w_pc w') i) as [p Hp]; [rewrite (iq_pcs _ _ _ _ HI); by eapply lookup_lt_Some|].
    destruct (iq_if _ _ _ _ HI i c Hc) as (f & -> & Ho). f_equal. apply Ho. rewrite (iq_ncli _ _ _ _ HI i c p h) by done.
    destruct h; [by apply elem_of_nil in Hin|]. destruct p; cbn; lia.
Qed.

(** Two CPUs and a lock: the first takes it, the second spins. *)
Definition demo_world : world :=
  mkw (mkmach [mkcpu 0 0 false; mkcpu 4 0 false] [mklk 0 None] {[0 := true; 4 := true]}) [Idle; Idle] [[]; []].

Lemma demo_booted : booted demo_world.
Proof.
  split; cbn; try done; [by repeat constructor| |].
  - by apply (bool_decide_unpack _), I.
  - repeat constructor; by eexists.
Qed.

Lemma spinlock_mutual_exclusion_witness : exists m p,
  rtc lstep demo_world (mkw m p [[0%nat]; []]) /\ p !! 1%nat = Some (Spin 0) /\
  (exists b m', holding 4 0 m = Ret b m' /\ (b = true <-> holds [[0%nat]; []] 1 0)) /\
  m_if m !! 0 = Some false.
Proof.
  assert (H : exists m p, p !! 1%nat = Some (Spin 0) /\ rtc lstep demo_world (mkw m p [[0%nat]; []]) /\
    cpus m !! 0%nat = Some (mkcpu 0 1 true) /\ cpus m !! 1%nat = Some (mkcpu 4 1 true) /\ length (locks m) = 1%nat).
  { eexists _, _. split; [|split; [|split; [|split]]]; cycle 1.
    - eapply rtc_l; [eapply (st_enter 0 0 0); [by eexists|reflexivity..]|].
      eapply rtc_l; [eapply (st_enter 1 4 0); [by eexists|reflexivity..]|].
      eapply rtc_l; [eapply (st_spin 0 0 0); [by eexists|reflexivity..]|].
      eapply rtc_l; [eapply (st_spin 1 4 0); [by eexists|reflexivity..]|].
      eapply rtc_l; [eapply (st_mark 0 0 0); [by eexists|reflexivity..]|]. apply rtc_refl.
    - reflexivity.
    - reflexivity.
    - reflexivity.
    - reflexivity. }
  destruct H as (m & p & Hp & Hr & H0 & H1 & Hl).
  destruct (spinlock_mutual_exclusion demo_world _ demo_booted Hr) as (_ & E2 & E3).
  exists m, p. split; [exact Hr|]. split; [exact Hp|]. split.
  - apply (E2 1%nat _ 0%nat H1). cbn. rewrite Hl. constructor.
  - apply (E3 0%nat _ 0%nat H0). exists [0%nat]. split; [reflexivity|]. by apply elem_of_cons; left.
Defined.
