(* ===== verification/Console.v ===== *)
(** * The console: console.c, with uartputc of uart.c and kbdintr of kbd.c

    [cst] is the console's state: the input ring with its three free-running
    indices, the screen memory and the cursor register, what has been sent to
    the serial port, and the process table.  consoleread and consolewrite
    are modelled under cons.lock here; File.v adds the inode's lock around
    them.  The theorems: the screen driver stays inside the screen and
    scrolls, and the input side is a line editor with a bounded queue of
    complete lines. *)

From stdpp Require Import base list list_numbers strings.
From Stdlib Require Import ZArith Lia.
From S2P Require Import Prelude Proc Format Kbd.

Local Open Scope Z_scope.

Definition INPUT_BUF : Z := 128.
Definition BACKSPACE : Z := 256.

Record cst : Type := mkcst {
  in_buf : list Z;            (* input.buf *)
  in_r : Z; in_w : Z; in_e : Z;
  crt : list Z;               (* CGA memory: 25 rows of 80 cells *)
  crt_pos : Z;                (* the cursor register *)
  uart : bool;                (* is there a uart? *)
  serial : list Z;            (* bytes sent to it *)
  panicked : bool;
  c_proc : pst }.

Definition set_inbuf (x : list Z) (s : cst) : cst :=
  mkcst x (in_r s) (in_w s) (in_e s) (crt s) (crt_pos s) (uart s) (serial s) (panicked s) (c_proc s).
Definition set_r (x : Z) (s : cst) : cst :=
  mkcst (in_buf s) x (in_w s) (in_e s) (crt s) (crt_pos s) (uart s) (serial s) (panicked s) (c_proc s).
Definition set_w (x : Z) (s : cst) : cst :=
  mkcst (in_buf s) (in_r s) x (in_e s) (crt s) (crt_pos s) (uart s) (serial s) (panicked s) (c_proc s).
Definition set_e (x : Z) (s : cst) : cst :=
  mkcst (in_buf s) (in_r s) (in_w s) x (crt s) (crt_pos s) (uart s) (serial s) (panicked s) (c_proc s).
Definition set_crt (x : list Z) (s : cst) : cst :=
  mkcst (in_buf s) (in_r s) (in_w s) (in_e s) x (crt_pos s) (uart s) (serial s) (panicked s) (c_proc s).
Definition set_pos (x : Z) (s : cst) : cst :=
  mkcst (in_buf s) (in_r s) (in_w s) (in_e s) (crt s) x (uart s) (serial s) (panicked s) (c_proc s).
Definition set_serial (x : list Z) (s : cst) : cst :=
  mkcst (in_buf s) (in_r s) (in_w s) (in_e s) (crt s) (crt_pos s) (uart s) x (panicked s) (c_proc s).
Definition set_cproc (x : pst) (s : cst) : cst :=
  mkcst (in_buf s) (in_r s) (in_w s) (in_e s) (crt s) (crt_pos s) (uart s) (serial s) (panicked s) x.

Definition cprocs {A} (m : M pst A) : M cst A := zoom c_proc set_cproc m.

(** ** Output *)

(** A store [crt[i] = v]; outside the screen it is a fault. *)
Definition crt_store (i v : Z) : M cst unit := fun s =>
  if (0 <=? i) && (i <? Z.of_nat (length (crt s)))
  then Ret tt (set_crt (<[Z.to_nat i := v]> (crt s)) s) else Fault.

Definition uartputc (c : Z) : M cst unit :=
  modify (fun s => if uart s then set_serial (serial s ++ [u8 c]) s else s).

(** memmove(crt, crt+80, sizeof(crt[0])*23*80) and
    memset(crt+pos, 0, sizeof(crt[0])*(24*80 - pos)). *)
Definition scroll (pos : Z) (l : list Z) : list Z :=
  write_at (write_at l 0 (read_at l 80 1840)) (Z.to_nat pos) (replicate (Z.to_nat (1920 - pos)) 0).

Definition cgaputc (c : Z) : M cst unit :=
  pos ← gets crt_pos;
  pos ← (if c =? 10 then mret (pos + (80 - Z.rem pos 80))
         else if c =? BACKSPACE then mret (if 0 <? pos then pos - 1 else pos)
         else crt_store pos (Z.lor (Z.land c 255) 1792) ;; mret (pos + 1));
  if (pos <? 0) || (2000 <? pos) then panic "pos under/overflow" else
  pos ← (if 24 <=? pos / 80
         then modify (fun s => set_crt (scroll (pos - 80) (crt s)) s) ;; mret (pos - 80)
         else mret pos);
  modify (set_pos (u16 pos)) ;;
  crt_store pos (Z.lor 32 1792).

(** After a panic the other CPUs spin here forever. *)
Definition consputc (c : Z) : M cst unit :=
  p ← gets panicked;
  if p : bool then nofuel else
  (if c =? BACKSPACE then uartputc 8 ;; uartputc 32 ;; uartputc 8 else uartputc c) ;;
  cgaputc c.

Fixpoint putall (l : list Z) : M cst unit :=
  match l with
  | [] => mret tt
  | c :: l' => consputc c ;; putall l'
  end.

Definition printint (xx base : Z) (sign : bool) : M cst unit :=
  o ← deref (fun _ => kprintint xx base sign); putall o.

(** cprintf(fmt, ...); the directives %d, %x, %p, %s and %%. *)
Fixpoint cprintf (fmt : list Z) (argp : list varg) : M cst unit :=
  match fmt with
  | [] => mret tt
  | f :: fmt1 =>
    let c := Z.land f 255 in
    if c =? 0 then mret tt
    else if negb (c =? 37) then consputc c ;; cprintf fmt1 argp
    else
      match fmt1 with
      | [] => mret tt
      | f2 :: fmt2 =>
        let c := Z.land f2 255 in
        if c =? 0 then mret tt
        else if c =? 100 then
          match argp with
          | AWord w :: a => printint (i32 w) 10 true ;; cprintf fmt2 a
          | _ => fault
          end
        else if (c =? 120) || (c =? 112) then
          match argp with
          | AWord w :: a => printint (i32 w) 16 false ;; cprintf fmt2 a
          | _ => fault
          end
        else if c =? 115 then
          match argp with
          | AStr s :: a => putall (default null_str s) ;; cprintf fmt2 a
          | _ => fault
          end
        else if c =? 37 then consputc 37 ;; cprintf fmt2 argp
        else consputc 37 ;; consputc c ;; cprintf fmt2 argp
      end
  end.

(** ** Input *)

Definition slot (i : Z) : nat := Z.to_nat (i mod INPUT_BUF).

(** The ^U loop: [while(input.e != input.w && ...)]. *)
Fixpoint kill_line (fuel : nat) : M cst unit :=
  match fuel with
  | O => nofuel
  | S f =>
    e ← gets in_e; w ← gets in_w;
    if e =? w then mret tt else
    b ← deref (fun s => in_buf s !! slot (u32 (e - 1)));
    if b =? 10 then mret tt else
    modify (set_e (u32 (e - 1))) ;; consputc BACKSPACE ;; kill_line f
  end.

(** The default case of consoleintr's switch, the character being accepted. *)
Definition accept (c e r : Z) : M cst unit :=
  modify (fun s => set_inbuf (<[slot e := u8 c]> (in_buf s)) s) ;;
  modify (set_e (u32 (e + 1))) ;;
  consputc c ;;
  if (c =? 10) || (c =? 4) || (u32 (e + 1) =? u32 (r + INPUT_BUF)) then
    modify (fun s => set_w (in_e s) s) ;; cprocs (wakeup ChInput)
  else mret tt.

(** The switch of consoleintr on one character; the result says whether a
    process listing was asked for. *)
Definition consoleintr_char (c : Z) : M cst bool :=
  if c =? 16 then mret true
  else if c =? 21 then kill_line 200 ;; mret false
  else if (c =? 8) || (c =? 127) then
    e ← gets in_e; w ← gets in_w;
    (if negb (e =? w) then modify (set_e (u32 (e - 1))) ;; consputc BACKSPACE else mret tt) ;;
    mret false
  else
    e ← gets in_e; r ← gets in_r;
    (if negb (c =? 0) && (u32 (e - r) <? INPUT_BUF) then
       accept (if c =? 13 then 10 else c) e r
     else mret tt) ;;
    mret false.

(** consoleintr(getc): the characters getc returns until it is negative. *)
Fixpoint consoleintr_loop (cs : list Z) (dump : bool) : M cst bool :=
  match cs with
  | [] => mret dump
  | c :: cs' =>
    if c <? 0 then mret dump else
    d ← consoleintr_char c; consoleintr_loop cs' (dump || d)
  end.

Definition consoleintr (cs : list Z) : M cst bool := consoleintr_loop cs false.

(** kbdintr: consoleintr(kbdgetc), on the scan codes the port holds. *)
Definition kbdintr (shift : Z) (codes : list Z) : M cst (bool * Z) :=
  '(cs, shift') ← deref (fun _ => kbd_chars shift codes);
  d ← consoleintr cs; mret (d, shift').

(** consoleread under cons.lock, [n] of the [target] bytes still to be read;
    the bytes stored at [dst] and what the call returns, or [Wait n] when it
    sleeps. *)
Fixpoint consoleread_from (target : Z) (n : nat) : M cst (list Z * progress Z) :=
  match n with
  | O => mret ([], Done (i32 (target - Z.of_nat n)))
  | S n' =>
    r ← gets in_r; w ← gets in_w;
    if r =? w then
      k ← cprocs my_killed;
      if k : bool then mret ([], Done (-1))
      else cprocs (sleep_mark ChInput) ;; mret ([], Wait n)
    else
      c ← deref (fun s => in_buf s !! slot r);
      modify (set_r (u32 (r + 1))) ;;
      if c =? 4 then
        (if Z.of_nat n <? target then modify (fun s => set_r (u32 (in_r s - 1)) s) else mret tt) ;;
        mret ([], Done (i32 (target - Z.of_nat n)))
      else if c =? 10 then mret ([c], Done (i32 (target - Z.of_nat n')))
      else '(l, res) ← consoleread_from target n'; mret (c :: l, res)
  end.

Definition consoleread_buf (n : nat) : M cst (list Z * progress Z) := consoleread_from (Z.of_nat n) n.

(** consolewrite under cons.lock. *)
Definition consolewrite_buf (buf : list Z) : M cst Z :=
  putall ((fun b => Z.land b 255) <$> buf) ;; mret (Z.of_nat (length buf)).

(** ** The screen *)

Record screen_ok (s : cst) : Prop := mkscreen_ok {
  so_len : length (crt s) = 2000%nat;
  so_pos : 0 <= crt_pos s < 1920;
  so_live : panicked s = false }.

(** Nothing but the screen and the serial line has changed. *)
Definition same_input (s s' : cst) : Prop :=
  in_buf s' = in_buf s /\ in_r s' = in_r s /\ in_w s' = in_w s /\ in_e s' = in_e s /\
  c_proc s' = c_proc s /\ uart s' = uart s.

(** The cells with [c] put at the cursor, and where the cursor goes. *)
Definition put_cell (c : Z) (s : cst) : list Z :=
  if (c =? 10) || (c =? BACKSPACE) then crt s else <[Z.to_nat (crt_pos s) := Z.lor (Z.land c 255) 1792]> (crt s).
Definition next_pos (c : Z) (s : cst) : Z :=
  if c =? 10 then (crt_pos s / 80 + 1) * 80
  else if c =? BACKSPACE then Z.max 0 (crt_pos s - 1) else crt_pos s + 1.

(** The screen after [l], the cursor moving to [p]: scrolled by a row when
    the cursor leaves row 23, with a blank under the cursor. *)
Definition screen_shows (l : list Z) (p : Z) (s' : cst) : Prop :=
  let scrolled := 1920 <=? p in
  crt_pos s' = (if scrolled then 1840 else p) /\
  forall i, (i < 1920)%nat -> crt s' !!! i =
    if decide (Z.of_nat i = crt_pos s') then Z.lor 32 1792
    else if scrolled then (if decide (i < 1840)%nat then l !!! (i + 80)%nat else 0) else l !!! i.

Lemma crt_store_ok s i v :
  length (crt s) = 2000%nat -> 0 <= i < 2000 -> crt_store i v s = Ret tt (set_crt (<[Z.to_nat i := v]> (crt s)) s).
Proof.
  intros Hl Hi. unfold crt_store. rewrite Hl. change (Z.of_nat 2000) with 2000.
  destruct (Z.leb_spec 0 i), (Z.ltb_spec i 2000); done || lia.
Qed.

Lemma lookup_total_write_at_other d o l i :
  (i < o \/ o + length l <= i)%nat -> write_at d o l !!! i = d !!! i.
Proof. intros. by rewrite !list_lookup_total_alt, lookup_write_at_other. Qed.

Lemma lookup_total_write_at_in d o l i :
  (o + length l <= length d)%nat -> (o <= i < o + length l)%nat -> write_at d o l !!! i = l !!! (i - o)%nat.
Proof.
  intros. rewrite !list_lookup_total_alt. replace i with (o + (i - o))%nat at 1 by lia.
  rewrite lookup_write_at_in by lia. done.
Qed.

Lemma scroll_ok l i :
  length l = 2000%nat -> (i < 1920)%nat ->
  scroll 1840 l !!! i = if decide (i < 1840)%nat then l !!! (i + 80)%nat else 0.
Proof.
  intros Hl Hi. unfold scroll. change (Z.to_nat 1840) with 1840%nat. change (Z.to_nat (1920 - 1840)) with 80%nat.
  assert (Hr : length (read_at l 80 1840) = 1840%nat) by (apply length_read_at; lia).
  case_decide.
  - rewrite lookup_total_write_at_other by (rewrite length_replicate; lia).
    rewrite lookup_total_write_at_in by lia. rewrite Nat.sub_0_r. unfold read_at.
    rewrite list_lookup_total_alt, lookup_take_lt, lookup_drop by lia. by rewrite (Nat.add_comm 80), list_lookup_total_alt.
  - rewrite lookup_total_write_at_in by (rewrite ?length_write_at, ?length_replicate; lia).
    apply lookup_total_replicate_2. lia.
Qed.

Lemma cgaputc_ok c s : screen_ok s ->
  exists s', cgaputc c s = Ret tt s' /\ screen_ok s' /\ same_input s s' /\ serial s' = serial s /\
    screen_shows (put_cell c s) (next_pos c s) s'.
Proof.
  intros [Hl Hp Hv]. unfold cgaputc. erewrite bind_ret by reflexivity.
  set (pos := crt_pos s) in *. set (l := put_cell c s).
  assert (Hl' : length l = 2000%nat) by (subst l; unfold put_cell; destruct (_ || _); [|rewrite length_insert]; done).
  assert (E1 : (if c =? 10 then mret (pos + (80 - Z.rem pos 80))
     else if c =? BACKSPACE then mret (if 0 <? pos then pos - 1 else pos)
     else crt_store pos (Z.lor (Z.land c 255) 1792) ;; mret (pos + 1)) s = Ret (next_pos c s) (set_crt l s)).
  { subst l. unfold put_cell, next_pos. fold pos. rewrite Z.rem_mod_nonneg by lia.
    assert (Es : set_crt (crt s) s = s) by (by destruct s).
    destruct (c =? 10); cbn [orb]; [rewrite Es; unfold mret, M_ret; f_equal; zdiv|].
    destruct (c =? BACKSPACE); [rewrite Es; unfold mret, M_ret; f_equal; zcase; lia|].
    by erewrite bind_ret by (apply crt_store_ok; [done|lia]). }
  erewrite bind_ret by exact E1. set (p := next_pos c s) in *.
  assert (Hpr : 0 <= p <= 1920).
  { subst p. unfold next_pos. fold pos. destruct (c =? 10); [zdiv|]. destruct (c =? BACKSPACE); lia. }
  destruct (Z.ltb_spec p 0); [lia|]. destruct (Z.ltb_spec 2000 p); [lia|]. cbn [orb].
  unfold screen_shows. destruct (Z.leb_spec 1920 p) as [H1|H1].
  - assert (p = 1920) as Ep by lia. rewrite Ep. change (24 <=? 1920 / 80) with true. cbn [orb].
    assert (Hls : length (scroll 1840 l) = 2000%nat) by (unfold scroll; by rewrite !length_write_at).
    do 2 erewrite bind_ret by reflexivity. rewrite crt_store_ok by (done || lia).
    eexists. split; [reflexivity|]. split; [split; cbn -[scroll]; [by rewrite length_insert|by vm_compute|done]|].
    split; [done|]. split; [done|]. split; [reflexivity|]. cbn -[scroll]. change (u16 (1920 - 80)) with 1840.
    intros i Hi. case_decide as Hd.
    + replace i with 1840%nat by lia. apply list_lookup_total_insert_eq. change (1920 - 80) with 1840. rewrite Hls. lia.
    + rewrite list_lookup_total_insert_ne by lia. change (1920 - 80) with 1840. by apply scroll_ok.
  - assert (Ed : (24 <=? p / 80) = false) by (apply Z.leb_gt; zdiv). rewrite Ed.
    do 2 erewrite bind_ret by reflexivity. rewrite crt_store_ok by (done || lia).
    assert (Eu : u16 p = p) by (apply Z.mod_small; lia).
    eexists. split; [reflexivity|]. split; [split; cbn; [by rewrite length_insert|rewrite Eu; lia|done]|].
    split; [done|]. split; [done|]. cbn. rewrite Eu. split; [done|]. intros i Hi. case_decide as Hd.
    + subst p. replace i with (Z.to_nat (next_pos c s)) by lia. apply list_lookup_total_insert_eq. lia.
    + by rewrite list_lookup_total_insert_ne by lia.
Qed.

Lemma consputc_ok c s : screen_ok s ->
  exists s', consputc c s = Ret tt s' /\ screen_ok s' /\ same_input s s' /\
    screen_shows (put_cell c s) (next_pos c s) s' /\
    serial s' = serial s ++ (if uart s then if c =? BACKSPACE then [8; 32; 8] else [u8 c] else []).
Proof.
  intros Hs. unfold consputc. erewrite bind_ret by reflexivity. rewrite (so_live _ Hs).
  set (out := if c =? BACKSPACE then [8; 32; 8] else [u8 c]).
  set (s1 := if uart s then set_serial (serial s ++ out) s else s).
  assert (E : (if c =? BACKSPACE then uartputc 8 ;; uartputc 32 ;; uartputc 8 else uartputc c) s = Ret tt s1).
  { subst s1 out. unfold uartputc, modify. destruct s as [? ? ? ? ? ? [] sr ? ?], (c =? BACKSPACE); cbn; try done.
    unfold mbind, M_bind, set_serial. cbn. by rewrite <- !(assoc (++)). }
  assert (H1 : screen_ok s1 /\ same_input s s1) by (destruct Hs; subst s1; destruct (uart s) eqn:?; by split).
  assert (Ec : crt s1 = crt s /\ crt_pos s1 = crt_pos s) by (subst s1; by destruct (uart s)).
  assert (Er : serial s1 = serial s ++ (if uart s then out else [])) by (subst s1; destruct (uart s); by rewrite ?app_nil_r).
  destruct H1 as [H1 H2], Ec as [Ec1 Ec2]. destruct (cgaputc_ok c s1 H1) as (s2 & R & H3 & H4 & H5 & H6).
  exists s2. split; [by erewrite bind_ret by exact E|]. split; [done|]. split_and!.
  - unfold same_input in *. intuition congruence.
  - unfold put_cell, next_pos in *. by rewrite Ec1, Ec2 in H6.
  - by rewrite H5, Er.
Qed.

(** ** The input ring *)

Section Ring.
Implicit Types (b : list Z).

Definition slice b (a n : Z) : list Z := (fun k => b !!! slot (a + k)) <$> seqZ 0 n.

Lemma slot_u32 x : slot (u32 x) = slot x.
Proof. unfold slot, u32, INPUT_BUF. f_equal. zdiv. Qed.

Lemma slot_shift a x : slot (u32 a + x) = slot (a + x).
Proof. unfold slot, u32, INPUT_BUF. f_equal. zdiv. Qed.

Lemma slot_lt x : (slot x < 128)%nat.
Proof. unfold slot, INPUT_BUF. pose proof (Z.mod_pos_bound x 128). lia. Qed.

Lemma slot_inj x y : slot x = slot y -> Z.abs (x - y) < 128 -> x = y.
Proof.
  unfold slot, INPUT_BUF. intros H Hd. pose proof (Z.mod_pos_bound x 128). pose proof (Z.mod_pos_bound y 128).
  assert (x mod 128 = y mod 128) by lia. zdiv.
Qed.

Lemma length_slice b a n : length (slice b a n) = Z.to_nat n.
Proof. unfold slice. by rewrite length_fmap, length_seqZ. Qed.

Lemma slice_u32 b a n : slice b (u32 a) n = slice b a n.
Proof. unfold slice. apply list_fmap_ext. intros. by rewrite slot_shift. Qed.

Lemma slice_app b a n m : 0 <= n -> 0 <= m -> slice b a (n + m) = slice b a n ++ slice b (a + n) m.
Proof.
  intros. unfold slice. rewrite seqZ_app by lia. rewrite fmap_app. f_equal.
  apply list_eq. intros i. rewrite !list_lookup_fmap.
  destruct (decide (Z.of_nat i < m)).
  - rewrite !lookup_seqZ_lt by lia. cbn. do 3 f_equal. lia.
  - by rewrite !lookup_seqZ_ge by lia.
Qed.

Lemma slice_one b a : slice b a 1 = [b !!! slot a].
Proof. unfold slice. change (seqZ 0 1) with [0]. cbn [fmap list_fmap]. by rewrite Z.add_0_r. Qed.

Lemma slice_snoc b a n : 0 <= n -> slice b a (n + 1) = slice b a n ++ [b !!! slot (a + n)].
Proof. intros. by rewrite slice_app, slice_one by lia. Qed.

Lemma slice_cons b a n : 0 < n -> slice b a n = b !!! slot a :: slice b (a + 1) (n - 1).
Proof. intros. replace n with (1 + (n - 1)) at 1 by lia. by rewrite slice_app, slice_one by lia. Qed.

(** A store outside the window leaves it alone. *)
Lemma slice_store b a n e v : 0 <= n <= e - a -> e - a < 128 -> slice (<[slot e := v]> b) a n = slice b a n.
Proof.
  intros. apply list_fmap_ext. intros i k Hk. apply lookup_seqZ in Hk as [-> Hi].
  apply list_lookup_total_insert_ne. intros E. apply slot_inj in E; lia.
Qed.


End Ring.

(** ** The line editor *)

Definition ready (s : cst) : list Z := slice (in_buf s) (in_r s) (u32 (in_w s - in_r s)).
Definition edited (s : cst) : list Z := slice (in_buf s) (in_w s) (u32 (in_e s - in_w s)).

(** The ring holds [ready] bytes and then the line being edited, together at
    most 128; the line has no end-of-line in it; a full ring has no line
    being edited, so that a reader has something to read. *)
Record cons_inv (s : cst) : Prop := mkcons_inv {
  ci_screen : screen_ok s;
  ci_len : length (in_buf s) = 128%nat;
  ci_r : 0 <= in_r s < 4294967296;
  ci_w : 0 <= in_w s < 4294967296;
  ci_e : 0 <= in_e s < 4294967296;
  ci_room : u32 (in_w s - in_r s) + u32 (in_e s - in_w s) <= 128;
  ci_line : Forall (fun b => b <> 10 /\ b <> 4) (edited s);
  ci_full : u32 (in_w s - in_r s) + u32 (in_e s - in_w s) = 128 -> edited s = [] }.

Record ldisc : Type := mkld { ld_ready : list Z; ld_edit : list Z; ld_proc : pst }.

Definition ld_abs (s : cst) : ldisc := mkld (ready s) (edited s) (c_proc s).

(** One character typed. *)
Definition ld_char (c : Z) (L : ldisc) : ldisc :=
  if c =? 16 then L
  else if c =? 21 then mkld (ld_ready L) [] (ld_proc L)
  else if (c =? 8) || (c =? 127) then mkld (ld_ready L) (take (length (ld_edit L) - 1) (ld_edit L)) (ld_proc L)
  else if negb (c =? 0) && (length (ld_ready L) + length (ld_edit L) <? 128)%nat then
    let c := if c =? 13 then 10 else c in
    let line := ld_edit L ++ [c] in
    if (c =? 10) || (c =? 4) || (length (ld_ready L) + length line =? 128)%nat
    then mkld (ld_ready L ++ line) [] (woken ChInput (ld_proc L))
    else mkld (ld_ready L) line (ld_proc L)
  else L.

(** Taking up to [n] bytes of the complete lines: up to an end of line; a ^D
    ends the read and is consumed only by a read that has nothing yet.  The
    boolean is false when the reader has to wait for more. *)
Fixpoint ld_take (first : bool) (n : nat) (q : list Z) : list Z * list Z * bool :=
  match n, q with
  | O, _ => ([], q, true)
  | S _, [] => ([], [], false)
  | S n', c :: q' =>
    if c =? 4 then ([], if first then q' else q, true)
    else if c =? 10 then ([c], q', true)
    else let '(l, r, b) := ld_take false n' q' in (c :: l, r, b)
  end.

Section Editor.
Implicit Types (s : cst) (c : Z).

(** The indices alone. *)
Record ring_ok (s : cst) : Prop := mkring_ok {
  ro_len : length (in_buf s) = 128%nat;
  ro_r : 0 <= in_r s < 4294967296;
  ro_w : 0 <= in_w s < 4294967296;
  ro_e : 0 <= in_e s < 4294967296;
  ro_room : u32 (in_w s - in_r s) + u32 (in_e s - in_w s) <= 128 }.

Lemma cons_ring s : cons_inv s -> ring_ok s.
Proof. by intros []; split. Qed.

Lemma length_ready s : length (ready s) = Z.to_nat (u32 (in_w s - in_r s)).
Proof. apply length_slice. Qed.

Lemma length_edited s : length (edited s) = Z.to_nat (u32 (in_e s - in_w s)).
Proof. apply length_slice. Qed.

Lemma ring_total s : ring_ok s ->
  u32 (in_e s - in_r s) = u32 (in_w s - in_r s) + u32 (in_e s - in_w s) /\
  in_e s = u32 (in_w s + u32 (in_e s - in_w s)) /\ in_w s = u32 (in_r s + u32 (in_w s - in_r s)).
Proof. intros [_ ? ? ? Hr]. unfold u32 in *. split_and!; zdiv. Qed.

Lemma same_input_inv s s' : same_input s s' -> screen_ok s' -> cons_inv s -> cons_inv s' /\ ld_abs s' = ld_abs s.
Proof.
  intros (E1 & E2 & E3 & E4 & E5 & _) Hs [].
  assert (Er : ready s' = ready s) by (unfold ready; congruence).
  assert (Ee : edited s' = edited s) by (unfold edited; congruence).
  split; [split; rewrite ?E1, ?E2, ?E3, ?E4, ?Er, ?Ee in *; done|unfold ld_abs; by rewrite Er, Ee, E5].
Qed.

(** input.e--. *)
Definition rub s : cst := set_e (u32 (in_e s - 1)) s.

Lemma rub_ok s : cons_inv s -> in_e s <> in_w s ->
  cons_inv (rub s) /\ ready (rub s) = ready s /\
  edited (rub s) = take (length (edited s) - 1) (edited s) /\
  edited s = edited (rub s) ++ [in_buf s !!! slot (u32 (in_e s - 1))] /\
  length (edited s) = S (length (edited (rub s))).
Proof.
  intros Hi Hne. destruct Hi as [H1 H2 H3 H4 H5 H6 H7 H8].
  assert (HE : u32 (u32 (in_e s - 1) - in_w s) + 1 = u32 (in_e s - in_w s)) by (unfold u32 in *; zdiv).
  pose proof (u32_range (u32 (in_e s - 1) - in_w s)) as Hr.
  assert (Ee : edited s = edited (rub s) ++ [in_buf s !!! slot (u32 (in_e s - 1))]).
  { unfold edited. cbn. rewrite <- HE, slice_snoc by lia. do 3 f_equal.
    rewrite <- (slot_u32 (in_w s + _)). f_equal. unfold u32 in *. zdiv. }
  assert (El : length (edited s) = S (length (edited (rub s)))) by (rewrite Ee, length_app; cbn; lia).
  assert (Et : edited (rub s) = take (length (edited s) - 1) (edited s)).
  { rewrite El. cbn [Nat.sub]. rewrite Nat.sub_0_r, Ee. by rewrite take_app_length. }
  split_and!; [|done..]. split; try done.
  - by destruct H1; split.
  - cbn. apply u32_range.
  - cbn in *. lia.
  - rewrite Et. by apply Forall_take.
  - cbn. lia.
Qed.

Lemma kill_line_ok fuel : forall s, cons_inv s -> (length (edited s) < fuel)%nat ->
  exists s', kill_line fuel s = Ret tt s' /\ cons_inv s' /\ ld_abs s' = mkld (ready s) [] (c_proc s).
Proof.
  induction fuel as [|fuel IH]; intros s Hi Hf; [lia|]. cbn [kill_line].
  do 2 erewrite bind_ret by reflexivity. destruct (Z.eqb_spec (in_e s) (in_w s)) as [E|E].
  - exists s. split; [done|]. split; [done|]. unfold ld_abs, edited. by rewrite E, Z.sub_diag.
  - destruct (rub_ok s Hi E) as (Hi1 & Hr1 & Hc & He1 & Hl1).
    pose proof (list_lookup_lookup_total_lt (in_buf s) (slot (u32 (in_e s - 1)))
      ltac:(rewrite (ci_len _ Hi); apply slot_lt)) as Hb.
    erewrite bind_ret by (unfold deref; rewrite Hb; reflexivity).
    assert (Hne : in_buf s !!! slot (u32 (in_e s - 1)) <> 10).
    { pose proof (ci_line _ Hi) as HF. rewrite He1 in HF. apply Forall_app in HF as [_ HF].
      rewrite Forall_singleton in HF. apply HF. }
    apply Z.eqb_neq in Hne. rewrite Hne. erewrite bind_ret by reflexivity. fold (rub s).
    destruct (consputc_ok BACKSPACE (rub s) (ci_screen _ Hi1)) as (s2 & R & Hs2 & Hsame & _).
    destruct (same_input_inv _ _ Hsame Hs2 Hi1) as [Hi2 Ha].
    assert (Ha2 := Ha). unfold ld_abs in Ha2. injection Ha2 as A1 A2 A3.
    erewrite bind_ret by exact R. destruct (IH s2 Hi2) as (s3 & R3 & Hi3 & Ha3); [rewrite A2; lia|].
    exists s3. split; [exact R3|]. split; [done|]. by rewrite Ha3, A1, A3, Hr1.
Qed.

(** input.buf[input.e++ % INPUT_BUF] = c. *)
Definition typed c s : cst := set_e (u32 (in_e s + 1)) (set_inbuf (<[slot (in_e s) := c]> (in_buf s)) s).

Lemma typed_ok c s : ring_ok s -> u32 (in_e s - in_r s) < 128 ->
  ring_ok (typed c s) /\ ready (typed c s) = ready s /\ edited (typed c s) = edited s ++ [c].
Proof.
  intros Hi Hlt. destruct (ring_total s Hi) as (Ht & Ee & Ew). destruct Hi as [H1 H2 H3 H4 H5].
  pose proof (u32_range (in_w s - in_r s)) as HR. pose proof (u32_range (in_e s - in_w s)) as HE.
  assert (Hn : u32 (u32 (in_e s + 1) - in_w s) = u32 (in_e s - in_w s) + 1) by (unfold u32 in *; zdiv).
  assert (Es : slot (in_e s) = slot (in_w s + u32 (in_e s - in_w s))) by (rewrite Ee at 1; apply slot_u32).
  assert (Es' : slot (in_e s) = slot (in_r s + (u32 (in_w s - in_r s) + u32 (in_e s - in_w s)))).
  { rewrite Es, Ew at 1. rewrite slot_shift. f_equal. lia. }
  split_and!.
  - split; cbn; [by rewrite length_insert|done|done|apply u32_range|lia].
  - unfold ready. cbn. rewrite Es'. apply slice_store; lia.
  - unfold edited. cbn. rewrite Hn, slice_snoc by lia. rewrite Es at 1. rewrite slice_store by lia.
    f_equal. rewrite <- Es. rewrite list_lookup_total_insert_eq; [done|]. rewrite H1. apply slot_lt.
Qed.

(** input.w = input.e. *)
Lemma line_commit_ok s : ring_ok s ->
  ring_ok (set_w (in_e s) s) /\ ready (set_w (in_e s) s) = ready s ++ edited s /\ edited (set_w (in_e s) s) = [].
Proof.
  intros Hi. destruct (ring_total s Hi) as (Ht & Ee & Ew). destruct Hi as [H1 H2 H3 H4 H5].
  pose proof (u32_range (in_w s - in_r s)) as HR. pose proof (u32_range (in_e s - in_w s)) as HE.
  split_and!.
  - split; cbn; try done. rewrite Z.sub_diag. change (u32 0) with 0. lia.
  - unfold ready, edited. cbn. rewrite Ht, slice_app by lia. f_equal.
    by rewrite <- (slice_u32 _ (in_r s + _)), <- Ew.
  - unfold edited. cbn. by rewrite Z.sub_diag.
Qed.

Lemma accept_ok d s : cons_inv s -> byte_ok d -> u32 (in_e s - in_r s) < 128 ->
  exists s', accept d (in_e s) (in_r s) s = Ret tt s' /\ cons_inv s' /\ ld_abs s' =
    if (d =? 10) || (d =? 4) || (length (ready s) + length (edited s ++ [d]) =? 128)%nat
    then mkld (ready s ++ edited s ++ [d]) [] (woken ChInput (c_proc s))
    else mkld (ready s) (edited s ++ [d]) (c_proc s).
Proof.
  intros Hi Hd Et. unfold accept.
  destruct (ring_total s (cons_ring s Hi)) as (Ht & Ee & Ew).
  pose proof (u32_range (in_w s - in_r s)). pose proof (u32_range (in_e s - in_w s)).
  destruct (typed_ok d s (cons_ring s Hi) Et) as (H1 & Hr1 & He1).
  destruct (consputc_ok d (typed d s)) as (s2 & R & Hs2 & Hsame & _); [by destruct (ci_screen _ Hi); split|].
  do 2 erewrite bind_ret by reflexivity. rewrite (Z.mod_small d 256 Hd : u8 d = d).
  erewrite bind_ret by exact R. destruct Hsame as (E1 & E2 & E3 & E4 & E5 & _).
  assert (Er2 : ready s2 = ready s) by (rewrite <- Hr1; unfold ready; congruence).
  assert (Ee2 : edited s2 = edited s ++ [d]) by (rewrite <- He1; unfold edited; congruence).
  assert (H2 : ring_ok s2) by (destruct H1; split; congruence).
  assert (Ef : (u32 (in_e s + 1) =? u32 (in_r s + INPUT_BUF)) = (length (ready s) + length (edited s ++ [d]) =? 128)%nat).
  { rewrite length_app, length_ready, length_edited. cbn [length]. apply eq_true_iff_eq. rewrite Z.eqb_eq, Nat.eqb_eq.
    destruct (cons_ring s Hi). unfold INPUT_BUF, u32 in *. split; intros; zdiv. }
  rewrite Ef. destruct ((d =? 10) || (d =? 4) || _) eqn:Ec.
  - destruct (line_commit_ok s2 H2) as (H3 & Hr3 & He3). eexists. split; [by erewrite bind_ret by reflexivity|].
    assert (Hed : forall P, edited (set_cproc P (set_w (in_e s2) s2)) = []) by (intros; exact He3).
    split.
    + destruct H3. split; rewrite ?Hed; try done. by destruct Hs2; split.
    + unfold ld_abs. rewrite Hed. f_equal; [etransitivity; [exact Hr3|]; by rewrite Er2, Ee2|].
      cbn. unfold woken. by rewrite E5.
  - exists s2. split; [done|]. apply orb_false_iff in Ec as [Ec Ec3]. apply orb_false_iff in Ec as [Ec1 Ec2].
    apply Nat.eqb_neq in Ec3. zbool. split.
    + destruct H2. split; try done.
      * rewrite Ee2. apply Forall_app_2; [apply (ci_line _ Hi)|]. by apply Forall_singleton.
      * rewrite <- Er2, <- Ee2, length_ready, length_edited in Ec3. intros Hx. exfalso.
        pose proof (u32_range (in_w s2 - in_r s2)). pose proof (u32_range (in_e s2 - in_w s2)). lia.
    + unfold ld_abs. by rewrite Er2, Ee2, E5.
Qed.

Lemma consoleintr_char_ok c s : cons_inv s -> byte_ok c ->
  exists s', consoleintr_char c s = Ret (c =? 16) s' /\ cons_inv s' /\ ld_abs s' = ld_char c (ld_abs s).
Proof.
  intros Hi Hc. unfold consoleintr_char, ld_char. destruct (c =? 16) eqn:E16; [by exists s|].
  destruct (c =? 21).
  { destruct (kill_line_ok 200 s Hi) as (s1 & R & H1 & Ha).
    { rewrite length_edited. pose proof (ci_room _ Hi). pose proof (u32_range (in_w s - in_r s)). lia. }
    exists s1. by erewrite bind_ret by exact R. }
  destruct ((c =? 8) || (c =? 127)).
  { do 2 erewrite bind_ret by reflexivity. destruct (Z.eqb_spec (in_e s) (in_w s)) as [E|E]; cbn [negb].
    - exists s. split; [done|]. split; [done|]. unfold ld_abs, edited. cbn. by rewrite E, Z.sub_diag.
    - destruct (rub_ok s Hi E) as (Hi1 & Hr1 & He1 & _).
      destruct (consputc_ok BACKSPACE (rub s) (ci_screen _ Hi1)) as (s2 & R & Hs2 & Hsame & _).
      destruct (same_input_inv _ _ Hsame Hs2 Hi1) as [Hi2 Ha]. exists s2.
      split; [by erewrite bind_ret by (erewrite bind_ret by reflexivity; exact R)|]. split; [done|].
      rewrite Ha. unfold ld_abs. cbn. by rewrite Hr1, He1. }
  do 2 erewrite bind_ret by reflexivity. unfold INPUT_BUF.
  destruct (ring_total s (cons_ring s Hi)) as (Ht & Ee & Ew).
  pose proof (u32_range (in_w s - in_r s)). pose proof (u32_range (in_e s - in_w s)).
  assert (El : (u32 (in_e s - in_r s) <? 128) = (length (ready s) + length (edited s) <? 128)%nat).
  { rewrite length_ready, length_edited, Ht. apply eq_true_iff_eq. rewrite Z.ltb_lt, Nat.ltb_lt. lia. }
  cbn [ld_ready ld_edit ld_proc ld_abs]. rewrite <- El.
  destruct (negb (c =? 0) && (u32 (in_e s - in_r s) <? 128)) eqn:Et; [|by exists s].
  apply andb_true_iff in Et as [_ Et]. apply Z.ltb_lt in Et.
  destruct (accept_ok (if c =? 13 then 10 else c) s Hi) as (s' & R & Hi' & Ha); [by destruct (c =? 13)|done|].
  exists s'. split; [by erewrite bind_ret by exact R|]. split; [done|]. exact Ha.
Qed.

(** input.r++. *)
Definition eaten s : cst := set_r (u32 (in_r s + 1)) s.

Lemma eaten_ok s : cons_inv s -> in_r s <> in_w s ->
  cons_inv (eaten s) /\ ready s = in_buf s !!! slot (in_r s) :: ready (eaten s) /\ edited (eaten s) = edited s.
Proof.
  intros [H1 H2 H3 H4 H5 H6 H7 H8] Hne.
  assert (HR : u32 (in_w s - u32 (in_r s + 1)) = u32 (in_w s - in_r s) - 1) by (unfold u32 in *; zdiv).
  pose proof (u32_range (in_w s - u32 (in_r s + 1))) as Hr.
  split_and!; [|..|done].
  - split; try done; [by destruct H1; split|apply u32_range|cbn; lia|cbn; lia].
  - unfold ready. cbn. rewrite HR, slice_u32. apply slice_cons. lia.
Qed.

Lemma ready_nil s : cons_inv s -> in_r s = in_w s -> ready s = [].
Proof. intros _ E. unfold ready. by rewrite E, Z.sub_diag. Qed.

(** What the read call returns and does to its process. *)
Definition ld_done (target : Z) (n : nat) (l : list Z) (fin : bool) (me : nat) (q : proc) (ps : pst) : progress Z * pst :=
  if fin then (Done (target - Z.of_nat n + Z.of_nat (length l)), ps)
  else if p_killed q then (Done (-1), ps)
  else (Wait (n - length l), asleep_on ChInput me ps).

Lemma ld_done_cons target n l fin me q ps c :
  ld_done target n l fin me q ps = ld_done target (S n) (c :: l) fin me q ps.
Proof. unfold ld_done. destruct fin; [do 2 f_equal; cbn; lia|done]. Qed.

Lemma consoleread_from_ok n : forall s target me q,
  cons_inv s -> cur (c_proc s) = Some me -> ptable (c_proc s) !! me = Some q ->
  Z.of_nat n <= target < 2147483648 ->
  let '(l, q', fin) := ld_take (Z.of_nat n =? target) n (ready s) in
  exists s', consoleread_from target n s = Ret (l, (ld_done target n l fin me q (c_proc s)).1) s' /\ cons_inv s' /\
    ld_abs s' = mkld q' (edited s) (ld_done target n l fin me q (c_proc s)).2.
Proof.
  induction n as [|n IH]; intros s target me q Hi Hm Hq Ht; cbn [ld_take consoleread_from].
  { exists s. cbn [ld_done fst snd length]. rewrite i32_small, !Z.add_0_r by lia. done. }
  do 2 erewrite bind_ret by reflexivity. destruct (Z.eqb_spec (in_r s) (in_w s)) as [E|E].
  { rewrite (ready_nil s Hi E). unfold cprocs.
    erewrite bind_ret by (unfold zoom; by rewrite (my_killed_ok _ me q)).
    unfold ld_done. assert (Hs : set_cproc (c_proc s) s = s) by (by destruct s). rewrite Hs.
    destruct (p_killed q); [exists s; split; [done|]; split; [done|]; unfold ld_abs; by rewrite (ready_nil s Hi E)|].
    eexists. split; [by erewrite bind_ret by (unfold zoom; by rewrite (sleep_mark_ok _ me))|].
    split; [destruct Hi as [Hsc]; split; try done; by destruct Hsc; split|]. unfold ld_abs. f_equal. exact (ready_nil s Hi E). }
  destruct (eaten_ok s Hi E) as (Hi1 & Er & Ee1). set (c := in_buf s !!! slot (in_r s)) in *. rewrite Er.
  erewrite bind_ret; [|unfold deref; rewrite list_lookup_lookup_total_lt by (rewrite (ci_len _ Hi); apply slot_lt); reflexivity].
  erewrite bind_ret by reflexivity. fold c. fold (eaten s).
  destruct (c =? 4).
  { destruct (Z.ltb_spec (Z.of_nat (S n)) target) as [Hlt|Hge], (Z.eqb_spec (Z.of_nat (S n)) target) as [Heq|Hneq]; try lia.
    - exists s. split; [|split; [done|unfold ld_abs; by rewrite Er]].
      erewrite bind_ret by reflexivity. cbn [length ld_done fst]. unfold mret, M_ret. f_equal.
      + do 2 f_equal. rewrite i32_small by lia. lia.
      + destruct (ci_r _ Hi). destruct s; cbn in *. unfold set_r, eaten. cbn. f_equal. unfold u32. zdiv.
    - exists (eaten s). split; [|split; [done|unfold ld_abs; by rewrite Ee1]].
      erewrite bind_ret by reflexivity. cbn [length ld_done fst]. rewrite i32_small, Z.add_0_r by lia. done. }
  destruct (c =? 10).
  { exists (eaten s). split; [|split; [done|unfold ld_abs; by rewrite Ee1]].
    cbn [length ld_done fst]. rewrite i32_small by lia. unfold mret, M_ret. do 3 f_equal. lia. }
  specialize (IH (eaten s) target me q Hi1 Hm Hq ltac:(lia)).
  rewrite (proj2 (Z.eqb_neq (Z.of_nat n) target)) in IH by lia.
  destruct (ld_take false n (ready (eaten s))) as [[l q'] fin]. destruct IH as (s' & R & Hi' & Ha).
  exists s'. erewrite bind_ret by exact R. rewrite <- (ld_done_cons target n l fin me q _ c).
  split; [done|]. split; [done|]. by rewrite Ha, Ee1.
Qed.
End Editor.

(** ** The contracts *)

(** The screens a sequence of characters goes through. *)
Inductive screen_run : list Z -> cst -> cst -> Prop :=
| run_nil s s' : crt s' = crt s -> crt_pos s' = crt_pos s -> screen_run [] s s'
| run_cons c l s s1 s' :
    screen_shows (put_cell c s) (next_pos c s) s1 -> screen_run l s1 s' -> screen_run (c :: l) s s'.

Lemma putall_ok l : forall s, screen_ok s -> Forall byte_ok l ->
  exists s', putall l s = Ret tt s' /\ screen_ok s' /\ same_input s s' /\ screen_run l s s' /\
    serial s' = serial s ++ (if uart s then l else []).
Proof.
  induction l as [|c l IH]; intros s Hs Hl; cbn [putall].
  { exists s. split_and!; try done; [by constructor|destruct (uart s); by rewrite app_nil_r]. }
  apply Forall_cons in Hl as [Hc Hl]. destruct (consputc_ok c s Hs) as (s1 & R & H1 & H2 & H3 & H4).
  destruct (IH s1 H1 Hl) as (s2 & R2 & H5 & H6 & H7 & H8). exists s2.
  split; [by erewrite bind_ret by exact R|]. split; [done|]. split; [unfold same_input in *; intuition congruence|].
  split; [by econstructor|]. destruct H2 as (_ & _ & _ & _ & _ & Hu). rewrite H8, H4, Hu.
  rewrite (proj2 (Z.eqb_neq c BACKSPACE)) by (unfold byte_ok, BACKSPACE in *; lia).
  rewrite (Z.mod_small c 256 Hc : u8 c = c). destruct (uart s); by rewrite <- (assoc (++)).
Qed.

(** Console output stays on the screen: writing any bytes returns their
    number, never panics and never stores outside the 25 x 80 cells; each
    byte appears at the cursor, a newline starts a row, the screen scrolls by
    one row when the cursor leaves row 23, and the serial line gets the same
    bytes; the pending input and the processes are untouched. *)
Theorem consolewrite_screen (buf : list Z) (s : cst) :
  screen_ok s -> Forall byte_ok buf ->
  exists s', consolewrite_buf buf s = Ret (Z.of_nat (length buf)) s' /\ screen_ok s' /\ same_input s s' /\
    screen_run buf s s' /\ serial s' = serial s ++ (if uart s then buf else []).
Proof.
  intros Hs Hb. unfold consolewrite_buf.
  assert (E : (fun b => Z.land b 255) <$> buf = buf).
  { transitivity (id <$> buf); [|apply list_fmap_id]. apply Forall_fmap_ext_1. eapply Forall_impl; [exact Hb|].
    intros b Hx. cbn. change 255 with (Z.ones 8). rewrite Z.land_ones by lia. by apply Z.mod_small. }
  rewrite E. destruct (putall_ok buf s Hs Hb) as (s' & R & H). exists s'. by erewrite bind_ret by exact R.
Qed.

(** A call on the console: characters arriving, or a read of [n] more bytes
    of a total of [target] by the process in slot [me]. *)
Inductive ccall : Type :=
| CIntr (cs : list Z)
| CRead (me : nat) (target : Z) (n : nat).

Inductive cresult : Type :=
| CDump (listing : bool)
| CBytes (l : list Z) (r : progress Z).

Definition con_call (c : ccall) : M cst cresult :=
  match c with
  | CIntr cs => d ← consoleintr cs; mret (CDump d)
  | CRead me target n =>
    cprocs (modify (set_cur (Some me))) ;; '(l, r) ← consoleread_from target n; mret (CBytes l r)
  end.

Fixpoint con_calls (cs : list ccall) : M cst (list cresult) :=
  match cs with
  | [] => mret []
  | c :: cs' => r ← con_call c; rs ← con_calls cs'; mret (r :: rs)
  end.

(** The same calls on the line editor.  [None]: no such process, or a
    character that is not a byte. *)
Definition ld_call (c : ccall) (L : ldisc) : option (cresult * ldisc) :=
  match c with
  | CIntr cs =>
    if decide (Forall byte_ok cs)
    then Some (CDump (existsb (fun c => c =? 16) cs), foldl (fun L c => ld_char c L) L cs) else None
  | CRead me target n =>
    if decide (Z.of_nat n <= target < 2147483648) then
      q ← ptable (ld_proc L) !! me;
      let '(l, rest, fin) := ld_take (Z.of_nat n =? target) n (ld_ready L) in
      let '(r, ps) := ld_done target n l fin me q (set_cur (Some me) (ld_proc L)) in
      Some (CBytes l r, mkld rest (ld_edit L) ps)
    else None
  end.

Fixpoint ld_calls (cs : list ccall) (L : ldisc) : option (list cresult * ldisc) :=
  match cs with
  | [] => Some ([], L)
  | c :: cs' => '(r, L1) ← ld_call c L; '(rs, L2) ← ld_calls cs' L1; Some (r :: rs, L2)
  end.

Lemma consoleintr_loop_ok cs : forall s d, cons_inv s -> Forall byte_ok cs ->
  exists s', consoleintr_loop cs d s = Ret (d || existsb (fun c => c =? 16) cs) s' /\ cons_inv s' /\
    ld_abs s' = foldl (fun L c => ld_char c L) (ld_abs s) cs.
Proof.
  induction cs as [|c cs IH]; intros s d Hi Hc; cbn [consoleintr_loop existsb foldl].
  { exists s. by rewrite orb_false_r. }
  apply Forall_cons in Hc as [Hc Hcs]. destruct (Z.ltb_spec c 0); [unfold byte_ok in Hc; lia|].
  destruct (consoleintr_char_ok c s Hi Hc) as (s1 & R & Hi1 & Ha).
  destruct (IH s1 (d || (c =? 16)) Hi1 Hcs) as (s2 & R2 & Hi2 & Ha2). exists s2.
  erewrite bind_ret by exact R. rewrite orb_assoc. split; [exact R2|]. split; [done|]. by rewrite Ha2, Ha.
Qed.

Lemma con_call_ok c s r L : cons_inv s -> ld_call c (ld_abs s) = Some (r, L) ->
  exists s', con_call c s = Ret r s' /\ cons_inv s' /\ ld_abs s' = L.
Proof.
  intros Hi. destruct c as [cs|me target n]; cbn [ld_call con_call].
  - case_decide as Hc; [|done]. intros [= <- <-]. unfold consoleintr.
    destruct (consoleintr_loop_ok cs s false Hi Hc) as (s' & R & Hi' & Ha). exists s'.
    by erewrite bind_ret by exact R.
  - case_decide as Ht; [|done]. intros H. apply bind_Some in H as (q & Hq & H).
    set (s1 := set_cproc (set_cur (Some me) (c_proc s)) s).
    assert (Hi1 : cons_inv s1) by (destruct Hi as [Hsc]; split; try done; by destruct Hsc; split).
    pose proof (consoleread_from_ok n s1 target me q Hi1 eq_refl Hq Ht) as HR.
    change (ready s1) with (ready s) in HR. cbn [ld_ready ld_abs] in H.
    destruct (ld_take (Z.of_nat n =? target) n (ready s)) as [[l rest] fin].
    change (c_proc s1) with (set_cur (Some me) (c_proc s)) in HR. cbn [ld_proc ld_abs] in H.
    destruct (ld_done target n l fin me q (set_cur (Some me) (c_proc s))) as [res ps].
    injection H as <- <-. destruct HR as (s' & R & Hi' & Ha). exists s'.
    erewrite bind_ret by reflexivity. by erewrite bind_ret by exact R.
Qed.

(** C15: The console's input side refines a line editor: for every sequence
    of keyboard input and reads, by any processes, the ring with its three
    32-bit indices (which may wrap) behaves as a queue of complete lines and
    a line being edited, together at most 128 bytes: ^H and ^U edit only the
    unfinished line, a newline, ^D or a full ring hands the line over and
    wakes the readers, a read stops at a line's end, and ^D ends a read (and
    is kept for the next read if bytes were delivered).  The screen is never
    overrun and a full ring always leaves something to read. *)
Theorem console_refines_line_editor (cs : list ccall) (s : cst) (rs : list cresult) (L : ldisc) :
  cons_inv s -> ld_calls cs (ld_abs s) = Some (rs, L) ->
  exists s', con_calls cs s = Ret rs s' /\ cons_inv s' /\ ld_abs s' = L.
Proof.
  revert s rs. induction cs as [|c cs IH]; intros s rs Hi Hl; cbn [ld_calls con_calls] in *.
  - injection Hl as <- <-. by exists s.
  - apply bind_Some in Hl as ([r L1] & H1 & Hl). apply bind_Some in Hl as ([rs1 L2] & H2 & [= <- <-]).
    destruct (con_call_ok c s r L1 Hi H1) as (t & R & Ht & Ha). rewrite <- Ha in H2.
    destruct (IH t rs1 Ht H2) as (t' & R' & Ht' & Ha'). exists t'. split; [|done].
    erewrite bind_ret by exact R. by erewrite bind_ret by exact R'.
Qed.

(** ** Witnesses *)

(** A console whose indices are about to wrap, the cursor on the last cell
    of row 23. *)
Definition demo_con : cst :=
  mkcst (replicate 128 0) 4294967295 4294967295 4294967295 (replicate 2000 1824) 1919 true [] false
    (mkpst [set_state RUNNING (set_pid 3 proc0)] 4 None None).

Lemma demo_con_inv : cons_inv demo_con.
Proof. by split; try (cbn; lia). Qed.

(** "ab", rubout, "c", newline, ^D; then two reads and a third that sees the
    end of file. *)
Lemma console_refines_line_editor_witness : exists s' L,
  con_calls [CIntr [97; 98; 8; 99; 13; 4]; CRead 0 2 2; CRead 0 9 9; CRead 0 9 9; CRead 0 9 9] demo_con =
    Ret [CDump false; CBytes [97; 99] (Done 2); CBytes [10] (Done 1); CBytes [] (Done 0); CBytes [] (Wait 9)] s' /\
  cons_inv s' /\ ld_abs s' = L.
Proof.
  destruct (ld_calls [CIntr [97; 98; 8; 99; 13; 4]; CRead 0 2 2; CRead 0 9 9; CRead 0 9 9; CRead 0 9 9] (ld_abs demo_con))
    as [[rs L]|] eqn:E; [|vm_compute in E; discriminate E].
  destruct (console_refines_line_editor _ demo_con rs L demo_con_inv E) as (s' & R & Hi & Ha).
  exists s', L. split; [|split; [exact Hi|exact Ha]]. rewrite R. clear -E. vm_compute in E. injection E as <- _. reflexivity.
Defined.

Lemma consolewrite_screen_witness : exists s',
  consolewrite_buf [65; 10] demo_con = Ret 2 s' /\ screen_ok s' /\ same_input demo_con s' /\
  screen_run [65; 10] demo_con s' /\ serial s' = [65; 10].
Proof. apply (consolewrite_screen [65; 10] demo_con (ci_screen _ demo_con_inv)). solve_bytes. Defined.
