(* ===== verification/Bio.v ===== *)
(** * The buffer cache over the memory disk: buf.h, bio.c, memide.c

    The cache is the array [bufs] of [NBUF] buffers plus the list head at
    index [NBUF], linked through [b_prev] and [b_next] as in the source.  The
    driver is memide.c's: the disk is an array of blocks, and every block the
    driver writes is also appended to [dwrites], the history from which a
    crash keeps a prefix (Log.v).  The theorems: the pointers always form one
    ring through all the buffers, in most-recently-used order; a block is
    cached at most once; [bread] returns the block's current contents; a
    dirty or referenced buffer is never recycled. *)

From stdpp Require Import base list sets strings.
From Stdlib Require Import ZArith Lia.
From S2P Require Import Prelude Proc.

Local Open Scope Z_scope.

Definition MAXOPBLOCKS : Z := 10.
Definition LOGSIZE : Z := MAXOPBLOCKS * 3.
Definition NBUF : nat := Z.to_nat (MAXOPBLOCKS * 3).
Definition BSIZE : nat := 512.
Definition ROOTDEV : Z := 1.

Definition B_VALID : Z := 2.
Definition B_DIRTY : Z := 4.

(** struct buf; [b_prev] and [b_next] are indices into [bufs]. *)
Record buf : Type := mkbuf {
  b_flags : Z;
  b_dev : Z;
  b_blockno : Z;
  b_lock : sleeplock;
  b_refcnt : Z;
  b_prev : nat;
  b_next : nat;
  b_data : list Z }.

Definition buf0 : buf := mkbuf 0 0 0 sl0 0 0 0 (replicate BSIZE 0).
#[export] Instance buf_inhabited : Inhabited buf := populate buf0.

Definition set_flags (x : Z) (b : buf) : buf :=
  mkbuf x (b_dev b) (b_blockno b) (b_lock b) (b_refcnt b) (b_prev b) (b_next b) (b_data b).
Definition set_lock (x : sleeplock) (b : buf) : buf :=
  mkbuf (b_flags b) (b_dev b) (b_blockno b) x (b_refcnt b) (b_prev b) (b_next b) (b_data b).
Definition set_refcnt (x : Z) (b : buf) : buf :=
  mkbuf (b_flags b) (b_dev b) (b_blockno b) (b_lock b) x (b_prev b) (b_next b) (b_data b).
Definition set_prev (x : nat) (b : buf) : buf :=
  mkbuf (b_flags b) (b_dev b) (b_blockno b) (b_lock b) (b_refcnt b) x (b_next b) (b_data b).
Definition set_next (x : nat) (b : buf) : buf :=
  mkbuf (b_flags b) (b_dev b) (b_blockno b) (b_lock b) (b_refcnt b) (b_prev b) x (b_data b).
Definition set_data (x : list Z) (b : buf) : buf :=
  mkbuf (b_flags b) (b_dev b) (b_blockno b) (b_lock b) (b_refcnt b) (b_prev b) (b_next b) x.
(** The fields bget sets when it recycles a buffer. *)
Definition recycle (dev blockno : Z) (b : buf) : buf :=
  mkbuf 0 dev blockno (b_lock b) 1 (b_prev b) (b_next b) (b_data b).

Record bst : Type := mkbst {
  b_proc : pst;
  bufs : list buf;                   (* bcache.buf[0..NBUF-1], bcache.head *)
  disk : list (list Z);              (* memdisk, by blocks *)
  disksize : Z;
  dwrites : list (Z * list Z) }.     (* blocks written so far, oldest first *)

Definition set_bproc (x : pst) (s : bst) : bst :=
  mkbst x (bufs s) (disk s) (disksize s) (dwrites s).
Definition set_bufs (x : list buf) (s : bst) : bst :=
  mkbst (b_proc s) x (disk s) (disksize s) (dwrites s).
Definition write_disk (n : Z) (d : list Z) (s : bst) : bst :=
  mkbst (b_proc s) (bufs s) (<[Z.to_nat n := d]> (disk s)) (disksize s)
    (dwrites s ++ [(n, d)]).

Definition head : nat := NBUF.

Definition upd_buf (i : nat) (f : buf -> buf) (s : bst) : bst :=
  set_bufs (alter f i (bufs s)) s.

Definition getbuf (i : nat) : M bst buf := deref (fun s => bufs s !! i).

(** ** The sleep lock of a buffer *)

Definition buf_lock (i : nat) (s : bst) : option sleeplock := b_lock <$> bufs s !! i.
Definition set_buf_lock (i : nat) (l : sleeplock) : bst -> bst := upd_buf i (set_lock l).

Definition acquire_buf (i : nat) : M bst unit :=
  acquiresleep (buf_lock i) (set_buf_lock i) b_proc set_bproc (ChBufLock i).
Definition release_buf (i : nat) : M bst unit :=
  releasesleep (set_buf_lock i) b_proc set_bproc (ChBufLock i).
Definition holding_buf (i : nat) : M bst bool :=
  holdingsleep (buf_lock i) b_proc set_bproc.

(** ** memide.c *)

Definition ideinit (img : list (list Z)) (s : bst) : bst :=
  mkbst (b_proc s) (bufs s) img (Z.of_nat (length img)) (dwrites s).

Definition iderw (i : nat) : M bst unit :=
  h ← holding_buf i;
  if negb h then panic "iderw: buf not locked" else
  b ← getbuf i;
  if Z.land (b_flags b) (Z.lor B_VALID B_DIRTY) =? B_VALID
  then panic "iderw: nothing to do" else
  if negb (b_dev b =? 1) then panic "iderw: request not for disk 1" else
  sz ← gets disksize;
  if sz <=? u32 (b_blockno b) then panic "iderw: block out of range" else
  (if negb (Z.land (b_flags b) B_DIRTY =? 0) then
     modify (upd_buf i (fun b => set_flags (Z.land (b_flags b) (Z.lnot B_DIRTY)) b)) ;;
     modify (write_disk (b_blockno b) (b_data b))
   else
     d ← gets disk;
     modify (upd_buf i (set_data (d !!! Z.to_nat (b_blockno b))))) ;;
  modify (upd_buf i (fun b => set_flags (Z.lor (b_flags b) B_VALID) b)).

(** ** bio.c *)

(** One iteration of binit's loop for buffer [i]. *)
Definition binit_link (i : nat) (l : list buf) : list buf :=
  let hn := b_next (l !!! head) in
  let l := alter (fun b => set_lock sl0 (set_prev head (set_next hn b))) i l in
  let l := alter (set_prev i) (b_next (l !!! head)) l in
  alter (set_next i) head l.

Definition binit : M bst unit :=
  modify (fun s => set_bufs (alter (fun b => set_next head (set_prev head b)) head (bufs s)) s) ;;
  modify (fun s => set_bufs (fold_left (fun l i => binit_link i l) (seq 0 NBUF) (bufs s)) s).

(** bget's first loop, from [b] forward; [None] when the fuel ends. *)
Fixpoint find_cached (l : list buf) (dev blockno : Z) (b : nat) (fuel : nat)
    : option (option nat) :=
  match fuel with
  | O => None
  | S f =>
    if (b =? head)%nat then Some None
    else if (b_dev (l !!! b) =? dev) && (b_blockno (l !!! b) =? blockno) then Some (Some b)
    else find_cached l dev blockno (b_next (l !!! b)) f
  end.

(** bget's second loop, from [b] backward. *)
Fixpoint find_unused (l : list buf) (b : nat) (fuel : nat) : option (option nat) :=
  match fuel with
  | O => None
  | S f =>
    if (b =? head)%nat then Some None
    else if (b_refcnt (l !!! b) =? 0) && (Z.land (b_flags (l !!! b)) B_DIRTY =? 0)
    then Some (Some b)
    else find_unused l (b_prev (l !!! b)) f
  end.

Definition bget (dev blockno : Z) : M bst nat :=
  l ← gets bufs;
  match find_cached l dev blockno (b_next (l !!! head)) (S NBUF) with
  | None => nofuel
  | Some (Some b) =>
    modify (upd_buf b (fun x => set_refcnt (u32 (b_refcnt x + 1)) x)) ;;
    acquire_buf b ;;
    mret b
  | Some None =>
    match find_unused l (b_prev (l !!! head)) (S NBUF) with
    | None => nofuel
    | Some (Some b) =>
      modify (upd_buf b (recycle dev blockno)) ;;
      acquire_buf b ;;
      mret b
    | Some None => panic "bget: no buffers"
    end
  end.

Definition bread (dev blockno : Z) : M bst nat :=
  i ← bget dev blockno;
  b ← getbuf i;
  (if Z.land (b_flags b) B_VALID =? 0 then iderw i else mret tt) ;;
  mret i.

Definition bwrite (i : nat) : M bst unit :=
  h ← holding_buf i;
  if negb h then panic "bwrite" else
  modify (upd_buf i (fun b => set_flags (Z.lor (b_flags b) B_DIRTY) b)) ;;
  iderw i.

(** The pointer surgery of brelse: take [b] out of the list ... *)
Definition unlink (b : nat) (l : list buf) : list buf :=
  let l := alter (set_prev (b_prev (l !!! b))) (b_next (l !!! b)) l in
  alter (set_next (b_next (l !!! b))) (b_prev (l !!! b)) l.

(** ... and put it after the head. *)
Definition push_front (b : nat) (l : list buf) : list buf :=
  let l := alter (set_next (b_next (l !!! head))) b l in
  let l := alter (set_prev head) b l in
  let l := alter (set_prev b) (b_next (l !!! head)) l in
  alter (set_next b) head l.

Definition move_to_front (b : nat) (l : list buf) : list buf :=
  push_front b (unlink b l).

Definition brelse (i : nat) : M bst unit :=
  h ← holding_buf i;
  if negb h then panic "brelse" else
  release_buf i ;;
  modify (upd_buf i (fun b => set_refcnt (u32 (b_refcnt b - 1)) b)) ;;
  b ← getbuf i;
  if b_refcnt b =? 0 then modify (fun s => set_bufs (move_to_front i (bufs s)) s)
  else mret tt.

(** Access to a buffer's contents by its holder. *)
Definition bdata (i : nat) : M bst (list Z) := b ← getbuf i; mret (b_data b).
Definition bstore (i : nat) (d : list Z) : M bst unit := modify (upd_buf i (set_data d)).

(** ** The ring of buffers *)

Lemma length_alter_buf (l : list buf) f i : length (alter f i l) = length l.
Proof. apply length_alter. Qed.
#[export] Hint Rewrite length_alter_buf : xv6.

(** [path] is threaded by the pointers: each element's [b_next] is the
    following one, whose [b_prev] points back. *)
Fixpoint linked (l : list buf) (path : list nat) : Prop :=
  match path with
  | x :: ((y :: _) as rest) =>
    b_next (l !!! x) = y /\ b_prev (l !!! y) = x /\ linked l rest
  | _ => True
  end.

Lemma linked_cons l x y r :
  linked l (x :: y :: r) <->
  b_next (l !!! x) = y /\ b_prev (l !!! y) = x /\ linked l (y :: r).
Proof. done. Qed.

Lemma linked_app l a x b :
  linked l (a ++ x :: b) <-> linked l (a ++ [x]) /\ linked l (x :: b).
Proof.
  induction a as [|y a IH]; [simpl; naive_solver|].
  destruct a as [|z a]; simpl in *; naive_solver.
Qed.

Lemma linked_ext l l' path :
  linked l path ->
  (forall k y, path !! k = Some y -> (S k < length path)%nat ->
     b_next (l' !!! y) = b_next (l !!! y)) ->
  (forall k y, path !! S k = Some y -> b_prev (l' !!! y) = b_prev (l !!! y)) ->
  linked l' path.
Proof.
  induction path as [|x [|y path] IH]; intros HL Hn Hp; simpl; [done..|].
  destruct HL as (H1 & H2 & H3). split_and!.
  - rewrite (Hn 0%nat x); [done|done|simpl; lia].
  - by rewrite (Hp 0%nat y).
  - apply IH; [done| |].
    + intros k z Hk Hlen. apply (Hn (S k) z); [done|simpl in *; lia].
    + intros k z Hk. by apply (Hp (S k) z).
Qed.

(** The cache's buffers in list order, most recently used first. *)
Definition ring (l : list buf) (c : list nat) : Prop :=
  linked l (head :: c ++ [head]) /\ c ≡ₚ seq 0 NBUF /\ length l = S NBUF.

Lemma unlink_eq l b p n :
  b_prev (l !!! b) = p -> b_next (l !!! b) = n -> n <> b ->
  unlink b l = alter (set_next n) p (alter (set_prev p) n l).
Proof.
  intros <- <- Hnb. unfold unlink. cbv zeta.
  rewrite lookup_total_alter, decide_False by naive_solver. done.
Qed.

Lemma unlink_linked l a p b n c :
  linked l (a ++ p :: b :: n :: c) ->
  (forall k x, (a ++ [p]) !! k = Some x -> (S k < length (a ++ [p]))%nat -> x <> p) ->
  (forall k x, (a ++ [p]) !! S k = Some x -> x <> n) ->
  (forall k x, (n :: c) !! k = Some x -> (S k < length (n :: c))%nat -> x <> p) ->
  (forall k x, (n :: c) !! S k = Some x -> x <> n) ->
  (p < length l)%nat -> (n < length l)%nat -> n <> b ->
  linked (unlink b l) (a ++ p :: n :: c).
Proof.
  intros HL Hap Han Hcp Hcn Hp Hn Hnb.
  rewrite linked_app in HL. destruct HL as [HA HB].
  rewrite !linked_cons in HB. destruct HB as (E1 & E2 & E3 & E4 & HC).
  rewrite (unlink_eq l b p n) by done.
  assert (Hnext : forall x, b_next (alter (set_next n) p (alter (set_prev p) n l) !!! x)
    = if decide (x = p) then n else b_next (l !!! x)).
  { intros x. rewrite !lookup_total_alter, length_alter_buf.
    repeat case_decide; simpl; naive_solver. }
  assert (Hprev : forall x, b_prev (alter (set_next n) p (alter (set_prev p) n l) !!! x)
    = if decide (x = n) then p else b_prev (l !!! x)).
  { intros x. rewrite !lookup_total_alter, length_alter_buf.
    repeat case_decide; simpl; naive_solver. }
  rewrite linked_app, !linked_cons. split_and!.
  - apply (linked_ext l); [done| |].
    + intros k y Hk Hlen. rewrite Hnext, decide_False; eauto.
    + intros k y Hk. rewrite Hprev, decide_False; eauto.
  - by rewrite Hnext, decide_True.
  - by rewrite Hprev, decide_True.
  - apply (linked_ext l); [done| |].
    + intros k y Hk Hlen. rewrite Hnext, decide_False; eauto.
    + intros k y Hk. rewrite Hprev, decide_False; eauto.
Qed.

Lemma push_front_eq l b n :
  b_next (l !!! head) = n -> b <> head ->
  push_front b l =
    alter (set_next b) head (alter (set_prev b) n (alter (set_prev head) b (alter (set_next n) b l))).
Proof.
  intros <- Hb. unfold push_front. cbv zeta.
  by rewrite !lookup_total_alter, !decide_False by naive_solver.
Qed.

Lemma push_front_linked l b n c :
  linked l (head :: n :: c) -> b ∉ head :: n :: c ->
  (forall k x, (n :: c) !! k = Some x -> (S k < length (n :: c))%nat -> x <> head) ->
  (forall k x, (n :: c) !! S k = Some x -> x <> n) ->
  (head < length l)%nat -> (n < length l)%nat -> (b < length l)%nat ->
  linked (push_front b l) (head :: b :: n :: c).
Proof.
  intros HL Hb Hch Hcn Hh Hn Hbl.
  apply not_elem_of_cons in Hb as [Hbh Hb].
  apply not_elem_of_cons in Hb as [Hbn Hb].
  rewrite linked_cons in HL. destruct HL as (E1 & E2 & HC).
  rewrite (push_front_eq l b n) by done.
  set (l' := alter _ head _).
  assert (Hnext : forall x, b_next (l' !!! x) =
    if decide (x = head) then b else if decide (x = b) then n else b_next (l !!! x)).
  { intros x. subst l'. rewrite !lookup_total_alter, !length_alter_buf.
    repeat case_decide; simpl; naive_solver. }
  assert (Hprev : forall x, b_prev (l' !!! x) =
    if decide (x = n) then b else if decide (x = b) then head else b_prev (l !!! x)).
  { intros x. subst l'. rewrite !lookup_total_alter, !length_alter_buf.
    repeat case_decide; simpl; naive_solver. }
  clearbody l'. rewrite !linked_cons. split_and!.
  - by rewrite Hnext, decide_True.
  - by rewrite Hprev, decide_False, decide_True.
  - by rewrite Hnext, decide_False, decide_True.
  - by rewrite Hprev, decide_True.
  - apply (linked_ext l); [done| |].
    + intros k y Hk Hlen. rewrite Hnext, !decide_False; eauto.
      intros ->. apply list_elem_of_lookup_2 in Hk. set_solver.
    + intros k y Hk. rewrite Hprev, !decide_False; eauto.
      intros ->. apply list_elem_of_lookup_2 in Hk. set_solver.
Qed.

(** Positions in a list without repetition: the elements before the last
    one differ from it, those after the first one differ from it. *)
Lemma nodup_before_last {A} (a : list A) p k x :
  NoDup (a ++ [p]) -> (a ++ [p]) !! k = Some x -> (S k < length (a ++ [p]))%nat -> x <> p.
Proof.
  intros Hnd Hk Hlen ->. rewrite length_app in Hlen. simpl in Hlen.
  rewrite lookup_app_l in Hk by lia. apply list_elem_of_lookup_2 in Hk.
  apply NoDup_app in Hnd as (_ & Hd & _). apply (Hd p Hk). set_solver.
Qed.

Lemma nodup_after_first {A} (c : list A) n k x :
  NoDup (n :: c) -> (n :: c) !! S k = Some x -> x <> n.
Proof.
  intros Hnd Hk ->. apply NoDup_cons in Hnd as [Hx _].
  apply Hx. by eapply list_elem_of_lookup_2.
Qed.

Lemma lookup_snoc_before {A} (c : list A) h k x :
  (c ++ [h]) !! k = Some x -> (S k < length (c ++ [h]))%nat -> x ∈ c.
Proof.
  intros Hk Hlen. rewrite length_app in Hlen. simpl in Hlen.
  rewrite lookup_app_l in Hk by lia. by eapply list_elem_of_lookup_2.
Qed.

(** What a ring says about a buffer in it. *)
Lemma ring_facts l c :
  ring l c ->
  NoDup c /\ head ∉ c /\ (forall x, x ∈ c <-> (x < NBUF)%nat) /\
  (head < length l)%nat /\ (forall x, x ∈ c -> (x < length l)%nat).
Proof.
  intros (_ & Hperm & Hlen).
  assert (Hin : forall x, x ∈ c <-> (x < NBUF)%nat).
  { intros x. rewrite Hperm, elem_of_seq. lia. }
  split_and!; [rewrite Hperm; apply NoDup_seq| |done|unfold head; lia|].
  - rewrite Hin. unfold head. lia.
  - intros x. rewrite Hin. lia.
Qed.

Lemma unlink_ring l c1 b c2 :
  ring l (c1 ++ b :: c2) -> linked (unlink b l) (head :: (c1 ++ c2) ++ [head]).
Proof.
  intros HR. destruct (ring_facts _ _ HR) as (Hnd & Hh & _ & Hhl & Hl).
  destruct HR as (HL & _ & _).
  apply NoDup_app in Hnd as (Hnd1 & Hd & Hnd2).
  apply NoDup_cons in Hnd2 as (Hb2 & Hnd2).
  assert (Hp : exists a p, head :: c1 = a ++ [p] /\ (p = head \/ p ∈ c1)).
  { destruct c1 as [|z c1' _] using rev_ind; [exists [], head; naive_solver|].
    exists (head :: c1'), z. split; [done|set_solver]. }
  destruct Hp as (a & p & Hp & Hpin).
  assert (Hn : exists n c, c2 ++ [head] = n :: c /\ (n = head \/ n ∈ c2)).
  { destruct c2 as [|y c2']; simpl; [eauto|]. exists y, (c2' ++ [head]). set_solver. }
  destruct Hn as (n & c & Hn & Hnin).
  assert (HndA : NoDup (a ++ [p])) by (rewrite <- Hp; constructor; set_solver).
  assert (HndC : NoDup (n :: c)).
  { rewrite <- Hn. apply NoDup_app. split_and!; [done|set_solver|apply NoDup_singleton]. }
  replace (head :: (c1 ++ c2) ++ [head]) with (a ++ p :: n :: c).
  2:{ rewrite <- Hn, (cons_middle p), app_assoc, <- Hp. simpl. by rewrite <- app_assoc. }
  apply unlink_linked.
  - replace (a ++ p :: b :: n :: c) with (head :: (c1 ++ b :: c2) ++ [head]); [done|].
    rewrite <- Hn, (cons_middle p), app_assoc, <- Hp. simpl. by rewrite <- app_assoc.
  - intros k x. by apply nodup_before_last.
  - rewrite <- Hp. intros k x Hk. simpl in Hk.
    apply list_elem_of_lookup_2 in Hk. set_solver.
  - rewrite <- Hn. intros k x Hk Hlen. pose proof (lookup_snoc_before _ _ _ _ Hk Hlen).
    set_solver.
  - intros k x. by apply nodup_after_first.
  - destruct Hpin as [->|?]; [done|]. apply Hl. set_solver.
  - destruct Hnin as [->|?]; [done|]. apply Hl. set_solver.
  - set_solver.
Qed.

Lemma move_to_front_ring l c1 b c2 :
  ring l (c1 ++ b :: c2) -> ring (move_to_front b l) (b :: c1 ++ c2).
Proof.
  intros HR. pose proof (unlink_ring _ _ _ _ HR) as HU.
  destruct (ring_facts _ _ HR) as (Hnd & Hh & _ & Hhl & Hl).
  destruct HR as (_ & Hperm & Hlen).
  apply NoDup_app in Hnd as (Hnd1 & Hd & Hnd2).
  apply NoDup_cons in Hnd2 as (Hb2 & Hnd2).
  assert (Hlu : length (unlink b l) = length l) by (unfold unlink; len).
  split_and!.
  - unfold move_to_front.
    assert (Hn : exists n c, (c1 ++ c2) ++ [head] = n :: c).
    { destruct (c1 ++ c2); simpl; eauto. }
    destruct Hn as (n & c & Hn).
    assert (HndC : NoDup (n :: c)).
    { rewrite <- Hn. apply NoDup_app. split_and!; [|set_solver|apply NoDup_singleton].
      apply NoDup_app. split_and!; [done|set_solver|done]. }
    assert (Hnl : (n < length l)%nat).
    { assert (n ∈ (c1 ++ c2) ++ [head]) as Hin by (rewrite Hn; set_solver).
      apply elem_of_app in Hin as [Hin|Hin].
      - apply Hl. set_solver.
      - apply list_elem_of_singleton in Hin as ->. done. }
    cbn [app]. rewrite Hn in *. apply push_front_linked; rewrite ?Hlu; try done.
    + rewrite <- Hn. set_solver.
    + rewrite <- Hn. intros k x Hk Hl2. pose proof (lookup_snoc_before _ _ _ _ Hk Hl2).
      set_solver.
    + intros k x. by apply nodup_after_first.
    + apply Hl. set_solver.
  - rewrite <- Hperm. apply Permutation_middle.
  - unfold move_to_front, push_front. len.
Qed.

(** ** The search loops of bget are searches of the list *)

Definition is_block (l : list buf) (dev n : Z) (i : nat) : bool :=
  (b_dev (l !!! i) =? dev) && (b_blockno (l !!! i) =? n).
Definition is_free (l : list buf) (i : nat) : bool :=
  (b_refcnt (l !!! i) =? 0) && (Z.land (b_flags (l !!! i)) B_DIRTY =? 0).

Lemma find_cached_spec l dev n x c f :
  linked l (x :: c ++ [head]) -> head ∉ c -> (length c < f)%nat ->
  find_cached l dev n (b_next (l !!! x)) f = Some (List.find (is_block l dev n) c).
Proof.
  revert x f; induction c as [|y c IH]; intros x f HL Hh Hf.
  - destruct f; [simpl in Hf; lia|]. simpl in HL. destruct HL as (-> & _).
    cbn [find_cached List.find]. by rewrite Nat.eqb_refl.
  - destruct f; [simpl in Hf; lia|]. cbn [app] in HL.
    rewrite linked_cons in HL. destruct HL as (-> & _ & HL).
    cbn [find_cached List.find]. rewrite (proj2 (Nat.eqb_neq y head)) by set_solver.
    unfold is_block at 1. destruct (_ && _); [done|].
    apply IH; [done|set_solver|simpl in Hf; lia].
Qed.

Lemma find_unused_spec l x c f :
  linked l (head :: c ++ [x]) -> head ∉ c -> (length c < f)%nat ->
  find_unused l (b_prev (l !!! x)) f = Some (List.find (is_free l) (rev c)).
Proof.
  revert x f; induction c as [|y c IH] using rev_ind; intros x f HL Hh Hf.
  - destruct f; [simpl in Hf; lia|]. simpl in HL. destruct HL as (_ & -> & _).
    cbn [find_unused List.find rev]. by rewrite Nat.eqb_refl.
  - destruct f; [simpl in Hf; lia|]. rewrite length_app in Hf. simpl in Hf.
    rewrite <- app_assoc in HL. cbn [app] in HL.
    rewrite (app_comm_cons c), linked_app in HL. destruct HL as [HL HR].
    simpl in HR. destruct HR as (_ & -> & _).
    rewrite rev_app_distr. cbn [find_unused rev app List.find].
    rewrite (proj2 (Nat.eqb_neq y head)) by set_solver.
    unfold is_free at 1. destruct (_ && _); [done|].
    apply IH; [done|set_solver|lia].
Qed.

Lemma find_rev_some {A} (f : A -> bool) c x :
  x ∈ c -> f x = true -> exists y, List.find f (rev c) = Some y.
Proof.
  intros Hx Hf. destruct (List.find f (rev c)) eqn:E; [eauto|].
  exfalso. pose proof (find_none _ _ E x) as H. rewrite <- in_rev in H.
  apply list_elem_of_In in Hx. specialize (H Hx). congruence.
Qed.

(** ** The cache invariant *)

(** The process that runs, and its id. *)
Definition running (p : pst) (pid : Z) : Prop :=
  exists i q, cur p = Some i /\ ptable p !! i = Some q /\ p_pid q = pid.

(** A buffer that the running process holds, or an idle one: idle and clean
    buffers agree with the disk. *)
Definition buf_ok (dk : list (list Z)) (pid : Z) (held : bool) (b : buf) : Prop :=
  length (b_data b) = BSIZE /\ Forall byte_ok (b_data b) /\
  ((b_flags b = 0 /\ b_dev b = 0) \/
   ((b_flags b = 2 \/ b_flags b = 6) /\ b_dev b = 1 /\
    0 <= b_blockno b < Z.of_nat (length dk))) /\
  (if held then b_refcnt b = 1 /\ b_lock b = mksl true pid /\ b_flags b <> 0
   else b_refcnt b = 0 /\ sl_locked (b_lock b) = false /\
     (b_flags b = 2 -> b_data b = dk !!! Z.to_nat (b_blockno b))).

Definition uniq (l : list buf) : Prop :=
  forall i j, (i < NBUF)%nat -> (j < NBUF)%nat -> b_dev (l !!! i) <> 0 ->
    b_dev (l !!! i) = b_dev (l !!! j) -> b_blockno (l !!! i) = b_blockno (l !!! j) ->
    i = j.

Definition disk_ok (s : bst) : Prop :=
  disksize s = Z.of_nat (length (disk s)) /\
  Forall (fun d => length d = BSIZE /\ Forall byte_ok d) (disk s).

(** The invariant, for a process [pid] that holds exactly the buffers [H]. *)
Record binv (s : bst) (pid : Z) (H : list nat) : Prop := mkbinv {
  bi_ring : exists c, ring (bufs s) c;
  bi_bufs : forall i, (i < NBUF)%nat ->
    buf_ok (disk s) pid (bool_decide (i ∈ H)) (bufs s !!! i);
  bi_uniq : uniq (bufs s);
  bi_disk : disk_ok s;
  bi_held : NoDup H /\ forall i, i ∈ H -> (i < NBUF)%nat;
  bi_proc : running (b_proc s) pid }.

(** What block [n] holds: the cached copy if there is one. *)
Definition view (s : bst) (n : Z) : list Z :=
  match List.find (is_block (bufs s) 1 n) (seq 0 NBUF) with
  | Some i => b_data (bufs s !!! i)
  | None => disk s !!! Z.to_nat n
  end.

Definition dirty (s : bst) (n : Z) : Prop :=
  exists i, (i < NBUF)%nat /\ is_block (bufs s) 1 n i = true /\ b_flags (bufs s !!! i) = 6.

Lemma is_block_true l dev n i :
  is_block l dev n i = true <-> b_dev (l !!! i) = dev /\ b_blockno (l !!! i) = n.
Proof. unfold is_block. rewrite andb_true_iff, !Z.eqb_eq. done. Qed.

Lemma find_block l n i :
  uniq l -> (i < NBUF)%nat -> is_block l 1 n i = true ->
  List.find (is_block l 1 n) (seq 0 NBUF) = Some i.
Proof.
  intros Hu Hi Hb. destruct (List.find _ _) as [j|] eqn:E.
  - apply find_some in E as [Hj E]. apply in_seq in Hj.
    apply is_block_true in Hb as [? ?], E as [? ?].
    f_equal. apply Hu; lia || congruence.
  - exfalso. pose proof (find_none _ _ E i) as Hn. rewrite in_seq in Hn.
    rewrite Hn in Hb by lia. done.
Qed.

Lemma find_no_block l n :
  (forall i, (i < NBUF)%nat -> is_block l 1 n i = false) ->
  List.find (is_block l 1 n) (seq 0 NBUF) = None.
Proof.
  intros Hn. destruct (List.find _ _) as [j|] eqn:E; [|done].
  apply find_some in E as [Hj E]. apply in_seq in Hj. rewrite Hn in E by lia. done.
Qed.

Lemma view_cached s n i :
  uniq (bufs s) -> (i < NBUF)%nat -> is_block (bufs s) 1 n i = true ->
  view s n = b_data (bufs s !!! i).
Proof. intros. unfold view. by rewrite (find_block _ _ i). Qed.

Lemma view_uncached s n :
  (forall i, (i < NBUF)%nat -> is_block (bufs s) 1 n i = false) ->
  view s n = disk s !!! Z.to_nat n.
Proof. intros. unfold view. by rewrite find_no_block. Qed.

Lemma find_ext_block l l' m :
  (forall m j, is_block l' 1 m j = is_block l 1 m j) -> forall c,
  List.find (is_block l' 1 m) c = List.find (is_block l 1 m) c.
Proof. intros Hb c. induction c as [|x c IH]; simpl; [done|]. by rewrite Hb, IH. Qed.

(** Searching the list order or the array gives the same buffer. *)
Lemma find_block_perm l c n :
  uniq l -> c ≡ₚ seq 0 NBUF ->
  List.find (is_block l 1 n) c = List.find (is_block l 1 n) (seq 0 NBUF).
Proof.
  intros Hu Hp. destruct (List.find _ c) as [j|] eqn:E.
  - apply find_some in E as [Hj E]. symmetry. apply find_block; [done| |done].
    apply list_elem_of_In in Hj. rewrite Hp, elem_of_seq in Hj. lia.
  - symmetry. apply find_no_block. intros i Hi.
    apply (find_none _ _ E i). apply list_elem_of_In. rewrite Hp, elem_of_seq. lia.
Qed.

(** ** Running the primitives *)

#[local] Arguments NBUF : simpl never.
#[local] Arguments head : simpl never.
#[local] Arguments find_cached : simpl never.
#[local] Arguments find_unused : simpl never.
#[local] Arguments upd_buf : simpl never.

Lemma mypid_running p pid : running p pid -> mypid p = Ret pid p.
Proof.
  intros (i & q & Hc & Hq & <-). unfold mypid, myproc, getproc, deref.
  unfold mbind, M_bind. rewrite Hc. simpl. by rewrite Hq.
Qed.

Lemma running_wakeup p pid ch :
  running p pid -> running (set_ptable (wakeup1 ch (ptable p)) p) pid.
Proof.
  intros (i & q & Hc & Hq & Hp). unfold running. simpl.
  exists i. unfold wakeup1. setoid_rewrite list_lookup_fmap. rewrite Hq. simpl.
  eexists. split_and!; [done..|]. by case_decide.
Qed.

Lemma set_bproc_id s : set_bproc (b_proc s) s = s.
Proof. by destruct s. Qed.

Lemma set_bufs_id s : set_bufs (bufs s) s = s.
Proof. by destruct s. Qed.

Lemma lookup_total_lookup (l : list buf) i :
  (i < length l)%nat -> l !! i = Some (l !!! i).
Proof. intros. by apply list_lookup_lookup_total_lt. Qed.

Lemma getbuf_lt s i :
  (i < length (bufs s))%nat -> getbuf i s = Ret (bufs s !!! i) s.
Proof. intros H. unfold getbuf, deref. by rewrite lookup_total_lookup. Qed.

Lemma holding_buf_true s i pid :
  running (b_proc s) pid -> (i < length (bufs s))%nat ->
  b_lock (bufs s !!! i) = mksl true pid -> holding_buf i s = Ret true s.
Proof.
  intros Hr Hi Hl. unfold holding_buf, holdingsleep, deref, buf_lock.
  unfold mbind, M_bind. rewrite lookup_total_lookup by done. simpl. rewrite Hl. simpl.
  unfold zoom. rewrite (mypid_running _ pid) by done. simpl.
  rewrite set_bproc_id, Z.eqb_refl. done.
Qed.

Lemma acquire_buf_free s i pid :
  running (b_proc s) pid -> (i < length (bufs s))%nat ->
  sl_locked (b_lock (bufs s !!! i)) = false ->
  acquire_buf i s = Ret tt (upd_buf i (set_lock (mksl true pid)) s).
Proof.
  intros Hr Hi Hl. unfold acquire_buf, acquiresleep, deref, buf_lock.
  unfold mbind, M_bind. rewrite lookup_total_lookup by done. simpl. rewrite Hl.
  unfold zoom. rewrite (mypid_running _ pid) by done. simpl.
  by rewrite set_bproc_id.
Qed.

Lemma upd_buf_upd i f g s : upd_buf i f (upd_buf i g s) = upd_buf i (fun b => f (g b)) s.
Proof.
  unfold upd_buf, set_bufs. simpl. f_equal. apply list_eq. intros j.
  destruct (decide (i = j)) as [<-|]; [|by rewrite !list_lookup_alter_ne].
  rewrite !list_lookup_alter_eq. by destruct (bufs s !! i).
Qed.

Lemma bufs_upd i f s j :
  bufs (upd_buf i f s) !!! j =
    if decide (i = j /\ (i < length (bufs s))%nat) then f (bufs s !!! j) else bufs s !!! j.
Proof. apply lookup_total_alter. Qed.

Lemma bufs_upd_eq i f s :
  (i < length (bufs s))%nat -> bufs (upd_buf i f s) !!! i = f (bufs s !!! i).
Proof. intros. by rewrite bufs_upd, decide_True. Qed.

Lemma bufs_upd_ne i f s j : i <> j -> bufs (upd_buf i f s) !!! j = bufs s !!! j.
Proof. intros. rewrite bufs_upd, decide_False; naive_solver. Qed.

Lemma length_upd i f s : length (bufs (upd_buf i f s)) = length (bufs s).
Proof. apply length_alter. Qed.

Lemma binv_len s pid H : binv s pid H -> length (bufs s) = S NBUF.
Proof. intros [(c & _ & _ & Hl) _ _ _ _ _]. done. Qed.

(** A buffer update that keeps the links keeps the ring. *)
Definition keeps_links (g : buf -> buf) (b : buf) : Prop :=
  b_prev (g b) = b_prev b /\ b_next (g b) = b_next b.

Lemma ring_alter l c i g :
  ring l c -> keeps_links g (l !!! i) -> ring (alter g i l) c.
Proof.
  intros (HL & Hp & Hlen) [K1 K2]. split_and!; [|done|by rewrite length_alter].
  apply (linked_ext l); [done|intros k y _ _|intros k y _];
    rewrite lookup_total_alter; case_decide; naive_solver.
Qed.

Lemma binv_upd s pid H H' i g :
  binv s pid H -> (i < NBUF)%nat -> keeps_links g (bufs s !!! i) ->
  buf_ok (disk s) pid (bool_decide (i ∈ H')) (g (bufs s !!! i)) ->
  uniq (bufs (upd_buf i g s)) ->
  (forall j, j <> i -> j ∈ H' <-> j ∈ H) -> NoDup H' ->
  binv (upd_buf i g s) pid H'.
Proof.
  intros HB Hi Hk Hok Hu HH Hnd. pose proof (binv_len _ _ _ HB) as Hlen.
  destruct HB as [(c & Hc) Hb _ Hd [_ Hh] Hp]. split; try done.
  - exists c. by apply ring_alter.
  - intros j Hj. change (disk (upd_buf i g s)) with (disk s).
    destruct (decide (j = i)) as [->|Hne].
    + rewrite bufs_upd_eq by lia. done.
    + rewrite bufs_upd_ne by done.
      rewrite (bool_decide_ext (j ∈ H') (j ∈ H)) by auto. auto.
  - split; [done|]. intros j Hj. destruct (decide (j = i)) as [->|]; [done|].
    apply Hh, HH; done.
Qed.

(** ** bread *)

(** What bread leaves in the buffer it returns. *)
Definition read_into (s : bst) (pid n : Z) (i : nat) (b' : buf) : Prop :=
  b_dev b' = 1 /\ b_blockno b' = n /\ b_refcnt b' = 1 /\ b_lock b' = mksl true pid /\
  b_data b' = view s n /\
  b_prev b' = b_prev (bufs s !!! i) /\ b_next b' = b_next (bufs s !!! i) /\
  (is_block (bufs s) 1 n i = true /\ b_flags b' = b_flags (bufs s !!! i) \/
   (forall j, (j < NBUF)%nat -> is_block (bufs s) 1 n j = false) /\ b_flags b' = 2 /\
   is_free (bufs s) i = true).

Lemma bget_search s c :
  ring (bufs s) c -> uniq (bufs s) -> forall n,
  find_cached (bufs s) 1 n (b_next (bufs s !!! head)) (S NBUF) =
    Some (List.find (is_block (bufs s) 1 n) (seq 0 NBUF)) /\
  find_unused (bufs s) (b_prev (bufs s !!! head)) (S NBUF) =
    Some (List.find (is_free (bufs s)) (rev c)).
Proof.
  intros HR Hu n. destruct (ring_facts _ _ HR) as (_ & Hh & _ & _ & _).
  destruct HR as (HL & Hp & _).
  assert (length c = NBUF) as Hc by (rewrite Hp; apply length_seq). split.
  - rewrite (find_cached_spec _ _ _ _ c) by (done || lia).
    by rewrite find_block_perm.
  - apply find_unused_spec; done || lia.
Qed.

Lemma bread_cached s pid H n i :
  binv s pid H -> (i < NBUF)%nat -> i ∉ H -> is_block (bufs s) 1 n i = true ->
  bread 1 n s = Ret i (upd_buf i (fun b =>
    set_lock (mksl true pid) (set_refcnt (u32 (b_refcnt b + 1)) b)) s).
Proof.
  intros HB Hi HiH Hb. pose proof (binv_len _ _ _ HB) as Hlen.
  destruct HB as [(c & Hc) Hbufs Hu Hd [Hnd Hh] Hp].
  destruct (bget_search s c Hc Hu n) as [Hf _].
  specialize (Hbufs i Hi). rewrite bool_decide_false in Hbufs by done.
  destruct Hbufs as (_ & _ & Hfl & Hr & Hl & _).
  apply is_block_true in Hb as Hb'. destruct Hb' as [Hdev Hbn].
  destruct Hfl as [[_ ?]|(Hfl & _)]; [lia|].
  unfold bread. erewrite bind_ret.
  2:{ unfold bget. erewrite bind_ret by reflexivity.
      rewrite Hf, (find_block _ _ i) by done.
      unfold modify, mbind, M_bind.
      rewrite (acquire_buf_free _ i pid); [done|done|by rewrite length_upd; lia|].
      by rewrite bufs_upd_eq by lia. }
  rewrite upd_buf_upd. erewrite bind_ret by (apply getbuf_lt; rewrite length_upd; lia).
  rewrite bufs_upd_eq by lia. simpl.
  destruct Hfl as [-> | ->]; done.
Qed.

Lemma bread_uncached s pid H n j :
  binv s pid H -> 0 <= n < disksize s ->
  (forall i, (i < NBUF)%nat -> is_block (bufs s) 1 n i = false) ->
  (j < NBUF)%nat -> is_free (bufs s) j = true ->
  exists i, (i < NBUF)%nat /\ is_free (bufs s) i = true /\
  bread 1 n s = Ret i (upd_buf i (fun b =>
    mkbuf 2 1 n (mksl true pid) 1 (b_prev b) (b_next b) (disk s !!! Z.to_nat n)) s).
Proof.
  intros HB Hn Hno Hj Hfree. pose proof (binv_len _ _ _ HB) as Hlen.
  destruct HB as [(c & Hc) Hbufs Hu Hd [Hnd Hh] Hp].
  destruct (bget_search s c Hc Hu n) as [Hf1 Hf2].
  destruct (ring_facts _ _ Hc) as (_ & _ & Hin & _ & _).
  destruct (find_rev_some (is_free (bufs s)) c j) as (i & Hi); [by apply Hin|done|].
  rewrite Hi in Hf2. rewrite (find_no_block _ _ Hno) in Hf1.
  apply find_some in Hi as [Hic Hif]. apply in_rev, list_elem_of_In, Hin in Hic.
  exists i. split_and!; [done..|].
  specialize (Hbufs i Hic). destruct Hbufs as (_ & _ & _ & Hheld).
  assert (Hl : sl_locked (b_lock (bufs s !!! i)) = false).
  { unfold is_free in Hif. zbool. destruct (bool_decide (i ∈ H)); [lia|]. naive_solver. }
  unfold bread. erewrite bind_ret.
  2:{ unfold bget. erewrite bind_ret by reflexivity. rewrite Hf1, Hf2.
      unfold modify, mbind, M_bind.
      rewrite (acquire_buf_free _ i pid); [done|done|by rewrite length_upd; lia|].
      by rewrite bufs_upd_eq by lia. }
  rewrite upd_buf_upd. set (s1 := upd_buf _ _ s).
  assert (H1 : bufs s1 !!! i = set_lock (mksl true pid) (recycle 1 n (bufs s !!! i))).
  { subst s1. by rewrite bufs_upd_eq by lia. }
  assert (Hl1 : length (bufs s1) = S NBUF) by (subst s1; by rewrite length_upd).
  erewrite bind_ret by (apply getbuf_lt; lia).
  rewrite H1. simpl. erewrite bind_ret; [reflexivity|].
  unfold iderw. erewrite bind_ret by (apply (holding_buf_true _ _ pid); [done|lia|by rewrite H1]).
  simpl. erewrite bind_ret by (apply getbuf_lt; lia). rewrite H1. simpl.
  unfold mbind, M_bind, gets, modify. simpl.
  change (disksize s1) with (disksize s). rewrite (proj2 (Z.leb_gt _ _)) by (pose proof (u32_le n); lia).
  subst s1. rewrite !upd_buf_upd. done.
Qed.

Definition same_disk (s s' : bst) : Prop :=
  disk s' = disk s /\ disksize s' = disksize s /\ dwrites s' = dwrites s.

Lemma view_same s s' :
  disk s' = disk s ->
  (forall j, (j < NBUF)%nat -> b_dev (bufs s' !!! j) = b_dev (bufs s !!! j) /\
     b_blockno (bufs s' !!! j) = b_blockno (bufs s !!! j) /\
     b_data (bufs s' !!! j) = b_data (bufs s !!! j)) ->
  forall m, view s' m = view s m.
Proof.
  intros Hd Hj m. unfold view.
  assert (Hf : forall l, (forall j, j ∈ l -> (j < NBUF)%nat) ->
    List.find (is_block (bufs s') 1 m) l = List.find (is_block (bufs s) 1 m) l).
  { induction l as [|x l IH]; intros Hl; [done|]. cbn [List.find].
    rewrite IH by (intros; apply Hl; set_solver).
    unfold is_block. destruct (Hj x) as (-> & -> & _); [apply Hl; set_solver|done]. }
  rewrite Hf by (intros j; rewrite elem_of_seq; lia). rewrite Hd.
  destruct (List.find _ _) as [i|] eqn:E; [|done].
  apply find_some in E as [Hi _]. apply in_seq in Hi.
  destruct (Hj i) as (_ & _ & ->); [lia|done].
Qed.

(** An idle buffer that may be recycled holds what the disk holds. *)
Lemma free_agrees s pid H i m :
  binv s pid H -> (i < NBUF)%nat -> is_free (bufs s) i = true ->
  is_block (bufs s) 1 m i = true ->
  view s m = disk s !!! Z.to_nat m /\ i ∉ H /\ b_flags (bufs s !!! i) = 2.
Proof.
  intros HB Hi Hf Hb. apply is_block_true in Hb as Hb'. destruct Hb' as [Hdev <-].
  rewrite (view_cached _ _ i) by (done || apply HB).
  pose proof (bi_bufs _ _ _ HB i Hi) as (_ & _ & Hfl & Hh).
  unfold is_free in Hf. zbool.
  assert (b_flags (bufs s !!! i) = 2) as H2.
  { destruct Hfl as [[_ ?]|([?|E] & _)]; [lia|done|].
    rewrite E in *. done. }
  case_bool_decide; [lia|]. split_and!; [|done..]. by apply Hh.
Qed.

Lemma is_block_upd s i g n j :
  (i < length (bufs s))%nat ->
  is_block (bufs (upd_buf i g s)) 1 n j =
    if decide (i = j)
    then (b_dev (g (bufs s !!! i)) =? 1) && (b_blockno (g (bufs s !!! i)) =? n)
    else is_block (bufs s) 1 n j.
Proof.
  intros. unfold is_block. destruct (decide (i = j)) as [<-|Hne].
  - by rewrite bufs_upd_eq.
  - by rewrite bufs_upd_ne.
Qed.

(** Putting block [n], cached nowhere, into the free buffer [i]. *)
Section Recycle.
Context (s : bst) (pid : Z) (H : list nat) (n : Z) (i : nat) (b' : buf).
Hypothesis HB : binv s pid H.
Hypothesis Hi : (i < NBUF)%nat.
Hypothesis Hdev : b_dev b' = 1.
Hypothesis Hbn : b_blockno b' = n.
Hypothesis Hdata : b_data b' = view s n.
Hypothesis Hfl : b_flags b' = 2.
Hypothesis Hno : forall j, (j < NBUF)%nat -> is_block (bufs s) 1 n j = false.
Hypothesis Hfree : is_free (bufs s) i = true.
Let s' := upd_buf i (fun _ => b') s.

Lemma recycle_eq : bufs s' !!! i = b'.
Proof using HB Hi.
  pose proof (binv_len _ _ _ HB). subst s'. rewrite bufs_upd_eq by lia. done.
Qed.

Lemma recycle_block m j :
  is_block (bufs s') 1 m j = if decide (i = j) then n =? m else is_block (bufs s) 1 m j.
Proof using HB Hi Hbn Hdev.
  pose proof (binv_len _ _ _ HB). subst s'. rewrite is_block_upd by lia.
  case_decide; [|done]. by rewrite Hdev, Hbn.
Qed.

Lemma recycle_uniq : uniq (bufs s').
Proof using HB Hi Hbn Hdev Hno.
  intros j k Hj Hk Hd E1 E2.
  assert (Hnob : forall x, (x < NBUF)%nat -> b_dev (bufs s !!! x) = 1 ->
    b_blockno (bufs s !!! x) = n -> False).
  { intros x Hx ? ?. specialize (Hno x Hx).
    rewrite (proj2 (is_block_true _ _ _ _)) in Hno; done. }
  pose proof recycle_eq as Heq.
  destruct (decide (i = j)) as [<-|Hij], (decide (i = k)) as [<-|Hik]; [done|..].
  - exfalso. rewrite Heq in E1, E2. unfold s' in E1, E2. rewrite bufs_upd_ne in E1, E2 by done.
    apply (Hnob k Hk); congruence.
  - exfalso. rewrite Heq in E1, E2. unfold s' in E1, E2. rewrite bufs_upd_ne in E1, E2 by done.
    apply (Hnob j Hj); congruence.
  - unfold s' in *. rewrite !bufs_upd_ne in * by done.
    by apply (bi_uniq _ _ _ HB).
Qed.

Lemma recycle_view m : view s' m = view s m.
Proof using HB Hi Hbn Hdev Hno Hfree Hdata.
  pose proof recycle_uniq as Hu'. pose proof (bi_uniq _ _ _ HB) as Hu.
  destruct (Z.eqb_spec n m) as [<-|Hnm].
  { rewrite (view_cached s' n i) by (done || rewrite recycle_block, decide_True by done;
      apply Z.eqb_refl). by rewrite recycle_eq. }
  destruct (List.find (is_block (bufs s) 1 m) (seq 0 NBUF)) as [k|] eqn:E.
  - apply find_some in E as [Hk E]. apply in_seq in Hk.
    destruct (decide (i = k)) as [<-|Hik].
    + destruct (free_agrees _ _ _ _ _ HB Hi Hfree E) as (-> & _ & _).
      rewrite view_uncached; [done|]. intros j Hj. rewrite recycle_block.
      case_decide as Hij; [by apply Z.eqb_neq|].
      destruct (is_block (bufs s) 1 m j) eqn:E2; [|done].
      apply is_block_true in E as [? ?], E2 as [? ?].
      exfalso. apply Hij, Hu; lia || congruence.
    + rewrite (view_cached s' m k), (view_cached s m k); try done; try lia.
      * unfold s'. by rewrite bufs_upd_ne.
      * by rewrite recycle_block, decide_False.
  - assert (Hn : forall j, (j < NBUF)%nat -> is_block (bufs s) 1 m j = false).
    { intros j Hj. apply (find_none _ _ E), in_seq. lia. }
    rewrite !view_uncached; [done|done|]. intros j Hj. rewrite recycle_block.
    case_decide; [by apply Z.eqb_neq|auto].
Qed.

Lemma recycle_dirty m : dirty s' m <-> dirty s m.
Proof using HB Hi Hbn Hdev Hno Hfree Hfl.
  unfold dirty. split; intros (j & Hj & Hx & Hy); exists j;
    destruct (decide (i = j)) as [<-|Hij].
  - rewrite recycle_eq in Hy. lia.
  - rewrite recycle_block, decide_False in Hx by done. unfold s' in Hy.
    by rewrite bufs_upd_ne in Hy.
  - destruct (free_agrees _ _ _ _ _ HB Hi Hfree Hx) as (_ & _ & ?). lia.
  - rewrite recycle_block, decide_False by done. unfold s'. by rewrite bufs_upd_ne.
Qed.
End Recycle.

(** Reading block [n] into buffer [i]: either the buffer had it, or nobody
    had it and [i] was free. *)
Lemma view_read s pid H n i b' :
  binv s pid H -> (i < NBUF)%nat -> read_into s pid n i b' ->
  let s' := upd_buf i (fun _ => b') s in
  uniq (bufs s') /\
  (forall m, view s' m = view s m) /\ (forall m, dirty s' m <-> dirty s m).
Proof.
  intros HB Hi (Hdev & Hbn & _ & _ & Hdata & _ & _ & Hcase) s'.
  pose proof (binv_len _ _ _ HB) as Hlen. pose proof (bi_uniq _ _ _ HB) as Hu.
  destruct Hcase as [[Hb Hfl]|(Hno & Hfl & Hfree)].
  - apply is_block_true in Hb as Hb'. destruct Hb' as [Hd0 Hn0].
    assert (Hsame : forall j, (j < NBUF)%nat ->
      b_dev (bufs s' !!! j) = b_dev (bufs s !!! j) /\
      b_blockno (bufs s' !!! j) = b_blockno (bufs s !!! j) /\
      b_data (bufs s' !!! j) = b_data (bufs s !!! j) /\
      b_flags (bufs s' !!! j) = b_flags (bufs s !!! j)).
    { intros j Hj. subst s'. destruct (decide (i = j)) as [<-|]; [|by rewrite bufs_upd_ne].
      rewrite bufs_upd_eq by lia. split_and!; try congruence.
      rewrite Hdata. by rewrite (view_cached _ _ i). }
    split_and!.
    + intros j k Hj Hk.
      destruct (Hsame j Hj) as (-> & -> & _), (Hsame k Hk) as (-> & -> & _). by apply Hu.
    + apply view_same; [done|]. intros j Hj. by destruct (Hsame j Hj) as (? & ? & ? & _).
    + intros m. unfold dirty, is_block. split; intros (j & Hj & Hx & Hy); exists j;
        destruct (Hsame j Hj) as (E1 & E2 & _ & E4); rewrite ?E1, ?E2, ?E4 in *; done.
  - split_and!.
    + by apply (recycle_uniq s pid H n).
    + intros m. by apply (recycle_view s pid H n).
    + intros m. by apply (recycle_dirty s pid H n).
Qed.

Lemma upd_buf_const i g s :
  (i < length (bufs s))%nat -> upd_buf i g s = upd_buf i (fun _ => g (bufs s !!! i)) s.
Proof.
  intros Hi. unfold upd_buf. f_equal. apply list_eq. intros j.
  destruct (decide (i = j)) as [<-|]; [|by rewrite !list_lookup_alter_ne].
  rewrite !list_lookup_alter_eq, lookup_total_lookup by done. done.
Qed.

(** bread finds or loads the block: some buffer ends up read into. *)
Lemma bread_runs s pid H n :
  binv s pid H -> 0 <= n < disksize s ->
  (forall i, i ∈ H -> b_blockno (bufs s !!! i) <> n) ->
  (exists j, (j < NBUF)%nat /\
    (is_block (bufs s) 1 n j = true \/ is_free (bufs s) j = true)) ->
  exists i b', (i < NBUF)%nat /\ i ∉ H /\ read_into s pid n i b' /\
    bread 1 n s = Ret i (upd_buf i (fun _ => b') s).
Proof.
  intros HB Hn HH (j0 & Hj0 & Hcase). pose proof (binv_len _ _ _ HB) as Hlen.
  destruct (List.find (is_block (bufs s) 1 n) (seq 0 NBUF)) as [i|] eqn:E.
  - apply find_some in E as [Hi E]. apply in_seq in Hi.
    apply is_block_true in E as E'. destruct E' as [Hd0 Hn0].
    assert (Hi' : (i < NBUF)%nat) by lia.
    assert (HiH : i ∉ H) by (intros Hin; by apply (HH i Hin)).
    eexists i, _. split_and!; [done..| |].
    2:{ rewrite (bread_cached s pid H n i) by done. rewrite upd_buf_const by lia. done. }
    pose proof (bi_bufs _ _ _ HB i Hi') as (_ & _ & _ & Hh).
    rewrite bool_decide_false in Hh by done. destruct Hh as (Hr & _).
    unfold read_into. simpl. rewrite Hr. split_and!; try done.
    + by rewrite (view_cached _ _ i) by (done || apply HB).
    + by left.
  - assert (Hno : forall i, (i < NBUF)%nat -> is_block (bufs s) 1 n i = false).
    { intros j Hj. apply (find_none _ _ E), in_seq. lia. }
    assert (Hf0 : is_free (bufs s) j0 = true).
    { destruct Hcase as [Hc|]; [|done]. rewrite Hno in Hc; done. }
    destruct (bread_uncached s pid H n j0 HB Hn Hno Hj0 Hf0) as (i & Hi & Hfi & Hr).
    eexists i, _. split_and!; [done| | |].
    3:{ rewrite Hr, upd_buf_const by lia. done. }
    + pose proof (bi_bufs _ _ _ HB i Hi) as (_ & _ & _ & Hh).
      unfold is_free in Hfi. zbool. intros Hin. rewrite bool_decide_true in Hh by done. lia.
    + unfold read_into. simpl. split_and!; try done.
      * by rewrite view_uncached.
      * by right.
Qed.

Lemma view_len s pid H n :
  binv s pid H -> 0 <= n < disksize s ->
  length (view s n) = BSIZE /\ Forall byte_ok (view s n).
Proof.
  intros HB Hn. unfold view. destruct (List.find _ _) as [i|] eqn:E.
  - apply find_some in E as [Hi _]. apply in_seq in Hi.
    destruct (bi_bufs _ _ _ HB i ltac:(lia)) as (? & ? & _). done.
  - destruct (bi_disk _ _ _ HB) as [Hsz Hd].
    apply (Forall_lookup_1 _ _ (Z.to_nat n) _ Hd).
    apply list_lookup_lookup_total_lt. lia.
Qed.

Lemma bread_ok s pid H n :
  binv s pid H -> 0 <= n < disksize s ->
  (forall i, i ∈ H -> b_blockno (bufs s !!! i) <> n) ->
  (exists j, (j < NBUF)%nat /\
    (is_block (bufs s) 1 n j = true \/ is_free (bufs s) j = true)) ->
  exists i s', bread 1 n s = Ret i s' /\ i ∉ H /\ binv s' pid (i :: H) /\
    is_block (bufs s') 1 n i = true /\ b_data (bufs s' !!! i) = view s n /\
    (forall m, view s' m = view s m) /\ (forall m, dirty s' m <-> dirty s m) /\
    same_disk s s' /\ (forall j, j <> i -> bufs s' !!! j = bufs s !!! j) /\
    b_proc s' = b_proc s /\
    (b_flags (bufs s' !!! i) = 2 -> view s n = disk s !!! Z.to_nat n).
Proof.
  intros HB Hn HH Hex. pose proof (binv_len _ _ _ HB) as Hlen.
  destruct (bread_runs s pid H n HB Hn HH Hex) as (i & b' & Hi & HiH & Hrd & Hr).
  destruct (view_read s pid H n i b' HB Hi Hrd) as (Hu & Hv & Hdt).
  destruct (view_len s pid H n HB Hn) as [Hvl Hvb].
  destruct Hrd as (Hdev & Hbn & Hrc & Hlk & Hdat & Hpv & Hnx & Hc).
  eexists i, _. split_and!; [exact Hr|done|..]; try done.
  - apply (binv_upd s pid H); try done.
    + rewrite bool_decide_true by set_solver.
      assert (Hfl : b_flags b' = 2 \/ b_flags b' = 6).
      { destruct Hc as [[Hb ->]|(_ & -> & _)]; [|by left].
        apply is_block_true in Hb as [Hd1 _].
        destruct (bi_bufs _ _ _ HB i Hi) as (_ & _ & [[_ ?]|[? _]] & _); [lia|done]. }
      destruct (bi_disk _ _ _ HB) as [Hsz _]. unfold buf_ok. rewrite Hdat, Hbn.
      split_and!; try done; [right; split_and!; (done || lia)|lia].
    + intros j Hj. set_solver.
    + apply NoDup_cons. split; [done|]. apply HB.
  - rewrite is_block_upd, decide_True by (done || lia). by rewrite Hdev, Hbn, !Z.eqb_refl.
  - rewrite bufs_upd_eq by lia. done.
  - intros j Hj. by rewrite bufs_upd_ne.
  - rewrite bufs_upd_eq by lia. intros Hf2. destruct Hc as [[Hb Hfl]|(Hno & _)].
    + rewrite (view_cached _ _ i) by (done || apply HB).
      destruct (bi_bufs _ _ _ HB i Hi) as (_ & _ & _ & Hh).
      rewrite bool_decide_false in Hh by done. destruct Hh as (_ & _ & ->); [|congruence].
      apply is_block_true in Hb as [_ ->]. done.
    + by rewrite view_uncached.
Qed.

(** ** Changing a held buffer, writing it, releasing it *)

Lemma binv_perm s pid H H' : binv s pid H -> H ≡ₚ H' -> binv s pid H'.
Proof.
  intros [? Hb ? ? [Hnd Hh] ?] HP. split; try done.
  - intros i Hi. rewrite (bool_decide_ext (i ∈ H') (i ∈ H)) by (by rewrite HP). auto.
  - split; [by rewrite <- HP|]. intros i. rewrite <- HP. auto.
Qed.

(** A held buffer: locked by the process, valid, in range. *)
Lemma held_facts s pid H i :
  binv s pid H -> i ∈ H ->
  (i < NBUF)%nat /\ (i < length (bufs s))%nat /\
  is_block (bufs s) 1 (b_blockno (bufs s !!! i)) i = true /\
  (b_flags (bufs s !!! i) = 2 \/ b_flags (bufs s !!! i) = 6) /\
  0 <= b_blockno (bufs s !!! i) < disksize s /\
  b_refcnt (bufs s !!! i) = 1 /\ b_lock (bufs s !!! i) = mksl true pid /\
  length (b_data (bufs s !!! i)) = BSIZE /\ Forall byte_ok (b_data (bufs s !!! i)).
Proof.
  intros HB Hin. pose proof (binv_len _ _ _ HB) as Hlen.
  destruct (bi_held _ _ _ HB) as [_ Hlt]. specialize (Hlt i Hin).
  destruct (bi_bufs _ _ _ HB i Hlt) as (? & ? & Hfl & Hh).
  rewrite bool_decide_true in Hh by done. destruct Hh as (? & ? & Hne).
  destruct (bi_disk _ _ _ HB) as [Hsz _].
  destruct Hfl as [[? _]|(? & Hd & ?)]; [lia|].
  split_and!; try done; try lia. apply is_block_true. done.
Qed.

Lemma uniq_upd s i g :
  uniq (bufs s) -> b_dev (g (bufs s !!! i)) = b_dev (bufs s !!! i) ->
  b_blockno (g (bufs s !!! i)) = b_blockno (bufs s !!! i) -> uniq (bufs (upd_buf i g s)).
Proof.
  intros Hu E1 E2.
  assert (Hs : forall j, b_dev (bufs (upd_buf i g s) !!! j) = b_dev (bufs s !!! j) /\
    b_blockno (bufs (upd_buf i g s) !!! j) = b_blockno (bufs s !!! j)).
  { intros j. rewrite bufs_upd. case_decide as Hc; [|done]. by destruct Hc as [<- _]. }
  intros j k Hj Hk. destruct (Hs j) as [-> ->], (Hs k) as [-> ->]. by apply Hu.
Qed.

(** Storing into a held buffer: the view of its block changes at once. *)
Lemma bstore_ok s pid H i d :
  binv s pid H -> i ∈ H -> length d = BSIZE -> Forall byte_ok d ->
  let s' := upd_buf i (set_data d) s in
  bstore i d s = Ret tt s' /\ binv s' pid H /\
  (forall m, view s' m = if decide (m = b_blockno (bufs s !!! i)) then d else view s m) /\
  (forall m, dirty s' m <-> dirty s m).
Proof.
  intros HB Hin Hd Hdb s'.
  destruct (held_facts _ _ _ _ HB Hin) as (Hi & Hil & Hb & Hfl & Hrg & Hrc & Hlk & Hdl & _).
  assert (Hu : uniq (bufs s')) by (apply uniq_upd; [apply HB|done..]).
  assert (Hbk : forall m j, is_block (bufs s') 1 m j = is_block (bufs s) 1 m j).
  { intros m j. subst s'. rewrite is_block_upd by done. by case_decide; subst. }
  split_and!; [done|..].
  - apply (binv_upd s pid H); try done; [|apply HB].
    destruct (bi_bufs _ _ _ HB i Hi) as (_ & _ & Hx & Hh).
    rewrite bool_decide_true in * by done. done.
  - intros m. case_decide as Hm.
    + subst m. rewrite (view_cached s' _ i) by (done || by rewrite Hbk).
      subst s'. by rewrite bufs_upd_eq.
    + unfold view. rewrite (find_ext_block _ _ m Hbk).
      destruct (List.find _ _) as [j|] eqn:E; [|done].
      apply find_some in E as [_ E]. apply is_block_true in E as [_ E].
      subst s'. rewrite bufs_upd_ne; [done|]. congruence.
  - intros m. unfold dirty. split; intros (j & Hj & Hx & Hy); exists j;
      rewrite Hbk in *; subst s'; rewrite bufs_upd in *; case_decide; done.
Qed.

Lemma write_disk_upd n d i f s :
  write_disk n d (upd_buf i f s) = upd_buf i f (write_disk n d s).
Proof. done. Qed.

Definition after_write (i : nat) (s : bst) : bst :=
  upd_buf i (set_flags 2)
    (write_disk (b_blockno (bufs s !!! i)) (b_data (bufs s !!! i)) s).

Lemma bwrite_runs s pid H i :
  binv s pid H -> i ∈ H -> bwrite i s = Ret tt (after_write i s).
Proof.
  intros HB Hin.
  destruct (held_facts _ _ _ _ HB Hin) as (Hi & Hil & Hb & Hfl & Hrg & Hrc & Hlk & _ & _).
  pose proof (bi_proc _ _ _ HB) as Hp. apply is_block_true in Hb as [Hdev _].
  unfold bwrite. erewrite bind_ret by (by apply (holding_buf_true _ _ pid)). simpl.
  erewrite bind_ret by reflexivity.
  set (s1 := upd_buf i _ s).
  assert (H1 : bufs s1 !!! i = set_flags 6 (bufs s !!! i)).
  { subst s1. rewrite bufs_upd_eq by done. destruct Hfl as [-> | ->]; done. }
  assert (Hl1 : length (bufs s1) = length (bufs s)) by (subst s1; by rewrite length_upd).
  unfold iderw. erewrite bind_ret by (apply (holding_buf_true _ _ pid);
    [done|lia|by rewrite H1]). simpl.
  erewrite bind_ret by (apply getbuf_lt; lia). rewrite H1. simpl. rewrite Hdev. simpl.
  unfold mbind, M_bind, gets, modify. simpl.
  change (disksize s1) with (disksize s). rewrite (proj2 (Z.leb_gt _ _)) by (pose proof (u32_le (b_blockno (bufs s !!! i))); lia).
  unfold after_write. subst s1. repeat (rewrite write_disk_upd || rewrite upd_buf_upd).
  f_equal.
  rewrite upd_buf_const by exact Hil. symmetry. rewrite upd_buf_const by exact Hil.
  simpl. f_equal. destruct Hfl as [-> | ->]; done.
Qed.

Section AfterWrite.
Context (s : bst) (pid : Z) (H : list nat) (i : nat).
Hypothesis HB : binv s pid H.
Hypothesis Hin : i ∈ H.
Let n := b_blockno (bufs s !!! i).
Let s' := after_write i s.

Lemma after_write_bufs j :
  bufs s' !!! j = if decide (i = j) then set_flags 2 (bufs s !!! i) else bufs s !!! j.
Proof using HB Hin.
  destruct (held_facts _ _ _ _ HB Hin) as (_ & Hil & _).
  unfold s', after_write. case_decide as Hij; [|by rewrite bufs_upd_ne].
  subst j. by rewrite bufs_upd_eq.
Qed.

Lemma after_write_block m j : is_block (bufs s') 1 m j = is_block (bufs s) 1 m j.
Proof using HB Hin.
  unfold is_block. rewrite after_write_bufs. by case_decide; subst.
Qed.

(** Only buffer [i] caches block [n]. *)
Lemma after_write_other j :
  (j < NBUF)%nat -> i <> j -> b_dev (bufs s !!! j) = 1 -> b_blockno (bufs s !!! j) <> n.
Proof using HB Hin.
  destruct (held_facts _ _ _ _ HB Hin) as (Hi & _ & Hb & _).
  apply is_block_true in Hb as [Hd _].
  intros Hj Hij Hdj E. apply Hij, (bi_uniq _ _ _ HB); try done; [lia|congruence].
Qed.

Lemma after_write_inv : binv s' pid H.
Proof using HB Hin.
  destruct (held_facts _ _ _ _ HB Hin) as (Hi & Hil & Hb & Hfl & Hrg & Hrc & Hlk & Hdl & Hdb).
  destruct (bi_disk _ _ _ HB) as [Hsz Hdk]. apply is_block_true in Hb as [Hd _].
  assert (Hdisk : disk s' = <[Z.to_nat n := b_data (bufs s !!! i)]> (disk s)) by done.
  split; try apply HB.
  - destruct (bi_ring _ _ _ HB) as (c & Hc). exists c. by apply ring_alter.
  - intros j Hj. rewrite Hdisk, after_write_bufs.
    destruct (bi_bufs _ _ _ HB j Hj) as (B1 & B2 & B3 & B4).
    unfold buf_ok. rewrite length_insert. destruct (decide (i = j)) as [Hij|Hij].
    + subst j. rewrite bool_decide_true in * by done. simpl.
      split_and!; try done; [right|by destruct B4..].
      split_and!; try done; [by left|lia..].
    + split_and!; [done..|]. case_bool_decide; [done|].
      destruct B4 as (? & ? & Hcl). split_and!; try done. intros Hf2.
      destruct B3 as [[? _]|(_ & Hd2 & Hr2)]; [lia|].
      pose proof (after_write_other j Hj Hij Hd2) as Hne. unfold n in *.
      rewrite list_lookup_total_insert_ne; [by apply Hcl|lia].
  - intros j k Hj Hk. pose proof (bi_uniq _ _ _ HB j k Hj Hk) as Hx.
    rewrite !after_write_bufs. repeat case_decide; subst; done.
  - split; [by rewrite Hdisk, length_insert|]. rewrite Hdisk. by apply Forall_insert.
Qed.

Lemma after_write_view m : 0 <= m -> view s' m = view s m.
Proof using HB Hin.
  destruct (held_facts _ _ _ _ HB Hin) as (Hi & _ & Hb & _ & Hrg & _).
  intros Hm. unfold view. rewrite (find_ext_block _ _ m after_write_block).
  destruct (List.find _ _) as [j|] eqn:E.
  - rewrite after_write_bufs. by case_decide; subst.
  - assert (m <> n).
    { intros ->. pose proof (find_none _ _ E i ltac:(apply in_seq; lia)) as Hx.
      change (is_block (bufs s) 1 n i = true) in Hb. congruence. }
    unfold s', after_write. simpl. rewrite list_lookup_total_insert_ne; [done|].
    unfold n in *. lia.
Qed.

Lemma after_write_dirty m : dirty s' m <-> dirty s m /\ m <> n.
Proof using HB Hin.
  destruct (held_facts _ _ _ _ HB Hin) as (Hi & _ & Hb & _).
  unfold dirty. setoid_rewrite after_write_block. setoid_rewrite after_write_bufs. split.
  - intros (j & Hj & Hx & Hy). case_decide as Hij; [simpl in Hy; lia|].
    split; [eauto|]. apply is_block_true in Hx as [Hd <-]. by apply after_write_other.
  - intros ((j & Hj & Hx & Hy) & Hm). exists j. split_and!; try done.
    rewrite decide_False; [done|]. intros <-. apply is_block_true in Hx as [_ Hx]. done.
Qed.
End AfterWrite.

(** The fields of a buffer other than its links, its lock and its count. *)
Definition same_block (b b' : buf) : Prop :=
  b_flags b' = b_flags b /\ b_dev b' = b_dev b /\ b_blockno b' = b_blockno b /\
  b_data b' = b_data b.

Lemma move_to_front_fields i l j :
  same_block (l !!! j) (move_to_front i l !!! j) /\
  b_refcnt (move_to_front i l !!! j) = b_refcnt (l !!! j) /\
  b_lock (move_to_front i l !!! j) = b_lock (l !!! j).
Proof.
  assert (Hf : forall f k (l0 : list buf),
    (forall b, same_block b (f b) /\ b_refcnt (f b) = b_refcnt b /\ b_lock (f b) = b_lock b) ->
    same_block (l !!! j) (l0 !!! j) /\ b_refcnt (l0 !!! j) = b_refcnt (l !!! j) /\
      b_lock (l0 !!! j) = b_lock (l !!! j) ->
    same_block (l !!! j) (alter f k l0 !!! j) /\
      b_refcnt (alter f k l0 !!! j) = b_refcnt (l !!! j) /\
      b_lock (alter f k l0 !!! j) = b_lock (l !!! j)).
  { intros f k l0 Hp Hl. rewrite lookup_total_alter. case_decide; [|done].
    destruct (Hp (l0 !!! j)) as ((E1 & E2 & E3 & E4) & E5 & E6).
    unfold same_block in *. rewrite E1, E2, E3, E4, E5, E6. exact Hl. }
  unfold move_to_front, push_front, unlink. cbv zeta.
  repeat (apply Hf; [done|]). done.
Qed.

Definition after_release (i : nat) (s : bst) : bst :=
  set_bproc (set_ptable (wakeup1 (ChBufLock i) (ptable (b_proc s))) (b_proc s))
    (set_bufs (move_to_front i
      (alter (fun b => set_refcnt (u32 (b_refcnt b - 1)) (set_lock (mksl false 0) b)) i
        (bufs s))) s).

Lemma brelse_runs s pid H i :
  binv s pid H -> i ∈ H -> brelse i s = Ret tt (after_release i s).
Proof.
  intros HB Hin.
  destruct (held_facts _ _ _ _ HB Hin) as (Hi & Hil & Hb & Hfl & Hrg & Hrc & Hlk & _ & _).
  pose proof (bi_proc _ _ _ HB) as Hp.
  unfold brelse. erewrite bind_ret by (by apply (holding_buf_true _ _ pid)). simpl.
  erewrite bind_ret by reflexivity. erewrite bind_ret by reflexivity.
  set (s1 := upd_buf i _ _).
  assert (E1 : bufs s1 = alter (fun b =>
    set_refcnt (u32 (b_refcnt b - 1)) (set_lock (mksl false 0) b)) i (bufs s)).
  { exact (f_equal bufs (upd_buf_upd i (fun b => set_refcnt (u32 (b_refcnt b - 1)) b)
      (set_lock (mksl false 0)) s)). }
  erewrite bind_ret by (apply getbuf_lt; rewrite E1, length_alter; lia).
  rewrite E1, lookup_total_alter, decide_True by done. simpl. rewrite Hrc. simpl.
  unfold modify, after_release. rewrite E1. done.
Qed.

Section Release.
Context (s : bst) (pid : Z) (H : list nat) (i : nat).
Hypothesis HB : binv s pid (i :: H).
(** An unlogged change must not be released. *)
Hypothesis Hclean : b_flags (bufs s !!! i) = 2 ->
  b_data (bufs s !!! i) = disk s !!! Z.to_nat (b_blockno (bufs s !!! i)).
Let s' := after_release i s.

Lemma after_release_bufs j :
  same_block (bufs s !!! j) (bufs s' !!! j) /\
  (j <> i -> b_refcnt (bufs s' !!! j) = b_refcnt (bufs s !!! j) /\
             b_lock (bufs s' !!! j) = b_lock (bufs s !!! j)) /\
  (j = i -> b_refcnt (bufs s' !!! j) = 0 /\ b_lock (bufs s' !!! j) = mksl false 0).
Proof using HB.
  clear Hclean.
  destruct (held_facts _ _ _ i HB) as (Hi & Hil & _ & _ & _ & Hrc & _); [set_solver|].
  unfold s', after_release. cbn [bufs set_bproc set_bufs].
  unfold same_block. match goal with |- context [move_to_front i ?l] =>
    destruct (move_to_front_fields i l j) as ((-> & -> & -> & ->) & -> & ->) end.
  rewrite !lookup_total_alter. case_decide as Hc.
  - destruct Hc as [<- _]. simpl. rewrite Hrc. split_and!; done.
  - split_and!; try done. intros ->. exfalso. by apply Hc.
Qed.

Lemma after_release_block m j : is_block (bufs s') 1 m j = is_block (bufs s) 1 m j.
Proof using HB.
  unfold is_block. by destruct (after_release_bufs j) as ((_ & -> & -> & _) & _).
Qed.

Lemma after_release_inv : binv s' pid H.
Proof using HB Hclean.
  destruct (held_facts _ _ _ i HB) as (Hi & Hil & Hb & Hfl & _); [set_solver|].
  destruct (bi_held _ _ _ HB) as [Hnd Hlt]. apply NoDup_cons in Hnd as [HiH Hnd].
  split.
  - destruct (bi_ring _ _ _ HB) as (c & Hc).
    assert (Hic : i ∈ c) by (by apply (ring_facts _ _ Hc)).
    apply list_elem_of_split in Hic as (c1 & c2 & ->).
    exists (i :: c1 ++ c2). unfold s', after_release. simpl.
    apply move_to_front_ring, ring_alter; done.
  - intros j Hj. destruct (bi_bufs _ _ _ HB j Hj) as (B1 & B2 & B3 & B4).
    destruct (after_release_bufs j) as ((F1 & F2 & F3 & F4) & Fne & Feq).
    unfold buf_ok. rewrite F1, F2, F3, F4. split_and!; [done..|].
    destruct (decide (j = i)) as [->|Hji].
    + rewrite bool_decide_false by done. destruct (Feq eq_refl) as [-> ->]. done.
    + destruct (Fne Hji) as [-> ->].
      rewrite (bool_decide_ext (j ∈ H) (j ∈ i :: H)) by set_solver. done.
  - intros j k Hj Hk. destruct (after_release_bufs j) as ((_ & -> & -> & _) & _).
    destruct (after_release_bufs k) as ((_ & -> & -> & _) & _). by apply HB.
  - apply HB.
  - split; [done|]. intros j Hj. apply Hlt. set_solver.
  - apply running_wakeup, HB.
Qed.

Lemma after_release_view m : view s' m = view s m.
Proof using HB.
  apply view_same; [done|]. intros j _.
  by destruct (after_release_bufs j) as ((_ & -> & -> & ->) & _).
Qed.

Lemma after_release_dirty m : dirty s' m <-> dirty s m.
Proof using HB.
  unfold dirty. setoid_rewrite after_release_block.
  split; intros (j & Hj & Hx & Hy); exists j;
    destruct (after_release_bufs j) as ((E & _) & _); rewrite E in *; done.
Qed.
End Release.

(** A buffer is free when the held and dirty blocks leave room. *)
Lemma free_buffer s pid H (T : list Z) :
  binv s pid H -> (forall m, dirty s m -> m ∈ T) ->
  (length H + length T < NBUF)%nat ->
  exists j, (j < NBUF)%nat /\ is_free (bufs s) j = true.
Proof.
  intros HB HT Hlen.
  destruct (decide (Exists (fun j => is_free (bufs s) j = true) (seq 0 NBUF))) as [He|He].
  { apply Exists_exists in He as (j & Hj & Hf). apply elem_of_seq in Hj.
    exists j. split; [lia|done]. }
  exfalso. apply not_Exists_Forall in He; [|solve_decision].
  rewrite Forall_forall in He.
  set (bn := fun j => b_blockno (bufs s !!! j)).
  assert (Hbusy : forall j, (j < NBUF)%nat ->
    b_dev (bufs s !!! j) = 1 /\ (j ∈ H \/ bn j ∈ T)).
  { intros j Hj. specialize (He j). rewrite elem_of_seq in He. specialize (He ltac:(lia)).
    cbv beta in He. apply not_true_is_false in He.
    destruct (bi_bufs _ _ _ HB j Hj) as (_ & _ & Hfl & Hh).
    case_bool_decide as Hin.
    - split; [|by left]. destruct Hfl as [[? _]|(_ & ? & _)]; [|done].
      destruct Hh as (_ & _ & ?). done.
    - destruct Hh as (Hr & _). unfold is_free in He. rewrite Hr in He. simpl in He.
      destruct Hfl as [[E _]|([E|E] & Hd & _)]; rewrite E in He; try done.
      split; [done|]. right. apply HT. exists j. split_and!; try done.
      by apply is_block_true. }
  assert (Hnd : NoDup (bn <$> seq 0 NBUF)).
  { apply NoDup_fmap_2_strong; [|apply NoDup_seq].
    intros j k Hj Hk E. apply elem_of_seq in Hj, Hk.
    destruct (Hbusy j ltac:(lia)) as [D1 _], (Hbusy k ltac:(lia)) as [D2 _].
    unfold bn in E. apply (bi_uniq _ _ _ HB); lia || congruence. }
  assert (Hincl : incl (bn <$> seq 0 NBUF) ((bn <$> H) ++ T)).
  { intros x Hx. apply list_elem_of_In in Hx. apply list_elem_of_In.
    apply list_elem_of_fmap in Hx as (j & -> & Hj). apply elem_of_seq in Hj.
    destruct (Hbusy j ltac:(lia)) as [_ [Hx|Hx]]; [|set_solver].
    apply elem_of_app. left. by apply list_elem_of_fmap_2. }
  apply NoDup_ListNoDup in Hnd.
  apply (NoDup_incl_length Hnd) in Hincl.
  rewrite length_app, !length_fmap, length_seq in Hincl. lia.
Qed.

(** ** Reading a block and releasing it, copying one block over another *)

(** A sequence of block writes, on a disk and on one block. *)
Definition apply_writes (W : list (Z * list Z)) (D : list (list Z)) : list (list Z) :=
  fold_left (fun d w => <[Z.to_nat w.1 := w.2]> d) W D.

Definition after_writes (W : list (Z * list Z)) (m : Z) (d : list Z) : list Z :=
  fold_left (fun acc w => if decide (m = w.1) then w.2 else acc) W d.

(** A routine that returns in a state as good as the old one, where the
    blocks read as [V] and the disk has received the writes [W]. *)
Record effect (s s' : bst) (pid : Z) (H : list nat) (V : Z -> list Z)
    (D : Z -> Prop) (W : list (Z * list Z)) : Prop := mkeffect {
  ef_inv : binv s' pid H;
  ef_view : forall m, 0 <= m -> view s' m = V m;
  ef_dirty : forall m, dirty s' m <-> D m;
  ef_writes : dwrites s' = dwrites s ++ W;
  ef_disk : disk s' = apply_writes W (disk s);
  ef_size : disksize s' = disksize s }.

Lemma brelse_ok s pid H i :
  binv s pid (i :: H) ->
  (b_flags (bufs s !!! i) = 2 ->
   b_data (bufs s !!! i) = disk s !!! Z.to_nat (b_blockno (bufs s !!! i))) ->
  exists s', brelse i s = Ret tt s' /\ effect s s' pid H (view s) (dirty s) [] /\
    (forall j, same_block (bufs s !!! j) (bufs s' !!! j)).
Proof.
  intros HB Hcl. exists (after_release i s). split_and!.
  - apply (brelse_runs s pid (i :: H)); [done|set_solver].
  - split.
    + by apply after_release_inv.
    + intros m _. by apply (after_release_view s pid H).
    + intros m. by apply (after_release_dirty s pid H).
    + by rewrite app_nil_r.
    + done.
    + done.
  - intros j. by apply (after_release_bufs s pid H).
Qed.

(** Whether block [n] can be brought into the cache. *)
Definition available (s : bst) (n : Z) : Prop :=
  exists j, (j < NBUF)%nat /\
    (is_block (bufs s) 1 n j = true \/ is_free (bufs s) j = true).

Lemma available_dirty s n : dirty s n -> available s n.
Proof. intros (j & Hj & Hb & _). exists j. auto. Qed.

Lemma available_room s pid H (T : list Z) n :
  binv s pid H -> (forall m, dirty s m -> m ∈ T) ->
  (length H + length T < NBUF)%nat -> available s n.
Proof.
  intros HB HT Hl. destruct (free_buffer s pid H T HB HT Hl) as (j & ? & ?).
  exists j. auto.
Qed.

(** bread, the contents, brelse. *)
Lemma read_block_ok s pid H n :
  binv s pid H -> 0 <= n < disksize s ->
  (forall i, i ∈ H -> b_blockno (bufs s !!! i) <> n) -> available s n ->
  exists i s1 s2, bread 1 n s = Ret i s1 /\ bdata i s1 = Ret (view s n) s1 /\
    brelse i s1 = Ret tt s2 /\ effect s s2 pid H (view s) (dirty s) [] /\
    (forall j, j ∈ H -> same_block (bufs s !!! j) (bufs s2 !!! j)).
Proof.
  intros HB Hn HH Hav.
  destruct (bread_ok s pid H n HB Hn HH Hav)
    as (i & s1 & Hr & HiH & HB1 & Hb & Hd & Hv & Hdt & (Hk & Hsz & Hw) & Hne & Hp & Hcl).
  destruct (held_facts _ _ _ i HB1) as (_ & Hil & _); [set_solver|].
  apply is_block_true in Hb as [_ Hbn].
  destruct (brelse_ok s1 pid H i HB1) as (s2 & Hr2 & [E1 E2 E3 E4 E5 E6] & Hsb).
  { intros Hf. by rewrite Hd, Hbn, Hk, <- Hcl. }
  exists i, s1, s2. split_and!; try done.
  - unfold bdata. erewrite bind_ret by (by apply getbuf_lt). by rewrite Hd.
  - split; try done.
    + intros m Hm. by rewrite E2, Hv.
    + intros m. by rewrite E3, Hdt.
    + by rewrite E4, Hw.
    + by rewrite E5, Hk.
    + by rewrite E6, Hsz.
  - intros j Hj. rewrite <- (Hne j) by set_solver. apply Hsb.
Qed.

(** bstore then bwrite of a held buffer. *)
Lemma write_held_ok s pid H i d :
  binv s pid H -> i ∈ H -> length d = BSIZE -> Forall byte_ok d ->
  let n := b_blockno (bufs s !!! i) in
  exists s1 s', bstore i d s = Ret tt s1 /\ bwrite i s1 = Ret tt s' /\
    effect s s' pid H (fun m => if decide (m = n) then d else view s m)
      (fun m => dirty s m /\ m <> n) [(n, d)] /\
    bufs s' !!! i = set_flags 2 (set_data d (bufs s !!! i)) /\
    (forall j, j <> i -> bufs s' !!! j = bufs s !!! j).
Proof.
  intros HB Hin Hd Hdb n.
  destruct (held_facts _ _ _ _ HB Hin) as (_ & Hil & _).
  destruct (bstore_ok s pid H i d HB Hin Hd Hdb) as (Hr & HB1 & Hv & Hdt).
  set (s1 := upd_buf i (set_data d) s) in *.
  assert (Hb1 : bufs s1 !!! i = set_data d (bufs s !!! i)) by (by apply bufs_upd_eq).
  exists s1, (after_write i s1). split_and!; [done|by apply (bwrite_runs s1 pid H)|..].
  - split.
    + by apply after_write_inv.
    + intros m Hm. rewrite (after_write_view s1 pid H) by done. apply Hv.
    + intros m. rewrite (after_write_dirty s1 pid H), Hdt, Hb1 by done. done.
    + unfold after_write. cbn -[bufs]. rewrite Hb1. done.
    + unfold after_write. cbn -[bufs]. rewrite Hb1. done.
    + done.
  - rewrite (after_write_bufs s1 pid H), decide_True, Hb1 by done. done.
  - intros j Hj. rewrite (after_write_bufs s1 pid H), decide_False by done.
    by apply bufs_upd_ne.
Qed.

(** After two blocks have been read, one is copied over the other, written,
    and both are released, the source first. *)
Lemma copy_tail_ok s pid H x y :
  binv s pid (y :: x :: H) ->
  (b_flags (bufs s !!! y) = 2 ->
   b_data (bufs s !!! y) = disk s !!! Z.to_nat (b_blockno (bufs s !!! y))) ->
  b_blockno (bufs s !!! x) <> b_blockno (bufs s !!! y) ->
  let n := b_blockno (bufs s !!! x) in
  let d := b_data (bufs s !!! y) in
  exists s1 s2 s3 s4, bdata y s = Ret d s /\ bstore x d s = Ret tt s1 /\
    bwrite x s1 = Ret tt s2 /\ brelse y s2 = Ret tt s3 /\ brelse x s3 = Ret tt s4 /\
    effect s s4 pid H (fun m => if decide (m = n) then d else view s m)
      (fun m => dirty s m /\ m <> n) [(n, d)].
Proof.
  intros HB Hcl Hne n d.
  destruct (held_facts _ _ _ y HB) as (_ & Hyl & _ & _ & Hyr & _ & _ & Hd1 & Hd2); [set_solver|].
  destruct (held_facts _ _ _ x HB) as (_ & _ & _ & _ & Hxr & _); [set_solver|].
  assert (Hxy : y <> x) by congruence.
  destruct (write_held_ok s pid (y :: x :: H) x d HB ltac:(set_solver) Hd1 Hd2)
    as (s1 & s2 & R1 & R2 & [E1 E2 E3 E4 E5 E6] & Bx & Bo).
  destruct (brelse_ok s2 pid (x :: H) y E1) as (s3 & R3 & [F1 F2 F3 F4 F5 F6] & Sb).
  { rewrite (Bo y Hxy), E5. intros Hf. simpl. unfold n in *.
    rewrite list_lookup_total_insert_ne by lia. by apply Hcl. }
  destruct (Sb x) as (G1 & G2 & G3 & G4). rewrite Bx in G1, G2, G3, G4. simpl in *.
  destruct (brelse_ok s3 pid H x F1) as (s4 & R4 & [K1 K2 K3 K4 K5 K6] & _).
  { rewrite G3, G4, F5, E5. intros _.
    rewrite list_lookup_total_insert_eq; [done|].
    destruct (bi_disk _ _ _ HB) as [Hsz _]. unfold n. lia. }
  exists s1, s2, s3, s4. split_and!; try done.
  - unfold bdata. by erewrite bind_ret by (by apply getbuf_lt).
  - split; try done.
    + intros m Hm. by rewrite K2, F2, E2.
    + intros m. by rewrite K3, F3, E3.
    + by rewrite K4, F4, E4, !app_nil_r.
    + by rewrite K5, F5, E5.
    + by rewrite K6, F6, E6.
Qed.

(** Reading two different blocks. *)
Lemma read_two_ok s pid H a b :
  binv s pid H -> 0 <= a < disksize s -> 0 <= b < disksize s -> a <> b ->
  (forall i, i ∈ H -> b_blockno (bufs s !!! i) <> a /\ b_blockno (bufs s !!! i) <> b) ->
  available s a -> (forall s1, (exists i, binv s1 pid (i :: H)) ->
    (forall m, dirty s1 m <-> dirty s m) -> available s1 b) ->
  exists i j s1 s2, bread 1 a s = Ret i s1 /\ bread 1 b s1 = Ret j s2 /\
    binv s2 pid (j :: i :: H) /\
    b_blockno (bufs s2 !!! i) = a /\ b_data (bufs s2 !!! i) = view s a /\
    (b_flags (bufs s2 !!! i) = 2 -> view s a = disk s2 !!! Z.to_nat a) /\
    b_blockno (bufs s2 !!! j) = b /\ b_data (bufs s2 !!! j) = view s b /\
    (b_flags (bufs s2 !!! j) = 2 -> view s b = disk s2 !!! Z.to_nat b) /\
    effect s s2 pid (j :: i :: H) (view s) (dirty s) [].
Proof.
  intros HB Ha Hb Hab HH Hav Hav2.
  destruct (bread_ok s pid H a HB Ha ltac:(intros; by apply HH) Hav)
    as (i & s1 & R1 & HiH & HB1 & Hb1 & Hd1 & Hv1 & Ht1 & (Hk1 & Hs1 & Hw1) & Hne1 & _ & Hc1).
  apply is_block_true in Hb1 as [_ Hb1].
  destruct (bread_ok s1 pid (i :: H) b HB1) as (j & s2 & R2 & HjH & HB2 & Hb2 & Hd2 &
    Hv2 & Ht2 & (Hk2 & Hs2 & Hw2) & Hne2 & _ & Hc2).
  { by rewrite Hs1. }
  { intros k Hk. apply elem_of_cons in Hk as [->|Hk]; [congruence|].
    rewrite Hne1 by (intros ->; done). by apply HH. }
  { apply Hav2; [eauto|done]. }
  apply is_block_true in Hb2 as [_ Hb2].
  assert (Hij : i <> j) by set_solver.
  exists i, j, s1, s2. rewrite (Hne2 i Hij), Hk2, Hk1. split_and!; try done.
  - by rewrite Hd2, Hv1.
  - intros Hf. rewrite <- Hv1, <- Hk1. by apply Hc2.
  - split; try done.
    + intros m _. by rewrite Hv2, Hv1.
    + intros m. by rewrite Ht2, Ht1.
    + by rewrite Hw2, Hw1, app_nil_r.
    + by rewrite Hk2, Hk1.
    + by rewrite Hs2, Hs1.
Qed.

(** ** Sequences of writes *)

Lemma length_apply_writes W D : length (apply_writes W D) = length D.
Proof.
  revert D; induction W as [|w W IH]; intros D; [done|].
  unfold apply_writes in *. cbn [fold_left]. by rewrite IH, length_insert.
Qed.

Lemma apply_writes_app W1 W2 D :
  apply_writes (W1 ++ W2) D = apply_writes W2 (apply_writes W1 D).
Proof. apply fold_left_app. Qed.

Lemma after_writes_app W1 W2 m d :
  after_writes (W1 ++ W2) m d = after_writes W2 m (after_writes W1 m d).
Proof. apply fold_left_app. Qed.

Lemma lookup_apply_writes W D m :
  Forall (fun w => 0 <= w.1 < Z.of_nat (length D)) W -> 0 <= m ->
  apply_writes W D !!! Z.to_nat m = after_writes W m (D !!! Z.to_nat m).
Proof.
  intros HW Hm. revert D HW; induction W as [|[n d] W IH]; intros D HW; [done|].
  apply Forall_cons in HW as [Hn HW]. simpl in Hn.
  unfold apply_writes, after_writes in *. cbn [fold_left fst snd].
  rewrite IH by (by rewrite length_insert). f_equal. case_decide as Hd.
  - subst. rewrite list_lookup_total_insert_eq by lia. done.
  - rewrite list_lookup_total_insert_ne by lia. done.
Qed.

Lemma after_writes_other W m d : m ∉ W.*1 -> after_writes W m d = d.
Proof.
  unfold after_writes. revert d; induction W as [|w W IH]; intros d Hm; [done|].
  cbn in *. rewrite decide_False by set_solver. apply IH. set_solver.
Qed.

Lemma after_writes_in W m d d' : m ∈ W.*1 -> after_writes W m d = after_writes W m d'.
Proof.
  unfold after_writes. revert d d'; induction W as [|w W IH]; intros d d' Hm; cbn in *;
    [by apply not_elem_of_nil in Hm|].
  case_decide; [done|]. apply IH. set_solver.
Qed.

(** Writing again what was, in part, already written. *)
Lemma after_writes_again W k m d :
  after_writes W m (after_writes (take k W) m d) = after_writes W m d.
Proof.
  destruct (decide (m ∈ W.*1)); [by apply after_writes_in|].
  rewrite (after_writes_other (take k W)); [done|].
  rewrite fmap_take. intros Hx. apply list_elem_of_lookup_1 in Hx as (i & Hi).
  apply lookup_take_Some in Hi as [Hi _]. by apply list_elem_of_lookup_2 in Hi.
Qed.

(** The blocks [W] were written, and nothing else changed. *)
Definition wrote (s s' : bst) (pid : Z) (W : list (Z * list Z)) : Prop :=
  effect s s' pid [] (fun m => after_writes W m (view s m))
    (fun m => dirty s m /\ m ∉ W.*1) W.

Lemma wrote_nil s pid : binv s pid [] -> wrote s s pid [].
Proof. split; try done; [set_solver|by rewrite app_nil_r]. Qed.

Lemma wrote_app s s1 s2 pid W1 W2 :
  wrote s s1 pid W1 -> wrote s1 s2 pid W2 -> wrote s s2 pid (W1 ++ W2).
Proof.
  intros [A1 A2 A3 A4 A5 A6] [B1 B2 B3 B4 B5 B6]. split; try done.
  - intros m Hm. by rewrite B2, A2, after_writes_app.
  - intros m. rewrite B3, A3, fmap_app, elem_of_app. tauto.
  - by rewrite B4, A4, (assoc (++)).
  - by rewrite B5, A5, apply_writes_app.
  - by rewrite B6, A6.
Qed.

(** A block that is neither held nor dirty reads as the disk. *)
Lemma view_clean s pid m : binv s pid [] -> ~ dirty s m -> view s m = disk s !!! Z.to_nat m.
Proof.
  intros HB Hd. unfold view. destruct (List.find _ _) as [i|] eqn:E; [|done].
  apply find_some in E as [Hi Hb]. apply in_seq in Hi.
  destruct (bi_bufs _ _ _ HB i ltac:(lia)) as (_ & _ & Hf & Hh).
  rewrite bool_decide_false in Hh by set_solver. destruct Hh as (_ & _ & Hcl).
  pose proof Hb as Hb'. apply is_block_true in Hb' as [Hdev <-].
  destruct Hf as [[_ E0]|([Hf|Hf] & _)]; [lia|by apply Hcl|].
  exfalso. apply Hd. exists i. split_and!; done || lia.
Qed.

(** ** The cache at boot *)

Definition bufs0 : list buf := replicate (S NBUF) buf0.

(** Memory before binit, with a disk [D] attached. *)
Definition fresh (p : pst) (D : list (list Z)) : bst :=
  mkbst p bufs0 D (Z.of_nat (length D)) [].

(** The buffer array after binit. *)
Definition binit_bufs (l : list buf) : list buf :=
  fold_left (fun l i => binit_link i l) (seq 0 NBUF)
    (alter (fun b => set_next head (set_prev head b)) head l).

Lemma binit_runs s : binit s = Ret tt (set_bufs (binit_bufs (bufs s)) s).
Proof.
  unfold binit, mbind, M_bind, modify, binit_bufs, set_bufs.
  cbn [bufs b_proc disk disksize dwrites]. reflexivity.
Qed.

Definition bufs1 : list buf := binit_bufs bufs0.

Lemma bufs1_ring : ring bufs1 (rev (seq 0 NBUF)).
Proof.
  split_and!; [|symmetry; apply Permutation_rev|by vm_compute].
  vm_compute. repeat split.
Qed.

(** A buffer that has not been used yet. *)
Definition unused (b : buf) : Prop :=
  exists p n, b = mkbuf 0 0 0 sl0 0 p n (replicate BSIZE 0).

Lemma unused_alter f i l :
  (forall b, unused b -> unused (f b)) -> Forall unused l -> Forall unused (alter f i l).
Proof. intros Hf Hl. apply Forall_alter; [done|]. intros x _. apply Hf. Qed.

Lemma unused_set b i : unused b ->
  unused (set_prev i b) /\ unused (set_next i b) /\ unused (set_lock sl0 b).
Proof. intros (p & n & ->). split_and!; do 2 eexists; reflexivity. Qed.

Lemma bufs1_idle i : (i < NBUF)%nat ->
  exists p n, bufs1 !!! i = mkbuf 0 0 0 sl0 0 p n (replicate BSIZE 0).
Proof.
  intros Hi. assert (Hall : Forall unused bufs1).
  { unfold bufs1, binit_bufs. generalize (seq 0 NBUF). intros ks.
    assert (H0 : Forall unused (alter (fun b => set_next head (set_prev head b)) head bufs0)).
    { apply unused_alter; [intros b Hb; by apply unused_set, unused_set|].
      apply Forall_replicate. do 2 eexists. reflexivity. }
    revert H0. generalize (alter (fun b => set_next head (set_prev head b)) head bufs0).
    induction ks as [|k ks IH]; intros l Hl; [done|]. apply IH. unfold binit_link.
    repeat apply unused_alter; try done; intros b Hb; try by apply unused_set.
    by apply unused_set, unused_set, unused_set. }
  apply (Forall_lookup_1 unused bufs1 i); [done|].
  apply list_lookup_lookup_total_lt. destruct bufs1_ring as (_ & _ & ->). lia.
Qed.

(** A cache of unused buffers. *)
Lemma unused_cache p D pid l :
  (exists c, ring l c) ->
  (forall i, (i < NBUF)%nat -> exists p n, l !!! i = mkbuf 0 0 0 sl0 0 p n (replicate BSIZE 0)) ->
  running p pid -> Forall (fun d => length d = BSIZE /\ Forall byte_ok d) D ->
  let s' := set_bufs l (fresh p D) in
  binv s' pid [] /\ forall m, ~ dirty s' m.
Proof.
  intros HR Hidle Hp HD s'. split.
  - split; try done.
    + intros i Hi. destruct (Hidle i Hi) as (q & n & E). cbn [s' bufs set_bufs]. rewrite E.
      unfold buf_ok. split_and!; [apply length_replicate| |by left|done].
      apply Forall_replicate. unfold byte_ok. lia.
    + intros i j Hi Hj. cbn [s' bufs set_bufs]. destruct (Hidle i Hi) as (q & n & ->). done.
    + split; [apply NoDup_nil_2|set_solver].
  - intros m (i & Hi & _ & Hf). destruct (Hidle i Hi) as (q & n & E).
    cbn [s' bufs set_bufs] in Hf. rewrite E in Hf. done.
Qed.

Lemma binit_ok p D pid :
  running p pid -> Forall (fun d => length d = BSIZE /\ Forall byte_ok d) D ->
  exists s', binit (fresh p D) = Ret tt s' /\ binv s' pid [] /\
    disk s' = D /\ disksize s' = Z.of_nat (length D) /\ dwrites s' = [] /\
    (forall m, ~ dirty s' m).
Proof.
  intros Hp HD. exists (set_bufs bufs1 (fresh p D)).
  destruct (unused_cache p D pid bufs1) as [H1 H2]; try assumption.
  { eexists. apply bufs1_ring. }
  { apply bufs1_idle. }
  split_and!; [apply binit_runs|exact H1|reflexivity..|exact H2].
Qed.

(** ** Marking a held buffer dirty (the end of log_write) *)
Lemma set_dirty_ok s pid H i :
  binv s pid H -> i ∈ H ->
  let n := b_blockno (bufs s !!! i) in
  let s' := upd_buf i (fun x => set_flags (Z.lor (b_flags x) B_DIRTY) x) s in
  binv s' pid H /\ (forall m, view s' m = view s m) /\
  (forall m, dirty s' m <-> dirty s m \/ m = n) /\
  bufs s' !!! i = set_flags 6 (bufs s !!! i).
Proof.
  intros HB Hin n s'.
  destruct (held_facts _ _ _ _ HB Hin) as (Hi & Hil & Hb & Hfl & Hrg & _).
  assert (Hbi : bufs s' !!! i = set_flags 6 (bufs s !!! i)).
  { unfold s'. rewrite bufs_upd_eq by done. f_equal. by destruct Hfl as [-> | ->]. }
  assert (Hbk : forall m j, is_block (bufs s') 1 m j = is_block (bufs s) 1 m j).
  { intros m j. subst s'. rewrite is_block_upd by done. by case_decide; subst. }
  split_and!; [..|done].
  - apply (binv_upd s pid H); try done.
    + destruct (bi_bufs _ _ _ HB i Hi) as (B1 & B2 & B3 & B4).
      rewrite bool_decide_true in * by done. unfold buf_ok. cbn.
      assert (E : Z.lor (b_flags (bufs s !!! i)) B_DIRTY = 6) by (by destruct Hfl as [-> | ->]).
      rewrite E. destruct B4 as (? & ? & ?). split_and!; try done. right.
      destruct B3 as [[Hz _]|(_ & ? & ?)]; [destruct Hfl; lia|]. auto.
    + by apply uniq_upd; [apply HB|..].
    + apply HB.
  - apply view_same; [done|]. intros j _. unfold s'. rewrite bufs_upd. by case_decide.
  - intros m. unfold dirty. setoid_rewrite Hbk. split.
    + intros (j & Hj & Hx & Hy). destruct (decide (i = j)) as [<-|Hij].
      * right. apply is_block_true in Hx as [_ Hx]. done.
      * left. exists j. unfold s' in Hy. by rewrite bufs_upd_ne in Hy.
    + intros [(j & Hj & Hx & Hy)| ->].
      * exists j. split_and!; try done. unfold s'. rewrite bufs_upd. case_decide as Hc; [|done].
        cbn. by rewrite Hy.
      * exists i. by rewrite Hbi.
Qed.

(** ** A running process and a small disk, for the examples *)

Definition demo_p : pst :=
  set_cur (Some 0%nat) (upd_proc 0 (fun p => set_state RUNNING (set_pid 1 p)) pst0).

Lemma demo_running : running demo_p 1.
Proof. exists 0%nat. eexists. split_and!; reflexivity. Qed.

Lemma zero_block : length (replicate BSIZE 0) = BSIZE /\ Forall byte_ok (replicate BSIZE 0).
Proof. split; [apply length_replicate|]. apply Forall_replicate. unfold byte_ok. lia. Qed.

(** The cache after boot, over a disk of 40 blocks. *)
Definition demo_disk : list (list Z) := replicate 40 (replicate BSIZE 0).

Lemma demo_boot : exists s, binit (fresh demo_p demo_disk) = Ret tt s /\ binv s 1 [] /\
  disk s = demo_disk /\ disksize s = 40 /\ dwrites s = [] /\ (forall m, ~ dirty s m).
Proof.
  apply binit_ok; [apply demo_running|]. apply Forall_replicate, zero_block.
Qed.

(** One block read into the fresh cache. *)
Lemma demo_read : exists s i, binv s 1 [i] /\ b_blockno (bufs s !!! i) = 7 /\
  disk s = demo_disk /\ b_data (bufs s !!! i) = replicate BSIZE 0.
Proof.
  destruct demo_boot as (s & _ & HB & Hd & Hz & _ & Hn).
  destruct (bread_ok s 1 [] 7 HB) as (i & s1 & _ & _ & HB1 & Hb & Hdt & _ & _ & (Hk & _) & _);
    [lia|set_solver| |].
  { apply (available_room s 1 [] []); [done|intros m Hm; by apply Hn in Hm|apply Nat.lt_0_succ]. }
  apply is_block_true in Hb as [_ Hb]. exists s1, i.
  rewrite (view_clean s 1), Hd in Hdt by done.
  split; [exact HB1|]. split; [exact Hb|]. split; [by rewrite Hk|exact Hdt].
Qed.

(** ** Properties *)

(** C16: bread.  For a block in range that the process does not already hold:
    if the block is cached or some buffer can be recycled, bread returns a
    buffer, locked by the caller, that holds the block's current contents,
    and no block's contents, no dirty mark and no disk block changes; if the
    block is not cached and every buffer is in use or dirty, it panics. *)
Theorem bread_current (s : bst) (pid : Z) (H : list nat) (n : Z) :
  binv s pid H -> 0 <= n < disksize s ->
  (forall i, i ∈ H -> b_blockno (bufs s !!! i) <> n) ->
  if decide (Exists (fun j => is_block (bufs s) 1 n j = true \/ is_free (bufs s) j = true)
               (seq 0 NBUF))
  then exists i s', bread 1 n s = Ret i s' /\ i ∉ H /\ binv s' pid (i :: H) /\
    b_blockno (bufs s' !!! i) = n /\ b_data (bufs s' !!! i) = view s n /\
    (forall m, view s' m = view s m) /\ (forall m, dirty s' m <-> dirty s m) /\
    disk s' = disk s
  else bread 1 n s = Panic "bget: no buffers".
Proof.
  intros HB Hn HH. case_decide as He.
  - destruct (bread_ok s pid H n HB Hn HH)
      as (i & s' & R & Hi & HB' & Hb & Hd & Hv & Ht & (Hk & _) & _).
    + apply Exists_exists in He as (j & Hj & Hx). apply elem_of_seq in Hj. exists j. by split; [lia|].
    + apply is_block_true in Hb as [_ Hb]. exists i, s'. by split_and!.
  - assert (Hno : forall j, (j < NBUF)%nat ->
      is_block (bufs s) 1 n j = false /\ is_free (bufs s) j = false).
    { intros j Hj. rewrite <- !not_true_iff_false. split; intros Hx; apply He, Exists_exists;
        exists j; (split; [apply elem_of_seq; lia|auto]). }
    destruct (bi_ring _ _ _ HB) as (c & Hc).
    destruct (bget_search s c Hc (bi_uniq _ _ _ HB) n) as [Hf1 Hf2].
    destruct (ring_facts _ _ Hc) as (_ & _ & Hin & _ & _).
    rewrite find_no_block in Hf1 by (intros; by apply Hno).
    assert (Hf3 : List.find (is_free (bufs s)) (rev c) = None).
    { destruct (List.find _ _) as [j|] eqn:E; [|done]. apply find_some in E as [Hj Hx].
      apply in_rev, list_elem_of_In, Hin, Hno in Hj as [_ Hj]. congruence. }
    unfold bread, bget, mbind, M_bind, gets. by rewrite Hf1, Hf2, Hf3.
Qed.

Lemma bread_current_witness : exists s i s', bread 1 7 s = Ret i s' /\
  b_data (bufs s' !!! i) = replicate BSIZE 0.
Proof.
  destruct demo_boot as (s & _ & HB & Hd & Hz & _ & Hn).
  pose proof (bread_current s 1 [] 7 HB) as Hr. rewrite decide_True in Hr.
  - destruct Hr as (i & s' & R & _ & _ & _ & Hdt & _); [lia|set_solver|].
    rewrite (view_clean s 1), Hd in Hdt by done. by exists s, i, s'.
  - destruct (available_room s 1 [] [] 7 HB) as (j & Hj & Hx);
      [intros m Hm; by apply Hn in Hm|apply Nat.lt_0_succ|].
    apply Exists_exists. exists j. split; [apply elem_of_seq; lia|done].
Defined.

(** bwrite then brelse of a held buffer: the disk block holds the
    buffer's contents and the write is the last one the driver made; the
    buffer is unlocked and becomes the most recently used of the list, whose
    other buffers keep their order; everything still reads the same. *)
Theorem bwrite_brelse (s : bst) (pid : Z) (H : list nat) (i : nat) (c1 c2 : list nat) :
  binv s pid (i :: H) -> ring (bufs s) (c1 ++ i :: c2) ->
  let n := b_blockno (bufs s !!! i) in
  let d := b_data (bufs s !!! i) in
  exists s1 s2, bwrite i s = Ret tt s1 /\ brelse i s1 = Ret tt s2 /\
    binv s2 pid H /\ ring (bufs s2) (i :: c1 ++ c2) /\
    disk s2 = <[Z.to_nat n := d]> (disk s) /\ dwrites s2 = dwrites s ++ [(n, d)] /\
    forall m, 0 <= m -> view s2 m = view s m.
Proof.
  intros HB HR n d. assert (Hin : i ∈ i :: H) by set_solver.
  destruct (held_facts _ _ _ _ HB Hin) as (_ & Hil & _ & _ & Hrg & _).
  pose proof (after_write_inv s pid (i :: H) i HB Hin) as HB1.
  assert (Hb1 : bufs (after_write i s) !!! i = set_flags 2 (bufs s !!! i))
    by (rewrite (after_write_bufs s pid (i :: H)), decide_True; done).
  destruct (brelse_ok (after_write i s) pid H i HB1) as (s2 & R2 & [E1 E2 E3 E4 E5 E6] & _).
  { rewrite Hb1. intros _. cbn [b_data b_blockno set_flags].
    change (disk (after_write i s)) with (<[Z.to_nat n := d]> (disk s)). fold n.
    rewrite list_lookup_total_insert_eq; [done|].
    destruct (bi_disk _ _ _ HB) as [Hz _]. unfold n. lia. }
  exists (after_write i s), s2. split; [by apply (bwrite_runs s pid (i :: H))|]. split; [exact R2|].
  split; [exact E1|]. split.
  - rewrite (brelse_runs _ pid (i :: H)) in R2 by done. injection R2 as <-.
    unfold after_release. cbn [bufs set_bproc set_bufs].
    apply move_to_front_ring, ring_alter; [|done]. by apply ring_alter.
  - split; [by rewrite E5|]. split; [by rewrite E4, app_nil_r|].
    intros m Hm. rewrite E2 by done. by apply (after_write_view s pid (i :: H)).
Qed.

Lemma bwrite_brelse_witness : exists s i s1 s2, b_blockno (bufs s !!! i) = 7 /\
  bwrite i s = Ret tt s1 /\ brelse i s1 = Ret tt s2 /\ binv s2 1 [].
Proof.
  destruct demo_read as (s & i & HB & Hb & _).
  destruct (bi_ring _ _ _ HB) as (c & Hc).
  assert (Hic : i ∈ c).
  { apply (ring_facts _ _ Hc). apply (held_facts s 1 [i]); [done|set_solver]. }
  apply list_elem_of_split in Hic as (c1 & c2 & ->).
  destruct (bwrite_brelse s 1 [] i c1 c2 HB Hc) as (s1 & s2 & R1 & R2 & HB2 & _).
  exists s, i, s1, s2. split; [exact Hb|]. split; [exact R1|]. split; [exact R2|exact HB2].
Defined.
