(* ===== verification/Dev.v ===== *)
(** * Ports and interrupt controllers: x86.h, picirq.c, ioapic.c, lapic.c, uart.c

    The machine behind the port instructions and the memory-mapped registers
    is a parameter ([Device]): what an access gives and does.  The routines
    here are the sequences of accesses the code makes; what the devices
    promise is a class of laws per device, and the theorems say what the
    routines achieve with a device that keeps them: the I/O APIC's
    redirection table ([Ioapic]) and the clock ([Rtc]). *)

From stdpp Require Import base list strings.
From Stdlib Require Import ZArith Lia.
From S2P Require Import Prelude.

Local Open Scope Z_scope.

(** [d_load w a] and [d_store w a v] access [w] bytes of a memory-mapped
    device; [d_polls] bounds how often a status register is read before the
    device is ready. *)
Class Device (D : Type) : Type := {
  d_inb : Z -> D -> Z * D;
  d_outb : Z -> Z -> D -> D;
  d_insl : Z -> nat -> D -> list Z * D;
  d_outsl : Z -> list Z -> D -> D;
  d_load : nat -> Z -> D -> Z * D;
  d_store : nat -> Z -> Z -> D -> D;
  d_polls : D -> nat }.

Definition T_IRQ0 : Z := 32.
Definition IRQ_TIMER : Z := 0.
Definition IRQ_COM1 : Z := 4.
Definition IRQ_ERROR : Z := 19.
Definition IRQ_SPURIOUS : Z := 31.

Section Dev.
Context {D : Type} {DD : Device D}.

(** ** x86.h *)

Definition inb (port : Z) : M D Z := fun d => let r := d_inb port d in Ret (u8 r.1) r.2.
Definition outb (port v : Z) : M D unit := modify (d_outb port (u8 v)).
Definition insl (port : Z) (cnt : nat) : M D (list Z) := fun d => let r := d_insl port cnt d in Ret r.1 r.2.
Definition outsl (port : Z) (data : list Z) : M D unit := modify (d_outsl port data).
Definition mmload (w : nat) (a : Z) : M D Z := fun d => let r := d_load w a d in Ret r.1 r.2.
Definition mmstore (w : nat) (a v : Z) : M D unit := modify (d_store w a v).

(** ** picirq.c *)

Definition IO_PIC1 : Z := 32.
Definition IO_PIC2 : Z := 160.

Definition picinit : M D unit := outb (IO_PIC1 + 1) 255 ;; outb (IO_PIC2 + 1) 255.

(** ** ioapic.c: the structure's reg is at offset 0, data at offset 16 *)

Definition IOAPIC : Z := 4273995776.
Definition REG_ID : Z := 0.
Definition REG_VER : Z := 1.
Definition REG_TABLE : Z := 16.
Definition INT_DISABLED : Z := 65536.

Definition ioapicread (reg : Z) : M D Z := mmstore 4 IOAPIC reg ;; mmload 4 (IOAPIC + 16).
Definition ioapicwrite (reg data : Z) : M D unit := mmstore 4 IOAPIC reg ;; mmstore 4 (IOAPIC + 16) (u32 data).

(** The result says whether the message about the id is printed. *)
Definition ioapicinit (ioapicid : Z) : M D bool :=
  v ← ioapicread REG_VER;
  let maxintr := Z.land (Z.shiftr v 16) 255 in
  i ← ioapicread REG_ID;
  let id := Z.shiftr i 24 in
  forM 0 (Z.to_nat (maxintr + 1)) (fun i =>
    ioapicwrite (REG_TABLE + 2 * Z.of_nat i) (Z.lor INT_DISABLED (T_IRQ0 + Z.of_nat i)) ;;
    ioapicwrite (REG_TABLE + 2 * Z.of_nat i + 1) 0) ;;
  mret (negb (id =? ioapicid)).

Definition ioapicenable (irq cpunum : Z) : M D unit :=
  ioapicwrite (REG_TABLE + 2 * irq) (T_IRQ0 + irq) ;;
  ioapicwrite (REG_TABLE + 2 * irq + 1) (Z.shiftl cpunum 24).

(** ** lapic.c; [lapic] is the global pointer, 0 when null *)

Definition ID : Z := 8.
Definition VER : Z := 12.
Definition TPR : Z := 32.
Definition EOI : Z := 44.
Definition SVR : Z := 60.
Definition ENABLE : Z := 256.
Definition ESR : Z := 160.
Definition ICRLO : Z := 192.
Definition INIT : Z := 1280.
Definition STARTUP : Z := 1536.
Definition DELIVS : Z := 4096.
Definition ASSERT : Z := 16384.
Definition LEVEL : Z := 32768.
Definition BCAST : Z := 524288.
Definition ICRHI : Z := 196.
Definition TIMER : Z := 200.
Definition X1 : Z := 11.
Definition PERIODIC : Z := 131072.
Definition PCINT : Z := 208.
Definition LINT0 : Z := 212.
Definition LINT1 : Z := 216.
Definition ERROR : Z := 220.
Definition MASKED : Z := 65536.
Definition TICR : Z := 224.
Definition TDCR : Z := 248.

Definition lapicr (lapic index : Z) : M D Z := mmload 4 (lapic + 4 * index).
Definition lapicw (lapic index value : Z) : M D unit :=
  mmstore 4 (lapic + 4 * index) value ;; lapicr lapic ID ;; mret tt.

Fixpoint lapic_wait (lapic : Z) (fuel : nat) : M D unit :=
  match fuel with
  | O => nofuel
  | S f => v ← lapicr lapic ICRLO; if negb (Z.land v DELIVS =? 0) then lapic_wait lapic f else mret tt
  end.

Definition lapicinit (lapic : Z) : M D unit :=
  if lapic =? 0 then mret tt else
  lapicw lapic SVR (Z.lor ENABLE (T_IRQ0 + IRQ_SPURIOUS)) ;;
  lapicw lapic TDCR X1 ;;
  lapicw lapic TIMER (Z.lor PERIODIC (T_IRQ0 + IRQ_TIMER)) ;;
  lapicw lapic TICR 10000000 ;;
  lapicw lapic LINT0 MASKED ;;
  lapicw lapic LINT1 MASKED ;;
  v ← lapicr lapic VER;
  (if 4 <=? Z.land (Z.shiftr v 16) 255 then lapicw lapic PCINT MASKED else mret tt) ;;
  lapicw lapic ERROR (T_IRQ0 + IRQ_ERROR) ;;
  lapicw lapic ESR 0 ;;
  lapicw lapic ESR 0 ;;
  lapicw lapic EOI 0 ;;
  lapicw lapic ICRHI 0 ;;
  lapicw lapic ICRLO (Z.lor (Z.lor BCAST INIT) LEVEL) ;;
  n ← gets d_polls; lapic_wait lapic (S n) ;;
  lapicw lapic TPR 0.

Definition lapicid (lapic : Z) : M D Z :=
  if lapic =? 0 then mret 0 else v ← lapicr lapic ID; mret (Z.shiftr v 24).

Definition lapiceoi (lapic : Z) : M D unit := if lapic =? 0 then mret tt else lapicw lapic EOI 0.

Definition CMOS_PORT : Z := 112.
Definition CMOS_RETURN : Z := 113.

(** The warm reset vector is at P2V(0x40<<4 | 0x67). *)
Definition lapicstartap (lapic apicid addr : Z) : M D unit :=
  outb CMOS_PORT 15 ;;
  outb (CMOS_PORT + 1) 10 ;;
  let wrv := 2147483648 + Z.lor (Z.shiftl 64 4) 103 in
  mmstore 2 wrv 0 ;;
  mmstore 2 (wrv + 2) (u16 (Z.shiftr addr 4)) ;;
  lapicw lapic ICRHI (Z.shiftl apicid 24) ;;
  lapicw lapic ICRLO (Z.lor (Z.lor INIT LEVEL) ASSERT) ;;
  lapicw lapic ICRLO (Z.lor INIT LEVEL) ;;
  forM 0 2 (fun _ =>
    lapicw lapic ICRHI (Z.shiftl apicid 24) ;;
    lapicw lapic ICRLO (Z.lor STARTUP (Z.shiftr addr 12))).

Definition CMOS_STATA : Z := 10.
Definition CMOS_STATB : Z := 11.
Definition CMOS_UIP : Z := 128.

Definition cmos_read (reg : Z) : M D Z := outb CMOS_PORT reg ;; inb CMOS_RETURN.

(** struct rtcdate *)
Record rtcdate : Type := mkdate { second : Z; minute : Z; hour : Z; day : Z; month : Z; year : Z }.

Definition SECS : Z := 0.
Definition MINS : Z := 2.
Definition HOURS : Z := 4.
Definition DAY : Z := 7.
Definition MONTH : Z := 8.
Definition YEAR : Z := 9.

#[export] Instance rtcdate_eq_dec : EqDecision rtcdate.
Proof. solve_decision. Defined.

Definition fill_rtcdate : M D rtcdate :=
  s ← cmos_read SECS; m ← cmos_read MINS; h ← cmos_read HOURS;
  d ← cmos_read DAY; mo ← cmos_read MONTH; y ← cmos_read YEAR;
  mret (mkdate s m h d mo y).

(** The loop of cmostime; it has no bound in the code. *)
Fixpoint cmos_loop (fuel : nat) : M D rtcdate :=
  match fuel with
  | O => nofuel
  | S f =>
    t1 ← fill_rtcdate;
    a ← cmos_read CMOS_STATA;
    if negb (Z.land a CMOS_UIP =? 0) then cmos_loop f else
    t2 ← fill_rtcdate;
    if decide (t1 = t2) then mret t1 else cmos_loop f
  end.

Definition conv (x : Z) : Z := Z.shiftr x 4 * 10 + Z.land x 15.

Definition cmostime (fuel : nat) : M D rtcdate :=
  sb ← cmos_read CMOS_STATB;
  let bcd := Z.land sb (Z.shiftl 1 2) =? 0 in
  t ← cmos_loop fuel;
  let t1 := if bcd then mkdate (conv (second t)) (conv (minute t)) (conv (hour t)) (conv (day t)) (conv (month t)) (conv (year t)) else t in
  mret (mkdate (second t1) (minute t1) (hour t1) (day t1) (month t1) (year t1 + 2000)).

(** ** uart.c; the global [uart] is the state's boolean *)

Definition COM1 : Z := 1016.

Fixpoint uart_wait (n : nat) : M D unit :=
  match n with
  | O => mret tt
  | S n' => s ← inb (COM1 + 5); if Z.land s 32 =? 0 then uart_wait n' else mret tt
  end.

Definition uart_send (uart : bool) (c : Z) : M D unit :=
  if negb uart then mret tt else uart_wait 128 ;; outb (COM1 + 0) c.

Fixpoint uart_announce (uart : bool) (p : list Z) : M D unit :=
  match p with [] => mret tt | c :: p' => uart_send uart c ;; uart_announce uart p' end.

(** Gives the value of [uart] it leaves. *)
Definition uartinit (uart : bool) : M D bool :=
  outb (COM1 + 2) 0 ;;
  outb (COM1 + 3) 128 ;;
  outb (COM1 + 0) (115200 / 9600) ;;
  outb (COM1 + 1) 0 ;;
  outb (COM1 + 3) 3 ;;
  outb (COM1 + 4) 0 ;;
  outb (COM1 + 1) 1 ;;
  s ← inb (COM1 + 5);
  if s =? 255 then mret uart else
  inb (COM1 + 2) ;;
  inb (COM1 + 0) ;;
  ioapicenable IRQ_COM1 0 ;;
  uart_announce true [120; 118; 54; 46; 46; 46; 10] ;;
  mret true.

Definition uartgetc (uart : bool) : M D Z :=
  if negb uart then mret (-1) else
  s ← inb (COM1 + 5);
  if Z.land s 1 =? 0 then mret (-1) else inb (COM1 + 0).
End Dev.

(** ** The interrupt routing *)

(** What an I/O APIC promises: reg selects a register, data accesses it.
    [io_tab] is the register file. *)
Class Ioapic (D : Type) {DD : Device D} : Type := {
  io_sel : D -> Z;
  io_tab : D -> Z -> Z;
  io_store_reg v d : io_sel (d_store 4 IOAPIC v d) = v /\ io_tab (d_store 4 IOAPIC v d) = io_tab d;
  io_store_data v d : let d' := d_store 4 (IOAPIC + 16) v d in io_sel d' = io_sel d /\
    forall r, io_tab d' r = if r =? io_sel d then v else io_tab d r;
  io_load_data d : let r := d_load 4 (IOAPIC + 16) d in r.1 = io_tab d (io_sel d) /\
    io_sel r.2 = io_sel d /\ io_tab r.2 = io_tab d }.

(** Entry [i] of the redirection table: masked with its vector, or sending
    vector T_IRQ0 + i to a CPU. *)
Definition masked (t : Z -> Z) (i : Z) : Prop :=
  Z.land (t (REG_TABLE + 2 * i)) INT_DISABLED = INT_DISABLED /\ t (REG_TABLE + 2 * i + 1) = 0.
Definition routed (t : Z -> Z) (i cpu : Z) : Prop :=
  t (REG_TABLE + 2 * i) = T_IRQ0 + i /\ t (REG_TABLE + 2 * i + 1) = u32 (Z.shiftl cpu 24).

Section Routing.
Context {D : Type} {DD : Device D} {IO : Ioapic D}.

Definition upd (t : Z -> Z) (r v : Z) : Z -> Z := fun r' => if r' =? r then v else t r'.

Lemma ioapicwrite_ok d r v : exists d', ioapicwrite r v d = Ret tt d' /\ forall r', io_tab d' r' = upd (io_tab d) r (u32 v) r'.
Proof.
  eexists. split; [reflexivity|]. destruct (io_store_reg r d) as [E1 E2].
  destruct (io_store_data (u32 v) (d_store 4 IOAPIC r d)) as [_ E]. intros r'. rewrite E, E1, E2. done.
Qed.

Lemma ioapicread_ok d r : exists d', ioapicread r d = Ret (io_tab d r) d' /\ io_tab d' = io_tab d.
Proof.
  eexists. destruct (io_store_reg r d) as [E1 E2]. destruct (io_load_data (d_store 4 IOAPIC r d)) as (E3 & _ & E4).
  unfold ioapicread. erewrite bind_ret by reflexivity. unfold mmload. rewrite E3, E1, E2. split; [reflexivity|]. by rewrite E4.
Qed.

Lemma init_value i : Z.land (u32 (Z.lor INT_DISABLED (T_IRQ0 + i))) INT_DISABLED = INT_DISABLED.
Proof.
  unfold u32. change 4294967296 with (2 ^ 32). rewrite <- Z.land_ones by lia. apply Z.bits_inj'. intros n Hn.
  rewrite !Z.land_spec, Z.lor_spec. change INT_DISABLED with (2 ^ 16). rewrite Z.pow2_bits_eqb by lia.
  destruct (Z.eqb_spec 16 n) as [<-|]; [done|apply andb_false_r].
Qed.

Lemma upd_same t r v : upd t r v r = v.
Proof. unfold upd. by rewrite Z.eqb_refl. Qed.
Lemma upd_other t r v r' : r' <> r -> upd t r v r' = t r'.
Proof. intros E. unfold upd. by rewrite (proj2 (Z.eqb_neq r' r)). Qed.

(** One entry of the table is written, the others are kept. *)
Lemma entry_ok d i x y : exists d',
  (ioapicwrite (REG_TABLE + 2 * i) x ;; ioapicwrite (REG_TABLE + 2 * i + 1) y) d = Ret tt d' /\
  io_tab d' (REG_TABLE + 2 * i) = u32 x /\ io_tab d' (REG_TABLE + 2 * i + 1) = u32 y /\
  forall j, j <> i -> io_tab d' (REG_TABLE + 2 * j) = io_tab d (REG_TABLE + 2 * j) /\
    io_tab d' (REG_TABLE + 2 * j + 1) = io_tab d (REG_TABLE + 2 * j + 1).
Proof.
  destruct (ioapicwrite_ok d (REG_TABLE + 2 * i) x) as (d1 & R1 & E1).
  destruct (ioapicwrite_ok d1 (REG_TABLE + 2 * i + 1) y) as (d2 & R2 & E2). exists d2.
  erewrite bind_ret by exact R1. split; [exact R2|]. split; [|split].
  - by rewrite E2, upd_other, E1, upd_same by lia.
  - by rewrite E2, upd_same.
  - intros j Hj. by rewrite !E2, !upd_other, !E1, !upd_other by lia.
Qed.

Lemma mask_all k : forall i d, exists d', forM i k (fun i =>
    ioapicwrite (REG_TABLE + 2 * Z.of_nat i) (Z.lor INT_DISABLED (T_IRQ0 + Z.of_nat i)) ;;
    ioapicwrite (REG_TABLE + 2 * Z.of_nat i + 1) 0) d = Ret tt d' /\
  (forall j, Z.of_nat i <= j < Z.of_nat (i + k) -> masked (io_tab d') j) /\
  (forall j, j < Z.of_nat i -> masked (io_tab d) j -> masked (io_tab d') j).
Proof.
  induction k as [|k IH]; intros i d; cbn [forM].
  - exists d. split_and!; [done|lia|auto].
  - destruct (entry_ok d (Z.of_nat i) (Z.lor INT_DISABLED (T_IRQ0 + Z.of_nat i)) 0) as (d1 & R1 & A & B & C).
    destruct (IH (S i) d1) as (d2 & R2 & E2 & F2). exists d2. erewrite bind_ret by exact R1. split; [exact R2|]. split.
    + intros j Hj. destruct (decide (j = Z.of_nat i)) as [->|]; [|apply E2; lia].
      apply F2; [lia|]. unfold masked. rewrite A, B. split; [apply init_value|done].
    + intros j Hj Hm. apply F2; [lia|]. unfold masked in *. destruct (C j) as [-> ->]; [lia|done].
Qed.

(** The interrupts the drivers enable one after the other. *)
Fixpoint enable_all (l : list (Z * Z)) : M D unit :=
  match l with [] => mret tt | (irq, cpu) :: l' => ioapicenable irq cpu ;; enable_all l' end.

Lemma enable_ok l : forall d, NoDup l.*1 -> Forall (fun p => 0 <= p.1 <= 255) l -> exists d', enable_all l d = Ret tt d' /\
  (forall irq cpu, (irq, cpu) ∈ l -> routed (io_tab d') irq cpu) /\
  (forall j, j ∉ l.*1 -> io_tab d' (REG_TABLE + 2 * j) = io_tab d (REG_TABLE + 2 * j) /\
    io_tab d' (REG_TABLE + 2 * j + 1) = io_tab d (REG_TABLE + 2 * j + 1)).
Proof.
  induction l as [|[irq cpu] l IH]; intros d Hn Hb; cbn [enable_all].
  - exists d. split_and!; [done|by intros ? ? ?%elem_of_nil|done].
  - apply NoDup_cons in Hn as [Hi Hn]. apply Forall_cons in Hb as [H1 Hb]. cbn in H1.
    destruct (entry_ok d irq (T_IRQ0 + irq) (Z.shiftl cpu 24)) as (d1 & R1 & A & B & C).
    destruct (IH d1 Hn Hb) as (d2 & R2 & E2 & F2). exists d2. erewrite bind_ret by exact R1. split; [exact R2|]. split.
    + intros i c [[= -> ->]|Hm]%elem_of_cons; [|by apply E2]. unfold routed. destruct (F2 irq Hi) as [-> ->]. rewrite A, B.
      split; [|done]. apply u32_small. unfold T_IRQ0. lia.
    + intros j Hj. cbn in Hj. apply not_elem_of_cons in Hj as [Hj1 Hj2]. destruct (F2 j Hj2) as [-> ->]. by apply C.
Qed.

(** After ioapicinit and the drivers' calls of ioapicenable, each
    enabled interrupt sends its vector to the CPU it was routed to, and
    every other entry of the redirection table is masked and sends nothing
    to any CPU. *)
Theorem irq_routing d id l : let maxintr := Z.land (Z.shiftr (io_tab d REG_VER) 16) 255 in
  NoDup l.*1 -> Forall (fun p => 0 <= p.1 <= maxintr) l ->
  exists d', (ioapicinit id ;; enable_all l) d = Ret tt d' /\
    forall i, 0 <= i <= maxintr ->
      (exists cpu, (i, cpu) ∈ l /\ routed (io_tab d') i cpu) \/ (i ∉ l.*1 /\ masked (io_tab d') i).
Proof.
  intros n Hn Hb. unfold ioapicinit. destruct (ioapicread_ok d REG_VER) as (d1 & R1 & E1). destruct (ioapicread_ok d1 REG_ID) as (d2 & R2 & E2).
  destruct (mask_all (Z.to_nat (n + 1)) 0 d2) as (d3 & R3 & M3 & _).
  assert (Hn' : n <= 255) by (unfold n; change 255 with (Z.ones 8) at 1; rewrite Z.land_ones by lia; change (2 ^ 8) with 256; zdiv).
  destruct (enable_ok l d3 Hn) as (d4 & R4 & A & B); [by eapply Forall_impl; [exact Hb|cbn; lia]|].
  exists d4. split.
  { erewrite bind_ret; [exact R4|]. erewrite bind_ret by exact R1. erewrite bind_ret by exact R2. fold n. by erewrite bind_ret by exact R3. }
  intros i Hi. destruct (decide (i ∈ l.*1)) as [Hm|Hm].
  - left. apply list_elem_of_fmap in Hm as ([i' cpu] & -> & Hm). exists cpu. split; [done|by apply A].
  - right. split; [done|]. unfold masked. destruct (B i Hm) as [-> ->]. apply M3. lia.
Qed.
End Routing.

(** ** The clock *)

Definition enc (bcd : bool) (x : Z) : Z := if bcd then 16 * (x / 10) + x mod 10 else x.

(** The field of the date a register holds. *)
Definition r_field (reg : Z) (t : rtcdate) : Z :=
  if reg =? SECS then second t else if reg =? MINS then minute t else if reg =? HOURS then hour t
  else if reg =? DAY then day t else if reg =? MONTH then month t else year t.

(** What the clock chip promises.  [r_time i] is the date shown when the
    i-th register read is made; the date changes at most once in any 13
    reads, and within [r_bound] reads there are 26 in which it does not
    change and no update is announced. *)
Class Rtc (D : Type) {DD : Device D} : Type := {
  r_now : D -> nat;
  r_time : nat -> rtcdate;
  r_upd : nat -> bool;
  r_bcd : bool;
  r_bound : nat;
  r_range reg i : 0 <= r_field reg (r_time i) < 100;
  r_next reg (d : D) : r_now (d_inb CMOS_RETURN (d_outb CMOS_PORT reg d)).2 = S (r_now d);
  r_date reg (d : D) : List.In reg [SECS; MINS; HOURS; DAY; MONTH; YEAR] ->
    (d_inb CMOS_RETURN (d_outb CMOS_PORT reg d)).1 = enc r_bcd (r_field reg (r_time (r_now d)));
  r_stata (d : D) : let a := u8 (d_inb CMOS_RETURN (d_outb CMOS_PORT CMOS_STATA d)).1 in
    (Z.land a CMOS_UIP =? 0) = negb (r_upd (r_now d));
  r_statb (d : D) : let b := u8 (d_inb CMOS_RETURN (d_outb CMOS_PORT CMOS_STATB d)).1 in (Z.land b 4 =? 0) = r_bcd;
  r_change k : exists j, (k <= j <= k + 13)%nat /\ (forall i, (k <= i < j)%nat -> r_time i = r_time k) /\
    (forall i, (j <= i < k + 13)%nat -> r_time i = r_time j);
  r_quiet k : exists q, (k <= q < k + r_bound)%nat /\ forall i, (q <= i < q + 26)%nat -> r_time i = r_time q /\ r_upd i = false }.

Section Clock.
Context {D : Type} {DD : Device D} {R : Rtc D}.

Lemma enc_conv (b : bool) x : 0 <= x < 100 -> (if b then conv (enc b x) else enc b x) = x.
Proof.
  intros Hx. destruct b; [|done]. unfold conv, enc. rewrite Z.shiftr_div_pow2 by lia. change 15 with (Z.ones 4).
  rewrite Z.land_ones by lia. change (2 ^ 4) with 16. zdiv.
Qed.

Lemma enc_byte b x : 0 <= x < 100 -> u8 (enc b x) = enc b x.
Proof. intros Hx. unfold u8, enc. apply Z.mod_small. destruct b; [zdiv|lia]. Qed.

Lemma date_read_ok reg d : List.In reg [SECS; MINS; HOURS; DAY; MONTH; YEAR] ->
  exists d', cmos_read reg d = Ret (enc r_bcd (r_field reg (r_time (r_now d)))) d' /\ r_now d' = S (r_now d).
Proof.
  intros Hr. eexists. split; [|apply r_next]. unfold cmos_read. erewrite bind_ret by reflexivity. unfold inb.
  assert (u8 reg = reg) as -> by (cbn in Hr; intuition subst; done).
  rewrite r_date by done. by rewrite enc_byte by apply r_range.
Qed.

Definition enc_date (t : rtcdate) : rtcdate :=
  mkdate (enc r_bcd (second t)) (enc r_bcd (minute t)) (enc r_bcd (hour t)) (enc r_bcd (day t)) (enc r_bcd (month t)) (enc r_bcd (year t)).

(** The six reads of a date, each of the moment it is made. *)
Definition seen (k : nat) : rtcdate :=
  mkdate (enc r_bcd (second (r_time k))) (enc r_bcd (minute (r_time (k + 1)))) (enc r_bcd (hour (r_time (k + 2))))
    (enc r_bcd (day (r_time (k + 3)))) (enc r_bcd (month (r_time (k + 4)))) (enc r_bcd (year (r_time (k + 5)))).

Lemma fill_ok d : exists d', fill_rtcdate d = Ret (seen (r_now d)) d' /\ r_now d' = (r_now d + 6)%nat.
Proof.
  unfold fill_rtcdate, seen.
  destruct (date_read_ok SECS d) as (d1 & R1 & N1); [cbn; auto 10|]. destruct (date_read_ok MINS d1) as (d2 & R2 & N2); [cbn; auto 10|].
  destruct (date_read_ok HOURS d2) as (d3 & R3 & N3); [cbn; auto 10|]. destruct (date_read_ok DAY d3) as (d4 & R4 & N4); [cbn; auto 10|].
  destruct (date_read_ok MONTH d4) as (d5 & R5 & N5); [cbn; auto 10|]. destruct (date_read_ok YEAR d5) as (d6 & R6 & N6); [cbn; auto 10|].
  exists d6. erewrite bind_ret by exact R1. erewrite bind_ret by exact R2. erewrite bind_ret by exact R3.
  erewrite bind_ret by exact R4. erewrite bind_ret by exact R5. erewrite bind_ret by exact R6.
  rewrite N6, N5, N4, N3, N2, N1 in *. split; [|lia]. unfold mret, M_ret. repeat f_equal; lia.
Qed.

Lemma seen_const k t : (forall i, (k <= i < k + 6)%nat -> r_time i = t) -> seen k = enc_date t.
Proof. intros Hc. unfold seen, enc_date. by rewrite !Hc by lia. Qed.

(** Two equal readings, the second right after the first and a status read,
    are a date the clock showed. *)
Lemma seen_twice k : seen k = seen (k + 7) -> exists i, (k <= i < k + 13)%nat /\ seen k = enc_date (r_time i).
Proof.
  intros E. destruct (r_change k) as (j & Hj & H1 & H2). destruct (decide (k + 6 <= j)%nat) as [Hl|Hl].
  - exists k. split; [lia|]. apply seen_const. intros i Hi. apply H1. lia.
  - exists j. split; [lia|]. rewrite E. apply seen_const. intros i Hi. apply H2. lia.
Qed.

Lemma round_ok f d : let k := r_now d in
  (exists d' i, cmos_loop (S f) d = Ret (enc_date (r_time i)) d' /\ (k <= i < r_now d')%nat) \/
  (exists d', cmos_loop (S f) d = cmos_loop f d' /\ (k < r_now d' <= k + 13)%nat /\
    ~ (forall i, (k <= i < k + 13)%nat -> r_time i = r_time k /\ r_upd i = false)).
Proof.
  intros k. cbn [cmos_loop]. destruct (fill_ok d) as (d1 & R1 & N1). erewrite bind_ret by exact R1. fold k in N1 |- *.
  erewrite bind_ret by (unfold cmos_read; erewrite bind_ret by reflexivity; reflexivity).
  change (u8 CMOS_STATA) with CMOS_STATA. set (d2 := (d_inb CMOS_RETURN (d_outb CMOS_PORT CMOS_STATA d1)).2).
  assert (N2 : r_now d2 = (k + 7)%nat) by (unfold d2; rewrite r_next; lia).
  rewrite r_stata, negb_involutive. destruct (r_upd (r_now d1)) eqn:Eu.
  - right. exists d2. split_and!; [done|lia|lia|]. intros Hq. destruct (Hq (r_now d1)) as [_ E]; [lia|congruence].
  - destruct (fill_ok d2) as (d3 & R3 & N3). erewrite bind_ret by exact R3. rewrite N2 in *. destruct (decide (seen k = seen (k + 7))) as [E|E].
    + left. destruct (seen_twice k E) as (i & Hi & Es). exists d3, i. rewrite Es. split; [done|lia].
    + right. exists d3. split_and!; [done|lia|lia|]. intros Hq. apply E. rewrite (seen_const k (r_time k)), (seen_const (k + 7) (r_time k)); [done|..].
      all: intros i Hi; apply Hq; lia.
Qed.

Lemma cmos_loop_ok q : (forall i, (q <= i < q + 26)%nat -> r_time i = r_time q /\ r_upd i = false) ->
  forall f d, (r_now d <= q + 13)%nat -> (q - r_now d < f)%nat ->
  exists d' i, cmos_loop f d = Ret (enc_date (r_time i)) d' /\ (r_now d <= i < r_now d')%nat.
Proof.
  intros Hq f. induction f as [|f IH]; intros d Hd Hf; [lia|].
  destruct (round_ok f d) as [Hdone|(d' & Hl & Hn & Hnq)]; [exact Hdone|]. destruct (decide (q <= r_now d)%nat) as [Hle|Hle].
  - destruct Hnq. intros i Hi. destruct (Hq i) as [-> ->]; [lia|]. destruct (Hq (r_now d)) as [-> _]; [lia|done].
  - destruct (IH d') as (d2 & i & Hr & Hi); [lia..|]. exists d2, i. rewrite Hl. split; [done|lia].
Qed.

(** cmostime returns, and the date it gives is one the clock showed
    during the call, in binary and with the century, although the clock
    may change between the reads of its registers. *)
Theorem cmostime_reads_a_date d : exists d' i, (r_now d <= i < r_now d')%nat /\
  let t := r_time i in
  cmostime (S r_bound) d = Ret (mkdate (second t) (minute t) (hour t) (day t) (month t) (year t + 2000)) d'.
Proof.
  unfold cmostime. erewrite bind_ret by (unfold cmos_read; erewrite bind_ret by reflexivity; reflexivity).
  change (u8 CMOS_STATB) with CMOS_STATB. change (Z.shiftl 1 2) with 4. rewrite r_statb.
  set (d1 := (d_inb CMOS_RETURN (d_outb CMOS_PORT CMOS_STATB d)).2).
  assert (N1 : r_now d1 = S (r_now d)) by (unfold d1; by rewrite r_next).
  destruct (r_quiet (r_now d1)) as (q & Hq & Hc). destruct (cmos_loop_ok q Hc (S r_bound) d1) as (d' & i & Hr & Hi); [lia..|].
  exists d', i. split; [lia|]. erewrite bind_ret by exact Hr. cbv zeta. unfold mret, M_ret. f_equal.
  assert (C : forall reg, (if r_bcd then conv (enc r_bcd (r_field reg (r_time i))) else enc r_bcd (r_field reg (r_time i))) = r_field reg (r_time i))
    by (intros reg; apply enc_conv, r_range).
  pose proof (C SECS) as C1; pose proof (C MINS) as C2; pose proof (C HOURS) as C3; pose proof (C DAY) as C4;
    pose proof (C MONTH) as C5; pose proof (C YEAR) as C6. clear C Hr. unfold enc_date. destruct r_bcd; cbn -[conv enc] in *; congruence.
Qed.
End Clock.

(** ** A machine *)

(** An I/O APIC with 24 interrupts and a clock whose second changes at the
    20th read. *)
Record board : Type := mkboard { bd_cmos : Z; bd_reads : nat; bd_sel : Z; bd_tab : Z -> Z }.

Definition board_time (i : nat) : rtcdate := mkdate (if (i <? 20)%nat then 59 else 58) 30 23 31 12 26.
Definition board_reg (reg : Z) (i : nat) : Z :=
  if reg =? CMOS_STATA then (if (i =? 19)%nat then 166 else 38)
  else if reg =? CMOS_STATB then 2 else enc true (r_field reg (board_time i)).

#[local] Instance board_device : Device board := {
  d_inb p d := (board_reg (bd_cmos d) (bd_reads d), mkboard (bd_cmos d) (S (bd_reads d)) (bd_sel d) (bd_tab d));
  d_outb p v d := mkboard v (bd_reads d) (bd_sel d) (bd_tab d);
  d_insl p n d := ([], d);
  d_outsl p l d := d;
  d_load w a d := (bd_tab d (bd_sel d), d);
  d_store w a v d :=
    if a =? IOAPIC then mkboard (bd_cmos d) (bd_reads d) v (bd_tab d)
    else mkboard (bd_cmos d) (bd_reads d) (bd_sel d) (upd (bd_tab d) (bd_sel d) v);
  d_polls d := 0%nat }.

#[local] Instance board_ioapic : Ioapic board.
Proof. refine {| io_sel := bd_sel; io_tab := bd_tab |}; done. Defined.

Lemma board_quiet k : exists q, (k <= q < k + 21)%nat /\
  forall i, (q <= i < q + 26)%nat -> board_time i = board_time q /\ (i =? 19)%nat = false.
Proof.
  exists (k `max` 20)%nat. split; [lia|]. intros i Hi. unfold board_time.
  rewrite !(proj2 (Nat.ltb_ge _ _)) by lia. split; [done|]. apply Nat.eqb_neq. lia.
Qed.

Lemma board_change k : exists j, (k <= j <= k + 13)%nat /\ (forall i, (k <= i < j)%nat -> board_time i = board_time k) /\
  (forall i, (j <= i < k + 13)%nat -> board_time i = board_time j).
Proof.
  exists (k `max` (20 `min` (k + 13)))%nat. split; [lia|]. unfold board_time. split; intros i Hi.
  all: destruct (Nat.ltb_spec i 20), (Nat.ltb_spec k 20), (Nat.ltb_spec (k `max` (20 `min` (k + 13))) 20); done || lia.
Qed.

#[local] Instance board_rtc : Rtc board.
Proof.
  refine {| r_now := bd_reads; r_time := board_time; r_upd i := (i =? 19)%nat; r_bcd := true; r_bound := 21;
     r_quiet := board_quiet; r_change := board_change |}.
  - intros reg i. unfold r_field, board_time. repeat zcase; cbn [second minute hour day month year]; try destruct (i <? 20)%nat; lia.
  - done.
  - intros reg d Hr. cbn in Hr. cbn. intuition subst; done.
  - intros d. cbn. by destruct (bd_reads d =? 19)%nat.
  - done.
Defined.

Definition board0 : board := mkboard 0 8 0 (fun r => if r =? REG_VER then 1507345 else 0).

Lemma irq_routing_witness : exists d', (ioapicinit 0 ;; enable_all [(1, 0); (4, 0); (14, 1)]) board0 = Ret tt d' /\
  routed (bd_tab d') 14 1 /\ masked (bd_tab d') 3.
Proof.
  destruct (irq_routing board0 0 [(1, 0); (4, 0); (14, 1)]) as (d' & R & H).
  - repeat constructor; intros Hx; repeat (apply elem_of_cons in Hx as [Hx|Hx]; [done|]); by apply elem_of_nil in Hx.
  - repeat constructor; by vm_compute.
  - exists d'. split; [done|]. split.
    + destruct (H 14) as [(cpu & Hm & Hr)|[Hn _]]; [by vm_compute| |destruct Hn; apply (bool_decide_unpack _); by vm_compute].
      apply list_elem_of_In in Hm. cbn in Hm. by destruct Hm as [E|[E|[E|[]]]]; simplify_eq.
    + destruct (H 3) as [(cpu & Hm & Hr)|[_ Hm]]; [by vm_compute| |done].
      apply list_elem_of_In in Hm. cbn in Hm. by destruct Hm as [E|[E|[E|[]]]]; simplify_eq.
Defined.

Lemma cmostime_reads_a_date_witness : exists t d' i, cmostime 22 board0 = Ret t d' /\ (8 <= i < bd_reads d')%nat /\
  second t = second (board_time i) /\ year t = 2026.
Proof. destruct (cmostime_reads_a_date board0) as (d' & i & Hi & R). by exists (mkdate (second (board_time i)) 30 23 31 12 2026), d', i. Defined.
