(* ===== verification/Ide.v ===== *)
(** * The IDE disk driver: ide.c

    The driver keeps a queue of locked buffers, linked through qnext; the
    first is the request the disk works on.  iderw appends a buffer and waits
    for it, ideintr finishes the first and starts the next.  The disk
    controller is behind the ports of a [Device].  [ControllerLaws] is what the driver relies on: the
    status becomes ready, the task-file registers select drive and sector,
    a write command takes a sector of data, a read command gives one.  The
    theorem: whatever the order of requests and interrupts, the driver is a
    disk that serves the requests one by one in the order they came. *)

From stdpp Require Import base list strings.
From Stdlib Require Import ZArith Lia.
From S2P Require Import Prelude Proc Bio Dev.

Local Open Scope Z_scope.

Definition SECTOR_SIZE : Z := 512.
Definition IDE_BSY : Z := 128.
Definition IDE_DRDY : Z := 64.
Definition IDE_DF : Z := 32.
Definition IDE_ERR : Z := 1.
Definition IDE_CMD_READ : Z := 32.
Definition IDE_CMD_WRITE : Z := 48.
Definition IDE_CMD_RDMUL : Z := 196.
Definition IDE_CMD_WRMUL : Z := 197.
Definition FSSIZE : Z := 1000.

Definition IRQ_IDE : Z := 14.

(** The driver's state; [i_qnext] is the field qnext of the buffers. *)
Record ist (H : Type) : Type := mkist {
  i_bufs : list buf;
  i_qnext : list (option nat);
  i_queue : option nat;          (* idequeue *)
  i_disk1 : bool;                (* havedisk1 *)
  i_hw : H;
  i_proc : pst }.
Arguments mkist {H} _ _ _ _ _ _.
Arguments i_bufs {H} _.
Arguments i_qnext {H} _.
Arguments i_queue {H} _.
Arguments i_disk1 {H} _.
Arguments i_hw {H} _.
Arguments i_proc {H} _.

Section Ide.
Context {H : Type} {C : Device H}.
Notation IM := (M (ist H)).

Definition set_ibufs (x : list buf) (s : ist H) : ist H := mkist x (i_qnext s) (i_queue s) (i_disk1 s) (i_hw s) (i_proc s).
Definition set_qnext (x : list (option nat)) (s : ist H) : ist H := mkist (i_bufs s) x (i_queue s) (i_disk1 s) (i_hw s) (i_proc s).
Definition set_queue (x : option nat) (s : ist H) : ist H := mkist (i_bufs s) (i_qnext s) x (i_disk1 s) (i_hw s) (i_proc s).
Definition set_disk1 (x : bool) (s : ist H) : ist H := mkist (i_bufs s) (i_qnext s) (i_queue s) x (i_hw s) (i_proc s).
Definition set_hw (x : H) (s : ist H) : ist H := mkist (i_bufs s) (i_qnext s) (i_queue s) (i_disk1 s) x (i_proc s).
Definition set_iproc (x : pst) (s : ist H) : ist H := mkist (i_bufs s) (i_qnext s) (i_queue s) (i_disk1 s) (i_hw s) x.

Definition dev {A} (m : M H A) : IM A := zoom i_hw set_hw m.
Definition inb (port : Z) : IM Z := dev (Dev.inb port).
Definition outb (port v : Z) : IM unit := dev (Dev.outb port v).
Definition insl (port : Z) (cnt : nat) : IM (list Z) := dev (Dev.insl port cnt).
Definition outsl (port : Z) (data : list Z) : IM unit := dev (Dev.outsl port data).

Definition getb (i : nat) : IM buf := deref (fun s => i_bufs s !! i).
Definition modb (i : nat) (f : buf -> buf) : IM unit := modify (fun s => set_ibufs (alter f i (i_bufs s)) s).

Fixpoint idewait_loop (checkerr : bool) (fuel : nat) : IM Z :=
  match fuel with
  | O => nofuel
  | S f =>
    r ← inb 503;
    if Z.land r (Z.lor IDE_BSY IDE_DRDY) =? IDE_DRDY then
      if checkerr && negb (Z.land r (Z.lor IDE_DF IDE_ERR) =? 0) then mret (-1) else mret 0
    else idewait_loop checkerr f
  end.

Definition idewait (checkerr : bool) : IM Z :=
  n ← gets (fun s => d_polls (i_hw s)); idewait_loop checkerr (S n).

(** ideinit's search for disk 1. *)
Fixpoint probe (n : nat) : IM unit :=
  match n with
  | O => mret tt
  | S n' => r ← inb 503; if negb (r =? 0) then modify (set_disk1 true) else probe n'
  end.

Definition ideinit (ncpu : Z) : IM unit :=
  dev (ioapicenable IRQ_IDE (ncpu - 1)) ;;
  idewait false ;;
  outb 502 (Z.lor 224 (Z.shiftl 1 4)) ;;
  probe 1000 ;;
  outb 502 (Z.lor 224 (Z.shiftl 0 4)).

Definition idestart (i : nat) : IM unit :=
  b ← getb i;
  if FSSIZE <=? b_blockno b then panic "incorrect blockno" else
  let sector_per_block := Z.of_nat BSIZE / SECTOR_SIZE in
  let sector := b_blockno b * sector_per_block in
  let read_cmd := if sector_per_block =? 1 then IDE_CMD_READ else IDE_CMD_RDMUL in
  let write_cmd := if sector_per_block =? 1 then IDE_CMD_WRITE else IDE_CMD_WRMUL in
  if 7 <? sector_per_block then panic "idestart" else
  idewait false ;;
  outb 1014 0 ;;
  outb 498 sector_per_block ;;
  outb 499 (Z.land sector 255) ;;
  outb 500 (Z.land (Z.shiftr sector 8) 255) ;;
  outb 501 (Z.land (Z.shiftr sector 16) 255) ;;
  outb 502 (Z.lor (Z.lor 224 (Z.shiftl (Z.land (b_dev b) 1) 4)) (Z.land (Z.shiftr sector 24) 15)) ;;
  if negb (Z.land (b_flags b) B_DIRTY =? 0) then
    outb 503 write_cmd ;;
    outsl 496 (b_data b)
  else outb 503 read_cmd.

Definition ideintr : IM unit :=
  q ← gets i_queue;
  match q with
  | None => mret tt
  | Some i =>
    n ← deref (fun s => i_qnext s !! i);
    modify (set_queue n) ;;
    b ← getb i;
    (if Z.land (b_flags b) B_DIRTY =? 0 then
       r ← idewait true;
       if 0 <=? r then d ← insl 496 (BSIZE / 4); modb i (set_data d) else mret tt
     else mret tt) ;;
    modb i (fun b => set_flags (Z.lor (b_flags b) B_VALID) b) ;;
    modb i (fun b => set_flags (Z.land (b_flags b) (Z.lnot B_DIRTY)) b) ;;
    zoom i_proc set_iproc (wakeup (ChBuf i)) ;;
    q ← gets i_queue;
    match q with Some j => idestart j | None => mret tt end
  end.

(** The last buffer of the queue from [b] on; [None] when there is no end. *)
Fixpoint last_of (qn : list (option nat)) (b : nat) (fuel : nat) : option nat :=
  match fuel with
  | O => None
  | S f =>
    match qn !! b with
    | Some (Some c) => last_of qn c f
    | Some None => Some b
    | None => None
    end
  end.

Definition append (i : nat) : IM unit :=
  modify (fun s => set_qnext (<[i := None]> (i_qnext s)) s) ;;
  q ← gets i_queue;
  match q with
  | None => modify (set_queue (Some i))
  | Some b =>
    l ← deref (fun s => last_of (i_qnext s) b (S (length (i_qnext s))));
    modify (fun s => set_qnext (<[l := Some i]> (i_qnext s)) s)
  end.

Definition finished (b : buf) : bool := Z.land (b_flags b) (Z.lor B_VALID B_DIRTY) =? B_VALID.

(** iderw's wait; after a wakeup the process comes here again. *)
Definition iderw_wait (i : nat) : IM (progress unit) :=
  b ← getb i;
  if finished b then mret (Done tt)
  else zoom i_proc set_iproc (sleep_mark (ChBuf i)) ;; mret (Wait i).

Definition ide_holding (i : nat) : IM bool :=
  holdingsleep (fun s : ist H => b_lock <$> i_bufs s !! i) i_proc set_iproc.

Definition iderw (i : nat) : IM (progress unit) :=
  h ← ide_holding i;
  if negb h then panic "iderw: buf not locked" else
  b ← getb i;
  if finished b then panic "iderw: nothing to do" else
  d1 ← gets i_disk1;
  if negb (b_dev b =? 0) && negb d1 then panic "iderw: ide disk 1 not present" else
  append i ;;
  q ← gets i_queue;
  (if decide (q = Some i) then idestart i else mret tt) ;;
  iderw_wait i.
End Ide.

(** ** What the controller promises *)

(** Its observable state: the sectors of the two drives, the registers, and
    the command it carries out (whether it is a write, the drive, the
    sector). *)
Record view : Type := mkview {
  v_disk : Z -> Z -> list Z;
  v_reg : Z -> Z;
  v_cmd : option (bool * Z * Z) }.

Definition set_reg (p v : Z) (x : view) : view := mkview (v_disk x) (fun p' => if p' =? p then v else v_reg x p') (v_cmd x).
Definition set_cmd (c : option (bool * Z * Z)) (x : view) : view := mkview (v_disk x) (v_reg x) c.
Definition set_sector (a l : Z) (d : list Z) (x : view) : view :=
  mkview (fun a' l' => if (a' =? a) && (l' =? l) then d else v_disk x a' l') (v_reg x) (v_cmd x).

(** Drive and sector the registers select. *)
Definition sel_drive (x : view) : Z := Z.land (Z.shiftr (v_reg x 502) 4) 1.
Definition sel_lba (x : view) : Z :=
  v_reg x 499 + 256 * v_reg x 500 + 65536 * v_reg x 501 + 16777216 * Z.land (v_reg x 502) 15.

Class ControllerLaws (H : Type) {C : Device H} : Type := {
  cv : H -> view;
  cl_poll h : Z.land (u8 (d_inb 503 h).1) 192 = 64 \/ (d_polls (d_inb 503 h).2 < d_polls h)%nat;
  cl_good h : Z.land (u8 (d_inb 503 h).1) 192 = 64 -> Z.land (u8 (d_inb 503 h).1) 33 = 0;
  cl_mmio a v h : IOAPIC <= a -> cv (d_store 4 a v h) = cv h;
  cl_status h : cv (d_inb 503 h).2 = cv h;
  cl_reg p v h : List.In p [498; 499; 500; 501; 502; 1014] -> cv (d_outb p v h) = set_reg p v (cv h);
  cl_read h : v_reg (cv h) 498 = 1 ->
    cv (d_outb 503 IDE_CMD_READ h) = set_cmd (Some (false, sel_drive (cv h), sel_lba (cv h))) (cv h);
  cl_write h : v_reg (cv h) 498 = 1 ->
    cv (d_outb 503 IDE_CMD_WRITE h) = set_cmd (Some (true, sel_drive (cv h), sel_lba (cv h))) (cv h);
  cl_out h d a l : v_cmd (cv h) = Some (true, a, l) -> length d = 512%nat ->
    cv (d_outsl 496 d h) = set_cmd None (set_sector a l d (cv h));
  cl_in h a l : v_cmd (cv h) = Some (false, a, l) ->
    (d_insl 496 128 h).1 = v_disk (cv h) a l /\ cv (d_insl 496 128 h).2 = set_cmd None (cv h) }.

(** ** The disk that serves one request after the other *)

Definition dirty (b : buf) : bool := negb (Z.land (b_flags b) B_DIRTY =? 0).
Definition drive (b : buf) : Z := Z.land (b_dev b) 1.

(** The disk once the request of [b] is started, and [b] once it is served. *)
Definition started (D : Z -> Z -> list Z) (b : buf) : Z -> Z -> list Z := fun a l =>
  if dirty b && (a =? drive b) && (l =? b_blockno b) then b_data b else D a l.
Definition served (D : Z -> Z -> list Z) (b : buf) : buf :=
  set_flags (Z.land (Z.lor (b_flags b) B_VALID) (Z.lnot B_DIRTY))
    (if dirty b then b else set_data (D (drive b) (b_blockno b)) b).

Record aide : Type := mkaide {
  a_disk : Z -> Z -> list Z;     (* after the requests served so far *)
  a_bufs : list buf;
  a_queue : list nat;            (* the requests to be served, in order *)
  a_calls : list nat }.          (* the buffers whose call has not returned *)

Inductive iop : Type :=
| Touch (i : nat) (b : buf)      (* a buffer no call is about is changed *)
| Submit (me i : nat)            (* process [me] calls iderw on buffer [i] *)
| Resume (me i : nat)            (* and goes on after a wakeup *)
| Interrupt.

Definition aserve (a : aide) : aide :=
  match a_queue a with
  | [] => a
  | i :: q =>
    let b := a_bufs a !!! i in
    mkaide (started (a_disk a) b) (<[i := served (a_disk a) b]> (a_bufs a)) q (a_calls a)
  end.

Definition astep (o : iop) (a : aide) : aide :=
  match o with
  | Touch i b => mkaide (a_disk a) (<[i := b]> (a_bufs a)) (a_queue a) (a_calls a)
  | Submit _ i => mkaide (a_disk a) (a_bufs a) (a_queue a ++ [i]) (i :: a_calls a)
  | Resume _ i =>
    if decide (i ∈ a_queue a) then a
    else mkaide (a_disk a) (a_bufs a) (a_queue a) (filter (fun j => j <> i) (a_calls a))
  | Interrupt => aserve a
  end.

(** What the call gives: a request waits until it is served. *)
Definition aresult (o : iop) (a : aide) : progress unit :=
  match o with
  | Submit _ i => Wait i
  | Resume _ i => if decide (i ∈ a_queue a) then Wait i else Done tt
  | _ => Done tt
  end.

(** A buffer that can be handed to iderw. *)
Definition request (b : buf) : Prop := finished b = false /\ 0 <= b_blockno b < FSSIZE /\ length (b_data b) = BSIZE.

(** When a step can be made: a buffer is changed or submitted when no call
    is about it, by a caller that holds its lock; only a call resumes. *)
Definition legal (pids : list Z) (d1 : bool) (o : iop) (a : aide) : Prop :=
  match o with
  | Touch i b => i ∉ a_calls a
  | Submit me i => i ∉ a_calls a /\ exists b pid, a_bufs a !! i = Some b /\ request b /\ pids !! me = Some pid /\
      b_lock b = mksl true pid /\ (b_dev b = 0 \/ d1 = true)
  | Resume me i => i ∈ a_calls a
  | Interrupt => True
  end.

Fixpoint legal_run (pids : list Z) (d1 : bool) (l : list iop) (a : aide) : Prop :=
  match l with
  | [] => True
  | o :: l' => legal pids d1 o a /\ legal_run pids d1 l' (astep o a)
  end.

Fixpoint arun (l : list iop) (a : aide) : list (progress unit) * aide :=
  match l with
  | [] => ([], a)
  | o :: l' => let r := arun l' (astep o a) in (aresult o a :: r.1, r.2)
  end.

Section Proofs.
Context {H : Type} {C : Device H} {CL : ControllerLaws H}.
Implicit Types (s : ist H) (h : H).

Definition run_iop (o : iop) : M (ist H) (progress unit) :=
  match o with
  | Touch i b => modify (fun s => set_ibufs (<[i := b]> (i_bufs s)) s) ;; mret (Done tt)
  | Submit me i => modify (fun s => set_iproc (set_cur (Some me) (i_proc s)) s) ;; iderw i
  | Resume me i => modify (fun s => set_iproc (set_cur (Some me) (i_proc s)) s) ;; iderw_wait i
  | Interrupt => ideintr ;; mret (Done tt)
  end.

Fixpoint run_iops (l : list iop) : M (ist H) (list (progress unit)) :=
  match l with
  | [] => mret []
  | o :: l' => r ← run_iop o; rs ← run_iops l'; mret (r :: rs)
  end.

Lemma idewait_ok c n : forall s, (d_polls (i_hw s) < n)%nat ->
  exists h, idewait_loop c n s = Ret 0 (set_hw h s) /\ cv h = cv (i_hw s).
Proof.
  induction n as [|n IH]; intros s Hn; [lia|]. cbn [idewait_loop]. erewrite bind_ret by reflexivity.
  change (Z.lor IDE_BSY IDE_DRDY) with 192. change (Z.lor IDE_DF IDE_ERR) with 33.
  destruct (Z.eqb_spec (Z.land (u8 (d_inb 503 (i_hw s)).1) 192) IDE_DRDY) as [E|E].
  - rewrite (cl_good _ E), Z.eqb_refl, andb_false_r. exists (d_inb 503 (i_hw s)).2. split; [done|apply cl_status].
  - destruct (cl_poll (i_hw s)) as [?|Hp]; [done|].
    destruct (IH (set_hw (d_inb 503 (i_hw s)).2 s)) as (h & R & Hv); [cbn; lia|]. exists h. rewrite R. split; [done|].
    rewrite Hv. apply cl_status.
Qed.

Lemma idewait_ready c s : exists h, idewait c s = Ret 0 (set_hw h s) /\ cv h = cv (i_hw s).
Proof. unfold idewait. erewrite bind_ret by reflexivity. apply idewait_ok. lia. Qed.

(** The registers idestart loads select the block's sector. *)
Lemma lba_ok x : 0 <= x < FSSIZE ->
  Z.land x 255 + 256 * Z.land (Z.shiftr x 8) 255 + 65536 * Z.land (Z.shiftr x 16) 255 = x /\ Z.land (Z.shiftr x 24) 15 = 0.
Proof.
  unfold FSSIZE. intros Hx. rewrite !Z.shiftr_div_pow2 by lia.
  change 255 with (Z.ones 8). change 15 with (Z.ones 4). rewrite !Z.land_ones by lia.
  change (2 ^ 8) with 256. change (2 ^ 16) with 65536. change (2 ^ 24) with 16777216. change (2 ^ 4) with 16. zdiv.
Qed.

Lemma drive_bit b : drive b = 0 \/ drive b = 1.
Proof. unfold drive. pose proof (Z.land_ones (b_dev b) 1 ltac:(lia)) as E. change (Z.ones 1) with 1 in E. rewrite E. zdiv. Qed.

Lemma byte_land x : u8 (Z.land x 255) = Z.land x 255.
Proof. unfold u8. change 255 with (Z.ones 8). rewrite Z.land_ones by lia. by rewrite Z.mod_mod. Qed.

Lemma drive_reg b : let r := Z.lor (Z.lor 224 (Z.shiftl (drive b) 4)) 0 in
  u8 r = r /\ Z.land (Z.shiftr r 4) 1 = drive b /\ Z.land r 15 = 0.
Proof. destruct (drive_bit b) as [-> | ->]; done. Qed.

(** Starting the request of a buffer. *)
Lemma idestart_ok s i b : i_bufs s !! i = Some b -> request b ->
  exists h, idestart i s = Ret tt (set_hw h s) /\
    (forall a l, v_disk (cv h) a l = started (v_disk (cv (i_hw s))) b a l) /\
    (dirty b = false -> v_cmd (cv h) = Some (false, drive b, b_blockno b)).
Proof.
  intros Hi (Hf & Hn & Hl). unfold idestart. erewrite bind_ret by (unfold getb, deref; by rewrite Hi).
  rewrite (proj2 (Z.leb_gt _ _)) by lia. change (Z.of_nat BSIZE / SECTOR_SIZE) with 1. cbv zeta. rewrite Z.mul_1_r.
  change (7 <? 1) with false. cbv iota. change (1 =? 1) with true. cbv iota.
  destruct (idewait_ready false s) as (h0 & R0 & V0). erewrite bind_ret by exact R0.
  fold (drive b). destruct (lba_ok (b_blockno b) Hn) as [El Eh]. rewrite Eh. destruct (drive_reg b) as (Eu & Ed & El').
  set (h1 := d_outb 502 (u8 (Z.lor (Z.lor 224 (Z.shiftl (drive b) 4)) 0)) (d_outb 501 (u8 (Z.land (Z.shiftr (b_blockno b) 16) 255))
    (d_outb 500 (u8 (Z.land (Z.shiftr (b_blockno b) 8) 255)) (d_outb 499 (u8 (Z.land (b_blockno b) 255)) (d_outb 498 (u8 1) (d_outb 1014 (u8 0) h0)))))).
  assert (V1 : cv h1 = set_reg 502 (Z.lor (Z.lor 224 (Z.shiftl (drive b) 4)) 0) (set_reg 501 (Z.land (Z.shiftr (b_blockno b) 16) 255)
    (set_reg 500 (Z.land (Z.shiftr (b_blockno b) 8) 255) (set_reg 499 (Z.land (b_blockno b) 255) (set_reg 498 1 (set_reg 1014 0 (cv h0))))))).
  { unfold h1. rewrite !byte_land, Eu. by rewrite !cl_reg by (cbn; auto 10). }
  assert (Hd : sel_drive (cv h1) = drive b) by (rewrite V1; exact Ed).
  assert (Hs : sel_lba (cv h1) = b_blockno b) by (rewrite V1; unfold sel_lba; cbn; rewrite El'; lia).
  assert (Hc : v_reg (cv h1) 498 = 1) by (by rewrite V1).
  assert (Hk : v_disk (cv h1) = v_disk (cv (i_hw s))) by (by rewrite V1, <- V0).
  do 6 erewrite bind_ret by reflexivity. cbn [i_hw set_hw]. fold h1. unfold dirty.
  destruct (Z.land (b_flags b) B_DIRTY =? 0) eqn:Ef; cbn [negb].
  - exists (d_outb 503 IDE_CMD_READ h1). split; [done|]. rewrite (cl_read h1 Hc), Hd, Hs. unfold started, dirty. rewrite Ef.
    cbn [negb andb v_disk v_cmd set_cmd]. by rewrite Hk.
  - erewrite bind_ret by reflexivity. exists (d_outsl 496 (b_data b) (d_outb 503 IDE_CMD_WRITE h1)). split; [done|].
    rewrite (cl_out _ _ (drive b) (b_blockno b)); [|by rewrite (cl_write h1 Hc), Hd, Hs|done].
    rewrite (cl_write h1 Hc). unfold started, dirty. rewrite Ef. cbn [negb andb v_disk v_cmd set_cmd set_sector]. by rewrite Hk.
Qed.

(** *** The queue *)

Fixpoint chain (qn : list (option nat)) (q : list nat) : Prop :=
  match q with
  | [] => True
  | i :: q' => qn !! i = Some (List.hd_error q') /\ chain qn q'
  end.

Lemma chain_other qn q i x : i ∉ q -> chain qn q -> chain (<[i := x]> qn) q.
Proof.
  induction q as [|j q IH]; cbn [chain]; [done|]. rewrite not_elem_of_cons. intros [Hj Hi] [H1 H2].
  split; [by rewrite list_lookup_insert_ne|by apply IH].
Qed.

Lemma last_chain qn q : forall b f, chain qn (b :: q) -> (length q < f)%nat ->
  exists pre l, b :: q = pre ++ [l] /\ last_of qn b f = Some l.
Proof.
  induction q as [|c q IH]; intros b f Hc Hf; (destruct f as [|f]; [lia|]); cbn [last_of]; destruct Hc as [-> Hc]; cbn [List.hd_error].
  - by exists [], b.
  - destruct (IH c f Hc) as (pre & l & E & R); [cbn in Hf; lia|]. exists (b :: pre), l. by rewrite E, R.
Qed.

Lemma chain_snoc qn pre l i : chain qn (pre ++ [l]) -> l ∉ pre -> i ∉ pre ++ [l] -> qn !! i = Some None ->
  chain (<[l := Some i]> qn) (pre ++ [l; i]).
Proof.
  induction pre as [|j pre IH]; cbn [chain app].
  - intros [Hl _] _ Hi Hn. pose proof (lookup_lt_Some _ _ _ Hl). apply not_elem_of_cons in Hi as [Hi _].
    split_and!; [by rewrite list_lookup_insert_eq|by rewrite list_lookup_insert_ne|done].
  - rewrite !not_elem_of_cons. intros [Hj Hc] [Hlj Hlp] [Hij Hip] Hn. split; [|by apply IH].
    rewrite list_lookup_insert_ne, Hj by done. by destruct pre.
Qed.

Lemma nodup_bound q n : NoDup q -> Forall (fun i => (i < n)%nat) q -> (length q <= n)%nat.
Proof.
  intros Hn Hf. rewrite <- (length_seq n 0). apply submseteq_length, NoDup_submseteq; [done|].
  intros i Hi. rewrite Forall_forall in Hf. specialize (Hf i Hi). apply elem_of_seq. lia.
Qed.

Lemma append_ok s q i : chain (i_qnext s) q -> i_queue s = List.hd_error q -> NoDup q -> i ∉ q -> (i < length (i_qnext s))%nat ->
  exists qn, append i s = Ret tt (set_queue (List.hd_error (q ++ [i])) (set_qnext qn s)) /\ chain qn (q ++ [i]) /\
    length qn = length (i_qnext s).
Proof.
  intros Hc Hq Hn Hi Hl. unfold append. erewrite bind_ret by reflexivity. erewrite bind_ret by reflexivity.
  cbn [i_queue set_qnext]. rewrite Hq. pose proof (chain_other _ _ i None Hi Hc) as Hc'. destruct q as [|b q]; cbn [List.hd_error].
  - exists (<[i := None]> (i_qnext s)). rewrite length_insert. split_and!; [done|cbn [app chain]; split; [by apply list_lookup_insert_eq|done]|done].
  - destruct (last_chain _ q b (S (length (<[i := None]> (i_qnext s)))) Hc') as (pre & l & E & R).
    { rewrite length_insert. assert (length (b :: q) <= length (i_qnext s))%nat; [|cbn in *; lia]. apply nodup_bound; [done|].
      clear -Hc. revert Hc. generalize (b :: q). intros q'. induction q' as [|j q' IH]; cbn [chain]; [constructor|].
      intros [H1 H2]. constructor; [by eapply lookup_lt_Some|by apply IH]. }
    exists (<[l := Some i]> (<[i := None]> (i_qnext s))). rewrite !length_insert. split_and!; [|..|done].
    + erewrite bind_ret by (unfold deref; cbn [i_qnext set_qnext]; by rewrite R). by destruct s; cbn in *; rewrite Hq.
    + rewrite E, <- app_assoc. rewrite E in *. apply NoDup_app in Hn as (_ & Hn & _).
      apply chain_snoc; [done|intros Hx; by apply (Hn l Hx), list_elem_of_singleton|done|by apply list_lookup_insert_eq].
Qed.

(** *** The invariant of the driver *)

(** What the disk holds and does while the request at the front of the
    queue is under way. *)
Definition at_front (h : H) (a : aide) : Prop :=
  (forall d l, v_disk (cv h) d l =
    match a_queue a with [] => a_disk a d l | i :: _ => started (a_disk a) (a_bufs a !!! i) d l end) /\
  (forall i q, a_queue a = i :: q -> dirty (a_bufs a !!! i) = false ->
    v_cmd (cv h) = Some (false, drive (a_bufs a !!! i), b_blockno (a_bufs a !!! i))).

Record ide_ok (pids : list Z) (d1 : bool) s (a : aide) : Prop := mkideok {
  ok_bufs : i_bufs s = a_bufs a;
  ok_d1 : i_disk1 s = d1;
  ok_len : length (i_qnext s) = length (a_bufs a);
  ok_queue : i_queue s = List.hd_error (a_queue a);
  ok_chain : chain (i_qnext s) (a_queue a);
  ok_nodup : NoDup (a_queue a);
  ok_req i : i ∈ a_queue a -> i ∈ a_calls a /\ exists b, a_bufs a !! i = Some b /\ request b;
  ok_calls i : i ∈ a_calls a -> exists b, a_bufs a !! i = Some b /\ (i ∈ a_queue a \/ finished b = true);
  ok_front : at_front (i_hw s) a;
  ok_sleep j i : sleeps (i_proc s) j (ChBuf i) -> i ∈ a_queue a;
  ok_pids : map p_pid (ptable (i_proc s)) = pids }.

Lemma finished_served D b : finished (served D b) = true.
Proof.
  unfold finished, served, set_flags. cbn [b_flags]. apply Z.eqb_eq, Z.bits_inj'. intros n Hn.
  rewrite !Z.land_spec, !Z.lor_spec, Z.lnot_spec by done. change B_VALID with (2 ^ 1). change B_DIRTY with (2 ^ 2).
  rewrite !Z.pow2_bits_eqb by lia. destruct (Z.eqb_spec 1 n), (Z.eqb_spec 2 n); try lia; by rewrite ?orb_true_r, ?andb_false_r.
Qed.

Lemma pids_woken ch ps : map p_pid (ptable (woken ch ps)) = map p_pid (ptable ps).
Proof. unfold woken, wakeup1. cbn. rewrite map_map. apply map_ext. intros p. by destruct (decide _). Qed.

Lemma pids_asleep ch me ps : map p_pid (ptable (asleep_on ch me ps)) = map p_pid (ptable ps).
Proof.
  apply list_eq. intros j. rewrite !list_lookup_fmap. unfold asleep_on, upd_proc. cbn [ptable set_ptable].
  rewrite list_lookup_alter. case_decide as E; [subst; by destruct (ptable ps !! j)|done].
Qed.

(** A call waits while its buffer is not finished. *)
Lemma iderw_wait_ok s me i b : i_bufs s !! i = Some b -> cur (i_proc s) = Some me ->
  iderw_wait i s = if finished b then Ret (Done tt) s else Ret (Wait i) (set_iproc (asleep_on (ChBuf i) me (i_proc s)) s).
Proof.
  intros Hi Hc. unfold iderw_wait. erewrite bind_ret by (unfold getb, deref; by rewrite Hi).
  destruct (finished b); [done|]. erewrite bind_ret; [reflexivity|]. unfold zoom. by rewrite (sleep_mark_ok _ me).
Qed.

Lemma ide_holding_ok s me i b pid : i_bufs s !! i = Some b -> cur (i_proc s) = Some me ->
  map p_pid (ptable (i_proc s)) !! me = Some pid -> b_lock b = mksl true pid -> ide_holding i s = Ret true s.
Proof.
  intros Hi Hc Hp Hl. unfold ide_holding, holdingsleep. erewrite bind_ret by (unfold deref; by rewrite Hi). rewrite Hl.
  cbn [sl_locked sl_pid]. rewrite list_lookup_fmap in Hp. apply fmap_Some in Hp as (p & Hp & ->).
  erewrite bind_ret; [by rewrite Z.eqb_refl|]. unfold zoom, mypid, myproc. erewrite bind_ret by (unfold deref; by rewrite Hc).
  erewrite bind_ret by (unfold getproc, deref; by rewrite Hp). by destruct s.
Qed.

Lemma started_ext D D' b d l : D d l = D' d l -> started D b d l = started D' b d l.
Proof. unfold started. by intros ->. Qed.

Lemma submit_start s a i b : i_bufs s = a_bufs a -> a_bufs a !! i = Some b -> request b -> i ∉ a_queue a ->
  at_front (i_hw s) a ->
  exists h, (if decide (List.hd_error (a_queue a ++ [i]) = Some i) then idestart i else mret tt) s = Ret tt (set_hw h s) /\
    at_front h (astep (Submit 0 i) a).
Proof.
  intros Hb Hi Hr Hq [Hd Hc]. unfold at_front. cbn [astep a_disk a_bufs a_queue]. destruct (a_queue a) as [|j q]; cbn [app List.hd_error].
  - rewrite decide_True by done. destruct (idestart_ok s i b) as (h & R & Hd' & Hc'); [by rewrite Hb|done|].
    exists h. rewrite R. split_and!; [done|..].
    + intros d l. rewrite Hd', (list_lookup_total_correct _ _ _ Hi). apply started_ext, Hd.
    + intros ? ? [= <- <-]. rewrite (list_lookup_total_correct _ _ _ Hi). exact Hc'.
  - apply not_elem_of_cons in Hq as [Hq _]. rewrite decide_False by congruence. exists (i_hw s). destruct s. split_and!; [done|exact Hd|].
    intros ? ? [= <- <-]. by apply (Hc j q).
Qed.

Lemma submit_ok pids d1 s a me i : ide_ok pids d1 s a -> legal pids d1 (Submit me i) a ->
  exists s', run_iop (Submit me i) s = Ret (Wait i) s' /\ ide_ok pids d1 s' (astep (Submit me i) a).
Proof.
  intros [Kb K1 Kl Kq Kc Kn Kr Kk Kf Ks Kp] (Hn & b & pid & Hi & Hr & Hp & Hl & Hv).
  assert (Hq : i ∉ a_queue a) by (intros E; by apply Hn, Kr). pose proof Hr as (Hf & _).
  cbn [run_iop]. erewrite bind_ret by reflexivity. set (s1 := set_iproc _ s). unfold iderw.
  assert (Hi1 : i_bufs s1 !! i = Some b) by (cbn; by rewrite Kb).
  erewrite bind_ret by (apply (ide_holding_ok s1 me i b pid); [done..|cbn; by rewrite Kp|done]). cbn [negb].
  erewrite bind_ret by (unfold getb, deref; by rewrite Hi1). rewrite Hf. erewrite bind_ret by reflexivity.
  replace (negb (b_dev b =? 0) && negb (i_disk1 s1)) with false
    by (cbn; rewrite K1; destruct Hv as [-> | ->]; [done|by rewrite andb_false_r]).
  destruct (append_ok s1 (a_queue a) i) as (qn & R & Hc' & Hlq); [done..|cbn; rewrite Kl; by eapply lookup_lt_Some|].
  erewrite bind_ret by exact R. erewrite bind_ret by reflexivity. set (s2 := set_queue _ _).
  destruct (submit_start s2 a i b) as (h & R2 & Hf2); [done..|]. erewrite bind_ret by exact R2.
  rewrite (iderw_wait_ok _ me i b) by done. rewrite Hf. eexists. split; [reflexivity|].
  split; cbn [astep a_bufs a_queue a_calls i_bufs i_disk1 i_qnext i_queue i_hw i_proc set_iproc set_hw set_queue set_qnext s2 s1]; try done.
  - by rewrite Hlq.
  - apply NoDup_app. split_and!; [done| |by apply NoDup_singleton]. intros j Hj ->%list_elem_of_singleton. done.
  - intros j [Hj | ->%list_elem_of_singleton]%elem_of_app.
    + split; [apply elem_of_cons; right; by apply Kr|by apply Kr].
    + split; [apply elem_of_cons; by left|by exists b].
  - intros j [-> | Hj]%elem_of_cons; [exists b; split; [done|]; left; apply elem_of_app; right; by apply list_elem_of_singleton|].
    destruct (Kk j Hj) as (b' & Hb' & [?|?]); exists b'; (split; [done|]); [left; apply elem_of_app|]; auto.
  - intros j k Hs. apply elem_of_app. apply sleeps_asleep in Hs as [[= ->] | Hs]; [right; by apply list_elem_of_singleton|].
    left. by apply (Ks j k).
  - by rewrite pids_asleep.
Qed.

Lemma resume_ok pids d1 s a me i : ide_ok pids d1 s a -> legal pids d1 (Resume me i) a ->
  exists s', run_iop (Resume me i) s = Ret (aresult (Resume me i) a) s' /\ ide_ok pids d1 s' (astep (Resume me i) a).
Proof.
  intros K Hc. cbn [legal] in Hc. destruct (ok_calls _ _ _ _ K i Hc) as (b & Hb & Hq). cbn [run_iop]. erewrite bind_ret by reflexivity.
  rewrite (iderw_wait_ok _ me i b) by (cbn; rewrite ?(ok_bufs _ _ _ _ K); done). cbn [aresult astep].
  destruct (decide (i ∈ a_queue a)) as [Hi|Hi].
  - destruct (ok_req _ _ _ _ K i Hi) as (_ & b' & Hb' & Hf & _). assert (b' = b) as -> by congruence. rewrite Hf.
    eexists. split; [done|]. destruct K as [Kb K1 Kl Kq Kc Kn Kr Kk Kf Ks Kp]. split; try done.
    + intros j k Hs. apply sleeps_asleep in Hs as [[= ->] | Hs]; [done|]. by apply (Ks j k).
    + etrans; [apply pids_asleep|done].
  - destruct Hq as [?| ->]; [done|]. eexists. split; [done|]. destruct K as [Kb K1 Kl Kq Kc Kn Kr Kk Kf Ks Kp].
    split; try done; cbn [a_calls a_queue a_bufs].
    + intros j Hj. destruct (Kr j Hj) as [Hj' Hb']. split; [|done]. apply list_elem_of_filter. split; [congruence|done].
    + intros j [_ Hj]%list_elem_of_filter. by apply Kk.
Qed.

Lemma insert_alter {A} (f : A -> A) i x (l : list A) : alter f i (<[i := x]> l) = <[i := f x]> l.
Proof. revert i. induction l as [|y l IH]; intros [|i]; cbn; [done..|]. f_equal. apply IH. Qed.

(** The first part of ideintr: the data of a read is fetched. *)
Definition filled (D : Z -> Z -> list Z) (b : buf) : buf := if dirty b then b else set_data (D (drive b) (b_blockno b)) b.

Lemma fetch_ok s i b : i_bufs s !! i = Some b ->
  (dirty b = false -> v_cmd (cv (i_hw s)) = Some (false, drive b, b_blockno b)) ->
  exists h, (if Z.land (b_flags b) B_DIRTY =? 0 then
       r ← idewait true;
       if 0 <=? r then d ← insl 496 (BSIZE / 4); modb i (set_data d) else mret tt
     else mret tt) s = Ret tt (set_hw h (set_ibufs (<[i := filled (v_disk (cv (i_hw s))) b]> (i_bufs s)) s)) /\
    v_disk (cv h) = v_disk (cv (i_hw s)).
Proof.
  intros Hi Hc. unfold filled, dirty in *. destruct (Z.land (b_flags b) B_DIRTY =? 0); cbn [negb] in *.
  - destruct (idewait_ready true s) as (h & R & V). erewrite bind_ret by exact R. change (0 <=? 0) with true. cbv iota.
    destruct (cl_in h (drive b) (b_blockno b)) as [E1 E2]; [rewrite V; by apply Hc|].
    exists (d_insl 496 128 h).2. rewrite E2, <- V. split; [|done]. erewrite bind_ret by reflexivity.
    change (BSIZE / 4)%nat with 128%nat. cbn [i_hw set_hw]. rewrite E1. unfold modb, modify. cbn [i_bufs set_hw].
    rewrite <- (list_insert_id _ _ _ Hi) at 1. by rewrite insert_alter.
  - exists (i_hw s). rewrite list_insert_id by done. by destruct s.
Qed.

(** The last part: the next request is started. *)
Lemma next_ok s a q : i_bufs s = a_bufs a -> a_queue a = q -> (forall j, j ∈ q -> exists b, a_bufs a !! j = Some b /\ request b) ->
  (forall d l, v_disk (cv (i_hw s)) d l = a_disk a d l) ->
  exists h, match List.hd_error q with Some j => idestart j | None => mret tt end s = Ret tt (set_hw h s) /\ at_front h a.
Proof.
  intros Hb Hq Hr Hd. unfold at_front. rewrite Hq. destruct q as [|j q]; cbn [List.hd_error].
  - exists (i_hw s). by destruct s.
  - destruct (Hr j) as (b & Hj & Hj'); [apply elem_of_cons; by left|]. rewrite (list_lookup_total_correct _ _ _ Hj).
    destruct (idestart_ok s j b) as (h & R & Hd' & Hc'); [by rewrite Hb|done|]. exists h. rewrite R. split_and!; [done|..].
    + intros d l. rewrite Hd'. apply started_ext, Hd.
    + intros ? ? [= <- <-]. rewrite (list_lookup_total_correct _ _ _ Hj). exact Hc'.
Qed.

(** One interrupt, seen from the buffer at the front of the queue. *)
Lemma ideintr_ok s a i q b : i_bufs s = a_bufs a -> a_queue a = i :: q -> i_queue s = Some i -> i_qnext s !! i = Some (List.hd_error q) ->
  NoDup (i :: q) -> a_bufs a !! i = Some b -> (forall j, j ∈ q -> exists b, a_bufs a !! j = Some b /\ request b) -> at_front (i_hw s) a ->
  exists h, ideintr s = Ret tt (set_hw h (set_iproc (woken (ChBuf i) (i_proc s))
      (set_ibufs (<[i := served (a_disk a) b]> (a_bufs a)) (set_queue (List.hd_error q) s)))) /\ at_front h (aserve a).
Proof.
  intros Hb Hq Hh Hc Hn Hi Hr [Hd Hm]. unfold ideintr. erewrite bind_ret by reflexivity. rewrite Hh.
  erewrite bind_ret by (unfold deref; by rewrite Hc). erewrite bind_ret by reflexivity.
  erewrite bind_ret by (unfold getb, deref; cbn [i_bufs set_queue]; by rewrite Hb, Hi).
  destruct (fetch_ok (set_queue (List.hd_error q) s) i b) as (h & R & Hh1); [cbn; by rewrite Hb|..].
  { specialize (Hm i q Hq). by rewrite (list_lookup_total_correct _ _ _ Hi) in Hm. }
  erewrite bind_ret by exact R. do 2 (erewrite bind_ret by reflexivity). cbn [i_bufs set_ibufs set_hw set_queue]. rewrite !insert_alter.
  erewrite bind_ret by (unfold zoom, wakeup, modify; reflexivity). erewrite bind_ret by reflexivity.
  assert (Es : forall x, set_flags (Z.land (b_flags (set_flags (Z.lor (b_flags (filled x b)) B_VALID) (filled x b))) (Z.lnot B_DIRTY))
    (set_flags (Z.lor (b_flags (filled x b)) B_VALID) (filled x b)) = served x b).
  { intros x. unfold served, filled. by destruct (dirty b). }
  rewrite Es, Hb. cbn [i_queue set_iproc set_ibufs set_hw set_queue i_hw].
  assert (Ed : served (v_disk (cv (i_hw s))) b = served (a_disk a) b).
  { unfold served. destruct (dirty b) eqn:Ey; [done|]. rewrite Hd, Hq, (list_lookup_total_correct _ _ _ Hi). unfold started. by rewrite Ey. }
  rewrite Ed. apply NoDup_cons in Hn as [Hni Hn].
  assert (Ea : aserve a = mkaide (started (a_disk a) b) (<[i := served (a_disk a) b]> (a_bufs a)) q (a_calls a)).
  { unfold aserve. by rewrite Hq, (list_lookup_total_correct _ _ _ Hi). }
  rewrite Ea. match goal with |- exists _, _ ?s1 = _ /\ _ => destruct (next_ok s1 (aserve a) q) as (h' & R' & Hf') end; rewrite ?Ea; try done.
  - intros j Hj. cbn [a_bufs]. rewrite list_lookup_insert_ne by congruence. by apply Hr.
  - intros d l. cbn [i_hw a_disk set_hw set_iproc set_ibufs set_queue] in *. rewrite Hh1, Hd, Hq. by rewrite (list_lookup_total_correct _ _ _ Hi).
  - exists h'. rewrite R', <- Ea. done.
Qed.

Lemma interrupt_ok pids d1 s a : ide_ok pids d1 s a ->
  exists s', run_iop Interrupt s = Ret (Done tt) s' /\ ide_ok pids d1 s' (aserve a).
Proof.
  intros K. pose proof K as [Kb K1 Kl Kq Kc Kn Kr Kk Kf Ks Kp]. cbn [run_iop]. destruct (a_queue a) as [|i q] eqn:Eq.
  { exists s. split; [|unfold aserve; by rewrite Eq]. unfold ideintr. erewrite bind_ret; [reflexivity|].
    erewrite bind_ret by reflexivity. by rewrite Kq. }
  destruct (Kr i ltac:(apply elem_of_cons; by left)) as (Hc & b & Hb & Hr). destruct Kc as [Kc1 Kc]. pose proof Kn as [Kn1 Kn2]%NoDup_cons.
  destruct (ideintr_ok s a i q b) as (h & R & Hf); [done..|intros j Hj; apply Kr, elem_of_cons; by right|done|].
  erewrite bind_ret by exact R. eexists. split; [reflexivity|]. unfold aserve in *. rewrite Eq, (list_lookup_total_correct _ _ _ Hb) in *.
  pose proof (lookup_lt_Some _ _ _ Hb) as Hlt.
  split; cbn [a_bufs a_queue a_calls i_bufs i_disk1 i_qnext i_queue i_hw i_proc set_iproc set_hw set_queue set_ibufs] in *; try done.
  - by rewrite length_insert.
  - intros j Hj. rewrite list_lookup_insert_ne by congruence. apply Kr, elem_of_cons. by right.
  - intros j Hj. destruct (decide (j = i)) as [->|Hne].
    + exists (served (a_disk a) b). rewrite list_lookup_insert_eq by done. split; [done|]. right. apply finished_served.
    + destruct (Kk j Hj) as (b' & Hb' & Hd). exists b'. rewrite list_lookup_insert_ne by done. split; [done|].
      destruct Hd as [[?|?]%elem_of_cons|?]; auto; done.
  - intros j k Hs. apply sleeps_woken in Hs as [Hne Hs]. specialize (Ks j k Hs). apply elem_of_cons in Ks as [->|?]; done.
  - by rewrite pids_woken.
Qed.

Lemma touch_ok pids d1 s a i b : ide_ok pids d1 s a -> legal pids d1 (Touch i b) a ->
  exists s', run_iop (Touch i b) s = Ret (Done tt) s' /\ ide_ok pids d1 s' (astep (Touch i b) a).
Proof.
  intros [Kb K1 Kl Kq Kc Kn Kr Kk Kf Ks Kp] Hi. cbn [legal] in Hi. cbn [run_iop]. erewrite bind_ret by reflexivity.
  eexists. split; [reflexivity|].
  split; cbn [astep a_bufs a_queue a_calls i_bufs i_disk1 i_qnext i_queue i_hw i_proc set_ibufs] in *; try done.
  - by rewrite Kb.
  - by rewrite length_insert.
  - intros j Hj. destruct (Kr j Hj) as [Hj' Hb']. rewrite list_lookup_insert_ne by (intros ->; done). done.
  - intros j Hj. rewrite list_lookup_insert_ne by (intros ->; done). by apply Kk.
  - destruct Kf as [Hd Hm]. unfold at_front. cbn [a_disk a_bufs a_queue]. destruct (a_queue a) as [|j q]; [done|].
    destruct (Kr j) as [Hj _]; [apply elem_of_cons; by left|]. rewrite list_lookup_total_insert_ne by (intros ->; done).
    split; [done|]. intros ? ? [= <- <-]. rewrite list_lookup_total_insert_ne by (intros ->; done). by apply (Hm j q).
Qed.

Lemma step_ok pids d1 s a o : ide_ok pids d1 s a -> legal pids d1 o a ->
  exists s', run_iop o s = Ret (aresult o a) s' /\ ide_ok pids d1 s' (astep o a).
Proof.
  intros K L. destruct o as [i b|me i|me i|].
  - by apply touch_ok.
  - by apply submit_ok.
  - by apply resume_ok.
  - by apply interrupt_ok.
Qed.

Lemma run_ok pids d1 l : forall s a, ide_ok pids d1 s a -> legal_run pids d1 l a ->
  exists s', run_iops l s = Ret (arun l a).1 s' /\ ide_ok pids d1 s' (arun l a).2.
Proof.
  induction l as [|o l IH]; intros s a K L; cbn [run_iops arun fst snd]; [by exists s|]. destruct L as [L1 L2].
  destruct (step_ok pids d1 s a o K L1) as (s1 & R1 & K1). destruct (IH s1 _ K1 L2) as (s2 & R2 & K2).
  exists s2. split; [|done]. erewrite bind_ret by exact R1. by erewrite bind_ret by exact R2.
Qed.

(** *** Start-up *)

Lemma probe_ok n : forall s, exists h d1, probe n s = Ret tt (set_hw h (set_disk1 d1 s)) /\ cv h = cv (i_hw s).
Proof.
  induction n as [|n IH]; intros s; cbn [probe].
  - exists (i_hw s), (i_disk1 s). by destruct s.
  - erewrite bind_ret by reflexivity. destruct (negb _).
    + exists (d_inb 503 (i_hw s)).2, true. split; [done|apply cl_status].
    + destruct (IH (set_hw (d_inb 503 (i_hw s)).2 s)) as (h & d1 & R & V). exists h, d1. rewrite R. split; [done|].
      rewrite V. apply cl_status.
Qed.

Lemma ideinit_ok ncpu s : exists h d1, ideinit ncpu s = Ret tt (set_hw h (set_disk1 d1 s)) /\ v_disk (cv h) = v_disk (cv (i_hw s)).
Proof.
  unfold ideinit. erewrite bind_ret by reflexivity. set (s0 := set_hw _ s).
  assert (V0 : cv (i_hw s0) = cv (i_hw s)) by (unfold s0; cbn; by rewrite !cl_mmio by (unfold IOAPIC; lia)).
  destruct (idewait_ready false s0) as (h & R & V). erewrite bind_ret by exact R. erewrite bind_ret by reflexivity.
  match goal with |- context [(probe 1000 ;; _) ?x] => destruct (probe_ok 1000 x) as (h' & d1 & R' & V') end.
  erewrite bind_ret by exact R'. eexists _, d1. split; [reflexivity|]. cbn [i_hw set_hw] in *.
  rewrite cl_reg by (cbn; auto 10). cbn [v_disk set_reg]. rewrite V', cl_reg by (cbn; auto 10). cbn [v_disk set_reg]. by rewrite V, V0.
Qed.

(** The driver before ideinit: nothing queued, nobody waits for a buffer. *)
Definition fresh s : Prop :=
  i_queue s = None /\ length (i_qnext s) = length (i_bufs s) /\ forall j i, ~ sleeps (i_proc s) j (ChBuf i).

Definition ainit s : aide := mkaide (v_disk (cv (i_hw s))) (i_bufs s) [] [].

Lemma fresh_ok s : fresh s -> ide_ok (map p_pid (ptable (i_proc s))) (i_disk1 s) s (ainit s).
Proof.
  intros (Hq & Hl & Hs). unfold ainit. split; cbn [a_bufs a_queue a_calls]; try done.
  - constructor.
  - by intros i ?%elem_of_nil.
  - by intros i ?%elem_of_nil.
  - by intros j i ?%Hs.
Qed.

Lemma init_ok ncpu s : fresh s -> exists s0, ideinit ncpu s = Ret tt s0 /\ ide_ok (map p_pid (ptable (i_proc s))) (i_disk1 s0) s0 (ainit s).
Proof.
  intros F. destruct (ideinit_ok ncpu s) as (h & d1 & R & V). eexists. split; [exact R|].
  replace (ainit s) with (ainit (set_hw h (set_disk1 d1 s))) by (unfold ainit; cbn; by rewrite V). exact (fresh_ok (set_hw h (set_disk1 d1 s)) F).
Qed.

Lemma drain_ok pids d1 n : forall s a, ide_ok pids d1 s a -> length (a_queue a) = n ->
  exists rs s' a', run_iops (replicate n Interrupt) s = Ret rs s' /\ ide_ok pids d1 s' a' /\ a_queue a' = [] /\ a_calls a' = a_calls a.
Proof.
  induction n as [|n IH]; intros s a K E.
  - exists [], s, a. split_and!; try done. by apply nil_length_inv.
  - destruct (interrupt_ok _ _ _ _ K) as (s1 & R1 & K1).
    assert (E1 : length (a_queue (aserve a)) = n /\ a_calls (aserve a) = a_calls a) by (unfold aserve; destruct (a_queue a); cbn in *; lia || (split; [lia|done])).
    destruct E1 as [E1 E2]. destruct (IH s1 _ K1 E1) as (rs & s' & a' & R & K' & Q & Q'). exists (Done tt :: rs), s', a'.
    split_and!; try done; [|congruence]. cbn [replicate run_iops]. erewrite bind_ret by exact R1. by erewrite bind_ret by exact R.
Qed.

(** *** The two drivers *)

(** The disk in memory of memide.c and disk 1 behind the controller hold
    the same blocks, and both drivers see the same buffers and processes. *)
Definition same_disk (bs : bst) s : Prop :=
  Z.of_nat (length (disk bs)) = disksize bs /\
  forall n, 0 <= n < disksize bs -> v_disk (cv (i_hw s)) 1 n = disk bs !!! Z.to_nat n.

Lemma flags_served f : Z.lor (Z.land f (Z.lnot B_DIRTY)) B_VALID = Z.land (Z.lor f B_VALID) (Z.lnot B_DIRTY).
Proof.
  apply Z.bits_inj'. intros n Hn. rewrite Z.lor_spec, !Z.land_spec, Z.lor_spec, Z.lnot_spec by done.
  change B_VALID with (2 ^ 1). change B_DIRTY with (2 ^ 2). rewrite !Z.pow2_bits_eqb by lia.
  destruct (Z.eqb_spec 1 n), (Z.eqb_spec 2 n); try lia; by destruct (Z.testbit f n).
Qed.

Lemma flags_clean f : Z.land f B_DIRTY = 0 -> Z.lor f B_VALID = Z.land (Z.lor f B_VALID) (Z.lnot B_DIRTY).
Proof.
  intros E. rewrite <- flags_served. f_equal. apply Z.bits_inj'. intros n Hn. rewrite Z.land_spec, Z.lnot_spec by done.
  apply (f_equal (fun x => Z.testbit x n)) in E. rewrite Z.land_spec, Z.bits_0 in E. by destruct (Z.testbit f n), (Z.testbit B_DIRTY n).
Qed.

(** memide's iderw, in one step. *)
Lemma memide_rw bs me i b pid : bufs bs !! i = Some b -> cur (b_proc bs) = Some me ->
  map p_pid (ptable (b_proc bs)) !! me = Some pid -> b_lock b = mksl true pid ->
  finished b = false -> b_dev b = 1 -> 0 <= b_blockno b < disksize bs ->
  exists bs', Bio.iderw i bs = Ret tt bs' /\ disksize bs' = disksize bs /\
    bufs bs' = <[i := served (fun _ n => disk bs !!! Z.to_nat n) b]> (bufs bs) /\
    disk bs' = if dirty b then <[Z.to_nat (b_blockno b) := b_data b]> (disk bs) else disk bs.
Proof.
  intros Hi Hc Hp Hl Hf Hd Hn. unfold Bio.iderw.
  assert (Hr : running (b_proc bs) pid).
  { rewrite list_lookup_fmap in Hp. apply fmap_Some in Hp as (p & Hp & ->). by exists me, p. }
  erewrite bind_ret by (apply (holding_buf_true _ _ pid); [done|by eapply lookup_lt_Some|by rewrite (list_lookup_total_correct _ _ _ Hi)]).
  cbn [negb]. erewrite bind_ret by (unfold getbuf, deref; by rewrite Hi). unfold finished in Hf. rewrite Hf, Hd. change (1 =? 1) with true.
  cbn [negb]. erewrite bind_ret by reflexivity. cbn [disksize set_bproc]. rewrite (proj2 (Z.leb_gt _ _)) by (pose proof (u32_le (b_blockno b)); lia).
  unfold served, dirty. destruct (Z.land (b_flags b) B_DIRTY =? 0) eqn:Ed; cbn [negb]; (eexists; split; [reflexivity|]); cbn [disksize bufs disk upd_buf set_bufs write_disk set_bproc].
  - split_and!; [done| |done]. rewrite <- (list_insert_id _ _ _ Hi) at 1. rewrite !insert_alter. cbn [b_flags set_data].
    by rewrite <- (flags_clean _ (proj1 (Z.eqb_eq _ _) Ed)).
  - split_and!; [done| |done]. rewrite <- (list_insert_id _ _ _ Hi) at 1. rewrite !insert_alter. cbn [b_flags set_flags]. by rewrite flags_served.
Qed.

(** C5: The driver is a disk that serves requests one after the other.
    ideinit returns; then, for any interleaving of calls of iderw, wakeups,
    interrupts and changes of buffers that are in no call, the driver does
    not panic, every call returns exactly when its request has been served,
    the buffers are those of the sequential disk, the disk is the
    sequential disk when no request is outstanding, and whoever sleeps on a
    buffer sleeps on a request that is still to be served: no wakeup is
    lost. *)
Theorem ide_refines_fifo_disk ncpu s : fresh s ->
  exists s0, ideinit ncpu s = Ret tt s0 /\
    forall l, legal_run (map p_pid (ptable (i_proc s))) (i_disk1 s0) l (ainit s) ->
    let r := arun l (ainit s) in
    exists s', run_iops l s0 = Ret r.1 s' /\ i_bufs s' = a_bufs r.2 /\
      (a_queue r.2 = [] -> forall d x, v_disk (cv (i_hw s')) d x = a_disk r.2 d x) /\
      (forall j i, sleeps (i_proc s') j (ChBuf i) -> i ∈ a_queue r.2).
Proof.
  intros F. destruct (init_ok ncpu s F) as (s0 & R & K). exists s0. split; [done|]. intros l L.
  destruct (run_ok _ _ l s0 _ K L) as (s' & R' & K'). exists s'. split_and!; [done|apply (ok_bufs _ _ _ _ K')| |apply (ok_sleep _ _ _ _ K')].
  intros E d x. destruct (ok_front _ _ _ _ K') as [Hd _]. by rewrite Hd, E.
Qed.

(** Every request is served: after any legal run, as many interrupts as
    requests are queued empty the queue, nobody sleeps on a buffer any
    more, and every buffer handed to iderw is valid and clean. *)
Theorem ide_drains ncpu s l s0 s1 rs : fresh s -> ideinit ncpu s = Ret tt s0 ->
  legal_run (map p_pid (ptable (i_proc s))) (i_disk1 s0) l (ainit s) -> run_iops l s0 = Ret rs s1 ->
  let a := (arun l (ainit s)).2 in
  exists rs' s', run_iops (replicate (length (a_queue a)) Interrupt) s1 = Ret rs' s' /\ i_queue s' = None /\
    (forall j i, ~ sleeps (i_proc s') j (ChBuf i)) /\
    (forall i, i ∈ a_calls a -> exists b, i_bufs s' !! i = Some b /\ finished b = true).
Proof.
  intros F R L Rl a. destruct (init_ok ncpu s F) as (s0' & R' & K). assert (s0' = s0) as -> by congruence.
  destruct (run_ok _ _ l s0 _ K L) as (s1' & Rl' & K1). assert (s1' = s1) as -> by congruence. fold a in K1. clearbody a.
  destruct (drain_ok _ _ _ s1 a K1 eq_refl) as (rs' & s' & a' & R2 & K2 & Eq & Ec). exists rs', s'. split_and!; [done|..].
  - by rewrite (ok_queue _ _ _ _ K2), Eq.
  - intros j i Hs. apply (ok_sleep _ _ _ _ K2) in Hs. rewrite Eq in Hs. by apply elem_of_nil in Hs.
  - intros i Hi. rewrite <- Ec in Hi. destruct (ok_calls _ _ _ _ K2 i Hi) as (b & Hb & [Hq|Hf]).
    + rewrite Eq in Hq. by apply elem_of_nil in Hq.
    + exists b. by rewrite (ok_bufs _ _ _ _ K2).
Qed.

(** C30: The two disk drivers agree.  When the disk of memide.c and disk 1
    behind the controller hold the same blocks, one call of memide's iderw
    does what a call of ide.c's iderw, the interrupt and the end of the
    call do: the buffers come out equal, the disks stay the same, and
    the driver is idle again.  So what is shown of the file system over the
    one driver holds over the other. *)
Theorem ide_agrees_with_memide bs s me i b pid : fresh s -> same_disk bs s -> i_bufs s = bufs bs -> i_proc s = b_proc bs ->
  i_disk1 s = true -> bufs bs !! i = Some b -> cur (b_proc bs) = Some me -> map p_pid (ptable (b_proc bs)) !! me = Some pid ->
  b_lock b = mksl true pid -> request b -> b_dev b = 1 -> b_blockno b < disksize bs ->
  exists bs' s', Bio.iderw i bs = Ret tt bs' /\
    run_iops [Submit me i; Interrupt; Resume me i] s = Ret [Wait i; Done tt; Done tt] s' /\
    i_bufs s' = bufs bs' /\ same_disk bs' s' /\ fresh s'.
Proof.
  intros F [Hl Hd] Eb Ep E1 Hi Hc Hp Hk Hr Hv Hn. pose proof Hr as (Hf & Hb & Hlen).
  destruct (memide_rw bs me i b pid) as (bs' & R & Sz & B' & D'); [done..|lia|].
  assert (L : legal_run (map p_pid (ptable (i_proc s))) (i_disk1 s) [Submit me i; Interrupt; Resume me i] (ainit s)).
  { cbn [legal_run legal ainit a_calls a_bufs astep]. rewrite Ep, Eb. split_and!; [by intros ?%elem_of_nil|exists b, pid; split_and!; auto|done| |done].
    unfold aserve. cbn. apply elem_of_cons. by left. }
  destruct (run_ok _ _ _ s _ (fresh_ok s F) L) as (s' & R' & K). exists bs', s'.
  assert (Hi' : i_bufs s !!! i = b) by (by rewrite Eb; apply list_lookup_total_correct).
  unfold ainit, arun, astep, aserve, aresult in R', K. cbn [a_queue a_bufs a_calls a_disk app fst snd] in R', K.
  rewrite (decide_False (P := i ∈ [])) in R' by (by intros ?%elem_of_nil). rewrite (decide_False (P := i ∈ [])) in K by (by intros ?%elem_of_nil).
  rewrite Hi', Eb in K. destruct K as [Kb K1 Kl Kq Kc Kn Kr Kk [Kd _] Ks Kp]. cbn [a_queue a_bufs a_calls a_disk] in *.
  assert (Dr : drive b = 1) by (unfold drive; by rewrite Hv).
  split_and!; [done|done| | |split_and!; [done|by rewrite Kl, Kb|]].
  - rewrite Kb, B'. f_equal. unfold served. by rewrite Dr, Hd by lia.
  - unfold same_disk. rewrite Sz, D'. split; [destruct (dirty b); by rewrite ?length_insert|]. intros n Hn'. rewrite Kd. unfold started.
    rewrite Dr. destruct (dirty b); cbn [andb]; [|by apply Hd]. change (1 =? 1) with true. cbn [andb]. destruct (Z.eqb_spec n (b_blockno b)) as [->|Hne].
    + rewrite list_lookup_total_insert_eq by lia. done.
    + rewrite list_lookup_total_insert_ne by lia. by apply Hd.
  - intros j k Hs. by apply Ks, elem_of_nil in Hs.
Qed.
End Proofs.

(** ** A controller *)

(** Two drives whose status is busy for two reads after a command. *)
Definition demo_out (p v : Z) (x : view * nat) : view * nat :=
  if p =? 503 then (set_cmd (Some (v =? IDE_CMD_WRITE, sel_drive x.1, sel_lba x.1)) x.1, 2%nat) else (set_reg p v x.1, x.2).
Definition demo_insl (x : view * nat) : list Z * (view * nat) :=
  match v_cmd x.1 with Some (false, a, l) => (v_disk x.1 a l, (set_cmd None x.1, x.2)) | _ => ([], x) end.
Definition demo_outsl (d : list Z) (x : view * nat) : view * nat :=
  match v_cmd x.1 with Some (true, a, l) => (set_cmd None (set_sector a l d x.1), x.2) | _ => x end.

#[local] Instance demo_controller : Device (view * nat) := {
  d_load _ _ x := (0, x);
  d_store _ _ _ x := x;
  d_inb _ x := (match x.2 with O => IDE_DRDY | _ => IDE_BSY end, (x.1, pred x.2));
  d_outb := demo_out;
  d_insl _ _ := demo_insl;
  d_outsl _ := demo_outsl;
  d_polls x := x.2 }.

Lemma demo_poll (x : view * nat) : Z.land (u8 (d_inb 503 x).1) 192 = 64 \/ (d_polls (d_inb 503 x).2 < d_polls x)%nat.
Proof. destruct x as [v [|n]]; [by left|right; cbn; lia]. Qed.

Lemma demo_good (x : view * nat) : Z.land (u8 (d_inb 503 x).1) 192 = 64 -> Z.land (u8 (d_inb 503 x).1) 33 = 0.
Proof. by destruct x as [v [|n]]. Qed.

Lemma demo_reg p v (x : view * nat) : List.In p [498; 499; 500; 501; 502; 1014] -> (d_outb p v x).1 = set_reg p v x.1.
Proof. intros Hp. cbn [d_outb demo_controller]. unfold demo_out. rewrite (proj2 (Z.eqb_neq p 503)); [done|]. intros ->. cbn in Hp. lia. Qed.

#[local] Instance demo_laws : ControllerLaws (view * nat).
Proof.
  refine {| cv := fst; cl_poll := demo_poll; cl_good := demo_good; cl_reg := demo_reg |}.
  - done.
  - done.
  - done.
  - done.
  - intros [x n] d a l E _. cbn in *. unfold demo_outsl. cbn. by rewrite E.
  - intros [x n] a l E. cbn in *. unfold demo_insl. cbn. by rewrite E.
Defined.

(** Three processes; buffer 0 is to be read from block 7, buffer 1 written
    to block 9 of disk 0, buffer 2 read from block 2 of disk 1. *)
Definition demo_block (n : Z) : list Z := replicate 512 n.
Definition demo_procs : pst := mkpst (map (fun pid => mkproc 0 0 0 RUNNING pid None tf_zero None false [] None []) [1; 2; 3]) 4 None (Some 2%nat).
Definition demo_bufs : list buf :=
  [mkbuf 0 0 7 (mksl true 1) 1 0 0 (demo_block 0); mkbuf B_DIRTY 0 9 (mksl true 2) 1 0 0 (demo_block 5);
   mkbuf 0 1 2 (mksl true 3) 1 0 0 (demo_block 0)].
Definition demo_ist : ist (view * nat) :=
  mkist demo_bufs [None; None; None] None false (mkview (fun a l => demo_block (a + l)) (fun _ => 0) None, 3%nat) demo_procs.
Definition demo_iops : list iop :=
  [Submit 0 0; Submit 1 1; Interrupt; Resume 0 0; Submit 2 2; Interrupt; Resume 2 2; Resume 1 1].

Lemma demo_fresh : fresh demo_ist.
Proof. split_and!; [done..|]. intros j i (q & Hq & Hs & Hc). by destruct j as [|[|[|j]]]; cbn in Hq; simplify_eq. Qed.

Lemma demo_disk1 : match ideinit 1 demo_ist with Ret _ s => i_disk1 s = true | _ => False end.
Proof. by vm_compute. Qed.

Lemma demo_legal : legal_run [1; 2; 3] true demo_iops (ainit demo_ist).
Proof.
  cbn [legal_run demo_iops legal]. split_and!; try done; try (apply (bool_decide_unpack _); by vm_compute).
  all: eexists _, _; split_and!; [reflexivity|unfold request; split_and!; by vm_compute|reflexivity|reflexivity|by right].
Qed.

Lemma ide_refines_fifo_disk_witness : exists s0 s', ideinit 1 demo_ist = Ret tt s0 /\
  run_iops demo_iops s0 = Ret [Wait 0; Wait 1; Done tt; Done tt; Wait 2; Done tt; Wait 2; Done tt]%nat s' /\
  b_data (i_bufs s' !!! 0%nat) = demo_block 7 /\ forall j i, sleeps (i_proc s') j (ChBuf i) -> i = 2%nat.
Proof.
  destruct (ide_refines_fifo_disk 1 demo_ist demo_fresh) as (s0 & R & K).
  pose proof demo_disk1 as E. rewrite R in E. destruct (K demo_iops) as (s' & R' & B & _ & S); [rewrite E; exact demo_legal|].
  exists s0, s'. split_and!; [done|rewrite R'; by vm_compute|by rewrite B; vm_compute|].
  intros j i Hs. specialize (S j i Hs). vm_compute in S. apply elem_of_cons in S as [S|S]; [done|by apply elem_of_nil in S].
Defined.

Lemma ide_drains_witness : exists s1, (ideinit 1 ;; run_iops demo_iops) demo_ist = Ret [Wait 0; Wait 1; Done tt; Done tt; Wait 2; Done tt; Wait 2; Done tt]%nat s1 /\
  exists rs s', run_iops [Interrupt] s1 = Ret rs s' /\ i_queue s' = None /\ (forall j i, ~ sleeps (i_proc s') j (ChBuf i)).
Proof.
  assert (F : match ideinit 1 demo_ist with
    | Ret _ s0 => match run_iops demo_iops s0 with Ret rs _ => rs = [Wait 0; Wait 1; Done tt; Done tt; Wait 2; Done tt; Wait 2; Done tt]%nat | _ => False end
    | _ => False end) by (by vm_compute).
  pose proof demo_disk1 as E. destruct (ideinit 1 demo_ist) as [[] s0| | | |] eqn:R; [|destruct F..].
  destruct (run_iops demo_iops s0) as [rs s1| | | |] eqn:R1; [|destruct F..]. subst rs.
  exists s1. split; [by erewrite bind_ret by exact R|].
  destruct (ide_drains 1 demo_ist demo_iops s0 s1 _ demo_fresh R ltac:(rewrite E; exact demo_legal) R1) as (rs & s' & Ri & Q & S & _).
  by exists rs, s'.
Defined.

(** Buffer 2 read through both drivers. *)
Definition demo_memide : bst := mkbst demo_procs demo_bufs (map (fun n => demo_block (1 + Z.of_nat n)) (seq 0 4)) 4 [].
Definition demo_ist1 : ist (view * nat) := set_disk1 true demo_ist.

Lemma ide_agrees_with_memide_witness : exists bs' s', Bio.iderw 2 demo_memide = Ret tt bs' /\
  run_iops [Submit 2 2; Interrupt; Resume 2 2]%nat demo_ist1 = Ret [Wait 2%nat; Done tt; Done tt] s' /\
  i_bufs s' = bufs bs' /\ same_disk bs' s' /\ fresh s'.
Proof.
  refine (ide_agrees_with_memide demo_memide demo_ist1 2 2 (mkbuf 0 1 2 (mksl true 3) 1 0 0 (demo_block 0)) 3
    demo_fresh _ eq_refl eq_refl eq_refl eq_refl eq_refl eq_refl eq_refl _ eq_refl _).
  - split; [done|]. intros n Hn. change (disksize demo_memide) with 4 in Hn. assert (n = 0 \/ n = 1 \/ n = 2 \/ n = 3) as [-> | [-> | [-> | ->]]] by lia; done.
  - unfold request. split_and!; by vm_compute.
  - done.
Defined.
