(* ===== verification/Mp.v ===== *)
(** * The multiprocessor tables: mp.c, mp.h

    Before anything else runs the kernel searches low memory for the MP
    floating pointer, checks the configuration table it points to and lists
    the processors.  Memory is read only here: [mem a] is the byte at
    physical address [a], where the code reads P2V(a).  The structures of
    mp.h are read at the offsets the compiler gives them.  The theorems: on
    a well-formed table mpinit ends and lists the processors in table order,
    at most NCPU of them; on a table with an entry of unknown type it never
    ends, although it means to panic. *)

From stdpp Require Import base list strings.
From Stdlib Require Import ZArith Lia.
From S2P Require Import Prelude Dev.

Local Open Scope Z_scope.

Definition NCPU : nat := 8.
Definition MPPROC : Z := 0.
Definition MPBUS : Z := 1.
Definition MPIOAPIC : Z := 2.
Definition MPIOINTR : Z := 3.
Definition MPLINTR : Z := 4.

(** What mpinit sets: cpus[..ncpu].apicid, ioapicid and lapic. *)
Record mpst (D : Type) : Type := mkmp { mp_cpus : list Z; mp_ioapicid : Z; mp_lapic : Z; mp_dev : D }.
Arguments mkmp {D} _ _ _ _.
Arguments mp_cpus {D} _.
Arguments mp_ioapicid {D} _.
Arguments mp_lapic {D} _.
Arguments mp_dev {D} _.

Section Search.
Variable mem : Z -> Z.

Definition load16 (a : Z) : Z := mem a + 256 * mem (a + 1).
Definition load32 (a : Z) : Z := mem a + 256 * mem (a + 1) + 65536 * mem (a + 2) + 16777216 * mem (a + 3).

(** The int that is summed cannot overflow; it is returned as a uchar. *)
Fixpoint sum_from (a : Z) (len : nat) (acc : Z) : Z :=
  match len with O => acc | S n => sum_from (a + 1) n (acc + mem a) end.
Definition sum (a : Z) (len : Z) : Z := u8 (sum_from a (Z.to_nat len) 0).

(** memcmp with a literal, as the test for equality it is used for. *)
Fixpoint same_bytes (a : Z) (l : list Z) : bool :=
  match l with [] => true | c :: l' => (mem a =? c) && same_bytes (a + 1) l' end.

Definition is_mp (p : Z) : bool := same_bytes p [95; 77; 80; 95] && (sum p 16 =? 0).

Fixpoint mpsearch1_loop (p : Z) (n : nat) : option Z :=
  match n with
  | O => None
  | S n' => if is_mp p then Some p else mpsearch1_loop (p + 16) n'
  end.

(** The loop makes ceil(len / sizeof(struct mp)) rounds. *)
Definition mpsearch1 (a len : Z) : option Z := mpsearch1_loop a (Z.to_nat ((len + 15) / 16)).

Definition mpsearch : option Z :=
  let p := Z.shiftl (Z.lor (Z.shiftl (mem (1024 + 15)) 8) (mem (1024 + 14))) 4 in
  let early :=
    if negb (p =? 0) then mpsearch1 p 1024
    else
      let p := Z.lor (Z.shiftl (mem (1024 + 20)) 8) (mem (1024 + 19)) * 1024 in
      mpsearch1 (u32 (p - 1024)) 1024 in
  match early with Some mp => Some mp | None => mpsearch1 983040 65536 end.

Definition mpconfig : option (Z * Z) :=
  match mpsearch with
  | None => None
  | Some mp =>
    let conf := load32 (mp + 4) in
    if conf =? 0 then None else
    if negb (same_bytes conf [80; 67; 77; 80]) then None else
    let version := mem (conf + 6) in
    if negb (version =? 1) && negb (version =? 4) then None else
    if negb (sum conf (load16 (conf + 4)) =? 0) then None else
    Some (mp, conf)
  end.

Context {D : Type} {DD : Device D}.

(** The loop over the table; [true] when every entry had a known type. *)
Fixpoint mpinit_loop (p e : Z) (ismp : bool) (fuel : nat) : M (mpst D) bool :=
  if p <? e then
    match fuel with
    | O => nofuel
    | S f =>
      let t := mem p in
      if t =? MPPROC then
        modify (fun s => if (length (mp_cpus s) <? NCPU)%nat
                         then mkmp (mp_cpus s ++ [mem (p + 1)]) (mp_ioapicid s) (mp_lapic s) (mp_dev s) else s) ;;
        mpinit_loop (p + 20) e ismp f
      else if t =? MPIOAPIC then
        modify (fun s => mkmp (mp_cpus s) (mem (p + 1)) (mp_lapic s) (mp_dev s)) ;;
        mpinit_loop (p + 8) e ismp f
      else if (t =? MPBUS) || (t =? MPIOINTR) || (t =? MPLINTR) then mpinit_loop (p + 8) e ismp f
      else mpinit_loop p e false f          (* break leaves the switch only *)
    end
  else mret ismp.

Definition mp_io {A} (m : M D A) : M (mpst D) A :=
  zoom mp_dev (fun d s => mkmp (mp_cpus s) (mp_ioapicid s) (mp_lapic s) d) m.

Definition mpinit (fuel : nat) : M (mpst D) unit :=
  match mpconfig with
  | None => panic "Expect to run on an SMP"
  | Some (mp, conf) =>
    modify (fun s => mkmp (mp_cpus s) (mp_ioapicid s) (load32 (conf + 36)) (mp_dev s)) ;;
    ismp ← mpinit_loop (conf + 44) (conf + load16 (conf + 4)) true fuel;
    if negb ismp then panic "Didn't find a suitable machine" else
    if negb (mem (mp + 12) =? 0) then
      mp_io (outb 34 112) ;;
      v ← mp_io (inb 35);
      mp_io (outb 35 (Z.lor v 1))
    else mret tt
  end.

(** ** The search *)

(** The first of the structures at [a], [a + 16], ... below [a + len]. *)
Lemma mpsearch1_loop_spec n : forall p, match mpsearch1_loop p n with
  | Some q => exists i, (i < n)%nat /\ q = p + 16 * Z.of_nat i /\ is_mp q = true /\ forall j, (j < i)%nat -> is_mp (p + 16 * Z.of_nat j) = false
  | None => forall j, (j < n)%nat -> is_mp (p + 16 * Z.of_nat j) = false
  end.
Proof.
  induction n as [|n IH]; intros p; cbn [mpsearch1_loop]; [lia|]. destruct (is_mp p) eqn:E.
  { exists 0%nat. split_and!; [lia|lia|done|lia]. }
  specialize (IH (p + 16)). destruct (mpsearch1_loop (p + 16) n) as [q|].
  - destruct IH as (i & Hi & -> & Hq & Hj). exists (S i). split_and!; [lia|lia|done|]. intros [|j] Hl.
    + by rewrite Z.mul_0_r, Z.add_0_r.
    + replace (p + 16 * Z.of_nat (S j)) with (p + 16 + 16 * Z.of_nat j) by lia. apply Hj. lia.
  - intros [|j] Hl; [by rewrite Z.mul_0_r, Z.add_0_r|].
    replace (p + 16 * Z.of_nat (S j)) with (p + 16 + 16 * Z.of_nat j) by lia. apply IH. lia.
Qed.

(** ** The table *)

(** The bytes [l] are in memory at [a]. *)
Fixpoint at_mem (a : Z) (l : list Z) : Prop :=
  match l with [] => True | x :: l' => mem a = x /\ at_mem (a + 1) l' end.

(** An entry as its bytes: a processor has 20, the others 8. *)
Definition entry_ok (e : list Z) : Prop :=
  (e !! 0%nat = Some MPPROC /\ length e = 20%nat) \/
  (exists t, e !! 0%nat = Some t /\ List.In t [MPBUS; MPIOAPIC; MPIOINTR; MPLINTR] /\ length e = 8%nat).

(** What the entries say. *)
Definition procs_of (es : list (list Z)) : list Z :=
  map (fun e => e !!! 1%nat) (filter (fun e => e !!! 0%nat = MPPROC) es).
Definition ioapics_of (es : list (list Z)) : list Z :=
  map (fun e => e !!! 1%nat) (filter (fun e => e !!! 0%nat = MPIOAPIC) es).

Lemma at_mem_app a l l' : at_mem a (l ++ l') <-> at_mem a l /\ at_mem (a + Z.of_nat (length l)) l'.
Proof.
  revert a. induction l as [|x l IH]; intros a; cbn [app at_mem length]; [rewrite Z.add_0_r; tauto|].
  rewrite IH. replace (a + 1 + Z.of_nat (length l)) with (a + Z.of_nat (S (length l))) by lia. tauto.
Qed.

Lemma at_mem_bytes a e i x : at_mem a e -> e !! i = Some x -> mem (a + Z.of_nat i) = x.
Proof.
  revert a i. induction e as [|y e IH]; intros a [|i]; cbn [at_mem]; [done|done|..].
  - intros [Ha _] [= <-]. by rewrite Z.add_0_r.
  - intros [_ He] Hi. rewrite <- (IH (a + 1) i He Hi). f_equal. lia.
Qed.

(** One entry is read and stepped over. *)
Lemma entry_step p e b f s en : at_mem p en -> entry_ok en -> p < e ->
  exists s', mpinit_loop p e b (S f) s = mpinit_loop (p + Z.of_nat (length en)) e b f s' /\
    mp_cpus s' = (if decide (en !!! 0%nat = MPPROC /\ (length (mp_cpus s) < NCPU)%nat) then mp_cpus s ++ [en !!! 1%nat] else mp_cpus s) /\
    mp_ioapicid s' = (if decide (en !!! 0%nat = MPIOAPIC) then en !!! 1%nat else mp_ioapicid s) /\
    mp_lapic s' = mp_lapic s /\ mp_dev s' = mp_dev s.
Proof.
  intros Hm Ho Hp. assert (H1 : exists x, en !! 1%nat = Some x).
  { apply lookup_lt_is_Some. destruct Ho as [[_ ->]|(t & _ & _ & ->)]; lia. }
  destruct H1 as [x H1]. pose proof (at_mem_bytes p en 1 x Hm H1) as Ex. change (Z.of_nat 1) with 1 in Ex.
  cbn [mpinit_loop]. rewrite (proj2 (Z.ltb_lt _ _) Hp). rewrite !(list_lookup_total_correct _ _ _ H1).
  destruct Ho as [[H0 Hl]|(t & H0 & Ht & Hl)]; pose proof (at_mem_bytes p en 0 _ Hm H0) as Et; rewrite Z.add_0_r in Et;
    rewrite Et, Hl, !(list_lookup_total_correct _ _ _ H0).
  - change (MPPROC =? MPPROC) with true. cbv iota. rewrite (decide_False (P := MPPROC = MPIOAPIC)) by done. eexists. erewrite bind_ret by reflexivity.
    split; [reflexivity|]. rewrite Ex. destruct (Nat.ltb_spec (length (mp_cpus s)) NCPU).
    + by rewrite decide_True.
    + rewrite decide_False; [done|lia].
  - cbn in Ht. destruct Ht as [<-|[<-|[<-|[<-|[]]]]].
    2: { exists (mkmp (mp_cpus s) (mem (p + 1)) (mp_lapic s) (mp_dev s)). split; [reflexivity|]. by rewrite Ex. }
    all: exists s; split_and!; [done|rewrite decide_False by (by intros [??])|..]; done.
Qed.

Lemma loop_ok es : forall p b f s, at_mem p (concat es) -> Forall entry_ok es -> (length es <= f)%nat -> (length (mp_cpus s) <= NCPU)%nat ->
  exists s', mpinit_loop p (p + Z.of_nat (length (concat es))) b f s = Ret b s' /\
    mp_cpus s' = take NCPU (mp_cpus s ++ procs_of es) /\ mp_ioapicid s' = List.last (ioapics_of es) (mp_ioapicid s) /\
    mp_lapic s' = mp_lapic s /\ mp_dev s' = mp_dev s.
Proof.
  induction es as [|en es IH]; intros p b f s Hm Ho Hf Hc.
  - exists s. split_and!; [|by rewrite app_nil_r, take_ge|done..]. cbn. by destruct f; cbn [mpinit_loop]; rewrite Z.add_0_r, Z.ltb_irrefl.
  - destruct f as [|f]; [cbn in Hf; lia|]. cbn [concat] in *. apply at_mem_app in Hm as [Hm1 Hm2]. apply Forall_cons in Ho as [Ho1 Ho2].
    rewrite length_app. assert (Hl : (0 < length en)%nat) by (destruct Ho1 as [[_ ->]|(? & _ & _ & ->)]; lia).
    destruct (entry_step p (p + Z.of_nat (length en + length (concat es))) b f s en) as (s1 & R1 & C1 & I1 & L1 & D1); [done|done|lia|].
    destruct (IH (p + Z.of_nat (length en)) b f s1 Hm2 Ho2) as (s2 & R2 & C2 & I2 & L2 & D2); [cbn in Hf; lia| |].
    { rewrite C1. destruct (decide _) as [[_ Hlt]|]; [rewrite length_app; cbn; lia|done]. }
    exists s2. rewrite R1. replace (p + Z.of_nat (length en + length (concat es))) with (p + Z.of_nat (length en) + Z.of_nat (length (concat es))) by lia.
    split_and!; [exact R2| | |congruence|congruence].
    + rewrite C2, C1. unfold procs_of. rewrite filter_cons. destruct (decide (en !!! 0%nat = MPPROC)) as [Ep|Ep].
      * cbn [map]. destruct (decide (length (mp_cpus s) < NCPU)%nat) as [Hlt|Hge].
        -- rewrite decide_True by done. by rewrite <- app_assoc.
        -- rewrite decide_False by tauto. rewrite !take_app_le by lia. done.
      * rewrite decide_False by tauto. done.
    + rewrite I2, I1. unfold ioapics_of. rewrite filter_cons. destruct (decide (en !!! 0%nat = MPIOAPIC)) as [Ep|Ep]; [|done].
      cbn [map]. generalize (map (fun e : list Z => e !!! 1%nat) (filter (fun e : list Z => e !!! 0%nat = MPIOAPIC) es)). intros l. cbn [List.last].
      destruct l as [|y l]; [done|]. revert y. induction l as [|z l IHl]; intros y; [done|]. apply (IHl z).
Qed.

Lemma stuck_ok f : forall es p e b s, at_mem p (concat es) -> Forall entry_ok es -> p + Z.of_nat (length (concat es)) < e ->
  ~ List.In (mem (p + Z.of_nat (length (concat es)))) [MPPROC; MPBUS; MPIOAPIC; MPIOINTR; MPLINTR] -> mpinit_loop p e b f s = NoFuel.
Proof.
  induction f as [|f IH]; intros [|en es] p e b s Hm Ho He Hu; cbn [concat] in *; rewrite ?length_app in *.
  1,2: cbn [mpinit_loop]; by rewrite (proj2 (Z.ltb_lt p e)) by (cbn in He; lia).
  - cbn [length] in *. rewrite Z.add_0_r in *. cbn [mpinit_loop]. rewrite (proj2 (Z.ltb_lt p e)) by done. cbn in Hu.
    rewrite !(proj2 (Z.eqb_neq (mem p) _)) by (intros Ex; rewrite Ex in Hu; apply Hu; auto 10). cbn [orb].
    apply (IH []); cbn; rewrite ?Z.add_0_r; [done|constructor|done|exact Hu].
  - apply at_mem_app in Hm as [Hm1 Hm2]. apply Forall_cons in Ho as [Ho1 Ho2].
    destruct (entry_step p e b f s en) as (s1 & R1 & _); [done|done|lia|]. rewrite R1.
    apply (IH es); [done|done|lia|]. intros Hx. apply Hu. by replace (p + Z.of_nat (length en + length (concat es)))
      with (p + Z.of_nat (length en) + Z.of_nat (length (concat es))) by lia.
Qed.

(** On a table of known entries mpinit ends, after as many rounds as
    there are entries: the processors are listed in table order, the first
    NCPU of them, the I/O APIC id is the last one given, and lapic is the
    address of the table's header. *)
Theorem mpinit_lists_cpus s mp conf es : mpconfig = Some (mp, conf) ->
  load16 (conf + 4) = 44 + Z.of_nat (length (concat es)) -> at_mem (conf + 44) (concat es) -> Forall entry_ok es -> mp_cpus s = [] ->
  exists s', mpinit (length es) s = Ret tt s' /\ mp_cpus s' = take NCPU (procs_of es) /\
    mp_ioapicid s' = List.last (ioapics_of es) (mp_ioapicid s) /\ mp_lapic s' = load32 (conf + 36).
Proof.
  intros Hc Hl Hm Ho H0. unfold mpinit. rewrite Hc, Hl. erewrite bind_ret by reflexivity. rewrite Z.add_assoc.
  destruct (loop_ok es (conf + 44) true (length es) (mkmp (mp_cpus s) (mp_ioapicid s) (load32 (conf + 36)) (mp_dev s)) Hm Ho) as (s1 & R1 & C1 & I1 & L1 & D1);
    [lia|cbn; rewrite H0; cbn; lia|]. erewrite bind_ret by exact R1. cbn [negb mp_cpus mp_ioapicid mp_lapic] in *. rewrite H0 in C1.
  destruct (negb (mem (mp + 12) =? 0)); eexists; (split; [reflexivity|]); by cbn.
Qed.

(** mpinit hangs on a table with an entry of unknown type: whatever the
    number of rounds it is given, it does not end.  The code means to leave
    the loop and panic with "Didn't find a suitable machine", but its break
    leaves the switch, and the pointer is not advanced. *)
Theorem mpinit_unknown_entry_hangs s mp conf es fuel : mpconfig = Some (mp, conf) ->
  44 + Z.of_nat (length (concat es)) < load16 (conf + 4) -> at_mem (conf + 44) (concat es) -> Forall entry_ok es ->
  ~ List.In (mem (conf + 44 + Z.of_nat (length (concat es)))) [MPPROC; MPBUS; MPIOAPIC; MPIOINTR; MPLINTR] ->
  mpinit fuel s = NoFuel.
Proof.
  intros Hc Hl Hm Ho Hu. unfold mpinit. rewrite Hc. erewrite bind_ret by reflexivity. unfold mbind, M_bind.
  by rewrite (stuck_ok fuel es) by (done || lia).
Qed.
End Search.

(** ** A machine *)

(** Two processors and an I/O APIC; the floating pointer is in the ROM. *)
Definition demo_entries : list (list Z) :=
  [[0; 0; 17; 3] ++ replicate 16 0; [0; 1; 17; 1] ++ replicate 16 0; [1; 0; 80; 67; 73; 32; 32; 32]; [2; 5; 17; 1; 0; 0; 192; 254]].

Definition with_sum (i : nat) (l : list Z) : list Z := <[i := u8 (- foldr Z.add 0 l)]> l.

Definition demo_mp : list Z := with_sum 10 [95; 77; 80; 95; 0; 0; 15; 0; 1; 4; 0; 0; 0; 0; 0; 0].
Definition demo_conf (es : list (list Z)) : list Z :=
  with_sum 7 ([80; 67; 77; 80] ++ [44 + Z.of_nat (length (concat es)); 0; 4; 0] ++ replicate 28 0 ++ [0; 0; 224; 254; 0; 0; 0; 0] ++ concat es).

Definition demo_mem (es : list (list Z)) (a : Z) : Z :=
  if (983040 <=? a) && (a <? 983040 + 4096) then default 0 (demo_conf es !! Z.to_nat (a - 983040))
  else if (991232 <=? a) && (a <? 991248) then default 0 (demo_mp !! Z.to_nat (a - 991232)) else 0.

#[local] Existing Instance board_device.

Definition demo_mpst : mpst board := mkmp [] 0 0 board0.

Lemma demo_entries_ok : Forall entry_ok demo_entries.
Proof.
  apply Forall_forall. intros e He. apply list_elem_of_In in He. cbn in He.
  destruct He as [<-|[<-|[<-|[<-|[]]]]]; [by left|by left|..]; right; eexists; (split; [reflexivity|]); (split; [cbn; auto 10|reflexivity]).
Qed.

Lemma mpinit_lists_cpus_witness : exists s', mpinit (demo_mem demo_entries) 4 demo_mpst = Ret tt s' /\ mp_cpus s' = [0; 1] /\ mp_ioapicid s' = 5.
Proof.
  destruct (mpinit_lists_cpus (demo_mem demo_entries) demo_mpst 991232 983040 demo_entries) as (s' & R & C & I & _).
  - by vm_compute.
  - by vm_compute.
  - vm_compute. auto 60.
  - exact demo_entries_ok.
  - reflexivity.
  - exists s'. split_and!; [exact R|rewrite C; by vm_compute|rewrite I; by vm_compute].
Defined.

Definition demo_bad : list (list Z) := demo_entries ++ [[200; 8; 0; 0; 0; 0; 0; 0]].

Lemma mpinit_unknown_entry_hangs_witness : mpinit (demo_mem demo_bad) 1000 demo_mpst = NoFuel.
Proof.
  apply (mpinit_unknown_entry_hangs (demo_mem demo_bad) demo_mpst 991232 983040 demo_entries).
  - by vm_compute.
  - by vm_compute.
  - vm_compute. auto 60.
  - exact demo_entries_ok.
  - vm_compute. intuition discriminate.
Defined.
