(* ===== verification/Boot.v ===== *)
(** * The boot loader: bootmain.c

    bootmain reads the kernel, an ELF file that starts at sector 1 of the
    disk, and puts its segments where their headers say.  It drives the disk
    directly, with the registers ide.c uses; the disk controller is the one
    of Ide.v ([ControllerLaws]).  Memory is physical.  The theorems: readseg
    puts the file's bytes at their place, writing only the sectors around
    them; bootmain loads every segment of a well-formed kernel, the part
    beyond the file zeroed, and jumps to the entry point. *)

From stdpp Require Import base list strings.
From Stdlib Require Import ZArith Lia.
From S2P Require Import Prelude Proc Bio Dev Ide Mp.

Local Open Scope Z_scope.

Definition SECTSIZE : Z := 512.
Definition ELF_MAGIC : Z := 1179403647.
Definition scratch : Z := 65536.

Record boot (D : Type) : Type := mkboot { bt_mem : Z -> Z; bt_dev : D }.
Arguments mkboot {D} _ _.
Arguments bt_mem {D} _.
Arguments bt_dev {D} _.

(** The bytes [l] stored at [a]. *)
Definition put_mem (a : Z) (l : list Z) (m : Z -> Z) : Z -> Z := fun x =>
  if (a <=? x) && (x <? a + Z.of_nat (length l)) then l !!! Z.to_nat (x - a) else m x.

Section Boot.
Context {D : Type} {DD : Device D}.
Notation BM := (M (boot D)).

Definition bdev {A} (m : M D A) : BM A := zoom bt_dev (fun d s => mkboot (bt_mem s) d) m.
Definition mem_put (a : Z) (l : list Z) : BM unit := modify (fun s => mkboot (put_mem a l (bt_mem s)) (bt_dev s)).

Fixpoint waitdisk_loop (fuel : nat) : BM unit :=
  match fuel with
  | O => nofuel
  | S f => r ← bdev (Dev.inb 503); if negb (Z.land r 192 =? 64) then waitdisk_loop f else mret tt
  end.
Definition waitdisk : BM unit := n ← gets (fun s => d_polls (bt_dev s)); waitdisk_loop (S n).

Definition readsect (dst offset : Z) : BM unit :=
  waitdisk ;;
  bdev (Dev.outb 498 1) ;;
  bdev (Dev.outb 499 offset) ;;
  bdev (Dev.outb 500 (Z.shiftr offset 8)) ;;
  bdev (Dev.outb 501 (Z.shiftr offset 16)) ;;
  bdev (Dev.outb 502 (Z.lor (Z.shiftr offset 24) 224)) ;;
  bdev (Dev.outb 503 32) ;;
  waitdisk ;;
  d ← bdev (Dev.insl 496 (Z.to_nat (SECTSIZE / 4)));
  mem_put dst d.

(** Pointers and offsets are 32-bit words. *)
Fixpoint readseg_loop (pa epa offset : Z) (fuel : nat) : BM unit :=
  if pa <? epa then
    match fuel with
    | O => nofuel
    | S f => readsect pa offset ;; readseg_loop (u32 (pa + SECTSIZE)) epa (u32 (offset + 1)) f
    end
  else mret tt.

Definition readseg (pa count offset : Z) : BM unit :=
  let epa := u32 (pa + count) in
  let pa := u32 (pa - offset mod SECTSIZE) in
  let offset := offset / SECTSIZE + 1 in
  readseg_loop pa epa offset (Z.to_nat (count / SECTSIZE + 2)).

Definition mstosb (a : Z) (n : Z) : BM unit := mem_put a (replicate (Z.to_nat n) 0).

Fixpoint load_segments (ph eph : Z) (fuel : nat) : BM unit :=
  if ph <? eph then
    match fuel with
    | O => nofuel
    | S f =>
      m ← gets bt_mem;
      let pa := load32 m (ph + 12) in
      readseg pa (load32 m (ph + 16)) (load32 m (ph + 4)) ;;
      m ← gets bt_mem;
      (if load32 m (ph + 16) <? load32 m (ph + 20)
       then mstosb (u32 (pa + load32 m (ph + 16))) (load32 m (ph + 20) - load32 m (ph + 16)) else mret tt) ;;
      load_segments (ph + 32) eph f
    end
  else mret tt.

(** Gives the entry point it jumps to, or nothing when it returns to
    bootasm.S. *)
Definition bootmain : BM (option Z) :=
  readseg scratch 4096 0 ;;
  m ← gets bt_mem;
  if negb (load32 m scratch =? ELF_MAGIC) then mret None else
  let ph := scratch + load32 m (scratch + 28) in
  let phnum := load16 m (scratch + 44) in
  load_segments ph (ph + 32 * phnum) (Z.to_nat phnum) ;;
  m ← gets bt_mem;
  mret (Some (load32 m (scratch + 24))).
End Boot.

(** ** The kernel on the disk *)

(** Byte [k] of the kernel file. *)
Definition kbyte (dsk : Z -> Z -> list Z) (k : Z) : Z := dsk 0 (k / 512 + 1) !!! Z.to_nat (k mod 512).

(** Memory after the bytes of the file from [off] on have been put at [lo]
    up to [hi]. *)
Definition filled_mem (k : Z -> Z) (lo hi off : Z) (m : Z -> Z) : Z -> Z := fun x =>
  if (lo <=? x) && (x <? hi) then k (off + (x - lo)) else m x.

Section Read.
Context {D : Type} {DD : Device D} {CL : ControllerLaws D}.
Implicit Types (s : boot D).

Lemma waitdisk_loop_ok n : forall s, (d_polls (bt_dev s) < n)%nat ->
  exists d, waitdisk_loop n s = Ret tt (mkboot (bt_mem s) d) /\ cv d = cv (bt_dev s).
Proof.
  induction n as [|n IH]; intros s Hn; [lia|]. cbn [waitdisk_loop]. erewrite bind_ret by reflexivity.
  destruct (Z.eqb_spec (Z.land (u8 (d_inb 503 (bt_dev s)).1) 192) 64) as [E|E]; cbn [negb].
  - exists (d_inb 503 (bt_dev s)).2. split; [done|apply cl_status].
  - destruct (cl_poll (bt_dev s)) as [?|Hp]; [done|].
    destruct (IH (mkboot (bt_mem s) (d_inb 503 (bt_dev s)).2)) as (d & R & V); [cbn; lia|]. exists d. rewrite R. split; [done|].
    rewrite V. apply cl_status.
Qed.

Lemma waitdisk_ok s : exists d, waitdisk s = Ret tt (mkboot (bt_mem s) d) /\ cv d = cv (bt_dev s).
Proof. unfold waitdisk. erewrite bind_ret by reflexivity. apply waitdisk_loop_ok. lia. Qed.

(** The drive and sector registers for a sector number below 2^28. *)
Lemma top_reg x : 0 <= x < 16 -> let r := u8 (Z.lor x 224) in Z.land (Z.shiftr r 4) 1 = 0 /\ Z.land r 15 = x.
Proof. intros Hx. destruct x as [|p|p]; [done| |lia]. do 5 (destruct p as [p|p|]; try done; try lia). Qed.

Lemma lba_bytes x : 0 <= x < 2 ^ 28 ->
  u8 x + 256 * u8 (Z.shiftr x 8) + 65536 * u8 (Z.shiftr x 16) + 16777216 * Z.shiftr x 24 = x /\ 0 <= Z.shiftr x 24 < 16.
Proof.
  intros Hx. rewrite !Z.shiftr_div_pow2 by lia. unfold u8. change (2 ^ 8) with 256. change (2 ^ 16) with 65536.
  change (2 ^ 24) with 16777216. change (2 ^ 28) with 268435456 in Hx. zdiv.
Qed.

Lemma readsect_ok s dst off : 0 <= off < 2 ^ 28 ->
  exists d, readsect dst off s = Ret tt (mkboot (put_mem dst (v_disk (cv (bt_dev s)) 0 off) (bt_mem s)) d) /\
    v_disk (cv d) = v_disk (cv (bt_dev s)).
Proof.
  intros Ho. unfold readsect. destruct (waitdisk_ok s) as (d0 & R0 & V0). erewrite bind_ret by exact R0.
  destruct (lba_bytes off Ho) as [El Et]. destruct (top_reg _ Et) as [E4 E15].
  set (d1 := d_outb 502 (u8 (Z.lor (Z.shiftr off 24) 224)) (d_outb 501 (u8 (Z.shiftr off 16)) (d_outb 500 (u8 (Z.shiftr off 8))
    (d_outb 499 (u8 off) (d_outb 498 1 d0))))).
  assert (V1 : cv d1 = set_reg 502 (u8 (Z.lor (Z.shiftr off 24) 224)) (set_reg 501 (u8 (Z.shiftr off 16)) (set_reg 500 (u8 (Z.shiftr off 8))
    (set_reg 499 (u8 off) (set_reg 498 1 (cv d0)))))) by (unfold d1; by rewrite !cl_reg by (cbn; auto 10)).
  assert (C1 : v_cmd (cv (d_outb 503 IDE_CMD_READ d1)) = Some (false, 0, off)).
  { rewrite cl_read by (by rewrite V1). cbn [v_cmd set_cmd]. rewrite V1. unfold sel_drive, sel_lba. cbn. rewrite E4, E15. repeat f_equal. lia. }
  do 6 (erewrite bind_ret by reflexivity). cbn [bt_dev]. change (u8 1) with 1. fold d1. change (u8 32) with IDE_CMD_READ.
  destruct (waitdisk_ok (mkboot (bt_mem s) (d_outb 503 IDE_CMD_READ d1))) as (d2 & R2 & V2). erewrite bind_ret by exact R2.
  cbn [bt_dev bt_mem] in *. destruct (cl_in d2 0 off) as [E1 E2]; [by rewrite V2|].
  assert (Hk : v_disk (cv d2) = v_disk (cv (bt_dev s))) by (rewrite V2, cl_read by (by rewrite V1); cbn; by rewrite V1, <- V0).
  erewrite bind_ret by reflexivity. change (Z.to_nat (SECTSIZE / 4)) with 128%nat. eexists. unfold mem_put, modify. cbn [bt_mem bt_dev].
  rewrite E1, Hk. split; [reflexivity|]. rewrite E2. cbn. done.
Qed.

Definition rounds (pa epa : Z) : Z := Z.max 0 ((epa - pa + 511) / 512).

Lemma sector_byte s off x : 1 <= off -> 0 <= x < 512 ->
  v_disk (cv (bt_dev s)) 0 off !!! Z.to_nat x = kbyte (v_disk (cv (bt_dev s))) (512 * (off - 1) + x).
Proof. intros Ho Hx. unfold kbyte. repeat f_equal; zdiv. Qed.

Lemma readseg_loop_ok f : forall s pa epa off, (forall l, length (v_disk (cv (bt_dev s)) 0 l) = 512%nat) ->
  0 <= pa -> epa + 512 <= 2 ^ 32 -> 1 <= off -> off + rounds pa epa < 2 ^ 28 -> rounds pa epa <= Z.of_nat f ->
  exists s', readseg_loop pa epa off f s = Ret tt s' /\ v_disk (cv (bt_dev s')) = v_disk (cv (bt_dev s)) /\
    forall x, bt_mem s' x = filled_mem (kbyte (v_disk (cv (bt_dev s)))) pa (pa + 512 * rounds pa epa) (512 * (off - 1)) (bt_mem s) x.
Proof.
  induction f as [|f IH]; intros s pa epa off Hl Hp He Ho Hb Hf; cbn [readseg_loop]; destruct (Z.ltb_spec pa epa) as [Hlt|Hge].
  1: exfalso; unfold rounds in *; zdiv.
  1,3: assert (Hr : rounds pa epa = 0) by (unfold rounds; zdiv); rewrite Hr; exists s; (split_and!; [done..|]); intros x; unfold filled_mem;
    rewrite (proj2 (andb_false_iff _ _)); [done|]; destruct (Z.leb_spec pa x); [right; apply Z.ltb_ge; lia|by left].
  assert (Hr : rounds pa epa = 1 + rounds (pa + 512) epa) by (unfold rounds; zdiv).
  assert (H0 : 0 <= rounds (pa + 512) epa) by (unfold rounds; lia).
  destruct (readsect_ok s pa off) as (d & R & V); [lia|]. erewrite bind_ret by exact R. set (s1 := mkboot _ d).
  unfold SECTSIZE. rewrite !u32_small by lia.
  destruct (IH s1 (pa + 512) epa (off + 1)) as (s2 & R2 & V2 & M2); [intros l; cbn; rewrite V; apply Hl|lia..|].
  exists s2. split; [exact R2|]. split; [rewrite V2; exact V|]. intros x. rewrite M2. unfold s1. cbn [bt_dev bt_mem]. rewrite V. unfold filled_mem, put_mem. rewrite Hl.
  change (Z.of_nat 512) with 512. destruct (Z.leb_spec (pa + 512) x), (Z.leb_spec pa x), (Z.ltb_spec x (pa + 512)),
    (Z.ltb_spec x (pa + 512 + 512 * rounds (pa + 512) epa)), (Z.ltb_spec x (pa + 512 * rounds pa epa)); cbn [andb]; try lia; try done.
  - f_equal. lia.
  - rewrite sector_byte by lia. f_equal.
Qed.

(** readseg puts the bytes of the file at [pa]; it writes whole sectors. *)
Lemma readseg_ok s pa count off : (forall l, length (v_disk (cv (bt_dev s)) 0 l) = 512%nat) ->
  off mod 512 <= pa -> 0 <= count -> pa + count + 512 <= 2 ^ 32 -> 0 <= off < 2 ^ 32 ->
  let lo := pa - off mod 512 in let hi := lo + 512 * rounds lo (pa + count) in
  exists s', readseg pa count off s = Ret tt s' /\ v_disk (cv (bt_dev s')) = v_disk (cv (bt_dev s)) /\
    forall x, bt_mem s' x = filled_mem (kbyte (v_disk (cv (bt_dev s)))) lo hi (off - off mod 512) (bt_mem s) x.
Proof.
  intros Hl Hm Hc Hb Ho lo hi. unfold readseg, SECTSIZE. fold lo.
  assert (Hlo : 0 <= lo /\ lo <= pa /\ pa - lo < 512) by (unfold lo; zdiv). rewrite !u32_small by zdiv.
  assert (Hr : 0 <= rounds lo (pa + count) <= count / 512 + 2) by (unfold rounds; zdiv).
  destruct (readseg_loop_ok (Z.to_nat (count / 512 + 2)) s lo (pa + count) (off / 512 + 1) Hl) as (s' & R & V & M); [lia|lia|zdiv|zdiv|lia|].
  exists s'. split_and!; [done..|]. intros x. rewrite M. unfold filled_mem. fold hi. destruct (_ && _); [|done]. f_equal. zdiv.
Qed.

(** *** Segments *)

(** The i-th program header of the kernel file [k]. *)
Record segment : Type := mkseg { sg_off : Z; sg_paddr : Z; sg_filesz : Z; sg_memsz : Z }.
Definition phoff (k : Z -> Z) : Z := load32 k 28.
Definition phnum (k : Z -> Z) : Z := load16 k 44.
Definition seg_at (k : Z -> Z) (ph : Z) : segment :=
  mkseg (load32 k (ph + 4)) (load32 k (ph + 12)) (load32 k (ph + 16)) (load32 k (ph + 20)).
Definition seg (k : Z -> Z) (i : nat) : segment := seg_at k (phoff k + 32 * Z.of_nat i).

(** The memory loading a segment writes. *)
Definition seg_lo (g : segment) : Z := sg_paddr g - sg_off g mod 512.
Definition seg_hi (g : segment) : Z :=
  Z.max (seg_lo g + 512 * rounds (seg_lo g) (sg_paddr g + sg_filesz g)) (sg_paddr g + sg_memsz g).

Definition apart (lo hi lo' hi' : Z) : Prop := hi <= lo' \/ hi' <= lo.

Definition seg_ok (g : segment) : Prop :=
  sg_off g mod 512 <= sg_paddr g /\ sg_filesz g <= sg_memsz g /\ sg_paddr g + sg_memsz g + 512 <= 2 ^ 32 /\
  apart (seg_lo g) (seg_hi g) scratch (scratch + 4096).

(** A kernel bootmain can load: the headers are in the first page, and no
    segment is overwritten by one that is loaded later. *)
Record kernel_ok (k : Z -> Z) : Prop := mkkernel {
  k_bytes x : 0 <= k x < 256;
  k_magic : load32 k 0 = ELF_MAGIC;
  k_head : phoff k + 32 * phnum k <= 4096;
  k_seg i : Z.of_nat i < phnum k -> seg_ok (seg k i);
  k_order i j : (i < j)%nat -> Z.of_nat j < phnum k ->
    apart (seg_lo (seg k j)) (seg_hi (seg k j)) (sg_paddr (seg k i)) (sg_paddr (seg k i) + sg_memsz (seg k i)) }.

Definition loaded (k m : Z -> Z) (g : segment) : Prop := forall x, 0 <= x < sg_memsz g ->
  m (sg_paddr g + x) = if x <? sg_filesz g then k (sg_off g + x) else 0.

(** The first page of the file is in the scratch space. *)
Definition headed (k m : Z -> Z) : Prop := forall x, 0 <= x < 4096 -> m (scratch + x) = k x.

Lemma headed32 k m x : headed k m -> 0 <= x -> x + 4 <= 4096 -> load32 m (scratch + x) = load32 k x.
Proof. intros H H0 H1. unfold load32. rewrite <- !Z.add_assoc, !H by lia. done. Qed.

Lemma headed16 k m x : headed k m -> 0 <= x -> x + 2 <= 4096 -> load16 m (scratch + x) = load16 k x.
Proof. intros H H0 H1. unfold load16. rewrite <- !Z.add_assoc, !H by lia. done. Qed.

Lemma load32_range k x : (forall x, 0 <= k x < 256) -> 0 <= load32 k x < 2 ^ 32.
Proof. intros H. unfold load32. pose proof (H x); pose proof (H (x + 1)); pose proof (H (x + 2)); pose proof (H (x + 3)). lia. Qed.

(** One segment: the file's part, then the zeroes. *)
Lemma load_one_ok s g : (forall l, length (v_disk (cv (bt_dev s)) 0 l) = 512%nat) -> seg_ok g ->
  0 <= sg_off g < 2 ^ 32 -> 0 <= sg_filesz g ->
  let k := kbyte (v_disk (cv (bt_dev s))) in
  exists s1 s', readseg (sg_paddr g) (sg_filesz g) (sg_off g) s = Ret tt s1 /\
    (if sg_filesz g <? sg_memsz g then mstosb (u32 (sg_paddr g + sg_filesz g)) (sg_memsz g - sg_filesz g) else mret tt) s1 = Ret tt s' /\
    v_disk (cv (bt_dev s')) = v_disk (cv (bt_dev s)) /\ loaded k (bt_mem s') g /\
    (forall x, x < seg_lo g \/ seg_hi g <= x -> bt_mem s1 x = bt_mem s x /\ bt_mem s' x = bt_mem s x).
Proof.
  intros Hl (Hm & Hfm & Hb & _) Ho Hf k. destruct (readseg_ok s (sg_paddr g) (sg_filesz g) (sg_off g) Hl) as (s1 & R & V & M); [lia..|].
  fold k (seg_lo g) in M. unfold seg_hi. set (hi := seg_lo g + _) in *.
  assert (Hlo : 0 <= seg_lo g <= sg_paddr g) by (unfold seg_lo; zdiv).
  assert (Hhi : sg_paddr g + sg_filesz g <= hi) by (unfold hi, rounds; zdiv).
  assert (Hfile : forall x, 0 <= x < sg_filesz g -> bt_mem s1 (sg_paddr g + x) = k (sg_off g + x)).
  { intros x Hx. rewrite M. unfold filled_mem. rewrite (proj2 (Z.leb_le _ _)), (proj2 (Z.ltb_lt _ _)) by lia. cbn [andb]. f_equal. unfold seg_lo. lia. }
  assert (Hout : forall x, x < seg_lo g \/ hi <= x -> bt_mem s1 x = bt_mem s x).
  { intros x Hx. rewrite M. unfold filled_mem. destruct (Z.leb_spec (seg_lo g) x), (Z.ltb_spec x hi); cbn [andb]; done || lia. }
  exists s1. destruct (Z.ltb_spec (sg_filesz g) (sg_memsz g)) as [Hlt|Hge].
  - eexists. split_and!; [done|reflexivity|exact V|..].
    + intros x Hx. unfold mstosb. cbn [bt_mem]. unfold put_mem. rewrite length_replicate, Z2Nat.id, u32_small by lia.
      destruct (Z.ltb_spec x (sg_filesz g)).
      * rewrite (proj2 (Z.leb_gt _ _)) by lia. cbn [andb]. apply Hfile. lia.
      * rewrite (proj2 (Z.leb_le _ _)), (proj2 (Z.ltb_lt _ _)) by lia. cbn [andb]. apply lookup_total_replicate_2. lia.
    + intros x Hx. rewrite (Hout x) by lia. split; [done|]. cbn [bt_mem]. unfold put_mem. rewrite length_replicate, Z2Nat.id, u32_small by lia.
      destruct (Z.leb_spec (sg_paddr g + sg_filesz g) x), (Z.ltb_spec x (sg_paddr g + sg_filesz g + (sg_memsz g - sg_filesz g))); cbn [andb]; try lia; apply Hout; lia.
  - exists s1. split_and!; [done|done|exact V|..].
    + intros x Hx. rewrite (proj2 (Z.ltb_lt _ _)) by lia. apply Hfile. lia.
    + intros x Hx. by rewrite Hout by lia.
Qed.

Lemma load_segments_ok k n : kernel_ok k -> forall i s, kbyte (v_disk (cv (bt_dev s))) = k ->
  (forall l, length (v_disk (cv (bt_dev s)) 0 l) = 512%nat) ->
  Z.of_nat (i + n) = phnum k -> headed k (bt_mem s) -> (forall j, (j < i)%nat -> loaded k (bt_mem s) (seg k j)) ->
  exists s', load_segments (scratch + phoff k + 32 * Z.of_nat i) (scratch + phoff k + 32 * phnum k) n s = Ret tt s' /\
    headed k (bt_mem s') /\ forall j, (j < i + n)%nat -> loaded k (bt_mem s') (seg k j).
Proof.
  intros K. induction n as [|n IH]; intros i s Hk Hl Hn Hh Hj.
  { cbn [load_segments]. rewrite (proj2 (Z.ltb_ge _ _)) by lia. exists s. rewrite Nat.add_0_r. done. }
  cbn [load_segments]. rewrite (proj2 (Z.ltb_lt _ _)) by lia. erewrite bind_ret by reflexivity.
  pose proof (load32_range k 28 (k_bytes k K)) as Hp. fold (phoff k) in Hp. pose proof (k_head k K) as Hd.
  assert (Hs : seg_ok (seg k i)) by (apply (k_seg k K); lia). pose proof Hs as (_ & _ & _ & Hap).
  assert (E : forall m o, headed k m -> 0 <= o <= 28 -> load32 m (scratch + phoff k + 32 * Z.of_nat i + o) = load32 k (phoff k + 32 * Z.of_nat i + o)).
  { intros m o Hm Ho. rewrite <- !Z.add_assoc. rewrite (headed32 k) by (done || lia). done. }
  rewrite !(E _ _ Hh) by lia. change (load32 k (phoff k + 32 * Z.of_nat i + 12)) with (sg_paddr (seg k i)).
  change (load32 k (phoff k + 32 * Z.of_nat i + 16)) with (sg_filesz (seg k i)). change (load32 k (phoff k + 32 * Z.of_nat i + 4)) with (sg_off (seg k i)).
  destruct (load_one_ok s (seg k i) Hl Hs) as (s1 & s2 & R1 & R2 & V & L & O); [apply load32_range, K..|].
  assert (Hout : forall m, (forall x, x < seg_lo (seg k i) \/ seg_hi (seg k i) <= x -> m x = bt_mem s x) -> headed k m).
  { intros m Hm x Hx. rewrite Hm, Hh by (unfold apart in Hap; lia). done. }
  assert (H1 : headed k (bt_mem s1)) by (apply Hout; intros x Hx; by apply O).
  erewrite bind_ret by exact R1. erewrite bind_ret by reflexivity. rewrite !(E _ _ H1) by lia.
  change (load32 k (phoff k + 32 * Z.of_nat i + 16)) with (sg_filesz (seg k i)). change (load32 k (phoff k + 32 * Z.of_nat i + 20)) with (sg_memsz (seg k i)).
  erewrite bind_ret by exact R2. rewrite Hk in L.
  replace (scratch + phoff k + 32 * Z.of_nat i + 32) with (scratch + phoff k + 32 * Z.of_nat (S i)) by lia.
  destruct (IH (S i) s2) as (s' & R' & Hh' & Hj'); [by rewrite V|by rewrite V|lia|apply Hout; intros x Hx; by apply O| |].
  - intros j Hlt. destruct (decide (j = i)) as [->|]; [done|]. intros x Hx.
    destruct (O (sg_paddr (seg k j) + x)) as [_ ->]; [|by apply Hj; [lia|]].
    pose proof (k_order k K j i ltac:(lia) ltac:(lia)) as Ha. unfold apart in Ha. lia.
  - exists s'. replace (i + S n)%nat with (S i + n)%nat by lia. done.
Qed.

(** C26: bootmain loads a well-formed kernel: every segment's bytes are where
    its header says, the rest of the segment is zero, and the jump is to
    the entry point of the file.  What it leaves in memory is right although
    it copies whole sectors. *)
Theorem bootmain_loads_kernel s : let k := kbyte (v_disk (cv (bt_dev s))) in
  (forall l, length (v_disk (cv (bt_dev s)) 0 l) = 512%nat) -> kernel_ok k ->
  exists s', bootmain s = Ret (Some (load32 k 24)) s' /\
    forall i, Z.of_nat i < phnum k -> loaded k (bt_mem s') (seg k i).
Proof.
  intros k Hl K. unfold bootmain. destruct (readseg_ok s scratch 4096 0 Hl) as (s1 & R1 & V1 & M1); [done|lia|done|lia|].
  erewrite bind_ret by exact R1. erewrite bind_ret by reflexivity.
  assert (Hh : headed k (bt_mem s1)).
  { intros x Hx. rewrite M1. unfold filled_mem. change (scratch - 0 mod 512) with scratch. change (512 * rounds scratch (scratch + 4096)) with 4096.
    rewrite (proj2 (Z.leb_le _ _)), (proj2 (Z.ltb_lt _ _)) by lia. cbn [andb]. unfold k. f_equal. change (0 mod 512) with 0. lia. }
  replace (load32 (bt_mem s1) scratch) with (load32 k 0) by (rewrite <- (headed32 k (bt_mem s1) 0 Hh) by lia; by rewrite Z.add_0_r).
  rewrite (k_magic k K), Z.eqb_refl. cbn [negb]. rewrite (headed32 k _ 28 Hh), (headed16 k _ 44 Hh) by lia. fold (phoff k) (phnum k).
  assert (Hp : 0 <= phnum k) by (unfold phnum, load16; pose proof (k_bytes k K 44); pose proof (k_bytes k K (44 + 1)); lia).
  destruct (load_segments_ok k (Z.to_nat (phnum k)) K 0 s1) as (s2 & R2 & H2 & L2);
    [unfold k; by rewrite V1|by rewrite V1|lia|exact Hh|lia|].
  change (Z.of_nat 0) with 0 in R2. rewrite Z.mul_0_r, Z.add_0_r in R2. cbv zeta. erewrite bind_ret by exact R2. erewrite bind_ret by reflexivity.
  rewrite (headed32 k _ 24 H2) by lia. exists s2. split; [done|]. intros i Hi. apply L2. lia.
Qed.
End Read.

(** ** A kernel *)

(** Text at 1 MB, and data after it whose file offset is not a multiple of
    the sector size. *)
Definition word (x : Z) : list Z := map (fun i => Z.shiftr x (8 * Z.of_nat i) mod 256) (seq 0 4).
Definition demo_elf : list Z :=
  word ELF_MAGIC ++ replicate 20 0 ++ word 1048576 ++ word 52 ++ replicate 8 0 ++ [52; 0; 32; 0; 2; 0] ++ replicate 6 0 ++
  word 1 ++ word 4096 ++ word 2148532224 ++ word 1048576 ++ word 700 ++ word 700 ++ word 5 ++ word 4096 ++
  word 1 ++ word 5000 ++ word 2148536200 ++ word 1053576 ++ word 100 ++ word 300 ++ word 6 ++ word 4096.
Definition demo_kernel (x : Z) : Z :=
  if (0 <=? x) && (x <? 116) then default 0 (demo_elf !! Z.to_nat x) mod 256 else x mod 251.
Definition demo_sectors (a l : Z) : list Z := map (fun i => demo_kernel (512 * (l - 1) + Z.of_nat i)) (seq 0 512).

#[local] Existing Instance demo_controller.
#[local] Existing Instance demo_laws.

Definition demo_boot : boot (view * nat) := mkboot (fun _ => 255) (mkview demo_sectors (fun _ => 0) None, 2%nat).

Lemma demo_kbyte x : kbyte demo_sectors x = demo_kernel x.
Proof.
  unfold kbyte, demo_sectors. apply list_lookup_total_correct. rewrite list_lookup_fmap, lookup_seq_lt by zdiv.
  cbn [fmap option_fmap option_map]. do 2 f_equal. zdiv.
Qed.

Lemma demo_kernel_ok : kernel_ok (kbyte demo_sectors).
Proof.
  assert (Hn : phnum (kbyte demo_sectors) = 2) by (by vm_compute).
  split.
  - intros x. rewrite demo_kbyte. unfold demo_kernel. destruct (_ && _); zdiv.
  - by vm_compute.
  - by vm_compute.
  - rewrite Hn. intros i Hi. assert (i = 0%nat \/ i = 1%nat) as [-> | ->] by lia.
    all: unfold seg_ok; split_and!; [by vm_compute..|]; right; by vm_compute.
  - rewrite Hn. intros i j Hij Hj. assert (i = 0%nat /\ j = 1%nat) as [-> ->] by lia. right. by vm_compute.
Qed.

Lemma bootmain_loads_kernel_witness : exists s', bootmain demo_boot = Ret (Some 1048576) s' /\ bt_mem s' 1053600 = demo_kernel 5024 /\ bt_mem s' 1053800 = 0.
Proof.
  destruct (bootmain_loads_kernel demo_boot) as (s' & R & L).
  - intros l. cbn [demo_boot bt_dev cv demo_laws fst v_disk]. unfold demo_sectors. by rewrite length_map, length_seq.
  - exact demo_kernel_ok.
  - change (kbyte (v_disk (cv (bt_dev demo_boot)))) with (kbyte demo_sectors) in *.
    assert (E : load32 (kbyte demo_sectors) 24 = 1048576) by (by vm_compute). rewrite E in R.
    assert (N : phnum (kbyte demo_sectors) = 2) by (by vm_compute). rewrite N in L.
    assert (G : seg (kbyte demo_sectors) 1 = mkseg 5000 1053576 100 300) by (by vm_compute).
    specialize (L 1%nat ltac:(lia)). rewrite G in L. exists s'. split_and!; [exact R|..].
    + rewrite <- demo_kbyte. apply (L 24). cbn. lia.
    + apply (L 224). cbn. lia.
Defined.
