(* ===== verification/Log.v ===== *)
(** * The write-ahead log: log.c

    The log's state is [log] (struct log); it runs over the buffer cache and
    the disk of Bio.v.  The on-disk header is a block whose first word is the
    number of logged blocks and whose following words are their home
    addresses.  A crash keeps a prefix of the blocks the driver wrote
    ([dwrites]) and loses all memory; recovery starts from that disk with an
    empty cache.  The theorems: what commit writes and in which order; a
    crash at any point of commit, or of recovery itself, leaves after
    recovery either none or all of the transaction's updates; begin_op's
    reservation. *)

From stdpp Require Import base list sets strings.
From Stdlib Require Import ZArith Lia.
From S2P Require Import Prelude Proc Bio.

Local Open Scope Z_scope.

(** struct superblock and readsb (fs.h, fs.c). *)
Record superblock : Type := mksb {
  sb_size : Z; sb_nblocks : Z; sb_ninodes : Z; sb_nlog : Z;
  sb_logstart : Z; sb_inodestart : Z; sb_bmapstart : Z }.

Definition sb_of (d : list Z) : superblock :=
  mksb (get_le 4 d 0) (get_le 4 d 4) (get_le 4 d 8) (get_le 4 d 12)
    (get_le 4 d 16) (get_le 4 d 20) (get_le 4 d 24).

Definition readsb (dev : Z) : M bst superblock :=
  bp ← bread dev 1;
  d ← bdata bp;
  brelse bp ;;
  mret (sb_of d).

(** struct log, with its struct logheader. *)
Record log : Type := mklog {
  l_start : Z;
  l_size : Z;
  l_outstanding : Z;
  l_committing : bool;
  l_dev : Z;
  lh_n : Z;
  lh_block : list Z }.          (* int block[LOGSIZE] *)

Definition log0 : log := mklog 0 0 0 false 0 0 (replicate (Z.to_nat LOGSIZE) 0).

Definition set_outstanding (x : Z) (l : log) : log :=
  mklog (l_start l) (l_size l) x (l_committing l) (l_dev l) (lh_n l) (lh_block l).
Definition set_committing (x : bool) (l : log) : log :=
  mklog (l_start l) (l_size l) (l_outstanding l) x (l_dev l) (lh_n l) (lh_block l).
Definition set_n (x : Z) (l : log) : log :=
  mklog (l_start l) (l_size l) (l_outstanding l) (l_committing l) (l_dev l) x (lh_block l).
Definition set_block (x : list Z) (l : log) : log :=
  mklog (l_start l) (l_size l) (l_outstanding l) (l_committing l) (l_dev l) (lh_n l) x.

Record lst : Type := mklst { l_bio : bst; l_log : log }.

Definition set_bio (x : bst) (s : lst) : lst := mklst x (l_log s).
Definition upd_log (f : log -> log) (s : lst) : lst := mklst (l_bio s) (f (l_log s)).

(** A buffer-cache routine run by the log. *)
Definition bio {A} (m : M bst A) : M lst A := zoom l_bio set_bio m.

Definition wakeup_log : M lst unit := bio (zoom b_proc set_bproc (wakeup ChLog)).
Definition sleep_log : M lst unit := bio (zoom b_proc set_bproc (sleep ChLog)).

(** One iteration of install_trans's loop. *)
Definition install_one (tail : nat) : M lst unit :=
  l ← gets l_log;
  lbuf ← bio (bread (l_dev l) (l_start l + Z.of_nat tail + 1));
  dbuf ← bio (bread (l_dev l) (lh_block l !!! tail));
  d ← bio (bdata lbuf);
  bio (bstore dbuf d) ;;
  bio (bwrite dbuf) ;;
  bio (brelse lbuf) ;;
  bio (brelse dbuf).

Definition install_trans : M lst unit :=
  n ← gets (fun s => lh_n (l_log s));
  forM 0 (Z.to_nat n) install_one.

(** The copy loop of read_head, from entry [i], [k] entries left. *)
Fixpoint read_blocks (d : list Z) (i k : nat) (blk : list Z) : list Z :=
  match k with
  | O => blk
  | S k' => read_blocks d (S i) k' (<[i := i32 (get_le 4 d (4 + 4 * i))]> blk)
  end.

(** A header that claims more than LOGSIZE blocks overruns log.lh.block. *)
Definition read_head : M lst unit :=
  l ← gets l_log;
  buf ← bio (bread (l_dev l) (l_start l));
  d ← bio (bdata buf);
  let n := i32 (get_le 4 d 0) in
  if LOGSIZE <? n then fault else
  modify (upd_log (fun l => set_block (read_blocks d 0 (Z.to_nat n) (lh_block l)) (set_n n l))) ;;
  bio (brelse buf).

(** The copy loop of write_head into the header block [d]. *)
Fixpoint put_blocks (blk : list Z) (i k : nat) (d : list Z) : list Z :=
  match k with
  | O => d
  | S k' => put_blocks blk (S i) k' (put_le 4 (blk !!! i) d (4 + 4 * i))
  end.

Definition head_block (n : Z) (blk : list Z) (d : list Z) : list Z :=
  put_blocks blk 0 (Z.to_nat n) (put_le 4 n d 0).

Definition write_head : M lst unit :=
  l ← gets l_log;
  buf ← bio (bread (l_dev l) (l_start l));
  d ← bio (bdata buf);
  bio (bstore buf (head_block (lh_n l) (lh_block l) d)) ;;
  bio (bwrite buf) ;;
  bio (brelse buf).

Definition recover_from_log : M lst unit :=
  read_head ;;
  install_trans ;;
  modify (upd_log (set_n 0)) ;;
  write_head.

(** initlog: sizeof(struct logheader) is 124, less than BSIZE. *)
Definition initlog (dev : Z) : M lst unit :=
  if Z.of_nat BSIZE <=? 4 + 4 * LOGSIZE then panic "initlog: too big logheader" else
  sb ← bio (readsb dev);
  modify (upd_log (fun l => mklog (i32 (sb_logstart sb)) (i32 (sb_nlog sb))
    (l_outstanding l) (l_committing l) dev (lh_n l) (lh_block l))) ;;
  recover_from_log.

(** begin_op's loop: after a wakeup the tests run again from the start. *)
Definition begin_op : M lst unit :=
  l ← gets l_log;
  if l_committing l then sleep_log
  else if LOGSIZE <? lh_n l + (l_outstanding l + 1) * MAXOPBLOCKS then sleep_log
  else modify (upd_log (set_outstanding (l_outstanding l + 1))).

(** One iteration of write_log's loop. *)
Definition write_one (tail : nat) : M lst unit :=
  l ← gets l_log;
  to ← bio (bread (l_dev l) (l_start l + Z.of_nat tail + 1));
  from ← bio (bread (l_dev l) (lh_block l !!! tail));
  d ← bio (bdata from);
  bio (bstore to d) ;;
  bio (bwrite to) ;;
  bio (brelse from) ;;
  bio (brelse to).

Definition write_log : M lst unit :=
  n ← gets (fun s => lh_n (l_log s));
  forM 0 (Z.to_nat n) write_one.

Definition commit : M lst unit :=
  n ← gets (fun s => lh_n (l_log s));
  if 0 <? n then
    write_log ;;
    write_head ;;
    install_trans ;;
    modify (upd_log (set_n 0)) ;;
    write_head
  else mret tt.

Definition end_op : M lst unit :=
  modify (upd_log (fun l => set_outstanding (l_outstanding l - 1) l)) ;;
  l ← gets l_log;
  if l_committing l then panic "log.committing" else
  if l_outstanding l =? 0 then
    modify (upd_log (set_committing true)) ;;
    commit ;;
    modify (upd_log (set_committing false)) ;;
    wakeup_log
  else wakeup_log.

(** The absorption loop of log_write: the first index with this block, or
    [n]. *)
Fixpoint find_log (blk : list Z) (b : Z) (i k : nat) : nat :=
  match k with
  | O => i
  | S k' => if blk !!! i =? b then i else find_log blk b (S i) k'
  end.

Definition log_write (b : nat) : M lst unit :=
  l ← gets l_log;
  if (LOGSIZE <=? lh_n l) || (l_size l - 1 <=? lh_n l) then panic "too big a transaction" else
  if l_outstanding l <? 1 then panic "log_write outside of trans" else
  bf ← bio (getbuf b);
  let i := find_log (lh_block l) (b_blockno bf) 0 (Z.to_nat (lh_n l)) in
  modify (upd_log (fun l =>
    let l := set_block (<[i := b_blockno bf]> (lh_block l)) l in
    if Z.of_nat i =? lh_n l then set_n (lh_n l + 1) l else l)) ;;
  bio (modify (upd_buf b (fun x => set_flags (Z.lor (b_flags x) B_DIRTY) x))).

(** ** The header block *)

(** The home addresses a header block lists. *)
Definition hdr_list (d : list Z) : list Z :=
  map (fun i => i32 (get_le 4 d (4 + 4 * i))) (seq 0 (Z.to_nat (i32 (get_le 4 d 0)))).

Lemma length_put_blocks blk i k d : length (put_blocks blk i k d) = length d.
Proof.
  revert i d; induction k as [|k IH]; intros i d; [done|].
  cbn [put_blocks]. by rewrite IH, length_put_le.
Qed.

Lemma put_blocks_byte_ok blk i k d :
  Forall byte_ok d -> Forall byte_ok (put_blocks blk i k d).
Proof.
  revert i d; induction k as [|k IH]; intros i d Hd; [done|].
  cbn [put_blocks]. apply IH. auto with xv6.
Qed.

Lemma put_blocks_other blk i k d o :
  (o + 4 <= 4 + 4 * i)%nat -> get_le 4 (put_blocks blk i k d) o = get_le 4 d o.
Proof.
  revert i d; induction k as [|k IH]; intros i d Ho; [done|].
  cbn [put_blocks]. rewrite IH by lia. apply get_put_le_other. lia.
Qed.

Lemma put_blocks_get blk i k d j :
  (i <= j < i + k)%nat -> (4 + 4 * (i + k) <= length d)%nat ->
  get_le 4 (put_blocks blk i k d) (4 + 4 * j) = u32 (blk !!! j).
Proof.
  revert i d; induction k as [|k IH]; intros i d Hj Hl; [lia|].
  cbn [put_blocks]. destruct (decide (j = i)) as [->|].
  - rewrite put_blocks_other by lia. rewrite get_put_le_same by lia. done.
  - apply IH; [lia|]. rewrite length_put_le. lia.
Qed.

Lemma head_block_len n blk d : length (head_block n blk d) = length d.
Proof. unfold head_block. by rewrite length_put_blocks, length_put_le. Qed.

Lemma head_block_byte_ok n blk d : Forall byte_ok d -> Forall byte_ok (head_block n blk d).
Proof. intros. unfold head_block. apply put_blocks_byte_ok. auto with xv6. Qed.

(** write_head then read_head: the header lists what was written. *)
Lemma hdr_list_head_block n blk d :
  length d = BSIZE -> 0 <= n <= LOGSIZE -> length blk = Z.to_nat LOGSIZE ->
  Forall (fun b => 0 <= b < 2 ^ 31) (take (Z.to_nat n) blk) ->
  hdr_list (head_block n blk d) = take (Z.to_nat n) blk.
Proof.
  unfold LOGSIZE, MAXOPBLOCKS, BSIZE. intros Hd Hn Hb Hr.
  unfold hdr_list, head_block.
  rewrite put_blocks_other, get_put_le_same by lia.
  change (256 ^ Z.of_nat 4) with (2 ^ 32). change (n mod 2 ^ 32) with (u32 n).
  rewrite i32_u32, i32_small by lia.
  apply list_eq. intros i. destruct (decide (i < Z.to_nat n)%nat) as [Hi|Hi].
  - rewrite list_lookup_fmap, lookup_seq_lt by done.
    cbn [fmap option_fmap option_map].
    rewrite put_blocks_get by (rewrite ?length_put_le; lia).
    rewrite lookup_take_lt by done.
    assert (Hx : blk !! i = Some (blk !!! i)) by (apply list_lookup_lookup_total_lt; lia).
    rewrite Hx. f_equal. rewrite Nat.add_0_l, i32_u32. apply i32_small.
    eapply (Forall_lookup_1 _ _ i) in Hr; [|by rewrite lookup_take_lt]. lia.
  - rewrite !lookup_ge_None_2; [done| |].
    + rewrite length_take. lia.
    + rewrite length_map, length_seq. lia.
Qed.

Lemma length_read_blocks d i k blk : length (read_blocks d i k blk) = length blk.
Proof.
  revert i blk; induction k as [|k IH]; intros i blk; [done|].
  cbn [read_blocks]. by rewrite IH, length_insert.
Qed.

Lemma read_blocks_other d i k blk j :
  (j < i)%nat -> read_blocks d i k blk !! j = blk !! j.
Proof.
  revert i blk; induction k as [|k IH]; intros i blk Hj; [done|].
  cbn [read_blocks]. rewrite IH by lia. apply list_lookup_insert_ne. lia.
Qed.

Lemma read_blocks_get d i k blk j :
  (i <= j < i + k)%nat -> (i + k <= length blk)%nat ->
  read_blocks d i k blk !! j = Some (i32 (get_le 4 d (4 + 4 * j))).
Proof.
  revert i blk; induction k as [|k IH]; intros i blk Hj Hl; [lia|].
  cbn [read_blocks]. destruct (decide (j = i)) as [->|].
  - rewrite read_blocks_other by lia. apply list_lookup_insert_eq. lia.
  - apply IH; [lia|]. rewrite length_insert. lia.
Qed.

Lemma read_blocks_hdr d blk n :
  n = i32 (get_le 4 d 0) -> (Z.to_nat n <= length blk)%nat ->
  take (Z.to_nat n) (read_blocks d 0 (Z.to_nat n) blk) = hdr_list d.
Proof.
  intros -> Hl. unfold hdr_list. set (k := Z.to_nat _) in *. apply list_eq. intros i.
  destruct (decide (i < k)%nat) as [Hi|Hi].
  - rewrite lookup_take_lt, read_blocks_get by lia.
    rewrite list_lookup_fmap, lookup_seq_lt by done. done.
  - rewrite !lookup_ge_None_2; [done| |].
    + rewrite length_map, length_seq. lia.
    + rewrite length_take. lia.
Qed.

(** ** The loops of commit and recovery *)

Lemma bio_ret {A} (m : M bst A) s a b :
  m (l_bio s) = Ret a b -> bio m s = Ret a (set_bio b s).
Proof. unfold bio, zoom. by intros ->. Qed.

Ltac run_bio R :=
  erewrite bind_ret by (apply bio_ret; cbn [l_bio set_bio]; exact R); cbn [l_log set_bio].

(** The dirty blocks are among [T], which leaves room in the cache. *)
Definition room (B : bst) (T : list Z) : Prop :=
  (forall m, dirty B m -> m ∈ T) /\ (length T < NBUF)%nat.

Lemma room_wrote B B' pid W T : wrote B B' pid W -> room B T -> room B' T.
Proof.
  intros HW [H1 H2]. split; [|done]. intros m Hm. apply (ef_dirty _ _ _ _ _ _ _ HW) in Hm as [Hm _].
  by apply H1.
Qed.

Lemma wrote_one B B' pid n d :
  effect B B' pid [] (fun m => if decide (m = n) then d else view B m)
    (fun m => dirty B m /\ m <> n) [(n, d)] -> wrote B B' pid [(n, d)].
Proof.
  intros [E1 E2 E3 E4 E5 E6]. split; try done. intros m. rewrite E3. cbn. set_solver.
Qed.

Lemma effect_wrote B B1 B2 pid H n d :
  effect B B1 pid H (view B) (dirty B) [] -> 0 <= n ->
  effect B1 B2 pid [] (fun m => if decide (m = n) then d else view B1 m)
    (fun m => dirty B1 m /\ m <> n) [(n, d)] -> wrote B B2 pid [(n, d)].
Proof.
  intros [A1 A2 A3 A4 A5 A6] Hn [B1' B2' B3' B4' B5' B6']. apply wrote_one. split; try done.
  - intros m Hm. rewrite B2' by done. case_decide; [done|]. by apply A2.
  - intros m. by rewrite B3', A3.
  - by rewrite B4', A4, app_nil_r.
  - by rewrite B5', A5.
  - by rewrite B6', A6.
Qed.

Section Copy.
Context (B : bst) (pid : Z) (T : list Z) (a b : Z).
Hypothesis HB : binv B pid [].
Hypothesis HT : room B T.
Hypothesis Ha : 0 <= a < disksize B.
Hypothesis Hb : 0 <= b < disksize B.
Hypothesis Hab : a <> b.
Hypothesis Hbin : dirty B b \/ (S (length T) < NBUF)%nat.

Lemma read_log_home : exists i j B1 B2,
  bread 1 a B = Ret i B1 /\ bread 1 b B1 = Ret j B2 /\
  binv B2 pid [j; i] /\ i <> j /\
  b_blockno (bufs B2 !!! i) = a /\ b_data (bufs B2 !!! i) = view B a /\
  (b_flags (bufs B2 !!! i) = 2 -> view B a = disk B2 !!! Z.to_nat a) /\
  b_blockno (bufs B2 !!! j) = b /\ b_data (bufs B2 !!! j) = view B b /\
  (b_flags (bufs B2 !!! j) = 2 -> view B b = disk B2 !!! Z.to_nat b) /\
  effect B B2 pid [j; i] (view B) (dirty B) [].
Proof using HB HT Ha Hb Hab Hbin.
  destruct HT as [HT1 HT2].
  destruct (read_two_ok B pid [] a b) as (i & j & B1 & B2 & R1 & R2 & HB2 & X); try done.
  { set_solver. }
  { by apply (available_room B pid [] T). }
  { intros s1 (i & Hs1) Hd. destruct Hbin as [Hx|Hx].
    - by apply available_dirty, Hd.
    - apply (available_room s1 pid [i] T); [done| |done]. intros m Hm. by apply HT1, Hd. }
  exists i, j, B1, B2. split_and!; try apply X; try done.
  destruct (bi_held _ _ _ HB2) as [Hnd _]. apply NoDup_cons in Hnd. set_solver.
Qed.

(** The body of write_log's loop. *)
Lemma write_one_ok tail l :
  l_dev l = 1 -> a = l_start l + Z.of_nat tail + 1 -> b = lh_block l !!! tail ->
  exists B', write_one tail (mklst B l) = Ret tt (mklst B' l) /\
    wrote B B' pid [(a, view B b)].
Proof using HB HT Ha Hb Hab Hbin.
  intros Hdev Ea Eb.
  destruct read_log_home as (i & j & B1 & B2 & R1 & R2 & HB2 & Hij & Ai & Di & Ci & Aj & Dj & Cj & E).
  destruct (copy_tail_ok B2 pid [] i j) as (C1 & C2 & C3 & C4 & Q0 & Q1 & Q2 & Q3 & Q4 & E2); try done.
  { rewrite Dj, Aj. done. }
  { congruence. }
  rewrite Dj in *. rewrite Ai in E2. exists C4. split.
  - unfold write_one. erewrite bind_ret by reflexivity. cbn [l_log l_bio].
    rewrite Hdev, <- Ea, <- Eb.
    run_bio R1. run_bio R2. run_bio Q0. run_bio Q1. run_bio Q2. run_bio Q3.
    by apply (bio_ret (brelse i)).
  - apply (effect_wrote B B2 C4 pid [j; i]); done || lia.
Qed.

(** The body of install_trans's loop. *)
Lemma install_one_ok tail l :
  l_dev l = 1 -> a = l_start l + Z.of_nat tail + 1 -> b = lh_block l !!! tail ->
  exists B', install_one tail (mklst B l) = Ret tt (mklst B' l) /\
    wrote B B' pid [(b, view B a)].
Proof using HB HT Ha Hb Hab Hbin.
  intros Hdev Ea Eb.
  destruct read_log_home as (i & j & B1 & B2 & R1 & R2 & HB2 & Hij & Ai & Di & Ci & Aj & Dj & Cj & E).
  destruct (copy_tail_ok B2 pid [] j i) as (C1 & C2 & C3 & C4 & Q0 & Q1 & Q2 & Q3 & Q4 & E2).
  { apply (binv_perm _ _ _ _ HB2). constructor. }
  { rewrite Di, Ai. done. }
  { congruence. }
  rewrite Di in *. rewrite Aj in E2. exists C4. split.
  - unfold install_one. erewrite bind_ret by reflexivity. cbn [l_log l_bio].
    rewrite Hdev, <- Ea, <- Eb.
    run_bio R1. run_bio R2. run_bio Q0. run_bio Q1. run_bio Q2. run_bio Q3.
    by apply (bio_ret (brelse j)).
  - apply (effect_wrote B B2 C4 pid [j; i]); done || lia.
Qed.

End Copy.

Lemma write_head_ok B pid T l :
  binv B pid [] -> room B T -> l_dev l = 1 -> 0 <= l_start l < disksize B ->
  exists B', write_head (mklst B l) = Ret tt (mklst B' l) /\
    wrote B B' pid [(l_start l, head_block (lh_n l) (lh_block l) (view B (l_start l)))].
Proof.
  intros HB [HT1 HT2] Hdev Hs. set (n := l_start l) in *.
  destruct (bread_ok B pid [] n HB Hs ltac:(set_solver))
    as (i & B1 & R1 & _ & HB1 & Hb1 & Hd1 & Hv1 & Ht1 & (Hk1 & Hs1 & Hw1) & _ & _ & _).
  { by apply (available_room B pid [] T). }
  destruct (held_facts _ _ _ i HB1) as (_ & Hil & _ & _ & _ & _ & _ & Hl1 & Hy1); [set_solver|].
  apply is_block_true in Hb1 as [_ Hb1]. rewrite Hd1 in *.
  set (d := head_block (lh_n l) (lh_block l) (view B n)).
  destruct (write_held_ok B1 pid [i] i d HB1) as (B2 & B3 & R2 & R3 & E & Bi & _).
  { set_solver. }
  { unfold d. by rewrite head_block_len. }
  { by apply head_block_byte_ok. }
  rewrite Hb1 in E. pose proof E as [E1 E2 E3 E4 E5 E6].
  destruct (brelse_ok B3 pid [] i E1) as (B4 & R4 & [F1 F2 F3 F4 F5 F6] & _).
  { rewrite Bi. cbn. rewrite Hb1, E5. cbn. intros _.
    rewrite list_lookup_total_insert_eq; [done|].
    destruct (bi_disk _ _ _ HB1) as [Hz _]. rewrite Hs1 in Hz. lia. }
  exists B4. split.
  - unfold write_head. erewrite bind_ret by reflexivity. cbn [l_log l_bio]. rewrite Hdev.
    run_bio R1.
    erewrite bind_ret by (apply bio_ret; cbn [l_bio set_bio];
      unfold bdata; erewrite bind_ret by (by apply getbuf_lt); reflexivity).
    rewrite Hd1. cbn [l_log set_bio]. fold d.
    erewrite bind_ret by (apply bio_ret; exact R2). run_bio R3. by apply (bio_ret (brelse i)).
  - apply wrote_one. split; try done.
    + intros m Hm. rewrite F2, E2, Hv1 by done. done.
    + intros m. by rewrite F3, E3, Ht1.
    + by rewrite F4, E4, Hw1, app_nil_r.
    + by rewrite F5, E5, Hk1.
    + by rewrite F6, E6, Hs1.
Qed.

(** The writes of the two loops, for the entries [i .. i+k) of [blk]. *)
Definition log_copies (V : Z -> list Z) (start : Z) (blk : list Z) (i k : nat)
    : list (Z * list Z) :=
  map (fun j => (start + Z.of_nat j + 1, V (blk !!! j))) (seq i k).

Definition home_copies (V : Z -> list Z) (start : Z) (blk : list Z) (i k : nat)
    : list (Z * list Z) :=
  map (fun j => (blk !!! j, V (start + Z.of_nat j + 1))) (seq i k).

(** A block that the log may hold: neither the superblock nor a log block. *)
Definition home (start size dsz b : Z) : Prop :=
  0 <= b < dsz /\ b <> 1 /\ (b < start \/ start + size <= b).

(** The entries [i .. i+k) of the log name home blocks. *)
Definition entries_ok (l : log) (dsz : Z) (i k : nat) : Prop :=
  l_dev l = 1 /\ 0 <= l_start l /\ l_start l + l_size l <= dsz /\
  Z.of_nat (i + k) < l_size l /\
  forall j, (i <= j < i + k)%nat -> home (l_start l) (l_size l) dsz (lh_block l !!! j).

Lemma entries_step l dsz i k : entries_ok l dsz i (S k) -> entries_ok l dsz (S i) k.
Proof.
  intros (? & ? & ? & ? & H). unfold entries_ok. split_and!; try done; [lia|].
  intros j Hj. apply H. lia.
Qed.

Lemma write_loop pid l T k i B :
  binv B pid [] -> room B T -> entries_ok l (disksize B) i k ->
  (forall j, (i <= j < i + k)%nat -> dirty B (lh_block l !!! j)) ->
  exists B', forM i k write_one (mklst B l) = Ret tt (mklst B' l) /\
    wrote B B' pid (log_copies (view B) (l_start l) (lh_block l) i k).
Proof.
  revert i B; induction k as [|k IH]; intros i B HB HT He Hd.
  { exists B. split; [done|]. by apply wrote_nil. }
  pose proof He as (Hdev & Hs & Hsz & Hik & Hh).
  destruct (Hh i ltac:(lia)) as (Hbr & _ & Hbs).
  destruct (write_one_ok B pid T (l_start l + Z.of_nat i + 1) (lh_block l !!! i))
    with (tail := i) (l := l) as (B1 & R1 & W1); try done; try lia.
  { left. apply Hd. lia. }
  pose proof W1 as [E1 E2 E3 E4 E5 E6].
  destruct (IH (S i) B1) as (B' & R & W).
  - done.
  - by apply (room_wrote _ _ _ _ _ W1).
  - rewrite E6. by apply entries_step.
  - intros j Hj. apply E3. split; [apply Hd; lia|].
    destruct (Hh j ltac:(lia)) as (_ & _ & Hj'). cbn. set_unfold. lia.
  - exists B'. split; [cbn [forM]; erewrite bind_ret by exact R1; exact R|].
    unfold log_copies. cbn [seq map]. apply (wrote_app _ _ _ _ [_] _ W1).
    erewrite map_ext_in; [exact W|]. intros j Hj. apply in_seq in Hj. f_equal.
    destruct (Hh j ltac:(lia)) as (Hj1 & _ & Hj'). rewrite E2 by lia. cbn.
    rewrite decide_False by lia. done.
Qed.

Lemma install_loop pid l T k i B :
  binv B pid [] -> room B T -> entries_ok l (disksize B) i k ->
  (forall j, (i <= j < i + k)%nat -> dirty B (lh_block l !!! j)) /\
  NoDup (map (fun j => lh_block l !!! j) (seq i k)) \/
  (S (length T) < NBUF)%nat ->
  exists B', forM i k install_one (mklst B l) = Ret tt (mklst B' l) /\
    wrote B B' pid (home_copies (view B) (l_start l) (lh_block l) i k).
Proof.
  revert i B; induction k as [|k IH]; intros i B HB HT He Hd.
  { exists B. split; [done|]. by apply wrote_nil. }
  pose proof He as (Hdev & Hs & Hsz & Hik & Hh).
  destruct (Hh i ltac:(lia)) as (Hbr & _ & Hbs).
  destruct (install_one_ok B pid T (l_start l + Z.of_nat i + 1) (lh_block l !!! i))
    with (tail := i) (l := l) as (B1 & R1 & W1); try done; try lia.
  { destruct Hd as [[Hd _]|Hd]; [left; apply Hd; lia|by right]. }
  pose proof W1 as [E1 E2 E3 E4 E5 E6].
  destruct (IH (S i) B1) as (B' & R & W).
  - done.
  - by apply (room_wrote _ _ _ _ _ W1).
  - rewrite E6. by apply entries_step.
  - destruct Hd as [[Hd Hnd]|Hd]; [left|by right].
    cbn [seq map] in Hnd. apply NoDup_cons in Hnd as [Hni Hnd]. split; [|done].
    intros j Hj. apply E3. split; [apply Hd; lia|]. cbn. intros Hx.
    apply list_elem_of_singleton in Hx. apply Hni. rewrite <- Hx.
    apply (list_elem_of_fmap_2 (fun j => lh_block l !!! j)), elem_of_seq. lia.
  - exists B'. split; [cbn [forM]; erewrite bind_ret by exact R1; exact R|].
    unfold home_copies. cbn [seq map]. apply (wrote_app _ _ _ _ [_] _ W1).
    erewrite map_ext_in; [exact W|]. intros j Hj. apply in_seq in Hj.
    cbv beta. rewrite E2 by lia. cbn. rewrite decide_False by lia. done.
Qed.

(** Recovery after read_head, and commit after its write_head. *)
Definition install_and_clear : M lst unit :=
  install_trans ;;
  modify (upd_log (set_n 0)) ;;
  write_head.

Lemma install_and_clear_ok pid l T B :
  binv B pid [] -> room B T -> 0 <= lh_n l -> entries_ok l (disksize B) 0 (Z.to_nat (lh_n l)) ->
  (forall j, (j < Z.to_nat (lh_n l))%nat -> dirty B (lh_block l !!! j)) /\
  NoDup (map (fun j => lh_block l !!! j) (seq 0 (Z.to_nat (lh_n l)))) \/
  (S (length T) < NBUF)%nat ->
  let W := home_copies (view B) (l_start l) (lh_block l) 0 (Z.to_nat (lh_n l)) ++
    [(l_start l, head_block 0 (lh_block l) (view B (l_start l)))] in
  exists B', install_and_clear (mklst B l) = Ret tt (mklst B' (set_n 0 l)) /\ wrote B B' pid W.
Proof.
  intros HB HT Hn He Hd W. pose proof He as (Hdev & Hs & Hsz & Hik & Hh).
  destruct (install_loop pid l T (Z.to_nat (lh_n l)) 0 B) as (B1 & R1 & W1); try done.
  { destruct Hd as [[Hd ?]|]; [left|by right]. split; [|done]. intros j ?. apply Hd. lia. }
  pose proof W1 as [E1 E2 E3 E4 E5 E6].
  destruct (write_head_ok B1 pid T (set_n 0 l)) as (B2 & R2 & W2); try done.
  { by apply (room_wrote _ _ _ _ _ W1). }
  { rewrite E6. cbn. lia. }
  exists B2. split.
  - unfold install_and_clear, install_trans.
    erewrite bind_ret by (erewrite bind_ret by reflexivity; exact R1).
    by erewrite bind_ret by reflexivity.
  - apply (wrote_app _ _ _ _ _ _ W1). cbn in W2. rewrite E2 in W2 by lia.
    rewrite after_writes_other in W2; [done|].
    intros Hx. apply list_elem_of_fmap in Hx as (w & Ew & Hw).
    apply list_elem_of_fmap in Hw as (j & -> & Hj). apply elem_of_seq in Hj. cbn in Ew.
    destruct (Hh j ltac:(lia)) as (_ & _ & ?). lia.
Qed.

(** ** The disk a crash leaves, and what recovery makes of it *)

(** The blocks recovery would write home. *)
Definition replay (start : Z) (D : list (list Z)) : list (Z * list Z) :=
  let T := hdr_list (D !!! Z.to_nat start) in
  home_copies (fun a => D !!! Z.to_nat a) start T 0 (length T).

(** The contents of block [m] that the disk stands for: the logged copy if
    the header lists [m], its home copy otherwise. *)
Definition logical (start : Z) (D : list (list Z)) (m : Z) : list Z :=
  after_writes (replay start D) m (D !!! Z.to_nat m).

(** A disk the log code can have left: a superblock that places the log, and
    a header that names home blocks. *)
Record log_disk (start size : Z) (D : list (list Z)) : Prop := mklogdisk {
  ld_blocks : Forall (fun d => length d = BSIZE /\ Forall byte_ok d) D;
  ld_small : Z.of_nat (length D) < 2 ^ 31;
  ld_place : 1 < start /\ 0 < size <= LOGSIZE /\ start + size <= Z.of_nat (length D);
  ld_sb : sb_logstart (sb_of (D !!! 1%nat)) = start /\ sb_nlog (sb_of (D !!! 1%nat)) = size;
  ld_count : 0 <= i32 (get_le 4 (D !!! Z.to_nat start) 0) < size;
  ld_home : Forall (home start size (Z.of_nat (length D))) (hdr_list (D !!! Z.to_nat start)) }.

(** Memory when the machine restarts, and the code that runs then: binit
    (from main) and initlog (from forkret). *)
Definition crashed (p : pst) (D : list (list Z)) : lst := mklst (fresh p D) log0.

Definition boot : M lst unit := bio binit ;; initlog ROOTDEV.

(** What recovery writes to the disk [D]. *)
Definition recovery_writes (start : Z) (D : list (list Z)) : list (Z * list Z) :=
  replay start D ++ [(start, put_le 4 0 (D !!! Z.to_nat start) 0)].

(** A bread, the use of the contents, a brelse. *)
Lemma read_block_wrote B pid n :
  binv B pid [] -> room B [] -> 0 <= n < disksize B ->
  exists i B1 B2, bread 1 n B = Ret i B1 /\ bdata i B1 = Ret (view B n) B1 /\
    brelse i B1 = Ret tt B2 /\ wrote B B2 pid [].
Proof.
  intros HB [HT1 HT2] Hn.
  destruct (read_block_ok B pid [] n HB Hn) as (i & B1 & B2 & R1 & R2 & R3 & E & _).
  { set_solver. }
  { by apply (available_room B pid [] []). }
  exists i, B1, B2. split_and!; try done. destruct E as [E1 E2 E3 E4 E5 E6].
  split; try done. intros m. rewrite E3. set_solver.
Qed.

Lemma read_head_ok B pid l :
  binv B pid [] -> room B [] -> l_dev l = 1 -> 0 <= l_start l < disksize B ->
  let d := view B (l_start l) in
  let n := i32 (get_le 4 d 0) in
  n <= LOGSIZE ->
  exists B', read_head (mklst B l) =
      Ret tt (mklst B' (set_block (read_blocks d 0 (Z.to_nat n) (lh_block l)) (set_n n l))) /\
    wrote B B' pid [].
Proof.
  intros HB HT Hdev Hs d n Hn.
  destruct (read_block_wrote B pid (l_start l) HB HT Hs) as (i & B1 & B2 & R1 & R2 & R3 & W).
  exists B2. split; [|done]. unfold read_head. erewrite bind_ret by reflexivity.
  cbn [l_log l_bio]. rewrite Hdev. run_bio R1. run_bio R2. fold d. cbv zeta. fold n.
  rewrite (proj2 (Z.ltb_ge _ _)) by lia. erewrite bind_ret by reflexivity.
  cbn [upd_log l_log l_bio set_bio]. by apply (bio_ret (brelse i)).
Qed.

(** Recovery from a cache without dirty blocks. *)
Lemma recover_ok B pid l D :
  binv B pid [] -> (forall m, ~ dirty B m) -> D = disk B ->
  l_dev l = 1 -> length (lh_block l) = Z.to_nat LOGSIZE ->
  log_disk (l_start l) (l_size l) D ->
  exists B' blk, recover_from_log (mklst B l) = Ret tt (mklst B' (set_block blk (set_n 0 l))) /\
    length blk = Z.to_nat LOGSIZE /\ wrote B B' pid (recovery_writes (l_start l) D).
Proof.
  intros HB Hnd -> Hdev Hlen HD.
  destruct HD as [_ Hsm (Hp1 & Hp2 & Hp3) _ Hcnt Hhome].
  destruct (bi_disk _ _ _ HB) as [Hsz _]. rewrite <- Hsz in *.
  assert (Hv : forall m, view B m = disk B !!! Z.to_nat m) by (intros; by apply (view_clean B pid)).
  rewrite <- Hv in *. set (n := i32 (get_le 4 (view B (l_start l)) 0)) in *.
  assert (Hroom : room B []) by (split; [intros m Hm; by apply Hnd in Hm|apply Nat.lt_0_succ]).
  destruct (read_head_ok B pid l HB Hroom Hdev) as (B1 & R1 & W1); [lia|fold n; lia|].
  fold n in R1. set (l1 := set_block _ _) in R1.
  assert (Ht : take (Z.to_nat n) (lh_block l1) = hdr_list (view B (l_start l))).
  { apply read_blocks_hdr; [done|]. unfold LOGSIZE in *. lia. }
  pose proof W1 as [E1 E2 E3 E4 E5 E6].
  assert (Hlt : length (hdr_list (view B (l_start l))) = Z.to_nat n).
  { unfold hdr_list. by rewrite length_map, length_seq. }
  assert (Hlk : forall j, (j < Z.to_nat n)%nat ->
    lh_block l1 !!! j = hdr_list (view B (l_start l)) !!! j).
  { intros j Hj. rewrite <- Ht. by rewrite lookup_total_take_lt. }
  destruct (install_and_clear_ok pid l1 [] B1) as (B2 & R2 & W2).
  - done.
  - by apply (room_wrote _ _ _ _ _ W1).
  - cbn. lia.
  - unfold entries_ok. cbn [l_dev l_start l_size lh_n l1 set_block set_n]. rewrite E6.
    split_and!; try done; try lia. intros j Hj. fold l1. change (lh_block _) with (lh_block l1).
    rewrite Hlk by lia. rewrite Forall_forall in Hhome. apply Hhome.
    apply list_elem_of_lookup_2 with j, list_lookup_lookup_total_lt. lia.
  - right. apply Nat.ltb_lt. reflexivity.
  - exists B2, (lh_block l1). split_and!.
    + unfold recover_from_log. by erewrite bind_ret by exact R1.
    + cbn. by rewrite length_read_blocks.
    + pose proof (wrote_app _ _ _ _ _ _ W1 W2) as W. cbn [app] in W.
      replace (recovery_writes _ _) with (home_copies (view B1) (l_start l1) (lh_block l1) 0
        (Z.to_nat (lh_n l1)) ++ [(l_start l1, head_block 0 (lh_block l1) (view B1 (l_start l1)))]);
        [done|].
      unfold recovery_writes, replay. rewrite <- Hv, Hlt.
      cbn [lh_n l_start l1 set_block set_n]. f_equal.
      * apply map_ext_in. intros j Hj. apply in_seq in Hj. fold l1.
        change (lh_block _) with (lh_block l1). rewrite Hlk, E2 by lia. by rewrite <- Hv.
      * rewrite E2 by lia. done.
Qed.

Lemma initlog_ok B0 pid start size D :
  binv B0 pid [] -> (forall m, ~ dirty B0 m) -> disk B0 = D -> log_disk start size D ->
  exists B blk, initlog ROOTDEV (mklst B0 log0) = Ret tt (mklst B (mklog start size 0 false 1 0 blk)) /\
    length blk = Z.to_nat LOGSIZE /\ wrote B0 B pid (recovery_writes start D).
Proof.
  intros HB0 Hn0 Hd0 HD. pose proof HD as [Hbl Hsm (Hp1 & Hp2 & Hp3) [Hs1 Hs2] _ _].
  assert (Hroom : room B0 []) by (split; [intros m Hm; by apply Hn0 in Hm|apply Nat.lt_0_succ]).
  assert (Hz0 : disksize B0 = Z.of_nat (length D)) by (rewrite <- Hd0; apply (bi_disk _ _ _ HB0)).
  destruct (read_block_wrote B0 pid 1 HB0 Hroom) as (i & B1 & B2 & R1 & R2 & R3 & W1); [lia|].
  rewrite (view_clean B0 pid), Hd0 in R2 by done.
  pose proof W1 as [E1 E2 E3 E4 E5 E6].
  assert (Hn2 : forall m, ~ dirty B2 m) by (intros m Hm; apply E3 in Hm as [Hm _]; by apply Hn0 in Hm).
  assert (Hd2 : D = disk B2) by (by rewrite E5, Hd0).
  set (l := mklog start size 0 false 1 0 (replicate (Z.to_nat LOGSIZE) 0)).
  destruct (recover_ok B2 pid l D) as (B3 & blk & R4 & Hb & W2); try done.
  exists B3, blk. split_and!; [|done|exact (wrote_app _ _ _ _ [] _ W1 W2)].
  unfold initlog. rewrite (proj2 (Z.leb_gt _ _)) by (vm_compute; done).
  erewrite bind_ret.
  2:{ apply bio_ret. cbn [l_bio set_bio]. unfold readsb. erewrite bind_ret by exact R1.
      erewrite bind_ret by exact R2. erewrite bind_ret by exact R3. reflexivity. }
  erewrite bind_ret by reflexivity.
  change (Z.to_nat 1) with 1%nat. rewrite Hs1, Hs2.
  unfold upd_log, set_bio. cbn [l_bio l_log].
  rewrite !i32_small by (unfold LOGSIZE, MAXOPBLOCKS in *; lia). exact R4.
Qed.

Lemma boot_ok p pid start size D :
  running p pid -> log_disk start size D ->
  exists B blk, boot (crashed p D) = Ret tt (mklst B (mklog start size 0 false 1 0 blk)) /\
    length blk = Z.to_nat LOGSIZE /\ binv B pid [] /\ (forall m, ~ dirty B m) /\
    dwrites B = recovery_writes start D /\
    disk B = apply_writes (recovery_writes start D) D.
Proof.
  intros Hp HD. destruct (binit_ok p D pid Hp (ld_blocks _ _ _ HD)) as (B0 & R0 & HB0 & Hd0 & Hz0 & Hw0 & Hn0).
  destruct (initlog_ok B0 pid start size D HB0 Hn0 Hd0 HD) as (B & blk & R & Hb & [E1 E2 E3 E4 E5 E6]).
  exists B, blk. split_and!; try done.
  - unfold boot. erewrite bind_ret by (apply bio_ret; exact R0). exact R.
  - intros m Hm. apply E3 in Hm as [Hm _]. by apply Hn0 in Hm.
  - by rewrite E4, Hw0.
  - by rewrite E5, Hd0.
Qed.

(** *** Recovery keeps the logical contents *)

Lemma hdr_list_cleared d :
  length d = BSIZE -> get_le 4 (put_le 4 0 d 0) 0 = 0 /\ hdr_list (put_le 4 0 d 0) = [].
Proof.
  intros Hd. assert (E : get_le 4 (put_le 4 0 d 0) 0 = 0).
  { rewrite get_put_le_same by (unfold BSIZE in *; lia). done. }
  split; [done|]. unfold hdr_list. by rewrite E.
Qed.

Lemma replay_home start size D :
  log_disk start size D ->
  Forall (fun w => home start size (Z.of_nat (length D)) w.1) (replay start D) /\
  Forall (fun w => 0 <= w.1 < Z.of_nat (length D)) (replay start D).
Proof.
  intros HD. assert (H : Forall (fun w => home start size (Z.of_nat (length D)) w.1) (replay start D)).
  { apply Forall_forall. intros w Hw. apply list_elem_of_fmap in Hw as (j & -> & Hj).
    apply elem_of_seq in Hj. pose proof (ld_home _ _ _ HD) as Hh. rewrite Forall_forall in Hh.
    apply Hh, list_elem_of_lookup_2 with j, list_lookup_lookup_total_lt. lia. }
  split; [done|]. eapply Forall_impl; [exact H|]. intros w (Hw & _). done.
Qed.

(** A block that is not home is not written by a partial replay. *)
Lemma replay_keeps start size D k m :
  log_disk start size D -> 0 <= m -> ~ home start size (Z.of_nat (length D)) m ->
  apply_writes (take k (replay start D)) D !!! Z.to_nat m = D !!! Z.to_nat m.
Proof.
  intros HD Hm Hh. destruct (replay_home _ _ _ HD) as [H1 H2].
  rewrite lookup_apply_writes by (done || by apply Forall_take).
  apply after_writes_other. intros Hx. apply list_elem_of_fmap in Hx as (w & -> & Hw).
  rewrite Forall_forall in H1. apply Hh, H1.
  apply list_elem_of_lookup_1 in Hw as (i & Hi). apply lookup_take_Some in Hi as [Hi _].
  by apply list_elem_of_lookup_2 in Hi.
Qed.

(** A sequence of writes of whole blocks keeps the disk's shape. *)
Lemma apply_writes_blocks W D :
  Forall (fun d => length d = BSIZE /\ Forall byte_ok d) D ->
  Forall (fun w => length w.2 = BSIZE /\ Forall byte_ok w.2) W ->
  Forall (fun d => length d = BSIZE /\ Forall byte_ok d) (apply_writes W D).
Proof.
  revert D; induction W as [|w W IH]; intros D HD HW; [done|].
  apply Forall_cons in HW as [Hw HW]. apply IH; [|done]. by apply Forall_insert.
Qed.

Lemma disk_block_ok D n :
  Forall (fun d => length d = BSIZE /\ Forall byte_ok d) D -> 0 <= n < Z.of_nat (length D) ->
  length (D !!! Z.to_nat n) = BSIZE /\ Forall byte_ok (D !!! Z.to_nat n).
Proof.
  intros HD Hn. apply (Forall_lookup_1 _ _ (Z.to_nat n) _ HD).
  apply list_lookup_lookup_total_lt. lia.
Qed.

Lemma length_hdr_list start size D :
  log_disk start size D ->
  Z.of_nat (length (hdr_list (D !!! Z.to_nat start))) < size.
Proof.
  intros HD. pose proof (ld_count _ _ _ HD). unfold hdr_list.
  rewrite length_map, length_seq. lia.
Qed.

Lemma not_home start size dsz m :
  0 < size -> start <= m < start + size \/ m = 1 -> ~ home start size dsz m.
Proof. unfold home. lia. Qed.

Lemma recovery_blocks start size D :
  log_disk start size D ->
  Forall (fun w => length w.2 = BSIZE /\ Forall byte_ok w.2) (recovery_writes start D).
Proof.
  intros HD. pose proof HD as [Hbl Hsm (Hp1 & Hp2 & Hp3) _ _ _]. apply Forall_app. split.
  - apply Forall_forall. intros w Hw. apply list_elem_of_fmap in Hw as (j & -> & Hj).
    apply elem_of_seq in Hj. pose proof (length_hdr_list _ _ _ HD).
    apply disk_block_ok; [done|lia].
  - apply Forall_singleton. cbn [snd]. destruct (disk_block_ok D start Hbl) as [E1 E2]; [lia|].
    rewrite length_put_le. split; [done|]. by apply put_le_byte_ok.
Qed.

(** A crash of recovery before its last write. *)
Lemma partial_replay start size D k :
  log_disk start size D ->
  let D' := apply_writes (take k (replay start D)) D in
  log_disk start size D' /\ replay start D' = replay start D /\
  forall m, 0 <= m -> logical start D' m = logical start D m.
Proof.
  intros HD D'. pose proof HD as [Hbl Hsm (Hp1 & Hp2 & Hp3) Hsb Hcnt Hhome].
  pose proof (length_hdr_list _ _ _ HD) as Hlt.
  assert (Hlen : length D' = length D) by apply length_apply_writes.
  assert (Hs : D' !!! Z.to_nat start = D !!! Z.to_nat start)
    by (apply (replay_keeps start size); [done|lia|apply not_home; lia]).
  assert (Hr : replay start D' = replay start D).
  { unfold replay, home_copies. rewrite Hs. apply map_ext_in. intros j Hj. apply in_seq in Hj.
    f_equal. apply (replay_keeps start size); [done|lia|apply not_home; lia]. }
  split_and!; [|done|].
  - split; rewrite ?Hs, ?Hlen; try done.
    + apply apply_writes_blocks; [done|]. apply Forall_take.
      pose proof (recovery_blocks _ _ _ HD) as Hx. apply Forall_app in Hx. apply Hx.
    + change 1%nat with (Z.to_nat 1). unfold D'.
      rewrite (replay_keeps start size); [done|done|lia|apply not_home; lia].
  - intros m Hm. unfold logical. rewrite Hr. unfold D'.
    rewrite lookup_apply_writes by (done || (apply Forall_take, (replay_home _ size), HD)).
    apply after_writes_again.
Qed.

(** The whole of recovery: the header is empty and the home blocks hold the
    logical contents. *)
Lemma full_recovery start size D :
  log_disk start size D ->
  let D' := apply_writes (recovery_writes start D) D in
  log_disk start size D' /\ get_le 4 (D' !!! Z.to_nat start) 0 = 0 /\
  forall m, 0 <= m -> m <> start ->
    logical start D' m = logical start D m /\ D' !!! Z.to_nat m = logical start D m.
Proof.
  intros HD D'. pose proof HD as [Hbl Hsm (Hp1 & Hp2 & Hp3) Hsb Hcnt Hhome].
  destruct (disk_block_ok D start Hbl) as [Hl0 Hb0]; [lia|].
  destruct (hdr_list_cleared _ Hl0) as [Hc1 Hc2].
  assert (Hlen : length D' = length D) by apply length_apply_writes.
  assert (HW : Forall (fun w => 0 <= w.1 < Z.of_nat (length D)) (recovery_writes start D)).
  { apply Forall_app. split; [by apply (replay_home _ size)|]. apply Forall_singleton. cbn. lia. }
  assert (Hv : forall m, 0 <= m -> D' !!! Z.to_nat m =
    if decide (m = start) then put_le 4 0 (D !!! Z.to_nat start) 0 else logical start D m).
  { intros m Hm. unfold D'. rewrite lookup_apply_writes by done.
    unfold recovery_writes. by rewrite after_writes_app. }
  assert (Hs : D' !!! Z.to_nat start = put_le 4 0 (D !!! Z.to_nat start) 0)
    by (rewrite Hv, decide_True by lia; done).
  assert (Hr : replay start D' = []) by (unfold replay; by rewrite Hs, Hc2).
  split_and!; [|by rewrite Hs|].
  - split; rewrite ?Hs, ?Hlen, ?Hc1, ?Hc2; try done.
    + apply apply_writes_blocks; [done|]. by apply (recovery_blocks _ size).
    + change 1%nat with (Z.to_nat 1). rewrite Hv, decide_False by lia. unfold logical.
      rewrite after_writes_other; [done|]. intros Hx. apply list_elem_of_fmap in Hx as (w & E & Hw).
      destruct (replay_home _ _ _ HD) as [H1 _]. rewrite Forall_forall in H1.
      apply H1 in Hw. rewrite <- E in Hw. by destruct Hw as (_ & ? & _).
    + change (i32 0) with 0. lia.
  - intros m Hm Hne. unfold logical at 1. rewrite Hr. cbn.
    rewrite Hv, decide_False by done. done.
Qed.

(** *** Crashes during recovery *)

(** [restarts p D D']: the machine restarts from [D] any number of times,
    each time losing power after some of recovery's writes, and [D'] is
    what the last crash leaves. *)
Inductive restarts (p : pst) : list (list Z) -> list (list Z) -> Prop :=
| restarts_none D : restarts p D D
| restarts_crash D s k D' :
    boot (crashed p D) = Ret tt s ->
    restarts p (apply_writes (take k (dwrites (l_bio s))) D) D' ->
    restarts p D D'.

Lemma partial_recovery start size D k :
  log_disk start size D ->
  let D' := apply_writes (take k (recovery_writes start D)) D in
  log_disk start size D' /\
  forall m, 0 <= m -> m <> start -> logical start D' m = logical start D m.
Proof.
  intros HD. destruct (decide (k <= length (replay start D))%nat) as [Hk|Hk].
  - unfold recovery_writes. rewrite take_app_le by done.
    destruct (partial_replay start size D k HD) as (H1 & _ & H2). auto.
  - rewrite take_ge.
    + destruct (full_recovery start size D HD) as (H1 & _ & H2). split; [done|].
      intros m Hm Hne. by apply H2.
    + unfold recovery_writes. rewrite length_app. cbn. lia.
Qed.

Lemma restarts_logical p pid start size D D' :
  running p pid -> restarts p D D' -> log_disk start size D ->
  log_disk start size D' /\ length D' = length D /\
  forall m, 0 <= m -> m <> start -> logical start D' m = logical start D m.
Proof.
  intros Hp HR; induction HR as [D|D s k D' Hb HR IH]; intros HD; [done|].
  destruct (boot_ok p pid start size D Hp HD) as (B & blk & Hb' & _ & _ & _ & Hw & _).
  rewrite Hb in Hb'. injection Hb' as ->. cbn in HR, IH. rewrite Hw in HR, IH.
  destruct (partial_recovery start size D k HD) as (H1 & H2).
  destruct (IH H1) as (H3 & H4 & H5). split_and!; [done| |].
  - by rewrite H4, length_apply_writes.
  - intros m Hm Hne. by rewrite H5, H2.
Qed.

(** ** The invariant of the log, for a process that holds the buffers [H] *)

Definition logged (l : log) : list Z := take (Z.to_nat (lh_n l)) (lh_block l).

Record linv (s : lst) (pid : Z) (H : list nat) : Prop := mklinv {
  li_bio : binv (l_bio s) pid H;
  li_disk : log_disk (l_start (l_log s)) (l_size (l_log s)) (disk (l_bio s));
  li_empty : get_le 4 (disk (l_bio s) !!! Z.to_nat (l_start (l_log s))) 0 = 0;
  li_dev : l_dev (l_log s) = 1;
  li_len : length (lh_block (l_log s)) = Z.to_nat LOGSIZE;
  li_n : 0 <= lh_n (l_log s) < l_size (l_log s);
  li_nodup : NoDup (logged (l_log s));
  li_home : Forall (home (l_start (l_log s)) (l_size (l_log s)) (disksize (l_bio s)))
    (logged (l_log s));
  li_dirty : forall m, dirty (l_bio s) m <-> m ∈ logged (l_log s) }.

Lemma after_writes_fun W (V : Z -> list Z) m d :
  Forall (fun w => w.2 = V w.1) W -> m ∈ W.*1 -> after_writes W m d = V m.
Proof.
  unfold after_writes. revert d; induction W as [|w W IH]; intros d HW Hm; cbn in *;
    [by apply not_elem_of_nil in Hm|].
  apply Forall_cons in HW as [Hw HW]. destruct (decide (m ∈ W.*1)) as [Hin|Hin].
  - by apply IH.
  - rewrite elem_of_cons in Hm. destruct Hm as [->|Hm]; [|done].
    rewrite decide_True by done. rewrite <- Hw. by apply after_writes_other.
Qed.

Section Commit.
Context (B : bst) (l : log) (pid : Z).
Hypothesis HL : linv (mklst B l) pid [].
Let n := Z.to_nat (lh_n l).
Let start := l_start l.
Let T := logged l.
Let V := view B.
Let D := disk B.

(** The log blocks, the header, and the disk once the header is written:
    the commit point. *)
Definition commit_log : list (Z * list Z) := log_copies V start (lh_block l) 0 n.
Definition commit_hdr : Z * list Z :=
  (start, head_block (lh_n l) (lh_block l) (D !!! Z.to_nat start)).
Definition commit_disk : list (list Z) := apply_writes (commit_log ++ [commit_hdr]) D.

Lemma commit_place :
  1 < start /\ 0 < l_size l <= 30 /\ start + l_size l <= disksize B /\
  Z.of_nat n < l_size l /\ length T = n /\ disksize B = Z.of_nat (length D) /\
  (disksize B < 2 ^ 31).
Proof using HL.
  destruct HL as [HB HD _ _ Hlen Hn _ _ _]. destruct HD as [_ Hsm (Hp1 & Hp2 & Hp3) _ _ _].
  destruct (bi_disk _ _ _ HB) as [Hsz _]. cbn [l_bio l_log] in *.
  change LOGSIZE with 30 in *. unfold T, logged, n, D, start in *. rewrite length_take. lia.
Qed.

Lemma commit_entry j : (j < n)%nat -> T !!! j = lh_block l !!! j /\ T !!! j ∈ T.
Proof using HL.
  intros Hj. pose proof commit_place as (_ & _ & _ & _ & Hl & _). split.
  - unfold T, logged. by rewrite lookup_total_take_lt.
  - apply list_elem_of_lookup_2 with j, list_lookup_lookup_total_lt. lia.
Qed.

Lemma commit_home b : b ∈ T -> home start (l_size l) (disksize B) b.
Proof using HL.
  intros Hb. pose proof (li_home _ _ _ HL) as Hh. rewrite Forall_forall in Hh. by apply Hh.
Qed.

Lemma commit_entries : entries_ok l (disksize B) 0 n.
Proof using HL.
  pose proof commit_place. unfold entries_ok. split_and!; try (unfold start in *; lia).
  - apply HL.
  - intros j Hj. destruct (commit_entry j) as [<- Hin]; [lia|]. by apply commit_home.
Qed.

Lemma commit_room : room B T.
Proof using HL.
  pose proof commit_place as (_ & Hs & _ & Hn & Hl & _). split.
  - intros m Hm. by apply (li_dirty _ _ _ HL).
  - change NBUF with 30%nat. lia.
Qed.

Lemma commit_clean m :
  start <= m < start + l_size l \/ m = 1 -> view B m = D !!! Z.to_nat m.
Proof using HL.
  intros Hm. apply (view_clean B pid); [apply HL|]. intros Hd.
  apply (li_dirty _ _ _ HL), commit_home in Hd.
  pose proof commit_place. revert Hd. apply not_home; lia.
Qed.

Lemma commit_log_addr k w :
  w ∈ take k commit_log -> start < w.1 < start + l_size l /\ exists b, b ∈ T /\ w.2 = V b.
Proof using HL.
  intros Hw. apply list_elem_of_lookup_1 in Hw as (i & Hi).
  apply lookup_take_Some in Hi as [Hi _]. apply list_elem_of_lookup_2 in Hi.
  apply list_elem_of_fmap in Hi as (j & -> & Hj). apply elem_of_seq in Hj.
  pose proof commit_place. destruct (commit_entry j) as [E Hin]; [lia|]. cbn.
  split; [lia|]. exists (T !!! j). split; [done|]. by rewrite E.
Qed.

Lemma commit_log_range k :
  Forall (fun w => 0 <= w.1 < Z.of_nat (length D)) (take k commit_log).
Proof using HL.
  apply Forall_forall. intros w Hw. apply commit_log_addr in Hw as [Hw _].
  pose proof commit_place. lia.
Qed.

Lemma commit_log_other k m :
  0 <= m -> ~ (start < m < start + l_size l) ->
  apply_writes (take k commit_log) D !!! Z.to_nat m = D !!! Z.to_nat m.
Proof using HL.
  intros Hm Hout. rewrite lookup_apply_writes by (apply commit_log_range || done).
  apply after_writes_other. intros Hx. apply list_elem_of_fmap in Hx as (w & -> & Hw).
  by apply commit_log_addr in Hw as [Hw _].
Qed.

Lemma commit_log_blocks k :
  Forall (fun w => length w.2 = BSIZE /\ Forall byte_ok w.2) (take k commit_log).
Proof using HL.
  apply Forall_forall. intros w Hw. apply commit_log_addr in Hw as (_ & b & Hb & ->).
  apply commit_home in Hb as (Hb & _). apply (view_len B pid []); [apply HL|lia].
Qed.

(** The disk at the commit point, block by block. *)
Lemma commit_disk_at m :
  0 <= m -> ~ (start < m < start + l_size l) ->
  commit_disk !!! Z.to_nat m =
    if decide (m = start) then commit_hdr.2 else D !!! Z.to_nat m.
Proof using HL.
  intros Hm Hout. pose proof commit_place as (? & ? & ? & ? & ? & ? & ?).
  unfold commit_disk. rewrite apply_writes_app. cbn -[apply_writes].
  unfold apply_writes at 1. cbn [fold_left commit_hdr fst snd].
  case_decide as Hs.
  - subst m. rewrite list_lookup_total_insert_eq; [done|].
    rewrite length_apply_writes. lia.
  - rewrite list_lookup_total_insert_ne by lia.
    rewrite <- (take_ge commit_log (length commit_log)) by lia. by apply commit_log_other.
Qed.

Lemma commit_disk_log j :
  (j < n)%nat -> commit_disk !!! Z.to_nat (start + Z.of_nat j + 1) = V (T !!! j).
Proof using HL.
  intros Hj. pose proof commit_place as (? & ? & ? & ? & ? & ? & ?).
  unfold commit_disk. rewrite apply_writes_app. unfold apply_writes at 1.
  cbn [fold_left commit_hdr fst snd]. rewrite list_lookup_total_insert_ne by lia.
  pose proof (commit_log_range (length commit_log)) as Hr. rewrite take_ge in Hr by lia.
  rewrite lookup_apply_writes by (done || lia).
  rewrite (after_writes_fun _ (fun a => V (T !!! Z.to_nat (a - start - 1)))).
  - f_equal. f_equal. lia.
  - apply Forall_forall. intros w Hw. apply list_elem_of_fmap in Hw as (i & -> & Hi).
    apply elem_of_seq in Hi. cbn. destruct (commit_entry i) as [E _]; [lia|].
    rewrite <- E. do 2 f_equal. lia.
  - apply list_elem_of_fmap. exists (start + Z.of_nat j + 1, V (lh_block l !!! j)).
    split; [done|]. apply list_elem_of_fmap. exists j. split; [done|]. apply elem_of_seq. lia.
Qed.

Lemma commit_hdr_list : hdr_list (commit_disk !!! Z.to_nat start) = T.
Proof using HL.
  pose proof commit_place as (? & ? & ? & ? & ? & Hsz & ?).
  rewrite commit_disk_at, decide_True by lia. cbn [snd commit_hdr].
  pose proof (li_n _ _ _ HL) as Hn. cbn in Hn.
  apply hdr_list_head_block.
  - apply disk_block_ok; [apply (li_disk _ _ _ HL)|]. unfold D in *. lia.
  - change LOGSIZE with 30. lia.
  - apply (li_len _ _ _ HL).
  - apply Forall_forall. intros b Hb. apply commit_home in Hb as (Hb & _). lia.
Qed.

Lemma commit_hdr_count : i32 (get_le 4 (commit_disk !!! Z.to_nat start) 0) = lh_n l.
Proof using HL.
  pose proof commit_place as (? & ? & ? & ? & ? & Hsz & ?).
  pose proof (li_n _ _ _ HL) as Hn. cbn in Hn.
  rewrite commit_disk_at, decide_True by lia. cbn [snd commit_hdr]. unfold head_block.
  destruct (disk_block_ok D start) as [Hl _]; [apply (li_disk _ _ _ HL)|unfold D in *; lia|].
  rewrite put_blocks_other, get_put_le_same by (unfold BSIZE in *; lia).
  change (i32 (u32 (lh_n l)) = lh_n l). rewrite i32_u32, i32_small; lia.
Qed.

Lemma commit_hdr_block : length commit_hdr.2 = BSIZE /\ Forall byte_ok commit_hdr.2.
Proof using HL.
  pose proof commit_place as (? & ? & ? & ? & ? & Hsz & ?).
  destruct (disk_block_ok D start) as [Hl Hb]; [apply (li_disk _ _ _ HL)|unfold D in *; lia|].
  cbn [snd commit_hdr]. rewrite head_block_len. split; [done|]. by apply head_block_byte_ok.
Qed.

(** Before the header is written the disk stands for the old contents. *)
Lemma before_commit k :
  let D' := apply_writes (take k commit_log) D in
  log_disk start (l_size l) D' /\
  forall m, 0 <= m -> ~ (start <= m < start + l_size l) -> logical start D' m = D !!! Z.to_nat m.
Proof using HL.
  intros D'. pose proof commit_place as (? & ? & ? & ? & ? & Hsz & ?).
  pose proof (li_disk _ _ _ HL) as [Hbl Hsm Hpl Hsb Hcnt Hh]. cbn [l_bio l_log] in *.
  change (disk B) with D in Hbl, Hsm, Hpl, Hsb, Hcnt, Hh.
  change (l_start l) with start in Hpl, Hsb, Hcnt, Hh.
  assert (Hs : D' !!! Z.to_nat start = D !!! Z.to_nat start) by (apply commit_log_other; lia).
  assert (Hr : hdr_list (D !!! Z.to_nat start) = []).
  { pose proof (li_empty _ _ _ HL) as He. cbn [l_bio l_log] in He.
    unfold hdr_list, D, start. by rewrite He. }
  assert (Hlen : length D' = length D) by apply length_apply_writes.
  split.
  - split; rewrite ?Hs, ?Hlen; try done.
    + apply apply_writes_blocks; [done|apply commit_log_blocks].
    + change 1%nat with (Z.to_nat 1). unfold D'. by rewrite commit_log_other by lia.
  - intros m Hm Hout. unfold logical, replay. rewrite Hs, Hr. cbn.
    apply commit_log_other; lia.
Qed.

(** Once it is written the disk stands for the new contents. *)
Lemma at_commit :
  log_disk start (l_size l) commit_disk /\
  forall m, 0 <= m -> ~ (start <= m < start + l_size l) -> logical start commit_disk m = V m.
Proof using HL.
  pose proof commit_place as (? & ? & ? & ? & HlT & Hsz & ?).
  pose proof (li_disk _ _ _ HL) as [Hbl Hsm Hpl Hsb Hcnt Hh]. cbn [l_bio l_log] in *.
  change (disk B) with D in Hbl, Hsm, Hpl, Hsb, Hcnt, Hh.
  change (l_start l) with start in Hpl, Hsb, Hcnt, Hh.
  assert (Hlen : length commit_disk = length D) by apply length_apply_writes.
  split.
  - split; rewrite ?commit_hdr_count, ?commit_hdr_list, ?Hlen; try done.
    + apply apply_writes_blocks; [done|]. apply Forall_app. split.
      * rewrite <- (take_ge commit_log (length commit_log)) by lia. apply commit_log_blocks.
      * apply Forall_singleton, commit_hdr_block.
    + change 1%nat with (Z.to_nat 1). by rewrite commit_disk_at, decide_False by lia.
    + apply HL.
    + rewrite <- Hsz. apply (li_home _ _ _ HL).
  - intros m Hm Hout. unfold logical.
    destruct (decide (m ∈ T)) as [Hin|Hin].
    + apply after_writes_fun.
      * apply Forall_forall. intros w Hw. unfold replay in Hw. rewrite commit_hdr_list in Hw.
        apply list_elem_of_fmap in Hw as (j & -> & Hj). apply elem_of_seq in Hj.
        cbn [fst snd]. apply commit_disk_log. lia.
      * unfold replay. rewrite commit_hdr_list.
        apply list_elem_of_lookup_1 in Hin as (j & Hj). apply list_elem_of_fmap.
        eexists. split; [|apply list_elem_of_fmap; exists j; split; [reflexivity|]].
        -- cbn. by rewrite (list_lookup_total_correct _ _ _ Hj).
        -- apply elem_of_seq. apply lookup_lt_Some in Hj. lia.
    + rewrite after_writes_other.
      * rewrite commit_disk_at, decide_False by lia. symmetry.
        apply (view_clean B pid); [apply (li_bio _ _ _ HL)|].
        intros Hx. by apply (li_dirty _ _ _ HL) in Hx.
      * unfold replay. rewrite commit_hdr_list. intros Hx.
        apply list_elem_of_fmap in Hx as (w & -> & Hw).
        apply list_elem_of_fmap in Hw as (j & -> & Hj). apply elem_of_seq in Hj.
        destruct (commit_entry j); [lia|]. done.
Qed.

Lemma commit_not_logged B' W m :
  wrote B B' pid W -> start <= m < start + l_size l -> view B' m = disk B' !!! Z.to_nat m.
Proof using HL.
  intros [E1 _ E3 _ _ _] Hm. apply (view_clean B' pid); [done|]. intros Hd.
  apply E3 in Hd as [Hd _]. apply (li_dirty _ _ _ HL), commit_home in Hd.
  pose proof commit_place. revert Hd. apply not_home; lia.
Qed.

Lemma commit_map_blk {A} (f : Z -> nat -> A) :
  map (fun j => f (lh_block l !!! j) j) (seq 0 n) = map (fun j => f (T !!! j) j) (seq 0 n).
Proof using HL.
  apply map_ext_in. intros j Hj. apply in_seq in Hj. destruct (commit_entry j) as [-> _]; [lia|done].
Qed.

Lemma commit_map_T : map (fun j => lh_block l !!! j) (seq 0 n) = T.
Proof using HL.
  pose proof commit_place as (_ & _ & _ & _ & HlT & _).
  rewrite (commit_map_blk (fun b _ => b)), <- HlT.
  apply list_eq. intros i. destruct (decide (i < length T)%nat).
  - rewrite list_lookup_fmap, lookup_seq_lt by done. cbn. by rewrite list_lookup_lookup_total_lt.
  - rewrite !lookup_ge_None_2; [done|lia|]. rewrite length_map, length_seq. lia.
Qed.

Lemma commit_entry_dirty j : (j < n)%nat -> dirty B (lh_block l !!! j).
Proof using HL.
  intros Hj. destruct (commit_entry j Hj) as [<- Hin]. by apply (li_dirty _ _ _ HL).
Qed.

(** write_log and write_head: up to the commit point. *)
Lemma commit_phase1 :
  exists B1 B2, write_log (mklst B l) = Ret tt (mklst B1 l) /\
    write_head (mklst B1 l) = Ret tt (mklst B2 l) /\
    wrote B B2 pid (commit_log ++ [commit_hdr]).
Proof using HL.
  pose proof commit_place as (? & ? & ? & Hns & HlT & Hsz & ?).
  destruct (write_loop pid l T n 0 B) as (B1 & R1 & W1);
    [apply (li_bio _ _ _ HL)|apply commit_room|apply commit_entries|
     intros; apply commit_entry_dirty; lia|].
  pose proof W1 as [E1 E2 E3 E4 E5 E6].
  destruct (write_head_ok B1 pid T l) as (B2 & R2 & W2);
    [done|apply (room_wrote _ _ _ _ _ W1), commit_room|apply (li_dev _ _ _ HL)|
     rewrite E6; unfold start in *; lia|].
  assert (Hh : view B1 (l_start l) = D !!! Z.to_nat start).
  { rewrite (commit_not_logged B1 _ (l_start l) W1) by (unfold start in *; lia). rewrite E5.
    change (log_copies _ _ _ _ _) with commit_log.
    rewrite <- (take_ge commit_log (length commit_log)) by lia. apply commit_log_other; lia. }
  rewrite Hh in W2. exists B1, B2. split_and!; [|done|exact (wrote_app _ _ _ _ _ _ W1 W2)].
  unfold write_log. erewrite bind_ret by reflexivity. exact R1.
Qed.

(** commit: the log blocks, the header, then what recovery would write. *)
Lemma commit_ok :
  0 < lh_n l ->
  exists B', commit (mklst B l) = Ret tt (mklst B' (set_n 0 l)) /\
    wrote B B' pid (commit_log ++ [commit_hdr] ++ recovery_writes start commit_disk).
Proof using HL.
  intros Hn. pose proof commit_place as (? & ? & ? & Hns & HlT & Hsz & ?).
  destruct commit_phase1 as (B1 & B2 & R1 & R2 & W12). pose proof W12 as [G1 G2 G3 G4 G5 G6].
  assert (Hd2 : disk B2 = commit_disk) by exact G5.
  destruct (install_and_clear_ok pid l T B2) as (B3 & R3 & W3).
  - done.
  - apply (room_wrote _ _ _ _ _ W12), commit_room.
  - lia.
  - rewrite G6. apply commit_entries.
  - left. split; [|change (Z.to_nat (lh_n l)) with n; rewrite commit_map_T; apply HL].
    intros j Hj. apply G3. split; [by apply commit_entry_dirty|].
    destruct (commit_entry j Hj) as [Ej Hin].
    apply commit_home in Hin as (_ & _ & Hout). rewrite Ej in Hout.
    rewrite fmap_app, elem_of_app. intros [Hx|Hx].
    + apply list_elem_of_fmap in Hx as (w & Ew & Hw). rewrite Ew in Hout.
      rewrite <- (take_ge commit_log (length commit_log)) in Hw by lia.
      apply commit_log_addr in Hw as [Hw _]. lia.
    + apply list_elem_of_singleton in Hx. cbn in Hx. unfold start in *. lia.
  - exists B3. split.
    + unfold commit. erewrite bind_ret by reflexivity. cbn [l_log].
      rewrite (proj2 (Z.ltb_lt _ _)) by lia.
      erewrite bind_ret by exact R1. erewrite bind_ret by exact R2. exact R3.
    + rewrite (assoc (++)). apply (wrote_app _ _ _ _ _ _ W12).
      replace (recovery_writes start commit_disk) with
        (home_copies (view B2) (l_start l) (lh_block l) 0 (Z.to_nat (lh_n l)) ++
          [(l_start l, head_block 0 (lh_block l) (view B2 (l_start l)))]); [done|].
      unfold recovery_writes, replay. rewrite commit_hdr_list, HlT.
      change (Z.to_nat (lh_n l)) with n. f_equal.
      * unfold home_copies.
        rewrite (commit_map_blk (fun b j => (b, view B2 (l_start l + Z.of_nat j + 1)))).
        apply map_ext_in. intros j Hj. apply in_seq in Hj.
        rewrite (commit_not_logged B2 _ _ W12), Hd2 by (unfold start in *; lia). done.
      * rewrite (commit_not_logged B2 _ _ W12), Hd2 by (unfold start in *; lia). done.
Qed.

End Commit.

(** ** commit *)

(** A block outside the log. *)
Definition outside (l : log) (m : Z) : Prop :=
  0 <= m /\ ~ (l_start l <= m < l_start l + l_size l).

(** A prefix of commit's writes: before, or after, the commit point. *)
Lemma commit_prefix B l pid k :
  linv (mklst B l) pid [] ->
  let W := commit_log B l ++ [commit_hdr B l] ++ recovery_writes (l_start l) (commit_disk B l) in
  let D := apply_writes (take k W) (disk B) in
  log_disk (l_start l) (l_size l) D /\
  forall m, outside l m -> logical (l_start l) D m =
    if decide (k <= Z.to_nat (lh_n l))%nat then disk B !!! Z.to_nat m else view B m.
Proof.
  intros HL W D.
  assert (Hlc : length (commit_log B l) = Z.to_nat (lh_n l))
    by (unfold commit_log, log_copies; by rewrite length_map, length_seq).
  case_decide as Hk.
  - unfold D, W. rewrite take_app_le by lia.
    destruct (before_commit B l pid HL k) as [H1 H2]. split; [done|].
    intros m [Hm Hout]. by apply H2.
  - destruct (at_commit B l pid HL) as [H1 H2].
    assert (E : exists j, D = apply_writes (take j (recovery_writes (l_start l) (commit_disk B l)))
      (commit_disk B l)).
    { exists (k - S (length (commit_log B l)))%nat. unfold D, W, commit_disk at 3.
      rewrite (assoc (++)), <- apply_writes_app. f_equal.
      rewrite take_app, length_app, take_ge; [|rewrite length_app; cbn; lia].
      cbn. repeat f_equal. lia. }
    destruct E as (j & ->).
    destruct (partial_recovery _ _ _ j H1) as [H3 H4]. split; [done|].
    intros m [Hm Hout]. rewrite H4; [by apply H2|done|].
    pose proof (ld_place _ _ _ H1). lia.
Qed.

(** ** log_write *)

Lemma find_log_spec blk b i k :
  (i + k <= length blk)%nat ->
  let j := find_log blk b i k in
  (i <= j <= i + k)%nat /\ (j < i + k -> blk !! j = Some b)%nat /\
  (j = i + k -> forall x, i <= x < i + k -> blk !!! x <> b)%nat.
Proof.
  revert i; induction k as [|k IH]; intros i Hl; cbn [find_log].
  { split_and!; lia. }
  destruct (Z.eqb_spec (blk !!! i) b) as [E|E].
  - split_and!; try lia. intros _. rewrite <- E. apply list_lookup_lookup_total_lt. lia.
  - destruct (IH (S i) ltac:(lia)) as (H1 & H2 & H3). split_and!; try lia.
    + intros. apply H2. lia.
    + intros Hj x Hx. destruct (decide (x = i)) as [->|]; [done|]. apply H3; lia.
Qed.

(** The blocks logged after log_write of [b]: absorbed, or appended. *)
Definition log_add (b : Z) (T : list Z) : list Z := if decide (b ∈ T) then T else T ++ [b].

Lemma log_add_elem b T m : m ∈ log_add b T <-> m ∈ T \/ m = b.
Proof. unfold log_add. case_decide; set_solver. Qed.

Lemma log_add_nodup b T : NoDup T -> NoDup (log_add b T).
Proof.
  unfold log_add. intros. case_decide; [done|]. apply NoDup_app.
  split_and!; [done|set_solver|]. apply NoDup_singleton.
Qed.

(** log_write's update of the header in memory. *)
Definition log_add_log (b : Z) (l : log) : log :=
  let i := find_log (lh_block l) b 0 (Z.to_nat (lh_n l)) in
  let l := set_block (<[i := b]> (lh_block l)) l in
  if Z.of_nat i =? lh_n l then set_n (lh_n l + 1) l else l.

Lemma log_add_log_ok b l :
  0 <= lh_n l < LOGSIZE -> length (lh_block l) = Z.to_nat LOGSIZE ->
  let l' := log_add_log b l in
  logged l' = log_add b (logged l) /\ length (lh_block l') = Z.to_nat LOGSIZE /\
  lh_n l <= lh_n l' <= lh_n l + 1 /\ lh_n l' = Z.of_nat (length (logged l')) /\
  l_start l' = l_start l /\ l_size l' = l_size l /\ l_dev l' = l_dev l /\
  l_outstanding l' = l_outstanding l /\ l_committing l' = l_committing l.
Proof.
  change LOGSIZE with 30. intros Hn Hlen l'. unfold l', log_add_log, log_add.
  destruct (find_log_spec (lh_block l) b 0 (Z.to_nat (lh_n l))) as (H1 & H2 & H3); [lia|].
  set (i := find_log _ _ _ _) in *. cbn [Nat.add] in *.
  destruct (Z.eqb_spec (Z.of_nat i) (lh_n (set_block (<[i:=b]> (lh_block l)) l))) as [E|E];
    cbn in E; cbn [l_start l_size l_dev l_outstanding l_committing set_n set_block lh_n lh_block].
  - assert (Hni : b ∉ logged l).
    { intros Hx. apply list_elem_of_lookup_1 in Hx as (x & Hx). unfold logged in Hx.
      apply lookup_take_Some in Hx as [Hx Hxl].
      apply (H3 ltac:(lia) x); [lia|]. by apply list_lookup_total_correct. }
    rewrite decide_False by done.
    assert (El : logged (set_n (lh_n l + 1) (set_block (<[i:=b]> (lh_block l)) l)) = logged l ++ [b]).
    { unfold logged. cbn. replace (Z.to_nat (lh_n l + 1)) with (S i) by lia.
      replace (Z.to_nat (lh_n l)) with i by lia.
      rewrite (take_S_r _ _ b) by (rewrite list_lookup_insert_eq; [done|lia]).
      by rewrite take_insert_ge by lia. }
    rewrite El. split_and!; try done; try lia; [by rewrite length_insert|].
    rewrite length_app. unfold logged. rewrite length_take. cbn. lia.
  - assert (Hi : lh_block l !! i = Some b) by (apply H2; lia).
    assert (Hin : b ∈ logged l).
    { apply list_elem_of_lookup_2 with i. unfold logged. by rewrite lookup_take_lt by lia. }
    rewrite decide_True by done. rewrite list_insert_id by done.
    split_and!; try done; try lia. unfold logged. cbn. rewrite length_take. lia.
Qed.

Lemma log_write_ok B l pid H i :
  linv (mklst B l) pid H -> i ∈ H -> lh_n l < l_size l - 1 -> 1 <= l_outstanding l ->
  let b := b_blockno (bufs B !!! i) in
  home (l_start l) (l_size l) (disksize B) b ->
  let l' := log_add_log b l in
  exists B', log_write i (mklst B l) = Ret tt (mklst B' l') /\
    linv (mklst B' l') pid H /\ logged l' = log_add b (logged l) /\
    (forall m, view B' m = view B m) /\ disk B' = disk B /\ disksize B' = disksize B /\
    dwrites B' = dwrites B /\
    bufs B' !!! i = set_flags 6 (bufs B !!! i) /\ (forall j, j <> i -> bufs B' !!! j = bufs B !!! j).
Proof.
  intros HL Hin Hroom Hout b Hb l'.
  destruct (held_facts _ _ _ _ (li_bio _ _ _ HL) Hin) as (_ & Hil & _).
  pose proof (li_disk _ _ _ HL) as HD. pose proof (ld_place _ _ _ HD) as (_ & Hsz & _).
  cbn [l_bio l_log] in *. change LOGSIZE with 30 in Hsz.
  destruct (log_add_log_ok b l) as (G1 & G2 & G3 & G4 & G5 & G6 & G7 & _ & _);
    [pose proof (li_n _ _ _ HL); cbn in *; change LOGSIZE with 30; lia|apply (li_len _ _ _ HL)|].
  destruct (set_dirty_ok B pid H i (li_bio _ _ _ HL) Hin) as (S1 & S2 & S3 & S4).
  set (B' := upd_buf i _ B) in *. exists B'. fold l' in G1, G2, G3, G4, G5, G6, G7.
  pose proof (li_n _ _ _ HL) as Hn. cbn in Hn.
  split_and!; try done; [|split; cbn [l_bio l_log]; rewrite ?G5, ?G6|].
  - unfold log_write. erewrite bind_ret by reflexivity. cbn [l_log].
    rewrite (proj2 (Z.leb_gt _ _)), (proj2 (Z.leb_gt _ _)) by (change LOGSIZE with 30; lia).
    cbn [orb]. rewrite (proj2 (Z.ltb_ge _ _)) by lia.
    erewrite bind_ret by (apply (bio_ret (getbuf i)); cbn [l_bio]; by apply getbuf_lt).
    cbv zeta. fold b. by erewrite bind_ret by reflexivity.
  - done.
  - done.
  - apply (li_empty _ _ _ HL).
  - rewrite G7. apply (li_dev _ _ _ HL).
  - done.
  - lia.
  - rewrite G1. apply log_add_nodup, HL.
  - rewrite G1. change (disksize B') with (disksize B). pose proof (li_home _ _ _ HL) as Hh.
    unfold log_add. case_decide; [done|]. apply Forall_app. split; [done|]. by apply Forall_singleton.
  - intros m. rewrite G1, log_add_elem, S3. by rewrite (li_dirty _ _ _ HL).
  - intros j Hj. by apply bufs_upd_ne.
Qed.

(** bread, a store into the buffer, log_write, brelse: the way the file
    system changes a block. *)
Definition update_block (b : Z) (f : list Z -> list Z) : M lst unit :=
  bp ← bio (bread 1 b);
  d ← bio (bdata bp);
  bio (bstore bp (f d)) ;;
  log_write bp ;;
  bio (brelse bp).

Lemma linv_bio B B' l pid H H' :
  linv (mklst B l) pid H -> binv B' pid H' -> (forall m, dirty B' m <-> dirty B m) ->
  disk B' = disk B -> disksize B' = disksize B -> linv (mklst B' l) pid H'.
Proof.
  intros [L1 L2 L3 L4 L5 L6 L7 L8 L9] HB' Hd Hk Hz. cbn [l_bio l_log] in *.
  split; cbn [l_bio l_log]; rewrite ?Hk, ?Hz; try done. intros m. by rewrite Hd.
Qed.

(** A logged buffer is dirty, so that releasing it loses nothing. *)
Lemma linv_brelse B l pid H i :
  linv (mklst B l) pid (i :: H) ->
  (b_flags (bufs B !!! i) = 2 ->
   b_data (bufs B !!! i) = disk B !!! Z.to_nat (b_blockno (bufs B !!! i))) ->
  exists B', bio (brelse i) (mklst B l) = Ret tt (mklst B' l) /\ linv (mklst B' l) pid H /\
    (forall m, 0 <= m -> view B' m = view B m) /\ disk B' = disk B /\
    disksize B' = disksize B /\ dwrites B' = dwrites B /\
    (forall j, same_block (bufs B !!! j) (bufs B' !!! j)).
Proof.
  intros HL Hc. destruct (brelse_ok B pid H i (li_bio _ _ _ HL) Hc) as (B' & R & [E1 E2 E3 E4 E5 E6] & Sb).
  exists B'. split_and!; try done.
  - by apply (bio_ret (brelse i)).
  - by apply (linv_bio B B' l pid (i :: H)).
  - by rewrite E4, app_nil_r.
Qed.

Lemma linv_available B l pid H n :
  linv (mklst B l) pid H -> (length H + length (logged l) < NBUF)%nat -> available B n.
Proof.
  intros HL Hn. apply (available_room B pid H (logged l)); [apply HL| |done].
  intros m Hm. by apply (li_dirty _ _ _ HL).
Qed.

Lemma linv_logged_len B l pid H :
  linv (mklst B l) pid H -> Z.of_nat (length (logged l)) = lh_n l /\ lh_n l < l_size l <= 30.
Proof.
  intros HL. pose proof (li_n _ _ _ HL). pose proof (li_len _ _ _ HL).
  pose proof (ld_place _ _ _ (li_disk _ _ _ HL)) as (_ & Hs & _). cbn in *.
  change LOGSIZE with 30 in *. unfold logged. rewrite length_take. lia.
Qed.

Lemma update_block_ok B l pid b f :
  linv (mklst B l) pid [] -> lh_n l < l_size l - 1 -> 1 <= l_outstanding l ->
  home (l_start l) (l_size l) (disksize B) b ->
  length (f (view B b)) = BSIZE -> Forall byte_ok (f (view B b)) ->
  exists B', update_block b f (mklst B l) = Ret tt (mklst B' (log_add_log b l)) /\
    linv (mklst B' (log_add_log b l)) pid [] /\
    (forall m, 0 <= m -> view B' m = if decide (m = b) then f (view B b) else view B m) /\
    disk B' = disk B /\ dwrites B' = dwrites B.
Proof.
  intros HL Hn Ho Hb Hf1 Hf2. pose proof Hb as (Hbr & _).
  destruct (linv_logged_len _ _ _ _ HL) as [Hll Hls].
  destruct (bread_ok B pid [] b (li_bio _ _ _ HL) Hbr ltac:(set_solver))
    as (i & B1 & R1 & _ & HB1 & Hb1 & Hd1 & Hv1 & Ht1 & (Hk1 & Hz1 & Hw1) & _ & _ & _).
  { apply (linv_available _ l pid []); [done|]. change NBUF with 30%nat. cbn. lia. }
  destruct (held_facts _ _ _ i HB1) as (_ & Hil & _); [set_solver|].
  apply is_block_true in Hb1 as [_ Hb1].
  destruct (bstore_ok B1 pid [i] i (f (view B b)) HB1) as (R2 & HB2 & Hv2 & Ht2); try done; [set_solver|].
  set (B2 := upd_buf i _ B1) in *. rewrite Hb1 in Hv2.
  assert (L2 : linv (mklst B2 l) pid [i]).
  { apply (linv_bio B B2 l pid []); try done. intros m. by rewrite Ht2, Ht1. }
  assert (Hb2 : bufs B2 !!! i = set_data (f (view B b)) (bufs B1 !!! i)) by (by apply bufs_upd_eq).
  destruct (log_write_ok B2 l pid [i] i L2) as (B3 & R3 & L3 & _ & Hv3 & Hk3 & Hz3 & Hw3 & Hi3 & _);
    try done; [set_solver|rewrite Hb2; cbn; rewrite Hb1; change (disksize B2) with (disksize B1); by rewrite Hz1|].
  rewrite Hb2 in *. cbn in R3, L3. rewrite Hb1 in R3, L3.
  destruct (linv_brelse B3 _ pid [] i L3) as (B4 & R4 & L4 & Hv4 & Hk4 & Hz4 & Hw4 & _).
  { rewrite Hi3. cbn. done. }
  exists B4. split_and!; try done.
  - unfold update_block. run_bio R1.
    erewrite bind_ret by (apply (bio_ret (bdata i)); unfold bdata;
      erewrite bind_ret by (by apply getbuf_lt); reflexivity).
    cbn [l_bio set_bio]. rewrite Hd1. run_bio R2. by erewrite bind_ret by exact R3.
  - intros m Hm. rewrite Hv4, Hv3, Hv2 by done. case_decide; [done|]. apply Hv1.
  - by rewrite Hk4, Hk3, <- Hk1.
  - by rewrite Hw4, Hw3, <- Hw1.
Qed.

(** A clean cache over a recovered disk. *)
Lemma recovered_linv B l pid D :
  binv B pid [] -> (forall m, ~ dirty B m) -> log_disk (l_start l) (l_size l) D ->
  disk B = apply_writes (recovery_writes (l_start l) D) D ->
  l_dev l = 1 -> length (lh_block l) = Z.to_nat LOGSIZE -> lh_n l = 0 ->
  linv (mklst B l) pid [].
Proof.
  intros HB Hnd HD Hk Hdev Hlen Hn. destruct (full_recovery _ _ _ HD) as (H1 & H2 & _).
  assert (HT : logged l = []) by (unfold logged; by rewrite Hn).
  split; cbn [l_bio l_log]; rewrite ?Hk, ?HT, ?Hn; try done.
  - pose proof (ld_place _ _ _ HD). lia.
  - apply NoDup_nil_2.
  - intros m. split; [intros Hm; by apply Hnd in Hm|set_solver].
Qed.

Lemma boot_linv p pid start size D :
  running p pid -> log_disk start size D ->
  exists B l, boot (crashed p D) = Ret tt (mklst B l) /\ linv (mklst B l) pid [] /\
    (exists blk, l = mklog start size 0 false 1 0 blk) /\
    disk B = apply_writes (recovery_writes start D) D.
Proof.
  intros Hp HD. destruct (boot_ok p pid start size D Hp HD) as (B & blk & R & H1 & H2 & H3 & _ & H5).
  exists B, (mklog start size 0 false 1 0 blk). split_and!; [done| |by exists blk|done].
  by apply (recovered_linv _ _ _ D).
Qed.

Lemma commit_linv B l pid :
  linv (mklst B l) pid [] ->
  exists B', commit (mklst B l) = Ret tt (mklst B' (set_n 0 l)) /\
    linv (mklst B' (set_n 0 l)) pid [] /\
    forall m, outside l m -> view B' m = view B m /\ disk B' !!! Z.to_nat m = view B m.
Proof.
  intros HL. pose proof (li_n _ _ _ HL) as [Hn _]. cbn [l_log] in Hn.
  destruct (decide (lh_n l = 0)) as [E|E].
  - exists B. assert (El : set_n 0 l = l) by (destruct l; cbn in *; by subst).
    rewrite El. split_and!; [|done|].
    + unfold commit. erewrite bind_ret by reflexivity. cbn [l_log]. by rewrite E.
    + intros m Hm. split; [done|]. symmetry. apply (view_clean B pid); [apply HL|].
      intros Hd. apply (li_dirty _ _ _ HL) in Hd. unfold logged in Hd. cbn [l_log] in Hd.
      rewrite E in Hd. cbn in Hd. by apply not_elem_of_nil in Hd.
  - destruct (commit_ok B l pid HL ltac:(lia)) as (B' & R & [E1 E2 E3 E4 E5 E6]).
    destruct (at_commit B l pid HL) as [HD Hv]. exists B'.
    rewrite (assoc (++)), apply_writes_app in E5. fold (commit_disk B l) in E5.
    assert (Hnd : forall m, ~ dirty B' m).
    { intros m Hm. apply E3 in Hm as [Hm Hw]. apply Hw. rewrite !fmap_app, !elem_of_app.
      do 2 right. unfold recovery_writes, replay. rewrite (commit_hdr_list B l pid HL), fmap_app.
      apply elem_of_app. left. apply (li_dirty _ _ _ HL) in Hm. cbn [l_log] in Hm.
      apply list_elem_of_lookup_1 in Hm as (j & Hj). apply list_elem_of_fmap.
      eexists. split; [|apply list_elem_of_fmap; exists j; split; [reflexivity|]].
      - cbn. by rewrite (list_lookup_total_correct _ _ _ Hj).
      - apply elem_of_seq. apply lookup_lt_Some in Hj. lia. }
    assert (Hk : forall m, outside l m -> disk B' !!! Z.to_nat m = view B m).
    { intros m [Hm Hout]. rewrite E5.
      destruct (full_recovery _ _ _ HD) as (_ & _ & Hf). pose proof (ld_place _ _ _ HD).
      destruct (Hf m Hm) as [_ ->]; [lia|]. by apply Hv. }
    split_and!; [done| |].
    + apply (recovered_linv B' (set_n 0 l) pid (commit_disk B l)); try done;
        apply (li_dev _ _ _ HL) || apply (li_len _ _ _ HL).
    + intros m Hm. rewrite (view_clean B' pid) by done. auto.
Qed.

(** ** A concrete log: eight blocks, the log at block 2 with room for two *)

Definition demo_sb : list Z :=
  put_le 4 3 (put_le 4 2 (replicate BSIZE 0) 16) 12.
Definition demo_D : list (list Z) :=
  replicate BSIZE 0 :: demo_sb :: replicate 6 (replicate BSIZE 0).
Lemma demo_log_disk : log_disk 2 3 demo_D.
Proof.
  pose proof zero_block as [Z1 Z2]. split.
  - unfold demo_D. apply Forall_cons_2; [done|]. apply Forall_cons_2.
    + unfold demo_sb. rewrite !length_put_le. auto with xv6.
    + by apply Forall_replicate.
  - reflexivity.
  - vm_compute. split_and!; reflexivity || discriminate.
  - vm_compute. done.
  - vm_compute. done.
  - apply Forall_nil_2.
Qed.

(** The state in the middle of a transaction that has changed block 6. *)
Lemma demo_linv : exists B l, linv (mklst B l) 1 [] /\ lh_n l = 1 /\ l_outstanding l = 1 /\
  l_committing l = false /\ l_start l = 2 /\ l_size l = 3 /\ disksize B = 8 /\
  view B 6 = replicate BSIZE 9.
Proof.
  destruct (boot_linv demo_p 1 2 3 demo_D demo_running demo_log_disk)
    as (B & l & _ & HL & (blk & ->) & HD).
  set (l := mklog 2 3 1 false 1 0 blk).
  assert (HL' : linv (mklst B l) 1 []) by (destruct HL; by split).
  assert (Hsz : disksize B = 8).
  { destruct (bi_disk _ _ _ (li_bio _ _ _ HL)) as [Hz _]. cbn [l_bio] in Hz.
    rewrite Hz, HD, length_apply_writes. reflexivity. }
  destruct (update_block_ok B l 1 6 (fun _ => replicate BSIZE 9) HL') as (B' & _ & HL2 & Hv & Hk & _).
  - cbn. lia.
  - cbn. lia.
  - rewrite Hsz. unfold home, l. cbn. lia.
  - apply length_replicate.
  - apply Forall_replicate. unfold byte_ok. lia.
  - exists B', (log_add_log 6 l). split_and!; try done.
    + destruct (bi_disk _ _ _ (li_bio _ _ _ HL2)) as [Hz _]. cbn [l_bio] in Hz.
      rewrite Hz, Hk, HD, length_apply_writes. reflexivity.
    + by apply Hv.
Qed.

Lemma wakeup_log_ok B l pid H :
  linv (mklst B l) pid H ->
  exists B', wakeup_log (mklst B l) = Ret tt (mklst B' l) /\ linv (mklst B' l) pid H /\
    (forall m, view B' m = view B m) /\ disk B' = disk B /\ dwrites B' = dwrites B.
Proof.
  intros HL. exists (set_bproc (set_ptable (wakeup1 ChLog (ptable (b_proc B))) (b_proc B)) B).
  split_and!; [reflexivity| |reflexivity..].
  apply (linv_bio B _ l pid H H HL); [|intros; reflexivity|reflexivity..].
  destruct (li_bio _ _ _ HL) as [H1 H2 H3 H4 H5 H6]. split; [exact H1|exact H2|exact H3|exact H4|exact H5|].
  by apply running_wakeup.
Qed.

(** ** Properties *)

(** C1: Crash atomicity of commit.  Commit returns; and if power is lost
    after any number [k] of the block writes it makes, and recovery itself
    is interrupted any number of times after any of its own writes, then the
    next boot completes and every block outside the log holds either what
    the disk held before the transaction (when the crash came before the
    header was written, [k <= lh_n]) or what the transaction wrote (when it
    came after); never a mixture. *)
Theorem commit_crash_atomic (p : pst) (pid pid' : Z) (B : bst) (l : log) :
  linv (mklst B l) pid [] -> running p pid' -> 0 < lh_n l ->
  exists B' W, commit (mklst B l) = Ret tt (mklst B' (set_n 0 l)) /\
    dwrites B' = dwrites B ++ W /\
    forall k D, restarts p (apply_writes (take k W) (disk B)) D ->
    exists r, boot (crashed p D) = Ret tt r /\
      forall m, outside l m -> disk (l_bio r) !!! Z.to_nat m =
        if decide (k <= Z.to_nat (lh_n l))%nat then disk B !!! Z.to_nat m else view B m.
Proof.
  intros HL Hp Hn. destruct (commit_ok B l pid HL Hn) as (B' & R & W).
  eexists B', _. split; [exact R|]. split; [exact (ef_writes _ _ _ _ _ _ _ W)|]. intros k D HR.
  destruct (commit_prefix B l pid k HL) as [HD Hv].
  destruct (restarts_logical p pid' _ _ _ _ Hp HR HD) as (HD' & _ & Hv').
  destruct (boot_ok p pid' _ _ D Hp HD') as (Br & blk & Rb & _ & _ & _ & _ & Hk).
  eexists. split; [exact Rb|]. intros m Hm. cbn [l_bio]. rewrite Hk.
  destruct (full_recovery _ _ _ HD') as (_ & _ & Hf). pose proof (ld_place _ _ _ HD') as Hpl.
  destruct Hm as [Hm Hout]. destruct (Hf m Hm) as [_ ->]; [lia|].
  rewrite Hv' by lia. exact (Hv m (conj Hm Hout)).
Qed.

Lemma commit_crash_atomic_witness :
  exists B l B' W, lh_n l = 1 /\ commit (mklst B l) = Ret tt (mklst B' (set_n 0 l)) /\
    (forall D, restarts demo_p (apply_writes (take 2 W) (disk B)) D ->
     exists r, boot (crashed demo_p D) = Ret tt r /\
       disk (l_bio r) !!! 6%nat = replicate BSIZE 9).
Proof.
  destruct demo_linv as (B & l & HL & Hn & _ & _ & Hs & Hz & _ & Hv).
  destruct (commit_crash_atomic demo_p 1 1 B l HL demo_running) as (B' & W & R & _ & Hc); [lia|].
  exists B, l, B', W. split; [exact Hn|]. split; [exact R|]. intros D HD.
  destruct (Hc 2%nat D HD) as (r & Rb & Hd). exists r. split; [exact Rb|].
  rewrite Hn in Hd. rewrite <- Hv. apply (Hd 6). unfold outside. lia.
Defined.

(** C32: end_op of the last outstanding operation commits: it returns, wakes
    the waiters, leaves an empty log and the log invariant, every block reads
    as before and the disk holds what the transaction wrote. *)
Theorem end_op_commits (B : bst) (l : log) (pid : Z) :
  linv (mklst B l) pid [] -> l_outstanding l = 1 -> l_committing l = false ->
  exists s', end_op (mklst B l) = Ret tt s' /\ linv s' pid [] /\
    lh_n (l_log s') = 0 /\ l_outstanding (l_log s') = 0 /\ l_committing (l_log s') = false /\
    forall m, outside l m ->
      view (l_bio s') m = view B m /\ disk (l_bio s') !!! Z.to_nat m = view B m.
Proof.
  intros HL Ho Hc. set (l1 := set_committing true (set_outstanding 0 l)).
  assert (HL1 : linv (mklst B l1) pid []) by (destruct HL; by split).
  destruct (commit_linv B l1 pid HL1) as (B' & R & HL2 & Hv).
  destruct (wakeup_log_ok B' (set_committing false (set_n 0 l1)) pid []) as (B2 & R2 & HL3 & Hv2 & Hk2 & _).
  { by destruct HL2; split. }
  eexists. split.
  - unfold end_op. erewrite bind_ret by reflexivity. erewrite bind_ret by reflexivity.
    cbn [upd_log l_log l_bio set_outstanding l_committing l_outstanding]. rewrite Hc, Ho.
    change (1 - 1 =? 0) with true. cbv iota.
    erewrite bind_ret by reflexivity.
    erewrite bind_ret by (unfold upd_log; cbn [l_bio l_log]; rewrite ?Ho; exact R).
    erewrite bind_ret by reflexivity. exact R2.
  - split_and!; [exact HL3|reflexivity..|].
    intros m Hm. cbn [l_bio]. rewrite Hv2, Hk2. by apply Hv.
Qed.

Lemma end_op_commits_witness :
  exists B l s', lh_n l = 1 /\ end_op (mklst B l) = Ret tt s' /\ lh_n (l_log s') = 0 /\
    disk (l_bio s') !!! 6%nat = replicate BSIZE 9.
Proof.
  destruct demo_linv as (B & l & HL & Hn & Ho & Hc & Hs & Hz & _ & Hv).
  destruct (end_op_commits B l 1 HL Ho Hc) as (s' & R & _ & Hn' & _ & _ & Hk).
  exists B, l, s'. split; [exact Hn|]. split; [exact R|]. split; [exact Hn'|].
  rewrite <- Hv. apply (Hk 6). unfold outside. lia.
Defined.

(** log_write, on every branch, for a buffer the process holds: it
    panics when the log is full or no operation is open; otherwise it
    absorbs a block that is already logged or appends it, marks the buffer
    dirty, keeps the log invariant, and changes neither the disk nor what
    any block reads as. *)
Theorem log_write_absorbs (B : bst) (l : log) (pid : Z) (H : list nat) (i : nat) :
  let b := b_blockno (bufs B !!! i) in
  linv (mklst B l) pid H -> i ∈ H -> home (l_start l) (l_size l) (disksize B) b ->
  (l_size l - 1 <= lh_n l -> log_write i (mklst B l) = Panic "too big a transaction") /\
  (lh_n l < l_size l - 1 -> l_outstanding l < 1 ->
   log_write i (mklst B l) = Panic "log_write outside of trans") /\
  (lh_n l < l_size l - 1 -> 1 <= l_outstanding l ->
   exists B' l', log_write i (mklst B l) = Ret tt (mklst B' l') /\ linv (mklst B' l') pid H /\
     logged l' = (if decide (b ∈ logged l) then logged l else logged l ++ [b]) /\
     b_flags (bufs B' !!! i) = Z.lor B_VALID B_DIRTY /\
     disk B' = disk B /\ forall m, view B' m = view B m).
Proof.
  intros b HL Hin Hb. destruct (linv_logged_len _ _ _ _ HL) as [_ Hs]. split_and!.
  - intros Hn. unfold log_write. erewrite bind_ret by reflexivity. cbn [l_log].
    by rewrite (proj2 (Z.leb_le (l_size l - 1) _)), orb_true_r by lia.
  - intros Hn Ho. unfold log_write. erewrite bind_ret by reflexivity. cbn [l_log].
    rewrite (proj2 (Z.leb_gt _ _)), (proj2 (Z.leb_gt _ _)) by (change LOGSIZE with 30; lia).
    cbn [orb]. by rewrite (proj2 (Z.ltb_lt _ _)) by lia.
  - intros Hn Ho.
    destruct (log_write_ok B l pid H i HL Hin Hn Ho Hb) as (B' & R & HL' & Hg & Hv & Hk & _ & _ & Hi & _).
    exists B', (log_add_log b l). split_and!; try assumption. by rewrite Hi.
Qed.

(** The state after bread of block 7 in the open transaction. *)
Lemma demo_held : exists B l i, linv (mklst B l) 1 [i] /\ l_outstanding l = 1 /\
  lh_n l = 1 /\ l_start l = 2 /\ l_size l = 3 /\ disksize B = 8 /\ b_blockno (bufs B !!! i) = 7.
Proof.
  destruct demo_linv as (B & l & HL & Hn & Ho & Hc & Hs & Hz & Hd & _).
  destruct (bread_ok B 1 [] 7 (li_bio _ _ _ HL)) as (i & B1 & _ & _ & HB1 & Hb1 & _ & _ & Ht1 & (Hk1 & Hz1 & _) & _);
    [lia|set_solver| |].
  { apply (linv_available B l 1 []); [done|]. destruct (linv_logged_len _ _ _ _ HL).
    change NBUF with 30%nat. cbn. lia. }
  apply is_block_true in Hb1 as [_ Hb1]. exists B1, l, i.
  split; [by apply (linv_bio B B1 l 1 [])|]. repeat (split; [lia|]). done.
Qed.

Lemma log_write_absorbs_witness :
  exists B l i B' l', b_blockno (bufs B !!! i) = 7 /\
    log_write i (mklst B l) = Ret tt (mklst B' l') /\ linv (mklst B' l') 1 [i].
Proof.
  destruct demo_held as (B & l & i & HL & Ho & Hn & Hs & Hz & Hd & Hb).
  destruct (log_write_absorbs B l 1 [i] i HL) as (_ & _ & Hw).
  - set_solver.
  - rewrite Hb, Hs, Hz, Hd. unfold home. lia.
  - destruct Hw as (B' & l' & R & HL' & _); [lia..|].
    exists B, l, i, B', l'. split; [exact Hb|]. split; [exact R|exact HL'].
Defined.

(** What begin_op's test keeps: the logged blocks and MAXOPBLOCKS for each
    open operation fit in LOGSIZE. *)
Definition reserved (l : log) : Prop :=
  0 <= l_outstanding l /\ lh_n l + l_outstanding l * MAXOPBLOCKS <= LOGSIZE.

(** begin_op either opens the operation, and then LOGSIZE still covers
    every open operation, or puts the caller to sleep on the log without
    touching it. *)
Theorem begin_op_reserves (B : bst) (l : log) (pid : Z) :
  binv B pid [] -> reserved l ->
  if negb (l_committing l) &&
     (lh_n l + (l_outstanding l + 1) * MAXOPBLOCKS <=? LOGSIZE)
  then exists l', begin_op (mklst B l) = Ret tt (mklst B l') /\ reserved l' /\
    l_outstanding l' = l_outstanding l + 1 /\ logged l' = logged l
  else exists B' i p, begin_op (mklst B l) = Asleep ChLog (mklst B' l) /\
    cur (b_proc B') = Some i /\ ptable (b_proc B') !! i = Some p /\ p_pid p = pid /\
    p_state p = SLEEPING /\ p_chan p = Some ChLog /\ bufs B' = bufs B /\ disk B' = disk B.
Proof.
  intros HB [Ho Hr]. destruct (bi_proc _ _ _ HB) as (i & q & Hc & Hq & Hp).
  assert (Hsl : exists B' p, sleep_log (mklst B l) = Asleep ChLog (mklst B' l) /\
    cur (b_proc B') = Some i /\ ptable (b_proc B') !! i = Some p /\ p_pid p = pid /\
    p_state p = SLEEPING /\ p_chan p = Some ChLog /\ bufs B' = bufs B /\ disk B' = disk B).
  { unfold sleep_log, bio, zoom, sleep, sleep_mark, mbind, M_bind, gets. cbn [l_bio]. rewrite Hc.
    cbn [modify asleep]. do 2 eexists. split; [reflexivity|]. cbn.
    rewrite list_lookup_alter_eq, Hq. split_and!; reflexivity || done. }
  destruct Hsl as (B' & p & Hsl). unfold begin_op.
  erewrite bind_ret by reflexivity. cbn [l_log].
  destruct (l_committing l); cbn [negb andb]; [by exists B', i, p|].
  destruct (Z.leb_spec (lh_n l + (l_outstanding l + 1) * MAXOPBLOCKS) LOGSIZE) as [E|E].
  - rewrite (proj2 (Z.ltb_ge _ _)) by lia. eexists. split; [reflexivity|].
    split; [|done]. split; cbn [lh_n l_log l_outstanding set_outstanding]; lia.
  - rewrite (proj2 (Z.ltb_lt _ _)) by lia. by exists B', i, p.
Qed.

Lemma begin_op_reserves_witness :
  exists B l l', reserved l /\ begin_op (mklst B l) = Ret tt (mklst B l') /\ reserved l' /\
    l_outstanding l' = l_outstanding l + 1.
Proof.
  destruct demo_linv as (B & l & HL & Hn & Ho & Hc & _).
  assert (Hr : reserved l) by (unfold reserved, LOGSIZE, MAXOPBLOCKS; lia).
  pose proof (begin_op_reserves B l 1 (li_bio _ _ _ HL) Hr) as Hb.
  rewrite Hc, Hn, Ho in Hb. destruct Hb as (l' & R & Hr' & E & _).
  exists B, l, l'. split; [exact Hr|]. split; [exact R|]. split; [exact Hr'|].
  by rewrite E, Ho.
Defined.

(** log_write of one buffer after the other. *)
Definition log_writes (bs : list nat) : M lst unit := foldr (fun i m => log_write i ;; m) (mret tt) bs.

Definition blockno_of (B : bst) (i : nat) : Z := b_blockno (bufs B !!! i).

Lemma log_write_room B l i :
  (i < length (bufs B))%nat -> lh_n l < LOGSIZE -> lh_n l < l_size l - 1 -> 1 <= l_outstanding l ->
  exists B', log_write i (mklst B l) = Ret tt (mklst B' (log_add_log (blockno_of B i) l)) /\
    length (bufs B') = length (bufs B) /\ forall j, blockno_of B' j = blockno_of B j.
Proof.
  intros Hi Hn Hs Ho. eexists (upd_buf i _ B). split; [|split; [apply length_alter|]].
  - unfold log_write. erewrite bind_ret by reflexivity. cbn [l_log].
    rewrite (proj2 (Z.leb_gt _ _)), (proj2 (Z.leb_gt _ _)) by lia. cbn [orb]. rewrite (proj2 (Z.ltb_ge _ _)) by lia.
    erewrite bind_ret by (apply (bio_ret (getbuf i)); cbn [l_bio]; by apply getbuf_lt). cbv zeta. by erewrite bind_ret by reflexivity.
  - intros j. unfold blockno_of. destruct (decide (j = i)) as [->|]; [|by rewrite bufs_upd_ne].
    rewrite bufs_upd_eq by done. done.
Qed.

(** Blocks that are not logged yet each take a slot: the whole list fits, or
    log_write panics. *)
Lemma log_writes_run bs : forall B l,
  Forall (fun i => i < length (bufs B))%nat bs -> NoDup (logged l ++ map (blockno_of B) bs) -> length (lh_block l) = Z.to_nat LOGSIZE ->
  lh_n l = Z.of_nat (length (logged l)) -> 1 <= l_outstanding l ->
  if lh_n l + Z.of_nat (length bs) <=? Z.min LOGSIZE (l_size l - 1)
  then exists B' l', log_writes bs (mklst B l) = Ret tt (mklst B' l') /\ logged l' = logged l ++ map (blockno_of B) bs
  else lh_n l <= Z.min LOGSIZE (l_size l - 1) -> log_writes bs (mklst B l) = Panic "too big a transaction".
Proof.
  induction bs as [|i bs IH]; intros B l Hbs Hnd Hlen Hn Ho; cbn [log_writes foldr map].
  { cbn [length]. destruct (Z.leb_spec (lh_n l + Z.of_nat 0) (Z.min LOGSIZE (l_size l - 1))) as [E|E]; [|intros; lia]. exists B, l. by rewrite app_nil_r. }
  apply Forall_cons in Hbs as [Hi Hbs]. destruct (Z_lt_le_dec (lh_n l) (Z.min LOGSIZE (l_size l - 1))) as [Hr|Hr].
  2: { rewrite (proj2 (Z.leb_gt _ _)) by (cbn [length]; lia). intros _. unfold log_write, mbind, M_bind, gets. cbn [l_log].
    destruct (Z.leb_spec LOGSIZE (lh_n l)); [done|]. by rewrite (proj2 (Z.leb_le (l_size l - 1) _)) by lia. }
  destruct (log_write_room B l i Hi) as (B' & R & Hlb & Hbn); [lia..|]. rewrite (bind_ret _ _ _ _ _ R).
  destruct (log_add_log_ok (blockno_of B i) l) as (G1 & G2 & _ & G4 & _ & G6 & _ & G8 & _); [lia|done|]. cbv zeta in *.
  assert (Hm : map (blockno_of B') bs = map (blockno_of B) bs) by (apply map_ext; done).
  assert (Hg : logged (log_add_log (blockno_of B i) l) = logged l ++ [blockno_of B i]).
  { rewrite G1. unfold log_add. rewrite decide_False; [done|]. apply NoDup_app in Hnd as (_ & Hd & _). intros Hx. apply (Hd _ Hx). cbn [map]. left. }
  specialize (IH B' (log_add_log (blockno_of B i) l)). rewrite Hlb, Hm, Hg, G6, G8, G4, Hg, length_app, <- !app_assoc in IH. cbn [length app] in *.
  specialize (IH Hbs Hnd G2 eq_refl Ho). rewrite Nat2Z.inj_add, <- Hn in IH.
  replace (lh_n l + Z.of_nat (S (length bs))) with (lh_n l + Z.of_nat 1 + Z.of_nat (length bs)) by lia. destruct (_ <=? _); [exact IH|]. intros _. apply IH. lia.
Qed.

(** C40: The reservation is one block short.  begin_op admits three operations
    to an idle log; when each logs MAXOPBLOCKS blocks of its own, in any
    interleaving, log_write panics if the log is LOGSIZE blocks long, header
    included, as mkfs makes it, and takes all of them if it is longer. *)
Theorem reservation_one_short (B : bst) (l : log) (ops : list (list nat)) (bs : list nat) :
  l_committing l = false -> l_outstanding l = 0 -> lh_n l = 0 -> length (lh_block l) = Z.to_nat LOGSIZE ->
  length ops = 3%nat -> Forall (fun op => length op = Z.to_nat MAXOPBLOCKS) ops -> bs ≡ₚ concat ops ->
  Forall (fun i => i < length (bufs B))%nat bs -> NoDup (map (fun i => b_blockno (bufs B !!! i)) bs) ->
  let l3 := set_outstanding 3 l in
  (begin_op ;; begin_op ;; begin_op) (mklst B l) = Ret tt (mklst B l3) /\
  (l_size l = LOGSIZE -> log_writes bs (mklst B l3) = Panic "too big a transaction") /\
  (LOGSIZE < l_size l -> exists B' l', log_writes bs (mklst B l3) = Ret tt (mklst B' l') /\ logged l' = map (fun i => b_blockno (bufs B !!! i)) bs).
Proof.
  intros Hc Ho Hn Hlen Hops Hop Hbs Hlt Hnd l3. split.
  { destruct l as [? ? o c ? n ?]. cbn in Hc, Ho, Hn. by subst o c n. }
  assert (Hl : length bs = 30%nat).
  { rewrite Hbs. destruct ops as [|a [|b [|c [|]]]]; try done. apply Forall_cons in Hop as [Ha Hop]. apply Forall_cons in Hop as [Hb Hop]. apply Forall_cons in Hop as [Hc' _].
    cbn [concat]. rewrite !length_app, Ha, Hb, Hc'. done. }
  assert (Hg : logged l3 = []) by (unfold logged, l3; cbn; by rewrite Hn).
  pose proof (log_writes_run bs B l3 Hlt) as H. rewrite Hg in H. cbn [app length] in H. specialize (H Hnd Hlen Hn ltac:(cbn; lia)).
  change (lh_n l3) with (lh_n l) in H. change (l_size l3) with (l_size l) in H. rewrite Hn, Hl in H. change LOGSIZE with 30 in *. split; intros Hs.
  - rewrite (proj2 (Z.leb_gt _ _)) in H by lia. apply H. lia.
  - rewrite (proj2 (Z.leb_le _ _)) in H by lia. exact H.
Qed.

(** A disk of 80 blocks laid out as mkfs does: the log at block 2, LOGSIZE
    blocks long, header included; the state after the kernel started and
    read the blocks 40 to 69. *)
Definition mkfs_D : list (list Z) :=
  replicate BSIZE 0 :: put_le 4 LOGSIZE (put_le 4 2 (replicate BSIZE 0) 16) 12 ::
  replicate 78 (replicate BSIZE 0).

Definition full_cache : lst :=
  match (boot ;; forM 40 30 (fun b => i ← bio (bread ROOTDEV (Z.of_nat b)); bio (brelse i))) (crashed demo_p mkfs_D) with
  | Ret _ s => s | _ => crashed demo_p mkfs_D end.

Lemma reservation_one_short_witness :
  log_writes (seq 0 30) (mklst (l_bio full_cache) (set_outstanding 3 (l_log full_cache))) = Panic "too big a transaction".
Proof.
  refine (proj1 (proj2 (reservation_one_short (l_bio full_cache) (l_log full_cache) [seq 0 10; seq 10 10; seq 20 10] (seq 0 30) _ _ _ _ _ _ _ _ _)) _);
    [vm_compute; reflexivity..|repeat constructor|reflexivity| |apply (bool_decide_unpack _); vm_compute; exact I|vm_compute; reflexivity].
  apply (bool_decide_unpack _). vm_compute. exact I.
Defined.
