(* ===== verification/Block.v ===== *)
(** * What the file system asks of the block layers: bio.c and log.c

    fs.c touches the disk only through bread, the data of the buffer it got,
    log_write and brelse.  [BlockOps] is that interface, and [BlockLaws]
    what it promises: over an abstract disk [ab_V] (block number to
    contents), a buffer gives the current contents of its block, storing in
    it changes that block alone, log_write registers the block in the open
    transaction [ab_L] as long as it has room, and brelse gives the buffer
    back.  Buffers are released in the reverse order of their bread, as
    fs.c does.  The log of Log.v is an instance; the theorems of Fs.v hold
    of every instance. *)

From stdpp Require Import base list sets strings.
From Stdlib Require Import ZArith Lia.
From S2P Require Import Prelude Proc Bio Log.

Local Open Scope Z_scope.

Class BlockOps (St : Type) : Type := {
  bk_read : Z -> Z -> M St nat;            (* bread(dev, blockno) *)
  bk_get : nat -> M St (list Z);           (* bp->data *)
  bk_put : nat -> list Z -> M St unit;     (* a store into bp->data *)
  bk_log : nat -> M St unit;               (* log_write(bp) *)
  bk_rel : nat -> M St unit;               (* brelse(bp) *)
  bk_procs : St -> pst;
  bk_set_procs : pst -> St -> St }.

(** The fixed parameters of a client: the process, the number of blocks,
    which blocks may be logged, and how many a transaction may hold. *)
Record geom : Type := mkgeom {
  g_pid : Z; g_n : Z; g_home : Z -> Prop; g_cap : nat }.

(** The abstract state: the contents of the blocks, the buffers held (most
    recent first; [true] when nothing stored in it is still to be logged),
    and the blocks of the open transaction. *)
Record babs : Type := mkbabs {
  ab_V : Z -> list Z; ab_H : list (nat * Z * bool); ab_L : list Z }.

Definition upd (V : Z -> list Z) (b : Z) (d : list Z) : Z -> list Z :=
  fun m => if decide (m = b) then d else V m.

Definition block_ok (d : list Z) : Prop := length d = BSIZE /\ Forall byte_ok d.

Class BlockLaws (St : Type) {O : BlockOps St} : Type := {
  bk_ok : geom -> St -> babs -> Prop;
  bk_read_ok G s V H L b :
    bk_ok G s (mkbabs V H L) -> 0 <= b < g_n G -> b ∉ (fun h => h.1.2) <$> H ->
    (length H <= 2)%nat ->
    wp (bk_read ROOTDEV b) s (fun i s' => bk_ok G s' (mkbabs V ((i, b, true) :: H) L));
  bk_get_ok G s V i b c H L :
    bk_ok G s (mkbabs V ((i, b, c) :: H) L) -> bk_get i s = Ret (V b) s;
  bk_put_ok G s V i b c H L d :
    bk_ok G s (mkbabs V ((i, b, c) :: H) L) -> block_ok d ->
    wp (bk_put i d) s (fun _ s' => bk_ok G s' (mkbabs (upd V b d) ((i, b, false) :: H) L));
  bk_log_ok G s V i b c H L :
    bk_ok G s (mkbabs V ((i, b, c) :: H) L) -> g_home G b -> (length L < g_cap G)%nat ->
    wp (bk_log i) s (fun _ s' => bk_ok G s' (mkbabs V ((i, b, true) :: H) (log_add b L)));
  bk_rel_ok G s V i b H L :
    bk_ok G s (mkbabs V ((i, b, true) :: H) L) ->
    wp (bk_rel i) s (fun _ s' => bk_ok G s' (mkbabs V H L));
  bk_block_ok G s V H L b :
    bk_ok G s (mkbabs V H L) -> 0 <= b < g_n G -> block_ok (V b);
  bk_home_in G s a b : bk_ok G s a -> g_home G b -> 0 <= b < g_n G;
  bk_ext G s V V' H L :
    bk_ok G s (mkbabs V H L) -> (forall m, 0 <= m -> V' m = V m) -> bk_ok G s (mkbabs V' H L);
  bk_running G s a : bk_ok G s a -> running (bk_procs s) (g_pid G);
  bk_set_running G s a p :
    bk_ok G s a -> running p (g_pid G) -> bk_ok G (bk_set_procs p s) a;
  bk_get_set p s : bk_procs (bk_set_procs p s) = p }.

(** ** The log is such a block layer *)

#[export] Instance lst_ops : BlockOps lst := {|
  bk_read dev b := bio (bread dev b);
  bk_get i := bio (bdata i);
  bk_put i d := bio (bstore i d);
  bk_log i := log_write i;
  bk_rel i := bio (brelse i);
  bk_procs s := b_proc (l_bio s);
  bk_set_procs p s := set_bio (set_bproc p (l_bio s)) s |}.

Definition held_ok (B : bst) (h : nat * Z * bool) : Prop :=
  b_blockno (bufs B !!! h.1.1) = h.1.2 /\
  (h.2 = true -> b_flags (bufs B !!! h.1.1) = 2 ->
   b_data (bufs B !!! h.1.1) = disk B !!! Z.to_nat h.1.2).

Definition lst_ok (G : geom) (s : lst) (a : babs) : Prop :=
  linv s (g_pid G) ((fun h => h.1.1) <$> ab_H a) /\
  Forall (held_ok (l_bio s)) (ab_H a) /\
  logged (l_log s) = ab_L a /\
  (forall m, 0 <= m -> view (l_bio s) m = ab_V a m) /\
  g_n G = disksize (l_bio s) /\
  (forall b, g_home G b -> home (l_start (l_log s)) (l_size (l_log s)) (disksize (l_bio s)) b) /\
  Z.of_nat (g_cap G) <= l_size (l_log s) - 1 /\ (g_cap G <= 27)%nat /\
  (length (ab_L a) <= g_cap G)%nat /\
  ((0 < g_cap G)%nat -> 1 <= l_outstanding (l_log s)).

Lemma held_ok_ext B B' h :
  held_ok B h -> same_block (bufs B !!! h.1.1) (bufs B' !!! h.1.1) -> disk B' = disk B ->
  held_ok B' h.
Proof. intros [H1 H2] (E1 & E2 & E3 & E4) Hk. unfold held_ok. by rewrite E1, E3, E4, Hk. Qed.

Lemma held_not_in (H : list (nat * Z * bool)) i (B B' : bst) :
  i ∉ (fun h => h.1.1) <$> H -> Forall (held_ok B) H ->
  (forall j, j <> i -> same_block (bufs B !!! j) (bufs B' !!! j)) -> disk B' = disk B ->
  Forall (held_ok B') H.
Proof.
  intros Hi HF Hs Hk. rewrite Forall_forall in *. intros h Hh.
  apply (held_ok_ext B); [by apply HF| |done]. apply Hs. intros E. apply Hi. rewrite <- E.
  by apply (list_elem_of_fmap_2 (fun h => h.1.1)).
Qed.

Lemma held_distinct s pid i (H : list (nat * Z * bool)) b c :
  linv s pid ((fun h => h.1.1) <$> (i, b, c) :: H) -> i ∉ (fun h => h.1.1) <$> H.
Proof.
  intros HL. destruct (bi_held _ _ _ (li_bio _ _ _ HL)) as [Hnd _].
  by apply NoDup_cons in Hnd as [? _].
Qed.

Lemma same_block_refl b : same_block b b.
Proof. done. Qed.

Lemma wp_bio {A} (m : M bst A) s Q :
  wp m (l_bio s) (fun a b => Q a (set_bio b s)) -> wp (bio m) s Q.
Proof. apply wp_zoom. Qed.

Lemma lst_read_ok G s V H L b :
  lst_ok G s (mkbabs V H L) -> 0 <= b < g_n G -> b ∉ (fun h => h.1.2) <$> H ->
  (length H <= 2)%nat ->
  wp (bk_read ROOTDEV b) s (fun i s' => lst_ok G s' (mkbabs V ((i, b, true) :: H) L)).
Proof.
  destruct s as [B l]. intros (HL & HH & HLg & HV & Hn & Hh & Hc1 & Hc2 & Hc3 & Ho) Hb Hni Hlen.
  cbn [ab_V ab_H ab_L l_bio l_log] in *.
  set (hs := (fun h => h.1.1) <$> H) in *.
  destruct (bread_ok B (g_pid G) hs b (li_bio _ _ _ HL))
    as (i & B1 & R & Hi & HB1 & Hbk & Hd & Hv & Ht & (Hk & Hz & Hw) & Hne & Hp & Hcl).
  - lia.
  - intros j Hj E. apply list_elem_of_fmap in Hj as (h & -> & Hj). apply Hni.
    rewrite Forall_forall in HH. destruct (HH h Hj) as [E' _]. rewrite <- E, E'.
    by apply (list_elem_of_fmap_2 (fun h => h.1.2)).
  - apply (linv_available B l (g_pid G) hs); [done|]. unfold hs. rewrite length_fmap, HLg.
    change NBUF with 30%nat. lia.
  - apply is_block_true in Hbk as [_ Hbk]. apply wp_bio. apply (wp_intro _ _ i B1); [exact R|].
    unfold lst_ok. cbn [ab_V ab_H ab_L l_bio l_log set_bio].
    split_and!; try done; try lia.
    + by apply (linv_bio B B1 l (g_pid G) hs).
    + apply Forall_cons_2.
      * split; cbn [fst snd]; [done|]. intros _ Hf. by rewrite Hd, Hk, <- Hcl.
      * apply (held_not_in H i B); try done. intros j Hj. rewrite Hne by done. apply same_block_refl.
    + intros m Hm. by rewrite Hv, HV.
    + intros b' Hb'. rewrite Hz. by apply Hh.
Qed.

Lemma lst_get_ok G s V i b c H L :
  lst_ok G s (mkbabs V ((i, b, c) :: H) L) -> bk_get i s = Ret (V b) s.
Proof.
  destruct s as [B l]. intros (HL & HH & HLg & HV & Hn & _). cbn [ab_V ab_H ab_L l_bio l_log] in *.
  apply Forall_cons in HH as [[Hb _] _]. cbn [fst snd] in Hb.
  destruct (held_facts _ _ _ i (li_bio _ _ _ HL)) as (Hi & Hil & Hbk & _ & Hrg & _); [set_solver|].
  pose proof (bi_uniq _ _ _ (li_bio _ _ _ HL)) as Hu.
  cbn [l_bio] in *. rewrite Hb in *.
  unfold bk_get, lst_ops. rewrite (bio_ret _ _ (V b) B); [done|].
  unfold bdata. erewrite bind_ret by (by apply getbuf_lt). cbn [l_bio].
  by rewrite <- HV, (view_cached B b i) by (done || lia).
Qed.

Lemma lst_put_ok G s V i b c H L d :
  lst_ok G s (mkbabs V ((i, b, c) :: H) L) -> block_ok d ->
  wp (bk_put i d) s (fun _ s' => lst_ok G s' (mkbabs (upd V b d) ((i, b, false) :: H) L)).
Proof.
  destruct s as [B l]. intros (HL & HH & HLg & HV & Hn & Hh & Hc) [Hd1 Hd2].
  cbn [ab_V ab_H ab_L l_bio l_log] in *.
  pose proof (held_distinct _ _ _ _ _ _ HL) as Hi.
  apply Forall_cons in HH as [[Hb Hcl] HH]. cbn [fst snd] in Hb, Hcl.
  destruct (bstore_ok B (g_pid G) ((fun h => h.1.1) <$> (i, b, c) :: H) i d (li_bio _ _ _ HL))
    as (R & HB1 & Hv & Ht); [set_solver|done..|].
  destruct (held_facts _ _ _ i (li_bio _ _ _ HL)) as (_ & Hil & _); [set_solver|].
  apply wp_bio. eapply wp_intro; [exact R|].
  unfold lst_ok. cbn [ab_V ab_H ab_L l_bio l_log set_bio] in *.
  split_and!; try apply Hc; try done.
  - by apply (linv_bio B _ l (g_pid G) ((fun h => h.1.1) <$> (i, b, c) :: H)).
  - apply Forall_cons_2.
    + split; cbn [fst snd]; [|done]. by rewrite bufs_upd_eq.
    + apply (held_not_in H i B); try done. intros j Hj. rewrite bufs_upd_ne by done.
      apply same_block_refl.
  - intros m Hm. rewrite Hv, Hb. unfold upd. case_decide; [done|]. by apply HV.
Qed.

Lemma lst_log_ok G s V i b c H L :
  lst_ok G s (mkbabs V ((i, b, c) :: H) L) -> g_home G b -> (length L < g_cap G)%nat ->
  wp (bk_log i) s (fun _ s' => lst_ok G s' (mkbabs V ((i, b, true) :: H) (log_add b L))).
Proof.
  destruct s as [B l]. intros (HL & HH & HLg & HV & Hn & Hh & Hc1 & Hc2 & Hc3 & Ho) Hhb Hcap.
  cbn [ab_V ab_H ab_L l_bio l_log] in *.
  pose proof (held_distinct _ _ _ _ _ _ HL) as Hi.
  apply Forall_cons in HH as [[Hb Hcl] HH]. cbn [fst snd] in Hb, Hcl.
  destruct (linv_logged_len _ _ _ _ HL) as [Hll Hls]. rewrite HLg in Hll.
  destruct (log_write_ok B l (g_pid G) _ i HL)
    as (B' & R & HL' & Hg & Hv & Hk & Hz & Hw & Hbi & Hbo); try lia.
  { set_solver. }
  { rewrite Hb. by apply Hh. }
  rewrite Hb in *.
  destruct (log_add_log_ok b l) as (_ & _ & _ & _ & G5 & G6 & G7 & G8 & _);
    [pose proof (li_n _ _ _ HL); cbn in *; change LOGSIZE with 30; lia|apply (li_len _ _ _ HL)|].
  eapply wp_intro; [exact R|].
  unfold lst_ok. cbn [ab_V ab_H ab_L l_bio l_log set_bio] in *. rewrite G5, G6, G8, Hz.
  split_and!; try done.
  - apply Forall_cons_2.
    + split; cbn [fst snd]; rewrite Hbi; [done|]. done.
    + apply (held_not_in H i B); try done. intros j Hj. rewrite Hbo by done. apply same_block_refl.
  - by rewrite Hg, HLg.
  - intros m Hm. by rewrite Hv, HV.
  - unfold log_add. case_decide; [lia|]. rewrite length_app. cbn. lia.
Qed.

Lemma lst_rel_ok G s V i b H L :
  lst_ok G s (mkbabs V ((i, b, true) :: H) L) ->
  wp (bk_rel i) s (fun _ s' => lst_ok G s' (mkbabs V H L)).
Proof.
  destruct s as [B l]. intros (HL & HH & HLg & HV & Hn & Hh & Hc).
  cbn [ab_V ab_H ab_L l_bio l_log] in *.
  pose proof (held_distinct _ _ _ _ _ _ HL) as Hi.
  apply Forall_cons in HH as [[Hb Hcl] HH]. cbn [fst snd] in Hb, Hcl.
  destruct (linv_brelse B l (g_pid G) _ i HL)
    as (B' & R & HL' & Hv & Hk & Hz & Hw & Hsb).
  { rewrite Hb. by apply Hcl. }
  eapply wp_intro; [exact R|].
  unfold lst_ok. cbn [ab_V ab_H ab_L l_bio l_log] in *. rewrite Hz.
  split_and!; try apply Hc; try done.
  - rewrite Forall_forall in *. intros h Hh'. apply (held_ok_ext B); [by apply HH|apply Hsb|done].
  - intros m Hm. by rewrite Hv, HV.
Qed.

#[export] Program Instance lst_laws : BlockLaws lst := {| bk_ok := lst_ok |}.
Next Obligation. intros. by apply lst_read_ok. Qed.
Next Obligation. intros. by eapply lst_get_ok. Qed.
Next Obligation. intros. by eapply lst_put_ok. Qed.
Next Obligation. intros. by eapply lst_log_ok. Qed.
Next Obligation. intros. by eapply lst_rel_ok. Qed.
Next Obligation.
  intros G s V H L b (HL & _ & _ & HV & Hn & _) Hb. cbn in *. rewrite <- HV by lia.
  apply (view_len _ _ _ _ (li_bio _ _ _ HL)). lia.
Qed.
Next Obligation.
  intros G s a b (HL & _ & _ & HV & Hn & Hh & _) Hb. apply Hh in Hb as (? & _). lia.
Qed.
Next Obligation.
  intros G s V V' H L (H1 & H2 & H3 & H4 & H5) HV. cbn in *.
  split; [exact H1|]. split; [exact H2|]. split; [exact H3|]. split; [|exact H5].
  intros m Hm. cbn. by rewrite HV, H4.
Qed.
Next Obligation. intros G s a (HL & _). apply (bi_proc _ _ _ (li_bio _ _ _ HL)). Qed.
Next Obligation.
  intros G [B l] a p (HL & H2) Hp. split; [|exact H2]. destruct HL as [HB]. split; try done.
  by destruct HB; split.
Qed.
Next Obligation. done. Qed.
