(* ===== verification/Fs.v ===== *)
(** * The file system: fs.c

    Blocks (balloc, bfree), inodes (ialloc, iupdate, iget, ilock, iput and
    the contents: bmap, itrunc, readi, writei), directories (dirlookup,
    dirlink) and paths (skipelem, namex), over the block layer of Block.v.
    An inode is named by its slot in the cache.  The superblock's fields and
    the on-disk inodes and directory entries are read from the bytes of
    their blocks.  Device files go through a device switch that is a
    parameter here (the console's entry is in File.v); the boot message
    of iinit is not modelled. *)

From stdpp Require Import base list sets strings.
From Stdlib Require Import ZArith Lia.
From S2P Require Import Prelude CString Proc Bio Log Block.

Local Open Scope Z_scope.

Definition ROOTINO : Z := 1.
Definition NDIRECT : Z := 12.
Definition NINDIRECT : Z := 128.          (* BSIZE / sizeof(uint) *)
Definition MAXFILE : Z := NDIRECT + NINDIRECT.
Definition IPB : Z := 8.                  (* BSIZE / sizeof(struct dinode) *)
Definition BPB : Z := 4096.               (* BSIZE * 8 *)
Definition DIRSIZ : nat := 14.
Definition NINODE : nat := 50.
Definition NDEV : Z := 10.
Definition T_DIR : Z := 1.
Definition T_FILE : Z := 2.
Definition T_DEV : Z := 3.

Definition IBLOCK (i : Z) (sb : superblock) : Z := u32 (i / IPB + sb_inodestart sb).
Definition BBLOCK (b : Z) (sb : superblock) : Z := u32 (b / BPB + sb_bmapstart sb).

(** struct dinode, 64 bytes on disk. *)
Record dinode : Type := mkdinode {
  di_type : Z; di_major : Z; di_minor : Z; di_nlink : Z; di_size : Z; di_addrs : list Z }.

Definition get_dinode (d : list Z) (o : nat) : dinode :=
  mkdinode (i16 (get_le 2 d o)) (i16 (get_le 2 d (o + 2))) (i16 (get_le 2 d (o + 4)))
    (i16 (get_le 2 d (o + 6))) (get_le 4 d (o + 8))
    (map (fun k => get_le 4 d (o + 12 + 4 * k)) (seq 0 13)).

Fixpoint put_words (l : list Z) (d : list Z) (o : nat) : list Z :=
  match l with
  | [] => d
  | w :: l' => put_words l' (put_le 4 w d o) (o + 4)
  end.

Definition put_dinode (x : dinode) (d : list Z) (o : nat) : list Z :=
  let d := put_le 2 (di_type x) d o in
  let d := put_le 2 (di_major x) d (o + 2) in
  let d := put_le 2 (di_minor x) d (o + 4) in
  let d := put_le 2 (di_nlink x) d (o + 6) in
  let d := put_le 4 (di_size x) d (o + 8) in
  put_words (di_addrs x) d (o + 12).

(** Offset of inode [inum] in its block. *)
Definition di_off (inum : Z) : nat := Z.to_nat (64 * (inum mod IPB)).

(** struct inode *)
Record inode : Type := mkinode {
  i_dev : Z;
  i_inum : Z;
  i_ref : Z;
  i_lock : sleeplock;
  i_valid : bool;
  i_di : dinode }.              (* type, major, minor, nlink, size, addrs *)

Definition dinode0 : dinode := mkdinode 0 0 0 0 0 (replicate 13 0).
Definition inode0 : inode := mkinode 0 0 0 sl0 false dinode0.
#[export] Instance inode_inhabited : Inhabited inode := populate inode0.

Definition set_iref (x : Z) (i : inode) : inode :=
  mkinode (i_dev i) (i_inum i) x (i_lock i) (i_valid i) (i_di i).
Definition set_ilock (x : sleeplock) (i : inode) : inode :=
  mkinode (i_dev i) (i_inum i) (i_ref i) x (i_valid i) (i_di i).
Definition set_valid (x : bool) (i : inode) : inode :=
  mkinode (i_dev i) (i_inum i) (i_ref i) (i_lock i) x (i_di i).
Definition set_di (x : dinode) (i : inode) : inode :=
  mkinode (i_dev i) (i_inum i) (i_ref i) (i_lock i) (i_valid i) x.

Definition set_type (x : Z) (d : dinode) : dinode :=
  mkdinode x (di_major d) (di_minor d) (di_nlink d) (di_size d) (di_addrs d).
Definition set_nlink (x : Z) (d : dinode) : dinode :=
  mkdinode (di_type d) (di_major d) (di_minor d) x (di_size d) (di_addrs d).
Definition set_size (x : Z) (d : dinode) : dinode :=
  mkdinode (di_type d) (di_major d) (di_minor d) (di_nlink d) x (di_addrs d).
Definition set_addrs (x : list Z) (d : dinode) : dinode :=
  mkdinode (di_type d) (di_major d) (di_minor d) (di_nlink d) (di_size d) x.

(** fs.c's state: the block layers, icache and sb. *)
Record fsys (St : Type) : Type := mkfsys {
  f_blk : St; icache : list inode; f_sb : superblock }.
Arguments mkfsys {St} f_blk icache f_sb.
Arguments f_blk {St} f.
Arguments icache {St} f.
Arguments f_sb {St} f.

Definition set_blk {St} (x : St) (s : fsys St) : fsys St := mkfsys x (icache s) (f_sb s).
Definition set_icache {St} (x : list inode) (s : fsys St) : fsys St :=
  mkfsys (f_blk s) x (f_sb s).
Definition set_sb {St} (x : superblock) (s : fsys St) : fsys St :=
  mkfsys (f_blk s) (icache s) x.
Definition upd_ino {St} (i : nat) (f : inode -> inode) (s : fsys St) : fsys St :=
  set_icache (alter f i (icache s)) s.

(** stat.h: struct stat *)
Record stat : Type := mkstat {
  st_type : Z; st_dev : Z; st_ino : Z; st_nlink : Z; st_size : Z }.

Section FsOps.
Context {St : Type} {BO : BlockOps St}.
Notation FM := (M (fsys St)).

Definition blk {A} (m : M St A) : FM A := zoom f_blk set_blk m.
Definition bread (dev b : Z) : FM nat := blk (bk_read dev b).
Definition bdata (i : nat) : FM (list Z) := blk (bk_get i).
Definition bstore (i : nat) (d : list Z) : FM unit := blk (bk_put i d).
Definition log_write (i : nat) : FM unit := blk (bk_log i).
Definition brelse (i : nat) : FM unit := blk (bk_rel i).
Definition getsb : FM superblock := gets f_sb.
Definition getino (i : nat) : FM inode := deref (fun s => icache s !! i).
Definition modino (i : nat) (f : inode -> inode) : FM unit := modify (upd_ino i f).
Definition modi (i : nat) (f : dinode -> dinode) : FM unit :=
  modino i (fun x => set_di (f (i_di x)) x).

(** ** Blocks *)

Definition readsb (dev : Z) : FM superblock :=
  bp ← bread dev 1;
  d ← bdata bp;
  brelse bp ;;
  mret (sb_of d).

Definition bzero (dev bno : Z) : FM unit :=
  bp ← bread dev bno;
  bstore bp (replicate BSIZE 0) ;;
  log_write bp ;;
  brelse bp.

Definition bit_mask (bi : Z) : Z := Z.shiftl 1 (bi mod 8).
Definition bit_clear (d : list Z) (bi : Z) : bool :=
  Z.land (d !!! Z.to_nat (bi / 8)) (bit_mask bi) =? 0.
Definition set_bit (bi : Z) (d : list Z) : list Z :=
  alter (fun x => Z.lor x (bit_mask bi)) (Z.to_nat (bi / 8)) d.
Definition clear_bit (bi : Z) (d : list Z) : list Z :=
  alter (fun x => Z.land x (Z.lnot (bit_mask bi))) (Z.to_nat (bi / 8)) d.

(** balloc's inner loop: the first clear bit from [bi] on. *)
Fixpoint balloc_scan (d : list Z) (size b bi : Z) (k : nat) : option Z :=
  match k with
  | O => None
  | S k' =>
    if b + bi <? size then
      if bit_clear d bi then Some bi else balloc_scan d size b (bi + 1) k'
    else None
  end.

(** balloc's outer loop, from block [b] on. *)
Fixpoint balloc_loop (dev b : Z) (fuel : nat) : FM Z :=
  match fuel with
  | O => nofuel
  | S f =>
    sb ← getsb;
    if b <? sb_size sb then
      bp ← bread dev (BBLOCK b sb);
      d ← bdata bp;
      match balloc_scan d (sb_size sb) b 0 (Z.to_nat BPB) with
      | Some bi =>
        bstore bp (set_bit bi d) ;;
        log_write bp ;;
        brelse bp ;;
        bzero dev (b + bi) ;;
        mret (b + bi)
      | None => brelse bp ;; balloc_loop dev (b + BPB) f
      end
    else panic "balloc: out of blocks"
  end.

(** The outer loop runs once per bitmap block and once more to stop. *)
Definition balloc (dev : Z) : FM Z :=
  sb ← getsb;
  balloc_loop dev 0 (S (S (Z.to_nat (sb_size sb / BPB)))).

Definition bfree (dev b : Z) : FM unit :=
  sb ← getsb;
  bp ← bread dev (BBLOCK b sb);
  d ← bdata bp;
  let bi := b mod BPB in
  if bit_clear d bi then panic "freeing free block" else
  bstore bp (clear_bit bi d) ;;
  log_write bp ;;
  brelse bp.

(** ** Inodes *)

Definition ino_lock (i : nat) (s : fsys St) : option sleeplock := i_lock <$> icache s !! i.
Definition set_ino_lock (i : nat) (l : sleeplock) : fsys St -> fsys St := upd_ino i (set_ilock l).
Definition f_procs (s : fsys St) : pst := bk_procs (f_blk s).
Definition set_f_procs (p : pst) (s : fsys St) : fsys St := set_blk (bk_set_procs p (f_blk s)) s.

Definition acquire_ino (i : nat) : FM unit :=
  acquiresleep (ino_lock i) (set_ino_lock i) f_procs set_f_procs (ChInodeLock i).
Definition release_ino (i : nat) : FM unit :=
  releasesleep (set_ino_lock i) f_procs set_f_procs (ChInodeLock i).
Definition holding_ino (i : nat) : FM bool :=
  holdingsleep (ino_lock i) f_procs set_f_procs.

Definition iinit (dev : Z) : FM unit :=
  forM 0 NINODE (fun i => initsleeplock (set_ino_lock i)) ;;
  sb ← readsb dev;
  modify (set_sb sb).

(** iget's loop over the cache from slot [i]: the slot that caches the
    inode, or the first empty slot. *)
Fixpoint iget_scan (l : list inode) (dev inum : Z) (i : nat) (empty : option nat)
    : nat + option nat :=
  match l with
  | [] => inr empty
  | ip :: l' =>
    if (0 <? i_ref ip) && (i_dev ip =? dev) && (i_inum ip =? inum) then inl i
    else iget_scan l' dev inum (S i)
      (match empty with
       | None => if i_ref ip =? 0 then Some i else None
       | Some _ => empty
       end)
  end.

Definition iget (dev inum : Z) : FM nat :=
  l ← gets icache;
  match iget_scan l dev inum 0 None with
  | inl i => modino i (fun ip => set_iref (i_ref ip + 1) ip) ;; mret i
  | inr None => panic "iget: no inodes"
  | inr (Some i) =>
    modino i (fun ip => mkinode dev inum 1 (i_lock ip) false (i_di ip)) ;; mret i
  end.

Fixpoint ialloc_loop (dev type inum : Z) (fuel : nat) : FM nat :=
  match fuel with
  | O => nofuel
  | S f =>
    sb ← getsb;
    if inum <? sb_ninodes sb then
      bp ← bread dev (IBLOCK inum sb);
      d ← bdata bp;
      let o := di_off inum in
      if di_type (get_dinode d o) =? 0 then
        bstore bp (put_le 2 type (write_at d o (replicate 64 0)) o) ;;
        log_write bp ;;
        brelse bp ;;
        iget dev inum
      else brelse bp ;; ialloc_loop dev type (inum + 1) f
    else panic "ialloc: no inodes"
  end.

Definition ialloc (dev type : Z) : FM nat :=
  sb ← getsb;
  ialloc_loop dev type 1 (S (Z.to_nat (sb_ninodes sb))).

Definition iupdate (i : nat) : FM unit :=
  sb ← getsb;
  ip ← getino i;
  bp ← bread (i_dev ip) (IBLOCK (i_inum ip) sb);
  d ← bdata bp;
  bstore bp (put_dinode (i_di ip) d (di_off (i_inum ip))) ;;
  log_write bp ;;
  brelse bp.

Definition idup (i : nat) : FM nat :=
  modino i (fun ip => set_iref (i_ref ip + 1) ip) ;;
  mret i.

Definition ilock (oip : option nat) : FM unit :=
  match oip with
  | None => panic "ilock"
  | Some i =>
    ip ← getino i;
    if i_ref ip <? 1 then panic "ilock" else
    acquire_ino i ;;
    ip ← getino i;
    if i_valid ip then mret tt else
    sb ← getsb;
    bp ← bread (i_dev ip) (IBLOCK (i_inum ip) sb);
    d ← bdata bp;
    modino i (set_di (get_dinode d (di_off (i_inum ip)))) ;;
    brelse bp ;;
    modino i (set_valid true) ;;
    ip ← getino i;
    if di_type (i_di ip) =? 0 then panic "ilock: no type" else mret tt
  end.

Definition iunlock (oip : option nat) : FM unit :=
  match oip with
  | None => panic "iunlock"
  | Some i =>
    h ← holding_ino i;
    ip ← getino i;
    if negb h || (i_ref ip <? 1) then panic "iunlock" else release_ino i
  end.

(** ** Inode contents *)

(** The end of bmap: entry [bn] of the indirect block [ind]. *)
Definition bmap_entry (dev ind bn : Z) : FM Z :=
  bp ← bread dev ind;
  a ← bdata bp;
  let addr := get_le 4 a (Z.to_nat (4 * bn)) in
  addr ← (if addr =? 0 then
      addr ← balloc dev;
      a ← bdata bp;
      bstore bp (put_le 4 addr a (Z.to_nat (4 * bn))) ;;
      log_write bp ;;
      mret addr
    else mret addr);
  brelse bp ;;
  mret addr.

Definition bmap (i : nat) (bn : Z) : FM Z :=
  ip ← getino i;
  if bn <? NDIRECT then
    let addr := di_addrs (i_di ip) !!! Z.to_nat bn in
    if addr =? 0 then
      addr ← balloc (i_dev ip);
      modi i (fun x => set_addrs (<[Z.to_nat bn := addr]> (di_addrs x)) x) ;;
      mret addr
    else mret addr
  else
  let bn := bn - NDIRECT in
  if bn <? NINDIRECT then
    addr ← (let addr := di_addrs (i_di ip) !!! Z.to_nat NDIRECT in
      if addr =? 0 then
        addr ← balloc (i_dev ip);
        modi i (fun x => set_addrs (<[Z.to_nat NDIRECT := addr]> (di_addrs x)) x) ;;
        mret addr
      else mret addr);
    bmap_entry (i_dev ip) addr bn
  else panic "bmap: out of range".

Definition itrunc (i : nat) : FM unit :=
  forM 0 (Z.to_nat NDIRECT) (fun k =>
    ip ← getino i;
    let a := di_addrs (i_di ip) !!! k in
    if a =? 0 then mret tt else
    bfree (i_dev ip) a ;;
    modi i (fun x => set_addrs (<[k := 0]> (di_addrs x)) x)) ;;
  ip ← getino i;
  let ind := di_addrs (i_di ip) !!! Z.to_nat NDIRECT in
  (if ind =? 0 then mret tt else
    bp ← bread (i_dev ip) ind;
    forM 0 (Z.to_nat NINDIRECT) (fun j =>
      a ← bdata bp;
      let b := get_le 4 a (4 * j) in
      if b =? 0 then mret tt else bfree (i_dev ip) b) ;;
    brelse bp ;;
    bfree (i_dev ip) ind ;;
    modi i (fun x => set_addrs (<[Z.to_nat NDIRECT := 0]> (di_addrs x)) x)) ;;
  modi i (set_size 0) ;;
  iupdate i.

Definition iput (i : nat) : FM unit :=
  acquire_ino i ;;
  ip ← getino i;
  (if i_valid ip && (di_nlink (i_di ip) =? 0) then
     if i_ref ip =? 1 then
       itrunc i ;;
       modi i (set_type 0) ;;
       iupdate i ;;
       modino i (set_valid false)
     else mret tt
   else mret tt) ;;
  release_ino i ;;
  modino i (fun ip => set_iref (i_ref ip - 1) ip).

Definition iunlockput (i : nat) : FM unit :=
  iunlock (Some i) ;;
  iput i.

Definition stati (i : nat) : FM stat :=
  ip ← getino i;
  mret (mkstat (di_type (i_di ip)) (i32 (i_dev ip)) (i_inum ip) (di_nlink (i_di ip))
    (di_size (i_di ip))).

(** The device switch: devsw[major].read and devsw[major].write. *)
Context (dev_read : Z -> option (nat -> Z -> FM (Z * list Z))).
Context (dev_write : Z -> option (nat -> list Z -> Z -> FM Z)).

(** The copy loop of readi; [acc] is what has been stored at dst. *)
Fixpoint readi_loop (i : nat) (n tot off : Z) (acc : list Z) (fuel : nat) : FM (list Z) :=
  match fuel with
  | O => nofuel
  | S f =>
    if tot <? n then
      ip ← getino i;
      a ← bmap i (off / Z.of_nat BSIZE);
      bp ← bread (i_dev ip) a;
      let m := Z.min (n - tot) (Z.of_nat BSIZE - off mod Z.of_nat BSIZE) in
      d ← bdata bp;
      brelse bp ;;
      readi_loop i n (u32 (tot + m)) (u32 (off + m))
        (acc ++ read_at d (Z.to_nat (off mod Z.of_nat BSIZE)) (Z.to_nat m)) f
    else mret acc
  end.

(** readi: the result and the bytes stored at dst. *)
Definition readi (i : nat) (off n : Z) : FM (Z * list Z) :=
  ip ← getino i;
  let d := i_di ip in
  if di_type d =? T_DEV then
    if (di_major d <? 0) || (NDEV <=? di_major d) then mret (-1, []) else
    match dev_read (di_major d) with
    | None => mret (-1, [])
    | Some f => f i n
    end
  else
  if (di_size d <? off) || (u32 (off + n) <? off) then mret (-1, []) else
  let n := if di_size d <? u32 (off + n) then u32 (di_size d - off) else n in
  out ← readi_loop i n 0 off [] (S (Z.to_nat n));
  mret (i32 n, out).

(** The copy loop of writei; the new offset. *)
Fixpoint writei_loop (i : nat) (src : list Z) (n tot off : Z) (fuel : nat) : FM Z :=
  match fuel with
  | O => nofuel
  | S f =>
    if tot <? n then
      ip ← getino i;
      a ← bmap i (off / Z.of_nat BSIZE);
      bp ← bread (i_dev ip) a;
      let m := Z.min (n - tot) (Z.of_nat BSIZE - off mod Z.of_nat BSIZE) in
      d ← bdata bp;
      bstore bp (write_at d (Z.to_nat (off mod Z.of_nat BSIZE))
        (read_at src (Z.to_nat tot) (Z.to_nat m))) ;;
      log_write bp ;;
      brelse bp ;;
      writei_loop i src n (u32 (tot + m)) (u32 (off + m)) f
    else mret off
  end.

Definition writei (i : nat) (src : list Z) (off n : Z) : FM Z :=
  ip ← getino i;
  let d := i_di ip in
  if di_type d =? T_DEV then
    if (di_major d <? 0) || (NDEV <=? di_major d) then mret (-1) else
    match dev_write (di_major d) with
    | None => mret (-1)
    | Some f => f i src n
    end
  else
  if (di_size d <? off) || (u32 (off + n) <? off) then mret (-1) else
  if MAXFILE * Z.of_nat BSIZE <? u32 (off + n) then mret (-1) else
  off ← writei_loop i src n 0 off (S (Z.to_nat n));
  ip ← getino i;
  (if (0 <? n) && (di_size (i_di ip) <? off) then
     modi i (set_size off) ;;
     iupdate i
   else mret tt) ;;
  mret (i32 n).

(** ** Directories

    struct dirent: 16 bytes, the inode number and DIRSIZ bytes of name. *)

Definition de_size : Z := 16.
Definition de_inum (de : list Z) : Z := get_le 2 de 0.
Definition de_name (de : list Z) : Z -> Z := lit (drop 2 de).

Definition namecmp (s t : Z -> Z) : Z := strncmp s t DIRSIZ.

(** dirlookup's loop from [off]: the inode and the offset of its entry. *)
Fixpoint dirlookup_loop (dp : nat) (name : Z -> Z) (off : Z) (fuel : nat)
    : FM (option (nat * Z)) :=
  match fuel with
  | O => nofuel
  | S f =>
    ip ← getino dp;
    if off <? di_size (i_di ip) then
      r ← readi dp off de_size;
      if negb (r.1 =? de_size) then panic "dirlookup read" else
      if de_inum r.2 =? 0 then dirlookup_loop dp name (u32 (off + de_size)) f else
      if namecmp name (de_name r.2) =? 0 then
        i ← iget (i_dev ip) (de_inum r.2);
        mret (Some (i, off))
      else dirlookup_loop dp name (u32 (off + de_size)) f
    else mret None
  end.

Definition dir_fuel (size : Z) : nat := S (S (Z.to_nat (size / de_size))).

Definition dirlookup (dp : nat) (name : Z -> Z) : FM (option (nat * Z)) :=
  ip ← getino dp;
  if negb (di_type (i_di ip) =? T_DIR) then panic "dirlookup not DIR" else
  dirlookup_loop dp name 0 (dir_fuel (di_size (i_di ip))).

(** dirlink's search for an empty entry: its offset. *)
Fixpoint dirlink_loop (dp : nat) (off : Z) (fuel : nat) : FM Z :=
  match fuel with
  | O => nofuel
  | S f =>
    ip ← getino dp;
    if off <? di_size (i_di ip) then
      r ← readi dp off de_size;
      if negb (r.1 =? de_size) then panic "dirlink read" else
      if de_inum r.2 =? 0 then mret off else dirlink_loop dp (off + de_size) f
    else mret off
  end.

(** The entry dirlink writes. *)
Definition mkdirent (name : Z -> Z) (inum : Z) : list Z :=
  put_le 2 inum (0 :: 0 :: strncpy_out name DIRSIZ) 0.

Definition dirlink (dp : nat) (name : Z -> Z) (inum : Z) : FM Z :=
  r ← dirlookup dp name;
  match r with
  | Some (ip, _) => iput ip ;; mret (-1)
  | None =>
    ip ← getino dp;
    off ← dirlink_loop dp 0 (dir_fuel (di_size (i_di ip)));
    w ← writei dp (mkdirent name inum) off de_size;
    if negb (w =? de_size) then panic "dirlink" else mret 0
  end.

(** ** Paths: a path is its bytes before the terminating nul *)

Definition slash : Z := 47.

Fixpoint skip_slashes (p : list Z) : list Z :=
  match p with
  | c :: p' => if c =? slash then skip_slashes p' else p
  | [] => []
  end.

(** The bytes up to the next slash or the end, and the rest. *)
Fixpoint span_elem (p : list Z) : list Z * list Z :=
  match p with
  | c :: p' =>
    if c =? slash then ([], p)
    else let '(e, r) := span_elem p' in (c :: e, r)
  | [] => ([], [])
  end.

(** [name] is the array of DIRSIZ bytes that receives the element. *)
Definition skipelem (path name : list Z) : option (list Z * list Z) :=
  match skip_slashes path with
  | [] => None
  | p =>
    let '(e, r) := span_elem p in
    let name :=
      if (DIRSIZ <=? length e)%nat then write_at name 0 (take DIRSIZ e)
      else write_at name 0 (e ++ [0]) in
    Some (skip_slashes r, name)
  end.

(** The loop of namex.  The result is the inode, or none, and the name. *)
Fixpoint namex_loop (ip : nat) (path : list Z) (nameiparent : bool) (name : list Z)
    (fuel : nat) : FM (option nat * list Z) :=
  match fuel with
  | O => nofuel
  | S f =>
    match skipelem path name with
    | None =>
      if nameiparent then iput ip ;; mret (None, name) else mret (Some ip, name)
    | Some (path, name) =>
      ilock (Some ip) ;;
      x ← getino ip;
      if negb (di_type (i_di x) =? T_DIR) then iunlockput ip ;; mret (None, name) else
      if nameiparent && bool_decide (path = []) then
        iunlock (Some ip) ;; mret (Some ip, name)
      else
      r ← dirlookup ip (lit name);
      match r with
      | None => iunlockput ip ;; mret (None, name)
      | Some (next, _) =>
        iunlockput ip ;;
        namex_loop next path nameiparent name f
      end
    end
  end.

Definition my_cwd : FM nat :=
  i ← zoom f_procs set_f_procs myproc;
  p ← zoom f_procs set_f_procs (getproc i);
  match p_cwd p with Some c => mret c | None => fault end.

Definition namex (path : list Z) (nameiparent : bool) (name : list Z)
    : FM (option nat * list Z) :=
  ip ← (if bool_decide (List.hd_error path = Some slash) then iget ROOTDEV ROOTINO
        else c ← my_cwd; idup c);
  namex_loop ip path nameiparent name (S (length path)).

Definition namei (path : list Z) : FM (option nat) :=
  r ← namex path false (replicate DIRSIZ 0);
  mret r.1.

Definition nameiparent (path name : list Z) : FM (option nat * list Z) :=
  namex path true name.

End FsOps.
