(* ===== verification/FsBlocks.v ===== *)
(** * The block allocator and the inodes: theorems about fs.c, part 1

    [layout] is the disk layout that mkfs chooses (fs.h): inode blocks, the
    bitmap, then data blocks up to the end.  [used] is a block's bit in the
    bitmap.  balloc returns the first free block, marks and zeroes it and
    changes nothing else; bfree undoes it; iupdate and ilock are inverse
    through the disk; ialloc returns the first free inode. *)

From stdpp Require Import base list sets strings.
From Stdlib Require Import ZArith Lia.
From S2P Require Import Prelude CString Proc Bio Log Block Fs.

Local Open Scope Z_scope.

(** ** Bits *)

Lemma land_bit x k : 0 <= k -> (Z.land x (Z.shiftl 1 k) =? 0) = negb (Z.testbit x k).
Proof.
  intros Hk. destruct (Z.testbit x k) eqn:E; simpl.
  - apply Z.eqb_neq. intros Hz.
    assert (Ht : Z.testbit (Z.land x (Z.shiftl 1 k)) k = true).
    { rewrite Z.land_spec, E, Z.shiftl_spec, Z.sub_diag by lia. done. }
    rewrite Hz, Z.bits_0 in Ht. done.
  - apply Z.eqb_eq. apply Z.bits_inj'. intros j Hj.
    rewrite Z.land_spec, Z.bits_0, Z.shiftl_spec by lia.
    destruct (decide (j = k)) as [->|]; [by rewrite E|].
    destruct (Z.ltb_spec j k).
    + rewrite (Z.testbit_neg_r 1) by lia. apply andb_false_r.
    + rewrite (Z.bits_above_log2 1) by (simpl; lia). apply andb_false_r.
Qed.

Lemma bit_clear_testbit d bi :
  bit_clear d bi = negb (Z.testbit (d !!! Z.to_nat (bi / 8)) (bi mod 8)).
Proof. unfold bit_clear, bit_mask. apply land_bit. apply Z.mod_pos_bound. lia. Qed.

Lemma testbit_mask bi j : 0 <= j -> Z.testbit (bit_mask bi) j = (j =? bi mod 8).
Proof.
  intros Hj. unfold bit_mask. pose proof (Z.mod_pos_bound bi 8 ltac:(lia)).
  rewrite Z.shiftl_spec by lia. destruct (Z.eqb_spec j (bi mod 8)) as [->|].
  - by rewrite Z.sub_diag.
  - destruct (Z.ltb_spec j (bi mod 8)).
    + apply Z.testbit_neg_r. lia.
    + apply Z.bits_above_log2; simpl; lia.
Qed.

Section Bits.
Context (d : list Z) (bi bj : Z).
Hypothesis Hd : length d = BSIZE.
Hypothesis Hi : 0 <= bi < BPB.
Hypothesis Hj : 0 <= bj < BPB.

Lemma bit_index : (Z.to_nat (bi / 8) < length d)%nat.
Proof using Hd Hi. clear Hj bj. unfold BPB, BSIZE in *. zdiv. Qed.

(** Two bits in the same byte are the same bit when they have the same mask. *)
Lemma bit_same : Z.to_nat (bi / 8) = Z.to_nat (bj / 8) -> bj mod 8 = bi mod 8 -> bj = bi.
Proof using Hi Hj. clear Hd. unfold BPB in *. intros. zdiv. Qed.

Lemma bit_clear_set : bit_clear (set_bit bi d) bj = if decide (bj = bi) then false else bit_clear d bj.
Proof using Hd Hi Hj.
  rewrite !bit_clear_testbit. unfold set_bit. rewrite lookup_total_alter.
  pose proof bit_index as Hl. pose proof (Z.mod_pos_bound bj 8 ltac:(lia)).
  destruct (decide (Z.to_nat (bi / 8) = Z.to_nat (bj / 8) /\ (Z.to_nat (bi / 8) < length d)%nat)) as [[E _]|Hc].
  - rewrite Z.lor_spec, testbit_mask by lia. destruct (decide (bj = bi)) as [->|Hne].
    + by rewrite Z.eqb_refl, orb_true_r.
    + destruct (Z.eqb_spec (bj mod 8) (bi mod 8)); [|by rewrite orb_false_r].
      destruct Hne. by apply bit_same.
  - destruct (decide (bj = bi)) as [->|]; [|done]. destruct Hc. done.
Qed.

Lemma bit_clear_clear : bit_clear (clear_bit bi d) bj = if decide (bj = bi) then true else bit_clear d bj.
Proof using Hd Hi Hj.
  rewrite !bit_clear_testbit. unfold clear_bit. rewrite lookup_total_alter.
  pose proof bit_index as Hl. pose proof (Z.mod_pos_bound bj 8 ltac:(lia)).
  destruct (decide (Z.to_nat (bi / 8) = Z.to_nat (bj / 8) /\ (Z.to_nat (bi / 8) < length d)%nat)) as [[E _]|Hc].
  - rewrite Z.land_spec, Z.lnot_spec, testbit_mask by lia. destruct (decide (bj = bi)) as [->|Hne].
    + by rewrite Z.eqb_refl, andb_false_r.
    + destruct (Z.eqb_spec (bj mod 8) (bi mod 8)); [|by rewrite andb_true_r].
      destruct Hne. by apply bit_same.
  - destruct (decide (bj = bi)) as [->|]; [|done]. destruct Hc. done.
Qed.
End Bits.

(** A byte stays a byte. *)
Lemma byte_testbit x : byte_ok x <-> 0 <= x /\ forall j, 8 <= j -> Z.testbit x j = false.
Proof.
  unfold byte_ok. split.
  - intros Hx. split; [lia|]. intros j Hj. destruct (decide (x = 0)) as [->|]; [apply Z.bits_0|].
    apply Z.bits_above_log2; [lia|]. apply (Z.lt_le_trans _ 8); [|done].
    apply Z.log2_lt_pow2; simpl; lia.
  - intros [Hx Hb]. split; [done|]. destruct (Z.ltb_spec x 256) as [|Hge]; [done|].
    assert (Hl : 8 <= Z.log2 x) by (apply Z.log2_le_pow2; simpl; lia).
    pose proof (Z.bit_log2 x ltac:(lia)) as Ht. rewrite Hb in Ht by done. done.
Qed.

Lemma mask_byte bi : byte_ok (bit_mask bi).
Proof.
  apply byte_testbit. split; [apply Z.shiftl_nonneg; lia|].
  intros j Hj. rewrite testbit_mask by lia. pose proof (Z.mod_pos_bound bi 8 ltac:(lia)).
  apply Z.eqb_neq. lia.
Qed.

Lemma set_bit_ok bi d : block_ok d -> block_ok (set_bit bi d).
Proof.
  intros [H1 H2]. split; [unfold set_bit; by rewrite length_alter|].
  unfold set_bit. apply Forall_alter; [done|]. intros x _ Hx.
  apply byte_testbit. apply byte_testbit in Hx as [Hx0 Hx].
  pose proof (proj1 (byte_testbit _) (mask_byte bi)) as [Hm0 Hm]. split; [by apply Z.lor_nonneg|].
  intros j Hj. by rewrite Z.lor_spec, Hx, Hm.
Qed.

Lemma clear_bit_ok bi d : block_ok d -> block_ok (clear_bit bi d).
Proof.
  intros [H1 H2]. split; [unfold clear_bit; by rewrite length_alter|].
  unfold clear_bit. apply Forall_alter; [done|]. intros x _ Hx.
  apply byte_testbit. apply byte_testbit in Hx as [Hx0 Hx].
  split; [apply Z.land_nonneg; by left|]. intros j Hj. by rewrite Z.land_spec, Hx.
Qed.

Lemma bits_set_clear bi d : block_ok d -> bit_clear d bi = true -> clear_bit bi (set_bit bi d) = d.
Proof.
  intros [_ Hb] Hc. rewrite bit_clear_testbit in Hc. apply negb_true_iff in Hc.
  unfold clear_bit, set_bit. apply list_eq. intros i.
  destruct (decide (i = Z.to_nat (bi / 8))) as [->|]; [|by rewrite !list_lookup_alter_ne].
  rewrite !list_lookup_alter_eq. destruct (d !! Z.to_nat (bi / 8)) as [x|] eqn:E; [|done].
  cbn. f_equal. rewrite (list_lookup_total_correct _ _ _ E) in Hc. apply Z.bits_inj'. intros j Hj.
  rewrite Z.land_spec, Z.lor_spec, Z.lnot_spec, testbit_mask by lia.
  destruct (Z.eqb_spec j (bi mod 8)) as [->|]; simpl.
  - by rewrite Hc.
  - by rewrite orb_false_r, andb_true_r.
Qed.

(** ** Running the block operations *)

Section Run.
Context {St : Type} {BO : BlockOps St} {BL : BlockLaws St}.
Implicit Types (t : St) (ic : list inode) (sb : superblock) (V : Z -> list Z).

(** The block numbers of the held buffers. *)
Definition held_blocks (H : list (nat * Z * bool)) : list Z := (fun h => h.1.2) <$> H.

Lemma wp_bread G t ic sb V H L b (Q : nat -> fsys St -> Prop) :
  bk_ok G t (mkbabs V H L) -> 0 <= b < g_n G -> b ∉ held_blocks H -> (length H <= 2)%nat ->
  (forall i t', bk_ok G t' (mkbabs V ((i, b, true) :: H) L) -> Q i (mkfsys t' ic sb)) ->
  wp (bread ROOTDEV b) (mkfsys t ic sb) Q.
Proof.
  intros Hok Hb Hh Hl HQ. apply wp_zoom. cbn [f_blk].
  eapply wp_mono; [by apply (bk_read_ok G t V H L b)|]. cbn. auto.
Qed.

Lemma wp_bdata G t ic sb V i b c H L (Q : list Z -> fsys St -> Prop) :
  bk_ok G t (mkbabs V ((i, b, c) :: H) L) -> Q (V b) (mkfsys t ic sb) ->
  wp (bdata i) (mkfsys t ic sb) Q.
Proof.
  intros Hok HQ. apply wp_zoom. cbn [f_blk].
  by eapply wp_intro; [exact (bk_get_ok G t V i b c H L Hok)|].
Qed.

Lemma wp_bstore G t ic sb V i b c H L d (Q : unit -> fsys St -> Prop) :
  bk_ok G t (mkbabs V ((i, b, c) :: H) L) -> block_ok d ->
  (forall t', bk_ok G t' (mkbabs (upd V b d) ((i, b, false) :: H) L) -> Q tt (mkfsys t' ic sb)) ->
  wp (bstore i d) (mkfsys t ic sb) Q.
Proof.
  intros Hok Hd HQ. apply wp_zoom. cbn [f_blk].
  eapply wp_mono; [exact (bk_put_ok G t V i b c H L d Hok Hd)|]. intros [] t'. apply HQ.
Qed.

Lemma wp_log_write G t ic sb V i b c H L (Q : unit -> fsys St -> Prop) :
  bk_ok G t (mkbabs V ((i, b, c) :: H) L) -> g_home G b -> (length L < g_cap G)%nat ->
  (forall t', bk_ok G t' (mkbabs V ((i, b, true) :: H) (log_add b L)) -> Q tt (mkfsys t' ic sb)) ->
  wp (log_write i) (mkfsys t ic sb) Q.
Proof.
  intros Hok Hb Hl HQ. apply wp_zoom. cbn [f_blk].
  eapply wp_mono; [exact (bk_log_ok G t V i b c H L Hok Hb Hl)|]. intros [] t'. apply HQ.
Qed.

Lemma wp_brelse G t ic sb V i b H L (Q : unit -> fsys St -> Prop) :
  bk_ok G t (mkbabs V ((i, b, true) :: H) L) ->
  (forall t', bk_ok G t' (mkbabs V H L) -> Q tt (mkfsys t' ic sb)) ->
  wp (brelse i) (mkfsys t ic sb) Q.
Proof.
  intros Hok HQ. apply wp_zoom. cbn [f_blk].
  eapply wp_mono; [exact (bk_rel_ok G t V i b H L Hok)|]. intros [] t'. apply HQ.
Qed.

Lemma wp_getino t ic sb i ip (Q : inode -> fsys St -> Prop) :
  ic !! i = Some ip -> Q ip (mkfsys t ic sb) -> wp (getino i) (mkfsys t ic sb) Q.
Proof. intros Hi HQ. by apply (wp_deref _ _ ip). Qed.

End Run.

(** Steps of a routine whose block-layer facts are in the context. *)
Ltac fs_step :=
  match goal with
  | |- wp (mbind _ _) _ _ => apply wp_bind
  | |- wp getsb _ _ => apply wp_gets; cbn [f_sb]
  | |- wp (gets _) _ _ => apply wp_gets; cbn [f_sb f_blk icache]
  | |- wp (mret _) _ _ => apply wp_ret
  | |- wp (modino _ _) _ _ => apply wp_modify; unfold upd_ino, set_icache; cbn [f_sb f_blk icache]
  | |- wp (modi _ _) _ _ => apply wp_modify; unfold upd_ino, set_icache; cbn [f_sb f_blk icache]
  | H : bk_ok _ ?t (mkbabs _ ((?i, _, _) :: _) _) |- wp (bdata ?i) (mkfsys ?t _ _) _ =>
    eapply wp_bdata; [exact H|]
  | H : bk_ok _ ?t (mkbabs _ ((?i, _, _) :: _) _) |- wp (brelse ?i) (mkfsys ?t _ _) _ =>
    eapply wp_brelse; [exact H|]; clear t H; intros t H
  end.
Ltac fs_steps := repeat fs_step.

(** ** The layout of the disk *)

Record layout (G : geom) (sb : superblock) : Prop := mklayout {
  ly_size : sb_size sb = g_n G /\ 0 < sb_size sb < 2 ^ 31;
  ly_inodes : 1 < sb_inodestart sb /\ 0 <= sb_ninodes sb < 2 ^ 31 /\
    sb_inodestart sb + sb_ninodes sb / IPB + 1 <= sb_bmapstart sb;
  ly_bitmap : sb_bmapstart sb + sb_size sb / BPB + 1 <= sb_size sb;
  ly_home : forall b, sb_inodestart sb <= b < sb_size sb -> g_home G b }.

(** The data blocks. *)
Definition data_block (sb : superblock) (b : Z) : Prop :=
  sb_bmapstart sb + sb_size sb / BPB + 1 <= b < sb_size sb.

(** Whether the bitmap marks block [b] as in use. *)
Definition used (sb : superblock) (V : Z -> list Z) (b : Z) : bool :=
  negb (bit_clear (V (BBLOCK b sb)) (b mod BPB)).

(** The blocks before the data blocks are never free. *)
Definition meta_used (sb : superblock) (V : Z -> list Z) : Prop :=
  forall b, 0 <= b < sb_size sb -> ~ data_block sb b -> used sb V b = true.

Section Layout.
Context (G : geom) (sb : superblock).
Hypothesis HY : layout G sb.

Lemma BBLOCK_ok b : 0 <= b < sb_size sb ->
  BBLOCK b sb = sb_bmapstart sb + b / BPB /\
  sb_inodestart sb < BBLOCK b sb < sb_size sb /\ ~ data_block sb (BBLOCK b sb) /\
  sb_bmapstart sb <= BBLOCK b sb.
Proof using HY.
  destruct HY as [[_ H1] (H2 & H3 & H4) H5 _]. intros Hb. unfold BBLOCK, data_block, BPB, IPB in *.
  rewrite u32_small by zdiv. zdiv.
Qed.

Lemma IBLOCK_ok i : 0 <= i < sb_ninodes sb ->
  IBLOCK i sb = sb_inodestart sb + i / IPB /\
  sb_inodestart sb <= IBLOCK i sb < sb_bmapstart sb /\ ~ data_block sb (IBLOCK i sb).
Proof using HY.
  destruct HY as [[_ H1] (H2 & H3 & H4) H5 _]. intros Hi. unfold IBLOCK, data_block, BPB, IPB in *.
  rewrite u32_small by zdiv. zdiv.
Qed.

Lemma BBLOCK_home b : 0 <= b < sb_size sb -> g_home G (BBLOCK b sb) /\ 0 <= BBLOCK b sb < g_n G.
Proof using HY.
  intros Hb. destruct (BBLOCK_ok b Hb) as (_ & H1 & _). destruct HY as [[H2 _] (H3 & _) _ H4].
  split; [apply H4; lia|lia].
Qed.

Lemma IBLOCK_home i : 0 <= i < sb_ninodes sb -> g_home G (IBLOCK i sb) /\ 0 <= IBLOCK i sb < g_n G.
Proof using HY.
  intros Hb. destruct (IBLOCK_ok i Hb) as (_ & H1 & _). destruct HY as [[H2 _] (H3 & _) H5 H4].
  unfold BPB in *. assert (0 <= sb_size sb / 4096) by zdiv. split; [apply H4; lia|lia].
Qed.

Lemma data_home b : data_block sb b -> g_home G b /\ 0 <= b < g_n G.
Proof using HY.
  destruct HY as [[H1 H1'] (H2 & H3 & H4) H5 H6]. unfold data_block, IPB, BPB in *. intros Hb.
  assert (0 <= sb_size sb / 4096) by zdiv. assert (0 <= sb_ninodes sb / 8) by zdiv.
  split; [apply H6; lia|lia].
Qed.

(** The bit of another block: another bitmap block, or another bit. *)
Lemma BBLOCK_inj b c : 0 <= b < sb_size sb -> 0 <= c < sb_size sb ->
  BBLOCK b sb = BBLOCK c sb -> b mod BPB = c mod BPB -> b = c.
Proof using HY.
  intros Hb Hc E1 E2. destruct (BBLOCK_ok b Hb) as [Eb _], (BBLOCK_ok c Hc) as [Ec _].
  rewrite Eb, Ec in E1. unfold BPB in *. zdiv.
Qed.

End Layout.

Lemma used_upd_other sb V b n d :
  BBLOCK b sb <> n -> used sb (upd V n d) b = used sb V b.
Proof. intros Hn. unfold used, upd. by rewrite decide_False. Qed.

Lemma length_log_add b L : (length (log_add b L) <= S (length L))%nat.
Proof. unfold log_add. case_decide; [lia|]. rewrite length_app. cbn. lia. Qed.

Lemma zeros_ok : block_ok (replicate BSIZE 0).
Proof. apply zero_block. Qed.

(** ** balloc and bfree *)

Lemma balloc_scan_some d size b bi k r :
  balloc_scan d size b bi k = Some r ->
  bi <= r < bi + Z.of_nat k /\ b + r < size /\ bit_clear d r = true /\
  forall j, bi <= j < r -> bit_clear d j = false.
Proof.
  revert bi; induction k as [|k IH]; intros bi H; [done|]. cbn [balloc_scan] in H.
  destruct (Z.ltb_spec (b + bi) size); [|done]. destruct (bit_clear d bi) eqn:E.
  - injection H as <-. split_and!; try done; lia.
  - apply IH in H as (H1 & H2 & H3 & H4). split_and!; try done; try lia.
    intros j Hj. destruct (decide (j = bi)) as [->|]; [done|]. apply H4. lia.
Qed.

Lemma balloc_scan_none d size b bi k :
  balloc_scan d size b bi k = None ->
  forall j, bi <= j < bi + Z.of_nat k -> b + j < size -> bit_clear d j = false.
Proof.
  revert bi; induction k as [|k IH]; intros bi H j Hj Hs; [lia|]. cbn [balloc_scan] in H.
  destruct (Z.ltb_spec (b + bi) size); [|lia]. destruct (bit_clear d bi) eqn:E; [done|].
  destruct (decide (j = bi)) as [->|]; [done|]. apply (IH (bi + 1)); [done|lia..].
Qed.

(** The disk after the allocation of block [b]. *)
Definition alloc_view (sb : superblock) (V : Z -> list Z) (b : Z) : Z -> list Z :=
  upd (upd V (BBLOCK b sb) (set_bit (b mod BPB) (V (BBLOCK b sb)))) b (replicate BSIZE 0).

Section Alloc.
Context {St : Type} {BO : BlockOps St} {BL : BlockLaws St}.
Context (G : geom) (sb : superblock).
Hypothesis HY : layout G sb.
Implicit Types (t : St) (V : Z -> list Z) (H : list (nat * Z * bool)).

Lemma wp_bzero t ic V H L b (Q : unit -> fsys St -> Prop) :
  bk_ok G t (mkbabs V H L) -> g_home G b -> b ∉ held_blocks H -> (length H <= 2)%nat ->
  (length L < g_cap G)%nat ->
  (forall t', bk_ok G t' (mkbabs (upd V b (replicate BSIZE 0)) H (log_add b L)) ->
    Q tt (mkfsys t' ic sb)) ->
  wp (bzero ROOTDEV b) (mkfsys t ic sb) Q.
Proof.
  intros Hok Hb Hh Hl HL HQ. unfold bzero. fs_step.
  eapply wp_bread; [exact Hok|by eapply bk_home_in|done..|]. clear t Hok. intros i t Hok. fs_step.
  eapply wp_bstore; [exact Hok|apply zeros_ok|]. clear t Hok. intros t Hok. fs_step.
  eapply wp_log_write; [exact Hok|done..|]. clear t Hok. intros t Hok. fs_step. by apply HQ.
Qed.

(** Allocation marks its block and no other. *)
Lemma alloc_used V b c :
  block_ok (V (BBLOCK b sb)) -> data_block sb b -> 0 <= c < sb_size sb ->
  used sb (alloc_view sb V b) c = if decide (c = b) then true else used sb V c.
Proof using HY.
  intros [Hlen _] Hb Hc. destruct (data_home G sb HY b Hb) as [_ Hbr].
  assert (Hbs : 0 <= b < sb_size sb) by (destruct HY as [[-> _] _ _ _]; lia).
  destruct (BBLOCK_ok G sb HY c Hc) as (_ & _ & Hnd & _). unfold alloc_view.
  rewrite used_upd_other by (intros E; rewrite E in Hnd; done).
  unfold used, upd. destruct (decide (BBLOCK c sb = BBLOCK b sb)) as [E|E].
  - rewrite bit_clear_set; [|done|unfold BPB; zdiv..].
    rewrite E. destruct (decide (c mod BPB = b mod BPB)) as [Em|Em].
    + apply (BBLOCK_inj G sb HY) in Em; [|lia..|done]. by rewrite decide_True.
    + rewrite decide_False; [done|]. intros ->. done.
  - rewrite decide_False; [done|]. intros ->. done.
Qed.

Lemma BBLOCK_group b j :
  b mod BPB = 0 -> 0 <= b -> 0 <= j < BPB -> b + j < sb_size sb ->
  BBLOCK (b + j) sb = BBLOCK b sb /\ (b + j) mod BPB = j.
Proof using HY.
  intros Hm Hb Hj Hs.
  destruct (BBLOCK_ok G sb HY (b + j)) as [-> _]; [lia|].
  destruct (BBLOCK_ok G sb HY b) as [-> _]; [lia|]. unfold BPB in *. zdiv.
Qed.

(** A bitmap block without a clear bit is passed over. *)
Lemma balloc_skip t ic V H L b f :
  bk_ok G t (mkbabs V H L) -> (length H <= 2)%nat -> 0 <= b < sb_size sb ->
  BBLOCK b sb ∉ held_blocks H ->
  balloc_scan (V (BBLOCK b sb)) (sb_size sb) b 0 (Z.to_nat BPB) = None ->
  exists t', bk_ok G t' (mkbabs V H L) /\
    balloc_loop ROOTDEV b (S f) (mkfsys t ic sb) = balloc_loop ROOTDEV (b + BPB) f (mkfsys t' ic sb).
Proof using HY.
  intros Hok Hl Hb Hh Hs. destruct (BBLOCK_home G sb HY b Hb) as [Hhm Hr].
  pose proof (wp_bread G t ic sb V H L (BBLOCK b sb)
    (fun i s => exists t', s = mkfsys t' ic sb /\ bk_ok G t' (mkbabs V ((i, BBLOCK b sb, true) :: H) L))
    Hok Hr Hh Hl) as Hw.
  apply wp_elim in Hw as (i & s1 & R1 & t1 & -> & Hok1); [|eauto].
  pose proof (wp_bdata G t1 ic sb V i (BBLOCK b sb) true H L
    (fun d s => d = V (BBLOCK b sb) /\ s = mkfsys t1 ic sb) Hok1 (conj eq_refl eq_refl)) as Hw.
  apply wp_elim in Hw as (d & s2 & R2 & -> & ->).
  pose proof (wp_brelse G t1 ic sb V i (BBLOCK b sb) H L
    (fun _ s => exists t', s = mkfsys t' ic sb /\ bk_ok G t' (mkbabs V H L)) Hok1) as Hw.
  apply wp_elim in Hw as ([] & s3 & R3 & t3 & -> & Hok3); [|eauto].
  exists t3. split; [done|]. cbn [balloc_loop]. erewrite bind_ret by reflexivity. cbn [f_sb].
  rewrite (proj2 (Z.ltb_lt _ _)) by lia. erewrite bind_ret by exact R1. erewrite bind_ret by exact R2.
  rewrite Hs. by erewrite bind_ret by exact R3.
Qed.

(** The held buffers are data blocks in use. *)
Definition held_data V H : Prop :=
  forall b, b ∈ held_blocks H -> data_block sb b /\ used sb V b = true.

Lemma held_not_meta V H b : held_data V H -> ~ data_block sb b -> b ∉ held_blocks H.
Proof. intros Hh Hb Hx. by apply Hh in Hx as [? _]. Qed.

(** The bits of the group at [b], read from its bitmap block. *)
Lemma group_used V b j :
  b mod BPB = 0 -> 0 <= b -> 0 <= j < BPB -> b + j < sb_size sb ->
  used sb V (b + j) = negb (bit_clear (V (BBLOCK b sb)) j).
Proof using HY.
  intros. unfold used. destruct (BBLOCK_group b j) as [-> ->]; done.
Qed.

Lemma balloc_loop_ok t ic V H L b f (Q : Z -> fsys St -> Prop) :
  bk_ok G t (mkbabs V H L) -> meta_used sb V -> held_data V H -> (length H <= 2)%nat ->
  (length L + 2 <= g_cap G)%nat ->
  b mod BPB = 0 -> 0 <= b -> (forall c, 0 <= c < b -> c < sb_size sb -> used sb V c = true) ->
  (exists c, 0 <= c < sb_size sb /\ used sb V c = false) ->
  sb_size sb <= b + Z.of_nat f * BPB ->
  (forall c t', data_block sb c -> used sb V c = false ->
    (forall c', 0 <= c' < c -> used sb V c' = true) ->
    bk_ok G t' (mkbabs (alloc_view sb V c) H (log_add c (log_add (BBLOCK c sb) L))) ->
    Q c (mkfsys t' ic sb)) ->
  wp (balloc_loop ROOTDEV b f) (mkfsys t ic sb) Q.
Proof using HY.
  intros Hok Hmu Hhd Hl HL Hbm Hb Hbelow (c0 & Hc0 & Hfree) Hf HQ.
  revert t b Hok Hbm Hb Hbelow Hf. induction f as [|f IH]; intros t b Hok Hbm Hb Hbelow Hf.
  { rewrite Hbelow in Hfree by lia. done. }
  assert (Hbs : 0 <= b < sb_size sb).
  { split; [done|]. destruct (Z.ltb_spec b (sb_size sb)); [done|]. rewrite Hbelow in Hfree by lia. done. }
  destruct (BBLOCK_ok G sb HY b Hbs) as (_ & _ & Hnd & _).
  pose proof (held_not_meta _ _ _ Hhd Hnd) as Hnh.
  destruct (balloc_scan (V (BBLOCK b sb)) (sb_size sb) b 0 (Z.to_nat BPB)) as [bi|] eqn:Hsc.
  - apply balloc_scan_some in Hsc as Hs. destruct Hs as (Hbi & Hbs2 & Hcl & Hprev).
    rewrite Z2Nat.id in Hbi by (unfold BPB; lia). rewrite Z.add_0_l in Hbi.
    assert (Hu : used sb V (b + bi) = false) by (rewrite group_used by (done || lia); by rewrite Hcl).
    assert (Hd : data_block sb (b + bi)).
    { destruct (decide (sb_bmapstart sb + sb_size sb / BPB + 1 <= b + bi)); [unfold data_block; lia|].
      rewrite (Hmu (b + bi)) in Hu; [done|lia|unfold data_block; lia]. }
    destruct (BBLOCK_home G sb HY b Hbs) as [Hhm Hrg]. destruct (data_home G sb HY _ Hd) as [Hdh _].
    destruct (BBLOCK_group b bi) as [Eg Em]; [done..|].
    cbn [balloc_loop]. fs_steps. rewrite (proj2 (Z.ltb_lt _ _)) by lia. fs_step.
    eapply wp_bread; [exact Hok|done..|]. pose proof (bk_block_ok _ _ _ _ _ _ Hok Hrg) as Hblk.
    clear t Hok. intros i t Hok. fs_steps. rewrite Hsc. fs_step.
    eapply wp_bstore; [exact Hok|by apply set_bit_ok|]. clear t Hok. intros t Hok. fs_step.
    eapply wp_log_write; [exact Hok|done|lia|]. clear t Hok. intros t Hok. fs_steps.
    eapply wp_bzero; [exact Hok|done| |done| |].
    { intros Hx. apply Hhd in Hx as [_ Hx]. congruence. }
    { pose proof (length_log_add (BBLOCK b sb) L). lia. }
    clear t Hok. intros t Hok. fs_step. apply HQ; try done.
    + intros c' Hc'. destruct (Z.ltb_spec c' b); [apply Hbelow; lia|].
      replace c' with (b + (c' - b)) by lia. rewrite group_used by (done || lia).
      rewrite Hprev by lia. done.
    + unfold alloc_view. rewrite Eg, Em. done.
  - destruct (balloc_skip t ic V H L b f Hok Hl Hbs Hnh Hsc) as (t' & Hok' & E).
    unfold wp. rewrite E. apply IH; try done; unfold BPB in *; try zdiv.
    intros c Hc Hcs. destruct (Z.ltb_spec c b); [apply Hbelow; lia|].
    replace c with (b + (c - b)) by lia. rewrite group_used by (done || unfold BPB; lia).
    rewrite (balloc_scan_none _ _ _ _ _ Hsc) by (unfold BPB; lia). done.
Qed.

Lemma balloc_fuel : sb_size sb <= 0 + Z.of_nat (S (S (Z.to_nat (sb_size sb / BPB)))) * BPB.
Proof using HY. destruct HY as [[_ ?] _ _ _]. unfold BPB. zdiv. Qed.

Lemma wp_balloc t ic V H L (Q : Z -> fsys St -> Prop) :
  bk_ok G t (mkbabs V H L) -> meta_used sb V -> held_data V H -> (length H <= 2)%nat ->
  (length L + 2 <= g_cap G)%nat ->
  (exists c, 0 <= c < sb_size sb /\ used sb V c = false) ->
  (forall c t', data_block sb c -> used sb V c = false ->
    (forall c', 0 <= c' < c -> used sb V c' = true) ->
    bk_ok G t' (mkbabs (alloc_view sb V c) H (log_add c (log_add (BBLOCK c sb) L))) ->
    Q c (mkfsys t' ic sb)) ->
  wp (balloc ROOTDEV) (mkfsys t ic sb) Q.
Proof using HY.
  intros Hok Hmu Hhd Hl HL Hfree HQ. unfold balloc. fs_steps.
  eapply balloc_loop_ok; try done; [lia|apply balloc_fuel].
Qed.

(** Without a free block. *)
Lemma balloc_loop_full t ic V H L b f :
  bk_ok G t (mkbabs V H L) -> held_data V H -> (length H <= 2)%nat ->
  b mod BPB = 0 -> 0 <= b -> (forall c, 0 <= c < sb_size sb -> used sb V c = true) ->
  sb_size sb <= b + Z.of_nat f * BPB ->
  balloc_loop ROOTDEV b (S f) (mkfsys t ic sb) = Panic "balloc: out of blocks".
Proof using HY.
  intros Hok Hhd Hl Hbm Hb Hall Hf. revert t b Hok Hbm Hb Hf.
  induction f as [|f IH]; intros t b Hok Hbm Hb Hf.
  - cbn [balloc_loop]. erewrite bind_ret by reflexivity. cbn [f_sb].
    by rewrite (proj2 (Z.ltb_ge _ _)) by lia.
  - destruct (Z.ltb_spec b (sb_size sb)) as [Hbs|Hbs].
    + destruct (BBLOCK_ok G sb HY b ltac:(lia)) as (_ & _ & Hnd & _).
      destruct (balloc_skip t ic V H L b (S f) Hok Hl ltac:(lia) (held_not_meta _ _ _ Hhd Hnd))
        as (t' & Hok' & E).
      { destruct (balloc_scan _ _ _ _ _) as [bi|] eqn:Hsc; [|done].
        apply balloc_scan_some in Hsc as (Hbi & Hbs2 & Hcl & _).
        rewrite Z2Nat.id in Hbi by (unfold BPB; lia).
        pose proof (Hall (b + bi) ltac:(lia)) as Hx.
        rewrite group_used, Hcl in Hx by (done || lia). done. }
      rewrite E. apply IH; [done|unfold BPB in *; zdiv..].
    + cbn [balloc_loop]. erewrite bind_ret by reflexivity. cbn [f_sb].
      by rewrite (proj2 (Z.ltb_ge _ _)) by lia.
Qed.

(** The disk after block [b] has been freed. *)
Definition free_view V (b : Z) : Z -> list Z :=
  upd V (BBLOCK b sb) (clear_bit (b mod BPB) (V (BBLOCK b sb))).

Lemma wp_bfree t ic V H L b (Q : unit -> fsys St -> Prop) :
  bk_ok G t (mkbabs V H L) -> held_data V H -> (length H <= 2)%nat -> (length L < g_cap G)%nat ->
  0 <= b < sb_size sb -> used sb V b = true ->
  (forall t', bk_ok G t' (mkbabs (free_view V b) H (log_add (BBLOCK b sb) L)) ->
    Q tt (mkfsys t' ic sb)) ->
  wp (bfree ROOTDEV b) (mkfsys t ic sb) Q.
Proof using HY.
  intros Hok Hhd Hl HL Hb Hu HQ. destruct (BBLOCK_ok G sb HY b Hb) as (_ & _ & Hnd & _).
  destruct (BBLOCK_home G sb HY b Hb) as [Hhm Hrg].
  pose proof (bk_block_ok _ _ _ _ _ _ Hok Hrg) as Hblk.
  unfold bfree. fs_steps. eapply wp_bread; [exact Hok|done|by eapply held_not_meta|done|].
  clear t Hok. intros i t Hok. fs_steps. cbv zeta.
  unfold used in Hu. apply negb_true_iff in Hu. rewrite Hu. fs_step.
  eapply wp_bstore; [exact Hok|by apply clear_bit_ok|]. clear t Hok. intros t Hok. fs_step.
  eapply wp_log_write; [exact Hok|done..|]. clear t Hok. intros t Hok. fs_step. by apply HQ.
Qed.

Lemma free_used V b c :
  block_ok (V (BBLOCK b sb)) -> 0 <= b < sb_size sb -> 0 <= c < sb_size sb ->
  used sb (free_view V b) c = if decide (c = b) then false else used sb V c.
Proof using HY.
  intros [Hlen _] Hb Hc. unfold free_view, used, upd.
  destruct (decide (BBLOCK c sb = BBLOCK b sb)) as [E|E].
  - rewrite bit_clear_clear; [|done|unfold BPB; zdiv..]. rewrite E.
    destruct (decide (c mod BPB = b mod BPB)) as [Em|Em].
    + apply (BBLOCK_inj G sb HY) in Em; [|lia..|done]. by rewrite decide_True.
    + rewrite decide_False; [done|]. intros ->. done.
  - rewrite decide_False; [done|]. intros ->. done.
Qed.

End Alloc.

(** ** On-disk inodes *)

Definition dinode_ok (x : dinode) : Prop :=
  -32768 <= di_type x < 32768 /\ -32768 <= di_major x < 32768 /\
  -32768 <= di_minor x < 32768 /\ -32768 <= di_nlink x < 32768 /\
  0 <= di_size x < 2 ^ 32 /\ length (di_addrs x) = 13%nat /\
  Forall (fun a => 0 <= a < 2 ^ 32) (di_addrs x).

Lemma length_put_words l d o : length (put_words l d o) = length d.
Proof.
  revert d o; induction l as [|w l IH]; intros d o; cbn [put_words]; [done|].
  by rewrite IH, length_put_le.
Qed.

Lemma put_words_bytes l d o : Forall byte_ok d -> Forall byte_ok (put_words l d o).
Proof.
  revert d o; induction l as [|w l IH]; intros d o Hd; cbn [put_words]; [done|].
  apply IH. auto with xv6.
Qed.

Lemma get_put_words_other w l d o o' :
  (o' + w <= o \/ o + 4 * length l <= o')%nat -> get_le w (put_words l d o) o' = get_le w d o'.
Proof.
  revert d o; induction l as [|x l IH]; intros d o Ho; cbn [put_words length] in *; [done|].
  rewrite IH by lia. apply get_put_le_other. lia.
Qed.

Lemma get_put_words_same l d o k :
  (o + 4 * length l <= length d)%nat -> (k < length l)%nat ->
  get_le 4 (put_words l d o) (o + 4 * k) = u32 (l !!! k).
Proof.
  revert d o k; induction l as [|x l IH]; intros d o k Hd Hk; cbn [put_words length] in *; [lia|].
  destruct k as [|k].
  - rewrite Nat.mul_0_r, Nat.add_0_r, get_put_words_other by lia.
    rewrite get_put_le_same by lia. done.
  - replace (o + 4 * S k)%nat with (o + 4 + 4 * k)%nat by lia.
    rewrite IH by (rewrite ?length_put_le; lia). done.
Qed.

Lemma length_put_dinode x d o : length (put_dinode x d o) = length d.
Proof. unfold put_dinode. by rewrite length_put_words, !length_put_le. Qed.

Lemma put_dinode_ok x d o : block_ok d -> block_ok (put_dinode x d o).
Proof.
  intros [H1 H2]. split; [by rewrite length_put_dinode|].
  unfold put_dinode. apply put_words_bytes. auto 10 with xv6.
Qed.

Lemma i16_u16 x : -32768 <= x < 32768 -> i16 (x mod 256 ^ Z.of_nat 2) = x.
Proof. intros Hx. change (256 ^ Z.of_nat 2) with 65536. unfold i16, u16. zcase; zdiv. Qed.

Lemma get_put_dinode x d o :
  (o + 64 <= length d)%nat -> dinode_ok x -> get_dinode (put_dinode x d o) o = x.
Proof.
  intros Hd (H1 & H2 & H3 & H4 & H5 & H6 & H7). unfold get_dinode, put_dinode.
  rewrite !get_put_words_other by (rewrite ?H6; lia).
  repeat first [rewrite get_put_le_same by (rewrite ?length_put_le; lia)
               |rewrite get_put_le_other by lia].
  rewrite !i16_u16 by done. change (256 ^ Z.of_nat 4) with (2 ^ 32).
  rewrite (Z.mod_small (di_size x)) by done. destruct x as [a1 a2 a3 a4 a5 l].
  cbn [di_type di_major di_minor di_nlink di_size di_addrs] in *. f_equal.
  apply list_eq. intros k. rewrite list_lookup_fmap.
  destruct (decide (k < 13)%nat) as [Hk|Hk].
  - rewrite lookup_seq_lt by done. cbn [fmap option_fmap option_map]. rewrite Nat.add_0_l.
    rewrite get_put_words_same by (rewrite ?length_put_le; lia).
    assert (E : l !! k = Some (l !!! k)) by (apply list_lookup_lookup_total_lt; lia).
    rewrite E. f_equal. apply u32_small. by apply (Forall_lookup_1 _ _ _ _ H7 E).
  - rewrite lookup_seq_ge by lia. rewrite lookup_ge_None_2 by lia. done.
Qed.

Lemma get_put_dinode_other x d o o' :
  length (di_addrs x) = 13%nat -> (o' + 64 <= o \/ o + 64 <= o')%nat ->
  get_dinode (put_dinode x d o) o' = get_dinode d o'.
Proof.
  intros Hl Ho. unfold get_dinode, put_dinode.
  assert (E : forall w k, (o' <= k)%nat -> (k + w <= o' + 64)%nat ->
    get_le w (put_words (di_addrs x) (put_le 4 (di_size x) (put_le 2 (di_nlink x)
      (put_le 2 (di_minor x) (put_le 2 (di_major x) (put_le 2 (di_type x) d o) (o + 2)) (o + 4))
      (o + 6)) (o + 8)) (o + 12)) k = get_le w d k).
  { intros w k H1 H2. rewrite get_put_words_other by (rewrite Hl; lia).
    repeat rewrite get_put_le_other by lia. done. }
  rewrite !E by lia. f_equal. apply map_ext_in. intros k Hk. apply in_seq in Hk. apply E; lia.
Qed.

(** Inode [inum] on the disk, and the disk after its update. *)
Definition dinode_at (sb : superblock) (V : Z -> list Z) (inum : Z) : dinode :=
  get_dinode (V (IBLOCK inum sb)) (di_off inum).
Definition iupd_view (sb : superblock) (V : Z -> list Z) (inum : Z) (x : dinode) : Z -> list Z :=
  upd V (IBLOCK inum sb) (put_dinode x (V (IBLOCK inum sb)) (di_off inum)).

Lemma di_off_ok inum : 0 <= inum -> (di_off inum + 64 <= BSIZE)%nat.
Proof. intros. unfold di_off, IPB, BSIZE. zdiv. Qed.

Lemma iupd_dinode G sb V inum x j :
  layout G sb -> block_ok (V (IBLOCK inum sb)) -> dinode_ok x ->
  0 <= inum < sb_ninodes sb -> 0 <= j < sb_ninodes sb ->
  dinode_at sb (iupd_view sb V inum x) j = if decide (j = inum) then x else dinode_at sb V j.
Proof.
  intros HY [Hl _] Hx Hi Hj. unfold dinode_at, iupd_view, upd.
  destruct (IBLOCK_ok G sb HY inum Hi) as [Ei _], (IBLOCK_ok G sb HY j Hj) as [Ej _].
  destruct (decide (IBLOCK j sb = IBLOCK inum sb)) as [E|E].
  - destruct (decide (j = inum)) as [->|Hne].
    + apply get_put_dinode; [|done]. rewrite Hl. apply di_off_ok. lia.
    + rewrite E. apply get_put_dinode_other; [apply Hx|].
      rewrite Ei, Ej in E. unfold di_off, IPB in *. zdiv.
  - rewrite decide_False; [done|]. intros ->. done.
Qed.

(** ** iget *)

Lemma alter_insert (ic : list inode) i ip f : ic !! i = Some ip -> alter f i ic = <[i := f ip]> ic.
Proof.
  intros Hi. apply list_eq. intros j. destruct (decide (i = j)) as [<-|].
  - rewrite list_lookup_alter_eq, Hi, list_lookup_insert_eq by (by eapply lookup_lt_Some). done.
  - by rewrite list_lookup_alter_ne, list_lookup_insert_ne.
Qed.

Lemma alter_inserted (ic : list inode) i ip f : (i < length ic)%nat -> alter f i (<[i := ip]> ic) = <[i := f ip]> ic.
Proof.
  intros Hi. rewrite (alter_insert _ _ ip) by (by apply list_lookup_insert_eq).
  by rewrite list_insert_insert_eq.
Qed.

Section Iget.
Context {St : Type} {BO : BlockOps St} (sb : superblock).
Implicit Types (t : St) (ic : list inode).

Definition caches (dev inum : Z) (ip : inode) : Prop :=
  0 < i_ref ip /\ i_dev ip = dev /\ i_inum ip = inum.

#[export] Instance caches_dec dev inum ip : Decision (caches dev inum ip).
Proof. unfold caches. apply _. Defined.

(** The inode cache: at most one entry for an inode. *)
Definition ic_ok ic : Prop :=
  length ic = NINODE /\ Forall (fun ip => 0 <= i_ref ip) ic /\
  forall i j ip jp, ic !! i = Some ip -> ic !! j = Some jp ->
    caches (i_dev jp) (i_inum jp) ip -> 0 < i_ref jp -> i = j.

(** What iget does to the cache, and the slot it returns. *)
Definition igot (dev inum : Z) ic (i : nat) ic' : Prop :=
  exists ip, ic !! i = Some ip /\
    (caches dev inum ip /\ ic' = <[i := set_iref (i_ref ip + 1) ip]> ic \/
     i_ref ip = 0 /\ Forall (fun jp => ~ caches dev inum jp) ic /\
     ic' = <[i := mkinode dev inum 1 (i_lock ip) false (i_di ip)]> ic).

Lemma iget_scan_spec l dev inum k e :
  match iget_scan l dev inum k e with
  | inl i => exists ip, (k <= i)%nat /\ l !! (i - k)%nat = Some ip /\ caches dev inum ip
  | inr r => Forall (fun jp => ~ caches dev inum jp) l /\
    match e, r with
    | Some x, _ => r = Some x
    | None, Some i => exists ip, (k <= i)%nat /\ l !! (i - k)%nat = Some ip /\ i_ref ip = 0
    | None, None => Forall (fun jp => i_ref jp <> 0) l
    end
  end.
Proof.
  revert k e; induction l as [|ip l IH]; intros k e; cbn [iget_scan].
  { split; [done|]. destruct e; [done|]. apply Forall_nil_2. }
  destruct (_ && _) eqn:E.
  - exists ip. rewrite Nat.sub_diag. split_and!; [lia|done|].
    rewrite !andb_true_iff, Z.ltb_lt, !Z.eqb_eq in E. unfold caches. naive_solver.
  - assert (Hn : ~ caches dev inum ip).
    { intros (H1 & H2 & H3). rewrite (proj2 (Z.ltb_lt _ _)), !(proj2 (Z.eqb_eq _ _)) in E by done. done. }
    specialize (IH (S k) (match e with None => if i_ref ip =? 0 then Some k else None | Some _ => e end)).
    destruct (iget_scan l dev inum (S k) _) as [i|r].
    + destruct IH as (jp & Hk & Hj & Hc). exists jp. split_and!; [lia| |done].
      replace (i - k)%nat with (S (i - S k))%nat by lia. done.
    + destruct IH as [HF Hr]. split; [by apply Forall_cons_2|].
      destruct e as [x|]; [done|]. destruct (Z.eqb_spec (i_ref ip) 0) as [Hz|Hz].
      * rewrite Hr. exists ip. rewrite Nat.sub_diag. split_and!; done || lia.
      * destruct r as [i|]; [|by apply Forall_cons_2].
        destruct Hr as (jp & Hk & Hj & Hc). exists jp. split_and!; [lia| |done].
        replace (i - k)%nat with (S (i - S k))%nat by lia. done.
Qed.

Lemma wp_iget t ic dev inum (Q : nat -> fsys St -> Prop) :
  Exists (fun ip => caches dev inum ip \/ i_ref ip = 0) ic ->
  (forall i ic', igot dev inum ic i ic' -> Q i (mkfsys t ic' sb)) ->
  wp (iget dev inum) (mkfsys t ic sb) Q.
Proof.
  intros Hex HQ. unfold iget. fs_steps. pose proof (iget_scan_spec ic dev inum 0 None) as Hs.
  destruct (iget_scan ic dev inum 0 None) as [i|[i|]].
  - destruct Hs as (ip & _ & Hi & Hc). rewrite Nat.sub_0_r in Hi. fs_steps. apply HQ.
    exists ip. split; [done|]. left. split; [done|]. by rewrite (alter_insert _ _ ip).
  - destruct Hs as (HF & ip & _ & Hi & Hc). rewrite Nat.sub_0_r in Hi. fs_steps. apply HQ.
    exists ip. split; [done|]. right. split_and!; [done..|]. by rewrite (alter_insert _ _ ip).
  - exfalso. destruct Hs as [H1 H2]. rewrite Forall_forall in H1, H2.
    apply Exists_exists in Hex as (ip & Hin & [Hx|Hx]); [by apply (H1 ip)|by apply (H2 ip)].
Qed.

Lemma igot_ok dev inum ic i ic' :
  ic_ok ic -> igot dev inum ic i ic' ->
  ic_ok ic' /\ (exists ip, ic' !! i = Some ip /\ caches dev inum ip) /\
  (forall j, j <> i -> ic' !! j = ic !! j).
Proof.
  intros (Hlen & Hpos & Hun) (ip & Hi & Hg). pose proof (lookup_lt_Some _ _ _ Hi) as Hlt.
  assert (Hge : 0 <= i_ref ip) by (by apply (Forall_lookup_1 _ _ _ _ Hpos Hi)).
  assert (Hx : exists x, ic' = <[i := x]> ic /\ caches dev inum x /\
    (forall j jp, j <> i -> ic !! j = Some jp -> ~ caches dev inum jp)).
  { destruct Hg as [[Hc ->]|(Hz & HF & ->)]; eexists; (split; [reflexivity|]); split.
    - destruct Hc as (? & ? & ?). unfold caches. cbn. split_and!; done || lia.
    - intros j jp Hj Hjp Hcj. apply Hj. destruct Hc as (H1 & <- & <-).
      by apply (Hun j i jp ip).
    - done.
    - intros j jp Hj Hjp. by apply (Forall_lookup_1 _ _ _ _ HF Hjp). }
  destruct Hx as (x & -> & Hcx & Hno). split_and!.
  - split_and!; [by rewrite length_insert| |].
    + apply Forall_insert; [done|]. destruct Hcx. lia.
    + intros j k jp kp Hj Hk Hc Hr.
      destruct (decide (j = i)) as [->|Hji], (decide (k = i)) as [->|Hki]; [done|..].
      * rewrite list_lookup_insert_eq in Hj by done. injection Hj as <-.
        rewrite list_lookup_insert_ne in Hk by done. exfalso. apply (Hno k kp Hki Hk).
        destruct Hcx as (_ & E1 & E2), Hc as (_ & E3 & E4). unfold caches. split_and!; congruence.
      * rewrite list_lookup_insert_ne in Hj by done.
        rewrite list_lookup_insert_eq in Hk by done. injection Hk as <-. exfalso. apply (Hno j jp Hji Hj).
        destruct Hcx as (_ & E1 & E2), Hc as (E0 & E3 & E4). unfold caches. split_and!; congruence.
      * rewrite list_lookup_insert_ne in Hj, Hk by done. by apply (Hun j k jp kp).
  - exists x. by rewrite list_lookup_insert_eq.
  - intros j Hj. by rewrite list_lookup_insert_ne.
Qed.

End Iget.

(** ** The operations on inodes *)

Section Inodes.
Context {St : Type} {BO : BlockOps St} {BL : BlockLaws St}.
Context (G : geom) (sb : superblock).
Implicit Types (t : St) (V : Z -> list Z) (H : list (nat * Z * bool)) (ic : list inode) (a : babs).
Let pid := g_pid G.

Lemma wp_mypid t ic a (Q : Z -> fsys St -> Prop) :
  bk_ok G t a -> (forall t', bk_ok G t' a -> Q pid (mkfsys t' ic sb)) ->
  wp (zoom f_procs set_f_procs mypid) (mkfsys t ic sb) Q.
Proof.
  intros Hok HQ. pose proof (bk_running _ _ _ Hok) as Hr. apply wp_zoom.
  unfold f_procs. cbn [f_blk]. eapply wp_intro; [by apply mypid_running|].
  apply HQ. by apply bk_set_running.
Qed.

Lemma wp_acquire_ino t ic a i ip (Q : unit -> fsys St -> Prop) :
  bk_ok G t a -> ic !! i = Some ip -> sl_locked (i_lock ip) = false ->
  (forall t', bk_ok G t' a -> Q tt (mkfsys t' (alter (set_ilock (mksl true pid)) i ic) sb)) ->
  wp (acquire_ino i) (mkfsys t ic sb) Q.
Proof.
  intros Hok Hi Hl HQ. unfold acquire_ino, acquiresleep. fs_step.
  apply (wp_deref _ _ (i_lock ip)); [unfold ino_lock; cbn; by rewrite Hi|]. rewrite Hl. fs_step.
  eapply wp_mypid; [exact Hok|]. intros t' Hok'. apply wp_modify. by apply HQ.
Qed.

Lemma wp_release_ino t ic a i (Q : unit -> fsys St -> Prop) :
  bk_ok G t a ->
  (forall t', bk_ok G t' a -> Q tt (mkfsys t' (alter (set_ilock (mksl false 0)) i ic) sb)) ->
  wp (release_ino i) (mkfsys t ic sb) Q.
Proof.
  intros Hok HQ. unfold release_ino, releasesleep. fs_step. apply wp_modify.
  apply wp_zoom, wp_modify. apply HQ. apply bk_set_running; [done|].
  apply running_wakeup. exact (bk_running _ _ _ Hok).
Qed.

Lemma wp_holding_ino t ic a i ip (Q : bool -> fsys St -> Prop) :
  bk_ok G t a -> ic !! i = Some ip -> i_lock ip = mksl true pid ->
  (forall t', bk_ok G t' a -> Q true (mkfsys t' ic sb)) ->
  wp (holding_ino i) (mkfsys t ic sb) Q.
Proof.
  intros Hok Hi Hl HQ. unfold holding_ino, holdingsleep. fs_step.
  apply (wp_deref _ _ (i_lock ip)); [unfold ino_lock; cbn; by rewrite Hi|]. rewrite Hl.
  cbn [sl_locked sl_pid]. fs_step.
  eapply wp_mypid; [exact Hok|]. intros t' Hok'. fs_step. rewrite Z.eqb_refl. by apply HQ.
Qed.

Hypothesis HY : layout G sb.

Lemma wp_iupdate t ic V H L i ip (Q : unit -> fsys St -> Prop) :
  bk_ok G t (mkbabs V H L) -> ic !! i = Some ip -> i_dev ip = ROOTDEV ->
  0 <= i_inum ip < sb_ninodes sb ->
  IBLOCK (i_inum ip) sb ∉ held_blocks H -> (length H <= 2)%nat -> (length L < g_cap G)%nat ->
  (forall t', bk_ok G t' (mkbabs (iupd_view sb V (i_inum ip) (i_di ip)) H
      (log_add (IBLOCK (i_inum ip) sb) L)) -> Q tt (mkfsys t' ic sb)) ->
  wp (iupdate i) (mkfsys t ic sb) Q.
Proof using HY.
  intros Hok Hi Hdev Hn Hh Hl HL HQ. destruct (IBLOCK_home G sb HY _ Hn) as [Hhm Hr].
  pose proof (bk_block_ok _ _ _ _ _ _ Hok Hr) as Hb.
  unfold iupdate. fs_steps. eapply wp_getino; [exact Hi|]. fs_step. rewrite Hdev.
  eapply wp_bread; [exact Hok|done..|]. clear t Hok. intros k t Hok. fs_steps.
  eapply wp_bstore; [exact Hok|by apply put_dinode_ok|]. clear t Hok. intros t Hok. fs_step.
  eapply wp_log_write; [exact Hok|done..|]. clear t Hok. intros t Hok. fs_step. by apply HQ.
Qed.

(** The cache entry that ilock leaves. *)
Definition ilocked V (ip : inode) : inode :=
  mkinode (i_dev ip) (i_inum ip) (i_ref ip) (mksl true pid) true
    (if i_valid ip then i_di ip else dinode_at sb V (i_inum ip)).

Lemma wp_ilock t ic V H L i ip (Q : unit -> fsys St -> Prop) :
  bk_ok G t (mkbabs V H L) -> ic !! i = Some ip -> 1 <= i_ref ip ->
  sl_locked (i_lock ip) = false -> i_dev ip = ROOTDEV -> 0 <= i_inum ip < sb_ninodes sb ->
  IBLOCK (i_inum ip) sb ∉ held_blocks H -> (length H <= 2)%nat ->
  (i_valid ip = false -> di_type (dinode_at sb V (i_inum ip)) <> 0) ->
  (forall t', bk_ok G t' (mkbabs V H L) -> Q tt (mkfsys t' (<[i := ilocked V ip]> ic) sb)) ->
  wp (ilock (Some i)) (mkfsys t ic sb) Q.
Proof using HY.
  intros Hok Hi Href Hlk Hdev Hn Hh Hl Hty HQ.
  pose proof (lookup_lt_Some _ _ _ Hi) as Hlt.
  destruct (IBLOCK_home G sb HY _ Hn) as [_ Hr].
  unfold ilock. fs_step. eapply wp_getino; [exact Hi|]. rewrite (proj2 (Z.ltb_ge _ _)) by lia. fs_step.
  eapply wp_acquire_ino; [exact Hok|done..|]. clear t Hok. intros t Hok.
  rewrite (alter_insert _ _ ip) by done. fs_step.
  eapply wp_getino; [by apply list_lookup_insert_eq|]. cbn [i_valid set_ilock].
  destruct (i_valid ip) eqn:Hv.
  - fs_step. unfold ilocked in HQ. rewrite Hv in HQ. specialize (HQ t Hok). by destruct ip; cbn in *; subst.
  - fs_steps. cbn [i_dev i_inum set_ilock]. rewrite Hdev.
    eapply wp_bread; [exact Hok|done..|]. clear t Hok. intros k t Hok. fs_steps.
    rewrite !alter_inserted by done.
    eapply wp_getino; [by apply list_lookup_insert_eq|]. cbn [i_di set_valid set_di].
    rewrite (proj2 (Z.eqb_neq _ _)) by (by apply Hty). fs_step.
    specialize (HQ t Hok). unfold ilocked in HQ. rewrite Hv in HQ. exact HQ.
Qed.

Lemma wp_iunlock t ic a i ip (Q : unit -> fsys St -> Prop) :
  bk_ok G t a -> ic !! i = Some ip -> 1 <= i_ref ip -> i_lock ip = mksl true pid ->
  (forall t', bk_ok G t' a -> Q tt (mkfsys t' (<[i := set_ilock (mksl false 0) ip]> ic) sb)) ->
  wp (iunlock (Some i)) (mkfsys t ic sb) Q.
Proof.
  intros Hok Hi Href Hlk HQ. unfold iunlock. fs_step.
  eapply wp_holding_ino; [exact Hok|exact Hi|done|]. clear t Hok. intros t Hok. fs_step.
  eapply wp_getino; [exact Hi|]. rewrite (proj2 (Z.ltb_ge _ _)) by lia. cbn [negb orb].
  eapply wp_release_ino; [exact Hok|]. clear t Hok. intros t Hok.
  rewrite (alter_insert _ _ ip) by done. by apply HQ.
Qed.

(** *** ialloc *)

(** A freshly allocated inode, and the disk after its allocation. *)
Definition new_dinode (type : Z) : dinode := mkdinode type 0 0 0 0 (replicate 13 0).
Definition ialloc_view V (inum type : Z) : Z -> list Z :=
  upd V (IBLOCK inum sb)
    (put_le 2 type (write_at (V (IBLOCK inum sb)) (di_off inum) (replicate 64 0)) (di_off inum)).

Lemma zeros64 : length (replicate 64 0) = 64%nat /\ Forall byte_ok (replicate 64 0).
Proof. split; [apply length_replicate|]. apply Forall_replicate. unfold byte_ok. lia. Qed.

Lemma get_zeroed w d o k :
  (o + 64 <= length d)%nat -> (o <= k)%nat -> (k + w <= o + 64)%nat ->
  get_le w (write_at d o (replicate 64 0)) k = 0.
Proof.
  revert k; induction w as [|w IH]; intros k Hd H1 H2; cbn [get_le]; [done|].
  rewrite IH by lia. rewrite list_lookup_total_alt.
  replace k with (o + (k - o))%nat by lia.
  rewrite lookup_write_at_in by (rewrite ?length_replicate; lia).
  rewrite lookup_replicate_2 by lia. done.
Qed.

Lemma get_new_dinode d o type :
  (o + 64 <= length d)%nat -> -32768 <= type < 32768 ->
  get_dinode (put_le 2 type (write_at d o (replicate 64 0)) o) o = new_dinode type.
Proof.
  intros Hd Ht. unfold get_dinode.
  assert (E : forall w k, (o + 2 <= k)%nat -> (k + w <= o + 64)%nat ->
    get_le w (put_le 2 type (write_at d o (replicate 64 0)) o) k = 0).
  { intros w k H1 H2. rewrite get_put_le_other by lia. apply get_zeroed; lia. }
  rewrite get_put_le_same by (rewrite length_write_at; lia). rewrite i16_u16 by done.
  rewrite !E by lia. unfold new_dinode. f_equal.
  change (replicate 13 0) with (map (fun _ : nat => 0) (seq 0 13)).
  apply map_ext_in. intros k Hk. apply in_seq in Hk. apply E; lia.
Qed.

Lemma get_le_write_other w d o k :
  (k + w <= o \/ o + 64 <= k)%nat -> get_le w (write_at d o (replicate 64 0)) k = get_le w d k.
Proof.
  intros H. apply get_le_ext. intros i Hi. rewrite !list_lookup_total_alt.
  rewrite lookup_write_at_other; [done|]. rewrite length_replicate. lia.
Qed.

Lemma get_new_dinode_other d o o' type :
  (o' + 64 <= o \/ o + 64 <= o')%nat ->
  get_dinode (put_le 2 type (write_at d o (replicate 64 0)) o) o' = get_dinode d o'.
Proof.
  intros Ho. unfold get_dinode.
  assert (E : forall w k, (o' <= k)%nat -> (k + w <= o' + 64)%nat ->
    get_le w (put_le 2 type (write_at d o (replicate 64 0)) o) k = get_le w d k).
  { intros w k H1 H2. rewrite get_put_le_other by lia. apply get_le_write_other. lia. }
  rewrite !E by lia. f_equal. apply map_ext_in. intros k Hk. apply in_seq in Hk. apply E; lia.
Qed.

Lemma ialloc_dinode V inum type j :
  block_ok (V (IBLOCK inum sb)) -> -32768 <= type < 32768 ->
  0 <= inum < sb_ninodes sb -> 0 <= j < sb_ninodes sb ->
  dinode_at sb (ialloc_view V inum type) j =
    if decide (j = inum) then new_dinode type else dinode_at sb V j.
Proof using HY.
  intros [Hl _] Ht Hi Hj. unfold dinode_at, ialloc_view, upd.
  destruct (IBLOCK_ok G sb HY inum Hi) as [Ei _], (IBLOCK_ok G sb HY j Hj) as [Ej _].
  destruct (decide (IBLOCK j sb = IBLOCK inum sb)) as [E|E].
  - destruct (decide (j = inum)) as [->|Hne].
    + apply get_new_dinode; [|done]. rewrite Hl. apply di_off_ok. lia.
    + rewrite E. apply get_new_dinode_other.
      rewrite Ei, Ej in E. unfold di_off, IPB in *. zdiv.
  - rewrite decide_False; [done|]. intros ->. done.
Qed.

Lemma wp_ialloc_loop t ic V H L type inum f (Q : nat -> fsys St -> Prop) :
  bk_ok G t (mkbabs V H L) -> held_data sb V H -> (length H <= 2)%nat -> (length L < g_cap G)%nat ->
  1 <= inum -> (forall j, 1 <= j < inum -> di_type (dinode_at sb V j) <> 0) ->
  (exists j, 1 <= j < sb_ninodes sb /\ di_type (dinode_at sb V j) = 0) ->
  sb_ninodes sb <= inum + Z.of_nat f ->
  (forall n, Exists (fun ip => caches ROOTDEV n ip \/ i_ref ip = 0) ic) ->
  (forall n i ic' t', 1 <= n < sb_ninodes sb -> di_type (dinode_at sb V n) = 0 ->
    (forall j, 1 <= j < n -> di_type (dinode_at sb V j) <> 0) ->
    bk_ok G t' (mkbabs (ialloc_view V n type) H (log_add (IBLOCK n sb) L)) ->
    igot ROOTDEV n ic i ic' -> Q i (mkfsys t' ic' sb)) ->
  wp (ialloc_loop ROOTDEV type inum f) (mkfsys t ic sb) Q.
Proof using HY.
  intros Hok Hhd Hl HL Hi Hbelow (j0 & Hj0 & Hfree) Hf Hslot HQ.
  revert t inum Hok Hi Hbelow Hf. induction f as [|f IH]; intros t inum Hok Hi Hbelow Hf.
  { exfalso. apply (Hbelow j0); [lia|done]. }
  assert (Hn : inum < sb_ninodes sb).
  { destruct (Z.ltb_spec inum (sb_ninodes sb)); [done|]. exfalso. apply (Hbelow j0); [lia|done]. }
  destruct (IBLOCK_ok G sb HY inum ltac:(lia)) as (_ & _ & Hnd).
  destruct (IBLOCK_home G sb HY inum ltac:(lia)) as [Hhm Hr].
  pose proof (bk_block_ok _ _ _ _ _ _ Hok Hr) as [Hb1 Hb2].
  cbn [ialloc_loop]. fs_steps. rewrite (proj2 (Z.ltb_lt _ _)) by lia. fs_step.
  eapply wp_bread; [exact Hok|done|by eapply held_not_meta|done|]. clear t Hok. intros i t Hok. fs_steps.
  cbv zeta. destruct (Z.eqb_spec (di_type (get_dinode (V (IBLOCK inum sb)) (di_off inum))) 0) as [Hz|Hz].
  - fs_step. eapply wp_bstore; [exact Hok| |].
    { split; [by rewrite length_put_le, length_write_at|].
      apply put_le_byte_ok, write_at_byte_ok; [done|apply zeros64]. }
    clear t Hok. intros t Hok. fs_step.
    eapply wp_log_write; [exact Hok|done..|]. clear t Hok. intros t Hok. fs_steps.
    apply wp_iget; [apply Hslot|]. intros k ic' Hg. by eapply (HQ inum).
  - fs_steps. apply IH; [done|lia| |lia].
    intros j Hj. destruct (decide (j = inum)) as [->|]; [done|]. apply Hbelow. lia.
Qed.

End Inodes.

(** ** A small file system: 60 blocks, 16 inodes, an empty root directory *)

Definition img_sb : list Z :=
  put_words [60; 23; 16; 30; 2; 32; 35] (replicate BSIZE 0) 0.
Definition img_inodes : list Z :=
  put_dinode (mkdinode T_DIR 0 0 1 512 (36 :: replicate 12 0)) (replicate BSIZE 0) 64.
Definition img_bitmap : list Z := write_at (replicate BSIZE 0) 0 [255; 255; 255; 255; 31].
Definition fs_img : list (list Z) :=
  replicate BSIZE 0 :: img_sb :: replicate 30 (replicate BSIZE 0) ++
  img_inodes :: replicate BSIZE 0 :: replicate BSIZE 0 :: img_bitmap ::
  replicate 24 (replicate BSIZE 0).
Definition fs_sb : superblock := sb_of img_sb.
Definition fs_G : geom := mkgeom 1 60 (fun b => 32 <= b < 60) 27.
Definition fs_V : Z -> list Z := fun m => fs_img !!! Z.to_nat m.

Lemma fs_img_blocks : Forall (fun d => length d = BSIZE /\ Forall byte_ok d) fs_img.
Proof.
  pose proof zero_block as Hz. unfold fs_img. apply Forall_cons_2; [done|].
  apply Forall_cons_2; [by split; [unfold img_sb; rewrite length_put_words|apply put_words_bytes, Hz]|].
  apply Forall_app. split; [by apply Forall_replicate|].
  apply Forall_cons_2; [by apply put_dinode_ok|]. do 2 (apply Forall_cons_2; [done|]).
  apply Forall_cons_2; [|by apply Forall_replicate].
  split; [unfold img_bitmap; by rewrite length_write_at, length_replicate|].
  apply write_at_byte_ok; [apply Hz|]. solve_bytes.
Qed.

Lemma fs_log_disk : log_disk 2 30 fs_img.
Proof.
  split; [apply fs_img_blocks|reflexivity| | | |].
  - vm_compute. split_and!; reflexivity || discriminate.
  - vm_compute. split; reflexivity.
  - vm_compute. split; [discriminate|reflexivity].
  - apply Forall_nil_2.
Qed.

Lemma fs_layout : layout fs_G fs_sb.
Proof.
  split; [vm_compute; done|vm_compute; split_and!; reflexivity || discriminate|vm_compute; discriminate|].
  intros b Hb. vm_compute in Hb. unfold fs_G. cbn. unfold Z.le, Z.lt. exact Hb.
Qed.

(** The state after boot, inside an operation. *)
Lemma fs_boot : exists t, bk_ok fs_G t (mkbabs fs_V [] []).
Proof.
  destruct (boot_linv demo_p 1 2 30 fs_img demo_running fs_log_disk)
    as (B & l & _ & HL & (blk & ->) & HD).
  assert (E : apply_writes (recovery_writes 2 fs_img) fs_img = fs_img) by (vm_compute; reflexivity).
  rewrite E in HD. exists (mklst B (mklog 2 30 1 false 1 0 blk)).
  assert (Hsz : disksize B = 60).
  { destruct (bi_disk _ _ _ (li_bio _ _ _ HL)) as [Hz _]. cbn [l_bio] in Hz. by rewrite Hz, HD. }
  split; [|split; [apply Forall_nil_2|]].
  - destruct HL as [L1 L2 L3 L4 L5 L6 L7 L8 L9]. by split.
  - cbn [l_bio l_log l_start l_size l_outstanding ab_V ab_H ab_L fs_G g_n g_cap g_home].
    split; [reflexivity|]. split.
    + intros m Hm. rewrite (view_clean B 1); [by rewrite HD|apply (li_bio _ _ _ HL)|].
      intros Hd. apply (li_dirty _ _ _ HL) in Hd. by apply not_elem_of_nil in Hd.
    + split; [done|]. split; [intros b Hb; unfold home; lia|]. cbn. lia.
Qed.

Lemma fs_used b : 0 <= b < 60 -> used fs_sb fs_V b = (b <? 37).
Proof.
  intros Hb.
  assert (Hall : forallb (fun k => Bool.eqb (used fs_sb fs_V (Z.of_nat k)) (Z.of_nat k <? 37))
    (seq 0 60) = true) by (vm_compute; reflexivity).
  rewrite forallb_forall in Hall. rewrite <- (Z2Nat.id b) by lia.
  apply eqb_prop, Hall, in_seq. lia.
Qed.

Lemma fs_meta_used : meta_used fs_sb fs_V.
Proof.
  intros b Hb Hd. change (sb_size fs_sb) with 60 in Hb. rewrite fs_used by done. apply Z.ltb_lt.
  unfold data_block in Hd. change (sb_size fs_sb) with 60 in Hd.
  change (sb_bmapstart fs_sb + 60 / BPB + 1) with 36 in Hd. lia.
Qed.

(** ** Properties *)

Section Properties.
Context {St : Type} {BO : BlockOps St} {BL : BlockLaws St}.

(** balloc.  When every block is in use it panics; otherwise it returns
    the first free block, which is a data block, marks it in the bitmap,
    zeroes it, and changes no other block and no other bit. *)
Theorem balloc_first_free (G : geom) (sb : superblock) (t : St) (ic : list inode)
    (V : Z -> list Z) (H : list (nat * Z * bool)) (L : list Z) :
  layout G sb -> bk_ok G t (mkbabs V H L) -> meta_used sb V -> held_data sb V H ->
  (length H <= 2)%nat -> (length L + 2 <= g_cap G)%nat ->
  ((forall c, 0 <= c < sb_size sb -> used sb V c = true) ->
   balloc ROOTDEV (mkfsys t ic sb) = Panic "balloc: out of blocks") /\
  ((exists c, 0 <= c < sb_size sb /\ used sb V c = false) ->
   exists b t' V' L', balloc ROOTDEV (mkfsys t ic sb) = Ret b (mkfsys t' ic sb) /\
     data_block sb b /\ used sb V b = false /\ (forall c, 0 <= c < b -> used sb V c = true) /\
     bk_ok G t' (mkbabs V' H L') /\ V' b = replicate BSIZE 0 /\
     (forall c, 0 <= c < sb_size sb -> used sb V' c = if decide (c = b) then true else used sb V c) /\
     (forall m, m <> b -> m <> BBLOCK b sb -> V' m = V m)).
Proof.
  intros HY Hok Hmu Hhd Hl HL. split.
  - intros Hall. unfold balloc. erewrite bind_ret by reflexivity. cbn [f_sb].
    eapply balloc_loop_full; try done. destruct HY as [[_ ?] _ _ _]. unfold BPB. zdiv.
  - intros Hfree.
    assert (Hw : wp (balloc ROOTDEV) (mkfsys t ic sb) (fun b s' => exists t', s' = mkfsys t' ic sb /\
      data_block sb b /\ used sb V b = false /\ (forall c, 0 <= c < b -> used sb V c = true) /\
      bk_ok G t' (mkbabs (alloc_view sb V b) H (log_add b (log_add (BBLOCK b sb) L))))).
    { eapply wp_balloc; eauto 10. }
    apply wp_elim in Hw as (b & s' & R & t' & -> & Hd & Hu & Hp & Hok').
    assert (Hbs : 0 <= b < sb_size sb).
    { destruct (data_home G sb HY b Hd) as [_ ?]. destruct HY as [[-> _] _ _ _]. lia. }
    exists b, t', (alloc_view sb V b), (log_add b (log_add (BBLOCK b sb) L)). split_and!; try done.
    + unfold alloc_view, upd. by rewrite decide_True.
    + intros c Hc. apply (alloc_used G sb HY); [|done..].
      eapply bk_block_ok; [exact Hok|]. by apply (BBLOCK_home G sb HY).
    + intros m H1 H2. unfold alloc_view, upd. by rewrite !decide_False.
Qed.

(** balloc then bfree of its block leaves every other block as it was:
    the bitmap block in particular is restored bit for bit. *)
Theorem balloc_bfree_roundtrip (G : geom) (sb : superblock) (t : St) (ic : list inode)
    (V : Z -> list Z) (L : list Z) :
  layout G sb -> bk_ok G t (mkbabs V [] L) -> meta_used sb V -> (length L + 3 <= g_cap G)%nat ->
  (exists c, 0 <= c < sb_size sb /\ used sb V c = false) ->
  exists b t' V' L', (b ← balloc ROOTDEV; bfree ROOTDEV b ;; mret b) (mkfsys t ic sb) =
      Ret b (mkfsys t' ic sb) /\
    bk_ok G t' (mkbabs V' [] L') /\ forall m, m <> b -> V' m = V m.
Proof.
  intros HY Hok Hmu HL Hfree.
  assert (Hw : wp (b ← balloc ROOTDEV; bfree ROOTDEV b ;; mret b) (mkfsys t ic sb)
    (fun b s' => exists t' V' L', s' = mkfsys t' ic sb /\ bk_ok G t' (mkbabs V' [] L') /\
       forall m, m <> b -> V' m = V m)).
  { fs_step. eapply wp_balloc; try done; [set_solver|cbn; lia|lia|].
    intros b t1 Hd Hu _ Hok1.
    assert (Hbs : 0 <= b < sb_size sb).
    { destruct (data_home G sb HY b Hd) as [_ ?]. destruct HY as [[-> _] _ _ _]. lia. }
    destruct (BBLOCK_ok G sb HY b Hbs) as (_ & _ & Hnd & _).
    assert (Hne : BBLOCK b sb <> b) by (intros E; by rewrite E in Hnd).
    assert (Hblk : block_ok (V (BBLOCK b sb)))
      by (eapply bk_block_ok; [exact Hok|by apply (BBLOCK_home G sb HY)]).
    fs_step. eapply wp_bfree; [exact HY|exact Hok1|set_solver|cbn; lia| |done| |].
    - pose proof (length_log_add b (log_add (BBLOCK b sb) L)).
      pose proof (length_log_add (BBLOCK b sb) L). lia.
    - rewrite (alloc_used G sb HY), decide_True by done. done.
    - intros t2 Hok2. fs_step. do 3 eexists. split_and!; [reflexivity|exact Hok2|].
      intros m Hm. unfold free_view, alloc_view, upd. rewrite (decide_False (P := BBLOCK b sb = b)) by done.
      rewrite (decide_True (P := BBLOCK b sb = BBLOCK b sb)) by done.
      destruct (decide (m = BBLOCK b sb)) as [->|].
      + apply bits_set_clear; [done|]. unfold used in Hu. by apply negb_false_iff in Hu.
      + by rewrite decide_False. }
  apply wp_elim in Hw as (b & s' & R & t' & V' & L' & -> & Hok' & Hv). by exists b, t', V', L'.
Qed.

(** iget returns the slot that caches the inode, or the first free slot
    with the inode put in it unread; the slot's reference count goes up by
    one, the other slots are untouched, and no inode is ever cached twice.
    With neither it panics. *)
Theorem iget_unique (t : St) (ic : list inode) (sb : superblock) (dev inum : Z) :
  ic_ok ic ->
  if decide (Exists (fun ip => caches dev inum ip \/ i_ref ip = 0) ic)
  then exists i ic' ip, iget dev inum (mkfsys t ic sb) = Ret i (mkfsys t ic' sb) /\
    ic_ok ic' /\ ic' !! i = Some ip /\ caches dev inum ip /\
    (forall j, j <> i -> ic' !! j = ic !! j) /\
    i_ref ip = (default 0 (i_ref <$> ic !! i)) + 1
  else iget dev inum (mkfsys t ic sb) = Panic "iget: no inodes".
Proof.
  intros Hic. case_decide as Hex.
  - assert (Hw : wp (iget dev inum) (mkfsys t ic sb) (fun i s' => exists ic',
      s' = mkfsys t ic' sb /\ igot dev inum ic i ic'))
      by (apply wp_iget; [done|]; intros i ic' Hg; by exists ic').
    apply wp_elim in Hw as (i & s' & R & ic' & -> & Hg).
    destruct (igot_ok dev inum ic i ic' Hic Hg) as (H1 & (ip & H2 & H3) & H4).
    exists i, ic', ip. split_and!; try done.
    destruct Hg as (ip0 & Hi & Hg). pose proof (lookup_lt_Some _ _ _ Hi).
    rewrite Hi. cbn. destruct Hg as [[_ ->]|(Hz & _ & ->)];
      rewrite list_lookup_insert_eq in H2 by done; injection H2 as <-; cbn; lia.
  - unfold iget. erewrite bind_ret by reflexivity. cbn [icache].
    pose proof (iget_scan_spec ic dev inum 0 None) as Hs.
    destruct (iget_scan ic dev inum 0 None) as [i|[i|]]; [..|done]; exfalso; apply Hex.
    + destruct Hs as (ip & _ & Hi & Hc). apply Exists_exists. exists ip.
      split; [by eapply list_elem_of_lookup_2|by left].
    + destruct Hs as (_ & ip & _ & Hi & Hc). apply Exists_exists. exists ip.
      split; [by eapply list_elem_of_lookup_2|by right].
Qed.

(** ialloc returns a reference to the first free inode, gives it its
    type and zeroes the rest of it on disk, leaves the other inodes and every
    other block alone, and keeps the inode cache free of duplicates. *)
Theorem ialloc_first_free (G : geom) (sb : superblock) (t : St) (ic : list inode)
    (V : Z -> list Z) (L : list Z) (type : Z) :
  layout G sb -> bk_ok G t (mkbabs V [] L) -> (length L < g_cap G)%nat ->
  ic_ok ic -> Exists (fun ip => i_ref ip = 0) ic -> -32768 <= type < 32768 ->
  (exists j, 1 <= j < sb_ninodes sb /\ di_type (dinode_at sb V j) = 0) ->
  exists n i ip t' ic' V' L', ialloc ROOTDEV type (mkfsys t ic sb) = Ret i (mkfsys t' ic' sb) /\
    1 <= n < sb_ninodes sb /\ di_type (dinode_at sb V n) = 0 /\
    (forall j, 1 <= j < n -> di_type (dinode_at sb V j) <> 0) /\
    ic_ok ic' /\ ic' !! i = Some ip /\ caches ROOTDEV n ip /\
    bk_ok G t' (mkbabs V' [] L') /\
    (forall j, 0 <= j < sb_ninodes sb -> dinode_at sb V' j =
      if decide (j = n) then new_dinode type else dinode_at sb V j) /\
    (forall m, m <> IBLOCK n sb -> V' m = V m).
Proof.
  intros HY Hok HL Hic Hslot Hty Hfree.
  assert (Hw : wp (ialloc ROOTDEV type) (mkfsys t ic sb) (fun i s' => exists n t' ic',
    s' = mkfsys t' ic' sb /\ 1 <= n < sb_ninodes sb /\ di_type (dinode_at sb V n) = 0 /\
    (forall j, 1 <= j < n -> di_type (dinode_at sb V j) <> 0) /\
    bk_ok G t' (mkbabs (ialloc_view sb V n type) [] (log_add (IBLOCK n sb) L)) /\
    igot ROOTDEV n ic i ic')).
  { unfold ialloc. fs_steps. eapply wp_ialloc_loop; try done; [set_solver|cbn; lia|lia|lia| |].
    - intros n. eapply Exists_impl; [exact Hslot|]. auto.
    - intros n i ic' t' H1 H2 H3 H4 H5. exists n, t', ic'. done. }
  apply wp_elim in Hw as (i & s' & R & n & t' & ic' & -> & Hn & Hz & Hp & Hok' & Hg).
  destruct (igot_ok _ _ _ _ _ Hic Hg) as (H1 & (ip & H2 & H3) & _).
  exists n, i, ip, t', ic', (ialloc_view sb V n type), (log_add (IBLOCK n sb) L).
  split_and!; try done; try lia.
  - intros j Hj. apply (ialloc_dinode G sb HY); [|done|lia|done].
    eapply bk_block_ok; [exact Hok|]. apply (IBLOCK_home G sb HY). lia.
  - intros m Hm. unfold ialloc_view, upd. by rewrite decide_False.
Qed.

(** An inode survives the disk: after iupdate writes it, ilock of an
    entry that has not been read yet loads exactly what was written, and
    iupdate changes no other inode. *)
Theorem iupdate_ilock_roundtrip (G : geom) (sb : superblock) (t : St) (ic : list inode)
    (V : Z -> list Z) (L : list Z) (i j : nat) (ip jp : inode) :
  layout G sb -> bk_ok G t (mkbabs V [] L) -> (length L < g_cap G)%nat -> i <> j ->
  ic !! i = Some ip -> i_dev ip = ROOTDEV -> 0 <= i_inum ip < sb_ninodes sb ->
  dinode_ok (i_di ip) -> di_type (i_di ip) <> 0 ->
  ic !! j = Some jp -> 1 <= i_ref jp -> sl_locked (i_lock jp) = false -> i_valid jp = false ->
  i_dev jp = ROOTDEV -> i_inum jp = i_inum ip ->
  exists t' V' L', (iupdate i ;; ilock (Some j)) (mkfsys t ic sb) =
      Ret tt (mkfsys t' (<[j := mkinode ROOTDEV (i_inum ip) (i_ref jp) (mksl true (g_pid G)) true
        (i_di ip)]> ic) sb) /\
    bk_ok G t' (mkbabs V' [] L') /\
    forall k, 0 <= k < sb_ninodes sb -> k <> i_inum ip -> dinode_at sb V' k = dinode_at sb V k.
Proof.
  intros HY Hok HL Hij Hi Hd Hn Hok1 Hty Hj Hr Hlk Hv Hdj Hnj.
  assert (Hblk : block_ok (V (IBLOCK (i_inum ip) sb)))
    by (eapply bk_block_ok; [exact Hok|by apply (IBLOCK_home G sb HY)]).
  set (V' := iupd_view sb V (i_inum ip) (i_di ip)).
  assert (HV : forall k, 0 <= k < sb_ninodes sb -> dinode_at sb V' k =
    if decide (k = i_inum ip) then i_di ip else dinode_at sb V k)
    by (intros k Hk; by apply (iupd_dinode G)).
  assert (Hw : wp (iupdate i ;; ilock (Some j)) (mkfsys t ic sb) (fun _ s' => exists t',
    s' = mkfsys t' (<[j := ilocked G sb V' jp]> ic) sb /\
    bk_ok G t' (mkbabs V' [] (log_add (IBLOCK (i_inum ip) sb) L)))).
  { fs_step. eapply wp_iupdate; [done|exact Hok|exact Hi|done|done|set_solver|cbn; lia|done|].
    intros t1 Hok1'. eapply wp_ilock; [done|exact Hok1'|exact Hj|done|done|done|lia|set_solver|cbn; lia| |eauto].
    intros _. rewrite Hnj, HV, decide_True by done. done. }
  apply wp_elim in Hw as ([] & s' & R & t' & -> & Hok').
  exists t', V', (log_add (IBLOCK (i_inum ip) sb) L). split_and!; [|done|].
  - rewrite R. unfold ilocked. rewrite Hv, Hdj, Hnj, HV, decide_True by done. done.
  - intros k Hk Hne. by rewrite HV, decide_False by done.
Qed.

End Properties.

(** ** The properties at the small file system *)

Definition fs_ic : list inode := replicate NINODE inode0.

Lemma fs_ic_ok : ic_ok fs_ic.
Proof.
  split_and!; [apply length_replicate|apply Forall_replicate; cbn; lia|].
  intros i j ip jp Hi _ (Hr & _). apply lookup_replicate in Hi as [-> _]. cbn in Hr. lia.
Qed.

Lemma fs_has_free : exists c, 0 <= c < sb_size fs_sb /\ used fs_sb fs_V c = false.
Proof. exists 37. split; [split; reflexivity || discriminate|]. by rewrite fs_used. Qed.

Lemma balloc_first_free_witness : exists (t t' : lst) b V' L',
  balloc ROOTDEV (mkfsys t fs_ic fs_sb) = Ret b (mkfsys t' fs_ic fs_sb) /\
  bk_ok fs_G t' (mkbabs V' [] L') /\ V' b = replicate BSIZE 0.
Proof.
  destruct fs_boot as (t & Hok).
  destruct (balloc_first_free fs_G fs_sb t fs_ic fs_V [] [] fs_layout Hok fs_meta_used)
    as [_ Hb]; [intros b Hb; by apply not_elem_of_nil in Hb|cbn; lia|cbn; lia|].
  destruct (Hb fs_has_free) as (b & t' & V' & L' & R & _ & _ & _ & Hok' & Hz & _).
  exists t, t', b, V', L'. split; [exact R|]. split; [exact Hok'|exact Hz].
Defined.

Lemma balloc_bfree_roundtrip_witness : exists (t t' : lst) b,
  (b ← balloc ROOTDEV; bfree ROOTDEV b ;; mret b) (mkfsys t fs_ic fs_sb) =
  Ret b (mkfsys t' fs_ic fs_sb).
Proof.
  destruct fs_boot as (t & Hok).
  destruct (balloc_bfree_roundtrip fs_G fs_sb t fs_ic fs_V [] fs_layout Hok fs_meta_used)
    as (b & t' & V' & L' & R & _); [cbn; lia|exact fs_has_free|].
  exists t, t', b. exact R.
Defined.

Lemma iget_unique_witness : exists (t : lst) i ic',
  iget 1 5 (mkfsys t fs_ic fs_sb) = Ret i (mkfsys t ic' fs_sb) /\ ic_ok ic'.
Proof.
  destruct fs_boot as (t & Hok). pose proof (iget_unique t fs_ic fs_sb 1 5 fs_ic_ok) as Hi.
  rewrite decide_True in Hi.
  - destruct Hi as (i & ic' & ip & R & Hic & _). exists t, i, ic'. split; [exact R|exact Hic].
  - apply Exists_exists. exists inode0. split; [|by right].
    apply list_elem_of_lookup_2 with 0%nat. reflexivity.
Defined.

Lemma ialloc_first_free_witness : exists (t t' : lst) i ic',
  ialloc ROOTDEV T_FILE (mkfsys t fs_ic fs_sb) = Ret i (mkfsys t' ic' fs_sb).
Proof.
  destruct fs_boot as (t & Hok).
  destruct (ialloc_first_free fs_G fs_sb t fs_ic fs_V [] T_FILE fs_layout Hok)
    as (n & i & ip & t' & ic' & V' & L' & R & _).
  - cbn. lia.
  - exact fs_ic_ok.
  - apply Exists_exists. exists inode0. split; [|done].
    apply list_elem_of_lookup_2 with 0%nat. reflexivity.
  - unfold T_FILE. lia.
  - exists 2. split; [split; reflexivity || discriminate|reflexivity].
  - exists t, t', i, ic'. exact R.
Defined.

(** Slot 0 holds inode 3, changed in memory; slot 1 the same inode, unread. *)
Definition demo_di : dinode := mkdinode T_FILE 0 0 1 700 (40 :: 41 :: replicate 11 0).
Definition demo_ic : list inode :=
  mkinode 1 3 1 (mksl true 1) true demo_di :: mkinode 1 3 1 sl0 false dinode0 :: fs_ic.

Lemma demo_di_ok : dinode_ok demo_di.
Proof.
  unfold dinode_ok, demo_di, T_FILE. cbn [di_type di_major di_minor di_nlink di_size di_addrs].
  split_and!; try lia; [reflexivity|]. repeat (apply Forall_cons_2; [lia|]). apply Forall_nil_2.
Qed.

Lemma iupdate_ilock_roundtrip_witness : exists (t t' : lst) ic',
  (iupdate 0 ;; ilock (Some 1%nat)) (mkfsys t demo_ic fs_sb) = Ret tt (mkfsys t' ic' fs_sb) /\
  i_di (ic' !!! 1%nat) = demo_di.
Proof.
  destruct fs_boot as (t & Hok).
  destruct (iupdate_ilock_roundtrip fs_G fs_sb t demo_ic fs_V [] 0 1
    (mkinode 1 3 1 (mksl true 1) true demo_di) (mkinode 1 3 1 sl0 false dinode0) fs_layout Hok)
    as (t' & V' & L' & R & _); try reflexivity; try exact demo_di_ok; try (cbn; lia);
    try discriminate; try (split; reflexivity || discriminate).
  eexists t, t', _. split; [exact R|reflexivity].
Defined.
