(* ===== verification/FsFile.v ===== *)
(** * File contents: theorems about fs.c, part 2

    [addr_of] is the block map of an inode (12 direct addresses and an
    indirect block), [file_byte] the byte at an offset, zero where no block
    is allocated.  [inode_wf] says that the blocks of a file are data blocks
    in use, all different.  bmap keeps the contents and the well-formedness
    while it allocates; readi returns the bytes of the file; writei changes
    exactly the bytes it is given, and the log holds at most one block per
    data block written, the indirect block, the bitmap block and the inode's
    block. *)

From stdpp Require Import base list list_numbers sets strings.
From Stdlib Require Import ZArith Lia.
From S2P Require Import Prelude CString Proc Bio Log Block Fs FsBlocks.

Local Open Scope Z_scope.

(** ** The block map *)

Definition ind_addr (x : dinode) : Z := di_addrs x !!! 12%nat.

Definition addr_of (V : Z -> list Z) (x : dinode) (bn : Z) : Z :=
  if bn <? NDIRECT then di_addrs x !!! Z.to_nat bn
  else if ind_addr x =? 0 then 0
  else get_le 4 (V (ind_addr x)) (Z.to_nat (4 * (bn - NDIRECT))).

Definition zero_blk : list Z := replicate BSIZE 0.

(** Block [bn] of the file. *)
Definition fblock (V : Z -> list Z) (x : dinode) (bn : Z) : list Z :=
  if addr_of V x bn =? 0 then zero_blk else V (addr_of V x bn).

Definition file_byte (V : Z -> list Z) (x : dinode) (off : Z) : Z :=
  fblock V x (off / 512) !!! Z.to_nat (off mod 512).

Definition in_file (bn : Z) : Prop := 0 <= bn < MAXFILE.

Record inode_wf (sb : superblock) (V : Z -> list Z) (x : dinode) : Prop := mkwf {
  wf_len : length (di_addrs x) = 13%nat;
  wf_data : forall bn, in_file bn -> addr_of V x bn <> 0 ->
    data_block sb (addr_of V x bn) /\ used sb V (addr_of V x bn) = true;
  wf_ind : ind_addr x <> 0 -> data_block sb (ind_addr x) /\ used sb V (ind_addr x) = true;
  wf_inj : forall bn bn', in_file bn -> in_file bn' -> addr_of V x bn <> 0 ->
    addr_of V x bn = addr_of V x bn' -> bn = bn';
  wf_ind_ne : forall bn, in_file bn -> addr_of V x bn <> 0 -> addr_of V x bn <> ind_addr x }.

(** The blocks of a file, its indirect block included; two files that share
    none. *)
Definition owns (V : Z -> list Z) (x : dinode) (m : Z) : Prop :=
  (exists bn, in_file bn /\ addr_of V x bn = m) \/ ind_addr x = m.
Definition apart (sb : superblock) (V : Z -> list Z) (x y : dinode) : Prop :=
  forall m, data_block sb m -> owns V x m -> ~ owns V y m.

(** No data block before the end of the file is missing. *)
Definition no_holes (V : Z -> list Z) (x : dinode) : Prop :=
  forall bn, 0 <= bn -> bn * 512 < di_size x -> addr_of V x bn <> 0.

(** ** Free blocks *)

Definition nfree (sb : superblock) (V : Z -> list Z) : nat :=
  length (filter (fun b => used sb V b = false) (seqZ 0 (sb_size sb))).

Lemma nfree_pos sb V :
  (0 < nfree sb V)%nat -> exists c, 0 <= c < sb_size sb /\ used sb V c = false.
Proof.
  unfold nfree. intros H. destruct (filter _ _) as [|c l] eqn:E; [cbn in H; lia|].
  assert (Hc : c ∈ filter (fun b => used sb V b = false) (seqZ 0 (sb_size sb)))
    by (rewrite E; set_solver).
  apply list_elem_of_filter in Hc as [Hu Hc]. apply elem_of_seqZ in Hc. exists c. split; [lia|done].
Qed.

Lemma filter_drop_one (P Q : Z -> Prop) `{!forall x, Decision (P x), !forall x, Decision (Q x)} c l :
  NoDup l -> c ∈ l -> P c -> (forall x, x ∈ l -> Q x <-> P x /\ x <> c) ->
  length (filter P l) = S (length (filter Q l)).
Proof.
  induction l as [|x l IH]; intros Hnd Hc Hp HQ; [by apply not_elem_of_nil in Hc|].
  apply NoDup_cons in Hnd as [Hx Hnd]. rewrite !filter_cons.
  destruct (decide (x = c)) as [->|Hne].
  - rewrite (decide_True (P := P c)) by done.
    rewrite (decide_False (P := Q c)) by (rewrite HQ by set_solver; naive_solver).
    cbn [length]. f_equal. f_equal.
    clear -HQ Hx. induction l as [|y l IH]; [done|]. rewrite !filter_cons.
    assert (Hy : Q y <-> P y).
    { rewrite HQ by set_solver. split; [naive_solver|]. intros ?. split; [done|]. set_solver. }
    destruct (decide (P y)), (decide (Q y)); try tauto; f_equal; apply IH; set_solver.
  - assert (Hi : Q x <-> P x) by (rewrite HQ by set_solver; naive_solver).
    assert (Hl : length (filter P l) = S (length (filter Q l))) by (apply IH; set_solver).
    destruct (decide (P x)), (decide (Q x)); try tauto; cbn; lia.
Qed.

Section Views.
Context (G : geom) (sb : superblock).
Hypothesis HY : layout G sb.
Implicit Types (V : Z -> list Z) (x : dinode).

Lemma data_range b : data_block sb b -> 0 < b < sb_size sb.
Proof using HY.
  intros Hb. destruct (data_home G sb HY b Hb) as [_ Hr]. destruct HY as [[E _] (H1 & H2 & H3) H4 _].
  unfold data_block, IPB, BPB in *. assert (0 <= sb_size sb / 4096) by zdiv.
  assert (0 <= sb_ninodes sb / 8) by zdiv. lia.
Qed.

Lemma data_not_bitmap b c : data_block sb b -> 0 <= c < sb_size sb -> b <> BBLOCK c sb.
Proof using HY.
  intros Hb Hc ->. by destruct (BBLOCK_ok G sb HY c Hc) as (_ & _ & ? & _).
Qed.

(** *** Allocating block [c] *)

Section AllocView.
Context (V : Z -> list Z) (c : Z).
Hypothesis Hc : data_block sb c.
Hypothesis Hfree : used sb V c = false.
Hypothesis HV : forall b, 0 <= b < sb_size sb -> block_ok (V b).
Let V1 := alloc_view sb V c.

Lemma alloc_same m : m <> c -> m <> BBLOCK c sb -> V1 m = V m.
Proof using. intros. unfold V1, alloc_view, upd. by rewrite !decide_False. Qed.

Lemma alloc_zero : V1 c = zero_blk.
Proof using. unfold V1, alloc_view, upd. by rewrite decide_True. Qed.

Lemma alloc_used_iff b : 0 <= b < sb_size sb ->
  used sb V1 b = if decide (b = c) then true else used sb V b.
Proof using HY Hc HV.
  intros Hb. apply (alloc_used G sb HY); [|done..].
  pose proof (data_range c Hc). destruct (BBLOCK_ok G sb HY c ltac:(lia)) as (_ & ? & _).
  apply HV. destruct HY as [_ (H1 & _) _ _]. lia.
Qed.

(** A data block in use is not touched. *)
Lemma alloc_keep b : data_block sb b -> used sb V b = true -> V1 b = V b /\ b <> c /\ used sb V1 b = true.
Proof using HY Hc Hfree HV.
  intros Hb Hu. pose proof (data_range c Hc). pose proof (data_range b Hb).
  assert (b <> c) by congruence. split_and!; [|done|].
  - apply alloc_same; [done|]. apply data_not_bitmap; [done|lia].
  - rewrite alloc_used_iff by lia. by rewrite decide_False.
Qed.

Lemma alloc_meta : meta_used sb V -> meta_used sb V1.
Proof using HY Hc HV.
  intros Hm b Hb Hd. rewrite alloc_used_iff by done. case_decide; [done|]. by apply Hm.
Qed.

Lemma alloc_nfree : nfree sb V = S (nfree sb V1).
Proof using HY Hc Hfree HV.
  unfold nfree. apply (filter_drop_one _ _ c); [apply NoDup_seqZ| |done|].
  - apply elem_of_seqZ. pose proof (data_range c Hc). lia.
  - intros b Hb. apply elem_of_seqZ in Hb. rewrite alloc_used_iff by lia.
    case_decide as Hbc; [|tauto]. split; [done|]. intros [_ ?]. done.
Qed.

Lemma alloc_addr x bn : inode_wf sb V x -> addr_of V1 x bn = addr_of V x bn.
Proof using HY Hc Hfree HV.
  intros Hx. unfold addr_of. destruct (bn <? NDIRECT); [done|].
  destruct (Z.eqb_spec (ind_addr x) 0) as [E|E]; [done|].
  destruct (wf_ind _ _ _ Hx E) as [H1 H2]. by destruct (alloc_keep _ H1 H2) as (-> & _).
Qed.

Lemma alloc_fblock x bn : inode_wf sb V x -> in_file bn -> fblock V1 x bn = fblock V x bn.
Proof using HY Hc Hfree HV.
  intros Hx Hbn. unfold fblock. rewrite alloc_addr by done.
  destruct (Z.eqb_spec (addr_of V x bn) 0) as [E|E]; [done|].
  destruct (wf_data _ _ _ Hx bn Hbn E) as [H1 H2]. by destruct (alloc_keep _ H1 H2) as (-> & _).
Qed.

Lemma alloc_wf x : inode_wf sb V x -> inode_wf sb V1 x.
Proof using HY Hc Hfree HV.
  intros Hx. split; [apply Hx|..].
  - intros bn Hbn. rewrite alloc_addr by done. intros Hne. destruct (wf_data _ _ _ Hx bn Hbn Hne).
    split; [done|]. by apply alloc_keep.
  - intros Hne. destruct (wf_ind _ _ _ Hx Hne). split; [done|]. by apply alloc_keep.
  - intros bn bn' Hb Hb'. rewrite !alloc_addr by done. by apply Hx.
  - intros bn Hbn. rewrite alloc_addr by done. by apply Hx.
Qed.

(** The new block is not one of the file's. *)
Lemma alloc_new x bn : inode_wf sb V x -> in_file bn -> addr_of V x bn <> c /\ ind_addr x <> c.
Proof using HY Hc Hfree HV.
  intros Hx Hbn. pose proof (data_range c Hc). split; intros E.
  - destruct (wf_data _ _ _ Hx bn Hbn) as [_ Hu]; [lia|]. congruence.
  - destruct (wf_ind _ _ _ Hx) as [_ Hu]; [lia|]. congruence.
Qed.

End AllocView.

(** *** A file that grows: the same contents, perhaps more blocks *)

Record grows (V : Z -> list Z) (x : dinode) (V' : Z -> list Z) (x' : dinode) (k : nat) : Prop :=
  mkgrows {
  gr_fields : x' = set_addrs (di_addrs x') x;
  gr_wf : inode_wf sb V' x';
  gr_meta : meta_used sb V';
  gr_fblock : forall bn, in_file bn -> fblock V' x' bn = fblock V x bn;
  gr_addr : forall bn, in_file bn -> addr_of V x bn <> 0 -> addr_of V' x' bn = addr_of V x bn;
  gr_ind : ind_addr x <> 0 -> ind_addr x' = ind_addr x;
  gr_frame : forall m, (ind_addr x' <> 0 -> m <> ind_addr x') -> (forall c, 0 <= c < sb_size sb -> m <> BBLOCK c sb) ->
    (data_block sb m -> used sb V m = true) -> V' m = V m;
  gr_used : forall b, 0 <= b < sb_size sb -> used sb V b = true -> used sb V' b = true;
  gr_free : (nfree sb V <= nfree sb V' + k)%nat;
  gr_own : forall m, 0 <= m < sb_size sb -> used sb V m = true -> owns V' x' m -> owns V x m }.

Lemma grows_refl V x : inode_wf sb V x -> meta_used sb V -> grows V x V x 0.
Proof using. intros. split; try done; [by destruct x|lia]. Qed.

Lemma grows_trans V x V1 x1 V2 x2 k1 k2 :
  grows V x V1 x1 k1 -> grows V1 x1 V2 x2 k2 -> grows V x V2 x2 (k1 + k2).
Proof using HY.
  intros [A1 A2 A3 A4 A5 A6 A7 A8 A9 A10] [B1 B2 B3 B4 B5 B6 B7 B8 B9 B10]. split; try done.
  - rewrite B1, A1. by destruct x.
  - intros bn Hbn. by rewrite B4, A4.
  - intros bn Hbn Hne. rewrite B5, A5; [done|done|done|done|]. by rewrite A5.
  - intros Hne. rewrite B6, A6; try done. by rewrite A6.
  - intros m Hm1 Hm2 Hm3. rewrite B7; [apply A7|..]; try done.
    + intros E. rewrite <- B6 by done. apply Hm1. by rewrite B6.
    + intros Hd. apply A8; [pose proof (data_range m Hd); lia|auto].
  - auto.
  - lia.
  - auto.
Qed.

Lemma addr_set_direct V x k c bn :
  (k < 12)%nat -> length (di_addrs x) = 13%nat -> 0 <= bn ->
  addr_of V (set_addrs (<[k := c]> (di_addrs x)) x) bn =
    if decide (bn = Z.of_nat k) then c else addr_of V x bn.
Proof using.
  intros Hk Hl Hbn. unfold addr_of, ind_addr, NDIRECT. cbn [di_addrs set_addrs].
  rewrite (list_lookup_total_insert_ne _ _ 12) by lia.
  destruct (Z.ltb_spec bn 12).
  - case_decide as E.
    + subst bn. rewrite Nat2Z.id. rewrite list_lookup_total_insert_eq by lia. done.
    + rewrite list_lookup_total_insert_ne by lia. done.
  - rewrite decide_False by lia. done.
Qed.

Lemma grow_direct V x k c :
  inode_wf sb V x -> meta_used sb V -> (forall b, 0 <= b < sb_size sb -> block_ok (V b)) ->
  (k < 12)%nat -> addr_of V x (Z.of_nat k) = 0 -> data_block sb c -> used sb V c = false ->
  let V1 := alloc_view sb V c in
  let x1 := set_addrs (<[k := c]> (di_addrs x)) x in
  grows V x V1 x1 1 /\ addr_of V1 x1 (Z.of_nat k) = c.
Proof using HY.
  intros Hx Hm HV Hk Hz Hc Hf V1 x1. pose proof (data_range c Hc) as Hcr.
  assert (Ha : forall bn, 0 <= bn -> addr_of V1 x1 bn = if decide (bn = Z.of_nat k) then c else addr_of V x bn).
  { intros bn Hbn. unfold x1. rewrite addr_set_direct by (done || apply Hx).
    case_decide; [done|]. by apply alloc_addr. }
  assert (Hi : ind_addr x1 = ind_addr x)
    by (unfold ind_addr; cbn; by rewrite list_lookup_total_insert_ne by lia).
  pose proof (alloc_wf V c Hc Hf HV x Hx) as Hx1.
  assert (Hnew : forall bn, in_file bn -> addr_of V x bn <> c /\ ind_addr x <> c)
    by (intros; by apply (alloc_new V)).
  split; [|rewrite Ha by lia; by rewrite decide_True]. split; try done.
  - split.
    + cbn. rewrite length_insert. apply Hx.
    + intros bn [Hb0 Hb1]. rewrite Ha by done. case_decide as E.
      * intros _. split; [done|]. unfold V1. rewrite (alloc_used_iff V c) by (done || lia). by rewrite decide_True.
      * intros Hne. destruct (wf_data _ _ _ Hx bn (conj Hb0 Hb1) Hne). split; [done|]. by apply alloc_keep.
    + rewrite Hi. apply Hx1.
    + intros bn bn' [Hb0 Hb1] [Hb0' Hb1']. rewrite !Ha by done. repeat case_decide; subst; try done.
      * intros _ E. by destruct (Hnew bn' (conj Hb0' Hb1')).
      * intros _ E. by destruct (Hnew bn (conj Hb0 Hb1)).
      * by apply Hx.
    + intros bn [Hb0 Hb1]. rewrite Ha, Hi by done. case_decide; [|by apply Hx].
      intros _ E. by destruct (Hnew bn (conj Hb0 Hb1)).
  - by apply alloc_meta.
  - intros bn Hbn. unfold fblock. rewrite Ha by apply Hbn. destruct (decide (bn = Z.of_nat k)) as [->|].
    + rewrite Hz, Z.eqb_refl, (proj2 (Z.eqb_neq _ _)) by lia. apply alloc_zero.
    + pose proof (alloc_fblock V c Hc Hf HV x bn Hx Hbn) as E. unfold fblock in E.
      by rewrite alloc_addr in E.
  - intros bn Hbn Hne. rewrite Ha by apply Hbn. rewrite decide_False; [done|]. intros ->. done.
  - intros m _ Hm2 Hm3. apply alloc_same; [intros ->|apply Hm2; lia].
    rewrite Hm3 in Hf by done. done.
  - intros b Hb Hu. unfold V1. rewrite (alloc_used_iff V c) by done. by case_decide.
  - pose proof (alloc_nfree V c Hc Hf HV). unfold V1. lia.
  - intros m _ Hu [(bn & Hbn & E)|E]; [|right; by rewrite <- Hi]. rewrite Ha in E by apply Hbn. case_decide; [congruence|]. left. by exists bn.
Qed.

Lemma get_zero_blk w o : (o + w <= BSIZE)%nat -> get_le w zero_blk o = 0.
Proof using.
  revert o; induction w as [|w IH]; intros o Ho; cbn [get_le]; [done|]. rewrite IH by lia.
  unfold zero_blk. rewrite list_lookup_total_alt, lookup_replicate_2 by lia. done.
Qed.

(** An empty indirect block. *)
Lemma grow_ind V x c :
  inode_wf sb V x -> meta_used sb V -> (forall b, 0 <= b < sb_size sb -> block_ok (V b)) ->
  ind_addr x = 0 -> data_block sb c -> used sb V c = false ->
  let V1 := alloc_view sb V c in
  let x1 := set_addrs (<[12%nat := c]> (di_addrs x)) x in
  grows V x V1 x1 1 /\ ind_addr x1 = c.
Proof using HY.
  intros Hx Hm HV Hz Hc Hf V1 x1. pose proof (data_range c Hc) as Hcr.
  assert (Hi : ind_addr x1 = c).
  { unfold ind_addr. cbn. rewrite list_lookup_total_insert_eq; [done|]. rewrite (wf_len _ _ _ Hx). lia. }
  assert (Ha : forall bn, in_file bn -> addr_of V1 x1 bn = addr_of V x bn).
  { intros bn [Hb0 Hb1]. unfold MAXFILE, NINDIRECT in *. unfold addr_of. rewrite Hi, Hz, Z.eqb_refl.
    destruct (Z.ltb_spec bn NDIRECT) as [Hb|Hb]; unfold NDIRECT in *.
    - cbn. rewrite list_lookup_total_insert_ne by lia. done.
    - rewrite (proj2 (Z.eqb_neq _ _)) by lia. unfold V1. rewrite alloc_zero.
      apply get_zero_blk. unfold BSIZE. lia. }
  pose proof (alloc_wf V c Hc Hf HV x Hx) as Hx1.
  assert (Hnew : forall bn, in_file bn -> addr_of V x bn <> c) by (intros; by apply (alloc_new V)).
  split; [|done]. split; try done.
  - split.
    + cbn. rewrite length_insert. apply Hx.
    + intros bn Hbn. rewrite Ha by done. intros Hne. destruct (wf_data _ _ _ Hx bn Hbn Hne).
      split; [done|]. by apply alloc_keep.
    + rewrite Hi. intros _. split; [done|]. unfold V1.
      rewrite (alloc_used_iff V c) by (done || lia). by rewrite decide_True.
    + intros bn bn' Hb Hb'. rewrite !Ha by done. by apply Hx.
    + intros bn Hbn. rewrite Ha, Hi by done. intros _. by apply Hnew.
  - by apply alloc_meta.
  - intros bn Hbn. pose proof (alloc_fblock V c Hc Hf HV x bn Hx Hbn) as E. unfold fblock in *.
    rewrite alloc_addr in E by done. by rewrite Ha.
  - intros bn Hbn _. by apply Ha.
  - intros m _ Hm2 Hm3. apply alloc_same; [intros ->|apply Hm2; lia].
    rewrite Hm3 in Hf by done. done.
  - intros b Hb Hu. unfold V1. rewrite (alloc_used_iff V c) by done. by case_decide.
  - pose proof (alloc_nfree V c Hc Hf HV). unfold V1. lia.
  - intros m _ Hu [(bn & Hbn & E)|E]; [|congruence]. rewrite Ha in E by done. left. by exists bn.
Qed.

(** *** A change to a data block *)

Lemma used_data_upd V b d c : data_block sb b -> 0 <= c < sb_size sb ->
  used sb (upd V b d) c = used sb V c.
Proof using HY.
  intros Hb Hc. apply used_upd_other. intros E.
  apply (data_not_bitmap b c); [done|done|]. by symmetry.
Qed.

Lemma nfree_ext V V' :
  (forall b, 0 <= b < sb_size sb -> used sb V' b = used sb V b) -> nfree sb V' = nfree sb V.
Proof using.
  intros HE. unfold nfree. f_equal.
  assert (Hs : forall l, Forall (fun c => 0 <= c < sb_size sb) l ->
    filter (fun c => used sb V' c = false) l = filter (fun c => used sb V c = false) l).
  { induction l as [|c l IH]; intros Hl; [done|]. apply Forall_cons in Hl as [Hc Hl].
    rewrite !filter_cons, HE, IH by done. done. }
  apply Hs, Forall_forall. intros c Hc. apply elem_of_seqZ in Hc. lia.
Qed.

Lemma nfree_data_upd V b d : data_block sb b -> nfree sb (upd V b d) = nfree sb V.
Proof using HY. intros Hb. apply nfree_ext. intros c Hc. by apply used_data_upd. Qed.

Lemma meta_data_upd V b d : data_block sb b -> meta_used sb V -> meta_used sb (upd V b d).
Proof using HY. intros Hb Hm c Hc Hd. rewrite used_data_upd by done. by apply Hm. Qed.

(** A new entry of the indirect block. *)
Lemma grow_entry V x c bn :
  inode_wf sb V x -> meta_used sb V -> (forall b, 0 <= b < sb_size sb -> block_ok (V b)) ->
  ind_addr x <> 0 -> NDIRECT <= bn < MAXFILE -> addr_of V x bn = 0 ->
  data_block sb c -> used sb V c = false ->
  let V1 := alloc_view sb V c in
  let V2 := upd V1 (ind_addr x) (put_le 4 c (V1 (ind_addr x)) (Z.to_nat (4 * (bn - NDIRECT)))) in
  grows V x V2 x 1 /\ addr_of V2 x bn = c /\ V1 (ind_addr x) = V (ind_addr x).
Proof using HY.
  intros Hx Hm HV Hi Hbn Hz Hc Hf V1 V2. pose proof (data_range c Hc) as Hcr.
  destruct (wf_ind _ _ _ Hx Hi) as [Hid Hiu].
  pose proof (alloc_keep V c Hc Hf HV _ Hid Hiu) as (Hi1 & Hic & Hiu1).
  pose proof (data_range _ Hid) as Hir. destruct (HV (ind_addr x) ltac:(lia)) as [Hil _].
  assert (Hsz : sb_size sb < 2 ^ 31) by apply HY.
  assert (Ha : forall k, in_file k -> addr_of V2 x k = if decide (k = bn) then c else addr_of V x k).
  { intros k Hk. unfold in_file, MAXFILE, NINDIRECT in *. unfold addr_of. rewrite (proj2 (Z.eqb_neq _ _)) by done.
    destruct (Z.ltb_spec k NDIRECT); [by rewrite decide_False by lia|].
    unfold V2, upd. rewrite (decide_True (P := ind_addr x = ind_addr x)) by done.
    unfold V1. rewrite Hi1. unfold NDIRECT, BSIZE in *. case_decide as E.
    - subst k. rewrite get_put_le_same by lia. apply u32_small. lia.
    - apply get_put_le_other. lia. }
  pose proof (alloc_wf V c Hc Hf HV x Hx) as Hx1.
  assert (Hnew : forall k, in_file k -> addr_of V x k <> c) by (intros; by apply (alloc_new V)).
  assert (Hbf : in_file bn) by (unfold in_file, NDIRECT in *; lia).
  assert (Hu2 : forall b, 0 <= b < sb_size sb -> used sb V2 b = used sb V1 b)
    by (intros; by apply used_data_upd).
  split; [|split; [rewrite Ha by done; by rewrite decide_True|exact Hi1]]. split; try done.
  - by destruct x.
  - split.
    + apply Hx.
    + intros k Hk. rewrite Ha by done. case_decide as E.
      * intros _. split; [done|]. rewrite Hu2 by lia. unfold V1.
        rewrite (alloc_used_iff V c) by (done || lia). by rewrite decide_True.
      * intros Hne. destruct (wf_data _ _ _ Hx k Hk Hne) as [Hkd Hku]. split; [done|].
        pose proof (data_range _ Hkd). rewrite Hu2 by lia. by apply alloc_keep.
    + intros _. split; [done|]. rewrite Hu2 by lia. done.
    + intros k k' Hk Hk'. rewrite !Ha by done. repeat case_decide; subst; try done.
      * intros _ E. by destruct (Hnew k' Hk').
      * intros _ E. by destruct (Hnew k Hk).
      * by apply Hx.
    + intros k Hk. rewrite Ha by done. case_decide; [congruence|by apply Hx].
  - apply meta_data_upd, alloc_meta; done.
  - intros k Hk. unfold fblock. rewrite Ha by done. destruct (decide (k = bn)) as [->|Hkb].
    + rewrite Hz, Z.eqb_refl, (proj2 (Z.eqb_neq _ _)) by lia. unfold V2, upd.
      rewrite decide_False by congruence. apply alloc_zero.
    + pose proof (alloc_fblock V c Hc Hf HV x k Hx Hk) as E. unfold fblock in E.
      rewrite alloc_addr in E by done. destruct (Z.eqb_spec (addr_of V x k) 0); [done|].
      unfold V2, upd. rewrite decide_False by (by apply Hx). exact E.
  - intros k Hk Hne. rewrite Ha by done. rewrite decide_False; [done|]. intros ->. done.
  - intros m Hm1 Hm2 Hm3. unfold V2, upd. rewrite decide_False by auto.
    apply alloc_same; [intros ->|apply Hm2; lia]. rewrite Hm3 in Hf by done. done.
  - intros b Hb Hu. rewrite Hu2 by done. unfold V1. rewrite (alloc_used_iff V c) by done. by case_decide.
  - unfold V2. rewrite nfree_data_upd by done. pose proof (alloc_nfree V c Hc Hf HV). unfold V1. lia.
  - intros m _ Hu [(k & Hk & E)|E]; [|by right]. rewrite Ha in E by done. case_decide; [congruence|]. left. by exists k.
Qed.

(** *** Writing into block [bn] of the file *)

Section WriteView.
Context (V : Z -> list Z) (x : dinode) (bn : Z) (d : list Z).
Hypothesis Hx : inode_wf sb V x.
Hypothesis Hbn : in_file bn.
Hypothesis Ha : addr_of V x bn <> 0.
Let V1 := upd V (addr_of V x bn) d.

Lemma write_addr k : addr_of V1 x k = addr_of V x k.
Proof using Hx Hbn Ha.
  unfold addr_of at 1 2. destruct (k <? NDIRECT); [done|]. destruct (_ =? 0); [done|].
  unfold V1, upd. rewrite decide_False; [done|]. apply not_eq_sym. by apply Hx.
Qed.

Lemma write_fblock k : in_file k -> fblock V1 x k = if decide (k = bn) then d else fblock V x k.
Proof using Hx Hbn Ha.
  intros Hk. unfold fblock. rewrite write_addr. destruct (decide (k = bn)) as [->|Hne].
  - rewrite (proj2 (Z.eqb_neq _ _)) by done. unfold V1, upd. by rewrite decide_True.
  - destruct (Z.eqb_spec (addr_of V x k) 0) as [|Hk0]; [done|]. unfold V1, upd.
    rewrite decide_False; [done|]. intros E. apply Hne. by apply Hx.
Qed.

Lemma write_wf : inode_wf sb V1 x.
Proof using HY Hx Hbn Ha.
  destruct (wf_data _ _ _ Hx bn Hbn Ha) as [Hd _].
  split; [apply Hx|..].
  - intros k Hk. rewrite write_addr. intros Hne. destruct (wf_data _ _ _ Hx k Hk Hne) as [H1 H2].
    split; [done|]. pose proof (data_range _ H1). unfold V1. rewrite used_data_upd; [done|done|lia].
  - intros Hne. destruct (wf_ind _ _ _ Hx Hne) as [H1 H2]. pose proof (data_range _ H1).
    split; [done|]. unfold V1. rewrite used_data_upd; [done|done|lia].
  - intros k k' Hk Hk'. rewrite !write_addr. by apply Hx.
  - intros k Hk. rewrite write_addr. by apply Hx.
Qed.
End WriteView.

End Views.

(** ** bmap *)

(** The blocks a step adds to the log are among [S]. *)
Definition logs (L L' S : list Z) : Prop :=
  NoDup L' /\ forall m, m ∈ L' -> m ∈ L \/ m ∈ S.

Lemma logs_refl L S : NoDup L -> logs L L S.
Proof. intros. split; auto. Qed.

Lemma logs_add L L' S b : logs L L' S -> b ∈ S -> logs L (log_add b L') S.
Proof.
  intros [H1 H2] Hb. split; [by apply log_add_nodup|].
  intros m Hm. apply log_add_elem in Hm as [Hm| ->]; auto.
Qed.

Lemma logs_trans L L1 L2 S1 S2 : logs L L1 S1 -> logs L1 L2 S2 -> logs L L2 (S1 ++ S2).
Proof. intros [H1 H2] [H3 H4]. split; [done|]. set_solver. Qed.

Lemma logs_weaken L L' S S' : logs L L' S -> S ⊆ S' -> logs L L' S'.
Proof. intros [H1 H2] Hs. split; [done|]. set_solver. Qed.

Lemma logs_length L L' S : logs L L' S -> (length L' <= length L + length S)%nat.
Proof.
  intros [Hnd Hin]. rewrite <- length_app. apply NoDup_incl_length.
  - by apply NoDup_ListNoDup.
  - intros m Hm. apply list_elem_of_In, elem_of_app, Hin. by apply list_elem_of_In.
Qed.

(** The indirect block of an inode, if it has one. *)
Definition ind_list (x : dinode) : list Z := if ind_addr x =? 0 then [] else [ind_addr x].

Lemma ind_list_in x : ind_addr x <> 0 -> ind_addr x ∈ ind_list x.
Proof. intros Hx. unfold ind_list. rewrite (proj2 (Z.eqb_neq _ _)) by done. set_solver. Qed.

Lemma length_ind_list x : (length (ind_list x) <= 1)%nat.
Proof. unfold ind_list. destruct (_ =? 0); cbn; lia. Qed.

Section Bmap.
Context {St : Type} {BO : BlockOps St} {BL : BlockLaws St}.
Context (G : geom) (sb : superblock).
Hypothesis HY : layout G sb.
(** The bitmap fits in one block, as it does for mkfs's 1000 blocks. *)
Hypothesis Hone : sb_size sb <= BPB.
Implicit Types (t : St) (V : Z -> list Z) (ic : list inode).

Lemma one_bitmap c : 0 <= c < sb_size sb -> BBLOCK c sb = sb_bmapstart sb.
Proof using HY Hone.
  intros Hc. destruct (BBLOCK_ok G sb HY c Hc) as [-> _]. unfold BPB in *. zdiv.
Qed.

Lemma view_blocks t V H L :
  bk_ok G t (mkbabs V H L) -> forall b, 0 <= b < sb_size sb -> block_ok (V b).
Proof using HY.
  intros Hok b Hb. eapply bk_block_ok; [exact Hok|]. destruct HY as [[<- _] _ _ _]. done.
Qed.

Lemma balloc_logs L c S :
  NoDup L -> data_block sb c -> sb_bmapstart sb ∈ S -> c ∈ S ->
  logs L (log_add c (log_add (BBLOCK c sb) L)) S.
Proof using HY Hone.
  intros. pose proof (data_range G sb HY c ltac:(done)).
  rewrite one_bitmap by lia. apply logs_add; [|done]. apply logs_add; [|done]. by apply logs_refl.
Qed.

(** What bmap promises: block [bn] is allocated, the contents are kept. *)
Definition bmap_post V x bn L (a : Z) V' x' L' : Prop :=
  grows sb V x V' x' 2 /\ a = addr_of V' x' bn /\ a <> 0 /\
  (addr_of V x bn <> 0 -> V' = V /\ x' = x /\ L' = L) /\
  logs L L' (sb_bmapstart sb :: a :: ind_list x').

Lemma bmap_hit V x bn L :
  inode_wf sb V x -> meta_used sb V -> NoDup L -> addr_of V x bn <> 0 ->
  bmap_post V x bn L (addr_of V x bn) V x L.
Proof using HY.
  intros Hx Hm HL Ha. split_and!; try done; [|by apply logs_refl].
  apply (grows_trans G sb HY V x V x V x 0 2); [by apply grows_refl|].
  destruct (grows_refl sb V x Hx Hm). split; try done. lia.
Qed.

Lemma grows_le V x V' x' k k' : (k <= k')%nat -> grows sb V x V' x' k -> grows sb V x V' x' k'.
Proof using. intros Hk []. split; try done. lia. Qed.

Lemma set_di_id ic i ip : ic !! i = Some ip -> <[i := set_di (i_di ip) ip]> ic = ic.
Proof using. intros Hi. apply list_insert_id. rewrite Hi. by destruct ip. Qed.

Lemma wp_bmap_direct t ic V L i ip bn (Q : Z -> fsys St -> Prop) :
  bk_ok G t (mkbabs V [] L) -> NoDup L -> ic !! i = Some ip -> i_dev ip = ROOTDEV ->
  inode_wf sb V (i_di ip) -> meta_used sb V -> 0 <= bn < NDIRECT ->
  (addr_of V (i_di ip) bn = 0 -> (1 <= nfree sb V)%nat /\ (length L + 2 <= g_cap G)%nat) ->
  (forall a V' x' L' t', bmap_post V (i_di ip) bn L a V' x' L' -> bk_ok G t' (mkbabs V' [] L') ->
    Q a (mkfsys t' (<[i := set_di x' ip]> ic) sb)) ->
  wp (bmap i bn) (mkfsys t ic sb) Q.
Proof using HY Hone.
  intros Hok HL Hi Hdev Hx Hm Hbn Hres HQ. pose proof (view_blocks _ _ _ _ Hok) as HV.
  unfold bmap. fs_step. eapply wp_getino; [exact Hi|]. rewrite (proj2 (Z.ltb_lt _ _)) by lia.
  assert (Ea : addr_of V (i_di ip) bn = di_addrs (i_di ip) !!! Z.to_nat bn).
  { unfold addr_of. by rewrite (proj2 (Z.ltb_lt _ _)) by lia. }
  cbv zeta. rewrite <- Ea. destruct (Z.eqb_spec (addr_of V (i_di ip) bn) 0) as [Hz|Hz].
  - destruct (Hres Hz) as [Hf Hcap]. rewrite Hdev. fs_step.
    eapply wp_balloc; [exact HY|exact Hok|done|intros b Hb; by apply not_elem_of_nil in Hb|cbn; lia|done|
      by apply nfree_pos|].
    intros c t' Hc Hu _ Hok'. fs_steps. rewrite (alter_insert _ _ ip) by done.
    assert (Hbn' : Z.of_nat (Z.to_nat bn) = bn) by lia. rewrite <- Hbn' in Hz.
    destruct (grow_direct G sb HY V (i_di ip) (Z.to_nat bn) c Hx Hm HV) as [Hg Ha];
      [unfold NDIRECT in *; lia|done..|]. rewrite Hbn' in *.
    apply HQ with (V' := alloc_view sb V c) (L' := log_add c (log_add (BBLOCK c sb) L)); [|done].
    split_and!; [by eapply grows_le; [|exact Hg]; lia|done|..].
    + pose proof (data_range G sb HY c Hc). lia.
    + done.
    + apply balloc_logs; [done..|by left|by right; left].
  - fs_step. rewrite <- (set_di_id ic i ip Hi). by apply (HQ _ V (i_di ip) L), Hok; apply bmap_hit || done.
Qed.

(** The entry of an existing indirect block. *)
Lemma wp_bmap_entry t ic V L x bn (Q : Z -> fsys St -> Prop) :
  bk_ok G t (mkbabs V [] L) -> NoDup L -> inode_wf sb V x -> meta_used sb V ->
  NDIRECT <= bn < MAXFILE -> ind_addr x <> 0 ->
  (addr_of V x bn = 0 -> (1 <= nfree sb V)%nat /\ (length L + 3 <= g_cap G)%nat) ->
  (forall a V' L' t', grows sb V x V' x 1 -> a = addr_of V' x bn -> a <> 0 ->
    (addr_of V x bn <> 0 -> V' = V /\ L' = L) ->
    logs L L' (sb_bmapstart sb :: a :: ind_list x) -> bk_ok G t' (mkbabs V' [] L') ->
    Q a (mkfsys t' ic sb)) ->
  wp (bmap_entry ROOTDEV (ind_addr x) (bn - NDIRECT)) (mkfsys t ic sb) Q.
Proof using HY Hone.
  intros Hok HL Hx Hm Hbn Hi Hres HQ. pose proof (view_blocks _ _ _ _ Hok) as HV.
  destruct (wf_ind _ _ _ Hx Hi) as [Hid Hiu]. destruct (data_home G sb HY _ Hid) as [Hih Hir].
  assert (Ea : addr_of V x bn = get_le 4 (V (ind_addr x)) (Z.to_nat (4 * (bn - NDIRECT)))).
  { unfold addr_of. rewrite (proj2 (Z.ltb_ge _ _)), (proj2 (Z.eqb_neq _ _)) by (done || lia). done. }
  unfold bmap_entry. fs_step. eapply wp_bread; [exact Hok|done|set_solver|cbn; lia|].
  clear t Hok. intros bp t Hok. fs_steps. cbv zeta. rewrite <- Ea.
  destruct (Z.eqb_spec (addr_of V x bn) 0) as [Hz|Hz].
  - destruct (Hres Hz) as [Hf Hcap]. fs_step.
    eapply wp_balloc; [exact HY|exact Hok|done| |cbn; lia|lia|by apply nfree_pos|].
    { intros b Hb. apply list_elem_of_singleton in Hb as ->. done. }
    intros c t' Hc Hu _ Hok'. clear t Hok. fs_steps.
    destruct (grow_entry G sb HY V x c bn Hx Hm HV Hi Hbn Hz Hc Hu) as (Hg & Ha & E1).
    eapply wp_bstore; [exact Hok'| |].
    { rewrite E1. destruct (HV (ind_addr x)) as [H1 H2]; [pose proof (data_range G sb HY _ Hid); lia|].
      split; [by rewrite length_put_le|by apply put_le_byte_ok]. }
    clear t' Hok'. intros t Hok. fs_step.
    assert (Hlg : logs L (log_add c (log_add (BBLOCK c sb) L)) (sb_bmapstart sb :: c :: ind_list x))
      by (apply balloc_logs; [done..|by left|by right; left]).
    eapply wp_log_write; [exact Hok|done| |].
    { pose proof (length_log_add c (log_add (BBLOCK c sb) L)).
      pose proof (length_log_add (BBLOCK c sb) L). lia. }
    clear t Hok. intros t Hok. fs_steps. eapply HQ; [exact Hg|by rewrite Ha|..|exact Hok].
    + pose proof (data_range G sb HY c Hc). lia.
    + done.
    + apply logs_add; [done|]. do 2 (apply elem_of_cons; right). by apply ind_list_in.
  - fs_steps. eapply HQ; [|done|done|done|by apply logs_refl|exact Hok].
    eapply grows_le; [|by apply grows_refl]. lia.
Qed.

Lemma wp_bmap t ic V L i ip bn (Q : Z -> fsys St -> Prop) :
  bk_ok G t (mkbabs V [] L) -> NoDup L -> ic !! i = Some ip -> i_dev ip = ROOTDEV ->
  inode_wf sb V (i_di ip) -> meta_used sb V -> in_file bn ->
  (addr_of V (i_di ip) bn = 0 -> (2 <= nfree sb V)%nat /\ (length L + 5 <= g_cap G)%nat) ->
  (forall a V' x' L' t', bmap_post V (i_di ip) bn L a V' x' L' -> bk_ok G t' (mkbabs V' [] L') ->
    Q a (mkfsys t' (<[i := set_di x' ip]> ic) sb)) ->
  wp (bmap i bn) (mkfsys t ic sb) Q.
Proof using HY Hone.
  intros Hok HL Hi Hdev Hx Hm [Hb0 Hb1] Hres HQ.
  destruct (Z.ltb_spec bn NDIRECT) as [Hd|Hd].
  { eapply wp_bmap_direct; try done. intros Hz. destruct (Hres Hz). lia. }
  pose proof (view_blocks _ _ _ _ Hok) as HV. unfold bmap. fs_step.
  eapply wp_getino; [exact Hi|]. rewrite (proj2 (Z.ltb_ge _ _)) by lia. cbv zeta.
  rewrite (proj2 (Z.ltb_lt _ _)) by (unfold MAXFILE in *; lia). fs_step. rewrite Hdev.
  change (di_addrs (i_di ip) !!! Z.to_nat NDIRECT) with (ind_addr (i_di ip)).
  destruct (Z.eqb_spec (ind_addr (i_di ip)) 0) as [Hz|Hz].
  - assert (Ha0 : addr_of V (i_di ip) bn = 0).
    { unfold addr_of. rewrite (proj2 (Z.ltb_ge _ _)) by lia. by rewrite Hz. }
    destruct (Hres Ha0) as [Hf Hcap]. fs_step.
    eapply wp_balloc; [exact HY|exact Hok|done|intros b Hb; by apply not_elem_of_nil in Hb|cbn; lia|lia|
      apply nfree_pos; lia|].
    intros c t' Hc Hu _ Hok'. fs_steps. rewrite (alter_insert _ _ ip) by done.
    destruct (grow_ind G sb HY V (i_di ip) c Hx Hm HV Hz Hc Hu) as [Hg Hi1].
    change (Z.to_nat NDIRECT) with 12%nat in *.
    set (x1 := set_addrs _ (i_di ip)) in *. set (V1 := alloc_view sb V c) in *.
    pose proof (data_range G sb HY c Hc) as Hcr. rewrite <- Hi1.
    assert (Hlg : forall a, logs L (log_add c (log_add (BBLOCK c sb) L)) (sb_bmapstart sb :: a :: ind_list x1)).
    { intros a. pose proof (ind_list_in x1). rewrite Hi1 in *.
      apply balloc_logs; [done..|by left|]. apply elem_of_cons; right. apply elem_of_cons; right. apply H. lia. }
    eapply wp_bmap_entry; [exact Hok'|apply (Hlg 0)|apply Hg|apply Hg|done|lia| |].
    + intros _. destruct Hg as [_ _ _ _ _ _ _ _ Hg _]. pose proof (logs_length _ _ _ (Hlg 0)) as Hl.
      pose proof (length_log_add c (log_add (BBLOCK c sb) L)).
      pose proof (length_log_add (BBLOCK c sb) L). lia.
    + intros a V2 L2 t2 Hg2 -> Hne _ Hlg2 Hok2. apply (HQ _ V2 x1 L2); [|done].
      split_and!; try done.
      * apply (grows_trans G sb HY V (i_di ip) V1 x1 V2 x1 1 1); done.
      * eapply logs_weaken; [exact (logs_trans _ _ _ _ _ (Hlg (addr_of V2 x1 bn)) Hlg2)|].
        intros m Hin. apply elem_of_app in Hin as [Hin|Hin]; exact Hin.
  - fs_step. eapply wp_bmap_entry; [exact Hok|done..| |].
    { intros Ha0. destruct (Hres Ha0). lia. }
    intros a V2 L2 t2 Hg2 -> Hne Hsame Hlg2 Hok2. rewrite <- (set_di_id ic i ip Hi).
    apply (HQ _ V2 (i_di ip) L2); [|done]. split_and!; try done.
    + eapply grows_le; [|exact Hg2]. lia.
    + intros Hx0. destruct (Hsame Hx0) as [-> ->]. done.
Qed.

End Bmap.

(** ** readi *)

(** The bytes of a file from [off] on. *)
Definition file_bytes (V : Z -> list Z) (x : dinode) (off n : Z) : list Z :=
  map (fun k => file_byte V x (off + k)) (seqZ 0 n).

Lemma length_file_bytes V x off n : 0 <= n -> length (file_bytes V x off n) = Z.to_nat n.
Proof. intros. unfold file_bytes. by rewrite length_map, length_seqZ. Qed.

Lemma file_bytes_app V x off m n :
  0 <= m -> 0 <= n -> file_bytes V x off (m + n) = file_bytes V x off m ++ file_bytes V x (off + m) n.
Proof.
  intros Hm Hn. unfold file_bytes. rewrite seqZ_app by done. rewrite map_app. f_equal.
  rewrite Z.add_0_l. rewrite <- (Z.add_0_r m) at 1. rewrite <- fmap_add_seqZ.
  rewrite <- list_fmap_compose. apply map_ext. intros k. cbn. f_equal. lia.
Qed.

(** A piece of one block of the file. *)
Lemma read_at_block V x off m d :
  fblock V x (off / 512) = d -> length d = BSIZE -> 0 <= off -> 0 <= m -> off mod 512 + m <= 512 ->
  read_at d (Z.to_nat (off mod 512)) (Z.to_nat m) = file_bytes V x off m.
Proof.
  intros Hd Hl Ho Hm Hb. unfold BSIZE in Hl. apply list_eq. intros k.
  destruct (decide (k < Z.to_nat m)%nat) as [Hk|Hk].
  - unfold read_at, file_bytes. rewrite lookup_take_lt, lookup_drop by done.
    rewrite list_lookup_fmap, lookup_seqZ_lt by lia. cbn [fmap option_fmap option_map].
    unfold file_byte. replace ((off + (0 + Z.of_nat k)) / 512) with (off / 512) by zdiv.
    rewrite Hd. replace (Z.to_nat ((off + (0 + Z.of_nat k)) mod 512)) with (Z.to_nat (off mod 512) + k)%nat by zdiv.
    apply list_lookup_lookup_total_lt. zdiv.
  - rewrite !lookup_ge_None_2; [done| |].
    + rewrite length_file_bytes by done. lia.
    + unfold read_at. rewrite length_take. lia.
Qed.

Section Readi.
Context {St : Type} {BO : BlockOps St} {BL : BlockLaws St}.
Context (G : geom) (sb : superblock).
Hypothesis HY : layout G sb.
Hypothesis Hone : sb_size sb <= BPB.
Implicit Types (t : St) (V : Z -> list Z) (ic : list inode).

Definition max_bytes : Z := MAXFILE * 512.

Lemma fblock_ok t V H L x bn :
  bk_ok G t (mkbabs V H L) -> inode_wf sb V x -> in_file bn -> block_ok (fblock V x bn).
Proof using HY.
  intros Hok Hx Hbn. unfold fblock. destruct (Z.eqb_spec (addr_of V x bn) 0) as [E|E]; [apply zeros_ok|].
  destruct (wf_data _ _ _ Hx bn Hbn E) as [Hd _]. eapply bk_block_ok; [exact Hok|].
  by apply (data_home G sb HY).
Qed.

Lemma off_in_file off : 0 <= off < max_bytes -> in_file (off / 512).
Proof using. unfold max_bytes, in_file, MAXFILE, NDIRECT, NINDIRECT. zdiv. Qed.

Lemma wp_readi_loop t ic V L i ip n tot off acc f (Q : list Z -> fsys St -> Prop) :
  bk_ok G t (mkbabs V [] L) -> NoDup L -> ic !! i = Some ip -> i_dev ip = ROOTDEV ->
  inode_wf sb V (i_di ip) -> meta_used sb V ->
  0 <= tot <= n -> n <= max_bytes -> 0 <= off -> off + (n - tot) <= max_bytes ->
  (forall p, off <= p < off + (n - tot) -> addr_of V (i_di ip) (p / 512) <> 0) ->
  n - tot < Z.of_nat f ->
  (forall t', bk_ok G t' (mkbabs V [] L) ->
    Q (acc ++ file_bytes V (i_di ip) off (n - tot)) (mkfsys t' ic sb)) ->
  wp (readi_loop i n tot off acc f) (mkfsys t ic sb) Q.
Proof using HY Hone.
  intros Hok HL Hi Hdev Hx Hm. revert t tot off acc Hok.
  induction f as [|f IH]; intros t tot off acc Hok Htot Hnm Hoff Hend Hal Hf HQ; [lia|].
  cbn [readi_loop]. change (Z.of_nat BSIZE) with 512.
  destruct (Z.ltb_spec tot n) as [Hlt|Hge].
  - set (m := Z.min (n - tot) (512 - off mod 512)). pose proof (Z.mod_pos_bound off 512 ltac:(lia)) as Hmod.
    assert (Hmp : 0 < m) by (unfold m; lia). unfold max_bytes, MAXFILE, NDIRECT, NINDIRECT in *.
    assert (Hbn : in_file (off / 512)) by (apply off_in_file; unfold max_bytes, MAXFILE, NDIRECT, NINDIRECT; lia).
    pose proof (Hal off ltac:(lia)) as Ha. pose proof (fblock_ok _ _ _ _ _ _ Hok Hx Hbn) as [Hbl _].
    fs_step. eapply wp_getino; [exact Hi|]. fs_step.
    eapply wp_bmap; [done|done|exact Hok|done..| |].
    { intros E. done. }
    intros a V' x' L' t' (_ & -> & _ & Hs & _) Hok'. destruct (Hs Ha) as (-> & -> & ->).
    rewrite (set_di_id ic i ip Hi). clear t Hok. fs_step. rewrite Hdev.
    destruct (wf_data _ _ _ Hx _ Hbn Ha) as [Hd _]. destruct (data_home G sb HY _ Hd) as [_ Hr].
    eapply wp_bread; [exact Hok'|done|intros Hin; by apply not_elem_of_nil in Hin|cbn; lia|].
    clear t' Hok'. intros bp t Hok. fs_steps.
    rewrite !u32_small by lia. apply IH; try done; try lia.
    + intros p Hp. apply Hal. lia.
    + intros t' Hok'. rewrite (read_at_block V (i_di ip) off m).
      * replace (n - tot) with (m + (n - (tot + m))) in HQ by lia.
        rewrite file_bytes_app in HQ by lia. rewrite <- (assoc (++)). by apply HQ.
      * unfold fblock. by rewrite (proj2 (Z.eqb_neq _ _)) by done.
      * unfold fblock in Hbl. by rewrite (proj2 (Z.eqb_neq _ _)) in Hbl by done.
      * lia.
      * lia.
      * lia.
  - fs_step. replace (n - tot) with 0 in HQ by lia. rewrite app_nil_r in HQ. by apply HQ.
Qed.

(** What readi may copy. *)
Definition read_len (x : dinode) (off n : Z) : Z := Z.min n (di_size x - off).

Lemma wp_readi dr t ic V L i ip off n (Q : Z * list Z -> fsys St -> Prop) :
  bk_ok G t (mkbabs V [] L) -> NoDup L -> ic !! i = Some ip -> i_dev ip = ROOTDEV ->
  inode_wf sb V (i_di ip) -> meta_used sb V -> no_holes V (i_di ip) ->
  di_type (i_di ip) <> T_DEV -> 0 <= di_size (i_di ip) <= max_bytes ->
  0 <= off < 2 ^ 32 -> 0 <= n < 2 ^ 32 ->
  (di_size (i_di ip) < off \/ 2 ^ 32 <= off + n -> Q (-1, []) (mkfsys t ic sb)) ->
  (off <= di_size (i_di ip) -> off + n < 2 ^ 32 ->
   forall t', bk_ok G t' (mkbabs V [] L) ->
     Q (read_len (i_di ip) off n, file_bytes V (i_di ip) off (read_len (i_di ip) off n))
       (mkfsys t' ic sb)) ->
  wp (readi dr i off n) (mkfsys t ic sb) Q.
Proof using HY Hone.
  intros Hok HL Hi Hdev Hx Hm Hnh Hty Hsz Hoff Hn HQ1 HQ2.
  unfold readi. fs_step. eapply wp_getino; [exact Hi|]. cbv zeta.
  rewrite (proj2 (Z.eqb_neq _ _)), u32_wraps by done.
  destruct (Z.ltb_spec (di_size (i_di ip)) off) as [Ho|Ho]; cbn [orb].
  { fs_step. apply HQ1. by left. }
  destruct (Z.leb_spec (2 ^ 32) (off + n)) as [Hv|Hv].
  { fs_step. apply HQ1. by right. }
  rewrite (u32_small (off + n)) by lia.
  assert (En : (if di_size (i_di ip) <? off + n then u32 (di_size (i_di ip) - off) else n)
    = read_len (i_di ip) off n).
  { unfold read_len, max_bytes, MAXFILE, NDIRECT, NINDIRECT in *.
    destruct (Z.ltb_spec (di_size (i_di ip)) (off + n)); rewrite ?u32_small by lia; lia. }
  rewrite En. set (m := read_len (i_di ip) off n).
  assert (Hmr : 0 <= m /\ off + m <= di_size (i_di ip)) by (unfold m, read_len; lia).
  fs_step. eapply wp_readi_loop; [exact Hok|done..|lia|lia|lia|lia| |lia|].
  - intros p Hp. apply Hnh; [zdiv|zdiv].
  - intros t' Hok'. rewrite Z.sub_0_r, app_nil_l. fs_step.
    rewrite i32_small by (unfold max_bytes, MAXFILE, NDIRECT, NINDIRECT in *; lia). by apply HQ2.
Qed.

End Readi.

(** ** writei *)

Lemma file_byte_ext V x V' x' p :
  fblock V' x' (p / 512) = fblock V x (p / 512) -> file_byte V' x' p = file_byte V x p.
Proof. unfold file_byte. by intros ->. Qed.

(** A piece of a block overwritten. *)
Lemma lookup_write_piece d o l k :
  (o + length l <= length d)%nat ->
  write_at d o l !!! k = if decide (o <= k < o + length l)%nat then l !!! (k - o)%nat else d !!! k.
Proof.
  intros Hl. rewrite !list_lookup_total_alt. case_decide as Hk.
  - replace k with (o + (k - o))%nat at 1 by lia. rewrite lookup_write_at_in by lia. done.
  - rewrite lookup_write_at_other by lia. done.
Qed.

Section Writei.
Context {St : Type} {BO : BlockOps St} {BL : BlockLaws St}.
Context (G : geom) (sb : superblock).
Hypothesis HY : layout G sb.
Hypothesis Hone : sb_size sb <= BPB.
Implicit Types (t : St) (V : Z -> list Z) (ic : list inode).

(** The bytes [lo .. hi) of the file have become [f], at the price of at most
    [k] new data blocks in the log. *)
Record fwrote V x V' x' (lo hi : Z) (f : Z -> Z) (L L' : list Z) (k : nat) : Prop := mkfwrote {
  fw_fields : x' = set_addrs (di_addrs x') x;
  fw_wf : inode_wf sb V' x';
  fw_meta : meta_used sb V';
  fw_byte : forall p, 0 <= p < max_bytes -> file_byte V' x' p =
    if decide (lo <= p < hi) then f p else file_byte V x p;
  fw_addr : forall bn, in_file bn -> addr_of V x bn <> 0 -> addr_of V' x' bn = addr_of V x bn;
  fw_alloc : forall p, lo <= p < hi -> addr_of V' x' (p / 512) <> 0;
  fw_same : (forall p, lo <= p < hi -> addr_of V x (p / 512) <> 0) -> x' = x;
  fw_ind : ind_addr x <> 0 -> ind_addr x' = ind_addr x;
  fw_frame : forall m, (ind_addr x' <> 0 -> m <> ind_addr x') ->
    (forall bn, in_file bn -> addr_of V' x' bn <> 0 -> m <> addr_of V' x' bn) ->
    (forall c, 0 <= c < sb_size sb -> m <> BBLOCK c sb) ->
    (data_block sb m -> used sb V m = true) -> V' m = V m;
  fw_used : forall b, 0 <= b < sb_size sb -> used sb V b = true -> used sb V' b = true;
  fw_free : (nfree sb V <= nfree sb V' + 2 * k)%nat;
  fw_logs : exists D, (length D <= k)%nat /\ logs L L' (sb_bmapstart sb :: ind_list x' ++ D);
  fw_own : forall m, 0 <= m < sb_size sb -> used sb V m = true -> owns V' x' m -> owns V x m }.

Lemma fwrote_nil V x lo f L :
  inode_wf sb V x -> meta_used sb V -> NoDup L -> fwrote V x V x lo lo f L L 0.
Proof using.
  intros Hx Hm HL. split; try done; try lia.
  - by destruct x.
  - intros p _. by rewrite decide_False by lia.
  - exists []. split; [cbn; lia|]. by apply logs_refl.
Qed.

Lemma ind_list_grow x x' : (ind_addr x <> 0 -> ind_addr x' = ind_addr x) -> ind_list x ⊆ ind_list x'.
Proof using.
  intros H m Hm. unfold ind_list in *. destruct (Z.eqb_spec (ind_addr x) 0) as [E|E];
    [by apply not_elem_of_nil in Hm|].
  rewrite H by done. by rewrite (proj2 (Z.eqb_neq _ _)) by done.
Qed.

Lemma fwrote_trans V x V1 x1 V2 x2 lo mid hi f L L1 L2 k1 k2 :
  lo <= mid <= hi -> 0 <= lo -> hi <= max_bytes ->
  fwrote V x V1 x1 lo mid f L L1 k1 -> fwrote V1 x1 V2 x2 mid hi f L1 L2 k2 ->
  fwrote V x V2 x2 lo hi f L L2 (k1 + k2).
Proof using HY.
  intros Hr Hlo Hhi [A1 A2 A3 A4 A5 A6 A7 A8 A9 A10 A11 A12 A13] [B1 B2 B3 B4 B5 B6 B7 B8 B9 B10 B11 B12 B13].
  assert (Hif : forall p, lo <= p < hi -> in_file (p / 512)) by (intros; apply off_in_file; lia).
  split; try done.
  - rewrite B1, A1. by destruct x.
  - intros p Hp. rewrite B4, A4 by done. repeat case_decide; done || lia.
  - intros bn Hbn Hne. rewrite B5, A5; try done. by rewrite A5.
  - intros p Hp. destruct (decide (p < mid)).
    + rewrite B5 by (apply Hif || apply A6; lia). apply A6. lia.
    + apply B6. lia.
  - intros Hal. assert (E1 : x1 = x) by (apply A7; intros; apply Hal; lia).
    rewrite <- E1. apply B7. intros p Hp. rewrite A5; [apply Hal; lia|apply Hif; lia|apply Hal; lia].
  - intros Hne. rewrite B8, A8; try done. by rewrite A8.
  - intros m H1 H2 H3 H4. rewrite B9, A9; try done.
    + intros E. rewrite <- B8 by done. apply H1. by rewrite B8.
    + intros bn Hbn Hne. rewrite <- (B5 bn Hbn Hne). apply H2; [done|]. by rewrite B5.
    + intros Hd. apply A10; [pose proof (data_range G sb HY m Hd); lia|auto].
  - auto.
  - lia.
  - destruct A12 as (D1 & Hl1 & Hg1), B12 as (D2 & Hl2 & Hg2). exists (D1 ++ D2).
    split; [rewrite length_app; lia|]. eapply logs_weaken; [exact (logs_trans _ _ _ _ _ Hg1 Hg2)|].
    pose proof (ind_list_grow x1 x2 B8) as Hsub. intros m. specialize (Hsub m).
    rewrite !elem_of_app, !elem_of_cons, !elem_of_app. tauto.
  - auto.
Qed.

(** One iteration: bmap, then the copy into the block. *)
Lemma fwrote_step V x bn L a V1 x1 L1 off (src : list Z) (tot m : Z) :
  (forall b, 0 <= b < sb_size sb -> block_ok (V1 b)) ->
  bn = off / 512 -> 0 <= off -> 0 < m -> off mod 512 + m <= 512 -> off + m <= max_bytes ->
  0 <= tot -> tot + m <= Z.of_nat (length src) ->
  bmap_post sb V x bn L a V1 x1 L1 ->
  fwrote V x (upd V1 a (write_at (V1 a) (Z.to_nat (off mod 512)) (read_at src (Z.to_nat tot) (Z.to_nat m))))
    x1 off (off + m) (fun p => src !!! Z.to_nat (tot + (p - off))) L (log_add a L1) 1.
Proof using HY.
  intros HV -> Ho Hm Hb Hend Ht Hsrc (Hg & -> & Ha & Hsame & Hlg).
  assert (Hbn : in_file (off / 512)) by (apply off_in_file; lia).
  pose proof (gr_wf _ _ _ _ _ _ Hg) as Hx1. destruct (wf_data _ _ _ Hx1 _ Hbn Ha) as [Hd Hu].
  pose proof (data_range G sb HY _ Hd) as Har. destruct (HV (addr_of V1 x1 (off / 512)) ltac:(lia)) as [Hl _].
  unfold BSIZE in Hl. set (d := write_at _ _ _).
  assert (Hrl : length (read_at src (Z.to_nat tot) (Z.to_nat m)) = Z.to_nat m) by (apply length_read_at; lia).
  assert (Hfb : forall k, in_file k -> fblock (upd V1 (addr_of V1 x1 (off / 512)) d) x1 k =
    if decide (k = off / 512) then d else fblock V1 x1 k) by (intros; by apply (write_fblock sb)).
  assert (Hwa : forall k, addr_of (upd V1 (addr_of V1 x1 (off / 512)) d) x1 k = addr_of V1 x1 k)
    by (intros; by apply (write_addr sb)).
  split.
  - apply Hg.
  - by apply (write_wf G sb HY).
  - apply (meta_data_upd G sb HY); [done|apply Hg].
  - intros p Hp. unfold file_byte at 1. rewrite Hfb by (by apply off_in_file).
    assert (Hold : file_byte V1 x1 p = file_byte V x p).
    { apply file_byte_ext, Hg. by apply off_in_file. }
    destruct (decide (p / 512 = off / 512)) as [E|E].
    + unfold d. rewrite lookup_write_piece by (rewrite Hl, Hrl; zdiv). rewrite Hrl.
      assert (Hiff : (Z.to_nat (off mod 512) <= Z.to_nat (p mod 512) < Z.to_nat (off mod 512) + Z.to_nat m)%nat
        <-> off <= p < off + m) by zdiv.
      destruct (decide (off <= p < off + m)) as [Hin|Hout].
      * rewrite decide_True by (by apply Hiff). unfold read_at.
        rewrite lookup_total_take_lt by zdiv. rewrite list_lookup_total_alt, lookup_drop, <- list_lookup_total_alt.
        f_equal. zdiv.
      * rewrite decide_False by (by rewrite Hiff). rewrite <- Hold. unfold file_byte, fblock.
        rewrite E, (proj2 (Z.eqb_neq _ _)) by done. done.
    + rewrite decide_False by zdiv. exact Hold.
  - intros k Hk Hne. rewrite Hwa. by apply (gr_addr _ _ _ _ _ _ Hg).
  - intros p Hp. rewrite Hwa. replace (p / 512) with (off / 512) by zdiv. done.
  - intros Hal. apply Hsame. apply Hal. lia.
  - apply (gr_ind _ _ _ _ _ _ Hg).
  - intros k H1 H2 H3 H4. unfold upd. rewrite decide_False; [by apply (gr_frame _ _ _ _ _ _ Hg)|].
    specialize (H2 _ Hbn). rewrite Hwa in H2. by apply H2.
  - intros b Hb' Hu'. rewrite (used_data_upd G sb HY) by done. by apply (gr_used _ _ _ _ _ _ Hg).
  - rewrite (nfree_data_upd G sb HY) by done. apply (gr_free _ _ _ _ _ _ Hg).
  - exists [addr_of V1 x1 (off / 512)]. split; [cbn; lia|]. apply logs_add.
    + eapply logs_weaken; [exact Hlg|]. intros k. rewrite !elem_of_cons, elem_of_app, elem_of_cons. tauto.
    + apply elem_of_cons; right. apply elem_of_app; right. by left.
  - intros k Hk Huk Hown. apply (gr_own _ _ _ _ _ _ Hg); [done|done|]. destruct Hown as [(b & Hbf & E)|E]; [|by right]. left. exists b. by rewrite Hwa in E.
Qed.

Lemma fwrote_ext V x V' x' lo hi f g L L' k k' :
  (forall p, lo <= p < hi -> f p = g p) -> (k <= k')%nat ->
  fwrote V x V' x' lo hi f L L' k -> fwrote V x V' x' lo hi g L L' k'.
Proof using.
  intros Hfg Hk [A1 A2 A3 A4 A5 A6 A7 A8 A9 A10 A11 A12 A13]. split; try done.
  - intros p Hp. rewrite A4 by done. case_decide; auto.
  - lia.
  - destruct A12 as (D & HD & Hl). exists D. split; [lia|done].
Qed.

(** How many blocks the bytes [off .. off+n) span. *)
Definition nblk (off n : Z) : nat :=
  if n <=? 0 then 0%nat else Z.to_nat ((off + n - 1) / 512 - off / 512 + 1).

Lemma nblk_step off n m :
  0 <= off -> 0 < n -> m = Z.min n (512 - off mod 512) -> nblk off n = S (nblk (off + m) (n - m)).
Proof using.
  intros Ho Hn ->. unfold nblk. rewrite (proj2 (Z.leb_gt _ _)) by lia.
  destruct (Z.leb_spec (n - Z.min n (512 - off mod 512)) 0); zdiv.
Qed.

Lemma wp_writei_loop t ic V0 x0 L0 V x L i ip src lo n tot off j K f (Q : Z -> fsys St -> Prop) :
  (i < length ic)%nat -> i_dev ip = ROOTDEV -> 0 <= lo -> lo + n <= max_bytes ->
  n <= Z.of_nat (length src) -> Forall byte_ok src ->
  (2 * K <= nfree sb V0)%nat -> (length L0 + K + 7 <= g_cap G)%nat ->
  bk_ok G t (mkbabs V [] L) ->
  fwrote V0 x0 V x lo off (fun p => src !!! Z.to_nat (p - lo)) L0 L j ->
  off = lo + tot -> 0 <= tot <= n -> (j + nblk off (n - tot) <= K)%nat -> n - tot < Z.of_nat f ->
  (forall V' x' L' t', fwrote V0 x0 V' x' lo (lo + n) (fun p => src !!! Z.to_nat (p - lo)) L0 L' K ->
    bk_ok G t' (mkbabs V' [] L') -> Q (lo + n) (mkfsys t' (<[i := set_di x' ip]> ic) sb)) ->
  wp (writei_loop i src n tot off f) (mkfsys t (<[i := set_di x ip]> ic) sb) Q.
Proof using HY Hone.
  intros Hi Hdev Hlo Hend Hsrc Hsb Hfr Hcap Hok Hfw Hoff Htot Hj Hf HQ.
  revert t V x L tot off j Hok Hfw Hoff Htot Hj Hf.
  induction f as [|f IH]; intros t V x L tot off j Hok Hfw Hoff Htot Hj Hf; [lia|].
  cbn [writei_loop]. change (Z.of_nat BSIZE) with 512.
  destruct (Z.ltb_spec tot n) as [Hlt|Hge].
  - set (m := Z.min (n - tot) (512 - off mod 512)). pose proof (Z.mod_pos_bound off 512 ltac:(lia)) as Hmod.
    assert (Hmp : 0 < m) by (unfold m; lia).
    rewrite (nblk_step off (n - tot) m) in Hj by (done || lia).
    assert (Hbn : in_file (off / 512)) by (apply off_in_file; lia).
    pose proof (fw_wf _ _ _ _ _ _ _ _ _ _ Hfw) as Hx.
    destruct (fw_logs _ _ _ _ _ _ _ _ _ _ Hfw) as (D & HD & Hlg).
    pose proof (logs_length _ _ _ Hlg) as Hll. cbn [length] in Hll. rewrite length_app in Hll.
    pose proof (length_ind_list x) as Hil. pose proof (fw_free _ _ _ _ _ _ _ _ _ _ Hfw) as Hfree.
    fs_step. eapply wp_getino; [by apply list_lookup_insert_eq|]. fs_step.
    eapply wp_bmap; [done|done|exact Hok|apply Hlg|by apply list_lookup_insert_eq|done|done|
      apply Hfw|done|intros _; lia|].
    cbn [i_di set_di]. intros a V1 x1 L1 t1 Hbm Hok1. rewrite list_insert_insert_eq.
    clear t Hok. pose proof (view_blocks G sb HY _ _ _ _ Hok1) as HV1.
    pose proof (fwrote_step V x (off / 512) L a V1 x1 L1 off src tot m HV1 eq_refl
      ltac:(lia) Hmp ltac:(unfold m; lia) ltac:(lia) ltac:(lia) ltac:(lia) Hbm) as Hst.
    destruct Hbm as (Hg & Ea & Ha & _ & Hlg1). rewrite Ea in Ha.
    destruct (wf_data _ _ _ (gr_wf _ _ _ _ _ _ Hg) _ Hbn Ha) as [Hd _]. rewrite <- Ea in Hd, Ha.
    destruct (data_home G sb HY _ Hd) as [Hdh Hr]. pose proof (data_range G sb HY _ Hd) as Har.
    fs_step. cbn [i_dev set_di]. rewrite Hdev.
    eapply wp_bread; [exact Hok1|done|intros Hin; by apply not_elem_of_nil in Hin|cbn; lia|].
    clear t1 Hok1. intros bp t Hok. fs_steps.
    destruct (HV1 a ltac:(lia)) as [Hl1 Hb1].
    eapply wp_bstore; [exact Hok| |].
    { split; [by rewrite length_write_at|]. apply write_at_byte_ok; [done|]. by apply Forall_take, Forall_drop. }
    clear t Hok. intros t Hok. fs_step. eapply wp_log_write; [exact Hok|done| |].
    { pose proof (logs_length _ _ _ Hlg1) as Hx1. cbn [length] in Hx1.
      pose proof (length_ind_list x1). lia. }
    clear t Hok. intros t Hok. fs_steps. unfold max_bytes, MAXFILE, NDIRECT, NINDIRECT in *.
    rewrite !u32_small by lia. eapply (IH _ _ _ _ _ _ (j + 1)%nat); [exact Hok| |lia|lia| |lia].
    + eapply fwrote_trans; [| | |exact Hfw|eapply (fwrote_ext _ _ _ _ _ _ _ _ _ _ 1 1); [|done|exact Hst]];
        [lia|lia|unfold max_bytes, MAXFILE, NDIRECT, NINDIRECT; lia|].
      intros p Hp. cbn. do 2 f_equal. lia.
    + replace (n - (tot + m)) with (n - tot - m) by lia. lia.
  - fs_step. replace off with (lo + n) in * by lia. apply (HQ V x L); [|done].
    eapply fwrote_ext; [done| |exact Hfw]. lia.
Qed.


(** *** The inode's own block *)

(** Writing an inode back touches neither data blocks nor the bitmap. *)
Lemma iupd_other V inum x b :
  0 <= inum < sb_ninodes sb -> data_block sb b \/ sb_bmapstart sb <= b -> iupd_view sb V inum x b = V b.
Proof using HY.
  intros Hi Hb. destruct (IBLOCK_ok G sb HY inum Hi) as (_ & H1 & H2).
  unfold iupd_view, upd. rewrite decide_False; [done|]. intros ->. destruct Hb; [done|lia].
Qed.

Section Iupd.
Context (V : Z -> list Z) (inum : Z) (y : dinode).
Hypothesis Hi : 0 <= inum < sb_ninodes sb.
Let V1 := iupd_view sb V inum y.

Lemma iupd_used b : 0 <= b < sb_size sb -> used sb V1 b = used sb V b.
Proof using HY Hi.
  intros Hb. destruct (BBLOCK_ok G sb HY b Hb) as (_ & _ & _ & H). unfold used, V1.
  by rewrite iupd_other by (by auto).
Qed.

Lemma iupd_meta : meta_used sb V -> meta_used sb V1.
Proof using HY Hi. intros Hm b Hb Hd. rewrite iupd_used by done. by apply Hm. Qed.

Lemma iupd_addr x bn : inode_wf sb V x -> addr_of V1 x bn = addr_of V x bn.
Proof using HY Hi.
  intros Hx. unfold addr_of. destruct (bn <? NDIRECT); [done|].
  destruct (Z.eqb_spec (ind_addr x) 0); [done|]. unfold V1.
  rewrite iupd_other; [done..|]. left. by apply Hx.
Qed.

Lemma iupd_byte x p : inode_wf sb V x -> 0 <= p < max_bytes -> file_byte V1 x p = file_byte V x p.
Proof using HY Hi.
  intros Hx Hp. apply file_byte_ext. unfold fblock. rewrite iupd_addr by done.
  destruct (Z.eqb_spec (addr_of V x (p / 512)) 0) as [|E]; [done|].
  unfold V1. rewrite iupd_other; [done..|]. left. apply Hx; [by apply off_in_file|done].
Qed.

Lemma iupd_wf x : inode_wf sb V x -> inode_wf sb V1 x.
Proof using HY Hi.
  intros Hx. split; [apply Hx|..].
  - intros bn Hbn. rewrite iupd_addr by done. intros Hne. destruct (wf_data _ _ _ Hx bn Hbn Hne) as [H1 H2].
    split; [done|]. rewrite iupd_used; [done|]. pose proof (data_range G sb HY _ H1). lia.
  - intros Hne. destruct (wf_ind _ _ _ Hx Hne) as [H1 H2].
    split; [done|]. rewrite iupd_used; [done|]. pose proof (data_range G sb HY _ H1). lia.
  - intros bn bn' Hb Hb'. rewrite !iupd_addr by done. by apply Hx.
  - intros bn Hb. rewrite !iupd_addr by done. by apply Hx.
Qed.

End Iupd.

(** ** A file: its inode in memory agrees with the disk *)

Record file_ok V (inum : Z) (x : dinode) : Prop := mkfile_ok {
  fk_wf : inode_wf sb V x;
  fk_holes : no_holes V x;
  fk_size : 0 <= di_size x <= max_bytes;
  fk_enc : dinode_ok x;
  fk_disk : dinode_at sb V inum = x }.

Lemma wf_addrs_ok V x : inode_wf sb V x -> Forall (fun a => 0 <= a < 2 ^ 32) (di_addrs x).
Proof using HY.
  intros Hx. assert (Hsz : sb_size sb < 2 ^ 31) by apply HY.
  assert (Hd : forall a, (a <> 0 -> data_block sb a) -> 0 <= a < 2 ^ 32).
  { intros a Ha. destruct (decide (a = 0)) as [->|Hne]; [lia|].
    pose proof (data_range G sb HY a (Ha Hne)). lia. }
  apply (Forall_lookup_total (fun a => 0 <= a < 2 ^ 32)). intros k Hk. apply Hd. intros Hne.
  rewrite (wf_len _ _ _ Hx) in Hk. destruct (decide (k = 12)%nat) as [->|Hk12].
  - by apply (wf_ind _ _ _ Hx).
  - assert (E : addr_of V x (Z.of_nat k) = di_addrs x !!! k).
    { unfold addr_of, NDIRECT. rewrite (proj2 (Z.ltb_lt _ _)) by lia. by rewrite Nat2Z.id. }
    rewrite <- E in *. apply (wf_data _ _ _ Hx); [|done].
    unfold in_file, MAXFILE, NDIRECT, NINDIRECT. lia.
Qed.

Lemma set_addrs_ok V x x' :
  dinode_ok x -> x' = set_addrs (di_addrs x') x -> inode_wf sb V x' -> dinode_ok x'.
Proof using HY.
  intros Hx E Hwf. pose proof (wf_addrs_ok V x' Hwf) as Ha. pose proof (wf_len _ _ _ Hwf) as Hl.
  rewrite E. destruct x. unfold dinode_ok in *. cbn in *. rewrite E in Ha, Hl. cbn in *. tauto.
Qed.

Lemma wf_size V x n : inode_wf sb V x -> inode_wf sb V (set_size n x).
Proof using. by intros [H1 H2 H3 H4 H5]; split. Qed.

(** What writei does to the disk: the file of inode [inum] holds [n] bytes of
    [src] from [off] on, and is as long as needed. *)
Record written V inum x V' x' (off n : Z) (src : list Z) (L L' : list Z) : Prop := mkwritten {
  wr_file : file_ok V' inum x';
  wr_meta : meta_used sb V';
  wr_fields : x' = set_size (Z.max (di_size x) (off + n)) (set_addrs (di_addrs x') x);
  wr_byte : forall p, 0 <= p < max_bytes -> file_byte V' x' p =
    if decide (off <= p < off + n) then src !!! Z.to_nat (p - off) else file_byte V x p;
  wr_inodes : forall j, 0 <= j < sb_ninodes sb -> j <> inum -> dinode_at sb V' j = dinode_at sb V j;
  wr_others : forall m, data_block sb m -> used sb V m = true ->
    ~ owns V x m -> V' m = V m;
  wr_own : forall m, data_block sb m -> owns V' x' m -> ~ owns V x m -> used sb V m = false;
  wr_used : forall b, 0 <= b < sb_size sb -> used sb V b = true -> used sb V' b = true;
  wr_free : (nfree sb V <= nfree sb V' + 2 * nblk off n)%nat;
  wr_nodup : NoDup L';
  wr_log : (length L' <= length L + nblk off n + 3)%nat }.

Lemma fwrote_inodes V x V' x' lo hi f L L' k j :
  fwrote V x V' x' lo hi f L L' k -> 0 <= j < sb_ninodes sb -> dinode_at sb V' j = dinode_at sb V j.
Proof using HY.
  intros Hf Hj. unfold dinode_at. destruct (IBLOCK_ok G sb HY j Hj) as (_ & H1 & H2).
  pose proof (fw_wf _ _ _ _ _ _ _ _ _ _ Hf) as Hx.
  f_equal. apply (fw_frame _ _ _ _ _ _ _ _ _ _ Hf).
  - intros Hne E. apply H2. rewrite E. by apply Hx.
  - intros bn Hbn Hne E. apply H2. rewrite E. by apply Hx.
  - intros c Hc E. destruct (BBLOCK_ok G sb HY c Hc) as (_ & _ & _ & H). lia.
  - done.
Qed.

Lemma fwrote_others V x V' x' lo hi f L L' k m :
  fwrote V x V' x' lo hi f L L' k -> data_block sb m -> used sb V m = true -> ~ owns V x m -> V' m = V m.
Proof using HY.
  intros Hf Hm Hu Hno. pose proof (data_range G sb HY m Hm).
  assert (Hno' : ~ owns V' x' m) by (intros Ho; apply Hno; apply (fw_own _ _ _ _ _ _ _ _ _ _ Hf); done || lia).
  apply (fw_frame _ _ _ _ _ _ _ _ _ _ Hf).
  - intros _ E. apply Hno'. by right.
  - intros bn Hbn _ E. apply Hno'. left. by exists bn.
  - intros c Hc. by apply (data_not_bitmap G sb HY).
  - done.
Qed.

Lemma fwrote_new V x V' x' lo hi f L L' k m :
  fwrote V x V' x' lo hi f L L' k -> data_block sb m -> owns V' x' m -> ~ owns V x m -> used sb V m = false.
Proof using HY.
  intros Hf Hm Ho Hno. pose proof (data_range G sb HY m Hm). apply not_true_is_false. intros Hu. apply Hno. apply (fw_own _ _ _ _ _ _ _ _ _ _ Hf); done || lia.
Qed.

Lemma fwrote_log V x V' x' lo hi f L L' k b :
  fwrote V x V' x' lo hi f L L' k ->
  NoDup (log_add b L') /\ NoDup L' /\ (length L' <= length L + k + 2)%nat /\
  (length (log_add b L') <= length L + k + 3)%nat.
Proof using.
  intros Hf. destruct (fw_logs _ _ _ _ _ _ _ _ _ _ Hf) as (D & HD & Hl).
  pose proof (logs_length _ _ _ Hl) as Hll. cbn [length] in Hll. rewrite length_app in Hll.
  pose proof (length_ind_list x'). pose proof (length_log_add b L').
  destruct Hl as [Hnd _]. split_and!; try done; try lia.
  unfold log_add. case_decide; [done|]. apply NoDup_app. split_and!; [done| |apply NoDup_singleton].
  intros z Hz Hzb. apply list_elem_of_singleton in Hzb. by rewrite Hzb in Hz.
Qed.

(** The file did not grow: the inode is the one on disk. *)
Lemma written_inside V inum x V' x' off n src L L' :
  file_ok V inum x -> 0 <= inum < sb_ninodes sb -> 0 <= off -> 0 <= n -> off + n <= di_size x \/ n = 0 /\ off <= di_size x ->
  fwrote V x V' x' off (off + n) (fun p => src !!! Z.to_nat (p - off)) L L' (nblk off n) ->
  x' = x /\ written V inum x V' x off n src L L'.
Proof using HY.
  intros [K1 K2 K3 K4 K5] Hin Ho Hn Hsz Hf.
  assert (E : x' = x).
  { apply (fw_same _ _ _ _ _ _ _ _ _ _ Hf). intros p Hp. apply K2; [zdiv|]. zdiv. }
  split; [done|]. rewrite E in Hf. clear E. destruct (fwrote_log _ _ _ _ _ _ _ _ _ _ 0 Hf) as (_ & Hnd & Hl & _).
  split; try apply Hf; try done; try lia.
  - split; try done; [apply Hf| |].
    + intros bn Hb Hlt. rewrite (fw_addr _ _ _ _ _ _ _ _ _ _ Hf); [by apply K2| |by apply K2].
      unfold in_file. unfold max_bytes in *. lia.
    + by rewrite (fwrote_inodes _ _ _ _ _ _ _ _ _ _ _ Hf).
  - rewrite Z.max_l by lia. by destruct x.
  - intros j Hj _. by apply (fwrote_inodes _ _ _ _ _ _ _ _ _ _ _ Hf).
  - intros m. by apply (fwrote_others _ _ _ _ _ _ _ _ _ _ _ Hf).
  - intros m. by apply (fwrote_new _ _ _ _ _ _ _ _ _ _ _ Hf).
Qed.

(** The file grew: its new inode goes to disk. *)
Lemma written_grow V inum x V' x' off n src L L' :
  file_ok V inum x -> 0 <= inum < sb_ninodes sb -> 0 <= off <= di_size x -> di_size x < off + n <= max_bytes ->
  block_ok (V' (IBLOCK inum sb)) ->
  fwrote V x V' x' off (off + n) (fun p => src !!! Z.to_nat (p - off)) L L' (nblk off n) ->
  written V inum x (iupd_view sb V' inum (set_size (off + n) x')) (set_size (off + n) x') off n src L
    (log_add (IBLOCK inum sb) L').
Proof using HY.
  intros [K1 K2 K3 K4 K5] Hin Ho Hn HB Hf. set (y := set_size (off + n) x').
  pose proof (fw_fields _ _ _ _ _ _ _ _ _ _ Hf) as Ex.
  pose proof (wf_size _ _ (off + n) (fw_wf _ _ _ _ _ _ _ _ _ _ Hf)) as Hy.
  assert (Hyok : dinode_ok y).
  { pose proof (set_addrs_ok V' x x' K4 Ex ltac:(apply Hf)) as Hk. unfold y, dinode_ok in *. cbn.
    unfold max_bytes, MAXFILE, NDIRECT, NINDIRECT in *. split_and!; try apply Hk; lia. }
  destruct (fwrote_log _ _ _ _ _ _ _ _ _ _ (IBLOCK inum sb) Hf) as (Hnd & _ & _ & Hl).
  split; try done.
  - split; try done.
    + by apply iupd_wf.
    + intros bn Hb Hlt. cbn [di_size y set_size] in Hlt. rewrite iupd_addr by done.
      change (addr_of V' y bn) with (addr_of V' x' bn). destruct (decide (bn * 512 < di_size x)) as [Hlo|Hhi].
      * rewrite (fw_addr _ _ _ _ _ _ _ _ _ _ Hf); [by apply K2| |by apply K2].
        unfold in_file, max_bytes in *. lia.
      * rewrite <- (Z.div_mul bn 512) by lia. apply (fw_alloc _ _ _ _ _ _ _ _ _ _ Hf). lia.
    + cbn. lia.
    + rewrite (iupd_dinode G) by done. by rewrite decide_True.
  - apply iupd_meta; [done|apply Hf].
  - unfold y. rewrite Z.max_r by lia. rewrite Ex at 1. by destruct x.
  - intros p Hp. rewrite iupd_byte by done. change (file_byte V' y p) with (file_byte V' x' p).
    by apply (fw_byte _ _ _ _ _ _ _ _ _ _ Hf).
  - intros j Hj Hne. rewrite (iupd_dinode G), decide_False by done.
    by apply (fwrote_inodes _ _ _ _ _ _ _ _ _ _ _ Hf).
  - intros m Hm Hu H1. rewrite iupd_other by auto. by apply (fwrote_others _ _ _ _ _ _ _ _ _ _ _ Hf).
  - intros m Hm Ho'. apply (fwrote_new _ _ _ _ _ _ _ _ _ _ _ Hf); [done|]. destruct Ho' as [(bn & Hbn & E)|E]; [|by right]. left. exists bn. by rewrite iupd_addr in E.
  - intros b Hb Hu. rewrite iupd_used by done. by apply (fw_used _ _ _ _ _ _ _ _ _ _ Hf).
  - rewrite (nfree_ext _ V' (iupd_view sb V' inum y)); [apply Hf|]. intros b Hb. by apply iupd_used.
Qed.

(** A file that shares no block with the one written keeps its contents, and
    still shares none. *)
Lemma written_apart V inum x V' x' off n src L L' y :
  written V inum x V' x' off n src L L' -> inode_wf sb V y -> apart sb V x y ->
  inode_wf sb V' y /\ apart sb V' x' y /\ forall p, 0 <= p < max_bytes -> file_byte V' y p = file_byte V y p.
Proof using HY.
  intros Hw Hy Hap. assert (Hblk : forall m, data_block sb m -> used sb V m = true -> owns V y m -> V' m = V m /\ used sb V' m = true).
  { intros m Hm Hu Ho. pose proof (data_range G sb HY m Hm). split; [|apply (wr_used _ _ _ _ _ _ _ _ _ _ Hw); done || lia].
    apply (wr_others _ _ _ _ _ _ _ _ _ _ Hw); [done|done|]. intros Hx. by apply (Hap m). }
  assert (Hind : ind_addr y <> 0 -> V' (ind_addr y) = V (ind_addr y) /\ used sb V' (ind_addr y) = true).
  { intros Hne. destruct (wf_ind _ _ _ Hy Hne). apply Hblk; [done|done|by right]. }
  assert (Haddr : forall bn, addr_of V' y bn = addr_of V y bn).
  { intros bn. unfold addr_of. destruct (bn <? NDIRECT); [done|]. destruct (Z.eqb_spec (ind_addr y) 0) as [|Hne]; [done|]. by rewrite (proj1 (Hind Hne)). }
  assert (Hdata : forall bn, in_file bn -> addr_of V y bn <> 0 -> V' (addr_of V y bn) = V (addr_of V y bn) /\ used sb V' (addr_of V y bn) = true).
  { intros bn Hbn Hne. destruct (wf_data _ _ _ Hy bn Hbn Hne). apply Hblk; [done|done|]. left. by exists bn. }
  split_and!.
  - split; [apply Hy|..].
    + intros bn Hbn. rewrite Haddr. intros Hne. split; [by apply Hy|by apply Hdata].
    + intros Hne. split; [by apply Hy|by apply Hind].
    + intros bn bn' Hbn Hbn'. rewrite !Haddr. by apply Hy.
    + intros bn Hbn. rewrite !Haddr. by apply Hy.
  - intros m Hm Hx Ho. pose proof (data_range G sb HY m Hm). assert (Ho' : owns V y m).
    { destruct Ho as [(bn & Hbn & E)|E]; [|by right]. left. exists bn. by rewrite Haddr in E. }
    assert (Hu : used sb V m = true).
    { destruct Ho' as [(bn & Hbn & E)|E]; rewrite <- E; [apply (wf_data _ _ _ Hy); [done|lia]|apply (wf_ind _ _ _ Hy); lia]. }
    pose proof (wr_own _ _ _ _ _ _ _ _ _ _ Hw m Hm Hx) as Hf. rewrite Hu in Hf. assert (true = false) by (apply Hf; intros Hx0; by apply (Hap m)). done.
  - intros p Hp. apply file_byte_ext. unfold fblock. rewrite Haddr. destruct (Z.eqb_spec (addr_of V y (p / 512)) 0) as [|Hne]; [done|]. apply Hdata; [by apply off_in_file|done].
Qed.

Lemma wp_writei dw t ic V L i ip src off n (Q : Z -> fsys St -> Prop) :
  bk_ok G t (mkbabs V [] L) -> NoDup L -> ic !! i = Some ip -> i_dev ip = ROOTDEV ->
  0 <= i_inum ip < sb_ninodes sb -> file_ok V (i_inum ip) (i_di ip) -> meta_used sb V ->
  di_type (i_di ip) <> T_DEV -> Forall byte_ok src -> n <= Z.of_nat (length src) ->
  0 <= off < 2 ^ 32 -> 0 <= n < 2 ^ 32 ->
  (di_size (i_di ip) < off \/ max_bytes < off + n -> Q (-1) (mkfsys t ic sb)) ->
  (off <= di_size (i_di ip) -> off + n <= max_bytes ->
   (2 * nblk off n <= nfree sb V)%nat /\ (length L + nblk off n + 7 <= g_cap G)%nat /\
   forall V' x' L' t', written V (i_inum ip) (i_di ip) V' x' off n src L L' ->
     bk_ok G t' (mkbabs V' [] L') -> Q n (mkfsys t' (<[i := set_di x' ip]> ic) sb)) ->
  wp (writei dw i src off n) (mkfsys t ic sb) Q.
Proof using HY Hone.
  intros Hok HL Hi Hdev Hin Hx Hm Hty Hsb Hsrc Hoff Hn HQ1 HQ2.
  pose proof (lookup_lt_Some _ _ _ Hi) as Hil. pose proof (fk_size _ _ _ Hx) as Hsz.
  unfold writei. fs_step. eapply wp_getino; [exact Hi|]. cbv zeta.
  rewrite (proj2 (Z.eqb_neq _ _)), u32_wraps by done.
  destruct (Z.ltb_spec (di_size (i_di ip)) off) as [Ho|Ho]; cbn [orb].
  { fs_step. apply HQ1. by left. }
  unfold max_bytes, MAXFILE, NDIRECT, NINDIRECT in *. change (Z.of_nat BSIZE) with 512.
  destruct (Z.leb_spec (2 ^ 32) (off + n)) as [Hv|Hv].
  { fs_step. apply HQ1. right. lia. }
  rewrite (u32_small (off + n)) by lia.
  destruct (Z.ltb_spec ((12 + 128) * 512) (off + n)) as [Hbig|Hfit].
  { fs_step. apply HQ1. by right. }
  destruct (HQ2 Ho Hfit) as (Hfr & Hcap & HQ3). clear HQ1 HQ2.
  rewrite <- (set_di_id ic i ip Hi) at 1. fs_step.
  eapply (wp_writei_loop t ic V (i_di ip) L V (i_di ip) L i ip src off n 0 off 0 (nblk off n));
    [done|done|lia|exact Hfit|done|done|done|done|exact Hok| |lia|lia| |lia|].
  - apply fwrote_nil; [apply Hx|done|done].
  - rewrite Z.sub_0_r. lia.
  - intros V' x' L' t' Hf Hok'. fs_step. eapply wp_getino; [by apply list_lookup_insert_eq|].
    cbn [i_di set_di]. assert (Es : di_size x' = di_size (i_di ip)).
    { rewrite (fw_fields _ _ _ _ _ _ _ _ _ _ Hf). done. }
    rewrite Es. fs_step. destruct (Z.ltb_spec (di_size (i_di ip)) (off + n)) as [Hg|Hg];
      [rewrite (proj2 (Z.ltb_lt 0 n)) by lia|rewrite andb_false_r]; cbn [andb].
    + fs_step. apply wp_modify. unfold upd_ino, set_icache. cbn [f_blk icache f_sb].
      rewrite alter_inserted by done.
      destruct (fwrote_log _ _ _ _ _ _ _ _ _ _ 0 Hf) as (_ & _ & Hll & _).
      eapply wp_iupdate; [done|exact Hok'|by apply list_lookup_insert_eq|done|done| |cbn; lia|lia|].
      { intros Hc. by apply not_elem_of_nil in Hc. }
      intros t2 Hok2. fs_step. rewrite i32_small by lia. cbn [i_inum i_di set_di] in Hok2.
      eapply HQ3; [|exact Hok2]. apply written_grow; try done; [lia|].
      eapply bk_block_ok; [exact Hok'|]. by apply (IBLOCK_home G sb HY).
    + fs_steps. rewrite i32_small by lia.
      destruct (written_inside V (i_inum ip) (i_di ip) V' x' off n src L L') as [-> Hw]; try done; try lia.
      by eapply HQ3.
Qed.

End Writei.

(** ** Properties *)

Section Properties.
Context {St : Type} {BO : BlockOps St} {BL : BlockLaws St}.

(** C31: readi fails exactly when the offset is past the end of the file or
    offset plus count overflows; otherwise it returns the bytes of the file
    from the offset on, as many as asked for and exist, and changes no block
    and no inode. *)
Theorem readi_reads_file (G : geom) (sb : superblock) dr (t : St) (ic : list inode)
    (V : Z -> list Z) (L : list Z) (i : nat) (ip : inode) (off n : Z) :
  layout G sb -> sb_size sb <= BPB -> bk_ok G t (mkbabs V [] L) -> NoDup L ->
  ic !! i = Some ip -> i_dev ip = ROOTDEV -> file_ok sb V (i_inum ip) (i_di ip) -> meta_used sb V ->
  di_type (i_di ip) <> T_DEV -> 0 <= off < 2 ^ 32 -> 0 <= n < 2 ^ 32 ->
  if (di_size (i_di ip) <? off) || (2 ^ 32 <=? off + n)
  then readi dr i off n (mkfsys t ic sb) = Ret (-1, []) (mkfsys t ic sb)
  else exists t', let m := Z.min n (di_size (i_di ip) - off) in
    readi dr i off n (mkfsys t ic sb) =
      Ret (m, map (fun k => file_byte V (i_di ip) (off + k)) (seqZ 0 m)) (mkfsys t' ic sb) /\
    bk_ok G t' (mkbabs V [] L).
Proof.
  intros HY H1 Hok HL Hi Hd Hf Hm Hty Ho Hn.
  assert (Hw : wp (readi dr i off n) (mkfsys t ic sb) (fun r s' =>
    if (di_size (i_di ip) <? off) || (2 ^ 32 <=? off + n) then r = (-1, []) /\ s' = mkfsys t ic sb
    else r = (read_len (i_di ip) off n, file_bytes V (i_di ip) off (read_len (i_di ip) off n)) /\
      exists t', s' = mkfsys t' ic sb /\ bk_ok G t' (mkbabs V [] L))).
  { eapply wp_readi; try done; try apply Hf.
    - intros [H|H]; [rewrite (proj2 (Z.ltb_lt _ _)) by done; done|].
      rewrite (proj2 (Z.leb_le (2 ^ 32) _)), orb_true_r by done. done.
    - intros H2 H3 t' Hok'. rewrite (proj2 (Z.ltb_ge _ _)), (proj2 (Z.leb_gt _ _)) by done.
      cbn [orb]. split; [done|]. by exists t'. }
  apply wp_elim in Hw as (r & s' & R & Hr). destruct (_ || _).
  - destruct Hr as [-> ->]. exact R.
  - destruct Hr as (-> & t' & -> & Hok'). exists t'. split; [|exact Hok']. rewrite R.
    unfold file_bytes, read_len. done.
Qed.

(** C4: writei to a file that is not a device, with two free blocks for each
    block the bytes span and room for these and seven more in the log.  Past
    the end of the file, or beyond the largest file, it returns -1 and
    changes nothing.  Otherwise it returns [n]; the file holds the [n] bytes
    at the offset and its old bytes elsewhere, is as long as needed, has no
    holes, and its inode on disk is the one in memory.  The blocks it gains
    were free; other inodes, and blocks in use that are not the file's, are
    untouched, so a file that shares no block with it keeps every byte and
    shares none afterwards; the transaction grows by at most the blocks
    written plus three. *)
Theorem writei_writes_file (G : geom) (sb : superblock) dw (t : St) (ic : list inode)
    (V : Z -> list Z) (L : list Z) (i : nat) (ip : inode) (src : list Z) (off n : Z) :
  layout G sb -> sb_size sb <= BPB -> bk_ok G t (mkbabs V [] L) -> NoDup L ->
  ic !! i = Some ip -> i_dev ip = ROOTDEV -> 0 <= i_inum ip < sb_ninodes sb ->
  file_ok sb V (i_inum ip) (i_di ip) -> meta_used sb V -> di_type (i_di ip) <> T_DEV ->
  Forall byte_ok src -> n <= Z.of_nat (length src) -> 0 <= off < 2 ^ 32 -> 0 <= n < 2 ^ 32 ->
  (2 * nblk off n <= nfree sb V)%nat -> (length L + nblk off n + 7 <= g_cap G)%nat ->
  if (di_size (i_di ip) <? off) || (max_bytes <? off + n)
  then writei dw i src off n (mkfsys t ic sb) = Ret (-1) (mkfsys t ic sb)
  else exists t' V' x' L',
    writei dw i src off n (mkfsys t ic sb) = Ret n (mkfsys t' (<[i := set_di x' ip]> ic) sb) /\
    bk_ok G t' (mkbabs V' [] L') /\ written sb V (i_inum ip) (i_di ip) V' x' off n src L L' /\
    (forall y, inode_wf sb V y -> apart sb V (i_di ip) y ->
      inode_wf sb V' y /\ apart sb V' x' y /\ forall p, 0 <= p < max_bytes -> file_byte V' y p = file_byte V y p).
Proof.
  intros HY H1 Hok HL Hi Hd Hin Hf Hm Hty Hb Hs Ho Hn Hfr Hcap.
  assert (Hw : wp (writei dw i src off n) (mkfsys t ic sb) (fun r s' =>
    if (di_size (i_di ip) <? off) || (max_bytes <? off + n) then r = -1 /\ s' = mkfsys t ic sb
    else r = n /\ exists V' x' L' t', s' = mkfsys t' (<[i := set_di x' ip]> ic) sb /\
      bk_ok G t' (mkbabs V' [] L') /\ written sb V (i_inum ip) (i_di ip) V' x' off n src L L')).
  { eapply wp_writei; try done.
    - intros [H|H]; [rewrite (proj2 (Z.ltb_lt _ _)) by done; done|].
      rewrite (proj2 (Z.ltb_lt max_bytes _)), orb_true_r by done. done.
    - intros H2 H3. do 2 (split; [done|]). intros V' x' L' t' Hwr Hok'.
      rewrite (proj2 (Z.ltb_ge _ _)), (proj2 (Z.ltb_ge _ _)) by done.
      split; [done|]. by exists V', x', L', t'. }
  apply wp_elim in Hw as (r & s' & R & Hr). destruct (_ || _).
  - destruct Hr as [-> ->]. exact R.
  - destruct Hr as (-> & V' & x' & L' & t' & -> & Hok' & Hwr). exists t', V', x', L'. do 3 (split; [done|]).
    intros y. by apply (written_apart G sb HY _ _ _ _ _ _ _ _ _ _ _ Hwr).
Qed.

(** What writei has written, readi returns. *)
Theorem writei_readi_roundtrip (G : geom) (sb : superblock) dw dr (t : St) (ic : list inode)
    (V : Z -> list Z) (L : list Z) (i : nat) (ip : inode) (src : list Z) (off : Z) :
  layout G sb -> sb_size sb <= BPB -> bk_ok G t (mkbabs V [] L) -> NoDup L ->
  ic !! i = Some ip -> i_dev ip = ROOTDEV -> 0 <= i_inum ip < sb_ninodes sb ->
  file_ok sb V (i_inum ip) (i_di ip) -> meta_used sb V -> di_type (i_di ip) <> T_DEV ->
  Forall byte_ok src -> let n := Z.of_nat (length src) in
  0 <= off <= di_size (i_di ip) -> off + n <= max_bytes ->
  (2 * nblk off n <= nfree sb V)%nat -> (length L + nblk off n + 7 <= g_cap G)%nat ->
  exists s', (writei dw i src off n ;; readi dr i off n) (mkfsys t ic sb) = Ret (n, src) s'.
Proof.
  intros HY H1 Hok HL Hi Hd Hin Hf Hm Hty Hb n Ho Hn Hfr Hcap.
  assert (Hmx : off + n < 2 ^ 32) by (unfold max_bytes, MAXFILE, NDIRECT, NINDIRECT in *; lia).
  assert (Hw : wp (writei dw i src off n ;; readi dr i off n) (mkfsys t ic sb) (fun r _ => r = (n, src))).
  { fs_step. eapply wp_writei; try done; try lia. intros _ _. do 2 (split; [done|]).
    intros V' x' L' t' Hwr Hok'. pose proof (wr_file _ _ _ _ _ _ _ _ _ _ _ Hwr) as Hf'.
    assert (Es : di_size x' = Z.max (di_size (i_di ip)) (off + n)) by (by rewrite (wr_fields _ _ _ _ _ _ _ _ _ _ _ Hwr)).
    apply (wp_readi G sb HY H1 dr t' _ V' L' i (set_di x' ip)); cbn [i_di i_dev set_di];
      [done|by eapply wr_nodup|apply list_lookup_insert_eq; by eapply lookup_lt_Some|done|apply Hf'|
       by eapply wr_meta|apply Hf'|by rewrite (wr_fields _ _ _ _ _ _ _ _ _ _ _ Hwr)|apply Hf'|lia|lia|lia|].
    intros _ _ t2 _. assert (El : read_len x' off n = n) by (unfold read_len; lia).
    rewrite El. f_equal. apply (list_eq_same_length _ _ (length src)); [done|rewrite length_file_bytes by lia; lia|].
    intros k y z Hk Hy Hz. unfold file_bytes in Hy. apply list_lookup_fmap_Some in Hy as (q & -> & Hq).
    apply lookup_seqZ in Hq as [-> Hq]. rewrite (wr_byte _ _ _ _ _ _ _ _ _ _ _ Hwr) by lia.
    rewrite decide_True by lia. rewrite list_lookup_total_alt. replace (Z.to_nat _) with k by lia. by rewrite Hz. }
  apply wp_elim in Hw as (r & s' & R & ->). by exists s'.
Qed.

End Properties.

(** ** The properties at the small file system *)

Definition root_di : dinode := mkdinode T_DIR 0 0 1 512 (36 :: replicate 12 0).
Definition root_ip : inode := mkinode ROOTDEV 1 1 (mksl true 1) true root_di.
Definition root_ic : list inode := root_ip :: replicate 49 inode0.

Lemma root_file_ok : file_ok fs_sb fs_V 1 root_di.
Proof.
  assert (Ha : forall bn, in_file bn -> addr_of fs_V root_di bn <> 0 -> bn = 0 /\ addr_of fs_V root_di bn = 36).
  { unfold in_file, MAXFILE, NDIRECT, NINDIRECT, addr_of. intros bn Hbn. destruct (bn <? NDIRECT) eqn:E; [|done].
    apply Z.ltb_lt in E. unfold NDIRECT in E. rewrite <- (Z2Nat.id bn) by lia.
    assert (Hk : (Z.to_nat bn < 12)%nat) by lia. revert Hk. generalize (Z.to_nat bn). intros k Hk.
    rewrite Nat2Z.id. do 12 (destruct k as [|k]; [done|]). lia. }
  assert (Hd : data_block fs_sb 36) by (vm_compute; split; reflexivity || discriminate).
  split.
  - split; [done|..].
    + intros bn Hbn Hne. destruct (Ha bn Hbn Hne) as [_ ->]. split; [done|]. by rewrite fs_used.
    + intros Hne. by destruct Hne.
    + intros bn bn' Hbn Hbn' Hne E. destruct (Ha bn Hbn Hne) as [-> _]. rewrite E in Hne.
      by destruct (Ha bn' Hbn' Hne) as [-> _].
    + intros bn Hbn Hne. destruct (Ha bn Hbn Hne) as [_ ->]. done.
  - intros bn Hbn Hlt. cbn in Hlt. assert (bn = 0) as -> by lia. done.
  - vm_compute. split; discriminate.
  - unfold dinode_ok, root_di, T_DIR. cbn [di_type di_major di_minor di_nlink di_size di_addrs].
    split_and!; try lia; [reflexivity|]. repeat (apply Forall_cons_2; [lia|]). apply Forall_nil_2.
  - vm_compute. reflexivity.
Qed.

Lemma fs_nfree : nfree fs_sb fs_V = 23%nat.
Proof. vm_compute. reflexivity. Qed.

Definition no_dev_read : Z -> option (nat -> Z -> M (fsys lst) (Z * list Z)) := fun _ => None.
Definition no_dev_write : Z -> option (nat -> list Z -> Z -> M (fsys lst) Z) := fun _ => None.

Lemma readi_reads_file_witness : exists (t t' : lst),
  readi no_dev_read 0 500 100 (mkfsys t root_ic fs_sb) = Ret (12, replicate 12 0) (mkfsys t' root_ic fs_sb).
Proof.
  destruct fs_boot as (t & Hok).
  pose proof (readi_reads_file fs_G fs_sb no_dev_read t root_ic fs_V [] 0 root_ip 500 100 fs_layout
    ltac:(vm_compute; discriminate) Hok ltac:(apply NoDup_nil_2) eq_refl eq_refl root_file_ok fs_meta_used
    ltac:(discriminate) ltac:(lia) ltac:(lia)) as H.
  change (_ || _) with false in H. destruct H as (t' & R & _). exists t, t'. rewrite R.
  reflexivity.
Defined.

Lemma writei_writes_file_witness : exists (t t' : lst) x',
  writei no_dev_write 0 [1; 2; 3; 4; 5] 510 5 (mkfsys t root_ic fs_sb) =
    Ret 5 (mkfsys t' (<[0%nat := set_di x' root_ip]> root_ic) fs_sb) /\ di_size x' = 515.
Proof.
  destruct fs_boot as (t & Hok).
  pose proof (writei_writes_file fs_G fs_sb no_dev_write t root_ic fs_V [] 0 root_ip [1; 2; 3; 4; 5] 510 5
    fs_layout ltac:(vm_compute; discriminate) Hok ltac:(apply NoDup_nil_2) eq_refl eq_refl
    ltac:(split; reflexivity || discriminate) root_file_ok fs_meta_used
    ltac:(discriminate) ltac:(solve_bytes) ltac:(cbn; lia) ltac:(lia) ltac:(lia)
    ltac:(rewrite fs_nfree; apply Nat.leb_le; reflexivity) ltac:(apply Nat.leb_le; reflexivity)) as H.
  change (_ || _) with false in H. destruct H as (t' & V' & x' & L' & R & _ & Hw & _).
  exists t, t', x'. split; [exact R|]. rewrite (wr_fields _ _ _ _ _ _ _ _ _ _ _ Hw). reflexivity.
Defined.

Lemma writei_readi_roundtrip_witness : exists (t : lst) s',
  (writei no_dev_write 0 [1; 2; 3; 4; 5] 510 5 ;; readi no_dev_read 0 510 5) (mkfsys t root_ic fs_sb) =
    Ret (5, [1; 2; 3; 4; 5]) s'.
Proof.
  destruct fs_boot as (t & Hok).
  destruct (writei_readi_roundtrip fs_G fs_sb no_dev_write no_dev_read t root_ic fs_V [] 0 root_ip
    [1; 2; 3; 4; 5] 510 fs_layout ltac:(vm_compute; discriminate) Hok ltac:(apply NoDup_nil_2) eq_refl eq_refl
    ltac:(split; reflexivity || discriminate) root_file_ok fs_meta_used
    ltac:(discriminate) ltac:(solve_bytes) ltac:(cbn; lia) ltac:(vm_compute; discriminate)
    ltac:(rewrite fs_nfree; apply Nat.leb_le; reflexivity) ltac:(apply Nat.leb_le; reflexivity)) as (s' & R).
  exists t, s'. exact R.
Defined.
