(* ===== verification/FsDir.v ===== *)
(** * Directories and paths: theorems about fs.c, part 3

    [dents] is a directory as a list of slots, each an inode number (0 when
    the slot is empty) and a name.  dirlookup finds the first slot with the
    name; dirlink puts a name that is not there in the first empty slot or
    behind the last one.  [elems] splits a path at its slashes; skipelem
    takes the elements off one by one. *)

From stdpp Require Import base list list_numbers sets strings.
From Stdlib Require Import ZArith Lia.
From S2P Require Import Prelude CString Proc Bio Log Block Fs FsBlocks FsFile.

Local Open Scope Z_scope.

(** ** A directory as a list *)

Definition ent (V : Z -> list Z) (x : dinode) (k : Z) : list Z := file_bytes V x (16 * k) 16.
Definition slot_of (e : list Z) : Z * list Z := (de_inum e, cstr (de_name e) DIRSIZ).
Definition dents (V : Z -> list Z) (x : dinode) : list (Z * list Z) :=
  map (fun k => slot_of (ent V x k)) (seqZ 0 (di_size x / 16)).

(** A slot in use under the name [nm]; a slot not in use. *)
Definition is_entry (nm : list Z) (e : Z * list Z) : Prop := e.1 <> 0 /\ e.2 = nm.
#[export] Instance is_entry_dec nm e : Decision (is_entry nm e).
Proof. unfold is_entry. apply _. Defined.
Definition is_empty (e : Z * list Z) : Prop := e.1 = 0.
#[export] Instance is_empty_dec e : Decision (is_empty e).
Proof. unfold is_empty. apply _. Defined.

(** The directory with [e] linked in. *)
Definition link_at (l : list (Z * list Z)) : nat :=
  match list_find is_empty l with Some (k, _) => k | None => length l end.
Definition linked_in (l : list (Z * list Z)) (e : Z * list Z) : list (Z * list Z) :=
  match list_find is_empty l with Some (k, _) => <[k := e]> l | None => l ++ [e] end.

(** What an inode of a directory looks like. *)
Definition dir_ok (x : dinode) : Prop := di_type x = T_DIR /\ di_size x mod 16 = 0.

Lemma length_dents V x : 0 <= di_size x -> length (dents V x) = Z.to_nat (di_size x / 16).
Proof. intros. unfold dents. by rewrite length_map, length_seqZ. Qed.

Lemma dents_lookup V x pre e suf : dents V x = pre ++ e :: suf -> 0 <= di_size x ->
  e = slot_of (ent V x (Z.of_nat (length pre))) /\ 16 * (Z.of_nat (length pre) + 1) <= di_size x.
Proof.
  intros E H0. assert (Hl : dents V x !! length pre = Some e) by (by rewrite E, list_lookup_middle).
  pose proof (lookup_lt_Some _ _ _ Hl) as Hlt. rewrite length_dents in Hlt by done. unfold dents in Hl.
  rewrite list_lookup_fmap, lookup_seqZ_lt in Hl by lia. injection Hl as <-. split; [done|]. zdiv.
Qed.

Lemma dents_end V x pre : dents V x = pre -> 0 <= di_size x -> di_size x mod 16 = 0 -> di_size x = 16 * Z.of_nat (length pre).
Proof. intros <- H0 Hm. rewrite length_dents by done. zdiv. Qed.

Section Dir.
Context {St : Type} {BO : BlockOps St} {BL : BlockLaws St}.
Context (G : geom) (sb : superblock).
Hypothesis HY : layout G sb.
Hypothesis Hone : sb_size sb <= BPB.
Implicit Types (t : St) (V : Z -> list Z) (ic : list inode).

Lemma file_bytes_ok t V L x off n : bk_ok G t (mkbabs V [] L) -> inode_wf sb V x -> 0 <= off -> off + n <= max_bytes ->
  Forall byte_ok (file_bytes V x off n).
Proof using HY.
  intros Hok Hx Ho Hn. unfold file_bytes. apply Forall_map, Forall_forall. intros k Hk. apply elem_of_seqZ in Hk.
  assert (Hb : block_ok (fblock V x ((off + k) / 512))).
  { apply (fblock_ok G sb HY t V [] L); [done|done|]. apply off_in_file. lia. }
  destruct Hb as [Hl Hf]. unfold file_byte. apply (Forall_lookup_total_1 byte_ok); [done|]. rewrite Hl. unfold BSIZE. zdiv.
Qed.

Lemma name_bytes e : Forall byte_ok e -> forall i, byte_ok (de_name e i).
Proof.
  intros He i. unfold de_name, lit. destruct (drop 2 e !! Z.to_nat i) eqn:E; cbn; [|unfold byte_ok; lia].
  eapply Forall_lookup_1; [|exact E]. by apply Forall_drop.
Qed.

(** One entry read. *)
Lemma wp_read_ent dr t ic V L i ip k (Q : Z * list Z -> fsys St -> Prop) :
  bk_ok G t (mkbabs V [] L) -> NoDup L -> ic !! i = Some ip -> i_dev ip = ROOTDEV ->
  file_ok sb V (i_inum ip) (i_di ip) -> meta_used sb V -> di_type (i_di ip) <> T_DEV ->
  0 <= k -> 16 * (k + 1) <= di_size (i_di ip) ->
  (forall t', bk_ok G t' (mkbabs V [] L) -> Q (16, ent V (i_di ip) k) (mkfsys t' ic sb)) ->
  wp (readi dr i (16 * k) de_size) (mkfsys t ic sb) Q.
Proof using HY Hone.
  intros Hok HL Hi Hd Hf Hm Hty Hk Hs HQ. pose proof (fk_size _ _ _ _ Hf) as Hsz.
  assert (El : read_len (i_di ip) (16 * k) de_size = 16) by (unfold read_len, de_size; lia).
  unfold max_bytes, MAXFILE, NDIRECT, NINDIRECT in Hsz.
  eapply (wp_readi G sb HY Hone); try done; try apply Hf; try (unfold de_size; lia).
  intros _ _ t' Hok'. rewrite El. by apply HQ.
Qed.

Lemma entry_match t V L x name k : bk_ok G t (mkbabs V [] L) -> inode_wf sb V x -> 0 <= k -> 16 * (k + 1) <= max_bytes ->
  (forall i, byte_ok (name i)) ->
  namecmp name (de_name (ent V x k)) = 0 <-> (slot_of (ent V x k)).2 = cstr name DIRSIZ.
Proof using HY.
  intros Hok Hx Hk Hmx Hn. unfold namecmp. rewrite strncmp_zero; [|done|].
  - cbn. split; congruence.
  - apply name_bytes. eapply file_bytes_ok; [done|done|lia|lia].
Qed.

(** What dirlookup leaves. *)
Definition looked_up ic V L (pre suf : list (Z * list Z)) (nm : list Z) (Q : option (nat * Z) -> fsys St -> Prop) : Prop :=
  match list_find (is_entry nm) suf with
  | None => forall t', bk_ok G t' (mkbabs V [] L) -> Q None (mkfsys t' ic sb)
  | Some (j, (inum, _)) => Exists (fun ip => caches ROOTDEV inum ip \/ i_ref ip = 0) ic /\
      forall t' i ic', bk_ok G t' (mkbabs V [] L) -> igot ROOTDEV inum ic i ic' ->
        Q (Some (i, 16 * (Z.of_nat (length pre) + Z.of_nat j))) (mkfsys t' ic' sb)
  end.

Lemma looked_up_skip ic V L pre e suf nm Q : ~ is_entry nm e ->
  looked_up ic V L pre (e :: suf) nm Q -> looked_up ic V L (pre ++ [e]) suf nm Q.
Proof using.
  intros He. unfold looked_up. cbn [list_find]. rewrite decide_False by done.
  destruct (list_find (is_entry nm) suf) as [[j [inum s]]|]; cbn; [|done].
  intros [H1 H2]. split; [done|]. intros t' i ic' Hok Hg. rewrite length_app. cbn.
  specialize (H2 t' i ic' Hok Hg).
  replace (Z.of_nat (length pre + 1) + Z.of_nat j) with (Z.of_nat (length pre) + Z.of_nat (S j)) by lia. done.
Qed.

Lemma wp_dirlookup_loop dr ic V L i ip name (Q : option (nat * Z) -> fsys St -> Prop) suf : forall pre t f,
  bk_ok G t (mkbabs V [] L) -> NoDup L -> ic !! i = Some ip -> i_dev ip = ROOTDEV ->
  file_ok sb V (i_inum ip) (i_di ip) -> meta_used sb V -> dir_ok (i_di ip) -> (forall i, byte_ok (name i)) ->
  dents V (i_di ip) = pre ++ suf -> (length suf < f)%nat ->
  looked_up ic V L pre suf (cstr name DIRSIZ) Q ->
  wp (dirlookup_loop dr i name (16 * Z.of_nat (length pre)) f) (mkfsys t ic sb) Q.
Proof using HY Hone.
  induction suf as [|e suf IH]; intros pre t f Hok HL Hi Hd Hf Hm [Hty Hmod] Hn E Hfu HQ; destruct f as [|f]; try (cbn in Hfu; lia);
    cbn [dirlookup_loop]; fs_step; (eapply wp_getino; [exact Hi|]); pose proof (fk_size _ _ _ _ Hf) as Hsz.
  - rewrite app_nil_r in E. rewrite (proj2 (Z.ltb_ge _ _)) by (rewrite (dents_end _ _ _ E) by lia; lia). fs_step. by apply HQ.
  - destruct (dents_lookup _ _ _ _ _ E ltac:(lia)) as [Ee Hend]. rewrite (proj2 (Z.ltb_lt _ _)) by lia. fs_step.
    eapply wp_read_ent; [exact Hok|done..| |lia|lia|]; [by rewrite Hty|]. clear t Hok. intros t Hok.
    cbn [fst snd]. change (negb (16 =? de_size)) with false. cbv beta iota.
    assert (Enext : u32 (16 * Z.of_nat (length pre) + de_size) = 16 * Z.of_nat (length (pre ++ [e]))).
    { unfold de_size, max_bytes, MAXFILE, NDIRECT, NINDIRECT in *. rewrite length_app, u32_small; cbn [length]; lia. }
    assert (Hskip : ~ is_entry (cstr name DIRSIZ) e ->
      wp (dirlookup_loop dr i name (u32 (16 * Z.of_nat (length pre) + de_size)) f) (mkfsys t ic sb) Q).
    { intros Hne. rewrite Enext. cbn [length] in Hfu. apply IH; try done; [by rewrite <- app_assoc|lia|by apply looked_up_skip]. }
    destruct (Z.eqb_spec (de_inum (ent V (i_di ip) (Z.of_nat (length pre)))) 0) as [Ez|Ez].
    { apply Hskip. rewrite Ee. intros [H _]. done. }
    pose proof (entry_match t V L (i_di ip) name (Z.of_nat (length pre)) Hok (fk_wf _ _ _ _ Hf) ltac:(lia) ltac:(lia) Hn) as Hmt.
    destruct (Z.eqb_spec (namecmp name (de_name (ent V (i_di ip) (Z.of_nat (length pre))))) 0) as [En|En].
    + apply Hmt in En. assert (Hhit : is_entry (cstr name DIRSIZ) e) by (rewrite Ee; done).
      unfold looked_up in HQ. cbn [list_find] in HQ. rewrite decide_True in HQ by done. rewrite Ee in HQ. cbn [slot_of] in HQ.
      destruct HQ as [Hex HQ]. fs_step. rewrite Hd. apply wp_iget; [done|]. intros j ic' Hg. fs_step.
      specialize (HQ t j ic' Hok Hg). by rewrite Z.add_0_r in HQ.
    + apply Hskip. rewrite Ee. intros [_ H]. by apply En, Hmt.
Qed.

Lemma dir_fuel_ok V x : 0 <= di_size x -> (length (dents V x) < dir_fuel (di_size x))%nat.
Proof. intros. rewrite length_dents by done. unfold dir_fuel, de_size. lia. Qed.

Lemma wp_dirlookup dr t ic V L i ip name (Q : option (nat * Z) -> fsys St -> Prop) :
  bk_ok G t (mkbabs V [] L) -> NoDup L -> ic !! i = Some ip -> i_dev ip = ROOTDEV ->
  file_ok sb V (i_inum ip) (i_di ip) -> meta_used sb V -> dir_ok (i_di ip) -> (forall i, byte_ok (name i)) ->
  looked_up ic V L [] (dents V (i_di ip)) (cstr name DIRSIZ) Q ->
  wp (dirlookup dr i name) (mkfsys t ic sb) Q.
Proof using HY Hone.
  intros Hok HL Hi Hd Hf Hm Hdir Hn HQ. pose proof (fk_size _ _ _ _ Hf) as Hsz. unfold dirlookup. fs_step. eapply wp_getino; [exact Hi|].
  rewrite (proj1 Hdir), Z.eqb_refl. cbn [negb].
  apply (wp_dirlookup_loop dr ic V L i ip name Q (dents V (i_di ip)) [] t); try done. apply dir_fuel_ok. lia.
Qed.

(** *** dirlink *)

Lemma wp_dirlink_loop dr ic V L i ip (Q : Z -> fsys St -> Prop) suf : forall pre t f,
  bk_ok G t (mkbabs V [] L) -> NoDup L -> ic !! i = Some ip -> i_dev ip = ROOTDEV ->
  file_ok sb V (i_inum ip) (i_di ip) -> meta_used sb V -> dir_ok (i_di ip) ->
  dents V (i_di ip) = pre ++ suf -> (length suf < f)%nat ->
  (forall t', bk_ok G t' (mkbabs V [] L) -> Q (16 * (Z.of_nat (length pre) + Z.of_nat (link_at suf))) (mkfsys t' ic sb)) ->
  wp (dirlink_loop dr i (16 * Z.of_nat (length pre)) f) (mkfsys t ic sb) Q.
Proof using HY Hone.
  induction suf as [|e suf IH]; intros pre t f Hok HL Hi Hd Hf Hm [Hty Hmod] E Hfu HQ; destruct f as [|f]; try (cbn in Hfu; lia);
    cbn [dirlink_loop]; fs_step; (eapply wp_getino; [exact Hi|]); pose proof (fk_size _ _ _ _ Hf) as Hsz.
  - rewrite app_nil_r in E. rewrite (proj2 (Z.ltb_ge _ _)) by (rewrite (dents_end _ _ _ E) by lia; lia). fs_step.
    specialize (HQ t Hok). cbn in HQ. by rewrite Z.add_0_r in HQ.
  - destruct (dents_lookup _ _ _ _ _ E ltac:(lia)) as [Ee Hend]. rewrite (proj2 (Z.ltb_lt _ _)) by lia. fs_step.
    eapply wp_read_ent; [exact Hok|done..| |lia|lia|]; [by rewrite Hty|]. clear t Hok. intros t Hok.
    cbn [fst snd]. change (negb (16 =? de_size)) with false. cbv beta iota.
    unfold link_at in HQ. cbn [list_find] in HQ.
    destruct (Z.eqb_spec (de_inum (ent V (i_di ip) (Z.of_nat (length pre)))) 0) as [Ez|Ez].
    + fs_step. rewrite decide_True in HQ by (by rewrite Ee). specialize (HQ t Hok). by rewrite Z.add_0_r in HQ.
    + rewrite decide_False in HQ by (by rewrite Ee).
      replace (16 * Z.of_nat (length pre) + de_size) with (16 * Z.of_nat (length (pre ++ [e])))
        by (unfold de_size; rewrite length_app; cbn [length]; lia).
      cbn [length] in Hfu. apply IH; try done; [by rewrite <- app_assoc|lia|]. intros t' Hok'. specialize (HQ t' Hok').
      rewrite length_app. cbn [length]. unfold link_at. destruct (list_find is_empty suf) as [[j y]|]; cbn in HQ.
      * replace (Z.of_nat (length pre + 1) + Z.of_nat j) with (Z.of_nat (length pre) + Z.of_nat (S j)) by lia. done.
      * replace (Z.of_nat (length pre + 1) + Z.of_nat (length suf)) with (Z.of_nat (length pre) + Z.of_nat (S (length suf))) by lia. done.
Qed.

End Dir.

(** The entry dirlink writes holds the number and the name. *)
Lemma cstr_strncpy_out p n : cstr (lit (strncpy_out p n)) n = cstr p n.
Proof.
  revert p. induction n as [|n IH]; intros p; [done|]. destruct (Z.eqb_spec (p 0) 0) as [E|E].
  - rewrite (cstr_nil p) by done. apply cstr_nil. unfold strncpy_out. by rewrite cstr_nil by done.
  - assert (Eo : strncpy_out p (S n) = p 0 :: strncpy_out (fun i => p (i + 1)) n)
      by (unfold strncpy_out; by rewrite cstr_cons by done).
    rewrite Eo, !cstr_cons by done. change (lit (p 0 :: strncpy_out (fun i => p (i + 1)) n) 0) with (p 0). f_equal.
    rewrite <- (IH (fun i => p (i + 1))). apply cstr_ext. intros i Hi. unfold lit. by replace (Z.to_nat (i + 1)) with (S (Z.to_nat i)) by lia.
Qed.

Lemma length_mkdirent name inum : length (mkdirent name inum) = 16%nat.
Proof. unfold mkdirent. rewrite length_put_le. cbn [length]. by rewrite length_strncpy_out. Qed.

Lemma slot_mkdirent name inum : 0 <= inum < 65536 -> slot_of (mkdirent name inum) = (inum, cstr name DIRSIZ).
Proof.
  intros Hi. unfold slot_of, de_inum, de_name, mkdirent. f_equal.
  - rewrite get_put_le_same by (cbn [length]; lia). apply Z.mod_small. exact Hi.
  - rewrite <- (cstr_strncpy_out name DIRSIZ). by cbn.
Qed.

Lemma mkdirent_bytes name inum : (forall i, byte_ok (name i)) -> Forall byte_ok (mkdirent name inum).
Proof.
  intros Hn. unfold mkdirent. apply put_le_byte_ok. repeat (apply Forall_cons_2; [unfold byte_ok; lia|]).
  unfold strncpy_out. apply Forall_app. split; [|apply Forall_replicate; unfold byte_ok; lia].
  generalize DIRSIZ. intros n. revert name Hn. induction n as [|n IH]; intros name Hn; cbn [cstr]; [done|].
  destruct (name 0 =? 0); [done|]. apply Forall_cons_2; [done|]. by apply IH.
Qed.

(** The directory after the entry [k] was written, in the list or behind it. *)
Lemma dents_written sb V inum x V' x' k e L L' : dir_ok x -> file_ok sb V inum x -> (k <= length (dents V x))%nat -> length e = 16%nat ->
  written sb V inum x V' x' (16 * Z.of_nat k) 16 e L L' -> 16 * Z.of_nat k + 16 <= max_bytes ->
  dents V' x' = if decide (k = length (dents V x)) then dents V x ++ [slot_of e] else <[k := slot_of e]> (dents V x).
Proof.
  intros [Hty Hmod] Hf Hk He Hw Hmx. pose proof (fk_size _ _ _ _ Hf) as Hsz.
  assert (Es : di_size x' = Z.max (di_size x) (16 * Z.of_nat k + 16)) by (by rewrite (wr_fields _ _ _ _ _ _ _ _ _ _ _ Hw)).
  assert (Ent : forall j, 0 <= j -> 16 * (j + 1) <= max_bytes -> ent V' x' j = if decide (j = Z.of_nat k) then e else ent V x j).
  { intros j Hj Hjm. unfold ent, file_bytes. case_decide as Ej.
    - subst j. apply (list_eq_same_length _ _ 16); [done|by rewrite length_map, length_seqZ|].
      intros q y z Hq Hy Hz. apply list_lookup_fmap_Some in Hy as (c & -> & Hc). apply lookup_seqZ in Hc as [-> _].
      rewrite (wr_byte _ _ _ _ _ _ _ _ _ _ _ Hw), decide_True by lia. rewrite list_lookup_total_alt.
      replace (Z.to_nat _) with q by lia. by rewrite Hz.
    - apply map_ext_Forall, Forall_forall. intros c Hc%elem_of_seqZ.
      rewrite (wr_byte _ _ _ _ _ _ _ _ _ _ _ Hw), decide_False by lia. done. }
  pose proof (length_dents V x ltac:(lia)) as Hl. set (n := di_size x / 16) in *.
  assert (Hn : 0 <= n /\ di_size x = 16 * n) by (unfold n; zdiv). unfold max_bytes, MAXFILE, NDIRECT, NINDIRECT in *.
  case_decide as Ek.
  - assert (Z.of_nat k = n) by lia. unfold dents. rewrite Es. fold n. rewrite Z.max_r by lia.
    replace ((16 * Z.of_nat k + 16) / 16) with (n + 1) by zdiv. rewrite seqZ_app, map_app by lia. apply (f_equal2 (@app (Z * list Z))).
    + apply map_ext_Forall, Forall_forall. intros j Hj%elem_of_seqZ. by rewrite Ent, decide_False by lia.
    + rewrite (seqZ_cons (0 + n) 1) by lia. change (seqZ (Z.succ (0 + n)) (Z.pred 1)) with (@nil Z). cbn [map].
      by rewrite Ent, decide_True by lia.
  - unfold dents. rewrite Es. fold n. rewrite Z.max_l by lia. fold n. apply list_eq. intros j.
    destruct (decide (j = k)) as [->|Hne].
    + rewrite list_lookup_insert_eq by (rewrite length_map, length_seqZ; lia).
      rewrite list_lookup_fmap, lookup_seqZ_lt by lia. cbn [fmap option_fmap option_map]. by rewrite Ent, decide_True by lia.
    + rewrite list_lookup_insert_ne, !list_lookup_fmap by done. destruct (decide (Z.of_nat j < n)); [|by rewrite lookup_seqZ_ge by lia].
      rewrite lookup_seqZ_lt by lia. cbn [fmap option_fmap option_map]. by rewrite Ent, decide_False by lia.
Qed.

(** Lookups after a link. *)
Lemma find_linked l inum nm nm' : inum <> 0 -> list_find (is_entry nm) l = None ->
  list_find (is_entry nm') (linked_in l (inum, nm)) =
    if decide (nm' = nm) then Some (link_at l, (inum, nm)) else list_find (is_entry nm') l.
Proof.
  intros Hi. unfold linked_in, link_at. induction l as [|e l IH]; cbn [list_find]; intros Hn.
  - cbn. destruct (decide (nm' = nm)) as [->|Hne].
    + by rewrite decide_True by done.
    + rewrite decide_False; [done|]. by intros [_ ?].
  - destruct (decide (is_entry nm e)) as [?|He]; [done|]. apply fmap_None in Hn. specialize (IH Hn).
    destruct (decide (is_empty e)) as [Ee|Ee].
    + change (<[0%nat := (inum, nm)]> (e :: l)) with ((inum, nm) :: l). cbn [list_find].
      destruct (decide (nm' = nm)) as [->|Hne]; [by rewrite decide_True by done|].
      rewrite decide_False by (by intros [_ ?]). rewrite decide_False; [done|]. intros [? _]. done.
    + destruct (list_find is_empty l) as [[k y]|]; cbn in IH; cbn;
        (destruct (decide (is_entry nm' e)) as [He'|He']; [by destruct (decide (nm' = nm)) as [->|]|]).
      * transitivity (prod_map S id <$> list_find (is_entry nm') (<[k := (inum, nm)]> l)); [done|].
        rewrite IH. by destruct (decide (nm' = nm)).
      * rewrite IH. by destruct (decide (nm' = nm)).
Qed.

Lemma linked_in_at l e : linked_in l e = if decide (link_at l = length l) then l ++ [e] else <[link_at l := e]> l.
Proof.
  unfold linked_in, link_at. destruct (list_find is_empty l) as [[k y]|] eqn:E.
  - apply list_find_Some in E as (Hk & _). apply lookup_lt_Some in Hk. by rewrite decide_False by lia.
  - by rewrite decide_True by done.
Qed.

Lemma link_at_le l : (link_at l <= length l)%nat.
Proof.
  unfold link_at. destruct (list_find is_empty l) as [[k y]|] eqn:E; [|done].
  apply list_find_Some in E as (Hk & _). apply lookup_lt_Some in Hk. lia.
Qed.

Section Properties.
Context {St : Type} {BO : BlockOps St} {BL : BlockLaws St}.

(** dirlookup.  It returns the first slot in use under the name, as the
    cache entry of its inode and its offset, or nothing when there is none;
    blocks and inodes stay as they are but for the reference iget takes. *)
Theorem dirlookup_finds (G : geom) (sb : superblock) dr (t : St) (ic : list inode)
    (V : Z -> list Z) (L : list Z) (i : nat) (ip : inode) (name : Z -> Z) :
  layout G sb -> sb_size sb <= BPB -> bk_ok G t (mkbabs V [] L) -> NoDup L ->
  ic !! i = Some ip -> i_dev ip = ROOTDEV -> file_ok sb V (i_inum ip) (i_di ip) -> meta_used sb V ->
  dir_ok (i_di ip) -> (forall i, byte_ok (name i)) ->
  match list_find (is_entry (cstr name DIRSIZ)) (dents V (i_di ip)) with
  | None => exists t', dirlookup dr i name (mkfsys t ic sb) = Ret None (mkfsys t' ic sb) /\ bk_ok G t' (mkbabs V [] L)
  | Some (k, (inum, _)) => Exists (fun ip => caches ROOTDEV inum ip \/ i_ref ip = 0) ic ->
      exists t' j ic', dirlookup dr i name (mkfsys t ic sb) = Ret (Some (j, 16 * Z.of_nat k)) (mkfsys t' ic' sb) /\
        bk_ok G t' (mkbabs V [] L) /\ igot ROOTDEV inum ic j ic'
  end.
Proof.
  intros HY H1 Hok HL Hi Hd Hf Hm Hdir Hn. pose proof (wp_dirlookup G sb HY H1 dr t ic V L i ip name) as HW.
  unfold looked_up in HW. destruct (list_find _ _) as [[k [inum s]]|].
  - intros Hex. edestruct (wp_elim (dirlookup dr i name) (mkfsys t ic sb) (fun r s' => exists t' j ic',
      r = Some (j, 16 * Z.of_nat k) /\ s' = mkfsys t' ic' sb /\ bk_ok G t' (mkbabs V [] L) /\ igot ROOTDEV inum ic j ic'))
      as (r & s' & R & t' & j & ic' & -> & -> & Hr); [|by exists t', j, ic'].
    apply HW; try done. split; [done|]. intros t' j ic' Hok' Hg. by exists t', j, ic'.
  - edestruct (wp_elim (dirlookup dr i name) (mkfsys t ic sb) (fun r s' => exists t',
      r = None /\ s' = mkfsys t' ic sb /\ bk_ok G t' (mkbabs V [] L))) as (r & s' & R & t' & -> & -> & Hr); [|by exists t'].
    apply HW; try done. intros t' Hok'. by exists t'.
Qed.

(** C18: dirlink of a name that is not in the directory.  The name goes to the
    first empty slot or behind the last; every other slot, every other inode
    and the well-formedness of the directory stay.  dirlookup run on the
    state dirlink leaves finds the name at that slot, with the new inode, and
    every other name at the slot it was at before, or not at all if it was
    not there. *)
Theorem dirlink_links (G : geom) (sb : superblock) dr dw (t : St) (ic : list inode)
    (V : Z -> list Z) (L : list Z) (i : nat) (ip : inode) (name : Z -> Z) (inum : Z) :
  layout G sb -> sb_size sb <= BPB -> bk_ok G t (mkbabs V [] L) -> NoDup L ->
  ic !! i = Some ip -> i_dev ip = ROOTDEV -> 0 <= i_inum ip < sb_ninodes sb ->
  file_ok sb V (i_inum ip) (i_di ip) -> meta_used sb V -> dir_ok (i_di ip) -> (forall i, byte_ok (name i)) -> 0 < inum < 65536 ->
  let l := dents V (i_di ip) in let nm := cstr name DIRSIZ in let off := 16 * Z.of_nat (link_at l) in
  list_find (is_entry nm) l = None -> off + 16 <= max_bytes ->
  (2 * nblk off 16 <= nfree sb V)%nat -> (length L + nblk off 16 + 7 <= g_cap G)%nat ->
  exists t' V' x' L', dirlink dr dw i name inum (mkfsys t ic sb) = Ret 0 (mkfsys t' (<[i := set_di x' ip]> ic) sb) /\
    bk_ok G t' (mkbabs V' [] L') /\ file_ok sb V' (i_inum ip) x' /\ meta_used sb V' /\ dir_ok x' /\
    dents V' x' = linked_in l (inum, nm) /\
    (forall nm', list_find (is_entry nm') (dents V' x') =
      if decide (nm' = nm) then Some (link_at l, (inum, nm)) else list_find (is_entry nm') l) /\
    (forall name', (forall i, byte_ok (name' i)) -> let ic' := <[i := set_di x' ip]> ic in let s' := mkfsys t' ic' sb in
      match (if decide (cstr name' DIRSIZ = nm) then Some (link_at l, (inum, nm)) else list_find (is_entry (cstr name' DIRSIZ)) l) with
      | None => exists t2, dirlookup dr i name' s' = Ret None (mkfsys t2 ic' sb) /\ bk_ok G t2 (mkbabs V' [] L')
      | Some (k, (num, _)) => Exists (fun ip => caches ROOTDEV num ip \/ i_ref ip = 0) ic' ->
          exists t2 j ic2, dirlookup dr i name' s' = Ret (Some (j, 16 * Z.of_nat k)) (mkfsys t2 ic2 sb) /\
            bk_ok G t2 (mkbabs V' [] L') /\ igot ROOTDEV num ic' j ic2
      end) /\
    (forall j, 0 <= j < sb_ninodes sb -> j <> i_inum ip -> dinode_at sb V' j = dinode_at sb V j).
Proof.
  intros HY H1 Hok HL Hi Hd Hin Hf Hm Hdir Hn Hinum l nm off Hnone Hmx Hfr Hcap. pose proof (link_at_le l) as Hle.
  pose proof (fk_size _ _ _ _ Hf) as Hsz. pose proof (length_dents V (i_di ip) ltac:(lia)) as Hlen. fold l in Hlen.
  assert (Hoff : 0 <= off <= di_size (i_di ip)) by (unfold off; zdiv).
  unfold max_bytes, MAXFILE, NDIRECT, NINDIRECT in Hsz, Hmx.
  edestruct (wp_elim (dirlink dr dw i name inum) (mkfsys t ic sb) (fun r s' => r = 0 /\ exists t' V' x' L',
    s' = mkfsys t' (<[i := set_di x' ip]> ic) sb /\ bk_ok G t' (mkbabs V' [] L') /\
    written sb V (i_inum ip) (i_di ip) V' x' off 16 (mkdirent name inum) L L')) as (r & s' & R & -> & t' & V' & x' & L' & -> & Hok' & Hw).
  { unfold dirlink. fs_step. eapply (wp_dirlookup G sb HY H1); [exact Hok|done..|]. unfold looked_up.
    fold l nm. rewrite Hnone. clear t Hok. intros t Hok. fs_step. eapply wp_getino; [exact Hi|]. fs_step.
    apply (wp_dirlink_loop G sb HY H1 dr ic V L i ip _ l []); try done; [apply dir_fuel_ok; lia|].
    clear t Hok. intros t Hok. fold l. change (16 * (Z.of_nat (@length (Z * list Z) []) + Z.of_nat (link_at l))) with off. fs_step.
    eapply (wp_writei G sb HY H1); try exact Hok; try done.
    - rewrite (proj1 Hdir). discriminate.
    - by apply mkdirent_bytes.
    - by rewrite length_mkdirent.
    - lia.
    - unfold max_bytes, MAXFILE, NDIRECT, NINDIRECT, de_size. lia.
    - intros _ _. do 2 (split; [done|]). intros V' x' L' t' Hw Hok'. rewrite Z.eqb_refl. cbn [negb]. fs_step.
      split; [done|]. by exists t', V', x', L'. }
  assert (Edents : dents V' x' = linked_in l (inum, nm)).
  { rewrite (dents_written sb V (i_inum ip) (i_di ip) V' x' (link_at l) (mkdirent name inum) L L'); try done.
    - rewrite linked_in_at, slot_mkdirent by lia. done.
    - apply length_mkdirent. }
  assert (Hdir' : dir_ok x').
  { rewrite (wr_fields _ _ _ _ _ _ _ _ _ _ _ Hw). destruct Hdir as [Hty Hmod]. split; [done|]. cbn. unfold off. zdiv. }
  assert (Hfind : forall nm', list_find (is_entry nm') (dents V' x') = if decide (nm' = nm) then Some (link_at l, (inum, nm)) else list_find (is_entry nm') l)
    by (intros nm'; rewrite Edents; apply find_linked; [lia|done]).
  exists t', V', x', L'. split_and!; [exact R|exact Hok'|apply Hw|apply Hw|exact Hdir'|exact Edents|exact Hfind| |apply Hw].
  intros name' Hn' ic' s'. rewrite <- Hfind. apply (dirlookup_finds G sb dr t' ic' V' L' i (set_di x' ip) name'); try done; try apply Hw.
  apply list_lookup_insert_eq. by eapply lookup_lt_Some.
Qed.
End Properties.

(** ** Paths *)

(** The pieces between the slashes, and those that are not empty. *)
Fixpoint pieces (p : list Z) : list (list Z) :=
  match p with
  | [] => [[]]
  | c :: p' =>
    if c =? slash then [] :: pieces p'
    else match pieces p' with e :: es => (c :: e) :: es | [] => [[c]] end
  end.
Definition elems (p : list Z) : list (list Z) := filter (fun e => e <> []) (pieces p).

Lemma pieces_cons p : exists e es, pieces p = e :: es.
Proof. destruct p as [|c p]; cbn; [by eexists _, _|]. destruct (c =? slash); [by eexists _, _|]. destruct (pieces p); by eexists _, _. Qed.

Lemma elems_slash p : elems (slash :: p) = elems p.
Proof. done. Qed.

Lemma elems_skip p : elems (skip_slashes p) = elems p.
Proof.
  induction p as [|c p IH]; cbn [skip_slashes]; [done|]. destruct (Z.eqb_spec c slash) as [->|]; [|done].
  by rewrite elems_slash.
Qed.

Lemma skip_head p : match skip_slashes p with c :: _ => c <> slash | [] => True end.
Proof. induction p as [|c p IH]; cbn [skip_slashes]; [done|]. by destruct (Z.eqb_spec c slash). Qed.

(** An element and what follows it. *)
Lemma span_ok p : let '(e, r) := span_elem p in
  p = e ++ r /\ (r = [] \/ exists r', r = slash :: r') /\ exists es, pieces p = e :: es /\ filter (fun e => e <> []) es = elems r.
Proof.
  induction p as [|c p IH]; cbn [span_elem]; [split; [done|]; split; [by left|]; by exists []|].
  destruct (Z.eqb_spec c slash) as [->|Hc].
  - split; [done|]. split; [right; by eexists|]. exists (pieces p). split; [done|]. by rewrite elems_slash.
  - destruct (span_elem p) as [e r]. destruct IH as (-> & Hr & es & Ep & Ef). split; [done|]. split; [done|]. exists es.
    cbn [pieces]. rewrite (proj2 (Z.eqb_neq _ _) Hc), Ep. done.
Qed.

Lemma elems_head c p : c <> slash -> elems (c :: p) <> [].
Proof.
  intros Hc. unfold elems. cbn [pieces]. rewrite (proj2 (Z.eqb_neq _ _) Hc). destruct (pieces_cons p) as (e & es & ->).
  by rewrite filter_cons_True.
Qed.

Lemma span_nonempty c p : c <> slash -> (span_elem (c :: p)).1 <> [].
Proof. intros Hc. cbn. rewrite (proj2 (Z.eqb_neq _ _) Hc). by destruct (span_elem p). Qed.

Lemma cstr_lit e n : Forall (fun c => c <> 0) e -> (length e <= n)%nat -> forall r,
  (r = [] \/ List.hd 0 r = 0 \/ length e = n) -> cstr (lit (e ++ r)) n = e.
Proof.
  revert n. induction e as [|c e IH]; intros n He Hn r Hr.
  - destruct n as [|n]; [done|]. apply cstr_nil. destruct Hr as [->|[Hr|]]; [done| |done]. by destruct r.
  - destruct n as [|n]; [cbn in Hn; lia|]. apply Forall_cons in He as [Hc He]. rewrite cstr_cons by done.
    change (lit ((c :: e) ++ r) 0) with c. f_equal. transitivity (cstr (lit (e ++ r)) n).
    + apply cstr_ext. intros i Hi. unfold lit. by replace (Z.to_nat (i + 1)) with (S (Z.to_nat i)) by lia.
    + apply IH; [done|cbn in Hn; lia|]. destruct Hr as [?|[?|Hr]]; [by left|by right; left|right; right]. cbn in Hr. lia.
Qed.

Lemma write_at_front d l : (length l <= length d)%nat -> write_at d 0 l = l ++ drop (length l) d.
Proof.
  intros Hl. apply list_eq. intros i. destruct (decide (i < length l)%nat).
  - rewrite lookup_app_l by done. apply (lookup_write_at_in d 0 l i); lia.
  - rewrite lookup_write_at_other, lookup_app_r, lookup_drop by lia. f_equal. lia.
Qed.

(** The name skipelem leaves. *)
Lemma elem_name e name : length name = DIRSIZ -> Forall (fun c => c <> 0) e ->
  let name' := if (DIRSIZ <=? length e)%nat then write_at name 0 (take DIRSIZ e) else write_at name 0 (e ++ [0]) in
  cstr (lit name') DIRSIZ = take DIRSIZ e /\ length name' = DIRSIZ.
Proof.
  intros Hl He name'. unfold name'. destruct (Nat.leb_spec DIRSIZ (length e)) as [Hb|Hb].
  - assert (Et : length (take DIRSIZ e) = DIRSIZ) by (rewrite length_take; lia). rewrite write_at_front by lia. split.
    + apply cstr_lit; [by apply Forall_take|lia|by right; right].
    + rewrite length_app, length_drop. lia.
  - split; [|by rewrite length_write_at]. rewrite write_at_front by (rewrite length_app; cbn; lia). rewrite (take_ge e) by lia.
    rewrite <- app_assoc. apply cstr_lit; [done|lia|by right; left].
Qed.

(** skipelem takes a path apart at its slashes: with no element left it
    fails; otherwise it leaves the first element, cut to DIRSIZ bytes, in
    name, and returns a path of the remaining elements, which is the empty
    string exactly when there are none. *)
Theorem skipelem_splits (path name : list Z) : length name = DIRSIZ -> Forall (fun c => c <> 0) path ->
  match elems path with
  | [] => skipelem path name = None
  | e :: es => exists path' name', skipelem path name = Some (path', name') /\ elems path' = es /\
      (path' = [] <-> es = []) /\ cstr (lit name') DIRSIZ = take DIRSIZ e /\ length name' = DIRSIZ
  end.
Proof.
  intros Hl Hp. rewrite <- (elems_skip path). pose proof (skip_head path) as Hh. unfold skipelem.
  assert (Hp' : Forall (fun c => c <> 0) (skip_slashes path)).
  { clear -Hp. induction Hp as [|c p Hc Hp IH]; cbn [skip_slashes]; [done|]. destruct (c =? slash); [done|by constructor]. }
  destruct (skip_slashes path) as [|c p]; [done|]. pose proof (span_ok (c :: p)) as Hs. pose proof (span_nonempty c p Hh) as Hne.
  destruct (span_elem (c :: p)) as [e r]. destruct Hs as (E & Hr & es & Ep & Ef). cbn [fst] in Hne.
  assert (Ee : elems (c :: p) = e :: elems r).
  { unfold elems at 1. rewrite Ep, filter_cons_True by done. by rewrite Ef. }
  rewrite Ee. rewrite E in Hp'. apply Forall_app in Hp' as [He _].
  destruct (elem_name e name Hl He) as [H1 H2]. eexists _, _. split; [reflexivity|]. rewrite elems_skip. split; [done|]. split; [|done].
  split; [intros H; by rewrite <- (elems_skip r), H|]. intros H.
  rewrite <- elems_skip in H. pose proof (skip_head r) as Hr'. destruct (skip_slashes r) as [|c' r']; [done|].
  by apply elems_head in H.
Qed.

(** ** The properties at the small file system *)

(** "init" *)
Definition demo_name : Z -> Z := lit [105; 110; 105; 116].
Lemma demo_name_ok : forall i, byte_ok (demo_name i).
Proof. apply lit_bytes. solve_bytes. Qed.

Lemma root_dents : dents fs_V root_di = replicate 32 (0, []).
Proof. vm_compute. reflexivity. Qed.

Lemma dirlookup_finds_witness : exists t t' : lst,
  dirlookup no_dev_read 0 demo_name (mkfsys t root_ic fs_sb) = Ret None (mkfsys t' root_ic fs_sb).
Proof.
  destruct fs_boot as (t & Hok).
  pose proof (dirlookup_finds fs_G fs_sb no_dev_read t root_ic fs_V [] 0 root_ip demo_name fs_layout
    ltac:(vm_compute; discriminate) Hok ltac:(apply NoDup_nil_2) eq_refl eq_refl root_file_ok fs_meta_used
    ltac:(split; reflexivity) demo_name_ok) as H.
  change (i_di root_ip) with root_di in H. rewrite root_dents in H. destruct H as (t' & R & _). exists t, t'. exact R.
Defined.

Lemma dirlink_links_witness : exists (t t' : lst) V' x' j s2,
  dirlink no_dev_read no_dev_write 0 demo_name 2 (mkfsys t root_ic fs_sb) =
    Ret 0 (mkfsys t' (<[0%nat := set_di x' root_ip]> root_ic) fs_sb) /\
  list_find (is_entry [105; 110; 105; 116]) (dents V' x') = Some (0%nat, (2, [105; 110; 105; 116])) /\
  dirlookup no_dev_read 0 demo_name (mkfsys t' (<[0%nat := set_di x' root_ip]> root_ic) fs_sb) = Ret (Some (j, 0)) s2.
Proof.
  destruct fs_boot as (t & Hok).
  pose proof (dirlink_links fs_G fs_sb no_dev_read no_dev_write t root_ic fs_V [] 0 root_ip demo_name 2 fs_layout
    ltac:(vm_compute; discriminate) Hok ltac:(apply NoDup_nil_2) eq_refl eq_refl
    ltac:(split; reflexivity || discriminate) root_file_ok fs_meta_used
    ltac:(split; reflexivity) demo_name_ok ltac:(lia)) as H.
  change (i_di root_ip) with root_di in H. rewrite root_dents in H. cbv zeta in H.
  destruct H as (t' & V' & x' & L' & R & _ & _ & _ & _ & _ & Hf & Hl & _).
  - reflexivity.
  - vm_compute. discriminate.
  - rewrite fs_nfree. apply Nat.leb_le. reflexivity.
  - apply Nat.leb_le. reflexivity.
  - specialize (Hl demo_name demo_name_ok). rewrite decide_True in Hl by reflexivity.
    destruct Hl as (t2 & j & ic2 & R2 & _); [right; left; right; reflexivity|].
    exists t, t', V', x', j, (mkfsys t2 ic2 fs_sb). split; [exact R|]. split; [rewrite Hf; reflexivity|exact R2].
Defined.

(** "//ab/c/" *)
Lemma skipelem_splits_witness : exists path' name',
  skipelem [47; 47; 97; 98; 47; 99; 47] (replicate 14 1) = Some (path', name') /\ elems path' = [[99]] /\
  cstr (lit name') DIRSIZ = [97; 98].
Proof.
  pose proof (skipelem_splits [47; 47; 97; 98; 47; 99; 47] (replicate 14 1) eq_refl
    ltac:(repeat (apply Forall_cons_2; [lia|]); apply Forall_nil_2)) as H.
  change (elems [47; 47; 97; 98; 47; 99; 47]) with [[97; 98]; [99]] in H. destruct H as (p & n & R & E & _ & N & _).
  exists p, n. split; [exact R|split; [exact E|exact N]].
Defined.
