(* ===== verification/FsPath.v ===== *)
(** * Path names: theorems about fs.c, part 4

    namex walks a path from the root or from the current directory, one
    locked directory at a time.  [walk] is the walk over the tree as the
    disk holds it.  The theorem: on a well-formed tree namex finds the inode
    the walk leads to, or none when the walk ends, whatever the inode cache
    holds already; the inode it returns has one reference more than before,
    and every other entry of the cache the references it had. *)

From stdpp Require Import base list list_numbers sets strings.
From Stdlib Require Import ZArith Lia.
From S2P Require Import Prelude CString Proc Bio Log Block Fs FsBlocks FsFile FsDir.

Local Open Scope Z_scope.

(** ** The walk *)

(** The inode the directory [x] lists under the name [nm]. *)
Definition entry_of (V : Z -> list Z) (x : dinode) (nm : list Z) : option Z :=
  match list_find (is_entry nm) (dents V x) with Some (_, (inum, _)) => Some inum | None => None end.

(** From the inode [inum] along the elements [es]; to the last but one with
    [parent]. *)
Fixpoint walk (sb : superblock) (V : Z -> list Z) (parent : bool) (inum : Z) (es : list (list Z)) : option Z :=
  match es with
  | [] => if parent then None else Some inum
  | e :: es' =>
    let x := dinode_at sb V inum in
    if negb (di_type x =? T_DIR) then None else
    if parent && bool_decide (es' = []) then Some inum else
    next ← entry_of V x (take DIRSIZ e);
    walk sb V parent next es'
  end.

(** A set of inodes closed under the entries of its directories. *)
Record tree (sb : superblock) (V : Z -> list Z) (node : Z -> Prop) : Prop := mktree {
  tr_range : forall inum, node inum -> 0 <= inum < sb_ninodes sb;
  tr_used : forall inum, node inum -> di_type (dinode_at sb V inum) <> 0 /\ di_nlink (dinode_at sb V inum) <> 0;
  tr_dir : forall inum, node inum -> di_type (dinode_at sb V inum) = T_DIR ->
    file_ok sb V inum (dinode_at sb V inum) /\ di_size (dinode_at sb V inum) mod 16 = 0;
  tr_next : forall inum nm inum', node inum -> di_type (dinode_at sb V inum) = T_DIR ->
    entry_of V (dinode_at sb V inum) nm = Some inum' -> node inum' }.

(** ** The inode cache *)

Definition refs (ic : list inode) : list Z := i_ref <$> ic.

(** An entry of the cache, locked by the process [pid] or not locked. *)
Definition slot_ok (sb : superblock) (V : Z -> list Z) (node : Z -> Prop) (pid : Z) (locked : bool) (ip : inode) : Prop :=
  (if locked then i_lock ip = mksl true pid /\ i_valid ip = true /\ 0 < i_ref ip else sl_locked (i_lock ip) = false) /\
  0 <= i_ref ip /\
  (0 < i_ref ip -> i_dev ip = ROOTDEV /\ node (i_inum ip) /\
    (i_valid ip = true -> i_di ip = dinode_at sb V (i_inum ip))).

(** The cache agrees with the disk; the entry [o] is locked. *)
Definition cache_ok (sb : superblock) (V : Z -> list Z) (node : Z -> Prop) (pid : Z) (o : option nat) (ic : list inode) : Prop :=
  forall k ip, ic !! k = Some ip -> slot_ok sb V node pid (bool_decide (o = Some k)) ip.

(** The entry [i] is the inode [inum]. *)
Definition holds (ic : list inode) (i : nat) (inum : Z) : Prop :=
  exists ip, ic !! i = Some ip /\ caches ROOTDEV inum ip.

(** Two entries are not in use. *)
Definition two_free (R : list Z) : Prop := exists j k, j <> k /\ R !! j = Some 0 /\ R !! k = Some 0.

Lemma lookup_refs ic k : refs ic !! k = i_ref <$> ic !! k.
Proof. apply list_lookup_fmap. Qed.

Lemma refs_insert ic i ip jp z : ic !! i = Some ip -> i_ref jp = i_ref ip + z -> refs (<[i := jp]> ic) = alter (Z.add z) i (refs ic).
Proof.
  intros Hi E. apply list_eq. intros k. pose proof (lookup_lt_Some _ _ _ Hi) as Hl. rewrite lookup_refs. destruct (decide (k = i)) as [->|Hk].
  - rewrite list_lookup_insert_eq, list_lookup_alter_eq, lookup_refs, Hi by done. cbn. f_equal. lia.
  - by rewrite list_lookup_insert_ne, list_lookup_alter_ne, lookup_refs.
Qed.

Lemma alter_cancel (R : list Z) i z w : z + w = 0 -> alter (Z.add z) i (alter (Z.add w) i R) = R.
Proof.
  intros E. apply list_eq. intros k. destruct (decide (k = i)) as [->|Hk].
  - rewrite !list_lookup_alter_eq. destruct (R !! i); cbn; [f_equal; lia|done].
  - by rewrite !list_lookup_alter_ne.
Qed.

Lemma alter_swap (R : list Z) i j z w : alter (Z.add z) i (alter (Z.add w) j R) = alter (Z.add w) j (alter (Z.add z) i R).
Proof.
  apply list_eq. intros k. destruct (decide (i = j)) as [->|Hij].
  - destruct (decide (k = j)) as [->|]; [|by rewrite !list_lookup_alter_ne]. rewrite !list_lookup_alter_eq. destruct (R !! j); cbn; [f_equal; lia|done].
  - destruct (decide (k = i)) as [Hi|Hi], (decide (k = j)) as [Hj|Hj]; subst; try done; rewrite ?list_lookup_alter_eq, ?list_lookup_alter_ne by done;
      rewrite ?list_lookup_alter_eq, ?list_lookup_alter_ne by done; done.
Qed.

Lemma alter_zero (R : list Z) i : alter (Z.add 0) i R = R.
Proof. apply list_alter_id. intros z. done. Qed.

(** Taken twice, an entry keeps a reference when one is put. *)
Lemma refs_twice (R : list Z) i : Forall (fun z => 0 <= z) R -> is_Some (R !! i) -> 1 < alter (Z.add 1) i (alter (Z.add 1) i R) !!! i.
Proof.
  intros HR [z Hz]. rewrite (list_lookup_total_correct _ _ (1 + (1 + z))) by (by rewrite !list_lookup_alter_eq, Hz).
  pose proof (Forall_lookup_1 _ _ _ _ HR Hz) as H0. cbn in H0. lia.
Qed.

(** iget keeps the inodes of the entries in use. *)
Lemma igot_holds ic inum j ic' i n : igot ROOTDEV inum ic j ic' -> holds ic i n -> holds ic' i n.
Proof.
  intros (jp & Hj & Hg) (ip & Hi & Hca). pose proof (lookup_lt_Some _ _ _ Hj) as Hl. destruct (decide (i = j)) as [->|Hij].
  - assert (jp = ip) as -> by congruence. destruct Hca as (Hr & Hd & Hn). destruct Hg as [[_ ->]|(H0 & _)]; [|lia].
    eexists. rewrite list_lookup_insert_eq by done. split; [done|]. unfold caches. cbn. split_and!; (done || lia).
  - exists ip. destruct Hg as [[_ ->]|(_ & _ & ->)]; by rewrite list_lookup_insert_ne by done.
Qed.

(** With one reference taken there is still an entry for another inode. *)
Lemma free_slot ic i R inum : two_free R -> refs ic = alter (Z.add 1) i R -> Exists (fun ip => caches ROOTDEV inum ip \/ i_ref ip = 0) ic.
Proof.
  intros (j & k & Hjk & Hj & Hk) E. assert (Hx : exists l, l <> i /\ R !! l = Some 0) by (destruct (decide (j = i)) as [->|]; [exists k|exists j]; done).
  destruct Hx as (l & Hl & H0). assert (Hr : refs ic !! l = Some 0) by (by rewrite E, list_lookup_alter_ne). rewrite lookup_refs in Hr.
  destruct (ic !! l) as [ip|] eqn:El; [|done]. injection Hr as Hr. apply Exists_exists. exists ip. split; [by apply list_elem_of_lookup_2 in El|by right].
Qed.

Section Cache.
Context (sb : superblock) (V : Z -> list Z) (node : Z -> Prop) (pid : Z).
Let cache := cache_ok sb V node pid.

(** A change of one entry. *)
Lemma cache_insert o o' ic i ip : cache o ic -> (forall k, k <> i -> bool_decide (o' = Some k) = bool_decide (o = Some k)) ->
  slot_ok sb V node pid (bool_decide (o' = Some i)) ip -> cache o' (<[i := ip]> ic).
Proof.
  intros Hc Ho Hip k jp Hk. destruct (decide (k = i)) as [->|Hki].
  - pose proof (lookup_lt_Some _ _ _ Hk) as Hl. rewrite length_insert in Hl. rewrite list_lookup_insert_eq in Hk by done. by injection Hk as <-.
  - rewrite list_lookup_insert_ne in Hk by done. rewrite Ho by done. by apply Hc.
Qed.

(** iget. *)
Lemma igot_cache o ic inum i ic' : cache o ic -> node inum -> igot ROOTDEV inum ic i ic' ->
  cache o ic' /\ refs ic' = alter (Z.add 1) i (refs ic) /\ holds ic' i inum.
Proof.
  intros Hc Hn (ip & Hi & Hg). pose proof (Hc i ip Hi) as (H1 & H2 & H3). pose proof (lookup_lt_Some _ _ _ Hi) as Hl.
  destruct Hg as [[(Hr & Hd & Hin) ->]|(Hr & _ & ->)].
  - split_and!; [|by apply (refs_insert _ _ ip)|eexists; rewrite list_lookup_insert_eq by done; split; [done|unfold caches; cbn; split_and!; (done || lia)]].
    apply (cache_insert o); [done..|]. unfold slot_ok. cbn. specialize (H3 Hr). split_and!; [|lia|done..]. destruct (bool_decide _); [|done]. split_and!; [apply H1|apply H1|lia].
  - assert (Hb : bool_decide (o = Some i) = false) by (destruct (bool_decide (o = Some i)); [lia|done]). rewrite Hb in H1.
    split_and!; [|apply (refs_insert _ _ ip); [done|cbn; lia]|eexists; rewrite list_lookup_insert_eq by done; split; [done|done]].
    apply (cache_insert o); [done..|]. rewrite Hb. unfold slot_ok. cbn. split_and!; (done || lia).
Qed.
End Cache.

(** ** skipelem, once more: the rest of the path and the name's bytes *)

Lemma skip_slashes_suffix p : exists pre, p = pre ++ skip_slashes p.
Proof. induction p as [|c p [pre IH]]; cbn [skip_slashes]; [by exists []|]. destruct (c =? slash); [exists (c :: pre); cbn; by rewrite <- IH|by exists []]. Qed.

Lemma skipelem_rest path name path' name' : skipelem path name = Some (path', name') ->
  (length path' < length path)%nat /\ (exists pre, path = pre ++ path') /\
  (Forall byte_ok path -> Forall byte_ok name -> Forall byte_ok name').
Proof.
  unfold skipelem. destruct (skip_slashes_suffix path) as [pre E]. pose proof (skip_head path) as Hh. destruct (skip_slashes path) as [|c p]; [done|].
  pose proof (span_ok (c :: p)) as Hs. pose proof (span_nonempty c p Hh) as Hne. destruct (span_elem (c :: p)) as [e r]. destruct Hs as (E' & _). cbn [fst] in Hne.
  intros H. injection H as <- <-. destruct (skip_slashes_suffix r) as [pre' E2]. rewrite E' in E. assert (Ep : path = (pre ++ e ++ pre') ++ skip_slashes r) by (rewrite E, E2 at 1; by rewrite <- !app_assoc).
  split; [|split; [by eexists|]].
  - rewrite Ep, !length_app. destruct e; [done|cbn; lia].
  - intros Hp Hn. rewrite E in Hp. apply Forall_app in Hp as [_ Hp]. apply Forall_app in Hp as [He _].
    match goal with |- context [if ?b then write_at _ _ _ else _] => destruct b end; apply write_at_byte_ok; try done; [by apply Forall_take|]. apply Forall_app. split; [done|]. repeat constructor; unfold byte_ok; lia.
Qed.

Section Path.
Context {St : Type} {BO : BlockOps St} {BL : BlockLaws St}.
Context (G : geom) (sb : superblock).
Hypothesis HY : layout G sb.
Hypothesis Hone : sb_size sb <= BPB.
Context (V : Z -> list Z) (L : list Z) (node : Z -> Prop).
Hypothesis HL : NoDup L.
Hypothesis Hmeta : meta_used sb V.
Hypothesis HT : tree sb V node.
Implicit Types (t : St) (ic : list inode).
Let pid := g_pid G.
Let a := mkbabs V [] L.
Let cache := cache_ok sb V node pid.

Lemma held_ref ic o i ip inum : cache o ic -> ic !! i = Some ip -> caches ROOTDEV inum ip -> node inum /\ (i_valid ip = true -> i_di ip = dinode_at sb V inum).
Proof using. intros Hc Hi (Hr & _ & <-). destruct (Hc i ip Hi) as (_ & _ & H). by destruct (H Hr) as (_ & Hn & Hv). Qed.

(** ilock of an inode of the tree. *)
Lemma wp_lock t ic i inum (Q : unit -> fsys St -> Prop) :
  bk_ok G t a -> cache None ic -> holds ic i inum ->
  (forall t' ic' ip, bk_ok G t' a -> cache (Some i) ic' -> refs ic' = refs ic -> ic' !! i = Some ip -> caches ROOTDEV inum ip ->
     i_di ip = dinode_at sb V inum -> Q tt (mkfsys t' ic' sb)) ->
  wp (ilock (Some i)) (mkfsys t ic sb) Q.
Proof using HY HT.
  intros Hok Hc (ip & Hi & Hca) HQ. pose proof (held_ref ic None i ip inum Hc Hi Hca) as [Hn Hv]. destruct (Hc i ip Hi) as (Hl & H0 & Hs). rewrite bool_decide_eq_false_2 in Hl by done.
  destruct Hca as (Hr & Hd & Hin). pose proof (tr_range _ _ _ HT _ Hn) as Hrg. pose proof (tr_used _ _ _ HT _ Hn) as [Hty _]. pose proof (lookup_lt_Some _ _ _ Hi) as Hlt.
  eapply wp_ilock; [exact HY|exact Hok|exact Hi|lia|done|done|by rewrite Hin|apply not_elem_of_nil|cbn; lia|by rewrite Hin|].
  intros t' Hok'. assert (Edi : i_di (ilocked G sb V ip) = dinode_at sb V inum) by (unfold ilocked; cbn; destruct (i_valid ip); [by apply Hv|by rewrite Hin]).
  apply (HQ t' _ (ilocked G sb V ip)); [done| | |by apply list_lookup_insert_eq|done|done].
  - apply (cache_insert sb V node pid None); [done|intros k Hk; rewrite !bool_decide_eq_false_2 by congruence; done|]. rewrite bool_decide_eq_true_2 by done.
    unfold slot_ok. cbn [ilocked i_lock i_ref i_valid i_dev i_inum]. split_and!; [done|done|lia|lia|]. intros _. rewrite Edi, Hin. done.
  - rewrite (refs_insert _ _ ip _ 0), alter_zero by (done || cbn; lia). done.
Qed.

(** iunlock: the entry as it was, but not locked. *)
Lemma wp_unlock t ic i (Q : unit -> fsys St -> Prop) :
  bk_ok G t a -> cache (Some i) ic -> (i < length ic)%nat ->
  (forall t' ic', bk_ok G t' a -> cache None ic' -> refs ic' = refs ic -> (forall j inum, holds ic j inum -> holds ic' j inum) -> Q tt (mkfsys t' ic' sb)) ->
  wp (iunlock (Some i)) (mkfsys t ic sb) Q.
Proof using.
  intros Hok Hc Hlt HQ. destruct (lookup_lt_is_Some_2 _ _ Hlt) as [ip Hi]. destruct (Hc i ip Hi) as (H1 & H0 & Hs). rewrite bool_decide_eq_true_2 in H1 by done.
  destruct H1 as (Hl & Hv & Hr). eapply wp_iunlock; [exact Hok|exact Hi|lia|exact Hl|]. clear t Hok. intros t Hok. apply HQ; [done| | |].
  - apply (cache_insert sb V node pid (Some i)); [done|intros k Hk; rewrite !bool_decide_eq_false_2 by congruence; done|]. rewrite bool_decide_eq_false_2 by done. by split.
  - rewrite (refs_insert _ _ ip _ 0), alter_zero by (done || cbn; lia). done.
  - intros j inum (jp & Hj & Hca). destruct (decide (j = i)) as [->|Hji]; [|exists jp; by rewrite list_lookup_insert_ne]. assert (jp = ip) as -> by congruence.
    eexists. by rewrite list_lookup_insert_eq.
Qed.

(** iput of an inode with links: the reference goes. *)
Lemma wp_put t ic i inum (Q : unit -> fsys St -> Prop) :
  bk_ok G t a -> cache None ic -> holds ic i inum ->
  (forall t' ic', bk_ok G t' a -> cache None ic' -> refs ic' = alter (Z.add (-1)) i (refs ic) ->
     (forall j inum, holds ic j inum -> j <> i \/ 1 < refs ic !!! j -> holds ic' j inum) -> Q tt (mkfsys t' ic' sb)) ->
  wp (iput i) (mkfsys t ic sb) Q.
Proof using HT.
  intros Hok Hc (ip & Hi & Hca) HQ. pose proof (lookup_lt_Some _ _ _ Hi) as Hlt. destruct (held_ref ic None i ip inum Hc Hi Hca) as [Hn Hv].
  destruct (Hc i ip Hi) as (H1 & H0 & Hs). rewrite bool_decide_eq_false_2 in H1 by done. destruct (tr_used _ _ _ HT _ Hn) as [_ Hnl]. destruct Hca as (Hr & Hd & Hin).
  unfold iput. fs_step. eapply wp_acquire_ino; [exact Hok|exact Hi|done|]. clear t Hok. intros t Hok. rewrite (alter_insert _ _ ip) by done. fs_step.
  eapply wp_getino; [by apply list_lookup_insert_eq|]. cbn [i_valid i_di set_ilock].
  assert (Hb : i_valid ip && (di_nlink (i_di ip) =? 0) = false) by (destruct (i_valid ip); [|done]; rewrite Hv by done; by apply Z.eqb_neq). rewrite Hb. do 3 fs_step.
  eapply wp_release_ino; [exact Hok|]. clear t Hok. intros t Hok. rewrite !alter_inserted by done. fs_step. rewrite !alter_inserted by done. cbn [i_ref set_ilock].
  apply HQ; [done| | |].
  - apply (cache_insert sb V node pid None); [done..|]. rewrite bool_decide_eq_false_2 by done. unfold slot_ok. cbn. split_and!; [done|lia|]. intros _. by apply Hs.
  - apply (refs_insert _ _ ip); [done|cbn; lia].
  - intros j jn (jp & Hj & Hca) Hcase. destruct (decide (j = i)) as [->|Hji]; [|exists jp; by rewrite list_lookup_insert_ne]. assert (jp = ip) as -> by congruence.
    eexists. rewrite list_lookup_insert_eq by done. split; [done|]. destruct Hca as (_ & ? & ?). destruct Hcase as [?|Hgt]; [done|].
    rewrite (list_lookup_total_correct _ _ (i_ref ip)) in Hgt by (by rewrite lookup_refs, Hi). unfold caches. cbn. split_and!; (done || lia).
Qed.

Lemma wp_unlockput t ic i inum (Q : unit -> fsys St -> Prop) :
  bk_ok G t a -> cache (Some i) ic -> holds ic i inum ->
  (forall t' ic', bk_ok G t' a -> cache None ic' -> refs ic' = alter (Z.add (-1)) i (refs ic) ->
     (forall j inum, holds ic j inum -> j <> i \/ 1 < refs ic !!! j -> holds ic' j inum) -> Q tt (mkfsys t' ic' sb)) ->
  wp (iunlockput i) (mkfsys t ic sb) Q.
Proof using HT.
  intros Hok Hc Hh HQ. assert (Hlt : (i < length ic)%nat) by (destruct Hh as (ip & Hi & _); by apply lookup_lt_Some in Hi).
  unfold iunlockput. fs_step. apply wp_unlock; [done..|]. clear t Hok. intros t ic1 Hok Hc1 Er Hk. eapply wp_put; [done|done|by apply Hk|].
  rewrite Er. intros t' ic' Hok' Hc' Er' Hk'. apply HQ; [done..|]. intros j jn Hj Hcase. apply Hk'; [by apply Hk|done].
Qed.

(** ** The loop of namex *)

(** Where namex ends with the entries' references [R] at the start. *)
Definition arrives (R : list Z) (parent : bool) (inum : Z) (es : list (list Z)) (r : option nat * list Z) ic' : Prop :=
  cache None ic' /\
  match walk sb V parent inum es with
  | Some inum' => exists i', r.1 = Some i' /\ refs ic' = alter (Z.add 1) i' R /\ holds ic' i' inum' /\
      (parent = true -> cstr (lit r.2) DIRSIZ = take DIRSIZ (default [] (last es)))
  | None => r.1 = None /\ refs ic' = R
  end.

Lemma wp_namex_loop dr parent R (Q : option nat * list Z -> fsys St -> Prop) fuel : forall t ic i inum path name,
  bk_ok G t a -> cache None ic -> holds ic i inum -> refs ic = alter (Z.add 1) i R -> two_free R -> Forall (fun z => 0 <= z) R ->
  Forall (fun c => c <> 0) path -> Forall byte_ok path -> length name = DIRSIZ -> Forall byte_ok name -> (length path < fuel)%nat ->
  (forall t' ic' r, bk_ok G t' a -> arrives R parent inum (elems path) r ic' -> Q r (mkfsys t' ic' sb)) ->
  wp (namex_loop dr i path parent name fuel) (mkfsys t ic sb) Q.
Proof using HY Hone HL Hmeta HT.
  induction fuel as [|fuel IH]; intros t ic i inum path name Hok Hc Hh Er Hroom HR Hnz Hby Hln Hbn Hf HQ; [lia|]. cbn [namex_loop].
  pose proof (skipelem_splits path name Hln Hnz) as Hsk. unfold arrives in HQ. destruct (elems path) as [|e es]; cbn [walk] in HQ.
  { rewrite Hsk. destruct parent; [|fs_step; apply HQ; [done|]; split; [done|]; by exists i].
    fs_step. eapply wp_put; [done..|]. clear t Hok. intros t ic' Hok Hc' Er' _. fs_step. apply HQ; [done|]. split; [done|]. split; [done|]. rewrite Er', Er. by apply alter_cancel. }
  destruct Hsk as (path' & name' & Esk & Ees & Hemp & Hnm & Hln'). rewrite Esk. destruct (skipelem_rest _ _ _ _ Esk) as (Hlt & (pre & Ep) & Hbn').
  specialize (Hbn' Hby Hbn). rewrite Ep in Hnz, Hby. apply Forall_app in Hnz as [_ Hnz], Hby as [_ Hby].
  fs_step. eapply wp_lock; [done..|]. clear t Hok Hh Hc. intros t ic1 ip Hok Hc E1 Hi Hca Hdi. assert (Hh : holds ic1 i inum) by (by exists ip). rewrite <- E1 in Er. fs_step.
  eapply wp_getino; [exact Hi|]. rewrite Hdi. pose proof (proj1 (held_ref _ _ _ _ _ Hc Hi Hca)) as Hn.
  assert (Hback : forall t, bk_ok G t a -> (forall t' ic', bk_ok G t' a -> cache None ic' -> refs ic' = R -> Q (None, name') (mkfsys t' ic' sb)) ->
    wp (iunlockput i ;; mret (None, name')) (mkfsys t ic1 sb) Q).
  { intros t0 Hok0 HQ0. fs_step. eapply wp_unlockput; [done..|]. intros t' ic' Hok' Hc' Er' _. fs_step. apply HQ0; [done|done|]. rewrite Er', Er. by apply alter_cancel. }
  destruct (Z.eqb_spec (di_type (dinode_at sb V inum)) T_DIR) as [Hty|Hty]; cbn [negb] in *; [|apply Hback; [done|]; intros; by apply HQ].
  rewrite (bool_decide_ext _ _ Hemp). destruct (parent && bool_decide (es = [])) eqn:Epar.
  { apply andb_true_iff in Epar as [-> Hes]. apply bool_decide_eq_true in Hes as ->. fs_step. apply wp_unlock; [done|done|by apply lookup_lt_Some in Hi|].
    clear t Hok. intros t ic' Hok Hc' Er' Hk. fs_step. apply HQ; [done|]. split; [done|]. exists i. rewrite Er'. split_and!; [done|done|by apply Hk|done]. }
  fs_step. destruct (tr_dir _ _ _ HT _ Hn Hty) as [Hfile Hmod]. rewrite <- Hdi in Hfile, Hmod, Hty. destruct Hca as (Hr & Hdev & Hin). rewrite <- Hin in Hfile.
  eapply wp_dirlookup; [exact HY|exact Hone|exact Hok|done|exact Hi|done|done|done|done|by apply lit_bytes|]. unfold looked_up. rewrite Hnm, Hdi. unfold entry_of in HQ.
  destruct (list_find (is_entry (take DIRSIZ e)) (dents V (dinode_at sb V inum))) as [[k [inum' s]]|] eqn:Efind; cbn [mbind option_bind] in HQ.
  - split; [by apply (free_slot _ i R)|]. clear t Hok. intros t j ic2 Hok Hg. rewrite Hdi in Hty.
    assert (Hn' : node inum') by (eapply (tr_next _ _ _ HT inum (take DIRSIZ e)); [done|done|]; unfold entry_of; by rewrite Efind).
    destruct (igot_cache _ _ _ _ _ _ _ _ _ Hc Hn' Hg) as (Hc2 & Er2 & Hh2). fs_step.
    eapply wp_unlockput; [done|done| |]; [by apply (igot_holds ic1 inum' j)|]. clear t Hok. intros t ic3 Hok Hc3 Er3 Hk3.
    eapply IH; [exact Hok|exact Hc3| | |exact Hroom|exact HR|exact Hnz|exact Hby|exact Hln'|exact Hbn'|lia|].
    + apply Hk3; [done|]. destruct (decide (j = i)) as [->|]; [right|by left]. rewrite Er2, Er. apply refs_twice; [done|].
      assert (Hx : refs ic1 !! i = Some (i_ref ip)) by (by rewrite lookup_refs, Hi). rewrite Er, list_lookup_alter_eq in Hx. by destruct (R !! i).
    + rewrite Er3, Er2, Er, alter_swap. f_equal. by apply alter_cancel.
    + intros t' ic' r Hok' [Hc' Har]. rewrite Ees in Har. apply HQ; [done|]. split; [done|]. destruct (walk sb V parent inum' es) as [inum''|]; [|done].
      destruct Har as (i' & H1 & H2 & H3 & H4). exists i'. split_and!; try done. intros ->. destruct es as [|e2 es]; [done|]. by rewrite last_cons_cons, H4.
  - clear t Hok. intros t Hok. apply Hback; [done|]. intros. by apply HQ.
Qed.

(** The inode the walk of [path] starts from. *)
Definition starts (procs : pst) ic (path : list Z) (inum : Z) : Prop :=
  if bool_decide (List.hd_error path = Some slash) then inum = ROOTINO
  else exists i q c, cur procs = Some i /\ ptable procs !! i = Some q /\ p_cwd q = Some c /\ holds ic c inum.

Lemma wp_my_cwd t ic i q c (Q : nat -> fsys St -> Prop) :
  bk_ok G t a -> cur (bk_procs t) = Some i -> ptable (bk_procs t) !! i = Some q -> p_cwd q = Some c ->
  (forall t', bk_ok G t' a -> Q c (mkfsys t' ic sb)) -> wp my_cwd (mkfsys t ic sb) Q.
Proof using.
  intros Hok Hi Hq Hcw HQ. pose proof (bk_running _ _ _ Hok) as Hrun. unfold my_cwd. fs_step. apply wp_zoom, (wp_deref _ _ i); [done|]. unfold set_f_procs, set_blk, f_procs. cbn [f_blk icache f_sb].
  fs_step. apply wp_zoom, (wp_deref _ _ q); [unfold f_procs; cbn [f_blk]; by rewrite bk_get_set|]. rewrite Hcw. unfold set_f_procs, set_blk, f_procs. cbn [f_blk icache f_sb]. fs_step.
  apply HQ. rewrite bk_get_set. by repeat apply bk_set_running.
Qed.

Lemma wp_namex dr parent t ic inum path name (Q : option nat * list Z -> fsys St -> Prop) :
  bk_ok G t a -> cache None ic -> two_free (refs ic) -> node ROOTINO -> starts (bk_procs t) ic path inum ->
  Forall (fun c => c <> 0) path -> Forall byte_ok path -> length name = DIRSIZ -> Forall byte_ok name ->
  (forall t' ic' r, bk_ok G t' a -> arrives (refs ic) parent inum (elems path) r ic' -> Q r (mkfsys t' ic' sb)) ->
  wp (namex dr path parent name) (mkfsys t ic sb) Q.
Proof using HY Hone HL Hmeta HT.
  intros Hok Hc Hroom Hroot Hst Hnz Hby Hln Hbn HQ.
  assert (HR : Forall (fun z => 0 <= z) (refs ic)) by (apply Forall_fmap, Forall_lookup; intros k ip Hk; by destruct (Hc k ip Hk) as (_ & ? & _)).
  assert (Hgo : forall t' i ic', bk_ok G t' a -> node inum -> igot ROOTDEV inum ic i ic' -> wp (namex_loop dr i path parent name (S (length path))) (mkfsys t' ic' sb) Q).
  { intros t' i ic' Hok' Hn Hg. destruct (igot_cache _ _ _ _ _ _ _ _ _ Hc Hn Hg) as (Hc' & Er & Hh). eapply wp_namex_loop; done || lia. }
  unfold namex. fs_step. unfold starts in Hst. case_bool_decide.
  - subst inum. apply wp_iget; [|intros i ic' Hg; by apply (Hgo t i ic')]. destruct Hroom as (j & _ & _ & Hj & _). rewrite lookup_refs in Hj. destruct (ic !! j) as [jp|] eqn:Ej; [|done].
    injection Hj as Hj. apply Exists_exists. exists jp. split; [by apply list_elem_of_lookup_2 in Ej|by right].
  - destruct Hst as (i & q & c & Hi & Hq & Hcw & ip & Hip & Hca). fs_step. eapply wp_my_cwd; [done..|]. clear t Hok Hi Hq. intros t Hok. unfold idup. fs_step. fs_step. fs_step.
    apply Hgo; [done|by apply (held_ref _ _ _ _ _ Hc Hip)|]. exists ip. split; [done|]. left. split; [done|]. by rewrite (alter_insert _ _ ip).
Qed.
End Path.

(** ** Properties *)

Section Properties.
Context {St : Type} {BO : BlockOps St} {BL : BlockLaws St}.

(** C7: namex on a well-formed tree, from the root or from the current
    directory, with two entries of the inode cache free.  It returns the
    inode the walk along the path's elements leads to, or none when an element
    is missing or is not below a directory; as nameiparent it stops one
    element early and leaves that element's name.  The cache still agrees with the
    disk and nothing in it is locked; the inode returned has one reference
    more than before the call, every other entry as many as before. *)
Theorem namex_walks (G : geom) (sb : superblock) (V : Z -> list Z) (L : list Z) (node : Z -> Prop) dr (t : St)
    (ic : list inode) (parent : bool) (path name : list Z) (inum : Z) :
  layout G sb -> sb_size sb <= BPB -> bk_ok G t (mkbabs V [] L) -> NoDup L -> meta_used sb V ->
  tree sb V node -> node ROOTINO -> cache_ok sb V node (g_pid G) None ic -> two_free (refs ic) ->
  starts (bk_procs t) ic path inum ->
  Forall (fun c => c <> 0) path -> Forall byte_ok path -> length name = DIRSIZ -> Forall byte_ok name ->
  exists r name' t' ic', namex dr path parent name (mkfsys t ic sb) = Ret (r, name') (mkfsys t' ic' sb) /\
    bk_ok G t' (mkbabs V [] L) /\ cache_ok sb V node (g_pid G) None ic' /\
    match walk sb V parent inum (elems path) with
    | Some inum' => exists i, r = Some i /\ refs ic' = alter (Z.add 1) i (refs ic) /\ holds ic' i inum' /\
        (parent = true -> cstr (lit name') DIRSIZ = take DIRSIZ (default [] (last (elems path))))
    | None => r = None /\ refs ic' = refs ic
    end.
Proof.
  intros HY H1 Hok HL Hm HT Hr Hc Hroom Hst Hnz Hby Hln Hbn.
  edestruct (wp_elim (namex dr path parent name) (mkfsys t ic sb) (fun r s' => exists t' ic', s' = mkfsys t' ic' sb /\
    bk_ok G t' (mkbabs V [] L) /\ arrives G sb V node (refs ic) parent inum (elems path) r ic')) as ([r name'] & s' & R & t' & ic' & -> & Hok' & Hc' & Ha).
  - eapply wp_namex; try done. intros t' ic' r Hok' Ha. by exists t', ic'.
  - exists r, name', t', ic'. split_and!; done.
Qed.
End Properties.

(** ** The property at the small file system *)

Lemma fs_tree : tree fs_sb fs_V (fun n => n = ROOTINO).
Proof.
  assert (Ex : dinode_at fs_sb fs_V ROOTINO = root_di) by (apply (fk_disk _ _ _ _ root_file_ok)).
  split; intros n; [intros ->; split; reflexivity || discriminate|intros ->; rewrite Ex; split; discriminate| |].
  - intros -> _. rewrite Ex. split; [apply root_file_ok|reflexivity].
  - intros nm n' -> _. rewrite Ex. unfold entry_of. rewrite root_dents.
    rewrite (proj2 (list_find_None _ _)) by (apply Forall_replicate; intros [H _]; by apply H). done.
Qed.

Lemma fs_cache : cache_ok fs_sb fs_V (fun n => n = ROOTINO) 1 None fs_ic.
Proof. intros k ip Hk. apply lookup_replicate in Hk as [-> _]. rewrite bool_decide_eq_false_2 by done. split; [done|]. cbn. split; [done|]. lia. Qed.

(** "/init", as nameiparent *)
Lemma namex_walks_witness : exists (t t' : lst) i ic' name',
  namex no_dev_read [47; 105; 110; 105; 116] true (replicate 14 7) (mkfsys t fs_ic fs_sb) = Ret (Some i, name') (mkfsys t' ic' fs_sb) /\
  holds ic' i ROOTINO /\ cstr (lit name') DIRSIZ = [105; 110; 105; 116].
Proof.
  destruct fs_boot as (t & Hok).
  destruct (namex_walks fs_G fs_sb fs_V [] _ no_dev_read t fs_ic true [47; 105; 110; 105; 116] (replicate 14 7) ROOTINO fs_layout
    ltac:(vm_compute; discriminate) Hok ltac:(apply NoDup_nil_2) fs_meta_used fs_tree eq_refl fs_cache
    ltac:(exists 0%nat, 1%nat; done) eq_refl ltac:(repeat (apply Forall_cons_2; [lia|]); apply Forall_nil_2) ltac:(solve_bytes) eq_refl
    ltac:(solve_bytes)) as (r & name' & t' & ic' & R & _ & _ & H).
  change (elems [47; 105; 110; 105; 116]) with [[105; 110; 105; 116]] in H. cbn [walk] in H.
  rewrite (fk_disk _ _ _ _ root_file_ok : dinode_at fs_sb fs_V ROOTINO = root_di) in H.
  destruct H as (i & -> & _ & Hh & Hn). exists t, t', i, ic', name'. split; [exact R|]. split; [exact Hh|]. by apply Hn.
Defined.
