(* ===== verification/Mkfs.v ===== *)
(** * The file system builder: mkfs.c

    mkfs runs on the host and writes the image the kernel boots from.  The
    image is a file of blocks, zero where it was not written; reading past
    its end and a failed assertion end the program.  The host is taken to be
    little-endian, the files to copy are given as the pieces the host's read
    returns, and the messages mkfs prints are left out.  The theorems: the
    image has the layout fs.c expects, every file's inode maps blocks of its
    own to the file's bytes, the root directory holds its entries, and the
    bitmap marks just the blocks in use. *)

From stdpp Require Import base list sets strings.
From Stdlib Require Import ZArith Lia.
From S2P Require Import Prelude CString Proc Bio Log Block Fs FsBlocks FsFile.

Local Open Scope Z_scope.

Definition FSSIZE : Z := 1000.
Definition NINODES : Z := 200.
Definition nbitmap : Z := FSSIZE / (512 * 8) + 1.
Definition ninodeblocks : Z := NINODES / IPB + 1.
Definition nlog : Z := LOGSIZE.
Definition nmeta : Z := 2 + nlog + ninodeblocks + nbitmap.
Definition nblocks : Z := FSSIZE - nmeta.

(** xshort and xint: the bytes in intel order, here the host's. *)
Definition xshort (x : Z) : Z := get_le 2 (put_le 2 x [0; 0] 0) 0.
Definition xint (x : Z) : Z := get_le 4 (put_le 4 x [0; 0; 0; 0] 0) 0.

(** sb as main fills it in. *)
Definition sb : superblock :=
  mksb (xint FSSIZE) (xint nblocks) (xint NINODES) (xint nlog) (xint 2) (xint (2 + nlog)) (xint (2 + nlog + ninodeblocks)).

Definition put_sb (s : superblock) (d : list Z) : list Z :=
  put_words [sb_size s; sb_nblocks s; sb_ninodes s; sb_nlog s; sb_logstart s; sb_inodestart s; sb_bmapstart s] d 0.

(** The image file and the counters. *)
Record mst : Type := mkm { img : Z -> list Z; imglen : Z; freeinode : Z; freeblock : Z }.

Definition zeroes : list Z := replicate BSIZE 0.

Definition rsect (sec : Z) : M mst (list Z) := fun s =>
  if sec <? imglen s then Ret (img s sec) s else Panic "read".
Definition wsect (sec : Z) (buf : list Z) : M mst unit :=
  modify (fun s => mkm (upd (img s) sec buf) (Z.max (imglen s) (sec + 1)) (freeinode s) (freeblock s)).

Definition winode (inum : Z) (ip : dinode) : M mst unit :=
  let bn := IBLOCK inum sb in
  buf ← rsect bn;
  wsect bn (put_dinode ip buf (di_off inum)).
Definition rinode (inum : Z) : M mst dinode :=
  buf ← rsect (IBLOCK inum sb);
  mret (get_dinode buf (di_off inum)).

Definition ialloc (type : Z) : M mst Z :=
  inum ← gets freeinode;
  modify (fun s => mkm (img s) (imglen s) (u32 (inum + 1)) (freeblock s)) ;;
  winode inum (mkdinode (xshort type) 0 0 (xshort 1) (xint 0) (replicate 13 0)) ;;
  mret inum.

(** The bitmap with its first [used] bits set. *)
Definition balloc (used : Z) : M mst unit :=
  if negb (used <? 512 * 8) then panic "assert" else
  wsect (sb_bmapstart sb) (fold_left (fun buf i => set_bit i buf) (seqZ 0 used) zeroes).

(** freeblock++ *)
Definition next_block : M mst Z :=
  b ← gets freeblock;
  modify (fun s => mkm (img s) (imglen s) (freeinode s) (u32 (b + 1))) ;;
  mret b.

(** The block of the file at [fbn], allocated if there is none. *)
Definition file_block (din : dinode) (fbn : Z) : M mst (dinode * Z) :=
  if fbn <? NDIRECT then
    let k := Z.to_nat fbn in
    din ← (if xint (di_addrs din !!! k) =? 0
           then b ← next_block; mret (set_addrs (<[k := xint b]> (di_addrs din)) din)
           else mret din);
    mret (din, xint (di_addrs din !!! k))
  else
    din ← (if xint (di_addrs din !!! 12%nat) =? 0
           then b ← next_block; mret (set_addrs (<[12%nat := xint b]> (di_addrs din)) din)
           else mret din);
    let ind := xint (di_addrs din !!! 12%nat) in
    let o := Z.to_nat (4 * (fbn - NDIRECT)) in
    indirect ← rsect ind;
    indirect ← (if get_le 4 indirect o =? 0
                then b ← next_block; let d := put_le 4 (xint b) indirect o in wsect ind d ;; mret d
                else mret indirect);
    mret (din, xint (get_le 4 indirect o)).

(** The loop of iappend at offset [off] with the bytes [p] left. *)
Fixpoint iappend_loop (fuel : nat) (din : dinode) (off : Z) (p : list Z) : M mst (dinode * Z) :=
  match fuel with
  | O => nofuel
  | S f =>
    let n := Z.of_nat (length p) in
    if negb (0 <? n) then mret (din, off) else
    let fbn := off / 512 in
    if negb (fbn <? MAXFILE) then panic "assert" else
    x ← file_block din fbn;
    let n1 := Z.min n ((fbn + 1) * 512 - off) in
    buf ← rsect x.2;
    wsect x.2 (write_at buf (Z.to_nat (off - fbn * 512)) (take (Z.to_nat n1) p)) ;;
    iappend_loop f x.1 (u32 (off + n1)) (drop (Z.to_nat n1) p)
  end.

Definition iappend (inum : Z) (p : list Z) : M mst unit :=
  din ← rinode inum;
  r ← iappend_loop (S (length p)) din (xint (di_size din)) p;
  winode inum (set_size (xint r.2) r.1).

(** struct dirent; strncpy pads the name with nuls and cuts it at DIRSIZ. *)
Definition dirent (inum : Z) (name : list Z) : list Z :=
  put_le 2 (xshort inum) [0; 0] 0 ++ take DIRSIZ (name ++ replicate DIRSIZ 0).

(** The pieces of a file, as read returns them. *)
Fixpoint copy_file (inum : Z) (pieces : list (list Z)) : M mst unit :=
  match pieces with
  | [] => mret tt
  | [] :: _ => mret tt
  | p :: pieces' => iappend inum p ;; copy_file inum pieces'
  end.

(** A file of the command line: its name and, if it can be opened, its
    pieces. *)
Definition strip (name : list Z) : list Z := match name with c :: l => if c =? 95 then l else name | [] => [] end.

Fixpoint add_files (rootino : Z) (files : list (list Z * option (list (list Z)))) : M mst unit :=
  match files with
  | [] => mret tt
  | (name, contents) :: files' =>
    if bool_decide (47 ∈ name) then panic "assert" else
    match contents with
    | None => panic "open"
    | Some pieces =>
      inum ← ialloc T_FILE;
      iappend rootino (dirent inum (strip name)) ;;
      copy_file inum pieces ;;
      add_files rootino files'
    end
  end.

Fixpoint zero_blocks (i : Z) (k : nat) : M mst unit :=
  match k with O => mret tt | S k' => wsect i zeroes ;; zero_blocks (i + 1) k' end.

(** main from the image file just created on. *)
Definition main (files : list (list Z * option (list (list Z)))) : M mst unit :=
  modify (fun s => mkm (img s) (imglen s) (freeinode s) nmeta) ;;
  zero_blocks 0 (Z.to_nat FSSIZE) ;;
  wsect 1 (put_sb sb zeroes) ;;
  rootino ← ialloc T_DIR;
  if negb (rootino =? ROOTINO) then panic "assert" else
  iappend rootino (dirent rootino [46]) ;;
  iappend rootino (dirent rootino [46; 46]) ;;
  add_files rootino files ;;
  din ← rinode rootino;
  let off := xint (di_size din) in
  winode rootino (set_size (xint (u32 ((off / 512 + 1) * 512))) din) ;;
  b ← gets freeblock;
  balloc b.

(** An empty image file, and mkfs on it. *)
Definition blank : mst := mkm (fun _ => zeroes) 0 1 0.
Definition mkfs (files : list (list Z * option (list (list Z)))) : outcome mst unit := main files blank.

(** ** The layout *)

Lemma xint_small x : 0 <= x < 2 ^ 32 -> xint x = x.
Proof. intros H. unfold xint. rewrite get_put_le_same by (cbn; lia). change (256 ^ Z.of_nat 4) with (2 ^ 32). by apply Z.mod_small. Qed.

Lemma xshort_small x : 0 <= x < 65536 -> xshort x = x.
Proof. intros H. unfold xshort. rewrite get_put_le_same by (cbn; lia). change (256 ^ Z.of_nat 2) with 65536. by apply Z.mod_small. Qed.

Lemma sb_value : sb = mksb 1000 941 200 30 2 32 58.
Proof. by vm_compute. Qed.

(** The kernel's view of the disk. *)
Definition mk_geom : geom := mkgeom 1 FSSIZE (fun b => 32 <= b < FSSIZE) 27.

Lemma sb_layout : layout mk_geom sb.
Proof. rewrite sb_value. constructor; cbn; unfold FSSIZE, IPB, BPB; change (200 / 8) with 25; change (1000 / 4096) with 0; lia. Qed.

Lemma sb_data b : data_block sb b <-> 59 <= b < 1000.
Proof. rewrite sb_value. unfold data_block. cbn. unfold BPB. change (1000 / 4096) with 0. lia. Qed.

Lemma sb_iblock i : 0 <= i < 200 -> 32 <= IBLOCK i sb < 58.
Proof. intros Hi. destruct (IBLOCK_ok mk_geom sb sb_layout i) as (_ & H & _); rewrite sb_value in *; cbn in *; lia. Qed.

(** ** Files in the making *)

Definition max_size : Z := 71680.      (* MAXFILE * BSIZE *)

(** The blocks of an inode: its data blocks by number, and the indirect
    block as the last. *)
Definition slot (V : Z -> list Z) (x : dinode) (s : Z) : Z := if s =? MAXFILE then ind_addr x else addr_of V x s.

(** The blocks below [fb] belong to the inodes [X] of numbers below [fi],
    each to one slot of one inode, and those above are zero; the bytes of
    file [i] are [C i], then zeros. *)
Record built (V : Z -> list Z) (X : Z -> dinode) (fi fb : Z) (C : Z -> list Z) : Prop := mkbuilt {
  j_blocks : forall b, 0 <= b < FSSIZE -> block_ok (V b);
  j_fi : 1 <= fi <= NINODES;
  j_fb : nmeta <= fb <= FSSIZE;
  j_zero : forall b, fb <= b < FSSIZE -> V b = zeroes;
  j_din : forall i, 1 <= i < fi -> dinode_ok (X i);
  j_slot : forall i s, 1 <= i < fi -> 0 <= s <= MAXFILE -> slot V (X i) s <> 0 -> nmeta <= slot V (X i) s < fb;
  j_inj : forall i j s t, 1 <= i < fi -> 1 <= j < fi -> 0 <= s <= MAXFILE -> 0 <= t <= MAXFILE ->
    slot V (X i) s <> 0 -> slot V (X i) s = slot V (X j) t -> i = j /\ s = t;
  j_bytes : forall i off, 1 <= i < fi -> 0 <= off < max_size -> file_byte V (X i) off = default 0 (C i !! Z.to_nat off) }.

(** A file of [sz] bytes has the blocks it needs. *)
Definition mapped (V : Z -> list Z) (x : dinode) (sz : Z) : Prop :=
  (forall bn, in_file bn -> addr_of V x bn <> 0 <-> bn * 512 < sz) /\ (ind_addr x <> 0 <-> 6144 < sz).

(** The blocks a file of [sz] bytes takes. *)
Definition nb (sz : Z) : Z := (sz + 511) / 512 + (if 6144 <? sz then 1 else 0).

Lemma meta_value : nmeta = 59.
Proof. by vm_compute. Qed.

Lemma slot_data V x bn : in_file bn -> slot V x bn = addr_of V x bn.
Proof. unfold in_file, slot. intros H. by rewrite (proj2 (Z.eqb_neq bn MAXFILE)) by lia. Qed.

Lemma slot_ind V x : slot V x MAXFILE = ind_addr x.
Proof. unfold slot. by rewrite Z.eqb_refl. Qed.

(** The bytes of a file are those of its blocks. *)
Lemma file_byte_same V V' x x' off : addr_of V' x' (off / 512) = addr_of V x (off / 512) \/ (addr_of V x (off / 512) = 0 /\ V' (addr_of V' x' (off / 512)) = zeroes) ->
  (addr_of V x (off / 512) <> 0 -> V' (addr_of V x (off / 512)) = V (addr_of V x (off / 512))) ->
  file_byte V' x' off = file_byte V x off.
Proof.
  unfold file_byte, fblock. intros [E|[E0 E]] HV.
  - rewrite E. destruct (Z.eqb_spec (addr_of V x (off / 512)) 0); [done|]. by rewrite HV.
  - rewrite E0. cbn [Z.eqb]. destruct (_ =? 0); [done|]. by rewrite E.
Qed.

Definition with_x (X : Z -> dinode) (inum : Z) (x : dinode) : Z -> dinode := fun i => if decide (i = inum) then x else X i.

(** A new slot of one inode: the rest stays, and the new block is zero. *)
Lemma built_alloc V X fi fb C V' x' inum s0 : built V X fi fb C -> 1 <= inum < fi -> fb < FSSIZE -> 0 <= s0 <= MAXFILE -> slot V (X inum) s0 = 0 ->
  (forall s, 0 <= s <= MAXFILE -> slot V' x' s = if decide (s = s0) then fb else slot V (X inum) s) ->
  (forall b, V' b = V b \/ (b = ind_addr (X inum) /\ b <> 0 /\ block_ok (V' b))) -> dinode_ok x' ->
  built V' (with_x X inum x') fi (fb + 1) C /\ (forall i s, 1 <= i < fi -> i <> inum -> 0 <= s <= MAXFILE -> slot V' (X i) s = slot V (X i) s).
Proof.
  intros [Hbl Hfi Hfb Hz Hd Hs Hinj Hby] Hi Hroom Hs0 Hzero Hslot HV Hx'. set (X' := with_x X inum x').
  assert (Hother : forall i s, 1 <= i < fi -> i <> inum -> 0 <= s <= MAXFILE -> slot V' (X i) s = slot V (X i) s).
  { intros i s Hr Hne Hrs. unfold slot. destruct (s =? MAXFILE); [done|]. unfold addr_of. destruct (s <? NDIRECT); [done|]. destruct (Z.eqb_spec (ind_addr (X i)) 0) as [|Hn0]; [done|].
    destruct (HV (ind_addr (X i))) as [->|(E & _)]; [done|]. exfalso. apply Hne. apply (Hinj i inum MAXFILE MAXFILE); rewrite ?slot_ind; (done || (cbn; lia)). }
  assert (Hsl : forall i s, 1 <= i < fi -> 0 <= s <= MAXFILE -> slot V' (X' i) s = if decide (i = inum /\ s = s0) then fb else slot V (X i) s).
  { intros i s Hr Hrs. unfold X', with_x. destruct (decide (i = inum)) as [->|Hne].
    - rewrite Hslot by done. destruct (decide (s = s0)) as [->|]; [by rewrite decide_True by done|]. by rewrite decide_False by tauto.
    - rewrite decide_False by tauto. by apply Hother. }
  assert (Hind : forall b, b = ind_addr (X inum) -> b <> 0 -> nmeta <= b < fb).
  { intros b -> Hb. specialize (Hs inum MAXFILE Hi). rewrite slot_ind in Hs. apply Hs; [cbn; lia|done]. }
  assert (HVd : forall i bn, 1 <= i < fi -> in_file bn -> addr_of V (X i) bn <> 0 -> V' (addr_of V (X i) bn) = V (addr_of V (X i) bn)).
  { intros i bn Hr Hbn Hne. destruct (HV (addr_of V (X i) bn)) as [?|(E & _)]; [done|]. exfalso. unfold in_file in Hbn.
    destruct (Hinj i inum bn MAXFILE Hr Hi) as [_ ?]; rewrite ?slot_ind, ?slot_data by done; (done || lia). }
  assert (Hbn : forall off, 0 <= off < max_size -> in_file (off / 512)) by (unfold max_size, in_file, MAXFILE, NDIRECT, NINDIRECT; intros off Ho; zdiv).
  unfold FSSIZE in *. pose proof meta_value. split; [|done]. constructor; try done.
  - intros b Hb. destruct (HV b) as [->|(_ & _ & ?)]; [by apply Hbl|done].
  - unfold FSSIZE. lia.
  - intros b Hb. destruct (HV b) as [->|(E & Hb0 & _)]; [apply Hz; unfold FSSIZE in *; lia|]. pose proof (Hind b E Hb0). lia.
  - intros i Hr. unfold X', with_x. destruct (decide (i = inum)); [done|by apply Hd].
  - intros i s Hr Hrs. rewrite Hsl by done. destruct (decide _); [lia|]. intros Hne. pose proof (Hs i s Hr Hrs Hne). lia.
  - intros i j s t Hr Hr' Hrs Hrt. rewrite !Hsl by done. destruct (decide _) as [[-> ->]|Hn1], (decide _) as [[-> ->]|Hn2]; [done|..].
    + intros _ E. pose proof (Hs j t Hr' Hrt). lia.
    + intros Hne E. pose proof (Hs i s Hr Hrs Hne). lia.
    + by apply Hinj.
  - intros i off Hr Ho. rewrite <- (Hby i off Hr Ho). pose proof (Hbn off Ho) as Hf. pose proof (Hsl i (off / 512) Hr) as E. unfold in_file in Hf. rewrite !slot_data in E by done. specialize (E ltac:(lia)).
    apply file_byte_same; [|by apply HVd]. destruct (decide (i = inum /\ off / 512 = s0)) as [[-> E0]|_]; [|by left]. right. rewrite <- (slot_data V (X inum)) by done. rewrite E0 at 1. split; [done|].
    rewrite E. destruct (HV fb) as [->|(Ef & Hf0 & _)]; [apply Hz; unfold FSSIZE; lia|]. pose proof (Hind fb Ef Hf0). lia.
Qed.

Lemma write_piece (d piece c : list Z) (o r off : nat) : length d = BSIZE -> (o + length piece <= BSIZE)%nat -> length c = (off + o)%nat ->
  d !!! r = default 0 (c !! (off + r)%nat) -> write_at d o piece !!! r = default 0 ((c ++ piece) !! (off + r)%nat).
Proof.
  intros Hd Hp Hc Hr. rewrite list_lookup_total_alt. rewrite list_lookup_total_alt in Hr. destruct (decide (r < o \/ o + length piece <= r)%nat) as [Ho|Ho].
  - rewrite lookup_write_at_other by done. etrans; [exact Hr|]. destruct (decide (r < o)%nat); [by rewrite lookup_app_l by lia|].
    rewrite (lookup_ge_None_2 c), (lookup_ge_None_2 (c ++ piece)) by (rewrite ?length_app; lia). done.
  - replace r with (o + (r - o))%nat at 1 by lia. rewrite lookup_write_at_in by lia. rewrite lookup_app_r by lia. replace (off + r - length c)%nat with (r - o)%nat by lia.
    by destruct (lookup_lt_is_Some_2 piece (r - o)) as [v ->]; [lia|].
Qed.

(** Bytes put behind the end of a file, in one of its blocks. *)
Lemma built_write V X fi fb C inum piece : let off := Z.of_nat (length (C inum)) in let fbn := off / 512 in let a := addr_of V (X inum) fbn in
  built V X fi fb C -> 1 <= inum < fi -> in_file fbn -> a <> 0 -> Forall byte_ok piece -> off + Z.of_nat (length piece) <= (fbn + 1) * 512 ->
  let V' := upd V a (write_at (V a) (Z.to_nat (off - fbn * 512)) piece) in
  built V' X fi fb (fun i => if decide (i = inum) then C inum ++ piece else C i) /\
  (forall i s, 1 <= i < fi -> 0 <= s <= MAXFILE -> slot V' (X i) s = slot V (X i) s).
Proof.
  intros off fbn a [Hbl Hfi Hfb Hz Hd Hs Hinj Hby] Hi Hbn Ha Hpc Hlen V'. assert (Hfbn : fbn = off / 512) by done. unfold in_file in Hbn.
  assert (Har : nmeta <= a < fb) by (specialize (Hs inum fbn Hi); rewrite slot_data in Hs by done; apply Hs; [lia|done]). pose proof meta_value. unfold FSSIZE in *.
  assert (Hsl : forall i s, 1 <= i < fi -> 0 <= s <= MAXFILE -> slot V' (X i) s = slot V (X i) s).
  { intros i s Hr Hrs. unfold slot. destruct (s =? MAXFILE); [done|]. unfold addr_of. destruct (s <? NDIRECT); [done|]. destruct (Z.eqb_spec (ind_addr (X i)) 0) as [|Hn0]; [done|].
    unfold V', upd. rewrite decide_False; [done|]. intros E. destruct (Hinj i inum MAXFILE fbn Hr Hi) as [_ ?]; rewrite ?slot_ind, ?slot_data by done; (done || lia). }
  split; [|done]. constructor; try done.
  - intros b Hb. unfold V', upd. destruct (decide (b = a)) as [->|]; [|by apply Hbl]. destruct (Hbl a) as [Hl Hok]; [unfold FSSIZE; lia|]. split; [by rewrite length_write_at|by apply write_at_byte_ok].
  - intros b Hb. unfold V', upd. rewrite decide_False by lia. by apply Hz.
  - intros i s Hr Hrs. rewrite Hsl by done. by apply Hs.
  - intros i j s t Hr Hr' Hrs Hrt. rewrite !Hsl by done. by apply Hinj.
  - intros i o Hr Ho. assert (Hob : in_file (o / 512)) by (unfold max_size, in_file, MAXFILE, NDIRECT, NINDIRECT in *; zdiv). unfold in_file in Hob.
    pose proof (Hsl i (o / 512) Hr ltac:(lia)) as E. rewrite !slot_data in E by done. pose proof (Hby i o Hr Ho) as Hb. unfold file_byte, fblock in Hb |- *. rewrite E.
    assert (Hout : o / 512 <> fbn -> default 0 ((C inum ++ piece) !! Z.to_nat o) = default 0 (C inum !! Z.to_nat o)).
    { intros Hne. destruct (decide (o < off)); [by rewrite lookup_app_l by lia|]. rewrite (lookup_ge_None_2 (C inum)), (lookup_ge_None_2 (C inum ++ piece)) by (rewrite ?length_app; zdiv). done. }
    destruct (Z.eqb_spec (addr_of V (X i) (o / 512)) 0) as [E0|E0].
    + rewrite Hb. destruct (decide (i = inum)) as [->|]; [|done]. rewrite Hout; [done|]. intros Ef. by rewrite Ef in E0.
    + unfold V', upd. destruct (decide (addr_of V (X i) (o / 512) = a)) as [Ea|Ea].
      * destruct (Hinj i inum (o / 512) fbn Hr Hi) as [-> Ef]; rewrite ?slot_data by done; try (done || lia). rewrite decide_True by done. rewrite Ea in Hb. destruct (Hbl a) as [Hl _]; [unfold FSSIZE; lia|].
        assert (Eo : Z.to_nat o = (Z.to_nat (fbn * 512) + Z.to_nat (o mod 512))%nat) by (rewrite <- Ef; zdiv). rewrite Eo in *.
        apply write_piece; [done|unfold BSIZE; zdiv|zdiv|done].
      * rewrite Hb. destruct (decide (i = inum)) as [->|]; [|done]. rewrite Hout; [done|]. intros Ef. by rewrite Ef in Ea.
Qed.

(** *** The slots a new block goes to *)

Lemma slot_direct V x fbn fb s : length (di_addrs x) = 13%nat -> 0 <= fbn < NDIRECT -> 0 <= s <= MAXFILE ->
  slot V (set_addrs (<[Z.to_nat fbn := fb]> (di_addrs x)) x) s = if decide (s = fbn) then fb else slot V x s.
Proof.
  unfold slot, addr_of, ind_addr, NDIRECT. cbn [di_addrs set_addrs]. intros Hl Hf Hs. rewrite (list_lookup_total_insert_ne _ _ 12) by lia.
  destruct (Z.eqb_spec s MAXFILE) as [->|]; [by rewrite decide_False by (unfold MAXFILE, NDIRECT, NINDIRECT; lia)|]. destruct (Z.ltb_spec s 12) as [Hlt|Hge].
  - destruct (decide (s = fbn)) as [->|]; [by rewrite list_lookup_total_insert_eq by lia|]. by rewrite list_lookup_total_insert_ne by lia.
  - by rewrite decide_False by lia.
Qed.

Lemma get_le_zeroes w o : (o + w <= BSIZE)%nat -> get_le w zeroes o = 0.
Proof.
  revert o. induction w as [|w IH]; intros o Ho; [done|]. cbn [get_le]. rewrite IH by lia. rewrite list_lookup_total_alt. unfold zeroes.
  by rewrite lookup_replicate_2 by lia.
Qed.

Lemma slot_indirect V x fb s : length (di_addrs x) = 13%nat -> ind_addr x = 0 -> V fb = zeroes -> 0 <= s <= MAXFILE ->
  slot V (set_addrs (<[12%nat := fb]> (di_addrs x)) x) s = if decide (s = MAXFILE) then fb else slot V x s.
Proof.
  unfold slot, addr_of, ind_addr, NDIRECT. cbn [di_addrs set_addrs]. intros Hl H0 Hz Hs. rewrite (list_lookup_total_insert_eq _ 12) by lia. rewrite H0.
  destruct (Z.eqb_spec s MAXFILE) as [->|]; [by rewrite decide_True|]. rewrite decide_False by done. destruct (Z.ltb_spec s 12).
  - by rewrite list_lookup_total_insert_ne by lia.
  - cbn [Z.eqb]. destruct (fb =? 0); [done|]. rewrite Hz. apply get_le_zeroes. unfold MAXFILE, NDIRECT, NINDIRECT, BSIZE in *. lia.
Qed.

Lemma slot_entry V x fbn fb s : let ind := ind_addr x in ind <> 0 -> length (V ind) = BSIZE -> NDIRECT <= fbn < MAXFILE -> 0 <= fb < 2 ^ 32 -> 0 <= s <= MAXFILE ->
  slot (upd V ind (put_le 4 fb (V ind) (Z.to_nat (4 * (fbn - NDIRECT))))) x s = if decide (s = fbn) then fb else slot V x s.
Proof.
  intros ind Hi Hl Hf Hb Hs. unfold slot, addr_of. fold ind. destruct (Z.eqb_spec s MAXFILE) as [->|]; [by rewrite decide_False by lia|].
  destruct (Z.ltb_spec s NDIRECT); [by rewrite decide_False by lia|]. rewrite (proj2 (Z.eqb_neq ind 0)) by done. unfold upd. rewrite (decide_True (P := ind = ind)) by done.
  unfold MAXFILE, NINDIRECT, NDIRECT, BSIZE in *. destruct (decide (s = fbn)) as [->|].
  - rewrite get_put_le_same by lia. change (256 ^ Z.of_nat 4) with (2 ^ 32). by apply Z.mod_small.
  - apply get_put_le_other. lia.
Qed.

Lemma mapped_round V x off fbn : fbn = off / 512 -> fbn * 512 < off -> mapped V x off -> mapped V x ((fbn + 1) * 512).
Proof. intros -> Hlt [H1 H2]. split; [intros bn Hb; rewrite (H1 bn Hb); zdiv|rewrite H2; zdiv]. Qed.

Lemma maxfile_range : 0 <= MAXFILE <= MAXFILE.
Proof. unfold MAXFILE, NDIRECT, NINDIRECT. lia. Qed.

(** *** Allocating for iappend *)

Lemma next_block_ret s : 0 <= freeblock s < 2 ^ 31 -> next_block s = Ret (freeblock s) (mkm (img s) (imglen s) (freeinode s) (freeblock s + 1)).
Proof. intros H. unfold next_block, mbind, M_bind, gets, modify. by rewrite u32_small by lia. Qed.

(** The inode [inum] has got the blocks for [sz] bytes. *)
Record grew (s : mst) (X : Z -> dinode) (C : Z -> list Z) (inum sz : Z) (s' : mst) (x' : dinode) : Prop := mkgrew {
  g_len : imglen s' = imglen s;
  g_fi : freeinode s' = freeinode s;
  g_built : built (img s') (with_x X inum x') (freeinode s) (freeblock s') C;
  g_mapped : mapped (img s') x' sz;
  g_meta : forall b, b < nmeta -> img s' b = img s b;
  g_x : x' = set_addrs (di_addrs x') (X inum);
  g_others : forall i t, 1 <= i < freeinode s -> i <> inum -> 0 <= t <= MAXFILE -> slot (img s') (X i) t = slot (img s) (X i) t }.

Lemma built_ext V X X' fi fb C : (forall i, X' i = X i) -> built V X fi fb C -> built V X' fi fb C.
Proof.
  intros E [? ? ? ? ? Hs Hi Hb]. constructor; try done; setoid_rewrite E; done.
Qed.

Lemma mapped_next V x V' x' fbn fb : in_file fbn -> fb <> 0 -> (forall s, 0 <= s <= MAXFILE -> slot V' x' s = if decide (s = fbn) then fb else slot V x s) ->
  (forall bn, in_file bn -> addr_of V x bn <> 0 <-> bn * 512 < fbn * 512) -> (ind_addr x <> 0 <-> NDIRECT <= fbn) -> mapped V' x' ((fbn + 1) * 512).
Proof.
  unfold in_file, NDIRECT. intros Hf Hfb Hsl H1 H2. split.
  - intros bn Hb. pose proof Hb as Hb'. unfold in_file in Hb'. rewrite <- slot_data by done. rewrite Hsl by lia. destruct (decide (bn = fbn)) as [->|]; [split; [lia|done]|]. rewrite slot_data, (H1 bn Hb) by done. lia.
  - rewrite <- (slot_ind V'). rewrite Hsl by (unfold MAXFILE, NDIRECT, NINDIRECT in *; lia). rewrite decide_False by lia. rewrite slot_ind, H2. lia.
Qed.

Lemma addrs_ok x k b : dinode_ok x -> 0 <= b < 2 ^ 32 -> dinode_ok (set_addrs (<[k := b]> (di_addrs x)) x).
Proof. intros (? & ? & ? & ? & ? & Hl & Ha) Hb. unfold dinode_ok. cbn. split_and!; try done; try lia; [by rewrite length_insert|by apply Forall_insert]. Qed.

(** A direct block. *)
Lemma mk_direct s X C inum fbn : let x := X inum in let fb := freeblock s in
  built (img s) X (freeinode s) fb C -> 1 <= inum < freeinode s -> fb < FSSIZE -> 0 <= fbn < NDIRECT -> mapped (img s) x (fbn * 512) ->
  grew s X C inum ((fbn + 1) * 512) (mkm (img s) (imglen s) (freeinode s) (fb + 1)) (set_addrs (<[Z.to_nat fbn := fb]> (di_addrs x)) x).
Proof.
  intros x fb Hb Hi Hfb Hf [Hm1 Hm2]. pose proof (j_din _ _ _ _ _ Hb inum Hi) as Hx. pose proof (j_fb _ _ _ _ _ Hb) as Hfr. pose proof meta_value. unfold FSSIZE, NDIRECT in *.
  assert (Hif : in_file fbn) by (unfold in_file, MAXFILE, NDIRECT, NINDIRECT; lia).
  assert (Hsl : forall t, 0 <= t <= MAXFILE -> slot (img s) (set_addrs (<[Z.to_nat fbn := fb]> (di_addrs x)) x) t = if decide (t = fbn) then fb else slot (img s) x t)
    by (intros t Ht; apply slot_direct; [apply Hx|done|done]).
  assert (H0 : slot (img s) x fbn = 0). { rewrite slot_data by done. destruct (decide (addr_of (img s) x fbn = 0)) as [|Hne]; [done|]. apply (Hm1 fbn Hif) in Hne. lia. }
  destruct (built_alloc (img s) X (freeinode s) fb C (img s) (set_addrs (<[Z.to_nat fbn := fb]> (di_addrs x)) x) inum fbn) as [B1 B2]; try done; [unfold in_file in Hif; lia|by left|apply addrs_ok; [done|lia]|].
  constructor; try done. apply (mapped_next (img s) x _ _ fbn fb); try done; [lia|]. rewrite Hm2. unfold NDIRECT. lia.
Qed.

(** The indirect block. *)
Lemma mk_indirect s X C inum : let x := X inum in let fb := freeblock s in let x' := set_addrs (<[12%nat := fb]> (di_addrs x)) x in
  built (img s) X (freeinode s) fb C -> 1 <= inum < freeinode s -> fb < FSSIZE -> ind_addr x = 0 ->
  built (img s) (with_x X inum x') (freeinode s) (fb + 1) C /\ ind_addr x' = fb /\ (forall bn, in_file bn -> addr_of (img s) x' bn = addr_of (img s) x bn).
Proof.
  intros x fb x' Hb Hi Hfb H0. pose proof (j_din _ _ _ _ _ Hb inum Hi) as Hx. pose proof (j_fb _ _ _ _ _ Hb) as Hfr. pose proof meta_value. unfold FSSIZE in *.
  assert (Hz : img s fb = zeroes) by (apply (j_zero _ _ _ _ _ Hb); unfold FSSIZE; lia).
  assert (Hsl : forall t, 0 <= t <= MAXFILE -> slot (img s) x' t = if decide (t = MAXFILE) then fb else slot (img s) x t) by (intros t Ht; apply slot_indirect; [apply Hx|done..]).
  destruct (built_alloc (img s) X (freeinode s) fb C (img s) x' inum MAXFILE) as [B1 _]; [done|done|unfold FSSIZE; lia|apply maxfile_range|by rewrite slot_ind|done|by left|apply addrs_ok; [done|lia]|].
  split_and!; [done| |].
  - rewrite <- (slot_ind (img s)), Hsl by apply maxfile_range. by rewrite decide_True.
  - intros bn Hbn. rewrite <- !slot_data by done. unfold in_file in Hbn. rewrite Hsl by lia. by rewrite decide_False by lia.
Qed.

(** A block of the indirect block. *)
Lemma mk_entry s X C inum fbn : let x := X inum in let fb := freeblock s in let ind := ind_addr x in
  built (img s) X (freeinode s) fb C -> 1 <= inum < freeinode s -> fb < FSSIZE -> imglen s = FSSIZE -> NDIRECT <= fbn < MAXFILE -> ind <> 0 ->
  (forall bn, in_file bn -> addr_of (img s) x bn <> 0 <-> bn * 512 < fbn * 512) ->
  let V' := upd (img s) ind (put_le 4 fb (img s ind) (Z.to_nat (4 * (fbn - NDIRECT)))) in
  grew s X C inum ((fbn + 1) * 512) (mkm V' FSSIZE (freeinode s) (fb + 1)) x /\ addr_of V' x fbn = fb.
Proof.
  intros x fb ind Hb Hi Hfb Hlen Hf Hne Hm V'. pose proof (j_din _ _ _ _ _ Hb inum Hi) as Hx. pose proof (j_fb _ _ _ _ _ Hb) as Hfr. pose proof meta_value. unfold FSSIZE in *.
  assert (Hif : in_file fbn) by (unfold in_file, NDIRECT in *; lia).
  assert (Hir : nmeta <= ind < fb) by (pose proof (j_slot _ _ _ _ _ Hb inum MAXFILE Hi) as Hs; rewrite slot_ind in Hs; apply Hs; [apply maxfile_range|done]).
  destruct (j_blocks _ _ _ _ _ Hb ind) as [Hl Hok]; [unfold FSSIZE; lia|].
  assert (Hsl : forall t, 0 <= t <= MAXFILE -> slot V' x t = if decide (t = fbn) then fb else slot (img s) x t) by (intros t Ht; apply slot_entry; [done|done|done|lia|done]).
  assert (H0 : slot (img s) x fbn = 0). { rewrite slot_data by done. destruct (decide (addr_of (img s) x fbn = 0)) as [|Hn]; [done|]. apply (Hm fbn Hif) in Hn. lia. }
  destruct (built_alloc (img s) X (freeinode s) fb C V' x inum fbn) as [B1 B2]; try done; [unfold NDIRECT in *; lia| |].
  { intros b. unfold V', upd. destruct (decide (b = ind)) as [->|]; [|by left]. right. split_and!; [done|done|]. split; [by rewrite length_put_le|by apply put_le_byte_ok]. }
  split; [|rewrite <- slot_data, Hsl, decide_True by (done || unfold in_file in *; lia); done]. constructor; try done; cbn [img imglen freeinode freeblock].
  - apply (mapped_next (img s) x _ _ fbn fb); try done; [lia|]. split; [lia|done].
  - intros b Hb'. unfold V', upd. by rewrite decide_False by lia.
  - unfold x. by destruct (X inum).
Qed.

(** The blocks file_block takes for the block [fbn] of a file of [off] bytes. *)
Definition need (off : Z) : Z := nb ((off / 512 + 1) * 512) - nb off.

Lemma need_cases off : 0 <= off -> need off = if off mod 512 =? 0 then (if off =? 6144 then 2 else 1) else 0.
Proof.
  intros H. unfold need, nb. destruct (Z.eqb_spec (off mod 512) 0), (Z.eqb_spec off 6144); destruct (Z.ltb_spec 6144 off), (Z.ltb_spec 6144 ((off / 512 + 1) * 512)); zdiv.
Qed.

Lemma slot_small V X fi fb C i t : built V X fi fb C -> 1 <= i < fi -> 0 <= t <= MAXFILE -> 0 <= slot V (X i) t < 2 ^ 32.
Proof.
  intros Hb Hi Ht. destruct (decide (slot V (X i) t = 0)) as [->|Hne]; [lia|]. pose proof (j_slot _ _ _ _ _ Hb i t Hi Ht Hne). pose proof (j_fb _ _ _ _ _ Hb). pose proof meta_value. unfold FSSIZE in *. lia.
Qed.

Lemma grew_refl s X C inum sz : built (img s) X (freeinode s) (freeblock s) C -> mapped (img s) (X inum) sz -> grew s X C inum sz s (X inum).
Proof.
  intros Hb Hm. constructor; try done; [|by destruct (X inum)]. eapply built_ext; [|exact Hb]. intros i. unfold with_x. by destruct (decide (i = inum)) as [->|].
Qed.

Lemma file_block_direct s X C inum off : let x := X inum in let fbn := off / 512 in
  built (img s) X (freeinode s) (freeblock s) C -> 1 <= inum < freeinode s -> 0 <= off -> fbn < NDIRECT -> mapped (img s) x off -> freeblock s + need off <= FSSIZE ->
  exists x' s', file_block x fbn s = Ret (x', addr_of (img s') x' fbn) s' /\ grew s X C inum ((fbn + 1) * 512) s' x' /\ freeblock s' = freeblock s + need off.
Proof.
  intros x fbn Hb Hi Ho Hf Hm Hroom. assert (Hfr : 0 <= fbn) by (unfold fbn; zdiv). assert (Hif : in_file fbn) by (unfold in_file, MAXFILE, NDIRECT, NINDIRECT in *; lia).
  pose proof (j_fb _ _ _ _ _ Hb) as Hfb. pose proof meta_value as Hmv. pose proof (need_cases off Ho) as Hn. unfold file_block. rewrite (proj2 (Z.ltb_lt fbn NDIRECT)) by done.
  assert (Ead : addr_of (img s) x fbn = di_addrs x !!! Z.to_nat fbn) by (unfold addr_of; by rewrite (proj2 (Z.ltb_lt fbn NDIRECT)) by done).
  pose proof (slot_small _ _ _ _ _ inum fbn Hb Hi ltac:(unfold in_file in Hif; lia)) as Hsm. rewrite slot_data in Hsm by done. fold x in Hsm. rewrite Ead in Hsm. rewrite (xint_small (di_addrs x !!! _)) by done.
  destruct Hm as [Hm1 Hm2]. pose proof (Hm1 fbn Hif) as Ha. rewrite Ead in Ha. unfold NDIRECT in *. destruct (Z.eqb_spec (di_addrs x !!! Z.to_nat fbn) 0) as [E0|E0].
  - assert (Eoff : off = fbn * 512) by (unfold fbn in *; zdiv). assert (Hn1 : need off = 1) by (rewrite Hn; rewrite Eoff, Z.mod_mul by lia; destruct (Z.eqb_spec (fbn * 512) 6144); [lia|done]). unfold FSSIZE in *.
    unfold mbind at 1 2, M_bind. rewrite next_block_ret by lia. unfold mret, M_ret. rewrite xint_small by lia.
    eexists _, _. split_and!; [|apply mk_direct; [done|done|unfold FSSIZE; lia|unfold NDIRECT; lia|split; [by rewrite <- Eoff|by rewrite <- Eoff]]|cbn; lia].
    cbn [img]. f_equal. f_equal. unfold addr_of. rewrite (proj2 (Z.ltb_lt fbn NDIRECT)) by (unfold NDIRECT; lia). apply xint_small. cbn [di_addrs set_addrs].
    rewrite list_lookup_total_insert_eq by (destruct (j_din _ _ _ _ _ Hb inum Hi) as (_ & _ & _ & _ & _ & Hl & _); unfold x in *; lia). lia.
  - assert (Hlt : fbn * 512 < off) by tauto. assert (Hn0 : need off = 0) by (rewrite Hn; destruct (Z.eqb_spec (off mod 512) 0); [unfold fbn in *; zdiv|done]).
    exists x, s. split_and!; [|apply grew_refl; [done|by apply (mapped_round _ _ off)]|lia]. unfold mbind, M_bind, mret, M_ret. by rewrite Ead, xint_small.
Qed.

(** The part of file_block after the indirect block is there. *)
Lemma entry_phase s X C inum off : let x := X inum in let fbn := off / 512 in let ind := ind_addr x in let o := Z.to_nat (4 * (fbn - NDIRECT)) in
  let k := if off mod 512 =? 0 then 1 else 0 in
  built (img s) X (freeinode s) (freeblock s) C -> 1 <= inum < freeinode s -> NDIRECT <= fbn < MAXFILE -> ind <> 0 -> imglen s = FSSIZE ->
  (forall bn, in_file bn -> addr_of (img s) x bn <> 0 <-> bn * 512 < off) -> freeblock s + k <= FSSIZE ->
  exists s', (indirect ← rsect ind;
    indirect ← (if get_le 4 indirect o =? 0 then b ← next_block; let d := put_le 4 (xint b) indirect o in wsect ind d ;; mret d else mret indirect);
    mret (x, xint (get_le 4 indirect o))) s = Ret (x, addr_of (img s') x fbn) s' /\ grew s X C inum ((fbn + 1) * 512) s' x /\ freeblock s' = freeblock s + k.
Proof.
  intros x fbn ind o k Hb Hi Hf Hne Hlen Hm Hroom. pose proof (j_fb _ _ _ _ _ Hb) as Hfb. pose proof meta_value as Hmv. unfold FSSIZE in *.
  assert (Hif : in_file fbn) by (unfold in_file, NDIRECT in *; lia).
  assert (Hir : nmeta <= ind < freeblock s) by (pose proof (j_slot _ _ _ _ _ Hb inum MAXFILE Hi) as Hs; rewrite slot_ind in Hs; apply Hs; [apply maxfile_range|done]).
  assert (Ead : forall V, addr_of V x fbn = get_le 4 (V ind) o) by (intros V; unfold addr_of; rewrite (proj2 (Z.ltb_ge fbn NDIRECT)) by lia; fold ind; by rewrite (proj2 (Z.eqb_neq ind 0))).
  assert (Hrs : rsect ind s = Ret (img s ind) s) by (unfold rsect; by rewrite (proj2 (Z.ltb_lt ind (imglen s))) by lia). unfold mbind at 1, M_bind. rewrite Hrs. rewrite <- (Ead (img s)).
  pose proof (Hm fbn Hif) as Ha. destruct (Z.eqb_spec (addr_of (img s) x fbn) 0) as [E0|E0].
  - assert (Eoff : off = fbn * 512) by (unfold fbn in *; zdiv). assert (Ek : k = 1) by (unfold k; by rewrite Eoff, Z.mod_mul by lia). rewrite Ek in *.
    destruct (mk_entry s X C inum fbn) as [G1 G2]; try done; [unfold FSSIZE; lia|intros bn Hbn; fold x; rewrite (Hm bn Hbn); by rewrite <- Eoff|]. fold x ind o in G1, G2.
    unfold mbind, M_bind. rewrite next_block_ret by lia. unfold wsect, modify, mret, M_ret. cbn [img imglen freeinode freeblock]. rewrite (xint_small (freeblock s)) by lia.
    rewrite Hlen, (Z.max_l 1000) by lia. eexists. split_and!; [|exact G1|done]. f_equal. f_equal. cbn [img]. rewrite G2. rewrite Ead in G2. unfold upd in G2. rewrite decide_True in G2 by done. rewrite G2. apply xint_small. lia.
  - assert (Hlt : fbn * 512 < off) by tauto. assert (Ek : k = 0) by (unfold k; destruct (Z.eqb_spec (off mod 512) 0); [unfold fbn in *; zdiv|done]).
    exists s. split_and!; [|apply grew_refl; [done|]|lia].
    + unfold mbind, M_bind, mret, M_ret. rewrite <- Ead. rewrite xint_small; [done|]. pose proof (slot_small _ _ _ _ _ inum fbn Hb Hi ltac:(unfold in_file in Hif; lia)) as Hsm. by rewrite slot_data in Hsm.
    + fold x. split; [intros bn Hbn; rewrite (Hm bn Hbn); unfold fbn in *; zdiv|]. fold ind. unfold NDIRECT in *. split; [lia|done].
Qed.

Lemma file_block_indirect s X C inum off : let x := X inum in let fbn := off / 512 in
  built (img s) X (freeinode s) (freeblock s) C -> 1 <= inum < freeinode s -> 0 <= off -> NDIRECT <= fbn < MAXFILE -> imglen s = FSSIZE -> mapped (img s) x off -> freeblock s + need off <= FSSIZE ->
  exists x' s', file_block x fbn s = Ret (x', addr_of (img s') x' fbn) s' /\ grew s X C inum ((fbn + 1) * 512) s' x' /\ freeblock s' = freeblock s + need off.
Proof.
  intros x fbn Hb Hi Ho Hf Hlen [Hm1 Hm2] Hroom. pose proof (j_fb _ _ _ _ _ Hb) as Hfb. pose proof meta_value as Hmv. rewrite (need_cases off Ho) in *. unfold FSSIZE in *.
  unfold file_block. rewrite (proj2 (Z.ltb_ge fbn NDIRECT)) by lia. fold (ind_addr x).
  assert (Hsm : 0 <= ind_addr x < 2 ^ 32) by (rewrite <- (slot_ind (img s)); by apply (slot_small _ _ _ _ _ inum MAXFILE Hb Hi maxfile_range)). rewrite xint_small by done.
  destruct (Z.eqb_spec (ind_addr x) 0) as [E0|E0].
  - assert (Eoff : off = 6144) by (unfold NDIRECT, fbn in *; zdiv). assert (Efb : fbn = 12) by (unfold fbn; by rewrite Eoff). rewrite Eoff in Hroom. change (6144 mod 512 =? 0) with true in Hroom. change (6144 =? 6144) with true in Hroom. cbv iota in Hroom.
    destruct (mk_indirect s X C inum Hb Hi) as (B1 & B2 & B3); [unfold FSSIZE; lia|done|]. fold x in B1, B2, B3. set (x1 := set_addrs (<[12%nat := freeblock s]> (di_addrs x)) x) in *.
    set (X1 := with_x X inum x1). assert (EX : X1 inum = x1) by (unfold X1, with_x; by rewrite decide_True).
    set (s1 := mkm (img s) (imglen s) (freeinode s) (freeblock s + 1)).
    assert (R0 : (b ← next_block; mret (set_addrs (<[12%nat := xint b]> (di_addrs x)) x)) s = Ret x1 s1) by (unfold mbind, M_bind; rewrite next_block_ret by lia; by rewrite xint_small by lia).
    erewrite bind_ret by exact R0. fold (ind_addr x1). rewrite (xint_small (ind_addr x1)) by lia. rewrite <- EX.
    destruct (entry_phase s1 X1 C inum off) as (s' & R & G & Ef); try done; rewrite ?EX, ?B2; try done; try lia.
    { intros bn Hbn. cbn [img s1]. rewrite B3 by done. by apply Hm1. }
    { rewrite Eoff. cbn [freeblock s1]. change (6144 mod 512 =? 0) with true. cbv iota. unfold FSSIZE. lia. }
    rewrite EX in *. rewrite B2 in R. exists x1, s'. split_and!; [exact R| |rewrite Ef, Eoff; cbn [freeblock s1]; change (6144 mod 512 =? 0) with true; change (6144 =? 6144) with true; cbv iota; lia].
    destruct G as [G1 G2 G3 G4 G5 G6 G7]. constructor; try done.
    + eapply built_ext; [|exact G3]. intros i. unfold X1, with_x. by destruct (decide (i = inum)).
    + intros i t Hr Hn Ht. specialize (G7 i t Hr Hn Ht). unfold X1, with_x in G7. by rewrite decide_False in G7.
  - assert (Hgt : off <> 6144) by (intros ->; apply E0; destruct (decide (ind_addr x = 0)) as [|Hne]; [done|]; apply Hm2 in Hne; lia). rewrite (proj2 (Z.eqb_neq off 6144)) in * by done.
    destruct (entry_phase s X C inum off) as (s' & R & G & Ef); try done. exists x, s'. split_and!; [|done|done]. erewrite bind_ret by done. fold (ind_addr x). rewrite xint_small by done. exact R.
Qed.

(** ** iappend *)

Definition flen (l : list Z) : Z := Z.of_nat (length l).
Definition with_c (C : Z -> list Z) (inum : Z) (l : list Z) : Z -> list Z := fun i => if decide (i = inum) then l else C i.

(** The inode has become [x'], and the file has got [bytes] at its end. *)
Record appended (s : mst) (X : Z -> dinode) (C : Z -> list Z) (inum : Z) (bytes : list Z) (s' : mst) (x' : dinode) : Prop := mkappended {
  a_len : imglen s' = imglen s;
  a_fi : freeinode s' = freeinode s;
  a_built : built (img s') (with_x X inum x') (freeinode s) (freeblock s') (with_c C inum (C inum ++ bytes));
  a_mapped : mapped (img s') x' (flen (C inum ++ bytes));
  a_meta : forall b, b < nmeta -> img s' b = img s b;
  a_x : x' = set_addrs (di_addrs x') (X inum);
  a_others : forall i t, 1 <= i < freeinode s -> i <> inum -> 0 <= t <= MAXFILE -> slot (img s') (X i) t = slot (img s) (X i) t;
  a_fb : freeblock s' = freeblock s + nb (flen (C inum ++ bytes)) - nb (flen (C inum)) }.

Lemma nb_round off k : k * 512 < off <= (k + 1) * 512 -> nb off = nb ((k + 1) * 512).
Proof. intros H. unfold nb. destruct (Z.ltb_spec 6144 off), (Z.ltb_spec 6144 ((k + 1) * 512)); zdiv. Qed.

Lemma nb_mono x y : x <= y -> nb x <= nb y.
Proof. intros H. unfold nb. destruct (Z.ltb_spec 6144 x), (Z.ltb_spec 6144 y); zdiv. Qed.

Lemma mapped_slots V V' x x' sz : (forall t, 0 <= t <= MAXFILE -> slot V' x' t = slot V x t) -> mapped V x sz -> mapped V' x' sz.
Proof.
  intros Hs [H1 H2]. split; [intros bn Hb; rewrite <- slot_data by done; unfold in_file in Hb; rewrite Hs, slot_data by (done || lia); by apply H1|].
  rewrite <- (slot_ind V), <- Hs, slot_ind in H2 by apply maxfile_range. done.
Qed.

Lemma mapped_back V x off k : k * 512 < off <= (k + 1) * 512 -> mapped V x ((k + 1) * 512) -> mapped V x off.
Proof. intros Hk [H1 H2]. split; [intros bn Hb; rewrite (H1 bn Hb)|rewrite H2]; zdiv. Qed.

Lemma built_c V X fi fb C C' : (forall i, C' i = C i) -> built V X fi fb C -> built V X fi fb C'.
Proof. intros E [? ? ? ? ? Hs Hi Hb]. constructor; try done. intros i off Hi' Ho. rewrite E. by apply Hb. Qed.

(** One round of the loop. *)
Lemma append_round s X C inum p : let off := flen (C inum) in let fbn := off / 512 in let n1 := Z.min (flen p) ((fbn + 1) * 512 - off) in
  built (img s) X (freeinode s) (freeblock s) C -> 1 <= inum < freeinode s -> imglen s = FSSIZE -> mapped (img s) (X inum) off -> Forall byte_ok p -> p <> [] ->
  off + flen p <= max_size -> freeblock s + nb (off + flen p) - nb off <= FSSIZE ->
  exists x' a s1, file_block (X inum) fbn s = Ret (x', a) s1 /\ rsect a s1 = Ret (img s1 a) s1 /\
  appended s X C inum (take (Z.to_nat n1) p) (mkm (upd (img s1) a (write_at (img s1 a) (Z.to_nat (off - fbn * 512)) (take (Z.to_nat n1) p))) (Z.max (imglen s1) (a + 1)) (freeinode s1) (freeblock s1)) x'.
Proof.
  intros off fbn n1 Hb Hi Hlen Hm Hp Hne Hmax Hroom. assert (Hpl : 0 < flen p) by (unfold flen; destruct p; [done|cbn; lia]). assert (Ho : 0 <= off) by (unfold off, flen; lia).
  assert (Hfb : 0 <= fbn < MAXFILE) by (unfold fbn, max_size, MAXFILE, NDIRECT, NINDIRECT in *; zdiv). assert (Hn1 : 0 < n1 /\ fbn * 512 < off + n1 <= (fbn + 1) * 512) by (unfold n1, fbn; zdiv).
  assert (Hneed : freeblock s + need off <= FSSIZE).
  { unfold need. fold fbn. rewrite <- (nb_round (off + n1)) by lia. pose proof (nb_mono (off + n1) (off + flen p) ltac:(lia)). lia. }
  assert (Hfbk : exists x' s1, file_block (X inum) fbn s = Ret (x', addr_of (img s1) x' fbn) s1 /\ grew s X C inum ((fbn + 1) * 512) s1 x' /\ freeblock s1 = freeblock s + need off).
  { destruct (decide (fbn < NDIRECT)); [by apply file_block_direct|]. apply file_block_indirect; try done. unfold fbn in *. lia. }
  destruct Hfbk as (x' & s1 & R & [G1 G2 G3 G4 G5 G6 G7] & Efb). set (a := addr_of (img s1) x' fbn) in *. set (X1 := with_x X inum x') in *.
  assert (EX : X1 inum = x') by (unfold X1, with_x; by rewrite decide_True). assert (Hif : in_file fbn) by (unfold in_file; lia).
  assert (Ha0 : a <> 0) by (apply (proj1 G4 fbn Hif); lia).
  assert (Har : nmeta <= a < freeblock s1) by (pose proof (j_slot _ _ _ _ _ G3 inum fbn Hi) as Hs; rewrite EX, slot_data in Hs by done; apply Hs; [unfold in_file in Hif; lia|done]).
  pose proof (j_fb _ _ _ _ _ G3) as Hfb3. unfold FSSIZE in *. assert (Hfl : flen (take (Z.to_nat n1) p) = n1) by (unfold flen in *; rewrite length_take; lia).
  pose proof (built_write (img s1) X1 (freeinode s) (freeblock s1) C inum (take (Z.to_nat n1) p)) as W. cbv zeta in W. fold (flen (C inum)) (flen (take (Z.to_nat n1) p)) in W. fold off in W. fold fbn in W. rewrite EX, Hfl in W. fold a in W.
  destruct W as [W1 W2]; [done|done|done|done|by apply Forall_take|lia|].
  exists x', a, s1. split_and!; [done|unfold rsect; by rewrite G1, Hlen, (proj2 (Z.ltb_lt a 1000)) by lia|].
  assert (Efl : flen (C inum ++ take (Z.to_nat n1) p) = off + n1) by (unfold flen in *; rewrite length_app; lia). pose proof meta_value.
  constructor; cbn [img imglen freeinode freeblock]; try done.
  - rewrite G1, Hlen. lia.
  - rewrite Efl. apply (mapped_back _ _ _ fbn); [lia|]. eapply mapped_slots; [|exact G4]. intros t Ht. specialize (W2 inum t Hi Ht). by rewrite EX in W2.
  - intros b Hb'. unfold upd. rewrite decide_False by lia. by apply G5.
  - intros i t Hr Hn Ht. rewrite <- (G7 i t Hr Hn Ht). specialize (W2 i t Hr Ht). unfold X1, with_x in W2. by rewrite decide_False in W2.
  - rewrite Efl, Efb. unfold need. fold fbn. rewrite (nb_round (off + n1) fbn) by lia. unfold off. lia.
Qed.

Lemma with_x_eq X inum x : with_x X inum x inum = x.
Proof. unfold with_x. by rewrite decide_True. Qed.
Lemma with_x_ne X inum x i : i <> inum -> with_x X inum x i = X i.
Proof. unfold with_x. intros H. by rewrite decide_False. Qed.
Lemma with_c_eq C inum l : with_c C inum l inum = l.
Proof. unfold with_c. by rewrite decide_True. Qed.
Lemma with_c_ne C inum l i : i <> inum -> with_c C inum l i = C i.
Proof. unfold with_c. intros H. by rewrite decide_False. Qed.

Lemma appended_trans s X C inum b1 s1 x1 b2 s2 x2 : appended s X C inum b1 s1 x1 ->
  appended s1 (with_x X inum x1) (with_c C inum (C inum ++ b1)) inum b2 s2 x2 -> appended s X C inum (b1 ++ b2) s2 x2.
Proof.
  intros [A1 A2 A3 A4 A5 A6 A7 A8] [B1 B2 B3 B4 B5 B6 B7 B8]. rewrite with_c_eq, with_x_eq, A2, <- ?app_assoc in *. constructor; try congruence.
  - eapply built_ext, built_c, B3; intros i; unfold with_c, with_x; by destruct (decide (i = inum)).
  - intros b Hb. rewrite B5, A5 by done. done.
  - rewrite B6, A6. done.
  - intros i t Hr Hn Ht. rewrite <- (A7 i t Hr Hn Ht). rewrite <- (with_x_ne X inum x1 i Hn). by apply B7.
  - lia.
Qed.

Lemma iappend_loop_ok fuel : forall s X C inum p, built (img s) X (freeinode s) (freeblock s) C -> 1 <= inum < freeinode s -> imglen s = FSSIZE ->
  mapped (img s) (X inum) (flen (C inum)) -> Forall byte_ok p -> (length p < fuel)%nat -> flen (C inum) + flen p <= max_size ->
  freeblock s + nb (flen (C inum) + flen p) - nb (flen (C inum)) <= FSSIZE ->
  exists x' s', iappend_loop fuel (X inum) (flen (C inum)) p s = Ret (x', flen (C inum) + flen p) s' /\ appended s X C inum p s' x'.
Proof.
  induction fuel as [|fuel IH]; intros s X C inum p Hb Hi Hlen Hm Hp Hf Hmax Hroom; [lia|]. cbn [iappend_loop]. fold (flen p). destruct (decide (p = [])) as [->|Hne].
  - exists (X inum), s. split; [cbn; by rewrite Z.add_0_r|]. constructor; rewrite ?app_nil_r; try done; [|by destruct (X inum)|lia].
    eapply built_ext, built_c, Hb; intros i; unfold with_c, with_x; by destruct (decide (i = inum)) as [->|].
  - assert (Hpl : 0 < flen p) by (unfold flen; destruct p; [done|cbn; lia]). assert (Ho : 0 <= flen (C inum)) by (unfold flen; lia).
    rewrite (proj2 (Z.ltb_lt 0 (flen p))) by done. cbn [negb]. rewrite (proj2 (Z.ltb_lt _ MAXFILE)) by (unfold max_size, MAXFILE, NDIRECT, NINDIRECT in *; zdiv). cbn [negb].
    destruct (append_round s X C inum p Hb Hi Hlen Hm Hp Hne Hmax Hroom) as (x1 & a & s1 & R1 & R2 & HA). set (off := flen (C inum)) in *. set (n1 := Z.min (flen p) ((off / 512 + 1) * 512 - off)) in *.
    set (s2 := mkm (upd (img s1) a _) _ _ _) in HA. erewrite bind_ret by exact R1. cbn [fst snd]. erewrite bind_ret by exact R2.
    assert (R3 : wsect a (write_at (img s1 a) (Z.to_nat (off - off / 512 * 512)) (take (Z.to_nat n1) p)) s1 = Ret tt s2) by done. erewrite bind_ret by exact R3.
    assert (Hn1 : 0 < n1 <= flen p) by (unfold n1; zdiv). assert (Hfl : flen (take (Z.to_nat n1) p) = n1) by (unfold flen in *; rewrite length_take; lia).
    assert (Hfd : flen (drop (Z.to_nat n1) p) = flen p - n1) by (unfold flen in *; rewrite length_drop; lia). unfold max_size, FSSIZE in *. rewrite u32_small by lia.
    pose proof HA as [A1 A2 A3 A4 A5 A6 A7 A8]. assert (Ec : flen (C inum ++ take (Z.to_nat n1) p) = off + n1) by (unfold flen in *; rewrite length_app; lia). rewrite Ec in *.
    destruct (IH s2 (with_x X inum x1) (with_c C inum (C inum ++ take (Z.to_nat n1) p)) inum (drop (Z.to_nat n1) p)) as (x' & s' & R & HB); rewrite ?with_c_eq, ?with_x_eq, ?Ec, ?Hfd, ?A2; try done; try lia.
    + by apply Forall_drop.
    + rewrite length_drop. unfold flen in *. lia.
    + rewrite A8. replace (off + n1 + (flen p - n1)) with (off + flen p) by lia. unfold off in *. lia.
    + exists x', s'. rewrite with_c_eq, with_x_eq, Ec, Hfd in R. rewrite R. replace (off + n1 + (flen p - n1)) with (off + flen p) by lia. split; [done|].
      rewrite <- (take_drop (Z.to_nat n1) p) at 1. by eapply appended_trans.
Qed.

(** ** The image between two calls *)

(** Stores below the data blocks and changes of fields other than the block
    numbers keep the files. *)
Lemma slot_change V V' X X' fi fb C i t : built V X fi fb C -> (forall b, nmeta <= b < FSSIZE -> V' b = V b) -> di_addrs (X' i) = di_addrs (X i) ->
  1 <= i < fi -> 0 <= t <= MAXFILE -> slot V' (X' i) t = slot V (X i) t.
Proof.
  intros Hb HV E Hi Ht. unfold slot, addr_of, ind_addr. rewrite E. fold (ind_addr (X i)). destruct (t =? MAXFILE); [done|]. destruct (t <? NDIRECT); [done|].
  destruct (Z.eqb_spec (ind_addr (X i)) 0) as [|Hne]; [done|]. rewrite HV; [done|]. pose proof (j_slot _ _ _ _ _ Hb i MAXFILE Hi maxfile_range) as Hs. rewrite slot_ind in Hs. pose proof (j_fb _ _ _ _ _ Hb). specialize (Hs Hne). lia.
Qed.

Lemma built_change V V' X X' fi fb C : built V X fi fb C -> (forall b, nmeta <= b < FSSIZE -> V' b = V b) -> (forall b, 0 <= b < FSSIZE -> block_ok (V' b)) ->
  (forall i, 1 <= i < fi -> di_addrs (X' i) = di_addrs (X i) /\ dinode_ok (X' i)) -> built V' X' fi fb C.
Proof.
  intros Hb HV Hok HX. assert (Hsl : forall i t, 1 <= i < fi -> 0 <= t <= MAXFILE -> slot V' (X' i) t = slot V (X i) t).
  { intros i t Hi Ht. apply (slot_change V V' X X' fi fb C); try done. by apply HX. }
  pose proof Hb as [Hbl Hfi Hfb Hz Hd Hs Hinj Hby]. constructor; try done.
  - intros b Hb'. rewrite HV by lia. by apply Hz.
  - intros i Hi. by apply HX.
  - intros i t Hi Ht. rewrite Hsl by done. by apply Hs.
  - intros i j t u Hi Hj Ht Hu. rewrite !Hsl by done. by apply Hinj.
  - intros i off Hi Ho. rewrite <- (Hby i off Hi Ho). assert (Hif : in_file (off / 512)) by (unfold max_size, in_file, MAXFILE, NDIRECT, NINDIRECT in *; zdiv).
    pose proof Hif as Hif'. unfold in_file in Hif'. assert (E : addr_of V' (X' i) (off / 512) = addr_of V (X i) (off / 512)) by (rewrite <- !slot_data by done; apply Hsl; [done|lia]).
    apply file_byte_same; [by left|]. intros Hne. apply HV. specialize (Hs i (off / 512) Hi). rewrite slot_data in Hs by done. specialize (Hs ltac:(lia) Hne). lia.
Qed.

(** Blocks taken by the files of numbers below [fi]. *)
Definition blocks_of (C : Z -> list Z) (fi : Z) : Z := foldr (fun i t => nb (flen (C i)) + t) 0 (seqZ 1 (fi - 1)).

Lemma sum_change C inum l (js : list Z) : NoDup js -> let f := fun (C : Z -> list Z) => foldr (fun i t => nb (flen (C i)) + t) 0 js in
  f (with_c C inum l) = f C + (if decide (inum ∈ js) then nb (flen l) - nb (flen (C inum)) else 0).
Proof.
  intros Hnd. induction Hnd as [|i js Hni _ IH]; cbn [foldr]; [done|]. cbn zeta in IH. rewrite IH. destruct (decide (i = inum)) as [->|Hne].
  - rewrite with_c_eq. rewrite (decide_False (P := inum ∈ js)) by done. rewrite decide_True by set_solver. lia.
  - rewrite with_c_ne by done. destruct (decide (inum ∈ js)); [rewrite decide_True by set_solver|rewrite decide_False by set_solver]; lia.
Qed.

Lemma blocks_change C inum l fi : 1 <= inum < fi -> blocks_of (with_c C inum l) fi = blocks_of C fi + nb (flen l) - nb (flen (C inum)).
Proof. intros Hi. unfold blocks_of. rewrite (sum_change C inum l) by apply NoDup_seqZ. rewrite decide_True by (apply elem_of_seqZ; lia). lia. Qed.

Lemma blocks_new C l fi : 1 <= fi -> blocks_of (with_c C fi l) (fi + 1) = blocks_of C fi + nb (flen l).
Proof.
  intros Hi. unfold blocks_of. replace (fi + 1 - 1) with (fi - 1 + 1) by lia. rewrite seqZ_app by lia. rewrite foldr_app. replace (1 + (fi - 1)) with fi by lia. cbn [seqZ fmap seq foldr].
  assert (E : forall (js : list Z) z, fi ∉ js -> foldr (fun i t => nb (flen (with_c C fi l i)) + t) z js = foldr (fun i t => nb (flen (C i)) + t) 0 js + z).
  { intros js z. induction js as [|i js IH]; cbn [foldr]; intros Hn; [lia|]. rewrite with_c_ne by set_solver. rewrite IH by set_solver. lia. }
  rewrite E by (rewrite elem_of_seqZ; lia). change (seqZ fi 1) with [0 + fi]. cbn [foldr]. rewrite Z.add_0_l, with_c_eq. lia.
Qed.

(** The image with the files [C] of types [T]. *)
Record image (s : mst) (T : Z -> Z) (C : Z -> list Z) : Prop := mkimage {
  im_len : imglen s = FSSIZE;
  im_built : built (img s) (dinode_at sb (img s)) (freeinode s) (freeblock s) C;
  im_map : forall i, 1 <= i < freeinode s -> mapped (img s) (dinode_at sb (img s) i) (flen (C i)) /\ flen (C i) <= max_size;
  im_ino : forall i, 1 <= i < freeinode s ->
    let x := dinode_at sb (img s) i in x = mkdinode (T i) 0 0 1 (flen (C i)) (di_addrs x);
  im_fb : freeblock s = nmeta + blocks_of C (freeinode s);
  im_head : forall b, 0 <= b < 32 -> img s b = if decide (b = 1) then put_sb sb zeroes else zeroes }.

Lemma winode_ret s inum x : imglen s = FSSIZE -> 0 <= inum < NINODES -> winode inum x s = Ret tt (mkm (iupd_view sb (img s) inum x) FSSIZE (freeinode s) (freeblock s)).
Proof.
  intros Hl Hi. pose proof (sb_iblock inum Hi). unfold FSSIZE in *. unfold winode, mbind, M_bind, rsect. rewrite (proj2 (Z.ltb_lt _ (imglen s))) by lia. unfold wsect, modify.
  rewrite Hl, Z.max_l by lia. done.
Qed.

Lemma rinode_ret s inum : imglen s = FSSIZE -> 0 <= inum < NINODES -> rinode inum s = Ret (dinode_at sb (img s) inum) s.
Proof.
  intros Hl Hi. pose proof (sb_iblock inum Hi). unfold FSSIZE in *. unfold rinode, mbind, M_bind, rsect. by rewrite (proj2 (Z.ltb_lt _ (imglen s))) by lia.
Qed.

(** The inode table after winode. *)
Lemma winode_view V inum x : (forall b, 0 <= b < FSSIZE -> block_ok (V b)) -> 0 <= inum < NINODES -> dinode_ok x ->
  (forall b, nmeta <= b < FSSIZE -> iupd_view sb V inum x b = V b) /\ (forall b, 0 <= b < FSSIZE -> block_ok (iupd_view sb V inum x b)) /\
  (forall j, 0 <= j < NINODES -> dinode_at sb (iupd_view sb V inum x) j = if decide (j = inum) then x else dinode_at sb V j) /\
  (forall b, 0 <= b < 32 -> iupd_view sb V inum x b = V b).
Proof.
  intros Hok Hi Hx. pose proof (sb_iblock inum Hi) as Hib. pose proof meta_value. unfold FSSIZE in *. split_and!.
  - intros b Hb. unfold iupd_view, upd. by rewrite decide_False by lia.
  - intros b Hb. unfold iupd_view, upd. destruct (decide (b = IBLOCK inum sb)) as [->|]; [apply put_dinode_ok; apply Hok; lia|by apply Hok].
  - intros j Hj. apply (iupd_dinode mk_geom); [apply sb_layout|apply Hok; lia|done|rewrite sb_value; done..].
  - intros b Hb. unfold iupd_view, upd. by rewrite decide_False by lia.
Qed.

Lemma size_ok x sz : dinode_ok x -> 0 <= sz < 2 ^ 32 -> dinode_ok (set_size sz x).
Proof. unfold dinode_ok. cbn. tauto. Qed.

(** iappend puts the bytes at the end of the file. *)
Lemma iappend_ok s T C inum p : image s T C -> 1 <= inum < freeinode s -> Forall byte_ok p -> flen (C inum) + flen p <= max_size ->
  freeblock s + nb (flen (C inum) + flen p) - nb (flen (C inum)) <= FSSIZE ->
  exists s', iappend inum p s = Ret tt s' /\ image s' T (with_c C inum (C inum ++ p)) /\ freeinode s' = freeinode s.
Proof.
  intros [Hlen Hb Hmap Hino Hfb Hhead] Hi Hp Hmax Hroom. pose proof (j_fi _ _ _ _ _ Hb) as Hfi. assert (Hir : 0 <= inum < NINODES) by lia. set (X := dinode_at sb (img s)) in *.
  assert (Esz : di_size (X inum) = flen (C inum)) by (specialize (Hino inum Hi); cbv zeta in Hino; by rewrite Hino). assert (H0 : 0 <= flen (C inum) /\ 0 <= flen p) by (unfold flen; lia).
  destruct (iappend_loop_ok (S (length p)) s X C inum p Hb Hi Hlen) as (x' & s1 & R & [A1 A2 A3 A4 A5 A6 A7 A8]); try done; [by apply Hmap|lia|].
  unfold iappend. erewrite bind_ret by (by apply rinode_ret). fold X. unfold max_size in *. rewrite Esz, xint_small by lia. erewrite bind_ret by exact R. cbn [fst snd]. rewrite xint_small by lia.
  rewrite winode_ret by (congruence || done). set (x2 := set_size (flen (C inum) + flen p) x'). eexists. split; [done|]. split; [|done]. pose proof meta_value as Hmv.
  pose proof (j_din _ _ _ _ _ A3 inum Hi) as Hx'. rewrite with_x_eq in Hx'. assert (Hx2 : dinode_ok x2) by (apply size_ok; [done|lia]).
  destruct (winode_view (img s1) inum x2 (j_blocks _ _ _ _ _ A3) Hir Hx2) as (V1 & V2 & V3 & V4). set (V := iupd_view sb (img s1) inum x2) in *.
  assert (Hold : forall j, 0 <= j < NINODES -> dinode_at sb (img s1) j = X j) by (intros j Hj; unfold X, dinode_at; rewrite A5; [done|]; pose proof (sb_iblock j Hj); lia).
  assert (HX : forall i, 1 <= i < freeinode s -> dinode_at sb V i = with_x X inum x2 i) by (intros i Hr; rewrite V3 by lia; unfold with_x; destruct (decide (i = inum)); [done|apply Hold; lia]).
  assert (Had : forall i, di_addrs (with_x X inum x2 i) = di_addrs (with_x X inum x' i)) by (intros i; unfold with_x; by destruct (decide (i = inum))).
  assert (Hsl : forall i t, 1 <= i < freeinode s -> 0 <= t <= MAXFILE -> slot V (dinode_at sb V i) t = slot (img s1) (with_x X inum x' i) t).
  { intros i t Hr Ht. rewrite HX by done. by apply (slot_change (img s1) V _ (with_x X inum x2) (freeinode s) (freeblock s1) (with_c C inum (C inum ++ p))). }
  assert (Ef : flen (C inum ++ p) = flen (C inum) + flen p) by (unfold flen; rewrite length_app; lia).
  constructor; cbn [img imglen freeinode freeblock]; rewrite ?A2; try done.
  - eapply built_change; [exact A3|done|done|]. intros i Hr. rewrite HX by done. split; [apply Had|]. unfold with_x. destruct (decide (i = inum)); [done|by apply (j_din _ _ _ _ _ Hb)].
  - intros i Hr. destruct (decide (i = inum)) as [->|Hne].
    + rewrite with_c_eq. split; [|unfold max_size; lia]. rewrite HX, with_x_eq by done. eapply mapped_slots; [|exact A4]. intros t Ht. specialize (Hsl inum t Hr Ht). by rewrite HX, !with_x_eq in Hsl by done.
    + rewrite with_c_ne by done. destruct (Hmap i Hr) as [Hm Hs]. split; [|done]. rewrite HX, with_x_ne by done. eapply mapped_slots; [|exact Hm]. intros t Ht. specialize (Hsl i t Hr Ht). rewrite HX, !with_x_ne in Hsl by done. rewrite Hsl. by apply A7.
  - intros i Hr. rewrite HX by done. destruct (decide (i = inum)) as [->|Hne]; [rewrite with_x_eq, with_c_eq, Ef|rewrite with_x_ne, with_c_ne by done; by apply Hino].
    unfold x2. rewrite A6. specialize (Hino inum Hr). cbv zeta in Hino. rewrite Hino. done.
  - rewrite blocks_change by done. rewrite A8, Hfb. lia.
  - intros b Hb'. rewrite V4 by done. rewrite A5 by lia. by apply Hhead.
Qed.

(** ** ialloc *)

Definition with_t (T : Z -> Z) (i v : Z) : Z -> Z := fun j => if decide (j = i) then v else T j.

Lemma fresh_slot V t v : slot V (mkdinode v 0 0 1 0 (replicate 13 0)) t = 0 \/ t < 0 \/ MAXFILE < t.
Proof.
  destruct (decide (0 <= t <= MAXFILE)) as [Ht|]; [left|right; lia]. unfold slot, addr_of, ind_addr. cbn [di_addrs]. rewrite (lookup_total_replicate_2 13 0 12) by lia.
  destruct (t =? MAXFILE); [done|]. unfold NDIRECT. destruct (Z.ltb_spec t 12); [|done]. by rewrite lookup_total_replicate_2 by lia.
Qed.

Lemma ialloc_ok s T C type : image s T C -> freeinode s < NINODES -> 0 <= type < 32768 ->
  exists s', ialloc type s = Ret (freeinode s) s' /\ image s' (with_t T (freeinode s) type) (with_c C (freeinode s) []) /\ freeinode s' = freeinode s + 1 /\ freeblock s' = freeblock s.
Proof.
  intros [Hlen Hb Hmap Hino Hfb Hhead] Hfi Ht. pose proof (j_fi _ _ _ _ _ Hb) as Hfi1. set (fi := freeinode s) in *. set (x := mkdinode type 0 0 1 0 (replicate 13 0)).
  assert (Hx : dinode_ok x) by (unfold dinode_ok, x; cbn; split_and!; try done; try lia; by repeat constructor). assert (Hir : 0 <= fi < NINODES) by lia. set (X := dinode_at sb (img s)) in *.
  assert (R : ialloc type s = Ret fi (mkm (iupd_view sb (img s) fi x) FSSIZE (fi + 1) (freeblock s))).
  { unfold ialloc. erewrite bind_ret by reflexivity. erewrite bind_ret by reflexivity. unfold NINODES in *. rewrite u32_small, xshort_small, (xshort_small 1), xint_small by lia.
    erewrite bind_ret by (by apply winode_ret). done. }
  rewrite R. eexists. split; [done|]. split; [|done].
  destruct (winode_view (img s) fi x (j_blocks _ _ _ _ _ Hb) Hir Hx) as (V1 & V2 & V3 & V4). set (V := iupd_view sb (img s) fi x) in *.
  assert (HX : forall i, 1 <= i < fi -> dinode_at sb V i = X i) by (intros i Hr; rewrite V3 by lia; by rewrite decide_False by lia).
  assert (Hnew : dinode_at sb V fi = x) by (rewrite V3 by done; by rewrite decide_True).
  assert (Hsl : forall i t, 1 <= i < fi -> 0 <= t <= MAXFILE -> slot V (dinode_at sb V i) t = slot (img s) (X i) t) by (intros i t Hr Hrt; rewrite HX by done; by apply (slot_change (img s) V X X fi (freeblock s) C)).
  assert (Hz : forall t, 0 <= t <= MAXFILE -> slot V (dinode_at sb V fi) t = 0) by (intros t Hrt; rewrite Hnew; destruct (fresh_slot V t type) as [?|?]; [done|lia]).
  assert (Hcase : forall i, 1 <= i < fi + 1 -> i = fi \/ (1 <= i < fi /\ i <> fi)) by (intros; lia). pose proof Hb as [Hbl _ Hfbr Hzr Hd Hs Hinj Hby].
  constructor; cbn [img imglen freeinode freeblock]; try done.
  - constructor; try done; [lia|intros b Hb'; rewrite V1 by lia; by apply Hzr|..].
    + intros i Hr. destruct (Hcase i Hr) as [->|[Hr' _]]; [by rewrite Hnew|]. rewrite HX by done. by apply Hd.
    + intros i t Hr Hrt. destruct (Hcase i Hr) as [->|[Hr' _]]; [by rewrite Hz by done|]. rewrite Hsl by done. by apply Hs.
    + intros i j t u Hr Hrj Hrt Hru. destruct (Hcase i Hr) as [->|[Hr' _]]; [by rewrite Hz by done|]. rewrite (Hsl i) by done. destruct (Hcase j Hrj) as [->|[Hrj' _]]; [rewrite Hz by done; congruence|]. rewrite Hsl by done. by apply Hinj.
    + intros i off Hr Ho. assert (Hif : in_file (off / 512)) by (unfold max_size, in_file, MAXFILE, NDIRECT, NINDIRECT in *; zdiv). pose proof Hif as Hif'. unfold in_file in Hif'.
      destruct (Hcase i Hr) as [->|[Hr' Hne]].
      * rewrite with_c_eq. unfold file_byte, fblock. rewrite <- slot_data, Hz by (done || lia). cbn [Z.eqb]. unfold zero_blk. by rewrite lookup_total_replicate_2 by (unfold BSIZE; zdiv).
      * rewrite with_c_ne by done. rewrite <- (Hby i off Hr' Ho). assert (E : addr_of V (dinode_at sb V i) (off / 512) = addr_of (img s) (X i) (off / 512)) by (rewrite <- !slot_data by done; apply Hsl; [done|lia]).
        apply file_byte_same; [by left|]. intros Hn. apply V1. specialize (Hs i (off / 512) Hr'). rewrite slot_data in Hs by done. specialize (Hs ltac:(lia) Hn). lia.
  - intros i Hr. destruct (Hcase i Hr) as [->|[Hr' Hne]].
    + rewrite with_c_eq. change (flen []) with 0. split; [|done]. split; [intros bn Hbn; rewrite <- slot_data by done; unfold in_file in Hbn; rewrite Hz by lia; lia|]. rewrite <- (slot_ind V), Hz by apply maxfile_range. lia.
    + rewrite with_c_ne by done. destruct (Hmap i Hr') as [Hm Hsz]. split; [|done]. eapply mapped_slots; [|exact Hm]. intros t Hrt. by apply Hsl.
  - intros i Hr. destruct (Hcase i Hr) as [->|[Hr' Hne]]; [rewrite Hnew; unfold with_t; rewrite decide_True by done; by rewrite with_c_eq|].
    rewrite HX, with_c_ne by done. unfold with_t. rewrite decide_False by done. by apply Hino.
  - rewrite blocks_new by lia. change (nb (flen [])) with 0. lia.
  - intros b Hb'. rewrite V4 by done. by apply Hhead.
Qed.

(** ** The files *)

Definition pieces_ok (pieces : list (list Z)) : Prop := Forall (fun p => p <> [] /\ Forall byte_ok p) pieces.

Lemma flen_app l l' : flen (l ++ l') = flen l + flen l'.
Proof. unfold flen. rewrite length_app. lia. Qed.

Lemma flen_nonneg l : 0 <= flen l.
Proof. unfold flen. lia. Qed.

Lemma copy_file_ok inum pieces : forall s T C, image s T C -> 1 <= inum < freeinode s -> pieces_ok pieces -> flen (C inum ++ concat pieces) <= max_size ->
  freeblock s + nb (flen (C inum ++ concat pieces)) - nb (flen (C inum)) <= FSSIZE ->
  exists s' C', copy_file inum pieces s = Ret tt s' /\ image s' T C' /\ freeinode s' = freeinode s /\ C' inum = C inum ++ concat pieces /\ (forall i, i <> inum -> C' i = C i) /\
    freeblock s' = freeblock s + nb (flen (C inum ++ concat pieces)) - nb (flen (C inum)).
Proof.
  induction pieces as [|p pieces IH]; intros s T C Hs Hi Hp Hmax Hroom; [exists s, C; rewrite app_nil_r; split_and!; (done || lia)|]. apply Forall_cons in Hp as [[Hne Hby] Hp]. cbn [concat] in Hmax, Hroom.
  rewrite app_assoc in Hmax, Hroom. pose proof (flen_nonneg (concat pieces)). assert (Hle : flen (C inum) + flen p <= flen ((C inum ++ p) ++ concat pieces)) by (rewrite !flen_app; lia).
  destruct (iappend_ok s T C inum p Hs Hi Hby) as (s1 & R1 & Hs1 & E1); [lia|pose proof (nb_mono _ _ Hle); lia|].
  assert (Ef1 : freeblock s1 = freeblock s + nb (flen (C inum ++ p)) - nb (flen (C inum))) by (rewrite (im_fb _ _ _ Hs1), (im_fb _ _ _ Hs), E1, blocks_change by done; lia).
  destruct (IH s1 T (with_c C inum (C inum ++ p)) Hs1) as (s2 & C2 & R2 & Hs2 & E2 & Ec & Eo & Ef2); rewrite ?with_c_eq; try done; [by rewrite E1|lia|].
  exists s2, C2. rewrite with_c_eq in Ef2. split_and!; [|done|congruence|rewrite Ec, with_c_eq; cbn [concat]; by rewrite app_assoc|intros i Hn; rewrite Eo by done; by apply with_c_ne|cbn [concat]; rewrite app_assoc; lia].
  destruct p as [|c p]; [done|]. cbn [copy_file]. erewrite bind_ret by exact R1. exact R2.
Qed.

Definition file : Type := (list Z * option (list (list Z)))%type.
Definition contents (f : file) : list Z := match f.2 with Some pieces => concat pieces | None => [] end.

Definition file_fits (f : file) : Prop :=
  47 ∉ f.1 /\ Forall byte_ok f.1 /\ (exists pieces, f.2 = Some pieces /\ pieces_ok pieces) /\ flen (contents f) <= max_size.

(** The root directory's entries for the files from inode [i] on. *)
Fixpoint entries (i : Z) (files : list file) : list Z :=
  match files with [] => [] | f :: files' => dirent i (strip f.1) ++ entries (i + 1) files' end.

Definition files_blocks (files : list file) : Z := foldr (fun f t => nb (flen (contents f)) + t) 0 files.

Lemma dirent_ok i name : Forall byte_ok name -> length (dirent i name) = 16%nat /\ Forall byte_ok (dirent i name).
Proof.
  intros Hn. unfold dirent, DIRSIZ. split; [rewrite length_app, length_put_le, length_take, length_app, length_replicate; cbn [length]; lia|].
  apply Forall_app. split; [apply put_le_byte_ok; repeat constructor; unfold byte_ok; lia|]. apply Forall_take, Forall_app. split; [done|]. apply Forall_replicate. unfold byte_ok. lia.
Qed.

Lemma strip_ok name : Forall byte_ok name -> Forall byte_ok (strip name).
Proof. intros H. destruct H as [|c l Hc Hl]; cbn; [constructor|]. destruct (c =? 95); [done|by constructor]. Qed.

Lemma nb_zero : nb 0 = 0.
Proof. done. Qed.

(** One file: its inode, its entry in the root directory, its bytes. *)
Lemma add_file_ok s T C f : image s T C -> 1 < freeinode s < NINODES -> file_fits f -> flen (C 1) + 16 <= max_size ->
  freeblock s + nb (flen (C 1) + 16) - nb (flen (C 1)) + nb (flen (contents f)) <= FSSIZE ->
  exists s' C', (forall rest, add_files 1 (f :: rest) s = add_files 1 rest s') /\ image s' (with_t T (freeinode s) T_FILE) C' /\ freeinode s' = freeinode s + 1 /\
    C' 1 = C 1 ++ dirent (freeinode s) (strip f.1) /\ C' (freeinode s) = contents f /\ (forall i, i <> 1 -> i <> freeinode s -> C' i = C i) /\
    freeblock s' = freeblock s + nb (flen (C 1) + 16) - nb (flen (C 1)) + nb (flen (contents f)).
Proof.
  destruct f as [name o]. intros Hs Hfi (Hsl & Hnb & (pieces & Eo & Hpc) & Hsz) Hmax Hroom. cbn [fst snd] in *. subst o. unfold contents in *. cbn [snd] in *. set (fi := freeinode s) in *.
  destruct (ialloc_ok s T C T_FILE Hs) as (s1 & R1 & Hs1 & E1 & F1); [lia|unfold T_FILE; lia|]. fold fi in R1, Hs1, E1. set (C1 := with_c C fi []) in *.
  assert (H1 : C1 1 = C 1) by (apply with_c_ne; lia). destruct (dirent_ok fi (strip name) (strip_ok name Hnb)) as [Hdl Hdb]. assert (Hdf : flen (dirent fi (strip name)) = 16) by (unfold flen; lia).
  pose proof (flen_nonneg (concat pieces)) as H0. pose proof (nb_mono 0 (flen (concat pieces)) H0) as Hn0. rewrite nb_zero in Hn0.
  destruct (iappend_ok s1 _ C1 1 (dirent fi (strip name)) Hs1) as (s2 & R2 & Hs2 & E2); rewrite ?H1, ?Hdf, ?F1; try done; try lia. set (C2 := with_c C1 1 (C1 1 ++ dirent fi (strip name))) in *.
  assert (HC2 : C2 fi = []) by (unfold C2; rewrite with_c_ne by lia; apply with_c_eq).
  assert (F2 : freeblock s2 = freeblock s + nb (flen (C 1) + 16) - nb (flen (C 1))).
  { rewrite (im_fb _ _ _ Hs2), E2, E1. unfold C2. rewrite blocks_change by lia. rewrite H1, flen_app, Hdf. unfold C1. rewrite blocks_new by lia. rewrite (im_fb _ _ _ Hs). change (nb (flen [])) with 0. fold fi. lia. }
  destruct (copy_file_ok fi pieces s2 _ C2 Hs2) as (s3 & C3 & R3 & Hs3 & E3 & Ec & Eo & F3); rewrite ?HC2; cbn [app]; try done; [lia|change (nb (flen [])) with 0; lia|]. rewrite HC2 in F3. cbn [app] in F3. change (nb (flen [])) with 0 in F3.
  exists s3, C3. split_and!; [|done|congruence|rewrite Eo by lia; unfold C2; by rewrite with_c_eq, H1|by rewrite Ec, HC2|intros i Hi1 Hi2; rewrite Eo by done; unfold C2, C1; by rewrite !with_c_ne|lia].
  intros rest. cbn [add_files]. rewrite bool_decide_eq_false_2 by done. erewrite bind_ret by exact R1. erewrite bind_ret by exact R2. erewrite bind_ret by exact R3. done.
Qed.

Lemma add_files_ok files : forall s T C, image s T C -> 1 < freeinode s -> freeinode s + Z.of_nat (length files) <= NINODES -> Forall file_fits files ->
  let l := flen (C 1) + 16 * Z.of_nat (length files) in l <= max_size -> freeblock s + nb l - nb (flen (C 1)) + files_blocks files <= FSSIZE ->
  exists s' T' C', add_files 1 files s = Ret tt s' /\ image s' T' C' /\ freeinode s' = freeinode s + Z.of_nat (length files) /\
    C' 1 = C 1 ++ entries (freeinode s) files /\
    (forall k f, files !! k = Some f -> C' (freeinode s + Z.of_nat k) = contents f /\ T' (freeinode s + Z.of_nat k) = T_FILE) /\
    (forall i, i < freeinode s -> T' i = T i /\ (i <> 1 -> C' i = C i)) /\ freeblock s' = freeblock s + nb l - nb (flen (C 1)) + files_blocks files.
Proof.
  induction files as [|f files IH]; intros s T C Hs Hfi Hn Hff l Hmax Hroom.
  - exists s, T, C. split_and!; try done; [cbn; lia|by rewrite app_nil_r|]. unfold l. change (Z.of_nat (length [])) with 0. change (files_blocks []) with 0. replace (flen (C 1) + 16 * 0) with (flen (C 1)) by lia. lia.
  - apply Forall_cons in Hff as [Hf Hff]. cbn [length files_blocks foldr] in *. fold (files_blocks files) in Hroom. assert (Hl : flen (C 1) + 16 <= l) by lia. pose proof (nb_mono _ _ Hl) as Hmono.
    assert (Hfbn : 0 <= files_blocks files). { clear. induction files as [|f files IH]; cbn; [done|]. pose proof (nb_mono 0 (flen (contents f)) (flen_nonneg _)). rewrite nb_zero in *. unfold files_blocks in IH. lia. }
    destruct (add_file_ok s T C f Hs) as (s1 & C1 & R1 & Hs1 & E1 & Ec1 & Ecf & Eo & F1); try done; [lia|lia|lia|]. set (fi := freeinode s) in *.
    assert (El : flen (C1 1) = flen (C 1) + 16) by (rewrite Ec1, flen_app; destruct Hf as (_ & Hnb & _); destruct (dirent_ok fi (strip f.1) (strip_ok _ Hnb)) as [Hd _]; unfold flen; lia).
    destruct (IH s1 (with_t T fi T_FILE) C1 Hs1) as (s2 & T2 & C2 & R2 & Hs2 & E2 & G1 & G2 & G3 & G4); rewrite ?El, ?E1; try done; [lia|lia|lia|replace (flen (C 1) + 16 + 16 * Z.of_nat (length files)) with l by lia; lia|].
    rewrite El in G4. replace (flen (C 1) + 16 + 16 * Z.of_nat (length files)) with l in G4 by lia.
    rewrite E1 in G1, G2, G3. exists s2, T2, C2. split_and!; [by rewrite R1|done|lia|rewrite G1, Ec1, <- app_assoc; done|..].
    + intros [|k] g Hk; cbn in Hk.
      * injection Hk as <-. rewrite Z.add_0_r. destruct (G3 fi) as [Ht Hc]; [lia|]. rewrite Ht, Hc by lia. split; [done|]. unfold with_t. by rewrite decide_True.
      * replace (fi + Z.of_nat (S k)) with (fi + 1 + Z.of_nat k) by lia. by apply G2.
    + intros i Hi. destruct (G3 i) as [Ht Hc]; [lia|]. split; [rewrite Ht; unfold with_t; by rewrite decide_False by lia|]. intros Hi1. rewrite Hc by done. apply Eo; lia.
    + unfold files_blocks in *. cbn [foldr] in *. lia.
Qed.

(** ** The bitmap *)

Lemma bits_set l : forall d bj, length d = BSIZE -> Forall (fun i => 0 <= i < BPB) l -> 0 <= bj < BPB ->
  bit_clear (fold_left (fun buf i => set_bit i buf) l d) bj = bit_clear d bj && bool_decide (bj ∉ l).
Proof.
  induction l as [|i l IH]; intros d bj Hd Hl Hj; cbn [fold_left]; [by rewrite bool_decide_eq_true_2, andb_true_r by apply not_elem_of_nil|]. apply Forall_cons in Hl as [Hi Hl].
  rewrite IH by (done || (unfold set_bit; by rewrite length_alter)). rewrite bit_clear_set by done. destruct (decide (bj = i)) as [->|Hne].
  - rewrite (bool_decide_eq_false_2 (i ∉ i :: l)) by set_solver. by rewrite andb_false_r.
  - f_equal. apply bool_decide_ext. set_solver.
Qed.

Lemma bits_ok l d : block_ok d -> block_ok (fold_left (fun buf i => set_bit i buf) l d).
Proof. revert d. induction l as [|i l IH]; intros d Hd; cbn [fold_left]; [done|]. apply IH. by apply set_bit_ok. Qed.

Lemma bitmap_used V n b : V 58 = fold_left (fun buf i => set_bit i buf) (seqZ 0 n) zeroes -> n <= FSSIZE -> 0 <= b < FSSIZE -> used sb V b = (b <? n).
Proof.
  intros HV Hn Hb. unfold FSSIZE in *. unfold used, BBLOCK. rewrite sb_value. cbn [sb_bmapstart]. unfold BPB. rewrite Z.div_small, Z.mod_small by lia. change (u32 (0 + 58)) with 58. rewrite HV.
  rewrite bits_set by (done || (apply Forall_forall; intros x Hx; apply elem_of_seqZ in Hx; unfold BPB; lia) || (unfold BPB; lia)).
  assert (Hz : bit_clear zeroes b = true).
  { rewrite bit_clear_testbit. unfold zeroes. rewrite lookup_total_replicate_2 by (unfold BSIZE; zdiv). by rewrite Z.testbit_0_l. }
  rewrite Hz. cbn [andb]. destruct (Z.ltb_spec b n) as [Hlt|Hge].
  - rewrite bool_decide_eq_false_2; [done|]. rewrite elem_of_seqZ. lia.
  - rewrite bool_decide_eq_true_2; [done|]. rewrite elem_of_seqZ. lia.
Qed.

(** ** The start and the end of main *)

Lemma zero_blocks_ok k : forall i s, (forall b, img s b = zeroes) -> 0 <= imglen s <= i -> exists s', zero_blocks i k s = Ret tt s' /\
  (forall b, img s' b = zeroes) /\ (imglen s' = imglen s /\ k = O \/ imglen s' = i + Z.of_nat k) /\ freeinode s' = freeinode s /\ freeblock s' = freeblock s.
Proof.
  induction k as [|k IH]; intros i s Hz Hl; [exists s; split_and!; try done; by left|]. cbn [zero_blocks]. erewrite bind_ret by reflexivity.
  destruct (IH (i + 1) (mkm (upd (img s) i zeroes) (Z.max (imglen s) (i + 1)) (freeinode s) (freeblock s))) as (s' & R & Hz' & Hl' & Hf & Hb); cbn [img imglen freeinode freeblock] in *; [intros b; unfold upd; by destruct (decide (b = i))|lia|].
  exists s'. split_and!; [exact R|done| |done|done]. right. destruct Hl' as [[-> ->]| ->]; lia.
Qed.

Definition empty_image (s : mst) : Prop := image s (fun _ => 0) (fun _ => []) /\ freeinode s = 1 /\ freeblock s = nmeta.

Lemma start_ok : exists s1 s2, modify (fun s => mkm (img s) (imglen s) (freeinode s) nmeta) blank = Ret tt (mkm (fun _ => zeroes) 0 1 nmeta) /\
  zero_blocks 0 (Z.to_nat FSSIZE) (mkm (fun _ => zeroes) 0 1 nmeta) = Ret tt s1 /\ wsect 1 (put_sb sb zeroes) s1 = Ret tt s2 /\ empty_image s2.
Proof.
  destruct (zero_blocks_ok (Z.to_nat FSSIZE) 0 (mkm (fun _ => zeroes) 0 1 nmeta)) as (s1 & R & Hz & Hl & Hf & Hb); [done|cbn; lia|]. eexists s1, _. split_and!; [done|exact R|reflexivity|].
  assert (Hlen : imglen s1 = FSSIZE) by (unfold FSSIZE in *; destruct Hl as [[_ ?]|Hl]; [lia|rewrite Hl; lia]). cbn [freeinode freeblock] in *. pose proof meta_value as Hm.
  assert (Hsb : block_ok (put_sb sb zeroes)) by (split; [unfold put_sb; by rewrite length_put_words|apply put_words_bytes; apply zeros_ok]).
  split; [|done]. constructor; cbn [img imglen freeinode freeblock]; rewrite ?Hf, ?Hb, ?Hlen; try lia.
  - done.
  - constructor; try lia; try (unfold NINODES, FSSIZE; lia).
    + intros b _. unfold upd. destruct (decide (b = 1)); [done|]. rewrite Hz. apply zeros_ok.
    + intros b Hb'. unfold upd. rewrite decide_False by lia. apply Hz.
  - change (blocks_of (fun _ => []) 1) with 0. lia.
  - intros b Hb'. unfold upd. destruct (decide (b = 1)); [done|apply Hz].
Qed.

(** ** The file system the kernel finds *)

Lemma built_wf V X fi fb C i : built V X fi fb C -> (forall b, 0 <= b < FSSIZE -> used sb V b = (b <? fb)) -> 1 <= i < fi -> inode_wf sb V (X i).
Proof.
  intros Hb Hu Hi. pose proof (j_fb _ _ _ _ _ Hb) as Hfb. pose proof meta_value as Hm. unfold FSSIZE in *.
  assert (Hsl : forall t, 0 <= t <= MAXFILE -> slot V (X i) t <> 0 -> data_block sb (slot V (X i) t) /\ used sb V (slot V (X i) t) = true).
  { intros t Ht Hne. pose proof (j_slot _ _ _ _ _ Hb i t Hi Ht Hne). split; [apply sb_data; lia|]. rewrite Hu by lia. apply Z.ltb_lt. lia. }
  pose proof (j_inj _ _ _ _ _ Hb i i) as Hinj. pose proof maxfile_range as Hmx. constructor.
  - by destruct (j_din _ _ _ _ _ Hb i Hi) as (_ & _ & _ & _ & _ & ? & _).
  - intros bn Hbn. rewrite <- slot_data by done. apply Hsl. unfold in_file in Hbn. lia.
  - intros Hne. pose proof (Hsl MAXFILE Hmx) as Hx. rewrite slot_ind in Hx. by apply Hx.
  - intros bn bn' Hbn Hbn' Hne E. pose proof Hbn as Hr. pose proof Hbn' as Hr'. unfold in_file in Hr, Hr'. rewrite <- !(slot_data V) in * by done. apply (Hinj bn bn' Hi Hi); (done || lia).
  - intros bn Hbn Hne E. pose proof Hbn as Hr. unfold in_file in Hr. destruct (Hinj bn MAXFILE Hi Hi) as [_ ?]; rewrite ?slot_ind, ?slot_data by done; (done || lia).
Qed.

(** A file of the image: its inode is one the kernel can use, and its bytes
    are [bytes]. *)
Definition is_file (V : Z -> list Z) (inum type : Z) (bytes : list Z) : Prop :=
  let x := dinode_at sb V inum in file_ok sb V inum x /\ di_type x = type /\ di_nlink x = 1 /\ di_size x = flen bytes /\
  forall off, 0 <= off < flen bytes -> file_byte V x off = bytes !!! Z.to_nat off.

Definition root_dir (files : list file) : list Z := dirent 1 [46] ++ dirent 1 [46; 46] ++ entries 2 files.

(** The root directory: its entries, then zeros to the end of the block. *)
Definition is_root (V : Z -> list Z) (bytes : list Z) : Prop :=
  let x := dinode_at sb V 1 in inode_wf sb V x /\ di_type x = T_DIR /\ di_nlink x = 1 /\ di_size x = (flen bytes / 512 + 1) * 512 /\
  (forall off, 0 <= off < max_size -> file_byte V x off = default 0 (bytes !! Z.to_nat off)) /\
  (forall bn, in_file bn -> addr_of V x bn <> 0 <-> bn * 512 < flen bytes).

Record is_fs (V : Z -> list Z) (files : list file) (fb : Z) : Prop := mkis_fs {
  fs_blocks : forall b, 0 <= b < FSSIZE -> block_ok (V b);
  fs_super : sb_of (V 1) = sb;
  fs_log : forall b, 2 <= b < 32 -> V b = zeroes;
  fs_bits : forall b, 0 <= b < FSSIZE -> used sb V b = (b <? fb);
  fs_files : forall k f, files !! k = Some f -> is_file V (2 + Z.of_nat k) T_FILE (contents f);
  fs_root : is_root V (root_dir files);
  fs_apart : forall i j s t, 1 <= i <= 1 + Z.of_nat (length files) -> 1 <= j <= 1 + Z.of_nat (length files) -> 0 <= s <= MAXFILE -> 0 <= t <= MAXFILE ->
    slot V (dinode_at sb V i) s <> 0 -> slot V (dinode_at sb V i) s = slot V (dinode_at sb V j) t -> i = j /\ s = t }.

Lemma super_back : sb_of (put_sb sb zeroes) = sb.
Proof. rewrite sb_value. vm_compute. reflexivity. Qed.

(** The last part of main, on the image with all files. *)
Lemma finish_ok s T C x2 : image s T C -> 1 < freeinode s -> let x := dinode_at sb (img s) 1 in x2 = set_size ((flen (C 1) / 512 + 1) * 512) x ->
  let V := upd (iupd_view sb (img s) 1 x2) 58 (fold_left (fun buf i => set_bit i buf) (seqZ 0 (freeblock s)) zeroes) in
  built V (dinode_at sb V) (freeinode s) (freeblock s) C /\ (forall b, 0 <= b < FSSIZE -> used sb V b = (b <? freeblock s)) /\
  (forall i, 1 <= i < freeinode s -> dinode_at sb V i = if decide (i = 1) then x2 else dinode_at sb (img s) i) /\
  (forall i t, 1 <= i < freeinode s -> 0 <= t <= MAXFILE -> slot V (dinode_at sb V i) t = slot (img s) (dinode_at sb (img s) i) t) /\
  (forall b, 0 <= b < 32 -> V b = img s b).
Proof.
  intros [Hlen Hb Hmap Hino Hfb Hhead] Hfi x Hx2 V. pose proof (j_fi _ _ _ _ _ Hb) as Hfr. pose proof (j_fb _ _ _ _ _ Hb) as Hfbr. destruct (Hmap 1 ltac:(lia)) as [_ Hsz]. pose proof (flen_nonneg (C 1)) as H0. unfold max_size in Hsz.
  assert (Hx2ok : dinode_ok x2) by (rewrite Hx2; apply size_ok; [apply (j_din _ _ _ _ _ Hb); lia|zdiv]).
  destruct (winode_view (img s) 1 x2 (j_blocks _ _ _ _ _ Hb)) as (V1 & V2 & V3 & V4); [unfold NINODES; lia|done|]. pose proof meta_value as Hm. unfold FSSIZE in *.
  assert (HX : forall i, 1 <= i < freeinode s -> dinode_at sb V i = if decide (i = 1) then x2 else dinode_at sb (img s) i).
  { intros i Hi. rewrite <- V3 by lia. unfold dinode_at, V, upd. pose proof (sb_iblock i ltac:(unfold NINODES in *; lia)). by rewrite decide_False by lia. }
  assert (HVd : forall b, nmeta <= b < FSSIZE -> V b = img s b) by (unfold FSSIZE; intros b Hb'; unfold V, upd; rewrite decide_False by lia; by apply V1).
  assert (Had : forall i, 1 <= i < freeinode s -> di_addrs (dinode_at sb V i) = di_addrs (dinode_at sb (img s) i)) by (intros i Hi; rewrite HX by done; destruct (decide (i = 1)) as [->|]; [by rewrite Hx2|done]).
  split_and!; [|..].
  - eapply built_change; [exact Hb|done| |].
    + unfold FSSIZE. intros b Hb'. unfold V, upd. destruct (decide (b = 58)); [apply bits_ok, zeros_ok|by apply V2].
    + intros i Hi. split; [by apply Had|]. rewrite HX by done. destruct (decide (i = 1)); [done|by apply (j_din _ _ _ _ _ Hb)].
  - intros b Hb'. apply bitmap_used; [unfold V, upd; by rewrite decide_True|unfold FSSIZE; lia|unfold FSSIZE; lia].
  - done.
  - intros i t Hi Ht. by apply (slot_change (img s) V (dinode_at sb (img s)) (dinode_at sb V) (freeinode s) (freeblock s) C); [..|apply Had| |].
  - intros b Hb'. unfold V, upd. rewrite decide_False by lia. by apply V4.
Qed.

Lemma dot_ok : length (dirent 1 [46]) = 16%nat /\ Forall byte_ok (dirent 1 [46]) /\ length (dirent 1 [46; 46]) = 16%nat /\ Forall byte_ok (dirent 1 [46; 46]).
Proof.
  assert (H : byte_ok 46) by (unfold byte_ok; lia). destruct (dirent_ok 1 [46]) as [? ?]; [by repeat constructor|]. destruct (dirent_ok 1 [46; 46]) as [? ?]; [by repeat constructor|]. done.
Qed.

(** The root directory with its two first entries. *)
Lemma root_ok : exists s1 s2 s3 s4 s5 T C, zero_blocks 0 (Z.to_nat FSSIZE) (mkm (fun _ => zeroes) 0 1 nmeta) = Ret tt s1 /\ wsect 1 (put_sb sb zeroes) s1 = Ret tt s2 /\
  ialloc T_DIR s2 = Ret ROOTINO s3 /\ iappend 1 (dirent 1 [46]) s3 = Ret tt s4 /\ iappend 1 (dirent 1 [46; 46]) s4 = Ret tt s5 /\
  image s5 T C /\ freeinode s5 = 2 /\ freeblock s5 = nmeta + 1 /\ C 1 = dirent 1 [46] ++ dirent 1 [46; 46] /\ T 1 = T_DIR.
Proof.
  destruct start_ok as (s1 & s2 & _ & R1 & R2 & Hi & Ef & Eb). destruct dot_ok as (D1 & D2 & D3 & D4). pose proof meta_value as Hm.
  destruct (ialloc_ok s2 _ _ T_DIR Hi) as (s3 & R3 & H3 & F3 & B3); [rewrite Ef; unfold NINODES; lia|unfold T_DIR; lia|]. rewrite Ef in R3, H3, F3.
  assert (Hfl : flen (dirent 1 [46]) = 16 /\ flen (dirent 1 [46; 46]) = 16) by (unfold flen; lia). destruct Hfl as [L1 L2].
  destruct (iappend_ok s3 _ _ 1 (dirent 1 [46]) H3) as (s4 & R4 & H4 & F4); rewrite ?with_c_eq, ?L1, ?B3, ?Eb; [lia|done|change (flen []) with 0; unfold max_size; lia|rewrite Hm; vm_compute; congruence|].
  rewrite with_c_eq in H4. cbn [app] in H4. set (C4 := with_c (with_c (fun _ => []) 1 []) 1 (dirent 1 [46])) in *. assert (E4 : C4 1 = dirent 1 [46]) by apply with_c_eq.
  assert (B4 : freeblock s4 = nmeta + 1) by (rewrite (im_fb _ _ _ H4), F4, F3; unfold blocks_of; change (seqZ 1 (1 + 1 - 1)) with [1]; cbn [foldr]; rewrite E4, L1; vm_compute; done).
  destruct (iappend_ok s4 _ C4 1 (dirent 1 [46; 46]) H4) as (s5 & R5 & H5 & F5); rewrite ?E4, ?L1, ?L2, ?B4; [lia|done|unfold max_size; lia|rewrite Hm; vm_compute; congruence|].
  eexists s1, s2, s3, s4, s5, _, _. split_and!; [done|done|exact R3|exact R4|exact R5|exact H5|lia| |by rewrite with_c_eq, E4|done].
  rewrite (im_fb _ _ _ H5), F5, F4, F3. unfold blocks_of. change (seqZ 1 (1 + 1 - 1)) with [1]. cbn [foldr]. rewrite with_c_eq, E4, flen_app, L1, L2. vm_compute. done.
Qed.

Lemma entries_len files : forall i, Forall file_fits files -> flen (entries i files) = 16 * Z.of_nat (length files).
Proof.
  induction files as [|f files IH]; intros i Hf; [done|]. apply Forall_cons in Hf as [(_ & Hnb & _) Hf]. cbn [entries length]. rewrite flen_app, IH by done. destruct (dirent_ok i (strip f.1) (strip_ok _ Hnb)) as [Hd _]. unfold flen. lia.
Qed.

Lemma root_len files : Forall file_fits files -> flen (root_dir files) = 16 * Z.of_nat (2 + length files).
Proof. intros Hf. destruct dot_ok as (D1 & _ & D3 & _). unfold root_dir. rewrite !flen_app, entries_len by done. unfold flen. lia. Qed.

(** What the kernel finds in the finished image. *)
Lemma finish_fs s T C files : image s T C -> freeinode s = 2 + Z.of_nat (length files) -> C 1 = root_dir files -> T 1 = T_DIR ->
  (forall k f, files !! k = Some f -> C (2 + Z.of_nat k) = contents f /\ T (2 + Z.of_nat k) = T_FILE) ->
  is_fs (upd (iupd_view sb (img s) 1 (set_size ((flen (C 1) / 512 + 1) * 512) (dinode_at sb (img s) 1))) 58
    (fold_left (fun buf i => set_bit i buf) (seqZ 0 (freeblock s)) zeroes)) files (freeblock s).
Proof.
  intros H Hfi HC1 HT1 Hf. set (x2 := set_size ((flen (C 1) / 512 + 1) * 512) (dinode_at sb (img s) 1)).
  destruct (finish_ok s T C x2 H ltac:(lia) eq_refl) as (B & U & X & SL & HD). set (V := upd _ 58 _) in *. destruct H as [_ Hb Hmap Hino Hfb Hhead].
  assert (Haddr : forall i bn, 1 <= i < freeinode s -> in_file bn -> addr_of V (dinode_at sb V i) bn = addr_of (img s) (dinode_at sb (img s) i) bn)
    by (intros i bn Hi Hbn; rewrite <- !slot_data by done; apply SL; [done|unfold in_file in Hbn; lia]).
  constructor; [exact (j_blocks _ _ _ _ _ B)|..].
  - rewrite HD, Hhead by lia. apply super_back.
  - intros b Hb'. rewrite HD, Hhead by lia. by rewrite decide_False by lia.
  - exact U.
  - intros k f Hk. destruct (Hf k f Hk) as [Ec Et]. apply lookup_lt_Some in Hk. set (i := 2 + Z.of_nat k) in *. assert (Hi : 1 <= i < freeinode s) by lia. destruct (Hmap i Hi) as [[Hm _] Hsz]. specialize (Hino i Hi). cbv zeta in Hino.
    unfold is_file. assert (Ex : dinode_at sb V i = dinode_at sb (img s) i) by (rewrite X by done; by rewrite decide_False by lia). rewrite Ec in *. pose proof (flen_nonneg (contents f)) as H0.
    assert (Es : di_size (dinode_at sb V i) = flen (contents f)) by (by rewrite Ex, Hino). unfold max_size in Hsz. split_and!.
    + constructor; [by apply (built_wf V (dinode_at sb V) (freeinode s) (freeblock s) C)| |rewrite Es; unfold max_bytes, MAXFILE, NDIRECT, NINDIRECT; lia|by apply (j_din _ _ _ _ _ B)|done].
      intros bn Hbn Hlt. rewrite Es in Hlt. assert (Hif : in_file bn) by (unfold in_file, MAXFILE, NDIRECT, NINDIRECT; lia). rewrite Haddr by done. by apply Hm.
    + by rewrite Ex, Hino.
    + by rewrite Ex, Hino.
    + done.
    + intros off Ho. rewrite (j_bytes _ _ _ _ _ B i off Hi) by (unfold max_size; lia). rewrite Ec. unfold flen in Ho. destruct (lookup_lt_is_Some_2 (contents f) (Z.to_nat off)) as [v Hv]; [lia|]. rewrite Hv. symmetry. by apply list_lookup_total_correct.
  - assert (Hi : 1 <= 1 < freeinode s) by lia. destruct (Hmap 1 Hi) as [[Hm _] Hsz]. specialize (Hino 1 Hi). cbv zeta in Hino. unfold is_root. assert (Ex : dinode_at sb V 1 = x2) by (rewrite X by done; by rewrite decide_True). rewrite <- HC1.
    split_and!; [by apply (built_wf V (dinode_at sb V) (freeinode s) (freeblock s) C)|rewrite Ex; unfold x2; rewrite Hino; cbn; done|rewrite Ex; unfold x2; by rewrite Hino|by rewrite Ex|intros off Ho; by apply (j_bytes _ _ _ _ _ B)|].
    intros bn Hbn. rewrite Haddr by done. by apply Hm.
  - intros i j t u Hi Hj. apply (j_inj _ _ _ _ _ B); lia.
Qed.

Lemma mkfs_ok files : (length files <= 198)%nat -> Forall file_fits files -> nb (flen (root_dir files)) + files_blocks files <= nblocks ->
  exists s, mkfs files = Ret tt s /\ imglen s = FSSIZE /\ freeblock s = nmeta + nb (flen (root_dir files)) + files_blocks files /\ is_fs (img s) files (freeblock s).
Proof.
  intros Hn Hff Hroom. destruct root_ok as (s1 & s2 & s3 & s4 & s5 & T & C & R1 & R2 & R3 & R4 & R5 & H5 & F5 & B5 & EC & ET). destruct dot_ok as (D1 & _ & D3 & _).
  assert (El : flen (C 1) = 32) by (rewrite EC, flen_app; unfold flen; lia). assert (Er : flen (root_dir files) = 32 + 16 * Z.of_nat (length files)) by (unfold root_dir; rewrite !flen_app, entries_len by done; unfold flen; lia).
  pose proof meta_value as Hm. change nblocks with 941 in Hroom. rewrite Er in Hroom. change (nb 32) with 1 in *.
  destruct (add_files_ok files s5 T C H5) as (s6 & T6 & C6 & R6 & H6 & F6 & G1 & G2 & G3 & G4); rewrite ?F5, ?El, ?B5; try done; try (unfold NINODES, max_size, FSSIZE; change (nb 32) with 1; lia).
 
  rewrite F5 in G1, G2, G3, F6. assert (EC6 : C6 1 = root_dir files) by (rewrite G1, EC; unfold root_dir; by rewrite app_assoc). destruct (G3 1) as [ET6 _]; [lia|].
  pose proof (finish_fs s6 T6 C6 files H6 F6 EC6 ltac:(congruence) G2) as Hfs. set (x2 := set_size ((flen (C6 1) / 512 + 1) * 512) (dinode_at sb (img s6) 1)) in *.
  pose proof (im_len _ _ _ H6) as Hlen. pose proof (j_fb _ _ _ _ _ (im_built _ _ _ H6)) as Hfb.
  assert (Es : di_size (dinode_at sb (img s6) 1) = flen (C6 1)) by (pose proof (im_ino _ _ _ H6 1 ltac:(lia)) as Hx; cbv zeta in Hx; by rewrite Hx).
  assert (Hsz : 0 <= flen (C6 1) <= 71680) by (rewrite EC6, Er; lia).
  assert (R : mkfs files = Ret tt (mkm (upd (iupd_view sb (img s6) 1 x2) 58 (fold_left (fun buf i => set_bit i buf) (seqZ 0 (freeblock s6)) zeroes)) FSSIZE (freeinode s6) (freeblock s6))).
  { unfold mkfs, main. erewrite bind_ret by reflexivity. erewrite bind_ret by exact R1. erewrite bind_ret by exact R2. erewrite bind_ret by exact R3. change (ROOTINO =? ROOTINO) with true. cbn [negb]. change ROOTINO with 1.
    erewrite bind_ret by exact R4. erewrite bind_ret by exact R5. erewrite bind_ret by exact R6. erewrite bind_ret by (apply rinode_ret; [done|unfold NINODES; lia]).
    rewrite Es, (xint_small (flen (C6 1))) by lia. rewrite u32_small, xint_small by zdiv. fold x2. erewrite bind_ret by (apply winode_ret; [done|unfold NINODES; lia]). erewrite bind_ret by reflexivity. cbn [freeblock].
    unfold balloc. unfold FSSIZE in *. rewrite (proj2 (Z.ltb_lt _ (512 * 8))) by lia. cbn [negb]. rewrite sb_value. unfold wsect, modify. cbn [img imglen freeinode freeblock sb_bmapstart]. rewrite Z.max_l by lia. done. }
  rewrite R. eexists. split_and!; [done|done| |exact Hfs]. cbn [freeblock]. rewrite G4, El, B5, Er. change (nb 32) with 1. lia.
Qed.

(** ** Properties *)

(** C24: mkfs with at most 198 files, each named without a slash and at most 140
    blocks long, that fit on the disk together.  It ends, and the image is a
    file system: the superblock describes it, the log is empty, the bitmap marks
    just the blocks below freeblock, each file's inode has the file's bytes
    and no holes, the root directory lists the files in order, and no block
    belongs to two files. *)
Theorem mkfs_builds_fs (files : list file) :
  (length files <= 198)%nat -> Forall file_fits files ->
  nb (flen (root_dir files)) + files_blocks files <= nblocks ->
  exists s, mkfs files = Ret tt s /\ imglen s = FSSIZE /\
    freeblock s = nmeta + nb (flen (root_dir files)) + files_blocks files /\ is_fs (img s) files (freeblock s).
Proof. apply mkfs_ok. Qed.

(** mkfs rounds the size of the root directory up by a whole block when it
    already is a multiple of the block size: with 30 files more than a multiple of 32, the last block of the
    root directory does not exist, though its size counts it. *)
Theorem mkfs_root_hole (files : list file) :
  (length files <= 198)%nat -> Forall file_fits files ->
  nb (flen (root_dir files)) + files_blocks files <= nblocks -> (length files mod 32 = 30)%nat ->
  exists s, mkfs files = Ret tt s /\ ~ no_holes (img s) (dinode_at sb (img s) ROOTINO).
Proof.
  intros Hn Hf Hroom Hmod. destruct (mkfs_ok files Hn Hf Hroom) as (s & R & _ & _ & Hfs). exists s. split; [done|]. intros Hnh.
  destruct (fs_root _ _ _ Hfs) as (_ & _ & _ & Hsz & _ & Hhole). assert (El : flen (root_dir files) = 16 * Z.of_nat (2 + length files)) by (by apply root_len).
  assert (Hm : Z.of_nat (length files) = 32 * Z.of_nat (length files / 32) + 30) by (pose proof (Nat.div_mod_eq (length files) 32); lia).
  set (q := Z.of_nat (length files / 32)) in *. assert (Hq : 0 <= q < 7) by lia. rewrite El in *.
  assert (Hin : in_file (q + 1)) by (unfold in_file, MAXFILE, NDIRECT, NINDIRECT; lia). assert (Hlt : (q + 1) * 512 < 16 * Z.of_nat (2 + length files)); [|lia].
  apply Hhole; [done|]. apply Hnh; [lia|]. change ROOTINO with 1. rewrite Hsz. zdiv.
Qed.

(** ** The properties at small inputs *)

(** "_cat", one piece of three bytes *)
Lemma mkfs_builds_fs_witness : exists s, mkfs [([95; 99; 97; 116], Some [[1; 2; 3]])] = Ret tt s /\ freeblock s = 61.
Proof.
  destruct (mkfs_builds_fs [([95; 99; 97; 116], Some [[1; 2; 3]])]) as (s & R & _ & E & _).
  - cbn. lia.
  - apply Forall_cons. split; [|apply Forall_nil_2]. split_and!; [apply (bool_decide_unpack _); by vm_compute|solve_bytes|exists [[1; 2; 3]]; split; [done|]|by vm_compute].
    apply Forall_cons. split; [|apply Forall_nil_2]. split; [done|solve_bytes].
  - by vm_compute.
  - exists s. split; [exact R|]. rewrite E. by vm_compute.
Defined.

(** Thirty empty files *)
Lemma mkfs_root_hole_witness : exists s, mkfs (replicate 30 ([97], Some [])) = Ret tt s /\ ~ no_holes (img s) (dinode_at sb (img s) ROOTINO).
Proof.
  apply (mkfs_root_hole (replicate 30 ([97], Some []))); [cbn; lia| |by vm_compute|done].
  apply Forall_replicate. split_and!; [apply (bool_decide_unpack _); by vm_compute|solve_bytes|exists []; split; [done|apply Forall_nil_2]|by vm_compute].
Defined.
