(* ===== verification/MkfsBoot.v ===== *)
(** * From mkfs to the running kernel

    The disk mkfs.c writes, as the kernel finds it: binit, iinit and initlog
    run on the image, namei follows a path from its root directory, ilock
    reads the inode and readi the file's bytes.  The theorem: the bytes are
    those of the file given to mkfs. *)

From stdpp Require Import base list list_numbers sets strings.
From Stdlib Require Import ZArith Lia.
From S2P Require Import Prelude CString Proc Bio Log Mkfs Block Fs FsBlocks FsFile FsDir FsPath.

Local Open Scope Z_scope.

(** The blocks of the image as the disk driver has them. *)
Definition disk_of (V : Z -> list Z) : list (list Z) := V <$> seqZ 0 FSSIZE.

Lemma length_disk_of V : Z.of_nat (length (disk_of V)) = 1000.
Proof. unfold disk_of. rewrite length_fmap, length_seqZ. done. Qed.

Lemma lookup_disk_of V b : 0 <= b < 1000 -> disk_of V !!! Z.to_nat b = V b.
Proof. intros Hb. apply list_lookup_total_correct. unfold disk_of. rewrite list_lookup_fmap, lookup_seqZ_lt by (unfold FSSIZE; lia). cbn. do 2 f_equal. lia. Qed.

(** ** Two disks with the same blocks *)

Section Same.
Context (V V' : Z -> list Z).
Hypothesis HS : forall b, 0 <= b < 1000 -> V' b = V b.

Lemma data_same b : data_block Mkfs.sb b -> V' b = V b.
Proof using HS. rewrite sb_data. intros. apply HS. lia. Qed.

Lemma dinode_same inum : 0 <= inum < 200 -> dinode_at Mkfs.sb V' inum = dinode_at Mkfs.sb V inum.
Proof using HS. intros Hi. unfold dinode_at. pose proof (sb_iblock inum Hi). by rewrite HS by lia. Qed.

Lemma used_same b : 0 <= b < 1000 -> used Mkfs.sb V' b = used Mkfs.sb V b.
Proof using HS. intros Hb. unfold used. rewrite HS; [done|]. rewrite sb_value. unfold BBLOCK, BPB. cbn [sb_bmapstart]. rewrite (Z.div_small b) by lia. done. Qed.

Lemma addr_same x bn : inode_wf Mkfs.sb V x -> addr_of V' x bn = addr_of V x bn.
Proof using HS.
  intros Hx. unfold addr_of. destruct (bn <? NDIRECT); [done|]. destruct (Z.eqb_spec (ind_addr x) 0) as [|Hn]; [done|].
  destruct (wf_ind _ _ _ Hx Hn) as [Hd _]. by rewrite data_same.
Qed.

Lemma wf_same x : inode_wf Mkfs.sb V x -> inode_wf Mkfs.sb V' x.
Proof using HS.
  intros Hx. assert (Hu : forall b, data_block Mkfs.sb b -> used Mkfs.sb V' b = used Mkfs.sb V b) by (intros b Hb; rewrite sb_data in Hb; apply used_same; lia).
  pose proof Hx as [H1 H2 H3 H4 H5]. split; [done| | | |].
  - intros bn Hbn. rewrite addr_same by done. intros Hn. destruct (H2 bn Hbn Hn) as [Hd ?]. by rewrite Hu.
  - intros Hn. destruct (H3 Hn) as [Hd ?]. by rewrite Hu.
  - intros bn bn' Hbn Hbn'. rewrite !addr_same by done. by apply H4.
  - intros bn Hbn. rewrite addr_same by done. by apply H5.
Qed.

Lemma byte_same x off : inode_wf Mkfs.sb V x -> 0 <= off < max_size -> file_byte V' x off = file_byte V x off.
Proof using HS.
  intros Hx Ho. unfold file_byte, fblock. rewrite addr_same by done. destruct (Z.eqb_spec (addr_of V x (off / 512)) 0); [done|].
  rewrite data_same; [done|]. apply (wf_data _ _ _ Hx); [|done]. unfold in_file, max_size, MAXFILE, NDIRECT, NINDIRECT in *. zdiv.
Qed.

Lemma slot_same x t : inode_wf Mkfs.sb V x -> 0 <= t <= MAXFILE -> slot V' x t = slot V x t.
Proof using HS. intros Hx Ht. unfold slot. by rewrite addr_same. Qed.

Lemma is_file_same inum type bytes : 0 <= inum < 200 -> flen bytes <= max_size -> is_file V inum type bytes -> is_file V' inum type bytes.
Proof using HS.
  intros Hi Hl. unfold is_file. rewrite dinode_same by done. intros ([F1 F2 F3 F4 F5] & H2 & H3 & H4 & H5). split_and!; try done.
  - split; [by apply wf_same|intros bn H0 Hb; rewrite addr_same by done; by apply F2|done|done|by rewrite dinode_same].
  - intros off Ho. rewrite byte_same by (done || lia). by apply H5.
Qed.

Lemma same_is_fs files fb : (length files <= 198)%nat -> Forall file_fits files -> is_fs V files fb -> is_fs V' files fb.
Proof using HS.
  intros Hn Hf [H1 H2 H3 H4 H5 H6 H7]. unfold FSSIZE in *. destruct H6 as (R1 & R2 & R3 & R4 & R5 & R6).
  assert (Hwf : forall i, 1 <= i <= 1 + Z.of_nat (length files) -> inode_wf Mkfs.sb V (dinode_at Mkfs.sb V i)).
  { intros i Hi. destruct (decide (i = 1)) as [->|Hne]; [done|]. destruct (lookup_lt_is_Some_2 files (Z.to_nat (i - 2))) as [f Ef]; [lia|].
    destruct (H5 _ _ Ef) as [F _]. replace (2 + Z.of_nat (Z.to_nat (i - 2))) with i in F by lia. apply F. }
  split; unfold FSSIZE.
  - intros b Hb. rewrite HS by done. by apply H1.
  - by rewrite HS by lia.
  - intros b Hb. rewrite HS by lia. by apply H3.
  - intros b Hb. rewrite used_same by done. by apply H4.
  - intros k f Hk. pose proof (lookup_lt_Some _ _ _ Hk) as Hlt. apply is_file_same; [lia| |by apply H5]. by destruct (Forall_lookup_1 _ _ _ _ Hf Hk) as (_ & _ & _ & ?).
  - unfold is_root. rewrite dinode_same by lia. split_and!; [by apply wf_same|done..| |].
    + intros off Ho. rewrite byte_same by done. by apply R5.
    + intros bn Hbn. rewrite addr_same by done. by apply R6.
  - intros i j s t Hi Hj Hs Ht. rewrite !dinode_same, !slot_same by (lia || by apply Hwf). by apply H7.
Qed.
End Same.

(** ** The start *)

(** What main and forkret run, up to the first operation on files. *)
Definition kstart : M (fsys lst) unit :=
  blk (bio binit) ;;
  iinit ROOTDEV ;;
  blk (initlog ROOTDEV) ;;
  blk begin_op.

Lemma image_log_disk V files fb : is_fs V files fb -> log_disk 2 30 (disk_of V).
Proof.
  intros H. pose proof (length_disk_of V) as Hl. assert (H2 : disk_of V !!! Z.to_nat 2 = zeroes) by (rewrite lookup_disk_of by lia; apply (fs_log _ _ _ H); lia).
  assert (H1 : disk_of V !!! 1%nat = V 1) by (apply (lookup_disk_of V 1); lia).
  split; rewrite ?H1, ?H2, ?(fs_super _ _ _ H), ?sb_value; [|lia|unfold LOGSIZE, MAXOPBLOCKS; lia|done|by vm_compute|by vm_compute; constructor].
  unfold disk_of. apply Forall_fmap, Forall_seqZ. intros b Hb. apply (fs_blocks _ _ _ H). lia.
Qed.

Lemma recovery_idle V files fb : is_fs V files fb -> apply_writes (recovery_writes 2 (disk_of V)) (disk_of V) = disk_of V.
Proof.
  intros H. assert (H2 : disk_of V !!! Z.to_nat 2 = zeroes) by (rewrite lookup_disk_of by lia; apply (fs_log _ _ _ H); lia).
  assert (E : recovery_writes 2 (disk_of V) = [(2, zeroes)]) by (unfold recovery_writes, replay; rewrite H2; by vm_compute). rewrite E. cbn [apply_writes foldl fst snd].
  pose proof (length_disk_of V). apply list_insert_id. rewrite <- H2. apply list_lookup_lookup_total_lt. cbn [fst]. lia.
Qed.

Lemma read_sb_lst B l pid V : binv B pid [] -> (forall m, ~ dirty B m) -> disk B = disk_of V -> sb_of (V 1) = Mkfs.sb ->
  forall ic sb0, exists B', Fs.readsb ROOTDEV (mkfsys (mklst B l) ic sb0) = Ret Mkfs.sb (mkfsys (mklst B' l) ic sb0) /\ wrote B B' pid [].
Proof.
  intros HB Hn Hd Hsb ic sb0. assert (Hroom : room B []) by (split; [intros m Hm; by apply Hn in Hm|apply Nat.lt_0_succ]).
  assert (Hz : disksize B = 1000) by (rewrite <- (length_disk_of V), <- Hd; apply (bi_disk _ _ _ HB)).
  destruct (read_block_wrote B pid 1 HB Hroom) as (i & B1 & B2 & R1 & R2 & R3 & W); [lia|]. exists B2. split; [|done].
  rewrite (view_clean B pid), Hd, (lookup_disk_of V 1) in R2 by (done || lia).
  unfold Fs.readsb, bread, bdata, brelse, blk. erewrite bind_ret; [|unfold zoom; cbn [bk_read lst_ops f_blk]; erewrite (bio_ret (Bio.bread ROOTDEV 1)) by exact R1; reflexivity].
  erewrite bind_ret; [|unfold zoom; cbn [bk_get lst_ops f_blk set_blk]; erewrite (bio_ret (Bio.bdata i)) by exact R2; reflexivity].
  erewrite bind_ret; [|unfold zoom; cbn [bk_rel lst_ops f_blk set_blk]; erewrite (bio_ret (Bio.brelse i)) by exact R3; reflexivity].
  by rewrite Hsb.
Qed.

Lemma init_locks (t : lst) sb0 : forM 0 NINODE (fun i => initsleeplock (set_ino_lock i)) (mkfsys t fs_ic sb0) = Ret tt (mkfsys t fs_ic sb0).
Proof. by vm_compute. Qed.

(** Blocks as the disk has them, at the kernel's end. *)
Definition disk_view (V : Z -> list Z) : Z -> list Z := fun m => disk_of V !!! Z.to_nat m.

Lemma kstart_ok p V files fb sb0 : running p 1 -> is_fs V files fb ->
  exists t, kstart (mkfsys (crashed p (disk_of V)) fs_ic sb0) = Ret tt (mkfsys t fs_ic Mkfs.sb) /\ bk_ok mk_geom t (mkbabs (disk_view V) [] []).
Proof.
  intros Hp H. pose proof (image_log_disk V files fb H) as HD. destruct (binit_ok p (disk_of V) 1 Hp (ld_blocks _ _ _ HD)) as (B0 & R0 & HB0 & Hd0 & Hz0 & Hw0 & Hn0).
  destruct (read_sb_lst B0 log0 1 V HB0 Hn0 Hd0 (fs_super _ _ _ H) fs_ic sb0) as (B1 & R1 & [E1 E2 E3 E4 E5 E6]).
  assert (Hn1 : forall m, ~ dirty B1 m) by (intros m Hm; apply E3 in Hm as [Hm _]; by apply Hn0 in Hm). assert (Hd1 : disk B1 = disk_of V) by (by rewrite E5, Hd0).
  destruct (initlog_ok B1 1 2 30 (disk_of V) E1 Hn1 Hd1 HD) as (B2 & blk2 & R2 & Hb2 & [F1 F2 F3 F4 F5 F6]).
  assert (Hn2 : forall m, ~ dirty B2 m) by (intros m Hm; apply F3 in Hm as [Hm _]; by apply Hn1 in Hm).
  assert (Hd2 : disk B2 = disk_of V) by (rewrite F5, Hd1; by apply (recovery_idle V files fb)).
  assert (HL : linv (mklst B2 (mklog 2 30 0 false 1 0 blk2)) 1 []) by (apply (recovered_linv _ _ _ (disk_of V)); try done; by rewrite F5, Hd1).
  assert (Hsz : disksize B2 = 1000) by (rewrite <- (length_disk_of V), <- Hd2; apply (bi_disk _ _ _ F1)).
  exists (mklst B2 (mklog 2 30 1 false 1 0 blk2)). split.
  - unfold kstart, blk. erewrite bind_ret; [|unfold zoom; cbn [f_blk]; unfold crashed; erewrite (bio_ret binit) by exact R0; reflexivity].
    erewrite bind_ret; [|unfold iinit; erewrite bind_ret by apply init_locks; erewrite bind_ret by exact R1; reflexivity].
    erewrite bind_ret; [|unfold zoom; cbn [f_blk set_blk set_sb set_bio l_log]; rewrite R2; reflexivity]. done.
  - split; [|split; [apply Forall_nil_2|]].
    + destruct HL as [L1 L2 L3 L4 L5 L6 L7 L8 L9]. by split.
    + cbn [l_bio l_log l_start l_size l_outstanding ab_V ab_H ab_L mk_geom g_n g_cap g_home]. split; [reflexivity|]. split.
      * intros m Hm. rewrite (view_clean B2 1); [by rewrite Hd2|done..].
      * rewrite Hsz. unfold FSSIZE. split; [done|]. split; [intros b Hb; unfold home; lia|]. cbn. lia.
Qed.

(** ** The root directory *)

(** The slots mkfs fills for the files, from inode [i] on. *)
Fixpoint listed (i : Z) (files : list file) : list (Z * list Z) :=
  match files with [] => [] | f :: files' => (i, take DIRSIZ (strip f.1)) :: listed (i + 1) files' end.

Definition root_slots (files : list file) : list (Z * list Z) := (1, [46]) :: (1, [46; 46]) :: listed 2 files.

Fixpoint dirents (i : Z) (files : list file) : list (list Z) :=
  match files with [] => [] | f :: files' => dirent i (strip f.1) :: dirents (i + 1) files' end.

Lemma concat_dirents i files : concat (dirents i files) = entries i files.
Proof. revert i. induction files as [|f files IH]; intros i; [done|]. cbn. by rewrite IH. Qed.

Lemma lookup_listed i files k : listed i files !! k = (fun f : file => (i + Z.of_nat k, take DIRSIZ (strip f.1))) <$> files !! k.
Proof. revert i k. induction files as [|f files IH]; intros i [|k]; [done..|cbn; by rewrite Z.add_0_r|]. cbn [listed lookup list_lookup]. rewrite IH. destruct (files !! k); [|done]. cbn. do 2 f_equal. lia. Qed.

Lemma concat_lookup {A} (w : nat) (cs : list (list A)) k j : Forall (fun c => length c = w) cs -> (j < w)%nat -> concat cs !! (w * k + j)%nat = cs !! k ≫= (.!! j).
Proof.
  intros Hc Hj. revert k. induction Hc as [|c cs Hl Hc IH]; intros k; [done|]. cbn [concat]. destruct k as [|k].
  - rewrite lookup_app_l by lia. cbn. f_equal. lia.
  - rewrite lookup_app_r by lia. cbn [lookup list_lookup]. rewrite <- IH. f_equal. lia.
Qed.

(** A name without nuls is what is read back. *)
Lemma slot_dirent i nm : 0 <= i < 65536 -> Forall (fun c => c <> 0) nm -> slot_of (dirent i nm) = (i, take DIRSIZ nm).
Proof.
  intros Hi Hn. unfold dirent, slot_of, de_inum, de_name. rewrite xshort_small by done. set (d := put_le 2 i [0; 0] 0). assert (Hd : length d = 2%nat) by apply length_put_le. f_equal.
  - rewrite (get_le_ext 2 _ d 0 0) by (intros k Hk; apply lookup_total_app_l; lia). unfold d. rewrite get_put_le_same by (cbn; lia). by apply Z.mod_small.
  - rewrite drop_app_length' by lia. assert (Hz : Forall (fun c => c <> 0) (take DIRSIZ nm)) by (by apply Forall_take).
    rewrite take_app. apply cstr_lit; [done|rewrite length_take; lia|]. destruct (decide (DIRSIZ <= length nm)%nat) as [Hl|Hl]; [right; right; rewrite length_take; lia|right; left].
    rewrite take_replicate. by destruct (_ `min` _)%nat.
Qed.

(** The files have C strings as names. *)
Definition named (files : list file) : Prop := Forall (fun f => Forall (fun c => c <> 0) f.1) files.

Lemma strip_nonzero l : Forall (fun c => c <> 0) l -> Forall (fun c => c <> 0) (strip l).
Proof. intros H. destruct H as [|c l Hc Hl]; cbn; [constructor|]. destruct (c =? 95); [done|by constructor]. Qed.

Lemma dirents_ok files : forall i, Forall file_fits files -> named files -> 0 <= i -> i + Z.of_nat (length files) <= 65536 ->
  Forall (fun c => length c = 16%nat) (dirents i files) /\ map slot_of (dirents i files) = listed i files.
Proof.
  induction files as [|f files IH]; intros i Hf Hn Hi Hl; [done|]. apply Forall_cons in Hf as [(_ & Hb & _) Hf]. apply Forall_cons in Hn as [Hz Hn]. cbn [length] in Hl.
  destruct (IH (i + 1) Hf Hn) as [H1 H2]; [lia..|]. cbn [dirents map listed]. rewrite H2, slot_dirent by (lia || by apply strip_nonzero). split; [|done].
  constructor; [|done]. by destruct (dirent_ok i (strip f.1) (strip_ok _ Hb)).
Qed.

(** The slots of the root directory: the files, then empty ones. *)
Lemma root_dents_of V files : is_root V (root_dir files) -> Forall file_fits files -> named files -> (length files <= 198)%nat ->
  exists m, dents V (dinode_at Mkfs.sb V 1) = root_slots files ++ replicate m (0, []).
Proof.
  intros (_ & _ & _ & Hsz & Hby & _) Hf Hn Hl. set (x := dinode_at Mkfs.sb V 1) in *. destruct dot_ok as (D1 & _ & D3 & _). destruct (dirents_ok files 2 Hf Hn) as [C1 C2]; [lia..|].
  set (cs := dirent 1 [46] :: dirent 1 [46; 46] :: dirents 2 files). assert (Hcs : Forall (fun c => length c = 16%nat) cs) by (by repeat constructor).
  assert (Er : root_dir files = concat cs) by (cbn [cs concat]; by rewrite concat_dirents). assert (Es : map slot_of cs = root_slots files) by (unfold root_slots, cs; cbn [map]; by rewrite C2).
  assert (Hlen : length cs = (2 + length files)%nat) by (rewrite <- (length_map slot_of), Es; unfold root_slots; rewrite <- C2; cbn [length]; rewrite length_map; clear; generalize 2; induction files; intros; cbn in *; auto).
  rewrite root_len in Hsz by done. set (n := Z.to_nat (di_size x / 16)). assert (Hn2 : (2 + length files <= n)%nat) by (unfold n; rewrite Hsz; zdiv).
  exists (n - length cs)%nat. rewrite <- Es. apply list_eq. intros k. destruct (decide (k < n)%nat) as [Hk|Hk].
  - unfold dents. rewrite list_lookup_fmap, lookup_seqZ_lt by lia. cbn [fmap option_fmap option_map].
    assert (Ee : ent V x (0 + Z.of_nat k) = default (replicate 16 0) (cs !! k)); [|rewrite Ee].
    + unfold ent, file_bytes. apply list_eq. intros j. rewrite list_lookup_fmap. destruct (decide (j < 16)%nat) as [Hj|Hj].
      * rewrite lookup_seqZ_lt by lia. cbn [fmap option_fmap option_map]. rewrite Hby by (unfold max_size; unfold n in Hk; rewrite Hsz in Hk; zdiv). rewrite Er.
        replace (Z.to_nat _) with (16 * k + j)%nat by lia. rewrite concat_lookup by done. destruct (cs !! k) as [c|] eqn:Ec; cbn [mbind option_bind from_option]; [|by rewrite lookup_replicate_2 by lia].
        pose proof (Forall_lookup_1 _ _ _ _ Hcs Ec) as Hlc. cbn in Hlc. destruct (lookup_lt_is_Some_2 c j) as [v Hv]; [lia|]. by rewrite Hv.
      * rewrite lookup_seqZ_ge by lia. symmetry. apply lookup_ge_None_2. destruct (cs !! k) as [c|] eqn:Ec; cbn [from_option id]; [|rewrite length_replicate; lia]. pose proof (Forall_lookup_1 _ _ _ _ Hcs Ec) as Hlc. cbn in Hlc. lia.
    + destruct (cs !! k) as [c|] eqn:Ec; cbn [default].
      * rewrite lookup_app_l by (rewrite length_map; by apply lookup_lt_Some in Ec). by rewrite list_lookup_fmap, Ec.
      * apply lookup_ge_None_1 in Ec. rewrite lookup_app_r, lookup_replicate_2 by (rewrite length_map; lia). by vm_compute.
  - rewrite !lookup_ge_None_2; [done| |].
    + rewrite length_app, length_map, length_replicate. lia.
    + rewrite length_dents by (rewrite Hsz; zdiv). fold n. lia.
Qed.

(** The inodes in use: the root directory and the files. *)
Definition inode_of (files : list file) (n : Z) : Prop := 1 <= n < 2 + Z.of_nat (length files).

Lemma slot_in_use V files k e : is_root V (root_dir files) -> Forall file_fits files -> named files -> (length files <= 198)%nat ->
  dents V (dinode_at Mkfs.sb V 1) !! k = Some e -> e.1 <> 0 -> inode_of files e.1.
Proof.
  intros Hr Hf Hn Hl Hk He. destruct (root_dents_of V files Hr Hf Hn Hl) as [m E]. rewrite E in Hk. unfold inode_of. apply lookup_app_Some in Hk as [Hk|[_ Hk]]; [|apply lookup_replicate in Hk as [-> _]; done].
  destruct k as [|[|k]]; [injection Hk as <-; cbn; lia..|]. unfold root_slots in Hk. cbn [lookup list_lookup] in Hk. rewrite lookup_listed in Hk.
  destruct (files !! k) as [f|] eqn:Ef; [|done]. injection Hk as <-. apply lookup_lt_Some in Ef. cbn [fst]. lia.
Qed.

Lemma image_inode V files fb n : is_fs V files fb -> inode_of files n -> n = 1 \/ exists k f, files !! k = Some f /\ n = 2 + Z.of_nat k /\ is_file V n T_FILE (contents f).
Proof.
  intros H Hn. unfold inode_of in Hn. destruct (decide (n = 1)) as [|Hne]; [by left|right]. destruct (lookup_lt_is_Some_2 files (Z.to_nat (n - 2))) as [f Ef]; [lia|].
  exists (Z.to_nat (n - 2)), f. pose proof (fs_files _ _ _ H _ _ Ef) as Hx. replace (2 + Z.of_nat (Z.to_nat (n - 2))) with n in * by lia. split_and!; (done || lia).
Qed.

Lemma i16_range z : -32768 <= i16 z < 32768.
Proof. unfold i16, u16. pose proof (Z.mod_pos_bound z 65536). zcase; lia. Qed.

Lemma get_dinode_ok d o : block_ok d -> dinode_ok (get_dinode d o).
Proof.
  intros [_ Hb]. assert (H4 : forall k, 0 <= get_le 4 d k < 2 ^ 32) by (intros k; exact (get_le_range 4 d k Hb)).
  unfold dinode_ok, get_dinode. cbn [di_type di_major di_minor di_nlink di_size di_addrs]. repeat (split; [first [apply i16_range|apply H4|done]|]).
  apply Forall_fmap, Forall_forall. intros k _. apply H4.
Qed.

Lemma image_tree V files fb : is_fs V files fb -> Forall file_fits files -> named files -> (length files <= 198)%nat -> (length files mod 32 <> 30)%nat ->
  tree Mkfs.sb V (inode_of files).
Proof.
  intros H Hf Hn Hl Hmod. pose proof (fs_root _ _ _ H) as Hroot. pose proof Hroot as (R1 & R2 & R3 & R4 & R5 & R6). rewrite root_len in R4, R6 by done.
  assert (Hty : forall n, inode_of files n -> n = 1 \/ di_type (dinode_at Mkfs.sb V n) = T_FILE /\ di_nlink (dinode_at Mkfs.sb V n) = 1)
    by (intros n Hin; destruct (image_inode V files fb n H Hin) as [->|(k & f & _ & _ & _ & Ft & Fl & _)]; [by left|by right]).
  split; [intros n Hin; unfold inode_of in Hin; rewrite sb_value; cbn; lia| | |]; [intros n Hin|intros n Hin|intros n nm n' Hin]; (destruct (Hty n Hin) as [->|[Ft Fl]]).
  - rewrite R2, R3. done.
  - rewrite Ft, Fl. done.
  - intros _. split; [|rewrite R4; zdiv]. split; [done| |rewrite R4; unfold max_bytes, MAXFILE, NDIRECT, NINDIRECT; zdiv| |done].
    + intros bn H0 Hlt. rewrite R4 in Hlt. apply R6; [unfold in_file, MAXFILE, NDIRECT, NINDIRECT; zdiv|]. pose proof (Nat.div_mod_eq (length files) 32). pose proof (Nat.mod_upper_bound (length files) 32). zdiv.
    + apply get_dinode_ok. apply (fs_blocks _ _ _ H). pose proof (sb_iblock 1). unfold FSSIZE. lia.
  - rewrite Ft. done.
  - intros _. unfold entry_of. destruct (list_find _ _) as [[k [i s]]|] eqn:E; [|done]. intros [= <-]. apply list_find_Some in E as (Ek & [He _] & _). by apply (slot_in_use V files k (i, s)).
  - rewrite Ft. done.
Qed.

(** The slot of a file whose name no slot before it has. *)
Definition found_at (files : list file) (k : nat) (f : file) : Prop :=
  files !! k = Some f /\ take DIRSIZ (strip f.1) <> [46] /\ take DIRSIZ (strip f.1) <> [46; 46] /\
  forall j g, files !! j = Some g -> (j < k)%nat -> take DIRSIZ (strip g.1) <> take DIRSIZ (strip f.1).

Lemma root_entry V files k f : is_root V (root_dir files) -> Forall file_fits files -> named files -> (length files <= 198)%nat -> found_at files k f ->
  entry_of V (dinode_at Mkfs.sb V 1) (take DIRSIZ (strip f.1)) = Some (2 + Z.of_nat k).
Proof.
  intros Hr Hf Hn Hl (Hk & Hd & Hdd & Hfirst). destruct (root_dents_of V files Hr Hf Hn Hl) as [m E]. unfold entry_of. rewrite E. pose proof (lookup_lt_Some _ _ _ Hk) as Hlt.
  assert (Hin : forall j, (j < length files)%nat -> (root_slots files ++ replicate m (0, [])) !! S (S j) = listed 2 files !! j).
  { intros j Hj. destruct (lookup_lt_is_Some_2 files j Hj) as [g Hg]. assert (Hs : is_Some (listed 2 files !! j)) by (rewrite lookup_listed, Hg; done).
    apply lookup_lt_is_Some in Hs. rewrite lookup_app_l by (unfold root_slots; cbn [length]; lia). done. }
  rewrite (proj2 (list_find_Some (is_entry (take DIRSIZ (strip f.1))) _ (S (S k)) (2 + Z.of_nat k, take DIRSIZ (strip f.1)))); [done|]. split_and!.
  - rewrite Hin, lookup_listed, Hk by done. done.
  - split; [cbn; lia|done].
  - intros [|[|j]] y Hy Hj [_ Hnm]; [injection Hy as <-; by apply Hd|injection Hy as <-; by apply Hdd|]. rewrite Hin, lookup_listed in Hy by lia.
    destruct (files !! j) as [g|] eqn:Eg; [|done]. injection Hy as <-. apply (Hfirst j g Eg); [lia|done].
Qed.

(** ** From the path to the bytes *)

(** What a program that opens [path] and reads [n] bytes makes the kernel do. *)
Definition open_read dr (path : list Z) (n : Z) : M (fsys lst) (option (Z * list Z)) :=
  r ← namei dr path;
  match r with
  | None => mret None
  | Some i => ilock (Some i) ;; d ← readi dr i 0 n; mret (Some d)
  end.

Lemma elems_one e : Forall (fun c => c <> slash) e -> e <> [] -> elems (slash :: e) = [e].
Proof.
  intros He Hne. rewrite elems_slash. assert (Hp : pieces e = [e]); [|unfold elems; by rewrite Hp, filter_cons_True].
  clear Hne. induction He as [|c e Hc He IH]; [done|]. cbn [pieces]. rewrite (proj2 (Z.eqb_neq _ _) Hc). by rewrite IH.
Qed.

Lemma file_bytes_take V x bytes n : (forall off, 0 <= off < flen bytes -> file_byte V x off = bytes !!! Z.to_nat off) -> 0 <= n ->
  file_bytes V x 0 (Z.min n (flen bytes)) = take (Z.to_nat n) bytes.
Proof.
  intros Hb Hn. unfold file_bytes, flen in *. apply list_eq. intros k. rewrite list_lookup_fmap. destruct (decide (Z.of_nat k < Z.min n (Z.of_nat (length bytes)))) as [Hk|Hk].
  - rewrite lookup_seqZ_lt by lia. cbn [fmap option_fmap option_map]. rewrite Hb, lookup_take_lt by lia. replace (Z.to_nat _) with k by lia. symmetry. apply list_lookup_lookup_total_lt. lia.
  - rewrite lookup_seqZ_ge by lia. cbn. symmetry. apply lookup_ge_None_2. rewrite length_take. lia.
Qed.

Lemma files_blocks_nonneg files : 0 <= files_blocks files.
Proof. unfold files_blocks. induction files as [|f files IH]; cbn [foldr]; [lia|]. pose proof (nb_mono 0 (flen (contents f)) (flen_nonneg _)). rewrite nb_zero in *. lia. Qed.

Lemma image_meta V files fb : is_fs V files fb -> nmeta <= fb -> meta_used Mkfs.sb V.
Proof.
  intros H Hfb b Hb Hd. pose proof meta_value as Hm. assert (Hs : sb_size Mkfs.sb = 1000) by (by rewrite sb_value). rewrite Hs in Hb. rewrite sb_data in Hd.
  rewrite (fs_bits _ _ _ H) by done. apply Z.ltb_lt. lia.
Qed.

Lemma empty_cache V node : cache_ok Mkfs.sb V node 1 None fs_ic.
Proof. intros k ip Hk. apply lookup_replicate in Hk as [-> _]. rewrite bool_decide_eq_false_2 by done. split; [done|]. cbn. split; [done|]. lia. Qed.

Section Read.
Context (W : Z -> list Z) (files : list file) (fb : Z).
Hypothesis Hfs : is_fs W files fb.
Hypothesis Hfb : nmeta <= fb.
Hypothesis Hfit : Forall file_fits files.
Hypothesis Hnm : named files.
Hypothesis Hlen : (length files <= 198)%nat.
Hypothesis Hhole : (length files mod 32 <> 30)%nat.

Lemma wp_namei_file dr (t : lst) k f (Q : option nat -> fsys lst -> Prop) : bk_ok mk_geom t (mkbabs W [] []) -> found_at files k f -> strip f.1 <> [] ->
  (forall t' ic' i, bk_ok mk_geom t' (mkbabs W [] []) -> cache_ok Mkfs.sb W (inode_of files) 1 None ic' -> holds ic' i (2 + Z.of_nat k) -> Q (Some i) (mkfsys t' ic' Mkfs.sb)) ->
  wp (namei dr (slash :: strip f.1)) (mkfsys t fs_ic Mkfs.sb) Q.
Proof using Hfs Hfb Hfit Hnm Hlen Hhole.
  intros Hok Hf Hne HQ. pose proof Hf as [Hk _]. destruct (Forall_lookup_1 _ _ _ _ Hfit Hk) as (Hsl & Hby & _). pose proof (Forall_lookup_1 _ _ _ _ Hnm Hk) as Hz. cbn beta in Hz.
  assert (Hns : Forall (fun c => c <> slash) (strip f.1)).
  { apply Forall_forall. intros c Hc ->. apply Hsl. destruct f.1 as [|c0 l]; [done|]. cbn in Hc. destruct (c0 =? 95); [by right|done]. }
  unfold namei. fs_step. eapply (wp_namex mk_geom Mkfs.sb sb_layout) with (V := W) (L := []) (node := inode_of files) (inum := ROOTINO).
  - rewrite sb_value. by vm_compute.
  - apply NoDup_nil_2.
  - by apply (image_meta W files fb).
  - by apply (image_tree W files fb).
  - exact Hok.
  - apply empty_cache.
  - exists 0%nat, 1%nat. done.
  - unfold inode_of, ROOTINO. lia.
  - done.
  - constructor; [done|by apply strip_nonzero].
  - constructor; [unfold byte_ok, slash; lia|by apply strip_ok].
  - done.
  - apply Forall_replicate. unfold byte_ok. lia.
  - intros t' ic' [r name'] Hok' [Hc Ha]. rewrite elems_one in Ha by done. cbn [walk] in Ha.
    destruct (fs_root _ _ _ Hfs) as (_ & Hty & _). change ROOTINO with 1 in Ha. rewrite Hty in Ha. cbn [negb andb Z.eqb T_DIR Pos.eqb] in Ha.
    rewrite (root_entry W files k f) in Ha by (done || apply (fs_root _ _ _ Hfs)). cbn [mbind option_bind walk] in Ha. destruct Ha as (i & E & _ & Hh & _). cbn [fst] in E. subst r. fs_step. by apply HQ.
Qed.

Lemma wp_open_read dr (t : lst) k f n (Q : option (Z * list Z) -> fsys lst -> Prop) : bk_ok mk_geom t (mkbabs W [] []) -> found_at files k f -> strip f.1 <> [] -> 0 <= n < 2 ^ 32 ->
  (forall t' ic', bk_ok mk_geom t' (mkbabs W [] []) -> Q (Some (Z.min n (flen (contents f)), take (Z.to_nat n) (contents f))) (mkfsys t' ic' Mkfs.sb)) ->
  wp (open_read dr (slash :: strip f.1) n) (mkfsys t fs_ic Mkfs.sb) Q.
Proof using Hfs Hfb Hfit Hnm Hlen Hhole.
  intros Hok Hf Hne Hn HQ. unfold open_read. fs_step. apply (wp_namei_file dr t k f); [done..|]. clear t Hok. intros t ic i Hok Hc Hh. fs_step.
  destruct Hf as [Hk _]. destruct (fs_files _ _ _ Hfs k f Hk) as ([F1 F2 F3 F4 F5] & Ft & _ & Fs & Fb). pose proof (flen_nonneg (contents f)) as H0.
  eapply (wp_lock mk_geom Mkfs.sb sb_layout) with (node := inode_of files); [by apply (image_tree W files fb)|exact Hok|exact Hc|exact Hh|].
  clear t Hok. intros t ic1 ip Hok Hc1 _ Hi (_ & Hdev & _) Hdi. fs_step.
  eapply (wp_readi mk_geom Mkfs.sb sb_layout); [rewrite sb_value; by vm_compute|exact Hok|apply NoDup_nil_2|exact Hi|done|by rewrite Hdi|by apply (image_meta W files fb)|by rewrite Hdi|by rewrite Hdi, Ft|by rewrite Hdi|done|done| |].
  - rewrite Hdi, Fs. lia.
  - intros _ _ t' Hok'. fs_step. unfold read_len. rewrite Hdi, Fs, Z.sub_0_r, file_bytes_take by (done || lia). by apply HQ.
Qed.
End Read.

(** ** Properties *)

(** C2: from mkfs to the bytes of a file.  mkfs writes an image from the files;
    the machine starts from that disk, with the superblock, the cache of inodes and
    the log as binit, iinit and initlog leave them; then namei of the file's
    name, cut at 14 bytes and without a leading underscore, ilock and readi give the first [n] bytes of the
    file.  The directory must not end at a block's end (see [mkfs_root_hole]), and no file
    before this one may have the same name. *)
Theorem mkfs_boot_read (files : list file) (p : pst) (sb0 : superblock) dr (k : nat) (f : file) (n : Z) :
  (length files <= 198)%nat -> (length files mod 32 <> 30)%nat -> Forall file_fits files -> named files ->
  nb (flen (root_dir files)) + files_blocks files <= nblocks ->
  running p 1 -> found_at files k f -> strip f.1 <> [] -> 0 <= n < 2 ^ 32 ->
  exists s S1 S2, mkfs files = Ret tt s /\
    kstart (mkfsys (crashed p (disk_of (img s))) fs_ic sb0) = Ret tt S1 /\
    open_read dr (slash :: strip f.1) n S1 = Ret (Some (Z.min n (flen (contents f)), take (Z.to_nat n) (contents f))) S2.
Proof.
  intros Hl Hm Hf Hn Hroom Hp Hat Hne Hnn. destruct (mkfs_ok files Hl Hf Hroom) as (s & R & _ & Efb & Hfs).
  destruct (kstart_ok p (img s) files (freeblock s) sb0 Hp Hfs) as (t & R1 & Hok).
  assert (HW : is_fs (disk_view (img s)) files (freeblock s)) by (apply (same_is_fs (img s)); [|done..]; intros b Hb; by apply lookup_disk_of).
  assert (Hfb : nmeta <= freeblock s) by (rewrite Efb; pose proof (nb_mono 0 (flen (root_dir files)) (flen_nonneg _)); rewrite nb_zero in *; pose proof (files_blocks_nonneg files); lia).
  destruct (wp_elim (open_read dr (slash :: strip f.1) n) (mkfsys t fs_ic Mkfs.sb) (fun r _ => r = Some (Z.min n (flen (contents f)), take (Z.to_nat n) (contents f)))) as (r & S2 & R2 & ->).
  - apply (wp_open_read (disk_view (img s)) files (freeblock s) HW Hfb Hf Hn Hl Hm dr t k f n _ Hok Hat Hne Hnn). reflexivity.
  - exists s, (mkfsys t fs_ic Mkfs.sb), S2. split; [exact R|]. split; [exact R1|exact R2].
Qed.

(** "_cat" and "README" *)
Definition demo_files : list file := [([95; 99; 97; 116], Some [[1; 2; 3]]); ([82; 69; 65; 68; 77; 69], Some [[4; 5]; [6]])].

Lemma demo_files_fit : Forall file_fits demo_files.
Proof.
  repeat (apply Forall_cons; split); [..|apply Forall_nil_2]; (split_and!; [apply (bool_decide_unpack _); by vm_compute|solve_bytes| |by vm_compute]); (eexists; split; [reflexivity|]);
    repeat (apply Forall_cons; split); try apply Forall_nil_2; (split; [done|solve_bytes]).
Qed.

Lemma mkfs_boot_read_witness : exists s S1 S2, mkfs demo_files = Ret tt s /\
  kstart (mkfsys (crashed demo_p (disk_of (img s))) fs_ic fs_sb) = Ret tt S1 /\
  open_read no_dev_read [47; 82; 69; 65; 68; 77; 69] 100 S1 = Ret (Some (3, [4; 5; 6])) S2.
Proof.
  assert (Hn : named demo_files).
  { repeat (apply Forall_cons_2; [repeat (apply Forall_cons_2; [done|]); apply Forall_nil_2|]). apply Forall_nil_2. }
  assert (Hat : found_at demo_files 1 ([82; 69; 65; 68; 77; 69], Some [[4; 5]; [6]])).
  { split; [done|]. split; [done|]. split; [done|]. intros [|j] g Hg Hj; [injection Hg as <-; done|lia]. }
  destruct (mkfs_boot_read demo_files demo_p fs_sb no_dev_read 1 ([82; 69; 65; 68; 77; 69], Some [[4; 5]; [6]]) 100
    ltac:(cbn; lia) ltac:(done) demo_files_fit Hn ltac:(by vm_compute) demo_running Hat ltac:(done) ltac:(lia)) as (s & S1 & S2 & R & R1 & R2).
  change (slash :: strip _) with [47; 82; 69; 65; 68; 77; 69] in R2. change (Some (_, _)) with (Some (3, [4; 5; 6])) in R2.
  exists s, S1, S2. split; [exact R|]. split; [exact R1|exact R2].
Defined.
