(* ===== verification/Kalloc.v ===== *)
(** * Physical memory and its allocator: mmu.h, memlayout.h, kalloc.c

    [mem] is the memory the kernel sees above KERNBASE, byte by byte, indexed
    by kernel virtual address.  The allocator keeps the free pages in a list
    threaded through the pages themselves: [kmem_freelist] is the head, the
    first word of a free page the address of the next.  The theorems say that
    kalloc and kfree implement a stack of pages and touch no byte of any page
    that is not theirs. *)

From stdpp Require Import base list sets strings.
From Stdlib Require Import ZArith Lia.
From S2P Require Import Prelude.

Local Open Scope Z_scope.

(** ** Constants and address arithmetic: memlayout.h, mmu.h *)

Definition EXTMEM : Z := 1048576.          (* 0x100000 *)
Definition PHYSTOP : Z := 234881024.       (* 0xE000000 *)
Definition DEVSPACE : Z := 4261412864.     (* 0xFE000000 *)
Definition KERNBASE : Z := 2147483648.     (* 0x80000000 *)
Definition KERNLINK : Z := KERNBASE + EXTMEM.
Definition PGSIZE : Z := 4096.

Definition V2P (a : Z) : Z := u32 (a - KERNBASE).
Definition P2V (a : Z) : Z := u32 (a + KERNBASE).

(** [~(PGSIZE-1)] as an unsigned mask. *)
Definition PGMASK : Z := 4294963200.
Definition PGROUNDUP (sz : Z) : Z := Z.land (u32 (sz + PGSIZE - 1)) PGMASK.
Definition PGROUNDDOWN (a : Z) : Z := Z.land a PGMASK.

(** The symbols the linker defines: the end of the kernel, and the start of
    its writable data. *)
Class Symbols : Type := { sym_end : Z; sym_data : Z }.

(** Where kernel.ld and the boot loader put them. *)
Class SymbolsOk `{Symbols} : Prop := {
  sym_data_ok : KERNLINK < sym_data /\ sym_data mod PGSIZE = 0;
  sym_end_ok : sym_data <= sym_end <= KERNBASE + 4 * EXTMEM }.

(** ** Memory *)

Definition mem : Type := Z -> Z.

Definition ld32 (m : mem) (a : Z) : Z :=
  m a + 256 * m (a + 1) + 65536 * m (a + 2) + 16777216 * m (a + 3).
Definition st8 (m : mem) (a v : Z) : mem := fun b => if b =? a then v mod 256 else m b.
Definition st32 (m : mem) (a v : Z) : mem := fun b =>
  if (a <=? b) && (b <? a + 4) then (v / 256 ^ (b - a)) mod 256 else m b.
(** [memset(a, c, n)] *)
Definition fill (m : mem) (a c n : Z) : mem := fun b =>
  if (a <=? b) && (b <? a + n) then c mod 256 else m b.
(** [memmove(dst, src, n)] *)
Definition move (m : mem) (dst src n : Z) : mem := fun b =>
  if (dst <=? b) && (b <? dst + n) then m (src + (b - dst)) else m b.
(** [memmove(dst, l, n)] from another object. *)
Definition poke (m : mem) (dst : Z) (l : list Z) : mem := fun b =>
  if (dst <=? b) && (b <? dst + Z.of_nat (length l)) then l !!! Z.to_nat (b - dst) else m b.
Definition peek (m : mem) (a n : Z) : list Z := map (fun k => m (a + k)) (seqZ 0 n).

Definition mem_ok (m : mem) : Prop := forall a, byte_ok (m a).

(** A test of an address range in a boolean condition. *)
Ltac inrange :=
  match goal with
  | |- context [(?a <=? ?b) && (?b <? ?c)] =>
      destruct (Z.leb_spec a b), (Z.ltb_spec b c); cbn [andb]
  end.

Lemma st32_out m a v b : b < a \/ a + 4 <= b -> st32 m a v b = m b.
Proof. intros. unfold st32. by inrange; lia || done. Qed.

Lemma ld32_ext m m' a : (forall b, a <= b < a + 4 -> m' b = m b) -> ld32 m' a = ld32 m a.
Proof. intros H. unfold ld32. rewrite !H by lia. done. Qed.

Lemma ld32_st32 m a v : ld32 (st32 m a v) a = u32 v.
Proof.
  assert (E : forall k, 0 <= k < 4 -> st32 m a v (a + k) = (v / 256 ^ k) mod 256).
  { intros k Hk. unfold st32. inrange; try lia. by replace (a + k - a) with k by lia. }
  unfold ld32. rewrite !E by lia. pose proof (E 0 ltac:(lia)) as E0. rewrite Z.add_0_r in E0. rewrite E0.
  change (256 ^ 0) with 1. change (256 ^ 1) with 256. change (256 ^ 2) with 65536. change (256 ^ 3) with 16777216.
  unfold u32. zdiv.
Qed.

Lemma ld32_st32_other m a v b : b + 4 <= a \/ a + 4 <= b -> ld32 (st32 m a v) b = ld32 m b.
Proof. intros. apply ld32_ext. intros. apply st32_out. lia. Qed.

Lemma fill_in m a c n b : a <= b < a + n -> fill m a c n b = c mod 256.
Proof. intros. unfold fill. by inrange; lia || done. Qed.
Lemma fill_out m a c n b : b < a \/ a + n <= b -> fill m a c n b = m b.
Proof. intros. unfold fill. by inrange; lia || done. Qed.

Lemma ld32_fill_zero m a n b : a <= b -> b + 4 <= a + n -> ld32 (fill m a 0 n) b = 0.
Proof. intros. unfold ld32. by rewrite !fill_in by lia. Qed.

Lemma ld32_range m a : mem_ok m -> 0 <= ld32 m a < 4294967296.
Proof.
  intros H. unfold ld32. pose proof (H a). pose proof (H (a + 1)). pose proof (H (a + 2)).
  pose proof (H (a + 3)). unfold byte_ok in *. lia.
Qed.

Lemma mem_ok_st32 m a v : mem_ok m -> mem_ok (st32 m a v).
Proof.
  intros H b. unfold st32. destruct (_ && _); [|apply H]. unfold byte_ok. apply Z.mod_pos_bound. lia.
Qed.
Lemma mem_ok_fill m a c n : mem_ok m -> mem_ok (fill m a c n).
Proof.
  intros H b. unfold fill. destruct (_ && _); [|apply H]. unfold byte_ok. apply Z.mod_pos_bound. lia.
Qed.
Lemma mem_ok_move m d s n : mem_ok m -> mem_ok (move m d s n).
Proof. intros H b. unfold move. destruct (_ && _); apply H. Qed.

Lemma mem_ok_poke m d l : mem_ok m -> Forall byte_ok l -> mem_ok (poke m d l).
Proof.
  intros H Hl b. unfold poke. inrange; try apply H. rewrite list_lookup_total_alt.
  destruct (l !! Z.to_nat (b - d)) eqn:E; cbn; [by eapply Forall_lookup_1|].
  apply lookup_ge_None in E. lia.
Qed.

(** Page arithmetic. *)
Lemma pgrounddown_eq a : 0 <= a < 4294967296 -> PGROUNDDOWN a = a - a mod PGSIZE.
Proof.
  intros Ha. unfold PGROUNDDOWN, PGMASK, PGSIZE.
  replace 4294963200 with (Z.shiftl (Z.ones 20) 12) by reflexivity.
  assert (E : Z.land a (Z.shiftl (Z.ones 20) 12) = Z.shiftl (Z.land (Z.shiftr a 12) (Z.ones 20)) 12).
  { apply Z.bits_inj'. intros n Hn. rewrite Z.land_spec, !Z.shiftl_spec by done.
    destruct (Z.ltb_spec n 12).
    - rewrite !(Z.testbit_neg_r _ (n - 12)) by lia. by rewrite andb_false_r.
    - rewrite Z.land_spec, Z.shiftr_spec by lia. by replace (n - 12 + 12) with n by lia. }
  rewrite E, Z.land_ones, Z.shiftl_mul_pow2, Z.shiftr_div_pow2 by lia.
  change (2 ^ 20) with 1048576. change (2 ^ 12) with 4096. zdiv.
Qed.

Lemma pgroundup_eq a : 0 <= a -> a + 4095 < 4294967296 -> PGROUNDUP a = (a + 4095) / 4096 * 4096.
Proof.
  intros Ha Hb. unfold PGROUNDUP. change (Z.land ?x PGMASK) with (PGROUNDDOWN x).
  unfold PGSIZE. rewrite u32_small by lia. rewrite pgrounddown_eq by lia. unfold PGSIZE. zdiv.
Qed.

(** ** kalloc.c *)

Record kst : Type := mkkst { k_mem : mem; k_freelist : Z; k_uselock : bool }.

Definition set_mem (m : mem) (s : kst) : kst := mkkst m (k_freelist s) (k_uselock s).
Definition set_freelist (x : Z) (s : kst) : kst := mkkst (k_mem s) x (k_uselock s).
Definition set_uselock (x : bool) (s : kst) : kst := mkkst (k_mem s) (k_freelist s) x.

Section Kalloc.
Context {SY : Symbols}.

Definition kfree (v : Z) : M kst unit :=
  if negb (v mod PGSIZE =? 0) || (v <? sym_end) || (PHYSTOP <=? V2P v) then panic "kfree" else
  modify (fun s => set_mem (fill (k_mem s) v 1 PGSIZE) s) ;;
  modify (fun s => set_mem (st32 (k_mem s) v (k_freelist s)) s) ;;
  modify (set_freelist v).

Definition kalloc : M kst Z :=
  r ← gets k_freelist;
  (if r =? 0 then mret tt else modify (fun s => set_freelist (ld32 (k_mem s) r) s)) ;;
  mret r.

Fixpoint freerange_loop (p vend : Z) (fuel : nat) : M kst unit :=
  match fuel with
  | O => nofuel
  | S f =>
    if p + PGSIZE <=? vend then kfree p ;; freerange_loop (p + PGSIZE) vend f
    else mret tt
  end.

Definition freerange (vstart vend : Z) : M kst unit :=
  let p := PGROUNDUP vstart in
  freerange_loop p vend (S (Z.to_nat ((vend - p) / PGSIZE))).

Definition kinit1 (vstart vend : Z) : M kst unit :=
  modify (set_uselock false) ;;
  freerange vstart vend.

Definition kinit2 (vstart vend : Z) : M kst unit :=
  freerange vstart vend ;;
  modify (set_uselock true).

(** ** The free list *)

(** A page kfree accepts. *)
Definition is_page (v : Z) : bool := (v mod PGSIZE =? 0) && (sym_end <=? v) && (V2P v <? PHYSTOP).

Fixpoint free_list (m : mem) (head : Z) (l : list Z) : Prop :=
  match l with
  | [] => head = 0
  | p :: l' => head = p /\ free_list m (ld32 m p) l'
  end.

Record kmem_ok (s : kst) (l : list Z) : Prop := mkkmem_ok {
  km_list : free_list (k_mem s) (k_freelist s) l;
  km_pages : Forall (fun v => is_page v = true /\ 0 < v < 4294967296) l;
  km_nodup : NoDup l;
  km_bytes : mem_ok (k_mem s) }.

Lemma page_aligned v : is_page v = true -> v mod 4096 = 0.
Proof. unfold is_page, PGSIZE. intros E. zbool. done. Qed.

Lemma pages_apart v w : is_page v = true -> is_page w = true -> v <> w -> v + 4096 <= w \/ w + 4096 <= v.
Proof. intros Hv%page_aligned Hw%page_aligned Hne. zdiv. Qed.

Lemma free_list_ext m m' head l :
  (forall p, p ∈ l -> ld32 m' p = ld32 m p) -> free_list m head l -> free_list m' head l.
Proof.
  revert head; induction l as [|p l IH]; intros head HE; [done|]. intros [-> Hl]. split; [done|].
  rewrite HE by set_solver. apply IH; [set_solver|done].
Qed.

(** Changing a page that is not free keeps the list. *)
Lemma kmem_other s l m :
  kmem_ok s l -> mem_ok m -> (forall p b, p ∈ l -> p <= b < p + 4 -> m b = k_mem s b) ->
  kmem_ok (set_mem m s) l.
Proof.
  intros [H1 H2 H3 H4] Hm HE. split; try done. cbn [k_mem k_freelist set_mem].
  eapply free_list_ext; [|done]. intros p Hp. apply ld32_ext. intros b. by apply HE.
Qed.

Lemma kalloc_nil s : kmem_ok s [] -> kalloc s = Ret 0 s.
Proof. intros [H1 _ _ _]. cbn in H1. unfold kalloc. erewrite bind_ret by reflexivity. by rewrite H1. Qed.

Lemma kalloc_cons s p l : kmem_ok s (p :: l) ->
  kalloc s = Ret p (set_freelist (ld32 (k_mem s) p) s) /\ kmem_ok (set_freelist (ld32 (k_mem s) p) s) l.
Proof.
  intros [[H1 H1'] H2 H3 H4]. apply Forall_cons in H2 as [[_ Hp] H2]. apply NoDup_cons in H3 as [_ H3].
  split; [|by split]. unfold kalloc. erewrite bind_ret by reflexivity.
  rewrite H1, (proj2 (Z.eqb_neq _ _)) by lia. done.
Qed.

Definition kfreed (v : Z) (s : kst) : kst :=
  mkkst (st32 (fill (k_mem s) v 1 PGSIZE) v (k_freelist s)) v (k_uselock s).

Lemma kfree_page v s : is_page v = true -> kfree v s = Ret tt (kfreed v s).
Proof.
  unfold is_page, kfree. intros E. zbool.
  rewrite (proj2 (Z.eqb_eq (v mod PGSIZE) 0)), (proj2 (Z.ltb_ge v _)), (proj2 (Z.leb_gt PHYSTOP _)) by done.
  done.
Qed.

Lemma kfree_panics v s : is_page v = false -> kfree v s = Panic "kfree".
Proof.
  unfold is_page, kfree. intros E.
  destruct (Z.eqb_spec (v mod PGSIZE) 0), (Z.ltb_spec v sym_end), (Z.leb_spec PHYSTOP (V2P v)),
    (Z.leb_spec sym_end v), (Z.ltb_spec (V2P v) PHYSTOP); cbn in *; try done; lia.
Qed.

Lemma kfreed_out v s b : b < v \/ v + 4096 <= b -> k_mem (kfreed v s) b = k_mem s b.
Proof. intros. cbn. rewrite st32_out, fill_out by (unfold PGSIZE; lia). done. Qed.

Lemma kfreed_ok v s l :
  kmem_ok s l -> is_page v = true -> 0 < v < 4294967296 -> v ∉ l -> kmem_ok (kfreed v s) (v :: l).
Proof.
  intros [H1 H2 H3 H4] Hv Hr Hn. split.
  - cbn [free_list k_freelist kfreed]. split; [done|]. cbn [k_mem kfreed].
    assert (Hhd : 0 <= k_freelist s < 4294967296).
    { destruct l as [|p l]; cbn in H1; [lia|]. destruct H1 as [-> _].
      apply Forall_cons in H2 as [? _]. lia. }
    rewrite ld32_st32, u32_small by done.
    eapply free_list_ext; [|exact H1]. intros p Hp. apply ld32_ext. intros b Hb.
    apply (kfreed_out v s). rewrite Forall_forall in H2. destruct (H2 p Hp) as [Hpp _].
    destruct (pages_apart v p); try done; [by intros ->|lia|lia].
  - by apply Forall_cons_2.
  - by apply NoDup_cons_2.
  - cbn. by apply mem_ok_st32, mem_ok_fill.
Qed.

(** freerange frees the whole pages of the range, the last one on top. *)
Lemma freerange_loop_ok n f p vend s l :
  kmem_ok s l -> p mod 4096 = 0 -> sym_end <= p -> 0 < p -> KERNBASE <= p -> vend <= KERNBASE + PHYSTOP ->
  vend < p + 4096 * (Z.of_nat n + 1) -> p + 4096 * Z.of_nat n <= vend -> (n < f)%nat ->
  (forall q, q ∈ l -> q < p) ->
  exists s' l', freerange_loop p vend f s = Ret tt s' /\ kmem_ok s' (l' ++ l) /\ length l' = n /\
    (forall q, q ∈ l' <-> q mod 4096 = 0 /\ p <= q /\ q + 4096 <= vend) /\
    (forall b, b < p \/ vend <= b -> k_mem s' b = k_mem s b).
Proof.
  unfold KERNBASE, PHYSTOP. revert f p s l.
  induction n as [|n IH]; intros [|f] p s l Hk Ha He Hp Hb Hv H1 H2 Hf Hl; try lia; cbn [freerange_loop].
  - unfold PGSIZE. rewrite (proj2 (Z.leb_gt _ _)) by lia. exists s, []. split; [done|].
    split; [done|]. split; [done|]. split; [|done]. intros q. split; [by intros ?%not_elem_of_nil|].
    intros (Hq & H3 & H4). lia.
  - unfold PGSIZE at 1. rewrite (proj2 (Z.leb_le _ _)) by lia.
    assert (Hpg : is_page p = true).
    { unfold is_page, PGSIZE, V2P, KERNBASE, PHYSTOP. rewrite u32_small by lia.
      rewrite (proj2 (Z.eqb_eq _ _)), (proj2 (Z.leb_le _ _)), (proj2 (Z.ltb_lt _ _)) by lia. done. }
    erewrite bind_ret by (by apply kfree_page).
    destruct (IH f (p + PGSIZE) (kfreed p s) (p :: l)) as (s' & l' & R & Hk' & Hn & Hm & Hbt);
      unfold PGSIZE in *; try lia.
    + apply kfreed_ok; try done; [lia|]. intros Hin. apply Hl in Hin. lia.
    + zdiv.
    + intros q [->|Hq]%elem_of_cons; [lia|]. apply Hl in Hq. lia.
    + exists s', (l' ++ [p]). rewrite <- (assoc (++)), length_app, Hn. split; [exact R|].
      split; [exact Hk'|]. split; [cbn; lia|]. split.
      * intros q. rewrite elem_of_app, list_elem_of_singleton, Hm. split; [intros [?| ->]; [lia|split; [done|lia]]|].
        intros (Hq & H3 & H4). destruct (decide (q = p)); [by right|left]. split_and!; try lia; zdiv.
      * intros b Hbb. rewrite Hbt by lia. apply kfreed_out. lia.
Qed.

(** ** The contract: a stack of pages *)

Inductive kop : Type := KAlloc | KFree (v : Z).

(** The allocator a client sees.  Freeing what is not a page, or a page that
    is free already, is not allowed. *)
Fixpoint stack_ops (ops : list kop) (l : list Z) : option (list Z * list Z) :=
  match ops with
  | [] => Some ([], l)
  | KAlloc :: ops' =>
    '(rs, l') ← stack_ops ops' (tail l); Some (default 0 (head l) :: rs, l')
  | KFree v :: ops' =>
    if is_page v && (0 <? v) && (v <? 4294967296) && negb (bool_decide (v ∈ l)) then
      '(rs, l') ← stack_ops ops' (v :: l); Some (0 :: rs, l')
    else None
  end.

(** The calls of kalloc.c, with 0 for the result of kfree. *)
Fixpoint run_kops (ops : list kop) : M kst (list Z) :=
  match ops with
  | [] => mret []
  | KAlloc :: ops' => r ← kalloc; rs ← run_kops ops'; mret (r :: rs)
  | KFree v :: ops' => kfree v ;; rs ← run_kops ops'; mret (0 :: rs)
  end.

Definition freed (ops : list kop) (v : Z) : Prop := KFree v ∈ ops.

(** C9: kalloc.c refines a stack of free pages: every sequence of calls that
    the stack allows runs without panic, returns what the stack returns (0
    when it is empty), keeps the linked list well formed, and changes no byte
    outside the pages it frees. *)
Theorem kalloc_refines_stack (ops : list kop) (s : kst) (l l' : list Z) (rs : list Z) :
  kmem_ok s l -> stack_ops ops l = Some (rs, l') ->
  exists s', run_kops ops s = Ret rs s' /\ kmem_ok s' l' /\
    forall b, (forall v, freed ops v -> b < v \/ v + PGSIZE <= b) -> k_mem s' b = k_mem s b.
Proof.
  revert s l rs. induction ops as [|[|v] ops IH]; intros s l rs Hk Hs; cbn [stack_ops run_kops] in *.
  - injection Hs as <- <-. by exists s.
  - apply bind_Some in Hs as ([rs1 l1] & Hs & [= <- <-]).
    assert (Hstep : exists s1, kalloc s = Ret (default 0 (head l)) s1 /\ kmem_ok s1 (tail l) /\ k_mem s1 = k_mem s).
    { destruct l as [|p l]; [exists s; by rewrite kalloc_nil|].
      destruct (kalloc_cons s p l Hk) as [R Hk1]. eexists; split; [exact R|done]. }
    destruct Hstep as (s1 & R & Hk1 & Hm). destruct (IH s1 _ rs1 Hk1 Hs) as (s' & R' & Hk' & Hb).
    exists s'. split; [|split; [done|]].
    + by erewrite bind_ret, bind_ret by done.
    + intros b Hf. rewrite Hb, Hm; [done|]. intros w Hw. apply Hf. unfold freed in *. set_solver.
  - destruct (_ && negb _) eqn:E in Hs; [|done]. zbool.
    match goal with H : bool_decide _ = false |- _ => apply bool_decide_eq_false in H end.
    apply bind_Some in Hs as ([rs1 l1] & Hs & [= <- <-]).
    destruct (IH (kfreed v s) _ rs1 ltac:(by apply kfreed_ok) Hs) as (s' & R' & Hk' & Hb).
    exists s'. split; [|split; [done|]].
    + erewrite bind_ret by (by apply kfree_page). by erewrite bind_ret by exact R'.
    + intros b Hf. unfold freed in *. rewrite Hb by (intros; apply Hf; set_solver).
      apply kfreed_out. apply (Hf v). set_solver.
Qed.

End Kalloc.

(** ** A machine with three free pages *)

#[local] Instance demo_syms : Symbols := {| sym_end := KERNBASE + 2 * EXTMEM; sym_data := KERNLINK + EXTMEM / 2 |}.

#[local] Instance demo_syms_ok : SymbolsOk.
Proof. split; vm_compute; split; reflexivity || discriminate. Qed.

Definition demo_k0 : kst := mkkst (fun _ => 0) 0 false.

Lemma demo_k0_ok : kmem_ok demo_k0 [].
Proof. split; [done|by apply Forall_nil_2|apply NoDup_nil_2|]. intros a. unfold byte_ok. cbn. lia. Qed.

Lemma kalloc_refines_stack_witness : exists s',
  run_kops [KFree 2149580800; KFree 2149584896; KAlloc; KFree 2149588992; KAlloc; KAlloc; KAlloc] demo_k0 =
    Ret [0; 0; 2149584896; 0; 2149588992; 2149580800; 0] s' /\ kmem_ok s' [].
Proof.
  destruct (kalloc_refines_stack
    [KFree 2149580800; KFree 2149584896; KAlloc; KFree 2149588992; KAlloc; KAlloc; KAlloc] demo_k0 [] []
    [0; 0; 2149584896; 0; 2149588992; 2149580800; 0] demo_k0_ok) as (s' & R & Hk & _).
  - vm_compute. reflexivity.
  - exists s'. split; [exact R|exact Hk].
Defined.
