(* ===== verification/Vm.v ===== *)
(** * Page tables and user memory: vm.c

    A page directory is a page of 1024 entries, each pointing to a page of
    1024 entries, all in the memory of Kalloc.v.  [pte_at] reads the entry of
    a virtual address; [pt_ok] says that the directory and its tables are
    pages of their own, not on the free list.  The theorems describe every
    operation by its effect on [pte_at], on the bytes of user pages and on
    the free pages. *)

From stdpp Require Import base list sets strings.
From Stdlib Require Import ZArith Lia.
From S2P Require Import Prelude Kalloc.

Local Open Scope Z_scope.

(** ** mmu.h *)

Definition NPDENTRIES : nat := 1024.
Definition PTE_P : Z := 1.
Definition PTE_W : Z := 2.
Definition PTE_U : Z := 4.
Definition PDX (va : Z) : Z := Z.land (Z.shiftr va 22) 1023.
Definition PTX (va : Z) : Z := Z.land (Z.shiftr va 12) 1023.
Definition PGADDR (d t o : Z) : Z := u32 (Z.lor (Z.lor (Z.shiftl d 22) (Z.shiftl t 12)) o).
Definition PTE_ADDR (pte : Z) : Z := Z.land pte PGMASK.
Definition PTE_FLAGS (pte : Z) : Z := Z.land pte 4095.
Definition present (pte : Z) : bool := negb (Z.land pte PTE_P =? 0).

(** ** vm.c *)

Section Vm.
Context {SY : Symbols}.

Definition ld (a : Z) : M kst Z := gets (fun s => ld32 (k_mem s) a).
Definition st (a v : Z) : M kst unit := modify (fun s => set_mem (st32 (k_mem s) a v) s).
Definition memset_page (a c : Z) : M kst unit := modify (fun s => set_mem (fill (k_mem s) a c PGSIZE) s).

(** The address of the entry of [va], 0 if there is none. *)
Definition walkpgdir (pgdir va : Z) (alloc : bool) : M kst Z :=
  let pde := pgdir + 4 * PDX va in
  e ← ld pde;
  if present e then mret (P2V (PTE_ADDR e) + 4 * PTX va)
  else if negb alloc then mret 0 else
    pgtab ← kalloc;
    if pgtab =? 0 then mret 0 else
    memset_page pgtab 0 ;;
    st pde (Z.lor (Z.lor (Z.lor (V2P pgtab) PTE_P) PTE_W) PTE_U) ;;
    mret (pgtab + 4 * PTX va).

Fixpoint mappages_loop (pgdir a last pa perm : Z) (fuel : nat) : M kst Z :=
  match fuel with
  | O => nofuel
  | S f =>
    pte ← walkpgdir pgdir a true;
    if pte =? 0 then mret (-1) else
    e ← ld pte;
    if present e then panic "remap" else
    st pte (Z.lor (Z.lor pa perm) PTE_P) ;;
    if a =? last then mret 0
    else mappages_loop pgdir (u32 (a + PGSIZE)) last (u32 (pa + PGSIZE)) perm f
  end.

(** The loop runs once per page from [a] to [last]. *)
Definition mappages (pgdir va size pa perm : Z) : M kst Z :=
  let a := PGROUNDDOWN va in
  let last := PGROUNDDOWN (u32 (va + size - 1)) in
  mappages_loop pgdir a last pa perm (S (Z.to_nat (u32 (last - a) / PGSIZE))).

(** struct kmap: virt, phys_start, phys_end, perm. *)
Record kmap_entry : Type := mkkmap { km_virt : Z; km_start : Z; km_end : Z; km_perm : Z }.

Definition kmap : list kmap_entry :=
  [ mkkmap KERNBASE 0 EXTMEM PTE_W;
    mkkmap KERNLINK (V2P KERNLINK) (V2P sym_data) 0;
    mkkmap sym_data (V2P sym_data) PHYSTOP PTE_W;
    mkkmap DEVSPACE DEVSPACE 0 PTE_W ].

(** The loop of deallocuvm: [a] runs over the pages, and to the next page
    directory entry when a table is missing. *)
Fixpoint deallocuvm_loop (pgdir a oldsz : Z) (fuel : nat) : M kst unit :=
  match fuel with
  | O => nofuel
  | S f =>
    if a <? oldsz then
      pte ← walkpgdir pgdir a false;
      if pte =? 0 then
        deallocuvm_loop pgdir (u32 (u32 (PGADDR (PDX a + 1) 0 0 - PGSIZE) + PGSIZE)) oldsz f
      else
        e ← ld pte;
        (if present e then
           let pa := PTE_ADDR e in
           if pa =? 0 then panic "kfree" else
           kfree (P2V pa) ;; st pte 0
         else mret tt) ;;
        deallocuvm_loop pgdir (u32 (a + PGSIZE)) oldsz f
    else mret tt
  end.

Definition deallocuvm (pgdir oldsz newsz : Z) : M kst Z :=
  if oldsz <=? newsz then mret oldsz else
  let a := PGROUNDUP newsz in
  deallocuvm_loop pgdir a oldsz (S (Z.to_nat ((oldsz - a + PGSIZE - 1) / PGSIZE))) ;;
  mret newsz.

Definition freevm (pgdir : Z) : M kst unit :=
  if pgdir =? 0 then panic "freevm: no pgdir" else
  deallocuvm pgdir KERNBASE 0 ;;
  forM 0 NPDENTRIES (fun i =>
    e ← ld (pgdir + 4 * Z.of_nat i);
    if present e then kfree (P2V (PTE_ADDR e)) else mret tt) ;;
  kfree pgdir.

Fixpoint map_all (pgdir : Z) (ks : list kmap_entry) : M kst Z :=
  match ks with
  | [] => mret 0
  | k :: ks' =>
    r ← mappages pgdir (km_virt k) (u32 (km_end k - km_start k)) (km_start k) (km_perm k);
    if r <? 0 then mret (-1) else map_all pgdir ks'
  end.

Definition setupkvm : M kst Z :=
  pgdir ← kalloc;
  if pgdir =? 0 then mret 0 else
  memset_page pgdir 0 ;;
  if DEVSPACE <? P2V PHYSTOP then panic "PHYSTOP too high" else
  r ← map_all pgdir kmap;
  if r <? 0 then freevm pgdir ;; mret 0 else mret pgdir.

(** A null page from kalloc is written to: a fault. *)
Definition inituvm (pgdir : Z) (init : list Z) (sz : Z) : M kst unit :=
  if PGSIZE <=? sz then panic "inituvm: more than a page" else
  mem ← kalloc;
  if mem =? 0 then fault else
  memset_page mem 0 ;;
  mappages pgdir 0 PGSIZE (V2P mem) (Z.lor PTE_W PTE_U) ;;
  modify (fun s => set_mem (poke (k_mem s) mem (take (Z.to_nat sz) init)) s).

Fixpoint allocuvm_loop (pgdir a oldsz newsz : Z) (fuel : nat) : M kst Z :=
  match fuel with
  | O => nofuel
  | S f =>
    if a <? newsz then
      mem ← kalloc;
      if mem =? 0 then deallocuvm pgdir newsz oldsz ;; mret 0 else
      memset_page mem 0 ;;
      r ← mappages pgdir a PGSIZE (V2P mem) (Z.lor PTE_W PTE_U);
      if r <? 0 then deallocuvm pgdir newsz oldsz ;; kfree mem ;; mret 0
      else allocuvm_loop pgdir (u32 (a + PGSIZE)) oldsz newsz f
    else mret newsz
  end.

Definition allocuvm (pgdir oldsz newsz : Z) : M kst Z :=
  if KERNBASE <=? newsz then mret 0 else
  if newsz <? oldsz then mret oldsz else
  let a := PGROUNDUP oldsz in
  allocuvm_loop pgdir a oldsz newsz (S (Z.to_nat ((newsz - a + PGSIZE - 1) / PGSIZE))).

Definition clearpteu (pgdir uva : Z) : M kst unit :=
  pte ← walkpgdir pgdir uva false;
  if pte =? 0 then panic "clearpteu" else
  e ← ld pte; st pte (Z.land e (u32 (Z.lnot PTE_U))).

Fixpoint copyuvm_loop (pgdir d i sz : Z) (fuel : nat) : M kst bool :=
  match fuel with
  | O => nofuel
  | S f =>
    if i <? sz then
      pte ← walkpgdir pgdir i false;
      if pte =? 0 then panic "copyuvm: pte should exist" else
      e ← ld pte;
      if negb (present e) then panic "copyuvm: page not present" else
      mem ← kalloc;
      if mem =? 0 then mret false else
      modify (fun s => set_mem (move (k_mem s) mem (P2V (PTE_ADDR e)) PGSIZE) s) ;;
      r ← mappages d i PGSIZE (V2P mem) (PTE_FLAGS e);
      if r <? 0 then kfree mem ;; mret false
      else copyuvm_loop pgdir d (u32 (i + PGSIZE)) sz f
    else mret true
  end.

Definition copyuvm (pgdir sz : Z) : M kst Z :=
  d ← setupkvm;
  if d =? 0 then mret 0 else
  ok ← copyuvm_loop pgdir d 0 sz (S (Z.to_nat ((sz + PGSIZE - 1) / PGSIZE)));
  if ok : bool then mret d else freevm d ;; mret 0.

(** [*pte] of a null [pte] is a fault. *)
Definition uva2ka (pgdir uva : Z) : M kst Z :=
  pte ← walkpgdir pgdir uva false;
  if pte =? 0 then fault else
  e ← ld pte;
  if Z.land e PTE_P =? 0 then mret 0 else
  if Z.land e PTE_U =? 0 then mret 0 else
  mret (P2V (PTE_ADDR e)).

(** [p] is the source buffer, [len] bytes of it. *)
Fixpoint copyout_loop (pgdir va : Z) (buf : list Z) (fuel : nat) : M kst Z :=
  match fuel with
  | O => nofuel
  | S f =>
    match buf with
    | [] => mret 0
    | _ =>
      let va0 := PGROUNDDOWN va in
      pa0 ← uva2ka pgdir va0;
      if pa0 =? 0 then mret (-1) else
      let n := Z.to_nat (Z.min (PGSIZE - (va - va0)) (Z.of_nat (length buf))) in
      modify (fun s => set_mem (poke (k_mem s) (pa0 + (va - va0)) (take n buf)) s) ;;
      copyout_loop pgdir (u32 (va0 + PGSIZE)) (drop n buf) f
    end
  end.

Definition copyout (pgdir va : Z) (p : list Z) : M kst Z :=
  copyout_loop pgdir va p (S (length p)).

End Vm.

(** ** Address arithmetic *)

Lemma PDX_eq va : 0 <= va < 4294967296 -> PDX va = va / 4194304.
Proof.
  intros. unfold PDX. change 1023 with (Z.ones 10).
  rewrite Z.land_ones, Z.shiftr_div_pow2 by lia. change (2 ^ 22) with 4194304. change (2 ^ 10) with 1024. zdiv.
Qed.

Lemma PTX_eq va : PTX va = (va / 4096) mod 1024.
Proof. unfold PTX. change 1023 with (Z.ones 10). by rewrite Z.land_ones, Z.shiftr_div_pow2 by lia. Qed.

Lemma PDX_range va : 0 <= PDX va < 1024.
Proof. unfold PDX. change 1023 with (Z.ones 10). rewrite Z.land_ones by lia. apply Z.mod_pos_bound. lia. Qed.

Lemma PTX_range va : 0 <= PTX va < 1024.
Proof. rewrite PTX_eq. apply Z.mod_pos_bound. lia. Qed.

Lemma same_page va va' : 0 <= va < 4294967296 -> 0 <= va' < 4294967296 ->
  (PDX va' = PDX va /\ PTX va' = PTX va) <-> va' / 4096 = va / 4096.
Proof. intros. rewrite !PDX_eq, !PTX_eq by done. split; [intros [? ?]; zdiv|intros ?; split; zdiv]. Qed.

Lemma lor_low a f n : 0 <= n -> a mod 2 ^ n = 0 -> 0 <= f < 2 ^ n -> Z.lor a f = a + f.
Proof.
  intros Hn Ha Hf. rewrite Z.add_nocarry_lxor; [symmetry; apply Z.lxor_lor|];
    apply Z.bits_inj'; intros k Hk; rewrite Z.land_spec, Z.bits_0.
  all: destruct (Z.ltb_spec k n);
    [replace (Z.testbit a k) with (Z.testbit (a mod 2 ^ n) k) by (by rewrite Z.mod_pow2_bits_low by lia);
     rewrite Ha, Z.bits_0; done|].
  all: rewrite <- (Z.mod_small f (2 ^ n)) by lia; rewrite Z.mod_pow2_bits_high by lia; apply andb_false_r.
Qed.

Lemma lor_flags a f : a mod 4096 = 0 -> 0 <= f < 4096 -> Z.lor a f = a + f.
Proof. intros. by apply (lor_low a f 12). Qed.

Lemma present_eq e : 0 <= e -> present e = (e mod 2 =? 1).
Proof.
  intros. unfold present, PTE_P. change 1 with (Z.ones 1) at 1. rewrite Z.land_ones by lia.
  change (2 ^ 1) with 2. destruct (Z.eqb_spec (e mod 2) 0), (Z.eqb_spec (e mod 2) 1); cbn; try done; zdiv.
Qed.

Lemma PTE_ADDR_eq e : 0 <= e < 4294967296 -> PTE_ADDR e = e - e mod 4096.
Proof. apply pgrounddown_eq. Qed.

Lemma PTE_FLAGS_eq e : PTE_FLAGS e = e mod 4096.
Proof. unfold PTE_FLAGS. change 4095 with (Z.ones 12). by rewrite Z.land_ones by lia. Qed.

Section Theory.
Context {SY : Symbols} {HS : SymbolsOk}.

(** A page of physical memory. *)
Definition Page (v : Z) : Prop := is_page v = true /\ 0 < v < 4294967296.

Lemma Page_eq v : Page v <-> v mod 4096 = 0 /\ sym_end <= v /\ v < KERNBASE + PHYSTOP.
Proof using HS.
  pose proof (proj1 sym_data_ok) as Hsd. pose proof sym_end_ok as Hse. unfold KERNLINK, KERNBASE, PHYSTOP, EXTMEM in *.
  unfold Page, is_page, V2P, PGSIZE, KERNBASE, PHYSTOP. split.
  - intros [E Hr]. zbool. rewrite u32_small in * by lia. lia.
  - intros (H1 & H2 & H3). rewrite u32_small by lia. split; [|lia].
    rewrite (proj2 (Z.eqb_eq _ _)), (proj2 (Z.leb_le _ _)), (proj2 (Z.ltb_lt _ _)) by lia. done.
Qed.

Lemma Page_kern v : Page v -> v mod 4096 = 0 /\ KERNBASE + EXTMEM < v < KERNBASE + PHYSTOP.
Proof using HS.
  rewrite Page_eq. pose proof (proj1 sym_data_ok) as Hsd. pose proof sym_end_ok as Hse. unfold KERNLINK, KERNBASE, EXTMEM in *. lia.
Qed.

(** An entry that points to a page, with flags. *)
Lemma V2P_page v : Page v -> V2P v = v - KERNBASE /\ V2P v mod 4096 = 0 /\ 1048576 < V2P v < PHYSTOP.
Proof using HS.
  intros Hv%Page_kern. unfold V2P, KERNBASE, PHYSTOP, EXTMEM in *. rewrite u32_small by lia. zdiv.
Qed.

Lemma entry_page v f : Page v -> 0 <= f < 4096 ->
  PTE_ADDR (V2P v + f) = V2P v /\ P2V (PTE_ADDR (V2P v + f)) = v /\ PTE_FLAGS (V2P v + f) = f /\
  0 <= V2P v + f < 4294967296.
Proof using HS.
  intros Hv Hf. destruct (V2P_page v Hv) as (E & H1 & H2). pose proof (Page_kern v Hv).
  unfold KERNBASE, PHYSTOP, EXTMEM in *.
  assert (Ea : PTE_ADDR (V2P v + f) = V2P v) by (rewrite PTE_ADDR_eq by lia; zdiv).
  split; [done|]. rewrite Ea. split; [|split; [rewrite PTE_FLAGS_eq; zdiv|lia]].
  unfold P2V, KERNBASE. rewrite E, u32_small by lia. lia.
Qed.

Lemma present_entry v f : Page v -> 0 <= f < 4096 -> present (V2P v + f) = (f mod 2 =? 1).
Proof using HS.
  intros Hv Hf. destruct (V2P_page v Hv) as (E & H1 & H2). unfold PHYSTOP in *.
  rewrite present_eq by lia. f_equal. zdiv.
Qed.

(** ** Reading a page table *)

Definition pde (m : mem) (pgdir i : Z) : Z := ld32 m (pgdir + 4 * i).
Definition tab (m : mem) (pgdir i : Z) : Z := P2V (PTE_ADDR (pde m pgdir i)).

Definition pte_addr (m : mem) (pgdir va : Z) : Z :=
  if present (pde m pgdir (PDX va)) then tab m pgdir (PDX va) + 4 * PTX va else 0.
Definition pte_at (m : mem) (pgdir va : Z) : Z :=
  if present (pde m pgdir (PDX va)) then ld32 m (tab m pgdir (PDX va) + 4 * PTX va) else 0.

Lemma walk_look pgdir va s : walkpgdir pgdir va false s = Ret (pte_addr (k_mem s) pgdir va) s.
Proof using.
  unfold walkpgdir, pte_addr, tab, pde. erewrite bind_ret by reflexivity. by destruct (present _).
Qed.

(** The directory [pgdir] and its tables are pages of their own, none of
    them on the free list [l]. *)
Record pt_ok (m : mem) (l : list Z) (pgdir : Z) : Prop := mkpt_ok {
  pk_dir : Page pgdir /\ pgdir ∉ l;
  pk_tab : forall i, 0 <= i < 1024 -> present (pde m pgdir i) = true ->
    Page (tab m pgdir i) /\ tab m pgdir i ∉ l /\ tab m pgdir i <> pgdir;
  pk_inj : forall i j, 0 <= i < 1024 -> 0 <= j < 1024 -> present (pde m pgdir i) = true ->
    present (pde m pgdir j) = true -> tab m pgdir i = tab m pgdir j -> i = j }.

Definition outside (p b : Z) : Prop := b < p \/ p + 4096 <= b.

Lemma Page_apart v w b : Page v -> Page w -> v <> w -> v <= b < v + 4096 -> outside w b.
Proof using HS. intros [Hv%page_aligned _] [Hw%page_aligned _] Hne Hb. unfold outside. zdiv. Qed.

Lemma pte_addr_in m l pgdir va : pt_ok m l pgdir -> present (pde m pgdir (PDX va)) = true ->
  let t := tab m pgdir (PDX va) in
  Page t /\ t <> pgdir /\ t ∉ l /\ pte_addr m pgdir va = t + 4 * PTX va /\ pte_addr m pgdir va <> 0.
Proof using HS.
  intros Hk Hp t. destruct (pk_tab _ _ _ Hk (PDX va) (PDX_range va) Hp) as (H1 & H2 & H3).
  unfold pte_addr. rewrite Hp. pose proof (PTX_range va). pose proof (Page_kern _ H1).
  unfold KERNBASE, EXTMEM in *. unfold t. split_and!; try done. lia.
Qed.

(** Memory that agrees on the directory and the tables reads the same. *)
Lemma pte_at_ext m m' l pgdir :
  pt_ok m l pgdir ->
  (forall b, pgdir <= b < pgdir + 4096 -> m' b = m b) ->
  (forall i b, 0 <= i < 1024 -> present (pde m pgdir i) = true ->
    tab m pgdir i <= b < tab m pgdir i + 4096 -> m' b = m b) ->
  (forall i, 0 <= i < 1024 -> pde m' pgdir i = pde m pgdir i) /\
  (forall va, pte_at m' pgdir va = pte_at m pgdir va).
Proof using.
  intros Hk Hd Ht.
  assert (Hpde : forall i, 0 <= i < 1024 -> pde m' pgdir i = pde m pgdir i).
  { intros i Hi. apply ld32_ext. intros b Hb. apply Hd. lia. }
  split; [done|]. intros va. pose proof (PDX_range va). pose proof (PTX_range va).
  unfold pte_at, tab. rewrite Hpde by done. destruct (present _) eqn:E; [|done].
  apply ld32_ext. intros b Hb. eapply Ht; [|exact E|]; [done|]. unfold tab. lia.
Qed.

Lemma pt_ok_ext m m' l l' pgdir :
  pt_ok m l pgdir -> (forall i, 0 <= i < 1024 -> pde m' pgdir i = pde m pgdir i) ->
  (forall p, p ∈ l' -> p ∈ l) -> pt_ok m' l' pgdir.
Proof using.
  intros [[H1 H1'] H2 H3] Hd Hl. split.
  - split; [done|]. intros Hp. apply H1'. by apply Hl.
  - intros i Hi. unfold tab. rewrite Hd by done. intros Hp. destruct (H2 i Hi Hp) as (A & B & C).
    split_and!; try done. intros Hp'. apply B. by apply Hl.
  - intros i j Hi Hj. unfold tab. rewrite !Hd by done. by apply H3.
Qed.

(** What adding entries to a page table does: [f] is the new reading, the
    pages taken from the free list became tables, and nothing else of the
    memory changed than directory, tables and pages taken. *)
Record mapped (s : kst) (l : list Z) (pgdir : Z) (s' : kst) (l' : list Z) (f : Z -> Z) : Prop := mkmapped {
  mp_k : kmem_ok s' l';
  mp_pt : pt_ok (k_mem s') l' pgdir;
  mp_pte : forall va, 0 <= va < 4294967296 -> pte_at (k_mem s') pgdir va = f va;
  mp_new : exists ts, l = ts ++ l' /\
    (forall i, 0 <= i < 1024 -> present (pde (k_mem s') pgdir i) = true ->
      pde (k_mem s') pgdir i = pde (k_mem s) pgdir i \/ tab (k_mem s') pgdir i ∈ ts) /\
    (forall p, p ∈ ts -> exists i, 0 <= i < 1024 /\ present (pde (k_mem s') pgdir i) = true /\
      tab (k_mem s') pgdir i = p);
  mp_old : forall i, 0 <= i < 1024 -> present (pde (k_mem s) pgdir i) = true ->
    pde (k_mem s') pgdir i = pde (k_mem s) pgdir i;
  mp_frame : forall b, outside pgdir b -> (forall p, p ∈ l -> p ∉ l' -> outside p b) ->
    (forall i, 0 <= i < 1024 -> present (pde (k_mem s) pgdir i) = true -> outside (tab (k_mem s) pgdir i) b) ->
    k_mem s' b = k_mem s b }.

Lemma mapped_refl s l pgdir : kmem_ok s l -> pt_ok (k_mem s) l pgdir ->
  mapped s l pgdir s l (pte_at (k_mem s) pgdir).
Proof using. intros H1 H2. split; try done. exists []. split; [done|]. split; [auto|]. by intros p ?%not_elem_of_nil. Qed.

Lemma mapped_ext s l pgdir s' l' f g :
  (forall va, 0 <= va < 4294967296 -> f va = g va) -> mapped s l pgdir s' l' f -> mapped s l pgdir s' l' g.
Proof using. intros HE [H1 H2 H3 H4 H5 H6]. split; try done. intros va Hva. by rewrite H3, HE. Qed.

Lemma mapped_trans s l pgdir s1 l1 f s2 l2 g :
  NoDup l -> mapped s l pgdir s1 l1 f -> mapped s1 l1 pgdir s2 l2 g -> mapped s l pgdir s2 l2 g.
Proof using HS.
  intros Hnd [A1 A2 A3 (ts1 & A4 & A4' & A4t) A5 A6] [B1 B2 B3 (ts2 & B4 & B4' & B4t) B5 B6].
  split; try done.
  - exists (ts1 ++ ts2). split; [by rewrite A4, B4, (assoc (++))|]. split.
    + intros i Hi Hp. destruct (B4' i Hi Hp) as [E|Hin]; [|right; set_solver].
      rewrite E in Hp. destruct (A4' i Hi Hp) as [E'|Hin]; [left; congruence|].
      right. unfold tab in *. rewrite E. set_solver.
    + intros p [Hp|Hp]%elem_of_app; [|by apply B4t]. destruct (A4t p Hp) as (i & Hi & Hpi & <-).
      exists i. unfold tab. by rewrite (B5 i Hi Hpi).
  - intros i Hi Hp. rewrite B5, A5; try done. by rewrite A5.
  - intros b Hd Hl Ht.
    assert (H12 : forall p, p ∈ ts1 -> p ∉ l1).
    { rewrite A4 in Hnd. apply NoDup_app in Hnd as (_ & Hnd & _). done. }
    assert (H22 : forall p, p ∈ ts1 -> p ∉ l2) by (intros p Hp Hq; apply (H12 p Hp); rewrite B4; set_solver).
    rewrite B6, A6; try done.
    + intros p Hp Hq. apply Hl; [done|]. intros Hp2. apply Hq. rewrite B4. set_solver.
    + intros p Hp Hq. apply Hl; [rewrite A4; set_solver|done].
    + intros i Hi Hp. destruct (A4' i Hi Hp) as [E|Hin].
      * unfold tab. rewrite E. apply Ht; [done|]. by rewrite <- E.
      * apply Hl; [rewrite A4; set_solver|by apply H22].
Qed.

(** Storing an entry of an existing table. *)
Lemma set_pte s l pgdir va v :
  kmem_ok s l -> pt_ok (k_mem s) l pgdir -> 0 <= va < 4294967296 -> 0 <= v < 4294967296 ->
  present (pde (k_mem s) pgdir (PDX va)) = true ->
  mapped s l pgdir (set_mem (st32 (k_mem s) (pte_addr (k_mem s) pgdir va) v) s) l
    (fun va' => if decide (va' / 4096 = va / 4096) then v else pte_at (k_mem s) pgdir va').
Proof using HS.
  intros Hk Hp Hva Hv Hpr. destruct (pte_addr_in _ _ _ _ Hp Hpr) as (Ht & Hd & Hl & Ea & _).
  set (t := tab (k_mem s) pgdir (PDX va)) in *. rewrite Ea. pose proof (PTX_range va) as Hx.
  destruct (pk_dir _ _ _ Hp) as [Hpg Hpl]. set (m' := st32 _ _ _).
  assert (Hout : forall b, outside t b -> m' b = k_mem s b).
  { intros b Hb. apply st32_out. unfold outside in Hb. lia. }
  assert (Hpde : forall i, 0 <= i < 1024 -> pde m' pgdir i = pde (k_mem s) pgdir i).
  { intros i Hi. apply ld32_ext. intros b Hb. apply Hout. apply (Page_apart pgdir); try done. lia. }
  split; cbn [k_mem set_mem]; fold m'.
  - apply kmem_other; [done| |].
    + by apply mem_ok_st32, Hk.
    + intros p b Hpl' Hb. apply Hout. pose proof (km_pages _ _ Hk) as Hfl. rewrite Forall_forall in Hfl.
      apply (Page_apart p); [by apply Hfl|done| |lia]. intros ->. done.
  - eapply pt_ok_ext; [exact Hp|done|auto].
  - intros va' Hva'. unfold pte_at, tab. rewrite !Hpde by apply PDX_range.
    fold (tab (k_mem s) pgdir (PDX va')). destruct (decide (va' / 4096 = va / 4096)) as [E|E].
    + apply same_page in E as [-> ->]; [|done..]. rewrite Hpr. fold t. unfold m'. rewrite ld32_st32. by apply u32_small.
    + destruct (present (pde (k_mem s) pgdir (PDX va'))) eqn:Hpr'; [|done].
      destruct (pk_tab _ _ _ Hp _ (PDX_range va') Hpr') as (Ht' & _ & _). pose proof (PTX_range va').
      destruct (decide (PDX va' = PDX va)) as [Ed|Ed].
      * rewrite Ed. fold t. apply ld32_st32_other.
        assert (PTX va' <> PTX va) by (intros Et; apply E, same_page; done). lia.
      * apply ld32_ext. intros b Hb. apply Hout. apply (Page_apart (tab (k_mem s) pgdir (PDX va'))); try done; [|lia].
        intros Et. apply Ed. by apply (pk_inj _ _ _ Hp); try apply PDX_range.
  - exists []. split; [done|]. split; [intros i Hi _; left; by apply Hpde|]. by intros p ?%not_elem_of_nil.
  - intros i Hi _. by apply Hpde.
  - intros b _ _ Hb. apply Hout. apply Hb; [apply PDX_range|done].
Qed.

(** A new table page [t] for directory entry [i]. *)
Definition with_table (m : mem) (pgdir i t : Z) : mem :=
  st32 (fill m t 0 PGSIZE) (pgdir + 4 * i) (V2P t + 7).

Lemma new_table s t l pgdir i :
  kmem_ok s (t :: l) -> pt_ok (k_mem s) (t :: l) pgdir -> 0 <= i < 1024 ->
  present (pde (k_mem s) pgdir i) = false ->
  let s' := mkkst (with_table (k_mem s) pgdir i t) (ld32 (k_mem s) t) (k_uselock s) in
  mapped s (t :: l) pgdir s' l (pte_at (k_mem s) pgdir) /\
  pde (k_mem s') pgdir i = V2P t + 7 /\ tab (k_mem s') pgdir i = t.
Proof using HS.
  intros Hk Hp Hi Hn s'. pose proof (km_pages _ _ Hk) as Hfl. pose proof (km_nodup _ _ Hk) as Hnd.
  apply NoDup_cons in Hnd as [Htl _]. apply Forall_cons in Hfl as [Ht Hfl]. rewrite Forall_forall in Hfl.
  destruct (pk_dir _ _ _ Hp) as [Hpg Hpl]. assert (Htd : t <> pgdir) by (intros ->; set_solver).
  destruct (entry_page t 7 Ht ltac:(lia)) as (_ & Etab & _ & Hr).
  set (m' := with_table (k_mem s) pgdir i t).
  assert (Hout : forall b, outside t b -> b < pgdir + 4 * i \/ pgdir + 4 * i + 4 <= b -> m' b = k_mem s b).
  { intros b Hb Hb'. unfold m', with_table. rewrite st32_out by lia. apply fill_out. exact Hb. }
  assert (Hpde : forall j, 0 <= j < 1024 -> pde m' pgdir j = if decide (j = i) then V2P t + 7 else pde (k_mem s) pgdir j).
  { intros j Hj. unfold pde. case_decide as E.
    - subst j. unfold m', with_table. rewrite ld32_st32. by apply u32_small.
    - apply ld32_ext. intros b Hb. apply Hout; [|lia]. apply (Page_apart pgdir); try done. lia. }
  assert (Hpr : present (V2P t + 7) = true) by (by rewrite present_entry).
  assert (Hold : forall j, 0 <= j < 1024 -> present (pde (k_mem s) pgdir j) = true -> j <> i)
    by (intros j Hj Hpj ->; congruence).
  assert (Htz : forall b, t <= b < t + 4096 -> m' b = 0).
  { intros b Hb. unfold m', with_table. rewrite st32_out; [by rewrite fill_in|].
    destruct (Page_apart t pgdir b); try done; lia. }
  split; [|change (k_mem s') with m'; unfold tab; by rewrite (Hpde i Hi), decide_True].
  split; change (k_mem s') with m'.
  - destruct (kalloc_cons s t l Hk) as [_ Hk1]. apply (kmem_other _ _ m' Hk1).
    + by apply mem_ok_st32, mem_ok_fill, Hk.
    + intros p b Hpin Hb. cbn [k_mem set_freelist]. apply Hout.
      * apply (Page_apart p); [by apply Hfl|done| |lia]. by intros ->.
      * destruct (Page_apart p pgdir b); try lia; [by apply Hfl|done|]. intros ->. set_solver.
  - split.
    + split; [done|]. set_solver.
    + intros j Hj. unfold tab. rewrite Hpde by done. case_decide; [by rewrite Etab|].
      intros Hpj. destruct (pk_tab _ _ _ Hp j Hj Hpj) as (A & B & C). split_and!; try done. set_solver.
    + intros j k Hj Hkk. unfold tab. rewrite !Hpde by done.
      repeat case_decide; subst; rewrite ?Etab; try done.
      * intros _ Hpk E. destruct (pk_tab _ _ _ Hp k Hkk Hpk) as (_ & B & _). unfold tab in B. set_solver.
      * intros Hpj _ E. destruct (pk_tab _ _ _ Hp j Hj Hpj) as (_ & B & _). unfold tab in B. set_solver.
      * by apply (pk_inj _ _ _ Hp).
  - intros va Hva. pose proof (PDX_range va). pose proof (PTX_range va). unfold pte_at, tab. rewrite Hpde by done.
    case_decide as E.
    + rewrite Hpr, E, Hn, Etab. unfold ld32. rewrite !Htz by lia. done.
    + destruct (present (pde (k_mem s) pgdir (PDX va))) eqn:Hpv; [|done].
      destruct (pk_tab _ _ _ Hp _ (PDX_range va) Hpv) as (A & B & C). fold (tab (k_mem s) pgdir (PDX va)).
      apply ld32_ext. intros b Hb. apply Hout.
      * apply (Page_apart (tab (k_mem s) pgdir (PDX va))); try done; [set_solver|lia].
      * destruct (Page_apart (tab (k_mem s) pgdir (PDX va)) pgdir b); try done; lia.
  - exists [t]. split; [done|]. split.
    + intros j Hj. unfold tab. rewrite Hpde by done. case_decide; [right; rewrite Etab; set_solver|by left].
    + intros p ->%list_elem_of_singleton. exists i. unfold tab. by rewrite Hpde, decide_True by done.
  - intros j Hj Hpj. rewrite Hpde, decide_False by auto. done.
  - intros b Hb Hl _. apply Hout; [apply Hl; set_solver|]. unfold outside in Hb. lia.
Qed.

(** walkpgdir with [alloc]: the entry's address, with a new table if there
    was none, or 0 when the memory is used up. *)
Lemma walk_alloc s l pgdir va :
  kmem_ok s l -> pt_ok (k_mem s) l pgdir -> 0 <= va < 4294967296 ->
  (l = [] /\ present (pde (k_mem s) pgdir (PDX va)) = false /\ walkpgdir pgdir va true s = Ret 0 s) \/
  exists s' l', walkpgdir pgdir va true s = Ret (pte_addr (k_mem s') pgdir va) s' /\
    mapped s l pgdir s' l' (pte_at (k_mem s) pgdir) /\ present (pde (k_mem s') pgdir (PDX va)) = true.
Proof using HS.
  intros Hk Hp Hva. unfold walkpgdir. cbv zeta. erewrite bind_ret by reflexivity.
  fold (pde (k_mem s) pgdir (PDX va)). destruct (present (pde (k_mem s) pgdir (PDX va))) eqn:E.
  - right. exists s, l. split; [|split; [by apply mapped_refl|done]]. unfold pte_addr. by rewrite E.
  - cbn [negb]. destruct l as [|t l].
    + left. split_and!; try done. by erewrite bind_ret by (by apply kalloc_nil).
    + right. destruct (kalloc_cons s t l Hk) as [R _]. erewrite bind_ret by exact R.
      pose proof (km_pages _ _ Hk) as [Ht _]%Forall_cons.
      rewrite (proj2 (Z.eqb_neq _ _)) by (destruct Ht; lia).
      destruct (new_table s t l pgdir (PDX va) Hk Hp (PDX_range va) E) as (Hm & E1 & E2).
      eexists _, l. split; [|split; [exact Hm|]].
      * unfold memset_page, st. erewrite bind_ret by reflexivity. erewrite bind_ret by reflexivity.
        unfold mret, M_ret. unfold pte_addr. rewrite E1, E2, present_entry by (done || lia).
        cbn [Z.modulo]. f_equal. unfold set_mem, set_freelist, with_table. cbn [k_mem k_freelist k_uselock].
        do 2 f_equal. destruct (V2P_page t Ht) as (_ & Hmod & Hr). rewrite <- !Z.lor_assoc.
        by apply lor_flags.
      * rewrite E1. by rewrite present_entry.
Qed.

(** The entries of [n] pages from [a] on. *)
Definition map_range (f : Z -> Z) (a pa perm : Z) (n : Z) : Z -> Z := fun va =>
  if decide (a / 4096 <= va / 4096 < a / 4096 + n)
  then pa + 4096 * (va / 4096 - a / 4096) + Z.lor perm PTE_P else f va.

Lemma map_range_step f a pa perm n va :
  a mod 4096 = 0 -> 0 <= n ->
  map_range (map_range f a pa perm 1) (a + 4096) (pa + 4096) perm n va = map_range f a pa perm (n + 1) va.
Proof using. intros Ha Hn. unfold map_range. repeat case_decide; zdiv. Qed.

Lemma perm_lor perm : 0 <= perm < 4096 -> 0 <= Z.lor perm PTE_P < 4096 /\ Z.lor perm PTE_P mod 2 = 1.
Proof using.
  intros Hp. unfold PTE_P. split.
  - split; [apply Z.lor_nonneg; lia|].
    destruct (Z.eq_dec perm 0) as [->|]; [done|]. change 4096 with (2 ^ 12).
    apply Z.log2_lt_pow2; [|rewrite Z.log2_lor by lia]; [|].
    + assert (0 <= Z.lor perm 1) by (apply Z.lor_nonneg; lia).
      assert (Z.lor perm 1 <> 0) by (intros E%Z.lor_eq_0_iff; lia). lia.
    + apply Z.max_lub_lt; [|done]. apply Z.log2_lt_pow2; lia.
  - rewrite <- Z.bit0_mod, Z.lor_spec. cbn. by rewrite orb_true_r.
Qed.

(** One turn of mappages' loop. *)
Lemma map_one s l pgdir a pa perm (k : M kst Z) :
  kmem_ok s l -> pt_ok (k_mem s) l pgdir -> 0 <= a < 4294967296 -> 0 <= pa < 4294967296 -> pa mod 4096 = 0 ->
  0 <= perm < 4096 -> present (pte_at (k_mem s) pgdir a) = false ->
  let body := (pte ← walkpgdir pgdir a true;
    if pte =? 0 then mret (-1) else
    e ← ld pte;
    if present e then panic "remap" else
    st pte (Z.lor (Z.lor pa perm) PTE_P) ;; k) in
  (l = [] /\ body s = Ret (-1) s) \/
  exists s2 l1, body s = k s2 /\ mapped s l pgdir s2 l1 (map_range (pte_at (k_mem s) pgdir) a pa perm 1).
Proof using HS.
  intros Hk Hp Ha Hpa Hpm Hperm Hfree. cbv zeta.
  destruct (walk_alloc s l pgdir a Hk Hp Ha) as [(-> & _ & R)|(s1 & l1 & R & Hm1 & Hpr1)].
  { left. split; [done|]. by erewrite bind_ret by exact R. }
  right. destruct (pte_addr_in _ _ _ _ (mp_pt _ _ _ _ _ _ Hm1) Hpr1) as (_ & _ & _ & _ & Hnz).
  assert (Eld : ld32 (k_mem s1) (pte_addr (k_mem s1) pgdir a) = pte_at (k_mem s) pgdir a).
  { rewrite <- (mp_pte _ _ _ _ _ _ Hm1) by done. unfold pte_at, pte_addr. by rewrite Hpr1. }
  destruct (perm_lor perm Hperm) as [Hpb Hpo].
  assert (Epte : Z.lor (Z.lor pa perm) PTE_P = pa + Z.lor perm PTE_P)
    by (rewrite <- Z.lor_assoc; by apply lor_flags).
  assert (Hm2 := set_pte s1 l1 pgdir a (pa + Z.lor perm PTE_P) (mp_k _ _ _ _ _ _ Hm1) (mp_pt _ _ _ _ _ _ Hm1)
    Ha ltac:(zdiv) Hpr1).
  eexists _, l1. split.
  - erewrite bind_ret by exact R. rewrite (proj2 (Z.eqb_neq _ _)) by exact Hnz.
    erewrite bind_ret by reflexivity. rewrite Eld, Hfree. erewrite bind_ret by reflexivity. by rewrite Epte.
  - eapply mapped_trans; [apply Hk|exact Hm1|]. eapply mapped_ext; [|exact Hm2].
    intros va Hva. cbn beta. unfold map_range. rewrite (mp_pte _ _ _ _ _ _ Hm1) by done.
    destruct (decide (va / 4096 = a / 4096)) as [E|E];
      [rewrite decide_True by lia; lia|by rewrite decide_False by lia].
Qed.

Lemma mappages_loop_ok n : forall s l pgdir a last pa perm f,
  kmem_ok s l -> pt_ok (k_mem s) l pgdir -> 0 <= a -> a mod 4096 = 0 -> last = a + 4096 * Z.of_nat n ->
  last < 4294967296 -> 0 <= pa -> pa mod 4096 = 0 -> pa + 4096 * Z.of_nat n < 4294967296 ->
  0 <= perm < 4096 -> (n < f)%nat ->
  (forall va, a <= va < last + 4096 -> present (pte_at (k_mem s) pgdir va) = false) ->
  (exists s' l', mappages_loop pgdir a last pa perm f s = Ret 0 s' /\
     mapped s l pgdir s' l' (map_range (pte_at (k_mem s) pgdir) a pa perm (Z.of_nat n + 1))) \/
  (exists s' k, mappages_loop pgdir a last pa perm f s = Ret (-1) s' /\ 0 <= k <= Z.of_nat n /\
     mapped s l pgdir s' [] (map_range (pte_at (k_mem s) pgdir) a pa perm k)).
Proof using HS.
  induction n as [|n IH]; intros s l pgdir a last pa perm [|f] Hk Hp Ha Ham El Hla Hpa Hpm Hpl Hperm Hf Hfree; try lia;
    cbn [mappages_loop];
    (destruct (map_one s l pgdir a pa perm (if a =? last then mret 0 else mappages_loop pgdir (u32 (a + PGSIZE)) last (u32 (pa + PGSIZE)) perm f)
       Hk Hp ltac:(lia) ltac:(lia) Hpm Hperm ltac:(apply Hfree; lia)) as [[-> R]|(s2 & l1 & R & Hm)]; rewrite R;
     [right; exists s, 0; split; [done|]; split; [lia|]; eapply mapped_ext; [|by apply mapped_refl];
      intros va _; unfold map_range; by rewrite decide_False by lia|]).
  - rewrite (proj2 (Z.eqb_eq _ _)) by lia. left. by exists s2, l1.
  - rewrite (proj2 (Z.eqb_neq _ _)) by lia. unfold PGSIZE. rewrite !u32_small by lia.
    assert (Hstep : forall s' l' k, 0 <= k -> mapped s2 l1 pgdir s' l' (map_range (pte_at (k_mem s2) pgdir) (a + 4096) (pa + 4096) perm k) ->
      mapped s l pgdir s' l' (map_range (pte_at (k_mem s) pgdir) a pa perm (k + 1))).
    { intros s' l' k Hk0 Hm'. eapply mapped_trans; [apply Hk|exact Hm|]. eapply mapped_ext; [|exact Hm'].
      intros va Hva. rewrite <- map_range_step by lia. unfold map_range at 1 2. case_decide; [done|].
      by apply (mp_pte _ _ _ _ _ _ Hm). }
    destruct (IH s2 l1 pgdir (a + 4096) last (pa + 4096) perm f)
      as [(s' & l' & R' & Hm')|(s' & k & R' & Hk' & Hm')]; try (by apply Hm); try lia; try zdiv.
    + intros va Hva. rewrite (mp_pte _ _ _ _ _ _ Hm) by zdiv. unfold map_range. rewrite decide_False by zdiv.
      apply Hfree. lia.
    + left. exists s', l'. split; [exact R'|]. replace (Z.of_nat (S n) + 1) with (Z.of_nat n + 1 + 1) by lia.
      apply Hstep; [lia|done].
    + right. exists s', (k + 1). split; [exact R'|]. split; [lia|]. apply Hstep; [lia|done].
Qed.

Lemma mappages_ok s l pgdir va size pa perm :
  kmem_ok s l -> pt_ok (k_mem s) l pgdir -> 0 <= va -> 0 < size -> va + size <= 4294967296 ->
  0 <= pa -> pa mod 4096 = 0 -> 0 <= perm < 4096 ->
  let n := (va + size - 1) / 4096 - va / 4096 + 1 in pa + 4096 * n <= 4294967296 ->
  (forall a, va / 4096 <= a / 4096 < va / 4096 + n -> present (pte_at (k_mem s) pgdir a) = false) ->
  (exists s' l', mappages pgdir va size pa perm s = Ret 0 s' /\
     mapped s l pgdir s' l' (map_range (pte_at (k_mem s) pgdir) va pa perm n)) \/
  (exists s' k, mappages pgdir va size pa perm s = Ret (-1) s' /\ 0 <= k < n /\
     mapped s l pgdir s' [] (map_range (pte_at (k_mem s) pgdir) va pa perm k)).
Proof using HS.
  intros Hk Hp Hva Hsz Hend Hpa Hpm Hperm n Hpe Hfree. unfold mappages. cbv zeta.
  rewrite (u32_small (va + size - 1)), !pgrounddown_eq by lia. unfold PGSIZE.
  set (a := va - va mod 4096). set (last := va + size - 1 - (va + size - 1) mod 4096).
  assert (Ea : a / 4096 = va / 4096 /\ a mod 4096 = 0 /\ 0 <= a) by (unfold a; zdiv).
  assert (El : last = a + 4096 * Z.of_nat (Z.to_nat (n - 1))) by (unfold last, a, n; zdiv).
  assert (Hll : last < 4294967296) by (unfold last; zdiv).
  rewrite u32_small by lia. destruct Ea as (Ea & Eam & Ea0).
  assert (En : Z.of_nat (Z.to_nat (n - 1)) = n - 1) by (unfold n; zdiv).
  assert (Hmr : forall f k va', map_range f a pa perm k va' = map_range f va pa perm k va')
    by (intros; unfold map_range; by rewrite Ea).
  destruct (mappages_loop_ok (Z.to_nat (n - 1)) s l pgdir a last pa perm (S (Z.to_nat ((last - a) / 4096))))
    as [(s' & l' & R & Hm)|(s' & k & R & Hkk & Hm)]; try done; try lia.
  - rewrite El. replace ((a + 4096 * Z.of_nat (Z.to_nat (n - 1)) - a) / 4096) with (n - 1) by zdiv. lia.
  - intros va' Hva'. apply Hfree. rewrite El in Hva'. zdiv.
  - left. exists s', l'. split; [exact R|]. rewrite En in Hm. replace (n - 1 + 1) with n in Hm by lia.
    eapply mapped_ext; [|exact Hm]. intros. apply Hmr.
  - right. exists s', k. split; [exact R|]. split; [lia|]. eapply mapped_ext; [|exact Hm]. intros. apply Hmr.
Qed.

End Theory.
