(* ===== verification/VmUser.v ===== *)
(** * User address spaces: theorems about vm.c, part 2

    An address space [as_ok] owns a directory, its tables and one page of
    memory for each user page; no page is owned twice, none is on the free
    list.  allocuvm, deallocuvm, freevm, copyuvm and copyout keep this, lose
    no page ([conserved]), and change the bytes of user memory as they
    should. *)

From stdpp Require Import base list sets strings.
From Stdlib Require Import ZArith Lia.
From S2P Require Import Prelude Kalloc Vm.

Local Open Scope Z_scope.

Section Theory.
Context {SY : Symbols} {HS : SymbolsOk}.

(** ** User memory *)

Definition upage (m : mem) (pgdir va : Z) : Z := P2V (PTE_ADDR (pte_at m pgdir va)).
Definition umapped (m : mem) (pgdir va : Z) : Prop :=
  0 <= va < KERNBASE /\ present (pte_at m pgdir va) = true.
Definition ubyte (m : mem) (pgdir va : Z) : Z := m (upage m pgdir va + va mod 4096).

(** The pages an address space is made of. *)
Definition is_table (m : mem) (pgdir p : Z) : Prop :=
  exists i, 0 <= i < 1024 /\ present (pde m pgdir i) = true /\ tab m pgdir i = p.
Definition is_upage (m : mem) (pgdir p : Z) : Prop :=
  exists va, umapped m pgdir va /\ upage m pgdir va = p.
Definition owned (m : mem) (pgdir p : Z) : Prop :=
  p = pgdir \/ is_table m pgdir p \/ is_upage m pgdir p.

(** A well-formed address space: every user page has one page of memory to
    itself. *)
Record as_ok (s : kst) (l : list Z) (pgdir : Z) : Prop := mkas_ok {
  ao_k : kmem_ok s l;
  ao_pt : pt_ok (k_mem s) l pgdir;
  ao_page : forall va, umapped (k_mem s) pgdir va ->
    Page (upage (k_mem s) pgdir va) /\ upage (k_mem s) pgdir va ∉ l /\
    upage (k_mem s) pgdir va <> pgdir /\ ~ is_table (k_mem s) pgdir (upage (k_mem s) pgdir va);
  ao_inj : forall va va', umapped (k_mem s) pgdir va -> umapped (k_mem s) pgdir va' ->
    upage (k_mem s) pgdir va = upage (k_mem s) pgdir va' -> va / 4096 = va' / 4096 }.

(** A page in hand: neither free nor part of the address space. *)
Definition in_hand (s : kst) (l : list Z) (pgdir p : Z) : Prop :=
  Page p /\ p ∉ l /\ ~ owned (k_mem s) pgdir p.

(** The pages are conserved: free before or owned, and the same after. *)
Definition conserved (m : mem) (l : list Z) (pgdir : Z) (m' : mem) (l' : list Z) : Prop :=
  forall p, p ∈ l \/ owned m pgdir p <-> p ∈ l' \/ owned m' pgdir p.

Lemma umapped_page m pgdir va va' : umapped m pgdir va -> 0 <= va' < KERNBASE -> va' / 4096 = va / 4096 ->
  umapped m pgdir va' /\ upage m pgdir va' = upage m pgdir va.
Proof using.
  intros [H1 H2] Hva E. unfold KERNBASE in *. apply same_page in E as [E1 E2]; [|lia..].
  unfold umapped, upage, pte_at in *. rewrite E1, E2. done.
Qed.

Lemma mapped_tables s l pgdir s' l' f : mapped s l pgdir s' l' f ->
  exists ts, l = ts ++ l' /\ (forall p, is_table (k_mem s') pgdir p -> is_table (k_mem s) pgdir p \/ p ∈ ts) /\
    (forall p, p ∈ ts -> is_table (k_mem s') pgdir p).
Proof using.
  intros Hm. destruct (mp_new _ _ _ _ _ _ Hm) as (ts & E & Ht & Ht'). exists ts. split; [done|]. split; [|done].
  intros p (i & Hi & Hp & <-). destruct (Ht i Hi Hp) as [E'|Hin]; [left|by right].
  exists i. unfold tab. rewrite E' in *. done.
Qed.

Lemma mapped_tables_old s l pgdir s' l' f p : mapped s l pgdir s' l' f ->
  is_table (k_mem s) pgdir p -> is_table (k_mem s') pgdir p.
Proof using.
  intros Hm (i & Hi & Hp & <-). exists i. pose proof (mp_old _ _ _ _ _ _ Hm i Hi Hp) as E.
  unfold tab. by rewrite E.
Qed.

(** A page that is neither directory nor table nor free keeps its bytes. *)
Lemma mapped_keep s l pgdir s' l' f q b :
  kmem_ok s l -> pt_ok (k_mem s) l pgdir -> mapped s l pgdir s' l' f ->
  Page q -> q <> pgdir -> q ∉ l -> ~ is_table (k_mem s) pgdir q ->
  q <= b < q + 4096 -> k_mem s' b = k_mem s b.
Proof using HS.
  intros Hk Hp Hm Hq H1 H2 H3 Hb. apply (mp_frame _ _ _ _ _ _ Hm).
  - destruct (pk_dir _ _ _ Hp). by apply (Page_apart q).
  - intros r Hr _. apply (Page_apart q); try done; [|by intros ->].
    pose proof (km_pages _ _ Hk) as Hf. rewrite Forall_forall in Hf. by apply Hf.
  - intros i Hi Hpr. apply (Page_apart q); try done; [by apply (pk_tab _ _ _ Hp)|].
    intros ->. apply H3. by exists i.
Qed.

Definition ukeep (m : mem) (pgdir : Z) (m' : mem) : Prop :=
  forall va b, umapped m pgdir va -> upage m pgdir va <= b < upage m pgdir va + 4096 -> m' b = m b.

Lemma mapped_ukeep s l pgdir s' l' f :
  as_ok s l pgdir -> mapped s l pgdir s' l' f -> ukeep (k_mem s) pgdir (k_mem s').
Proof using HS.
  intros [Hk Hp Hu Hi] Hm va b Hva Hb. destruct (Hu va Hva) as (A & B & C & D).
  by apply (mapped_keep s l pgdir s' l' f (upage (k_mem s) pgdir va)).
Qed.

(** The user entries read the same: the address space is well formed, and
    the pages taken from the free list are its tables. *)
Lemma mapped_same s l pgdir s' l' :
  as_ok s l pgdir -> mapped s l pgdir s' l' (pte_at (k_mem s) pgdir) ->
  as_ok s' l' pgdir /\ conserved (k_mem s) l pgdir (k_mem s') l'.
Proof using HS.
  intros [Hk Hp Hu Hi] Hm. destruct (mapped_tables _ _ _ _ _ _ Hm) as (ts & E & Ht & Ht').
  assert (Hum : forall va, umapped (k_mem s') pgdir va <-> umapped (k_mem s) pgdir va).
  { intros va. unfold umapped. split; intros [H1 H2]; (split; [done|]); unfold KERNBASE in *;
      rewrite (mp_pte _ _ _ _ _ _ Hm) in * by lia; done. }
  assert (Hup : forall va, umapped (k_mem s) pgdir va -> upage (k_mem s') pgdir va = upage (k_mem s) pgdir va).
  { intros va [H1 H2]. unfold upage, KERNBASE in *. by rewrite (mp_pte _ _ _ _ _ _ Hm) by lia. }
  split; [split; [apply Hm|apply Hm|..]|].
  - intros va Hva%Hum. rewrite Hup by done. destruct (Hu va Hva) as (A & B & C & D).
    split_and!; try done; [rewrite E in B; set_solver|].
    intros [?|Hin]%Ht; [done|]. apply B. rewrite E. set_solver.
  - intros va va' Hva%Hum Hva'%Hum. rewrite !Hup by done. by apply Hi.
  - intros p. rewrite E, elem_of_app. split.
    + intros [[Hin|Hin]|[->|[Htb|(va & Hva & <-)]]].
      * right. right. left. by apply Ht'.
      * by left.
      * right. by left.
      * right. right. left. by eapply mapped_tables_old.
      * right. right. right. exists va. split; [by apply Hum|by apply Hup].
    + intros [Hin|[->|[Htb|(va & Hva & <-)]]]; [by left; right|by right; left| |].
      * destruct (Ht p Htb); [right; right; by left|by left; left].
      * right. right. right. exists va. split; [by apply Hum|]. symmetry. apply Hup. by apply Hum.
Qed.

(** A page in hand gets mapped at [a]. *)
Section MapUser.
Context (s : kst) (l : list Z) (pgdir a p perm : Z) (s' : kst) (l' : list Z).
Hypothesis Hok : as_ok s l pgdir.
Hypothesis Hp : in_hand s l pgdir p.
Hypothesis Ha : 0 <= a < KERNBASE.
Hypothesis Hn : present (pte_at (k_mem s) pgdir a) = false.
Hypothesis Hperm : 0 <= perm < 4096.
Hypothesis Hm : mapped s l pgdir s' l' (map_range (pte_at (k_mem s) pgdir) a (V2P p) perm 1).

Lemma map_user_pte va : 0 <= va < 4294967296 -> pte_at (k_mem s') pgdir va =
  if decide (va / 4096 = a / 4096) then V2P p + Z.lor perm PTE_P else pte_at (k_mem s) pgdir va.
Proof using Hm.
  intros Hva. rewrite (mp_pte _ _ _ _ _ _ Hm) by done. unfold map_range.
  destruct (decide (va / 4096 = a / 4096)) as [E|E]; [rewrite decide_True by lia; lia|by rewrite decide_False by lia].
Qed.

Lemma map_user_umapped va : umapped (k_mem s') pgdir va <->
  (0 <= va < KERNBASE /\ va / 4096 = a / 4096) \/ umapped (k_mem s) pgdir va.
Proof using HS Hm Hperm Hp.
  destruct Hp as (Hpp & _ & _). destruct (perm_lor perm Hperm) as [Hb Ho].
  unfold umapped, KERNBASE in *. split.
  - intros [H1 H2]. rewrite map_user_pte in H2 by lia. case_decide; [by left|by right].
  - intros [[H1 E]|[H1 H2]]; (split; [done|]); rewrite map_user_pte by lia.
    + rewrite decide_True by done. rewrite present_entry by done. by apply Z.eqb_eq.
    + case_decide; [|done]. rewrite present_entry by done. by apply Z.eqb_eq.
Qed.

Lemma map_user_upage va : 0 <= va < KERNBASE -> upage (k_mem s') pgdir va =
  if decide (va / 4096 = a / 4096) then p else upage (k_mem s) pgdir va.
Proof using HS Hm Hperm Hp.
  intros Hva. unfold upage, KERNBASE in *. rewrite map_user_pte by lia. case_decide; [|done].
  destruct (perm_lor perm Hperm) as [Hb _]. destruct Hp as (Hpp & _ & _). by apply entry_page.
Qed.

Lemma map_user_old va : umapped (k_mem s) pgdir va -> va / 4096 <> a / 4096.
Proof using Hn Ha.
  intros Hva E. destruct (umapped_page _ _ va a Hva Ha ltac:(done)) as [[_ Hc] _]. congruence.
Qed.

Lemma map_user_as : as_ok s' l' pgdir.
Proof using HS Hok Hp Hm Hperm Hn Ha.
  destruct (mapped_tables _ _ _ _ _ _ Hm) as (ts & E & Ht & Ht'). destruct Hp as (Hpp & Hpl & Hpo).
  assert (Hnew : forall q, is_table (k_mem s') pgdir q -> is_table (k_mem s) pgdir q \/ q ∈ l)
    by (intros q [?|?]%Ht; [by left|right; rewrite E; set_solver]).
  assert (Hlo : forall va, umapped (k_mem s) pgdir va -> upage (k_mem s) pgdir va <> p)
    by (intros va Hva Eq; apply Hpo; right; right; by exists va).
  split; [apply Hm|apply Hm|..].
  - intros va Hva. pose proof Hva as Hv2. apply map_user_umapped in Hva.
    rewrite map_user_upage by apply Hv2. case_decide as Ed.
    + split_and!; try done; [rewrite E in Hpl; set_solver|intros ->; apply Hpo; by left|].
      intros [?|?]%Hnew; [apply Hpo; right; by left|done].
    + destruct Hva as [[_ ?]|Hva]; [done|]. destruct (ao_page _ _ _ Hok va Hva) as (A & B & C & D).
      split_and!; try done; [rewrite E in B; set_solver|]. by intros [?|?]%Hnew.
  - intros va va' Hva Hva'. pose proof Hva as Hv. pose proof Hva' as Hv'.
    apply map_user_umapped in Hva, Hva'. rewrite !map_user_upage by (apply Hv || apply Hv').
    repeat case_decide; try congruence; (destruct Hva as [[_ ?]|Hva], Hva' as [[_ ?]|Hva']; try done);
      intros Eq; try (exfalso; by eapply Hlo; eauto); try (by apply (ao_inj _ _ _ Hok)).
    all: exfalso; eapply Hlo; [|exact Eq || (symmetry; exact Eq)]; done.
Qed.

Lemma map_user_conserved q :
  q ∈ l \/ owned (k_mem s) pgdir q \/ q = p <-> q ∈ l' \/ owned (k_mem s') pgdir q.
Proof using HS Hok Hp Hm Hperm Hn Ha.
  destruct (mapped_tables _ _ _ _ _ _ Hm) as (ts & E & Ht & Ht').
  assert (Hua : umapped (k_mem s') pgdir a) by (apply map_user_umapped; by left).
  rewrite E, elem_of_app. split.
  - intros [[Hin|Hin]|[[->|[Htb|(va & Hva & <-)]]| ->]].
    + right. right. left. by apply Ht'.
    + by left.
    + right. by left.
    + right. right. left. by eapply mapped_tables_old.
    + right. right. right. exists va. split; [apply map_user_umapped; by right|].
      rewrite map_user_upage by apply Hva. rewrite decide_False; [done|]. by apply map_user_old.
    + right. right. right. exists a. split; [done|]. by rewrite map_user_upage, decide_True by done.
  - intros [Hin|[->|[Htb|(va & Hva & <-)]]]; [by left; right|by right; left; left| |].
    + destruct (Ht q Htb); [right; left; right; by left|by left; left].
    + rewrite map_user_upage by apply Hva. case_decide; [by right; right|].
      apply map_user_umapped in Hva as [[_ ?]|Hva]; [done|]. right; left; right; right. by exists va.
Qed.

End MapUser.

(** *** Unmapping *)

(** The start of the page of [va]. *)
Definition pg (va : Z) : Z := va / 4096 * 4096.

(** The pages whose start satisfies [P] are unmapped and free again; the rest
    of the address space is as it was. *)
Record unmapped (s : kst) (l : list Z) (pgdir : Z) (s' : kst) (l' : list Z) (P : Z -> bool) : Prop := mkunmapped {
  um_as : as_ok s' l' pgdir;
  um_pte : forall va, 0 <= va < 4294967296 -> pte_at (k_mem s') pgdir va =
    if P (pg va) && present (pte_at (k_mem s) pgdir va) then 0 else pte_at (k_mem s) pgdir va;
  um_pde : forall i, 0 <= i < 1024 -> pde (k_mem s') pgdir i = pde (k_mem s) pgdir i;
  um_pages : conserved (k_mem s) l pgdir (k_mem s') l';
  um_list : exists fs, l' = fs ++ l;
  um_bytes : forall va b, umapped (k_mem s) pgdir va -> P (pg va) = false ->
    upage (k_mem s) pgdir va <= b < upage (k_mem s) pgdir va + 4096 -> k_mem s' b = k_mem s b }.

Lemma present0 : present 0 = false.
Proof using. done. Qed.

Section UnmapOne.
Context (s : kst) (l : list Z) (pgdir a : Z).
Hypothesis Hok : as_ok s l pgdir.
Hypothesis Ha : umapped (k_mem s) pgdir a.
Let p := upage (k_mem s) pgdir a.
Let s1 := kfreed p s.
Let s2 := set_mem (st32 (k_mem s1) (pte_addr (k_mem s1) pgdir a) 0) s1.

Lemma unmap_kfree :
  kmem_ok s1 (p :: l) /\ pt_ok (k_mem s1) (p :: l) pgdir /\
  (forall i, 0 <= i < 1024 -> pde (k_mem s1) pgdir i = pde (k_mem s) pgdir i) /\
  (forall va, pte_at (k_mem s1) pgdir va = pte_at (k_mem s) pgdir va) /\
  mapped s1 (p :: l) pgdir s2 (p :: l)
    (fun va => if decide (va / 4096 = a / 4096) then 0 else pte_at (k_mem s1) pgdir va).
Proof using HS Hok Ha.
  destruct (ao_page _ _ _ Hok a Ha) as (Hp & Hpl & Hpd & Hpt). fold p in Hp, Hpl, Hpd, Hpt.
  pose proof (ao_pt _ _ _ Hok) as Hpk.
  assert (Hout : forall q b, Page q -> q <> p -> q <= b < q + 4096 -> k_mem s1 b = k_mem s b).
  { intros q b Hq Hne Hb. apply kfreed_out. by apply (Page_apart q). }
  destruct (pte_at_ext (k_mem s) (k_mem s1) l pgdir Hpk) as [Hpde Hpte].
  { intros b. apply Hout; [apply Hpk|done]. }
  { intros i b Hi Hpr. apply Hout; [by apply Hpk|]. intros E. apply Hpt. by exists i. }
  assert (Hk1 : kmem_ok s1 (p :: l)) by (apply kfreed_ok; try done; [apply Hok|apply Hp|apply Hp]).
  assert (Hpt1 : pt_ok (k_mem s1) (p :: l) pgdir).
  { split.
    - destruct (pk_dir _ _ _ Hpk). split; [done|]. by rewrite not_elem_of_cons.
    - intros i Hi. unfold tab. rewrite Hpde by done. intros Hpr. destruct (pk_tab _ _ _ Hpk i Hi Hpr) as (A & B & C).
      split_and!; try done. rewrite not_elem_of_cons. split; [|done]. intros E. apply Hpt. by exists i.
    - intros i j Hi Hj. unfold tab. rewrite !Hpde by done. by apply Hpk. }
  split_and!; try done. apply set_pte; try done; [destruct Ha as [? _]; unfold KERNBASE in *; lia|].
  rewrite Hpde by apply PDX_range. destruct Ha as [_ Hpr]. unfold pte_at in Hpr.
  by destruct (present (pde _ _ _)).
Qed.

Lemma unmap_pte va : 0 <= va < 4294967296 -> pte_at (k_mem s2) pgdir va =
  if decide (va / 4096 = a / 4096) then 0 else pte_at (k_mem s) pgdir va.
Proof using HS Hok Ha.
  destruct unmap_kfree as (_ & _ & _ & Hpte1 & Hm). intros Hva. by rewrite (mp_pte _ _ _ _ _ _ Hm), Hpte1 by done.
Qed.

Lemma unmap_pde i : 0 <= i < 1024 -> pde (k_mem s2) pgdir i = pde (k_mem s) pgdir i.
Proof using HS Hok Ha.
  intros Hi. destruct unmap_kfree as (_ & Hpt1 & Hpde1 & _). rewrite <- Hpde1 by done.
  apply ld32_ext. intros b Hb. apply (st32_out (k_mem s1)).
  assert (Hpra : present (pde (k_mem s1) pgdir (PDX a)) = true).
  { rewrite Hpde1 by apply PDX_range. destruct Ha as [_ Hpr]. unfold pte_at in Hpr. by destruct (present (pde _ _ _)). }
  destruct (pte_addr_in _ _ _ _ Hpt1 Hpra) as (A & B & _ & -> & _). pose proof (PTX_range a).
  assert (Ho : outside (tab (k_mem s1) pgdir (PDX a)) b).
  { apply (Page_apart pgdir); [apply Hpt1|done|by apply not_eq_sym|lia]. }
  unfold outside in Ho. lia.
Qed.

Lemma unmap_tab q : is_table (k_mem s2) pgdir q <-> is_table (k_mem s) pgdir q.
Proof using HS Hok Ha.
  unfold is_table, tab. split; intros (i & Hi & H1 & H2); pose proof (unmap_pde i Hi) as E; exists i; (split; [exact Hi|]).
  - rewrite E in H1, H2. split; assumption.
  - rewrite E. split; assumption.
Qed.

Lemma unmap_umapped va : umapped (k_mem s2) pgdir va <-> umapped (k_mem s) pgdir va /\ va / 4096 <> a / 4096.
Proof using HS Hok Ha.
  unfold umapped, KERNBASE. split.
  - intros [H1 H2]. rewrite unmap_pte in H2 by lia. case_decide; [by rewrite present0 in H2|done].
  - intros [[H1 H2] H3]. split; [done|]. by rewrite unmap_pte, decide_False by (done || lia).
Qed.

Lemma unmap_upage va : umapped (k_mem s2) pgdir va -> upage (k_mem s2) pgdir va = upage (k_mem s) pgdir va.
Proof using HS Hok Ha.
  intros Hva. apply unmap_umapped in Hva as [[H1 _] H3]. unfold upage, KERNBASE in *.
  by rewrite unmap_pte, decide_False by (done || lia).
Qed.

Lemma unmap_ne va : umapped (k_mem s) pgdir va -> va / 4096 <> a / 4096 -> upage (k_mem s) pgdir va <> p.
Proof using Hok Ha. intros Hva Hd E. apply Hd. by apply (ao_inj _ _ _ Hok). Qed.

Lemma unmap_as : as_ok s2 (p :: l) pgdir.
Proof using HS Hok Ha.
  destruct unmap_kfree as (_ & _ & _ & _ & Hm). split; [apply Hm|apply Hm|..].
  - intros va Hva. rewrite unmap_upage by done. apply unmap_umapped in Hva as [Hva Hd].
    destruct (ao_page _ _ _ Hok va Hva) as (A & B & C & D). rewrite unmap_tab, not_elem_of_cons.
    split_and!; try done. by apply unmap_ne.
  - intros va va' Hva Hva'. rewrite !unmap_upage by done.
    apply unmap_umapped in Hva as [Hva _], Hva' as [Hva' _]. by apply (ao_inj _ _ _ Hok).
Qed.

Lemma unmap_conserved : conserved (k_mem s) l pgdir (k_mem s2) (p :: l).
Proof using HS Hok Ha.
  intros q. rewrite elem_of_cons. unfold owned. rewrite unmap_tab. split.
  - intros [Hin|[->|[Htb|(va & Hva & <-)]]]; [by left; right|by right; left|by right; right; left|].
    destruct (decide (va / 4096 = a / 4096)) as [E|E].
    + left. left. apply (umapped_page _ _ a); [done|apply Hva|done].
    + right; right; right. exists va. assert (umapped (k_mem s2) pgdir va) by (by apply unmap_umapped).
      by rewrite unmap_upage.
  - intros [[->|Hin]|[->|[Htb|(va & Hva & <-)]]];
      [right; right; right; by exists a|by left|by right; left|by right; right; left|].
    right; right; right. exists va. rewrite unmap_upage by done. apply unmap_umapped in Hva as [Hva _]. done.
Qed.

Lemma unmap_one : a mod 4096 = 0 -> unmapped s l pgdir s2 (p :: l) (Z.eqb a).
Proof using HS Hok Ha.
  intros Ham. destruct unmap_kfree as (Hk1 & Hpt1 & Hpde1 & Hpte1 & Hm).
  assert (Hdec : forall va, (a =? pg va) = true <-> va / 4096 = a / 4096) by (intros; unfold pg; rewrite Z.eqb_eq; zdiv).
  split; [apply unmap_as| |apply unmap_pde|apply unmap_conserved|by exists [p]|].
  - intros va Hva. rewrite unmap_pte by done. destruct (decide (va / 4096 = a / 4096)) as [E|E].
    + rewrite (proj2 (Hdec va)) by done.
      apply same_page in E as [E1 E2]; [|destruct Ha; unfold KERNBASE in *; lia|done].
      destruct Ha as [_ Hpr]. unfold pte_at in *. rewrite E1, E2. by rewrite Hpr.
    + by rewrite (proj1 (not_true_iff_false (a =? pg va))) by (by rewrite Hdec).
  - intros va b Hva Hd Hb. apply not_true_iff_false in Hd. rewrite Hdec in Hd.
    destruct (ao_page _ _ _ Hok va Hva) as (A & B & C & D).
    rewrite (mapped_keep s1 (p :: l) pgdir s2 (p :: l) _ (upage (k_mem s) pgdir va) b Hk1 Hpt1 Hm A C); [|..|done].
    + apply kfreed_out. apply (Page_apart (upage (k_mem s) pgdir va)); try done; [|by apply unmap_ne].
      by apply (ao_page _ _ _ Hok).
    + rewrite not_elem_of_cons. split; [by apply unmap_ne|done].
    + intros (i & Hi & H1 & H2). apply D. exists i. unfold tab in *. rewrite !Hpde1 in * by done. done.
Qed.

End UnmapOne.

Lemma pg_mod va : pg va mod 4096 = 0.
Proof using. unfold pg. apply Z.mod_mul. lia. Qed.

Lemma unmapped_none s l pgdir P :
  as_ok s l pgdir ->
  (forall va, 0 <= va < 4294967296 -> P (pg va) = true -> present (pte_at (k_mem s) pgdir va) = false) ->
  unmapped s l pgdir s l P.
Proof using.
  intros Hok Hn. split; try done; [|by exists []].
  intros va Hva. destruct (P (pg va)) eqn:E; [|done]. by rewrite Hn.
Qed.

Lemma unmapped_ext s l pgdir s' l' P Q :
  (forall x, x mod 4096 = 0 -> P x = Q x) -> unmapped s l pgdir s' l' P -> unmapped s l pgdir s' l' Q.
Proof using.
  intros HE [A1 A2 A3 A4 A5 A6]. split; try done.
  - intros va Hva. rewrite <- HE by apply pg_mod. by apply A2.
  - intros va b Hva. rewrite <- HE by apply pg_mod. by apply A6.
Qed.

Lemma unmapped_trans s l pgdir s1 l1 s2 l2 P Q :
  unmapped s l pgdir s1 l1 P -> unmapped s1 l1 pgdir s2 l2 Q -> unmapped s l pgdir s2 l2 (fun x => P x || Q x).
Proof using.
  intros [A1 A2 A3 A4 [f1 A5] A6] [B1 B2 B3 B4 [f2 B5] B6]. split; try done.
  - intros va Hva. rewrite B2, A2 by done.
    destruct (P (pg va)), (Q (pg va)), (present (pte_at (k_mem s) pgdir va)) eqn:E; cbn; rewrite ?E; done.
  - intros i Hi. by rewrite B3, A3.
  - intros p. by rewrite (A4 p).
  - exists (f2 ++ f1). by rewrite B5, A5, (assoc (++)).
  - intros va b Hva Hn Hb. apply orb_false_iff in Hn as [Hn1 Hn2].
    assert (Hva1 : umapped (k_mem s1) pgdir va /\ upage (k_mem s1) pgdir va = upage (k_mem s) pgdir va).
    { destruct Hva as [H1 H2]. unfold umapped, upage, KERNBASE in *. rewrite A2, Hn1 by lia. done. }
    destruct Hva1 as [Hva1 E]. rewrite (B6 va b); try done; [|by rewrite E]. by apply (A6 va b).
Qed.

(** The next directory entry. *)
Lemma next_pde a : 0 <= a < KERNBASE ->
  u32 (u32 (PGADDR (PDX a + 1) 0 0 - PGSIZE) + PGSIZE) = (a / 4194304 + 1) * 4194304.
Proof using.
  unfold KERNBASE. intros Ha. unfold PGADDR, PGSIZE. rewrite PDX_eq by lia.
  rewrite Z.shiftl_0_l, Z.lor_0_r, Z.lor_0_r, Z.shiftl_mul_pow2 by lia. change (2 ^ 22) with 4194304.
  assert (0 <= a / 4194304 < 512) by zdiv. rewrite (u32_small ((a / 4194304 + 1) * 4194304)) by lia.
  rewrite (u32_small (_ - 4096)) by lia. rewrite u32_small by lia. lia.
Qed.

Definition in_range (lo hi x : Z) : bool := (lo <=? x) && (x <? hi).

Lemma in_range_split lo mid hi x : lo <= mid -> (forall y, y mod 4096 = 0 -> lo <= y < mid -> y < hi) ->
  x mod 4096 = 0 -> in_range lo mid x || in_range mid hi x = in_range lo hi x.
Proof using.
  intros Hr Hh Hx. unfold in_range.
  destruct (Z.leb_spec lo x), (Z.ltb_spec x mid), (Z.leb_spec mid x), (Z.ltb_spec x hi); cbn; try done; try lia.
  specialize (Hh x Hx). lia.
Qed.

(** One turn of the loop where a table exists. *)
Lemma dealloc_step s l pgdir a (k : M kst unit) :
  as_ok s l pgdir -> 0 <= a < KERNBASE -> a mod 4096 = 0 -> present (pde (k_mem s) pgdir (PDX a)) = true ->
  exists s' l', ((e ← ld (pte_addr (k_mem s) pgdir a);
     (if present e then
        let pa := PTE_ADDR e in
        if pa =? 0 then panic "kfree" else
        kfree (P2V pa) ;; st (pte_addr (k_mem s) pgdir a) 0
      else mret tt) ;; k) s = k s') /\ unmapped s l pgdir s' l' (Z.eqb a).
Proof using HS.
  intros Hok Ha Ham Hpr. erewrite bind_ret by reflexivity.
  assert (El : ld32 (k_mem s) (pte_addr (k_mem s) pgdir a) = pte_at (k_mem s) pgdir a)
    by (unfold pte_at, pte_addr; by rewrite Hpr). rewrite El.
  destruct (present (pte_at (k_mem s) pgdir a)) eqn:Hpa.
  - assert (Hum : umapped (k_mem s) pgdir a) by done. destruct (ao_page _ _ _ Hok a Hum) as (Hpg & _).
    assert (Hpz : PTE_ADDR (pte_at (k_mem s) pgdir a) <> 0).
    { intros Ez. unfold upage in Hpg. rewrite Ez in Hpg. apply Page_kern in Hpg as [_ [Hlt _]]. by vm_compute in Hlt. }
    cbv zeta. rewrite (proj2 (Z.eqb_neq _ _)) by done. eexists _, _. split; [|by apply unmap_one].
    erewrite bind_ret by (erewrite bind_ret by (apply kfree_page, Hpg); reflexivity).
    destruct (unmap_kfree s l pgdir a Hok Hum) as (_ & _ & Hpde1 & _).
    f_equal. f_equal. unfold pte_addr, tab. by rewrite (Hpde1 (PDX a) (PDX_range a)).
  - exists s, l. split; [done|]. apply unmapped_none; [done|]. intros va Hva E. apply Z.eqb_eq in E.
    assert (Es : va / 4096 = a / 4096) by (unfold pg in E; zdiv). unfold KERNBASE in Ha.
    apply same_page in Es as [E1 E2]; [|lia..]. unfold pte_at in *. rewrite E1, E2. exact Hpa.
Qed.

Lemma dealloc_loop_ok f : forall s l pgdir a oldsz,
  as_ok s l pgdir -> 0 <= a -> a mod 4096 = 0 -> oldsz <= KERNBASE ->
  oldsz <= a + 4096 * (Z.of_nat f - 1) -> (0 < f)%nat ->
  exists s' l', deallocuvm_loop pgdir a oldsz f s = Ret tt s' /\ unmapped s l pgdir s' l' (in_range a oldsz).
Proof using HS.
  induction f as [|f IH]; intros s l pgdir a oldsz Hok Ha Ham Ho Hf Hf0; [lia|].
  cbn [deallocuvm_loop]. destruct (Z.ltb_spec a oldsz) as [Hlt|Hge].
  2: { exists s, l. split; [done|]. apply unmapped_none; [done|]. intros va _ E. unfold in_range in E. zbool. lia. }
  erewrite bind_ret by apply walk_look.
  destruct (present (pde (k_mem s) pgdir (PDX a))) eqn:Hpr.
  - destruct (pte_addr_in _ _ _ _ (ao_pt _ _ _ Hok) Hpr) as (_ & _ & _ & _ & Hnz).
    rewrite (proj2 (Z.eqb_neq _ _)) by done.
    destruct (dealloc_step s l pgdir a (deallocuvm_loop pgdir (u32 (a + PGSIZE)) oldsz f) Hok ltac:(lia) Ham Hpr)
      as (s1 & l1 & R & Hu). unfold PGSIZE, KERNBASE in *. rewrite u32_small in * by lia.
    destruct (IH s1 l1 pgdir (a + 4096) oldsz) as (s' & l' & R' & Hu'); try lia; [apply Hu|zdiv|].
    exists s', l'. split; [exact (eq_trans R R')|]. eapply unmapped_ext; [|eapply unmapped_trans; [exact Hu|exact Hu']].
    intros x Hx. cbn beta. rewrite <- (in_range_split a (a + 4096) oldsz) by (done || (intros; zdiv) || lia).
    f_equal. unfold in_range. destruct (Z.eqb_spec a x), (Z.leb_spec a x), (Z.ltb_spec x (a + 4096)); cbn; try done; zdiv.
  - assert (Ez : pte_addr (k_mem s) pgdir a = 0) by (unfold pte_addr; by rewrite Hpr).
    rewrite Ez, Z.eqb_refl, next_pde by lia. set (b := (a / 4194304 + 1) * 4194304).
    assert (Hb : a < b /\ b mod 4096 = 0 /\ a + 4096 <= b) by (unfold b; zdiv).
    destruct (IH s l pgdir b oldsz) as (s' & l' & R' & Hu'); try lia; [done|].
    exists s', l'. split; [exact R'|].
    assert (Hu : unmapped s l pgdir s l (in_range a (Z.min b oldsz))).
    { apply unmapped_none; [done|]. intros va Hva E. unfold in_range, pg in E. zbool. unfold pte_at.
      assert (PDX va = PDX a) as ->; [|by rewrite Hpr]. unfold KERNBASE in *. rewrite !PDX_eq by lia. unfold b in *. zdiv. }
    eapply unmapped_ext; [|eapply unmapped_trans; [exact Hu|exact Hu']]. intros x Hx. cbn beta. unfold in_range.
    destruct (Z.leb_spec a x), (Z.ltb_spec x (Z.min b oldsz)), (Z.leb_spec b x), (Z.ltb_spec x oldsz); cbn; done || lia.
Qed.

(** The first page start at or after [a]. *)
Definition ru (a : Z) : Z := (a + 4095) / 4096 * 4096.

Lemma ru_ok a : 0 <= a -> ru a mod 4096 = 0 /\ a <= ru a < a + 4096 /\ (a mod 4096 = 0 -> ru a = a).
Proof using. intros. unfold ru. rewrite Z.mod_mul by lia. zdiv. Qed.

Lemma deallocuvm_ok s l pgdir oldsz newsz :
  as_ok s l pgdir -> 0 <= newsz < oldsz -> oldsz <= KERNBASE ->
  exists s' l', deallocuvm pgdir oldsz newsz s = Ret newsz s' /\
    unmapped s l pgdir s' l' (in_range (ru newsz) oldsz).
Proof using HS.
  intros Hok Hn Ho. unfold deallocuvm. rewrite (proj2 (Z.leb_gt _ _)) by lia. cbv zeta.
  unfold KERNBASE in *. rewrite pgroundup_eq by lia. fold (ru newsz). destruct (ru_ok newsz ltac:(lia)) as (H1 & H2 & _).
  destruct (dealloc_loop_ok (S (Z.to_nat ((oldsz - ru newsz + PGSIZE - 1) / PGSIZE))) s l pgdir (ru newsz) oldsz)
    as (s' & l' & R & Hu); try done; try lia.
  - unfold PGSIZE. zdiv.
  - exists s', l'. split; [|done]. by erewrite bind_ret by exact R.
Qed.

(** *** freevm *)

(** The loop over the directory, read in memory [m]: freeing a table does not
    touch the directory. *)
Lemma free_tables n : forall i m s l pgdir,
  kmem_ok s l -> pt_ok m [] pgdir -> (i + n <= 1024)%nat ->
  (forall b, pgdir <= b < pgdir + 4096 -> k_mem s b = m b) ->
  (forall j, Z.of_nat i <= j < Z.of_nat (i + n) -> present (pde m pgdir j) = true -> tab m pgdir j ∉ l) ->
  exists s' fs, forM i n (fun i => e ← ld (pgdir + 4 * Z.of_nat i);
      if present e then kfree (P2V (PTE_ADDR e)) else mret tt) s = Ret tt s' /\
    kmem_ok s' (fs ++ l) /\
    (forall p, p ∈ fs <-> exists j, Z.of_nat i <= j < Z.of_nat (i + n) /\ present (pde m pgdir j) = true /\
       tab m pgdir j = p).
Proof using HS.
  induction n as [|n IH]; intros i m s l pgdir Hk Hp Hn Hb Hl; cbn [forM].
  { exists s, []. split; [done|]. split; [done|]. intros p. split; [by intros ?%not_elem_of_nil|].
    intros (j & Hj & _). lia. }
  assert (El : ld32 (k_mem s) (pgdir + 4 * Z.of_nat i) = pde m pgdir (Z.of_nat i)).
  { apply ld32_ext. intros b Hbb. apply Hb. lia. }
  assert (Hi : 0 <= Z.of_nat i < 1024) by lia.
  destruct (present (pde m pgdir (Z.of_nat i))) eqn:Hpr.
  - destruct (pk_tab _ _ _ Hp _ Hi Hpr) as (A & _ & C). set (t := tab m pgdir (Z.of_nat i)) in *.
    destruct (IH (S i) m (kfreed t s) (t :: l) pgdir) as (s' & fs & R & Hk' & Hf); try done; try lia.
    + apply kfreed_ok; try done; [apply A|apply A|]. apply Hl; [lia|done].
    + intros b Hbb. rewrite kfreed_out; [by apply Hb|]. apply (Page_apart pgdir); [apply Hp|done|by apply not_eq_sym|done].
    + intros j Hj Hpj. rewrite not_elem_of_cons. split; [|apply Hl; [lia|done]].
      intros E. apply (pk_inj _ _ _ Hp) in E; try done; lia.
    + exists s', (fs ++ [t]). rewrite <- (assoc (++)). split; [|split; [done|]].
      * erewrite bind_ret; [exact R|]. erewrite bind_ret by reflexivity. rewrite El, Hpr. by apply kfree_page, A.
      * intros p. rewrite elem_of_app, list_elem_of_singleton, Hf. split.
        -- intros [(j & Hj & H1 & H2)| ->]; [exists j; split; [lia|done]|exists (Z.of_nat i); split; [lia|done]].
        -- intros (j & Hj & H1 & H2). destruct (decide (j = Z.of_nat i)) as [->|]; [by right|left].
           exists j. split; [lia|done].
  - destruct (IH (S i) m s l pgdir) as (s' & fs & R & Hk' & Hf); try done; try lia.
    + intros j Hj. apply Hl. lia.
    + exists s', fs. split; [|split; [done|]].
      * erewrite bind_ret; [exact R|]. erewrite bind_ret by reflexivity. by rewrite El, Hpr.
      * intros p. rewrite Hf. split; intros (j & Hj & H1 & H2); exists j; (split; [|done]); [lia|].
        destruct (decide (j = Z.of_nat i)) as [->|]; [congruence|lia].
Qed.

Lemma freevm_ok s l pgdir :
  as_ok s l pgdir -> exists s' l', freevm pgdir s = Ret tt s' /\ kmem_ok s' l' /\
    forall p, p ∈ l' <-> p ∈ l \/ owned (k_mem s) pgdir p.
Proof using HS.
  intros Hok. destruct (pk_dir _ _ _ (ao_pt _ _ _ Hok)) as [Hd _]. unfold freevm.
  rewrite (proj2 (Z.eqb_neq _ _)) by (destruct Hd; lia).
  destruct (deallocuvm_ok s l pgdir KERNBASE 0 Hok) as (s1 & l1 & R1 & Hu); [unfold KERNBASE; lia|done|].
  erewrite bind_ret by exact R1. pose proof (um_as _ _ _ _ _ _ Hu) as Hok1.
  assert (Hno : forall p, ~ is_upage (k_mem s1) pgdir p).
  { intros p (va & [Hva Hpr] & _). unfold KERNBASE in *. rewrite (um_pte _ _ _ _ _ _ Hu) in Hpr by lia.
    assert (E : in_range (ru 0) 2147483648 (pg va) = true).
    { unfold in_range, pg. change (ru 0) with 0. rewrite (proj2 (Z.leb_le _ _)), (proj2 (Z.ltb_lt _ _)) by zdiv. done. }
    rewrite E in Hpr. cbn [andb] in Hpr. destruct (present (pte_at (k_mem s) pgdir va)) eqn:E2; [by rewrite present0 in Hpr|congruence]. }
  destruct (free_tables NPDENTRIES 0 (k_mem s1) s1 l1 pgdir) as (s2 & fs & R2 & Hk2 & Hf); try done.
  { apply Hok1. }
  { eapply pt_ok_ext; [apply Hok1|done|]. by intros p ?%not_elem_of_nil. }
  { intros j Hj Hpj. apply (pk_tab _ _ _ (ao_pt _ _ _ Hok1)); [|done]. unfold NPDENTRIES in Hj. lia. }
  erewrite bind_ret by exact R2. exists (kfreed pgdir s2), (pgdir :: fs ++ l1).
  split; [by apply kfree_page, Hd|].
  assert (Htb : forall p, p ∈ fs <-> is_table (k_mem s1) pgdir p).
  { intros p. rewrite Hf. unfold is_table, NPDENTRIES. split; intros (j & Hj & H1 & H2); exists j; (split; [lia|done]). }
  split.
  - apply kfreed_ok; try done; [apply Hd|apply Hd|]. rewrite elem_of_app, Htb. intros [(j & Hj & H1 & H2)|Hin].
    + destruct (pk_tab _ _ _ (ao_pt _ _ _ Hok1) j Hj H1) as (_ & _ & H3). done.
    + by apply (pk_dir _ _ _ (ao_pt _ _ _ Hok1)).
  - intros p. rewrite (um_pages _ _ _ _ _ _ Hu p), elem_of_cons, elem_of_app, Htb. unfold owned.
    specialize (Hno p). tauto.
Qed.

(** *** Pages in hand *)

Lemma in_hand_facts s l pgdir p : as_ok s l pgdir -> in_hand s l pgdir p ->
  p <> pgdir /\ (forall i, 0 <= i < 1024 -> present (pde (k_mem s) pgdir i) = true -> tab (k_mem s) pgdir i <> p) /\
  (forall va, umapped (k_mem s) pgdir va -> upage (k_mem s) pgdir va <> p).
Proof using.
  intros Hok (H1 & H2 & H3). split_and!.
  - intros ->. apply H3. by left.
  - intros i Hi Hp E. apply H3. right. left. by exists i.
  - intros va Hva E. apply H3. right. right. by exists va.
Qed.

(** Two memories with the same page table. *)
Definition same_pt (m m' : mem) (pgdir : Z) : Prop :=
  (forall i, 0 <= i < 1024 -> pde m' pgdir i = pde m pgdir i) /\
  (forall va, pte_at m' pgdir va = pte_at m pgdir va).

Lemma same_pt_owned m m' pgdir : same_pt m m' pgdir ->
  (forall va, umapped m' pgdir va <-> umapped m pgdir va) /\ (forall va, upage m' pgdir va = upage m pgdir va) /\
  (forall p, is_table m' pgdir p <-> is_table m pgdir p) /\ (forall p, owned m' pgdir p <-> owned m pgdir p).
Proof using.
  intros [Hd Ht].
  assert (H1 : forall va, umapped m' pgdir va <-> umapped m pgdir va) by (intros; unfold umapped; by rewrite Ht).
  assert (H2 : forall va, upage m' pgdir va = upage m pgdir va) by (intros; unfold upage; by rewrite Ht).
  assert (H3 : forall p, is_table m' pgdir p <-> is_table m pgdir p).
  { intros p. unfold is_table, tab. split; intros (i & Hi & E1 & E2); exists i; (split; [done|]).
    - rewrite Hd in E1, E2 by done. done.
    - rewrite Hd by done. done. }
  split_and!; try done. intros p. unfold owned, is_upage. rewrite H3.
  assert (H4 : (exists va, umapped m' pgdir va /\ upage m' pgdir va = p) <-> (exists va, umapped m pgdir va /\ upage m pgdir va = p)).
  { split; intros (va & E1 & E2); exists va; [rewrite H1 in E1; rewrite H2 in E2|rewrite H1, H2]; done. }
  by rewrite H4.
Qed.

Lemma as_ok_same s s' l l' pgdir :
  as_ok s l pgdir -> same_pt (k_mem s) (k_mem s') pgdir -> kmem_ok s' l' -> (forall p, p ∈ l' -> p ∈ l) ->
  as_ok s' l' pgdir.
Proof using.
  intros [A1 A2 A3 A4] Hs Hk Hl. destruct (same_pt_owned _ _ _ Hs) as (E1 & E2 & E3 & _).
  split; [done|eapply pt_ok_ext; [exact A2|apply Hs|done]|..].
  - intros va Hva%E1. rewrite E2, E3. destruct (A3 va Hva) as (B1 & B2 & B3 & B4).
    split_and!; try done. intros Hin. apply B2. by apply Hl.
  - intros va va' Hva%E1 Hva'%E1. rewrite !E2. by apply A4.
Qed.

(** Writing in a page in hand. *)
Lemma hand_write s l pgdir p m' :
  as_ok s l pgdir -> in_hand s l pgdir p -> mem_ok m' -> (forall b, outside p b -> m' b = k_mem s b) ->
  as_ok (set_mem m' s) l pgdir /\ in_hand (set_mem m' s) l pgdir p /\ same_pt (k_mem s) m' pgdir.
Proof using HS.
  intros Hok Hp Hm Hout. destruct (in_hand_facts _ _ _ _ Hok Hp) as (H1 & H2 & H3).
  destruct Hp as (Hpg & Hpl & Hpo). pose proof (ao_pt _ _ _ Hok) as Hpt.
  assert (Hin : forall q b, Page q -> q <> p -> q <= b < q + 4096 -> m' b = k_mem s b).
  { intros q b Hq Hne Hb. apply Hout. by apply (Page_apart q). }
  assert (Hs : same_pt (k_mem s) m' pgdir).
  { apply (pte_at_ext (k_mem s) m' l pgdir Hpt).
    - intros b. apply Hin; [apply Hpt|by apply not_eq_sym].
    - intros i b Hi Hpr. apply Hin; [by apply Hpt|by apply H2]. }
  destruct (same_pt_owned _ _ _ Hs) as (_ & _ & _ & E4).
  split; [|split; [|done]].
  - eapply (as_ok_same s); [exact Hok|exact Hs| |auto]. apply kmem_other; [apply Hok|done|].
    intros q b Hq Hb. apply (Hin q); [|intros ->; done|lia].
    pose proof (km_pages _ _ (ao_k _ _ _ Hok)) as Hf. rewrite Forall_forall in Hf. by apply Hf.
  - split; [done|]. split; [done|]. cbn [k_mem set_mem]. by rewrite E4.
Qed.

(** Taking a page from the free list. *)
Lemma hand_take s p l pgdir : as_ok s (p :: l) pgdir ->
  exists s', kalloc s = Ret p s' /\ k_mem s' = k_mem s /\ as_ok s' l pgdir /\ in_hand s' l pgdir p /\ p <> 0.
Proof using HS.
  intros Hok. destruct (kalloc_cons s p l (ao_k _ _ _ Hok)) as [R Hk]. eexists. split; [exact R|].
  pose proof (km_pages _ _ (ao_k _ _ _ Hok)) as [Hp _]%Forall_cons.
  pose proof (km_nodup _ _ (ao_k _ _ _ Hok)) as [Hn _]%NoDup_cons.
  split; [done|]. split; [|split].
  - eapply (as_ok_same s); [exact Hok|done|exact Hk|]. set_solver.
  - split; [done|]. split; [done|]. cbn [k_mem set_freelist]. intros [->|[(i & Hi & H1 & H2)|(va & Hva & E)]].
    + destruct (pk_dir _ _ _ (ao_pt _ _ _ Hok)). set_solver.
    + destruct (pk_tab _ _ _ (ao_pt _ _ _ Hok) i Hi H1). set_solver.
    + destruct (ao_page _ _ _ Hok va Hva). set_solver.
  - destruct Hp. lia.
Qed.

(** Giving it back. *)
Lemma hand_give s l pgdir p : as_ok s l pgdir -> in_hand s l pgdir p ->
  kfree p s = Ret tt (kfreed p s) /\ as_ok (kfreed p s) (p :: l) pgdir /\ same_pt (k_mem s) (k_mem (kfreed p s)) pgdir.
Proof using HS.
  intros Hok Hp. destruct (in_hand_facts _ _ _ _ Hok Hp) as (H1 & H2 & H3). pose proof Hp as (Hpg & Hpl & Hpo).
  split; [by apply kfree_page, Hpg|].
  assert (Hmk : mem_ok (k_mem (kfreed p s))) by (cbn; apply mem_ok_st32, mem_ok_fill, Hok).
  destruct (hand_write s l pgdir p (k_mem (kfreed p s)) Hok Hp Hmk) as (Hok1 & _ & Hs).
  { intros b Hb. by apply kfreed_out. }
  split; [|done]. destruct (same_pt_owned _ _ _ Hs) as (E1 & E2 & E3 & _).
  destruct Hok1 as [A1 A2 A3 A4]. cbn [k_mem set_mem] in *. split.
  - apply kfreed_ok; try done; [apply Hok|apply Hpg|apply Hpg].
  - destruct A2 as [[B1 B2] B3 B4]. split; [split; [done|rewrite not_elem_of_cons; by split; [apply not_eq_sym|]]| |done].
    intros i Hi Hpr. destruct (B3 i Hi Hpr) as (C1 & C2 & C3). rewrite not_elem_of_cons. split_and!; try done.
    destruct Hs as [Hs _]. unfold tab. rewrite Hs in * by done. by apply H2.
  - intros va Hva. destruct (A3 va Hva) as (C1 & C2 & C3 & C4). rewrite not_elem_of_cons. split_and!; try done.
    rewrite E2. apply H3. by apply E1.
  - done.
Qed.

(** *** Growing *)

Definition UFLAGS : Z := 7.      (* PTE_P | PTE_W | PTE_U *)

(** The user pages that start in [lo .. hi) are new: mapped for the user,
    writable, filled with zeros.  The rest is as it was. *)
Record grown (s0 : kst) (pgdir : Z) (s : kst) (l : list Z) (lo hi : Z) : Prop := mkgrown {
  gw_as : as_ok s l pgdir;
  gw_pte : forall va, 0 <= va < 4294967296 -> in_range lo hi (pg va) = false ->
    pte_at (k_mem s) pgdir va = pte_at (k_mem s0) pgdir va;
  gw_new : forall va, 0 <= va < KERNBASE -> in_range lo hi (pg va) = true ->
    umapped (k_mem s) pgdir va /\ PTE_FLAGS (pte_at (k_mem s) pgdir va) = UFLAGS /\ ubyte (k_mem s) pgdir va = 0;
  gw_bytes : ukeep (k_mem s0) pgdir (k_mem s) }.

(** Nothing was mapped in [lo .. hi), and nothing is; the rest is as it was. *)
Record restored (s0 : kst) (pgdir : Z) (s : kst) (l : list Z) (lo hi : Z) : Prop := mkrestored {
  re_as : as_ok s l pgdir;
  re_pte : forall va, 0 <= va < 4294967296 -> in_range lo hi (pg va) = false ->
    pte_at (k_mem s) pgdir va = pte_at (k_mem s0) pgdir va;
  re_none : forall va, 0 <= va < 4294967296 -> in_range lo hi (pg va) = true ->
    present (pte_at (k_mem s) pgdir va) = false;
  re_bytes : ukeep (k_mem s0) pgdir (k_mem s) }.

(** As [conserved], with the pages [h] in hand after. *)
Definition accounted (m : mem) (l : list Z) (pgdir : Z) (m' : mem) (l' h : list Z) : Prop :=
  forall p, p ∈ l \/ owned m pgdir p <-> p ∈ l' \/ owned m' pgdir p \/ p ∈ h.

Lemma in_range_grow lo a x : a mod 4096 = 0 -> x mod 4096 = 0 -> lo <= a ->
  in_range lo (a + 4096) x = in_range lo a x || (a =? x).
Proof using.
  intros Ha Hx Hlo. unfold in_range.
  destruct (Z.leb_spec lo x), (Z.ltb_spec x (a + 4096)), (Z.ltb_spec x a), (Z.eqb_spec a x); cbn; try done; zdiv.
Qed.

(** One page more. *)
Lemma grown_step s0 pgdir s1 l1 lo a p s2 l2 :
  ukeep (k_mem s0) pgdir (k_mem s1) -> 0 <= lo <= a -> a < KERNBASE -> a mod 4096 = 0 ->
  (forall va, 0 <= va < 4294967296 -> in_range lo a (pg va) = false ->
    pte_at (k_mem s1) pgdir va = pte_at (k_mem s0) pgdir va) ->
  (forall va, umapped (k_mem s0) pgdir va -> in_range lo a (pg va) = false) ->
  (forall va, 0 <= va < KERNBASE -> in_range lo a (pg va) = true ->
    umapped (k_mem s1) pgdir va /\ PTE_FLAGS (pte_at (k_mem s1) pgdir va) = UFLAGS /\ ubyte (k_mem s1) pgdir va = 0) ->
  as_ok s1 l1 pgdir -> in_hand s1 l1 pgdir p -> present (pte_at (k_mem s1) pgdir a) = false ->
  (forall b, p <= b < p + 4096 -> k_mem s1 b = 0) ->
  mapped s1 l1 pgdir s2 l2 (map_range (pte_at (k_mem s1) pgdir) a (V2P p) (Z.lor PTE_W PTE_U) 1) ->
  grown s0 pgdir s2 l2 lo (a + 4096).
Proof using HS.
  intros Hkeep Hlo Ha Ham Hpte Hold Hnew Hok Hp Hn Hz Hm.
  assert (Hperm : 0 <= Z.lor PTE_W PTE_U < 4096) by (vm_compute; split; [discriminate|reflexivity]).
  assert (Har : 0 <= a < KERNBASE) by lia.
  pose proof (map_user_as s1 l1 pgdir a p _ s2 l2 Hok Hp Har Hn Hperm Hm) as Hok2.
  assert (Hpg : forall va, (a =? pg va) = true <-> va / 4096 = a / 4096) by (intros; unfold pg; rewrite Z.eqb_eq; zdiv).
  assert (Hk2 : ukeep (k_mem s1) pgdir (k_mem s2)) by (by eapply mapped_ukeep).
  split; [done|..].
  - intros va Hva Hr. rewrite in_range_grow in Hr by (done || apply pg_mod || lia). apply orb_false_iff in Hr as [Hr1 Hr2].
    rewrite (map_user_pte _ _ _ _ _ _ _ _ Hm) by done. rewrite decide_False; [by apply Hpte|].
    intros E. apply Hpg in E. congruence.
  - intros va Hva Hr. rewrite in_range_grow in Hr by (done || apply pg_mod || lia).
    pose proof (map_user_upage s1 l1 pgdir a p _ s2 l2 Hp Hperm Hm va Hva) as Hup.
    pose proof (map_user_pte _ _ _ _ _ _ _ _ Hm va ltac:(unfold KERNBASE in *; lia)) as Hpt.
    destruct (decide (va / 4096 = a / 4096)) as [E|E].
    + split; [|split].
      * apply (map_user_umapped s1 l1 pgdir a p _ s2 l2 Hp Hperm Hm). by left.
      * rewrite Hpt. apply entry_page; [apply Hp|vm_compute; split; [discriminate|reflexivity]].
      * unfold ubyte. rewrite Hup. destruct (in_hand_facts _ _ _ _ Hok Hp) as (F1 & F2 & F3). destruct Hp as (Hpp & Hpl & Hpo).
        rewrite (mapped_keep s1 l1 pgdir s2 l2 _ p _ (ao_k _ _ _ Hok) (ao_pt _ _ _ Hok) Hm Hpp F1 Hpl).
        -- apply Hz. zdiv.
        -- intros (i & Hi & H1 & H2). by apply (F2 i).
        -- zdiv.
    + apply orb_true_iff in Hr as [Hr|Hr]; [|by apply Hpg in Hr]. destruct (Hnew va Hva Hr) as (A & B & C).
      split; [apply (map_user_umapped s1 l1 pgdir a p _ s2 l2 Hp Hperm Hm); by right|].
      rewrite Hpt. split; [done|]. unfold ubyte in *. rewrite Hup, <- C. apply (Hk2 va); [done|zdiv].
  - intros va b Hva Hb. rewrite <- (Hkeep va b Hva Hb). specialize (Hold va Hva).
    assert (Hs1 : umapped (k_mem s1) pgdir va /\ upage (k_mem s1) pgdir va = upage (k_mem s0) pgdir va).
    { unfold umapped, upage, KERNBASE in *. rewrite Hpte by (done || (destruct Hva; lia)). done. }
    destruct Hs1 as [Hs1 E]. apply (Hk2 va); [done|]. by rewrite E.
Qed.

(** Giving everything back when memory runs out. *)
Lemma grown_undo s0 l0 pgdir s l h a oldsz newsz :
  let lo := ru oldsz in
  grown s0 pgdir s l lo a -> accounted (k_mem s0) l0 pgdir (k_mem s) l h ->
  0 <= oldsz < newsz -> newsz < KERNBASE -> a < newsz + 4096 -> a mod 4096 = 0 ->
  (forall va, 0 <= va < 4294967296 -> in_range lo newsz (pg va) = true -> present (pte_at (k_mem s0) pgdir va) = false) ->
  exists s' l', deallocuvm pgdir newsz oldsz s = Ret oldsz s' /\ restored s0 pgdir s' l' lo newsz /\
    accounted (k_mem s0) l0 pgdir (k_mem s') l' h /\
    forall p, in_hand s l pgdir p -> in_hand s' l' pgdir p.
Proof using HS.
  intros lo [G1 G2 G3 G4] G5 Hr Hk Ha Ham Hn.
  destruct (deallocuvm_ok s l pgdir newsz oldsz G1 Hr ltac:(lia)) as (s' & l' & R & Hu).
  exists s', l'. split; [exact R|]. destruct (ru_ok oldsz ltac:(lia)) as (R1 & R2 & _). fold lo in Hu, R1, R2.
  assert (Hsub : forall va, in_range lo newsz (pg va) = false -> in_range lo a (pg va) = false).
  { intros va E. pose proof (pg_mod va). unfold in_range in *.
    destruct (Z.leb_spec lo (pg va)), (Z.ltb_spec (pg va) newsz), (Z.ltb_spec (pg va) a); cbn in *; try done. zdiv. }
  assert (Hold : forall va, umapped (k_mem s0) pgdir va -> in_range lo newsz (pg va) = false).
  { intros va [H1 H2]. apply not_true_iff_false. intros E. rewrite Hn in H2; [done| |done]. unfold KERNBASE in *. lia. }
  split; [split|split].
  - apply Hu.
  - intros va Hva E. rewrite (um_pte _ _ _ _ _ _ Hu), E by done. cbn [andb]. apply G2; [done|by apply Hsub].
  - intros va Hva E. rewrite (um_pte _ _ _ _ _ _ Hu), E by done. cbn [andb].
    destruct (present (pte_at (k_mem s) pgdir va)) eqn:E2; done.
  - intros va b Hva Hb. specialize (Hold va Hva). rewrite <- (G4 va b Hva Hb).
    assert (Hs : umapped (k_mem s) pgdir va /\ upage (k_mem s) pgdir va = upage (k_mem s0) pgdir va).
    { unfold umapped, upage, KERNBASE in *. rewrite G2 by (by apply Hsub || (destruct Hva; lia)). done. }
    destruct Hs as [Hs E]. apply (um_bytes _ _ _ _ _ _ Hu va); [done|done|by rewrite E].
  - intros q. pose proof (um_pages _ _ _ _ _ _ Hu q). rewrite (G5 q). tauto.
  - intros p (H1 & H2 & H3). split; [done|]. pose proof (um_pages _ _ _ _ _ _ Hu p) as Hc. tauto.
Qed.

(** The page in hand goes back too. *)
Lemma restored_give s0 l0 pgdir s l lo hi p :
  restored s0 pgdir s l lo hi -> accounted (k_mem s0) l0 pgdir (k_mem s) l [p] -> in_hand s l pgdir p ->
  (forall va, umapped (k_mem s0) pgdir va -> in_range lo hi (pg va) = false) ->
  exists s', kfree p s = Ret tt s' /\ restored s0 pgdir s' (p :: l) lo hi /\
    conserved (k_mem s0) l0 pgdir (k_mem s') (p :: l).
Proof using HS.
  intros [G1 G2 G3 G4] G5 Hp Hold. destruct (hand_give s l pgdir p G1 Hp) as (R & Hok & Hs).
  exists (kfreed p s). split; [done|]. destruct (same_pt_owned _ _ _ Hs) as (E1 & E2 & _ & E4).
  split; [split; [done|..]|].
  - intros va Hva Hr. rewrite (proj2 Hs va). by apply G2.
  - intros va Hva Hr. rewrite (proj2 Hs va). by apply G3.
  - intros va b Hva Hb. rewrite <- (G4 va b Hva Hb). specialize (Hold va Hva). apply kfreed_out.
    assert (Hsv : umapped (k_mem s) pgdir va /\ upage (k_mem s) pgdir va = upage (k_mem s0) pgdir va).
    { unfold umapped, upage, KERNBASE in *. rewrite G2 by (done || (destruct Hva; lia)). done. }
    destruct Hsv as [Hsv E]. rewrite <- E in Hb. destruct (in_hand_facts _ _ _ _ G1 Hp) as (_ & _ & F3).
    apply (Page_apart (upage (k_mem s) pgdir va)); [by apply (ao_page _ _ _ G1)|apply Hp|by apply F3|done].
  - intros q. rewrite (G5 q), E4, !elem_of_cons, elem_of_nil. tauto.
Qed.

(** What one iteration has in hand before it maps: a zeroed page. *)
Lemma alloc_page s p l pgdir : as_ok s (p :: l) pgdir ->
  let s0 := set_freelist (ld32 (k_mem s) p) s in
  let s1 := set_mem (fill (k_mem s) p 0 PGSIZE) s0 in
  kalloc s = Ret p s0 /\ p <> 0 /\ as_ok s1 l pgdir /\ in_hand s1 l pgdir p /\
  same_pt (k_mem s) (k_mem s1) pgdir /\ (forall b, p <= b < p + 4096 -> k_mem s1 b = 0) /\
  ukeep (k_mem s) pgdir (k_mem s1).
Proof using HS.
  intros Hok s0 s1. destruct (hand_take s p l pgdir Hok) as (s' & R & Em & Hok1 & Hp & Hne).
  destruct (kalloc_cons s p l (ao_k _ _ _ Hok)) as [R2 _]. rewrite R2 in R. injection R as <-.
  destruct (hand_write s0 l pgdir p (fill (k_mem s) p 0 PGSIZE) Hok1 Hp) as (Hok2 & Hp2 & Hs).
  { apply mem_ok_fill, Hok. }
  { intros b Hb. by apply fill_out. }
  do 5 (split; [done|]). split.
  - intros b Hb. by apply fill_in.
  - intros va b Hva Hb. cbn [k_mem set_mem s1]. apply fill_out.
    destruct (in_hand_facts _ _ _ _ Hok1 Hp) as (_ & _ & F3). unfold PGSIZE.
    apply (Page_apart (upage (k_mem s) pgdir va)); [by apply (ao_page _ _ _ Hok)|apply Hp|by apply F3|done].
Qed.

Lemma same_pt_ubyte m m' pgdir : same_pt m m' pgdir -> ukeep m pgdir m' ->
  forall va, umapped m pgdir va -> ubyte m' pgdir va = ubyte m pgdir va.
Proof using.
  intros Hs Hk va Hva. destruct (same_pt_owned _ _ _ Hs) as (_ & E2 & _). unfold ubyte. rewrite E2.
  apply (Hk va); [done|zdiv].
Qed.

(** A page taken and zeroed keeps what has grown. *)
Lemma grown_take s0 l0 pgdir s p l lo a :
  grown s0 pgdir s (p :: l) lo a -> conserved (k_mem s0) l0 pgdir (k_mem s) (p :: l) ->
  (forall va, umapped (k_mem s0) pgdir va -> in_range lo a (pg va) = false) ->
  let s1 := set_mem (fill (k_mem s) p 0 PGSIZE) (set_freelist (ld32 (k_mem s) p) s) in
  grown s0 pgdir s1 l lo a /\ accounted (k_mem s0) l0 pgdir (k_mem s1) l [p].
Proof using HS.
  intros [G1 G2 G3 G4] G5 Hold s1. destruct (alloc_page s p l pgdir G1) as (_ & _ & Hok1 & _ & Hs & _ & Hk).
  fold s1 in Hok1, Hs, Hk. destruct (same_pt_owned _ _ _ Hs) as (E1 & E2 & E3 & E4).
  split; [split; [done|..]|].
  - intros va Hva Hr. destruct Hs as [_ Hs]. rewrite Hs. by apply G2.
  - intros va Hva Hr. destruct (G3 va Hva Hr) as (A & B & C). split; [by apply E1|].
    split; [by rewrite (proj2 Hs va)|]. by rewrite (same_pt_ubyte _ _ _ Hs Hk).
  - intros va b Hva Hb. rewrite <- (G4 va b Hva Hb). specialize (Hold va Hva).
    assert (Hsv : umapped (k_mem s) pgdir va /\ upage (k_mem s) pgdir va = upage (k_mem s0) pgdir va).
    { unfold umapped, upage, KERNBASE in *. rewrite G2 by (done || (destruct Hva; lia)). done. }
    destruct Hsv as [Hsv E]. apply (Hk va); [done|by rewrite E].
  - intros q. rewrite (G5 q), E4, !elem_of_cons, elem_of_nil. tauto.
Qed.

Lemma grown_same s0 pgdir s1 l1 s2 l2 lo a :
  grown s0 pgdir s1 l1 lo a -> mapped s1 l1 pgdir s2 l2 (pte_at (k_mem s1) pgdir) ->
  (forall va, umapped (k_mem s0) pgdir va -> in_range lo a (pg va) = false) ->
  grown s0 pgdir s2 l2 lo a /\ conserved (k_mem s1) l1 pgdir (k_mem s2) l2 /\
  forall p, in_hand s1 l1 pgdir p -> p ∉ l2 -> in_hand s2 l2 pgdir p.
Proof using HS.
  intros [G1 G2 G3 G4] Hm Hold. destruct (mapped_same s1 l1 pgdir s2 l2 G1 Hm) as [Hok2 Hc].
  pose proof (mapped_ukeep _ _ _ _ _ _ G1 Hm) as Hk. pose proof (mp_pte _ _ _ _ _ _ Hm) as Hp.
  split; [split; [done|..]|split; [done|]].
  - intros va Hva Hr. rewrite Hp by done. by apply G2.
  - intros va Hva Hr. destruct (G3 va Hva Hr) as (A & B & C).
    assert (E : upage (k_mem s2) pgdir va = upage (k_mem s1) pgdir va)
      by (unfold upage, KERNBASE in *; by rewrite Hp by lia).
    unfold umapped, ubyte in *. rewrite E, Hp by (unfold KERNBASE in *; lia). split_and!; try apply A; [done|].
    rewrite <- C. apply (Hk va); [done|zdiv].
  - intros va b Hva Hb. rewrite <- (G4 va b Hva Hb). specialize (Hold va Hva).
    assert (Hsv : umapped (k_mem s1) pgdir va /\ upage (k_mem s1) pgdir va = upage (k_mem s0) pgdir va).
    { unfold umapped, upage, KERNBASE in *. rewrite G2 by (done || (destruct Hva; lia)). done. }
    destruct Hsv as [Hsv E]. apply (Hk va); [done|by rewrite E].
  - intros p (H1 & H2 & H3) H4. split; [done|]. split; [done|]. specialize (Hc p). tauto.
Qed.

(** Ranges of whole pages. *)
Lemma in_range_pages lo a newsz va : newsz <= a < newsz + 4096 -> a mod 4096 = 0 ->
  in_range lo newsz (pg va) = in_range lo a (pg va).
Proof using.
  intros Ha Ham. pose proof (pg_mod va). unfold in_range.
  destruct (Z.leb_spec lo (pg va)), (Z.ltb_spec (pg va) newsz), (Z.ltb_spec (pg va) a); cbn; try done; zdiv.
Qed.

Lemma in_range_le lo a newsz x : a <= newsz -> in_range lo newsz x = false -> in_range lo a x = false.
Proof using.
  unfold in_range. intros Ha. destruct (Z.leb_spec lo x), (Z.ltb_spec x newsz), (Z.ltb_spec x a); cbn; try done; lia.
Qed.

Section AllocLoop.
Context (s0 : kst) (l0 : list Z) (pgdir oldsz newsz : Z).
Let lo := ru oldsz.
Hypothesis Hr : 0 <= oldsz < newsz.
Hypothesis Hk : newsz < KERNBASE.
Hypothesis Hn : forall va, 0 <= va < 4294967296 -> in_range lo newsz (pg va) = true ->
  present (pte_at (k_mem s0) pgdir va) = false.

Lemma alloc_old va : umapped (k_mem s0) pgdir va -> in_range lo newsz (pg va) = false.
Proof using Hn Hk.
  intros [H1 H2]. apply not_true_iff_false. intros E. rewrite Hn in H2; [done| |done]. unfold KERNBASE in *. lia.
Qed.

(** Memory runs out while mapping the page [p]. *)
Lemma alloc_fail s1 l1 s2 a p :
  grown s0 pgdir s1 l1 lo a -> accounted (k_mem s0) l0 pgdir (k_mem s1) l1 [p] -> in_hand s1 l1 pgdir p ->
  a <= newsz -> a mod 4096 = 0 -> mapped s1 l1 pgdir s2 [] (pte_at (k_mem s1) pgdir) ->
  exists s' l', (deallocuvm pgdir newsz oldsz ;; kfree p ;; mret 0) s2 = Ret 0 s' /\
    restored s0 pgdir s' l' lo newsz /\ conserved (k_mem s0) l0 pgdir (k_mem s') l'.
Proof using HS Hr Hk Hn.
  intros Hg Hac Hp Ha Ham Hm.
  destruct (grown_same s0 pgdir s1 l1 s2 [] lo a Hg Hm) as (Hg2 & Hc2 & Hh).
  { intros va Hva. eapply in_range_le; [exact Ha|by apply alloc_old]. }
  assert (Hac2 : accounted (k_mem s0) l0 pgdir (k_mem s2) [] [p]).
  { intros q. rewrite (Hac q). specialize (Hc2 q). tauto. }
  destruct (grown_undo s0 l0 pgdir s2 [] [p] a oldsz newsz Hg2 Hac2 Hr Hk ltac:(lia) Ham Hn)
    as (s3 & l3 & R3 & Hre & Hac3 & Hh3).
  destruct (restored_give s0 l0 pgdir s3 l3 lo newsz p Hre Hac3) as (s' & R' & Hre' & Hc').
  { apply Hh3, Hh; [done|]. by apply not_elem_of_nil. }
  { by apply alloc_old. }
  exists s', (p :: l3). split; [|done]. erewrite bind_ret by exact R3. by erewrite bind_ret by exact R'.
Qed.

Lemma allocuvm_loop_ok f : forall s l a,
  grown s0 pgdir s l lo a -> conserved (k_mem s0) l0 pgdir (k_mem s) l ->
  lo <= a -> a < newsz + 4096 -> a mod 4096 = 0 -> newsz <= a + 4096 * (Z.of_nat f - 1) -> (0 < f)%nat ->
  exists s' l', conserved (k_mem s0) l0 pgdir (k_mem s') l' /\
  ((allocuvm_loop pgdir a oldsz newsz f s = Ret newsz s' /\ grown s0 pgdir s' l' lo newsz) \/
   (allocuvm_loop pgdir a oldsz newsz f s = Ret 0 s' /\ restored s0 pgdir s' l' lo newsz)).
Proof using HS Hr Hk Hn.
  induction f as [|f IH]; intros s l a Hg Hc Hla Ha Ham Hf Hf0; [lia|].
  cbn [allocuvm_loop]. destruct (Z.ltb_spec a newsz) as [Hlt|Hge].
  2: { exists s, l. split; [done|]. left. split; [done|]. destruct Hg as [G1 G2 G3 G4].
       split; try done; intros va Hva Hx; rewrite (in_range_pages lo a) in Hx by (done || lia); auto. }
  destruct l as [|p l].
  { erewrite bind_ret by (apply kalloc_nil, Hg). rewrite Z.eqb_refl.
    destruct (grown_undo s0 l0 pgdir s [] [] a oldsz newsz Hg) as (s' & l' & R & Hre & Hac & _); try done.
    { intros q. rewrite (Hc q). rewrite elem_of_nil. tauto. }
    exists s', l'. split; [intros q; specialize (Hac q); rewrite elem_of_nil in Hac; tauto|].
    right. split; [by erewrite bind_ret by exact R|done]. }
  assert (Hold : forall va, umapped (k_mem s0) pgdir va -> in_range lo a (pg va) = false)
    by (intros va Hva; eapply (in_range_le lo a newsz); [lia|by apply alloc_old]).
  destruct (alloc_page s p l pgdir (gw_as _ _ _ _ _ _ Hg)) as (R & Hne & Hok1 & Hp1 & Hs & Hz & _).
  destruct (grown_take s0 l0 pgdir s p l lo a Hg Hc Hold) as (Hg1 & Hac).
  erewrite bind_ret by exact R. rewrite (proj2 (Z.eqb_neq _ _)) by done. erewrite bind_ret by reflexivity.
  set (s1 := set_mem _ _) in *. cbn beta in *.
  assert (Hpa : present (pte_at (k_mem s1) pgdir a) = false).
  { assert (pg a = a) as Ep by (unfold pg; zdiv). destruct (ru_ok oldsz ltac:(lia)) as (_ & Ru & _). fold lo in Ru.
    rewrite (gw_pte _ _ _ _ _ _ Hg1); unfold KERNBASE in *; [apply Hn|..]; try lia; unfold in_range; rewrite Ep.
    - by rewrite (proj2 (Z.leb_le _ _)), (proj2 (Z.ltb_lt _ _)) by lia.
    - rewrite (proj2 (Z.ltb_ge a a)) by lia. apply andb_false_r. }
  destruct (V2P_page p (proj1 Hp1)) as (_ & Hv1 & Hv2). unfold PHYSTOP, PGSIZE in *.
  assert (E1 : (a + 4096 - 1) / 4096 - a / 4096 + 1 = 1) by zdiv.
  destruct (mappages_ok s1 l pgdir a 4096 (V2P p) (Z.lor PTE_W PTE_U) (ao_k _ _ _ Hok1) (ao_pt _ _ _ Hok1))
    as [(s2 & l2 & R2 & Hm)|(s2 & k & R2 & Hkk & Hm)]; rewrite ?E1 in *; unfold KERNBASE in *; try lia.
  { destruct (ru_ok oldsz ltac:(lia)) as (_ & Ru & _). fold lo in Ru. lia. }
  { vm_compute. split; [discriminate|reflexivity]. }
  { intros va Hva. assert (E : va / 4096 = a / 4096) by zdiv. destruct (ru_ok oldsz ltac:(lia)) as (_ & Ru & _). fold lo in Ru.
    apply same_page in E as [Ed Et]; [|lia|zdiv]. unfold pte_at in *. by rewrite Ed, Et. }
  - erewrite bind_ret by exact R2. rewrite (proj2 (Z.ltb_ge 0 0)) by lia.
    destruct (ru_ok oldsz ltac:(lia)) as (_ & Ru & _). fold lo in Ru. rewrite u32_small by lia.
    apply (IH s2 l2 (a + 4096)); try lia; [| |zdiv].
    + apply (grown_step s0 pgdir s1 l lo a p s2 l2);
        [apply Hg1|lia|unfold KERNBASE; lia|done|apply Hg1|done|apply Hg1|done|done|done|done|done].
    + intros q. rewrite (Hac q). rewrite <- (map_user_conserved s1 l pgdir a p (Z.lor PTE_W PTE_U) s2 l2 Hok1 Hp1).
      * by rewrite list_elem_of_singleton.
      * unfold KERNBASE. lia.
      * done.
      * vm_compute. split; [discriminate|reflexivity].
      * done.
  - erewrite bind_ret by exact R2. change (-1 <? 0) with true. cbn match.
    assert (k = 0) as -> by lia.
    destruct (alloc_fail s1 l s2 a p Hg1 Hac Hp1 ltac:(lia) Ham) as (s' & l' & R' & Hre & Hc').
    { eapply mapped_ext; [|exact Hm]. intros va _. unfold map_range. by rewrite decide_False by lia. }
    exists s', l'. split; [done|]. right. done.
Qed.

End AllocLoop.

Lemma grown_refl s l pgdir lo : as_ok s l pgdir -> grown s pgdir s l lo lo.
Proof using.
  intros Hok. split; try done. intros va _ E. unfold in_range in E. zbool. lia.
Qed.

(** *** Copying out *)

Lemma poke_out m d l b : b < d \/ d + Z.of_nat (length l) <= b -> poke m d l b = m b.
Proof using. intros. unfold poke. by inrange; lia || done. Qed.
Lemma poke_in m d l b : d <= b < d + Z.of_nat (length l) -> poke m d l b = l !!! Z.to_nat (b - d).
Proof using. intros. unfold poke. by inrange; lia || done. Qed.

(** Bytes [w] of user memory from [va] on. *)
Definition uwrite (m : mem) (pgdir va : Z) (w : list Z) (va' : Z) : Z :=
  if in_range va (va + Z.of_nat (length w)) va' then w !!! Z.to_nat (va' - va) else ubyte m pgdir va'.

(** Writing within the user page of [va]. *)
Lemma user_poke s l pgdir va w :
  as_ok s l pgdir -> umapped (k_mem s) pgdir va -> Forall byte_ok w ->
  va mod 4096 + Z.of_nat (length w) <= 4096 ->
  let m' := poke (k_mem s) (upage (k_mem s) pgdir va + va mod 4096) w in
  as_ok (set_mem m' s) l pgdir /\ same_pt (k_mem s) m' pgdir /\
  (forall va', umapped (k_mem s) pgdir va' -> ubyte m' pgdir va' = uwrite (k_mem s) pgdir va w va').
Proof using HS.
  intros Hok Hva Hw Hlen m'. destruct (ao_page _ _ _ Hok va Hva) as (Hpg & Hpl & Hpd & Hpt).
  set (p := upage (k_mem s) pgdir va) in *. pose proof (ao_pt _ _ _ Hok) as Hk.
  pose proof (Z.mod_pos_bound va 4096 ltac:(lia)) as Hmod.
  assert (Hout : forall q b, Page q -> q <> p -> q <= b < q + 4096 -> m' b = k_mem s b).
  { intros q b Hq Hne Hb. apply poke_out. destruct (Page_apart q p b Hq Hpg Hne Hb); lia. }
  assert (Hs : same_pt (k_mem s) m' pgdir).
  { apply (pte_at_ext (k_mem s) m' l pgdir Hk).
    - intros b. apply Hout; [apply Hk|by apply not_eq_sym].
    - intros i b Hi Hpr. apply Hout; [by apply Hk|]. intros E. apply Hpt. by exists i. }
  split; [|split; [done|]].
  - eapply (as_ok_same s); [exact Hok|exact Hs| |auto]. apply kmem_other; [apply Hok|by apply mem_ok_poke; [apply Hok|]|].
    intros q b Hq Hb. pose proof (km_pages _ _ (ao_k _ _ _ Hok)) as Hf. rewrite Forall_forall in Hf.
    apply (Hout q); [by apply Hf|intros ->; done|lia].
  - intros va' Hva'. destruct (same_pt_owned _ _ _ Hs) as (_ & E2 & _). unfold ubyte at 1. rewrite E2. unfold uwrite.
    destruct (decide (va' / 4096 = va / 4096)) as [E|E].
    + destruct (umapped_page _ _ va va' Hva (proj1 Hva') E) as [_ Ep]. rewrite Ep. fold p.
      unfold in_range. destruct (Z.leb_spec va va'), (Z.ltb_spec va' (va + Z.of_nat (length w))); cbn [andb];
        try (unfold m'; rewrite poke_out by zdiv; unfold ubyte; by rewrite Ep).
      unfold m'. rewrite poke_in by zdiv. f_equal. zdiv.
    + assert (Er : in_range va (va + Z.of_nat (length w)) va' = false).
      { unfold in_range. destruct (Z.leb_spec va va'), (Z.ltb_spec va' (va + Z.of_nat (length w))); cbn; try done; zdiv. }
      rewrite Er. destruct (ao_page _ _ _ Hok va' Hva') as (Hq & _). apply (Hout (upage (k_mem s) pgdir va')); [done| |zdiv].
      intros Ep. apply E. by apply (ao_inj _ _ _ Hok).
Qed.

Definition uuser (m : mem) (pgdir va : Z) : Prop :=
  umapped m pgdir va /\ Z.land (pte_at m pgdir va) PTE_U <> 0.

Lemma uva2ka_ok s l pgdir va : as_ok s l pgdir -> uuser (k_mem s) pgdir va ->
  uva2ka pgdir va s = Ret (upage (k_mem s) pgdir va) s /\ upage (k_mem s) pgdir va <> 0.
Proof using HS.
  intros Hok [[Hr Hpr] Hu]. destruct (ao_page _ _ _ Hok va (conj Hr Hpr)) as (Hpg & _).
  split; [|destruct Hpg; lia]. unfold uva2ka. erewrite bind_ret by apply walk_look.
  assert (Hd : present (pde (k_mem s) pgdir (PDX va)) = true) by (unfold pte_at in Hpr; by destruct (present (pde _ _ _))).
  destruct (pte_addr_in _ _ _ _ (ao_pt _ _ _ Hok) Hd) as (_ & _ & _ & _ & Hnz). rewrite (proj2 (Z.eqb_neq _ _)) by done.
  erewrite bind_ret by reflexivity.
  assert (El : ld32 (k_mem s) (pte_addr (k_mem s) pgdir va) = pte_at (k_mem s) pgdir va)
    by (unfold pte_at, pte_addr; by rewrite Hd). rewrite El.
  unfold present in Hpr. apply negb_true_iff in Hpr. rewrite Hpr. by rewrite (proj2 (Z.eqb_neq _ _)).
Qed.

Lemma uuser_page m pgdir va va' : uuser m pgdir va -> 0 <= va' < KERNBASE -> va' / 4096 = va / 4096 ->
  uuser m pgdir va' /\ upage m pgdir va' = upage m pgdir va.
Proof using.
  intros [H1 H2] Hva E. destruct (umapped_page _ _ _ _ H1 Hva E) as [H3 H4]. split; [|done]. split; [done|].
  destruct H1 as [H1 _]. unfold KERNBASE in *. apply same_page in E as [E1 E2]; [|lia..].
  unfold pte_at in *. by rewrite E1, E2.
Qed.

Lemma same_pt_uuser m m' pgdir va : same_pt m m' pgdir -> uuser m pgdir va -> uuser m' pgdir va.
Proof using.
  intros Hs [H1 H2]. destruct (same_pt_owned _ _ _ Hs) as (E1 & _). split; [by apply E1|]. by rewrite (proj2 Hs va).
Qed.

Lemma same_pt_trans m m1 m2 pgdir : same_pt m m1 pgdir -> same_pt m1 m2 pgdir -> same_pt m m2 pgdir.
Proof using. intros [A1 A2] [B1 B2]. split; intros; [by rewrite B1, A1|by rewrite B2, A2]. Qed.

Lemma copyout_loop_ok f : forall s l pgdir va buf,
  as_ok s l pgdir -> 0 <= va -> va + Z.of_nat (length buf) <= KERNBASE -> Forall byte_ok buf -> (length buf < f)%nat ->
  (forall va', va <= va' < va + Z.of_nat (length buf) -> uuser (k_mem s) pgdir va') ->
  exists s', copyout_loop pgdir va buf f s = Ret 0 s' /\ as_ok s' l pgdir /\ same_pt (k_mem s) (k_mem s') pgdir /\
    (forall va', umapped (k_mem s) pgdir va' -> ubyte (k_mem s') pgdir va' = uwrite (k_mem s) pgdir va buf va').
Proof using HS.
  induction f as [|f IH]; intros s l pgdir va buf Hok Hva Hend Hb Hf Hu; [lia|]. cbn [copyout_loop].
  destruct buf as [|b0 rest] eqn:Eb.
  { exists s. split; [done|]. split; [done|]. split; [done|]. intros va' _. unfold uwrite, in_range. cbn [length].
    destruct (Z.leb_spec va va'), (Z.ltb_spec va' (va + Z.of_nat 0)); cbn; try done; lia. }
  rewrite <- Eb in *. assert (Hlen : (0 < length buf)%nat) by (subst; cbn; lia). clear Eb b0 rest.
  unfold KERNBASE, PGSIZE in *. rewrite pgrounddown_eq by lia. unfold PGSIZE. pose proof (Z.mod_pos_bound va 4096 ltac:(lia)) as Hm.
  assert (Hu0 : uuser (k_mem s) pgdir va) by (apply Hu; lia).
  destruct (uuser_page _ _ _ (va - va mod 4096) Hu0) as [Hu1 Ep]; [unfold KERNBASE; zdiv|zdiv|].
  destruct (uva2ka_ok _ _ _ _ Hok Hu1) as [R Hnz]. erewrite bind_ret by exact R.
  rewrite (proj2 (Z.eqb_neq _ _)) by done. rewrite Ep.
  replace (va - (va - va mod 4096)) with (va mod 4096) by lia.
  set (n := Z.to_nat (Z.min (4096 - va mod 4096) (Z.of_nat (length buf)))).
  assert (Hn : (0 < n <= length buf)%nat /\ va mod 4096 + Z.of_nat n <= 4096) by (unfold n; lia).
  assert (Hlt : length (take n buf) = n) by (rewrite length_take; lia).
  destruct (user_poke s l pgdir va (take n buf) Hok (proj1 Hu0)) as (Hok1 & Hs1 & Hb1); [by apply Forall_take|lia|].
  erewrite bind_ret by reflexivity. set (s1 := set_mem _ s) in *.
  set (va1 := u32 (va - va mod 4096 + 4096)). assert (Ev1 : va1 = va - va mod 4096 + 4096) by (unfold va1; apply u32_small; lia).
  assert (Hv1 : va1 <= 2147483648) by (rewrite Ev1; zdiv).
  assert (Hdrop : (n < length buf)%nat -> va1 = va + Z.of_nat n) by (intros; unfold n in *; lia).
  destruct (IH s1 l pgdir va1 (drop n buf)) as (s' & R' & Hok' & Hs' & Hb').
  - done.
  - lia.
  - rewrite length_drop. lia.
  - by apply Forall_drop.
  - rewrite length_drop. lia.
  - intros va' Hva'. rewrite length_drop in Hva'. eapply same_pt_uuser; [exact Hs1|]. apply Hu. lia.
  - exists s'. split; [exact R'|]. split; [done|]. split; [by eapply same_pt_trans|].
    intros va' Hva'. rewrite Hb' by (by apply (same_pt_owned _ _ _ Hs1)). unfold uwrite at 1. rewrite Hb1 by done.
    unfold uwrite, in_range. rewrite length_drop, Hlt.
    destruct (Z.leb_spec va1 va'), (Z.ltb_spec va' (va1 + Z.of_nat (length buf - n)));
      destruct (Z.leb_spec va va'), (Z.ltb_spec va' (va + Z.of_nat n));
      destruct (Z.ltb_spec va' (va + Z.of_nat (length buf))); cbn [andb]; try done; try lia.
    + rewrite list_lookup_total_alt, lookup_drop, <- list_lookup_total_alt. f_equal. lia.
    + rewrite lookup_total_take_lt by lia. done.
Qed.

(** *** allocuvm *)

Lemma allocuvm_ok (s : kst) (l : list Z) (pgdir oldsz newsz : Z) :
  as_ok s l pgdir -> 0 <= oldsz < 4294967296 -> 0 <= newsz < 4294967296 ->
  (forall va, 0 <= va < 4294967296 -> in_range (ru oldsz) newsz (pg va) = true ->
    present (pte_at (k_mem s) pgdir va) = false) ->
  if KERNBASE <=? newsz then allocuvm pgdir oldsz newsz s = Ret 0 s else
  if newsz <? oldsz then allocuvm pgdir oldsz newsz s = Ret oldsz s else
  exists r s' l', allocuvm pgdir oldsz newsz s = Ret r s' /\
    conserved (k_mem s) l pgdir (k_mem s') l' /\
    ((r = newsz /\ grown s pgdir s' l' (ru oldsz) newsz) \/ (r = 0 /\ restored s pgdir s' l' (ru oldsz) newsz)).
Proof using HS.
  intros Hok Ho Hw Hn. unfold allocuvm. destruct (Z.leb_spec KERNBASE newsz); [done|].
  destruct (Z.ltb_spec newsz oldsz); [done|]. cbv zeta. unfold KERNBASE in *. rewrite pgroundup_eq by lia. fold (ru oldsz).
  destruct (ru_ok oldsz ltac:(lia)) as (R1 & R2 & R3).
  destruct (decide (oldsz = newsz)) as [->|Hne].
  - exists newsz, s, l. assert (El : (ru newsz <? newsz) = false) by (apply Z.ltb_ge; lia).
    cbn [allocuvm_loop]. rewrite El. split; [done|]. split; [done|]. left. split; [done|].
    split; try done. intros va Hva E. unfold in_range in E. zbool. lia.
  - destruct (allocuvm_loop_ok s l pgdir oldsz newsz ltac:(lia) H Hn
      (S (Z.to_nat ((newsz - ru oldsz + PGSIZE - 1) / PGSIZE))) s l (ru oldsz)) as (s' & l' & Hc & Hr); try done; try lia.
    + by apply grown_refl.
    + unfold PGSIZE. zdiv.
    + destruct Hr as [[R Hg]|[R Hg]]; [exists newsz|exists 0]; exists s', l'; (split; [exact R|]); split; auto.
Qed.

(** ** Properties *)

(** mappages over any range: it maps the pages of the range to
    consecutive physical pages with the given permissions and leaves every
    other entry, the free list's order and all other memory as they were; if
    memory for a table runs out it returns -1 with a prefix of the range
    mapped. *)
Theorem mappages_maps (s : kst) (l : list Z) (pgdir va size pa perm : Z) :
  kmem_ok s l -> pt_ok (k_mem s) l pgdir -> 0 <= va -> 0 < size -> va + size <= 4294967296 ->
  0 <= pa -> pa mod 4096 = 0 -> 0 <= perm < 4096 ->
  let n := (va + size - 1) / 4096 - va / 4096 + 1 in pa + 4096 * n <= 4294967296 ->
  (forall a, va / 4096 <= a / 4096 < va / 4096 + n -> present (pte_at (k_mem s) pgdir a) = false) ->
  exists r s' l' k, mappages pgdir va size pa perm s = Ret r s' /\
    ((r = 0 /\ k = n) \/ (r = -1 /\ 0 <= k < n /\ l' = [])) /\
    kmem_ok s' l' /\ pt_ok (k_mem s') l' pgdir /\ (exists ts, l = ts ++ l') /\
    (forall a, 0 <= a < 4294967296 -> pte_at (k_mem s') pgdir a =
       if decide (va / 4096 <= a / 4096 < va / 4096 + k)
       then pa + 4096 * (a / 4096 - va / 4096) + Z.lor perm PTE_P else pte_at (k_mem s) pgdir a) /\
    (forall b, outside pgdir b -> (forall p, p ∈ l -> p ∉ l' -> outside p b) ->
       (forall i, 0 <= i < 1024 -> present (pde (k_mem s) pgdir i) = true -> outside (tab (k_mem s) pgdir i) b) ->
       k_mem s' b = k_mem s b).
Proof using HS.
  intros Hk Hp H1 H2 H3 H4 H5 H6 n H7 H8.
  assert (Hfin : forall s' l' k, mapped s l pgdir s' l' (map_range (pte_at (k_mem s) pgdir) va pa perm k) ->
    exists ts, l = ts ++ l').
  { intros s' l' k Hm. destruct (mp_new _ _ _ _ _ _ Hm) as (ts & E & _). by exists ts. }
  destruct (mappages_ok s l pgdir va size pa perm Hk Hp H1 H2 H3 H4 H5 H6 H7 H8)
    as [(s' & l' & R & Hm)|(s' & k & R & Hkk & Hm)].
  - exists 0, s', l', n. split; [exact R|]. split; [by left|].
    split_and!; [apply Hm|apply Hm|by eapply Hfin|apply Hm|apply Hm].
  - exists (-1), s', [], k. split; [exact R|]. split; [by right|].
    split_and!; [apply Hm|apply Hm|by eapply Hfin|apply Hm|apply Hm].
Qed.

(** C10: allocuvm.  A size in the kernel's half gives 0 and a smaller size is
    a no-op.  Otherwise either the new size is returned and every new page is
    mapped user-writable to a page of its own filled with zeros, or 0 is
    returned and everything mapped on the way is unmapped again.  In all
    cases the old user bytes stay, the address space stays well formed, and
    no page is lost: each is free or owned after as before. *)
Theorem allocuvm_correct (s : kst) (l : list Z) (pgdir oldsz newsz : Z) :
  as_ok s l pgdir -> 0 <= oldsz < 4294967296 -> 0 <= newsz < 4294967296 ->
  (forall va, 0 <= va < 4294967296 -> in_range (ru oldsz) newsz (pg va) = true ->
    present (pte_at (k_mem s) pgdir va) = false) ->
  if KERNBASE <=? newsz then allocuvm pgdir oldsz newsz s = Ret 0 s else
  if newsz <? oldsz then allocuvm pgdir oldsz newsz s = Ret oldsz s else
  exists r s' l', allocuvm pgdir oldsz newsz s = Ret r s' /\
    conserved (k_mem s) l pgdir (k_mem s') l' /\
    ((r = newsz /\ grown s pgdir s' l' (ru oldsz) newsz) \/ (r = 0 /\ restored s pgdir s' l' (ru oldsz) newsz)).
Proof using HS. apply allocuvm_ok. Qed.

(** C34: freevm gives back every page of the address space, and only those:
    after it a page is free exactly when it was free or owned before. *)
Theorem freevm_frees_all (s : kst) (l : list Z) (pgdir : Z) :
  as_ok s l pgdir ->
  exists s' l', freevm pgdir s = Ret tt s' /\ kmem_ok s' l' /\
    forall p, p ∈ l' <-> p ∈ l \/ p = pgdir \/ is_table (k_mem s) pgdir p \/ is_upage (k_mem s) pgdir p.
Proof using HS. apply freevm_ok. Qed.

(** copyout writes exactly the bytes it is given at the user address,
    across page boundaries, and nothing else of user memory, page table or
    free list changes; a present page without user access makes it return -1,
    and an address without a page table makes uva2ka dereference a null
    entry. *)
Theorem copyout_correct (s : kst) (l : list Z) (pgdir va : Z) (buf : list Z) :
  as_ok s l pgdir -> Forall byte_ok buf -> 0 <= va < KERNBASE ->
  ((forall va', va <= va' < va + Z.of_nat (length buf) -> uuser (k_mem s) pgdir va') ->
   va + Z.of_nat (length buf) <= KERNBASE ->
   exists s', copyout pgdir va buf s = Ret 0 s' /\ as_ok s' l pgdir /\
     (forall va', pte_at (k_mem s') pgdir va' = pte_at (k_mem s) pgdir va') /\
     (forall va', umapped (k_mem s) pgdir va' -> ubyte (k_mem s') pgdir va' =
        if in_range va (va + Z.of_nat (length buf)) va' then buf !!! Z.to_nat (va' - va) else ubyte (k_mem s) pgdir va')) /\
  (buf <> [] -> present (pde (k_mem s) pgdir (PDX va)) = true -> ~ uuser (k_mem s) pgdir va ->
   copyout pgdir va buf s = Ret (-1) s) /\
  (buf <> [] -> present (pde (k_mem s) pgdir (PDX va)) = false -> copyout pgdir va buf s = Fault).
Proof using HS.
  intros Hok Hb Hva. assert (Eva : PGROUNDDOWN va = pg va).
  { unfold KERNBASE in *. rewrite pgrounddown_eq by lia. unfold pg, PGSIZE. zdiv. }
  assert (Ed : PDX (pg va) = PDX va /\ PTX (pg va) = PTX va).
  { unfold KERNBASE in *. apply same_page; unfold pg; zdiv. }
  destruct Ed as [Ed Et]. split; [|split].
  - intros Hu Hend. destruct (copyout_loop_ok (S (length buf)) s l pgdir va buf Hok ltac:(lia) Hend Hb ltac:(lia) Hu)
      as (s' & R & Hok' & Hs & Hw). exists s'. split; [exact R|]. split; [done|]. split; [apply Hs|exact Hw].
  - intros Hne Hd Hnu. unfold copyout. cbn [copyout_loop]. destruct buf as [|b0 rest]; [done|]. rewrite Eva.
    assert (R : uva2ka pgdir (pg va) s = Ret 0 s).
    { unfold uva2ka. erewrite bind_ret by apply walk_look. rewrite <- Ed in Hd.
      destruct (pte_addr_in _ _ _ _ (ao_pt _ _ _ Hok) Hd) as (_ & _ & _ & _ & Hnz). rewrite (proj2 (Z.eqb_neq _ _)) by done.
      erewrite bind_ret by reflexivity.
      assert (El : ld32 (k_mem s) (pte_addr (k_mem s) pgdir (pg va)) = pte_at (k_mem s) pgdir va)
        by (unfold pte_at, pte_addr; rewrite Hd, Et, <- Ed, Hd; done). rewrite El.
      destruct (Z.eqb_spec (Z.land (pte_at (k_mem s) pgdir va) PTE_P) 0) as [|H1]; [done|].
      destruct (Z.eqb_spec (Z.land (pte_at (k_mem s) pgdir va) PTE_U) 0) as [|H2]; [done|].
      exfalso. apply Hnu. split; [|done]. split; [done|]. unfold present. by apply negb_true_iff, Z.eqb_neq. }
    by erewrite bind_ret by exact R.
  - intros Hne Hd. unfold copyout. cbn [copyout_loop]. destruct buf as [|b0 rest]; [done|]. rewrite Eva.
    assert (R : uva2ka pgdir (pg va) s = Fault).
    { unfold uva2ka. erewrite bind_ret by apply walk_look. unfold pte_addr. by rewrite Ed, Hd. }
    unfold mbind, M_bind. by rewrite R.
Qed.

End Theory.

(** ** The properties at an empty directory

    A machine whose free pages are four; one is taken and cleared to be a page
    directory with nothing mapped. *)

#[local] Existing Instance demo_syms.
#[local] Existing Instance demo_syms_ok.

Definition pd : Z := 2149580800.
Definition demo_pages : list Z := [2149584896; 2149588992; 2149593088].
Definition demo_s0 : kst := kfreed 2149584896 (kfreed 2149588992 (kfreed 2149593088 demo_k0)).

Lemma demo_kmem : kmem_ok demo_s0 demo_pages.
Proof.
  unfold demo_s0, demo_pages.
  repeat (apply kfreed_ok; [|reflexivity|lia|by repeat (apply not_elem_of_cons; split; [discriminate|]); apply not_elem_of_nil]).
  exact demo_k0_ok.
Qed.

Lemma demo_pde i : 0 <= i < 1024 -> pde (k_mem demo_s0) pd i = 0.
Proof.
  intros Hi. unfold pde, demo_s0, pd. transitivity (ld32 (k_mem demo_k0) (2149580800 + 4 * i)); [|reflexivity].
  apply ld32_ext. intros b Hb. rewrite !kfreed_out by lia. reflexivity.
Qed.

Lemma demo_pte va : pte_at (k_mem demo_s0) pd va = 0.
Proof. unfold pte_at. by rewrite demo_pde by apply PDX_range. Qed.

Lemma demo_as : as_ok demo_s0 demo_pages pd.
Proof.
  split.
  - exact demo_kmem.
  - split.
    + split; [split; [reflexivity|unfold pd; lia]|].
      repeat (apply not_elem_of_cons; split; [discriminate|]). apply not_elem_of_nil.
    + intros i Hi. by rewrite demo_pde.
    + intros i j Hi Hj. by rewrite demo_pde.
  - intros va [_ H]. by rewrite demo_pte in H.
  - intros va va' [_ H]. by rewrite demo_pte in H.
Qed.

Lemma demo_absent va : present (pte_at (k_mem demo_s0) pd va) = false.
Proof. by rewrite demo_pte. Qed.

Lemma mappages_maps_witness : exists r s',
  mappages pd 4096 8192 1048576 PTE_W demo_s0 = Ret r s' /\ (r = 0 \/ r = -1).
Proof.
  destruct (mappages_maps demo_s0 demo_pages pd 4096 8192 1048576 PTE_W demo_kmem (ao_pt _ _ _ demo_as)
    ltac:(lia) ltac:(lia) ltac:(lia) ltac:(lia) eq_refl ltac:(unfold PTE_W; lia) ltac:(vm_compute; discriminate)
    (fun a _ => demo_absent a)) as (r & s' & l' & k & R & Hr & _).
  exists r, s'. split; [exact R|]. destruct Hr as [[? _]|[? _]]; [by left|by right].
Defined.

Lemma allocuvm_correct_witness : exists r s' l',
  allocuvm pd 0 5000 demo_s0 = Ret r s' /\ as_ok s' l' pd.
Proof.
  pose proof (allocuvm_correct demo_s0 demo_pages pd 0 5000 demo_as ltac:(lia) ltac:(lia)) as Hw.
  change (KERNBASE <=? 5000) with false in Hw. change (5000 <? 0) with false in Hw.
  destruct Hw as (r & s' & l' & R & _ & Hr); [intros va _ _; by rewrite demo_pte|].
  exists r, s', l'. split; [exact R|]. destruct Hr as [[_ Hg]|[_ Hg]]; apply Hg.
Defined.

Lemma freevm_frees_all_witness : exists s' l',
  freevm pd demo_s0 = Ret tt s' /\ kmem_ok s' l' /\ pd ∈ l'.
Proof.
  destruct (freevm_frees_all demo_s0 demo_pages pd demo_as) as (s' & l' & R & Hk & Hl).
  exists s', l'. split; [exact R|]. split; [exact Hk|]. apply Hl. right. by left.
Defined.

(** The same machine with a table and one user page at address 0. *)
Definition demo_tab : Z := 2149584896.
Definition demo_up : Z := 2149588992.
Definition demo_m1 : mem := st32 (st32 (fun _ => 0) pd (V2P demo_tab + 7)) demo_tab (V2P demo_up + 7).
Definition demo_s1 : kst := mkkst demo_m1 0 false.

Lemma demo_pde1 i : 0 <= i < 1024 -> pde demo_m1 pd i = if decide (i = 0) then V2P demo_tab + 7 else 0.
Proof.
  intros Hi. unfold pde, demo_m1. rewrite ld32_st32_other by (unfold pd, demo_tab; lia). case_decide.
  - subst i. change (pd + 4 * 0) with pd. rewrite ld32_st32. reflexivity.
  - rewrite ld32_st32_other by lia. reflexivity.
Qed.

Lemma demo_pte1 va : 0 <= va < 4294967296 -> pte_at demo_m1 pd va = if decide (va / 4096 = 0) then V2P demo_up + 7 else 0.
Proof.
  intros Hva. unfold pte_at, tab. rewrite demo_pde1 by apply PDX_range.
  pose proof (same_page 0 va ltac:(lia) Hva) as Hs. change (PDX 0) with 0 in Hs. change (PTX 0) with 0 in Hs.
  change (0 / 4096) with 0 in Hs. pose proof (PTX_range va).
  destruct (decide (PDX va = 0)) as [Ed|Ed].
  - change (present (V2P demo_tab + 7)) with true. cbn match.
    change (P2V (PTE_ADDR (V2P demo_tab + 7))) with demo_tab. unfold demo_m1.
    destruct (decide (va / 4096 = 0)) as [E|E].
    + apply Hs in E as [_ ->]. change (demo_tab + 4 * 0) with demo_tab. rewrite ld32_st32. reflexivity.
    + rewrite ld32_st32_other, ld32_st32_other; [reflexivity|unfold pd, demo_tab; lia|].
      assert (PTX va <> 0) by (intros Et; apply E; by apply Hs). lia.
  - rewrite decide_False; [reflexivity|]. intros E. by apply Hs in E as [? _].
Qed.

Lemma demo_um va : umapped demo_m1 pd va -> va / 4096 = 0 /\ upage demo_m1 pd va = demo_up.
Proof.
  intros [Hva Hp]. unfold upage, KERNBASE in *. rewrite demo_pte1 in * by lia. case_decide; [|done]. by split.
Qed.

Lemma demo_as1 : as_ok demo_s1 [] pd.
Proof.
  assert (Hpg : forall v, is_page v = true -> 0 < v < 4294967296 -> Page v) by done.
  assert (Htab : forall i, 0 <= i < 1024 -> present (pde demo_m1 pd i) = true -> i = 0 /\ tab demo_m1 pd i = demo_tab).
  { intros i Hi. unfold tab. rewrite demo_pde1 by done. case_decide; [|done]. by split. }
  split; cbn [k_mem demo_s1].
  - split; [done|by apply Forall_nil_2|apply NoDup_nil_2|]. cbn [k_mem demo_s1]. unfold demo_m1.
    apply mem_ok_st32, mem_ok_st32. intros a. unfold byte_ok. lia.
  - split.
    + split; [apply Hpg; [reflexivity|unfold pd; lia]|apply not_elem_of_nil].
    + intros i Hi Hp. destruct (Htab i Hi Hp) as [_ ->].
      split_and!; [apply Hpg; [reflexivity|unfold demo_tab; lia]|apply not_elem_of_nil|discriminate].
    + intros i j Hi Hj Hp Hq _. destruct (Htab i Hi Hp) as [-> _], (Htab j Hj Hq) as [-> _]. done.
  - intros va Hva. destruct (demo_um va Hva) as [_ ->].
    split_and!; [apply Hpg; [reflexivity|unfold demo_up; lia]|apply not_elem_of_nil|discriminate|].
    intros (i & Hi & Hp & E). destruct (Htab i Hi Hp) as [_ E']. rewrite E in E'. discriminate.
  - intros va va' Hva Hva' _. destruct (demo_um va Hva) as [-> _], (demo_um va' Hva') as [-> _]. done.
Qed.

Lemma copyout_correct_witness : exists s',
  copyout pd 100 [1; 2; 3] demo_s1 = Ret 0 s' /\ ubyte (k_mem s') pd 101 = 2.
Proof.
  destruct (copyout_correct demo_s1 [] pd 100 [1; 2; 3] demo_as1 ltac:(solve_bytes)
    ltac:(split; [lia|reflexivity])) as (H & _ & _).
  assert (Hu : forall va, 0 <= va < 4096 -> uuser demo_m1 pd va).
  { intros va Hva. assert (E : va / 4096 = 0) by zdiv. unfold uuser, umapped, KERNBASE.
    rewrite demo_pte1, decide_True by (done || lia). split; [split; [lia|reflexivity]|discriminate]. }
  destruct H as (s' & R & _ & _ & Hb).
  - cbn [length Z.of_nat]. intros va' Hva'. apply Hu. lia.
  - vm_compute. discriminate.
  - exists s'. split; [exact R|]. rewrite Hb by (apply (Hu 101); lia). reflexivity.
Defined.
