(* ===== verification/Pipe.v ===== *)
(** * Pipes: pipe.c

    A pipe is a ring of PIPESIZE bytes with two free-running 32-bit counters.
    [pps] is a pipe with the process table.  [contents] is what is in the
    ring; the theorems say that the reads and writes of any number of
    processes, in any order and across counter overflow, are those of a
    bounded queue, and when a sleeping reader or writer is woken. *)

From stdpp Require Import base list list_numbers relations strings.
From Stdlib Require Import ZArith Lia.
From S2P Require Import Prelude Proc.

Local Open Scope Z_scope.

Definition PIPESIZE : Z := 512.

Record pipe : Type := mkpipe {
  pi_data : list Z;         (* char data[PIPESIZE] *)
  nread : Z;
  nwrite : Z;
  readopen : bool;
  writeopen : bool }.

Definition set_data (x : list Z) (p : pipe) : pipe := mkpipe x (nread p) (nwrite p) (readopen p) (writeopen p).
Definition set_nread (x : Z) (p : pipe) : pipe := mkpipe (pi_data p) x (nwrite p) (readopen p) (writeopen p).
Definition set_nwrite (x : Z) (p : pipe) : pipe := mkpipe (pi_data p) (nread p) x (readopen p) (writeopen p).
Definition set_readopen (x : bool) (p : pipe) : pipe := mkpipe (pi_data p) (nread p) (nwrite p) x (writeopen p).
Definition set_writeopen (x : bool) (p : pipe) : pipe := mkpipe (pi_data p) (nread p) (nwrite p) (readopen p) x.

(** What pipealloc makes of a page with contents [d]. *)
Definition new_pipe (d : list Z) : pipe := mkpipe d 0 0 true true.

(** A pipe and the process table. *)
Record pps : Type := mkpps { pp_pipe : pipe; pp_proc : pst }.

Definition set_pipe (x : pipe) (s : pps) : pps := mkpps x (pp_proc s).
Definition set_pproc (x : pst) (s : pps) : pps := mkpps (pp_pipe s) x.

Definition upd_pipe (f : pipe -> pipe) : M pps unit := modify (fun s => set_pipe (f (pp_pipe s)) s).
Definition procs {A} (m : M pst A) : M pps A := zoom pp_proc set_pproc m.

Section Pipe.
(** The address of the pipe: its channels are &p->nread and &p->nwrite. *)
Context (p : Z).

Definition full (x : pipe) : bool := nwrite x =? u32 (nread x + PIPESIZE).
Definition empty (x : pipe) : bool := nread x =? nwrite x.

(** pipewrite from byte [i] of [addr] on; the first call starts at 0, a
    woken writer goes on where it slept. *)
Fixpoint pipewrite_from (i : nat) (rest : list Z) : M pps (progress Z) :=
  match rest with
  | [] => procs (wakeup (ChPipeRead p)) ;; mret (Done (Z.of_nat i))
  | b :: rest' =>
    x ← gets pp_pipe;
    if full x then
      k ← procs my_killed;
      if negb (readopen x) || k then mret (Done (-1)) else
      procs (wakeup (ChPipeRead p)) ;;
      procs (sleep_mark (ChPipeWrite p)) ;;
      mret (Wait i)
    else
      upd_pipe (set_data (<[Z.to_nat (nwrite x mod PIPESIZE) := b]> (pi_data x))) ;;
      upd_pipe (set_nwrite (u32 (nwrite x + 1))) ;;
      pipewrite_from (S i) rest'
  end.

Definition pipewrite (addr : list Z) : M pps (progress Z) := pipewrite_from 0 addr.
Definition pipewrite_resume (addr : list Z) (i : nat) : M pps (progress Z) := pipewrite_from i (drop i addr).

(** The copy loop of piperead. *)
Fixpoint piperead_copy (n : nat) : M pps (list Z) :=
  match n with
  | O => mret []
  | S n' =>
    x ← gets pp_pipe;
    if empty x then mret [] else
    upd_pipe (set_nread (u32 (nread x + 1))) ;;
    l ← piperead_copy n';
    mret (pi_data x !!! Z.to_nat (nread x mod PIPESIZE) :: l)
  end.

(** piperead returns the count and the bytes; a woken reader starts again. *)
Definition piperead (n : nat) : M pps (progress (Z * list Z)) :=
  x ← gets pp_pipe;
  if empty x && writeopen x then
    k ← procs my_killed;
    if k : bool then mret (Done (-1, [])) else
    procs (sleep_mark (ChPipeRead p)) ;;
    mret (Wait 0)
  else
    l ← piperead_copy n;
    procs (wakeup (ChPipeWrite p)) ;;
    mret (Done (Z.of_nat (length l), l)).

(** pipeclose; the result says whether the page is to be freed. *)
Definition pipeclose (writable : bool) : M pps bool :=
  (if writable then
     upd_pipe (set_writeopen false) ;; procs (wakeup (ChPipeRead p))
   else
     upd_pipe (set_readopen false) ;; procs (wakeup (ChPipeWrite p))) ;;
  x ← gets pp_pipe;
  mret (negb (readopen x) && negb (writeopen x)).

End Pipe.

(** ** The ring as a queue *)

Definition used (x : pipe) : Z := u32 (nwrite x - nread x).

Definition contents (x : pipe) : list Z :=
  (fun k => pi_data x !!! Z.to_nat ((nread x + k) mod PIPESIZE)) <$> seqZ 0 (used x).

Record pipe_ok (x : pipe) : Prop := mkpipe_ok {
  po_len : length (pi_data x) = 512%nat;
  po_read : 0 <= nread x < 4294967296;
  po_write : 0 <= nwrite x < 4294967296;
  po_used : used x <= PIPESIZE }.

Lemma length_contents x : length (contents x) = Z.to_nat (used x).
Proof. unfold contents. by rewrite length_fmap, length_seqZ. Qed.

Lemma used_range x : 0 <= used x.
Proof. unfold used. pose proof (u32_range (nwrite x - nread x)). lia. Qed.

Lemma full_used x : pipe_ok x -> full x = (used x =? PIPESIZE).
Proof.
  intros [H1 H2 H3 H4]. unfold full, used, u32, PIPESIZE in *.
  destruct (Z.eqb_spec (nwrite x) ((nread x + 512) mod 4294967296)),
    (Z.eqb_spec ((nwrite x - nread x) mod 4294967296) 512); try done; zdiv.
Qed.

Lemma empty_used x : pipe_ok x -> empty x = (used x =? 0).
Proof.
  intros [H1 H2 H3 H4]. unfold empty, used, u32, PIPESIZE in *.
  destruct (Z.eqb_spec (nread x) (nwrite x)), (Z.eqb_spec ((nwrite x - nread x) mod 4294967296) 0); try done; zdiv.
Qed.

(** One byte in. *)
Lemma put_ok x b :
  pipe_ok x -> full x = false ->
  let x' := set_nwrite (u32 (nwrite x + 1)) (set_data (<[Z.to_nat (nwrite x mod PIPESIZE) := b]> (pi_data x)) x) in
  pipe_ok x' /\ contents x' = contents x ++ [b] /\ used x' = used x + 1.
Proof.
  intros Hx Hf x'. rewrite full_used in Hf by done. destruct Hx as [H1 H2 H3 H4]. zbool.
  pose proof (used_range x) as Hu.
  assert (Hu' : used x' = used x + 1).
  { unfold used, x', set_nwrite, set_data in *. cbn. unfold u32, PIPESIZE in *. zdiv. }
  split; [|split; [|done]].
  - split; [cbn; by rewrite length_insert|done|cbn; apply u32_range|lia].
  - unfold contents. rewrite Hu', seqZ_app by lia. rewrite fmap_app.
    assert (Eidx : Z.to_nat ((nread x + used x) mod PIPESIZE) = Z.to_nat (nwrite x mod PIPESIZE)).
    { unfold used, u32, PIPESIZE. f_equal. zdiv. }
    change (seqZ (0 + used x) 1) with [0 + used x]. rewrite list_fmap_singleton. f_equal.
    + apply list_fmap_ext. intros i k Hk. apply lookup_seqZ in Hk as [-> Hk]. cbn [pi_data nread x' set_nwrite set_data].
      apply list_lookup_total_insert_ne. rewrite <- Eidx. unfold PIPESIZE in *. intros E.
      apply Z2Nat.inj in E; [|zdiv..]. zdiv.
    + f_equal. cbn [pi_data nread x' set_nwrite set_data]. rewrite Z.add_0_l, Eidx.
      apply list_lookup_total_insert_eq. rewrite H1. unfold PIPESIZE. zdiv.
Qed.

(** One byte out. *)
Lemma get_ok x :
  pipe_ok x -> empty x = false ->
  let x' := set_nread (u32 (nread x + 1)) x in
  pipe_ok x' /\ contents x = pi_data x !!! Z.to_nat (nread x mod PIPESIZE) :: contents x' /\ used x' = used x - 1.
Proof.
  intros Hx Hf x'. rewrite empty_used in Hf by done. destruct Hx as [H1 H2 H3 H4]. zbool.
  pose proof (used_range x) as Hu.
  assert (Hu' : used x' = used x - 1).
  { unfold used, x', set_nread in *. cbn. unfold u32, PIPESIZE in *. zdiv. }
  split; [|split; [|done]].
  - split; [done|cbn; apply u32_range|done|lia].
  - unfold contents. rewrite Hu'. rewrite seqZ_cons by lia. rewrite fmap_cons, Z.add_0_r. f_equal.
    replace (Z.succ 0) with 1 by lia. replace (Z.pred (used x)) with (used x - 1) by lia.
    replace (seqZ 1 (used x - 1)) with (Z.add 1 <$> seqZ 0 (used x - 1)) by (by rewrite fmap_add_seqZ).
    rewrite <- list_fmap_compose. apply list_fmap_ext. intros i k _.
    cbn [compose pi_data nread x' set_nread]. do 2 f_equal. unfold u32, PIPESIZE. zdiv.
Qed.

(** ** What the calls do *)

Definition room (x : pipe) : nat := Z.to_nat (PIPESIZE - used x).

Section Spec.
Context (p : Z).
Implicit Types (x : pipe) (ps : pst).

Lemma procs_ret {A} (m : M pst A) x ps a ps' : m ps = Ret a ps' -> procs m (mkpps x ps) = Ret a (mkpps x ps').
Proof. intros H. unfold procs, zoom. cbn [pp_proc]. by rewrite H. Qed.

(** The processes after a write that stored all it could. *)
Definition write_result (me : nat) (q : proc) (x : pipe) (ps : pst) (i : nat) (rest : list Z) : progress Z * pst :=
  if decide (length rest <= room x)%nat then (Done (Z.of_nat (i + length rest)), woken (ChPipeRead p) ps)
  else if negb (readopen x) || p_killed q then (Done (-1), ps)
  else (Wait (i + room x), asleep_on (ChPipeWrite p) me (woken (ChPipeRead p) ps)).

Definition same_ends x x' : Prop := readopen x' = readopen x /\ writeopen x' = writeopen x.

Lemma pipewrite_from_ok rest : forall i x ps me q,
  pipe_ok x -> cur ps = Some me -> ptable ps !! me = Some q ->
  exists x', pipewrite_from p i rest (mkpps x ps) =
      Ret (write_result me q x ps i rest).1 (mkpps x' (write_result me q x ps i rest).2) /\
    pipe_ok x' /\ same_ends x x' /\ contents x' = contents x ++ take (room x) rest.
Proof.
  induction rest as [|b rest IH]; intros i x ps me q Hx Hc Hq; cbn [pipewrite_from].
  - exists x. unfold write_result. rewrite decide_True by (cbn; lia). cbn [length fst snd].
    rewrite Nat.add_0_r, take_nil, app_nil_r. split; [|done]. by erewrite bind_ret by (by apply procs_ret).
  - pose proof (po_used _ Hx) as Hu. pose proof (used_range x) as Hu0.
    erewrite bind_ret by reflexivity. cbn [pp_pipe]. destruct (full x) eqn:Hf.
    + pose proof Hf as Hf'. rewrite full_used in Hf' by done. apply Z.eqb_eq in Hf'.
      assert (Er : room x = 0%nat) by (unfold room; lia).
      unfold write_result. rewrite Er, decide_False by (cbn; lia). exists x.
      rewrite take_0, app_nil_r, Nat.add_0_r. split; [|done].
      erewrite bind_ret by (apply procs_ret; by apply (my_killed_ok _ me q)).
      destruct (negb (readopen x) || p_killed q); [done|].
      erewrite bind_ret by (by apply procs_ret). by erewrite bind_ret by (by apply procs_ret, (sleep_mark_ok _ me)).
    + destruct (put_ok x b Hx Hf) as (Hx1 & Hc1 & Hu1). set (x1 := set_nwrite _ _) in *.
      destruct (IH (S i) x1 ps me q Hx1 Hc Hq) as (x' & R & Hx' & He & Hc').
      rewrite full_used in Hf by done. apply Z.eqb_neq in Hf.
      assert (Er : room x = S (room x1)) by (unfold room; lia).
      exists x'. erewrite bind_ret by reflexivity. erewrite bind_ret by reflexivity.
      split; [|split; [done|split; [done|]]].
      * etransitivity; [exact R|].
        assert (E : write_result me q x1 ps (S i) rest = write_result me q x ps i (b :: rest)).
        { unfold write_result. rewrite Er. cbn [length]. change (readopen x1) with (readopen x).
          destruct (decide (length rest <= room x1)%nat), (decide (S (length rest) <= S (room x1))%nat); try lia.
          - do 3 f_equal. lia.
          - destruct (negb (readopen x) || p_killed q); [done|]. do 2 f_equal. lia. }
        by rewrite E.
      * rewrite Hc', Hc1, Er. cbn [take]. by rewrite <- (assoc (++)).
Qed.

Lemma piperead_copy_ok n : forall x ps, pipe_ok x ->
  exists x', piperead_copy n (mkpps x ps) = Ret (take n (contents x)) (mkpps x' ps) /\
    pipe_ok x' /\ same_ends x x' /\ contents x' = drop n (contents x).
Proof.
  induction n as [|n IH]; intros x ps Hx; cbn [piperead_copy].
  - exists x. rewrite take_0, drop_0. done.
  - erewrite bind_ret by reflexivity. cbn [pp_pipe]. destruct (empty x) eqn:He.
    + exists x. rewrite empty_used in He by done. apply Z.eqb_eq in He.
      assert (En : contents x = []) by (unfold contents; by rewrite He). rewrite En, take_nil, drop_nil. done.
    + destruct (get_ok x Hx He) as (Hx1 & Hc1 & Hu1). set (x1 := set_nread _ _) in *.
      destruct (IH x1 ps Hx1) as (x' & R & Hx' & Hs & Hc'). exists x'.
      erewrite bind_ret by reflexivity. erewrite bind_ret by exact R. rewrite Hc1. cbn [take drop]. done.
Qed.

Definition read_result (me : nat) (q : proc) (x : pipe) (ps : pst) (n : nat) : progress (Z * list Z) * pst :=
  if bool_decide (contents x = []) && writeopen x then
    if p_killed q then (Done (-1, []), ps) else (Wait 0, asleep_on (ChPipeRead p) me ps)
  else (Done (Z.of_nat (length (take n (contents x))), take n (contents x)), woken (ChPipeWrite p) ps).

Lemma empty_contents x : pipe_ok x -> empty x = bool_decide (contents x = []).
Proof.
  intros Hx. rewrite empty_used by done. pose proof (length_contents x) as Hl. pose proof (used_range x).
  destruct (Z.eqb_spec (used x) 0) as [E|E].
  - rewrite E in Hl. apply length_zero_iff_nil in Hl. by rewrite bool_decide_true.
  - rewrite bool_decide_false; [done|]. intros En. rewrite En in Hl. cbn in Hl. lia.
Qed.

Lemma piperead_ok n x ps me q :
  pipe_ok x -> cur ps = Some me -> ptable ps !! me = Some q ->
  exists x', piperead p n (mkpps x ps) = Ret (read_result me q x ps n).1 (mkpps x' (read_result me q x ps n).2) /\
    pipe_ok x' /\ same_ends x x' /\
    contents x' = if bool_decide (contents x = []) && writeopen x then contents x else drop n (contents x).
Proof.
  intros Hx Hc Hq. unfold piperead, read_result. erewrite bind_ret by reflexivity. cbn [pp_pipe].
  rewrite empty_contents by done. destruct (bool_decide (contents x = []) && writeopen x).
  - exists x. erewrite bind_ret by (apply procs_ret; by apply (my_killed_ok _ me q)).
    destruct (p_killed q); [done|]. by erewrite bind_ret by (by apply procs_ret, (sleep_mark_ok _ me)).
  - destruct (piperead_copy_ok n x ps Hx) as (x' & R & H). exists x'. split; [|exact H].
    erewrite bind_ret by exact R. by erewrite bind_ret by (by apply procs_ret).
Qed.

End Spec.

(** ** The contract: a bounded queue *)

(** A call by the process in slot [me]: a write of the bytes [rest] that
    start at index [i] of its buffer, a read of [n] bytes, a close. *)
Inductive pcall : Type :=
| PWrite (me i : nat) (rest : list Z)
| PRead (me n : nat)
| PClose (writable : bool).

Inductive presult : Type :=
| RWrite (r : progress Z)
| RRead (r : progress (Z * list Z))
| RClose (freed : bool).

Section Contract.
Context (p : Z).

(** The calls as pipe.c makes them. *)
Definition run_call (c : pcall) : M pps presult :=
  match c with
  | PWrite me i rest => procs (modify (set_cur (Some me))) ;; r ← pipewrite_from p i rest; mret (RWrite r)
  | PRead me n => procs (modify (set_cur (Some me))) ;; r ← piperead p n; mret (RRead r)
  | PClose w => r ← pipeclose p w; mret (RClose r)
  end.

Fixpoint run_calls (cs : list pcall) : M pps (list presult) :=
  match cs with
  | [] => mret []
  | c :: cs' => r ← run_call c; rs ← run_calls cs'; mret (r :: rs)
  end.

(** The same calls on a queue of at most PIPESIZE bytes. *)
Record queue : Type := mkq { q_items : list Z; q_ropen : bool; q_wopen : bool; q_proc : pst }.

Definition q_write (me : nat) (q : proc) (i : nat) (rest : list Z) (s : queue) : presult * queue :=
  let k := (512 - length (q_items s))%nat in
  let items := q_items s ++ take k rest in
  if decide (length rest <= k)%nat then
    (RWrite (Done (Z.of_nat (i + length rest))),
     mkq items (q_ropen s) (q_wopen s) (woken (ChPipeRead p) (q_proc s)))
  else if negb (q_ropen s) || p_killed q then
    (RWrite (Done (-1)), mkq items (q_ropen s) (q_wopen s) (q_proc s))
  else
    (RWrite (Wait (i + k)),
     mkq items (q_ropen s) (q_wopen s) (asleep_on (ChPipeWrite p) me (woken (ChPipeRead p) (q_proc s)))).

Definition q_read (me : nat) (q : proc) (n : nat) (s : queue) : presult * queue :=
  if bool_decide (q_items s = []) && q_wopen s then
    if p_killed q then (RRead (Done (-1, [])), s)
    else (RRead (Wait 0), mkq (q_items s) (q_ropen s) (q_wopen s) (asleep_on (ChPipeRead p) me (q_proc s)))
  else
    let l := take n (q_items s) in
    (RRead (Done (Z.of_nat (length l), l)),
     mkq (drop n (q_items s)) (q_ropen s) (q_wopen s) (woken (ChPipeWrite p) (q_proc s))).

Definition q_close (w : bool) (s : queue) : presult * queue :=
  if w then (RClose (negb (q_ropen s)), mkq (q_items s) (q_ropen s) false (woken (ChPipeRead p) (q_proc s)))
  else (RClose (negb (q_wopen s)), mkq (q_items s) false (q_wopen s) (woken (ChPipeWrite p) (q_proc s))).

(** [None]: there is no such process. *)
Definition q_call (c : pcall) (s : queue) : option (presult * queue) :=
  match c with
  | PWrite me i rest =>
    q ← ptable (q_proc s) !! me;
    Some (q_write me q i rest (mkq (q_items s) (q_ropen s) (q_wopen s) (set_cur (Some me) (q_proc s))))
  | PRead me n =>
    q ← ptable (q_proc s) !! me;
    Some (q_read me q n (mkq (q_items s) (q_ropen s) (q_wopen s) (set_cur (Some me) (q_proc s))))
  | PClose w => Some (q_close w s)
  end.

Fixpoint q_calls (cs : list pcall) (s : queue) : option (list presult * queue) :=
  match cs with
  | [] => Some ([], s)
  | c :: cs' => '(r, s1) ← q_call c s; '(rs, s2) ← q_calls cs' s1; Some (r :: rs, s2)
  end.

Definition abs (s : pps) : queue :=
  mkq (contents (pp_pipe s)) (readopen (pp_pipe s)) (writeopen (pp_pipe s)) (pp_proc s).

Lemma room_contents x : pipe_ok x -> room x = (512 - length (contents x))%nat.
Proof. intros Hx. rewrite length_contents. unfold room, PIPESIZE. pose proof (used_range x). lia. Qed.

Lemma run_call_ok c s r Q :
  pipe_ok (pp_pipe s) -> q_call c (abs s) = Some (r, Q) ->
  exists s', run_call c s = Ret r s' /\ pipe_ok (pp_pipe s') /\ abs s' = Q.
Proof.
  destruct s as [x ps]. cbn [pp_pipe]. intros Hx Hq. destruct c as [me i rest|me n|w]; cbn [q_call run_call abs] in *.
  - apply bind_Some in Hq as (q & Hq & [= Hr]). cbn [q_proc pp_proc] in Hq.
    destruct (pipewrite_from_ok p rest i x (set_cur (Some me) ps) me q Hx eq_refl Hq) as (x' & R & Hx' & [E1 E2] & Hc).
    exists (mkpps x' (write_result p me q x (set_cur (Some me) ps) i rest).2). split; [|split].
    + erewrite bind_ret by (by apply procs_ret). erewrite bind_ret by exact R. unfold mret, M_ret. f_equal.
      revert Hr. unfold q_write, write_result. cbn [q_items q_ropen q_wopen q_proc pp_pipe pp_proc].
      rewrite <- room_contents by done. destruct (decide _); [|destruct (negb _ || _)]; intros [= <- _]; reflexivity.
    + done.
    + revert Hr. unfold abs, q_write, write_result. cbn [q_items q_ropen q_wopen q_proc pp_pipe pp_proc].
      rewrite <- room_contents, Hc, E1, E2 by done.
      destruct (decide _); [|destruct (negb _ || _)]; intros [= _ <-]; reflexivity.
  - apply bind_Some in Hq as (q & Hq & [= Hr]). cbn [q_proc pp_proc] in Hq.
    destruct (piperead_ok p n x (set_cur (Some me) ps) me q Hx eq_refl Hq) as (x' & R & Hx' & [E1 E2] & Hc).
    exists (mkpps x' (read_result p me q x (set_cur (Some me) ps) n).2). split; [|split].
    + erewrite bind_ret by (by apply procs_ret). erewrite bind_ret by exact R. unfold mret, M_ret. f_equal.
      revert Hr. unfold q_read, read_result. cbn [q_items q_ropen q_wopen q_proc pp_pipe pp_proc].
      destruct (bool_decide _ && _); [destruct (p_killed q)|]; intros [= <- _]; reflexivity.
    + done.
    + revert Hr. unfold abs, q_read, read_result. cbn [q_items q_ropen q_wopen q_proc pp_pipe pp_proc]. rewrite Hc, E1, E2.
      destruct (bool_decide _ && _); [destruct (p_killed q)|]; intros [= _ <-]; reflexivity.
  - injection Hq as Hr. destruct w; cbn in Hr; injection Hr as <- <-.
    + exists (mkpps (set_writeopen false x) (woken (ChPipeRead p) ps)).
      split; [|split; [by destruct Hx; split|done]].
      erewrite bind_ret by reflexivity. cbn. by rewrite andb_true_r.
    + exists (mkpps (set_readopen false x) (woken (ChPipeWrite p) ps)).
      split; [|split; [by destruct Hx; split|done]]. by erewrite bind_ret by reflexivity.
Qed.

(** C8: pipe.c refines a bounded queue: for every sequence of writes, reads
    and closes by any processes, the calls return what a queue of at most 512
    bytes returns (counts, bytes, -1 for a killed process or a closed read
    end, sleep with the index to resume at), wake the same processes, and
    leave the queue's bytes in the ring; the 32-bit counters may wrap. *)
Theorem pipe_refines_queue (cs : list pcall) (s : pps) (rs : list presult) (Q : queue) :
  pipe_ok (pp_pipe s) -> q_calls cs (abs s) = Some (rs, Q) ->
  exists s', run_calls cs s = Ret rs s' /\ pipe_ok (pp_pipe s') /\ abs s' = Q.
Proof.
  revert s rs. induction cs as [|c cs IH]; intros s rs Hx Hq; cbn [q_calls run_calls] in *.
  - injection Hq as <- <-. by exists s.
  - apply bind_Some in Hq as ([r s1] & H1 & Hq). apply bind_Some in Hq as ([rs1 s2] & H2 & [= <- <-]).
    destruct (run_call_ok c s r s1 Hx H1) as (t & R & Ht & Ha). rewrite <- Ha in H2.
    destruct (IH t rs1 Ht H2) as (t' & R' & Ht' & Ha'). exists t'. split; [|done].
    erewrite bind_ret by exact R. by erewrite bind_ret by exact R'.
Qed.

End Contract.

(** ** Wakeups *)

Section Wakeups.
Context (p : Z).

(** Nobody sleeps who could go on: a sleeping reader has nothing to read and
    may still get something, a sleeping writer has no room and a reader. *)
Definition lively (s : pps) : Prop := forall j,
  (sleeps (pp_proc s) j (ChPipeRead p) -> contents (pp_pipe s) = [] /\ writeopen (pp_pipe s) = true) /\
  (sleeps (pp_proc s) j (ChPipeWrite p) -> length (contents (pp_pipe s)) = 512%nat /\ readopen (pp_pipe s) = true).

(** The processes with a descriptor of the read end and of the write end, one
    entry per descriptor, beside the pipe. *)
Record pworld : Type := mkpw { pw_s : pps; pw_r : list nat; pw_w : list nat }.

Definition awake (s : pps) (me : nat) : Prop := exists q, ptable (pp_proc s) !! me = Some q /\ p_state q <> SLEEPING.

(** A process that is not asleep and has a descriptor of the end makes a call
    on it; it gets a descriptor, or hands one to another process; it closes
    one, which is a pipeclose if it is the last; or anything else happens to
    the process table that puts no process to sleep on this pipe.  The one
    call left out is the write of more than 512 bytes, by a process that has
    been killed, to an empty pipe whose read end is open. *)
Inductive pstep : pworld -> pworld -> Prop :=
| step_write me q i rest x ps R W r s' :
    me ∈ W -> ptable ps !! me = Some q -> p_state q <> SLEEPING ->
    p_killed q = false \/ readopen x = false \/ contents x <> [] \/ (length rest <= 512)%nat ->
    run_call p (PWrite me i rest) (mkpps x ps) = Ret r s' -> pstep (mkpw (mkpps x ps) R W) (mkpw s' R W)
| step_read me q n x ps R W r s' :
    me ∈ R -> ptable ps !! me = Some q -> p_state q <> SLEEPING ->
    run_call p (PRead me n) (mkpps x ps) = Ret r s' -> pstep (mkpw (mkpps x ps) R W) (mkpw s' R W)
| step_share me j s R R' W W' :
    awake s me -> me ∈ R /\ R' = j :: R /\ W' = W \/ me ∈ W /\ R' = R /\ W' = j :: W ->
    pstep (mkpw s R W) (mkpw s R' W')
| step_close me s R R' W W' :
    awake s me -> R ≡ₚ me :: R' /\ R' <> [] /\ W' = W \/ W ≡ₚ me :: W' /\ W' <> [] /\ R' = R ->
    pstep (mkpw s R W) (mkpw s R' W')
| step_last_r me s W r s' :
    awake s me -> run_call p (PClose false) s = Ret r s' -> pstep (mkpw s [me] W) (mkpw s' [] W)
| step_last_w me s R r s' :
    awake s me -> run_call p (PClose true) s = Ret r s' -> pstep (mkpw s R [me]) (mkpw s' R [])
| step_other x ps ps' R W :
    (forall j, sleeps ps' j (ChPipeRead p) -> sleeps ps j (ChPipeRead p)) ->
    (forall j, sleeps ps' j (ChPipeWrite p) -> sleeps ps j (ChPipeWrite p)) ->
    pstep (mkpw (mkpps x ps) R W) (mkpw (mkpps x ps') R W).

(** An end is open as long as it has a descriptor, and who sleeps in a call on
    an end has one of it. *)
Record ends_held (z : pworld) : Prop := mkheld {
  he_r : readopen (pp_pipe (pw_s z)) = true <-> pw_r z <> [];
  he_w : writeopen (pp_pipe (pw_s z)) = true <-> pw_w z <> [];
  he_reader : forall j, sleeps (pp_proc (pw_s z)) j (ChPipeRead p) -> j ∈ pw_r z;
  he_writer : forall j, sleeps (pp_proc (pw_s z)) j (ChPipeWrite p) -> j ∈ pw_w z }.

Lemma sleeps_who ps me j ch ch' : sleeps (asleep_on ch me ps) j ch' -> j = me \/ sleeps ps j ch'.
Proof.
  intros (q & Hq & Hs & Hc). destruct (decide (j = me)) as [->|Hne]; [by left|right].
  unfold asleep_on, upd_proc, set_ptable in Hq. cbn in Hq. rewrite list_lookup_alter_ne in Hq by done. by exists q.
Qed.

Lemma awake_not s me ch : awake s me -> ~ sleeps (pp_proc s) me ch.
Proof. intros (q & Hq & Ha) (q' & Hq' & Hs & _). congruence. Qed.

Lemma lively_write me q i rest x ps r s' :
  pipe_ok x -> lively (mkpps x ps) -> ptable ps !! me = Some q ->
  (forall j, sleeps ps j (ChPipeRead p) -> readopen x = true) ->
  p_killed q = false \/ readopen x = false \/ contents x <> [] \/ (length rest <= 512)%nat ->
  run_call p (PWrite me i rest) (mkpps x ps) = Ret r s' ->
  pipe_ok (pp_pipe s') /\ lively s' /\ same_ends x (pp_pipe s') /\
  (forall j, sleeps (pp_proc s') j (ChPipeRead p) -> sleeps ps j (ChPipeRead p)) /\
  (forall j, sleeps (pp_proc s') j (ChPipeWrite p) -> j = me \/ sleeps ps j (ChPipeWrite p)).
Proof.
  intros Hx Hl Hq Hopen Hsafe Hrun. cbn [run_call] in Hrun. erewrite bind_ret in Hrun by (by apply procs_ret).
  destruct (pipewrite_from_ok p rest i x (set_cur (Some me) ps) me q Hx eq_refl Hq) as (x' & R & Hx' & [E1 E2] & Hc).
  erewrite bind_ret in Hrun by exact R. injection Hrun as _ <-. split; [done|].
  pose proof (room_contents x Hx) as Hroom. pose proof (length_contents x) as Hlen. pose proof (po_used x Hx) as Hu.
  unfold PIPESIZE in Hu.
  assert (Hlc : length (contents x') = (length (contents x) + Nat.min (room x) (length rest))%nat)
    by (rewrite Hc, length_app, length_take; lia).
  split; [intros j; destruct (Hl j) as [Hr Hw]|split; [done|]]; cbn [pp_pipe pp_proc] in *; rewrite ?E1, ?E2;
    unfold write_result; (destruct (decide (length rest <= room x)%nat) as [Hfit|Hno]; [|destruct (negb _ || _) eqn:Hk]); cbn [snd].
  - split; intros Hs; apply sleeps_woken in Hs as [Hne Hs]; [done|]. apply Hw in Hs as [Hs ?]. split; [lia|done].
  - split; intros Hs; [|apply Hw in Hs as [Hs ?]; split; [lia|done]]. exfalso. rewrite (Hopen j Hs) in Hk, Hsafe. apply Hr in Hs as [Hs _].
    destruct Hsafe as [H1|[H1|[H1|H1]]]; [by rewrite H1 in Hk|done|done|]. rewrite Hs in Hroom. cbn in Hroom. lia.
  - apply orb_false_iff in Hk as [Hk _]. apply negb_false_iff in Hk. split; intros Hs; [|split; [lia|done]].
    apply sleeps_asleep in Hs as [?|Hs]; [done|]. apply sleeps_woken in Hs as [? _]. done.
  - split; intros j Hs; apply sleeps_woken in Hs as [? Hs]; [done|by right].
  - split; intros j Hs; [done|by right].
  - split; intros j Hs; (apply sleeps_asleep in Hs as H; apply sleeps_who in Hs as [->|Hs]; [|apply sleeps_woken in Hs as [? Hs]]); [|done|by left|by right].
    destruct H as [?|H]; [done|]. apply sleeps_woken in H as [? _]. done.
Qed.

Lemma lively_read me q n x ps r s' :
  pipe_ok x -> lively (mkpps x ps) -> ptable ps !! me = Some q ->
  run_call p (PRead me n) (mkpps x ps) = Ret r s' ->
  pipe_ok (pp_pipe s') /\ lively s' /\ same_ends x (pp_pipe s') /\
  (forall j, sleeps (pp_proc s') j (ChPipeRead p) -> j = me \/ sleeps ps j (ChPipeRead p)) /\
  (forall j, sleeps (pp_proc s') j (ChPipeWrite p) -> sleeps ps j (ChPipeWrite p)).
Proof.
  intros Hx Hl Hq Hrun. cbn [run_call] in Hrun. erewrite bind_ret in Hrun by (by apply procs_ret).
  destruct (piperead_ok p n x (set_cur (Some me) ps) me q Hx eq_refl Hq) as (x' & R & Hx' & [E1 E2] & Hc).
  erewrite bind_ret in Hrun by exact R. injection Hrun as _ <-. split; [done|].
  split; [intros j; destruct (Hl j) as [Hr Hw]|split; [done|]]; cbn [pp_pipe pp_proc] in *; rewrite ?E1, ?E2, ?Hc;
    unfold read_result; (destruct (bool_decide (contents x = []) && writeopen x) eqn:Eb; [destruct (p_killed q)|]); cbn [snd].
  - done.
  - apply andb_true_iff in Eb as [Eb1 Eb2]. apply bool_decide_eq_true in Eb1. split; [done|].
    intros Hs. apply sleeps_asleep in Hs as [?|Hs]; [done|by apply Hw].
  - split; intros Hs; apply sleeps_woken in Hs as [Hne Hs]; [|done]. apply Hr in Hs as [H1 H2]. by rewrite H1, H2 in Eb.
  - split; intros j Hs; [by right|done].
  - split; intros j Hs; [by apply sleeps_who in Hs|apply sleeps_asleep in Hs as [?|Hs]; done].
  - split; intros j Hs; apply sleeps_woken in Hs as [? Hs]; [by right|done].
Qed.

Lemma lively_close w s r s' :
  pipe_ok (pp_pipe s) -> lively s -> run_call p (PClose w) s = Ret r s' ->
  pipe_ok (pp_pipe s') /\ lively s' /\
  readopen (pp_pipe s') = w && readopen (pp_pipe s) /\ writeopen (pp_pipe s') = negb w && writeopen (pp_pipe s) /\
  forall j ch, sleeps (pp_proc s') j ch -> sleeps (pp_proc s) j ch.
Proof.
  destruct s as [x ps]. intros Hx Hl Hrun. destruct w; cbn [run_call] in Hrun;
    erewrite bind_ret in Hrun by reflexivity; injection Hrun as _ <-; (split; [by destruct Hx; split|]);
    (split; [intros j; destruct (Hl j) as [Hr Hw]; cbn [pp_pipe pp_proc] in *;
      (split; intros Hs; apply sleeps_woken in Hs as [? Hs]; try done); auto|]);
    do 2 (split; [done|]); intros j ch Hs; by apply sleeps_woken in Hs as [_ Hs].
Qed.

Lemma pstep_keeps z z' : pstep z z' -> pipe_ok (pp_pipe (pw_s z)) -> lively (pw_s z) -> ends_held z ->
  pipe_ok (pp_pipe (pw_s z')) /\ lively (pw_s z') /\ ends_held z'.
Proof.
  intros Hs Hx Hl [H1 H2 H3 H4]. destruct Hs as [me q i rest x ps R W r s' Hme Hq Ha Hk Hrun|me q n x ps R W r s' Hme Hq Ha Hrun|
    me j s R R' W W' Ha Hc|me s R R' W W' Ha Hc|me s W r s' Ha Hrun|me s R r s' Ha Hrun|x ps ps' R W HR HW]; cbn [pw_s pw_r pw_w pp_pipe pp_proc] in *.
  - destruct (lively_write me q i rest x ps r s') as (A1 & A2 & [A3 A4] & A5 & A6); try done; [intros k Hk'; apply H1; intros E; apply H3 in Hk'; rewrite E in Hk'; by apply not_elem_of_nil in Hk'|].
    do 2 (split; [done|]). split; cbn; rewrite ?A3, ?A4; try done; auto. intros k Hk'. apply A6 in Hk' as [->|Hk']; auto.
  - destruct (lively_read me q n x ps r s') as (A1 & A2 & [A3 A4] & A5 & A6); try done.
    do 2 (split; [done|]). split; cbn; rewrite ?A3, ?A4; try done; auto. intros k Hk'. apply A5 in Hk' as [->|Hk']; auto.
  - do 2 (split; [done|]). destruct Hc as [(Hm & -> & ->)|(Hm & -> & ->)]; split; cbn; try done; try (by intros k Hk; right; auto).
    + rewrite H1. split; [done|]. intros _ E. rewrite E in Hm. by apply not_elem_of_nil in Hm.
    + rewrite H2. split; [done|]. intros _ E. rewrite E in Hm. by apply not_elem_of_nil in Hm.
  - do 2 (split; [done|]). destruct Hc as [(Hp & Hne & ->)|(Hp & Hne & ->)]; split; cbn; try done.
    + rewrite H1. split; [done|]. intros _ E. rewrite E in Hp. by apply Permutation_nil_cons in Hp.
    + intros k Hk. specialize (H3 k Hk). rewrite Hp in H3. apply elem_of_cons in H3 as [->|?]; [by destruct (awake_not s me _ Ha Hk)|done].
    + rewrite H2. split; [done|]. intros _ E. rewrite E in Hp. by apply Permutation_nil_cons in Hp.
    + intros k Hk. specialize (H4 k Hk). rewrite Hp in H4. apply elem_of_cons in H4 as [->|?]; [by destruct (awake_not s me _ Ha Hk)|done].
  - destruct (lively_close false s r s') as (A1 & A2 & A3 & A4 & A5); try done. do 2 (split; [done|]). split; cbn; rewrite ?A3, ?A4; try done.
    + intros k Hk%A5. specialize (H3 k Hk). apply list_elem_of_singleton in H3 as ->. by destruct (awake_not s me _ Ha Hk).
    + intros k Hk%A5. auto.
  - destruct (lively_close true s r s') as (A1 & A2 & A3 & A4 & A5); try done. do 2 (split; [done|]). split; cbn; rewrite ?A3, ?A4; try done.
    + intros k Hk%A5. auto.
    + intros k Hk%A5. specialize (H4 k Hk). apply list_elem_of_singleton in H4 as ->. by destruct (awake_not s me _ Ha Hk).
  - split; [done|]. split; [|split; cbn; auto]. intros j. destruct (Hl j) as [Ha Hb]. cbn [pp_pipe pp_proc] in *.
    split; intros Hs; [apply Ha, HR|apply Hb, HW]; done.
Qed.

(** C19: No wakeup is lost: in every state reachable from one where nobody
    sleeps on the pipe without reason, a process that sleeps in piperead
    finds the pipe empty with both ends open, and one that sleeps in
    pipewrite finds it full with both ends open.  So whoever makes the
    condition false has woken it.  The steps are the reads, writes and
    closes by the processes that have descriptors of the pipe; an end is
    closed with its last descriptor, so writes go on with the read end
    closed, killed or not; of the writes only that of more than 512 bytes by
    a killed process to an empty pipe with readers is left out. *)
Theorem pipe_no_lost_wakeup (z z' : pworld) :
  pipe_ok (pp_pipe (pw_s z)) -> lively (pw_s z) -> ends_held z -> rtc pstep z z' ->
  let x := pp_pipe (pw_s z') in pipe_ok x /\ lively (pw_s z') /\
  forall j ch, ch = ChPipeRead p \/ ch = ChPipeWrite p -> sleeps (pp_proc (pw_s z')) j ch -> readopen x = true /\ writeopen x = true.
Proof.
  intros Hx Hl He Hr. assert (H : pipe_ok (pp_pipe (pw_s z')) /\ lively (pw_s z') /\ ends_held z').
  { induction Hr as [|z z1 z' Hstep _ IH]; [done|]. destruct (pstep_keeps _ _ Hstep Hx Hl He) as (H1 & H2 & H3). by apply IH. }
  destruct H as (H1 & H2 & [H3 H4 H5 H6]). cbv zeta. do 2 (split; [done|]). intros j ch [->| ->] Hs.
  - split; [|by apply (H2 j)]. apply H3. intros E. apply H5 in Hs. rewrite E in Hs. by apply not_elem_of_nil in Hs.
  - split; [by apply (H2 j)|]. apply H4. intros E. apply H6 in Hs. rewrite E in Hs. by apply not_elem_of_nil in Hs.
Qed.

End Wakeups.

(** ** Runs *)

Definition demo_procs (k : bool) : pst :=
  mkpst [set_chan (Some (ChPipeRead 1)) (set_state SLEEPING (set_pid 3 proc0));
         set_killed k (set_state RUNNING (set_pid 4 proc0))] 5 None (Some 1%nat).

Definition zero_data : list Z := replicate 512 0.

(** A pipe whose counters are about to wrap. *)
Definition wrap_pipe : pipe := mkpipe zero_data 4294967294 4294967294 true true.

Lemma wrap_pipe_ok : pipe_ok wrap_pipe.
Proof. by split. Qed.

Lemma new_pipe_ok : pipe_ok (new_pipe zero_data).
Proof. by split. Qed.

Lemma pipe_refines_queue_witness : exists s' Q,
  run_calls 1 [PWrite 1 0 [7; 8; 9; 10]; PRead 0 3; PWrite 1 0 [11]; PClose true; PRead 0 9; PRead 0 9]
    (mkpps wrap_pipe (demo_procs false)) =
  Ret [RWrite (Done 4); RRead (Done (3, [7; 8; 9])); RWrite (Done 1); RClose false;
       RRead (Done (2, [10; 11])); RRead (Done (0, []))] s' /\ abs s' = Q /\ q_items Q = [].
Proof.
  destruct (pipe_refines_queue 1
    [PWrite 1 0 [7; 8; 9; 10]; PRead 0 3; PWrite 1 0 [11]; PClose true; PRead 0 9; PRead 0 9]
    (mkpps wrap_pipe (demo_procs false))
    [RWrite (Done 4); RRead (Done (3, [7; 8; 9])); RWrite (Done 1); RClose false;
     RRead (Done (2, [10; 11])); RRead (Done (0, []))] _ wrap_pipe_ok ltac:(vm_compute; reflexivity)) as (s' & R & _ & Ha).
  eexists s', _. split; [exact R|]. split; [exact Ha|]. reflexivity.
Defined.

(** A reader sleeps on a new pipe; a write wakes it. *)
Lemma pipe_no_lost_wakeup_witness : exists r s',
  run_call 1 (PWrite 1 0 [5]) (mkpps (new_pipe zero_data) (demo_procs false)) = Ret r s' /\ lively 1 s'.
Proof.
  destruct (run_call 1 (PWrite 1 0 [5]) (mkpps (new_pipe zero_data) (demo_procs false))) as [r s'| | | |] eqn:E;
    try (vm_compute in E; discriminate E).
  exists r, s'. split; [reflexivity|].
  refine (proj1 (proj2 (pipe_no_lost_wakeup 1 (mkpw (mkpps (new_pipe zero_data) (demo_procs false)) [0%nat] [1%nat]) (mkpw s' [0%nat] [1%nat]) new_pipe_ok _ _ _))).
  - intros [|[|j]]; (split; intros (q & Hq & Hs & Hc); [|exfalso]); try (by split);
      cbn in Hq; (discriminate Hq || (injection Hq as <-; discriminate)).
  - split; [done..| |]; intros [|[|j]] (q & Hq & Hs & Hc); try (by left); cbn in Hq; (discriminate Hq || (injection Hq as <-; discriminate)).
  - apply rtc_once. apply (step_write 1 1 (set_killed false (set_state RUNNING (set_pid 4 proc0))) 0 [5] _ _ _ _ r);
      [left|reflexivity|discriminate|by left|exact E].
Defined.

(** The restriction is needed: a killed writer that fills an empty pipe
    returns -1 without waking the reader that sleeps on it, so 512 bytes lie
    in the pipe while the reader sleeps, and the pipe's write end stays open
    for other writers. *)
Theorem pipewrite_killed_loses_wakeup :
  exists s', run_call 1 (PWrite 1 0 (replicate 513 7)) (mkpps (new_pipe zero_data) (demo_procs true)) =
      Ret (RWrite (Done (-1))) s' /\
    length (contents (pp_pipe s')) = 512%nat /\ writeopen (pp_pipe s') = true /\
    sleeps (pp_proc s') 0 (ChPipeRead 1).
Proof.
  eexists. split; [vm_compute; reflexivity|]. split; [vm_compute; reflexivity|]. split; [reflexivity|].
  eexists. split; [reflexivity|done].
Qed.
