(* ===== verification/Kern.v ===== *)
(** * The kernel's state: composition of the components

    [krest] puts the lower components side by side: disk, buffer cache, log
    and process table (an [lst]), physical memory (a [kst]), the file table,
    the pipes (by the page they live in), the console and the clock; [ker]
    adds the file system's inode cache.  The lifts run a component's routine
    on its part.  The block interface of Block.v is implemented for [krest]
    through its log, so that every theorem of Fs.v's clients holds of the
    kernel.  A pointer into user memory goes through the page table of the
    current process. *)

From stdpp Require Import base list gmap strings.
From Stdlib Require Import ZArith Lia.
From S2P Require Import Prelude Proc Bio Log Block Fs Kalloc Vm Pipe Console.

Local Open Scope Z_scope.

Definition NFILE : nat := 100.

(** struct file *)
Inductive ftype : Type := FD_NONE | FD_PIPE | FD_INODE.
#[export] Instance ftype_eq_dec : EqDecision ftype.
Proof. solve_decision. Defined.

Record file : Type := mkfile {
  f_type : ftype;
  f_ref : Z;
  f_readable : bool;
  f_writable : bool;
  f_pipe : Z;
  f_ip : option nat;
  f_off : Z }.

Definition file0 : file := mkfile FD_NONE 0 false false 0 None 0.
#[export] Instance file_inhabited : Inhabited file := populate file0.

Definition set_ref (x : Z) (f : file) : file :=
  mkfile (f_type f) x (f_readable f) (f_writable f) (f_pipe f) (f_ip f) (f_off f).
Definition set_ftype (x : ftype) (f : file) : file :=
  mkfile x (f_ref f) (f_readable f) (f_writable f) (f_pipe f) (f_ip f) (f_off f).
Definition set_off (x : Z) (f : file) : file :=
  mkfile (f_type f) (f_ref f) (f_readable f) (f_writable f) (f_pipe f) (f_ip f) x.

Record krest : Type := mkkr {
  kr_lst : lst;
  kr_mem : kst;
  kr_files : list file;          (* ftable.file[NFILE] *)
  kr_pipes : gmap Z pipe;
  kr_con : cst;
  kr_ticks : Z;
  kr_shift : Z;                  (* kbdgetc's static shift *)
  kr_first : bool }.             (* forkret's static first *)

Definition set_lst (x : lst) (s : krest) : krest :=
  mkkr x (kr_mem s) (kr_files s) (kr_pipes s) (kr_con s) (kr_ticks s) (kr_shift s) (kr_first s).
Definition set_kmem (x : kst) (s : krest) : krest :=
  mkkr (kr_lst s) x (kr_files s) (kr_pipes s) (kr_con s) (kr_ticks s) (kr_shift s) (kr_first s).
Definition set_files (x : list file) (s : krest) : krest :=
  mkkr (kr_lst s) (kr_mem s) x (kr_pipes s) (kr_con s) (kr_ticks s) (kr_shift s) (kr_first s).
Definition set_pipes (x : gmap Z pipe) (s : krest) : krest :=
  mkkr (kr_lst s) (kr_mem s) (kr_files s) x (kr_con s) (kr_ticks s) (kr_shift s) (kr_first s).
Definition set_con (x : cst) (s : krest) : krest :=
  mkkr (kr_lst s) (kr_mem s) (kr_files s) (kr_pipes s) x (kr_ticks s) (kr_shift s) (kr_first s).
Definition set_ticks (x : Z) (s : krest) : krest :=
  mkkr (kr_lst s) (kr_mem s) (kr_files s) (kr_pipes s) (kr_con s) x (kr_shift s) (kr_first s).
Definition set_shift (x : Z) (s : krest) : krest :=
  mkkr (kr_lst s) (kr_mem s) (kr_files s) (kr_pipes s) (kr_con s) (kr_ticks s) x (kr_first s).
Definition set_first (x : bool) (s : krest) : krest :=
  mkkr (kr_lst s) (kr_mem s) (kr_files s) (kr_pipes s) (kr_con s) (kr_ticks s) (kr_shift s) x.

(** ** The block layer of the kernel *)

Definition in_lst {A} (m : M lst A) : M krest A := zoom kr_lst set_lst m.

#[export] Instance kr_ops : BlockOps krest := {|
  bk_read dev b := in_lst (bk_read dev b);
  bk_get i := in_lst (bk_get i);
  bk_put i d := in_lst (bk_put i d);
  bk_log i := in_lst (bk_log i);
  bk_rel i := in_lst (bk_rel i);
  bk_procs s := bk_procs (kr_lst s);
  bk_set_procs p s := set_lst (bk_set_procs p (kr_lst s)) s |}.

#[export] Program Instance kr_laws : BlockLaws krest := {|
  bk_ok G s a := bk_ok G (kr_lst s) a |}.
Next Obligation. intros. apply wp_zoom. by apply bk_read_ok. Qed.
Next Obligation.
  intros G s V i b c H L Hs. pose proof (bk_get_ok G (kr_lst s) V i b c H L Hs) as E.
  change (in_lst (bk_get i) s = Ret (V b) s). unfold in_lst, zoom. rewrite E. by destruct s.
Qed.
Next Obligation. intros G s V i b c H L d H1 H2. apply wp_zoom. exact (bk_put_ok G (kr_lst s) V i b c H L d H1 H2). Qed.
Next Obligation. intros G s V i b c H L H1 H2 H3. apply wp_zoom. exact (bk_log_ok G (kr_lst s) V i b c H L H1 H2 H3). Qed.
Next Obligation. intros G s V i b H L H1. apply wp_zoom. exact (bk_rel_ok G (kr_lst s) V i b H L H1). Qed.
Next Obligation. intros G s V H L b H1 H2. exact (bk_block_ok G (kr_lst s) V H L b H1 H2). Qed.
Next Obligation. intros G s a b H1 H2. exact (bk_home_in G (kr_lst s) a b H1 H2). Qed.
Next Obligation. intros G s V V' H L H1 H2. exact (bk_ext G (kr_lst s) V V' H L H1 H2). Qed.
Next Obligation. intros G s a H1. exact (bk_running G (kr_lst s) a H1). Qed.
Next Obligation. intros G s a p H1 H2. exact (bk_set_running G (kr_lst s) a p H1 H2). Qed.
Next Obligation. intros p s. exact (bk_get_set p (kr_lst s)). Qed.

Definition ker : Type := fsys krest.

(** ** Running a component's routine *)

Definition rest (f : krest -> krest) (s : ker) : ker := set_blk (f (f_blk s)) s.

Definition logm {A} (m : M lst A) : M ker A := blk (in_lst m).
Definition memm {A} (m : M kst A) : M ker A := zoom (fun s => kr_mem (f_blk s)) (fun x => rest (set_kmem x)) m.
Definition procm {A} (m : M pst A) : M ker A := zoom f_procs set_f_procs m.
Definition conm {A} (m : M cst A) : M ker A :=
  zoom (fun s => set_cproc (f_procs s) (kr_con (f_blk s)))
    (fun x s => set_f_procs (c_proc x) (rest (set_con x) s)) m.

(** The pipe in page [p]; there is none after the page was freed. *)
Definition pipem {A} (p : Z) (m : M pps A) : M ker A := fun s =>
  match kr_pipes (f_blk s) !! p with
  | None => Fault
  | Some x =>
    zoom (fun s => mkpps x (f_procs s))
      (fun t s => set_f_procs (pp_proc t) (rest (fun k => set_pipes (<[p := pp_pipe t]> (kr_pipes k)) k) s)) m s
  end.

Definition getfile (i : nat) : M ker file := deref (fun s => kr_files (f_blk s) !! i).
Definition modfile (i : nat) (f : file -> file) : M ker unit :=
  modify (rest (fun k => set_files (alter f i (kr_files k)) k)).

(** The current process. *)
Definition curproc : M ker proc := procm (i ← myproc; getproc i).
Definition modproc (f : proc -> proc) : M ker unit := i ← procm myproc; procm (modify (upd_proc i f)).
Definition getslot (i : nat) : M ker proc := procm (getproc i).
Definition modslot (i : nat) (f : proc -> proc) : M ker unit := procm (modify (upd_proc i f)).

(** A call that waits gives up the CPU; what it remembers is on its stack. *)
Definition settle {A} (ch : chan) (r : progress A) : M ker A :=
  match r with Done a => mret a | Wait _ => asleep ch end.

(** ** User memory

    The byte of the current process at [va]: its page has to be present (and
    writable, for a store); anything else traps in the kernel. *)

Definition user_addr (m : mem) (pgdir va : Z) (write : bool) : option Z :=
  let e := pte_at m pgdir va in
  if (0 <=? va) && (va <? KERNBASE) && present e && (negb write || negb (Z.land e PTE_W =? 0))
  then Some (P2V (PTE_ADDR e) + va mod PGSIZE) else None.

Fixpoint load_bytes (m : mem) (pgdir va : Z) (n : nat) : option (list Z) :=
  match n with
  | O => Some []
  | S n' => a ← user_addr m pgdir va false; l ← load_bytes m pgdir (va + 1) n'; Some (m a :: l)
  end.

Fixpoint store_bytes (m : mem) (pgdir va : Z) (l : list Z) : option mem :=
  match l with
  | [] => Some m
  | b :: l' => a ← user_addr m pgdir va true; store_bytes (st8 m a b) pgdir (va + 1) l'
  end.

Definition u_load (va : Z) (n : nat) : M ker (list Z) :=
  p ← curproc;
  deref (fun s => load_bytes (k_mem (kr_mem (f_blk s))) (p_pgdir p) va n).

Definition u_store (va : Z) (l : list Z) : M ker unit :=
  p ← curproc;
  m ← deref (fun s => store_bytes (k_mem (kr_mem (f_blk s))) (p_pgdir p) va l);
  memm (modify (set_mem m)).
