(* ===== verification/File.v ===== *)
(** * Open files: file.c, with pipealloc and pipeclose's free of pipe.c and
      the console's device functions

    The file table with its reference counts, and the three kinds of file
    behind one interface.  A routine that sleeps ends in [Asleep] with the
    state it left; bytes read are stored in the caller's memory, bytes to
    write are loaded from it. *)

From stdpp Require Import base list gmap strings.
From Stdlib Require Import ZArith Lia.
From S2P Require Import Prelude Proc Bio Log Block Fs Kalloc Vm Pipe Console Kern.

Local Open Scope Z_scope.

Section File.
Context {SY : Symbols}.

(** ** The console as a device: consoleread, consolewrite, devsw *)

Definition CONSOLE : Z := 1.

Definition consoleread (ip : nat) (n : Z) : M ker (Z * list Z) :=
  iunlock (Some ip) ;;
  '(l, r) ← conm (consoleread_buf (Z.to_nat n));
  v ← settle ChInput r;
  ilock (Some ip) ;;
  mret (v, l).

Definition consolewrite (ip : nat) (buf : list Z) (n : Z) : M ker Z :=
  iunlock (Some ip) ;;
  v ← conm (consolewrite_buf (take (Z.to_nat n) buf));
  ilock (Some ip) ;;
  mret v.

(** consoleinit fills one entry of the switch. *)
Definition devsw_read (major : Z) : option (nat -> Z -> M ker (Z * list Z)) :=
  if major =? CONSOLE then Some consoleread else None.
Definition devsw_write (major : Z) : option (nat -> list Z -> Z -> M ker Z) :=
  if major =? CONSOLE then Some consolewrite else None.

Definition kreadi (ip : nat) (off n : Z) : M ker (Z * list Z) := readi devsw_read ip off n.
Definition kwritei (ip : nat) (src : list Z) (off n : Z) : M ker Z := writei devsw_write ip src off n.
Definition begin_op : M ker unit := logm Log.begin_op.
Definition end_op : M ker unit := logm Log.end_op.

(** ** file.c *)

Fixpoint filealloc_scan (l : list file) (i : nat) : option nat :=
  match l with
  | [] => None
  | f :: l' => if f_ref f =? 0 then Some i else filealloc_scan l' (S i)
  end.

Definition filealloc : M ker (option nat) :=
  l ← gets (fun s => kr_files (f_blk s));
  match filealloc_scan l 0 with
  | Some i => modfile i (set_ref 1) ;; mret (Some i)
  | None => mret None
  end.

Definition filedup (i : nat) : M ker nat :=
  f ← getfile i;
  if f_ref f <? 1 then panic "filedup" else
  modfile i (fun f => set_ref (f_ref f + 1) f) ;; mret i.

(** pipeclose, freeing the page when both ends are closed. *)
Definition close_pipe (p : Z) (writable : bool) : M ker unit :=
  d ← pipem p (pipeclose p writable);
  if d : bool then
    memm (kfree p) ;; modify (rest (fun k => set_pipes (delete p (kr_pipes k)) k))
  else mret tt.

Definition fileclose (i : nat) : M ker unit :=
  f ← getfile i;
  if f_ref f <? 1 then panic "fileclose" else
  modfile i (fun f => set_ref (f_ref f - 1) f) ;;
  f ← getfile i;
  if 0 <? f_ref f then mret tt else
  let ff := f in
  modfile i (fun f => set_ftype FD_NONE (set_ref 0 f)) ;;
  match f_type ff with
  | FD_PIPE => close_pipe (f_pipe ff) (f_writable ff)
  | FD_INODE =>
    begin_op ;;
    ip ← deref (fun _ => f_ip ff);
    iput ip ;;
    end_op
  | FD_NONE => mret tt
  end.

(** filestat; the result is what is to be stored at [st]. *)
Definition filestat (i : nat) : M ker (option stat) :=
  f ← getfile i;
  match f_type f with
  | FD_INODE =>
    ilock (f_ip f) ;;
    ip ← deref (fun _ => f_ip f);
    st ← stati ip;
    iunlock (Some ip) ;;
    mret (Some st)
  | _ => mret None
  end.

(** piperead and pipewrite of the pipe in page [p]. *)
Definition read_pipe (p : Z) (n : Z) : M ker (Z * list Z) :=
  r ← pipem p (piperead p (Z.to_nat n)); settle (ChPipeRead p) r.
Definition write_pipe (p : Z) (src : list Z) : M ker Z :=
  r ← pipem p (pipewrite p src); settle (ChPipeWrite p) r.

Definition fileread (i : nat) (addr n : Z) : M ker Z :=
  f ← getfile i;
  if negb (f_readable f) then mret (-1) else
  match f_type f with
  | FD_PIPE =>
    '(r, l) ← read_pipe (f_pipe f) n;
    u_store addr l ;; mret r
  | FD_INODE =>
    ilock (f_ip f) ;;
    ip ← deref (fun _ => f_ip f);
    '(r, l) ← kreadi ip (f_off f) n;
    u_store addr l ;;
    (if 0 <? r then modfile i (fun f => set_off (u32 (f_off f + r)) f) else mret tt) ;;
    iunlock (Some ip) ;;
    mret r
  | FD_NONE => panic "fileread"
  end.

(** max in filewrite: ((MAXOPBLOCKS-1-1-2) / 2) * 512. *)
Definition write_max : Z := ((MAXOPBLOCKS - 1 - 1 - 2) / 2) * 512.

(** filewrite's loop from byte [k]; the value of i at its end. *)
Fixpoint filewrite_loop (i ip : nat) (src : list Z) (n k : Z) (fuel : nat) : M ker Z :=
  match fuel with
  | O => nofuel
  | S fu =>
    if k <? n then
      let n1 := if write_max <? n - k then write_max else n - k in
      begin_op ;;
      ilock (Some ip) ;;
      f ← getfile i;
      r ← kwritei ip (drop (Z.to_nat k) src) (f_off f) n1;
      (if 0 <? r then modfile i (fun f => set_off (u32 (f_off f + r)) f) else mret tt) ;;
      iunlock (Some ip) ;;
      end_op ;;
      if r <? 0 then mret k
      else if negb (r =? n1) then panic "short filewrite"
      else filewrite_loop i ip src n (k + r) fu
    else mret k
  end.

Definition filewrite (i : nat) (addr n : Z) : M ker Z :=
  f ← getfile i;
  if negb (f_writable f) then mret (-1) else
  match f_type f with
  | FD_PIPE => src ← u_load addr (Z.to_nat n); write_pipe (f_pipe f) src
  | FD_INODE =>
    src ← u_load addr (Z.to_nat n);
    ip ← deref (fun _ => f_ip f);
    k ← filewrite_loop i ip src n 0 (S (Z.to_nat n));
    mret (if k =? n then n else -1)
  | FD_NONE => panic "filewrite"
  end.

(** pipealloc's end marked bad. *)
Definition pipe_bad (f0 f1 : option nat) : M ker (option (nat * nat)) :=
  (match f0 with Some i => fileclose i | None => mret tt end) ;;
  (match f1 with Some i => fileclose i | None => mret tt end) ;;
  mret None.

(** pipealloc; data[] lies behind the 52 bytes of the lock. *)
Definition pipealloc : M ker (option (nat * nat)) :=
  f0 ← filealloc;
  match f0 with
  | None => pipe_bad None None
  | Some i0 =>
    f1 ← filealloc;
    match f1 with
    | None => pipe_bad f0 None
    | Some i1 =>
      p ← memm kalloc;
      if p =? 0 then pipe_bad f0 f1 else
      m ← gets (fun s => k_mem (kr_mem (f_blk s)));
      modify (rest (fun k => set_pipes (<[p := new_pipe (peek m (p + 52) PIPESIZE)]> (kr_pipes k)) k)) ;;
      modfile i0 (fun f => mkfile FD_PIPE (f_ref f) true false p (f_ip f) (f_off f)) ;;
      modfile i1 (fun f => mkfile FD_PIPE (f_ref f) false true p (f_ip f) (f_off f)) ;;
      mret (Some (i0, i1))
    end
  end.

End File.
