(* ===== verification/ProcSys.v ===== *)
(** * Processes: allocproc, userinit, growproc, fork, exit, wait, forkret and
      procdump of proc.c

    The operations of proc.c that reach into the other components: memory,
    files, inodes and the log.  The scheduler, sleep, wakeup and kill are in
    Proc.v.  The trap frame on top of the kernel stack is the field [p_tf];
    the rest of the new stack is written to memory. *)

From stdpp Require Import base list gmap strings.
From Stdlib Require Import ZArith Lia.
From S2P Require Import Prelude Proc Spinlock Format Bio Log Block Fs Kalloc Vm Pipe Console Kern File.

Local Open Scope Z_scope.

(** The addresses of forkret and trapret, and initcode.S as linked in. *)
Class KSymbols : Type := { sym_forkret : Z; sym_trapret : Z; initcode : list Z }.

(** safestrcpy into a process's 16-byte name, from index [i]; [k] counts the
    iterations left. *)
Fixpoint copy_name (d : list Z) (i : nat) (t : list Z) (k : nat) : list Z :=
  match k with
  | O => <[i := 0]> d
  | S k' =>
    let c := List.hd 0 t in
    let d := <[i := c]> d in
    if c =? 0 then <[S i := 0]> d else copy_name d (S i) (List.tl t) k'
  end.

(** A C string in an array: the bytes before the nul. *)
Fixpoint cstr (l : list Z) : list Z :=
  match l with
  | [] => []
  | c :: l' => if c =? 0 then [] else c :: cstr l'
  end.

Section ProcSys.
Context {SY : Symbols} {KS : KSymbols}.

Fixpoint find_unused (l : list proc) (i : nat) : option nat :=
  match l with
  | [] => None
  | p :: l' => if decide (p_state p = UNUSED) then Some i else find_unused l' (S i)
  end.

(** The stack below the trap frame (76 bytes): trapret as return address,
    and a zeroed context (20 bytes) that starts at forkret. *)
Definition init_stack (k : Z) (m : mem) : mem :=
  let sp := k + KSTACKSIZE - 76 - 4 in
  let m := st32 m sp sym_trapret in
  let ctx := sp - 20 in
  st32 (fill m ctx 0 20) (ctx + 16) sym_forkret.

Definition allocproc : M ker (option nat) :=
  l ← procm (gets ptable);
  match find_unused l 0 with
  | None => mret None
  | Some i =>
    pid ← procm (gets nextpid);
    modslot i (fun p => set_pid pid (set_state EMBRYO p)) ;;
    procm (modify (set_nextpid (i32 (pid + 1)))) ;;
    k ← memm kalloc;
    modslot i (set_kstack k) ;;
    if k =? 0 then modslot i (set_state UNUSED) ;; mret None else
    memm (modify (fun s => set_mem (init_stack k (k_mem s)) s)) ;;
    mret (Some i)
  end.

(** cs, ds, es, ss, eflags, esp of the first process. *)
Definition init_tf : trapframe :=
  mktf 0 0 0 0 0 0 0 0 0 0 35 35 0 0 0 27 512 PGSIZE 35.

(** "initcode" *)
Definition initcode_name : list Z := [105;110;105;116;99;111;100;101].

Definition userinit : M ker unit :=
  op ← allocproc;
  procm (modify (set_initproc op)) ;;
  match op with
  | None => fault
  | Some i =>
    d ← memm setupkvm;
    modslot i (set_pgdir d) ;;
    if d =? 0 then panic "userinit: out of memory?" else
    memm (inituvm d initcode (Z.of_nat (length initcode))) ;;
    modslot i (fun p => set_tf init_tf (set_sz PGSIZE p)) ;;
    modslot i (fun p => set_name (copy_name (p_name p) 0 initcode_name 15) p) ;;
    c ← namei devsw_read [slash];
    modslot i (set_cwd c) ;;
    modslot i (set_state RUNNABLE)
  end.

(** switchuvm's checks; the segment and page table registers follow the
    current process. *)
Definition switchuvm (p : proc) : M ker unit :=
  if p_kstack p =? 0 then panic "switchuvm: no kstack"
  else if p_pgdir p =? 0 then panic "switchuvm: no pgdir" else mret tt.

Definition growproc (n : Z) : M ker Z :=
  p ← curproc;
  let sz := p_sz p in
  r ← (if 0 <? n then
         sz' ← memm (allocuvm (p_pgdir p) sz (u32 (sz + n)));
         mret (if sz' =? 0 then None else Some sz')
       else if n <? 0 then
         sz' ← memm (deallocuvm (p_pgdir p) sz (u32 (sz + n)));
         mret (if sz' =? 0 then None else Some sz')
       else mret (Some sz));
  match r with
  | None => mret (-1)
  | Some sz' =>
    modproc (set_sz sz') ;;
    p ← curproc;
    switchuvm p ;;
    mret 0
  end.

(** fork's loop over the open files. *)
Definition dup_files (np : nat) : M ker unit :=
  forM 0 NOFILE (fun k =>
    p ← curproc;
    match p_ofile p !!! k with
    | Some f => filedup f ;; modslot np (fun q => set_ofile (<[k := Some f]> (p_ofile q)) q)
    | None => mret tt
    end).

Definition fork : M ker Z :=
  me ← procm myproc;
  onp ← allocproc;
  match onp with
  | None => mret (-1)
  | Some np =>
    p ← curproc;
    d ← memm (copyuvm (p_pgdir p) (p_sz p));
    modslot np (set_pgdir d) ;;
    if d =? 0 then
      q ← getslot np;
      memm (kfree (p_kstack q)) ;;
      modslot np (fun q => set_state UNUSED (set_kstack 0 q)) ;;
      mret (-1)
    else
      modslot np (fun q => set_tf (tf_set_eax 0 (p_tf p)) (set_parent (Some me) (set_sz (p_sz p) q))) ;;
      dup_files np ;;
      cwd ← deref (fun _ => p_cwd p);
      idup cwd ;;
      modslot np (set_cwd (Some cwd)) ;;
      modslot np (fun q => set_name (copy_name (p_name q) 0 (p_name p) 15) q) ;;
      q ← getslot np;
      modslot np (set_state RUNNABLE) ;;
      mret (p_pid q)
  end.

(** wakeup1 of a pointer that may be null. *)
Definition wakeup1_ptr (c : option chan) (l : list proc) : list proc :=
  map (fun p => if decide (p_state p = SLEEPING /\ p_chan p = c) then set_state RUNNABLE p else p) l.

Definition wake_slot (o : option nat) : M ker unit :=
  procm (modify (fun s => set_ptable (wakeup1_ptr (ChProc <$> o) (ptable s)) s)).

Definition close_files : M ker unit :=
  forM 0 NOFILE (fun fd =>
    p ← curproc;
    match p_ofile p !!! fd with
    | Some f => fileclose f ;; modproc (fun p => set_ofile (<[fd := None]> (p_ofile p)) p)
    | None => mret tt
    end).

(** exit's loop: abandoned children go to init. *)
Definition reparent (me : nat) : M ker unit :=
  forM 0 NPROC (fun i =>
    q ← getslot i;
    if decide (p_parent q = Some me) then
      ini ← procm (gets initproc);
      modslot i (set_parent ini) ;;
      (if decide (p_state q = ZOMBIE) then wake_slot ini else mret tt)
    else mret tt).

(** exit, up to the switch to the scheduler from which it does not come
    back. *)
Definition exit : M ker unit :=
  me ← procm myproc;
  ini ← procm (gets initproc);
  if decide (ini = Some me) then panic "init exiting" else
  close_files ;;
  begin_op ;;
  p ← curproc;
  cwd ← deref (fun _ => p_cwd p);
  iput cwd ;;
  end_op ;;
  modproc (set_cwd None) ;;
  p ← curproc;
  wake_slot (p_parent p) ;;
  reparent me ;;
  modproc (set_state ZOMBIE).

(** wait's scan: whether there are children, and the first zombie. *)
Fixpoint wait_scan (me : nat) (l : list proc) (i : nat) (havekids : bool) : bool * option nat :=
  match l with
  | [] => (havekids, None)
  | p :: l' =>
    if decide (p_parent p = Some me) then
      if decide (p_state p = ZOMBIE) then (true, Some i) else wait_scan me l' (S i) true
    else wait_scan me l' (S i) havekids
  end.

(** The slot wait gives back. *)
Definition reaped (p : proc) : proc :=
  set_state UNUSED (set_killed false (set_name (<[0%nat := 0]> (p_name p)) (set_parent None (set_pid 0 p)))).

(** One round of wait's loop.  A round that sleeps ends there; when the
    process is woken the loop starts over, which is another call of [wait]. *)
Definition wait : M ker Z :=
  me ← procm myproc;
  l ← procm (gets ptable);
  match wait_scan me l 0 false with
  | (_, Some i) =>
    q ← getslot i;
    memm (kfree (p_kstack q)) ;;
    modslot i (set_kstack 0) ;;
    memm (freevm (p_pgdir q)) ;;
    modslot i reaped ;;
    mret (p_pid q)
  | (havekids, None) =>
    p ← curproc;
    if negb havekids || p_killed p then mret (-1)
    else procm (sleep (ChProc me)) ;; mret (-1)
  end.

(** forkret: the first process to run initialises the file system. *)
Definition forkret : M ker unit :=
  first ← gets (fun s => kr_first (f_blk s));
  if first : bool then
    modify (rest (set_first false)) ;;
    iinit ROOTDEV ;;
    logm (initlog ROOTDEV)
  else mret tt.

(** procdump's names of the states. *)
Definition state_name (st : procstate) : list Z :=
  match st with
  | UNUSED => [117;110;117;115;101;100]
  | EMBRYO => [101;109;98;114;121;111]
  | SLEEPING => [115;108;101;101;112;32]
  | RUNNABLE => [114;117;110;98;108;101]
  | RUNNING => [114;117;110;32;32;32]
  | ZOMBIE => [122;111;109;98;105;101]
  end.

Fixpoint print_pcs (pcs : list Z) : M cst unit :=
  match pcs with
  | [] => mret tt
  | pc :: pcs' => if pc =? 0 then mret tt else cprintf [32; 37; 112] [AWord pc] ;; print_pcs pcs'
  end.

(** procdump; [ebp] is the frame pointer a slot's context saved. *)
Definition procdump (ebp : nat -> Z) : M ker unit :=
  forM 0 NPROC (fun i =>
    p ← getslot i;
    if decide (p_state p = UNUSED) then mret tt else
    conm (cprintf [37;100;32;37;115;32;37;115]
      [AWord (p_pid p); AStr (Some (state_name (p_state p))); AStr (Some (cstr (p_name p)))]) ;;
    (if decide (p_state p = SLEEPING) then
       m ← gets (fun s => k_mem (kr_mem (f_blk s)));
       conm (print_pcs (getcallerpcs (ld32 m) (u32 (ebp i + 8))))
     else mret tt) ;;
    conm (cprintf [10] [])).

End ProcSys.
