(* ===== verification/Exec.v ===== *)
(** * Program loading: exec.c, with loaduvm of vm.c

    exec reads an ELF file through the file system into a new address space,
    builds the argument stack in it and replaces the process's image; every
    failure before that point frees the new space and unlocks the inode. *)

From stdpp Require Import base list gmap strings.
From Stdlib Require Import ZArith Lia.
From S2P Require Import Prelude Proc Bio Log Block Fs Kalloc Vm Pipe Console Kern File ProcSys.

Local Open Scope Z_scope.

Definition MAXARG : Z := 32.
Definition ELF_MAGIC : Z := 1179403647.    (* 0x464C457F *)
Definition ELF_PROG_LOAD : Z := 1.

(** struct elfhdr (52 bytes) and struct proghdr (32 bytes), the fields exec
    uses. *)
Record elfhdr : Type := mkelf { e_magic : Z; e_entry : Z; e_phoff : Z; e_phnum : Z }.
Record proghdr : Type := mkph { ph_type : Z; ph_off : Z; ph_vaddr : Z; ph_filesz : Z; ph_memsz : Z }.

Definition get_elf (d : list Z) : elfhdr :=
  mkelf (get_le 4 d 0) (get_le 4 d 24) (get_le 4 d 28) (get_le 2 d 44).
Definition get_ph (d : list Z) : proghdr :=
  mkph (get_le 4 d 0) (get_le 4 d 4) (get_le 4 d 8) (get_le 4 d 16) (get_le 4 d 20).

Definition tf_set_entry (eip esp : Z) (t : trapframe) : trapframe :=
  mktf (tf_edi t) (tf_esi t) (tf_ebp t) (tf_oesp t) (tf_ebx t) (tf_edx t)
    (tf_ecx t) (tf_eax t) (tf_gs t) (tf_fs t) (tf_es t) (tf_ds t) (tf_trapno t)
    (tf_err t) eip (tf_cs t) (tf_eflags t) esp (tf_ss t).

(** A word as bytes. *)
Definition word (w : Z) : list Z := put_le 4 w [0; 0; 0; 0] 0.

(** What follows the last '/' of a path. *)
Fixpoint last_elem (s last : list Z) : list Z :=
  match s with
  | [] => last
  | c :: s' => last_elem s' (if c =? slash then s' else last)
  end.

Section Exec.
Context {SY : Symbols} {KS : KSymbols}.

(** loaduvm's loop from [i]. *)
Fixpoint loaduvm_loop (pgdir addr : Z) (ip : nat) (offset sz i : Z) (fuel : nat) : M ker Z :=
  match fuel with
  | O => nofuel
  | S f =>
    if i <? sz then
      pte ← memm (walkpgdir pgdir (u32 (addr + i)) false);
      if pte =? 0 then panic "loaduvm: address should exist" else
      e ← memm (ld pte);
      let n := if sz - i <? PGSIZE then sz - i else PGSIZE in
      '(r, l) ← kreadi ip (u32 (offset + i)) n;
      memm (modify (fun s => set_mem (poke (k_mem s) (P2V (PTE_ADDR e)) l) s)) ;;
      if negb (r =? n) then mret (-1)
      else loaduvm_loop pgdir addr ip offset sz (u32 (i + PGSIZE)) f
    else mret 0
  end.

Definition loaduvm (pgdir addr : Z) (ip : nat) (offset sz : Z) : M ker Z :=
  if negb (addr mod PGSIZE =? 0) then panic "loaduvm: addr must be page aligned" else
  loaduvm_loop pgdir addr ip offset sz 0 (S (Z.to_nat ((sz + PGSIZE - 1) / PGSIZE))).

(** exec's loop over the program headers: the size of the image, or [None]
    for the jumps to bad. *)
Fixpoint load_segments (pgdir : Z) (ip : nat) (off sz : Z) (k : nat) : M ker (option Z) :=
  match k with
  | O => mret (Some sz)
  | S k' =>
    '(r, l) ← kreadi ip off 32;
    if negb (r =? 32) then mret None else
    let ph := get_ph l in
    if negb (ph_type ph =? ELF_PROG_LOAD) then load_segments pgdir ip (u32 (off + 32)) sz k'
    else if ph_memsz ph <? ph_filesz ph then mret None
    else if u32 (ph_vaddr ph + ph_memsz ph) <? ph_vaddr ph then mret None
    else
      sz ← memm (allocuvm pgdir sz (u32 (ph_vaddr ph + ph_memsz ph)));
      if sz =? 0 then mret None
      else if negb (ph_vaddr ph mod PGSIZE =? 0) then mret None
      else
        r ← loaduvm pgdir (ph_vaddr ph) ip (ph_off ph) (ph_filesz ph);
        if r <? 0 then mret None else load_segments pgdir ip (u32 (off + 32)) sz k'
  end.

(** The argument strings: [sps] are the addresses pushed so far. *)
Fixpoint push_args (pgdir sp : Z) (argv : list (list Z)) (sps : list Z) : M ker (option (Z * list Z)) :=
  match argv with
  | [] => mret (Some (sp, sps))
  | s :: argv' =>
    if MAXARG <=? Z.of_nat (length sps) then mret None else
    let sp := Z.land (u32 (sp - (Z.of_nat (length s) + 1))) 4294967292 in
    r ← memm (copyout pgdir sp (s ++ [0]));
    if r <? 0 then mret None else push_args pgdir sp argv' (sps ++ [sp])
  end.

(** The words below the strings: fake return address, argc, argv, the
    pointers and a null. *)
Definition ustack (sp : Z) (sps : list Z) : list Z :=
  let argc := Z.of_nat (length sps) in
  [4294967295; argc; u32 (sp - (argc + 1) * 4)] ++ sps ++ [0].

Definition exec_bad (pgdir : Z) (ip : option nat) : M ker Z :=
  (if pgdir =? 0 then mret tt else memm (freevm pgdir)) ;;
  (match ip with
   | Some i => iunlockput i ;; end_op
   | None => mret tt
   end) ;;
  mret (-1).

(** From the two stack pages on: the new image's size and stack pointer. *)
Definition exec_stack (pgdir sz : Z) (argv : list (list Z)) : M ker (option (Z * Z)) :=
  let sz := PGROUNDUP sz in
  sz ← memm (allocuvm pgdir sz (u32 (sz + 2 * PGSIZE)));
  if sz =? 0 then mret None else
  memm (clearpteu pgdir (u32 (sz - 2 * PGSIZE))) ;;
  r ← push_args pgdir sz argv [];
  match r with
  | None => mret None
  | Some (sp, sps) =>
    let us := ustack sp sps in
    let sp := u32 (sp - Z.of_nat (length us) * 4) in
    r ← memm (copyout pgdir sp (mjoin (word <$> us)));
    if r <? 0 then mret None else mret (Some (sz, sp))
  end.

(** Commit to the user image. *)
Definition exec_commit (path : list Z) (pgdir sz sp entry : Z) : M ker Z :=
  modproc (fun p => set_name (copy_name (p_name p) 0 (last_elem path path) 15) p) ;;
  p ← curproc;
  let oldpgdir := p_pgdir p in
  modproc (fun p => set_tf (tf_set_entry entry sp (p_tf p)) (set_sz sz (set_pgdir pgdir p))) ;;
  p ← curproc;
  switchuvm p ;;
  memm (freevm oldpgdir) ;;
  mret 0.

(** "exec: fail\n" *)
Definition exec_fail : list Z := [101;120;101;99;58;32;102;97;105;108;10].

Definition exec (path : list Z) (argv : list (list Z)) : M ker Z :=
  begin_op ;;
  oip ← namei devsw_read path;
  match oip with
  | None => end_op ;; conm (cprintf exec_fail []) ;; mret (-1)
  | Some ip =>
    ilock (Some ip) ;;
    '(r, l) ← kreadi ip 0 52;
    if negb (r =? 52) then exec_bad 0 (Some ip) else
    let elf := get_elf l in
    if negb (e_magic elf =? ELF_MAGIC) then exec_bad 0 (Some ip) else
    pgdir ← memm setupkvm;
    if pgdir =? 0 then exec_bad 0 (Some ip) else
    osz ← load_segments pgdir ip (e_phoff elf) 0 (Z.to_nat (e_phnum elf));
    match osz with
    | None => exec_bad pgdir (Some ip)
    | Some sz =>
      iunlockput ip ;;
      end_op ;;
      r ← exec_stack pgdir sz argv;
      match r with
      | None => exec_bad pgdir None
      | Some (sz, sp) => exec_commit path pgdir sz sp (e_entry elf)
      end
    end
  end.

End Exec.
