(* ===== verification/Syscall.v ===== *)
(** * System calls: syscall.c, sysproc.c, sysfile.c

    The argument checks of syscall.c, every system call, and the dispatch.
    A string argument is the bytes it denotes; a name buffer starts zeroed
    (the sources leave it uninitialised and fill it before use).  A call that
    sleeps ends in [Asleep]. *)

From stdpp Require Import base list gmap strings.
From Stdlib Require Import ZArith Lia.
From S2P Require Import Prelude CString Proc Format Bio Log Block Fs Kalloc Vm Pipe Console Kern File ProcSys Exec.

Local Open Scope Z_scope.

Section Syscall.
Context {SY : Symbols} {KS : KSymbols}.

(** ** Arguments; [None] is the return value -1 *)

Definition fetchint (addr : Z) : M ker (option Z) :=
  p ← curproc;
  if (p_sz p <=? addr) || (p_sz p <? u32 (addr + 4)) then mret None else
  l ← u_load addr 4;
  mret (Some (i32 (get_le 4 l 0))).

(** fetchstr's loop from address [s] up to [ep]; [acc] is what it passed. *)
Fixpoint fetchstr_loop (s ep : Z) (acc : list Z) (fuel : nat) : M ker (option (list Z)) :=
  match fuel with
  | O => nofuel
  | S f =>
    if s <? ep then
      l ← u_load s 1;
      match l with
      | [c] => if c =? 0 then mret (Some acc) else fetchstr_loop (s + 1) ep (acc ++ [c]) f
      | _ => fault
      end
    else mret None
  end.

Definition fetchstr (addr : Z) : M ker (option (list Z)) :=
  p ← curproc;
  if p_sz p <=? addr then mret None else
  fetchstr_loop addr (p_sz p) [] (S (Z.to_nat (p_sz p - addr))).

Definition argint (n : Z) : M ker (option Z) :=
  p ← curproc;
  fetchint (u32 (tf_esp (p_tf p) + 4 + 4 * n)).

Definition argptr (n size : Z) : M ker (option Z) :=
  p ← curproc;
  oi ← argint n;
  match oi with
  | None => mret None
  | Some i =>
    if (size <? 0) || (p_sz p <=? u32 i) || (p_sz p <? u32 (u32 i + size)) then mret None
    else mret (Some (u32 i))
  end.

Definition argstr (n : Z) : M ker (option (list Z)) :=
  oa ← argint n;
  match oa with
  | None => mret None
  | Some addr => fetchstr (u32 addr)
  end.

(** An argument that is missing makes the call return -1. *)
Definition need {A} (m : M ker (option A)) (k : A -> M ker Z) : M ker Z :=
  o ← m; match o with None => mret (-1) | Some a => k a end.

(** ** sysproc.c *)

Definition sys_fork : M ker Z := fork.
Definition sys_exit : M ker Z := exit ;; mret 0.
Definition sys_wait : M ker Z := wait.
Definition sys_kill : M ker Z := need (argint 0) (fun pid => procm (kill pid)).
Definition sys_getpid : M ker Z := p ← curproc; mret (p_pid p).

Definition sys_sbrk : M ker Z := need (argint 0) (fun n =>
  p ← curproc;
  r ← growproc n;
  if r <? 0 then mret (-1) else mret (i32 (p_sz p))).

(** The loop of sys_sleep; a woken sleeper runs it again. *)
Definition sleep_loop (ticks0 n : Z) : M ker Z :=
  t ← gets (fun s => kr_ticks (f_blk s));
  if u32 (t - ticks0) <? u32 n then
    p ← curproc;
    if p_killed p then mret (-1) else procm (sleep ChTicks) ;; mret 0
  else mret 0.

Definition sys_sleep : M ker Z := need (argint 0) (fun n =>
  t ← gets (fun s => kr_ticks (f_blk s));
  sleep_loop t n).

Definition sys_uptime : M ker Z := t ← gets (fun s => kr_ticks (f_blk s)); mret (i32 t).

(** ** sysfile.c *)

Definition argfd (n : Z) : M ker (option (nat * nat)) :=
  o ← argint n;
  match o with
  | None => mret None
  | Some fd =>
    p ← curproc;
    if (fd <? 0) || (Z.of_nat NOFILE <=? fd) then mret None else
    match p_ofile p !!! Z.to_nat fd with
    | None => mret None
    | Some f => mret (Some (Z.to_nat fd, f))
    end
  end.

Fixpoint fdalloc_scan (l : list (option nat)) (fd : nat) : option nat :=
  match l with
  | [] => None
  | None :: _ => Some fd
  | Some _ :: l' => fdalloc_scan l' (S fd)
  end.

Definition set_fd (fd : nat) (o : option nat) : M ker unit :=
  modproc (fun p => set_ofile (<[fd := o]> (p_ofile p)) p).

Definition fdalloc (f : nat) : M ker (option nat) :=
  p ← curproc;
  match fdalloc_scan (p_ofile p) 0 with
  | None => mret None
  | Some fd => set_fd fd (Some f) ;; mret (Some fd)
  end.

Definition sys_dup : M ker Z := need (argfd 0) (fun '(_, f) =>
  need (fdalloc f) (fun fd => filedup f ;; mret (Z.of_nat fd))).

Definition sys_read : M ker Z := need (argfd 0) (fun '(_, f) =>
  need (argint 2) (fun n => need (argptr 1 n) (fun p => fileread f p n))).

Definition sys_write : M ker Z := need (argfd 0) (fun '(_, f) =>
  need (argint 2) (fun n => need (argptr 1 n) (fun p => filewrite f p n))).

Definition sys_close : M ker Z := need (argfd 0) (fun '(fd, f) =>
  set_fd fd None ;; fileclose f ;; mret 0).

(** struct stat in memory: 20 bytes with padding after type and nlink. *)
Definition stat_bytes (s : stat) (old : list Z) : list Z :=
  let d := put_le 2 (st_type s) old 0 in
  let d := put_le 4 (st_dev s) d 4 in
  let d := put_le 4 (st_ino s) d 8 in
  let d := put_le 2 (st_nlink s) d 12 in
  put_le 4 (st_size s) d 16.

Definition sys_fstat : M ker Z := need (argfd 0) (fun '(_, f) =>
  need (argptr 1 20) (fun st =>
    o ← filestat f;
    match o with
    | None => mret (-1)
    | Some x => old ← u_load st 20; u_store st (stat_bytes x old) ;; mret 0
    end)).

Definition no_name : list Z := replicate DIRSIZ 0.

(** Leave the transaction with an error. *)
Definition fail_op : M ker Z := end_op ;; mret (-1).

Definition link_bad (ip : nat) : M ker Z :=
  ilock (Some ip) ;;
  modi ip (fun d => set_nlink (i16 (di_nlink d - 1)) d) ;;
  iupdate ip ;;
  iunlockput ip ;;
  fail_op.

Definition sys_link : M ker Z := need (argstr 0) (fun old => need (argstr 1) (fun new =>
  begin_op ;;
  oip ← namei devsw_read old;
  match oip with
  | None => fail_op
  | Some ip =>
    ilock (Some ip) ;;
    x ← getino ip;
    if di_type (i_di x) =? T_DIR then iunlockput ip ;; fail_op else
    modi ip (fun d => set_nlink (i16 (di_nlink d + 1)) d) ;;
    iupdate ip ;;
    iunlock (Some ip) ;;
    '(odp, name) ← nameiparent devsw_read new no_name;
    match odp with
    | None => link_bad ip
    | Some dp =>
      ilock (Some dp) ;;
      d ← getino dp;
      x ← getino ip;
      r ← (if negb (i_dev d =? i_dev x) then mret (-1)
           else dirlink devsw_read devsw_write dp (lit name) (i_inum x));
      if r <? 0 then iunlockput dp ;; link_bad ip
      else iunlockput dp ;; iput ip ;; end_op ;; mret 0
    end
  end)).

(** isdirempty's loop from [off]. *)
Fixpoint isdirempty_loop (dp : nat) (off : Z) (fuel : nat) : M ker bool :=
  match fuel with
  | O => nofuel
  | S f =>
    x ← getino dp;
    if off <? di_size (i_di x) then
      '(r, de) ← kreadi dp off de_size;
      if negb (r =? de_size) then panic "isdirempty: readi"
      else if negb (de_inum de =? 0) then mret false
      else isdirempty_loop dp (off + de_size) f
    else mret true
  end.

Definition isdirempty (dp : nat) : M ker bool :=
  x ← getino dp; isdirempty_loop dp (2 * de_size) (dir_fuel (di_size (i_di x))).

Definition dot : list Z := [46].
Definition dotdot : list Z := [46; 46].

Definition unlink_bad (dp : nat) : M ker Z := iunlockput dp ;; fail_op.

Definition sys_unlink : M ker Z := need (argstr 0) (fun path =>
  begin_op ;;
  '(odp, name) ← nameiparent devsw_read path no_name;
  match odp with
  | None => fail_op
  | Some dp =>
    ilock (Some dp) ;;
    if (namecmp (lit name) (lit dot) =? 0) || (namecmp (lit name) (lit dotdot) =? 0) then unlink_bad dp else
    r ← dirlookup devsw_read dp (lit name);
    match r with
    | None => unlink_bad dp
    | Some (ip, off) =>
      ilock (Some ip) ;;
      x ← getino ip;
      if di_nlink (i_di x) <? 1 then panic "unlink: nlink < 1" else
      full ← (if di_type (i_di x) =? T_DIR then e ← isdirempty ip; mret (negb e) else mret false);
      if full : bool then iunlockput ip ;; unlink_bad dp else
      w ← kwritei dp (replicate 16 0) off de_size;
      if negb (w =? de_size) then panic "unlink: writei" else
      (if di_type (i_di x) =? T_DIR
       then modi dp (fun d => set_nlink (i16 (di_nlink d - 1)) d) ;; iupdate dp else mret tt) ;;
      iunlockput dp ;;
      modi ip (fun d => set_nlink (i16 (di_nlink d - 1)) d) ;;
      iupdate ip ;;
      iunlockput ip ;;
      end_op ;;
      mret 0
    end
  end).

(** create's "." and ".." entries. *)
Definition create_dots (dp ip : nat) : M ker unit :=
  modi dp (fun d => set_nlink (i16 (di_nlink d + 1)) d) ;;
  iupdate dp ;;
  x ← getino ip;
  d ← getino dp;
  r ← dirlink devsw_read devsw_write ip (lit dot) (i_inum x);
  r ← (if r <? 0 then mret r else dirlink devsw_read devsw_write ip (lit dotdot) (i_inum d));
  if r <? 0 then panic "create dots" else mret tt.

Definition set_dev (major minor : Z) (d : dinode) : dinode :=
  mkdinode (di_type d) major minor 1 (di_size d) (di_addrs d).

Definition create (path : list Z) (type major minor : Z) : M ker (option nat) :=
  '(odp, name) ← nameiparent devsw_read path no_name;
  match odp with
  | None => mret None
  | Some dp =>
    ilock (Some dp) ;;
    r ← dirlookup devsw_read dp (lit name);
    match r with
    | Some (ip, _) =>
      iunlockput dp ;;
      ilock (Some ip) ;;
      x ← getino ip;
      if (type =? T_FILE) && (di_type (i_di x) =? T_FILE) then mret (Some ip)
      else iunlockput ip ;; mret None
    | None =>
      d ← getino dp;
      ip ← ialloc (i_dev d) type;
      ilock (Some ip) ;;
      modi ip (set_dev (i16 major) (i16 minor)) ;;
      iupdate ip ;;
      (if type =? T_DIR then create_dots dp ip else mret tt) ;;
      x ← getino ip;
      r ← dirlink devsw_read devsw_write dp (lit name) (i_inum x);
      if r <? 0 then panic "create: dirlink" else
      iunlockput dp ;;
      mret (Some ip)
    end
  end.

Definition O_WRONLY : Z := 1.
Definition O_RDWR : Z := 2.
Definition O_CREATE : Z := 512.
Definition has (mode flag : Z) : bool := negb (Z.land mode flag =? 0).

(** sys_open after the inode is found and locked. *)
Definition open_file (ip : nat) (omode : Z) : M ker Z :=
  o ← filealloc;
  match o with
  | None => iunlockput ip ;; fail_op
  | Some f =>
    ofd ← fdalloc f;
    match ofd with
    | None => fileclose f ;; iunlockput ip ;; fail_op
    | Some fd =>
      iunlock (Some ip) ;;
      end_op ;;
      modfile f (fun x => mkfile FD_INODE (f_ref x) (negb (has omode O_WRONLY))
        (has omode O_WRONLY || has omode O_RDWR) (f_pipe x) (Some ip) 0) ;;
      mret (Z.of_nat fd)
    end
  end.

Definition sys_open : M ker Z := need (argstr 0) (fun path => need (argint 1) (fun omode =>
  begin_op ;;
  if has omode O_CREATE then
    oip ← create path T_FILE 0 0;
    match oip with
    | None => fail_op
    | Some ip => open_file ip omode
    end
  else
    oip ← namei devsw_read path;
    match oip with
    | None => fail_op
    | Some ip =>
      ilock (Some ip) ;;
      x ← getino ip;
      if (di_type (i_di x) =? T_DIR) && negb (omode =? 0) then iunlockput ip ;; fail_op
      else open_file ip omode
    end)).

(** mkdir and mknod share their end. *)
Definition made (oip : option nat) : M ker Z :=
  match oip with
  | None => fail_op
  | Some ip => iunlockput ip ;; end_op ;; mret 0
  end.

Definition sys_mkdir : M ker Z :=
  begin_op ;;
  opath ← argstr 0;
  match opath with
  | None => fail_op
  | Some path => oip ← create path T_DIR 0 0; made oip
  end.

Definition sys_mknod : M ker Z :=
  begin_op ;;
  opath ← argstr 0;
  match opath with
  | None => fail_op
  | Some path =>
    omaj ← argint 1;
    match omaj with
    | None => fail_op
    | Some major =>
      omin ← argint 2;
      match omin with
      | None => fail_op
      | Some minor => oip ← create path T_DEV major minor; made oip
      end
    end
  end.

Definition sys_chdir : M ker Z :=
  begin_op ;;
  opath ← argstr 0;
  oip ← (match opath with None => mret None | Some path => namei devsw_read path end);
  match oip with
  | None => fail_op
  | Some ip =>
    ilock (Some ip) ;;
    x ← getino ip;
    if negb (di_type (i_di x) =? T_DIR) then iunlockput ip ;; fail_op else
    iunlock (Some ip) ;;
    p ← curproc;
    cwd ← deref (fun _ => p_cwd p);
    iput cwd ;;
    end_op ;;
    modproc (set_cwd (Some ip)) ;;
    mret 0
  end.

(** sys_exec's loop: the argument strings from index [i] on. *)
Fixpoint fetch_argv (uargv : Z) (i : Z) (k : nat) : M ker (option (list (list Z))) :=
  match k with
  | O => mret None
  | S k' =>
    ou ← fetchint (u32 (uargv + 4 * i));
    match ou with
    | None => mret None
    | Some uarg =>
      if uarg =? 0 then mret (Some []) else
      os ← fetchstr (u32 uarg);
      match os with
      | None => mret None
      | Some s => r ← fetch_argv uargv (i + 1) k'; mret ((cons s) <$> r)
      end
    end
  end.

Definition sys_exec : M ker Z := need (argstr 0) (fun path => need (argint 1) (fun uargv =>
  need (fetch_argv (u32 uargv) 0 (Z.to_nat MAXARG)) (fun argv => exec path argv))).

Definition sys_pipe : M ker Z := need (argptr 0 8) (fun fd =>
  need pipealloc (fun '(rf, wf) =>
    o0 ← fdalloc rf;
    match o0 with
    | None => fileclose rf ;; fileclose wf ;; mret (-1)
    | Some fd0 =>
      o1 ← fdalloc wf;
      match o1 with
      | None => set_fd fd0 None ;; fileclose rf ;; fileclose wf ;; mret (-1)
      | Some fd1 =>
        u_store fd (word (Z.of_nat fd0)) ;; u_store (fd + 4) (word (Z.of_nat fd1)) ;; mret 0
      end
    end)).

(** ** syscall *)

(** The table syscalls[]. *)
Definition syscalls (num : Z) : option (M ker Z) :=
  match num with
  | 1 => Some sys_fork | 2 => Some sys_exit | 3 => Some sys_wait | 4 => Some sys_pipe
  | 5 => Some sys_read | 6 => Some sys_kill | 7 => Some sys_exec | 8 => Some sys_fstat
  | 9 => Some sys_chdir | 10 => Some sys_dup | 11 => Some sys_getpid | 12 => Some sys_sbrk
  | 13 => Some sys_sleep | 14 => Some sys_uptime | 15 => Some sys_open | 16 => Some sys_write
  | 17 => Some sys_mknod | 18 => Some sys_unlink | 19 => Some sys_link | 20 => Some sys_mkdir
  | 21 => Some sys_close | _ => None
  end.

(** "%d %s: unknown sys call %d\n" *)
Definition unknown_call : list Z :=
  [37;100;32;37;115;58;32;117;110;107;110;111;119;110;32;115;121;115;32;99;97;108;108;32;37;100;10].

(** syscall; the result is whether the process is still there: sys_exit
    does not return. *)
Definition syscall : M ker bool :=
  p ← curproc;
  let num := i32 (tf_eax (p_tf p)) in
  match syscalls num with
  | Some f =>
    if num =? 2 then f ;; mret false else
    r ← f;
    modproc (fun p => set_tf (tf_set_eax (u32 r) (p_tf p)) p) ;; mret true
  | None =>
    conm (cprintf unknown_call [AWord (p_pid p); AStr (Some (cstr (p_name p))); AWord num]) ;;
    modproc (fun p => set_tf (tf_set_eax (u32 (-1)) (p_tf p)) p) ;; mret true
  end.

End Syscall.
