(* ===== verification/Trap.v ===== *)
(** * Traps: trap.c

    The dispatch of a trap: system calls, device interrupts, faults.  The
    device's input (keyboard scan codes, serial bytes), the CPU and cr2 are
    arguments; acknowledging the interrupt controller leaves no trace. *)

From stdpp Require Import base list gmap strings.
From Stdlib Require Import ZArith Lia.
From S2P Require Import Prelude Proc Format Kbd Bio Log Block Fs Kalloc Vm Pipe Console Kern File ProcSys Exec Syscall.

Local Open Scope Z_scope.

Definition T_SYSCALL : Z := 64.
Definition T_IRQ0 : Z := 32.
Definition IRQ_TIMER : Z := 0.
Definition IRQ_KBD : Z := 1.
Definition IRQ_COM1 : Z := 4.
Definition IRQ_IDE : Z := 14.
Definition IRQ_SPURIOUS : Z := 31.
Definition DPL_USER : Z := 3.

(** What the trap brings: the CPU, the devices' input, the fault address,
    and the saved frame pointers for a process listing. *)
Record tinput : Type := mktin {
  ti_cpu : Z; ti_codes : list Z; ti_serial : list Z; ti_cr2 : Z; ti_ebp : nat -> Z }.

(** How trap ends: it returns to the interrupted code, the process has
    exited, or it gives up the CPU (and goes on in [trap_after_yield]). *)
Inductive tresult : Type := TReturn | TExit | TYield.

Section Trap.
Context {SY : Symbols} {KS : KSymbols}.

Definition from_user (tf : trapframe) : bool := Z.land (tf_cs tf) 3 =? DPL_USER.

(** [myproc()], null allowed. *)
Definition maybe_proc : M ker (option proc) :=
  c ← procm (gets cur);
  match c with
  | None => mret None
  | Some i => p ← getslot i; mret (Some p)
  end.

Definition trap_syscall (tf : trapframe) : M ker tresult :=
  p ← curproc;
  if p_killed p then exit ;; mret TExit else
  modproc (set_tf tf) ;;
  there ← syscall;
  if negb there then mret TExit else
  p ← curproc;
  if p_killed p then exit ;; mret TExit else mret TReturn.

(** The timer: CPU 0 keeps the time. *)
Definition trap_timer (cpu : Z) : M ker unit :=
  if cpu =? 0 then
    modify (rest (fun k => set_ticks (u32 (kr_ticks k + 1)) k)) ;;
    procm (wakeup ChTicks)
  else mret tt.

Definition dump_if (d : bool) (ebp : nat -> Z) : M ker unit := if d then procdump ebp else mret tt.

Definition trap_kbd (t : tinput) : M ker unit :=
  sh ← gets (fun s => kr_shift (f_blk s));
  '(d, sh') ← conm (kbdintr sh (ti_codes t));
  modify (rest (set_shift sh')) ;;
  dump_if d (ti_ebp t).

(** uartintr: consoleintr(uartgetc). *)
Definition trap_uart (t : tinput) : M ker unit :=
  d ← conm (consoleintr (ti_serial t)); dump_if d (ti_ebp t).

(** "cpu%d: spurious interrupt at %x:%x\n" *)
Definition msg_spurious : list Z :=
  [99;112;117;37;100;58;32;115;112;117;114;105;111;117;115;32;105;110;116;101;114;114;117;112;116;32;97;116;32;37;120;58;37;120;10].
(** "unexpected trap %d from cpu %d eip %x (cr2=0x%x)\n" *)
Definition msg_kernel : list Z :=
  [117;110;101;120;112;101;99;116;101;100;32;116;114;97;112;32;37;100;32;102;114;111;109;32;99;112;117;32;37;100;32;101;105;112;32;37;120;32;40;99;114;50;61;48;120;37;120;41;10].
(** "pid %d %s: trap %d err %d on cpu %d eip 0x%x addr 0x%x--kill proc\n" *)
Definition msg_user : list Z :=
  [112;105;100;32;37;100;32;37;115;58;32;116;114;97;112;32;37;100;32;101;114;114;32;37;100;32;111;110;32;99;112;117;32;37;100;32;
   101;105;112;32;48;120;37;120;32;97;100;100;114;32;48;120;37;120;45;45;107;105;108;108;32;112;114;111;99;10].

Definition trap_default (t : tinput) (tf : trapframe) : M ker unit :=
  op ← maybe_proc;
  match op with
  | Some p =>
    if Z.land (tf_cs tf) 3 =? 0 then
      conm (cprintf msg_kernel [AWord (tf_trapno tf); AWord (ti_cpu t); AWord (tf_eip tf); AWord (ti_cr2 t)]) ;;
      panic "trap"
    else
      conm (cprintf msg_user [AWord (p_pid p); AStr (Some (cstr (p_name p))); AWord (tf_trapno tf);
        AWord (tf_err tf); AWord (ti_cpu t); AWord (tf_eip tf); AWord (ti_cr2 t)]) ;;
      modproc (set_killed true)
  | None =>
    conm (cprintf msg_kernel [AWord (tf_trapno tf); AWord (ti_cpu t); AWord (tf_eip tf); AWord (ti_cr2 t)]) ;;
    panic "trap"
  end.

(** The switch on the trap number; the disk of memide.c never interrupts. *)
Definition trap_dispatch (t : tinput) (tf : trapframe) : M ker unit :=
  let no := tf_trapno tf in
  if no =? T_IRQ0 + IRQ_TIMER then trap_timer (ti_cpu t)
  else if no =? T_IRQ0 + IRQ_IDE then mret tt
  else if no =? T_IRQ0 + IRQ_IDE + 1 then mret tt
  else if no =? T_IRQ0 + IRQ_KBD then trap_kbd t
  else if no =? T_IRQ0 + IRQ_COM1 then trap_uart t
  else if (no =? T_IRQ0 + 7) || (no =? T_IRQ0 + IRQ_SPURIOUS) then
    conm (cprintf msg_spurious [AWord (ti_cpu t); AWord (tf_cs tf); AWord (tf_eip tf)])
  else trap_default t tf.

(** Force a killed process in user space to exit. *)
Definition exit_if_killed (tf : trapframe) (k : M ker tresult) : M ker tresult :=
  op ← maybe_proc;
  match op with
  | Some p => if p_killed p && from_user tf then exit ;; mret TExit else k
  | None => k
  end.

Definition trap_after_yield (tf : trapframe) : M ker tresult := exit_if_killed tf (mret TReturn).

Definition trap (t : tinput) (tf : trapframe) : M ker tresult :=
  if tf_trapno tf =? T_SYSCALL then trap_syscall tf else
  trap_dispatch t tf ;;
  exit_if_killed tf
    (op ← maybe_proc;
     match op with
     | Some p =>
       if decide (p_state p = RUNNING /\ tf_trapno tf = T_IRQ0 + IRQ_TIMER)
       then procm yield ;; mret TYield else trap_after_yield tf
     | None => trap_after_yield tf
     end).

End Trap.
