(* ===== verification/Demo.v ===== *)
(** * A concrete kernel

    A machine small enough to run: the address space of VmUser.v's last
    example (one user page at address 0), a file table of two entries and
    the console after boot.  The processes are an argument. *)

From stdpp Require Import base list gmap strings.
From Stdlib Require Import ZArith Lia.
From S2P Require Import Prelude Proc Bio Log Block Fs Kalloc Vm VmUser Pipe Console Kern ProcSys.

Local Open Scope Z_scope.

Definition demo_ksyms : KSymbols := {| sym_forkret := 2148536320; sym_trapret := 2148540416; initcode := [235; 254] |}.

(** A system call frame: number [n], user stack at 100. *)
Definition demo_tf (n : Z) : trapframe := mktf 0 0 0 0 0 0 0 n 0 0 35 35 64 0 16 27 512 100 35.

(** A process of one page, with file 0 open. *)
Definition demo_proc (st : procstate) (pid : Z) (parent : option nat) : proc :=
  mkproc 4096 pd 2149593088 st pid parent tf_zero None false (Some 0%nat :: replicate 15 None) None (replicate 16 0).

Definition demo_files : list file := [mkfile FD_INODE 1 true true 0 (Some 0%nat) 0; file0].

Definition demo_ker (l : list proc) : ker :=
  mkfsys (mkkr (mklst (mkbst (mkpst l 7 (Some 1%nat) (Some 0%nat)) [] [] 0 []) log0) demo_s1 demo_files ∅ demo_con 0 0 false)
    [] (mksb 0 0 0 0 0 0 0).
