(* ===== verification/Fds.v ===== *)
(** * Descriptors and reference counts: an invariant of every system call

    A file's reference count is the number of descriptors, over all
    processes, that name it, and a process that is not live has none.  The
    file system, the log, the pipes, the console and the memory routines
    leave descriptors and counts alone, whether they return or go to sleep
    ([pres]); the system calls that do not are dup, close, open, pipe, fork,
    exit and wait, and they keep the balance ([safe]).  Where one of them
    goes to sleep the count of one file may be off by one ([rests]): exit
    has counted the file down and still has the descriptor.  Everything is
    proved for any such imbalance [d0] that other sleeping calls have left. *)

From stdpp Require Import base list gmap strings.
From Stdlib Require Import ZArith Lia.
From S2P Require Import Prelude CString Proc Format Kbd Bio Log Block Fs Kalloc Vm Pipe Console Kern File ProcSys Exec Syscall Trap Demo.

Local Open Scope Z_scope.

(** ** Routines that leave a part of the state alone *)

(** Of a part of the state: the process on the CPU, if any, is live. *)
Class Alive (X : Type) : Type := alive : X -> Prop.

(** What a call that returns or goes to sleep leaves. *)
Definition leaves {St A} (o : outcome St A) (s' : St) : Prop := (exists a, o = Ret a s') \/ (exists c, o = Asleep c s').

Definition pres {St A X} `{!Alive X} (P : St -> X) (m : M St A) : Prop := forall s s', alive (P s) -> leaves (m s) s' -> P s' = P s.

Lemma leaves_bind {St A B} (m : M St A) (f : A -> M St B) s s' :
  leaves (mbind f m s) s' -> (exists a s1, m s = Ret a s1 /\ leaves (f a s1) s') \/ exists c, m s = Asleep c s'.
Proof.
  unfold leaves, mbind, M_bind. destruct (m s) as [a s1|?|c s1| |]; [left; by exists a, s1|naive_solver|intros [[? [=]]|[? [= <- <-]]]; right; by exists c|naive_solver..].
Qed.

(** Routines that never sleep. *)
Definition calm {St A} (m : M St A) : Prop := forall s c s', m s <> Asleep c s'.

Section Pres.
Context {St X : Type} `{!Alive X} (P : St -> X).

Lemma pres_run {A} (m : M St A) s a s' : pres P m -> alive (P s) -> m s = Ret a s' -> P s' = P s.
Proof. intros H Ha E. apply (H s s' Ha). left. by exists a. Qed.
Lemma pres_slept {A} (m : M St A) s c s' : pres P m -> alive (P s) -> m s = Asleep c s' -> P s' = P s.
Proof. intros H Ha E. apply (H s s' Ha). right. by exists c. Qed.

Lemma pres_ret {A} (a : A) : pres P (mret a).
Proof. by intros s s' _ [[? [= _ <-]]|[? [=]]]. Qed.
Lemma pres_gets {A} (f : St -> A) : pres P (gets f).
Proof. by intros s s' _ [[? [= _ <-]]|[? [=]]]. Qed.
Lemma pres_panic {A} msg : pres P (panic (A := A) msg).
Proof. by intros s s' _ [[? ?]|[? ?]]. Qed.
Lemma pres_fault {A} : pres P (fault (A := A)).
Proof. by intros s s' _ [[? ?]|[? ?]]. Qed.
Lemma pres_nofuel {A} : pres P (nofuel (A := A)).
Proof. by intros s s' _ [[? ?]|[? ?]]. Qed.
Lemma pres_asleep {A} c : pres P (asleep (A := A) c).
Proof. by intros s s' _ [[? [=]]|[? [= _ <-]]]. Qed.
Lemma pres_deref {A} (f : St -> option A) : pres P (deref f).
Proof. intros s s' _. unfold leaves, deref. destruct (f s); [|naive_solver]. by intros [[? [= _ <-]]|[? [=]]]. Qed.
Lemma pres_modify (f : St -> St) : (forall s, P (f s) = P s) -> pres P (modify f).
Proof. intros H s s' _ [[? [= _ <-]]|[? [=]]]. apply H. Qed.
Lemma pres_bind {A B} (m : M St A) (f : A -> M St B) :
  pres P m -> (forall a, pres P (f a)) -> pres P (mbind f m).
Proof.
  intros H1 H2 s s' Ha [(a & s1 & R1 & R2)|(c & R)]%leaves_bind; [|by apply (pres_slept m s c)].
  pose proof (pres_run m s a s1 H1 Ha R1) as E. rewrite <- E in Ha |- *. by apply (H2 a).
Qed.
Lemma pres_zoom {T Y A} `{!Alive Y} (Q : T -> Y) get set (m : M T A) :
  (forall s, alive (P s) -> alive (Q (get s))) -> (forall t s, Q t = Q (get s) -> P (set t s) = P s) -> pres Q m -> pres P (zoom get set m).
Proof.
  intros Ha H Hm s s' Hs. unfold leaves, zoom. destruct (m (get s)) as [b t|?|c t| |] eqn:E; [| |..]; try naive_solver.
  - intros [[? [= _ <-]]|[? [=]]]. apply H. apply (Hm (get s) t (Ha s Hs)). left. by exists b.
  - intros [[? [=]]|[? [= _ <-]]]. apply H. apply (Hm (get s) t (Ha s Hs)). right. by exists c.
Qed.
Lemma pres_forM i k (body : nat -> M St unit) : (forall j, pres P (body j)) -> pres P (forM i k body).
Proof.
  intros H. revert i. induction k as [|k IH]; intros i; cbn; [apply pres_ret|]. apply pres_bind; [done|]. intros _. apply IH.
Qed.
(** A loop invariant. *)
Lemma forM_inv (I : nat -> St -> Prop) k body : forall i s u s',
  (forall j s u s', (j < i + k)%nat -> I j s -> body j s = Ret u s' -> I (S j) s') ->
  I i s -> forM i k body s = Ret u s' -> I (i + k)%nat s'.
Proof.
  induction k as [|k IH]; intros i s u s' Hb Hi H; cbn in H.
  - injection H as _ <-. by rewrite Nat.add_0_r.
  - apply bind_inv in H as (u1 & s1 & H1 & H). replace (i + S k)%nat with (S i + k)%nat by lia.
    apply (IH (S i) s1 u s'); [|apply (Hb i s u1 s1); [lia|done|done]|done].
    intros j t w t' Hj. apply Hb. lia.
Qed.
End Pres.

Section Calm.
Context {St : Type}.

Lemma leaves_calm {A B} (m : M St A) (f : A -> M St B) s s' : calm m -> leaves (mbind f m s) s' -> exists a s1, m s = Ret a s1 /\ leaves (f a s1) s'.
Proof. intros Hm [H|(c & H)]%leaves_bind; [done|]. by destruct (Hm s c s'). Qed.

Lemma bind_slept {A B} (m : M St A) (f : A -> M St B) s c s' :
  mbind f m s = Asleep c s' -> m s = Asleep c s' \/ exists a s1, m s = Ret a s1 /\ f a s1 = Asleep c s'.
Proof. unfold mbind, M_bind. destruct (m s); naive_solver. Qed.

(** The iteration of a loop that sleeps. *)
Lemma forM_slept (I : nat -> St -> Prop) k body c s' : forall i s,
  (forall j s u s', (j < i + k)%nat -> I j s -> body j s = Ret u s' -> I (S j) s') ->
  I i s -> forM i k body s = Asleep c s' -> exists j s1, (j < i + k)%nat /\ I j s1 /\ body j s1 = Asleep c s'.
Proof.
  induction k as [|k IH]; intros i s Hb Hi H; cbn in H; [done|]. apply bind_slept in H as [H|(u & s1 & H1 & H)]; [exists i, s; split_and!; [lia|done..]|].
  destruct (IH (S i) s1) as (j & s2 & Hj & Hs2); [|apply (Hb i s u s1); [lia|done|done]|done|exists j, s2; split; [lia|done]].
  intros j t w t' Hj. apply Hb. lia.
Qed.

Lemma calm_bind {A B} (m : M St A) (f : A -> M St B) : calm m -> (forall a, calm (f a)) -> calm (mbind f m).
Proof. intros H1 H2 s c s' [E|(a & s1 & _ & E)]%bind_slept; [by apply (H1 s c s')|by apply (H2 a s1 c s')]. Qed.
Lemma calm_zoom {T A} get set (m : M T A) : calm m -> calm (zoom (S := St) get set m).
Proof. intros H s c s'. unfold zoom. destruct (m (get s)) as [?|?|c' t| |] eqn:E; try done. by destruct (H _ _ _ E). Qed.
Lemma calm_deref {A} (f : St -> option A) : calm (deref f).
Proof. intros s c s'. unfold deref. by destruct (f s). Qed.
Lemma calm_forM (body : nat -> M St unit) k : (forall j, calm (body j)) -> forall i, calm (forM i k body).
Proof. intros H. induction k as [|k IH]; intros i; cbn; [done|]. apply calm_bind; [done|]. intros _. apply IH. Qed.
End Calm.

Ltac calms := repeat match goal with
  | |- calm (mbind _ _) => apply calm_bind
  | |- forall _, _ => intro
  | |- calm (zoom _ _ _) => apply calm_zoom
  | |- calm (deref _) => apply calm_deref
  | |- calm (forM _ _ _) => apply calm_forM
  | |- calm (match ?x with _ => _ end) => destruct x
  | |- calm _ => assumption
  | |- calm _ => intros ? ? ?; discriminate
  end.

Create HintDb keepdb.
#[export] Hint Resolve pres_ret pres_gets pres_panic pres_fault pres_nofuel pres_asleep pres_deref : keepdb.

(** A routine run on a component; extended as the lifts appear. *)
Ltac lift1 := fail.

(** Walk through a routine's body. *)
Ltac keep1 :=
  match goal with
  | |- pres _ (mbind _ _) => apply pres_bind
  | |- forall _, _ => intro
  | |- pres _ (forM _ _ _) => apply pres_forM
  | |- pres _ (modify _) => apply pres_modify; intro; try reflexivity
  | |- pres _ (match ?x with _ => _ end) => destruct x
  | |- pres _ _ => solve [eauto with keepdb]
  | |- pres _ _ => lift1
  end.
Ltac keep := repeat keep1.

(** A slot's descriptors, and whether the process may have any. *)
Definition dead (p : proc) : bool := bool_decide (p_state p = UNUSED \/ p_state p = EMBRYO \/ p_state p = ZOMBIE).
Definition slotfd (p : proc) : list (option nat) * bool := (p_ofile p, dead p).
Notation fdtab := (list (list (option nat) * bool)).

(** The current process, the descriptors of every slot, the counts of every
    file: what the quiet routines keep. *)
Definition pfd (ps : pst) : option nat * fdtab := (cur ps, slotfd <$> ptable ps).
Definition bfd (b : bst) : option nat * fdtab := pfd (b_proc b).
Definition lfd (l : lst) : option nat * fdtab := bfd (l_bio l).
Definition krfd (k : krest) : option nat * fdtab * list Z := (lfd (kr_lst k), f_ref <$> kr_files k).
Definition kfd (s : ker) : option nat * fdtab * list Z := krfd (f_blk s).

(** The process on the CPU has not died. *)
Definition alive_in (c : option nat) (l : list bool) : Prop := match c with Some i => l !! i = Some false | None => True end.
#[export] Instance alive_pfd : Alive (option nat * fdtab) := fun X => alive_in X.1 (snd <$> X.2).
#[export] Instance alive_kfd : Alive (option nat * fdtab * list Z) := fun X => alive_in X.1.1 (snd <$> X.1.2).
#[export] Instance alive_lives : Alive (option nat * list bool) := fun X => alive_in X.1 X.2.
#[export] Instance alive_unit : Alive unit := fun _ => True.

(** ** The process table *)

Lemma wakeup1_pfd ch ps : pfd (set_ptable (wakeup1 ch (ptable ps)) ps) = pfd ps.
Proof.
  unfold pfd, wakeup1. cbn. f_equal. change (map ?f ?l) with (f <$> l). rewrite <- list_fmap_compose. apply list_fmap_ext.
  intros i p _. cbn. case_decide as H; [|done]. destruct H as [H _]. unfold slotfd, dead. cbn. by rewrite H.
Qed.

Lemma wakeup_pres ch : pres pfd (wakeup ch).
Proof. apply pres_modify. intros. apply wakeup1_pfd. Qed.
Lemma sleep_mark_pres ch : pres pfd (sleep_mark ch).
Proof.
  intros s s' Ha. unfold sleep_mark, leaves, mbind, M_bind, gets. unfold alive, alive_pfd, pfd in Ha. cbn in Ha.
  destruct (cur s) as [i|] eqn:Ec; [|naive_solver]. intros [[? [= _ <-]]|[? [=]]]. unfold pfd. cbn. rewrite Ec. f_equal.
  cbn in Ha. rewrite !list_lookup_fmap in Ha. destruct (ptable s !! i) as [p|] eqn:Ep; [|done]. cbn in Ha. injection Ha as Ha.
  apply list_eq. intros j. rewrite !list_lookup_fmap, list_lookup_alter. case_decide as E; [subst j|done]. rewrite Ep. cbn. unfold slotfd. by rewrite Ha.
Qed.
#[export] Hint Resolve sleep_mark_pres : keepdb.
Lemma sleep_pres ch : pres pfd (sleep ch).
Proof. unfold sleep. keep. Qed.
Lemma myproc_pres : pres pfd myproc.
Proof. unfold myproc. keep. Qed.
Lemma getproc_pres i : pres pfd (getproc i).
Proof. unfold getproc. keep. Qed.
#[export] Hint Resolve wakeup_pres sleep_pres myproc_pres getproc_pres : keepdb.
Lemma mypid_pres : pres pfd mypid.
Proof. unfold mypid. keep. Qed.
Lemma my_killed_pres : pres pfd my_killed.
Proof. unfold my_killed. keep. Qed.
Lemma kill_loop_pfd pid l l' : kill_loop pid l = Some l' ->
  slotfd <$> l' = slotfd <$> l.
Proof.
  revert l'. induction l as [|p l IH]; intros l'; cbn [kill_loop]; [done|]. destruct (_ =? _).
  - intros [= <-]. cbn. f_equal. case_decide as H; unfold slotfd, dead; cbn in *; [|done]. by rewrite H.
  - destruct (kill_loop pid l) as [r|]; [|done]. intros [= <-]. cbn. f_equal. by apply IH.
Qed.
Lemma kill_pres pid : pres pfd (kill pid).
Proof.
  intros s s' _. unfold kill. erewrite bind_ret by reflexivity.
  destruct (kill_loop pid (ptable s)) as [l'|] eqn:E; intros [[? [= _ <-]]|[? [=]]]; [|done].
  unfold pfd. cbn. f_equal. by apply (kill_loop_pfd pid).
Qed.
#[export] Hint Resolve mypid_pres my_killed_pres kill_pres : keepdb.

(** ** Sleep locks, buffers, the log *)

Section SleepLocks.
Context {St X : Type} `{!Alive X} (P : St -> X) (getl : St -> option sleeplock) (setl : sleeplock -> St -> St).
Context (getp : St -> pst) (setp : pst -> St -> St) (ch : chan).
Hypothesis Hl : forall l s, P (setl l s) = P s.
Hypothesis Ha : forall s, alive (P s) -> alive (pfd (getp s)).
Hypothesis Hp : forall t s, pfd t = pfd (getp s) -> P (setp t s) = P s.

Lemma procs_pres {A} (m : M pst A) : pres pfd m -> pres P (zoom getp setp m).
Proof using Hp Ha. by apply pres_zoom. Qed.
Lemma acquiresleep_pres : pres P (acquiresleep getl setl getp setp ch).
Proof using Hl Hp Ha. unfold acquiresleep. keep; try (apply procs_pres; eauto with keepdb). apply Hl. Qed.
Lemma releasesleep_pres : pres P (releasesleep setl getp setp ch).
Proof using Hl Hp Ha. unfold releasesleep. keep; try (apply procs_pres; eauto with keepdb). apply Hl. Qed.
Lemma holdingsleep_pres : pres P (holdingsleep getl getp setp).
Proof using Hp Ha. unfold holdingsleep. keep; apply procs_pres; eauto with keepdb. Qed.
Lemma initsleeplock_pres : pres P (initsleeplock setl).
Proof using Hl. unfold initsleeplock. keep. apply Hl. Qed.
End SleepLocks.

Lemma acquire_buf_pres i : pres bfd (acquire_buf i).
Proof. by apply acquiresleep_pres. Qed.
Lemma release_buf_pres i : pres bfd (release_buf i).
Proof. by apply releasesleep_pres. Qed.
Lemma holding_buf_pres i : pres bfd (holding_buf i).
Proof. by apply holdingsleep_pres. Qed.
Lemma getbuf_pres i : pres bfd (getbuf i).
Proof. unfold getbuf. keep. Qed.
#[export] Hint Resolve acquire_buf_pres release_buf_pres holding_buf_pres getbuf_pres : keepdb.
Lemma iderw_pres i : pres bfd (iderw i).
Proof. unfold iderw. keep. Qed.
#[export] Hint Resolve iderw_pres : keepdb.
Lemma bget_pres dev b : pres bfd (bget dev b).
Proof. unfold bget. keep. Qed.
#[export] Hint Resolve bget_pres : keepdb.
Lemma bread_pres dev b : pres bfd (Bio.bread dev b).
Proof. unfold Bio.bread. keep. Qed.
Lemma bwrite_pres i : pres bfd (bwrite i).
Proof. unfold bwrite. keep. Qed.
Lemma brelse_pres i : pres bfd (Bio.brelse i).
Proof. unfold Bio.brelse. keep. Qed.
Lemma bdata_pres i : pres bfd (Bio.bdata i).
Proof. unfold Bio.bdata. keep. Qed.
Lemma bstore_pres i d : pres bfd (Bio.bstore i d).
Proof. unfold Bio.bstore. keep. Qed.
#[export] Hint Resolve bread_pres bwrite_pres brelse_pres bdata_pres bstore_pres : keepdb.

Lemma bio_pres {A} (m : M bst A) : pres bfd m -> pres lfd (bio m).
Proof. by apply pres_zoom. Qed.
Lemma bproc_pres {A} (m : M pst A) : pres pfd m -> pres bfd (zoom b_proc set_bproc m).
Proof. by apply pres_zoom. Qed.
Ltac lift1 ::= match goal with
  | |- pres lfd (bio _) => apply bio_pres
  | |- pres bfd (zoom b_proc set_bproc _) => apply bproc_pres
  end.
Lemma readsb_pres dev : pres bfd (Log.readsb dev).
Proof. unfold Log.readsb. keep. Qed.
#[export] Hint Resolve readsb_pres : keepdb.

Lemma sleep_log_pres : pres lfd sleep_log.
Proof. unfold sleep_log. keep. Qed.
Lemma wakeup_log_pres : pres lfd wakeup_log.
Proof. unfold wakeup_log. keep. Qed.
#[export] Hint Resolve sleep_log_pres wakeup_log_pres : keepdb.
Lemma install_trans_pres : pres lfd install_trans.
Proof. unfold install_trans, install_one. keep. Qed.
Lemma read_head_pres : pres lfd read_head.
Proof. unfold read_head. keep. Qed.
Lemma write_head_pres : pres lfd write_head.
Proof. unfold write_head. keep. Qed.
Lemma write_log_pres : pres lfd write_log.
Proof. unfold write_log, write_one. keep. Qed.
#[export] Hint Resolve install_trans_pres read_head_pres write_head_pres write_log_pres : keepdb.
Lemma begin_op_pres : pres lfd Log.begin_op.
Proof. unfold Log.begin_op. keep. Qed.
Lemma commit_pres : pres lfd commit.
Proof. unfold commit. keep. Qed.
#[export] Hint Resolve begin_op_pres commit_pres : keepdb.
Lemma end_op_pres : pres lfd Log.end_op.
Proof. unfold Log.end_op. keep. Qed.
Lemma log_write_pres i : pres lfd (Log.log_write i).
Proof. unfold Log.log_write. keep. Qed.
Lemma recover_pres : pres lfd recover_from_log.
Proof. unfold recover_from_log. keep. Qed.
#[export] Hint Resolve end_op_pres log_write_pres recover_pres : keepdb.
Lemma initlog_pres dev : pres lfd (initlog dev).
Proof. unfold initlog. keep. Qed.
#[export] Hint Resolve initlog_pres : keepdb.

(** ** The file system *)

Lemma blk_pres {A} (m : M krest A) : pres krfd m -> pres kfd (blk m).
Proof. by apply pres_zoom. Qed.
Lemma in_lst_pres {A} (m : M lst A) : pres lfd m -> pres krfd (in_lst m).
Proof. apply pres_zoom; [done|]. intros t s E. unfold krfd. cbn. by rewrite E. Qed.
Lemma logm_pres {A} (m : M lst A) : pres lfd m -> pres kfd (logm m).
Proof. intros. by apply blk_pres, in_lst_pres. Qed.
Lemma procm_pres {A} (m : M pst A) : pres pfd m -> pres kfd (procm m).
Proof. apply pres_zoom; [done|]. intros t s E. unfold kfd, krfd, lfd, bfd. cbn. by rewrite E. Qed.
Lemma memm_pres {A} (m : M kst A) : pres kfd (memm m).
Proof. by apply (pres_zoom _ (fun _ => tt)). Qed.
#[export] Hint Resolve memm_pres : keepdb.
Ltac lift1 ::= match goal with
  | |- pres lfd (bio _) => apply bio_pres
  | |- pres bfd (zoom b_proc set_bproc _) => apply bproc_pres
  | |- pres kfd (blk _) => apply blk_pres
  | |- pres krfd (in_lst _) => apply in_lst_pres
  | |- pres kfd (logm _) => apply logm_pres
  | |- pres kfd (procm _) => apply procm_pres
  | |- pres kfd (zoom f_procs set_f_procs _) => apply procm_pres
  end.

Section Fs.
Notation kbread := (Fs.bread (St := krest)).

Lemma kbread_pres dev b : pres kfd (Fs.bread (St := krest) dev b).
Proof. apply blk_pres, in_lst_pres. cbn. keep. Qed.
Lemma kbdata_pres i : pres kfd (Fs.bdata (St := krest) i).
Proof. apply blk_pres, in_lst_pres. cbn. keep. Qed.
Lemma kbstore_pres i d : pres kfd (Fs.bstore (St := krest) i d).
Proof. apply blk_pres, in_lst_pres. cbn. keep. Qed.
Lemma klog_write_pres i : pres kfd (Fs.log_write (St := krest) i).
Proof. apply blk_pres, in_lst_pres. cbn. keep. Qed.
Lemma kbrelse_pres i : pres kfd (Fs.brelse (St := krest) i).
Proof. apply blk_pres, in_lst_pres. cbn. keep. Qed.
Lemma getsb_pres : pres kfd (getsb (St := krest)).
Proof. unfold getsb. keep. Qed.
Lemma getino_pres i : pres kfd (getino (St := krest) i).
Proof. unfold getino. keep. Qed.
Lemma modino_pres i f : pres kfd (modino (St := krest) i f).
Proof. unfold modino. keep. Qed.
Lemma modi_pres i f : pres kfd (modi (St := krest) i f).
Proof. unfold modi. apply modino_pres. Qed.
Lemma acquire_ino_pres i : pres kfd (acquire_ino (St := krest) i).
Proof. apply acquiresleep_pres; [done|done|]. intros t s E. unfold kfd, krfd, lfd, bfd. cbn. by rewrite E. Qed.
Lemma release_ino_pres i : pres kfd (release_ino (St := krest) i).
Proof. apply releasesleep_pres; [done|done|]. intros t s E. unfold kfd, krfd, lfd, bfd. cbn. by rewrite E. Qed.
Lemma holding_ino_pres i : pres kfd (holding_ino (St := krest) i).
Proof. apply holdingsleep_pres; [done|]. intros t s E. unfold kfd, krfd, lfd, bfd. cbn. by rewrite E. Qed.
End Fs.
#[export] Hint Resolve kbread_pres kbdata_pres kbstore_pres klog_write_pres kbrelse_pres getsb_pres getino_pres
  modino_pres modi_pres acquire_ino_pres release_ino_pres holding_ino_pres : keepdb.

Lemma kreadsb_pres dev : pres kfd (Fs.readsb (St := krest) dev).
Proof. unfold Fs.readsb. keep. Qed.
Lemma bzero_pres dev b : pres kfd (bzero (St := krest) dev b).
Proof. unfold bzero. keep. Qed.
#[export] Hint Resolve kreadsb_pres bzero_pres : keepdb.
Lemma balloc_loop_pres dev fuel : forall b, pres kfd (balloc_loop (St := krest) dev b fuel).
Proof. induction fuel; intros; cbn [balloc_loop]; keep. Qed.
#[export] Hint Resolve balloc_loop_pres : keepdb.
Lemma balloc_pres dev : pres kfd (balloc (St := krest) dev).
Proof. unfold balloc. keep. Qed.
Lemma bfree_pres dev b : pres kfd (bfree (St := krest) dev b).
Proof. unfold bfree. keep. Qed.
Lemma iget_pres dev i : pres kfd (iget (St := krest) dev i).
Proof. unfold iget. keep. Qed.
#[export] Hint Resolve balloc_pres bfree_pres iget_pres : keepdb.
Lemma ialloc_loop_pres dev ty fuel : forall i, pres kfd (ialloc_loop (St := krest) dev ty i fuel).
Proof. induction fuel; intros; cbn [ialloc_loop]; keep. Qed.
#[export] Hint Resolve ialloc_loop_pres : keepdb.
Lemma ialloc_pres dev ty : pres kfd (ialloc (St := krest) dev ty).
Proof. unfold ialloc. keep. Qed.
Lemma iupdate_pres i : pres kfd (iupdate (St := krest) i).
Proof. unfold iupdate. keep. Qed.
Lemma idup_pres i : pres kfd (idup (St := krest) i).
Proof. unfold idup. keep. Qed.
Lemma ilock_pres o : pres kfd (ilock (St := krest) o).
Proof. unfold ilock. keep. Qed.
Lemma iunlock_pres o : pres kfd (iunlock (St := krest) o).
Proof. unfold iunlock. keep. Qed.
#[export] Hint Resolve ialloc_pres iupdate_pres idup_pres ilock_pres iunlock_pres : keepdb.
Lemma bmap_entry_pres dev ind bn : pres kfd (bmap_entry (St := krest) dev ind bn).
Proof. unfold bmap_entry. keep. Qed.
#[export] Hint Resolve bmap_entry_pres : keepdb.
Lemma bmap_pres i bn : pres kfd (bmap (St := krest) i bn).
Proof. unfold bmap. keep. Qed.
Lemma itrunc_pres i : pres kfd (itrunc (St := krest) i).
Proof. unfold itrunc. keep. Qed.
#[export] Hint Resolve bmap_pres itrunc_pres : keepdb.
Lemma iput_pres i : pres kfd (iput (St := krest) i).
Proof. unfold iput. keep. Qed.
#[export] Hint Resolve iput_pres : keepdb.
Lemma iunlockput_pres i : pres kfd (iunlockput (St := krest) i).
Proof. unfold iunlockput. keep. Qed.
Lemma stati_pres i : pres kfd (stati (St := krest) i).
Proof. unfold stati. keep. Qed.
Lemma iinit_pres dev : pres kfd (iinit (St := krest) dev).
Proof. unfold iinit. keep. Qed.
#[export] Hint Resolve iunlockput_pres stati_pres iinit_pres : keepdb.

(** ** The console and the pipes *)

Lemma conm_pres {A} (m : M cst A) : pres (fun c => pfd (c_proc c)) m -> pres kfd (conm m).
Proof. apply pres_zoom; [done|]. intros t s E. unfold kfd, krfd, lfd, bfd. cbn. by rewrite E. Qed.

Notation cfd := (fun c : cst => pfd (c_proc c)).
#[export] Hint Extern 3 (pres kfd (conm _)) => apply conm_pres : keepdb.

Lemma crt_store_pres i v : pres cfd (crt_store i v).
Proof. intros s s' _. unfold leaves, crt_store. destruct (_ && _); [|naive_solver]. by intros [[? [= _ <-]]|[? [=]]]. Qed.
#[export] Hint Resolve crt_store_pres : keepdb.
Lemma uartputc_pres c : pres cfd (uartputc c).
Proof. unfold uartputc. apply pres_modify. intros s. by destruct (uart s). Qed.
Lemma cgaputc_pres c : pres cfd (cgaputc c).
Proof. unfold cgaputc. keep. Qed.
#[export] Hint Resolve uartputc_pres cgaputc_pres : keepdb.
Lemma consputc_pres c : pres cfd (consputc c).
Proof. unfold consputc. keep. Qed.
#[export] Hint Resolve consputc_pres : keepdb.
Lemma putall_pres l : pres cfd (putall l).
Proof. induction l; cbn [putall]; keep. Qed.
#[export] Hint Resolve putall_pres : keepdb.
Lemma kprintint_pres x b sg : pres cfd (Console.printint x b sg).
Proof. unfold Console.printint. keep. Qed.
#[export] Hint Resolve kprintint_pres : keepdb.
Lemma cprintf_pres_len n : forall fmt argp, (length fmt <= n)%nat -> pres cfd (cprintf fmt argp).
Proof.
  induction n as [|n IH]; intros [|f fmt] argp Hn; cbn [length] in Hn; try lia; cbn [cprintf]; keep;
    apply IH; cbn [length] in *; lia.
Qed.
Lemma cprintf_pres fmt argp : pres cfd (cprintf fmt argp).
Proof. by apply (cprintf_pres_len (length fmt)). Qed.
#[export] Hint Resolve cprintf_pres : keepdb.

Lemma kill_line_pres fuel : pres cfd (kill_line fuel).
Proof. induction fuel; cbn [kill_line]; keep. Qed.
#[export] Hint Resolve kill_line_pres : keepdb.
Lemma cprocs_pres {A} (m : M pst A) : pres pfd m -> pres cfd (cprocs m).
Proof. by apply pres_zoom. Qed.
Lemma accept_pres c e r : pres cfd (accept c e r).
Proof. unfold accept. keep. apply cprocs_pres. keep. Qed.
#[export] Hint Resolve accept_pres : keepdb.
Lemma consoleintr_char_pres c : pres cfd (consoleintr_char c).
Proof. unfold consoleintr_char. keep. Qed.
#[export] Hint Resolve consoleintr_char_pres : keepdb.
Lemma consoleintr_loop_pres cs : forall d, pres cfd (consoleintr_loop cs d).
Proof. induction cs; intros; cbn [consoleintr_loop]; keep. Qed.
#[export] Hint Resolve consoleintr_loop_pres : keepdb.
Lemma kbdintr_pres sh l : pres cfd (kbdintr sh l).
Proof. unfold kbdintr, consoleintr. keep. Qed.
#[export] Hint Resolve kbdintr_pres : keepdb.

Lemma consoleread_from_pres target n : pres cfd (consoleread_from target n).
Proof. induction n; cbn [consoleread_from]; keep; try (apply cprocs_pres; keep). Qed.
#[export] Hint Resolve consoleread_from_pres : keepdb.
Lemma settle_pres {A} ch (r : progress A) : pres kfd (settle ch r).
Proof. unfold settle. keep. Qed.
#[export] Hint Resolve settle_pres : keepdb.

Lemma consolewrite_buf_pres l : pres cfd (consolewrite_buf l).
Proof. unfold consolewrite_buf. keep. Qed.
#[export] Hint Resolve consolewrite_buf_pres : keepdb.

Lemma consoleread_pres ip n : pres kfd (File.consoleread ip n).
Proof. unfold File.consoleread, consoleread_buf. keep. Qed.
Lemma consolewrite_pres ip b n : pres kfd (File.consolewrite ip b n).
Proof. unfold File.consolewrite. keep. Qed.
#[export] Hint Resolve consoleread_pres consolewrite_pres : keepdb.

Lemma readi_loop_pres i n fuel : forall tot off acc, pres kfd (readi_loop (St := krest) i n tot off acc fuel).
Proof. induction fuel; intros; cbn [readi_loop]; keep. Qed.
#[export] Hint Resolve readi_loop_pres : keepdb.
Lemma readi_pres i off n : pres kfd (readi (St := krest) devsw_read i off n).
Proof.
  unfold readi. apply pres_bind; [keep|intros ip; cbv zeta]. destruct (di_type _ =? T_DEV); [|keep].
  destruct (_ || _); [keep|]. unfold devsw_read. destruct (_ =? CONSOLE); keep.
Qed.
Lemma writei_loop_pres i src n fuel : forall tot off, pres kfd (writei_loop (St := krest) i src n tot off fuel).
Proof. induction fuel; intros; cbn [writei_loop]; keep. Qed.
#[export] Hint Resolve readi_pres writei_loop_pres : keepdb.
Lemma writei_pres i src off n : pres kfd (writei (St := krest) devsw_write i src off n).
Proof.
  unfold writei. apply pres_bind; [keep|intros ip; cbv zeta]. destruct (di_type _ =? T_DEV); [|keep].
  destruct (_ || _); [keep|]. unfold devsw_write. destruct (_ =? CONSOLE); keep.
Qed.
#[export] Hint Resolve writei_pres : keepdb.
Lemma kreadi_pres i off n : pres kfd (kreadi i off n).
Proof. apply readi_pres. Qed.
Lemma kwritei_pres i src off n : pres kfd (kwritei i src off n).
Proof. apply writei_pres. Qed.
#[export] Hint Resolve kreadi_pres kwritei_pres : keepdb.

Lemma dirlookup_loop_pres dp name fuel : forall off, pres kfd (dirlookup_loop (St := krest) devsw_read dp name off fuel).
Proof. induction fuel; intros; cbn [dirlookup_loop]; keep. Qed.
#[export] Hint Resolve dirlookup_loop_pres : keepdb.
Lemma dirlookup_pres dp name : pres kfd (dirlookup (St := krest) devsw_read dp name).
Proof. unfold dirlookup. keep. Qed.
Lemma dirlink_loop_pres dp fuel : forall off, pres kfd (dirlink_loop (St := krest) devsw_read dp off fuel).
Proof. induction fuel; intros; cbn [dirlink_loop]; keep. Qed.
#[export] Hint Resolve dirlookup_pres dirlink_loop_pres : keepdb.
Lemma dirlink_pres dp name inum : pres kfd (dirlink (St := krest) devsw_read devsw_write dp name inum).
Proof. unfold dirlink. keep. Qed.
Lemma namex_loop_pres par fuel : forall ip path name, pres kfd (namex_loop (St := krest) devsw_read ip path par name fuel).
Proof. induction fuel; intros; cbn [namex_loop]; keep. Qed.
Lemma my_cwd_pres : pres kfd (my_cwd (St := krest)).
Proof. unfold my_cwd. keep. Qed.
#[export] Hint Resolve dirlink_pres namex_loop_pres my_cwd_pres : keepdb.
Lemma namex_pres path par name : pres kfd (namex (St := krest) devsw_read path par name).
Proof. unfold namex. keep. Qed.
#[export] Hint Resolve namex_pres : keepdb.
Lemma namei_pres path : pres kfd (namei (St := krest) devsw_read path).
Proof. unfold namei. keep. Qed.
Lemma nameiparent_pres path name : pres kfd (nameiparent (St := krest) devsw_read path name).
Proof. unfold nameiparent. keep. Qed.
Lemma kbegin_op_pres : pres kfd File.begin_op.
Proof. unfold File.begin_op. keep. Qed.
Lemma kend_op_pres : pres kfd File.end_op.
Proof. unfold File.end_op. keep. Qed.
Lemma curproc_pres : pres kfd curproc.
Proof. unfold curproc. keep. Qed.
Lemma getslot_pres i : pres kfd (getslot i).
Proof. unfold getslot. keep. Qed.
Lemma getfile_pres i : pres kfd (getfile i).
Proof. unfold getfile. keep. Qed.
#[export] Hint Resolve namei_pres nameiparent_pres kbegin_op_pres kend_op_pres curproc_pres getslot_pres getfile_pres : keepdb.

Lemma fmap_alter_same {A B} (g : A -> B) (f : A -> A) i (l : list A) : (forall x, g (f x) = g x) -> g <$> alter f i l = g <$> l.
Proof.
  intros H. apply list_eq. intros j. rewrite !list_lookup_fmap, list_lookup_alter.
  case_decide; [subst|done]. destruct (l !! _); cbn; [by rewrite H|done].
Qed.

Lemma modfile_pres i f : (forall x, f_ref (f x) = f_ref x) -> pres kfd (modfile i f).
Proof. intros H. apply pres_modify. intros s. unfold kfd, krfd. cbn. by rewrite fmap_alter_same. Qed.
Lemma modslot_pres i f : (forall p, slotfd (f p) = slotfd p) -> pres kfd (modslot i f).
Proof. intros H. apply procm_pres, pres_modify. intros s. unfold pfd. cbn. by rewrite fmap_alter_same. Qed.
Lemma modproc_pres f : (forall p, slotfd (f p) = slotfd p) -> pres kfd (modproc f).
Proof. intros H. unfold modproc. keep. unfold pfd. cbn. by rewrite fmap_alter_same. Qed.
Lemma u_load_pres va n : pres kfd (u_load va n).
Proof. unfold u_load. keep. Qed.
Lemma u_store_pres va l : pres kfd (u_store va l).
Proof. unfold u_store. keep. Qed.
#[export] Hint Resolve u_load_pres u_store_pres : keepdb.

(** Pipe calls. *)
Notation ppfd := (fun t : pps => pfd (pp_proc t)).

Lemma pprocs_pres {A} (m : M pst A) : pres pfd m -> pres ppfd (procs m).
Proof. by apply pres_zoom. Qed.
#[export] Hint Extern 3 (pres (fun t : pps => pfd (pp_proc t)) (procs _)) => apply pprocs_pres : keepdb.

Lemma pipewrite_pres p rest : forall i, pres ppfd (pipewrite_from p i rest).
Proof. induction rest; intros i; cbn [pipewrite_from]; unfold upd_pipe; keep. Qed.
Lemma piperead_copy_pres n : pres ppfd (piperead_copy n).
Proof. induction n; cbn [piperead_copy]; unfold upd_pipe; keep. Qed.
#[export] Hint Resolve pipewrite_pres piperead_copy_pres : keepdb.
Lemma piperead_pres p n : pres ppfd (piperead p n).
Proof. unfold piperead. keep. Qed.
Lemma pipeclose_pres p w : pres ppfd (pipeclose p w).
Proof. unfold pipeclose, upd_pipe. keep. Qed.
#[export] Hint Resolve piperead_pres pipeclose_pres : keepdb.

Lemma pipem_pres {A} p (m : M pps A) : pres ppfd m -> pres kfd (pipem p m).
Proof.
  intros Hm s s' Ha. unfold pipem. destruct (kr_pipes (f_blk s) !! p) as [x|]; [|by intros [[? ?]|[? ?]]]. revert s s' Ha.
  apply (pres_zoom kfd ppfd); [done| |done]. intros t s E. unfold kfd, krfd, lfd, bfd. cbn. by rewrite E.
Qed.
#[export] Hint Extern 3 (pres kfd (pipem _ _)) => apply pipem_pres : keepdb.

Lemma read_pipe_pres p n : pres kfd (read_pipe p n).
Proof. unfold read_pipe. keep. Qed.
Lemma write_pipe_pres p src : pres kfd (write_pipe p src).
Proof. unfold write_pipe, pipewrite. keep. Qed.
Lemma close_pipe_pres {SY : Symbols} p w : pres kfd (close_pipe p w).
Proof. unfold close_pipe. keep. Qed.
#[export] Hint Resolve read_pipe_pres write_pipe_pres close_pipe_pres : keepdb.

(** ** The rest of the quiet kernel *)

Lemma filestat_pres i : pres kfd (filestat i).
Proof. unfold filestat. keep. Qed.
Lemma fileread_pres i addr n : pres kfd (fileread i addr n).
Proof. unfold fileread. keep; apply modfile_pres; done. Qed.
Lemma filewrite_loop_pres i ip src n fuel : forall k, pres kfd (filewrite_loop i ip src n k fuel).
Proof. induction fuel; intros; cbn [filewrite_loop]; cbv zeta; keep; apply modfile_pres; done. Qed.
#[export] Hint Resolve filestat_pres fileread_pres filewrite_loop_pres : keepdb.
Lemma filewrite_pres i addr n : pres kfd (filewrite i addr n).
Proof. unfold filewrite. keep. Qed.
#[export] Hint Resolve filewrite_pres : keepdb.

Section Quiet.
Context {SY : Symbols} {KS : KSymbols}.

Lemma switchuvm_pres p : pres kfd (switchuvm p).
Proof. unfold switchuvm. keep. Qed.
Lemma growproc_pres n : pres kfd (growproc n).
Proof. unfold growproc. keep; try apply switchuvm_pres. by apply modproc_pres. Qed.
Lemma loaduvm_loop_pres pgdir addr ip off sz fuel : forall i, pres kfd (loaduvm_loop pgdir addr ip off sz i fuel).
Proof. induction fuel; intros; cbn [loaduvm_loop]; keep. Qed.
Hint Resolve switchuvm_pres growproc_pres loaduvm_loop_pres : keepdb.
Lemma loaduvm_pres pgdir addr ip off sz : pres kfd (loaduvm pgdir addr ip off sz).
Proof. unfold loaduvm. keep. Qed.
Hint Resolve loaduvm_pres : keepdb.
Lemma load_segments_pres pgdir ip k : forall off sz, pres kfd (load_segments pgdir ip off sz k).
Proof. induction k; intros; cbn [load_segments]; cbv zeta; keep. Qed.
Lemma push_args_pres pgdir argv : forall sp sps, pres kfd (push_args pgdir sp argv sps).
Proof. induction argv; intros; cbn [push_args]; cbv zeta; keep. Qed.
Hint Resolve load_segments_pres push_args_pres : keepdb.
Lemma exec_bad_pres pgdir o : pres kfd (exec_bad pgdir o).
Proof. unfold exec_bad. keep. Qed.
Lemma exec_stack_pres pgdir sz argv : pres kfd (exec_stack pgdir sz argv).
Proof. unfold exec_stack. cbv zeta. keep. Qed.
Lemma exec_commit_pres path pgdir sz sp e : pres kfd (exec_commit path pgdir sz sp e).
Proof. unfold exec_commit. cbv zeta. keep; by apply modproc_pres. Qed.
Hint Resolve exec_bad_pres exec_stack_pres exec_commit_pres : keepdb.
Lemma exec_pres path argv : pres kfd (exec path argv).
Proof. unfold exec. cbv zeta. keep. Qed.
Hint Resolve exec_pres : keepdb.

Lemma fetchint_pres a : pres kfd (fetchint a).
Proof. unfold fetchint. keep. Qed.
Lemma fetchstr_loop_pres ep fuel : forall st acc, pres kfd (fetchstr_loop st ep acc fuel).
Proof. induction fuel; intros; cbn [fetchstr_loop]; keep. Qed.
Hint Resolve fetchint_pres fetchstr_loop_pres : keepdb.
Lemma fetchstr_pres a : pres kfd (fetchstr a).
Proof. unfold fetchstr. keep. Qed.
Lemma argint_pres n : pres kfd (argint n).
Proof. unfold argint. keep. Qed.
Hint Resolve fetchstr_pres argint_pres : keepdb.
Lemma argptr_pres n sz : pres kfd (argptr n sz).
Proof. unfold argptr. keep. Qed.
Lemma argstr_pres n : pres kfd (argstr n).
Proof. unfold argstr. keep. Qed.
Lemma argfd_pres n : pres kfd (argfd n).
Proof. unfold argfd. keep. Qed.
Lemma need_pres {A} (m : M ker (option A)) k : pres kfd m -> (forall a, pres kfd (k a)) -> pres kfd (need m k).
Proof. intros. unfold need. keep; done. Qed.
Lemma fetch_argv_pres u k : forall i, pres kfd (fetch_argv u i k).
Proof. induction k; intros; cbn [fetch_argv]; keep. Qed.
Lemma isdirempty_loop_pres dp fuel : forall off, pres kfd (isdirempty_loop dp off fuel).
Proof. induction fuel; intros; cbn [isdirempty_loop]; keep. Qed.
Lemma fail_op_pres : pres kfd fail_op.
Proof. unfold fail_op. keep. Qed.
Hint Resolve argptr_pres argstr_pres argfd_pres fetch_argv_pres isdirempty_loop_pres fail_op_pres : keepdb.
Lemma isdirempty_pres dp : pres kfd (isdirempty dp).
Proof. unfold isdirempty. keep. Qed.
Lemma link_bad_pres ip : pres kfd (link_bad ip).
Proof. unfold link_bad. keep. Qed.
Lemma unlink_bad_pres ip : pres kfd (unlink_bad ip).
Proof. unfold unlink_bad. keep. Qed.
Lemma create_dots_pres dp ip : pres kfd (create_dots dp ip).
Proof. unfold create_dots. keep. Qed.
Hint Resolve isdirempty_pres link_bad_pres unlink_bad_pres create_dots_pres : keepdb.
Lemma create_pres path ty ma mi : pres kfd (create path ty ma mi).
Proof. unfold create. keep. Qed.
Lemma made_pres o : pres kfd (made o).
Proof. unfold made. keep. Qed.
Hint Resolve create_pres made_pres : keepdb.

Ltac syskeep := repeat first [apply need_pres | keep1].

Lemma sys_kill_pres : pres kfd sys_kill.
Proof. unfold sys_kill. syskeep. Qed.
Lemma sys_getpid_pres : pres kfd sys_getpid.
Proof. unfold sys_getpid. syskeep. Qed.
Lemma sys_sbrk_pres : pres kfd sys_sbrk.
Proof. unfold sys_sbrk. syskeep. Qed.
Lemma sys_sleep_pres : pres kfd sys_sleep.
Proof. unfold sys_sleep, sleep_loop. syskeep. Qed.
Lemma sys_uptime_pres : pres kfd sys_uptime.
Proof. unfold sys_uptime. syskeep. Qed.
Lemma sys_read_pres : pres kfd sys_read.
Proof. unfold sys_read. syskeep. Qed.
Lemma sys_write_pres : pres kfd sys_write.
Proof. unfold sys_write. syskeep. Qed.
Lemma sys_fstat_pres : pres kfd sys_fstat.
Proof. unfold sys_fstat. syskeep. Qed.
Lemma sys_link_pres : pres kfd sys_link.
Proof. unfold sys_link. syskeep. Qed.
Lemma sys_unlink_pres : pres kfd sys_unlink.
Proof. unfold sys_unlink. syskeep. Qed.
Lemma sys_mkdir_pres : pres kfd sys_mkdir.
Proof. unfold sys_mkdir. syskeep. Qed.
Lemma sys_mknod_pres : pres kfd sys_mknod.
Proof. unfold sys_mknod. syskeep. Qed.
Lemma sys_chdir_pres : pres kfd sys_chdir.
Proof. unfold sys_chdir. syskeep. by apply modproc_pres. Qed.
Lemma sys_exec_pres : pres kfd sys_exec.
Proof. unfold sys_exec. syskeep. Qed.
End Quiet.
#[export] Hint Resolve switchuvm_pres growproc_pres loaduvm_loop_pres loaduvm_pres load_segments_pres push_args_pres exec_bad_pres exec_stack_pres exec_commit_pres exec_pres fetchint_pres fetchstr_loop_pres fetchstr_pres argint_pres argptr_pres argstr_pres argfd_pres fetch_argv_pres isdirempty_loop_pres fail_op_pres isdirempty_pres link_bad_pres unlink_bad_pres create_dots_pres create_pres made_pres : keepdb.

(** ** Counting descriptors *)

Definition count (f : nat) (o : list (option nat)) : Z := Z.of_nat (length (filter (.= Some f) o)).
Definition is1 (f : nat) (x : option nat) : Z := if decide (x = Some f) then 1 else 0.

Fixpoint fdcount (f : nat) (t : fdtab) : Z :=
  match t with
  | [] => 0
  | e :: t' => count f e.1 + fdcount f t'
  end.

Lemma count_cons f x o : count f (x :: o) = is1 f x + count f o.
Proof. unfold count, is1. rewrite filter_cons. case_decide; cbn [length]; lia. Qed.

Lemma count_insert f o k x y : o !! k = Some x -> count f (<[k := y]> o) = count f o - is1 f x + is1 f y.
Proof.
  revert k. induction o as [|z o IH]; intros k Hk; [done|]. destruct k as [|k]; cbn in Hk.
  - injection Hk as ->. change (<[0%nat := y]> (x :: o)) with (y :: o). rewrite !count_cons. lia.
  - change (<[S k := y]> (z :: o)) with (z :: <[k := y]> o). rewrite !count_cons, (IH k) by done. lia.
Qed.

Lemma fdcount_insert f t i o b o' b' : t !! i = Some (o, b) ->
  fdcount f (<[i := (o', b')]> t) = fdcount f t - count f o + count f o'.
Proof.
  revert i. induction t as [|e t IH]; intros i Hi; [done|]. destruct i as [|i]; cbn in Hi.
  - injection Hi as ->. cbn. lia.
  - change (<[S i := (o', b')]> (e :: t)) with (e :: <[i := (o', b')]> t). cbn. rewrite (IH i) by done. lia.
Qed.

Lemma count_none f o : Forall (eq None) o -> count f o = 0.
Proof. induction 1 as [|x o <- _ IH]; [done|]. rewrite count_cons, IH. done. Qed.

(** The counts are the descriptors plus the references [d] that a kernel
    path holds; only live slots, and [young], have descriptors. *)
Record fds_ok (d : nat -> Z) (young : option nat) (X : option nat * fdtab * list Z) : Prop := mkfds_ok {
  fo_ref f r : X.2 !! f = Some r -> r = fdcount f X.1.2 + d f;
  fo_in i o b k f : X.1.2 !! i = Some (o, b) -> o !! k = Some (Some f) -> (f < length X.2)%nat;
  fo_len i o b : X.1.2 !! i = Some (o, b) -> length o = NOFILE;
  fo_dead i o : X.1.2 !! i = Some (o, true) -> young <> Some i -> Forall (eq None) o }.

Definition owe (d : nat -> Z) (f : nat) (z : Z) : nat -> Z := fun g => if decide (g = f) then d g + z else d g.
Definition none : nat -> Z := fun _ => 0.

Lemma fds_ext d d' y X : (forall f, (f < length X.2)%nat -> d f = d' f) -> fds_ok d y X -> fds_ok d' y X.
Proof.
  intros E [H1 H2 H3 H4]. split; try done. intros f r Hf. rewrite (H1 f r Hf). f_equal. apply E. by eapply lookup_lt_Some.
Qed.

(** A count changes by [z]. *)
Lemma fds_ref d y c t rs f r z : fds_ok d y (c, t, rs) -> rs !! f = Some r ->
  fds_ok (owe d f z) y (c, t, <[f := r + z]> rs).
Proof.
  intros [H1 H2 H3 H4] Hf. cbn [fst snd] in *. pose proof (lookup_lt_Some _ _ _ Hf) as Hl. split; cbn [fst snd]; try done.
  - intros g r' Hg. unfold owe. case_decide as E.
    + subst g. rewrite list_lookup_insert_eq in Hg by done. injection Hg as <-. rewrite (H1 f r Hf). lia.
    + rewrite list_lookup_insert_ne in Hg by done. by apply H1.
  - intros. rewrite length_insert. by eapply H2.
Qed.

(** Slot [i]'s descriptor [k] goes from [x] to [v]. *)
Definition owe_opt (d : nat -> Z) (x : option nat) (z : Z) : nat -> Z :=
  match x with Some f => owe d f z | None => d end.

Lemma fds_slot d y c t rs i o b k x v b' : fds_ok d y (c, t, rs) -> t !! i = Some (o, b) -> o !! k = Some x ->
  (forall f, v = Some f -> (f < length rs)%nat) -> b' = false \/ y = Some i \/ (b' = b /\ v = None) ->
  fds_ok (owe_opt (owe_opt d x 1) v (-1)) y (c, <[i := (<[k := v]> o, b')]> t, rs).
Proof.
  intros [H1 H2 H3 H4] Hi Hk Hv Hb. cbn [fst snd] in *.
  pose proof (lookup_lt_Some _ _ _ Hi) as Li. pose proof (lookup_lt_Some _ _ _ Hk) as Lk. split; cbn [fst snd].
  - intros f r Hf. rewrite (H1 f r Hf). rewrite (fdcount_insert f t i o b), (count_insert f o k x v) by done.
    assert (E : forall (g : nat -> Z) w z, owe_opt g w z f = g f + z * is1 f w).
    { intros g w z. destruct w as [w|]; cbn; unfold owe, is1; repeat case_decide; simplify_eq; lia. }
    rewrite !E. lia.
  - intros j o' b'' k' f Hj Hf. destruct (decide (j = i)) as [->|Hne].
    + rewrite list_lookup_insert_eq in Hj by done. injection Hj as <- <-. destruct (decide (k' = k)) as [->|].
      * rewrite list_lookup_insert_eq in Hf by done. injection Hf as Hf. by apply Hv.
      * rewrite list_lookup_insert_ne in Hf by done. by eapply H2.
    + rewrite list_lookup_insert_ne in Hj by done. by eapply H2.
  - intros j o' b'' Hj. destruct (decide (j = i)) as [->|Hne].
    + rewrite list_lookup_insert_eq in Hj by done. injection Hj as <- <-. rewrite length_insert. by eapply H3.
    + rewrite list_lookup_insert_ne in Hj by done. by eapply H3.
  - intros j o' Hj Hy. destruct (decide (j = i)) as [->|Hne].
    + rewrite list_lookup_insert_eq in Hj by done. injection Hj as <- Hj. destruct Hb as [?|[?|[? ->]]]; [congruence|done|].
      subst. apply Forall_insert; [by apply (H4 i)|done].
    + rewrite list_lookup_insert_ne in Hj by done. by apply (H4 j).
Qed.

(** Slot [i] changes its life state. *)
Lemma fds_life d y y' c t rs i o b b' : fds_ok d y (c, t, rs) -> t !! i = Some (o, b) ->
  (forall j, j <> i -> y = Some j -> y' = Some j) -> (b' = true -> y' <> Some i -> Forall (eq None) o) ->
  fds_ok d y' (c, <[i := (o, b')]> t, rs).
Proof.
  intros [H1 H2 H3 H4] Hi Hy Hb. cbn [fst snd] in *. pose proof (lookup_lt_Some _ _ _ Hi) as Li. split; cbn [fst snd].
  - intros f r Hf. rewrite (H1 f r Hf), (fdcount_insert f t i o b) by done. lia.
  - intros j o' b'' k f Hj Hf. destruct (decide (j = i)) as [->|Hne].
    + rewrite list_lookup_insert_eq in Hj by done. injection Hj as <- <-. by eapply H2.
    + rewrite list_lookup_insert_ne in Hj by done. by eapply H2.
  - intros j o' b'' Hj. destruct (decide (j = i)) as [->|Hne].
    + rewrite list_lookup_insert_eq in Hj by done. injection Hj as <- <-. by eapply H3.
    + rewrite list_lookup_insert_ne in Hj by done. by eapply H3.
  - intros j o' Hj Hny. destruct (decide (j = i)) as [->|Hne].
    + rewrite list_lookup_insert_eq in Hj by done. injection Hj as <- ->. by apply Hb.
    + rewrite list_lookup_insert_ne in Hj by done. apply (H4 j); [done|]. intros E. by apply Hny, Hy.
Qed.

(** ** The operations on the table and the files *)

Section Balance.
Context {SY : Symbols} {KS : KSymbols}.
Implicit Types (s : ker) (d : nat -> Z) (y : option nat).

(** What the kernel paths that are asleep hold or owe. *)
Context (d0 : nat -> Z).

Definition tab s : fdtab := (kfd s).1.2.
Definition me s : option nat := (kfd s).1.1.
Definition cnt s : list Z := (kfd s).2.

Lemma kfd_eta s : kfd s = (me s, tab s, cnt s).
Proof. unfold me, tab, cnt. by destruct (kfd s) as [[? ?] ?]. Qed.

Lemma tab_lookup s i p : ptable (f_procs s) !! i = Some p -> tab s !! i = Some (slotfd p).
Proof. intros H. change (tab s) with (slotfd <$> ptable (f_procs s)). by rewrite list_lookup_fmap, H. Qed.

(** The current process is live. *)
Definition live s : Prop := exists i o, me s = Some i /\ tab s !! i = Some (o, false).

Lemma live_alive s : live s -> alive (kfd s).
Proof. intros (i & o & Hm & Ht). unfold alive, alive_kfd, alive_in. fold (me s). rewrite Hm. fold (tab s). by rewrite list_lookup_fmap, Ht. Qed.

Lemma live_eq s s' : kfd s' = kfd s -> live s -> live s'.
Proof. intros E. unfold live, me, tab. by rewrite E. Qed.

(** A quiet routine on a live process, returning or asleep. *)
Lemma quiet {A} (m : M ker A) s a s' : pres kfd m -> live s -> m s = Ret a s' -> kfd s' = kfd s /\ live s'.
Proof. intros Hm L R. assert (E : kfd s' = kfd s) by (apply (pres_run kfd m s a); [done|by apply live_alive|done]). split; [done|]. by apply (live_eq s). Qed.
Lemma quiet_slept {A} (m : M ker A) s c s' : pres kfd m -> live s -> m s = Asleep c s' -> kfd s' = kfd s.
Proof. intros Hm L R. apply (pres_slept kfd m s c); [done|by apply live_alive|done]. Qed.

Lemma memm_kfd {A} (m : M kst A) s a s' : memm m s = Ret a s' -> kfd s' = kfd s.
Proof. unfold memm, zoom. destruct (m _); try done. by intros [= _ <-]. Qed.

Lemma memm_slept {A} (m : M kst A) s c s' : memm m s = Asleep c s' -> kfd s' = kfd s.
Proof. unfold memm, zoom. destruct (m _); try done. by intros [= _ <-]. Qed.

Lemma curproc_calm : calm curproc.
Proof. unfold curproc, procm, myproc, getproc. calms. Qed.
Lemma getslot_calm i : calm (getslot i).
Proof. unfold getslot, procm, getproc. calms. Qed.
Lemma modslot_calm i f : calm (modslot i f).
Proof. unfold modslot, procm. calms. Qed.
Lemma modproc_calm f : calm (modproc f).
Proof. unfold modproc, procm, myproc. calms. Qed.
Lemma myproc_calm : calm (procm myproc).
Proof. unfold procm, myproc. calms. Qed.

Lemma curproc_inv s p s' : curproc s = Ret p s' -> s' = s /\ exists i, me s = Some i /\ ptable (f_procs s) !! i = Some p.
Proof.
  unfold curproc, procm, zoom. unfold myproc, getproc, deref, mbind, M_bind.
  destruct (cur (f_procs s)) as [i|] eqn:Ec; [|done]. destruct (ptable (f_procs s) !! i) as [q|] eqn:Eq; [|done].
  intros [= <- <-]. split; [by destruct s as [[[[] ?]] ?]|]. by exists i.
Qed.

Lemma myproc_inv s i s' : procm myproc s = Ret i s' -> s' = s /\ me s = Some i.
Proof.
  unfold procm, zoom, myproc, deref. destruct (cur (f_procs s)) as [j|] eqn:Ec; [|done].
  intros [= <- <-]. split; [by destruct s as [[[[] ?]] ?]|done].
Qed.

Lemma getslot_inv s i p s' : getslot i s = Ret p s' -> s' = s /\ ptable (f_procs s) !! i = Some p.
Proof.
  unfold getslot, procm, zoom, getproc, deref. destruct (ptable (f_procs s) !! i) as [q|] eqn:Eq; [|done].
  intros [= <- <-]. split; [by destruct s as [[[[] ?]] ?]|done].
Qed.

Lemma getfile_inv s i f s' : getfile i s = Ret f s' -> s' = s /\ kr_files (f_blk s) !! i = Some f.
Proof. unfold getfile, deref. destruct (kr_files (f_blk s) !! i) eqn:E; [|done]. by intros [= -> <-]. Qed.

Lemma alter_id {A} (g : A -> A) (l : list A) i x : l !! i = Some x -> alter g i l = <[i := g x]> l.
Proof.
  revert i. induction l as [|z l IH]; intros i; [done|]. destruct i as [|i]; cbn; [by intros [= ->]|].
  intros H. f_equal. by apply IH.
Qed.

Lemma modslot_kfd s i f u s' p : ptable (f_procs s) !! i = Some p -> modslot i f s = Ret u s' ->
  kfd s' = (me s, <[i := slotfd (f p)]> (tab s), cnt s) /\ ptable (f_procs s') !! i = Some (f p).
Proof.
  intros Hp [= _ <-]. split.
  - unfold kfd, krfd, lfd, bfd, pfd, me, tab, cnt. cbn. do 2 f_equal. rewrite (alter_id _ _ _ p) by done. apply list_fmap_insert.
  - cbn. rewrite (alter_id _ _ _ p) by done. apply list_lookup_insert_eq. by eapply lookup_lt_Some.
Qed.

Lemma modproc_kfd s f u s' i p : me s = Some i -> ptable (f_procs s) !! i = Some p -> modproc f s = Ret u s' ->
  kfd s' = (me s, <[i := slotfd (f p)]> (tab s), cnt s) /\ ptable (f_procs s') !! i = Some (f p).
Proof.
  intros Hm Hp H. unfold modproc in H. apply bind_inv in H as (j & s1 & H1 & H). apply myproc_inv in H1 as [-> H1].
  rewrite Hm in H1. injection H1 as <-. by apply (modslot_kfd s i f u s' p).
Qed.

Lemma modfile_kfd s i g u s' x : kr_files (f_blk s) !! i = Some x -> modfile i g s = Ret u s' ->
  kfd s' = (me s, tab s, <[i := f_ref (g x)]> (cnt s)) /\ kr_files (f_blk s') !! i = Some (g x).
Proof.
  intros Hx [= _ <-]. split.
  - unfold kfd, krfd, lfd, bfd, pfd, me, tab, cnt. cbn. f_equal. rewrite (alter_id _ _ _ x) by done. apply list_fmap_insert.
  - cbn. rewrite (alter_id _ _ _ x) by done. apply list_lookup_insert_eq. by eapply lookup_lt_Some.
Qed.

Lemma cnt_lookup s i x : kr_files (f_blk s) !! i = Some x -> cnt s !! i = Some (f_ref x).
Proof. intros H. change (cnt s) with (f_ref <$> kr_files (f_blk s)). by rewrite list_lookup_fmap, H. Qed.

Lemma filealloc_scan_some l k i : filealloc_scan l k = Some i -> exists j x, i = (k + j)%nat /\ l !! j = Some x /\ f_ref x = 0.
Proof.
  revert k. induction l as [|x l IH]; intros k; cbn; [done|]. destruct (Z.eqb_spec (f_ref x) 0).
  - intros [= <-]. exists 0%nat, x. split; [lia|done].
  - intros H. destruct (IH _ H) as (j & z & -> & ? & ?). exists (S j), z. split; [lia|done].
Qed.

Lemma filealloc_ok d y s o s' : fds_ok d y (kfd s) -> filealloc s = Ret o s' ->
  me s' = me s /\ tab s' = tab s /\ length (cnt s') = length (cnt s) /\
  match o with
  | Some i => fds_ok (owe d i 1) y (kfd s') /\ (i < length (cnt s))%nat
  | None => fds_ok d y (kfd s')
  end.
Proof.
  intros HX H. unfold filealloc in H. erewrite bind_ret in H by reflexivity.
  destruct (filealloc_scan (kr_files (f_blk s)) 0) as [i|] eqn:E; [|by injection H as <- <-].
  apply filealloc_scan_some in E as (j & x & -> & Hx & Hr). cbn in H. change (0 + j)%nat with j in H.
  apply bind_inv in H as (u & s1 & H1 & [= <- <-]).
  destruct (modfile_kfd s j _ u s1 x Hx H1) as [E1 _]. pose proof (cnt_lookup s j x Hx) as Hc.
  pose proof (lookup_lt_Some _ _ _ Hc) as Hlt. rewrite kfd_eta in HX.
  unfold me at 1, tab at 1, cnt at 1. rewrite E1. cbn [fst snd]. rewrite length_insert. split_and!; try done.
  cbn [f_ref set_ref]. replace 1 with (f_ref x + 1) at 2 by lia. by apply fds_ref.
Qed.

Lemma filedup_ok d y s f u s' : fds_ok d y (kfd s) -> filedup f s = Ret u s' ->
  fds_ok (owe d f 1) y (kfd s') /\ me s' = me s /\ tab s' = tab s /\ length (cnt s') = length (cnt s).
Proof.
  intros HX H. unfold filedup in H. apply bind_inv in H as (x & s1 & H1 & H). apply getfile_inv in H1 as [-> Hx].
  destruct (_ <? _); [done|]. apply bind_inv in H as (w & s1 & H1 & [= _ <-]).
  destruct (modfile_kfd s f _ w s1 x Hx H1) as [E1 _]. pose proof (cnt_lookup s f x Hx) as Hc. rewrite kfd_eta in HX.
  unfold me at 1, tab at 1, cnt at 1. rewrite E1. cbn [fst snd]. rewrite length_insert. split_and!; try done.
  by apply fds_ref.
Qed.

(** The count goes down first; what is left to do is quiet. *)
Lemma fileclose_run d y s f : fds_ok d y (kfd s) -> (exists msg, fileclose f s = Panic msg) \/ fileclose f s = Fault \/
  exists s1 (m : M ker unit), fileclose f s = m s1 /\ pres kfd m /\
    fds_ok (owe d f (-1)) y (kfd s1) /\ me s1 = me s /\ tab s1 = tab s /\ length (cnt s1) = length (cnt s).
Proof.
  intros HX. unfold fileclose. destruct (kr_files (f_blk s) !! f) as [x|] eqn:Hx.
  2: { right; left. unfold mbind, M_bind, getfile, deref. by rewrite Hx. }
  erewrite bind_ret by (unfold getfile, deref; by rewrite Hx).
  destruct (Z.ltb_spec (f_ref x) 1); [left; by eexists|]. right; right.
  destruct (modfile f (fun f => set_ref (f_ref f - 1) f) s) as [w s1|?|? ?| |] eqn:H1; try done. erewrite bind_ret by exact H1.
  destruct (modfile_kfd s f _ w s1 x Hx H1) as [E1 Hx1]. pose proof (cnt_lookup s f x Hx) as Hc.
  rewrite kfd_eta in HX. pose proof (fds_ref d y _ _ _ f (f_ref x) (-1) HX Hc) as HY.
  assert (R1 : fds_ok (owe d f (-1)) y (kfd s1) /\ me s1 = me s /\ tab s1 = tab s /\ length (cnt s1) = length (cnt s)).
  { unfold me at 1, tab at 1, cnt at 1. rewrite E1. cbn [fst snd f_ref set_ref]. rewrite length_insert. by split_and!. }
  erewrite bind_ret by (unfold getfile, deref; by rewrite Hx1). cbn [f_ref set_ref]. destruct (Z.ltb_spec 0 (f_ref x - 1)); [exists s1, (mret tt); split; [done|]; split; [keep|done]|].
  cbv zeta. destruct (modfile f (fun f => set_ftype FD_NONE (set_ref 0 f)) s1) as [w2 s3|?|? ?| |] eqn:H3; try done. erewrite bind_ret by exact H3.
  destruct (modfile_kfd s1 f _ w2 s3 _ Hx1 H3) as [E3 _]. cbn [f_ref set_ref set_ftype] in E3.
  assert (E4 : kfd s3 = kfd s1).
  { rewrite E3, (kfd_eta s1). f_equal. apply list_insert_id. rewrite (cnt_lookup s1 f _ Hx1). cbn. f_equal. lia. }
  exists s3, (match f_type x with
    | FD_PIPE => close_pipe (f_pipe x) (f_writable x)
    | FD_INODE => File.begin_op ;; ip ← deref (fun _ => f_ip x); iput ip ;; File.end_op
    | FD_NONE => mret tt end). split; [done|]. split; [keep|]. unfold me, tab, cnt in *. rewrite E4. exact R1.
Qed.

Lemma fileclose_ok d y s f u s' : live s -> fds_ok d y (kfd s) -> fileclose f s = Ret u s' ->
  fds_ok (owe d f (-1)) y (kfd s') /\ me s' = me s /\ tab s' = tab s /\ length (cnt s') = length (cnt s).
Proof.
  intros L HX H. destruct (fileclose_run d y s f HX) as [(? & E)|[E|(s1 & m & E & Hm & X1 & E1 & E2 & E3)]]; rewrite E in H; [done..|].
  apply quiet in H as [K _]; [|done|unfold live in *; by rewrite E1, E2]. unfold me, tab, cnt in *. by rewrite K.
Qed.

Lemma fileclose_slept d y s f c s' : live s -> fds_ok d y (kfd s) -> fileclose f s = Asleep c s' -> fds_ok (owe d f (-1)) y (kfd s').
Proof.
  intros L HX H. destruct (fileclose_run d y s f HX) as [(? & E)|[E|(s1 & m & E & Hm & X1 & E1 & E2 & E3)]]; rewrite E in H; [done..|].
  apply quiet_slept in H as ->; [done|done|]. unfold live in *. by rewrite E1, E2.
Qed.

(** A descriptor of the current process is set. *)
Lemma set_fd_ok d y s fd v x u s' i o b : fds_ok d y (kfd s) -> me s = Some i -> tab s !! i = Some (o, b) -> o !! fd = Some x ->
  (forall f, v = Some f -> (f < length (cnt s))%nat) -> b = false \/ y = Some i \/ v = None -> set_fd fd v s = Ret u s' ->
  fds_ok (owe_opt (owe_opt d x 1) v (-1)) y (kfd s') /\ me s' = me s /\ tab s' = <[i := (<[fd := v]> o, b)]> (tab s) /\
  cnt s' = cnt s.
Proof.
  intros HX Hm Ht Hx Hv Hb H.
  assert (exists p, ptable (f_procs s) !! i = Some p /\ slotfd p = (o, b)) as (p & Hp & Ep).
  { change (tab s) with (slotfd <$> ptable (f_procs s)) in Ht. apply list_lookup_fmap_Some in Ht as (p & E & Hp). by exists p. }
  destruct (modproc_kfd s _ u s' i p Hm Hp H) as [E _]. unfold slotfd in Ep. injection Ep as E1 E2.
  unfold slotfd, dead in E. cbn [p_ofile p_state set_ofile] in E. fold (dead p) in E. rewrite E1, E2 in E.
  unfold me at 1, tab at 1, cnt at 1. rewrite E. cbn [fst snd]. split_and!; try done.
  rewrite kfd_eta in HX. eapply fds_slot; try done. tauto.
Qed.

Lemma live_slot s i o b : live s -> me s = Some i -> tab s !! i = Some (o, b) -> b = false.
Proof. intros (j & o' & Hm & Ht) Hi Hs. congruence. Qed.

Lemma fdalloc_scan_some l k fd : fdalloc_scan l k = Some fd -> exists j, fd = (k + j)%nat /\ l !! j = Some None.
Proof.
  revert k. induction l as [|[x|] l IH]; intros k; cbn; [done| |].
  - intros H. destruct (IH _ H) as (j & -> & ?). exists (S j). split; [lia|done].
  - intros [= <-]. exists 0%nat. split; [lia|done].
Qed.

Lemma fdalloc_ok d y s f r s' : fds_ok d y (kfd s) -> live s -> (f < length (cnt s))%nat -> fdalloc f s = Ret r s' ->
  match r with
  | None => kfd s' = kfd s
  | Some fd => fds_ok (owe d f (-1)) y (kfd s') /\ live s' /\ cnt s' = cnt s /\
      exists i o b, me s' = Some i /\ tab s' !! i = Some (o, b) /\ o !! fd = Some (Some f)
  end.
Proof.
  intros HX Hl Hf H. unfold fdalloc in H. apply bind_inv in H as (p & s1 & H1 & H).
  apply curproc_inv in H1 as (-> & i & Hm & Hp). pose proof (tab_lookup s i p Hp) as Ht.
  destruct (fdalloc_scan (p_ofile p) 0) as [fd|] eqn:E; [|by injection H as <- <-].
  apply fdalloc_scan_some in E as (j & -> & Hj). change (0 + j)%nat with j in H.
  apply bind_inv in H as (u & s1 & H1 & [= <- <-]).
  pose proof (live_slot s i _ _ Hl Hm Ht) as Hd.
  destruct (set_fd_ok d y s j (Some f) None u s1 i (p_ofile p) (dead p) HX Hm Ht Hj) as (R1 & R2 & R3 & R4);
    [by intros ? [= <-]|by left|done|].
  assert (Ht' : tab s1 !! i = Some (<[j := Some f]> (p_ofile p), dead p)).
  { rewrite R3. apply list_lookup_insert_eq. by eapply lookup_lt_Some. }
  split_and!; try done.
  - exists i, (<[j := Some f]> (p_ofile p)). rewrite R2, Hm, Ht', Hd. done.
  - exists i, (<[j := Some f]> (p_ofile p)), (dead p). split_and!; [by rewrite R2|done|].
    apply list_lookup_insert_eq. by eapply lookup_lt_Some.
Qed.

Lemma argfd_inv n s fd f s' : live s -> argfd n s = Ret (Some (fd, f)) s' ->
  kfd s' = kfd s /\ exists i o b, me s = Some i /\ tab s !! i = Some (o, b) /\ (fd < 16)%nat /\ o !!! fd = Some f.
Proof.
  intros L H. destruct (quiet _ _ _ _ (argfd_pres n) L H) as [Hk _]. split; [done|].
  unfold argfd in H. apply bind_inv in H as (o & s1 & H1 & H). apply (quiet _ _ _ _ (argint_pres n) L) in H1 as [H1 _].
  destruct o as [z|]; [|done]. apply bind_inv in H as (p & s2 & H2 & H). apply curproc_inv in H2 as (-> & i & Hm & Hp).
  destruct ((z <? 0) || (Z.of_nat NOFILE <=? z)) eqn:Ez; [done|]. zbool.
  destruct (p_ofile p !!! Z.to_nat z) as [g|] eqn:Eg; [|done]. injection H as <- <- <-.
  exists i, (p_ofile p), (dead p). apply tab_lookup in Hp. unfold me, tab in *. rewrite H1 in *.
  split_and!; try done. change (Z.of_nat NOFILE) with 16 in *. lia.
Qed.

(** The descriptor argfd found is an entry of the slot. *)
Lemma fd_entry d y s i o b fd (f : nat) : fds_ok d y (kfd s) -> tab s !! i = Some (o, b) -> (fd < 16)%nat -> o !!! fd = Some f ->
  o !! fd = Some (Some f) /\ (f < length (cnt s))%nat.
Proof.
  intros HX Ht Hfd Hf. pose proof (fo_len _ _ _ HX i o b Ht) as Hl. unfold NOFILE in Hl.
  assert (E : o !! fd = Some (Some f)) by (rewrite <- Hf; apply list_lookup_lookup_total_lt; lia).
  split; [done|]. by eapply (fo_in _ _ _ HX i o b fd f).
Qed.

Definition good s : Prop := fds_ok d0 None (kfd s) /\ live s.

(** The counts are right but for one file, which is off by one. *)
Definition off (X : option nat * fdtab * list Z) : Prop := exists f z, -1 <= z <= 1 /\ fds_ok (owe d0 f z) None X.

Lemma off_ok d f z X : -1 <= z <= 1 -> (forall g, d g = owe d0 f z g) -> fds_ok d None X -> off X.
Proof. intros Hz E HX. exists f, z. split; [done|]. eapply fds_ext; [|exact HX]. intros g _. apply E. Qed.
Lemma off_none X : fds_ok d0 None X -> off X.
Proof. apply (off_ok d0 0%nat 0); [lia|]. intros g. unfold owe. case_decide; lia. Qed.

(** A call that keeps the balance, and one that leaves it off by no more when
    it goes to sleep. *)
Definition safe {A} (m : M ker A) : Prop := forall s r s', good s -> m s = Ret r s' -> fds_ok d0 None (kfd s').
Definition rests {A} (m : M ker A) : Prop := forall s c s', good s -> m s = Asleep c s' -> off (kfd s').

Lemma good_eq s s' : kfd s' = kfd s -> good s -> good s'.
Proof. intros E [H1 H2]. split; [by rewrite E|]. unfold live, me, tab in *. by rewrite E. Qed.

Lemma pres_good {A} (m : M ker A) s r s' : pres kfd m -> good s -> m s = Ret r s' -> good s'.
Proof. intros H1 Hg H. apply (good_eq s); [|done]. by destruct (quiet m s r s' H1 (proj2 Hg) H). Qed.

Lemma safe_pres {A} (m : M ker A) : pres kfd m -> safe m.
Proof. intros Hm s r s' Hg H. by apply (pres_good m s r s' Hm). Qed.
Lemma rests_pres {A} (m : M ker A) : pres kfd m -> rests m.
Proof. intros Hm s c s' [X L] H. apply off_none. by rewrite (quiet_slept m s c s' Hm L H). Qed.
Lemma rests_calm {A} (m : M ker A) : calm m -> rests m.
Proof. intros Hm s c s' _ H. by destruct (Hm s c s'). Qed.

Lemma safe_bind {A B} (m : M ker A) (k : A -> M ker B) : pres kfd m -> (forall a, safe (k a)) -> safe (mbind k m).
Proof. intros Hm Hk s r s' Hg H. apply bind_inv in H as (a & s1 & H1 & H2). apply (Hk a s1 r s'); [|done]. by apply (pres_good m s a). Qed.
Lemma rests_bind {A B} (m : M ker A) (k : A -> M ker B) : pres kfd m -> (forall a, rests (k a)) -> rests (mbind k m).
Proof.
  intros Hm Hk s c s' Hg [H|(a & s1 & H1 & H)]%bind_slept; [by apply (rests_pres m Hm s c)|]. apply (Hk a s1 c s'); [|done]. by apply (pres_good m s a).
Qed.

Lemma safe_need {A} (m : M ker (option A)) k : pres kfd m -> (forall a, safe (k a)) -> safe (need m k).
Proof. intros Hm Hk. apply safe_bind; [done|]. intros [a|]; [done|]. apply safe_pres. keep. Qed.
Lemma rests_need {A} (m : M ker (option A)) k : pres kfd m -> (forall a, rests (k a)) -> rests (need m k).
Proof. intros Hm Hk. apply rests_bind; [done|]. intros [a|]; [done|]. apply rests_pres. keep. Qed.

Lemma sys_dup_good : safe sys_dup.
Proof.
  intros s r s' [HX Hl] H. unfold sys_dup, need in H. apply bind_inv in H as ([[fd f]|] & s1 & H1 & H); cbn in H.
  2: { injection H as _ <-. by destruct (quiet _ _ _ _ (argfd_pres 0) Hl H1) as [-> _]. }
  apply argfd_inv in H1 as (Hk & i & o & b & Hm & Ht & Hfd & Hf); [|done].
  destruct (fd_entry d0 None s i o b fd f HX Ht Hfd Hf) as [_ Hlt].
  assert (HX1 : fds_ok d0 None (kfd s1)) by (by rewrite Hk).
  pose proof (live_eq _ _ Hk Hl) as Hl1. apply bind_inv in H as (ofd & s2 & H2 & H).
  pose proof (fdalloc_ok d0 None s1 f ofd s2 HX1 Hl1) as HF. unfold cnt in HF, Hlt. rewrite Hk in HF. specialize (HF Hlt H2).
  destruct ofd as [fd'|]; [|injection H as _ <-; by rewrite HF].
  destruct HF as (HX2 & _ & _ & _). apply bind_inv in H as (u & s3 & H3 & [= _ <-]).
  destruct (filedup_ok _ _ _ _ _ _ HX2 H3) as [HX3 _]. eapply fds_ext; [|exact HX3].
  intros g _. unfold owe. case_decide; lia.
Qed.
Lemma fdalloc_calm f : calm (fdalloc f).
Proof. unfold fdalloc, curproc, set_fd, modproc, procm, myproc, getproc. calms. Qed.
Lemma filedup_calm f : calm (filedup f).
Proof. unfold filedup, getfile, modfile. calms. Qed.
Lemma sys_dup_rests : rests sys_dup.
Proof.
  unfold sys_dup. apply rests_need; [keep|intros [fd f]]. apply rests_calm. pose proof (fdalloc_calm f). pose proof (filedup_calm f). unfold need. calms.
Qed.

Lemma set_fd_calm fd v : calm (set_fd fd v).
Proof. unfold set_fd, modproc, procm, myproc. calms. Qed.

Lemma sys_close_leaves s s' : good s -> leaves (sys_close s) s' -> fds_ok d0 None (kfd s').
Proof.
  intros [HX Hl] H. unfold sys_close, need in H. apply leaves_bind in H as [([[fd f]|] & s1 & H1 & H)|(c & H)]; cbn in H.
  3: by rewrite (quiet_slept _ _ _ _ (argfd_pres 0) Hl H).
  2: { destruct H as [[? [= _ <-]]|[? [=]]]. by destruct (quiet _ _ _ _ (argfd_pres 0) Hl H1) as [-> _]. }
  apply argfd_inv in H1 as (Hk & i & o & b & Hm & Ht & Hfd & Hf); [|done].
  destruct (fd_entry d0 None s i o b fd f HX Ht Hfd Hf) as [He _].
  assert (HX1 : fds_ok d0 None (kfd s1)) by (by rewrite Hk). pose proof (live_eq _ _ Hk Hl) as Hl1.
  apply leaves_bind in H as [(u & s2 & H2 & H)|(c & H2)]; [|by destruct (set_fd_calm _ _ _ _ _ H2)].
  destruct (set_fd_ok d0 None s1 fd None (Some f) u s2 i o b HX1) as (HX2 & M2 & T2 & _);
    [unfold me in *; by rewrite Hk|unfold tab in *; by rewrite Hk|done|done|by right; right|done|].
  assert (Hl2 : live s2).
  { assert (Hm1 : me s1 = Some i) by (unfold me in *; by rewrite Hk). assert (Ht1 : tab s1 !! i = Some (o, b)) by (unfold tab in *; by rewrite Hk).
    exists i, (<[fd := None]> o). rewrite M2, T2, <- (live_slot s1 i o b) by done. split; [done|]. apply list_lookup_insert_eq. by eapply lookup_lt_Some. }
  cbn in HX2. assert (HX3 : fds_ok (owe (owe d0 f 1) f (-1)) None (kfd s')).
  { apply leaves_bind in H as [(u' & s3 & H3 & H)|(c & H3)].
    - destruct H as [[? [= _ <-]]|[? [=]]]. by destruct (fileclose_ok _ _ _ _ _ _ Hl2 HX2 H3) as [HX3 _].
    - by apply (fileclose_slept _ _ s2 f c). }
  eapply fds_ext; [|exact HX3]. intros g _. unfold owe. case_decide; lia.
Qed.
Lemma sys_close_good : safe sys_close.
Proof. intros s r s' Hg H. apply (sys_close_leaves s); [done|]. left. by exists r. Qed.
Lemma sys_close_rests : rests sys_close.
Proof. intros s c s' Hg H. apply off_none, (sys_close_leaves s); [done|]. right. by exists c. Qed.

(** After the balance is restored, the rest is quiet. *)
Lemma finish d s A (m : M ker A) s' : live s -> fds_ok d None (kfd s) -> (forall f, d f = d0 f) ->
  pres kfd m -> leaves (m s) s' -> fds_ok d0 None (kfd s').
Proof. intros L HX Hd Hm H. rewrite (Hm s s' (live_alive s L) H). eapply fds_ext; [|exact HX]. intros g _. apply Hd. Qed.

Lemma filealloc_calm : calm filealloc.
Proof. unfold filealloc, modfile. calms. Qed.

Lemma open_file_leaves ip om s s' : good s -> leaves (open_file ip om s) s' -> fds_ok d0 None (kfd s').
Proof.
  intros [HX Hl] H. unfold open_file in H. apply leaves_bind in H as [(o & s1 & H1 & H)|(c & H)]; [|by destruct (filealloc_calm _ _ _ H)].
  destruct (filealloc_ok d0 None s o s1 HX H1) as (Em & Et & El & HX1).
  assert (Hl1 : live s1) by (unfold live in *; by rewrite Em, Et). destruct o as [f|].
  2: { eapply (finish d0 s1); [done|done|done| |exact H]. keep. }
  destruct HX1 as [HX1 Hf]. apply leaves_bind in H as [(ofd & s2 & H2 & H)|(c & H)]; [|by destruct (fdalloc_calm _ _ _ _ H)].
  pose proof (fdalloc_ok _ None s1 f ofd s2 HX1 Hl1 ltac:(lia) H2) as HF. destruct ofd as [fd|].
  - destruct HF as (HX2 & Hl2 & _). eapply (finish _ s2); [done|done| | |exact H].
    + intros g. unfold owe. case_decide; lia.
    + keep. by apply modfile_pres.
  - rewrite <- HF in HX1. pose proof (live_eq _ _ HF Hl1) as Hl2. apply leaves_bind in H as [(u & s3 & H3 & H)|(c & H3)].
    + destruct (fileclose_ok _ _ _ _ _ _ Hl2 HX1 H3) as (HX3 & E1 & E2 & _). eapply (finish _ s3); [|done| | |exact H].
      * unfold live in *. by rewrite E1, E2.
      * intros g. unfold owe. case_decide; lia.
      * keep.
    + eapply fds_ext; [|exact (fileclose_slept _ _ s2 f c s' Hl2 HX1 H3)]. intros g _. unfold owe. case_decide; lia.
Qed.
Lemma open_file_safe ip om : safe (open_file ip om).
Proof. intros s r s' Hg H. apply (open_file_leaves ip om s); [done|]. left. by exists r. Qed.
Lemma open_file_rests ip om : rests (open_file ip om).
Proof. intros s c s' Hg H. apply off_none, (open_file_leaves ip om s); [done|]. right. by exists c. Qed.

Lemma sys_open_safe : safe sys_open.
Proof.
  unfold sys_open. apply safe_need; [keep|intros path]. apply safe_need; [keep|intros om].
  apply safe_bind; [keep|intros _]. destruct (has om O_CREATE).
  - apply safe_bind; [keep|intros [ip|]; [apply open_file_safe|apply safe_pres; keep]].
  - apply safe_bind; [keep|intros [ip|]; [|apply safe_pres; keep]]. apply safe_bind; [keep|intros _].
    apply safe_bind; [keep|intros x]. destruct (_ && _); [apply safe_pres; keep|apply open_file_safe].
Qed.
Lemma sys_open_rests : rests sys_open.
Proof.
  unfold sys_open. apply rests_need; [keep|intros path]. apply rests_need; [keep|intros om].
  apply rests_bind; [keep|intros _]. destruct (has om O_CREATE).
  - apply rests_bind; [keep|intros [ip|]; [apply open_file_rests|apply rests_pres; keep]].
  - apply rests_bind; [keep|intros [ip|]; [|apply rests_pres; keep]]. apply rests_bind; [keep|intros _].
    apply rests_bind; [keep|intros x]. destruct (_ && _); [apply rests_pres; keep|apply open_file_rests].
Qed.

(** What pipealloc leaves behind when it fails: each reference given back in
    turn. *)
Lemma close_opt_ok x d s u s' : live s -> fds_ok d None (kfd s) ->
  (match x with Some i => fileclose i | None => mret tt end) s = Ret u s' ->
  live s' /\ length (cnt s') = length (cnt s) /\ fds_ok (owe_opt d x (-1)) None (kfd s').
Proof.
  destruct x as [x|]; intros L X H; [|by injection H as _ <-].
  destruct (fileclose_ok _ _ _ _ _ _ L X H) as (X' & E1 & E2 & E3). unfold live in *. by rewrite E1, E2, E3.
Qed.
Lemma close_opt_slept x d s c s' : live s -> fds_ok d None (kfd s) ->
  (match x with Some i => fileclose i | None => mret tt end) s = Asleep c s' -> fds_ok (owe_opt d x (-1)) None (kfd s').
Proof. destruct x as [x|]; intros L X H; [|done]. by apply (fileclose_slept d None s x c). Qed.

(** Both references given back, as pipealloc and sys_pipe do when they fail. *)
Definition close_two {B} (x y : option nat) (v : B) : M ker B :=
  (match x with Some i => fileclose i | None => mret tt end) ;; (match y with Some i => fileclose i | None => mret tt end) ;; mret v.

Lemma close_two_ok {B} s d x y (v r : B) s' : live s -> fds_ok d None (kfd s) ->
  (forall g, owe_opt (owe_opt d x (-1)) y (-1) g = d0 g) -> close_two x y v s = Ret r s' ->
  r = v /\ live s' /\ length (cnt s') = length (cnt s) /\ fds_ok d0 None (kfd s').
Proof.
  intros L X Hz H. unfold close_two in H.
  apply bind_inv in H as (u & s1 & H1 & H). apply bind_inv in H as (u' & s2 & H2 & [= <- <-]).
  destruct (close_opt_ok _ _ _ _ _ L X H1) as (L1 & C1 & X1). destruct (close_opt_ok _ _ _ _ _ L1 X1 H2) as (L2 & C2 & X2).
  split_and!; try done; [lia|]. eapply fds_ext; [|exact X2]. intros g _. by rewrite Hz.
Qed.
Lemma close_two_slept {B} s d x y (v : B) c s' : live s -> fds_ok d None (kfd s) ->
  (forall g, owe_opt (owe_opt d x (-1)) y (-1) g = d0 g) -> close_two x y v s = Asleep c s' -> off (kfd s').
Proof.
  intros L X Hz H. unfold close_two in H. apply bind_slept in H as [H|(u & s1 & H1 & H)].
  - pose proof (close_opt_slept _ _ _ _ _ L X H) as X1. destruct y as [y|]; cbn in Hz.
    + apply (off_ok _ y 1 _ ltac:(lia)) with (2 := X1). intros g. specialize (Hz g). unfold owe in *. case_decide; lia.
    + apply off_none. eapply fds_ext; [|exact X1]. intros g _. apply Hz.
  - destruct (close_opt_ok _ _ _ _ _ L X H1) as (L1 & C1 & X1). apply bind_slept in H as [H|(u' & s2 & _ & H)]; [|done].
    apply off_none. eapply fds_ext; [|by apply (close_opt_slept _ _ _ _ _ L1 X1 H)]. intros g _. apply Hz.
Qed.

Lemma modfile_quiet i f s u s' : (forall x, f_ref (f x) = f_ref x) -> modfile i f s = Ret u s' -> kfd s' = kfd s.
Proof. intros H [= _ <-]. unfold kfd, krfd. cbn. by rewrite fmap_alter_same. Qed.
Lemma kalloc_calm : calm (memm kalloc).
Proof. unfold memm, kalloc. calms. Qed.

(** pipealloc up to kalloc. *)
Lemma pipealloc_start s a b s1 s2 : good s -> filealloc s = Ret (Some a) s1 -> filealloc s1 = Ret (Some b) s2 ->
  live s2 /\ length (cnt s2) = length (cnt s) /\ fds_ok (owe (owe d0 a 1) b 1) None (kfd s2) /\ (a < length (cnt s))%nat /\ (b < length (cnt s))%nat.
Proof.
  intros [HX Hl] H1 H2. destruct (filealloc_ok d0 None s _ s1 HX H1) as (Em1 & Et1 & El1 & HX1 & Ha).
  destruct (filealloc_ok _ None s1 _ s2 HX1 H2) as (Em2 & Et2 & El2 & HX2 & Hb). unfold live in *. rewrite Em2, Et2, Em1, Et1. split_and!; try done; lia.
Qed.

(** pipealloc returns two references, or none. *)
Lemma pipealloc_ok s o s' : good s -> pipealloc s = Ret o s' ->
  live s' /\ length (cnt s') = length (cnt s) /\
  match o with
  | Some (a, b) => fds_ok (owe (owe d0 a 1) b 1) None (kfd s') /\ (a < length (cnt s))%nat /\ (b < length (cnt s))%nat
  | None => fds_ok d0 None (kfd s')
  end.
Proof.
  intros Hg H. destruct (Hg) as [HX Hl]. unfold pipealloc in H. apply bind_inv in H as (o0 & s1 & H1 & H).
  destruct (filealloc_ok d0 None s o0 s1 HX H1) as (Em1 & Et1 & El1 & HX1).
  assert (Hl1 : live s1) by (unfold live in *; by rewrite Em1, Et1). destruct o0 as [a|]; [|by injection H as <- <-].
  destruct HX1 as [HX1 Ha]. apply bind_inv in H as (o1 & s2 & H2 & H). destruct o1 as [b|].
  2: { destruct (filealloc_ok _ None s1 None s2 HX1 H2) as (Em2 & Et2 & El2 & HX2).
       assert (Hl2 : live s2) by (unfold live in *; by rewrite Em2, Et2).
       destruct (close_two_ok s2 _ (Some a) None None o s' Hl2 HX2) as (-> & ? & ? & ?); try done.
       - intros g. cbn. unfold owe. case_decide; lia.
       - split_and!; try done. lia. }
  destruct (pipealloc_start s a b s1 s2 Hg H1 H2) as (Hl2 & C2 & HX2 & _ & Hb). apply bind_inv in H as (p & s3 & H3 & H).
  apply (memm_kfd kalloc) in H3. pose proof (live_eq _ _ H3 Hl2) as Hl3.
  assert (C3 : length (cnt s3) = length (cnt s)) by (unfold cnt in *; rewrite H3; lia). rewrite <- H3 in HX2.
  destruct (p =? 0).
  { destruct (close_two_ok s3 _ (Some a) (Some b) None o s' Hl3 HX2) as (-> & ? & ? & ?); try done.
    - intros g. cbn. unfold owe. repeat case_decide; lia.
    - split_and!; try done. lia. }
  assert (Hq : kfd s' = kfd s3 /\ o = Some (a, b)).
  { apply bind_inv in H as (m & s4 & [= <- <-] & H). apply bind_inv in H as (u & s5 & H5 & H).
    apply bind_inv in H as (u1 & s6 & H6 & H). apply bind_inv in H as (u2 & s7 & H7 & [= <- <-]).
    injection H5 as _ <-. apply modfile_quiet in H6; [|done]. apply modfile_quiet in H7; [|done].
    split; [|done]. by rewrite H7, H6. }
  destruct Hq as [Hq ->]. unfold live, me, tab, cnt in *. rewrite Hq. split_and!; try done; lia.
Qed.

Lemma pipealloc_rests : rests pipealloc.
Proof.
  intros s c s' Hg H. destruct (Hg) as [HX Hl]. unfold pipealloc in H. apply bind_slept in H as [H|(o0 & s1 & H1 & H)]; [by destruct (filealloc_calm _ _ _ H)|].
  destruct o0 as [a|]; [|done]. apply bind_slept in H as [H|(o1 & s2 & H2 & H)]; [by destruct (filealloc_calm _ _ _ H)|]. destruct o1 as [b|].
  2: { destruct (filealloc_ok d0 None s _ s1 HX H1) as (Em1 & Et1 & El1 & HX1 & Ha). destruct (filealloc_ok _ None s1 None s2 HX1 H2) as (Em2 & Et2 & El2 & HX2).
       apply (close_two_slept s2 (owe d0 a 1) (Some a) None (None : option (nat * nat)) c s'); try done; [unfold live in *; by rewrite Em2, Et2, Em1, Et1|]. intros g. cbn. unfold owe. case_decide; lia. }
  destruct (pipealloc_start s a b s1 s2 Hg H1 H2) as (Hl2 & C2 & HX2 & _ & Hb). apply bind_slept in H as [H|(p & s3 & H3 & H)]; [by destruct (kalloc_calm s2 c s')|].
  apply (memm_kfd kalloc) in H3. pose proof (live_eq _ _ H3 Hl2) as Hl3. rewrite <- H3 in HX2. destruct (p =? 0).
  - apply (close_two_slept s3 _ (Some a) (Some b) (None : option (nat * nat)) c s' Hl3 HX2); [|done]. intros g. cbn. unfold owe. repeat case_decide; lia.
  - exfalso. revert H. apply (calm_bind); [calms|]. intros m. unfold modfile. calms.
Qed.

(** The descriptor of the read end taken back. *)
Lemma pipe_undo d s s' fd a i o b : kfd s' = kfd s -> fds_ok d None (kfd s) -> live s -> me s = Some i -> tab s !! i = Some (o, b) -> o !! fd = Some (Some a) ->
  forall u s2, set_fd fd None s' = Ret u s2 -> live s2 /\ fds_ok (owe d a 1) None (kfd s2).
Proof.
  intros Hk X L Hm Ht Hf u s2 H. pose proof (live_eq _ _ Hk L) as L'. assert (Hm' : me s' = Some i) by (unfold me in *; by rewrite Hk).
  assert (Ht' : tab s' !! i = Some (o, b)) by (unfold tab in *; by rewrite Hk). rewrite <- Hk in X.
  destruct (set_fd_ok d None s' fd None (Some a) u s2 i o b X Hm' Ht' Hf) as (X2 & M2 & T2 & _); [done|by right; right|done|].
  split; [|exact X2]. exists i, (<[fd := None]> o). rewrite M2, T2, <- (live_slot s' i o b) by done. split; [done|]. apply list_lookup_insert_eq. by eapply lookup_lt_Some.
Qed.

(** sys_pipe with the two references: the descriptors are set, or both
    references are given back. *)
Lemma pipe_fds_run s a b fd s' : live s -> fds_ok (owe (owe d0 a 1) b 1) None (kfd s) -> (a < length (cnt s))%nat -> (b < length (cnt s))%nat ->
  let m := o0 ← fdalloc a;
    match o0 with
    | None => fileclose a ;; fileclose b ;; mret (-1)
    | Some fd0 =>
      o1 ← fdalloc b;
      match o1 with
      | None => set_fd fd0 None ;; fileclose a ;; fileclose b ;; mret (-1)
      | Some fd1 => u_store fd (word (Z.of_nat fd0)) ;; u_store (fd + 4) (word (Z.of_nat fd1)) ;; mret 0
      end
    end in
  leaves (m s) s' -> fds_ok d0 None (kfd s') \/
  exists s1 d, live s1 /\ fds_ok d None (kfd s1) /\ (forall g, owe (owe d a (-1)) b (-1) g = d0 g) /\ m s = close_two (Some a) (Some b) (-1) s1.
Proof.
  intros L1 X1 Ha Hb m H. unfold m in *. apply leaves_bind in H as [(o0 & s2 & H2 & H)|(c & H)]; [|by destruct (fdalloc_calm _ _ _ _ H)].
  rewrite (bind_ret _ _ _ _ _ H2). pose proof (fdalloc_ok _ None s a o0 s2 X1 L1 Ha H2) as HF. destruct o0 as [fd0|].
  2: { right. rewrite <- HF in X1. exists s2, (owe (owe d0 a 1) b 1). split_and!; [by apply (live_eq s)|done| |done]. intros g. unfold owe. repeat case_decide; lia. }
  destruct HF as (X2 & L2 & C2 & i & oo & bb & Hm2 & Ht2 & Hf2). apply leaves_bind in H as [(o1 & s3 & H3 & H)|(c & H)]; [|by destruct (fdalloc_calm _ _ _ _ H)].
  rewrite (bind_ret _ _ _ _ _ H3). rewrite <- C2 in Hb. pose proof (fdalloc_ok _ None s2 b o1 s3 X2 L2 Hb H3) as HF. destruct o1 as [fd1|].
  - left. destruct HF as (X3 & L3 & _). eapply (finish _ s3); [done|done| | |exact H]; [|keep]. intros g. unfold owe. repeat case_decide; lia.
  - right. apply leaves_bind in H as [(u & s4 & H4 & _)|(c & H)]; [|by destruct (set_fd_calm _ _ _ _ _ H)]. rewrite (bind_ret _ _ _ _ _ H4).
    destruct (pipe_undo _ s2 s3 fd0 a i oo bb HF X2 L2 Hm2 Ht2 Hf2 u s4 H4) as (L4 & X4).
    eexists s4, _. split_and!; [done|exact X4| |done]. intros g. unfold owe. repeat case_decide; lia.
Qed.

Lemma sys_pipe_safe : safe sys_pipe.
Proof.
  unfold sys_pipe. apply safe_need; [keep|intros fd]. intros s r s' Hg H. unfold need in H.
  apply bind_inv in H as (o & s1 & H1 & H). destruct (pipealloc_ok s o s1 Hg H1) as (L1 & C1 & X1).
  destruct o as [[a b]|]; [|by injection H as _ <-]. destruct X1 as (X1 & Ha & Hb). rewrite <- C1 in Ha, Hb.
  destruct (pipe_fds_run s1 a b fd s' L1 X1 Ha Hb) as [?|(s2 & d & L2 & X2 & Hd & E)]; [left; by exists r|done|].
  cbv zeta in E. rewrite E in H. by destruct (close_two_ok s2 d (Some a) (Some b) (-1) r s' L2 X2 Hd H) as (_ & _ & _ & ?).
Qed.
Lemma sys_pipe_rests : rests sys_pipe.
Proof.
  unfold sys_pipe. apply rests_need; [keep|intros fd]. intros s c s' Hg H. unfold need in H.
  apply bind_slept in H as [H|(o & s1 & H1 & H)]; [by apply (pipealloc_rests s c)|]. destruct (pipealloc_ok s o s1 Hg H1) as (L1 & C1 & X1).
  destruct o as [[a b]|]; [|done]. destruct X1 as (X1 & Ha & Hb). rewrite <- C1 in Ha, Hb.
  destruct (pipe_fds_run s1 a b fd s' L1 X1 Ha Hb) as [?|(s2 & d & L2 & X2 & Hd & E)]; [right; by exists c|by apply off_none|].
  cbv zeta in E. rewrite E in H. by apply (close_two_slept s2 d (Some a) (Some b) (-1) c s' L2 X2 Hd).
Qed.

(** ** wait, fork and exit *)

Lemma wait_scan_some mee l k hk b i : wait_scan mee l k hk = (b, Some i) ->
  exists j p, i = (k + j)%nat /\ l !! j = Some p /\ p_state p = ZOMBIE.
Proof.
  revert k hk. induction l as [|p l IH]; intros k hk; cbn [wait_scan]; [done|]. repeat case_decide.
  - intros [= _ <-]. exists 0%nat, p. split; [lia|done].
  - intros H'. destruct (IH _ _ H') as (j & q & -> & ? & ?). exists (S j), q. split; [lia|done].
  - intros H'. destruct (IH _ _ H') as (j & q & -> & ? & ?). exists (S j), q. split; [lia|done].
Qed.

(** A slot that changes without its descriptors or life. *)
Lemma modslot_same s i f u s' p : ptable (f_procs s) !! i = Some p -> slotfd (f p) = slotfd p -> modslot i f s = Ret u s' ->
  kfd s' = kfd s /\ ptable (f_procs s') !! i = Some (f p).
Proof.
  intros Hp E H. destruct (modslot_kfd s i f u s' p Hp H) as [E1 E2]. split; [|done].
  rewrite E1, E, (kfd_eta s). f_equal. f_equal. apply list_insert_id. by apply tab_lookup.
Qed.

Lemma memm_procs {A} (m : M kst A) s a s' : memm m s = Ret a s' -> f_procs s' = f_procs s.
Proof. unfold memm, zoom. destruct (m _); try done. by intros [= _ <-]. Qed.

Lemma wait_pres : pres kfd wait.
Proof.
  intros s s' Ha H. unfold wait in H. apply leaves_calm in H as (mee & s1 & H1 & H); [|apply myproc_calm]. apply myproc_inv in H1 as [-> Hm].
  apply leaves_calm in H as (l & s1 & H1 & H); [|unfold procm; calms].
  assert (s1 = s /\ l = ptable (f_procs s)) as [-> ->].
  { unfold procm, zoom, gets in H1. injection H1 as <- <-. split; [by destruct s as [[[[] ?]] ?]|done]. }
  clear H1. destruct (wait_scan mee (ptable (f_procs s)) 0 false) as [hk [i|]] eqn:E.
  - apply wait_scan_some in E as (j & p & -> & Hp & Hz). change (0 + j)%nat with j in H.
    apply leaves_calm in H as (q & s1 & H1 & H); [|apply getslot_calm]. apply getslot_inv in H1 as [-> Hq]. rewrite Hp in Hq. injection Hq as <-.
    apply leaves_bind in H as [(u & s1 & H1 & H)|(c & H)]; [|by apply memm_slept in H]. pose proof (memm_kfd _ _ _ _ H1) as K1. apply memm_procs in H1.
    apply leaves_calm in H as (u1 & s2 & H2 & H); [|apply modslot_calm].
    destruct (modslot_same s1 j (set_kstack 0) u1 s2 p) as [K2 P2]; [by rewrite H1|done|done|].
    apply leaves_bind in H as [(u2 & s3 & H3 & H)|(c & H)]; [|apply memm_slept in H; by rewrite H, K2]. pose proof (memm_kfd _ _ _ _ H3) as K3. apply memm_procs in H3.
    apply leaves_calm in H as (u3 & s4 & H4 & H); [|apply modslot_calm]. destruct H as [[? [= _ <-]]|[? [=]]].
    destruct (modslot_same s3 j reaped u3 s4 (set_kstack 0 p)) as [K4 _]; [by rewrite H3| |done|by rewrite K4, K3, K2, K1].
    unfold slotfd, dead. cbn. rewrite Hz. done.
  - revert H. apply (pres_bind kfd); [keep|intros p; keep|done].
Qed.

Lemma slotfd_inv s i o b : tab s !! i = Some (o, b) -> exists p, ptable (f_procs s) !! i = Some p /\ p_ofile p = o /\ dead p = b.
Proof.
  change (tab s) with (slotfd <$> ptable (f_procs s)). intros H. apply list_lookup_fmap_Some in H as (p & E & Hp).
  unfold slotfd in E. injection E as -> ->. by exists p.
Qed.

Lemma find_unused_some l k i : find_unused l k = Some i -> exists j p, i = (k + j)%nat /\ l !! j = Some p /\ p_state p = UNUSED.
Proof.
  revert k. induction l as [|p l IH]; intros k; cbn [find_unused]; [done|]. case_decide.
  - intros [= <-]. exists 0%nat, p. split; [lia|done].
  - intros H'. destruct (IH _ H') as (j & q & -> & ? & ?). exists (S j), q. split; [lia|done].
Qed.

Lemma slotfd_dead f p : dead p = true -> dead (f p) = true -> p_ofile (f p) = p_ofile p -> slotfd (f p) = slotfd p.
Proof. intros H1 H2 H3. unfold slotfd. by rewrite H1, H2, H3. Qed.

Lemma allocproc_inv s o s' : allocproc s = Ret o s' ->
  kfd s' = kfd s /\ match o with Some np => exists o', tab s !! np = Some (o', true) | None => True end.
Proof.
  intros H. unfold allocproc in H. apply bind_inv in H as (l & s1 & H1 & H).
  assert (s1 = s /\ l = ptable (f_procs s)) as [-> ->].
  { unfold procm, zoom, gets in H1. injection H1 as <- <-. split; [by destruct s as [[[[] ?]] ?]|done]. }
  clear H1. destruct (find_unused _ 0) as [i|] eqn:E; [|by injection H as <- <-].
  apply find_unused_some in E as (j & p & -> & Hp & Hu). change (0 + j)%nat with j in H.
  assert (Hd : dead p = true) by (unfold dead; by rewrite Hu).
  apply bind_inv in H as (pid & s1 & H1 & H). assert (K1 : kfd s1 = kfd s) by (injection H1 as _ <-; by destruct s as [[[[] ?]] ?]).
  assert (P1 : ptable (f_procs s1) = ptable (f_procs s)) by (by injection H1 as _ <-). clear H1.
  apply bind_inv in H as (u & s2 & H2 & H).
  destruct (modslot_same s1 j (fun p => set_pid pid (set_state EMBRYO p)) u s2 p) as [K2 P2]; [by rewrite P1|by apply (slotfd_dead (fun p => set_pid pid (set_state EMBRYO p)))|done|].
  apply bind_inv in H as (u1 & s3 & H3 & H). assert (K3 : kfd s3 = kfd s2) by (injection H3 as _ <-; by destruct s2 as [[[[] ?]] ?]).
  assert (P3 : ptable (f_procs s3) = ptable (f_procs s2)) by (by injection H3 as _ <-). clear H3.
  apply bind_inv in H as (k & s4 & H4 & H). pose proof (memm_kfd _ _ _ _ H4) as K4. apply memm_procs in H4.
  apply bind_inv in H as (u2 & s5 & H5 & H).
  destruct (modslot_same s4 j (set_kstack k) u2 s5 _ ltac:(rewrite H4, P3; exact P2)) as [K5 P5]; [done|done|].
  assert (K : kfd s5 = kfd s) by (by rewrite K5, K4, K3, K2).
  destruct (k =? 0).
  - apply bind_inv in H as (u3 & s6 & H6 & [= <- <-]).
    destruct (modslot_same s5 j (set_state UNUSED) u3 s6 _ P5) as [K6 _]; [done|done|]. split; [by rewrite K6|done].
  - apply bind_inv in H as (u3 & s6 & H6 & [= <- <-]). apply memm_kfd in H6. split; [by rewrite H6|].
    exists (p_ofile p). rewrite (tab_lookup s j p Hp). unfold slotfd. by rewrite Hd.
Qed.

Lemma allocproc_calm : calm allocproc.
Proof.
  unfold allocproc. pose proof kalloc_calm. pose proof modslot_calm. apply calm_bind; [unfold procm; calms|intros l]. destruct (find_unused l 0) as [i|]; [|calms].
  repeat (apply calm_bind; [first [apply modslot_calm | apply kalloc_calm | unfold procm; calms]|intros ?]).
  destruct (_ =? _); apply calm_bind; try apply modslot_calm; try (unfold memm; calms); intros; calms.
Qed.

(** dup_files gives the child [np] the parent's descriptors. *)
Definition dup_inv (np i : nat) (k : nat) s : Prop :=
  fds_ok d0 (Some np) (kfd s) /\ me s = Some i /\ (exists oi, tab s !! i = Some (oi, false)) /\
  exists o, tab s !! np = Some (o, true) /\ forall j, (k <= j < NOFILE)%nat -> o !! j = Some None.

Lemma dup_files_ok np i s u s' : dup_inv np i 0 s -> dup_files np s = Ret u s' -> dup_inv np i NOFILE s'.
Proof.
  intros Hs H. revert Hs H. apply (forM_inv (dup_inv np i)). clear. intros k s u s' Hk (X & Hm & (oi & Ht) & o & Ho & Hn) H.
  apply bind_inv in H as (p & s1 & H1 & H). apply curproc_inv in H1 as (-> & i' & Hm' & Hp). rewrite Hm in Hm'. injection Hm' as <-.
  apply tab_lookup in Hp. rewrite Ht in Hp. unfold slotfd in Hp. injection Hp as -> _.
  destruct (p_ofile p !!! k) as [f|] eqn:Ef.
  2: { injection H as _ <-. split_and!; [done|done|by exists (p_ofile p)|]. exists o. split; [done|]. intros j Hj. apply Hn. lia. }
  destruct (fd_entry _ _ s i _ _ k f X Ht Hk Ef) as [_ Hlt]. apply bind_inv in H as (u1 & s1 & H1 & H).
  destruct (filedup_ok _ _ _ _ _ _ X H1) as (X1 & E1 & E2 & E3).
  destruct (slotfd_inv s1 np o true) as (q & Hq & <- & Hd); [by rewrite E2|].
  destruct (modslot_kfd s1 np _ u s' q Hq H) as [E _]. unfold slotfd, dead in E. cbn [p_ofile p_state set_ofile] in E.
  fold (dead q) in E. rewrite Hd in E. rewrite kfd_eta in X1.
  assert (Hne : np <> i) by (intros ->; congruence).
  unfold dup_inv. unfold me at 1, tab at 1 2. rewrite E. cbn [fst snd]. split_and!.
  - eapply fds_ext; [|eapply (fds_slot _ _ _ _ _ np (p_ofile q) true k None (Some f) true X1)].
    + intros g _. cbn. unfold owe. case_decide; lia.
    + by rewrite E2.
    + apply Hn. lia.
    + intros ? [= <-]. by rewrite E3.
    + by right; left.
  - by rewrite E1.
  - exists (p_ofile p). rewrite list_lookup_insert_ne, E2 by done. done.
  - exists (<[k := Some f]> (p_ofile q)). split; [apply list_lookup_insert_eq; rewrite E2; by eapply lookup_lt_Some|].
    intros j Hj. rewrite list_lookup_insert_ne by lia. apply Hn. lia.
Qed.

(** The start of the copy: the slot allocproc found has no descriptors. *)
Lemma dup_inv_start s np i o oi : fds_ok d0 None (kfd s) -> me s = Some i -> tab s !! i = Some (oi, false) ->
  tab s !! np = Some (o, true) -> dup_inv np i 0 s.
Proof.
  intros X Hm Ht Ho. assert (Hn : Forall (eq None) o) by (apply (fo_dead _ _ _ X np); done).
  pose proof (fo_len _ _ _ X _ _ _ Ho) as Hl. split_and!; [|done|by exists oi|].
  - destruct X as [H1 H2 H3 H4]. split; try done. intros j o' Hj _. by apply (H4 j).
  - exists o. split; [done|]. intros j Hj. destruct (lookup_lt_is_Some_2 o j) as [x Hx]; [lia|].
    rewrite Hx. rewrite Forall_lookup in Hn. by rewrite <- (Hn j x Hx).
Qed.

Lemma modslot_quiet s i f u s' : (forall p, slotfd (f p) = slotfd p) -> modslot i f s = Ret u s' -> kfd s' = kfd s.
Proof.
  intros Hf [= _ <-]. unfold kfd, krfd, lfd, bfd, pfd. cbn. by rewrite fmap_alter_same.
Qed.

(** The child becomes runnable. *)
Lemma birth_ok np i s q u s' : dup_inv np i NOFILE s -> ptable (f_procs s) !! np = Some q ->
  modslot np (set_state RUNNABLE) s = Ret u s' -> good s'.
Proof.
  intros (X & Hm & (oi & Ht) & o & Ho & _) Hq H. destruct (modslot_kfd s np _ u s' q Hq H) as [E _].
  change (slotfd (set_state RUNNABLE q)) with (p_ofile q, false) in E. rewrite kfd_eta in X. split.
  - rewrite E. eapply (fds_life d0 (Some np) None); [exact X|by apply tab_lookup|congruence|done].
  - exists i, oi. unfold me at 1, tab at 1. rewrite E. cbn [fst snd]. split; [done|].
    rewrite list_lookup_insert_ne; [done|]. intros ->. congruence.
Qed.

Lemma dup_inv_eq np i k s s' : kfd s' = kfd s -> dup_inv np i k s -> dup_inv np i k s'.
Proof. intros E. unfold dup_inv, me, tab. by rewrite E. Qed.

Lemma deref_inv {A} (f : ker -> option A) s a s' : deref f s = Ret a s' -> s' = s.
Proof. unfold deref. by destruct (f s); intros [=]. Qed.
Lemma idup_calm i : calm (idup (St := krest) i).
Proof. unfold idup, getino, modino. calms. Qed.
Lemma idup_kfd i s u s' : idup (St := krest) i s = Ret u s' -> kfd s' = kfd s.
Proof. intros H. unfold idup, modino in H. apply bind_inv in H as (x & s1 & [= _ <-] & H). by injection H as _ <-. Qed.

Lemma fork_good s r s' : good s -> fork s = Ret r s' -> good s'.
Proof.
  intros Hg H. destruct (Hg) as [X (i & oi & Hm & Ht)]. unfold fork in H. apply bind_inv in H as (mee & s1 & H1 & H).
  apply myproc_inv in H1 as [-> _]. apply bind_inv in H as (onp & s1 & H1 & H).
  apply allocproc_inv in H1 as [K1 HA]. destruct onp as [np|]; [|injection H as _ <-; by apply (good_eq s)].
  destruct HA as [o Ho]. apply bind_inv in H as (p & s2 & H2 & H). apply curproc_inv in H2 as [-> _].
  apply bind_inv in H as (d & s2 & H2 & H). apply memm_kfd in H2. apply bind_inv in H as (u & s3 & H3 & H).
  apply modslot_quiet in H3; [|done]. assert (K3 : kfd s3 = kfd s) by (by rewrite H3, H2). clear H3 H2 K1.
  destruct (d =? 0).
  - apply bind_inv in H as (q & s4 & H4 & H). apply getslot_inv in H4 as [-> Hq].
    apply bind_inv in H as (u1 & s4 & H4 & H). pose proof (memm_kfd _ _ _ _ H4) as K4. apply memm_procs in H4.
    apply bind_inv in H as (u2 & s5 & H5 & [= _ <-]).
    destruct (modslot_same s4 np (fun q => set_state UNUSED (set_kstack 0 q)) u2 s5 q) as [K5 _];
      [by rewrite H4| |done|apply (good_eq s); [by rewrite K5, K4, K3|done]].
    apply tab_lookup in Hq. unfold tab in Hq, Ho. rewrite K3, Ho in Hq. unfold slotfd. injection Hq as _ <-. done.
  - apply bind_inv in H as (u1 & s4 & H4 & H). apply modslot_quiet in H4; [|done].
    apply bind_inv in H as (u2 & s5 & H5 & H).
    assert (X5 : dup_inv np i NOFILE s5).
    { apply (dup_files_ok np i s4 u2); [|done].
      eapply dup_inv_start; unfold me, tab in *; rewrite H4, K3; done. }
    apply bind_inv in H as (c & s6 & H6 & H). apply deref_inv in H6.
    apply bind_inv in H as (u3 & s7 & H7 & H). apply idup_kfd in H7.
    apply bind_inv in H as (u4 & s8 & H8 & H). apply modslot_quiet in H8; [|done].
    apply bind_inv in H as (u5 & s9 & H9 & H). apply modslot_quiet in H9; [|done].
    apply bind_inv in H as (q & s10 & H10 & H). apply getslot_inv in H10 as [-> Hq].
    apply bind_inv in H as (u6 & s10 & H10 & [= _ <-]).
    apply (birth_ok np i s9 q u6 s10); [|done|done]. eapply dup_inv_eq; [|exact X5]. by rewrite H9, H8, H7, H6.
Qed.

(** fork sleeps nowhere but, as far as is known here, in the memory routines,
    and there nothing has changed yet. *)
Lemma fork_rests : rests fork.
Proof.
  intros s c s' Hg H. destruct (Hg) as [X L]. apply off_none. unfold fork in H. apply bind_slept in H as [H|(mee & s1 & H1 & H)]; [by destruct (myproc_calm s c s')|].
  apply myproc_inv in H1 as [-> _]. apply bind_slept in H as [H|(onp & s1 & H1 & H)]; [by destruct (allocproc_calm s c s')|].
  apply allocproc_inv in H1 as [K1 _]. destruct onp as [np|]; [|done].
  apply bind_slept in H as [H|(p & s2 & H2 & H)]; [by destruct (curproc_calm s1 c s')|]. apply curproc_inv in H2 as [-> _].
  apply bind_slept in H as [H|(d & s2 & H2 & H)]; [apply memm_slept in H; by rewrite H, K1|]. apply memm_kfd in H2.
  apply bind_slept in H as [H|(u & s3 & H3 & H)]; [by destruct (modslot_calm _ _ _ _ _ H)|]. apply modslot_quiet in H3; [|done].
  assert (K3 : kfd s3 = kfd s) by (by rewrite H3, H2). clear H3 H2 K1. destruct (d =? 0).
  - apply bind_slept in H as [H|(q & s4 & H4 & H)]; [by destruct (getslot_calm _ _ _ _ H)|]. apply getslot_inv in H4 as [-> _].
    apply bind_slept in H as [H|(u1 & s4 & H4 & H)]; [apply memm_slept in H; by rewrite H, K3|].
    apply bind_slept in H as [H|(u2 & s5 & H5 & H)]; [by destruct (modslot_calm _ _ _ _ _ H)|done].
  - exfalso. revert H. pose proof modslot_calm. pose proof getslot_calm. pose proof idup_calm. pose proof filedup_calm. pose proof curproc_calm.
    assert (calm (dup_files np)) by (unfold dup_files; calms; done). repeat (apply calm_bind; [by auto || calms|intros ?]). calms.
Qed.

(** exit closes every descriptor. *)
Definition close_inv (i : nat) (k : nat) s : Prop :=
  fds_ok d0 None (kfd s) /\ me s = Some i /\
  exists o, tab s !! i = Some (o, false) /\ forall j, (j < k)%nat -> o !!! j = None.

Lemma close_inv_live i k s : close_inv i k s -> live s.
Proof. intros (_ & Hm & o & Ho & _). by exists i, o. Qed.

Lemma close_files_step i k s u s' : (k < NOFILE)%nat -> close_inv i k s ->
  (p ← curproc; match p_ofile p !!! k with Some f => fileclose f ;; modproc (fun p => set_ofile (<[k := None]> (p_ofile p)) p) | None => mret tt end) s = Ret u s' ->
  close_inv i (S k) s'.
Proof.
  intros Hk HI H. pose proof (close_inv_live _ _ _ HI) as L. destruct HI as (X & Hm & o & Ho & Hn).
  apply bind_inv in H as (p & s1 & H1 & H). apply curproc_inv in H1 as (-> & i' & Hm' & Hp). rewrite Hm in Hm'. injection Hm' as <-.
  apply tab_lookup in Hp. rewrite Ho in Hp. unfold slotfd in Hp. injection Hp as -> _.
  destruct (p_ofile p !!! k) as [f|] eqn:Ef.
  2: { injection H as _ <-. split_and!; [done|done|]. exists (p_ofile p). split; [done|]. intros j Hj.
       destruct (decide (j = k)) as [->|]; [done|]. apply Hn. lia. }
  destruct (fd_entry _ _ s i _ _ k f X Ho Hk Ef) as [He _]. apply bind_inv in H as (u1 & s1 & H1 & H).
  destruct (fileclose_ok _ _ _ _ _ _ L X H1) as (X1 & E1 & E2 & E3).
  destruct (set_fd_ok _ None s1 k None (Some f) u s' i (p_ofile p) false X1) as (X2 & M2 & T2 & _);
    [by rewrite E1|by rewrite E2|done|done|by left|done|].
  split_and!; [|by rewrite M2, E1|].
  - eapply fds_ext; [|exact X2]. intros g _. cbn. unfold owe. case_decide; lia.
  - exists (<[k := None]> (p_ofile p)). rewrite T2, E2. split; [apply list_lookup_insert_eq; by eapply lookup_lt_Some|].
    intros j Hj. destruct (decide (j = k)) as [->|].
    + rewrite list_lookup_total_alt, list_lookup_insert_eq by (by eapply lookup_lt_Some). done.
    + rewrite list_lookup_total_insert_ne by done. apply Hn. lia.
Qed.

Lemma close_files_ok i s u s' : close_inv i 0 s -> close_files s = Ret u s' -> close_inv i NOFILE s'.
Proof. intros Hs H. revert Hs H. apply (forM_inv (close_inv i)). intros. by eapply close_files_step. Qed.

(** The count of the file being closed is already down, its descriptor still
    there. *)
Lemma close_files_slept i s c s' : close_inv i 0 s -> close_files s = Asleep c s' -> off (kfd s').
Proof.
  intros Hs H. unfold close_files in H. apply (forM_slept (close_inv i)) in H as (k & s1 & Hk & HI & Hb); [|intros; by eapply close_files_step|done].
  pose proof (close_inv_live _ _ _ HI) as L. destruct HI as (X & _). apply bind_slept in Hb as [Hb|(p & s2 & H2 & Hb)]; [by destruct (curproc_calm _ _ _ Hb)|].
  apply curproc_inv in H2 as [-> _]. destruct (p_ofile p !!! k) as [f|]; [|done].
  apply bind_slept in Hb as [Hb|(u & s2 & _ & Hb)]; [|by destruct (modproc_calm _ _ _ _ Hb)].
  apply (off_ok _ f (-1) _ ltac:(lia)) with (2 := fileclose_slept _ _ _ _ _ _ L X Hb). done.
Qed.

Lemma wake_slot_pres o : pres kfd (wake_slot o).
Proof.
  apply procm_pres, pres_modify. intros s. unfold pfd. cbn. f_equal. unfold wakeup1_ptr.
  rewrite <- list_fmap_compose. apply list_fmap_ext. intros _ p _. cbn. case_decide as E; [|done].
  unfold slotfd, dead. cbn. destruct E as [-> _]. done.
Qed.
Hint Resolve wake_slot_pres : keepdb.

Lemma reparent_pres i : pres kfd (reparent i).
Proof. unfold reparent. keep. by apply modslot_pres. Qed.
Hint Resolve reparent_pres : keepdb.

(** exit after the files are closed, up to the last step. *)
Definition exit_quiet (i : nat) : M ker unit :=
  begin_op ;; p ← curproc; cwd ← deref (fun _ => p_cwd p); iput cwd ;; end_op ;; modproc (set_cwd None) ;; p ← curproc; wake_slot (p_parent p) ;; reparent i.
Lemma exit_quiet_pres i : pres kfd (exit_quiet i).
Proof. unfold exit_quiet. keep. by apply modproc_pres. Qed.

Lemma bind_assoc {A B C} (m : M ker A) (f : A -> M ker B) (g : B -> M ker C) s : mbind g (mbind f m) s = mbind (fun a => mbind g (f a)) m s.
Proof. unfold mbind, M_bind. by destruct (m s). Qed.
Lemma bind_ext {A B} (m : M ker A) (f g : A -> M ker B) s : (forall a t, f a t = g a t) -> mbind f m s = mbind g m s.
Proof. intros H. unfold mbind, M_bind. by destruct (m s). Qed.

Lemma exit_split i s : (begin_op ;; p ← curproc; cwd ← deref (fun _ => p_cwd p); iput cwd ;; end_op ;; modproc (set_cwd None) ;; p ← curproc;
    wake_slot (p_parent p) ;; reparent i ;; modproc (set_state ZOMBIE)) s = (exit_quiet i ;; modproc (set_state ZOMBIE)) s.
Proof. unfold exit_quiet. repeat (rewrite bind_assoc; apply bind_ext; intros ? ?). reflexivity.
Qed.

Lemma exit_start s i oi : fds_ok d0 None (kfd s) -> me s = Some i -> tab s !! i = Some (oi, false) -> close_inv i 0 s.
Proof. intros X Hm Ht. split_and!; [done|done|]. exists oi. split; [done|]. lia. Qed.

Lemma exit_safe : safe exit.
Proof.
  intros s r s' [X (i & oi & Hm & Ht)] H. unfold exit in H. apply bind_inv in H as (mee & s1 & H1 & H).
  apply myproc_inv in H1 as [-> Hm']. rewrite Hm in Hm'. injection Hm' as <-.
  apply bind_inv in H as (ini & s1 & H1 & H).
  assert (s1 = s) as -> by (unfold procm, zoom, gets in H1; injection H1 as _ <-; by destruct s as [[[[] ?]] ?]).
  case_decide; [done|]. apply bind_inv in H as (u & s2 & H2 & H).
  pose proof (close_files_ok i s u s2 (exit_start _ _ _ X Hm Ht) H2) as HI. pose proof (close_inv_live _ _ _ HI) as L2. destruct HI as (X2 & M2 & o & T2 & N2).
  rewrite exit_split in H. apply bind_inv in H as (u1 & s3 & H3 & HZ). destruct (quiet _ _ _ _ (exit_quiet_pres i) L2 H3) as [K3 _].
  destruct (slotfd_inv s3 i o false) as (p & Hp & Ep & _); [unfold tab in *; by rewrite K3|].
  destruct (modproc_kfd s3 (set_state ZOMBIE) r s' i p) with (2 := Hp) (3 := HZ) as [-> _]; [unfold me in *; by rewrite K3|].
  change (slotfd (set_state ZOMBIE p)) with (p_ofile p, true). rewrite Ep.
  rewrite <- K3, kfd_eta in X2. eapply fds_life; [exact X2|unfold tab in *; by rewrite K3|done|].
  intros _ _. apply Forall_lookup. intros j x Hj. pose proof (fo_len _ _ _ X2 i o false) as Hl. cbn [fst snd] in Hl.
  assert (Hl' : length o = NOFILE) by (apply Hl; unfold tab in *; by rewrite K3).
  rewrite <- (N2 j) by (rewrite <- Hl'; by eapply lookup_lt_Some). by apply list_lookup_total_correct.
Qed.

Lemma exit_rests : rests exit.
Proof.
  intros s c s' [X (i & oi & Hm & Ht)] H. unfold exit in H. apply bind_slept in H as [H|(mee & s1 & H1 & H)]; [by destruct (myproc_calm _ _ _ H)|].
  apply myproc_inv in H1 as [-> Hm']. rewrite Hm in Hm'. injection Hm' as <-.
  apply bind_slept in H as [H|(ini & s1 & H1 & H)]; [done|].
  assert (s1 = s) as -> by (unfold procm, zoom, gets in H1; injection H1 as _ <-; by destruct s as [[[[] ?]] ?]).
  case_decide; [done|]. pose proof (exit_start _ _ _ X Hm Ht) as HI. apply bind_slept in H as [H|(u & s2 & H2 & H)]; [by apply (close_files_slept i s c)|].
  pose proof (close_files_ok i s u s2 HI H2) as HI2. rewrite exit_split in H. apply bind_slept in H as [H|(u1 & s3 & _ & H)]; [|by destruct (modproc_calm _ _ _ _ H)].
  apply off_none. rewrite (quiet_slept _ _ _ _ (exit_quiet_pres i) (close_inv_live _ _ _ HI2) H). apply HI2.
Qed.

(** ** The life of the slots

    Apart from fork, exit and wait, no call changes which slots are live. *)
Definition lives s : option nat * list bool := (me s, snd <$> tab s).

Lemma pres_lives {A} (m : M ker A) : pres kfd m -> pres lives m.
Proof. intros Hm s s' Ha H. unfold lives, me, tab. by rewrite (Hm s s' Ha H). Qed.
Hint Extern 5 (pres lives _) => apply pres_lives; solve [eauto with keepdb] : keepdb.

Lemma lives_live s s' : lives s' = lives s -> live s -> live s'.
Proof.
  unfold lives. intros [= E1 E2] (i & o & Hm & Ht).
  assert (H : (snd <$> tab s') !! i = Some false) by (by rewrite E2, list_lookup_fmap, Ht).
  apply list_lookup_fmap_Some in H as ([o' b] & Eb & H). cbn in Eb. subst b. exists i, o'. by rewrite E1.
Qed.

Lemma modfile_lives i g : pres lives (modfile i g).
Proof. apply pres_modify. intros s. reflexivity. Qed.
Lemma set_fd_lives fd v : pres lives (set_fd fd v).
Proof.
  unfold set_fd, modproc. apply pres_bind; [apply pres_lives; keep|intros i]. apply pres_modify. intros s.
  unfold lives, me, tab. cbn. f_equal. rewrite <- !list_fmap_compose. apply fmap_alter_same. done.
Qed.
Hint Resolve modfile_lives set_fd_lives : keepdb.

Ltac lively := unfold need; repeat first
  [ solve [eauto with keepdb] | solve [apply pres_lives; keep] | keep1 | progress unfold mret, M_ret ].

Lemma filealloc_lives : pres lives filealloc.
Proof. unfold filealloc. lively. Qed.
Lemma filedup_lives f : pres lives (filedup f).
Proof. unfold filedup. lively. Qed.
Lemma fileclose_lives f : pres lives (fileclose f).
Proof. unfold fileclose. lively. Qed.
Lemma fdalloc_lives f : pres lives (fdalloc f).
Proof. unfold fdalloc. lively. Qed.
Hint Resolve filealloc_lives filedup_lives fileclose_lives fdalloc_lives : keepdb.
Lemma open_file_lives ip om : pres lives (open_file ip om).
Proof. unfold open_file. lively. Qed.
Lemma pipe_bad_lives x y : pres lives (pipe_bad x y).
Proof. unfold pipe_bad. lively. Qed.
Hint Resolve open_file_lives pipe_bad_lives : keepdb.
Lemma pipealloc_lives : pres lives pipealloc.
Proof. unfold pipealloc. lively. Qed.
Hint Resolve pipealloc_lives : keepdb.
Lemma sys_dup_lives : pres lives sys_dup.
Proof. unfold sys_dup. lively. Qed.
Lemma sys_close_lives : pres lives sys_close.
Proof. unfold sys_close. lively. Qed.
Lemma sys_open_lives : pres lives sys_open.
Proof. unfold sys_open. lively. Qed.
Lemma sys_pipe_lives : pres lives sys_pipe.
Proof. unfold sys_pipe. lively. Qed.

(** ** System calls and traps *)

Lemma lives_good {A} (m : M ker A) s r s' : safe m -> pres lives m -> good s -> m s = Ret r s' -> good s'.
Proof.
  intros H1 H2 Hg H. split; [by apply (H1 s r)|]. apply (lives_live s); [|by destruct Hg]. apply (pres_run lives m s r); [done| |done]. apply (live_alive s), Hg.
Qed.

(** Every call but exit. *)
Lemma syscalls_good num m s r s' : syscalls num = Some m -> num <> 2 -> good s -> m s = Ret r s' -> good s'.
Proof.
  intros Hn Hne Hg H. unfold syscalls in Hn.
  repeat match type of Hn with (match ?x with _ => _ end) = _ => destruct x; try discriminate Hn end;
    injection Hn as <-;
    first [ lia
          | by apply (fork_good s r)
          | by apply (lives_good sys_dup s r); [exact sys_dup_good|exact sys_dup_lives| |]
          | by apply (lives_good sys_close s r); [exact sys_close_good|exact sys_close_lives| |]
          | by apply (lives_good sys_open s r); [exact sys_open_safe|exact sys_open_lives| |]
          | by apply (lives_good sys_pipe s r); [exact sys_pipe_safe|exact sys_pipe_lives| |]
          | by revert H; apply pres_good;
              eauto using wait_pres, sys_kill_pres, sys_getpid_pres, sys_sbrk_pres, sys_sleep_pres, sys_uptime_pres,
                sys_read_pres, sys_write_pres, sys_fstat_pres, sys_link_pres, sys_unlink_pres, sys_mkdir_pres,
                sys_mknod_pres, sys_chdir_pres, sys_exec_pres ].
Qed.

Lemma sys_exit_rests : rests sys_exit.
Proof. intros s c s' Hg H. unfold sys_exit in H. apply bind_slept in H as [H|(u & s1 & _ & H)]; [by apply (exit_rests s c)|done]. Qed.

Lemma syscalls_rests num m : syscalls num = Some m -> rests m.
Proof.
  intros Hn. unfold syscalls in Hn.
  repeat match type of Hn with (match ?x with _ => _ end) = _ => destruct x; try discriminate Hn end;
    injection Hn as <-;
    first [ exact fork_rests | exact sys_exit_rests | exact sys_dup_rests | exact sys_close_rests | exact sys_open_rests | exact sys_pipe_rests
          | apply rests_pres;
              eauto using wait_pres, sys_kill_pres, sys_getpid_pres, sys_sbrk_pres, sys_sleep_pres, sys_uptime_pres,
                sys_read_pres, sys_write_pres, sys_fstat_pres, sys_link_pres, sys_unlink_pres, sys_mkdir_pres,
                sys_mknod_pres, sys_chdir_pres, sys_exec_pres ].
Qed.

Lemma syscall_good s b s' : good s -> syscall s = Ret b s' ->
  fds_ok d0 None (kfd s') /\ (b = true -> good s').
Proof.
  intros Hg H. unfold syscall in H. apply bind_inv in H as (p & s1 & H1 & H). apply curproc_inv in H1 as [-> _].
  destruct (syscalls _) as [m|] eqn:Em.
  2: { assert (Hs' : good s') by (revert H; apply pres_good; [|done]; keep; by apply modproc_pres).
       split; [apply Hs'|done]. }
  destruct (Z.eqb_spec (i32 (tf_eax (p_tf p))) 2) as [E|E].
  - rewrite E in Em. injection Em as <-. apply bind_inv in H as (r & s1 & H1 & [= <- <-]).
    apply bind_inv in H1 as (u & s2 & H2 & [= _ <-]). split; [by apply (exit_safe s u)|done].
  - apply bind_inv in H as (r & s1 & H1 & H). apply bind_inv in H as (u & s2 & H2 & [= <- <-]).
    assert (Hs2 : good s2).
    { eapply (pres_good _ s1); [|by eapply (syscalls_good _ m s r)|exact H2]. by apply modproc_pres. }
    split; [apply Hs2|done].
Qed.

Lemma syscall_rests : rests syscall.
Proof.
  intros s c s' Hg H. unfold syscall in H. apply bind_slept in H as [H|(p & s1 & H1 & H)]; [by destruct (curproc_calm _ _ _ H)|].
  apply curproc_inv in H1 as [-> _]. destruct (syscalls _) as [m|] eqn:Em.
  2: { revert H. apply rests_pres; [|done]. keep. by apply modproc_pres. }
  destruct (Z.eqb_spec (i32 (tf_eax (p_tf p))) 2) as [E|E].
  - apply bind_slept in H as [H|(r & s1 & _ & H)]; [by apply (syscalls_rests _ m Em s c)|done].
  - apply bind_slept in H as [H|(r & s1 & _ & H)]; [by apply (syscalls_rests _ m Em s c)|].
    apply bind_slept in H as [H|(u & s2 & _ & H)]; [by destruct (modproc_calm _ _ _ _ H)|done].
Qed.

Lemma print_pcs_pres l : pres (fun c => pfd (c_proc c)) (print_pcs l).
Proof. induction l; cbn [print_pcs]; keep. Qed.
Hint Resolve print_pcs_pres : keepdb.
Lemma procdump_pres ebp : pres kfd (procdump ebp).
Proof. unfold procdump. keep. Qed.
Hint Resolve procdump_pres : keepdb.

Lemma trap_dispatch_pres t tf : pres kfd (trap_dispatch t tf).
Proof.
  unfold trap_dispatch, trap_timer, trap_kbd, trap_uart, dump_if, trap_default, maybe_proc. keep.
  by apply modproc_pres.
Qed.

(** Between traps: the counts match, and if a process runs on the CPU it is
    live. *)
Definition settled s : Prop := fds_ok d0 None (kfd s) /\ (me s = None \/ live s).

Lemma settled_eq s s' : kfd s' = kfd s -> settled s -> settled s'.
Proof. unfold settled, live, me, tab. by intros ->. Qed.

Lemma maybe_proc_inv s o s' : maybe_proc s = Ret o s' -> s' = s /\
  match o with Some p => exists i, me s = Some i /\ ptable (f_procs s) !! i = Some p | None => me s = None end.
Proof.
  intros H. unfold maybe_proc in H. apply bind_inv in H as (c & s1 & H1 & H).
  assert (s1 = s /\ c = me s) as [-> ->].
  { unfold procm, zoom, gets in H1. injection H1 as <- <-. split; [by destruct s as [[[[] ?]] ?]|done]. }
  destruct (me s) as [i|] eqn:Em; [|by injection H as <- <-].
  apply bind_inv in H as (p & s1 & H2 & [= <- <-]). apply getslot_inv in H2 as [-> Hp]. split; [done|]. by exists i.
Qed.

Lemma exit_if_killed_ok tf k s r s' : settled s -> exit_if_killed tf k s = Ret r s' ->
  (r = TExit /\ fds_ok d0 None (kfd s')) \/ k s = Ret r s'.
Proof.
  intros [X L] H. unfold exit_if_killed in H. apply bind_inv in H as (o & s1 & H1 & H).
  apply maybe_proc_inv in H1 as [-> Ho]. destruct o as [p|]; [|by right]. destruct Ho as (i & Hm & Hp).
  destruct (p_killed p && from_user tf); [|by right]. left. apply bind_inv in H as (u & s1 & H1 & [= <- <-]).
  split; [done|]. apply (exit_safe s u); [|done]. split; [done|]. destruct L as [L|L]; [congruence|done].
Qed.

Lemma yield_same s u s' i p : me s = Some i -> ptable (f_procs s) !! i = Some p -> p_state p = RUNNING ->
  procm yield s = Ret u s' -> kfd s' = kfd s.
Proof.
  intros Hm Hp Hr H.
  assert (H' : modproc (set_state RUNNABLE) s = Ret u s').
  { revert H. unfold yield, modproc, procm, zoom, myproc, deref, mbind, M_bind. change (cur (f_procs s)) with (me s). rewrite Hm.
    intros [= <- <-]. by destruct s as [[[[] ?]] ?]. }
  destruct (modproc_kfd s _ u s' i p Hm Hp H') as [-> _]. rewrite (kfd_eta s). do 2 f_equal.
  apply list_insert_id. rewrite (tab_lookup s i p Hp). unfold slotfd, dead. by rewrite Hr.
Qed.

Lemma good_settled s : good s -> settled s.
Proof. intros [X L]. by split; [|right]. Qed.

Lemma trap_syscall_ok tf s r s' : settled s -> trap_syscall tf s = Ret r s' ->
  fds_ok d0 None (kfd s') /\ (r <> TExit -> settled s').
Proof.
  intros [X L] H. unfold trap_syscall in H. apply bind_inv in H as (p & s1 & H1 & H). apply curproc_inv in H1 as (-> & i & Hm & _).
  assert (Hg : good s) by (split; [done|]; destruct L; [congruence|done]). destruct (p_killed p).
  { apply bind_inv in H as (u & s1 & H1 & [= <- <-]). split; [by apply (exit_safe s u)|done]. }
  apply bind_inv in H as (u & s1 & H1 & H). assert (Hg1 : good s1).
  { eapply pres_good; [|exact Hg|exact H1]. by apply modproc_pres. }
  apply bind_inv in H as (b & s2 & H2 & H). destruct (syscall_good s1 b s2 Hg1 H2) as [X2 Hg2].
  destruct b; [|by injection H as <- <-]. specialize (Hg2 eq_refl). cbn [negb] in H.
  apply bind_inv in H as (q & s3 & H3 & H). apply curproc_inv in H3 as [-> _]. destruct (p_killed q).
  - apply bind_inv in H as (u' & s3 & H3 & [= <- <-]). split; [by apply (exit_safe s2 u')|done].
  - injection H as <- <-. split; [done|]. intros _. by apply good_settled.
Qed.

Lemma settled_alive s : settled s -> alive (kfd s).
Proof. intros [_ [Hm|L]]; [|by apply live_alive]. unfold alive, alive_kfd, alive_in. fold (me s). by rewrite Hm. Qed.

Lemma trap_syscall_slept tf s c s' : settled s -> trap_syscall tf s = Asleep c s' -> off (kfd s').
Proof.
  intros [X L] H. unfold trap_syscall in H. apply bind_slept in H as [H|(p & s1 & H1 & H)]; [by destruct (curproc_calm _ _ _ H)|].
  apply curproc_inv in H1 as (-> & i & Hm & _). assert (Hg : good s) by (split; [done|]; destruct L; [congruence|done]). destruct (p_killed p).
  { apply bind_slept in H as [H|(u & s1 & _ & H)]; [by apply (exit_rests s c)|done]. }
  apply bind_slept in H as [H|(u & s1 & H1 & H)]; [by destruct (modproc_calm _ _ _ _ H)|].
  assert (Hg1 : good s1) by (eapply pres_good; [|exact Hg|exact H1]; by apply modproc_pres).
  apply bind_slept in H as [H|(b & s2 & H2 & H)]; [by apply (syscall_rests s1 c)|]. destruct (syscall_good s1 b s2 Hg1 H2) as [_ Hg2].
  destruct b; [|done]. specialize (Hg2 eq_refl). cbn [negb] in H.
  apply bind_slept in H as [H|(q & s3 & H3 & H)]; [by destruct (curproc_calm _ _ _ H)|]. apply curproc_inv in H3 as [-> _]. destruct (p_killed q); [|done].
  apply bind_slept in H as [H|(u' & s3 & _ & H)]; [by apply (exit_rests s2 c)|done].
Qed.

Lemma maybe_proc_calm : calm maybe_proc.
Proof. unfold maybe_proc, getslot, procm, getproc. calms. Qed.

Lemma exit_if_killed_slept tf k s c s' : settled s -> exit_if_killed tf k s = Asleep c s' -> off (kfd s') \/ k s = Asleep c s'.
Proof.
  intros [X L] H. unfold exit_if_killed in H. apply bind_slept in H as [H|(o & s1 & H1 & H)]; [by destruct (maybe_proc_calm _ _ _ H)|].
  apply maybe_proc_inv in H1 as [-> Ho]. destruct o as [p|]; [|by right]. destruct Ho as (i & Hm & Hp).
  destruct (p_killed p && from_user tf); [|by right]. left. apply bind_slept in H as [H|(u & s1 & _ & H)]; [|done].
  apply (exit_rests s c); [|done]. split; [done|]. destruct L as [L|L]; [congruence|done].
Qed.

Lemma trap_ok t tf s r s' : settled s -> trap t tf s = Ret r s' -> fds_ok d0 None (kfd s') /\ (r <> TExit -> settled s').
Proof.
  intros Hs H. unfold trap in H. destruct (_ =? T_SYSCALL); [by apply (trap_syscall_ok tf s r)|].
  apply bind_inv in H as (u & s1 & H1 & H). apply (pres_run kfd _ _ _ _ (trap_dispatch_pres t tf) (settled_alive s Hs)) in H1.
  assert (Hs1 : settled s1) by (by apply (settled_eq s)).
  destruct (exit_if_killed_ok _ _ _ _ _ Hs1 H) as [[-> X]|H2]; [by split|]. clear H. rename H2 into H.
  apply bind_inv in H as (o & s2 & H2 & H). apply maybe_proc_inv in H2 as [-> Ho].
  assert (Hy : forall r s', trap_after_yield tf s1 = Ret r s' -> fds_ok d0 None (kfd s') /\ (r <> TExit -> settled s')).
  { intros r0 s0 H0. destruct (exit_if_killed_ok _ _ _ _ _ Hs1 H0) as [[-> X]|[= <- <-]]; [by split|]. split; [apply Hs1|done]. }
  destruct o as [p|]; [|by apply Hy]. destruct Ho as (i & Hm & Hp). case_decide as Hd; [|by apply Hy].
  apply bind_inv in H as (u1 & s2 & H2 & [= <- <-]). destruct Hd as [Hd _].
  apply (yield_same s1 _ _ i p) in H2; [|done|done|done]. apply (settled_eq s1 s2) in Hs1; [|done]. split; [apply Hs1|done].
Qed.

Lemma trap_slept t tf s c s' : settled s -> trap t tf s = Asleep c s' -> off (kfd s').
Proof.
  intros Hs H. unfold trap in H. destruct (_ =? T_SYSCALL); [by apply (trap_syscall_slept tf s c)|].
  apply bind_slept in H as [H|(u & s1 & H1 & H)].
  { apply off_none. rewrite (pres_slept kfd _ _ _ _ (trap_dispatch_pres t tf) (settled_alive s Hs) H). apply Hs. }
  apply (pres_run kfd _ _ _ _ (trap_dispatch_pres t tf) (settled_alive s Hs)) in H1.
  assert (Hs1 : settled s1) by (by apply (settled_eq s)).
  destruct (exit_if_killed_slept _ _ _ _ _ Hs1 H) as [?|H2]; [done|]. clear H. rename H2 into H.
  assert (Hy : forall c s', trap_after_yield tf s1 = Asleep c s' -> off (kfd s')).
  { intros c0 s0 H0. by destruct (exit_if_killed_slept _ _ _ _ _ Hs1 H0) as [?|?]. }
  apply bind_slept in H as [H|(o & s2 & H2 & H)]; [by destruct (maybe_proc_calm _ _ _ H)|]. apply maybe_proc_inv in H2 as [-> Ho].
  destruct o as [p|]; [|by apply (Hy c)]. case_decide as Hd; [|by apply (Hy c)].
  apply bind_slept in H as [H|(u1 & s2 & _ & H)]; [|done]. exfalso. revert H. unfold procm, yield, myproc. apply calm_zoom. calms.
Qed.
End Balance.
#[export] Hint Resolve wait_pres wake_slot_pres reparent_pres : keepdb.

Section Theorems.
Context {SY : Symbols} {KS : KSymbols}.

(** C3: across every trap that returns or exits (each of the 21 system calls,
    interrupts, faults, the exit of a killed process), the reference count of
    every open file stays the number of descriptors, over all processes, that
    name it, plus what [d] says of kernel paths that are asleep; descriptors
    name files of the table, and processes that are not live have none.  A
    trap that goes to sleep adds at most one file to what [d] says, off by at
    most one: a file it is closing, or is to close next.  Traps that panic or
    fault leave no state; with [d] zero, the counts are the descriptors. *)
Theorem trap_keeps_fd_refs (d : nat -> Z) t tf s : settled d s ->
  match trap t tf s with
  | Ret r s' => fds_ok d None (kfd s') /\ (r <> TExit -> settled d s')
  | Asleep _ s' => exists f z, -1 <= z <= 1 /\ fds_ok (owe d f z) None (kfd s')
  | Panic _ | Fault | NoFuel => True
  end.
Proof.
  intros Hs. destruct (trap t tf s) as [r s'|?|c s'| |] eqn:E; try exact I; [by apply (trap_ok d t tf s r s')|by apply (trap_slept d t tf s c s')].
Qed.
End Theorems.

#[local] Existing Instance demo_syms.
#[local] Existing Instance demo_ksyms.

(** dup(0) in the concrete kernel: file 0 ends up with two references. *)
Definition demo_fds : ker := demo_ker [demo_proc RUNNING 3 None; proc0].

Lemma demo_fds_settled : settled none demo_fds.
Proof.
  split; [|right; eexists 0%nat, _; split; vm_compute; reflexivity].
  assert (E : kfd demo_fds = (Some 0%nat, [(Some 0%nat :: replicate 15 None, false); (replicate 16 None, true)], [1; 0]))
    by (vm_compute; reflexivity).
  rewrite E. split; cbn [fst snd].
  - intros [|[|f]] r Hr; cbn in Hr; try discriminate; injection Hr as <-; reflexivity.
  - intros [|[|i]] o b k f Hi Hk; cbn in Hi; try discriminate; injection Hi as <- <-.
    + destruct k as [|k]; [injection Hk as <-; cbn; lia|]. change (replicate 15 (@None nat) !! k = Some (Some f)) in Hk. apply lookup_replicate in Hk as [? _]. done.
    + change (replicate 16 (@None nat) !! k = Some (Some f)) in Hk. apply lookup_replicate in Hk as [? _]. done.
  - intros [|[|i]] o b Hi; cbn in Hi; try discriminate; injection Hi as <- <-; reflexivity.
  - intros [|[|i]] o Hi _; cbn in Hi; try discriminate. injection Hi as <-. change (Forall (eq (@None nat)) (replicate 16 None)). by apply Forall_replicate.
Qed.

Lemma trap_keeps_fd_refs_witness : exists s', trap (mktin 0 [] [] 0 (fun _ => 0)) (demo_tf 10) demo_fds = Ret TReturn s' /\
  fds_ok none None (kfd s') /\ cnt s' = [2; 0].
Proof.
  assert (F : match trap (mktin 0 [] [] 0 (fun _ => 0)) (demo_tf 10) demo_fds with
              | Ret r s' => r = TReturn /\ cnt s' = [2; 0] | _ => False end) by (vm_compute; split; reflexivity).
  destruct (trap (mktin 0 [] [] 0 (fun _ => 0)) (demo_tf 10) demo_fds) as [r s'|?|? ?| |] eqn:E; [|destruct F..].
  pose proof (trap_keeps_fd_refs none (mktin 0 [] [] 0 (fun _ => 0)) (demo_tf 10) demo_fds demo_fds_settled) as X. rewrite E in X. destruct X as [X _].
  destruct F as [-> F]. exists s'. split; [reflexivity|split; [exact X|exact F]].
Defined.
