(* ===== verification/SysSafe.v ===== *)
(** * System calls: user memory, process size, death

    The address space of a process (VmUser.v) seen through the system call
    layer (Syscall.v): arguments are fetched without a fault, what argptr and
    argstr accept is inside the process, and buffers are read and written
    where they say.  Then growproc, wait, kill and the check for killed
    processes in trap. *)

From stdpp Require Import base list gmap strings.
From Stdlib Require Import ZArith Lia.
From S2P Require Import Prelude Proc Bio Log Block Fs Kalloc Vm VmUser Pipe Console Kern File ProcSys Exec Syscall Trap Demo Fds.

Local Open Scope Z_scope.

Definition kmem (s : ker) : kst := kr_mem (f_blk s).
Definition umem (s : ker) : mem := k_mem (kmem s).

(** [p], in slot [i], runs on the CPU. *)
Definition on_cpu (s : ker) (i : nat) (p : proc) : Prop :=
  cur (f_procs s) = Some i /\ ptable (f_procs s) !! i = Some p.

(** Every page below the size of [p] is there and can be written by the
    kernel (exec's guard page included: it only loses PTE_U). *)
Definition backed (m : mem) (p : proc) : Prop :=
  0 <= p_sz p <= KERNBASE /\
  forall va, 0 <= va < p_sz p -> umapped m (p_pgdir p) va /\ Z.land (pte_at m (p_pgdir p) va) PTE_W <> 0.

Lemma ker_eta_procs (s : ker) : set_f_procs (f_procs s) s = s.
Proof. by destruct s as [[[[] ?]] ?]. Qed.
Lemma ker_eta_mem (s : ker) : rest (set_kmem (kmem s)) s = s.
Proof. by destruct s as [[] ?]. Qed.

Section Args.
Context {SY : Symbols} {HS : SymbolsOk} {KS : KSymbols}.

Lemma curproc_eq s i p : on_cpu s i p -> curproc s = Ret p s.
Proof.
  intros [Hc Hp]. unfold curproc, procm, zoom, myproc, getproc, deref, mbind, M_bind. rewrite Hc. rewrite Hp.
  by rewrite ker_eta_procs.
Qed.

Lemma user_addr_ok m p va w : backed m p -> 0 <= va < p_sz p ->
  user_addr m (p_pgdir p) va w = Some (upage m (p_pgdir p) va + va mod 4096).
Proof.
  intros [Hsz Hb] Hva. destruct (Hb va Hva) as [[Hr Hp] Hw]. unfold user_addr. rewrite Hp.
  rewrite (proj2 (Z.leb_le 0 va)), (proj2 (Z.ltb_lt va KERNBASE)) by lia. rewrite (proj2 (Z.eqb_neq _ _) Hw). by destruct w.
Qed.

Lemma load_bytes_ok m p n : forall va, backed m p -> 0 <= va -> va + Z.of_nat n <= p_sz p ->
  load_bytes m (p_pgdir p) va n = Some (map (ubyte m (p_pgdir p)) (seqZ va (Z.of_nat n))).
Proof.
  induction n as [|n IH]; intros va Hb H0 Hn; [done|]. rewrite (seqZ_cons va (Z.of_nat (S n))) by lia.
  cbn [load_bytes map]. rewrite (user_addr_ok m p) by (done || lia). cbn [mbind option_bind].
  rewrite IH by (done || lia). cbn [mbind option_bind]. do 3 f_equal.
  replace (Z.pred (Z.of_nat (S n))) with (Z.of_nat n) by lia. replace (Z.succ va) with (va + 1) by lia. done.
Qed.

Lemma u_load_ok s i p va n : on_cpu s i p -> backed (umem s) p -> 0 <= va -> va + Z.of_nat n <= p_sz p ->
  u_load va n s = Ret (map (ubyte (umem s) (p_pgdir p)) (seqZ va (Z.of_nat n))) s.
Proof.
  intros Ho Hb H0 Hn. unfold u_load. erewrite bind_ret by (by eapply curproc_eq). unfold deref.
  change (k_mem (kr_mem (f_blk s))) with (umem s). by rewrite load_bytes_ok.
Qed.

Lemma fetchint_ok s i p addr : on_cpu s i p -> backed (umem s) p -> 0 <= addr < 4294967296 ->
  fetchint addr s = Ret (if addr + 4 <=? p_sz p
    then Some (i32 (get_le 4 (map (ubyte (umem s) (p_pgdir p)) (seqZ addr 4)) 0)) else None) s.
Proof.
  intros Ho Hb Ha. unfold fetchint. erewrite bind_ret by (by eapply curproc_eq). pose proof (proj1 Hb) as Hsz. unfold KERNBASE in Hsz.
  destruct (Z.leb_spec (p_sz p) addr); cbn [orb].
  { by rewrite (proj2 (Z.leb_gt _ _)) by lia. }
  unfold u32. rewrite (Z.mod_small (addr + 4)) by lia.
  destruct (Z.ltb_spec (p_sz p) (addr + 4)); [by rewrite (proj2 (Z.leb_gt _ _)) by lia|].
  rewrite (proj2 (Z.leb_le _ _)) by lia. erewrite bind_ret by (eapply u_load_ok; [done|done|lia|lia]). done.
Qed.

Lemma argint_ok s i p n : on_cpu s i p -> backed (umem s) p -> exists r, argint n s = Ret r s.
Proof.
  intros Ho Hb. unfold argint. erewrite bind_ret by (by eapply curproc_eq). eexists. eapply fetchint_ok; [done|done|].
  unfold u32. apply Z.mod_pos_bound. lia.
Qed.

Lemma argptr_ok s i p n size : on_cpu s i p -> backed (umem s) p -> -2147483648 <= size < 2147483648 ->
  exists r, argptr n size s = Ret r s /\ forall a, r = Some a -> 0 <= size /\ 0 <= a /\ a + size <= p_sz p.
Proof.
  intros Ho Hb Hz. destruct (argint_ok s i p n Ho Hb) as [r Hr]. unfold argptr. erewrite bind_ret by (by eapply curproc_eq).
  erewrite bind_ret by exact Hr. destruct r as [z|]; [|by exists None].
  pose proof (proj1 Hb) as Hsz. unfold KERNBASE in Hsz.
  assert (Hu : 0 <= u32 z < 4294967296) by (unfold u32; apply Z.mod_pos_bound; lia).
  destruct ((size <? 0) || (p_sz p <=? u32 z) || (p_sz p <? u32 (u32 z + size))) eqn:E; [by exists None|].
  eexists. split; [done|]. intros a [= <-]. zbool. unfold u32 in H0 at 1. rewrite Z.mod_small in H0 by lia. lia.
Qed.

(** The string at [a]: its bytes, none of them zero, and the zero behind it. *)
Definition user_string (s : ker) (p : proc) (a : Z) (str : list Z) : Prop :=
  0 <= a /\ a + Z.of_nat (length str) < p_sz p /\
  str = map (ubyte (umem s) (p_pgdir p)) (seqZ a (Z.of_nat (length str))) /\ Forall (.≠ 0) str /\
  ubyte (umem s) (p_pgdir p) (a + Z.of_nat (length str)) = 0.

Lemma fetchstr_loop_ok s i p a fuel : forall k acc, on_cpu s i p -> backed (umem s) p -> 0 <= a -> a + k <= p_sz p ->
  k = Z.of_nat (length acc) -> acc = map (ubyte (umem s) (p_pgdir p)) (seqZ a k) -> Forall (.≠ 0) acc ->
  (Z.to_nat (p_sz p - (a + k)) < fuel)%nat ->
  exists r, fetchstr_loop (a + k) (p_sz p) acc fuel s = Ret r s /\ forall str, r = Some str -> user_string s p a str.
Proof.
  induction fuel as [|f IH]; intros k acc Ho Hb Ha Hk Hl He Hn Hf; [lia|]. cbn [fetchstr_loop].
  destruct (Z.ltb_spec (a + k) (p_sz p)); [|by exists None].
  erewrite bind_ret by (eapply u_load_ok; [done|done|lia|lia]). change (Z.of_nat 1) with 1.
  rewrite (seqZ_cons (a + k) 1) by lia. change (Z.pred 1) with 0. cbn [seqZ map seq Z.to_nat fmap].
  change (seqZ (Z.succ (a + k)) 0) with (@nil Z). cbn [map].
  destruct (Z.eqb_spec (ubyte (umem s) (p_pgdir p) (a + k)) 0) as [E|E].
  - eexists. split; [done|]. intros str [= <-]. unfold user_string. rewrite <- Hl. by split_and!.
  - replace (a + k + 1) with (a + (k + 1)) by lia. apply IH; try done; try lia.
    + rewrite length_app. cbn. lia.
    + rewrite seqZ_app by lia. rewrite map_app, <- He. done.
    + apply Forall_app. split; [done|]. by apply Forall_singleton.
Qed.

Lemma argstr_ok s i p n : on_cpu s i p -> backed (umem s) p ->
  exists r, argstr n s = Ret r s /\ forall str, r = Some str -> exists a, user_string s p a str.
Proof.
  intros Ho Hb. destruct (argint_ok s i p n Ho Hb) as [r Hr]. unfold argstr. erewrite bind_ret by exact Hr.
  destruct r as [z|]; [|by exists None]. unfold fetchstr. erewrite bind_ret by (by eapply curproc_eq).
  assert (Hu : 0 <= u32 z < 4294967296) by (unfold u32; apply Z.mod_pos_bound; lia).
  destruct (Z.leb_spec (p_sz p) (u32 z)); [by exists None|].
  destruct (fetchstr_loop_ok s i p (u32 z) (S (Z.to_nat (p_sz p - u32 z))) 0 [] Ho Hb) as (r & R & H1); try done; try lia.
  rewrite Z.add_0_r in R. exists r. split; [done|]. intros str Es. exists (u32 z). by apply H1.
Qed.

(** ** Storing into user memory *)

Lemma as_ok_ext km l pgdir m' : as_ok km l pgdir -> (forall b, m' b = k_mem km b) ->
  as_ok (set_mem m' km) l pgdir /\ same_pt (k_mem km) m' pgdir.
Proof.
  intros Hok E. assert (Hs : same_pt (k_mem km) m' pgdir) by (by apply (pte_at_ext (k_mem km) m' l pgdir (ao_pt _ _ _ Hok))).
  split; [|done]. eapply (as_ok_same km); [exact Hok|exact Hs| |auto].
  apply kmem_other; [apply Hok| |by intros; apply E]. intros a. rewrite E. apply (km_bytes _ _ (ao_k _ _ _ Hok)).
Qed.

Lemma user_st8 km l pgdir va b : as_ok km l pgdir -> umapped (k_mem km) pgdir va -> byte_ok b ->
  let m' := st8 (k_mem km) (upage (k_mem km) pgdir va + va mod 4096) b in
  as_ok (set_mem m' km) l pgdir /\ same_pt (k_mem km) m' pgdir /\
  (forall va', umapped (k_mem km) pgdir va' -> ubyte m' pgdir va' = uwrite (k_mem km) pgdir va [b] va').
Proof.
  intros Hok Hva Hb m'. pose proof (Z.mod_pos_bound va 4096 ltac:(lia)) as Hmod.
  destruct (user_poke km l pgdir va [b] Hok Hva) as (P1 & P2 & P3); [by apply Forall_singleton|cbn; lia|].
  set (m1 := poke (k_mem km) (upage (k_mem km) pgdir va + va mod 4096) [b]) in *.
  assert (E : forall x, m' x = m1 x).
  { intros x. unfold m', m1, st8, poke. cbn [length]. unfold byte_ok in Hb.
    destruct (Z.eqb_spec x (upage (k_mem km) pgdir va + va mod 4096)) as [->|].
    - rewrite (proj2 (Z.leb_le _ _)), (proj2 (Z.ltb_lt _ _)), Z.sub_diag by lia. cbn. by rewrite Z.mod_small.
    - destruct (Z.leb_spec (upage (k_mem km) pgdir va + va mod 4096) x), (Z.ltb_spec x (upage (k_mem km) pgdir va + va mod 4096 + Z.of_nat 1)); cbn [andb]; done || lia. }
  destruct (as_ok_ext (set_mem m1 km) l pgdir m' P1 E) as [Q1 Q2]. split; [exact Q1|].
  split; [eapply same_pt_trans; [exact P2|exact Q2]|]. intros va' Hva'. rewrite <- P3 by done. unfold ubyte.
  destruct (same_pt_owned _ _ _ Q2) as (_ & E2 & _). rewrite E2. apply E.
Qed.

Lemma backed_same m m' p : same_pt m m' (p_pgdir p) -> backed m p -> backed m' p.
Proof.
  intros Hs [Hz Hb]. split; [done|]. intros va Hva. destruct (Hb va Hva) as [H1 H2].
  destruct (same_pt_owned _ _ _ Hs) as (E1 & _). split; [by apply E1|]. by rewrite (proj2 Hs).
Qed.

Lemma uwrite_cons m m1 pgdir va b w va' : (ubyte m1 pgdir va' = uwrite m pgdir va [b] va') ->
  uwrite m1 pgdir (va + 1) w va' = uwrite m pgdir va (b :: w) va'.
Proof.
  unfold uwrite, in_range. cbn [length]. intros ->.
  destruct (Z.leb_spec (va + 1) va'), (Z.ltb_spec va' (va + 1 + Z.of_nat (length w))), (Z.leb_spec va va'),
    (Z.ltb_spec va' (va + Z.of_nat (S (length w)))), (Z.ltb_spec va' (va + Z.of_nat 1)); cbn [andb]; try done; try lia.
  - replace (Z.to_nat (va' - va)) with (S (Z.to_nat (va' - (va + 1)))) by lia. done.
  - by replace (Z.to_nat (va' - va)) with 0%nat by lia.
Qed.

Lemma store_bytes_ok p l w : forall va km, as_ok km l (p_pgdir p) -> backed (k_mem km) p -> Forall byte_ok w ->
  0 <= va -> va + Z.of_nat (length w) <= p_sz p ->
  exists m', store_bytes (k_mem km) (p_pgdir p) va w = Some m' /\ as_ok (set_mem m' km) l (p_pgdir p) /\
    same_pt (k_mem km) m' (p_pgdir p) /\
    forall va', umapped (k_mem km) (p_pgdir p) va' -> ubyte m' (p_pgdir p) va' = uwrite (k_mem km) (p_pgdir p) va w va'.
Proof.
  induction w as [|b w IH]; intros va km Hok Hb Hw H0 Hn; cbn [store_bytes].
  - exists (k_mem km). split; [done|]. destruct (as_ok_ext km l (p_pgdir p) (k_mem km) Hok) as [A B]; [done|].
    split_and!; try done. intros va' _. unfold uwrite, in_range.
    destruct (Z.leb_spec va va'), (Z.ltb_spec va' (va + Z.of_nat (@length Z []))) as [E|E]; cbn [andb]; try done.
    cbn in E. lia.
  - apply Forall_cons in Hw as [Hb1 Hw]. cbn [length] in Hn. rewrite (user_addr_ok _ p) by (done || lia). cbn [mbind option_bind].
    destruct (proj2 Hb va) as [Hm _]; [lia|]. destruct (user_st8 km l (p_pgdir p) va b Hok Hm Hb1) as (A & B & C).
    set (m1 := st8 _ _ _) in *.
    destruct (IH (va + 1) (set_mem m1 km) A (backed_same _ _ _ B Hb) Hw) as (m' & R & A' & B' & C'); [lia|lia|].
    exists m'. split_and!; [exact R|exact A'|by eapply same_pt_trans|].
    intros va' Hva'. destruct (same_pt_owned _ _ _ B) as (E1 & _). rewrite C' by (by apply E1). by apply uwrite_cons, C.
Qed.

(** What a user range reads after a store over it. *)
Lemma uwrite_read m pgdir va w : map (uwrite m pgdir va w) (seqZ va (Z.of_nat (length w))) = w.
Proof.
  apply list_eq. intros j. rewrite list_lookup_fmap. destruct (decide (j < length w)%nat) as [Hj|Hj].
  - rewrite lookup_seqZ_lt by lia. cbn. unfold uwrite, in_range.
    rewrite (proj2 (Z.leb_le _ _)), (proj2 (Z.ltb_lt _ _)) by lia. cbn [andb].
    replace (Z.to_nat (va + Z.of_nat j - va)) with j by lia. by rewrite list_lookup_lookup_total_lt.
  - rewrite (lookup_ge_None_2 w) by lia. rewrite lookup_seqZ_ge by lia. done.
Qed.

Lemma u_store_ok s i p l va w : on_cpu s i p -> as_ok (kmem s) l (p_pgdir p) -> backed (umem s) p -> Forall byte_ok w ->
  0 <= va -> va + Z.of_nat (length w) <= p_sz p ->
  exists s', u_store va w s = Ret tt s' /\ on_cpu s' i p /\ as_ok (kmem s') l (p_pgdir p) /\
    same_pt (umem s) (umem s') (p_pgdir p) /\
    forall va', umapped (umem s) (p_pgdir p) va' -> ubyte (umem s') (p_pgdir p) va' = uwrite (umem s) (p_pgdir p) va w va'.
Proof.
  intros Ho Hok Hb Hw H0 Hn. destruct (store_bytes_ok p l w va (kmem s) Hok Hb Hw H0 Hn) as (m' & R & A & B & C).
  eexists. split.
  - unfold u_store. erewrite bind_ret by (by eapply curproc_eq). unfold deref.
    erewrite bind_ret; [reflexivity|]. change (k_mem (kr_mem (f_blk s))) with (k_mem (kmem s)). by rewrite R.
  - split_and!; [exact Ho|exact A|exact B|exact C].
Qed.

Lemma backed_bytes m m' p va w : same_pt m m' (p_pgdir p) -> backed m p -> 0 <= va -> va + Z.of_nat (length w) <= p_sz p ->
  (forall va', umapped m (p_pgdir p) va' -> ubyte m' (p_pgdir p) va' = uwrite m (p_pgdir p) va w va') ->
  map (ubyte m' (p_pgdir p)) (seqZ va (Z.of_nat (length w))) = w.
Proof.
  intros Hs Hb H0 Hn HC. rewrite <- (uwrite_read m (p_pgdir p) va w) at 2. apply map_ext_Forall, Forall_forall.
  intros x [Hx1 Hx2]%elem_of_seqZ. apply HC. apply (proj2 Hb). lia.
Qed.
End Args.

(** ** The size of a process *)

Section Size.
Context {SY : Symbols} {HS : SymbolsOk} {KS : KSymbols}.

(** The user half of an address space of [sz] bytes: the pages below [sz],
    rounded up, are mapped and writable, none above. *)
Record user_space (km : kst) (l : list Z) (pgdir sz : Z) : Prop := mkuspace {
  us_as : as_ok km l pgdir;
  us_sz : 0 < sz < KERNBASE;
  us_in : forall va, 0 <= va < ru sz -> umapped (k_mem km) pgdir va /\ Z.land (pte_at (k_mem km) pgdir va) PTE_W <> 0;
  us_out : forall va, ru sz <= va < KERNBASE -> present (pte_at (k_mem km) pgdir va) = false }.

Lemma user_space_backed km l p : user_space km l (p_pgdir p) (p_sz p) -> backed (k_mem km) p.
Proof.
  intros [_ Hz Hi _]. split; [lia|]. intros va Hva. apply Hi. destruct (ru_ok (p_sz p)) as (_ & H & _); lia.
Qed.

Lemma in_range_false lo hi x : ~ (lo <= x < hi) -> in_range lo hi x = false.
Proof. intros H. unfold in_range. destruct (Z.leb_spec lo x), (Z.ltb_spec x hi); cbn; done || lia. Qed.
Lemma in_range_true lo hi x : lo <= x < hi -> in_range lo hi x = true.
Proof. intros H. unfold in_range. destruct (Z.leb_spec lo x), (Z.ltb_spec x hi); cbn; done || lia. Qed.
Lemma in_range_spec lo hi x : in_range lo hi x = true <-> lo <= x < hi.
Proof. unfold in_range. destruct (Z.leb_spec lo x), (Z.ltb_spec x hi); cbn; split; intros; done || lia. Qed.

Lemma ru_KERNBASE sz : sz < KERNBASE -> ru sz <= KERNBASE.
Proof. unfold ru, KERNBASE. intros. zdiv. Qed.

Lemma shrunk_space km l pgdir sz sz' km' l' : user_space km l pgdir sz -> 0 < sz' < sz ->
  unmapped km l pgdir km' l' (in_range (ru sz') sz) -> user_space km' l' pgdir sz'.
Proof.
  intros [Hok Hz Hi Ho] Hlt Hu. pose proof (ru_KERNBASE sz ltac:(lia)) as Hk. unfold KERNBASE in *.
  assert (Hru : ru sz' <= ru sz) by (unfold ru; zdiv). split; [apply Hu|unfold KERNBASE; lia|..].
  - intros va Hva. destruct (Hi va ltac:(lia)) as [[H1 H2] H3].
    assert (E : pte_at (k_mem km') pgdir va = pte_at (k_mem km) pgdir va).
    { rewrite (um_pte _ _ _ _ _ _ Hu) by lia. rewrite in_range_false; [done|]. unfold pg. zdiv. }
    unfold umapped. rewrite E. done.
  - intros va Hva. unfold KERNBASE in Hva. assert (H0 : 0 <= ru sz') by (unfold ru; zdiv). rewrite (um_pte _ _ _ _ _ _ Hu) by lia.
    destruct (in_range (ru sz') sz (pg va)) eqn:E; cbn [andb].
    + destruct (present (pte_at (k_mem km) pgdir va)) eqn:E'; [done|exact E'].
    + apply Ho. unfold KERNBASE. split; [|lia]. apply not_true_iff_false in E. rewrite in_range_spec in E. unfold pg, ru in *. zdiv.
Qed.

Lemma flags_W e : PTE_FLAGS e = UFLAGS -> Z.land e PTE_W <> 0.
Proof.
  unfold PTE_FLAGS, UFLAGS, PTE_W. intros E. replace (Z.land e 2) with (Z.land (Z.land e 4095) 2); [by rewrite E|].
  by rewrite <- Z.land_assoc.
Qed.

Lemma grown_space km l pgdir sz sz' km' l' : user_space km l pgdir sz -> sz < sz' < KERNBASE ->
  grown km pgdir km' l' (ru sz) sz' -> user_space km' l' pgdir sz'.
Proof.
  intros [Hok Hz Hi Ho] Hlt Hg. pose proof (ru_KERNBASE sz' ltac:(lia)) as Hk. unfold KERNBASE in *.
  split; [apply Hg|unfold KERNBASE; lia|..].
  - intros va Hva. destruct (in_range (ru sz) sz' (pg va)) eqn:E.
    + destruct (gw_new _ _ _ _ _ _ Hg va) as (A & B & _); [unfold KERNBASE; lia|done|]. split; [done|by apply flags_W].
    + assert (Hv : 0 <= va < ru sz).
      { split; [lia|]. apply not_true_iff_false in E. rewrite in_range_spec in E. unfold pg, ru in *. zdiv. }
      destruct (Hi va Hv) as [[H1 H2] H3]. unfold umapped. by rewrite (gw_pte _ _ _ _ _ _ Hg) by (done || lia).
  - intros va Hva. unfold KERNBASE in Hva. assert (H0 : ru sz <= ru sz' /\ 0 <= ru sz) by (unfold ru; zdiv).
    rewrite (gw_pte _ _ _ _ _ _ Hg); [apply Ho; unfold KERNBASE; lia|lia|].
    apply in_range_false. unfold pg, ru in *. zdiv.
Qed.

Lemma restored_space km l pgdir sz sz' km' l' : user_space km l pgdir sz -> sz < sz' < KERNBASE ->
  restored km pgdir km' l' (ru sz) sz' -> user_space km' l' pgdir sz.
Proof.
  intros [Hok Hz Hi Ho] Hlt Hr. pose proof (ru_KERNBASE sz ltac:(lia)) as Hk. unfold KERNBASE in *.
  split; [apply Hr|unfold KERNBASE; lia|..].
  - intros va Hva. destruct (Hi va Hva) as [[H1 H2] H3]. unfold umapped. rewrite (re_pte _ _ _ _ _ _ Hr); [done|lia|].
    apply in_range_false. unfold pg. zdiv.
  - intros va Hva. unfold KERNBASE in Hva. assert (0 <= ru sz) by (unfold ru; zdiv).
    destruct (in_range (ru sz) sz' (pg va)) eqn:E; [by apply (re_none _ _ _ _ _ _ Hr); [lia|]|].
    rewrite (re_pte _ _ _ _ _ _ Hr) by (done || lia). apply Ho. unfold KERNBASE. lia.
Qed.

(** *** growproc *)

Lemma memm_eq {A} (m : M kst A) s a k : m (kmem s) = Ret a k -> memm m s = Ret a (rest (set_kmem k) s).
Proof. intros H. unfold memm, zoom. change (kr_mem (f_blk s)) with (kmem s). by rewrite H. Qed.

Lemma modproc_eq s i p f : on_cpu s i p -> exists s', modproc f s = Ret tt s' /\ on_cpu s' i (f p) /\ kmem s' = kmem s.
Proof.
  intros [Hc Hp]. eexists. split; [|split].
  - unfold modproc. erewrite bind_ret; [reflexivity|]. unfold procm, zoom, myproc, deref. rewrite Hc. by rewrite ker_eta_procs.
  - split; [exact Hc|]. cbn. rewrite list_lookup_alter. cbn in Hp. change (bk_procs (f_blk s)) with (f_procs s) in *.
    by rewrite decide_True, Hp by done.
  - done.
Qed.

Lemma resize_ok s i p z : on_cpu s i p -> p_kstack p <> 0 -> p_pgdir p <> 0 ->
  exists s', (modproc (set_sz z) ;; q ← curproc; switchuvm q ;; mret 0) s = Ret 0 s' /\ on_cpu s' i (set_sz z p) /\ kmem s' = kmem s.
Proof.
  intros Ho Hk Hd. destruct (modproc_eq s i p (set_sz z) Ho) as (s' & R & Ho' & E). exists s'. split; [|done].
  erewrite bind_ret by exact R. erewrite bind_ret by (by eapply curproc_eq). unfold switchuvm. cbn [p_kstack p_pgdir set_sz].
  by rewrite (proj2 (Z.eqb_neq _ _) Hk), (proj2 (Z.eqb_neq _ _) Hd).
Qed.

Lemma user_space_pgdir km l pgdir sz : user_space km l pgdir sz -> pgdir <> 0.
Proof. intros [Hok _ _ _]. destruct (pk_dir _ _ _ (ao_pt _ _ _ Hok)) as [[H1 H2] _]. pose proof sym_end_ok. pose proof sym_data_ok. unfold KERNLINK, KERNBASE, EXTMEM in *. lia. Qed.

Lemma set_sz_same p : set_sz (p_sz p) p = p.
Proof. by destruct p. Qed.

(** The bytes below [z] are kept. *)
Definition kept (m m' : mem) (pgdir z : Z) : Prop := forall va, 0 <= va < z -> ubyte m' pgdir va = ubyte m pgdir va.

Lemma shrunk_kept km l pgdir sz sz' km' l' : user_space km l pgdir sz -> 0 < sz' < sz ->
  unmapped km l pgdir km' l' (in_range (ru sz') sz) -> kept (k_mem km) (k_mem km') pgdir sz'.
Proof.
  intros [Hok Hz Hi Ho] Hlt Hu va Hva. pose proof (ru_KERNBASE sz ltac:(lia)) as Hk. unfold KERNBASE in *.
  assert (Hm : umapped (k_mem km) pgdir va) by (apply Hi; unfold ru; zdiv).
  assert (Hr : in_range (ru sz') sz (pg va) = false) by (apply in_range_false; unfold pg, ru; zdiv).
  unfold ubyte, upage at 1. rewrite (um_pte _ _ _ _ _ _ Hu), Hr by lia. cbn [andb]. fold (upage (k_mem km) pgdir va).
  eapply (um_bytes _ _ _ _ _ _ Hu va); [done|done|]. pose proof (Z.mod_pos_bound va 4096 ltac:(lia)). lia.
Qed.

(** Growing and undoing it keep the entries below. *)
Lemma entries_kept km l pgdir sz km' : user_space km l pgdir sz -> ukeep (k_mem km) pgdir (k_mem km') ->
  (forall va, 0 <= va < sz -> pte_at (k_mem km') pgdir va = pte_at (k_mem km) pgdir va) -> kept (k_mem km) (k_mem km') pgdir sz.
Proof.
  intros [Hok Hz Hi Ho] Hk Hp va Hva. unfold ubyte, upage at 1. rewrite Hp by done. fold (upage (k_mem km) pgdir va).
  apply (Hk va); [apply Hi; unfold ru; zdiv|]. pose proof (Z.mod_pos_bound va 4096 ltac:(lia)). lia.
Qed.

Lemma below_out sz hi va : 0 <= va < sz -> in_range (ru sz) hi (pg va) = false.
Proof. intros. apply in_range_false. unfold pg, ru. zdiv. Qed.

Lemma grow_ok s i p l n : on_cpu s i p -> user_space (kmem s) l (p_pgdir p) (p_sz p) -> p_kstack p <> 0 -> 0 < n < 2147483648 ->
  exists r s' l' z, growproc n s = Ret r s' /\ on_cpu s' i (set_sz z p) /\ user_space (kmem s') l' (p_pgdir p) z /\
    kept (umem s) (umem s') (p_pgdir p) (p_sz p) /\ (r = 0 /\ z = p_sz p + n \/ r = -1 /\ z = p_sz p).
Proof.
  intros Ho Hu Hk Hn. pose proof (user_space_pgdir _ _ _ _ Hu) as Hd. pose proof (us_sz _ _ _ _ Hu) as Hz. unfold KERNBASE in Hz.
  unfold growproc. erewrite bind_ret by (by eapply curproc_eq). cbv zeta. rewrite (proj2 (Z.ltb_lt 0 n)) by lia.
  rewrite (u32_small (p_sz p + n)) by lia.
  destruct (Z.leb_spec KERNBASE (p_sz p + n)) as [Hb|Hb].
  { exists (-1), s, l, (p_sz p). rewrite set_sz_same. split_and!; try done; [|by right].
    erewrite bind_ret; [|erewrite bind_ret; [reflexivity|]; apply memm_eq; unfold allocuvm; by rewrite (proj2 (Z.leb_le _ _)) by done].
    by rewrite ker_eta_mem. }
  pose proof (allocuvm_ok (kmem s) l (p_pgdir p) (p_sz p) (p_sz p + n) (us_as _ _ _ _ Hu) ltac:(lia) ltac:(lia)) as HA.
  rewrite (proj2 (Z.leb_gt _ _)) in HA by lia. rewrite (proj2 (Z.ltb_ge _ _)) in HA by lia.
  destruct HA as (r & km' & l' & R & _ & Hr).
  { intros va Hva Hin. apply (us_out _ _ _ _ Hu). rewrite in_range_spec in Hin. unfold pg, ru, KERNBASE in *. zdiv. }
  apply memm_eq in R. destruct Hr as [[-> Hg]|[-> Hg]].
  - destruct (resize_ok (rest (set_kmem km') s) i p (p_sz p + n) Ho Hk Hd) as (s' & R' & Ho' & E).
    exists 0, s', l', (p_sz p + n). unfold umem. rewrite E. split_and!; try done; [| | |by left].
    + erewrite bind_ret; [|erewrite bind_ret by exact R; reflexivity]. by rewrite (proj2 (Z.eqb_neq (p_sz p + n) 0)) by lia.
    + eapply grown_space; [exact Hu|lia|exact Hg].
    + eapply (entries_kept _ _ _ _ km'); [exact Hu|apply Hg|]. intros va Hva. apply (gw_pte _ _ _ _ _ _ Hg); [lia|by apply below_out].
  - exists (-1), (rest (set_kmem km') s), l', (p_sz p). rewrite set_sz_same. split_and!; try done; [| | |by right].
    + erewrite bind_ret; [|erewrite bind_ret by exact R; reflexivity]. done.
    + eapply restored_space; [exact Hu| |exact Hg]. unfold KERNBASE in *. lia.
    + eapply (entries_kept _ _ _ _ km'); [exact Hu|apply Hg|]. intros va Hva. apply (re_pte _ _ _ _ _ _ Hg); [lia|by apply below_out].
Qed.

Lemma shrink_ok s i p l n : on_cpu s i p -> user_space (kmem s) l (p_pgdir p) (p_sz p) -> p_kstack p <> 0 ->
  -2147483648 <= n < 0 -> 0 < p_sz p + n ->
  exists s' l', growproc n s = Ret 0 s' /\ on_cpu s' i (set_sz (p_sz p + n) p) /\
    user_space (kmem s') l' (p_pgdir p) (p_sz p + n) /\ kept (umem s) (umem s') (p_pgdir p) (p_sz p + n).
Proof.
  intros Ho Hu Hk Hn Hpos. pose proof (user_space_pgdir _ _ _ _ Hu) as Hd. pose proof (us_sz _ _ _ _ Hu) as Hz.
  destruct (deallocuvm_ok (kmem s) l (p_pgdir p) (p_sz p) (p_sz p + n) (us_as _ _ _ _ Hu)) as (km' & l' & R & Hun); [lia|lia|].
  unfold KERNBASE in Hz. apply memm_eq in R.
  destruct (resize_ok (rest (set_kmem km') s) i p (p_sz p + n) Ho Hk Hd) as (s' & R' & Ho' & E).
  exists s', l'. unfold umem. rewrite E. split_and!; try done.
  - unfold growproc. erewrite bind_ret by (by eapply curproc_eq). cbv zeta.
    rewrite (proj2 (Z.ltb_ge 0 n)), (proj2 (Z.ltb_lt n 0)), (u32_small (p_sz p + n)) by lia.
    erewrite bind_ret; [|erewrite bind_ret by exact R; reflexivity]. by rewrite (proj2 (Z.eqb_neq (p_sz p + n) 0)) by lia.
  - eapply shrunk_space; [exact Hu|lia|exact Hun].
  - eapply shrunk_kept; [exact Hu|lia|exact Hun].
Qed.

(** A size that would be negative wraps around: nothing happens. *)
Lemma shrink_wraps s i p l n : on_cpu s i p -> user_space (kmem s) l (p_pgdir p) (p_sz p) -> p_kstack p <> 0 ->
  -2147483648 <= n < 0 -> p_sz p + n < 0 ->
  exists s', growproc n s = Ret 0 s' /\ on_cpu s' i p /\ kmem s' = kmem s.
Proof.
  intros Ho Hu Hk Hn Hneg. pose proof (user_space_pgdir _ _ _ _ Hu) as Hd. pose proof (us_sz _ _ _ _ Hu) as Hz. unfold KERNBASE in Hz.
  destruct (resize_ok s i p (p_sz p) Ho Hk Hd) as (s' & R' & Ho' & E). rewrite set_sz_same in Ho'.
  exists s'. split_and!; try done. unfold growproc. erewrite bind_ret by (by eapply curproc_eq). cbv zeta.
  rewrite (proj2 (Z.ltb_ge 0 n)), (proj2 (Z.ltb_lt n 0)) by lia.
  assert (Eu : p_sz p <= u32 (p_sz p + n)).
  { unfold u32. replace (p_sz p + n) with (p_sz p + n + 4294967296 + -1 * 4294967296) by lia.
    rewrite Z.mod_add, Z.mod_small by lia. lia. }
  erewrite bind_ret; [|erewrite bind_ret; [reflexivity|]; apply memm_eq; unfold deallocuvm; by rewrite (proj2 (Z.leb_le _ _)) by done].
  rewrite ker_eta_mem. by rewrite (proj2 (Z.eqb_neq (p_sz p) 0)) by lia.
Qed.

(** ** wait *)

(** Slot [k] is the first zombie among the children of [i]. *)
Definition first_zombie (i : nat) (tb : list proc) (k : nat) (q : proc) : Prop :=
  tb !! k = Some q /\ p_parent q = Some i /\ p_state q = ZOMBIE /\
  forall j q', (j < k)%nat -> tb !! j = Some q' -> p_parent q' = Some i -> p_state q' <> ZOMBIE.

Lemma wait_scan_first i tb : forall k q off hk, first_zombie i tb k q -> wait_scan i tb off hk = (true, Some (off + k)%nat).
Proof.
  induction tb as [|x tb IH]; intros k q off hk (Hk & Hp & Hz & Hf); [done|]. cbn [wait_scan]. destruct k as [|k].
  - injection Hk as ->. rewrite decide_True, decide_True by done. by rewrite Nat.add_0_r.
  - assert (Hfz : first_zombie i tb k q).
    { split_and!; try done. intros j q' Hj Hq'. apply (Hf (S j) q'); [lia|done]. }
    replace (off + S k)%nat with (S off + k)%nat by lia. case_decide as E; [|by eapply IH].
    rewrite decide_False; [by eapply IH|]. apply (Hf 0%nat x); [lia|done|done].
Qed.

Lemma getslot_eq s k q : ptable (f_procs s) !! k = Some q -> getslot k s = Ret q s.
Proof. intros H. unfold getslot, procm, zoom, getproc, deref. rewrite H. by rewrite ker_eta_procs. Qed.

Lemma modslot_eq s k q f : ptable (f_procs s) !! k = Some q ->
  exists s', modslot k f s = Ret tt s' /\ ptable (f_procs s') = <[k := f q]> (ptable (f_procs s)) /\
    cur (f_procs s') = cur (f_procs s) /\ kmem s' = kmem s.
Proof. intros H. eexists. split; [reflexivity|]. split_and!; try done. cbn. by apply alter_id. Qed.

Lemma wait_ok s i p k q l : on_cpu s i p -> first_zombie i (ptable (f_procs s)) k q ->
  as_ok (kmem s) l (p_pgdir q) -> in_hand (kmem s) l (p_pgdir q) (p_kstack q) ->
  exists s' l', wait s = Ret (p_pid q) s' /\ kmem_ok (kmem s') l' /\
    (forall a, a ∈ l' <-> a ∈ l \/ a = p_kstack q \/ owned (umem s) (p_pgdir q) a) /\
    ptable (f_procs s') = <[k := reaped (set_kstack 0 q)]> (ptable (f_procs s)).
Proof.
  intros [Hc Hp] Hz Hok Hh. pose proof (proj1 Hz) as Hq. pose proof (lookup_lt_Some _ _ _ Hq) as Hlt.
  destruct (hand_give (kmem s) l (p_pgdir q) (p_kstack q) Hok Hh) as (R1 & Hok1 & Hs1). apply memm_eq in R1.
  set (s1 := rest (set_kmem (kfreed (p_kstack q) (kmem s))) s) in *.
  destruct (modslot_eq s1 k q (set_kstack 0) Hq) as (s2 & R2 & T2 & _ & K2).
  destruct (freevm_ok (kmem s2) (p_kstack q :: l) (p_pgdir q)) as (km3 & l3 & R3 & Hk3 & H3); [by rewrite K2|].
  apply memm_eq in R3. set (s3 := rest (set_kmem km3) s2) in *.
  assert (T3 : ptable (f_procs s3) !! k = Some (set_kstack 0 q)).
  { change (ptable (f_procs s3)) with (ptable (f_procs s2)). rewrite T2. by apply list_lookup_insert_eq. }
  destruct (modslot_eq s3 k _ reaped T3) as (s4 & R4 & T4 & _ & K4).
  exists s4, l3. split_and!.
  - unfold wait. erewrite bind_ret; [|unfold procm, zoom, myproc, deref; rewrite Hc; by rewrite ker_eta_procs].
    erewrite bind_ret; [|unfold procm, zoom, gets; by rewrite ker_eta_procs].
    rewrite (wait_scan_first i _ k q) by done. change (0 + k)%nat with k.
    erewrite bind_ret by (by apply getslot_eq). erewrite bind_ret by exact R1. erewrite bind_ret by exact R2.
    erewrite bind_ret by exact R3. by erewrite bind_ret by exact R4.
  - by rewrite K4.
  - intros a. rewrite H3, elem_of_cons. rewrite K2. destruct (same_pt_owned _ _ _ Hs1) as (_ & _ & _ & E).
    change (k_mem (kmem s1)) with (k_mem (kfreed (p_kstack q) (kmem s))). rewrite E. unfold umem. tauto.
  - rewrite T4. change (ptable (f_procs s3)) with (ptable (f_procs s2)). rewrite T2. by rewrite list_insert_insert_eq.
Qed.

(** ** kill and allocproc *)

(** [k] is the first slot with [P]. *)
Definition first_slot (P : proc -> Prop) (tb : list proc) (k : nat) (q : proc) : Prop :=
  tb !! k = Some q /\ P q /\ forall j q', (j < k)%nat -> tb !! j = Some q' -> ~ P q'.

Lemma first_slot_S P x tb k q : first_slot P (x :: tb) (S k) q -> ~ P x /\ first_slot P tb k q.
Proof.
  intros (H1 & H2 & H3). split; [apply (H3 0%nat x); [lia|done]|]. split_and!; try done.
  intros j q' Hj. apply (H3 (S j) q'). lia.
Qed.

Lemma kill_loop_first pid tb : forall k q, first_slot (fun q => p_pid q = pid) tb k q -> p_state q <> SLEEPING ->
  kill_loop pid tb = Some (<[k := set_killed true q]> tb).
Proof.
  induction tb as [|x tb IH]; intros k q Hf Hs; [by destruct Hf|]. cbn [kill_loop]. destruct k as [|k].
  - destruct Hf as ([= ->] & -> & _). rewrite Z.eqb_refl. cbn [p_state set_killed]. by rewrite decide_False by done.
  - apply first_slot_S in Hf as [Hx Hf]. rewrite (proj2 (Z.eqb_neq _ _) Hx). by rewrite (IH k q).
Qed.

Lemma find_unused_first tb : forall k q off, first_slot (fun q => p_state q = UNUSED) tb k q -> find_unused tb off = Some (off + k)%nat.
Proof.
  induction tb as [|x tb IH]; intros k q off Hf; [by destruct Hf|]. cbn [find_unused]. destruct k as [|k].
  - destruct Hf as ([= ->] & Hu & _). rewrite decide_True by done. by rewrite Nat.add_0_r.
  - apply first_slot_S in Hf as [Hx Hf]. rewrite decide_False by done. rewrite (IH k q) by done. f_equal. lia.
Qed.

(** allocproc with a free slot and a free page. *)
Lemma allocproc_ok s k q a l : first_slot (fun q => p_state q = UNUSED) (ptable (f_procs s)) k q -> kmem_ok (kmem s) (a :: l) ->
  exists s', allocproc s = Ret (Some k) s' /\
    ptable (f_procs s') !! k = Some (set_kstack a (set_pid (nextpid (f_procs s)) (set_state EMBRYO q))).
Proof.
  intros Hf Hk. pose proof (proj1 Hf) as Hq. pose proof (lookup_lt_Some _ _ _ Hq) as Hlt.
  pose proof (km_pages _ _ Hk) as Ha. apply Forall_cons in Ha as [[_ Ha] _].
  assert (Hne : a <> 0) by lia.
  destruct (modslot_eq s k q (fun p => set_pid (nextpid (f_procs s)) (set_state EMBRYO p)) Hq) as (s1 & R1 & T1 & _ & K1).
  set (s2 := set_f_procs (set_nextpid (i32 (nextpid (f_procs s) + 1)) (f_procs s1)) s1).
  assert (K2 : kmem s2 = kmem s) by exact K1.
  destruct (kalloc_cons (kmem s2) a l) as [R3 _]; [by rewrite K2|]. apply memm_eq in R3.
  set (s3 := rest (set_kmem (set_freelist (ld32 (k_mem (kmem s2)) a) (kmem s2))) s2) in *.
  destruct (modslot_eq s3 k (set_pid (nextpid (f_procs s)) (set_state EMBRYO q)) (set_kstack a)) as (s4 & R4 & T4 & _ & K4).
  { change (ptable (f_procs s3)) with (ptable (f_procs s1)). rewrite T1. by apply list_lookup_insert_eq. }
  eexists. split.
  - unfold allocproc. erewrite bind_ret; [|unfold procm, zoom, gets; by rewrite ker_eta_procs].
    rewrite (find_unused_first _ k q) by done. change (0 + k)%nat with k.
    erewrite bind_ret; [|unfold procm, zoom, gets; by rewrite ker_eta_procs]. erewrite bind_ret by exact R1.
    erewrite (bind_ret _ _ s1 tt s2) by reflexivity. erewrite bind_ret by exact R3. erewrite bind_ret by exact R4.
    rewrite (proj2 (Z.eqb_neq _ _) Hne). by erewrite bind_ret by reflexivity.
  - change (ptable (f_procs s4) !! k = Some (set_kstack a (set_pid (nextpid (f_procs s)) (set_state EMBRYO q)))).
    rewrite T4. apply list_lookup_insert_eq. change (ptable (f_procs s3)) with (ptable (f_procs s1)). rewrite T1. by rewrite length_insert.
Qed.

(** ** trap and killed processes *)

Lemma exit_if_killed_return tf k s s' : exit_if_killed tf k s = Ret TReturn s' ->
  (forall i p, on_cpu s i p -> from_user tf = true -> p_killed p = false) /\ k s = Ret TReturn s'.
Proof.
  intros H. unfold exit_if_killed in H. apply bind_inv in H as (o & s1 & H1 & H). apply maybe_proc_inv in H1 as [-> Ho].
  destruct o as [p|].
  - destruct Ho as (i & Hm & Hp). destruct (p_killed p && from_user tf) eqn:E; [by apply bind_inv in H as (u & s1 & _ & [=])|].
    split; [|done]. intros i' p' [Hc Hp'] Hu. change (cur (f_procs s) = Some i) in Hm. rewrite Hm in Hc. injection Hc as <-.
    rewrite Hp in Hp'. injection Hp' as <-. by rewrite Hu, andb_true_r in E.
  - split; [|done]. intros i p [Hc _] _. change (cur (f_procs s) = None) in Ho. congruence.
Qed.

Lemma after_yield_alive tf s s' i p : from_user tf = true -> on_cpu s' i p -> trap_after_yield tf s = Ret TReturn s' -> p_killed p = false.
Proof. intros Hu Ho H. apply exit_if_killed_return in H as [H [= <-]]. by eapply H. Qed.

Lemma trap_syscall_alive tf s s' i p : on_cpu s' i p -> trap_syscall tf s = Ret TReturn s' -> p_killed p = false.
Proof.
  intros Ho H. unfold trap_syscall in H. apply bind_inv in H as (q & s1 & _ & H).
  destruct (p_killed q); [by apply bind_inv in H as (u & s2 & _ & [=])|].
  apply bind_inv in H as (u & s2 & _ & H). apply bind_inv in H as (b & s3 & _ & H). destruct b; [|done]. cbn [negb] in H.
  apply bind_inv in H as (r & s4 & H4 & H). destruct (p_killed r) eqn:E; [by apply bind_inv in H as (u' & s5 & _ & [=])|].
  injection H as <-. apply curproc_inv in H4 as (-> & j & Hm & Hr). destruct Ho as [Hc Hp].
  change (cur (f_procs s3) = Some j) in Hm. rewrite Hm in Hc. injection Hc as <-. rewrite Hr in Hp. by injection Hp as <-.
Qed.
End Size.

Section Theorems.
Context {SY : Symbols} {HS : SymbolsOk} {KS : KSymbols}.

(** C17: fetching system call arguments.  With the pages below its size in
    place, nothing a process passes (stack pointer, pointers, sizes, string
    bytes) makes argint, argptr or argstr fault, panic or loop; the state is
    as before; a buffer argptr accepts lies inside the process, and a string
    argstr returns is the bytes of a string that ends inside the process. *)
Theorem syscall_args_safe (s : ker) (i : nat) (p : proc) : on_cpu s i p -> backed (umem s) p ->
  (forall n, exists r, argint n s = Ret r s) /\
  (forall n size, -2147483648 <= size < 2147483648 ->
    exists r, argptr n size s = Ret r s /\ forall a, r = Some a -> 0 <= size /\ 0 <= a /\ a + size <= p_sz p) /\
  (forall n, exists r, argstr n s = Ret r s /\ forall str, r = Some str -> exists a, user_string s p a str).
Proof.
  intros Ho Hb. split_and!; intros n.
  - by apply (argint_ok s i p).
  - intros size Hz. by apply (argptr_ok s i p).
  - by apply (argstr_ok s i p).
Qed.

(** a buffer inside the process can be written and read back: the store
    succeeds, what a load of the same range then returns is what was stored,
    every other byte of the process is as before, and the address space is
    still in order. *)
Theorem user_store_load (s : ker) (i : nat) (p : proc) (l : list Z) (va : Z) (w : list Z) :
  on_cpu s i p -> as_ok (kmem s) l (p_pgdir p) -> backed (umem s) p -> Forall byte_ok w ->
  0 <= va -> va + Z.of_nat (length w) <= p_sz p ->
  exists s', u_store va w s = Ret tt s' /\ u_load va (length w) s' = Ret w s' /\
    on_cpu s' i p /\ as_ok (kmem s') l (p_pgdir p) /\ backed (umem s') p /\
    forall va', 0 <= va' < p_sz p -> ~ (va <= va' < va + Z.of_nat (length w)) ->
      ubyte (umem s') (p_pgdir p) va' = ubyte (umem s) (p_pgdir p) va'.
Proof.
  intros Ho Hok Hb Hw H0 Hn. destruct (u_store_ok s i p l va w Ho Hok Hb Hw H0 Hn) as (s' & R & Ho' & A & B & C).
  assert (Hb' : backed (umem s') p) by (by eapply backed_same). exists s'. split_and!; try done.
  - rewrite (u_load_ok s' i p) by (done || lia). by rewrite (backed_bytes (umem s) (umem s') p va w).
  - intros va' Hva Hout. rewrite C by (by apply (proj2 Hb)). unfold uwrite, in_range.
    destruct (Z.leb_spec va va'), (Z.ltb_spec va' (va + Z.of_nat (length w))); cbn [andb]; done || lia.
Qed.

(** growproc (sbrk) to any size but zero.  It returns 0 with the size
    changed by n, or -1 with the size as before when memory or the user half
    runs out.  Either way the pages below the size are mapped and writable,
    none above, and the bytes that were and still are the process's are
    kept.  A shrink beyond zero wraps around and changes nothing. *)
Theorem growproc_correct (s : ker) (i : nat) (p : proc) (l : list Z) (n : Z) :
  on_cpu s i p -> user_space (kmem s) l (p_pgdir p) (p_sz p) -> p_kstack p <> 0 ->
  -2147483648 <= n < 2147483648 -> p_sz p + n <> 0 ->
  exists r s' l' z, growproc n s = Ret r s' /\ on_cpu s' i (set_sz z p) /\
    user_space (kmem s') l' (p_pgdir p) z /\ kept (umem s) (umem s') (p_pgdir p) (Z.min (p_sz p) z) /\
    (r = 0 /\ z = (if 0 <? p_sz p + n then p_sz p + n else p_sz p) \/ r = -1 /\ 0 < n /\ z = p_sz p).
Proof.
  intros Ho Hu Hk Hn Hne. pose proof (us_sz _ _ _ _ Hu) as Hz. destruct (Z.lt_trichotomy n 0) as [H|[->|H]].
  - destruct (Z.ltb_spec 0 (p_sz p + n)).
    + destruct (shrink_ok s i p l n Ho Hu Hk) as (s' & l' & R & A & B & C); [lia|lia|].
      exists 0, s', l', (p_sz p + n). rewrite Z.min_r by lia. split_and!; try done. by left.
    + destruct (shrink_wraps s i p l n Ho Hu Hk) as (s' & R & A & B); [lia|lia|].
      exists 0, s', l, (p_sz p). unfold umem. rewrite set_sz_same, B. split_and!; try done. by left.
  - destruct (resize_ok s i p (p_sz p) Ho Hk (user_space_pgdir _ _ _ _ Hu)) as (s' & R & A & B).
    exists 0, s', l, (p_sz p). rewrite Z.add_0_r, (proj2 (Z.ltb_lt _ _)) by lia. unfold umem. rewrite B.
    split_and!; try done; [|by left]. unfold growproc. erewrite bind_ret by (by eapply curproc_eq). exact R.
  - destruct (grow_ok s i p l n Ho Hu Hk) as (r & s' & l' & z & R & A & B & C & D); [lia|].
    rewrite (proj2 (Z.ltb_lt _ _)) by lia. exists r, s', l', z. split_and!; try done.
    + intros va Hva. apply C. lia.
    + destruct D as [[-> ->]|[-> ->]]; [by left|by right].
Qed.

(** growproc to size zero.  sbrk(-sz) gives back every page and then
    returns -1 as if it had failed: the process keeps its size, and nothing
    below it is mapped any more. *)
Theorem growproc_to_zero (s : ker) (i : nat) (p : proc) (l : list Z) :
  on_cpu s i p -> user_space (kmem s) l (p_pgdir p) (p_sz p) ->
  exists s' l', growproc (- p_sz p) s = Ret (-1) s' /\ on_cpu s' i p /\ as_ok (kmem s') l' (p_pgdir p) /\
    forall va, ~ umapped (umem s') (p_pgdir p) va.
Proof.
  intros Ho Hu. pose proof (us_sz _ _ _ _ Hu) as Hz.
  destruct (deallocuvm_ok (kmem s) l (p_pgdir p) (p_sz p) 0 (us_as _ _ _ _ Hu)) as (km' & l' & R & Hun); [lia|lia|].
  apply memm_eq in R. exists (rest (set_kmem km') s), l'. split_and!; [|done|apply Hun|].
  - unfold growproc. erewrite bind_ret by (by eapply curproc_eq). cbv zeta.
    rewrite (proj2 (Z.ltb_ge 0 (- p_sz p))), (proj2 (Z.ltb_lt (- p_sz p) 0)), Z.add_opp_diag_r by lia.
    by erewrite bind_ret; [|erewrite bind_ret by exact R; reflexivity].
  - intros va [Hva Hpr]. change (umem (rest (set_kmem km') s)) with (k_mem km') in Hpr. unfold KERNBASE in Hva.
    rewrite (um_pte _ _ _ _ _ _ Hun) in Hpr by lia. change (ru 0) with 0 in Hpr.
    destruct (present (pte_at (k_mem (kmem s)) (p_pgdir p) va)) eqn:E; [|by rewrite andb_false_r, E in Hpr].
    rewrite in_range_true in Hpr; [done|].
    assert (~ (ru (p_sz p) <= va)). { intros Hge. rewrite (us_out _ _ _ _ Hu) in E; [done|]. unfold KERNBASE. lia. }
    unfold pg, ru in *. zdiv.
Qed.

(** C38: wait with a zombie child gives back all its memory: the kernel stack,
    the page directory, every table and every user page, and only those,
    become free.  The child's pid is returned, its slot is unused, with no
    pid, parent, name or kernel stack and not marked killed, and no other
    slot changes. *)
Theorem wait_reaps (s : ker) (i : nat) (p : proc) (k : nat) (q : proc) (l : list Z) :
  on_cpu s i p -> first_zombie i (ptable (f_procs s)) k q ->
  as_ok (kmem s) l (p_pgdir q) -> in_hand (kmem s) l (p_pgdir q) (p_kstack q) ->
  exists s' l', wait s = Ret (p_pid q) s' /\ kmem_ok (kmem s') l' /\
    (forall a, a ∈ l' <-> a ∈ l \/ a = p_kstack q \/ owned (umem s) (p_pgdir q) a) /\
    exists q', ptable (f_procs s') = <[k := q']> (ptable (f_procs s)) /\
      p_state q' = UNUSED /\ p_pid q' = 0 /\ p_parent q' = None /\ p_killed q' = false /\ p_kstack q' = 0 /\
      p_name q' = <[0%nat := 0]> (p_name q).
Proof.
  intros H1 H2 H3 H4. destruct (wait_ok s i p k q l H1 H2 H3 H4) as (s' & l' & R & K & L & T).
  exists s', l'. split_and!; [exact R|exact K|exact L|]. by exists (reaped (set_kstack 0 q)).
Qed.

(** kill(0).  No process has pid 0, but unused slots do: kill(0) succeeds
    and leaves its mark in the first of them, which allocproc hands out
    next without clearing it; the next child is killed before it runs. *)
Theorem kill_zero_marks_next_child (s : ker) (k : nat) (q : proc) (a : Z) (l : list Z) :
  first_slot (fun q => p_pid q = 0) (ptable (f_procs s)) k q ->
  first_slot (fun q => p_state q = UNUSED) (ptable (f_procs s)) k q -> kmem_ok (kmem s) (a :: l) ->
  exists s1 s2 c, procm (kill 0) s = Ret 0 s1 /\ allocproc s1 = Ret (Some k) s2 /\
    ptable (f_procs s2) !! k = Some c /\ p_state c = EMBRYO /\ p_killed c = true.
Proof.
  intros Hz Hu Hk. pose proof (proj1 Hu) as Hq. pose proof (lookup_lt_Some _ _ _ Hq) as Hlt.
  set (s1 := set_f_procs (set_ptable (<[k := set_killed true q]> (ptable (f_procs s))) (f_procs s)) s).
  destruct (allocproc_ok s1 k (set_killed true q) a l) as (s2 & R & T); [|done|].
  - split_and!; [by apply list_lookup_insert_eq|apply Hu|]. intros j q' Hj Hq'. apply (proj2 (proj2 Hu) j q' Hj).
    rewrite <- Hq'. symmetry. apply list_lookup_insert_ne. lia.
  - eexists s1, s2, _. split_and!; [|exact R|exact T|done|done].
    unfold procm, zoom, kill. erewrite bind_ret by reflexivity. rewrite (kill_loop_first 0 _ k q); [done|done|].
    destruct Hu as (_ & -> & _). done.
Qed.

(** C20: no killed process gets back to user space.  When trap returns to the
    process after a system call or to interrupted user code, the process is
    not marked killed: it would have exited. *)
Theorem killed_never_returns (t : tinput) (tf : trapframe) (s s' : ker) (i : nat) (p : proc) :
  trap t tf s = Ret TReturn s' \/ (from_user tf = true /\ trap_after_yield tf s = Ret TReturn s') ->
  tf_trapno tf = T_SYSCALL \/ from_user tf = true -> on_cpu s' i p -> p_killed p = false.
Proof.
  intros H Hf Ho. destruct H as [H|[Hu H]]; [|by eapply after_yield_alive].
  unfold trap in H. destruct (Z.eqb_spec (tf_trapno tf) T_SYSCALL) as [_|E]; [by eapply trap_syscall_alive|].
  destruct Hf as [?|Hu]; [done|]. apply bind_inv in H as (u & s1 & _ & H).
  apply exit_if_killed_return in H as [_ H].
  apply bind_inv in H as (o & s2 & H2 & H). apply maybe_proc_inv in H2 as [-> _].
  destruct o as [q|]; [|by eapply after_yield_alive]. case_decide; [|by eapply after_yield_alive].
  by apply bind_inv in H as (u1 & s2 & _ & [=]).
Qed.
End Theorems.

(** ** The concrete kernel *)

#[local] Existing Instance demo_syms.
#[local] Existing Instance demo_syms_ok.
#[local] Existing Instance demo_ksyms.

Definition demo_p0 : proc := demo_proc RUNNING 3 None.
Definition demo_k : ker := demo_ker [demo_p0; proc0].

Lemma demo_on_cpu : on_cpu demo_k 0 demo_p0.
Proof. by split. Qed.

Lemma demo_space : user_space (kmem demo_k) [] (p_pgdir demo_p0) (p_sz demo_p0).
Proof.
  change (user_space demo_s1 [] pd 4096). split; [exact demo_as1|by vm_compute|..].
  - change (ru 4096) with 4096. intros va Hva. unfold umapped, KERNBASE. change (k_mem demo_s1) with demo_m1.
    rewrite demo_pte1 by lia. rewrite decide_True by (apply Z.div_small; lia). split; [|by vm_compute].
    split; [lia|by vm_compute].
  - change (ru 4096) with 4096. unfold KERNBASE. intros va Hva. change (k_mem demo_s1) with demo_m1.
    rewrite demo_pte1 by lia. rewrite decide_False by zdiv. reflexivity.
Qed.

Lemma demo_backed : backed (umem demo_k) demo_p0.
Proof. exact (user_space_backed _ _ _ demo_space). Qed.

Lemma syscall_args_safe_witness : exists r, argptr 0 10 demo_k = Ret r demo_k /\
  forall a, r = Some a -> 0 <= 10 /\ 0 <= a /\ a + 10 <= p_sz demo_p0.
Proof. apply (syscall_args_safe demo_k 0 demo_p0 demo_on_cpu demo_backed). lia. Defined.

Lemma user_store_load_witness : exists s', u_store 4090 [1; 2; 3; 4; 5; 6] demo_k = Ret tt s' /\
  u_load 4090 6 s' = Ret [1; 2; 3; 4; 5; 6] s'.
Proof.
  destruct (user_store_load demo_k 0 demo_p0 [] 4090 [1; 2; 3; 4; 5; 6] demo_on_cpu demo_as1 demo_backed) as (s' & R1 & R2 & _).
  - solve_bytes.
  - lia.
  - apply Z.leb_le. reflexivity.
  - exists s'. split; [exact R1|exact R2].
Defined.

Lemma growproc_correct_witness : exists s' l', growproc (-96) demo_k = Ret 0 s' /\
  on_cpu s' 0 (set_sz 4000 demo_p0) /\ user_space (kmem s') l' pd 4000.
Proof.
  destruct (growproc_correct demo_k 0 demo_p0 [] (-96) demo_on_cpu demo_space) as (r & s' & l' & z & R & A & B & _ & D).
  - discriminate.
  - lia.
  - discriminate.
  - destruct D as [[-> ->]|[_ [D _]]]; [exists s', l'; split_and!; assumption|]. exfalso. lia.
Defined.

Lemma growproc_to_zero_witness : exists s' l', growproc (-4096) demo_k = Ret (-1) s' /\ on_cpu s' 0 demo_p0 /\
  as_ok (kmem s') l' pd /\ forall va, ~ umapped (umem s') pd va.
Proof. exact (growproc_to_zero demo_k 0 demo_p0 [] demo_on_cpu demo_space). Defined.

(** The same memory as the address space of a zombie child in slot 1. *)
Definition demo_z : proc := demo_proc ZOMBIE 5 (Some 0%nat).
Definition demo_kz : ker := demo_ker [demo_p0; demo_z].

Lemma demo_in_hand : in_hand demo_s1 [] pd 2149593088.
Proof.
  split_and!; [by vm_compute|apply not_elem_of_nil|]. intros [E|[(i & Hi & Hp & E)|(va & Hva & E)]].
  - discriminate E.
  - change (k_mem demo_s1) with demo_m1 in *. unfold Vm.tab in E. rewrite demo_pde1 in Hp, E by done. case_decide; [|done]. discriminate E.
  - change (k_mem demo_s1) with demo_m1 in *. destruct (demo_um va Hva) as [_ E']. rewrite E' in E. discriminate E.
Qed.

Lemma wait_reaps_witness : exists s' l', wait demo_kz = Ret 5 s' /\ kmem_ok (kmem s') l' /\ 2149593088 ∈ l' /\ pd ∈ l'.
Proof.
  destruct (wait_reaps demo_kz 0 demo_p0 1 demo_z []) as (s' & l' & R & Hk & Hl & _).
  - split; reflexivity.
  - split_and!; try reflexivity. intros [|j] q' Hj Hq' _; [injection Hq' as <-; discriminate|lia].
  - exact demo_as1.
  - exact demo_in_hand.
  - exists s', l'. split_and!; [exact R|exact Hk|apply Hl; right; left; reflexivity|apply Hl; right; right; left; reflexivity].
Defined.

Lemma kill_zero_marks_next_child_witness : exists s1 s2 c, procm (kill 0) (rest (set_kmem demo_s0) demo_k) = Ret 0 s1 /\
  allocproc s1 = Ret (Some 1%nat) s2 /\ ptable (f_procs s2) !! 1%nat = Some c /\ p_state c = EMBRYO /\ p_killed c = true.
Proof.
  eapply (kill_zero_marks_next_child (rest (set_kmem demo_s0) demo_k) 1 proc0).
  - split_and!; try reflexivity. intros [|j] q' Hj Hq'; [injection Hq' as <-; discriminate|lia].
  - split_and!; try reflexivity. intros [|j] q' Hj Hq'; [injection Hq' as <-; discriminate|lia].
  - exact demo_kmem.
Defined.

(** getpid *)
Lemma killed_never_returns_witness : exists s' p, trap (mktin 0 [] [] 0 (fun _ => 0)) (demo_tf 11) demo_k = Ret TReturn s' /\
  on_cpu s' 0 p /\ p_killed p = false.
Proof.
  assert (F : match trap (mktin 0 [] [] 0 (fun _ => 0)) (demo_tf 11) demo_k with
              | Ret TReturn s' => exists p, on_cpu s' 0 p | _ => False end) by (vm_compute; eexists; split; reflexivity).
  destruct (trap (mktin 0 [] [] 0 (fun _ => 0)) (demo_tf 11) demo_k) as [[| |] s'|?|? ?| |] eqn:E; [|destruct F..].
  destruct F as [p Hp]. exists s', p. split; [reflexivity|]. split; [exact Hp|].
  apply (killed_never_returns (mktin 0 [] [] 0 (fun _ => 0)) (demo_tf 11) demo_k s' 0 p); [left; exact E|left; reflexivity|exact Hp].
Defined.
