(* ===== verification/Gate.v ===== *)
(** * Descriptor tables: mmu.h, the set-up parts of vm.c and trap.c

    The compiler packs the bit fields of struct segdesc and struct gatedesc
    into two words, the lowest field first; [seg_words] and [gate_words] are
    that packing.  [seg_view] and [gate_view] are what the processor makes of
    the two words.  The theorems say that the tables seginit, tvinit and
    switchuvm fill mean to the processor what they are meant to. *)

From stdpp Require Import base list list_numbers strings.
From Stdlib Require Import ZArith Lia.
From S2P Require Import Prelude Kalloc.

Local Open Scope Z_scope.

(** ** mmu.h *)

Definition SEG_KCODE : Z := 1.
Definition SEG_KDATA : Z := 2.
Definition SEG_UCODE : Z := 3.
Definition SEG_UDATA : Z := 4.
Definition SEG_TSS : Z := 5.
Definition NSEGS : nat := 6.
Definition STA_X : Z := 8.
Definition STA_W : Z := 2.
Definition STA_R : Z := 2.
Definition STS_T32A : Z := 9.
Definition STS_IG32 : Z := 14.
Definition STS_TG32 : Z := 15.
Definition DPL_USER : Z := 3.
Definition T_SYSCALL : nat := 64.

(** A field of [w] bits keeps the low bits of what is stored in it. *)
Definition field (w v : Z) : Z := v mod 2 ^ w.

(** struct segdesc *)
Record segdesc : Type := mkseg {
  lim_15_0 : Z; base_15_0 : Z; base_23_16 : Z; s_type : Z; s_s : Z; s_dpl : Z; s_p : Z;
  lim_19_16 : Z; s_avl : Z; s_rsv1 : Z; s_db : Z; s_g : Z; base_31_24 : Z }.

Definition SEG (type base lim dpl : Z) : segdesc :=
  mkseg (field 16 (Z.land (Z.shiftr lim 12) 65535)) (field 16 (Z.land base 65535)) (field 8 (Z.land (Z.shiftr base 16) 255))
    (field 4 type) 1 (field 2 dpl) 1 (field 4 (Z.shiftr lim 28)) 0 0 1 1 (field 8 (Z.shiftr base 24)).
Definition SEG16 (type base lim dpl : Z) : segdesc :=
  mkseg (field 16 (Z.land lim 65535)) (field 16 (Z.land base 65535)) (field 8 (Z.land (Z.shiftr base 16) 255))
    (field 4 type) 1 (field 2 dpl) 1 (field 4 (Z.shiftr lim 16)) 0 0 1 0 (field 8 (Z.shiftr base 24)).
Definition set_s (v : Z) (d : segdesc) : segdesc :=
  mkseg (lim_15_0 d) (base_15_0 d) (base_23_16 d) (s_type d) (field 1 v) (s_dpl d) (s_p d)
    (lim_19_16 d) (s_avl d) (s_rsv1 d) (s_db d) (s_g d) (base_31_24 d).

(** struct gatedesc *)
Record gatedesc : Type := mkgate {
  off_15_0 : Z; g_cs : Z; g_args : Z; g_rsv1 : Z; g_type : Z; g_s : Z; g_dpl : Z; g_p : Z; off_31_16 : Z }.

Definition SETGATE (istrap : bool) (sel off d : Z) : gatedesc :=
  mkgate (field 16 (Z.land off 65535)) (field 16 sel) 0 0 (field 4 (if istrap then STS_TG32 else STS_IG32))
    0 (field 2 d) 1 (field 16 (Z.shiftr off 16)).

(** The fields from the lowest bit up. *)
Fixpoint pack (l : list (Z * Z)) : Z :=
  match l with [] => 0 | (w, v) :: l' => v + 2 ^ w * pack l' end.

Definition seg_words (d : segdesc) : Z * Z :=
  (pack [(16, lim_15_0 d); (16, base_15_0 d)],
   pack [(8, base_23_16 d); (4, s_type d); (1, s_s d); (2, s_dpl d); (1, s_p d); (4, lim_19_16 d);
         (1, s_avl d); (1, s_rsv1 d); (1, s_db d); (1, s_g d); (8, base_31_24 d)]).
Definition gate_words (d : gatedesc) : Z * Z :=
  (pack [(16, off_15_0 d); (16, g_cs d)],
   pack [(5, g_args d); (3, g_rsv1 d); (4, g_type d); (1, g_s d); (2, g_dpl d); (1, g_p d); (16, off_31_16 d)]).

(** ** What the processor makes of a descriptor *)

(** [w] bits of [x] from bit [a] on. *)
Definition slice (x a w : Z) : Z := (x / 2 ^ a) mod 2 ^ w.

Record seg_info : Type := mkseginfo {
  si_base : Z; si_limit : Z; si_type : Z; si_system : bool; si_dpl : Z; si_present : bool }.
Definition seg_view (w : Z * Z) : seg_info :=
  let lim := slice w.1 0 16 + 65536 * slice w.2 16 4 in
  mkseginfo (slice w.1 16 16 + 65536 * slice w.2 0 8 + 16777216 * slice w.2 24 8)
    (if slice w.2 23 1 =? 1 then lim * 4096 + 4095 else lim)
    (slice w.2 8 4) (slice w.2 12 1 =? 0) (slice w.2 13 2) (slice w.2 15 1 =? 1).

(** A 32-bit interrupt or trap gate. *)
Record gate_info : Type := mkgateinfo { gi_off : Z; gi_sel : Z; gi_trap : bool; gi_dpl : Z }.
Definition gate_view (w : Z * Z) : option gate_info :=
  let type := slice w.2 8 5 in
  if (slice w.2 15 1 =? 1) && ((type =? 14) || (type =? 15)) then
    Some (mkgateinfo (slice w.1 0 16 + 65536 * slice w.2 16 16) (slice w.1 16 16) (type =? 15) (slice w.2 13 2))
  else None.

(** ** The tables *)

(** tvinit: the 256 gates, then the one for system calls. *)
Definition tvinit (vectors : nat -> Z) : list gatedesc :=
  let idt := map (fun i => SETGATE false (Z.shiftl SEG_KCODE 3) (vectors i) 0) (seq 0 256) in
  <[T_SYSCALL := SETGATE true (Z.shiftl SEG_KCODE 3) (vectors T_SYSCALL) DPL_USER]> idt.

(** seginit on the CPU's gdt. *)
Definition seginit (gdt : list segdesc) : list segdesc :=
  let gdt := <[Z.to_nat SEG_KCODE := SEG (Z.lor STA_X STA_R) 0 4294967295 0]> gdt in
  let gdt := <[Z.to_nat SEG_KDATA := SEG STA_W 0 4294967295 0]> gdt in
  let gdt := <[Z.to_nat SEG_UCODE := SEG (Z.lor STA_X STA_R) 0 4294967295 DPL_USER]> gdt in
  <[Z.to_nat SEG_UDATA := SEG STA_W 0 4294967295 DPL_USER]> gdt.

(** The operand of lgdt and lidt: three shorts, and what the processor
    loads from them. *)
Definition lgdt (p size : Z) : list Z := [u16 (size - 1); u16 p; u16 (Z.shiftr p 16)].
Definition lidt (p size : Z) : list Z := [u16 (size - 1); u16 p; u16 (Z.shiftr p 16)].
(** trap.c: idtinit, with the table at [idt]. *)
Definition idtinit (idt : Z) : list Z := lidt idt (8 * 256).
Definition pd_limit (pd : list Z) : Z := pd !!! 0%nat.
Definition pd_base (pd : list Z) : Z := pd !!! 1%nat + 65536 * pd !!! 2%nat.

(** struct taskstate: the fields the kernel sets, and its size. *)
Record taskstate : Type := mkts { ts_esp0 : Z; ts_ss0 : Z; ts_iomb : Z }.
Definition ts_size : Z := 104.

(** The registers and tables of a CPU that switchuvm sets: the gdt, the
    task state at address [c_tsa], the task register, cr3. *)
Record ctables : Type := mkct { c_gdt : list segdesc; c_ts : taskstate; c_tsa : Z; c_tr : Z; c_cr3 : Z }.

(** switchuvm between pushcli and popcli. *)
Definition switch_tables (kstack pgdir : Z) (c : ctables) : ctables :=
  let gdt := <[Z.to_nat SEG_TSS := SEG16 STS_T32A (c_tsa c) (ts_size - 1) 0]> (c_gdt c) in
  let gdt := alter (set_s 0) (Z.to_nat SEG_TSS) gdt in
  mkct gdt (mkts (u32 (kstack + 4096)) (Z.shiftl SEG_KDATA 3) 65535) (c_tsa c) (Z.shiftl SEG_TSS 3) (V2P pgdir).

(** switchkvm *)
Definition switchkvm (kpgdir : Z) (c : ctables) : ctables := mkct (c_gdt c) (c_ts c) (c_tsa c) (c_tr c) (V2P kpgdir).

(** ** Reading fields back *)

Lemma land_low x k : 0 <= k -> Z.land x (2 ^ k - 1) = x mod 2 ^ k.
Proof. intros. rewrite <- Z.land_ones, Z.ones_equiv by done. by f_equal. Qed.

Lemma shiftr_16 x : Z.shiftr x 16 = x / 65536.
Proof. by rewrite Z.shiftr_div_pow2. Qed.

(** Powers of two as numbers, masks and shifts as remainders and quotients. *)
Ltac pows := repeat match goal with |- context [2 ^ Zpos ?k] => let v := eval vm_compute in (2 ^ Zpos k) in change (2 ^ Zpos k) with v end.
Ltac fields := unfold field, slice; rewrite ?Z.shiftr_div_pow2 by lia; change 65535 with (2 ^ 16 - 1); change 255 with (2 ^ 8 - 1); rewrite ?land_low by lia; change (2 ^ 0) with 1; pows.

(** The processor finds the table where lidt and lgdt were told it is. *)
Lemma pd_lidt p size : 0 <= p < 2 ^ 32 -> 0 < size <= 65536 -> pd_base (lidt p size) = p /\ pd_limit (lidt p size) = size - 1 /\ lgdt p size = lidt p size.
Proof.
  intros Hp Hs. unfold pd_base, pd_limit, lidt, lgdt, u16. cbn [lookup_total list_lookup_total]. rewrite shiftr_16. change (2 ^ 32) with 4294967296 in Hp.
  split; [zdiv|]. split; [zdiv|]. reflexivity.
Qed.

(** A gate means what SETGATE was given. *)
Lemma gate_view_SETGATE istrap sel off d : 0 <= off < 2 ^ 32 -> 0 <= sel < 2 ^ 16 -> 0 <= d < 4 ->
  gate_view (gate_words (SETGATE istrap sel off d)) = Some (mkgateinfo off sel istrap d).
Proof.
  intros Ho Hs Hd. unfold gate_view, gate_words, SETGATE, slice, STS_TG32, STS_IG32. cbn [pack off_15_0 g_cs g_args g_rsv1 g_type g_s g_dpl g_p off_31_16 fst snd]. fields.
  rewrite (Z.mod_small sel), (Z.mod_small d), (Z.mod_mod off) by lia. set (lo := off mod 65536). set (hi := off / 65536 mod 65536).
  assert (Hlo : 0 <= lo < 65536) by (unfold lo; zdiv). assert (Hhi : 0 <= hi < 65536) by (unfold hi; zdiv). assert (Eoff : lo + 65536 * hi = off) by (unfold lo, hi; zdiv). clearbody lo hi.
  assert (F1 : (lo + 65536 * (sel + 65536 * 0)) / 1 mod 65536 = lo) by zdiv. assert (F2 : (lo + 65536 * (sel + 65536 * 0)) / 65536 mod 65536 = sel) by zdiv. rewrite F1, F2.
  destruct istrap; [change (15 mod 16) with 15|change (14 mod 16) with 14]; set (W := 0 + _);
    (assert (E1 : W / 32768 mod 2 = 1) by (unfold W; zdiv)); (assert (E3 : W / 65536 mod 65536 = hi) by (unfold W; zdiv)); (assert (E4 : W / 8192 mod 4 = d) by (unfold W; zdiv));
    [assert (E2 : W / 256 mod 32 = 15) by (unfold W; zdiv)|assert (E2 : W / 256 mod 32 = 14) by (unfold W; zdiv)]; rewrite E1, E2, E3, E4, Eoff; done.
Qed.

(** Every field in its width. *)
Definition seg_ok (d : segdesc) : Prop :=
  (0 <= lim_15_0 d < 65536 /\ 0 <= base_15_0 d < 65536 /\ 0 <= base_23_16 d < 256 /\ 0 <= s_type d < 16 /\ 0 <= s_s d < 2 /\ 0 <= s_dpl d < 4 /\ 0 <= s_p d < 2) /\
  (0 <= lim_19_16 d < 16 /\ 0 <= s_avl d < 2 /\ 0 <= s_rsv1 d < 2 /\ 0 <= s_db d < 2 /\ 0 <= s_g d < 2 /\ 0 <= base_31_24 d < 256).

Lemma seg_view_words d : seg_ok d -> let lim := lim_15_0 d + 65536 * lim_19_16 d in
  seg_view (seg_words d) = mkseginfo (base_15_0 d + 65536 * base_23_16 d + 16777216 * base_31_24 d) (if s_g d =? 1 then lim * 4096 + 4095 else lim)
    (s_type d) (s_s d =? 0) (s_dpl d) (s_p d =? 1).
Proof.
  destruct d as [l0 b0 b1 t sy dp pr l1 av rs db g b2]. intros ((? & ? & ? & ? & ? & ? & ?) & ? & ? & ? & ? & ? & ?). cbn in *.
  unfold seg_view, seg_words. cbn [pack lim_15_0 base_15_0 base_23_16 s_type s_s s_dpl s_p lim_19_16 s_avl s_rsv1 s_db s_g base_31_24 fst snd]. fields.
  set (L := l0 + _). set (W := b1 + _). assert (E1 : L / 1 mod 65536 = l0) by (unfold L; zdiv). assert (E2 : L / 65536 mod 65536 = b0) by (unfold L; zdiv).
  assert (F1 : W / 1 mod 256 = b1) by (unfold W; zdiv). assert (F2 : W / 16777216 mod 256 = b2) by (unfold W; zdiv). assert (F3 : W / 65536 mod 16 = l1) by (unfold W; zdiv).
  assert (F4 : W / 8388608 mod 2 = g) by (unfold W; zdiv). assert (F5 : W / 256 mod 16 = t) by (unfold W; zdiv). assert (F6 : W / 4096 mod 2 = sy) by (unfold W; zdiv).
  assert (F7 : W / 8192 mod 4 = dp) by (unfold W; zdiv). assert (F8 : W / 32768 mod 2 = pr) by (unfold W; zdiv).
  by rewrite E1, E2, F1, F2, F3, F4, F5, F6, F7, F8.
Qed.

(** A flat segment: the limit counts pages. *)
Lemma seg_view_SEG type base lim dpl : 0 <= type < 16 -> 0 <= base < 2 ^ 32 -> 0 <= lim < 2 ^ 32 -> lim mod 4096 = 4095 -> 0 <= dpl < 4 ->
  seg_view (seg_words (SEG type base lim dpl)) = mkseginfo base lim type false dpl true.
Proof.
  intros Ht Hb Hl Hp Hd. rewrite seg_view_words; unfold SEG, seg_ok; cbn [lim_15_0 base_15_0 base_23_16 s_type s_s s_dpl s_p lim_19_16 s_avl s_rsv1 s_db s_g base_31_24]; fields.
  - cbn [Z.eqb Pos.eqb]. f_equal; zdiv.
  - zdiv.
Qed.

(** A system segment whose limit counts bytes. *)
Lemma seg_view_SEG16 type base lim dpl : 0 <= type < 16 -> 0 <= base < 2 ^ 32 -> 0 <= lim < 2 ^ 20 -> 0 <= dpl < 4 ->
  seg_view (seg_words (set_s 0 (SEG16 type base lim dpl))) = mkseginfo base lim type true dpl true.
Proof.
  intros Ht Hb Hl Hd. rewrite seg_view_words; unfold SEG16, set_s, seg_ok; cbn [lim_15_0 base_15_0 base_23_16 s_type s_s s_dpl s_p lim_19_16 s_avl s_rsv1 s_db s_g base_31_24]; fields; change (0 mod 2) with 0.
  - cbn [Z.eqb Pos.eqb]. f_equal; zdiv.
  - zdiv.
Qed.

(** ** The tables of a CPU *)

Lemma tvinit_view vectors n : (forall i, 0 <= vectors i < 2 ^ 32) -> (n < 256)%nat ->
  gate_view <$> (gate_words <$> tvinit vectors !! n) =
    Some (Some (mkgateinfo (vectors n) 8 (n =? 64)%nat (if (n =? 64)%nat then 3 else 0))).
Proof.
  intros Hv Hn. unfold tvinit, T_SYSCALL, SEG_KCODE, DPL_USER. change (Z.shiftl 1 3) with 8. destruct (Nat.eqb_spec n 64) as [->|Hne].
  - rewrite list_lookup_insert_eq by (rewrite length_map, length_seq; lia). cbn [fmap option_fmap option_map]. by rewrite gate_view_SETGATE by (done || lia || apply Hv).
  - rewrite list_lookup_insert_ne, list_lookup_fmap, lookup_seq_lt by lia. cbn [fmap option_fmap option_map]. by rewrite gate_view_SETGATE by (done || lia || apply Hv).
Qed.

(** What the processor finds in entry [k] of the gdt. *)
Definition gdt_view (gdt : list segdesc) (k : Z) : option seg_info := (fun d => seg_view (seg_words d)) <$> gdt !! Z.to_nat k.

(** the segments of a CPU.  After seginit and switchuvm the four code and data
    segments all start at 0 and span the 4 GB, the kernel's at privilege 0,
    the user's at privilege 3; the task segment is the CPU's task state, all of
    its 104 bytes, whose kernel stack is the top of the process's; the task
    register selects it, and cr3 holds the page table's physical address. *)
Theorem switchuvm_tables (c : ctables) (kstack pgdir : Z) :
  length (c_gdt c) = NSEGS -> 0 <= c_tsa c < 2 ^ 32 -> KERNBASE <= pgdir < 2 ^ 32 -> 0 <= kstack -> kstack + 4096 < 2 ^ 32 ->
  let c' := switch_tables kstack pgdir (mkct (seginit (c_gdt c)) (c_ts c) (c_tsa c) (c_tr c) (c_cr3 c)) in
  let flat type dpl := Some (mkseginfo 0 4294967295 type false dpl true) in
  gdt_view (c_gdt c') SEG_KCODE = flat 10 0 /\ gdt_view (c_gdt c') SEG_KDATA = flat 2 0 /\
  gdt_view (c_gdt c') SEG_UCODE = flat 10 3 /\ gdt_view (c_gdt c') SEG_UDATA = flat 2 3 /\
  gdt_view (c_gdt c') (c_tr c' / 8) = Some (mkseginfo (c_tsa c) 103 STS_T32A true 0 true) /\
  ts_esp0 (c_ts c') = kstack + 4096 /\ ts_ss0 (c_ts c') = 8 * SEG_KDATA /\ c_cr3 c' = pgdir - KERNBASE.
Proof.
  intros Hl Ht Hp Hk Hk'. destruct (c_gdt c) as [|d0 [|d1 [|d2 [|d3 [|d4 [|d5 [|]]]]]]]; try discriminate Hl. cbv zeta. unfold switch_tables. cbn [c_gdt c_ts c_tsa c_tr c_cr3 ts_esp0 ts_ss0].
  unfold gdt_view, seginit, SEG_KCODE, SEG_KDATA, SEG_UCODE, SEG_UDATA, SEG_TSS, STA_X, STA_R, STA_W, STS_T32A, ts_size, DPL_USER, KERNBASE in *. change (Z.shiftl 5 3 / 8) with 5. change (Z.shiftl 2 3) with 16.
  change (Z.to_nat 1) with 1%nat. change (Z.to_nat 2) with 2%nat. change (Z.to_nat 3) with 3%nat. change (Z.to_nat 4) with 4%nat. change (Z.to_nat 5) with 5%nat. change (Z.lor 8 2) with 10. change (104 - 1) with 103.
  cbn [insert list_insert alter list_alter lookup list_lookup fmap option_fmap option_map]. rewrite !seg_view_SEG, seg_view_SEG16 by (done || lia).
  split_and!; try done; [apply u32_small; lia|]. unfold V2P. apply u32_small. unfold KERNBASE. lia.
Qed.

Lemma switchuvm_tables_witness : exists c, length (c_gdt c) = NSEGS /\
  gdt_view (c_gdt (switch_tables 2155872256 2155876352 (mkct (seginit (c_gdt c)) (c_ts c) (c_tsa c) (c_tr c) (c_cr3 c)))) SEG_UCODE = Some (mkseginfo 0 4294967295 10 false 3 true).
Proof.
  set (c := mkct (replicate 6 (mkseg 0 0 0 0 0 0 0 0 0 0 0 0 0)) (mkts 0 0 0) 2148663296 0 0). exists c. split; [done|].
  apply (switchuvm_tables c 2155872256 2155876352); by vm_compute.
Defined.
