(* ===== verification/Asm.v ===== *)
(** * Assembly: swtch.S, trapasm.S, vectors.pl, usys.S, initcode.S

    The instructions these files use, on a machine with registers, byte
    memory and the interrupt table of Gate.v.  Memory is indexed by virtual
    address: the kernel's part is the same in every page table, and only the
    stub of a system call looks at the user's.  The linker chooses where the
    code lies: [code] gives the instruction at an address and the address of
    the next.  An access the model does not cover stops the machine.

    The theorems: a trap builds the frame that describes the interrupted
    registers, and the return from it loads them from the frame; an interrupt
    is not noticed; a user program's int reaches the kernel through the system
    call's gate or as a fault; a system call's stub gives the kernel the
    number and the caller the result; initcode asks for exec.  What swtch
    does is in Swtch.v. *)

From stdpp Require Import base list relations strings.
From Stdlib Require Import ZArith Lia.
From S2P Require Import Prelude CString Proc Kalloc ProcSys Gate.

Local Open Scope Z_scope.

(** ** The machine *)

Inductive reg : Type := EAX | ECX | EDX | EBX | ESP | EBP | ESI | EDI.
Inductive sreg : Type := CS | DS | ES | FS | GS | SS.

Record regs : Type := mkr { eax : Z; ecx : Z; edx : Z; ebx : Z; esp : Z; ebp : Z; esi : Z; edi : Z }.
Record segs : Type := mks { cs : Z; ds : Z; es : Z; fs : Z; gs : Z; ss : Z }.
(** [m_idt] and [m_tss] are the addresses the idt and task registers hold. *)
Record mach : Type := mkmach { m_r : regs; m_s : segs; m_eip : Z; m_fl : Z; m_mem : mem; m_idt : Z; m_tss : Z }.

Definition rget (r : reg) (x : regs) : Z :=
  match r with EAX => eax x | ECX => ecx x | EDX => edx x | EBX => ebx x | ESP => esp x | EBP => ebp x | ESI => esi x | EDI => edi x end.
Definition rset (r : reg) (v : Z) (x : regs) : regs :=
  match r with
  | EAX => mkr v (ecx x) (edx x) (ebx x) (esp x) (ebp x) (esi x) (edi x)
  | ECX => mkr (eax x) v (edx x) (ebx x) (esp x) (ebp x) (esi x) (edi x)
  | EDX => mkr (eax x) (ecx x) v (ebx x) (esp x) (ebp x) (esi x) (edi x)
  | EBX => mkr (eax x) (ecx x) (edx x) v (esp x) (ebp x) (esi x) (edi x)
  | ESP => mkr (eax x) (ecx x) (edx x) (ebx x) v (ebp x) (esi x) (edi x)
  | EBP => mkr (eax x) (ecx x) (edx x) (ebx x) (esp x) v (esi x) (edi x)
  | ESI => mkr (eax x) (ecx x) (edx x) (ebx x) (esp x) (ebp x) v (edi x)
  | EDI => mkr (eax x) (ecx x) (edx x) (ebx x) (esp x) (ebp x) (esi x) v
  end.
Definition sget (s : sreg) (x : segs) : Z :=
  match s with CS => cs x | DS => ds x | ES => es x | FS => fs x | GS => gs x | SS => ss x end.
Definition sset (s : sreg) (v : Z) (x : segs) : segs :=
  match s with
  | CS => mks v (ds x) (es x) (fs x) (gs x) (ss x)
  | DS => mks (cs x) v (es x) (fs x) (gs x) (ss x)
  | ES => mks (cs x) (ds x) v (fs x) (gs x) (ss x)
  | FS => mks (cs x) (ds x) (es x) v (gs x) (ss x)
  | GS => mks (cs x) (ds x) (es x) (fs x) v (ss x)
  | SS => mks (cs x) (ds x) (es x) (fs x) (gs x) v
  end.

Definition setr (r : reg) (v : Z) (s : mach) : mach := mkmach (rset r v (m_r s)) (m_s s) (m_eip s) (m_fl s) (m_mem s) (m_idt s) (m_tss s).
Definition sets (r : sreg) (v : Z) (s : mach) : mach := mkmach (m_r s) (sset r v (m_s s)) (m_eip s) (m_fl s) (m_mem s) (m_idt s) (m_tss s).
Definition goto (a : Z) (s : mach) : mach := mkmach (m_r s) (m_s s) a (m_fl s) (m_mem s) (m_idt s) (m_tss s).
Definition setfl (v : Z) (s : mach) : mach := mkmach (m_r s) (m_s s) (m_eip s) v (m_mem s) (m_idt s) (m_tss s).
Definition store (a v : Z) (s : mach) : mach := mkmach (m_r s) (m_s s) (m_eip s) (m_fl s) (st32 (m_mem s) a v) (m_idt s) (m_tss s).
Definition reg_of (s : mach) (r : reg) : Z := rget r (m_r s).

Definition push (v : Z) (s : mach) : mach :=
  let sp := u32 (esp (m_r s) - 4) in store sp v (setr ESP sp s).
Definition top (s : mach) : Z := ld32 (m_mem s) (esp (m_r s)).
Definition drop4 (s : mach) : mach := setr ESP (u32 (esp (m_r s) + 4)) s.

(** The instructions, named as in the sources; [MOVW_AX] and [MOVW_SEG] are
    movw of a constant to ax and of ax to a segment register. *)
Inductive instr : Type :=
| PUSHL (r : reg) | PUSHL_SEG (s : sreg) | PUSHL_IMM (v : Z) | POPL (r : reg) | POPL_SEG (s : sreg) | PUSHAL | POPAL
| MOVL (src dst : reg) | MOVL_IMM (v : Z) (dst : reg) | MOVL_LOAD (off : Z) (base dst : reg) | MOVL_STORE (src : reg) (base : reg)
| MOVW_AX (v : Z) | MOVW_SEG (s : sreg) | ADDL (v : Z) (r : reg)
| CALL (a : Z) | JMP (a : Z) | RET | IRET | INT (n : nat).

(** ** Interrupts *)

Definition cpl (s : mach) : Z := Z.land (cs (m_s s)) 3.
Definition FL_IF : Z := 512.

(** The gate of vector [n] in memory. *)
Definition gate_at (s : mach) (n : nat) : option gate_info :=
  let a := m_idt s + 8 * Z.of_nat n in gate_view (ld32 (m_mem s) a, ld32 (m_mem s) (a + 4)).

(** The stack the handler runs on: the task state's when it has more
    privilege, and the interrupted stack saved on it. *)
Definition on_kernel_stack (s : mach) : mach :=
  if cpl s =? 0 then s else
  let sp := esp (m_r s) in
  let old := ss (m_s s) in
  push sp (push old (sets SS (u16 (ld32 (m_mem s) (m_tss s + 8))) (setr ESP (ld32 (m_mem s) (m_tss s + 4)) s))).

(** Through the gate, with an error code for the vectors that have one. *)
Definition enter (g : gate_info) (err : option Z) (s : mach) : mach :=
  let s1 := push (m_eip s) (push (cs (m_s s)) (push (m_fl s) (on_kernel_stack s))) in
  let s2 := match err with Some e => push e s1 | None => s1 end in
  let fl := if gi_trap g then m_fl s else Z.land (m_fl s) (Z.lnot FL_IF) in
  goto (gi_off g) (setfl fl (sets CS (gi_sel g) s2)).

Definition deliver (n : nat) (err : option Z) (s : mach) : option mach :=
  g ← gate_at s n; Some (enter g err s).

(** The int instruction at [a]: a gate of less privilege than needed is a
    general protection fault at the instruction itself. *)
Definition int_instr (n : nat) (next : Z) (s : mach) : option mach :=
  g ← gate_at s n;
  if gi_dpl g <? cpl s then deliver 13 (Some (8 * Z.of_nat n + 2)) s else Some (enter g None (goto next s)).

(** iret to the same privilege, or to less with the stack it names. *)
Definition iret (s : mach) : mach :=
  let ip := top s in
  let s1 := drop4 s in
  let sel := u16 (top s1) in
  let s2 := drop4 s1 in
  let fl := top s2 in
  let s3 := drop4 s2 in
  let s4 := if Z.land sel 3 =? cpl s then s3 else sets SS (u16 (top (drop4 s3))) (setr ESP (top s3) s3) in
  goto ip (setfl fl (sets CS sel s4)).

(** ** Steps *)

Definition exec_instr (i : instr) (next : Z) (s : mach) : option mach :=
  match i with
  | PUSHL r => Some (goto next (push (reg_of s r) s))
  | PUSHL_SEG r => Some (goto next (push (sget r (m_s s)) s))
  | PUSHL_IMM v => Some (goto next (push v s))
  | POPL r => Some (goto next (setr r (top s) (drop4 s)))
  | POPL_SEG r => Some (goto next (sets r (u16 (top s)) (drop4 s)))
  | PUSHAL =>
    let x := m_r s in
    Some (goto next (push (edi x) (push (esi x) (push (ebp x) (push (esp x) (push (ebx x) (push (edx x) (push (ecx x) (push (eax x) s)))))))))
  | POPAL =>
    let w k := ld32 (m_mem s) (esp (m_r s) + 4 * k) in
    Some (goto next (mkmach (mkr (w 7) (w 6) (w 5) (w 4) (u32 (esp (m_r s) + 32)) (w 2) (w 1) (w 0)) (m_s s) (m_eip s) (m_fl s) (m_mem s) (m_idt s) (m_tss s)))
  | MOVL a b => Some (goto next (setr b (reg_of s a) s))
  | MOVL_IMM v b => Some (goto next (setr b v s))
  | MOVL_LOAD off a b => Some (goto next (setr b (ld32 (m_mem s) (u32 (reg_of s a + off))) s))
  | MOVL_STORE a b => Some (goto next (store (reg_of s b) (reg_of s a) s))
  | MOVW_AX v => Some (goto next (setr EAX (Z.lor (Z.land (eax (m_r s)) 4294901760) v) s))
  | MOVW_SEG r => Some (goto next (sets r (u16 (eax (m_r s))) s))
  | ADDL v r => Some (goto next (setr r (u32 (reg_of s r + v)) s))
  | CALL a => Some (goto a (push next s))
  | JMP a => Some (goto a s)
  | RET => Some (goto (top s) (drop4 s))
  | IRET => Some (iret s)
  | INT n => int_instr n next s
  end.

Section Code.
Context (code : Z -> option (instr * Z)).

Definition step (s : mach) : option mach := '(i, next) ← code (m_eip s); exec_instr i next s.
Definition runs : mach -> mach -> Prop := rtc (fun s s' => step s = Some s').

(** The instructions [l] lie at [a] and end before [b]. *)
Fixpoint placed (a : Z) (l : list instr) (b : Z) : Prop :=
  match l with
  | [] => a = b
  | i :: l' => exists next, code a = Some (i, next) /\ placed next l' b
  end.
End Code.

(** ** The code *)

Definition swtch : list instr :=
  [MOVL_LOAD 4 ESP EAX; MOVL_LOAD 8 ESP EDX; PUSHL EBP; PUSHL EBX; PUSHL ESI; PUSHL EDI;
   MOVL_STORE ESP EAX; MOVL EDX ESP; POPL EDI; POPL ESI; POPL EBX; POPL EBP; RET].

(** vectors.pl: the vectors without an error code push a zero. *)
Definition has_err (i : nat) : bool := (i =? 8)%nat || ((10 <=? i)%nat && (i <=? 14)%nat) || (i =? 17)%nat.
Definition vector (alltraps : Z) (i : nat) : list instr :=
  (if negb (has_err i) then [PUSHL_IMM 0] else []) ++ [PUSHL_IMM (Z.of_nat i); JMP alltraps].

Definition alltraps (trap : Z) : list instr :=
  [PUSHL_SEG DS; PUSHL_SEG ES; PUSHL_SEG FS; PUSHL_SEG GS; PUSHAL;
   MOVW_AX (Z.shiftl SEG_KDATA 3); MOVW_SEG DS; MOVW_SEG ES; PUSHL ESP; CALL trap].
Definition trapret : list instr := [POPAL; POPL_SEG GS; POPL_SEG FS; POPL_SEG ES; POPL_SEG DS; ADDL 8 ESP; IRET].

(** usys.S: SYSCALL(name). *)
Definition SYSCALL (n : Z) : list instr := [MOVL_IMM n EAX; INT T_SYSCALL; RET].

(** initcode.S at [start], with the addresses of its data; SYS_exec is 7 and
    SYS_exit 2. *)
Definition init_start (init argv : Z) : list instr := [PUSHL_IMM argv; PUSHL_IMM init; PUSHL_IMM 0; MOVL_IMM 7 EAX; INT T_SYSCALL].
Definition init_exit (exit : Z) : list instr := [MOVL_IMM 2 EAX; INT T_SYSCALL; JMP exit].

(** struct context and struct trapframe in memory. *)
Record context : Type := mkctx { c_edi : Z; c_esi : Z; c_ebx : Z; c_ebp : Z; c_eip : Z }.
Definition read_ctx (m : mem) (a : Z) : context := mkctx (ld32 m a) (ld32 m (a + 4)) (ld32 m (a + 8)) (ld32 m (a + 12)) (ld32 m (a + 16)).
Definition read_tf (m : mem) (a : Z) : trapframe :=
  let w k := ld32 m (a + 4 * k) in
  mktf (w 0) (w 1) (w 2) (w 3) (w 4) (w 5) (w 6) (w 7) (u16 (w 8)) (u16 (w 9)) (u16 (w 10)) (u16 (w 11))
    (w 12) (w 13) (w 14) (u16 (w 15)) (w 16) (w 17) (u16 (w 18)).

(** ** Pushing *)

(** Memory after the words [l] have been pushed from [p] on. *)
Fixpoint downs (m : mem) (p : Z) (l : list Z) : mem :=
  match l with [] => m | v :: l' => downs (st32 m (p - 4) v) (p - 4) l' end.

Lemma downs_out m p l b : b < p - 4 * Z.of_nat (length l) \/ p <= b -> downs m p l b = m b.
Proof.
  revert m p. induction l as [|v l IH]; intros m p Hb; [done|]. cbn [downs length] in *. rewrite IH by lia. apply st32_out. lia.
Qed.

Lemma ld_downs_out m p l b : b + 4 <= p - 4 * Z.of_nat (length l) \/ p <= b -> ld32 (downs m p l) b = ld32 m b.
Proof. intros Hb. apply ld32_ext. intros c Hc. apply downs_out. lia. Qed.

Lemma ld_downs m p l k v : l !! k = Some v -> ld32 (downs m p l) (p - 4 * (Z.of_nat k + 1)) = u32 v.
Proof.
  revert m p k. induction l as [|w l IH]; intros m p k Hk; [done|]. cbn [downs]. destruct k as [|k].
  - injection Hk as ->. rewrite ld_downs_out by lia. replace (p - 4 * (Z.of_nat 0 + 1)) with (p - 4) by lia. apply ld32_st32.
  - replace (p - 4 * (Z.of_nat (S k) + 1)) with (p - 4 - 4 * (Z.of_nat k + 1)) by lia. by apply IH.
Qed.

Lemma downs_app m p l l' : downs m p (l ++ l') = downs (downs m p l) (p - 4 * Z.of_nat (length l)) l'.
Proof. revert m p. induction l as [|v l IH]; intros m p; cbn [downs app length]; [by replace (p - 4 * Z.of_nat 0) with p by lia|]. rewrite IH. f_equal. lia. Qed.

Definition word_ok (v : Z) : Prop := 0 <= v < 4294967296.
Definition sel_ok (v : Z) : Prop := 0 <= v < 65536.

(** A machine with the words [l] on the stack that started at [p]. *)
Section Stack.
Context (p : Z) (m : mem) (idt tss : Z).
Hypothesis Hp : 128 <= p < 4294967296.

Definition ST (x : regs) (sg : segs) (ip fl : Z) (l : list Z) : mach :=
  mkmach (rset ESP (p - 4 * Z.of_nat (length l)) x) sg ip fl (downs m p l) idt tss.

Lemma push_ST v x sg ip fl l : (length l < 32)%nat -> push v (ST x sg ip fl l) = ST x sg ip fl (l ++ [v]).
Proof using Hp.
  intros Hl. unfold push, store, setr, ST. cbn [m_r m_s m_eip m_fl m_mem m_idt m_tss rset esp]. rewrite u32_small by lia. rewrite downs_app, length_app. cbn [downs length eax ecx edx ebx ebp esi edi].
  by replace (p - 4 * Z.of_nat (length l) - 4) with (p - 4 * Z.of_nat (length l + 1)) by lia.
Qed.

(** The instructions of the trap path on such a machine. *)
Lemma do_push_imm v next x sg ip fl l : (length l < 32)%nat -> exec_instr (PUSHL_IMM v) next (ST x sg ip fl l) = Some (ST x sg next fl (l ++ [v])).
Proof using Hp. intros Hl. cbn [exec_instr]. by rewrite push_ST. Qed.

Lemma do_push_seg r next x sg ip fl l : (length l < 32)%nat -> exec_instr (PUSHL_SEG r) next (ST x sg ip fl l) = Some (ST x sg next fl (l ++ [sget r sg])).
Proof using Hp. intros Hl. cbn [exec_instr]. by rewrite push_ST. Qed.

Lemma do_push_esp next x sg ip fl l : (length l < 32)%nat -> exec_instr (PUSHL ESP) next (ST x sg ip fl l) = Some (ST x sg next fl (l ++ [p - 4 * Z.of_nat (length l)])).
Proof using Hp. intros Hl. cbn [exec_instr]. by rewrite push_ST. Qed.

Lemma do_pushal next x sg ip fl l : (length l < 24)%nat ->
  exec_instr PUSHAL next (ST x sg ip fl l) = Some (ST x sg next fl (l ++ [eax x; ecx x; edx x; ebx x; p - 4 * Z.of_nat (length l); ebp x; esi x; edi x])).
Proof using Hp. intros Hl. cbn [exec_instr]. rewrite !push_ST by (rewrite ?length_app; cbn; lia). by rewrite <- !app_assoc. Qed.

Lemma do_movw_ax v next x sg ip fl l : exec_instr (MOVW_AX v) next (ST x sg ip fl l) = Some (ST (rset EAX (Z.lor (Z.land (eax x) 4294901760) v) x) sg next fl l).
Proof using. done. Qed.

Lemma do_movw_seg r next x sg ip fl l : exec_instr (MOVW_SEG r) next (ST x sg ip fl l) = Some (ST x (sset r (u16 (eax x)) sg) next fl l).
Proof using. done. Qed.

Lemma do_call a next x sg ip fl l : (length l < 32)%nat -> exec_instr (CALL a) next (ST x sg ip fl l) = Some (ST x sg a fl (l ++ [next])).
Proof using Hp. intros Hl. cbn [exec_instr]. by rewrite push_ST. Qed.

Lemma do_jmp a next x sg ip fl l : exec_instr (JMP a) next (ST x sg ip fl l) = Some (ST x sg a fl l).
Proof using. done. Qed.
End Stack.

(** movw of a constant to ax. *)
Lemma low_ax e v : 0 <= v < 65536 -> u16 (Z.lor (Z.land e 4294901760) v) = v.
Proof.
  intros Hv. unfold u16. change 65536 with (2 ^ 16). rewrite <- Z.land_ones by lia. rewrite Z.land_lor_distr_l, <- Z.land_assoc. change (Z.land 4294901760 (Z.ones 16)) with 0.
  rewrite Z.land_0_r, Z.lor_0_l, Z.land_ones by lia. by apply Z.mod_small.
Qed.

(** One more instruction. *)
Lemma runs_l code s a i next s1 s2 : code a = Some (i, next) -> m_eip s = a -> exec_instr i next s = Some s1 -> runs code s1 s2 -> runs code s s2.
Proof. intros Hc <- E H. eapply rtc_l; [|exact H]. unfold step. rewrite Hc. exact E. Qed.
Lemma runs_trans code s1 s2 s3 : runs code s1 s2 -> runs code s2 s3 -> runs code s1 s3.
Proof. unfold runs. intros. by etrans. Qed.
Ltac istep H := eapply runs_l; [exact H|reflexivity|reflexivity|].
Tactic Notation "irun" hyp(H) "by" uconstr(e) := eapply runs_l; [exact H|reflexivity|apply e; rewrite ?length_app; cbn [length]; lia|].

Section Traps.
Context (code : Z -> option (instr * Z)).
Context (vectors : nat -> Z) (al ra tr trap : Z).

(** Where the linker put the code: the vectors, alltraps, the instruction
    behind its call, trapret. *)
Record kcode : Prop := mkkcode {
  kc_vector : forall n, (n < 256)%nat -> exists b, placed code (vectors n) (vector al n) b;
  kc_alltraps : placed code al (alltraps trap) ra;
  kc_back : code ra = Some (ADDL 4 ESP, tr);
  kc_trapret : exists b, placed code tr trapret b;
  kc_ra : word_ok ra }.
Hypothesis HK : kcode.

Section Build.
Context (p : Z) (m : mem) (idt tss : Z).
Hypothesis Hp : 128 <= p < 4294967296.
Let S0 := ST p m idt tss.

Lemma run_vector x sg fl l n : (n < 256)%nat -> (length l < 8)%nat ->
  runs code (S0 x sg (vectors n) fl l) (S0 x sg al fl (l ++ (if has_err n then [] else [0]) ++ [Z.of_nat n])).
Proof using HK Hp.
  intros Hn Hl. unfold S0. destruct (kc_vector HK n Hn) as [b Hv]. unfold vector in Hv. destruct (has_err n); cbn [negb app placed] in Hv.
  - destruct Hv as (a1 & H1 & a2 & H2 & _). irun H1 by do_push_imm. eapply runs_l; [exact H2|reflexivity|apply do_jmp|]. apply rtc_refl.
  - destruct Hv as (a0 & H0 & a1 & H1 & a2 & H2 & _). irun H0 by do_push_imm. irun H1 by do_push_imm. eapply runs_l; [exact H2|reflexivity|apply do_jmp|].
    rewrite <- app_assoc. apply rtc_refl.
Qed.

Lemma run_alltraps x sg fl l : (length l < 8)%nat -> word_ok (eax x) -> let sp := p - 4 * (Z.of_nat (length l) + 4) in
  let l' := l ++ [ds sg; es sg; fs sg; gs sg; eax x; ecx x; edx x; ebx x; sp; ebp x; esi x; edi x] in
  exists v, runs code (S0 x sg al fl l) (S0 (rset EAX v x) (sset ES 16 (sset DS 16 sg)) trap fl (l' ++ [p - 4 * Z.of_nat (length l'); ra])).
Proof using HK Hp.
  intros Hl Hx sp l'. unfold S0. pose proof (kc_alltraps HK) as Ha. unfold alltraps in Ha. cbn [placed] in Ha.
  destruct Ha as (a1 & H1 & a2 & H2 & a3 & H3 & a4 & H4 & a5 & H5 & a6 & H6 & a7 & H7 & a8 & H8 & a9 & H9 & a10 & H10 & E). subst a10.
  eexists. irun H1 by do_push_seg. irun H2 by do_push_seg. irun H3 by do_push_seg. irun H4 by do_push_seg. irun H5 by do_pushal. rewrite <- !app_assoc. cbn [app sget].
  eapply runs_l; [exact H6|reflexivity|apply do_movw_ax|]. eapply runs_l; [exact H7|reflexivity|apply do_movw_seg|]. eapply runs_l; [exact H8|reflexivity|apply do_movw_seg|].
  cbn [rset eax]. change (SEG_KDATA ≪ 3) with 16. rewrite low_ax by (done || lia). irun H9 by do_push_esp. irun H10 by do_call.
  assert (El : p - 4 * Z.of_nat (length (l ++ [ds sg; es sg; fs sg; gs sg])) = sp) by (rewrite length_app; unfold sp; cbn [length]; lia). rewrite El. rewrite <- app_assoc. apply rtc_refl.
Qed.
End Build.

(** ** The return *)

Definition tf_regs (tf : trapframe) (sp : Z) : regs := mkr (tf_eax tf) (tf_ecx tf) (tf_edx tf) (tf_ebx tf) sp (tf_ebp tf) (tf_esi tf) (tf_edi tf).
Definition tf_segs (tf : trapframe) (stack : Z) : segs := mks (tf_cs tf) (tf_ds tf) (tf_es tf) (tf_fs tf) (tf_gs tf) stack.

(** The state a trap frame of a user process describes, and the one of an
    interrupted kernel, whose frame at [a] ends before esp. *)
Definition user_state (tf : trapframe) (s : mach) : mach :=
  mkmach (tf_regs tf (tf_esp tf)) (tf_segs tf (tf_ss tf)) (tf_eip tf) (tf_eflags tf) (m_mem s) (m_idt s) (m_tss s).
Definition kernel_state (tf : trapframe) (a : Z) (s : mach) : mach :=
  mkmach (tf_regs tf (a + 68)) (tf_segs tf (ss (m_s s))) (tf_eip tf) (tf_eflags tf) (m_mem s) (m_idt s) (m_tss s).

Lemma do_pop_seg r next A C D B sp bp si di sg ip fl M i t : 0 <= sp < 4294967200 ->
  exec_instr (POPL_SEG r) next (mkmach (mkr A C D B sp bp si di) sg ip fl M i t) = Some (mkmach (mkr A C D B (sp + 4) bp si di) (sset r (u16 (ld32 M sp)) sg) next fl M i t).
Proof using. intros Hs. unfold exec_instr, top, drop4, goto, sets, setr. cbn [m_r m_s m_eip m_fl m_mem m_idt m_tss rset esp eax ecx edx ebx ebp esi edi]. by rewrite u32_small by lia. Qed.

Lemma do_popal next x sg ip fl M i t : 0 <= esp x < 4294967200 -> let w k := ld32 M (esp x + 4 * k) in
  exec_instr POPAL next (mkmach x sg ip fl M i t) = Some (mkmach (mkr (w 7) (w 6) (w 5) (w 4) (esp x + 32) (w 2) (w 1) (w 0)) sg next fl M i t).
Proof using. intros Hs w. unfold exec_instr, goto. cbn [m_r m_s m_eip m_fl m_mem m_idt m_tss]. by rewrite u32_small by lia. Qed.

Lemma do_add_esp v next A C D B sp bp si di sg ip fl M i t : 0 <= sp -> 0 <= v -> sp + v < 4294967296 ->
  exec_instr (ADDL v ESP) next (mkmach (mkr A C D B sp bp si di) sg ip fl M i t) = Some (mkmach (mkr A C D B (sp + v) bp si di) sg next fl M i t).
Proof using. intros Hs Hv Hr. unfold exec_instr, goto, setr, reg_of. cbn [m_r m_s m_eip m_fl m_mem m_idt m_tss rset rget esp eax ecx edx ebx ebp esi edi]. by rewrite u32_small by lia. Qed.

Lemma drop4_mach A C D B sp bp si di sg ip fl M i t : 0 <= sp < 4294967290 ->
  drop4 (mkmach (mkr A C D B sp bp si di) sg ip fl M i t) = mkmach (mkr A C D B (sp + 4) bp si di) sg ip fl M i t.
Proof using. intros Hs. unfold drop4. cbn [m_r esp]. by rewrite u32_small by lia. Qed.

Lemma do_iret A C D B sp bp si di sg ip fl M i t : 0 <= sp < 4294967200 -> Z.land (cs sg) 3 = 0 ->
  let w k := ld32 M (sp + 4 * k) in let sel := u16 (w 1) in
  (Z.land sel 3 = 3 -> iret (mkmach (mkr A C D B sp bp si di) sg ip fl M i t) = mkmach (mkr A C D B (w 3) bp si di) (mks sel (ds sg) (es sg) (fs sg) (gs sg) (u16 (w 4))) (w 0) (w 2) M i t) /\
  (Z.land sel 3 = 0 -> iret (mkmach (mkr A C D B sp bp si di) sg ip fl M i t) = mkmach (mkr A C D B (sp + 12) bp si di) (mks sel (ds sg) (es sg) (fs sg) (gs sg) (ss sg)) (w 0) (w 2) M i t).
Proof using.
  intros Hs Hc w sel. unfold iret. rewrite !drop4_mach by lia. unfold top. cbn [m_r m_mem esp]. unfold cpl. cbn [m_s]. rewrite Hc. unfold sel, w.
  replace (sp + 4 * 0) with sp by lia. replace (sp + 4 * 1) with (sp + 4) by lia. replace (sp + 4 * 2) with (sp + 4 + 4) by lia.
  replace (sp + 4 * 3) with (sp + 4 + 4 + 4) by lia. replace (sp + 4 * 4) with (sp + 4 + 4 + 4 + 4) by lia.
  split; intros ->; cbn [Z.eqb]; [done|]. by replace (sp + 12) with (sp + 4 + 4 + 4) by lia.
Qed.

Lemma run_trapret s a : m_eip s = tr -> esp (m_r s) = a -> 0 <= a < 4294967100 -> cpl s = 0 ->
  let tf := read_tf (m_mem s) a in
  (Z.land (tf_cs tf) 3 = 3 -> runs code s (user_state tf s)) /\ (Z.land (tf_cs tf) 3 = 0 -> runs code s (kernel_state tf a s)).
Proof using HK.
  intros Hip Hsp Ha Hc. destruct (kc_trapret HK) as [b Ht]. unfold trapret in Ht. cbn [placed] in Ht.
  destruct Ht as (a1 & H1 & a2 & H2 & a3 & H3 & a4 & H4 & a5 & H5 & a6 & H6 & a7 & H7 & _). destruct s as [x sg ip fl M idt tss]. unfold cpl in Hc. cbn [m_eip m_r m_s m_mem] in *. subst ip a.
  set (a := esp x) in *. set (w := fun k => ld32 M (a + 4 * k)).
  assert (Hrun : forall s', iret (mkmach (mkr (w 7) (w 6) (w 5) (w 4) (a + 56) (w 2) (w 1) (w 0)) (mks (cs sg) (u16 (w 11)) (u16 (w 10)) (u16 (w 9)) (u16 (w 8)) (ss sg)) a6 fl M idt tss) = s' ->
    runs code (mkmach x sg tr fl M idt tss) s').
  { intros s' Es. eapply runs_l; [exact H1|reflexivity|apply do_popal; lia|]. fold a. eapply runs_l; [exact H2|reflexivity|apply do_pop_seg; lia|]. eapply runs_l; [exact H3|reflexivity|apply do_pop_seg; lia|].
    eapply runs_l; [exact H4|reflexivity|apply do_pop_seg; lia|]. eapply runs_l; [exact H5|reflexivity|apply do_pop_seg; lia|]. eapply runs_l; [exact H6|reflexivity|apply do_add_esp; lia|].
    apply (runs_l code _ a6 IRET a7 s' s'); [exact H7|reflexivity| |apply rtc_refl]. cbn [exec_instr]. rewrite <- Es. cbn [sset cs ds es fs gs ss]. unfold w.
    replace (a + 4 * 8) with (a + 32) by lia. replace (a + 4 * 9) with (a + 32 + 4) by lia. replace (a + 4 * 10) with (a + 32 + 4 + 4) by lia. replace (a + 4 * 11) with (a + 32 + 4 + 4 + 4) by lia.
    by replace (a + 56) with (a + 32 + 4 + 4 + 4 + 4 + 8) by lia. }
  destruct (do_iret (w 7) (w 6) (w 5) (w 4) (a + 56) (w 2) (w 1) (w 0) (mks (cs sg) (u16 (w 11)) (u16 (w 10)) (u16 (w 9)) (u16 (w 8)) (ss sg)) a6 fl M idt tss) as [Iu Ik]; [lia|done|].
  assert (Ew : forall k, ld32 M (a + 56 + 4 * k) = w (14 + k)) by (intros k; unfold w; f_equal; lia). rewrite (Ew 0), (Ew 1), (Ew 2), (Ew 3), (Ew 4) in Iu. rewrite (Ew 0), (Ew 1), (Ew 2) in Ik. change (14 + 1) with 15 in *. change (14 + 2) with 16 in *. change (14 + 3) with 17 in *. change (14 + 4) with 18 in *. change (14 + 0) with 14 in *.
  split; intros Hcs; apply Hrun; [rewrite (Iu Hcs); reflexivity|rewrite (Ik Hcs)]. unfold kernel_state, tf_regs. cbn [m_s m_mem m_idt m_tss]. by replace (a + 56 + 12) with (a + 68) by lia.
Qed.

(** ** The entry *)

(** Registers hold words, segment registers selectors. *)
Definition mach_ok (s : mach) : Prop :=
  (word_ok (eax (m_r s)) /\ word_ok (ecx (m_r s)) /\ word_ok (edx (m_r s)) /\ word_ok (ebx (m_r s)) /\ word_ok (esp (m_r s)) /\ word_ok (ebp (m_r s)) /\ word_ok (esi (m_r s)) /\ word_ok (edi (m_r s))) /\
  (sel_ok (cs (m_s s)) /\ sel_ok (ds (m_s s)) /\ sel_ok (es (m_s s)) /\ sel_ok (fs (m_s s)) /\ sel_ok (gs (m_s s)) /\ sel_ok (ss (m_s s))) /\ word_ok (m_eip s) /\ word_ok (m_fl s).

(** The frame of the state [s], trapped at vector [n] with error code [e];
    [sp] is the stack pointer pushal saves. *)
Definition frame_of (s : mach) (n : nat) (e sp : Z) : trapframe :=
  let x := m_r s in let g := m_s s in
  mktf (edi x) (esi x) (ebp x) sp (ebx x) (edx x) (ecx x) (eax x) (gs g) (fs g) (es g) (ds g) (Z.of_nat n) e
    (m_eip s) (cs g) (m_fl s) (esp x) (ss g).

Lemma ST_nil p m idt tss x sg ip fl : mkmach (rset ESP p x) sg ip fl m idt tss = ST p m idt tss x sg ip fl [].
Proof using. unfold ST. by rewrite Z.sub_0_r. Qed.

Lemma enter_ST p m idt tss x sg ip fl l g err s : 128 <= p < 4294967296 -> (length l < 8)%nat -> on_kernel_stack s = ST p m idt tss x sg ip fl l ->
  enter g err s = ST p m idt tss x (sset CS (gi_sel g) sg) (gi_off g) (if gi_trap g then m_fl s else Z.land (m_fl s) (Z.lnot FL_IF))
    (l ++ [m_fl s; cs (m_s s); m_eip s] ++ match err with Some e => [e] | None => [] end).
Proof using.
  intros Hp Hl E. unfold enter. rewrite E. rewrite !push_ST by (rewrite ?length_app; cbn [length]; lia). rewrite <- !app_assoc. cbn [app].
  destruct err as [e|]; [rewrite push_ST by (rewrite ?length_app; cbn [length]; lia); by rewrite <- !app_assoc|done].
Qed.

Lemma user_stack s p : cpl s <> 0 -> ld32 (m_mem s) (m_tss s + 4) = p -> 128 <= p < 4294967296 ->
  on_kernel_stack s = ST p (m_mem s) (m_idt s) (m_tss s) (m_r s) (sset SS (u16 (ld32 (m_mem s) (m_tss s + 8))) (m_s s)) (m_eip s) (m_fl s) [ss (m_s s); esp (m_r s)].
Proof using.
  intros Hc Hp Hr. unfold on_kernel_stack. rewrite (proj2 (Z.eqb_neq _ _)) by done. rewrite Hp. unfold setr, sets. cbn [m_r m_s m_eip m_fl m_mem m_idt m_tss].
  rewrite ST_nil, !push_ST by (cbn [length app]; lia). done.
Qed.

Lemma kernel_stack s : cpl s = 0 -> on_kernel_stack s = ST (esp (m_r s)) (m_mem s) (m_idt s) (m_tss s) (m_r s) (m_s s) (m_eip s) (m_fl s) [].
Proof using. intros Hc. unfold on_kernel_stack. rewrite Hc. cbn [Z.eqb]. rewrite <- ST_nil. by destruct s as [[] ? ? ? ? ? ?]. Qed.

(** The error code the frame gets. *)
Definition err_of (n : nat) (err : option Z) : Z := match err with Some e => e | None => 0 end.

(** From the gate to the call of trap, over the words [l] of the processor. *)
Lemma run_entry p m idt tss x sg fl l n err : 128 <= p < 4294967296 -> (n < 256)%nat -> (length l < 6)%nat -> has_err n = bool_decide (is_Some err) -> word_ok (eax x) ->
  let sp := p - 4 * (Z.of_nat (length l) + 6) in
  let l' := l ++ [err_of n err; Z.of_nat n; ds sg; es sg; fs sg; gs sg; eax x; ecx x; edx x; ebx x; sp; ebp x; esi x; edi x] in
  exists v, runs code (ST p m idt tss x sg (vectors n) fl (l ++ match err with Some e => [e] | None => [] end))
    (ST p m idt tss (rset EAX v x) (sset ES 16 (sset DS 16 sg)) trap fl (l' ++ [p - 4 * Z.of_nat (length l'); ra])).
Proof using HK.
  intros Hp Hn Hl He Hx sp l'. set (l0 := l ++ match err with Some e => [e] | None => [] end). assert (Hl0 : (length l0 < 7)%nat) by (unfold l0; rewrite length_app; destruct err; cbn; lia).
  assert (E0 : l0 ++ (if has_err n then [] else [0]) ++ [Z.of_nat n] = l ++ [err_of n err; Z.of_nat n]) by (rewrite He; unfold l0; destruct err; cbn [err_of]; rewrite <- app_assoc; done).
  pose proof (run_vector p m idt tss Hp x sg fl l0 n Hn ltac:(lia)) as R1. rewrite E0 in R1.
  destruct (run_alltraps p m idt tss Hp x sg fl (l ++ [err_of n err; Z.of_nat n])) as [v R2]; [rewrite length_app; cbn; lia|done|].
  exists v. eapply runs_trans; [exact R1|]. eapply runs_trans; [exact R2|]. rewrite <- !app_assoc. cbn [app].
  assert (Es : p - 4 * (Z.of_nat (length (l ++ [err_of n err; Z.of_nat n])) + 4) = sp) by (rewrite length_app; unfold sp; cbn [length]; lia). rewrite Es. unfold l'. rewrite <- !app_assoc. cbn [app]. apply rtc_refl.
Qed.

(** *** The frame in memory *)

Lemma sel_word v : sel_ok v -> word_ok v.
Proof using. unfold sel_ok, word_ok. lia. Qed.

Lemma u16_sel v : sel_ok v -> u16 v = v.
Proof using. apply Z.mod_small. Qed.

(** Word [j] of the frame of [c] words that ends at [p]. *)
Lemma frame_word m p l c j v : l !! (c - 1 - j)%nat = Some v -> (j < c)%nat -> word_ok v -> ld32 (downs m p l) (p - 4 * Z.of_nat c + 4 * Z.of_nat j) = v.
Proof using.
  intros Hl Hj Hv. rewrite <- (u32_small v) by exact Hv. rewrite <- (ld_downs m p l (c - 1 - j) v Hl). f_equal. lia.
Qed.

Lemma frame_user s m p n err l : mach_ok s -> word_ok (err_of n err) -> (n < 256)%nat -> 128 <= p < 4294967296 ->
  let x := m_r s in let g := m_s s in let sp := p - 44 in
  read_tf (downs m p ([ss g; esp x; m_fl s; cs g; m_eip s; err_of n err; Z.of_nat n; ds g; es g; fs g; gs g; eax x; ecx x; edx x; ebx x; sp; ebp x; esi x; edi x] ++ l)) (p - 76) =
    frame_of s n (err_of n err) sp.
Proof using.
  intros ((? & ? & ? & ? & ? & ? & ? & ?) & (? & ? & ? & ? & ? & ?) & ? & ?) He Hn Hp x g sp. assert (Hsp : word_ok sp) by (unfold word_ok, sp; lia). assert (Hn' : word_ok (Z.of_nat n)) by (unfold word_ok; lia).
  set (ws := _ ++ l). assert (W : forall j v, ws !! (18 - j)%nat = Some v -> (j < 19)%nat -> word_ok v -> ld32 (downs m p ws) (p - 76 + 4 * Z.of_nat j) = v) by (intros; by apply (frame_word m p ws 19)).
  assert (U : forall j v, ws !! (18 - j)%nat = Some v -> (j < 19)%nat -> sel_ok v -> u16 (ld32 (downs m p ws) (p - 76 + 4 * Z.of_nat j)) = v) by (intros j v Hj Hj2 Hj3; rewrite (W j v) by (done || by apply sel_word); by apply u16_sel).
  unfold read_tf, frame_of. f_equal; [apply (W 0%nat)|apply (W 1%nat)|apply (W 2%nat)|apply (W 3%nat)|apply (W 4%nat)|apply (W 5%nat)|apply (W 6%nat)|apply (W 7%nat)|apply (U 8%nat)|apply (U 9%nat)|apply (U 10%nat)|apply (U 11%nat)|
    apply (W 12%nat)|apply (W 13%nat)|apply (W 14%nat)|apply (U 15%nat)|apply (W 16%nat)|apply (W 17%nat)|apply (U 18%nat)]; (done || lia).
Qed.

(** A state as it was, with the memory and the table registers of [t]. *)
Definition resumed (s t : mach) : mach := mkmach (m_r s) (m_s s) (m_eip s) (m_fl s) (m_mem t) (m_idt t) (m_tss t).

Lemma user_state_frame s n e sp t : user_state (frame_of s n e sp) t = resumed s t.
Proof using. by destruct s as [[] [] ? ? ? ? ?]. Qed.

Lemma frame_kernel s m p n err l t : mach_ok s -> p = esp (m_r s) -> 128 <= p < 4294967296 -> ss (m_s t) = ss (m_s s) ->
  let x := m_r s in let g := m_s s in let sp := p - 36 in
  let M := downs m p ([m_fl s; cs g; m_eip s; err_of n err; Z.of_nat n; ds g; es g; fs g; gs g; eax x; ecx x; edx x; ebx x; sp; ebp x; esi x; edi x] ++ l) in
  kernel_state (read_tf M (p - 68)) (p - 68) t = resumed s t /\ tf_cs (read_tf M (p - 68)) = cs g.
Proof using.
  intros ((? & ? & ? & ? & ? & ? & ? & ?) & (? & ? & ? & ? & ? & ?) & ? & ?) Ep Hp Hss x g sp.
  set (ws := _ ++ l). assert (W : forall j v, ws !! (16 - j)%nat = Some v -> (j < 17)%nat -> word_ok v -> ld32 (downs m p ws) (p - 68 + 4 * Z.of_nat j) = v) by (intros; by apply (frame_word m p ws 17)).
  assert (U : forall j v, ws !! (16 - j)%nat = Some v -> (j < 17)%nat -> sel_ok v -> u16 (ld32 (downs m p ws) (p - 68 + 4 * Z.of_nat j)) = v) by (intros j v Hj Hj2 Hj3; rewrite (W j v) by (done || by apply sel_word); by apply u16_sel).
  assert (Ecs : tf_cs (read_tf (downs m p ws) (p - 68)) = cs g) by (apply (U 15%nat); done || lia). split; [|done].
  unfold kernel_state, resumed, tf_regs, tf_segs. rewrite Ecs, Hss. destruct s as [[] [] ? ? ? ? ?]. cbn [m_r m_s m_eip m_fl esp] in *. f_equal.
  - f_equal; [apply (W 7%nat)|apply (W 6%nat)|apply (W 5%nat)|apply (W 4%nat)|lia|apply (W 2%nat)|apply (W 1%nat)|apply (W 0%nat)]; (done || lia).
  - f_equal; [apply (U 11%nat)|apply (U 10%nat)|apply (U 9%nat)|apply (U 8%nat)]; (done || lia).
  - apply (W 14%nat); (done || lia).
  - apply (W 16%nat); (done || lia).
Qed.

(** At the call of trap: the stack holds the return address and the
    argument, which points to the frame at [a]. *)
Record at_trap (s s2 : mach) (a : Z) : Prop := mkat {
  at_eip : m_eip s2 = trap;
  at_ret : top s2 = ra;
  at_arg : ld32 (m_mem s2) (esp (m_r s2) + 4) = a;
  at_esp : esp (m_r s2) = a - 8;
  at_segs : ds (m_s s2) = 16 /\ es (m_s s2) = 16 /\ cpl s2 = 0;
  at_tables : m_idt s2 = m_idt s /\ m_tss s2 = m_tss s }.

(** When trap has returned. *)
Record back_from (s2 s3 : mach) (a : Z) : Prop := mkback {
  bk_eip : m_eip s3 = ra;
  bk_esp : esp (m_r s3) = a - 4;
  bk_cpl : cpl s3 = 0;
  bk_ss : ss (m_s s3) = ss (m_s s2) }.

Lemma run_back s2 s3 a : back_from s2 s3 a -> 4 <= a < 4294967100 -> let tf := read_tf (m_mem s3) a in
  (Z.land (tf_cs tf) 3 = 3 -> runs code s3 (user_state tf s3)) /\ (Z.land (tf_cs tf) 3 = 0 -> runs code s3 (kernel_state tf a s3)).
Proof using HK.
  intros [B1 B2 B3 B4] Ha tf. destruct s3 as [[A C D B sp bp si di] sg ip fl M i t]. cbn [m_eip m_r esp m_s] in *. subst ip sp. unfold cpl in B3. cbn [m_s] in B3.
  destruct (run_trapret (mkmach (mkr A C D B a bp si di) sg tr fl M i t) a) as [Ru Rk]; [done|done|lia|done|].
  split; intros Hc; (eapply runs_l; [exact (kc_back HK)|reflexivity|apply do_add_esp; lia|]); replace (a - 4 + 4) with a by lia; [exact (Ru Hc)|exact (Rk Hc)].
Qed.

Lemma at_trap_ST p m x sgk v fl L s : (length L < 30)%nat -> 128 <= p < 4294967296 -> ds sgk = 16 -> es sgk = 16 -> Z.land (cs sgk) 3 = 0 ->
  at_trap s (ST p m (m_idt s) (m_tss s) (rset EAX v x) sgk trap fl (L ++ [p - 4 * Z.of_nat (length L); ra])) (p - 4 * Z.of_nat (length L)).
Proof using HK.
  intros HL Hp Hds Hes Hcs. pose proof (kc_ra HK) as Hra.
  assert (E : esp (m_r (ST p m (m_idt s) (m_tss s) (rset EAX v x) sgk trap fl (L ++ [p - 4 * Z.of_nat (length L); ra]))) = p - 4 * Z.of_nat (length L) - 8) by (cbn; rewrite length_app; cbn [length]; lia).
  split; [done| | |done|done|done]; unfold top; rewrite E; cbn [m_mem ST].
  - rewrite <- (u32_small ra) at 2 by exact Hra. rewrite <- (ld_downs m p (L ++ [p - 4 * Z.of_nat (length L); ra]) (S (length L)) ra); [f_equal; lia|]. rewrite lookup_app_r by lia. by replace (S (length L) - length L)%nat with 1%nat by lia.
  - transitivity (u32 (p - 4 * Z.of_nat (length L))); [|apply u32_small; lia].
    rewrite <- (ld_downs m p (L ++ [p - 4 * Z.of_nat (length L); ra]) (length L) (p - 4 * Z.of_nat (length L))); [f_equal; lia|]. rewrite lookup_app_r by lia. by rewrite Nat.sub_diag.
Qed.

(** The gate of a vector. *)
Definition gate_to (s : mach) (n : nat) : Prop := exists g, gate_at s n = Some g /\ gi_off g = vectors n /\ Z.land (gi_sel g) 3 = 0.

Lemma user_entry s n err p : mach_ok s -> cpl s = 3 -> ld32 (m_mem s) (m_tss s + 4) = p -> 128 <= p < 4294967100 -> gate_to s n -> (n < 256)%nat -> has_err n = bool_decide (is_Some err) -> word_ok (err_of n err) ->
  exists s1 s2, deliver n err s = Some s1 /\ runs code s1 s2 /\ at_trap s s2 (p - 76) /\ read_tf (m_mem s2) (p - 76) = frame_of s n (err_of n err) (p - 44) /\
    (forall b, b < p - 84 \/ p <= b -> m_mem s2 b = m_mem s b).
Proof using HK.
  intros Hs Hc Hst Hp (g & Hg & Ho & Hsel) Hn He Hew. assert (Hx : word_ok (eax (m_r s))) by apply Hs. unfold deliver. rewrite Hg. cbn [mbind option_bind].
  pose proof (user_stack s p ltac:(lia) Hst ltac:(lia)) as Es. rewrite (enter_ST p _ _ _ _ _ _ _ [ss (m_s s); esp (m_r s)] g err s ltac:(lia) ltac:(cbn; lia) Es). rewrite Ho, app_assoc. set (fl' := if gi_trap g then _ else _). set (sg := sset CS _ _).
  destruct (run_entry p (m_mem s) (m_idt s) (m_tss s) (m_r s) sg fl' [ss (m_s s); esp (m_r s); m_fl s; cs (m_s s); m_eip s] n err ltac:(lia) Hn ltac:(cbn; lia) He Hx) as [v R].
  eexists _, _. split; [done|]. split; [exact R|]. split_and!.
  - apply at_trap_ST; [cbn; lia|lia|done|done|exact Hsel].
  - rewrite <- app_assoc. cbn [m_mem ST]. apply (frame_user s (m_mem s) p n err); (done || lia).
  - intros b Hb. cbn [m_mem ST]. apply downs_out. rewrite !length_app. cbn [length]. lia.
Qed.

Lemma kernel_entry s n err p : mach_ok s -> cpl s = 0 -> esp (m_r s) = p -> 128 <= p < 4294967100 -> gate_to s n -> (n < 256)%nat -> has_err n = bool_decide (is_Some err) ->
  exists s1 s2, deliver n err s = Some s1 /\ runs code s1 s2 /\ at_trap s s2 (p - 68) /\ ss (m_s s2) = ss (m_s s) /\ tf_cs (read_tf (m_mem s2) (p - 68)) = cs (m_s s) /\
    (forall t, ss (m_s t) = ss (m_s s) -> kernel_state (read_tf (m_mem s2) (p - 68)) (p - 68) t = resumed s t) /\ (forall b, b < p - 76 \/ p <= b -> m_mem s2 b = m_mem s b).
Proof using HK.
  intros Hs Hc Hst Hp (g & Hg & Ho & Hsel) Hn He. assert (Hx : word_ok (eax (m_r s))) by apply Hs. unfold deliver. rewrite Hg. cbn [mbind option_bind].
  pose proof (kernel_stack s Hc) as Es. rewrite Hst in Es. rewrite (enter_ST p _ _ _ _ _ _ _ [] g err s ltac:(lia) ltac:(cbn; lia) Es). rewrite Ho, app_assoc. set (fl' := if gi_trap g then _ else _). set (sg := sset CS _ _).
  destruct (run_entry p (m_mem s) (m_idt s) (m_tss s) (m_r s) sg fl' [m_fl s; cs (m_s s); m_eip s] n err ltac:(lia) Hn ltac:(cbn; lia) He Hx) as [v R].
  eexists _, _. split; [done|]. split; [exact R|]. pose proof (fun t Ht => frame_kernel s (m_mem s) p n err [p - 68; ra] t Hs (eq_sym Hst) ltac:(lia) Ht) as F. split_and!.
  - apply at_trap_ST; [cbn; lia|lia|done|done|exact Hsel].
  - done.
  - by destruct (F s eq_refl) as [_ F2].
  - intros t Ht. by destruct (F t Ht) as [F1 _].
  - intros b Hb. cbn [m_mem ST]. apply downs_out. rewrite !length_app. cbn [length]. lia.
Qed.
End Traps.

(** ** The interrupt table in memory *)

Definition table_at (m : mem) (base : Z) (l : list gatedesc) : Prop :=
  forall k d, l !! k = Some d -> (ld32 m (base + 8 * Z.of_nat k), ld32 m (base + 8 * Z.of_nat k + 4)) = gate_words d.

Lemma tv_gate vectors s n : (forall i, 0 <= vectors i < 2 ^ 32) -> table_at (m_mem s) (m_idt s) (tvinit vectors) -> (n < 256)%nat ->
  gate_at s n = Some (mkgateinfo (vectors n) 8 (n =? 64)%nat (if (n =? 64)%nat then 3 else 0)).
Proof.
  intros Hv Ht Hn. pose proof (tvinit_view vectors n Hv Hn) as E. destruct (tvinit vectors !! n) as [d|] eqn:Ed; [|done]. cbn in E. injection E as E. unfold gate_at. by rewrite (Ht n d Ed).
Qed.

Lemma tv_gate_to vectors s n : (forall i, 0 <= vectors i < 2 ^ 32) -> table_at (m_mem s) (m_idt s) (tvinit vectors) -> (n < 256)%nat -> gate_to vectors s n.
Proof. intros Hv Ht Hn. eexists. split; [by apply tv_gate|]. done. Qed.

Section Properties.
Context (code : Z -> option (instr * Z)) (vectors : nat -> Z) (al ra tr trap : Z).

(** The kernel as the linker and tvinit leave it, seen from the state [s]:
    code, table, and the top [p] of the stack a trap uses. *)
Record kernel_at (s : mach) (p : Z) : Prop := mkkernel {
  ka_code : kcode code vectors al ra tr trap;
  ka_vectors : forall i, 0 <= vectors i < 2 ^ 32;
  ka_table : table_at (m_mem s) (m_idt s) (tvinit vectors);
  ka_stack : p = if cpl s =? 0 then esp (m_r s) else ld32 (m_mem s) (m_tss s + 4);
  ka_room : 128 <= p < 4294967100;
  ka_ok : mach_ok s;
  ka_cpl : cpl s = 0 \/ cpl s = 3 }.

(** a trap or an interrupt in user mode.  The processor, the vector and alltraps
    build on the process's kernel stack the frame that describes the
    interrupted registers, whether or not the vector has an error code, and
    call trap with its address; nothing else in memory changes.  When trap
    returns, trapret and iret load the registers from the frame as
    it is then. *)
Theorem trap_frame (s : mach) (p : Z) (n : nat) (err : option Z) :
  kernel_at s p -> cpl s = 3 -> (n < 256)%nat -> has_err n = bool_decide (is_Some err) -> word_ok (err_of n err) ->
  let a := p - 76 in
  exists s1 s2, deliver n err s = Some s1 /\ runs code s1 s2 /\ at_trap ra trap s s2 a /\
    read_tf (m_mem s2) a = frame_of s n (err_of n err) (p - 44) /\
    (forall b, b < a - 8 \/ p <= b -> m_mem s2 b = m_mem s b) /\
    forall s3, back_from ra s2 s3 a -> let tf := read_tf (m_mem s3) a in
      Z.land (tf_cs tf) 3 = 3 -> runs code s3 (user_state tf s3).
Proof.
  intros [KC KV KT KS KR KO _] Hc Hn He Hew a. rewrite Hc in KS. cbn [Z.eqb] in KS.
  destruct (user_entry code vectors al ra tr trap KC s n err p KO Hc (eq_sym KS) KR (tv_gate_to vectors s n KV KT Hn) Hn He Hew) as (s1 & s2 & R1 & R2 & R3 & R4 & R5).
  exists s1, s2. split_and!; [done..|intros b Hb; apply R5; lia|]. intros s3 Hb tf Htf. apply (run_back code vectors al ra tr trap KC s2 s3 a Hb); [lia|done].
Qed.

(** C11: an interrupt is not noticed.  In user mode or in the kernel, if trap leaves
    the frame as it is and comes back on the same stack, the interrupted code goes on with
    every register, segment, flag and the stack pointer as before. *)
Theorem interrupt_transparent (s : mach) (p : Z) (n : nat) (err : option Z) :
  kernel_at s p -> (n < 256)%nat -> has_err n = bool_decide (is_Some err) -> word_ok (err_of n err) ->
  let a := p - (if cpl s =? 0 then 68 else 76) in
  exists s1 s2, deliver n err s = Some s1 /\ runs code s1 s2 /\ at_trap ra trap s s2 a /\
    forall s3, back_from ra s2 s3 a -> read_tf (m_mem s3) a = read_tf (m_mem s2) a -> runs code s3 (resumed s s3).
Proof.
  intros [KC KV KT KS KR KO KP] Hn He Hew a. pose proof (tv_gate_to vectors s n KV KT Hn) as Hg. unfold a. destruct KP as [Hc|Hc]; rewrite Hc in *; cbn [Z.eqb] in *.
  - destruct (kernel_entry code vectors al ra tr trap KC s n err p KO Hc (eq_sym KS) KR Hg Hn He) as (s1 & s2 & R1 & R2 & R3 & R4 & R5 & R6 & _).
    exists s1, s2. split_and!; [done..|]. intros s3 Hb Htf. destruct (run_back code vectors al ra tr trap KC s2 s3 (p - 68) Hb) as [_ Rk]; [lia|]. rewrite Htf, R5 in Rk.
    rewrite <- (R6 s3) by (rewrite (bk_ss _ _ _ _ Hb); exact R4). by apply Rk.
  - destruct (user_entry code vectors al ra tr trap KC s n err p KO Hc (eq_sym KS) KR Hg Hn He Hew) as (s1 & s2 & R1 & R2 & R3 & R4 & _).
    exists s1, s2. split_and!; [done..|]. intros s3 Hb Htf. destruct (run_back code vectors al ra tr trap KC s2 s3 (p - 76) Hb) as [Ru _]; [lia|]. rewrite Htf, R4, user_state_frame in Ru.
    by apply Ru.
Qed.

Lemma kernel_at_goto s p next v : kernel_at s p -> word_ok next -> word_ok v -> cpl s = 3 -> kernel_at (goto next (setr EAX v s)) p.
Proof.
  intros [KC KV KT KS KR ((K1 & K2) & K3 & K4 & K5) KP] Hn Hv Hc. destruct s as [[] ? ? ? ? ? ?]. unfold cpl in *. cbn [m_s m_r esp] in *. rewrite Hc in *.
  split; [exact KC|exact KV|exact KT|unfold cpl; cbn; by rewrite Hc|exact KR| |by right]. split; [split; [done|exact K2]|]. split; [done|]. split; [done|done].
Qed.

(** The int instruction in user mode: the gate for system calls, or a general
    protection fault. *)
Lemma step_int s p n next : kernel_at s p -> cpl s = 3 -> (n < 256)%nat -> code (m_eip s) = Some (INT n, next) ->
  step code s = if (n =? 64)%nat then deliver 64 None (goto next s) else deliver 13 (Some (8 * Z.of_nat n + 2)) s.
Proof.
  intros [KC KV KT _ _ _ _] Hc Hn Hi. unfold step. rewrite Hi. cbn [mbind option_bind exec_instr]. unfold int_instr. rewrite (tv_gate vectors s n KV KT Hn). cbn [mbind option_bind gi_dpl]. rewrite Hc.
  destruct (Nat.eqb_spec n 64) as [->|Hne]; [|done]. cbn. unfold deliver. by rewrite (tv_gate vectors (goto next s) 64 KV KT ltac:(lia)).
Qed.

(** C29: the int instruction of a user program enters the kernel through the
    system call's gate or not at all: any other vector is a general protection
    fault, reported in the frame with the vector in the error code and the
    address of the instruction itself. *)
Theorem int_protected (s : mach) (p : Z) (n : nat) (next : Z) :
  kernel_at s p -> cpl s = 3 -> (n < 256)%nat -> code (m_eip s) = Some (INT n, next) -> word_ok next ->
  exists s2, runs code s s2 /\ at_trap ra trap s s2 (p - 76) /\
    read_tf (m_mem s2) (p - 76) = if (n =? 64)%nat then frame_of (goto next s) 64 0 (p - 44) else frame_of s 13 (8 * Z.of_nat n + 2) (p - 44).
Proof.
  intros HK Hc Hn Hi Hw. pose proof (step_int s p n next HK Hc Hn Hi) as Hs. pose proof HK as [KC KV KT KS KR KO KP]. rewrite Hc in KS. cbn [Z.eqb] in KS. destruct (Nat.eqb_spec n 64) as [->|Hne].
  - assert (KO' : mach_ok (goto next s)) by (destruct KO as (K1 & K2 & K3 & K4); split; [exact K1|]; split; [exact K2|]; by split).
    destruct (user_entry code vectors al ra tr trap KC (goto next s) 64 None p KO' Hc (eq_sym KS) KR (tv_gate_to vectors (goto next s) 64 KV KT ltac:(lia)) ltac:(lia) eq_refl ltac:(done)) as (s1 & s2 & R1 & R2 & R3 & R4 & _).
    exists s2. split; [eapply rtc_l; [rewrite Hs; exact R1|exact R2]|]. split; [destruct R3; by split|exact R4].
  - destruct (user_entry code vectors al ra tr trap KC s 13 (Some (8 * Z.of_nat n + 2)) p KO Hc (eq_sym KS) KR (tv_gate_to vectors s 13 KV KT ltac:(lia)) ltac:(lia) eq_refl ltac:(cbn; unfold word_ok; lia)) as (s1 & s2 & R1 & R2 & R3 & R4 & _).
    exists s2. split; [eapply rtc_l; [rewrite Hs; exact R1|exact R2]|]. split; [done|exact R4].
Qed.

(** C23: a system call from the user's side.  The stub puts the number in eax and
    traps: the kernel's frame is the caller's registers, with eax the number,
    trap number 64 and the caller's stack pointer, above which the arguments
    lie.  When the kernel comes back with a result in the frame's eax, the
    stub returns to its caller with the result in eax and every other register as it was. *)
Theorem syscall_stub (s : mach) (p stub e number : Z) :
  kernel_at s p -> cpl s = 3 -> m_eip s = stub -> placed code stub (SYSCALL number) e -> word_ok number -> (forall c i next, code c = Some (i, next) -> word_ok next) ->
  esp (m_r s) < 4294967200 ->
  exists s2 tf, runs code s s2 /\ at_trap ra trap s s2 (p - 76) /\ read_tf (m_mem s2) (p - 76) = tf /\
    tf_eax tf = number /\ tf_trapno tf = 64 /\ tf_esp tf = esp (m_r s) /\
    forall s3 result ret, back_from ra s2 s3 (p - 76) -> read_tf (m_mem s3) (p - 76) = tf_set_eax result tf -> ld32 (m_mem s3) (esp (m_r s)) = ret ->
      runs code s3 (mkmach (rset ESP (esp (m_r s) + 4) (rset EAX result (m_r s))) (m_s s) ret (m_fl s) (m_mem s3) (m_idt s3) (m_tss s3)).
Proof.
  intros HK Hc Hip Hpl Hnum Hnext Hsp. unfold SYSCALL in Hpl. cbn [placed] in Hpl. destruct Hpl as (a1 & H1 & a2 & H2 & a3 & H3 & _). set (s0 := goto a1 (setr EAX number s)).
  pose proof (kernel_at_goto s p a1 number HK (Hnext _ _ _ H1) Hnum Hc) as HK0. fold s0 in HK0. assert (Hc0 : cpl s0 = 3) by exact Hc.
  pose proof (step_int s0 p 64 a2 HK0 Hc0 ltac:(lia) H2) as Hst. pose proof HK0 as [KC KV KT KS KR KO KP]. rewrite Hc0 in KS. cbn [Z.eqb] in KS. pose proof KO as (K1 & K2 & K3 & K4).
  assert (KO' : mach_ok (goto a2 s0)) by (split; [exact K1|]; split; [exact K2|]; split; [exact (Hnext _ _ _ H2)|done]).
  destruct (user_entry code vectors al ra tr trap KC (goto a2 s0) 64 None p KO' Hc0 (eq_sym KS) KR (tv_gate_to vectors (goto a2 s0) 64 KV KT ltac:(lia)) ltac:(lia) eq_refl ltac:(done)) as (s1 & s2 & R1 & R2 & R3 & R4 & _).
  exists s2, (frame_of (goto a2 s0) 64 0 (p - 44)). split.
  { eapply runs_l; [exact H1|exact Hip|reflexivity|]. fold s0. eapply rtc_l; [rewrite Hst; exact R1|exact R2]. }
  split; [destruct R3; by split|]. split; [exact R4|]. split; [done|]. split; [done|]. split; [by destruct s as [[] ? ? ? ? ? ?]|].
  intros s3 result ret Hb Htf Hret. destruct (run_back code vectors al ra tr trap KC s2 s3 (p - 76) Hb) as [Ru _]; [lia|]. rewrite Htf in Ru. eapply runs_trans; [apply Ru; exact Hc|].
  assert (H0 : 0 <= esp (m_r s)) by (destruct s as [[] ? ? ? ? ? ?]; unfold mach_ok, word_ok in K1; cbn in K1; cbn; lia).
  eapply runs_l; [exact H3|reflexivity| |apply rtc_refl]. cbn [exec_instr]. unfold top. destruct s as [[A C D B sp bp si di] [] ip fl M i t]. cbn [m_r esp] in *.
  unfold user_state, tf_regs, tf_segs. cbn. rewrite Hret. rewrite drop4_mach by lia. done.
Qed.

(** initcode.S: the first process asks for exec(init, argv), the arguments on
    its stack under a return address of 0.  Its stack is not the kernel's nor
    where the tables are. *)
Lemma initcode_execs (s : mach) (p start e init argv : Z) : let sp := esp (m_r s) in
  kernel_at s p -> cpl s = 3 -> m_eip s = start -> placed code start (init_start init argv) e -> word_ok init -> word_ok argv -> (forall c i next, code c = Some (i, next) -> word_ok next) ->
  128 <= sp -> sp <= p - 84 -> sp <= m_idt s -> sp <= m_tss s ->
  exists s2 tf, runs code s s2 /\ at_trap ra trap s s2 (p - 76) /\ read_tf (m_mem s2) (p - 76) = tf /\ tf_eax tf = 7 /\ tf_trapno tf = 64 /\ tf_esp tf = sp - 12 /\
    ld32 (m_mem s2) (sp - 12) = 0 /\ ld32 (m_mem s2) (sp - 8) = init /\ ld32 (m_mem s2) (sp - 4) = argv.
Proof.
  intros sp HK Hc Hip Hpl Hi Ha Hnext H0 Hsp Hidt Htss. unfold init_start in Hpl. cbn [placed] in Hpl. destruct Hpl as (a1 & P1 & a2 & P2 & a3 & P3 & a4 & P4 & a5 & P5 & _).
  destruct HK as [KC KV KT KS KR KO KP]. rewrite Hc in KS. cbn [Z.eqb] in KS. destruct s as [[A C D B sp0 bp si di] sg ip fl m idt tss]. unfold sp, cpl in *. cbn [m_r m_s m_mem m_idt m_tss m_eip esp] in *. clear sp. subst ip.
  set (l := [argv; init; 0]). set (s4 := ST sp0 m idt tss (mkr 7 C D B sp0 bp si di) sg a4 fl l).
  assert (Hld : forall b, sp0 <= b -> ld32 (downs m sp0 l) b = ld32 m b) by (intros b Hb; apply ld_downs_out; lia).
  assert (KT4 : table_at (m_mem s4) (m_idt s4) (tvinit vectors)) by (intros k d Hd; rewrite <- (KT k d Hd); cbn [m_mem m_idt s4 ST]; by rewrite !Hld by lia).
  assert (KO4 : forall a, word_ok a -> mach_ok (goto a s4)).
  { intros a Hw. destruct KO as ((_ & K1 & K2 & K3 & _ & K5) & K6 & _ & K8). split; [split; [cbn; unfold word_ok; lia|]|split; [exact K6|split; [exact Hw|exact K8]]].
    split; [exact K1|]. split; [exact K2|]. split; [exact K3|]. split; [cbn; unfold word_ok; lia|exact K5]. }
  pose proof (KO4 a5 (Hnext _ _ _ P5)) as KO5.
  assert (KS5 : ld32 (m_mem (goto a5 s4)) (m_tss (goto a5 s4) + 4) = p) by (cbn [m_mem m_tss goto s4 ST]; rewrite Hld by lia; done).
  assert (HK4 : kernel_at s4 p) by (split; [exact KC|exact KV|exact KT4|unfold cpl; change (m_s s4) with sg; rewrite Hc; exact (eq_sym KS5)|exact KR|exact (KO4 a4 (Hnext _ _ _ P4))|by right]).
  destruct (user_entry code vectors al ra tr trap KC (goto a5 s4) 64 None p KO5 Hc KS5 KR (tv_gate_to vectors (goto a5 s4) 64 KV KT4 ltac:(lia)) ltac:(lia) eq_refl ltac:(done)) as (s1 & s2 & R1 & R2 & R3 & R4 & R5).
  exists s2, (frame_of (goto a5 s4) 64 0 (p - 44)).
  assert (Hw : forall k v, l !! k = Some v -> word_ok v -> ld32 (m_mem s2) (sp0 - 4 * (Z.of_nat k + 1)) = v).
  { intros k v Hk Hv. pose proof (lookup_lt_Some _ _ _ Hk) as Hlt. cbn in Hlt. rewrite (ld32_ext (m_mem (goto a5 s4))) by (intros b Hb; apply R5; lia). cbn [m_mem goto s4 ST]. rewrite (ld_downs _ _ _ _ _ Hk). by apply u32_small. }
  split.
  { assert (Hp : 128 <= sp0 < 4294967296) by lia. assert (Es : mkmach (mkr A C D B sp0 bp si di) sg start fl m idt tss = ST sp0 m idt tss (mkr A C D B sp0 bp si di) sg start fl []) by (rewrite <- ST_nil; done). rewrite Es.
    irun P1 by do_push_imm. irun P2 by do_push_imm. irun P3 by do_push_imm. eapply runs_l; [exact P4|reflexivity|reflexivity|]. change (runs code s4 s2). eapply rtc_l; [|exact R2]. rewrite (step_int s4 p 64 a5 HK4 Hc ltac:(lia) P5). exact R1. }
  split; [destruct R3; by split|]. split; [exact R4|]. split; [done|]. split; [done|]. split; [done|].
  split; [|split]; [exact (Hw 2%nat 0 eq_refl ltac:(unfold word_ok; lia))|exact (Hw 1%nat init eq_refl Hi)|exact (Hw 0%nat argv eq_refl Ha)].
Qed.
End Properties.

(** ** The properties on a small kernel *)

(** Code whose instructions take one byte each. *)
Definition at_base (base : Z) (l : list instr) (a : Z) : option (instr * Z) :=
  if base <=? a then (fun i => (i, a + 1)) <$> l !! Z.to_nat (a - base) else None.

Lemma placed_at_base code base l : (forall a, base <= a < base + Z.of_nat (length l) -> code a = at_base base l a) -> placed code base l (base + Z.of_nat (length l)).
Proof.
  intros H. assert (Hk : forall k l', l = take k l ++ l' -> (k <= length l)%nat -> placed code (base + Z.of_nat k) l' (base + Z.of_nat (length l))).
  { intros k l'. revert k. induction l' as [|i l' IH]; intros k El Hk; cbn [placed].
    - apply (f_equal length) in El. rewrite app_nil_r, length_take in El. lia.
    - assert (Hi : l !! k = Some i) by (rewrite El; apply list_lookup_middle; rewrite length_take; lia). pose proof (lookup_lt_Some _ _ _ Hi) as Hlt.
      exists (base + Z.of_nat k + 1). rewrite H by lia. unfold at_base. rewrite (proj2 (Z.leb_le _ _)) by lia. replace (Z.to_nat (base + Z.of_nat k - base)) with k by lia. rewrite Hi. split; [done|].
      replace (base + Z.of_nat k + 1) with (base + Z.of_nat (S k)) by lia. apply IH; [|lia]. rewrite (take_S_r _ _ i) by done. by rewrite <- app_assoc. }
  pose proof (Hk 0%nat l eq_refl ltac:(lia)) as H0. by rewrite Z.add_0_r in H0.
Qed.

Definition demo_vectors (n : nat) : Z := 100000 + 10 * Z.of_nat (n mod 256).
(** The vectors from 100000 on, alltraps and what follows at 200000, swtch
    at 300000, the stub of fork at 400000, an int 3 at 410000. *)
Definition demo_code (a : Z) : option (instr * Z) :=
  if (100000 <=? a) && (a <? 102560) then at_base (100000 + 10 * ((a - 100000) / 10)) (vector 200000 (Z.to_nat ((a - 100000) / 10))) a
  else if (200000 <=? a) && (a <? 200100) then at_base 200000 (alltraps 900000 ++ [ADDL 4 ESP] ++ trapret) a
  else if (300000 <=? a) && (a <? 300100) then at_base 300000 swtch a
  else if (400000 <=? a) && (a <? 400003) then at_base 400000 (SYSCALL 1) a
  else if a =? 410000 then Some (INT 3, 410001)
  else if a =? 420000 then Some (RET, 420001) else None.

Lemma demo_kcode : kcode demo_code demo_vectors 200000 200010 200011 900000.
Proof.
  split; [|repeat (eexists; split; [reflexivity|]); reflexivity|reflexivity|eexists; repeat (eexists; split; [reflexivity|]); reflexivity|unfold word_ok; lia].
  intros n Hn. eexists. apply placed_at_base. intros a Ha. unfold demo_vectors in *. rewrite Nat.mod_small in * by done.
  assert (Hl : (length (vector 200000 n) <= 3)%nat) by (unfold vector; destruct (has_err n); cbn; lia). unfold demo_code. rewrite (proj2 (Z.leb_le 100000 a)), (proj2 (Z.ltb_lt a 102560)) by lia. cbn [andb].
  assert (E : (a - 100000) / 10 = Z.of_nat n) by zdiv. by rewrite E, Nat2Z.id.
Qed.

(** Memory given by its words. *)
Definition words_mem (f : Z -> Z) : mem := fun b => (f (4 * (b / 4)) / 256 ^ (b mod 4)) mod 256.

Lemma ld_words f a : a mod 4 = 0 -> ld32 (words_mem f) a = u32 (f a).
Proof.
  intros Ha. assert (E : forall k, 0 <= k < 4 -> words_mem f (a + k) = (f a / 256 ^ k) mod 256).
  { intros k Hk. unfold words_mem. replace (4 * ((a + k) / 4)) with a by zdiv. by replace ((a + k) mod 4) with k by zdiv. }
  unfold ld32. rewrite !E by lia. pose proof (E 0 ltac:(lia)) as E0. rewrite Z.add_0_r in E0. rewrite E0.
  change (256 ^ 0) with 1. change (256 ^ 1) with 256. change (256 ^ 2) with 65536. change (256 ^ 3) with 16777216. unfold u32. zdiv.
Qed.

Lemma gate_words_range istrap sel off d : word_ok (gate_words (SETGATE istrap sel off d)).1 /\ word_ok (gate_words (SETGATE istrap sel off d)).2.
Proof.
  unfold gate_words, SETGATE, word_ok, STS_TG32, STS_IG32. cbn [pack off_15_0 g_cs g_args g_rsv1 g_type g_s g_dpl g_p off_31_16 fst snd]. fields. split; [zdiv|destruct istrap; zdiv].
Qed.

(** The table at 500000, the task state at 600000, the kernel stack ending at
    700000. *)
Definition demo_words (a : Z) : Z :=
  if (500000 <=? a) && (a <? 502048) then
    let w := gate_words (default (SETGATE false 0 0 0) (tvinit demo_vectors !! Z.to_nat ((a - 500000) / 8))) in
    if (a - 500000) mod 8 =? 0 then w.1 else w.2
  else if a =? 600004 then 700000 else if a =? 600008 then 16 else 0.
Definition demo_mem : mem := words_mem demo_words.

Lemma demo_table : table_at demo_mem 500000 (tvinit demo_vectors).
Proof.
  intros k d Hd. assert (Hk : (k < 256)%nat) by (apply lookup_lt_Some in Hd; unfold tvinit in Hd; by rewrite length_insert, length_map, length_seq in Hd).
  assert (Hr : word_ok (gate_words d).1 /\ word_ok (gate_words d).2).
  { unfold tvinit in Hd. apply list_lookup_insert_Some in Hd as [(_ & <- & _)|[_ Hd]]; [apply gate_words_range|]. apply list_lookup_fmap_Some in Hd as (i & -> & _). apply gate_words_range. }
  unfold demo_mem. rewrite !ld_words by zdiv. unfold demo_words. rewrite (proj2 (Z.leb_le 500000 (500000 + 8 * Z.of_nat k))), (proj2 (Z.ltb_lt (500000 + 8 * Z.of_nat k) 502048)) by lia. cbn [andb].
  rewrite (proj2 (Z.leb_le 500000 (500000 + 8 * Z.of_nat k + 4))), (proj2 (Z.ltb_lt (500000 + 8 * Z.of_nat k + 4) 502048)) by lia. cbn [andb].
  replace ((500000 + 8 * Z.of_nat k - 500000) / 8) with (Z.of_nat k) by zdiv. replace ((500000 + 8 * Z.of_nat k + 4 - 500000) / 8) with (Z.of_nat k) by zdiv. rewrite Nat2Z.id, Hd. cbn [default].
  replace ((500000 + 8 * Z.of_nat k - 500000) mod 8) with 0 by zdiv. replace ((500000 + 8 * Z.of_nat k + 4 - 500000) mod 8) with 4 by zdiv. cbn [Z.eqb].
  unfold id. destruct Hr as [Hr1 Hr2]. rewrite (u32_small _ Hr1), (u32_small _ Hr2). symmetry. apply surjective_pairing.
Qed.

(** A user program, and the kernel on the same stack. *)
Definition demo_user (ip : Z) : mach := mkmach (mkr 1 2 3 4 8000 6 7 8) (mks 27 35 35 0 0 35) ip 512 demo_mem 500000 600000.
Definition demo_kernel : mach := mkmach (mkr 1 2 3 4 650000 6 7 8) (mks 8 16 16 0 0 16) 800000 512 demo_mem 500000 600000.

Lemma demo_kernel_at ip : word_ok ip -> kernel_at demo_code demo_vectors 200000 200010 200011 900000 (demo_user ip) 700000.
Proof.
  intros Hip. split; [exact demo_kcode| |exact demo_table|by vm_compute|lia| |by right].
  - intros i. unfold demo_vectors. pose proof (Nat.mod_upper_bound i 256 ltac:(lia)). lia.
  - repeat split; try (cbn; lia); apply Hip.
Qed.

Lemma demo_in_kernel : kernel_at demo_code demo_vectors 200000 200010 200011 900000 demo_kernel 650000.
Proof. destruct (demo_kernel_at 0 ltac:(unfold word_ok; lia)) as [K1 K2 K3 _ _ _ _]. split; [exact K1|exact K2|exact K3|done|lia| |by left]. repeat split; cbn; lia. Qed.

(** A page fault of a user program. *)
Lemma trap_frame_witness : exists s1 s2, deliver 14 (Some 4) (demo_user 5000) = Some s1 /\ runs demo_code s1 s2 /\ m_eip s2 = 900000 /\
  tf_trapno (read_tf (m_mem s2) 699924) = 14 /\ tf_err (read_tf (m_mem s2) 699924) = 4 /\ tf_esp (read_tf (m_mem s2) 699924) = 8000.
Proof.
  destruct (trap_frame demo_code demo_vectors 200000 200010 200011 900000 (demo_user 5000) 700000 14 (Some 4) (demo_kernel_at 5000 ltac:(unfold word_ok; lia)) eq_refl ltac:(lia) eq_refl ltac:(cbn; unfold word_ok; lia))
    as (s1 & s2 & R1 & R2 & R3 & R4 & _). change (700000 - 76) with 699924 in R4. exists s1, s2. rewrite R4. split; [exact R1|]. split; [exact R2|]. split; [exact (at_eip _ _ _ _ _ R3)|]. split; [reflexivity|]. split; reflexivity.
Defined.

(** A timer interrupt in the kernel. *)
Lemma interrupt_transparent_witness : exists s1 s2, deliver 32 None demo_kernel = Some s1 /\ runs demo_code s1 s2 /\
  forall s3, back_from 200010 s2 s3 649932 -> read_tf (m_mem s3) 649932 = read_tf (m_mem s2) 649932 -> runs demo_code s3 (resumed demo_kernel s3).
Proof.
  destruct (interrupt_transparent demo_code demo_vectors 200000 200010 200011 900000 demo_kernel 650000 32 None demo_in_kernel ltac:(lia) eq_refl ltac:(cbn; unfold word_ok; lia)) as (s1 & s2 & R1 & R2 & _ & R3).
  exists s1, s2. split; [exact R1|]. split; [exact R2|exact R3].
Defined.

Lemma int_protected_witness : exists s2, runs demo_code (demo_user 410000) s2 /\ tf_trapno (read_tf (m_mem s2) 699924) = 13 /\ tf_err (read_tf (m_mem s2) 699924) = 26.
Proof.
  destruct (int_protected demo_code demo_vectors 200000 200010 200011 900000 (demo_user 410000) 700000 3 410001 (demo_kernel_at 410000 ltac:(unfold word_ok; lia)) eq_refl ltac:(lia) eq_refl ltac:(unfold word_ok; lia))
    as (s2 & R1 & _ & R2). change (700000 - 76) with 699924 in R2. exists s2. rewrite R2. split; [exact R1|]. split; reflexivity.
Defined.

Lemma at_base_next base l a i next : at_base base l a = Some (i, next) -> next = a + 1.
Proof. unfold at_base. destruct (base <=? a); [|done]. intros H. apply fmap_Some in H as (j & _ & E). by simplify_eq. Qed.

Lemma demo_next c i next : demo_code c = Some (i, next) -> word_ok next.
Proof.
  unfold demo_code, word_ok. repeat (destruct (_ && _) eqn:E; [intros H; apply at_base_next in H; clear - H E; zbool; lia|clear E]).
  destruct (Z.eqb_spec c 410000); [intros H; simplify_eq; lia|]. destruct (Z.eqb_spec c 420000); [intros H; simplify_eq; lia|done].
Qed.

(** fork() at 400000 *)
Lemma syscall_stub_witness : exists s2 tf, runs demo_code (demo_user 400000) s2 /\ tf_eax tf = 1 /\
  forall s3 result ret, back_from 200010 s2 s3 699924 -> read_tf (m_mem s3) 699924 = tf_set_eax result tf -> ld32 (m_mem s3) 8000 = ret ->
    runs demo_code s3 (mkmach (mkr result 2 3 4 8004 6 7 8) (mks 27 35 35 0 0 35) ret 512 (m_mem s3) (m_idt s3) (m_tss s3)).
Proof.
  destruct (syscall_stub demo_code demo_vectors 200000 200010 200011 900000 (demo_user 400000) 700000 400000 400003 1 (demo_kernel_at 400000 ltac:(unfold word_ok; lia)) eq_refl eq_refl
    ltac:(repeat (eexists; split; [reflexivity|]); reflexivity) ltac:(unfold word_ok; lia) demo_next ltac:(cbn; lia)) as (s2 & tf & R1 & _ & _ & R2 & _ & _ & R3).
  exists s2, tf. split; [exact R1|]. split; [exact R2|exact R3].
Defined.
