(* ===== verification/Swtch.v ===== *)
(** * Context switches: swtch.S with allocproc's first stack

    swtch leaves a struct context on the old stack and resumes the one on the
    new stack.  The theorems: a thread that calls swtch is resumed, by
    whichever thread switches back to its context, at the return address with its
    callee-saved registers and its stack pointer; the stack allocproc makes
    for a new process takes it through forkret and trapret to the user state
    of its trap frame. *)

From stdpp Require Import base list relations strings.
From Stdlib Require Import ZArith Lia.
From S2P Require Import Prelude CString Proc Kalloc ProcSys Gate Asm.

Local Open Scope Z_scope.

Section Swtch.
Context (code : Z -> option (instr * Z)) (sw e : Z).
Hypothesis HC : placed code sw swtch e.

(** A call of swtch(old, new) that has just been made. *)
Record calls (s : mach) (old new : Z) : Prop := mkcalls {
  ca_eip : m_eip s = sw;
  ca_old : ld32 (m_mem s) (esp (m_r s) + 4) = old;
  ca_new : ld32 (m_mem s) (esp (m_r s) + 8) = new;
  ca_esp : 16 <= esp (m_r s) < 4294967100;
  ca_regs : word_ok (ebp (m_r s)) /\ word_ok (ebx (m_r s)) /\ word_ok (esi (m_r s)) /\ word_ok (edi (m_r s)) }.

(** The words swtch writes: four below the stack pointer, and *old. *)
Definition written (s : mach) (old b : Z) : Prop := esp (m_r s) - 16 <= b < esp (m_r s) \/ old <= b < old + 4.
Definition after (s : mach) (old : Z) : mem :=
  let x := m_r s in st32 (downs (m_mem s) (esp x) [ebp x; ebx x; esi x; edi x]) old (esp x - 16).

Lemma after_out s old b : ~ written s old b -> after s old b = m_mem s b.
Proof using.
  intros Hb. unfold written in Hb. unfold after. destruct (decide (old <= b < old + 4)) as [|Ho]; [tauto|]. rewrite st32_out by lia. apply downs_out. cbn [length]. lia.
Qed.

(** The context left on the old stack. *)
Definition saved_ctx (s : mach) (ret : Z) : context := mkctx (edi (m_r s)) (esi (m_r s)) (ebx (m_r s)) (ebp (m_r s)) ret.

(** *old is not in the part of the stack swtch works on. *)
Definition apart_from (s : mach) (old : Z) : Prop := old + 4 <= esp (m_r s) - 16 \/ esp (m_r s) + 12 <= old.

Lemma saved_there s old new : calls s old new -> apart_from s old -> read_ctx (after s old) (esp (m_r s) - 16) = saved_ctx s (top s) /\ ld32 (after s old) old = esp (m_r s) - 16.
Proof using.
  intros [_ _ _ Hsp (R1 & R2 & R3 & R4)] Ha. unfold apart_from in Ha. set (sp := esp (m_r s)) in *. set (l := [ebp (m_r s); ebx (m_r s); esi (m_r s); edi (m_r s)]).
  assert (W : forall k v, l !! k = Some v -> word_ok v -> ld32 (after s old) (sp - 4 * (Z.of_nat k + 1)) = v).
  { intros k v Hk Hv. pose proof (lookup_lt_Some _ _ _ Hk) as Hlt. cbn in Hlt. unfold after. rewrite ld32_st32_other by lia. fold sp l. rewrite (ld_downs _ _ _ _ v Hk). by apply u32_small. }
  split; [|unfold after; rewrite ld32_st32; fold sp; apply u32_small; lia]. unfold read_ctx, saved_ctx. f_equal.
  - rewrite <- (W 3%nat _ eq_refl R4). f_equal; lia.
  - rewrite <- (W 2%nat _ eq_refl R3). f_equal; lia.
  - rewrite <- (W 1%nat _ eq_refl R2). f_equal; lia.
  - rewrite <- (W 0%nat _ eq_refl R1). f_equal; lia.
  - unfold top. fold sp. replace (sp - 16 + 16) with sp by lia. unfold after. rewrite ld32_st32_other by lia. apply ld_downs_out. cbn [length]. lia.
Qed.

Lemma do_load off r next x sg ip fl M i t : 0 <= esp x + off < 4294967296 ->
  exec_instr (MOVL_LOAD off ESP r) next (mkmach x sg ip fl M i t) = Some (mkmach (rset r (ld32 M (esp x + off)) x) sg next fl M i t).
Proof using. intros H. cbn [exec_instr]. unfold reg_of. cbn [rget m_r m_mem]. by rewrite u32_small. Qed.

Lemma do_pop r next A C D B sp bp si di sg ip fl M i t : 0 <= sp < 4294967200 -> r <> ESP ->
  exec_instr (POPL r) next (mkmach (mkr A C D B sp bp si di) sg ip fl M i t) = Some (mkmach (rset r (ld32 M sp) (mkr A C D B (sp + 4) bp si di)) sg next fl M i t).
Proof using. intros Hs Hr. cbn [exec_instr]. rewrite drop4_mach by lia. by destruct r. Qed.

(** swtch: the new stack's context is loaded. *)
Lemma run_swtch s old new : calls s old new -> 0 <= new < 4294967100 ->
  let c := read_ctx (after s old) new in
  runs code s (mkmach (mkr old (ecx (m_r s)) new (c_ebx c) (new + 20) (c_ebp c) (c_esi c) (c_edi c)) (m_s s) (c_eip c) (m_fl s) (after s old) (m_idt s) (m_tss s)).
Proof using HC.
  intros [H1 H2 H3 H4 _] Hn c. unfold swtch in HC. cbn [placed] in HC.
  destruct HC as (a1 & P1 & a2 & P2 & a3 & P3 & a4 & P4 & a5 & P5 & a6 & P6 & a7 & P7 & a8 & P8 & a9 & P9 & a10 & P10 & a11 & P11 & a12 & P12 & a13 & P13 & _).
  destruct s as [[A C D B sp bp si di] sg ip fl M i t]. cbn [m_eip m_mem m_r m_s m_fl m_idt m_tss esp ecx] in *. subst ip.
  eapply runs_l; [exact P1|reflexivity|apply do_load; cbn [esp]; lia|]. eapply runs_l; [exact P2|reflexivity|apply do_load; cbn [esp rset]; lia|]. cbn [esp rset eax ecx edx ebx ebp esi edi]. rewrite H2, H3.
  set (x := mkr old C new B sp bp si di). assert (Es : mkmach x sg a2 fl M i t = ST sp M i t x sg a2 fl []) by (rewrite <- ST_nil; done). rewrite Es.
  assert (Hp : forall r l next ip0, (length l < 4)%nat -> r <> ESP -> exec_instr (PUSHL r) next (ST sp M i t x sg ip0 fl l) = Some (ST sp M i t x sg next fl (l ++ [rget r x]))).
  { intros r l next ip0 Hl Hr. cbn [exec_instr]. unfold push, store, setr, ST. cbn [m_r m_s m_eip m_fl m_mem m_idt m_tss rset esp]. rewrite u32_small by lia. rewrite downs_app, length_app. cbn [downs length].
    replace (sp - 4 * Z.of_nat (length l) - 4) with (sp - 4 * Z.of_nat (length l + 1)) by lia. by destruct r. }
  eapply runs_l; [exact P3|reflexivity|apply Hp; [cbn; lia|done]|]. eapply runs_l; [exact P4|reflexivity|apply Hp; [cbn; lia|done]|]. eapply runs_l; [exact P5|reflexivity|apply Hp; [cbn; lia|done]|].
  eapply runs_l; [exact P6|reflexivity|apply Hp; [cbn; lia|done]|]. cbn [app rget]. istep P7. istep P8.
  set (M2 := after (mkmach (mkr A C D B sp bp si di) sg sw fl M i t) old).
  change (runs code (mkmach (mkr old C new B new bp si di) sg a8 fl M2 i t) (mkmach (mkr old C new (c_ebx c) (new + 20) (c_ebp c) (c_esi c) (c_edi c)) sg (c_eip c) fl M2 i t)).
  eapply runs_l; [exact P9|reflexivity|apply do_pop; [lia|done]|]. cbn [rset eax ecx edx ebx esp ebp esi edi]. eapply runs_l; [exact P10|reflexivity|apply do_pop; [lia|done]|]. cbn [rset eax ecx edx ebx esp ebp esi edi].
  eapply runs_l; [exact P11|reflexivity|apply do_pop; [lia|done]|]. cbn [rset eax ecx edx ebx esp ebp esi edi]. eapply runs_l; [exact P12|reflexivity|apply do_pop; [lia|done]|]. cbn [rset eax ecx edx ebx esp ebp esi edi].
  eapply runs_l; [exact P13|reflexivity|reflexivity|]. cbn [exec_instr]. unfold top. cbn [m_mem m_r esp]. rewrite drop4_mach by lia. unfold goto. cbn [m_r m_s m_fl m_mem m_idt m_tss]. unfold c, read_ctx. cbn [c_edi c_esi c_ebx c_ebp c_eip].
  replace (new + 8) with (new + 4 + 4) by lia. replace (new + 12) with (new + 4 + 4 + 4) by lia. replace (new + 16) with (new + 4 + 4 + 4 + 4) by lia. replace (new + 20) with (new + 4 + 4 + 4 + 4 + 4) by lia. apply rtc_refl.
Qed.

Lemma read_ctx_ext m m' a : (forall b, a <= b < a + 20 -> m' b = m b) -> read_ctx m' a = read_ctx m a.
Proof using. intros H. unfold read_ctx. f_equal; apply ld32_ext; intros b Hb; apply H; lia. Qed.

(** The thread that [c] describes, with the stack pointer [sp]. *)
Definition runs_as (s : mach) (c : context) (sp : Z) : Prop :=
  m_eip s = c_eip c /\ esp (m_r s) = sp /\ ebp (m_r s) = c_ebp c /\ ebx (m_r s) = c_ebx c /\ esi (m_r s) = c_esi c /\ edi (m_r s) = c_edi c.

Lemma swtch_to s old new : calls s old new -> 0 <= new < 4294967100 -> (forall b, new <= b < new + 20 -> ~ written s old b) ->
  exists s', runs code s s' /\ runs_as s' (read_ctx (m_mem s) new) (new + 20) /\ m_mem s' = after s old /\ m_s s' = m_s s /\ m_idt s' = m_idt s /\ m_tss s' = m_tss s.
Proof using HC.
  intros Hc Hn Hw. pose proof (run_swtch s old new Hc Hn) as R. cbv zeta in R. rewrite (read_ctx_ext (m_mem s)) in R by (intros b Hb; apply after_out; by apply Hw).
  eexists. split; [exact R|]. split; [done|]. done.
Qed.
End Swtch.

(** ** Properties *)

Section Properties.
Context (code : Z -> option (instr * Z)) (sw e : Z).

(** C22: swtch and back.  A thread that calls swtch(old, new) gives way to the one whose context is at
    new, and *old points to its own; whoever later calls swtch with
    that pointer as new, the context still being there, resumes the thread at
    the return address of its call, with its callee-saved registers and its stack pointer. *)
Theorem swtch_roundtrip (s : mach) (old new : Z) :
  placed code sw swtch e -> calls sw s old new -> apart_from s old -> 0 <= new < 4294967100 -> (forall b, new <= b < new + 20 -> ~ written s old b) ->
  let me := esp (m_r s) - 16 in
  exists s', runs code s s' /\ runs_as s' (read_ctx (m_mem s) new) (new + 20) /\ ld32 (m_mem s') old = me /\
    (forall b, ~ written s old b -> m_mem s' b = m_mem s b) /\
    forall t old', calls sw t old' me -> (forall b, me <= b < me + 20 -> m_mem t b = m_mem s' b /\ ~ written t old' b) ->
      exists t', runs code t t' /\ runs_as t' (saved_ctx s (top s)) (esp (m_r s) + 4).
Proof.
  intros HC Hc Ha Hn Hw me. destruct (swtch_to code sw e HC s old new Hc Hn Hw) as (s' & R & Ras & Em & _). destruct (saved_there sw s old new Hc Ha) as [Ec Eo].
  exists s'. rewrite Em. split_and!; [done|done|done|intros b Hb; by apply after_out|]. intros t old' Hct Hsame. pose proof (ca_esp _ _ _ _ Hc) as Hsp.
  destruct (swtch_to code sw e HC t old' me Hct) as (t' & R' & Ras' & _); [unfold me; lia|intros b Hb; by apply Hsame|]. exists t'. split; [done|].
  rewrite (read_ctx_ext (after s old)) in Ras' by (intros b Hb; by apply Hsame). unfold me in Ras'. rewrite Ec in Ras'. by replace (esp (m_r s) - 16 + 20) with (esp (m_r s) + 4) in Ras' by lia.
Qed.

Context `{KS : KSymbols} (vectors : nat -> Z) (al ra trap : Z).

(** What allocproc leaves on a new kernel stack. *)
Lemma first_context k m : 4096 <= k -> word_ok sym_forkret -> word_ok sym_trapret ->
  read_ctx (init_stack k m) (k + 3996) = mkctx 0 0 0 0 sym_forkret /\ ld32 (init_stack k m) (k + 4016) = sym_trapret.
Proof using.
  intros Hk Hf Ht. unfold init_stack. change KSTACKSIZE with 4096. replace (k + 4096 - 76 - 4 - 20) with (k + 3996) by lia. replace (k + 4096 - 76 - 4) with (k + 4016) by lia.
  assert (Z0 : forall j, 0 <= j <= 12 -> ld32 (st32 (fill (st32 m (k + 4016) sym_trapret) (k + 3996) 0 20) (k + 3996 + 16) sym_forkret) (k + 3996 + j) = 0)
    by (intros j Hj; rewrite ld32_st32_other by lia; apply ld32_fill_zero; lia).
  split.
  - unfold read_ctx. pose proof (Z0 0 ltac:(lia)) as Z00. rewrite Z.add_0_r in Z00. f_equal; [exact Z00|apply Z0; lia|apply Z0; lia|apply Z0; lia|]. rewrite ld32_st32. by apply u32_small.
  - rewrite ld32_st32_other by lia. rewrite (ld32_ext (st32 m (k + 4016) sym_trapret)) by (intros b Hb; apply fill_out; lia). rewrite ld32_st32. by apply u32_small.
Qed.

(** C21: the first run of a process.  The scheduler's swtch to the context
    allocproc has put on the kernel stack at [k] enters forkret; when forkret returns, the stack
    under the frame as it was, the processor is in the user state that the
    process's trap frame describes. *)
Theorem new_process_starts (s : mach) (old k : Z) (m : mem) (tf : trapframe) :
  placed code sw swtch e -> kcode code vectors al ra sym_trapret trap -> word_ok sym_forkret -> word_ok sym_trapret ->
  calls sw s old (k + 3996) -> 4096 <= k < 4294960000 -> cpl s = 0 ->
  (forall b, k + 3996 <= b < k + 4020 -> m_mem s b = init_stack k m b) -> read_tf (m_mem s) (k + 4020) = tf -> Z.land (tf_cs tf) 3 = 3 ->
  (forall b, k + 3996 <= b < k + 4096 -> ~ written s old b) ->
  exists s', runs code s s' /\ m_eip s' = sym_forkret /\ esp (m_r s') = k + 4016 /\
    forall t next, code (m_eip t) = Some (RET, next) -> esp (m_r t) = k + 4016 -> cpl t = 0 ->
      (forall b, k + 4016 <= b < k + 4096 -> m_mem t b = m_mem s' b) -> runs code t (user_state tf t).
Proof.
  intros HC HK Hf Ht Hc Hk Hcpl Hst Htf Hcs Hw. destruct (first_context k m ltac:(lia) Hf Ht) as [Ec Er].
  destruct (swtch_to code sw e HC s old (k + 3996) Hc) as (s' & R & (R1 & R2 & _) & Em & _); [lia|intros b Hb; apply Hw; lia|].
  rewrite (read_ctx_ext (init_stack k m)) in R1 by (intros b Hb; apply Hst; lia). rewrite Ec in R1. exists s'. split_and!; [done|done|rewrite R2; lia|].
  intros t next Hi Hsp Hcp Hmem. destruct t as [[A C D B sp bp si di] sg ip fl M i u]. cbn [m_eip m_r esp m_mem] in *. subst sp.
  assert (Hsame : forall b, k + 4016 <= b < k + 4096 -> M b = m_mem s b) by (intros b Hb; rewrite Hmem, Em by done; apply after_out, Hw; lia).
  eapply runs_l; [exact Hi|reflexivity|reflexivity|]. cbn [exec_instr]. rewrite drop4_mach by lia. unfold top. cbn [m_mem m_r esp].
  rewrite (ld32_ext (init_stack k m)), Er by (intros b Hb; rewrite Hsame by lia; apply Hst; lia). unfold goto. cbn [m_r m_s m_fl m_mem m_idt m_tss].
  destruct (run_trapret code vectors al ra sym_trapret trap HK (mkmach (mkr A C D B (k + 4016 + 4) bp si di) sg sym_trapret fl M i u) (k + 4020)) as [Ru _]; [done|cbn; lia|lia|exact Hcp|].
  cbn [m_mem] in Ru. assert (Etf : read_tf M (k + 4020) = tf). { rewrite <- Htf. unfold read_tf. f_equal; try (f_equal; apply ld32_ext; intros b Hb; apply Hsame; lia); apply ld32_ext; intros b Hb; apply Hsame; lia. }
  rewrite Etf in Ru. exact (Ru Hcs).
Qed.
End Properties.

(** ** The properties on the kernel of Asm.v *)

(** swtch(640000, new), called from 800000 with the stack at 650000; a context
    at 660000 that returns to 420000; and the frame of a process that starts
    at 0 with the stack at 4096, on the kernel stack at 720896. *)
Definition switch_words (new a : Z) : Z :=
  if a =? 650000 then 800000 else if a =? 650004 then 640000 else if a =? 650008 then new else
  if a =? 660016 then 420000 else
  if a =? 724976 then 27 else if a =? 724980 then 512 else if a =? 724984 then 4096 else if a =? 724988 then 35 else 0.
Definition switcher (m : mem) : mach := mkmach (mkr 1 2 3 4 650000 6 7 8) (mks 8 16 16 0 0 16) 300000 512 m 500000 600000.

Lemma demo_swtch : placed demo_code 300000 swtch 300013.
Proof. repeat (eexists; split; [reflexivity|]). reflexivity. Qed.

Lemma switcher_calls m old new : ld32 m 650004 = old -> ld32 m 650008 = new -> calls 300000 (switcher m) old new.
Proof. intros Ho Hn. split; [done|exact Ho|exact Hn|cbn; lia|]. cbn. unfold word_ok. lia. Qed.

Lemma swtch_roundtrip_witness : exists s', runs demo_code (switcher (words_mem (switch_words 660000))) s' /\ m_eip s' = 420000 /\ ld32 (m_mem s') 640000 = 649984 /\
  forall t old', calls 300000 t old' 649984 -> (forall b, 649984 <= b < 650004 -> m_mem t b = m_mem s' b /\ ~ written t old' b) ->
    exists t', runs demo_code t t' /\ runs_as t' (mkctx 8 7 4 6 800000) 650004.
Proof.
  destruct (swtch_roundtrip demo_code 300000 300013 (switcher (words_mem (switch_words 660000))) 640000 660000 demo_swtch
    (switcher_calls (words_mem (switch_words 660000)) 640000 660000 ltac:(by vm_compute) ltac:(by vm_compute)) ltac:(unfold apart_from; cbn; lia) ltac:(lia) ltac:(intros b Hb; unfold written; cbn; lia))
    as (s' & R1 & (R2 & _) & R3 & _ & R4).
  exists s'. split; [exact R1|]. split; [rewrite R2; by vm_compute|]. split; [exact R3|]. intros t old' Hc Hs. destruct (R4 t old' Hc Hs) as (t' & T1 & T2). exists t'. split; [exact T1|].
  assert (E : saved_ctx (switcher (words_mem (switch_words 660000))) (top (switcher (words_mem (switch_words 660000)))) = mkctx 8 7 4 6 800000) by (by vm_compute).
  rewrite E in T2. exact T2.
Defined.

(** forkret is the return instruction at 420000. *)
Definition switch_syms : KSymbols := {| sym_forkret := 420000; sym_trapret := 200011; initcode := [] |}.
Definition first_mem : mem := @init_stack switch_syms 720896 (words_mem (switch_words 724892)).

Lemma new_process_starts_witness : exists s', runs demo_code (switcher first_mem) s' /\ m_eip s' = 420000 /\
  forall t, m_eip t = 420000 -> esp (m_r t) = 724912 -> cpl t = 0 -> (forall b, 724912 <= b < 724992 -> m_mem t b = m_mem s' b) ->
    runs demo_code t (mkmach (mkr 0 0 0 0 4096 0 0 0) (mks 27 0 0 0 0 35) 0 512 (m_mem t) (m_idt t) (m_tss t)).
Proof.
  destruct (@new_process_starts demo_code 300000 300013 switch_syms demo_vectors 200000 200010 900000 (switcher first_mem) 640000 720896 (words_mem (switch_words 724892))
    (mktf 0 0 0 0 0 0 0 0 0 0 0 0 0 0 0 27 512 4096 35) demo_swtch demo_kcode ltac:(unfold word_ok; cbn; lia) ltac:(unfold word_ok; cbn; lia)
    (switcher_calls first_mem 640000 724892 ltac:(by vm_compute) ltac:(by vm_compute)) ltac:(lia) eq_refl ltac:(intros b Hb; reflexivity) ltac:(by vm_compute) eq_refl ltac:(intros b Hb; unfold written; cbn; lia))
    as (s' & R1 & R2 & R3 & R4).
  exists s'. split; [exact R1|]. split; [exact R2|]. intros t T1 T2 T3 T4. refine (R4 t 420001 _ T2 T3 T4). rewrite T1. reflexivity.
Defined.
