(* ===== verification/Start.v ===== *)
(** * Starting a processor: bootasm.S, entry.S, entryother.S, asm.h, entrypgdir

    A processor from reset to C code: real mode, protected mode with the
    boot segments, paging with entrypgdir.  Memory is physical; an address goes
    through the segment's descriptor, which is loaded with the segment
    register, through the page table when paging is on, and through the
    address line A20, which the keyboard controller closes at reset.  Where
    the assembler puts the code is not fixed: [decode] gives the instruction
    that the bytes at an address are in 16-bit or in 32-bit code, and its
    length.  What the model does not cover (faults, less privileged segments)
    stops the machine.

    The theorems: bootasm reaches bootmain in flat protected mode with A20
    open; entry reaches main at its high address, with the first 4 MB mapped
    twice and nothing else; entryother reaches the function and the stack
    that the three words below it name.  The last lines of bootasm.S and
    entryother.S, for when the C code returns, are left out: it does not. *)

From stdpp Require Import base list list_numbers relations strings.
From Stdlib Require Import ZArith Lia.
From S2P Require Import Prelude Dev Proc Kalloc Vm Gate Asm.

Local Open Scope Z_scope.

Definition CR0_PE : Z := 1.
Definition CR0_WP : Z := 65536.
Definition CR0_PG : Z := 2147483648.
Definition CR4_PSE : Z := 16.
Definition PTE_PS : Z := 128.

(** ** asm.h: descriptors as bytes *)

Definition le16 (v : Z) : list Z := [v mod 256; v / 256 mod 256].
Definition le32 (v : Z) : list Z := le16 (v mod 65536) ++ le16 (v / 65536 mod 65536).

Definition SEG_NULLASM : list Z := le16 0 ++ le16 0 ++ [0; 0; 0; 0].
Definition SEG_ASM (type base lim : Z) : list Z :=
  le16 (Z.land (Z.shiftr lim 12) 65535) ++ le16 (Z.land base 65535) ++
  [Z.land (Z.shiftr base 16) 255; Z.lor 144 type; Z.lor 192 (Z.land (Z.shiftr lim 28) 15); Z.land (Z.shiftr base 24) 255].

(** gdt and gdtdesc of bootasm.S, the same in entryother.S. *)
Definition boot_gdt : list Z := SEG_NULLASM ++ SEG_ASM (Z.lor STA_X STA_R) 0 4294967295 ++ SEG_ASM STA_W 0 4294967295.
Definition gdtdesc (gdt : Z) : list Z := le16 (Z.of_nat (length boot_gdt) - 1) ++ le32 gdt.

(** main.c: entrypgdir *)
Definition entrypgdir : list Z :=
  let e := Z.lor (Z.lor (Z.lor 0 PTE_P) PTE_W) PTE_PS in
  <[Z.to_nat (Z.shiftr KERNBASE 22) := e]> (<[0%nat := e]> (replicate NPDENTRIES 0)).

(** vm.c: kvmalloc, which gives kpgdir. *)
Definition kvmalloc {SY : Symbols} (c : ctables) : M kst (Z * ctables) := kpgdir ← setupkvm; mret (kpgdir, switchkvm kpgdir c).

(** ** The processor *)

(** A segment register: the selector, and what was loaded with it;
    [sg_32] is the default size of code. *)
Record dseg : Type := mkds { sg_sel : Z; sg_base : Z; sg_limit : Z; sg_32 : bool }.

Definition sreg_eqb (a b : sreg) : bool :=
  match a, b with CS, CS | DS, DS | ES, ES | FS, FS | GS, GS | SS, SS => true | _, _ => false end.
Definition with_seg (r : sreg) (d : dseg) (f : sreg -> dseg) : sreg -> dseg := fun r' => if sreg_eqb r r' then d else f r'.

Inductive creg : Type := CR0 | CR3 | CR4.

(** [b_gdt]: base and limit of the descriptor table. *)
Record bcpu (D : Type) : Type := mkb {
  b_r : regs; b_s : sreg -> dseg; b_eip : Z; b_if : bool; b_zf : bool;
  b_cr0 : Z; b_cr3 : Z; b_cr4 : Z; b_gdt : Z * Z; b_mem : mem; b_dev : D }.
Arguments mkb {D} _ _ _ _ _ _ _ _ _ _ _.
Arguments b_r {D} _.
Arguments b_s {D} _ _.
Arguments b_eip {D} _.
Arguments b_if {D} _.
Arguments b_zf {D} _.
Arguments b_cr0 {D} _.
Arguments b_cr3 {D} _.
Arguments b_cr4 {D} _.
Arguments b_gdt {D} _.
Arguments b_mem {D} _.
Arguments b_dev {D} _.

(** The instructions; ax and al are written with the register. *)
Inductive binstr : Type :=
| Cli | Xorw_ax | Movw_ax (v : Z) | Movb_al (v : Z) | Movw_seg (r : sreg)
| Inb (port : Z) | Outb (port : Z) | Testb (v : Z) | Jnz (a : Z)
| Lgdt (a : Z) | Ljmp (sel off : Z) | Get_cr (c : creg) | Set_cr (c : creg) | Orl (v : Z)
| Movl_imm (v : Z) (r : reg) | Movl_at (a : Z) (r : reg) | Call (a : Z) | Call_at (a : Z) | Jmp_eax.

(** Whether the keyboard controller lets address line 20 through. *)
Class A20 (D : Type) : Type := a20 : D -> bool.

(** The controller: busy with its last byte or idle, as its status says, for
    at most [d_polls] reads; after the command 0xd1 the next data byte is
    its output port, whose bit 1 opens the line. *)
Class KbcLaws (D : Type) {DD : Device D} {DA : A20 D} : Type := {
  kbc_idle : D -> bool;
  kbc_wants : D -> bool;
  kl_status d : let r := d_inb 100 d in
    kbc_idle r.2 = (Z.land (u8 r.1) 2 =? 0) /\ kbc_wants r.2 = kbc_wants d /\ a20 r.2 = a20 d /\
    (kbc_idle r.2 = false -> (d_polls r.2 < d_polls d)%nat);
  kl_command d : kbc_idle d = true -> kbc_wants (d_outb 100 209 d) = true;
  kl_port d v : kbc_idle d = true -> kbc_wants d = true -> a20 (d_outb 96 v d) = Z.testbit v 1 }.

Section Machine.
Context {D : Type} {DD : Device D} {DA : A20 D}.
Notation B := (bcpu D).

Definition set_r (x : regs) (s : B) : B := mkb x (b_s s) (b_eip s) (b_if s) (b_zf s) (b_cr0 s) (b_cr3 s) (b_cr4 s) (b_gdt s) (b_mem s) (b_dev s).
Definition set_seg (r : sreg) (d : dseg) (s : B) : B := mkb (b_r s) (with_seg r d (b_s s)) (b_eip s) (b_if s) (b_zf s) (b_cr0 s) (b_cr3 s) (b_cr4 s) (b_gdt s) (b_mem s) (b_dev s).
Definition set_eip (a : Z) (s : B) : B := mkb (b_r s) (b_s s) a (b_if s) (b_zf s) (b_cr0 s) (b_cr3 s) (b_cr4 s) (b_gdt s) (b_mem s) (b_dev s).
Definition set_fl (i z : bool) (s : B) : B := mkb (b_r s) (b_s s) (b_eip s) i z (b_cr0 s) (b_cr3 s) (b_cr4 s) (b_gdt s) (b_mem s) (b_dev s).
Definition set_gdt (g : Z * Z) (s : B) : B := mkb (b_r s) (b_s s) (b_eip s) (b_if s) (b_zf s) (b_cr0 s) (b_cr3 s) (b_cr4 s) g (b_mem s) (b_dev s).
Definition set_bmem (m : mem) (s : B) : B := mkb (b_r s) (b_s s) (b_eip s) (b_if s) (b_zf s) (b_cr0 s) (b_cr3 s) (b_cr4 s) (b_gdt s) m (b_dev s).
Definition set_bdev (d : D) (s : B) : B := mkb (b_r s) (b_s s) (b_eip s) (b_if s) (b_zf s) (b_cr0 s) (b_cr3 s) (b_cr4 s) (b_gdt s) (b_mem s) d.
Definition get_cr (c : creg) (s : B) : Z := match c with CR0 => b_cr0 s | CR3 => b_cr3 s | CR4 => b_cr4 s end.
Definition set_cr (c : creg) (v : Z) (s : B) : B :=
  match c with
  | CR0 => mkb (b_r s) (b_s s) (b_eip s) (b_if s) (b_zf s) v (b_cr3 s) (b_cr4 s) (b_gdt s) (b_mem s) (b_dev s)
  | CR3 => mkb (b_r s) (b_s s) (b_eip s) (b_if s) (b_zf s) (b_cr0 s) v (b_cr4 s) (b_gdt s) (b_mem s) (b_dev s)
  | CR4 => mkb (b_r s) (b_s s) (b_eip s) (b_if s) (b_zf s) (b_cr0 s) (b_cr3 s) v (b_gdt s) (b_mem s) (b_dev s)
  end.
Definition set_eax (v : Z) (s : B) : B := set_r (rset EAX v (b_r s)) s.

(** *** Addresses *)

Definition line20 (d : D) (a : Z) : Z := if a20 d then a else Z.land a (Z.lnot 1048576).

Definition paging (s : B) : bool := Z.testbit (b_cr0 s) 31.

(** A linear address; [w]: for a write.  Write protection holds for the
    kernel when WP is set. *)
Definition translate (s : B) (w : bool) (va : Z) : option Z :=
  let m := b_mem s in
  let phys a := line20 (b_dev s) a in
  let denied e := w && Z.testbit (b_cr0 s) 16 && (Z.land e PTE_W =? 0) in
  if negb (paging s) then Some (phys va) else
  let e := ld32 m (phys (PTE_ADDR (b_cr3 s) + 4 * PDX va)) in
  if negb (present e) || denied e then None else
  if negb (Z.land e PTE_PS =? 0) && Z.testbit (b_cr4 s) 4 then Some (phys (Z.lor (Z.land e 4290772992) (Z.land va 4194303))) else
  let t := ld32 m (phys (PTE_ADDR e + 4 * PTX va)) in
  if negb (present t) || denied t then None else Some (phys (Z.lor (PTE_ADDR t) (Z.land va 4095))).

(** [n] bytes at a linear address, in one page. *)
Definition access (s : B) (w : bool) (a n : Z) : option Z := if a mod 4096 + n <=? 4096 then translate s w a else None.
(** [n] bytes at an offset of a segment. *)
Definition in_seg (s : B) (r : sreg) (w : bool) (off n : Z) : option Z :=
  if (0 <=? off) && (off + n - 1 <=? sg_limit (b_s s r)) then access s w (u32 (sg_base (b_s s r) + off)) n else None.

(** *** Loading a segment register *)

Definition pe (s : B) : bool := Z.testbit (b_cr0 s) 0.

(** A descriptor the register takes at privilege 0. *)
Definition fits (r : sreg) (i : seg_info) : bool :=
  si_present i && negb (si_system i) && (si_dpl i =? 0) &&
  match r with
  | CS => Z.testbit (si_type i) 3
  | SS => negb (Z.testbit (si_type i) 3) && Z.testbit (si_type i) 1
  | _ => negb (Z.testbit (si_type i) 3) || Z.testbit (si_type i) 1
  end.

Definition load_seg (s : B) (r : sreg) (sel : Z) : option dseg :=
  if negb (pe s) then Some (mkds sel (16 * sel) (sg_limit (b_s s r)) (sg_32 (b_s s r))) else
  if sel <? 4 then match r with CS | SS => None | _ => Some (mkds sel 0 (-1) false) end else
  if Z.testbit sel 2 || ((b_gdt s).2 <? 8 * (sel / 8) + 7) then None else
  a ← access s false (u32 ((b_gdt s).1 + 8 * (sel / 8))) 8;
  let w := (ld32 (b_mem s) a, ld32 (b_mem s) (a + 4)) in
  let i := seg_view w in
  if fits r i then Some (mkds sel (si_base i) (si_limit i) (slice w.2 22 1 =? 1)) else None.

(** *** Steps *)

Definition with_ax (v x : Z) : Z := Z.lor (Z.land x 4294901760) v.
Definition with_al (v x : Z) : Z := Z.lor (Z.land x 4294967040) v.

Definition exec_boot (i : binstr) (next : Z) (s : B) : option B :=
  let x := b_r s in
  let on f := Some (set_eip next (f s)) in
  match i with
  | Cli => on (set_fl false (b_zf s))
  | Xorw_ax => on (fun s => set_fl (b_if s) true (set_eax (with_ax 0 (eax x)) s))
  | Movw_ax v => on (set_eax (with_ax v (eax x)))
  | Movb_al v => on (set_eax (with_al v (eax x)))
  | Movw_seg r => d ← load_seg s r (u16 (eax x)); on (set_seg r d)
  | Inb p => let r := d_inb p (b_dev s) in on (fun s => set_eax (with_al (u8 r.1) (eax x)) (set_bdev r.2 s))
  | Outb p => on (set_bdev (d_outb p (u8 (eax x)) (b_dev s)))
  | Testb v => on (set_fl (b_if s) (Z.land (u8 (eax x)) v =? 0))
  | Jnz a => Some (set_eip (if b_zf s then next else a) s)
  | Lgdt a =>
    p ← in_seg s DS false a 6;
    let base := ld32 (b_mem s) (p + 2) in
    on (set_gdt (if sg_32 (b_s s CS) then base else Z.land base 16777215, b_mem s p + 256 * b_mem s (p + 1)))
  | Ljmp sel off => d ← load_seg s CS sel; Some (set_eip off (set_seg CS d s))
  | Get_cr c => on (set_eax (get_cr c s))
  | Set_cr c => on (set_cr c (eax x))
  | Orl v => on (fun s => let v' := Z.lor (eax x) v in set_fl (b_if s) (v' =? 0) (set_eax v' s))
  | Movl_imm v r => on (set_r (rset r v x))
  | Movl_at a r => p ← in_seg s DS false a 4; on (set_r (rset r (ld32 (b_mem s) p) x))
  | Call a =>
    let sp := u32 (esp x - 4) in
    p ← in_seg s SS true sp 4;
    Some (set_eip a (set_r (rset ESP sp x) (set_bmem (st32 (b_mem s) p next) s)))
  | Call_at t =>
    q ← in_seg s DS false t 4;
    let sp := u32 (esp x - 4) in
    p ← in_seg s SS true sp 4;
    Some (set_eip (ld32 (b_mem s) q) (set_r (rset ESP sp x) (set_bmem (st32 (b_mem s) p next) s)))
  | Jmp_eax => Some (set_eip (eax x) s)
  end.

Context (decode : bool -> mem -> Z -> option (binstr * Z)).

Definition fetch (s : B) : option Z := in_seg s CS false (b_eip s) 1.
Definition bstep (s : B) : option B :=
  let w := sg_32 (b_s s CS) in
  p ← fetch s;
  '(i, len) ← decode w (b_mem s) p;
  exec_boot i (if w then u32 (b_eip s + len) else u16 (b_eip s + len)) s.
Definition bruns : B -> B -> Prop := rtc (fun s s' => bstep s = Some s').

(** The instructions [l] lie at [a] in memory [m], and end before [b]. *)
Fixpoint lies (w : bool) (m : mem) (a : Z) (l : list binstr) (b : Z) : Prop :=
  match l with
  | [] => a = b
  | i :: l' => exists len, decode w m a = Some (i, len) /\ 1 <= len <= 15 /\ lies w m (a + len) l' b
  end.
End Machine.

Definition bytes_at (m : mem) (a : Z) (l : list Z) : Prop := forall k v, l !! k = Some v -> m (a + Z.of_nat k) = v.

(** ** The code *)

(** bootasm.S *)
Definition boot_segs : list binstr := [Cli; Xorw_ax; Movw_seg DS; Movw_seg ES; Movw_seg SS].
Definition seta20_1 (self : Z) : list binstr := [Inb 100; Testb 2; Jnz self; Movb_al 209; Outb 100].
Definition seta20_2 (self : Z) : list binstr := [Inb 100; Testb 2; Jnz self; Movb_al 223; Outb 96].
Definition to_protected (gdtdesc start32 : Z) : list binstr :=
  [Lgdt gdtdesc; Get_cr CR0; Orl CR0_PE; Set_cr CR0; Ljmp (Z.shiftl SEG_KCODE 3) start32].
Definition flat_segs : list binstr :=
  [Movw_ax (Z.shiftl SEG_KDATA 3); Movw_seg DS; Movw_seg ES; Movw_seg SS; Movw_ax 0; Movw_seg FS; Movw_seg GS].
Definition boot_c (start bootmain : Z) : list binstr := [Movl_imm start ESP; Call bootmain].

(** entry.S; [stack] and [main] are virtual addresses. *)
Definition entry (pgdir stack main : Z) : list binstr :=
  [Get_cr CR4; Orl CR4_PSE; Set_cr CR4; Movl_imm (V2P pgdir) EAX; Set_cr CR3;
   Get_cr CR0; Orl (Z.lor CR0_PG CR0_WP); Set_cr CR0; Movl_imm (stack + KSTACKSIZE) ESP; Movl_imm main EAX; Jmp_eax].

(** entryother.S: boot_segs, to_protected, flat_segs, then: *)
Definition other_c (start : Z) : list binstr :=
  [Get_cr CR4; Orl CR4_PSE; Set_cr CR4; Movl_at (start - 12) EAX; Set_cr CR3;
   Get_cr CR0; Orl (Z.lor (Z.lor CR0_PE CR0_PG) CR0_WP); Set_cr CR0; Movl_at (start - 4) ESP; Call_at (start - 8)].

(** ** Steps in low memory *)

Section Runs.
Context {D : Type} {DD : Device D} {DA : A20 D}.
Context (decode : bool -> mem -> Z -> option (binstr * Z)).
Notation B := (bcpu D).
Notation bruns := (bruns decode).
Notation code_at := (lies decode).

Lemma line20_low (d : D) a : 0 <= a < 1048576 -> line20 d a = a.
Proof using.
  intros Ha. unfold line20. destruct (a20 d); [done|]. rewrite <- Z.ldiff_land. apply Z.bits_inj. intros n. rewrite Z.ldiff_spec. change 1048576 with (2 ^ 20).
  rewrite Z.pow2_bits_eqb by lia. destruct (Z.eqb_spec 20 n) as [<-|]; [|by rewrite andb_true_r]. cbn [negb]. rewrite andb_false_r. symmetry.
  destruct (Z.eq_dec a 0) as [->|]; [done|]. apply Z.bits_above_log2; [lia|]. apply Z.log2_lt_pow2; lia.
Qed.

Lemma line20_open (d : D) a : a20 d = true -> line20 d a = a.
Proof using. unfold line20. by intros ->. Qed.

(** A physical address that A20 does not change. *)
Definition low (s : B) (p : Z) : Prop := (0 <= p < 1048576 \/ a20 (b_dev s) = true /\ 0 <= p < 4294967296) /\ paging s = false.

Lemma in_seg_low (s : B) r w off n p : sg_base (b_s s r) + off = p -> 0 <= off -> off + n - 1 <= sg_limit (b_s s r) -> low s p -> p mod 4096 + n <= 4096 -> in_seg s r w off n = Some p.
Proof using.
  intros Hp Ho Hl [Hlow Hpg] Hn. unfold in_seg, access, translate. rewrite (proj2 (Z.leb_le 0 off)), (proj2 (Z.leb_le _ (sg_limit _))) by lia. cbn [andb].
  rewrite Hp, u32_small, (proj2 (Z.leb_le _ 4096)), Hpg by lia. cbn [negb]. destruct Hlow as [Hlow|[Hlow _]]; [by rewrite line20_low|by rewrite line20_open].
Qed.

Lemma fetch_low (s : B) p : sg_base (b_s s CS) + b_eip s = p -> 0 <= b_eip s <= sg_limit (b_s s CS) -> low s p -> fetch s = Some p.
Proof using. intros Hp He Hl. apply in_seg_low; [done|lia|lia|done|]. zdiv. Qed.

Lemma bruns_l (s s' s'' : B) w p i len : fetch s = Some p -> sg_32 (b_s s CS) = w -> decode w (b_mem s) p = Some (i, len) ->
  0 <= b_eip s + len < (if w then 4294967296 else 65536) -> exec_boot i (b_eip s + len) s = Some s' -> bruns s' s'' -> bruns s s''.
Proof using.
  intros Hf Hw Hd Hl He Hr. eapply rtc_l; [|exact Hr]. unfold bstep. rewrite Hf. cbn. rewrite Hw, Hd. cbn. unfold u32, u16. destruct w; by rewrite Z.mod_small.
Qed.

Lemma bruns_low (s s' s'' : B) w m p i len : decode w m p = Some (i, len) -> b_mem s = m -> sg_32 (b_s s CS) = w -> sg_base (b_s s CS) + b_eip s = p ->
  0 <= b_eip s <= sg_limit (b_s s CS) -> low s p -> 0 <= b_eip s + len < (if w then 4294967296 else 65536) -> exec_boot i (b_eip s + len) s = Some s' -> bruns s' s'' -> bruns s s''.
Proof using. intros Hd <- Hw Hp He Hl Hlen Hx Hr. eapply bruns_l; [by apply fetch_low|exact Hw|exact Hd|done|exact Hx|done]. Qed.

Lemma lies_le w m a l b : code_at w m a l b -> a <= b.
Proof using. revert a. induction l as [|i l IH]; intros a; cbn; [by intros ->; lia|]. intros (len & _ & Hl & H). apply IH in H. lia. Qed.

Lemma bruns_trans s s' s'' : bruns s s' -> bruns s' s'' -> bruns s s''.
Proof using. intros H1 H2. by etrans. Qed.
End Runs.

Ltac bnorm := lazy beta iota zeta delta [exec_boot set_eip set_r set_seg set_fl set_gdt set_bmem set_bdev get_cr set_cr set_eax b_r b_s b_eip b_if b_zf b_cr0 b_cr3 b_cr4 b_gdt b_mem b_dev rset eax ecx edx ebx esp ebp esi edi].
(** The code segment is that of a hypothesis [sg CS = _]. *)
Ltac bseg := bnorm; cbn [with_seg sreg_eqb]; try match goal with H : ?sg CS = _ |- context [?sg CS] => rewrite !H end; cbn [with_seg sreg_eqb sg_sel sg_base sg_limit sg_32].
(** One instruction of code at a low address without paging: [H] places it,
    [tac] computes its effect. *)
Tactic Notation "bgo" hyp(H) "by" tactic3(tac) :=
  eapply bruns_low; [exact H|reflexivity|bseg; reflexivity|bseg; lia|bseg; lia|split; [first [left; bseg; lia|right; split; [bseg; assumption|bseg; lia]]|bseg; assumption]|bseg; lia|bnorm; tac|]; bnorm.
Ltac bstep H := bgo H by reflexivity.

(** ** The boot segments *)

Definition flat_seg (sel : Z) : dseg := mkds sel 0 4294967295 true.

Lemma ld_bytes m a l k : bytes_at m a l -> (k + 4 <= length l)%nat ->
  ld32 m (a + Z.of_nat k) = l !!! k + 256 * l !!! (k + 1)%nat + 65536 * l !!! (k + 2)%nat + 16777216 * l !!! (k + 3)%nat.
Proof.
  intros H Hk. assert (E : forall j, (j < length l)%nat -> m (a + Z.of_nat j) = l !!! j) by (intros j Hj; apply H; by apply list_lookup_lookup_total_lt).
  unfold ld32. rewrite <- !E by lia. rewrite !Nat2Z.inj_add, !Z.add_assoc. done.
Qed.

(** gdt and gdtdesc in the page of the code. *)
Record boot_table (m : mem) (gdt gd : Z) : Prop := mktable {
  bt_gdt : bytes_at m gdt boot_gdt;
  bt_desc : bytes_at m gd (gdtdesc gdt);
  bt_range : 0 <= gdt < 65536 /\ gdt mod 4096 + 24 <= 4096 /\ 0 <= gd < 65530 /\ gd mod 4096 + 6 <= 4096 }.

Section Table.
Context {D : Type} {DD : Device D} {DA : A20 D}.

Lemma load_boot (s : bcpu D) gdt gd r k : boot_table (b_mem s) gdt gd -> b_gdt s = (gdt, 23) -> pe s = true -> paging s = false ->
  (k = 1 /\ r = CS \/ k = 2 /\ (r = DS \/ r = ES \/ r = SS)) -> load_seg s r (8 * k) = Some (flat_seg (8 * k)).
Proof.
  intros [Hg _ Hr] Eg Hpe Hpg Hk. assert (Hk' : k = 1 \/ k = 2) by lia. pose proof (ld_bytes (b_mem s) gdt boot_gdt) as L.
  unfold load_seg, access, translate. rewrite Hpe, Eg, Hpg. cbn [negb fst snd]. rewrite (Z.mul_comm 8 k), Z.div_mul by lia. rewrite (Z.mul_comm k 8).
  assert (Hb : (8 * k <? 4) = false /\ Z.testbit (8 * k) 2 = false /\ (23 <? 8 * k + 7) = false) by (by destruct Hk' as [-> | ->]). destruct Hb as (-> & -> & ->). cbn [orb].
  rewrite u32_small, (proj2 (Z.leb_le _ 4096)), line20_low by (zdiv || lia). cbn [mbind option_bind].
  destruct Hk as [[-> ->]|[-> Hrr]].
  - pose proof (L 8%nat Hg ltac:(cbn; lia)) as L1. pose proof (L 12%nat Hg ltac:(cbn; lia)) as L2. change (gdt + 8 * 1) with (gdt + Z.of_nat 8). replace (gdt + Z.of_nat 8 + 4) with (gdt + Z.of_nat 12) by lia.
    rewrite L1, L2. by vm_compute.
  - pose proof (L 16%nat Hg ltac:(cbn; lia)) as L1. pose proof (L 20%nat Hg ltac:(cbn; lia)) as L2. change (gdt + 8 * 2) with (gdt + Z.of_nat 16). replace (gdt + Z.of_nat 16 + 4) with (gdt + Z.of_nat 20) by lia.
    rewrite L1, L2. destruct Hrr as [-> |[-> | ->]]; by vm_compute.
Qed.

Lemma table_words m gdt gd : boot_table m gdt gd -> m gd + 256 * m (gd + 1) = 23 /\ Z.land (ld32 m (gd + 2)) 16777215 = gdt.
Proof.
  intros [_ Hd Hr]. assert (E : forall j v, gdtdesc gdt !! j = Some v -> m (gd + Z.of_nat j) = v) by exact Hd. split.
  - pose proof (E 0%nat _ eq_refl) as E0. rewrite Z.add_0_r in E0. pose proof (E 1%nat _ eq_refl) as E1. change (Z.of_nat 1) with 1 in E1. rewrite E0, E1. by vm_compute.
  - change 2 with (Z.of_nat 2). rewrite (ld_bytes m gd (gdtdesc gdt) 2 Hd) by (cbn; lia). change 16777215 with (Z.ones 24). rewrite Z.land_ones by lia. unfold gdtdesc, le32, le16. cbn. zdiv.
Qed.
End Table.

(** ** Real mode *)

Section Real.
Context {D : Type} {DD : Device D} {DA : A20 D}.
Context (decode : bool -> mem -> Z -> option (binstr * Z)).
Notation bruns := (bruns decode).
Notation code_at := (lies decode).

(** The code segment at [cb]. *)
Definition real_cs (sel cb : Z) : dseg := mkds sel cb 65535 false.
Definition zero_seg : dseg := mkds 0 0 65535 false.
(** The data segments, as at reset. *)
Definition at_reset (sg : sreg -> dseg) : Prop := forall r, sg_limit (sg r) = 65535 /\ sg_32 (sg r) = false.

Lemma ax_with v x : 0 <= v < 65536 -> u16 (with_ax v x) = v.
Proof using. apply low_ax. Qed.

Lemma run_segs x sg sel cb a e fi z c0 c3 c4 g m (d : D) :
  code_at false m (cb + a) boot_segs (cb + e) -> at_reset sg -> sg CS = real_cs sel cb -> Z.testbit c0 0 = false -> Z.testbit c0 31 = false -> 0 <= a -> 0 <= cb -> e < 65536 -> cb + e < 1048576 ->
  bruns (mkb x sg a fi z c0 c3 c4 g m d) (mkb (rset EAX (with_ax 0 (eax x)) x) (with_seg SS zero_seg (with_seg ES zero_seg (with_seg DS zero_seg sg))) e false true c0 c3 c4 g m d).
Proof using.
  intros Hl Hr Hcs Hp Hg Ha Hc He Hm. unfold boot_segs in Hl. cbn [lies] in Hl. destruct Hl as (l1 & P1 & B1 & l2 & P2 & B2 & l3 & P3 & B3 & l4 & P4 & B4 & l5 & P5 & B5 & E).
  assert (Hs : forall r s, pe s = false -> b_s s r = sg r -> load_seg s r (u16 (with_ax 0 (eax x))) = Some zero_seg).
  { intros r s Hpe Hsr. unfold load_seg. rewrite Hpe, Hsr, ax_with by lia. destruct (Hr r) as [-> ->]. done. }
  destruct x as [A C Dx Bx sp bp si di]. unfold real_cs in Hcs. cbn [eax] in Hs. bstep P1. bstep P2. bgo P3 by (rewrite Hs by done; reflexivity). bgo P4 by (rewrite Hs by done; reflexivity). bgo P5 by (rewrite Hs by done; reflexivity).
  replace (a + l1 + l2 + l3 + l4 + l5) with e by lia. apply rtc_refl.
Qed.

Lemma al_with v x : 0 <= v < 256 -> u8 (with_al v x) = v.
Proof using.
  intros Hv. unfold with_al, u8. change 256 with (2 ^ 8). rewrite <- Z.land_ones, Z.land_lor_distr_l, <- Z.land_assoc by lia. change (Z.land 4294967040 (Z.ones 8)) with 0.
  rewrite Z.land_0_r, Z.lor_0_l, Z.land_ones by lia. by apply Z.mod_small.
Qed.

Context {KL : KbcLaws D}.

(** The poll loop ends with the controller idle. *)
Lemma run_poll sel cb a l1 l2 l3 c0 c3 c4 g m sg : sg CS = real_cs sel cb ->
  decode false m (cb + a) = Some (Inb 100, l1) -> decode false m (cb + a + l1) = Some (Testb 2, l2) -> decode false m (cb + a + l1 + l2) = Some (Jnz a, l3) ->
  1 <= l1 <= 15 -> 1 <= l2 <= 15 -> 1 <= l3 <= 15 -> Z.testbit c0 31 = false -> 0 <= a -> 0 <= cb -> a + l1 + l2 + l3 < 65536 -> cb + a + l1 + l2 + l3 < 1048576 ->
  forall n d x z, (d_polls d <= n)%nat -> exists x' d', bruns (mkb x sg a false z c0 c3 c4 g m d) (mkb x' sg (a + l1 + l2 + l3) false true c0 c3 c4 g m d') /\
    kbc_idle d' = true /\ kbc_wants d' = kbc_wants d.
Proof using.
  intros Hcs P1 P2 P3 B1 B2 B3 Hg Ha Hc He Hm n. induction n as [|n IH]; intros d [A C Dx Bx sp bp si di] z Hn; destruct (kl_status d) as (L1 & L2 & _ & L4); cbv zeta in *; set (r := d_inb 100 d) in *;
    (assert (Hu : 0 <= u8 r.1 < 256) by (unfold u8; zdiv)).
  all: destruct (kbc_idle r.2) eqn:Hi.
  2: (specialize (L4 eq_refl); lia).
  3: destruct (IH r.2 (mkr (with_al (u8 r.1) A) C Dx Bx sp bp si di) false ltac:(specialize (L4 eq_refl); lia)) as (x' & d' & R & R1 & R2); exists x', d'; split; [|split; [done|by rewrite R2]].
  1, 2: exists (mkr (with_al (u8 r.1) A) C Dx Bx sp bp si di), r.2; split; [|done].
  all: unfold real_cs in Hcs; bstep P1; fold r; bstep P2; bgo P3 by (rewrite al_with, <- L1 by done; reflexivity); try apply rtc_refl.
  exact R.
Qed.

(** seta20.1 and seta20.2 *)
Lemma run_a20 x z sg sel a b e c0 c3 c4 g m d : sg CS = real_cs sel 0 ->
  code_at false m a (seta20_1 a) b -> code_at false m b (seta20_2 b) e -> Z.testbit c0 31 = false -> 0 <= a -> e < 65536 ->
  exists x' d', bruns (mkb x sg a false z c0 c3 c4 g m d) (mkb x' sg e false true c0 c3 c4 g m d') /\ a20 d' = true.
Proof using KL.
  intros Hcs Ha Hb Hg H0 He. pose proof (lies_le _ _ _ _ _ _ Hb) as Hbe. unfold seta20_1, seta20_2 in *. cbn [lies] in *.
  destruct Ha as (l1 & P1 & B1 & l2 & P2 & B2 & l3 & P3 & B3 & l4 & P4 & B4 & l5 & P5 & B5 & E1). destruct Hb as (k1 & Q1 & C1 & k2 & Q2 & C2 & k3 & Q3 & C3 & k4 & Q4 & C4 & k5 & Q5 & C5 & E2).
  destruct (run_poll sel 0 a l1 l2 l3 c0 c3 c4 g m sg Hcs P1 P2 P3 B1 B2 B3 Hg H0 ltac:(lia) ltac:(lia) ltac:(lia) _ d x z ltac:(reflexivity)) as ([A C Dx Bx sp bp si di] & d1 & R1 & I1 & _).
  set (x2 := mkr (with_al 209 A) C Dx Bx sp bp si di). set (d2 := d_outb 100 209 d1).
  destruct (run_poll sel 0 b k1 k2 k3 c0 c3 c4 g m sg Hcs Q1 Q2 Q3 C1 C2 C3 Hg ltac:(lia) ltac:(lia) ltac:(lia) ltac:(lia) _ d2 x2 true ltac:(reflexivity)) as ([A' C' Dx' Bx' sp' bp' si' di'] & d3 & R3 & I3 & W3).
  exists (mkr (with_al 223 A') C' Dx' Bx' sp' bp' si' di'), (d_outb 96 223 d3). split; [|rewrite (kl_port d3 223 I3); [done|rewrite W3; by apply kl_command]].
  eapply bruns_trans; [exact R1|]. unfold real_cs in Hcs. bstep P4. bgo P5 by (rewrite al_with by lia; reflexivity). rewrite E1. fold x2 d2. eapply bruns_trans; [exact R3|].
  bstep Q4. bgo Q5 by (rewrite al_with by lia; reflexivity). rewrite E2. apply rtc_refl.
Qed.

Lemma run_protected x z sg sel cb a e start32 c0 c3 c4 g m (d : D) gdt gd : sg CS = real_cs sel cb -> sg DS = zero_seg ->
  code_at false m (cb + a) (to_protected gd start32) (cb + e) -> boot_table m gdt gd -> Z.testbit c0 31 = false -> 0 <= a -> 0 <= cb -> e < 65536 -> cb + e < 1048576 ->
  exists x' z', bruns (mkb x sg a false z c0 c3 c4 g m d) (mkb x' (with_seg CS (flat_seg 8) sg) start32 false z' (Z.lor c0 1) c3 c4 (gdt, 23) m d).
Proof using.
  intros Hcs Hds Hl Ht Hg Ha Hc He Hm. unfold to_protected in Hl. cbn [lies] in Hl. destruct Hl as (l1 & P1 & B1 & l2 & P2 & B2 & l3 & P3 & B3 & l4 & P4 & B4 & l5 & P5 & B5 & E).
  assert (Hg1 : Z.testbit (Z.lor c0 CR0_PE) 31 = false) by (rewrite Z.lor_spec, Hg; done). assert (Hp1 : Z.testbit (Z.lor c0 CR0_PE) 0 = true) by (rewrite Z.lor_spec; apply orb_true_r).
  destruct (table_words _ _ _ Ht) as [T1 T2]. pose proof (bt_range _ _ _ Ht) as Hr. destruct x as [A C Dx Bx sp bp si di]. unfold real_cs in Hcs. unfold zero_seg in Hds.
  do 2 eexists. bgo P1 by (rewrite (in_seg_low _ DS _ gd 6 gd) by (bnorm; rewrite ?Hds; cbn [sg_base sg_limit]; (lia || (split; [lia|assumption]))); cbn [mbind option_bind]; bseg; rewrite T1, T2; reflexivity).
  bstep P2. bstep P3. bstep P4. bgo P5 by (change (Z.shiftl SEG_KCODE 3) with (8 * 1); rewrite (load_boot _ gdt gd CS 1) by (done || by left); reflexivity).
  apply rtc_refl.
Qed.

(** The data segments of 32-bit code. *)
Lemma run_flat x z sg a e c0 c3 c4 m (d : D) gdt gd : sg CS = flat_seg 8 -> code_at true m a flat_segs e -> boot_table m gdt gd -> Z.testbit c0 0 = true -> Z.testbit c0 31 = false ->
  0 <= a -> e < 65536 -> exists x' z' sg', bruns (mkb x sg a false z c0 c3 c4 (gdt, 23) m d) (mkb x' sg' e false z' c0 c3 c4 (gdt, 23) m d) /\
    sg' CS = flat_seg 8 /\ sg' DS = flat_seg 16 /\ sg' ES = flat_seg 16 /\ sg' SS = flat_seg 16 /\ sg_sel (sg' FS) = 0 /\ sg_sel (sg' GS) = 0.
Proof using.
  intros Hcs Hl Ht Hp Hg Ha He. unfold flat_segs in Hl. cbn [lies] in Hl.
  destruct Hl as (l1 & P1 & B1 & l2 & P2 & B2 & l3 & P3 & B3 & l4 & P4 & B4 & l5 & P5 & B5 & l6 & P6 & B6 & l7 & P7 & B7 & E). destruct x as [A C Dx Bx sp bp si di]. unfold flat_seg in Hcs.
  assert (H16 : u16 (with_ax (Z.shiftl SEG_KDATA 3) A) = 8 * 2) by (by apply ax_with).
  do 3 eexists. split.
  { bstep P1. bgo P2 by (rewrite H16, (load_boot _ gdt gd DS 2) by (done || (right; tauto)); reflexivity). bgo P3 by (rewrite H16, (load_boot _ gdt gd ES 2) by (done || (right; tauto)); reflexivity).
    bgo P4 by (rewrite H16, (load_boot _ gdt gd SS 2) by (done || (right; tauto)); reflexivity). bstep P5.
    bgo P6 by (unfold load_seg, pe; bnorm; rewrite Hp, ax_with by lia; reflexivity). bgo P7 by (unfold load_seg, pe; bnorm; rewrite Hp, ax_with by lia; reflexivity). rewrite E. apply rtc_refl. }
  cbn [with_seg sreg_eqb]. done.
Qed.
End Real.

(** ** entrypgdir *)

Section Paged.
Context {D : Type} {DD : Device D} {DA : A20 D}.

(** The first 4 MB twice, and nothing else. *)
Definition double_map (s : bcpu D) : Prop := forall w va, 0 <= va < 4294967296 ->
  translate s w va = if va <? 4194304 then Some va else if (KERNBASE <=? va) && (va <? KERNBASE + 4194304) then Some (va - KERNBASE) else None.

Definition pgdir_in (m : mem) (pg : Z) : Prop := pg mod 4096 = 0 /\ 0 <= pg /\ pg + 4096 <= 4294967296 /\ forall i, 0 <= i < 1024 -> ld32 m (pg + 4 * i) = entrypgdir !!! Z.to_nat i.

Lemma entrypgdir_at i : 0 <= i < 1024 -> entrypgdir !!! Z.to_nat i = if (i =? 0) || (i =? 512) then 131 else 0.
Proof.
  intros Hi. unfold entrypgdir. change (Z.to_nat (Z.shiftr KERNBASE 22)) with 512%nat. change (Z.lor (Z.lor (Z.lor 0 PTE_P) PTE_W) PTE_PS) with 131. unfold NPDENTRIES.
  destruct (Z.eqb_spec i 512) as [->|H5]; [by rewrite list_lookup_total_insert_eq by (rewrite length_insert, length_replicate; lia)|]. rewrite list_lookup_total_insert_ne by lia.
  destruct (Z.eqb_spec i 0) as [->|H0]; [by rewrite list_lookup_total_insert_eq by (rewrite length_replicate; lia)|]. rewrite list_lookup_total_insert_ne by lia. cbn [orb].
  apply lookup_total_replicate_2. lia.
Qed.

Lemma entry_maps (s : bcpu D) : paging s = true -> Z.testbit (b_cr4 s) 4 = true -> a20 (b_dev s) = true -> pgdir_in (b_mem s) (b_cr3 s) -> double_map s.
Proof.
  intros Hp H4 Ha (Hc & H0 & H1 & He) w va Hva. unfold translate. rewrite Hp, H4. cbn [negb]. rewrite !line20_open by done. pose proof (PDX_range va) as Hx.
  assert (Ec : PTE_ADDR (b_cr3 s) = b_cr3 s) by (change (PTE_ADDR (b_cr3 s)) with (PGROUNDDOWN (b_cr3 s)); rewrite pgrounddown_eq by lia; unfold PGSIZE; lia).
  rewrite Ec, He, entrypgdir_at, PDX_eq by (done || lia). unfold KERNBASE.
  destruct ((va / 4194304 =? 0) || (va / 4194304 =? 512)) eqn:Ei.
  - change (negb (present 131)) with false. change (Z.land 131 PTE_W =? 0) with false. rewrite andb_false_r. cbn [orb]. change (negb (Z.land 131 PTE_PS =? 0) && true) with true. cbn beta iota.
    change (Z.land 131 4290772992) with 0. rewrite Z.lor_0_l. change 4194303 with (Z.ones 22). rewrite Z.land_ones by lia. change (2 ^ 22) with 4194304. zbool.
    destruct (Z.ltb_spec va 4194304), (Z.leb_spec 2147483648 va), (Z.ltb_spec va (2147483648 + 4194304)); cbn [andb]; try (f_equal; zdiv); exfalso; zdiv.
  - cbn. apply orb_false_iff in Ei as [E0%Z.eqb_neq E5%Z.eqb_neq]. destruct (Z.ltb_spec va 4194304), (Z.leb_spec 2147483648 va), (Z.ltb_spec va (2147483648 + 4194304)); try done; exfalso; zdiv.
Qed.

Lemma in_seg_map (s : bcpu D) r w off n : double_map s -> sg_base (b_s s r) = 0 -> sg_limit (b_s s r) = 4294967295 -> 0 <= off -> off + n <= 4294967296 -> 1 <= n -> off mod 4096 + n <= 4096 ->
  in_seg s r w off n = if off <? 4194304 then Some off else if (KERNBASE <=? off) && (off <? KERNBASE + 4194304) then Some (off - KERNBASE) else None.
Proof.
  intros Hm Hb Hl H0 H1 Hn Hpg. unfold in_seg, access. assert (off < 4294967296) by lia. rewrite Hb, Hl, (proj2 (Z.leb_le 0 off)), (proj2 (Z.leb_le _ 4294967295)) by lia. cbn [andb]. rewrite Z.add_0_l, u32_small, (proj2 (Z.leb_le _ 4096)) by lia.
  by apply Hm.
Qed.

(** An instruction of the first 4 MB with entrypgdir. *)
Lemma bruns_mapped decode (s s' s'' : bcpu D) m p i len : decode true m p = Some (i, len) -> b_mem s = m -> b_s s CS = flat_seg 8 -> double_map s -> b_eip s = p -> 0 <= p < 4194304 -> 1 <= len <= 15 ->
  exec_boot i (b_eip s + len) s = Some s' -> bruns decode s' s'' -> bruns decode s s''.
Proof.
  intros Hd Hm Hc Hdm He Hp Hl Hx Hr. subst m. apply (bruns_l decode s s' s'' true p i len); [|by rewrite Hc|exact Hd|lia|exact Hx|done]. unfold fetch. rewrite He, in_seg_map; rewrite ?Hc; try done; try lia; [|zdiv].
  by rewrite (proj2 (Z.ltb_lt _ _)) by lia.
Qed.
End Paged.

(** ** Properties *)

Section Properties.
Context {D : Type} {DD : Device D} {DA : A20 D}.
Context (decode : bool -> mem -> Z -> option (binstr * Z)).
Notation bruns := (bruns decode).
Notation code_at := (lies decode).

(** Paging bits. *)
Lemma pg_bits c k : Z.testbit k 31 = true -> Z.testbit (Z.lor c k) 31 = true.
Proof using. intros H. rewrite Z.lor_spec, H. apply orb_true_r. Qed.

(** A processor that starts at [cb] + [ip] in real mode. *)
Record starts_at (s : bcpu D) (sel cb ip : Z) : Prop := mkstarts {
  sa_cs : b_s s CS = real_cs sel cb;
  sa_segs : at_reset (b_s s);
  sa_eip : b_eip s = ip;
  sa_pe : pe s = false;
  sa_pg : paging s = false }.

(** 32-bit code in flat segments, interrupts off. *)
Record flat32 (s : bcpu D) : Prop := mkflat {
  fl_cs : b_s s CS = flat_seg 8;
  fl_ds : b_s s DS = flat_seg 16;
  fl_es : b_s s ES = flat_seg 16;
  fl_ss : b_s s SS = flat_seg 16;
  fl_pe : pe s = true;
  fl_if : b_if s = false }.

(** The boot block: bootasm.S from 0x7c00 on, in one sector. *)
Definition boot_block (m : mem) (gdt gd start32 bootmain ret : Z) : Prop := exists b1 b2 b3 b4 b5,
  code_at false m 31744 boot_segs b1 /\ code_at false m b1 (seta20_1 b1) b2 /\ code_at false m b2 (seta20_2 b2) b3 /\
  code_at false m b3 (to_protected gd start32) b4 /\ b4 <= start32 /\
  code_at true m start32 flat_segs b5 /\ code_at true m b5 (boot_c 31744 bootmain) ret /\ ret <= 32256 /\ boot_table m gdt gd.

(** C28: from the BIOS to C.  The processor starts the boot block in real mode
    at 0:7c00; it comes to bootmain in 32-bit protected mode, in flat segments, with interrupts off, address
    line 20 open, the stack right below the code and nothing else in memory changed. *)
Theorem bootasm_enters_bootmain {KL : KbcLaws D} (s : bcpu D) (gdt gd start32 bootmain ret : Z) :
  starts_at s 0 0 31744 -> boot_block (b_mem s) gdt gd start32 bootmain ret ->
  exists s', bruns s s' /\ flat32 s' /\ paging s' = false /\ b_eip s' = bootmain /\ esp (b_r s') = 31740 /\ a20 (b_dev s') = true /\
    b_mem s' = st32 (b_mem s) 31740 ret.
Proof.
  intros [S1 S2 S3 S4 S5] (b1 & b2 & b3 & b4 & b5 & C1 & C2 & C3 & C4 & Hb & C5 & C6 & Hret & Ht). destruct s as [x sg ip fi z c0 c3 c4 g m d]. unfold pe, paging in *. cbn [b_s b_eip b_cr0 b_mem] in *. subst ip.
  pose proof (lies_le _ _ _ _ _ _ C1) as L1. pose proof (lies_le _ _ _ _ _ _ C2) as L2. pose proof (lies_le _ _ _ _ _ _ C3) as L3. pose proof (lies_le _ _ _ _ _ _ C4) as L4. pose proof (lies_le _ _ _ _ _ _ C5) as L5. pose proof (lies_le _ _ _ _ _ _ C6) as L6.
  pose proof (run_segs decode x sg 0 0 31744 b1 fi z c0 c3 c4 g m d C1 S2 S1 S4 S5 ltac:(lia) ltac:(lia) ltac:(lia) ltac:(lia)) as R1. set (sg1 := with_seg SS _ _) in R1.
  destruct (run_a20 decode (rset EAX (with_ax 0 (eax x)) x) true sg1 0 b1 b2 b3 c0 c3 c4 g m d S1 C2 C3 S5 ltac:(lia) ltac:(lia)) as (x2 & d2 & R2 & Ha).
  destruct (run_protected decode x2 true sg1 0 0 b3 b4 start32 c0 c3 c4 g m d2 gdt gd S1 eq_refl C4 Ht S5 ltac:(lia) ltac:(lia) ltac:(lia) ltac:(lia)) as (x3 & z3 & R3).
  assert (Hpe : Z.testbit (Z.lor c0 1) 0 = true) by (rewrite Z.lor_spec; apply orb_true_r). assert (Hpg : Z.testbit (Z.lor c0 1) 31 = false) by (rewrite Z.lor_spec, S5; done).
  destruct (run_flat decode x3 z3 (with_seg CS (flat_seg 8) sg1) start32 b5 (Z.lor c0 1) c3 c4 m d2 gdt gd eq_refl C5 Ht Hpe Hpg ltac:(lia) ltac:(lia)) as ([A C Dx Bx sp bp si di] & z4 & sg4 & R4 & F1 & F2 & F3 & F4 & _).
  unfold boot_c in C6. cbn [lies] in C6. destruct C6 as (l1 & P1 & B1 & l2 & P2 & B2 & E). eexists. split.
  { eapply bruns_trans; [exact R1|]. eapply bruns_trans; [exact R2|]. eapply bruns_trans; [exact R3|]. eapply bruns_trans; [exact R4|]. clear S1. unfold flat_seg in F1. bstep P1.
    bgo P2 by (change (u32 (31744 - 4)) with 31740; rewrite (in_seg_low _ SS _ 31740 4 31740) by (bnorm; rewrite ?F4; cbn [sg_base sg_limit flat_seg]; (lia || (split; [left; lia|assumption]) || zdiv)); reflexivity). rewrite E. apply rtc_refl. }
  done.
Qed.

(** C27: from the boot loader to main.  entry, at its physical address in the first 4 MB, turns
    paging on under its own feet and comes to main, at its high address,
    with the stack at the top of [stack]; from then on an address in the first 4
    MB or in the 4 MB above KERNBASE is the physical one in the first 4 MB, for reads and writes, and
    any other faults. *)
Theorem entry_reaches_main (s : bcpu D) (pgdir stack main e : Z) :
  flat32 s -> paging s = false -> a20 (b_dev s) = true -> 0 <= b_eip s -> e <= 4194304 ->
  code_at true (b_mem s) (b_eip s) (entry pgdir stack main) e -> pgdir_in (b_mem s) (V2P pgdir) ->
  exists s', bruns s s' /\ flat32 s' /\ b_eip s' = main /\ esp (b_r s') = stack + KSTACKSIZE /\ double_map s' /\ Z.testbit (b_cr0 s') 16 = true /\ b_mem s' = b_mem s.
Proof.
  intros [F1 F2 F3 F4 F5 F6] Hpg Ha H0 He Hl Hp. destruct s as [[A C Dx Bx sp bp si di] sg a fi z c0 c3 c4 g m d]. unfold pe, paging in *. cbn [b_s b_eip b_cr0 b_mem b_dev b_if] in *. subst fi.
  pose proof F1 as Hcs. unfold flat_seg in Hcs. clear F1. unfold entry in Hl. cbn [lies] in Hl.
  destruct Hl as (l1 & P1 & B1 & l2 & P2 & B2 & l3 & P3 & B3 & l4 & P4 & B4 & l5 & P5 & B5 & l6 & P6 & B6 & l7 & P7 & B7 & l8 & P8 & B8 & l9 & P9 & B9 & l10 & P10 & B10 & l11 & P11 & B11 & E).
  set (c0' := Z.lor c0 (Z.lor CR0_PG CR0_WP)). set (c4' := Z.lor c4 CR4_PSE).
  assert (Hdm : forall x' ip', double_map (mkb x' sg ip' false (c0' =? 0) c0' (V2P pgdir) c4' g m d)).
  { intros x' ip'. apply entry_maps; [by apply pg_bits|unfold c4'; cbn [b_cr4]; rewrite Z.lor_spec; apply orb_true_r|exact Ha|exact Hp]. }
  eexists. split.
  { bstep P1. bstep P2. bstep P3. bstep P4. bstep P5. bstep P6. bstep P7. bstep P8. fold c0' c4'. eapply bruns_mapped; [exact P9|done|exact Hcs|apply Hdm|bnorm; lia|lia|lia|reflexivity|]. bnorm.
    eapply bruns_mapped; [exact P10|done|exact Hcs|apply Hdm|bnorm; lia|lia|lia|reflexivity|]. bnorm. eapply bruns_mapped; [exact P11|done|exact Hcs|apply Hdm|bnorm; lia|lia|lia|reflexivity|]. bnorm. apply rtc_refl. }
  split; [split; try done; unfold pe, c0'; cbn [b_cr0]; by rewrite Z.lor_spec, F5|]. split; [done|]. split; [done|]. split; [apply Hdm|]. split; [|done]. unfold c0'. cbn [b_cr0]. rewrite Z.lor_spec. apply orb_true_r.
Qed.

(** entryother.S at 0x7000. *)
Definition other_code (m : mem) (gdt gd start32 ret : Z) : Prop := exists e1 e2 b,
  code_at false m 28672 boot_segs (28672 + e1) /\ code_at false m (28672 + e1) (to_protected gd start32) (28672 + e2) /\ 28672 + e2 <= start32 /\
  code_at true m start32 flat_segs b /\ code_at true m b (other_c 28672) ret /\ ret <= 32768 /\ boot_table m gdt gd.

(** An application processor calls the function at 0x7000-8 on the stack at 0x7000-4, with
    the page table at 0x7000-12. *)
Lemma run_other (s : bcpu D) (gdt gd start32 ret sp pg : Z) :
  starts_at s 1792 28672 0 -> a20 (b_dev s) = true -> other_code (b_mem s) gdt gd start32 ret ->
  ld32 (b_mem s) 28668 = sp -> ld32 (b_mem s) 28660 = pg -> pgdir_in (b_mem s) pg ->
  sp mod 4096 = 0 -> KERNBASE < sp <= KERNBASE + 4194304 -> (sp - KERNBASE <= pg \/ pg + 4096 <= sp - 4 - KERNBASE) ->
  exists s', bruns s s' /\ flat32 s' /\ b_eip s' = ld32 (b_mem s) 28664 /\ esp (b_r s') = sp - 4 /\ double_map s' /\ b_mem s' = st32 (b_mem s) (sp - 4 - KERNBASE) ret.
Proof.
  intros [S1 S2 S3 S4 S5] Ha (e1 & e2 & b & C1 & C2 & Hs & C3 & C4 & Hret & Ht) Hsp Hpg Hp Hal Hr Hap. destruct s as [x sg ip fi z c0 c3 c4 g m d]. unfold pe, paging, KERNBASE in *. cbn [b_s b_eip b_cr0 b_mem b_dev] in *. subst ip.
  pose proof (lies_le _ _ _ _ _ _ C1) as L1. pose proof (lies_le _ _ _ _ _ _ C2) as L2. pose proof (lies_le _ _ _ _ _ _ C3) as L3. pose proof (lies_le _ _ _ _ _ _ C4) as L4.
  pose proof (run_segs decode x sg 1792 28672 0 e1 fi z c0 c3 c4 g m d C1 S2 S1 S4 S5 ltac:(lia) ltac:(lia) ltac:(lia) ltac:(lia)) as R1. set (sg1 := with_seg SS _ _) in R1.
  destruct (run_protected decode (rset EAX (with_ax 0 (eax x)) x) true sg1 1792 28672 e1 e2 start32 c0 c3 c4 g m d gdt gd S1 eq_refl C2 Ht S5 ltac:(lia) ltac:(lia) ltac:(lia) ltac:(lia)) as (x3 & z3 & R3).
  assert (Hpe : Z.testbit (Z.lor c0 1) 0 = true) by (rewrite Z.lor_spec; apply orb_true_r). assert (Hpn : Z.testbit (Z.lor c0 1) 31 = false) by (rewrite Z.lor_spec, S5; done).
  destruct (run_flat decode x3 z3 (with_seg CS (flat_seg 8) sg1) start32 b (Z.lor c0 1) c3 c4 m d gdt gd eq_refl C3 Ht Hpe Hpn ltac:(lia) ltac:(lia)) as ([A C Dx Bx sp0 bp si di] & z4 & sg4 & R4 & F1 & F2 & F3 & F4 & _).
  unfold other_c in C4. cbn [lies] in C4. change (28672 - 12) with 28660 in C4. change (28672 - 4) with 28668 in C4. change (28672 - 8) with 28664 in C4.
  destruct C4 as (l1 & P1 & B1 & l2 & P2 & B2 & l3 & P3 & B3 & l4 & P4 & B4 & l5 & P5 & B5 & l6 & P6 & B6 & l7 & P7 & B7 & l8 & P8 & B8 & l9 & P9 & B9 & l10 & P10 & B10 & E).
  set (c0' := Z.lor (Z.lor c0 1) (Z.lor (Z.lor CR0_PE CR0_PG) CR0_WP)). set (c4' := Z.lor c4 CR4_PSE).
  assert (Hdm : forall x' ip' m', pgdir_in m' pg -> double_map (mkb x' sg4 ip' false (c0' =? 0) c0' pg c4' (gdt, 23) m' d)).
  { intros x' ip' m' Hm'. apply entry_maps; [by apply pg_bits|unfold c4'; cbn [b_cr4]; rewrite Z.lor_spec; apply orb_true_r|exact Ha|exact Hm']. }
  assert (Hr' : 2147487744 <= sp <= 2151677952) by zdiv. assert (Hpm : pgdir_in (st32 m (sp - 4 - 2147483648) ret) pg).
  { destruct Hp as (Q1 & Q2 & Q3 & Q4). split_and!; try done. intros i Hi. rewrite ld32_st32_other by lia. by apply Q4. }
  pose proof F1 as Hcs. unfold flat_seg in Hcs. eexists. split.
  { eapply bruns_trans; [exact R1|]. eapply bruns_trans; [exact R3|]. eapply bruns_trans; [exact R4|]. clear S1 F1. bstep P1. bstep P2. bstep P3.
    bgo P4 by (rewrite (in_seg_low _ DS _ 28660 4 28660) by (bnorm; rewrite ?F2; cbn [sg_base sg_limit flat_seg]; (lia || (split; [left; lia|assumption]) || zdiv)); reflexivity). rewrite Hpg.
    bstep P5. bstep P6. bstep P7. bstep P8. fold c0' c4'.
    eapply bruns_mapped; [exact P9|done|exact Hcs|by apply Hdm|bnorm; lia|lia|lia|bnorm; rewrite in_seg_map by ((by apply Hdm) || (bnorm; rewrite ?F2; done) || lia || zdiv); reflexivity|]. bnorm. rewrite Hsp.
    eapply bruns_mapped; [exact P10|done|exact Hcs|by apply Hdm|bnorm; lia|lia|lia| |].
    - bnorm. rewrite (in_seg_map _ DS _ 28664 4) by ((by apply Hdm) || (bnorm; rewrite ?F2; done) || lia || zdiv). cbn [mbind option_bind]. rewrite u32_small by lia.
      rewrite in_seg_map by ((by apply Hdm) || (bnorm; rewrite ?F4; done) || lia || zdiv). unfold KERNBASE. rewrite (proj2 (Z.ltb_ge (sp - 4) _)), (proj2 (Z.leb_le _ (sp - 4))), (proj2 (Z.ltb_lt (sp - 4) _)) by lia. cbn [andb mbind option_bind]. reflexivity.
    - bnorm. rewrite E. apply rtc_refl. }
  split; [split; try done; unfold pe, c0'; cbn [b_cr0]; by rewrite Z.lor_spec, Hpe|]. split; [done|]. split; [done|]. split; [by apply Hdm|done].
Qed.
End Properties.

(** ** The properties on small programs *)

(** Code of one byte an instruction: the index in [isa]. *)
Definition toy_decode (isa : list binstr) (w : bool) (m : mem) (a : Z) : option (binstr * Z) := (fun i => (i, 1)) <$> isa !! Z.to_nat (m a).

Lemma toy_lies isa w m a l : forall j, (forall k, (k < length l)%nat -> m (a + Z.of_nat k) = Z.of_nat (j + k)) -> (forall k, (k < length l)%nat -> isa !! (j + k)%nat = l !! k) ->
  lies (toy_decode isa) w m a l (a + Z.of_nat (length l)).
Proof.
  revert a. induction l as [|i l IH]; intros a j Hm Hi; cbn [lies length]; [lia|]. exists 1. split.
  - unfold toy_decode. pose proof (Hm 0%nat ltac:(cbn; lia)) as H0. rewrite Z.add_0_r in H0. rewrite H0, Nat2Z.id, (Hi 0%nat) by (cbn; lia). done.
  - split; [lia|]. replace (a + Z.of_nat (S (length l))) with (a + 1 + Z.of_nat (length l)) by lia. apply (IH (a + 1) (S j)).
    + intros k Hk. replace (a + 1 + Z.of_nat k) with (a + Z.of_nat (S k)) by lia. rewrite Hm by (cbn; lia). lia.
    + intros k Hk. replace (S j + k)%nat with (j + S k)%nat by lia. by rewrite Hi by (cbn; lia).
Qed.

Lemma poke_bytes m a l : bytes_at (poke m a l) a l.
Proof.
  intros k v Hv. pose proof (lookup_lt_Some _ _ _ Hv). unfold poke. rewrite (proj2 (Z.leb_le _ _)), (proj2 (Z.ltb_lt _ _)) by lia. cbn [andb].
  replace (Z.to_nat (a + Z.of_nat k - a)) with k by lia. by apply list_lookup_total_correct.
Qed.

Lemma bytes_part m a l l1 l2 l3 : bytes_at m a l -> l = l1 ++ l2 ++ l3 -> bytes_at m (a + Z.of_nat (length l1)) l2.
Proof.
  intros H -> k v Hv. rewrite <- Z.add_assoc, <- Nat2Z.inj_add. apply H. rewrite lookup_app_r by lia. replace (length l1 + k - length l1)%nat with k by lia. by apply lookup_app_l_Some.
Qed.

(** The code's bytes, then the table. *)
Definition toy_image (n : nat) (pad : list Z) (gdt : Z) : list Z := seqZ 0 (Z.of_nat n) ++ pad ++ boot_gdt ++ gdtdesc gdt.

Lemma toy_code m a n pad gdt k : bytes_at m a (toy_image n pad gdt) -> (k < n)%nat -> m (a + Z.of_nat k) = Z.of_nat k.
Proof. intros H Hk. apply H. unfold toy_image. apply lookup_app_l_Some, lookup_seqZ. lia. Qed.

Lemma toy_part isa w m a pad gdt pre l post : bytes_at m a (toy_image (length isa) pad gdt) -> isa = pre ++ l ++ post ->
  lies (toy_decode isa) w m (a + Z.of_nat (length pre)) l (a + Z.of_nat (length pre) + Z.of_nat (length l)).
Proof.
  intros H E. assert (Hn : (length pre + length l <= length isa)%nat) by (rewrite E, !length_app; lia). apply (toy_lies _ _ _ _ _ (length pre)); intros k Hk.
  - rewrite <- Z.add_assoc, <- Nat2Z.inj_add. eapply toy_code; [exact H|lia].
  - rewrite E, lookup_app_r by lia. replace (length pre + k - length pre)%nat with k by lia. by apply lookup_app_l.
Qed.

Lemma toy_table m a n pad : let gdt := a + Z.of_nat n + Z.of_nat (length pad) in bytes_at m a (toy_image n pad gdt) -> 0 <= gdt < 65500 -> gdt mod 4096 + 30 <= 4096 -> boot_table m gdt (gdt + 24).
Proof.
  intros gdt H Hr Hp. assert (E : a + Z.of_nat (length (seqZ 0 (Z.of_nat n) ++ pad)) = gdt) by (rewrite length_app, length_seqZ; unfold gdt; lia).
  pose proof (bytes_part m a _ (seqZ 0 (Z.of_nat n) ++ pad) boot_gdt (gdtdesc gdt) H ltac:(unfold toy_image; by rewrite <- !app_assoc)) as H1. rewrite E in H1.
  pose proof (bytes_part m a _ (seqZ 0 (Z.of_nat n) ++ pad ++ boot_gdt) (gdtdesc gdt) [] H ltac:(unfold toy_image; by rewrite app_nil_r, <- !app_assoc)) as H2.
  rewrite !length_app, length_seqZ in H2. split; [exact H1| |].
  - replace (gdt + 24) with (a + Z.of_nat (Z.to_nat (Z.of_nat n) + (length pad + length boot_gdt))) by (unfold gdt; change (length boot_gdt) with 24%nat; lia). exact H2.
  - split; [lia|]. split; [lia|]. split; [lia|zdiv].
Qed.

(** A keyboard controller that is busy for [t_busy] reads. *)
Record toy : Type := mktoy { t_busy : nat; t_wants : bool; t_open : bool }.
#[export] Instance toy_device : Device toy := {|
  d_inb p d := let n := pred (t_busy d) in ((if (n =? 0)%nat then 0 else 2), mktoy n (t_wants d) (t_open d));
  d_outb p v d := if p =? 100 then mktoy 3 (v =? 209) (t_open d) else mktoy 3 false (if t_wants d then Z.testbit v 1 else t_open d);
  d_insl p n d := ([], d);
  d_outsl p l d := d;
  d_load w a d := (0, d);
  d_store w a v d := d;
  d_polls := t_busy |}.
#[export] Instance toy_a20 : A20 toy := t_open.
#[export] Instance toy_laws : KbcLaws toy.
Proof.
  refine {| kbc_idle d := (t_busy d =? 0)%nat; kbc_wants := t_wants |}.
  - intros [n w o]. cbn. destruct n as [|[|n]]; cbn; split_and!; try done; intros _; lia.
  - done.
  - intros [n w o] v. cbn. intros _ ->. done.
Defined.

Definition reset_cpu (sel cb ip : Z) (m : mem) (d : toy) : bcpu toy :=
  mkb (mkr 0 0 0 0 0 0 0 0) (with_seg CS (real_cs sel cb) (fun _ => mkds 0 0 65535 false)) ip true false 16 0 0 (0, 65535) m d.

Lemma reset_starts sel cb ip m d : starts_at (reset_cpu sel cb ip m d) sel cb ip.
Proof. split; try done. intros r. by destruct r. Qed.

Definition toy_boot : list binstr := boot_segs ++ seta20_1 31749 ++ seta20_2 31754 ++ to_protected 31800 31764 ++ flat_segs ++ boot_c 31744 32000.
Definition toy_boot_mem : mem := poke (fun _ => 0) 31744 (toy_image 29 [0; 0; 0] 31776).

Lemma bootasm_enters_bootmain_witness : exists s', bruns (toy_decode toy_boot) (reset_cpu 0 0 31744 toy_boot_mem (mktoy 2 false false)) s' /\
  b_eip s' = 32000 /\ esp (b_r s') = 31740 /\ t_open (b_dev s') = true /\ pe s' = true.
Proof.
  pose proof (poke_bytes (fun _ => 0) 31744 (toy_image 29 [0; 0; 0] 31776)) as Hb.
  destruct (bootasm_enters_bootmain (toy_decode toy_boot) (reset_cpu 0 0 31744 toy_boot_mem (mktoy 2 false false)) 31776 31800 31764 32000 31773 (reset_starts _ _ _ _ _)) as (s' & R & F & _ & E1 & E2 & E3 & _).
  - pose proof (fun w pre l post => toy_part toy_boot w toy_boot_mem 31744 [0; 0; 0] 31776 pre l post Hb) as L. exists 31749, 31754, 31759, 31764, 31771.
    split; [exact (L false [] boot_segs _ eq_refl)|]. split; [exact (L false boot_segs (seta20_1 31749) _ eq_refl)|]. split; [exact (L false (boot_segs ++ seta20_1 31749) (seta20_2 31754) _ eq_refl)|].
    split; [exact (L false (boot_segs ++ seta20_1 31749 ++ seta20_2 31754) (to_protected 31800 31764) _ eq_refl)|]. split; [lia|].
    split; [exact (L true (boot_segs ++ seta20_1 31749 ++ seta20_2 31754 ++ to_protected 31800 31764) flat_segs _ eq_refl)|].
    split; [exact (L true (boot_segs ++ seta20_1 31749 ++ seta20_2 31754 ++ to_protected 31800 31764 ++ flat_segs) (boot_c 31744 32000) [] eq_refl)|]. split; [lia|].
    apply (toy_table toy_boot_mem 31744 29 [0; 0; 0] Hb); by vm_compute.
  - exists s'. split; [exact R|]. split; [exact E1|]. split; [exact E2|]. split; [exact E3|exact (fl_pe _ F)].
Defined.

(** entry.S at 0x10000c, entrypgdir at 0x109000. *)
Definition toy_entry : list binstr := entry 2148569088 2148573184 2148536320.
Definition toy_pgdir (a : Z) : Z := if (1085440 <=? a) && (a <? 1089536) then entrypgdir !!! Z.to_nat ((a - 1085440) / 4) else 0.
Definition toy_entry_mem : mem := poke (words_mem toy_pgdir) 1048588 (seqZ 0 11).

Lemma toy_pgdir_word i : 0 <= i < 1024 -> ld32 (words_mem toy_pgdir) (1085440 + 4 * i) = entrypgdir !!! Z.to_nat i.
Proof.
  intros Hi. rewrite ld_words by zdiv. unfold toy_pgdir. rewrite (proj2 (Z.leb_le _ _)), (proj2 (Z.ltb_lt _ _)) by lia. cbn [andb]. replace ((1085440 + 4 * i - 1085440) / 4) with i by zdiv.
  rewrite entrypgdir_at by done. apply u32_small. destruct (_ || _); lia.
Qed.

Definition flat_cpu (ip : Z) (m : mem) : bcpu toy :=
  mkb (mkr 0 0 0 0 31740 0 0 0) (with_seg CS (flat_seg 8) (fun _ => flat_seg 16)) ip false false 17 0 0 (31776, 23) m (mktoy 0 false true).

Lemma entry_reaches_main_witness : exists s', bruns (toy_decode toy_entry) (flat_cpu 1048588 toy_entry_mem) s' /\ b_eip s' = 2148536320 /\ esp (b_r s') = 2148577280 /\
  translate s' true 2148536320 = Some 1052672 /\ translate s' false 8388608 = None.
Proof.
  destruct (entry_reaches_main (toy_decode toy_entry) (flat_cpu 1048588 toy_entry_mem) 2148569088 2148573184 2148536320 1048599) as (s' & R & _ & E1 & E2 & Hd & _).
  - by split.
  - reflexivity.
  - reflexivity.
  - cbn. lia.
  - lia.
  - apply (toy_lies toy_entry true toy_entry_mem 1048588 toy_entry 0); [|done]. intros k Hk. apply (poke_bytes _ 1048588 (seqZ 0 11)). apply lookup_seqZ. cbn in Hk. lia.
  - split; [done|]. split; [done|]. split; [done|]. intros i Hi. change (V2P 2148569088) with 1085440. rewrite <- toy_pgdir_word by done. apply ld32_ext. intros b Hb. unfold flat_cpu, toy_entry_mem, poke. cbn [b_mem].
    rewrite (proj2 (Z.ltb_ge b _)) by (rewrite length_seqZ; lia). by rewrite andb_false_r.
  - exists s'. split; [exact R|]. split; [exact E1|]. split; [exact E2|]. rewrite !Hd by lia. by vm_compute.
Defined.
