(* ===== verification/Smp.v ===== *)
(** * Starting the other processors: main.c's startothers, mpenter and mpmain, with entryother.S

    startothers copies entryother.S to 0x7000, gives each processor a stack in
    turn, sends it INIT and STARTUP through the local APIC and waits until it
    has set its flag.  What a processor does meanwhile is not assumed: it is
    halted until the interrupt controllers have delivered INIT and a STARTUP to
    its id ([ap_at]; the laws are [ApicLaws]), it then starts in real mode at
    the page the STARTUP names, runs the code it finds there on the machine of
    Start.v ([boot_run]), and, where that code comes to mpenter, runs mpenter
    and mpmain up to scheduler.  It takes its turn after any number of polls.
    The theorem: startothers ends, with every other processor up through this
    code on a stack page of its own. *)

From stdpp Require Import base list relations strings.
From Stdlib Require Import ZArith Lia.
From S2P Require Import Prelude Format Console Dev Proc Kalloc Vm Gate Asm Start.

Local Open Scope Z_scope.

(** ** The interrupt controllers *)

(** A processor is halted, waits for a STARTUP after an INIT, or runs from
    the start of page [v]. *)
Inductive apst : Type := ApHalted | ApWaits | ApRuns (v : Z).

(** What a command in the local APIC's ICRLO does to the processor it is
    sent to: INIT asserted and deasserted, and STARTUP with a page. *)
Definition icr (v : Z) (st : apst) : option apst :=
  if v =? Z.lor (Z.lor INIT LEVEL) ASSERT then Some ApWaits
  else if v =? Z.lor INIT LEVEL then Some st
  else if (STARTUP <=? v) && (v <? STARTUP + 256) then
    Some (match st with ApWaits => ApRuns (v - STARTUP) | _ => st end)
  else None.

(** [ap_id] is the id of the local APIC of the processor that accesses the
    device, [ap_at] what has become of the processor with an id, [ap_dest]
    the destination field of ICRHI. *)
Class Apics (D : Type) : Type := { ap_id : D -> Z; ap_at : D -> Z -> apst; ap_dest : D -> Z }.

Record same_aps {D : Type} {DA : A20 D} {AP : Apics D} (d d' : D) : Prop := mksame_aps {
  sp_id : ap_id d' = ap_id d;
  sp_a20 : a20 d' = a20 d;
  sp_at : forall i, ap_at d' i = ap_at d i;
  sp_dest : ap_dest d' = ap_dest d }.

(** The controllers: the id is in bits 24 to 31 of the ID register, the
    destination in the same bits of ICRHI; a write to ICRLO sends a command to
    the destination; loads, the CMOS ports and 16-bit stores send nothing; a
    command has been delivered after at most [d_polls] reads of ICRLO. *)
Class ApicLaws (D : Type) {DD : Device D} {DA : A20 D} {AP : Apics D} (lapic : Z) : Prop := {
  al_id d : (d_load 4 (lapic + 4 * ID) d).1 = Z.shiftl (ap_id d) 24;
  al_load w a d : same_aps d (d_load w a d).2;
  al_cmos p v d : p = CMOS_PORT \/ p = CMOS_PORT + 1 -> same_aps d (d_outb p v d);
  al_word a v d : same_aps d (d_store 2 a v d);
  al_store w a v d : a <> lapic + 4 * ID -> ap_id (d_store w a v d) = ap_id d /\ a20 (d_store w a v d) = a20 d;
  al_hi v d : 0 <= v < 256 -> let d' := d_store 4 (lapic + 4 * ICRHI) (Z.shiftl v 24) d in
    ap_dest d' = v /\ forall i, ap_at d' i = ap_at d i;
  al_icr v st d : icr v (ap_at d (ap_dest d)) = Some st -> let d' := d_store 4 (lapic + 4 * ICRLO) v d in
    ap_dest d' = ap_dest d /\ ap_at d' (ap_dest d) = st;
  al_poll d : let r := d_load 4 (lapic + 4 * ICRLO) d in Z.land r.1 DELIVS = 0 \/ (d_polls r.2 < d_polls d)%nat }.

(** ** State *)

(** Of struct cpu: the local APIC's id, the flag and, in [sc_ct], the tables;
    of the processor: cr3 (in [sc_ct]), the gdt and idt registers, its local
    APIC, and the state in which it came to mpenter. *)
Record scpu (D : Type) : Type := mkscpu {
  sc_apicid : Z; sc_started : Z; sc_ct : ctables; sc_gdtr : list Z; sc_idtr : list Z; sc_apic : D; sc_entry : option (bcpu D) }.
Arguments mkscpu {D} _ _ _ _ _ _ _.
Arguments sc_apicid {D} _.
Arguments sc_started {D} _.
Arguments sc_ct {D} _.
Arguments sc_gdtr {D} _.
Arguments sc_idtr {D} _.
Arguments sc_apic {D} _.
Arguments sc_entry {D} _.

(** [sm_dev]: the devices as the boot processor reaches them; [sm_if]: its
    interrupt flag. *)
Record smp (D : Type) : Type := mksmp { sm_k : kst; sm_cpus : list (scpu D); sm_dev : D; sm_con : cst; sm_if : bool }.
Arguments mksmp {D} _ _ _ _ _.
Arguments sm_k {D} _.
Arguments sm_cpus {D} _.
Arguments sm_dev {D} _.
Arguments sm_con {D} _.
Arguments sm_if {D} _.

(** code in startothers: P2V(0x7000) *)
Definition ap_code : Z := P2V 28672.

(** "cpu%d: starting %d\n" *)
Definition start_msg : list Z := [99; 112; 117; 37; 100; 58; 32; 115; 116; 97; 114; 116; 105; 110; 103; 32; 37; 100; 10].

Section Smp.
Context {D : Type} {DD : Device D} {DA : A20 D} {AP : Apics D} {SY : Symbols}.
Notation St := (smp D).

Definition set_k (k : kst) (s : St) : St := mksmp k (sm_cpus s) (sm_dev s) (sm_con s) (sm_if s).
Definition set_cpus (l : list (scpu D)) (s : St) : St := mksmp (sm_k s) l (sm_dev s) (sm_con s) (sm_if s).
Definition set_dev (d : D) (s : St) : St := mksmp (sm_k s) (sm_cpus s) d (sm_con s) (sm_if s).
Definition set_con (c : cst) (s : St) : St := mksmp (sm_k s) (sm_cpus s) (sm_dev s) c (sm_if s).
Definition mem_put (f : mem -> mem) : M St unit := modify (fun s => set_k (set_mem (f (k_mem (sm_k s))) (sm_k s)) s).
Definition upd_cpu (i : nat) (f : scpu D -> scpu D) : M St unit :=
  c ← deref (fun s => sm_cpus s !! i); modify (fun s => set_cpus (<[i := f c]> (sm_cpus s)) s).

Definition sc_start (v : Z) (c : scpu D) : scpu D := mkscpu (sc_apicid c) v (sc_ct c) (sc_gdtr c) (sc_idtr c) (sc_apic c) (sc_entry c).
Definition sc_tables (f : ctables -> ctables) (c : scpu D) : scpu D := mkscpu (sc_apicid c) (sc_started c) (f (sc_ct c)) (sc_gdtr c) (sc_idtr c) (sc_apic c) (sc_entry c).
Definition sc_lgdt (l : list Z) (c : scpu D) : scpu D := mkscpu (sc_apicid c) (sc_started c) (sc_ct c) l (sc_idtr c) (sc_apic c) (sc_entry c).
Definition sc_lidt (l : list Z) (c : scpu D) : scpu D := mkscpu (sc_apicid c) (sc_started c) (sc_ct c) (sc_gdtr c) l (sc_apic c) (sc_entry c).
Definition sc_on (d : D) (c : scpu D) : scpu D := mkscpu (sc_apicid c) (sc_started c) (sc_ct c) (sc_gdtr c) (sc_idtr c) d (sc_entry c).
Definition sc_enter (t : bcpu D) (c : scpu D) : scpu D := mkscpu (sc_apicid c) (sc_started c) (sc_ct c) (sc_gdtr c) (sc_idtr c) (sc_apic c) (Some t).

(** [lapic] is the global pointer; [mpenter_at], [pgdir], [kpgdir] and [idt]
    are the addresses of mpenter, entrypgdir, the kernel's page table and the
    interrupt table, [gdta i] that of cpus[i].gdt; [image] the bytes of
    entryother.S.  [decode] reads instructions, [reset] is a processor after
    INIT, and processor [i] takes its turn after [delay i] polls. *)
Context (decode : bool -> mem -> Z -> option (binstr * Z)) (reset : bcpu D) (delay : nat -> nat).
Context (lapic mpenter_at pgdir kpgdir idt : Z) (gdta : nat -> Z) (image : list Z).

(** ** A processor that is started *)

(** A routine on the local APIC of processor [i]. *)
Definition own_apic {A} (i : nat) (m : M D A) : M St A := fun s =>
  match sm_cpus s !! i with
  | Some c => zoom (fun _ => sc_apic c) (fun d s => set_cpus (<[i := sc_on d c]> (sm_cpus s)) s) m s
  | None => Fault
  end.
Definition boot_apic {A} (m : M D A) : M St A := zoom sm_dev set_dev m.

Fixpoint find_apic (a : Z) (l : list (scpu D)) (i : nat) : option nat :=
  match l with
  | [] => None
  | c :: l' => if sc_apicid c =? a then Some i else find_apic a l' (S i)
  end.

(** mycpu and cpuid on the processor whose flag is [fl] and whose lapicid()
    is [lid].  The flag of a started processor is as entryother.S has left it:
    nothing before scheduler changes it. *)
Definition mycpu (fl : M St bool) (lid : M St Z) : M St nat :=
  f ← fl;
  if f : bool then panic "mycpu called with interrupts enabled" else
  a ← lid;
  l ← gets sm_cpus;
  match find_apic a l 0 with
  | Some j => mret j
  | None => panic "unknown apicid"
  end.
Definition own_flag (i : nat) : M St bool := deref (fun s => c ← sm_cpus s !! i; t ← sc_entry c; Some (b_if t)).
Definition own_cpu (i : nat) : M St nat := mycpu (own_flag i) (own_apic i (lapicid lapic)).
Definition boot_cpu : M St nat := mycpu (gets sm_if) (boot_apic (lapicid lapic)).

(** vm.c's seginit *)
Definition seginit_on (i : nat) : M St unit :=
  j ← own_cpu i;
  upd_cpu j (sc_tables (fun t => mkct (seginit (c_gdt t)) (c_ts t) (c_tsa t) (c_tr t) (c_cr3 t))) ;;
  upd_cpu i (sc_lgdt (lgdt (gdta j) (8 * Z.of_nat NSEGS))).

(** mpmain, up to scheduler *)
Definition mpmain (i : nat) : M St unit :=
  j ← own_cpu i;
  k ← own_cpu i;
  zoom sm_con set_con (cprintf start_msg [AWord (Z.of_nat j); AWord (Z.of_nat k)]) ;;
  upd_cpu i (sc_lidt (idtinit idt)) ;;
  j ← own_cpu i;
  upd_cpu j (sc_start 1).

Definition mpenter (i : nat) : M St unit :=
  upd_cpu i (sc_tables (switchkvm kpgdir)) ;;
  seginit_on i ;;
  own_apic i (lapicinit lapic) ;;
  mpmain i.

(** A processor that runs from page [v] on executes the code there; it stops
    where it leaves the page, or at an instruction the machine lacks. *)
Definition page_decode (v : Z) (w : bool) (m : mem) (p : Z) : option (binstr * Z) :=
  if (4096 * v <=? p) && (p <? 4096 * v + 4096) then decode w m p else None.
Definition ap_reset (v : Z) (m : mem) (d : D) : bcpu D :=
  set_seg CS (real_cs (256 * v) (4096 * v)) (set_eip 0 (set_bmem m (set_bdev d reset))).

Fixpoint boot_run (v : Z) (fuel : nat) (t : bcpu D) : option (bcpu D) :=
  match fuel with
  | O => None
  | S f => match bstep (page_decode v) t with Some t' => boot_run v f t' | None => Some t end
  end.

(** Memory as a processor addresses it; the kernel's addresses start at
    KERNBASE. *)
Definition phys (m : mem) : mem := fun b => m (b + KERNBASE).
Definition virt (m : mem) : mem := fun b => m (b - KERNBASE).

(** The turn of processor [i]: nothing while it is halted or has already come
    to mpenter; otherwise it boots.  entryother.S makes no I/O. *)
Definition ap_turn (fuel : nat) (i : nat) : M St unit :=
  c ← deref (fun s => sm_cpus s !! i);
  d ← gets sm_dev;
  match ap_at d (sc_apicid c), sc_entry c with
  | ApRuns v, None =>
    m ← gets (fun s => k_mem (sm_k s));
    match boot_run v fuel (ap_reset v (phys m) d) with
    | None => nofuel
    | Some t =>
      mem_put (fun _ => virt (b_mem t)) ;;
      if b_eip t =? mpenter_at then upd_cpu i (sc_enter t) ;; mpenter i else mret tt
    end
  | _, _ => mret tt
  end.

(** ** startothers *)

(** [while(c->started == 0)] *)
Fixpoint wait_started (fuel : nat) (i turn : nat) (polls : nat) : M St unit :=
  match polls with
  | O => nofuel
  | S f =>
    c ← deref (fun s => sm_cpus s !! i);
    if negb (sc_started c =? 0) then mret tt else
    (if (turn =? 0)%nat then ap_turn fuel i else mret tt) ;;
    wait_started fuel i (pred turn) f
  end.

Definition start_cpu (fuel : nat) (i : nat) : M St unit :=
  stack ← zoom sm_k set_k kalloc;
  mem_put (fun m => st32 m (ap_code - 4) (stack + KSTACKSIZE)) ;;
  mem_put (fun m => st32 m (ap_code - 8) mpenter_at) ;;
  mem_put (fun m => st32 m (ap_code - 12) (V2P pgdir)) ;;
  c ← deref (fun s => sm_cpus s !! i);
  boot_apic (lapicstartap lapic (sc_apicid c) (V2P ap_code)) ;;
  wait_started fuel i (delay i) fuel.

Definition startothers (fuel : nat) : M St unit :=
  mem_put (fun m => poke m ap_code image) ;;
  n ← gets (fun s => length (sm_cpus s));
  forM 0 n (fun i =>
    me ← boot_cpu;
    if (i =? me)%nat then mret tt else start_cpu fuel i).

(** ** The controllers *)

Context {SO : SymbolsOk} {AL : ApicLaws D lapic}.

Lemma same_refl (d : D) : same_aps d d.
Proof using. by split. Qed.

Lemma same_trans (d1 d2 d3 : D) : same_aps d1 d2 -> same_aps d2 d3 -> same_aps d1 d3.
Proof using. intros [A1 A2 A3 A4] [B1 B2 B3 B4]. split; [by rewrite B1|by rewrite B2|intros i; by rewrite B3|by rewrite B4]. Qed.

(** lapicw is a store and a load. *)
Lemma lapicw_ok k v (d : D) : k <> ID -> exists d', lapicw lapic k v d = Ret tt d' /\ same_aps (d_store 4 (lapic + 4 * k) v d) d' /\ ap_id d' = ap_id d /\ a20 d' = a20 d.
Proof using AL.
  intros Hk. assert (Ha : lapic + 4 * k <> lapic + 4 * ID) by lia. destruct (al_store 4 (lapic + 4 * k) v d Ha) as [E1 E2].
  pose proof (al_load 4 (lapic + 4 * ID) (d_store 4 (lapic + 4 * k) v d)) as Hl. exists (d_load 4 (lapic + 4 * ID) (d_store 4 (lapic + 4 * k) v d)).2. split_and!; [|done|by rewrite (sp_id _ _ Hl)|by rewrite (sp_a20 _ _ Hl)].
  unfold lapicw, lapicr, mmstore, mmload, mbind, M_bind, modify. by destruct (d_load _ _ _).
Qed.

Lemma lapicid_ok (d : D) : lapic <> 0 -> exists d', lapicid lapic d = Ret (ap_id d) d' /\ same_aps d d'.
Proof using AL.
  intros Hl. exists (d_load 4 (lapic + 4 * ID) d).2. split; [|apply al_load]. unfold lapicid. rewrite (proj2 (Z.eqb_neq _ _)) by done. pose proof (al_id d) as E.
  unfold lapicr, mmload, mbind, M_bind. destruct (d_load _ _ _) as [v d']. cbn [fst] in E. subst v. cbn. f_equal. rewrite Z.shiftr_shiftl_l by lia. apply Z.shiftl_0_r.
Qed.

(** A command to processor [a]. *)
Lemma send_ok a v st st' (d : D) : ap_dest d = a -> ap_at d a = st -> icr v st = Some st' ->
  exists d', lapicw lapic ICRLO v d = Ret tt d' /\ ap_dest d' = a /\ ap_at d' a = st' /\ ap_id d' = ap_id d /\ a20 d' = a20 d.
Proof using AL.
  intros <- <- E. destruct (lapicw_ok ICRLO v d ltac:(done)) as (d' & R & Hs & E1 & E2). exists d'. destruct (al_icr v st' d E) as [F1 F2].
  split; [exact R|]. rewrite (sp_dest _ _ Hs), (sp_at _ _ Hs). done.
Qed.

Lemma aim_ok a (d : D) : 0 <= a < 256 ->
  exists d', lapicw lapic ICRHI (Z.shiftl a 24) d = Ret tt d' /\ ap_dest d' = a /\ (forall i, ap_at d' i = ap_at d i) /\ ap_id d' = ap_id d /\ a20 d' = a20 d.
Proof using AL.
  intros Ha. destruct (lapicw_ok ICRHI (Z.shiftl a 24) d ltac:(done)) as (d' & R & Hs & E1 & E2). exists d'. destruct (al_hi a d Ha) as [F1 F2].
  split; [exact R|]. rewrite (sp_dest _ _ Hs). split; [done|]. split; [intros i; by rewrite (sp_at _ _ Hs)|done].
Qed.

Lemma startup_page v : 0 <= v < 256 -> Z.lor STARTUP v = STARTUP + v.
Proof using.
  intros Hp. rewrite <- Z.lxor_lor, <- Z.add_nocarry_lxor; [done|..]; apply Z.bits_inj'; intros n Hn; rewrite Z.land_spec, Z.bits_0; destruct (Z.ltb_spec n 8).
  all: try (change STARTUP with (6 * 2 ^ 8); rewrite Z.mul_pow2_bits_low by lia; done).
  all: rewrite andb_comm, (Z.bits_above_log2 v n); [done|lia|]; destruct (decide (v = 0)) as [->|]; [cbn; lia|].
  all: apply Z.log2_lt_pow2; [lia|]; apply Z.lt_le_trans with 256; [lia|]; change 256 with (2 ^ 8); apply Z.pow_le_mono_r; lia.
Qed.

(** The processor with the id runs from the page after lapicstartap. *)
Lemma lapicstartap_ok a addr (d : D) : 0 <= a < 256 -> 0 <= Z.shiftr addr 12 < 256 ->
  exists d', lapicstartap lapic a addr d = Ret tt d' /\ ap_at d' a = ApRuns (Z.shiftr addr 12) /\ ap_id d' = ap_id d /\ a20 d' = a20 d.
Proof using AL.
  intros Ha Hp. set (v := Z.shiftr addr 12) in *. unfold lapicstartap. cbv zeta. fold v.
  set (d0 := d_store 2 (2147483648 + Z.lor (Z.shiftl 64 4) 103 + 2) (u16 (Z.shiftr addr 4)) (d_store 2 (2147483648 + Z.lor (Z.shiftl 64 4) 103) 0 (d_outb (CMOS_PORT + 1) (u8 10) (d_outb CMOS_PORT (u8 15) d)))).
  assert (H0 : same_aps d d0).
  { eapply same_trans; [apply (al_cmos CMOS_PORT (u8 15)); by left|]. eapply same_trans; [apply (al_cmos (CMOS_PORT + 1) (u8 10)); by right|]. eapply same_trans; apply al_word. }
  pose proof (startup_page v Hp) as Es.
  assert (Ei : forall st, icr (Z.lor STARTUP v) st = Some (match st with ApWaits => ApRuns v | _ => st end)).
  { intros st. rewrite Es. unfold icr. change (Z.lor (Z.lor INIT LEVEL) ASSERT) with 50432. change (Z.lor INIT LEVEL) with 34048. unfold STARTUP.
    rewrite !(proj2 (Z.eqb_neq _ _)) by lia. rewrite (proj2 (Z.leb_le _ _)), (proj2 (Z.ltb_lt _ _)) by lia. cbn [andb]. by replace (1536 + v - 1536) with v by lia. }
  do 4 (erewrite bind_ret by reflexivity). fold d0. clearbody d0.
  destruct (aim_ok a d0 Ha) as (d1 & R1 & A1 & B1 & C1 & E1). erewrite bind_ret by exact R1.
  destruct (send_ok a (Z.lor (Z.lor INIT LEVEL) ASSERT) _ ApWaits d1 A1 eq_refl eq_refl) as (d2 & R2 & A2 & B2 & C2 & E2). erewrite bind_ret by exact R2.
  destruct (send_ok a (Z.lor INIT LEVEL) _ _ d2 A2 B2 eq_refl) as (d3 & R3 & A3 & B3 & C3 & E3). erewrite bind_ret by exact R3. cbn [forM].
  destruct (aim_ok a d3 Ha) as (d4 & R4 & A4 & B4 & C4 & E4). rewrite <- (B4 a) in B3.
  destruct (send_ok a _ _ _ d4 A4 B3 (Ei _)) as (d5 & R5 & A5 & B5 & C5 & E5). erewrite bind_ret by (erewrite bind_ret by exact R4; exact R5).
  destruct (aim_ok a d5 Ha) as (d6 & R6 & A6 & B6 & C6 & E6). rewrite <- (B6 a) in B5.
  destruct (send_ok a _ _ _ d6 A6 B5 (Ei _)) as (d7 & R7 & A7 & B7 & C7 & E7). exists d7. erewrite bind_ret by (erewrite bind_ret by exact R6; exact R7).
  split; [reflexivity|]. split; [exact B7|]. rewrite C7, C6, C5, C4, C3, C2, C1, E7, E6, E5, E4, E3, E2, E1. destruct H0. done.
Qed.

(** lapicinit returns: the command it sends is delivered. *)
Lemma lapic_wait_ok n : forall d : D, (d_polls d < n)%nat -> exists d', lapic_wait lapic n d = Ret tt d' /\ ap_id d' = ap_id d.
Proof using AL.
  induction n as [|n IH]; intros d Hn; [lia|]. cbn [lapic_wait]. pose proof (al_poll d) as Hp. pose proof (al_load 4 (lapic + 4 * ICRLO) d) as Hs.
  unfold lapicr, mmload, mbind, M_bind. destruct (d_load _ _ _) as [v d1]. cbn in Hp, Hs |- *. destruct (Z.eqb_spec (Z.land v DELIVS) 0) as [E|E].
  - exists d1. split; [reflexivity|]. apply Hs.
  - destruct (IH d1) as (d' & R & E'); [destruct Hp; [done|lia]|]. exists d'. split; [exact R|]. by rewrite E', (sp_id _ _ Hs).
Qed.

Definition returns (m : M D unit) : Prop := forall d, exists d', m d = Ret tt d' /\ ap_id d' = ap_id d.

Lemma returns_w k v m : k <> ID -> returns m -> returns (lapicw lapic k v ;; m).
Proof using AL.
  intros Hk Hm d. destruct (lapicw_ok k v d Hk) as (d1 & R & _ & E & _). destruct (Hm d1) as (d2 & R2 & E2). exists d2. erewrite bind_ret by exact R. split; [exact R2|]. by rewrite E2.
Qed.

Lemma lapicinit_ok : lapic <> 0 -> returns (lapicinit lapic).
Proof using AL.
  intros Hl. unfold lapicinit. rewrite (proj2 (Z.eqb_neq _ _)) by done. do 6 (apply returns_w; [done|]).
  intros d. pose proof (al_load 4 (lapic + 4 * VER) d) as Hs. unfold lapicr at 1, mmload at 1. unfold mbind at 1, M_bind at 1. destruct (d_load _ _ _) as [v d1]. cbn [snd] in Hs. rewrite <- (sp_id _ _ Hs). clear Hs d. revert d1.
  assert (Ht : returns (lapicw lapic ERROR (T_IRQ0 + IRQ_ERROR) ;; lapicw lapic ESR 0 ;; lapicw lapic ESR 0 ;; lapicw lapic EOI 0 ;; lapicw lapic ICRHI 0 ;;
    lapicw lapic ICRLO (Z.lor (Z.lor BCAST INIT) LEVEL) ;; n ← gets d_polls; lapic_wait lapic (S n) ;; lapicw lapic TPR 0)).
  { do 6 (apply returns_w; [done|]). intros d. erewrite bind_ret by reflexivity. destruct (lapic_wait_ok (S (d_polls d)) d ltac:(lia)) as (d1 & R1 & E1).
    destruct (lapicw_ok TPR 0 d1 ltac:(done)) as (d2 & R2 & _ & E2 & _). exists d2. erewrite bind_ret by exact R1. split; [exact R2|]. by rewrite E2. }
  intros d. cbn [fst snd]. destruct (4 <=? Z.land (Z.shiftr v 16) 255); [apply (returns_w PCINT MASKED _ ltac:(done) Ht)|by erewrite bind_ret by reflexivity].
Qed.

(** ** The console *)

Definition prints (m : M cst unit) : Prop := forall s, screen_ok s -> exists s', m s = Ret tt s' /\ screen_ok s'.

Lemma prints_seq m m' : prints m -> prints m' -> prints (m ;; m').
Proof using. intros H H' s Hs. destruct (H s Hs) as (s1 & R & H1). destruct (H' s1 H1) as (s2 & R2 & H2). exists s2. by erewrite bind_ret by exact R. Qed.

Lemma prints_putc c : prints (consputc c).
Proof using. intros s Hs. destruct (consputc_ok c s Hs) as (s' & R & H & _). by exists s'. Qed.

Lemma prints_all l : prints (putall l).
Proof using. induction l as [|c l IH]; [intros s Hs; by exists s|]. cbn [putall]. apply prints_seq; [apply prints_putc|done]. Qed.

Lemma prints_char c fmt a : Z.land c 255 = c -> c <> 0 -> c <> 37 -> prints (cprintf fmt a) -> prints (cprintf (c :: fmt) a).
Proof using. intros E H0 H1 H. cbn [cprintf]. rewrite E, !(proj2 (Z.eqb_neq _ _)) by done. apply prints_seq; [apply prints_putc|done]. Qed.

Lemma prints_num w fmt a : prints (cprintf fmt a) -> prints (cprintf (37 :: 100 :: fmt) (AWord w :: a)).
Proof using.
  intros H. apply (prints_seq (Console.printint (i32 w) 10 true)); [|exact H]. intros s Hs. destruct (printint_ok kdigits 10 (i32 w) true) as (l & E & _); [split; [lia|by vm_compute]|apply i32_range|].
  unfold Console.printint. erewrite bind_ret by (unfold deref, kprintint; rewrite E; reflexivity). by apply prints_all.
Qed.

Lemma prints_start a b : prints (cprintf start_msg [AWord a; AWord b]).
Proof using.
  unfold start_msg. do 3 (apply prints_char; [done..|]). apply prints_num. do 11 (apply prints_char; [done..|]). apply prints_num. apply prints_char; [done..|]. intros s Hs. by exists s.
Qed.

(** ** mpenter *)

Lemma find_apic_ok l : forall i n (c : scpu D), NoDup (sc_apicid <$> l) -> l !! i = Some c -> find_apic (sc_apicid c) l n = Some (n + i)%nat.
Proof using.
  induction l as [|c' l IH]; intros i n c Hn Hi; [done|]. cbn in Hn |- *. apply NoDup_cons in Hn as [Hn1 Hn]. destruct i as [|i]; cbn in Hi.
  - injection Hi as ->. by rewrite Z.eqb_refl, Nat.add_0_r.
  - rewrite (proj2 (Z.eqb_neq _ _)); [rewrite (IH i (S n) c Hn Hi); f_equal; lia|]. intros E. apply Hn1. rewrite E. apply list_elem_of_fmap. exists c. split; [done|]. by eapply list_elem_of_lookup_2.
Qed.

(** The state with processor [i] changed. *)
Definition with_cpu (i : nat) (c : scpu D) (s : St) : St := set_cpus (<[i := c]> (sm_cpus s)) s.

Lemma with_cpu_self i c (s : St) : sm_cpus s !! i = Some c -> with_cpu i c s = s.
Proof using. intros H. destruct s as [k l d o f]. unfold with_cpu, set_cpus. cbn in *. by rewrite list_insert_id. Qed.

Section One.
Context (i : nat) (s : St) (Hi : (i < length (sm_cpus s))%nat).

Lemma own_ok {A} (m : M D A) c a d : m (sc_apic c) = Ret a d -> own_apic i m (with_cpu i c s) = Ret a (with_cpu i (sc_on d c) s).
Proof using Hi. intros E. unfold own_apic, with_cpu. cbn [sm_cpus set_cpus]. rewrite list_lookup_insert_eq by done. unfold zoom. rewrite E. unfold set_cpus. cbn. by rewrite list_insert_insert_eq. Qed.

Lemma upd_ok c f : upd_cpu i f (with_cpu i c s) = Ret tt (with_cpu i (f c) s).
Proof using Hi.
  unfold upd_cpu, with_cpu. erewrite bind_ret by (unfold deref; cbn [sm_cpus set_cpus]; rewrite list_lookup_insert_eq by done; reflexivity). unfold modify, set_cpus. cbn. by rewrite list_insert_insert_eq.
Qed.
End One.

(** A processor knows itself by its local APIC. *)
Record itself (i : nat) (c : scpu D) (s : St) : Prop := mkitself {
  it_in : (sc_apicid <$> sm_cpus s) !! i = Some (sc_apicid c);
  it_ids : NoDup (sc_apicid <$> sm_cpus s);
  it_own : ap_id (sc_apic c) = sc_apicid c;
  it_if : exists t, sc_entry c = Some t /\ b_if t = false }.

Lemma itself_len i c (s : St) : itself i c s -> (i < length (sm_cpus s))%nat.
Proof using. intros [H _ _ _]. apply lookup_lt_Some in H. by rewrite length_fmap in H. Qed.

Lemma with_cpu_ids i c (s : St) : (sc_apicid <$> sm_cpus s) !! i = Some (sc_apicid c) -> sc_apicid <$> sm_cpus (with_cpu i c s) = sc_apicid <$> sm_cpus s.
Proof using. intros H. unfold with_cpu. cbn [sm_cpus set_cpus]. rewrite list_fmap_insert. by apply list_insert_id. Qed.

Lemma own_cpu_ok i c (s : St) : lapic <> 0 -> itself i c s -> exists d, own_cpu i (with_cpu i c s) = Ret i (with_cpu i (sc_on d c) s) /\ itself i (sc_on d c) s.
Proof using AL.
  intros Hl Ht. pose proof (itself_len _ _ _ Ht) as Hi. destruct Ht as [H1 H2 H3 (t & H4 & H5)]. destruct (lapicid_ok (sc_apic c) Hl) as (d & R & Hs). exists d. split.
  - unfold own_cpu, mycpu. erewrite bind_ret by (unfold own_flag, deref, with_cpu; cbn [sm_cpus set_cpus]; rewrite list_lookup_insert_eq by done; cbn [mbind option_bind]; rewrite H4; cbn [mbind option_bind]; reflexivity). rewrite H5.
    erewrite bind_ret by (apply own_ok; [done|exact R]). erewrite bind_ret by reflexivity. rewrite H3. change (sc_apicid c) with (sc_apicid (sc_on d c)).
    rewrite (find_apic_ok _ i 0 (sc_on d c)); [reflexivity|by rewrite (with_cpu_ids i (sc_on d c))|]. cbn. by rewrite list_lookup_insert_eq.
  - split; [done|done| |by exists t]. cbn. by rewrite (sp_id _ _ Hs).
Qed.

(** What mpenter and mpmain make of processor [i]. *)
Definition came_up (i : nat) (d : D) (c : scpu D) : scpu D :=
  mkscpu (sc_apicid c) 1 (mkct (seginit (c_gdt (sc_ct c))) (c_ts (sc_ct c)) (c_tsa (sc_ct c)) (c_tr (sc_ct c)) (V2P kpgdir))
    (lgdt (gdta i) (8 * Z.of_nat NSEGS)) (idtinit idt) d (sc_entry c).

Lemma mpmain_ok i c (s : St) : lapic <> 0 -> itself i c s -> screen_ok (sm_con s) ->
  exists d o, mpmain i (with_cpu i c s) = Ret tt (set_con o (with_cpu i (sc_start 1 (sc_on d (sc_lidt (idtinit idt) c))) s)) /\ screen_ok o.
Proof using AL.
  intros Hl Ht Hs. unfold mpmain. destruct (own_cpu_ok i c s Hl Ht) as (d1 & R1 & H1). erewrite bind_ret by exact R1. destruct (own_cpu_ok i _ s Hl H1) as (d2 & R2 & H2). erewrite bind_ret by exact R2.
  destruct (prints_start (Z.of_nat i) (Z.of_nat i) (sm_con s) Hs) as (o & Ro & Ho). set (c2 := sc_on d2 (sc_on d1 c)) in *. assert (Hi : (i < length (sm_cpus (set_con o s)))%nat) by exact (itself_len i c s Ht).
  erewrite bind_ret by (unfold zoom; cbn [sm_con with_cpu set_cpus]; rewrite Ro; reflexivity). change (set_con o (with_cpu i c2 s)) with (with_cpu i c2 (set_con o s)).
  erewrite bind_ret by (apply upd_ok; exact Hi). assert (H3 : itself i (sc_lidt (idtinit idt) c2) (set_con o s)) by (destruct H2; by split).
  destruct (own_cpu_ok i _ _ Hl H3) as (d4 & R4 & H4). erewrite bind_ret by exact R4. rewrite upd_ok by exact Hi. by exists d4, o.
Qed.

Lemma mpenter_ok i c (s : St) : lapic <> 0 -> itself i c s -> screen_ok (sm_con s) ->
  exists d o, mpenter i (with_cpu i c s) = Ret tt (set_con o (with_cpu i (came_up i d c) s)) /\ screen_ok o.
Proof using AL.
  intros Hl Ht Hs. pose proof (itself_len _ _ _ Ht) as Hi. unfold mpenter, seginit_on. erewrite bind_ret by (apply upd_ok; exact Hi). assert (H1 : itself i (sc_tables (switchkvm kpgdir) c) s) by (destruct Ht; by split).
  destruct (own_cpu_ok i _ s Hl H1) as (d2 & R2 & H2). erewrite bind_ret by (erewrite bind_ret by exact R2; erewrite bind_ret by (apply upd_ok; exact Hi); apply upd_ok; exact Hi).
  set (c3 := sc_lgdt _ _). destruct (lapicinit_ok Hl (sc_apic c3)) as (d4 & R4 & E4). erewrite bind_ret by (apply own_ok; [exact Hi|exact R4]).
  assert (H4 : itself i (sc_on d4 c3) s) by (destruct H2 as [? ? E ?]; split; [done|done| |done]; cbn in *; by rewrite E4). destruct (mpmain_ok i _ s Hl H4 Hs) as (d & o & R & Ho). by exists d, o.
Qed.

(** ** The code at 0x7000 *)

Lemma boot_run_ok v t t' : bruns (page_decode v) t t' -> bstep (page_decode v) t' = None -> exists n, forall f, (n <= f)%nat -> boot_run v f t = Some t'.
Proof using.
  intros R Hn. induction R as [t|t t1 t' H R IH].
  - exists 1%nat. intros [|f] Hf; [lia|]. cbn [boot_run]. by rewrite Hn.
  - destruct (IH Hn) as [n Hb]. exists (S n). intros [|f] Hf; [lia|]. cbn [boot_run]. rewrite H. apply Hb. lia.
Qed.

Lemma lies_end w m a l b : lies decode w m a l b -> a <= b.
Proof using. revert a. induction l as [|x l IH]; intros a; cbn; [lia|]. intros (len & _ & Hl & H). apply IH in H. lia. Qed.

Lemma lies_page v w m a l b : lies decode w m a l b -> 4096 * v <= a -> b <= 4096 * v + 4096 -> lies (page_decode v) w m a l b.
Proof using.
  revert a. induction l as [|x l IH]; intros a H Ha Hb; [exact H|]. destruct H as (len & E & Hl & H). pose proof (lies_end _ _ _ _ _ H). exists len. split; [|split; [done|apply IH; [done|lia|done]]].
  unfold page_decode. rewrite (proj2 (Z.leb_le _ _)), (proj2 (Z.ltb_lt _ _)) by lia. exact E.
Qed.

Lemma other_page m gdt gd start32 ret : other_code decode m gdt gd start32 ret -> other_code (page_decode 7) m gdt gd start32 ret.
Proof using.
  intros (e1 & e2 & b & C1 & C2 & Hs & C3 & C4 & Hr & Ht). pose proof (lies_end _ _ _ _ _ C1). pose proof (lies_end _ _ _ _ _ C2). pose proof (lies_end _ _ _ _ _ C3). pose proof (lies_end _ _ _ _ _ C4).
  exists e1, e2, b. split_and!; try done; apply lies_page; done || lia.
Qed.

(** At an address outside the page the processor stops. *)
Lemma stops_at (t : bcpu D) : flat32 t -> double_map t -> KERNLINK <= b_eip t < KERNBASE + 4194304 -> bstep (page_decode 7) t = None.
Proof using.
  intros Hf Hd He. unfold bstep, fetch. unfold KERNLINK, EXTMEM, KERNBASE in He. rewrite (in_seg_map t CS false (b_eip t) 1 Hd); [|by rewrite (fl_cs _ Hf)..|lia|lia|lia|zdiv]. unfold KERNBASE.
  rewrite (proj2 (Z.ltb_ge _ 4194304)), (proj2 (Z.leb_le _ _)), (proj2 (Z.ltb_lt _ _)) by lia. cbn [andb mbind option_bind]. unfold page_decode. rewrite (proj2 (Z.ltb_ge _ (4096 * 7 + 4096))) by lia. by rewrite andb_false_r.
Qed.

(** ** The message below the code *)

(** What a processor is started with: its stack is the page [p]. *)
Record message (m : mem) (p : Z) : Prop := mkmessage {
  me_image : bytes_at m ap_code image;
  me_stack : ld32 m (ap_code - 4) = p + KSTACKSIZE;
  me_enter : ld32 m (ap_code - 8) = mpenter_at;
  me_pgdir : ld32 m (ap_code - 12) = V2P pgdir;
  me_map : forall i, 0 <= i < 1024 -> ld32 m (pgdir + 4 * i) = entrypgdir !!! Z.to_nat i }.

Record ready (m : mem) : Prop := mkready {
  re_image : bytes_at m ap_code image;
  re_map : forall i, 0 <= i < 1024 -> ld32 m (pgdir + 4 * i) = entrypgdir !!! Z.to_nat i }.

Lemma ready_ext m m' : (length image <= 4096)%nat -> (forall b, ap_code <= b < ap_code + 4096 \/ pgdir <= b < pgdir + 4096 -> m' b = m b) -> ready m -> ready m'.
Proof using.
  intros Hl Hk [R1 R2]. split.
  - intros k v Hv. rewrite Hk; [by apply R1|]. apply lookup_lt_Some in Hv. left. lia.
  - intros i Hi. rewrite <- R2 by done. apply ld32_ext. intros b Hb. apply Hk. right. lia.
Qed.

(** The memory in which a processor finds its message. *)
Definition msg_mem (m : mem) (p : Z) : mem := st32 (st32 (st32 m (ap_code - 4) (p + KSTACKSIZE)) (ap_code - 8) mpenter_at) (ap_code - 12) (V2P pgdir).

(** mpenter and entrypgdir are in the kernel, in the first 4 MB. *)
Record placed_ok : Prop := mkplaced {
  po_enter : KERNLINK <= mpenter_at < KERNBASE + 4194304;
  po_pgdir : pgdir mod 4096 = 0 /\ KERNLINK <= pgdir /\ pgdir + 4096 <= sym_end;
  po_image : (length image <= 4096)%nat /\ Forall byte_ok image }.
Context (PO : placed_ok).

Lemma page_high p : is_page p = true -> KERNBASE + 1048576 < p.
Proof using SO. unfold is_page. intros E. zbool. destruct sym_data_ok, sym_end_ok. unfold KERNLINK, EXTMEM in *. lia. Qed.

Lemma msg_out m p b : ~ (ap_code - 12 <= b < ap_code) -> msg_mem m p b = m b.
Proof using. intros Hb. unfold msg_mem. rewrite !st32_out by lia. done. Qed.

Lemma pgdir_high b : ap_code - 12 <= b < ap_code -> ~ (pgdir <= b).
Proof using PO. intros Hb. destruct PO as [_ (_ & P3 & _) _]. unfold KERNLINK, EXTMEM, KERNBASE in *. change ap_code with 2147512320 in Hb. lia. Qed.

Lemma msg_message m p : ready m -> 0 <= p -> p + KSTACKSIZE < 4294967296 -> message (msg_mem m p) p.
Proof using PO.
  intros [R1 R2] Hp0 Hp. pose proof (po_enter PO) as P1. clear SO AL decode reset. unfold KSTACKSIZE, KERNLINK, EXTMEM, KERNBASE in *. split.
  - intros k v Hv. rewrite msg_out by lia. by apply R1.
  - unfold msg_mem, KSTACKSIZE. rewrite !ld32_st32_other, ld32_st32 by lia. apply u32_small. lia.
  - unfold msg_mem. rewrite ld32_st32_other, ld32_st32 by lia. apply u32_small. lia.
  - unfold msg_mem. rewrite ld32_st32. apply u32_small. unfold V2P, u32. zdiv.
  - intros i Hi. rewrite <- R2 by done. apply ld32_ext. intros b Hb. apply msg_out. intros Hc. apply pgdir_high in Hc. lia.
Qed.

Lemma msg_free k p l : kmem_ok k l -> kmem_ok (set_mem (msg_mem (k_mem k) p) k) l.
Proof using SO.
  intros Hk. apply kmem_other; [done|unfold msg_mem; repeat apply mem_ok_st32; apply Hk|]. intros q b Hq Hb. apply msg_out. pose proof (km_pages _ _ Hk) as Hp. rewrite Forall_forall in Hp. destruct (Hp q Hq) as [Hpq _].
  apply page_high in Hpq. unfold KERNBASE in *. change ap_code with 2147512320. lia.
Qed.

(** ** One processor comes up *)

(** A processor at mpenter, on the stack page [p]. *)
Record booted (t : bcpu D) (p : Z) : Prop := mkbooted {
  bo_eip : b_eip t = mpenter_at;
  bo_esp : esp (b_r t) = p + KSTACKSIZE - 4;
  bo_flat : flat32 t;
  bo_map : double_map t }.

(** Processor [i] as mpmain leaves it, with [c0] before. *)
Record is_up (i : nat) (p : Z) (c0 c : scpu D) : Prop := mkis_up {
  up_started : sc_started c = 1;
  up_id : sc_apicid c = sc_apicid c0;
  up_cr3 : c_cr3 (sc_ct c) = V2P kpgdir;
  up_gdt : c_gdt (sc_ct c) = seginit (c_gdt (sc_ct c0));
  up_gdtr : sc_gdtr c = lgdt (gdta i) (8 * Z.of_nat NSEGS);
  up_idtr : sc_idtr c = idtinit idt;
  up_entry : exists t, sc_entry c = Some t /\ booted t p }.

Context (gdt gd start32 ret : Z) (Him : forall m, bytes_at m 28672 image -> other_code decode m gdt gd start32 ret).
Context (Hlapic : lapic <> 0) (Hsegs : at_reset (b_s reset)) (Hpe : pe reset = false) (Hpg : paging reset = false).

Lemma reset_at m d : starts_at (ap_reset 7 m d) 1792 28672 0.
Proof using Hsegs Hpe Hpg.
  split; [done| |done|exact Hpe|exact Hpg]. intros r. unfold ap_reset. cbn [b_s set_seg]. unfold with_seg. destruct (sreg_eqb CS r); [done|]. apply Hsegs.
Qed.

(** entryother.S, from STARTUP to mpenter. *)
Lemma other_boots m p d : message m p -> is_page p = true -> p + KSTACKSIZE <= KERNBASE + 4194304 -> a20 d = true ->
  exists n t, (forall f, (n <= f)%nat -> boot_run 7 f (ap_reset 7 (phys m) d) = Some t) /\ booted t p /\
    (forall b, b < p \/ p + KSTACKSIZE <= b -> virt (b_mem t) b = m b) /\ (mem_ok m -> mem_ok (virt (b_mem t))).
Proof using SO PO Him Hsegs Hpe Hpg.
  intros [M1 M2 M3 M4 M5] Hp Hp4 Ha. destruct PO as [P1 (P2 & P3 & P4) [P5 _]], sym_end_ok as [_ Hse]. assert (Hpp : sym_end <= p /\ p mod 4096 = 0) by (unfold is_page, PGSIZE in Hp; zbool; done).
  assert (L : forall a, ld32 (phys m) a = ld32 m (a + KERNBASE)) by (intros a; unfold ld32, phys; by rewrite <- !Z.add_assoc, !(Z.add_comm _ KERNBASE), !Z.add_assoc).
  change ap_code with (28672 + KERNBASE) in *. unfold KERNLINK, EXTMEM, KERNBASE, PHYSTOP, KSTACKSIZE in *. assert (Ev : V2P pgdir = pgdir - 2147483648) by (unfold V2P, KERNBASE; apply u32_small; lia). rewrite Ev in M4.
  destruct (run_other (page_decode 7) (ap_reset 7 (phys m) d) gdt gd start32 ret (p + 4096) (pgdir - 2147483648) (reset_at _ _)) as (t & R1 & R2 & R3 & R4 & R5 & R6); cbn [ap_reset b_mem set_seg set_eip set_bmem] in *.
  - exact Ha.
  - apply other_page, Him. intros k v Hv. unfold phys, KERNBASE. rewrite <- (M1 k v Hv). f_equal. lia.
  - rewrite L, <- M2. f_equal; unfold KERNBASE; lia.
  - rewrite L, <- M4. f_equal; unfold KERNBASE; lia.
  - split; [zdiv|]. split; [lia|]. split; [lia|]. intros i Hi. rewrite L, <- M5 by done. f_equal; unfold KERNBASE; lia.
  - zdiv.
  - unfold KERNBASE. lia.
  - right. unfold KERNBASE. lia.
  - rewrite L in R3. change (28664 + 2147483648) with (28672 + 2147483648 - 8) in R3. rewrite M3 in R3.
    destruct (boot_run_ok 7 _ t R1) as [n Hn]; [apply stops_at; [done|done|rewrite R3; unfold KERNLINK, EXTMEM, KERNBASE; lia]|]. exists n, t. split; [exact Hn|]. split; [split; [exact R3|rewrite R4; unfold KSTACKSIZE; lia|done|done]|]. split.
    + intros b Hb. unfold virt. rewrite R6, st32_out by (unfold KERNBASE; lia). unfold phys, KERNBASE. f_equal. lia.
    + intros Hm b. unfold virt. rewrite R6. apply mem_ok_st32. intros a. apply Hm.
Qed.

Definition waiting (c : scpu D) : Prop := sc_started c = 0 /\ sc_entry c = None /\ ap_id (sc_apic c) = sc_apicid c.

(** The turn of a processor that has been sent its message. *)
Lemma ap_turn_ok i c p (s : St) : sm_cpus s !! i = Some c -> NoDup (sc_apicid <$> sm_cpus s) -> waiting c -> ap_at (sm_dev s) (sc_apicid c) = ApRuns 7 -> a20 (sm_dev s) = true ->
  screen_ok (sm_con s) -> message (k_mem (sm_k s)) p -> is_page p = true -> p + KSTACKSIZE <= KERNBASE + 4194304 ->
  exists n m c' o, (forall f, (n <= f)%nat -> ap_turn f i s = Ret tt (mksmp (set_mem m (sm_k s)) (<[i := c']> (sm_cpus s)) (sm_dev s) o (sm_if s))) /\ is_up i p c c' /\ screen_ok o /\
    (forall b, b < p \/ p + KSTACKSIZE <= b -> m b = k_mem (sm_k s) b) /\ (mem_ok (k_mem (sm_k s)) -> mem_ok m).
Proof using All.
  intros Hc Hn (W1 & W2 & W3) Hat Ha Hs Hm Hp Hp4. destruct (other_boots _ p (sm_dev s) Hm Hp Hp4 Ha) as (n & t & Hb & Ht & Ho & Hk). set (s1 := set_k (set_mem (virt (b_mem t)) (sm_k s)) s).
  assert (Hi : (i < length (sm_cpus s1))%nat) by exact (lookup_lt_Some _ _ _ Hc). assert (H1 : itself i (sc_enter t c) s1) by (split; [cbn; rewrite list_lookup_fmap, Hc; done|done|done|exists t; split; [done|apply Ht]]).
  destruct (mpenter_ok i _ s1 Hlapic H1 Hs) as (d & o & R & Hso). exists n, (virt (b_mem t)), (came_up i d (sc_enter t c)), o. split.
  - intros f Hf. unfold ap_turn. erewrite bind_ret by (unfold deref; rewrite Hc; reflexivity). erewrite bind_ret by reflexivity. rewrite Hat, W2. erewrite bind_ret by reflexivity. rewrite Hb by done.
    erewrite bind_ret by reflexivity. rewrite (bo_eip _ _ Ht), Z.eqb_refl. fold s1. rewrite <- (with_cpu_self i c s1 Hc). erewrite bind_ret by (apply upd_ok; exact Hi). exact R.
  - split; [|done]. split; try done. by exists t.
Qed.

(** The loop ends when the processor has had its turn. *)
Lemma wait_ends i f c s s' c' : sm_cpus s !! i = Some c -> sc_started c = 0 -> ap_turn f i s = Ret tt s' -> sm_cpus s' !! i = Some c' -> sc_started c' = 1 ->
  forall turn polls, (turn + 2 <= polls)%nat -> wait_started f i turn polls s = Ret tt s'.
Proof using.
  intros Hc Hs R Hc' Hs' turn. induction turn as [|turn IH]; intros polls Hp; (destruct polls as [|polls]; [lia|]); cbn [wait_started]; erewrite bind_ret by (unfold deref; rewrite Hc; reflexivity); rewrite Hs; cbn [Z.eqb negb Nat.eqb pred].
  - erewrite bind_ret by exact R. destruct polls as [|polls]; [lia|]. cbn [wait_started]. erewrite bind_ret by (unfold deref; rewrite Hc'; reflexivity). by rewrite Hs'.
  - erewrite bind_ret by reflexivity. apply IH. lia.
Qed.

(** What holds between two rounds of startothers' loop; [me] is the boot
    processor. *)
Record steady (me : nat) (s : St) : Prop := mksteady {
  sd_ready : ready (k_mem (sm_k s));
  sd_ids : NoDup (sc_apicid <$> sm_cpus s) /\ Forall (fun a => 0 <= a < 256) (sc_apicid <$> sm_cpus s);
  sd_screen : screen_ok (sm_con s);
  sd_if : sm_if s = false;
  sd_a20 : a20 (sm_dev s) = true;
  sd_me : (sc_apicid <$> sm_cpus s) !! me = Some (ap_id (sm_dev s)) }.

(** Bytes that starting a processor on page [p] leaves alone. *)
Definition untouched (p b : Z) : Prop := ~ (ap_code - 12 <= b < ap_code) /\ ~ (p <= b < p + KSTACKSIZE).

Lemma steady_after me i p c c' (s s' : St) : steady me s -> is_page p = true -> sm_cpus s !! i = Some c -> sc_apicid c' = sc_apicid c -> sm_cpus s' = <[i := c']> (sm_cpus s) -> screen_ok (sm_con s') -> sm_if s' = sm_if s ->
  a20 (sm_dev s') = a20 (sm_dev s) -> ap_id (sm_dev s') = ap_id (sm_dev s) -> (forall b, untouched p b -> k_mem (sm_k s') b = k_mem (sm_k s) b) -> steady me s'.
Proof using SO PO.
  intros [S1 [S2 S2'] S3 S3' S4 S5] Hp Hc Ec Es Hs Ef Ea Ei Hm. assert (E : sc_apicid <$> sm_cpus s' = sc_apicid <$> sm_cpus s) by (rewrite Es; apply (with_cpu_ids i c' s); by rewrite list_lookup_fmap, Hc, Ec).
  split; rewrite ?E, ?Ef, ?Ea, ?Ei; try done. destruct PO as [_ (_ & P3 & P4) [P5 _]]. eapply ready_ext; [exact P5| |exact S1]. intros b Hb. apply Hm. pose proof (page_high p Hp). assert (sym_end <= p) by (unfold is_page in Hp; zbool; done).
  unfold untouched. unfold KERNLINK, EXTMEM, KERNBASE in *. change ap_code with 2147512320 in *. lia.
Qed.

Lemma start_cpu_ok i s p l c : sm_cpus s !! i = Some c -> waiting c -> kmem_ok (sm_k s) (p :: l) -> (exists me, steady me s) -> p + KSTACKSIZE <= KERNBASE + 4194304 ->
  exists n s' c', (forall f, (n <= f)%nat -> start_cpu f i s = Ret tt s') /\ kmem_ok (sm_k s') l /\ sm_cpus s' = <[i := c']> (sm_cpus s) /\ is_up i p c c' /\ screen_ok (sm_con s') /\ sm_if s' = sm_if s /\
    a20 (sm_dev s') = a20 (sm_dev s) /\ ap_id (sm_dev s') = ap_id (sm_dev s) /\ forall b, untouched p b -> k_mem (sm_k s') b = k_mem (sm_k s) b.
Proof using All.
  intros Hc Hw Hk (me & [S1 [S2 S2'] S3 S3' S4 S5]) Hp. destruct (kalloc_cons _ _ _ Hk) as [Ra Hk']. set (k1 := set_freelist _ _) in *. pose proof (km_pages _ _ Hk) as Hpp. apply Forall_cons in Hpp as [[Hpage Hpr] Hpl]. pose proof (km_nodup _ _ Hk) as Hnd. apply NoDup_cons in Hnd as [Hnd _].
  assert (Hid : 0 <= sc_apicid c < 256) by (rewrite Forall_forall in S2'; apply S2'; apply list_elem_of_fmap; exists c; split; [done|by eapply list_elem_of_lookup_2]).
  set (m := msg_mem (k_mem (sm_k s)) p). assert (Hm : message m p) by (apply msg_message; [done|lia|unfold KERNBASE in Hp; lia]). pose proof (msg_free k1 p l Hk') as Hk1.
  destruct (lapicstartap_ok (sc_apicid c) (V2P ap_code) (sm_dev s) Hid ltac:(by vm_compute)) as (d & Rd & Hat & Ei & Ea). set (s1 := mksmp (set_mem m k1) (sm_cpus s) d (sm_con s) (sm_if s)).
  destruct (ap_turn_ok i c p s1 Hc S2 Hw Hat ltac:(cbn; by rewrite Ea) S3 Hm Hpage Hp) as (n & m' & c' & o & R & Hup & Ho & Hm' & Hb). cbn [s1 sm_k sm_cpus sm_dev k_mem set_mem] in Hm', Hb.
  exists (Nat.max n (delay i + 2)), (mksmp (set_mem m' (sm_k s1)) (<[i := c']> (sm_cpus s1)) (sm_dev s1) o (sm_if s1)), c'. split.
  { intros f Hf. unfold start_cpu. erewrite bind_ret by (unfold zoom; rewrite Ra; reflexivity). do 3 (erewrite bind_ret by reflexivity). erewrite bind_ret by (unfold deref; cbn [sm_cpus set_k]; rewrite Hc; reflexivity).
    erewrite bind_ret by (unfold boot_apic, zoom; cbn [sm_dev set_k]; rewrite Rd; reflexivity).
    eapply (wait_ends i f c s1 _ c' Hc); [apply Hw|apply R; lia|cbn; by rewrite list_lookup_insert_eq by (by eapply lookup_lt_Some)|apply Hup|lia]. }
  split.
  { apply (kmem_other (set_mem m k1)); [exact Hk1|apply Hb, Hk1|]. intros q b Hq Hqb. apply Hm'. rewrite Forall_forall in Hpl. destruct (Hpl q Hq) as [Hqp _]. apply page_aligned in Hqp, Hpage. assert (q <> p) by congruence. unfold KSTACKSIZE. zdiv. }
  split; [reflexivity|]. split; [done|]. split; [done|]. split; [done|]. split; [exact Ea|]. split; [exact Ei|]. intros b [Hb1 Hb2]. cbn. rewrite Hm' by lia. by apply msg_out.
Qed.

(** ** All processors *)

(** The processors to start, from index [i] on. *)
Definition rest (me i k : nat) : list nat := filter (fun j => j <> me) (seq i k).

Lemma boot_cpu_ok me s : steady me s -> exists s', boot_cpu s = Ret me s' /\ steady me s' /\ sm_k s' = sm_k s /\ sm_cpus s' = sm_cpus s.
Proof using AL Hlapic.
  intros [S1 [S2 S2'] S3 S3' S4 S5]. destruct (lapicid_ok (sm_dev s) Hlapic) as (d & R & [E1 E2 _ _]). exists (set_dev d s). split; [|by split; [split; cbn; rewrite ?E1, ?E2|]].
  unfold boot_cpu, mycpu. erewrite bind_ret by reflexivity. rewrite S3'. erewrite bind_ret by (unfold boot_apic, zoom; rewrite R; reflexivity). erewrite bind_ret by reflexivity. rewrite list_lookup_fmap in S5. destruct (sm_cpus s !! me) as [c|] eqn:Ec; [|done]. injection S5 as <-. cbn [set_dev sm_cpus]. by rewrite (find_apic_ok _ me 0 c).
Qed.

(** Bytes that starting processors on the pages [ps] leaves alone. *)
Definition untouched_by (ps : list Z) (b : Z) : Prop := ~ (ap_code - 12 <= b < ap_code) /\ forall p, p ∈ ps -> ~ (p <= b < p + KSTACKSIZE).

(** Processors [js] are up on the pages [ps]; [s] is the state before. *)
Definition all_up (s s' : St) (js : list nat) (ps : list Z) : Prop :=
  Forall2 (fun j p => exists c0 c, sm_cpus s !! j = Some c0 /\ sm_cpus s' !! j = Some c /\ is_up j p c0 c) js ps.

Definition round (fuel : nat) (i : nat) : M St unit := me ← boot_cpu; if (i =? me)%nat then mret tt else start_cpu fuel i.

Lemma rest_from me i k j : j ∈ rest me i k -> (i <= j)%nat.
Proof using. intros [_ H]%list_elem_of_filter. apply elem_of_seq in H. lia. Qed.

Lemma Forall2_in_l {A B} (P Q : A -> B -> Prop) l l' : Forall2 P l l' -> (forall x y, x ∈ l -> P x y -> Q x y) -> Forall2 Q l l'.
Proof using. induction 1 as [|x y l l' H HF IH]; intros HQ; constructor; [apply HQ; [by left|done]|]. apply IH. intros x' y' Hx. apply HQ. by right. Qed.

Lemma others_up me k : forall i s l, (i + k)%nat = length (sm_cpus s) -> kmem_ok (sm_k s) l -> steady me s -> Forall (fun p => p + KSTACKSIZE <= KERNBASE + 4194304) l ->
  let js := rest me i k in (length js <= length l)%nat -> (forall j c, j ∈ js -> sm_cpus s !! j = Some c -> waiting c) ->
  exists n s', (forall f, (n <= f)%nat -> forM i k (round f) s = Ret tt s') /\ kmem_ok (sm_k s') (drop (length js) l) /\ all_up s s' js (take (length js) l) /\
    (forall j, j ∉ js -> sm_cpus s' !! j = sm_cpus s !! j) /\ forall b, untouched_by (take (length js) l) b -> k_mem (sm_k s') b = k_mem (sm_k s) b.
Proof using All.
  induction k as [|k IH]; intros i s l Hlen Hk Hsd Hp js Hl Hw.
  { exists 0%nat, s. split; [done|]. split; [done|]. split; [constructor|]. by split. }
  destruct (boot_cpu_ok me s Hsd) as (s0 & R0 & Hsd0 & Ek0 & Ec0). rewrite <- Ek0 in Hk |- *. unfold all_up. rewrite <- Ec0 in Hlen, Hw |- *. clear Hsd Ek0 Ec0.
  subst js. unfold rest in *. cbn [seq] in *. rewrite filter_cons in *. destruct (Nat.eqb_spec i me) as [Ei|Ei].
  { rewrite decide_False in * by tauto. destruct (IH (S i) s0 l ltac:(lia) Hk Hsd0 Hp Hl Hw) as (n & s' & R & Hr). exists n, s'. split; [|exact Hr]. intros f Hf. cbn [forM]. erewrite bind_ret; [exact (R f Hf)|]. unfold round. erewrite bind_ret by exact R0. subst i. by rewrite Nat.eqb_refl. }
  rewrite decide_True in * by done. destruct l as [|p l]; [cbn in Hl; lia|]. apply Forall_cons in Hp as [Hp1 Hp]. destruct (lookup_lt_is_Some_2 (sm_cpus s0) i ltac:(lia)) as [c Hc].
  destruct (start_cpu_ok i s0 p l c Hc (Hw i c ltac:(by left) Hc) Hk (ex_intro _ me Hsd0) Hp1) as (n1 & s1 & c1 & R1 & Hk1 & Ec1 & Hu1 & Ho1 & Ef1 & Ea1 & Ei1 & Hm1).
  pose proof (km_pages _ _ Hk) as Hpp. apply Forall_cons in Hpp as [[Hpage _] _]. pose proof (steady_after me i p c c1 s0 s1 Hsd0 Hpage Hc (up_id _ _ _ _ Hu1) Ec1 Ho1 Ef1 Ea1 Ei1 Hm1) as Hsd1.
  assert (Hne : forall j, j ∈ rest me (S i) k -> i <> j) by (intros j Hj%rest_from; lia).
  assert (Ho : forall j, i <> j -> sm_cpus s1 !! j = sm_cpus s0 !! j) by (intros j Hj; rewrite Ec1; by apply list_lookup_insert_ne).
  destruct (IH (S i) s1 l) as (n2 & s2 & R2 & Hk2 & F2 & Ho2 & Hm2); [rewrite Ec1, length_insert; lia|done|done|done|cbn in Hl; unfold rest; lia|intros j cj Hj Hcj; rewrite Ho in Hcj by auto; apply (Hw j); [by right|done]|].
  exists (Nat.max n1 n2), s2. split; [|split; [exact Hk2|split; [|split]]]; cbn [length drop take].
  - intros f Hf. cbn [forM]. erewrite bind_ret; [apply R2; lia|]. unfold round. erewrite bind_ret by exact R0. rewrite (proj2 (Nat.eqb_neq _ _)) by done. apply R1. lia.
  - constructor; [exists c, c1; split; [done|]; split; [|done]; rewrite Ho2, Ec1; [by apply list_lookup_insert_eq; eapply lookup_lt_Some|]; intros Hj%rest_from; lia|].
    eapply Forall2_in_l; [exact F2|]. intros j q Hj (cj & cj' & E & Hr). exists cj, cj'. by rewrite <- Ho by auto.
  - intros j [Hj Hj']%not_elem_of_cons. rewrite Ho2, Ho by done. done.
  - intros b [Hb1 Hb2]. rewrite Hm2, Hm1; [done|split; [done|apply Hb2; by left]|split; [done|]]. intros q Hq. apply Hb2. by right.
Qed.
End Smp.

(** ** Properties *)

Section Properties.
Context {D : Type} {DD : Device D} {DA : A20 D} {AP : Apics D} {SY : Symbols} {SO : SymbolsOk}.
Context (decode : bool -> mem -> Z -> option (binstr * Z)).

End Properties.

(** ** The property on a small machine *)

(** Interrupt controllers at 0xfee00000. *)
Record toy_apic : Type := mktapic { ta_id : Z; ta_dest : Z; ta_at : Z -> apst }.
Definition toy_lapic : Z := 4276092928.

#[export] Instance toy_apic_device : Device toy_apic := {|
  d_inb p d := (0, d);
  d_outb p v d := d;
  d_insl p n d := ([], d);
  d_outsl p l d := d;
  d_load w a d := ((if a =? toy_lapic + 4 * ID then Z.shiftl (ta_id d) 24 else 0), d);
  d_store w a v d :=
    if negb (w =? 4)%nat then d
    else if a =? toy_lapic + 4 * ICRHI then mktapic (ta_id d) (Z.shiftr v 24) (ta_at d)
    else if a =? toy_lapic + 4 * ICRLO then
      match icr v (ta_at d (ta_dest d)) with
      | Some st => mktapic (ta_id d) (ta_dest d) (fun i => if i =? ta_dest d then st else ta_at d i)
      | None => d
      end
    else d;
  d_polls _ := 0%nat |}.
#[export] Instance toy_apic_a20 : A20 toy_apic := fun _ => true.
#[export] Instance toy_apics : Apics toy_apic := {| ap_id := ta_id; ap_at := ta_at; ap_dest := ta_dest |}.

Lemma toy_apic_laws : ApicLaws toy_apic toy_lapic.
Proof.
  split; cbn [d_load d_store d_outb d_polls toy_apic_device ap_id ap_at ap_dest toy_apics fst snd Nat.eqb negb].
  - intros d. by rewrite Z.eqb_refl.
  - done.
  - done.
  - done.
  - intros w a v d _. destruct (negb _); [done|]. destruct (a =? _); [done|]. destruct (a =? _); [|done]. by destruct (icr _ _).
  - intros v d Hv. rewrite Z.eqb_refl. cbn. rewrite Z.shiftr_shiftl_l by lia. split; [apply Z.shiftl_0_r|done].
  - intros v st d E. change (toy_lapic + 4 * ICRLO =? toy_lapic + 4 * ICRHI) with false. rewrite Z.eqb_refl, E. cbn. by rewrite Z.eqb_refl.
  - intros d. by left.
Qed.

(** entryother.S with its table at 28700; the kernel ends at 0x110000. *)
Definition toy_other : list binstr := boot_segs ++ to_protected 28724 28682 ++ flat_segs ++ other_c 28672.
Definition toy_other_image : list Z := toy_image 27 [0] 28700.
Definition toy_symbols : Symbols := {| sym_end := 2148597760; sym_data := 2148564992 |}.
Lemma toy_symbols_ok : @SymbolsOk toy_symbols.
Proof. split; by vm_compute. Qed.

(** One free page at KERNBASE + 2 MB; entrypgdir at KERNBASE + 0x109000; two
    processors, of which the second is halted. *)
Definition toy_high : mem := fun b => words_mem toy_pgdir (b - KERNBASE).
Definition toy_reset : bcpu toy_apic :=
  mkb (mkr 0 0 0 0 0 0 0 0) (fun _ => mkds 0 0 65535 false) 0 false false 16 0 0 (0, 65535) (fun _ => 0) (mktapic 1 0 (fun _ => ApHalted)).
Definition toy_cpu (a : Z) : scpu toy_apic :=
  mkscpu a 0 (mkct (replicate 6 (SEG 0 0 0 0)) (mkts 0 0 0) 0 0 0) [] [] (mktapic a 0 (fun _ => ApHalted)) None.
Definition toy_screen : cst := mkcst [] 0 0 0 (replicate 2000 0) 0 true [] false (mkpst [] 1 None None).
Definition toy_smp : smp toy_apic := mksmp (mkkst toy_high 2149580800 false) [toy_cpu 0; toy_cpu 1] (mktapic 0 0 (fun _ => ApHalted)) toy_screen false.

Lemma toy_other_code m : bytes_at m 28672 toy_other_image -> other_code (toy_decode toy_other) m 28700 28724 28682 28699.
Proof.
  intros Hb. pose proof (fun w pre l post => toy_part toy_other w m 28672 [0] 28700 pre l post Hb) as L. exists 5, 10, 28689.
  split; [exact (L false [] boot_segs _ eq_refl)|]. split; [exact (L false boot_segs (to_protected 28724 28682) _ eq_refl)|]. split; [lia|].
  split; [exact (L true (boot_segs ++ to_protected 28724 28682) flat_segs _ eq_refl)|]. split; [exact (L true (boot_segs ++ to_protected 28724 28682 ++ flat_segs) (other_c 28672) [] eq_refl)|]. split; [lia|].
  apply (toy_table m 28672 27 [0] Hb); by vm_compute.
Qed.

Lemma toy_free : @kmem_ok toy_symbols (sm_k toy_smp) [2149580800].
Proof. split; [by vm_compute|repeat constructor; by vm_compute|apply NoDup_singleton|]. intros b. cbn. unfold byte_ok, toy_high, words_mem. zdiv. Qed.

Lemma toy_high_word i : 0 <= i < 1024 -> ld32 toy_high (2148569088 + 4 * i) = entrypgdir !!! Z.to_nat i.
Proof.
  intros Hi. rewrite <- toy_pgdir_word by done. unfold ld32, toy_high, KERNBASE. f_equal; [f_equal; [f_equal|]|]; [..|f_equal|f_equal|f_equal]; f_equal; lia.
Qed.

